(* ===== verification/_CoqProject ===== *)
-Q . S2P
Prelude.v
GoStrings.v
GoRegexp.v
GoPath.v
GoBase64.v
GoHashes.v
GoUrl.v
GoTime.v
GoFS.v
GoHeap.v
SemVer.v
AnsibleCollection.v
Breaker.v
Batch.v
BatchExec.v
Cache.v
Cas.v
HostedAnsible.v
CacheKeys.v
RateLimit.v
FailureQueue.v
ApiKeys.v
Jwt.v
PathValidator.v
ProxyPolicy.v
Plugins.v
WorkerPool.v
MavenPaths.v
Normalizer.v
PackageDrivers.v
MavenDriver.v
NpmDriver.v
PypiDriver.v
ApkDriver.v
YumDriver.v
RegistryDriver.v
AptDriver.v
DriverContracts.v
FileRepository.v
ProxyBase.v
ProxyServices.v
ProxyNpm.v
ProxyDocker.v
ProxyMaven.v
ProxyContracts.v
GoNet.v
GoText.v
Mfa.v
Fiber.v
HttpAuth.v
HttpLimits.v
DomainErrors.v
HttpErrors.v
Alerts.v
Webhook.v
GoWorld.v
DockerModels.v
DockerRegistry.v
DockerCache.v
DockerService.v
Verifier.v
License.v
WebhookDelivery.v
WebhookBatch.v
WebhookHistory.v
GoConv.v
GoGlob.v
OAuth2Config.v
RootConfig.v
ConfigReflect.v
GoUrlParse.v
SchemaValidator.v
Health.v
AutoRecovery.v
GoTimeParse.v
CacheTTL.v
AlpineMirrors.v
AuditLog.v
Backup.v
ProxyUsecase.v
