(* ===== verification/Prelude.v ===== *)
(** * A verification development for proxynd

    proxynd is a caching proxy for package registries (apt, maven, npm, pip, docker,
    apk, yum), written in Go: the HTTP server, its middleware and handlers, a cache
    on disk, webhooks, batch scripts, authentication.  The development models the
    parts that carry its own logic and proves what makes them correct.  This file is
    the root: the document below, then the definitions and lemmas all files share
    (Go's error results, 64-bit integers, instants and durations, lawful
    comparisons).

    ** Files: what the program builds on

    Of the Go standard library, what the sources use, and what they rely on:
    - [GoStrings], [GoText]: [strings], [strconv] and [fmt], byte by byte; [GoRegexp]: a
      matcher for the regular expressions used; [GoPath]: [path/filepath] on Unix;
      [GoUrl]: query escaping; [GoBase64]: [encoding/base64]; [GoHashes]: the
      digests; [GoNet]: addresses and networks; [GoTime]: civil dates as [Format] prints
      them; [GoHeap]: [container/heap] (also [metadataHeap] of [src/cache/eviction.go]);
    - [GoFS]: the file system and JSON as classes with their laws, and [MemFS], an
      implementation in memory with a schedule of faults, on which witnesses run;
      [GoWorld]: the clock and the network added to it, and the monad of code that reads
      them in the middle of its operations;
    - [GoConv]: [float64], durations, switches and the environment; [GoGlob]: [filepath.Match]; [GoUrlParse]: [url.Parse]; [GoTimeParse]:
      [time.Parse];
    - [Fiber]: the context of the web framework as the middleware uses it.

    ** Files: the program

    One file per component; operations keep the Go names.

    Storage.
    - [Cache] ([src/cache]): keys are files under a base directory, with a metadata file
      next to each; [Put] is atomic under faults of the disk, [Get] gives back what was
      put, keys do not disturb each other, eviction takes the least recently used items.
    - [Cas] ([src/internal/adapters/storage/cas]): content-addressed blobs; a refinement
      of a finite map from digests to contents ([refinement]).
    - [FileRepository] ([src/internal/repositories/cache]): the repository below the proxy
      services, with its metadata file.
    - [CacheKeys]: cache keys built and parsed back, caching strategies.
    - [ProxyUsecase] ([src/internal/usecase/proxy_service.go]): the proxy request over them:
      who gets content, what later requests get of what was stored, what is counted.
    - [Backup] ([src/internal/backup]): incremental backups, which are complete, their
      restoration, which restores nothing, and mirrors of trees.

    Proxy.
    - [ProxyBase], [ProxyServices], [ProxyNpm], [ProxyDocker], [ProxyMaven]
      ([src/internal/services/proxy]): the seven services; [ProxyContracts] puts them
      behind one type and follows where an answer comes from: cached answers are those of
      upstreams to requests with the same key.
    - [Normalizer], [PackageDrivers] and a file per driver ([MavenDriver], [NpmDriver],
      [PypiDriver], [ApkDriver], [YumDriver], [RegistryDriver], [AptDriver];
      [src/internal/adapters/pm]): paths, URLs, signatures, credentials, errors;
      [DriverContracts] proves once what holds of every driver.
    - [MavenPaths] ([src/internal/services/maven/path_analyzer.go]).
    - [DockerModels], [DockerRegistry], [DockerCache], [DockerService]
      ([src/internal/services/docker]): the registry service over its registries, token
      cache and cache directory; what it serves as a blob has the digest asked for.
    - [AnsibleCollection], [HostedAnsible], [SemVer]: the hosted Ansible repository: names,
      manifests, tarballs, versions with their order; published versions stay available.
    - [Plugins], [WorkerPool] ([src/internal/plugins], [src/internal/goroutine]): the
      registry with its mutex and its search for dependency cycles; the pool as a step
      relation, its shutdown and what makes it panic.
    - [AlpineMirrors] ([src/internal/mirror]): the health of mirrors, their scores and the
      order in which they are asked.
    - [Verifier] ([src/internal/verification]): checksums, signatures and policies of
      packages, and the middleware that never runs them.

    HTTP.
    - [ProxyPolicy], [PathValidator]: what the policy middleware lets through.
    - [HttpAuth]: the factory, basic and token authentication, permissions, MFA checks.
    - [HttpLimits]: rate limiting, the IP filter, methods and input checks.
    - [HttpErrors], [DomainErrors]: error types, their mapping to answers, recovery.

    Accounts.
    - [ApiKeys], [Jwt], [Mfa] ([src/internal/auth]): keys with their quota and limits,
      tokens with the signing library as the class [JwtLib], second factors.
    - [AuditLog] ([src/internal/auth/audit]): the builder of events; the log
      with its buffer and its rotation as steps: events keep their order, a failed rotation
      ends the log.
    - [License] ([src/internal/enterprise], [src/internal/app/enterprise.go]).

    Events.
    - [Alerts] ([src/internal/alerts]): the manager, its history and rate limiter.
    - [Webhook]: event filter, message formats, sending; [RateLimit], [FailureQueue]: the
      limiters and the queues in memory and on disk, dead letters; [WebhookDelivery]: the
      workers and the retry manager; [WebhookBatch]: grouping of events as a step
      relation that conserves events; [WebhookHistory]: pages, statistics, cleaning.
    - [Breaker] ([src/internal/health/circuit_breaker.go]): the record [CircuitBreaker] is
      the breaker, its critical sections are functions, and [sys_step] interleaves the
      calls of goroutines.
    - [Health], [AutoRecovery] ([src/internal/health]): the checkers and the overall status;
      the recovery of components, whose triggers live in a store shared by the monitor and
      the goroutines, with the bound of the attempts ([attempts_bounded]).

    Configuration ([src/internal/config]).
    - [RootConfig]: the structures, validation, defaults, loading; what is loaded is valid
      ([loaded_valid]).
    - [ConfigReflect]: the structures as reflection sees them, with their tags, and what
      goes through them: the flat map, the default tags, the overrides by path.
    - [SchemaValidator]: the rules by field over the flat map, sizes, migrations.
    - [OAuth2Config]: providers, the roles of users.
    - [CacheTTL] ([global_config.go]): lifetimes by type, pattern and header, and what is
      done with an entry of some age.

    Scripts.
    - [Batch], [BatchExec] ([src/internal/batch]): the parser equals a grammar
      ([Parse_grammar]) and inverts the printer; the executor runs whitelisted commands
      only; [job_step] is the life of a background job.

    ** How the components interact

    [HostedAnsible] runs over [Cas] and [AnsibleCollection]; [ProxyPolicy] calls
    [ApiKeys], [Jwt] and [PathValidator]; the proxy services call the cache through the
    class [ProxyBase] states, which [ProxyContracts] discharges with [FileRepository];
    [DockerService] composes the registry, token and cache managers over one world;
    [WebhookDelivery] and [WebhookBatch] call the formats and the sender of [Webhook] and
    the queues of [RateLimit] and [FailureQueue]; [HttpErrors] maps the errors of
    [DomainErrors].

    ** Conventions

    A struct is a record, a Go map a [gmap], [(value, error)] the type [result] with
    [let?] for the early return; a panic is an error of its own or [None].  Each
    [time.Now()] is an argument, one per reading, or an operation of the world, so that
    theorems hold whatever the clock does between two readings; so are random bytes, and
    the order in which a map is iterated where the result can depend on it.  A critical
    section under a lock is one step.  Integers are [Z]; where 64-bit overflow can be
    reached the wrap-around is written out ([wrap64]).  A witness (suffix [_witness])
    evaluates a theorem on a concrete input.

    ** Bounds

    Recursions that are not structural take a bound that is proved or seen to be enough:
    the parser nests and iterates at most as often as there are lines (it never answers
    [OutOfFuel], [Parse_grammar]); the heap goes down at most as many levels as it has
    elements ([Init_spec], [Pop_spec]); the eviction loop pops at most as many items as
    there are; the search for cycles goes at most as deep as there are plugins, plus one
    ([checkCircular_correct]); digests take as many blocks as the padded message has;
    parsers of texts (IPv6 groups, base32, PEM, headers) take one step per byte; draining a
    queue takes one step per item; durations and glob patterns one step per byte.  The scanner of scripts stops at a line of more than
    65535 bytes, as Go's does.

    ** Not modelled

    Logging and metrics; the routers, and the handlers that only render; the command line;
    what only reports on a configuration; the tickers that run an operation periodically (the operation is
    modelled, not its schedule); heuristics on floating-point numbers (cache warming and
    optimisation), with the exception of the ninety percent of the evictor; wrappers of
    databases, object stores and cloud services; the renewal of a token with a call to the
    OAuth2 provider.  Next in line: the services of single package managers outside the proxy. *)

From Stdlib Require Export ZArith Lia.
From stdpp Require Export base tactics strings gmap list sorting pretty numbers.

Open Scope Z_scope.

(** * Results: Go's [(value, error)] pairs, one of the two being meaningful *)

Inductive result (E A : Type) : Type :=
| Ok (a : A)
| Err (e : E).
Arguments Ok {E A} a.
Arguments Err {E A} e.

Declare Scope go_scope.
Delimit Scope go_scope with go.
Open Scope go_scope.

(** [let? x := c in k] is Go's [x, err := c; if err != nil { return err }; k]. *)
Notation "'let?' x ':=' c 'in' k" :=
  (match c with Ok x => k | Err e => Err e end)
  (at level 10, x pattern, c at level 100, k at level 200,
   format "'let?'  x  ':='  c  'in' '//' k") : go_scope.

Definition is_ok {E A} (r : result E A) : bool :=
  match r with Ok _ => true | Err _ => false end.

(** * Machine integers and durations *)

Definition min_int64 : Z := - 2 ^ 63.
Definition max_int64 : Z := 2 ^ 63 - 1.

(** Two's complement wrap-around of a 64-bit signed integer. *)
Definition wrap64 (z : Z) : Z := (z + 2 ^ 63) mod 2 ^ 64 - 2 ^ 63.

Definition in_int64 (z : Z) : Prop := min_int64 <= z <= max_int64.

(** [time.Time] is an instant in nanoseconds since the zero [time.Time], and
    [time.Duration] a 64-bit count of nanoseconds. *)
Definition instant : Type := Z.
Definition duration : Type := Z.

Definition zero_time : instant := 0.
Definition time_is_zero (t : instant) : bool := t =? zero_time.

(** [t.After(u)], [t.Before(u)], [t.Equal(u)] and [t.Add(d)]. *)
Definition time_after (t u : instant) : bool := u <? t.
Definition time_before (t u : instant) : bool := t <? u.
Definition time_equal (t u : instant) : bool := t =? u.
Definition time_add (t : instant) (d : duration) : instant := t + d.

(** [t.Sub(u)] saturates at the bounds of [time.Duration]. *)
Definition time_sub (t u : instant) : duration :=
  Z.max min_int64 (Z.min max_int64 (t - u)).

Definition millisecond : duration := 1000000.
Definition second : duration := 1000 * millisecond.
Definition minute : duration := 60 * second.
Definition hour : duration := 60 * minute.

Lemma wrap64_range z : in_int64 (wrap64 z).
Proof.
  unfold in_int64, wrap64, min_int64, max_int64.
  pose proof (Z.mod_pos_bound (z + 2 ^ 63) (2 ^ 64) ltac:(lia)). lia.
Qed.

Lemma wrap64_id z : in_int64 z → wrap64 z = z.
Proof.
  unfold in_int64, wrap64, min_int64, max_int64. intros ?.
  rewrite Z.mod_small by lia. lia.
Qed.

Lemma time_sub_exact t u : in_int64 (t - u) → time_sub t u = t - u.
Proof. unfold in_int64, time_sub, min_int64, max_int64. lia. Qed.

(** Saturation never hides that a duration has been exceeded. *)
Lemma time_sub_gt t u d :
  d < max_int64 → min_int64 <= d → (d < time_sub t u ↔ d < t - u).
Proof. unfold time_sub, min_int64, max_int64. lia. Qed.

Create HintDb proxynd.
#[export] Hint Resolve wrap64_range : proxynd.

(** Boolean comparisons to propositions, everywhere. *)
Ltac zbool :=
  repeat match goal with
  | H : (_ <? _)%Z = true |- _ => apply Z.ltb_lt in H
  | H : (_ <? _)%Z = false |- _ => apply Z.ltb_ge in H
  | H : (_ <=? _)%Z = true |- _ => apply Z.leb_le in H
  | H : (_ <=? _)%Z = false |- _ => apply Z.leb_gt in H
  | H : (_ >? _)%Z = true |- _ => rewrite Z.gtb_ltb in H; apply Z.ltb_lt in H
  | H : (_ >? _)%Z = false |- _ => rewrite Z.gtb_ltb in H; apply Z.ltb_ge in H
  | H : (_ >=? _)%Z = true |- _ => rewrite Z.geb_leb in H; apply Z.leb_le in H
  | H : (_ >=? _)%Z = false |- _ => rewrite Z.geb_leb in H; apply Z.leb_gt in H
  | H : (_ =? _)%Z = true |- _ => apply Z.eqb_eq in H
  | H : (_ =? _)%Z = false |- _ => apply Z.eqb_neq in H
  | H : (_ && _) = true |- _ => apply andb_true_iff in H as [? ?]
  | H : (_ || _) = false |- _ => apply orb_false_iff in H as [? ?]
  | H : negb _ = true |- _ => apply negb_true_iff in H
  | H : negb _ = false |- _ => apply negb_false_iff in H
  end.

(** Case analysis on every [match] of the goal, then clean up. *)
Ltac cases := repeat (case_match; simplify_eq/=; try done).

(** * Lawful three-way comparisons

    A comparison function of the code is lawful when it is the sign of a total
    preorder.  The instances below compose, so that a comparison written as a
    cascade of tests is shown lawful by exhibiting the key it compares. *)

Class TotalCmp {A : Type} (cmp : A → A → comparison) : Prop := {
  cmp_opp : ∀ a b, cmp b a = CompOpp (cmp a b);
  cmp_le_trans : ∀ a b c, cmp a b ≠ Gt → cmp b c ≠ Gt → cmp a c ≠ Gt
}.

Arguments cmp_opp {A} cmp {_} a b.
Arguments cmp_le_trans {A} cmp {_} a b c _ _.

Section total_cmp.
Context {A : Type} (cmp : A → A → comparison) `{!TotalCmp cmp}.

Lemma cmp_refl a : cmp a a = Eq.
Proof. pose proof (cmp_opp cmp a a) as H. destruct (cmp a a); simpl in H; congruence. Qed.

Lemma cmp_gt_lt a b : cmp a b = Gt ↔ cmp b a = Lt.
Proof. rewrite (cmp_opp cmp a b). destruct (cmp a b); simpl; naive_solver. Qed.

Lemma cmp_eq_sym a b : cmp a b = Eq → cmp b a = Eq.
Proof. intros H. by rewrite (cmp_opp cmp a b), H. Qed.

Lemma cmp_eq_l a b c : cmp a b = Eq → cmp a c = cmp b c.
Proof.
  intros Hab. pose proof (cmp_eq_sym _ _ Hab) as Hba.
  pose proof (cmp_le_trans cmp a b c) as H1. pose proof (cmp_le_trans cmp b a c) as H2.
  pose proof (cmp_le_trans cmp c a b) as H3. pose proof (cmp_le_trans cmp c b a) as H4.
  rewrite (cmp_opp cmp a c), (cmp_opp cmp b c), Hab, Hba in *.
  destruct (cmp a c), (cmp b c); simpl in *; try done; exfalso; naive_solver.
Qed.

Lemma cmp_lt_trans a b c : cmp a b = Lt → cmp b c ≠ Gt → cmp a c = Lt.
Proof.
  intros Hab Hbc. destruct (cmp a c) eqn:Hac; [exfalso|done|exfalso].
  - pose proof (cmp_eq_l _ _ b Hac) as E. rewrite Hab in E.
    apply Hbc. by rewrite (cmp_opp cmp c b), <- E.
  - apply (cmp_le_trans cmp a b c); congruence.
Qed.
End total_cmp.

#[export] Instance Zcompare_total : TotalCmp Z.compare.
Proof.
  split; [intros; apply Z.compare_antisym|].
  intros a b c. rewrite !Z.compare_le_iff. lia.
Qed.

#[export] Instance string_compare_total : TotalCmp String.compare.
Proof.
  split; [intros; apply String.compare_antisym|].
  assert (∀ a b, String.compare a b ≠ Gt ↔ String.le a b) as Hle.
  { intros a b. unfold String.le, String.leb. destruct (String.compare a b); simpl; naive_solver. }
  intros a b c. rewrite !Hle. intros. by etrans.
Qed.

Definition key_cmp {A B} (f : A → B) (cmp : B → B → comparison) (x y : A) : comparison :=
  cmp (f x) (f y).

#[export] Instance key_cmp_total {A B} (f : A → B) cmp :
  TotalCmp cmp → TotalCmp (key_cmp f cmp).
Proof. unfold key_cmp. intros Hc. split; intros; [apply cmp_opp | eapply cmp_le_trans]; eauto. Qed.

Definition pair_cmp {A B} (ca : A → A → comparison) (cb : B → B → comparison)
    (x y : A * B) : comparison :=
  match ca x.1 y.1 with Eq => cb x.2 y.2 | r => r end.

#[export] Instance pair_cmp_total {A B} (ca : A → A → comparison) (cb : B → B → comparison) :
  TotalCmp ca → TotalCmp cb → TotalCmp (pair_cmp ca cb).
Proof.
  intros Ha Hb. unfold pair_cmp. split.
  - intros [a1 b1] [a2 b2]; simpl. rewrite (cmp_opp ca a1 a2).
    destruct (ca a1 a2); simpl; auto. apply (cmp_opp cb).
  - intros [a1 b1] [a2 b2] [a3 b3]; simpl.
    destruct (ca a1 a2) eqn:E12; [rewrite (cmp_eq_l ca _ _ a3 E12)| |done].
    + destruct (ca a2 a3); try done. eauto using cmp_le_trans.
    + intros _ H23. rewrite (cmp_lt_trans ca a1 a2 a3 E12); [done|].
      by destruct (ca a2 a3).
Qed.

(** [inl]s come before [inr]s. *)
Definition sum_cmp {A B} (ca : A → A → comparison) (cb : B → B → comparison)
    (x y : A + B) : comparison :=
  match x, y with
  | inl a, inl a' => ca a a'
  | inl _, inr _ => Lt
  | inr _, inl _ => Gt
  | inr b, inr b' => cb b b'
  end.

#[export] Instance sum_cmp_total {A B} (ca : A → A → comparison) (cb : B → B → comparison) :
  TotalCmp ca → TotalCmp cb → TotalCmp (sum_cmp ca cb).
Proof.
  intros Ha Hb. split.
  - intros [a|b] [a'|b']; simpl; auto; apply cmp_opp; auto.
  - intros [a|b] [a'|b'] [a''|b'']; simpl; try done; eauto using cmp_le_trans.
Qed.

Fixpoint list_cmp {A} (c : A → A → comparison) (l k : list A) : comparison :=
  match l, k with
  | [], [] => Eq
  | [], _ :: _ => Lt
  | _ :: _, [] => Gt
  | x :: l, y :: k => match c x y with Eq => list_cmp c l k | r => r end
  end.

#[export] Instance list_cmp_total {A} (c : A → A → comparison) :
  TotalCmp c → TotalCmp (list_cmp c).
Proof.
  intros Hc. split.
  - induction a as [|x l IH]; intros [|y k]; simpl; auto.
    rewrite (cmp_opp c x y). destruct (c x y); simpl; auto.
  - induction a as [|x l IH]; intros [|y k] [|z m]; simpl; try done.
    destruct (c x y) eqn:E12; [rewrite (cmp_eq_l c _ _ z E12)| |done].
    + destruct (c y z); try done. apply IH.
    + intros _ H23. rewrite (cmp_lt_trans c x y z E12); [done|].
      by destruct (c y z).
Qed.

Definition cmp_sign (c : comparison) : Z :=
  match c with Lt => -1 | Eq => 0 | Gt => 1 end.

Lemma cmp_sign_opp c : cmp_sign (CompOpp c) = - cmp_sign c.
Proof. by destruct c. Qed.
