(* ===== verification/GoStrings.v ===== *)
(** * GoStrings: what the code uses of Go's [strings] and [strconv] packages

    Go strings are byte sequences, and so is Rocq's [string].  Every function
    below is executable and works on arbitrary bytes; the white-space functions
    recognise the UTF-8 encodings of all of [unicode.IsSpace].  Functions keep
    their Go names, prefixed by the package where the bare name is taken. *)

From S2P Require Import Prelude.
From Stdlib Require Import Ascii.

Open Scope Z_scope.

(** ** Characters *)

Definition byte_of (c : ascii) : Z := Z.of_nat (nat_of_ascii c).
Definition in_range (lo hi : Z) (c : ascii) : bool :=
  (lo <=? byte_of c) && (byte_of c <=? hi).
Definition is_digit (c : ascii) : bool := in_range 48 57 c.
Definition is_letter (c : ascii) : bool := in_range 65 90 c || in_range 97 122 c.

(** [space_len s] is the number of bytes of the white-space rune [s] starts
    with, and [0] when [s] starts with no white-space rune. *)
Definition space_len (s : string) : nat :=
  match s with
  | EmptyString => 0%nat
  | String a r =>
      let b := byte_of a in
      if (9 <=? b) && (b <=? 13) || (b =? 32) then 1%nat
      else match r with
      | EmptyString => 0%nat
      | String a1 r1 =>
          let b1 := byte_of a1 in
          if (b =? 194) && ((b1 =? 133) || (b1 =? 160)) then 2%nat
          else match r1 with
          | EmptyString => 0%nat
          | String a2 _ =>
              let b2 := byte_of a2 in
              if (b =? 225) && (b1 =? 154) && (b2 =? 128)
                 || (b =? 226) && (b1 =? 128)
                    && ((128 <=? b2) && (b2 <=? 138) || (b2 =? 168) || (b2 =? 169) || (b2 =? 175))
                 || (b =? 226) && (b1 =? 129) && (b2 =? 159)
                 || (b =? 227) && (b1 =? 128) && (b2 =? 128)
              then 3%nat else 0%nat
          end
      end
  end.

(** ** [strings] *)

Definition HasPrefix (s p : string) : bool := String.prefix p s.

Fixpoint HasSuffix (s p : string) : bool :=
  String.eqb s p || match s with EmptyString => false | String _ s => HasSuffix s p end.

Fixpoint Contains (s sub : string) : bool :=
  String.prefix sub s || match s with EmptyString => false | String _ s => Contains s sub end.

(** [s[n:]] and [s[:n]]. *)
Fixpoint drop_bytes (n : nat) (s : string) : string :=
  match n, s with
  | S n, String _ s => drop_bytes n s
  | _, _ => s
  end.
Fixpoint take_bytes (n : nat) (s : string) : string :=
  match n, s with
  | S n, String c s => String c (take_bytes n s)
  | _, _ => EmptyString
  end.

Definition Join (ws : list string) (sep : string) : string := String.concat sep ws.

(** [strings.Split(s, sep)] for a one-byte separator. *)
Fixpoint Split (s : string) (sep : ascii) : list string :=
  match s with
  | EmptyString => [EmptyString]
  | String c s =>
      if Ascii.eqb c sep then EmptyString :: Split s sep
      else match Split s sep with
           | w :: ws => String c w :: ws
           | [] => [String c EmptyString]
           end
  end.

(** [strings.Fields]: [skip] counts the bytes left of the white-space rune being
    skipped and [cur] is the field being read. *)
Definition flush_field (cur : string) : list string :=
  match cur with EmptyString => [] | _ => [cur] end.

Fixpoint fields_go (skip : nat) (cur s : string) : list string :=
  match s with
  | EmptyString => flush_field cur
  | String c r =>
      match skip with
      | S k => fields_go k cur r
      | O => match space_len s with
             | S k => (flush_field cur ++ fields_go k EmptyString r)%list
             | O => fields_go 0 (cur +:+ String c EmptyString) r
             end
      end
  end.
Definition Fields (s : string) : list string := fields_go 0 EmptyString s.

Fixpoint trim_left_go (skip : nat) (s : string) : string :=
  match s with
  | EmptyString => EmptyString
  | String _ r =>
      match skip with
      | S k => trim_left_go k r
      | O => match space_len s with S k => trim_left_go k r | O => s end
      end
  end.

Fixpoint all_space_go (skip : nat) (s : string) : bool :=
  match s with
  | EmptyString => true
  | String _ r =>
      match skip with
      | S k => all_space_go k r
      | O => match space_len s with S k => all_space_go k r | O => false end
      end
  end.

Fixpoint trim_right (s : string) : string :=
  match s with
  | EmptyString => EmptyString
  | String c r => if all_space_go 0 s then EmptyString else String c (trim_right r)
  end.

Definition TrimSpace (s : string) : string := trim_right (trim_left_go 0 s).

(** [strings.Trim(s, cutset)] for a cutset of one byte. *)
Fixpoint trim_left_char (c : ascii) (s : string) : string :=
  match s with
  | String a r => if Ascii.eqb a c then trim_left_char c r else s
  | EmptyString => EmptyString
  end.
Definition trim_char (c : ascii) (s : string) : string :=
  String.rev (trim_left_char c (String.rev (trim_left_char c s))).

(** [strings.TrimSuffix]/[TrimPrefix]. *)
Definition TrimPrefix (s p : string) : string :=
  if HasPrefix s p then drop_bytes (String.length p) s else s.

(** ** [strconv] *)

Definition Itoa (z : Z) : string := pretty z.

Inductive NumError := ErrSyntax | ErrRange.

Fixpoint digits_go (acc : Z) (s : string) : option Z :=
  match s with
  | EmptyString => Some acc
  | String c s => if is_digit c then digits_go (10 * acc + (byte_of c - 48)) s else None
  end.

(** A non-empty string of decimal digits. *)
Definition parse_uint (s : string) : option Z :=
  match s with EmptyString => None | _ => digits_go 0 s end.

(** [strconv.Atoi] on a 64-bit platform: the value and the error.  On a range
    error the value is clamped, on a syntax error it is [0]. *)
Definition Atoi (s : string) : Z * option NumError :=
  let signed (neg : bool) (ds : string) :=
    match parse_uint ds with
    | None => (0, Some ErrSyntax)
    | Some n =>
        if neg then if n <=? 2 ^ 63 then (- n, None) else (min_int64, Some ErrRange)
        else if n <? 2 ^ 63 then (n, None) else (max_int64, Some ErrRange)
    end in
  match s with
  | String "-" ds => signed true ds
  | String "+" ds => signed false ds
  | _ => signed false s
  end.

Example Fields_ex : Fields "  a bc	d " = ["a"; "bc"; "d"].
Proof. reflexivity. Qed.
Example TrimSpace_ex : TrimSpace "  a b  " = "a b".
Proof. reflexivity. Qed.
Example Atoi_ex : Atoi "-17" = (-17, None) ∧ Atoi "1_0" = (0, Some ErrSyntax)
  ∧ Atoi "9223372036854775808" = (max_int64, Some ErrRange).
Proof. repeat split. Qed.

(** ** Lemmas: byte strings *)

Lemma str_app_nil_r s : s +:+ EmptyString = s.
Proof. induction s as [|c s IH]; [done|]. change (String c (s +:+ EmptyString) = String c s). by rewrite IH. Qed.

Lemma str_app_cons c s t : String c s +:+ t = String c (s +:+ t).
Proof. done. Qed.

Lemma str_app_assoc s t u : (s +:+ t) +:+ u = s +:+ (t +:+ u).
Proof. induction s as [|c s IH]; [done|]. rewrite !str_app_cons. by rewrite IH. Qed.

Lemma str_length_app s t : String.length (s +:+ t) = (String.length s + String.length t)%nat.
Proof. induction s as [|c s IH]; [done|]. rewrite str_app_cons. simpl. by rewrite IH. Qed.

Lemma str_rev_app s t : String.rev_app s t = String.rev s +:+ t.
Proof.
  unfold String.rev. revert t. induction s as [|c s IH]; intros t; [done|]. simpl.
  rewrite (IH (String c t)), (IH (String c EmptyString)).
  by rewrite str_app_assoc.
Qed.

Lemma str_rev_cons c s : String.rev (String c s) = String.rev s +:+ String c EmptyString.
Proof. unfold String.rev at 1. simpl. apply str_rev_app. Qed.

Lemma str_rev_snoc s c : String.rev (s +:+ String c EmptyString) = String c (String.rev s).
Proof.
  induction s as [|d s IH]; [done|]. by rewrite str_app_cons, !str_rev_cons, IH.
Qed.

Lemma str_rev_involutive s : String.rev (String.rev s) = s.
Proof. induction s as [|c s IH]; [done|]. by rewrite str_rev_cons, str_rev_snoc, IH. Qed.

Fixpoint str_all (p : ascii → bool) (s : string) : bool :=
  match s with EmptyString => true | String c s => p c && str_all p s end.

Lemma str_all_app p s t : str_all p (s +:+ t) = str_all p s && str_all p t.
Proof. induction s as [|c s IH]; [done|]. rewrite str_app_cons. simpl. by rewrite IH, andb_assoc. Qed.

Lemma prefix_app p s : String.prefix p (p +:+ s) = true.
Proof.
  induction p as [|c p IH]; [by destruct s|]. rewrite str_app_cons. simpl.
  destruct (ascii_dec c c); [done|congruence].
Qed.

Lemma prefix_split p s : String.prefix p s = true → ∃ t, s = p +:+ t.
Proof.
  revert s. induction p as [|c p IH]; intros s Hp; [by exists s|].
  destruct s as [|d s]; simpl in Hp; [done|].
  destruct (ascii_dec c d) as [->|]; [|done].
  destruct (IH _ Hp) as [t ->]. by exists t.
Qed.

Lemma prefix_spec p s : String.prefix p s = true ↔ ∃ t, s = p +:+ t.
Proof. split; [apply prefix_split|]. intros [t ->]. apply prefix_app. Qed.

Lemma Contains_spec s sub : Contains s sub = true ↔ ∃ a b, s = a +:+ (sub +:+ b).
Proof.
  induction s as [|c s IH]; cbn [Contains]; rewrite orb_true_iff, prefix_spec.
  - split; [intros [[t Ht]|]; [|done]; by exists EmptyString, t|].
    intros (a & b & Hab). left. destruct a; [by exists b|done].
  - rewrite IH. split.
    + intros [[t Ht]|(a & b & ->)]; [by exists EmptyString, t|by exists (String c a), b].
    + intros ([|d a] & b & Hab); [left; by exists b|].
      rewrite str_app_cons in Hab. simplify_eq. right. by exists a, b.
Qed.

Lemma HasSuffix_spec s p : HasSuffix s p = true ↔ ∃ a, s = a +:+ p.
Proof.
  induction s as [|c s IH]; cbn [HasSuffix]; rewrite orb_true_iff, String.eqb_eq.
  - split; [intros [<-|]; [|done]; by exists EmptyString|].
    intros [[|d a] H]; [by left|done].
  - rewrite IH. split.
    + intros [<-|[a ->]]; [by exists EmptyString|by exists (String c a)].
    + intros [[|d a] H]; [by left|]. rewrite str_app_cons in H. simplify_eq. right. by exists a.
Qed.

Lemma Join_cons w ws sep :
  Join (w :: ws) sep = match ws with [] => w | _ => w +:+ (sep +:+ Join ws sep) end.
Proof. by destruct ws. Qed.

(** ** Lemmas: words and white space

    A word is a non-empty string of printable ASCII bytes other than the space;
    texts may contain spaces too. *)

Definition word_char (c : ascii) : bool := in_range 33 126 c.
Definition text_char (c : ascii) : bool := in_range 32 126 c.
Definition is_word (w : string) : bool := negb (String.eqb w EmptyString) && str_all word_char w.

Lemma byte_of_range c : 0 <= byte_of c < 256.
Proof. unfold byte_of. pose proof (nat_ascii_bounded c). lia. Qed.

Lemma in_range_spec lo hi c : in_range lo hi c = true ↔ lo <= byte_of c <= hi.
Proof. unfold in_range. rewrite andb_true_iff, !Z.leb_le. lia. Qed.

Lemma space_len_text c s :
  text_char c = true → space_len (String c s) = if byte_of c =? 32 then 1%nat else 0%nat.
Proof.
  intros H. apply in_range_spec in H. unfold space_len.
  replace (byte_of c <=? 13) with false by (symmetry; apply Z.leb_gt; lia).
  rewrite andb_false_r. destruct (byte_of c =? 32); [done|].
  rewrite orb_false_l.
  assert (∀ n, 126 < n → (byte_of c =? n) = false) as Hn by (intros; apply Z.eqb_neq; lia).
  rewrite !Hn by lia. by destruct s as [|? [|? ?]].
Qed.

Lemma space_len_word c s : word_char c = true → space_len (String c s) = 0%nat.
Proof.
  intros H. apply in_range_spec in H. rewrite space_len_text by (apply in_range_spec; lia).
  replace (byte_of c =? 32) with false; [done|]. symmetry. apply Z.eqb_neq. lia.
Qed.

Lemma fields_go_word cur w r :
  str_all word_char w = true → fields_go 0 cur (w +:+ r) = fields_go 0 (cur +:+ w) r.
Proof.
  revert cur. induction w as [|c w IH]; intros cur Hw; [by rewrite str_app_nil_r|].
  simpl in Hw. apply andb_true_iff in Hw as [Hc Hw]. rewrite str_app_cons.
  cbn [fields_go]. rewrite space_len_word by done. rewrite IH by done.
  by rewrite str_app_assoc.
Qed.

Lemma flush_field_word w : is_word w = true → flush_field w = [w].
Proof. by destruct w. Qed.

Lemma is_word_all w : is_word w = true → str_all word_char w = true.
Proof. intros H. by apply andb_true_iff in H as [_ ?]. Qed.
#[export] Hint Resolve is_word_all : proxynd.

(** Splitting a line of words gives the words back. *)
Lemma Fields_Join ws : Forall (λ w, is_word w = true) ws → Fields (Join ws " ") = ws.
Proof.
  unfold Fields. induction 1 as [|w ws Hw Hws IH]; [done|].
  rewrite Join_cons. destruct ws as [|w' ws].
  - rewrite <- (str_app_nil_r w) at 1. rewrite fields_go_word by auto with proxynd.
    by apply flush_field_word.
  - rewrite fields_go_word by auto with proxynd.
    change (" " +:+ Join (w' :: ws) " ") with (String " " (Join (w' :: ws) " ")).
    cbn [fields_go]. rewrite space_len_text by done. simpl (byte_of _ =? _).
    cbn match. rewrite flush_field_word by done. by rewrite IH.
Qed.

Lemma str_snoc s : s ≠ EmptyString → ∃ r c, s = r +:+ String c EmptyString.
Proof.
  induction s as [|c s IH]; [done|]. intros _. destruct s as [|d s]; [by exists EmptyString, c|].
  destruct IH as (r & e & ->); [done|]. by exists (String c r), e.
Qed.

Lemma all_space_text s c :
  str_all text_char s = true → word_char c = true →
  all_space_go 0 (s +:+ String c EmptyString) = false.
Proof.
  intros Hs Hc. induction s as [|d s IH].
  - change (all_space_go 0 (String c EmptyString) = false). cbn [all_space_go].
    by rewrite space_len_word.
  - simpl in Hs. apply andb_true_iff in Hs as [Hd Hs]. rewrite str_app_cons. cbn [all_space_go].
    rewrite space_len_text by done. destruct (byte_of d =? 32); auto.
Qed.

Lemma trim_right_text s c :
  str_all text_char s = true → word_char c = true →
  trim_right (s +:+ String c EmptyString) = s +:+ String c EmptyString.
Proof.
  intros Hs Hc. induction s as [|d s IH].
  - change (trim_right (String c EmptyString) = String c EmptyString). cbn [trim_right all_space_go].
    by rewrite space_len_word.
  - pose proof (all_space_text (String d s) c Hs Hc) as Hall.
    simpl in Hs. apply andb_true_iff in Hs as [Hd Hs]. rewrite str_app_cons in *.
    cbn [trim_right]. by rewrite Hall, IH.
Qed.

(** A text whose first and last bytes are not spaces is left alone. *)
Lemma TrimSpace_text c s d :
  word_char c = true → str_all text_char (String c s) = true → word_char d = true →
  TrimSpace (String c s +:+ String d EmptyString) = String c s +:+ String d EmptyString.
Proof.
  intros Hc Hs Hd. unfold TrimSpace. rewrite str_app_cons. cbn [trim_left_go].
  rewrite space_len_word by done. rewrite <- str_app_cons. by apply trim_right_text.
Qed.

(** ** Lemmas: [Atoi] inverts [Itoa] *)

Lemma digits_go_pretty x s :
  digits_go 0 (pretty_N_go x s) = digits_go (Z.of_N x) s.
Proof.
  revert s. induction (N.lt_wf_0 x) as [x _ IH]; intros s.
  destruct (decide (0 < x)%N) as [Hx|Hx]; [|by replace x with 0%N by lia].
  rewrite pretty_N_go_step by done. rewrite IH by (apply N.div_lt; lia).
  pose proof (N.mod_lt x 10 ltac:(lia)) as Hm.
  assert (Z.of_N x = 10 * Z.of_N (x `div` 10) + Z.of_N (x `mod` 10))%Z as ->.
  { rewrite (N.div_mod x 10) at 1 by lia. lia. }
  destruct (x `mod` 10)%N as [|p] eqn:E; [simpl; f_equal; lia|].
  assert (p = 1 ∨ p = 2 ∨ p = 3 ∨ p = 4 ∨ p = 5 ∨ p = 6 ∨ p = 7 ∨ p = 8 ∨ p = 9)%positive
    as Hp by lia.
  clear E. by destruct_or! Hp; subst p.
Qed.

Lemma parse_uint_pretty (n : N) : parse_uint (pretty n) = Some (Z.of_N n).
Proof.
  unfold pretty, pretty_N. case_decide as Hn; [by subst|].
  pose proof (digits_go_pretty n EmptyString) as H. unfold parse_uint.
  destruct (pretty_N_go n EmptyString) eqn:E; [|done].
  simpl in H. simplify_eq. lia.
Qed.

Lemma pretty_N_first (n : N) : ∃ c s, pretty n = String c s ∧ is_digit c = true.
Proof.
  pose proof (parse_uint_pretty n) as H. destruct (pretty n) as [|c s]; [done|].
  exists c, s. split; [done|]. simpl in H. by destruct (is_digit c).
Qed.

Lemma Atoi_digits c s :
  is_digit c = true →
  Atoi (String c s) = match parse_uint (String c s) with
                      | None => (0, Some ErrSyntax)
                      | Some n => if n <? 2 ^ 63 then (n, None) else (max_int64, Some ErrRange)
                      end.
Proof. destruct c as [[] [] [] [] [] [] [] []]; done. Qed.

Lemma Atoi_Itoa z : in_int64 z → Atoi (Itoa z) = (z, None).
Proof.
  unfold in_int64, min_int64, max_int64, Itoa. intros Hz. destruct z as [|p|p]; [done| |].
  - change (pretty (Z.pos p)) with (pretty (N.pos p)).
    destruct (pretty_N_first (N.pos p)) as (c & s & E & Hc). rewrite E, Atoi_digits, <- E by done.
    rewrite parse_uint_pretty. simpl (Z.of_N _).
    by destruct (Z.ltb_spec (Z.pos p) (2 ^ 63)); [|lia].
  - change (pretty (Z.neg p)) with (String "-" (pretty (N.pos p))). cbn [Atoi].
    rewrite parse_uint_pretty. simpl (Z.of_N _).
    by destruct (Z.leb_spec (Z.pos p) (2 ^ 63)); [|lia].
Qed.

(** ** Lemmas: cutting strings *)

Definition stops (p : ascii → bool) (s : string) : bool :=
  match s with EmptyString => true | String c _ => negb (p c) end.

(** A string is cut in only one way after a longest run of [p] bytes. *)
Lemma span_unique p a a' r r' :
  str_all p a = true → str_all p a' = true → stops p r = true → stops p r' = true →
  a +:+ r = a' +:+ r' → a = a' ∧ r = r'.
Proof.
  revert a'. induction a as [|c a IH]; intros [|c' a'] Ha Ha' Hr Hr' E; simpl in *.
  - done.
  - change (r = String c' (a' +:+ r')) in E. subst r. simpl in Hr.
    apply andb_true_iff in Ha' as [Hc _]. by rewrite Hc in Hr.
  - change (String c (a +:+ r) = r') in E. subst r'. simpl in Hr'.
    apply andb_true_iff in Ha as [Hc _]. by rewrite Hc in Hr'.
  - rewrite !str_app_cons in E. simplify_eq.
    apply andb_true_iff in Ha as [_ Ha], Ha' as [_ Ha'].
    by destruct (IH a' Ha Ha' Hr Hr') as [-> ->].
Qed.

Lemma str_all_impl (p q : ascii → bool) s :
  (∀ c, p c = true → q c = true) → str_all p s = true → str_all q s = true.
Proof.
  intros Hpq. induction s as [|c s IH]; simpl; [done|].
  intros [? ?]%andb_true_iff. apply andb_true_iff. auto.
Qed.

Definition not_char (c d : ascii) : bool := negb (Ascii.eqb d c).

(** The string a list of parts is joined from, each after a separator. *)
Fixpoint seps (c : ascii) (ws : list string) : string :=
  match ws with [] => EmptyString | w :: ws => String c w +:+ seps c ws end.

Lemma Join_seps w ws c : Join (w :: ws) (String c EmptyString) = w +:+ seps c ws.
Proof.
  revert w. induction ws as [|w' ws IH]; intros w; rewrite Join_cons; [by rewrite str_app_nil_r|].
  by rewrite IH.
Qed.

Lemma Split_join w ws c :
  Forall (λ w, str_all (not_char c) w = true) (w :: ws) →
  Split (w +:+ seps c ws) c = w :: ws.
Proof.
  revert w. induction ws as [|w' ws IHws]; intros w Hw; apply Forall_cons_iff in Hw as [Hw Hws].
  - simpl. rewrite str_app_nil_r. induction w as [|d w IH]; [done|].
    simpl in *. apply andb_true_iff in Hw as [Hd Hw]. apply negb_true_iff in Hd.
    by rewrite Hd, IH.
  - specialize (IHws w' Hws). induction w as [|d w IH].
    + change (Split (String c w' +:+ seps c ws) c = "" :: w' :: ws). rewrite str_app_cons. simpl.
      by rewrite Ascii.eqb_refl, IHws.
    + simpl in Hw. apply andb_true_iff in Hw as [Hd Hw]. apply negb_true_iff in Hd.
      rewrite str_app_cons. cbn [Split]. by rewrite Hd, (IH Hw).
Qed.

Lemma Split_inv s c :
  ∃ w ws, Split s c = w :: ws ∧ s = w +:+ seps c ws ∧ Forall (λ w, str_all (not_char c) w = true) (w :: ws).
Proof.
  induction s as [|d s (w & ws & E & Es & Hf)]; simpl.
  - exists EmptyString, []. auto.
  - rewrite E. destruct (Ascii.eqb d c) eqn:Hd.
    + apply Ascii.eqb_eq in Hd as ->. exists EmptyString, (w :: ws). split_and!; auto.
      by rewrite Es at 1.
    + exists (String d w), ws. apply Forall_cons_iff in Hf as [Hw Hws]. split_and!; [done| |].
      * by rewrite Es at 1.
      * constructor; [|done]. simpl. unfold not_char at 1. by rewrite Hd.
Qed.

Lemma str_all_words (s : string) c : str_all word_char (String c s) = true → TrimSpace (String c s) = String c s.
Proof.
  intros H. pose proof H as [Hc Hs]%andb_true_iff.
  destruct (str_snoc (String c s) ltac:(done)) as (r & d & E). rewrite E.
  rewrite E, str_all_app in H. simpl in H. apply andb_true_iff in H as [Hr Hd]. rewrite andb_true_r in Hd.
  assert (str_all text_char r = true) as Hr'.
  { revert Hr. apply str_all_impl. intros x. unfold word_char, text_char. rewrite !in_range_spec. lia. }
  destruct r as [|e r].
  - change (TrimSpace (String d EmptyString) = String d EmptyString). unfold TrimSpace. cbn [trim_left_go].
    rewrite space_len_word by done. cbn [trim_right all_space_go]. by rewrite space_len_word.
  - apply TrimSpace_text; [|done..]. by apply andb_true_iff in Hr as [? _].
Qed.

(** ** A trimmed line that is not empty has a field *)

Lemma space_len_app s t k : space_len s = S k → space_len (s +:+ t) = S k.
Proof.
  destruct s as [|a [|b [|c s]]]; [done|..]; intros H; rewrite ?str_app_cons;
    unfold space_len in *; repeat case_match; simplify_eq/=; try done.
Qed.

Lemma trim_right_prefix s : ∃ q, s = trim_right s +:+ q.
Proof.
  induction s as [|c s [q IH]]; [by exists EmptyString|]. cbn [trim_right].
  case_match; [by exists (String c s)|]. exists q. by rewrite str_app_cons, <- IH.
Qed.

Lemma trim_left_head sk s : trim_left_go sk s = EmptyString ∨ space_len (trim_left_go sk s) = 0%nat.
Proof.
  revert sk. induction s as [|c s IH]; intros [|sk]; cbn [trim_left_go]; auto.
  destruct (space_len (String c s)) eqn:E; auto.
Qed.

Lemma fields_go_cur sk cur s : cur ≠ EmptyString → fields_go sk cur s ≠ [].
Proof.
  revert sk cur. induction s as [|c s IH]; intros sk cur Hc; cbn [fields_go].
  - by destruct cur.
  - destruct sk as [|sk]; [destruct (space_len _)|]; auto.
    + apply IH. by destruct cur.
    + by destruct cur.
Qed.

Lemma Fields_TrimSpace s : TrimSpace s ≠ EmptyString → Fields (TrimSpace s) ≠ [].
Proof.
  unfold TrimSpace. destruct (trim_left_head 0 s) as [->|Hl]; [done|].
  destruct (trim_left_go 0 s) as [|c u]; [done|]. intros Hne.
  cbn [trim_right] in *. case_match; [done|].
  unfold Fields. cbn [fields_go].
  destruct (trim_right_prefix u) as [q Hq].
  destruct (space_len (String c (trim_right u))) as [|k] eqn:E.
  - by apply fields_go_cur.
  - apply (space_len_app _ q) in E. rewrite str_app_cons, <- Hq in E. congruence.
Qed.

(** ** Numbers and lines of words are words and texts *)

Lemma digits_go_all acc s n : digits_go acc s = Some n → str_all is_digit s = true.
Proof.
  revert acc. induction s as [|c s IH]; intros acc; [done|]. cbn [digits_go str_all].
  destruct (is_digit c); [apply IH|done].
Qed.

Lemma pretty_word (n : N) : is_word (pretty n) = true.
Proof.
  pose proof (parse_uint_pretty n) as H. unfold is_word. destruct (pretty n) as [|c s]; [done|].
  apply digits_go_all in H. cbn [String.eqb negb andb]. revert H. apply str_all_impl.
  intros d. unfold is_digit, word_char. rewrite !in_range_spec. lia.
Qed.

Lemma Itoa_word z : is_word (Itoa z) = true.
Proof.
  unfold Itoa. destruct z as [|p|p].
  - reflexivity.
  - change (is_word (pretty (N.pos p)) = true). apply pretty_word.
  - change (is_word (String "-" (pretty (N.pos p))) = true).
    pose proof (pretty_word (N.pos p)) as [_ H]%andb_true_iff.
    apply andb_true_iff. split; [done|]. cbn [str_all]. by rewrite H.
Qed.

Lemma word_text w : is_word w = true → str_all text_char w = true.
Proof.
  intros [_ H]%andb_true_iff. revert H. apply str_all_impl.
  intros c. unfold word_char, text_char. rewrite !in_range_spec. lia.
Qed.

Lemma word_ends w :
  is_word w = true →
  (∃ c s, w = String c s ∧ word_char c = true) ∧
  (∃ r d, w = r +:+ String d EmptyString ∧ word_char d = true).
Proof.
  intros [Hne Hw]%andb_true_iff. destruct w as [|c s]; [done|]. split.
  - exists c, s. apply andb_true_iff in Hw as [? _]. done.
  - destruct (str_snoc (String c s)) as (r & d & E); [done|]. rewrite E in Hw.
    rewrite str_all_app in Hw. cbn in Hw. rewrite andb_true_r in Hw.
    apply andb_true_iff in Hw as [_ Hd]. by exists r, d.
Qed.

(** A non-empty line of words is a text between two word bytes. *)
Lemma Join_text w ws :
  Forall (λ w, is_word w = true) (w :: ws) →
  str_all text_char (Join (w :: ws) " ") = true ∧
  (∃ t, Join (w :: ws) " " = w +:+ t) ∧
  (∃ r d, Join (w :: ws) " " = r +:+ String d EmptyString ∧ word_char d = true).
Proof.
  revert w. induction ws as [|w' ws IH]; intros w [Hw Hws]%Forall_cons_iff; rewrite Join_cons.
  - split_and!; [by apply word_text|exists EmptyString; by rewrite str_app_nil_r|by apply word_ends].
  - destruct (IH w' Hws) as (Ht & _ & r & d & E & Hd). split_and!.
    + rewrite !str_all_app, Ht. by rewrite (word_text w).
    + by eexists.
    + exists (w +:+ (" " +:+ r)), d. by rewrite E, !str_app_assoc.
Qed.

Lemma TrimSpace_Join w ws :
  Forall (λ w, is_word w = true) (w :: ws) → TrimSpace (Join (w :: ws) " ") = Join (w :: ws) " ".
Proof.
  intros H. destruct (Join_text _ _ H) as (Ht & [t Et] & r & d & E & Hd).
  apply Forall_cons_iff in H as [Hw _]. destruct (word_ends w Hw) as [(c & s & -> & Hc) _].
  rewrite str_app_cons in Et. rewrite E in *. destruct r as [|e r].
  - apply (str_all_words EmptyString d). cbn [str_all]. by rewrite Hd.
  - rewrite str_app_cons in Et. simplify_eq. apply TrimSpace_text; [done| |done].
    rewrite str_all_app in Ht. by apply andb_true_iff in Ht as [? _].
Qed.

Lemma HasPrefix_head c s d : HasPrefix (String c s) (String d EmptyString) = Ascii.eqb c d.
Proof.
  unfold HasPrefix. cbn [String.prefix]. destruct (ascii_dec d c) as [->|Hn].
  - rewrite Ascii.eqb_refl. by destruct s.
  - symmetry. by apply Ascii.eqb_neq.
Qed.

(** [strings.ToLower], as far as its result is compared with ASCII text: besides the
    capital letters, the two characters above 127 whose lower case is ASCII (dotted
    capital I, Kelvin sign); the others are left alone, their lower case is not ASCII. *)
Definition lower_char (c : ascii) : ascii :=
  if in_range 65 90 c then ascii_of_nat (nat_of_ascii c + 32) else c.

Fixpoint to_lower (s : string) : string :=
  match s with
  | String "196" (String "176" s) => String "i" (to_lower s)
  | String "226" (String "132" (String "170" s)) => String "k" (to_lower s)
  | String c s => String (lower_char c) (to_lower s)
  | EmptyString => EmptyString
  end.

(** [strings.TrimSuffix]. *)
Definition TrimSuffix (s p : string) : string :=
  if HasSuffix s p then take_bytes (String.length s - String.length p) s else s.

Lemma take_bytes_exact s t : take_bytes (String.length s) (s +:+ t) = s.
Proof. induction s as [|c s IH]; [by destruct t|]. rewrite str_app_cons. cbn. by rewrite IH. Qed.

Lemma TrimSuffix_app s p : TrimSuffix (s +:+ p) p = s.
Proof.
  unfold TrimSuffix. assert (HasSuffix (s +:+ p) p = true) as -> by (apply HasSuffix_spec; eauto).
  rewrite str_length_app. replace (_ - _)%nat with (String.length s) by lia. apply take_bytes_exact.
Qed.

Lemma Split_none c s : str_all (not_char c) s = true → Split s c = [s].
Proof. intros H. rewrite <- (str_app_nil_r s) at 1. apply (Split_join s [] c). by constructor. Qed.

(** ** Lemmas: trimming a byte on both sides *)

Lemma trim_left_char_run c lead s :
  str_all (λ d, Ascii.eqb d c) lead = true → trim_left_char c (lead +:+ s) = trim_left_char c s.
Proof. induction lead as [|d lead IH]; [done|]. cbn [str_all]. intros [Hd Hl]%andb_true_iff. rewrite str_app_cons. cbn. by rewrite Hd, IH. Qed.

Lemma str_all_rev p s : str_all p (String.rev s) = str_all p s.
Proof. induction s as [|c s IH]; [done|]. rewrite str_rev_cons, str_all_app, IH. cbn. by rewrite andb_true_r, andb_comm. Qed.

Lemma str_rev_app_distr s t : String.rev (s +:+ t) = String.rev t +:+ String.rev s.
Proof.
  induction s as [|c s IH]; [by rewrite str_app_nil_r|].
  by rewrite str_app_cons, !str_rev_cons, IH, str_app_assoc.
Qed.

Definition starts_without (c : ascii) (s : string) : bool :=
  match s with String d _ => negb (Ascii.eqb d c) | EmptyString => false end.

Lemma trim_char_around c lead s trail :
  str_all (λ d, Ascii.eqb d c) lead = true → str_all (λ d, Ascii.eqb d c) trail = true →
  starts_without c s = true → starts_without c (String.rev s) = true →
  trim_char c (lead +:+ (s +:+ trail)) = s.
Proof.
  intros Hl Ht Hs Hr. unfold trim_char. rewrite trim_left_char_run by done.
  assert (∀ t u, starts_without c t = true → trim_left_char c (t +:+ u) = t +:+ u) as Hid.
  { intros [|d t] u H; [done|]. rewrite str_app_cons. cbn in H |- *. apply negb_true_iff in H. by rewrite H. }
  rewrite Hid, str_rev_app_distr, trim_left_char_run by (done || by rewrite str_all_rev).
  rewrite <- (str_app_nil_r (String.rev s)), Hid, str_app_nil_r by done. apply str_rev_involutive.
Qed.

(** Two texts without the separator are cut in the same place. *)
Lemma cut_same c w w' r r' :
  str_all (not_char c) w = true → str_all (not_char c) w' = true →
  w +:+ String c r = w' +:+ String c r' → w = w' ∧ r = r'.
Proof.
  intros Hw Hw' E. assert (∀ t, stops (not_char c) (String c t) = true) as Hs.
  { intros t. cbn. unfold not_char. by rewrite Ascii.eqb_refl. }
  destruct (span_unique (not_char c) w w' (String c r) (String c r')) as [-> [= ->]]; auto.
Qed.

Lemma Split_first c a b : str_all (not_char c) a = true → Split (a +:+ String c b) c = a :: Split b c.
Proof.
  intros Ha. destruct (Split_inv b c) as (w & ws & E & Es & Hf). rewrite E.
  replace (a +:+ String c b) with (a +:+ seps c (w :: ws)); [by apply Split_join; constructor|].
  by rewrite Es at 1.
Qed.

Lemma TrimPrefix_app p t : TrimPrefix (p +:+ t) p = t.
Proof.
  unfold TrimPrefix, HasPrefix. rewrite prefix_app. induction p as [|c p IH]; [by destruct t|done].
Qed.

(** ** [strings.Index], [LastIndex], [Count] *)

(** [strings.Index]: the text before and after the first occurrence. *)
Fixpoint cut_at (sub s : string) : option (string * string) :=
  if String.prefix sub s then Some (EmptyString, drop_bytes (String.length sub) s)
  else match s with
       | EmptyString => None
       | String c r => match cut_at sub r with Some (a, b) => Some (String c a, b) | None => None end
       end.

(** [strings.LastIndex]: the text before and after the last occurrence. *)
Fixpoint cut_last (sub s : string) : option (string * string) :=
  match s with
  | EmptyString => if String.prefix sub s then Some (EmptyString, EmptyString) else None
  | String c r =>
      match cut_last sub r with
      | Some (a, b) => Some (String c a, b)
      | None => if String.prefix sub s then Some (EmptyString, drop_bytes (String.length sub) s) else None
      end
  end.

(** [strings.Count] of a text that is not empty. *)
Fixpoint count_go (sub : string) (skip : nat) (s : string) : nat :=
  match s with
  | EmptyString => O
  | String _ r =>
      match skip with
      | Datatypes.S k => count_go sub k r
      | O => if String.prefix sub s then Datatypes.S (count_go sub (String.length sub - 1) r) else count_go sub 0 r
      end
  end.
Definition Count (s sub : string) : nat := count_go sub 0 s.

Example index_ex :
  cut_at "://" "https://a/b" = Some ("https"%string, "a/b"%string) ∧ cut_last "/" "a/b/c" = Some ("a/b"%string, "c"%string) ∧
  Count "aXXbXXX" "XX" = 2%nat ∧ cut_at "x" "abc" = None.
Proof. vm_compute. repeat split. Qed.

Lemma cut_at_app sub a b : (∀ i, (i < String.length a)%nat → String.prefix sub (drop_bytes i (a +:+ (sub +:+ b))) = false) →
  cut_at sub (a +:+ (sub +:+ b)) = Some (a, b).
Proof.
  assert (drop_bytes (String.length sub) (sub +:+ b) = b) as Hd by (induction sub; [by destruct b|done]).
  induction a as [|c a IH]; intros H.
  { change (EmptyString +:+ (sub +:+ b)) with (sub +:+ b).
    assert (∀ t, String.prefix sub t = true → cut_at sub t = Some (EmptyString, drop_bytes (String.length sub) t)) as Hc
      by (intros [|x y] E; cbn [cut_at]; by rewrite E).
    by rewrite Hc, Hd by apply prefix_app. }
  rewrite str_app_cons. pose proof (H 0%nat ltac:(cbn; lia)) as H0. cbn [drop_bytes] in H0. rewrite str_app_cons in H0.
  cbn [cut_at]. rewrite H0, IH; [done|]. intros i Hi. apply (H (Datatypes.S i)). cbn. lia.
Qed.

(** A tag is not found inside a text without its first byte. *)
Lemma cut_at_first c sub a b :
  str_all (not_char c) a = true → cut_at (String c sub) (a +:+ (String c sub +:+ b)) = Some (a, b).
Proof.
  intros Ha. apply cut_at_app. revert a Ha. intros a. induction a as [|d a IH]; [cbn; lia|].
  cbn [str_all]. intros [Hd Ha]%andb_true_iff [|i] Hi; [|apply (IH Ha); cbn in Hi; lia].
  cbn. unfold not_char in Hd. apply negb_true_iff, Ascii.eqb_neq in Hd. rewrite str_app_cons.
  cbn [String.prefix]. destruct (ascii_dec c d); [by subst|done].
Qed.
