(* ===== verification/GoRegexp.v ===== *)
(** * GoRegexp: what the code uses of Go's [regexp] package

    The syntax of the patterns, the leftmost-first (Perl-like) matcher with
    capturing groups that [regexp] implements, and its semantics: the matcher
    finds a match exactly when the pattern has one ([rmatch_sound],
    [rmatch_complete]). *)

From S2P Require Import Prelude GoStrings.
From Stdlib Require Import Ascii.

Inductive re :=
| REps
| RChar (p : ascii → bool)
| RCat (r1 r2 : re)
| RAlt (r1 r2 : re)
| RStar (r : re)
| RGrp (i : nat) (r : re).

Definition RLit (c : ascii) : re := RChar (Ascii.eqb c).
Definition ROpt (r : re) : re := RAlt r REps.
Definition RPlus (r : re) : re := RCat r (RStar r).

(** The captured groups; a group that took no part in the match is absent. *)
Abbreviation captures := (gmap nat string).

(** The iterations of a star whose body is matched by [m]. Each iteration
    consumes at least one byte, so [length s] of them are enough. *)
Abbreviation matcher :=
  (string → captures → (string → captures → option captures) → option captures).

Fixpoint star_loop (m : matcher) (k : string → captures → option captures)
    (n : nat) (s : string) (e : captures) : option captures :=
  match n with
  | O => k s e
  | S n =>
      match m s e (λ s' e',
              if (String.length s' <? String.length s)%nat then star_loop m k n s' e' else None) with
      | Some x => Some x
      | None => k s e
      end
  end.

(** [rmatch r s e k] tries [r] at the start of [s], then the continuation [k] on
    what is left. *)
Fixpoint rmatch (r : re) (s : string) (e : captures)
    (k : string → captures → option captures) {struct r} : option captures :=
  match r with
  | REps => k s e
  | RChar p => match s with
               | String c s' => if p c then k s' e else None
               | EmptyString => None
               end
  | RCat r1 r2 => rmatch r1 s e (λ s' e', rmatch r2 s' e' k)
  | RAlt r1 r2 => match rmatch r1 s e k with
                  | Some x => Some x
                  | None => rmatch r2 s e k
                  end
  | RStar r => star_loop (rmatch r) k (String.length s) s e
  | RGrp i r =>
      rmatch r s e (λ s' e',
        k s' (<[i := take_bytes (String.length s - String.length s') s]> e'))
  end.

(** [regexp.FindStringSubmatch] for a pattern of the form [^r$]. *)
Definition full_match (r : re) (s : string) : option captures :=
  rmatch r s ∅ (λ s' e, match s' with EmptyString => Some e | _ => None end).

Definition group (e : captures) (i : nat) : string := default EmptyString (e !! i).

(** ** Semantics *)

Inductive rmatches : re → string → captures → captures → Prop :=
| m_eps e : rmatches REps EmptyString e e
| m_char p c e : p c = true → rmatches (RChar p) (String c EmptyString) e e
| m_cat r1 r2 s1 s2 e e1 e2 :
    rmatches r1 s1 e e1 → rmatches r2 s2 e1 e2 → rmatches (RCat r1 r2) (s1 +:+ s2) e e2
| m_alt_l r1 r2 s e e' : rmatches r1 s e e' → rmatches (RAlt r1 r2) s e e'
| m_alt_r r1 r2 s e e' : rmatches r2 s e e' → rmatches (RAlt r1 r2) s e e'
| m_star_nil r e : rmatches (RStar r) EmptyString e e
| m_star_cons r s1 s2 e e1 e2 :
    s1 ≠ EmptyString → rmatches r s1 e e1 → rmatches (RStar r) s2 e1 e2 →
    rmatches (RStar r) (s1 +:+ s2) e e2
| m_grp i r s e e' : rmatches r s e e' → rmatches (RGrp i r) s e (<[i := s]> e').

Lemma take_bytes_app s t : take_bytes (String.length s) (s +:+ t) = s.
Proof. induction s as [|c s IH]; [by destruct t|]. rewrite str_app_cons. simpl. by rewrite IH. Qed.

Lemma rmatch_sound r s e k x :
  rmatch r s e k = Some x →
  ∃ s1 s2 e', s = s1 +:+ s2 ∧ rmatches r s1 e e' ∧ k s2 e' = Some x.
Proof.
  revert s e k x. induction r as [|p|r1 IH1 r2 IH2|r1 IH1 r2 IH2|r IH|i r IH];
    intros s e k x H; simpl in H.
  - exists EmptyString, s, e. eauto using rmatches.
  - destruct s as [|c s]; [done|]. destruct (p c) eqn:Hc; [|done].
    exists (String c EmptyString), s, e. eauto using rmatches.
  - apply IH1 in H as (s1 & s2 & e1 & -> & H1 & H). apply IH2 in H as (s3 & s4 & e2 & -> & H2 & H).
    exists (s1 +:+ s3), s4, e2. rewrite str_app_assoc. eauto using rmatches.
  - destruct (rmatch r1 s e k) eqn:E; simplify_eq.
    + apply IH1 in E as (s1 & s2 & e' & -> & ? & ?). eauto 7 using rmatches.
    + apply IH2 in H as (s1 & s2 & e' & -> & ? & ?). eauto 7 using rmatches.
  - revert e H. generalize (String.length s) as n. intros n. revert s.
    induction n as [|n IHn]; intros s e H; simpl in H.
    { exists EmptyString, s, e. eauto using rmatches. }
    case_match eqn:E; [|exists EmptyString, s, e; eauto using rmatches]. simplify_eq.
    apply IH in E as (s1 & s2 & e1 & -> & H1 & H).
    destruct (Nat.ltb_spec (String.length s2) (String.length (s1 +:+ s2))) as [Hlt|]; [|done].
    apply IHn in H as (s3 & s4 & e2 & -> & H2 & H).
    exists (s1 +:+ s3), s4, e2. rewrite str_app_assoc. split_and!; [done| |done].
    econstructor; eauto. intros ->. rewrite !str_length_app in Hlt. simpl in Hlt. lia.
  - apply IH in H as (s1 & s2 & e' & -> & H1 & H).
    rewrite str_length_app, Nat.add_sub, take_bytes_app in H. eauto 7 using rmatches.
Qed.

(** The matcher only looks at what its continuation answers. *)
Lemma rmatch_ext r s e k1 k2 :
  (∀ s' e', k1 s' e' = k2 s' e') → rmatch r s e k1 = rmatch r s e k2.
Proof.
  revert s e k1 k2. induction r as [|p|r1 IH1 r2 IH2|r1 IH1 r2 IH2|r IH|i r IH];
    intros s e k1 k2 Hk; simpl; auto.
  - by destruct s; [|case_match].
  - rewrite (IH1 _ _ _ _ Hk). by rewrite (IH2 _ _ _ _ Hk).
  - revert s e. generalize (String.length). intros len s. generalize (len s) as n. intros n. revert s.
    induction n as [|n IHn]; intros s e; simpl; [done|].
    erewrite (IH s e); [by rewrite Hk|]. intros s' e'; simpl. by rewrite IHn.
Qed.

(** The length of the subject is fuel enough for a star. *)
Lemma star_loop_fuel r k n s e :
  (String.length s <= n)%nat →
  star_loop (rmatch r) k n s e = star_loop (rmatch r) k (String.length s) s e.
Proof.
  remember (String.length s) as l eqn:El. assert (String.length s <= l)%nat as Hl by lia. clear El.
  revert n s e Hl. induction l as [|l IH]; intros n s e Hl Hn.
  { destruct s; [|simpl in Hl; lia]. destruct n as [|n]; [done|]. simpl.
    erewrite rmatch_ext; [|by intros; destruct (Nat.ltb_spec (String.length s') 0); [lia|reflexivity]].
    destruct (rmatch r "" e _) eqn:E; [|done].
    apply rmatch_sound in E as (? & ? & ? & _ & _ & ?). done. }
  destruct n as [|n]; [lia|]. simpl.
  erewrite rmatch_ext; [done|]. intros s' e'; simpl.
  destruct (Nat.ltb_spec (String.length s') (String.length s)); [|done].
  apply IH; lia.
Qed.

Lemma rmatch_complete r s1 e e' s2 k :
  rmatches r s1 e e' → is_Some (k s2 e') → is_Some (rmatch r (s1 +:+ s2) e k).
Proof.
  intros H. revert s2 k. induction H as [e|p c e Hc|r1 r2 s1 s3 e e1 e2 H1 IH1 H2 IH2
    |r1 r2 s e e' H IH|r1 r2 s e e' H IH|r e|r s1 s3 e e1 e2 Hne H1 IH1 H2 IH2|i r s e e' H IH];
    intros s2 k Hk; simpl.
  - done.
  - change (String c "" +:+ s2) with (String c s2). simpl. by rewrite Hc.
  - rewrite str_app_assoc. apply IH1. by apply IH2.
  - destruct (IH s2 k Hk) as [x ->]. eauto.
  - destruct (rmatch r1 _ _ _); eauto.
  - change ("" +:+ s2) with s2. destruct (String.length s2); simpl; [done|]. case_match; [by eexists|done].
  - rewrite str_app_assoc. destruct s1 as [|c s1]; [done|].
    rewrite str_length_app. cbn [String.length Nat.add star_loop].
    assert (is_Some (rmatch r (String c s1 +:+ (s3 +:+ s2)) e (λ s' e',
      if (String.length s' <? String.length (String c s1 +:+ (s3 +:+ s2)))%nat
      then star_loop (rmatch r) k (String.length s1 + String.length (s3 +:+ s2)) s' e' else None)))
      as [x ->]; [|by eexists].
    apply IH1. rewrite star_loop_fuel by lia.
    destruct (Nat.ltb_spec (String.length (s3 +:+ s2)) (String.length (String c s1 +:+ (s3 +:+ s2))))
      as [_|Hge]; [|rewrite (str_length_app (String c s1)) in Hge; simpl in Hge; lia].
    apply (IH2 s2 k Hk).
  - apply IH. rewrite str_length_app, Nat.add_sub, take_bytes_app. done.
Qed.

(** ** Patterns without groups, and stars of character classes *)

Fixpoint no_groups (r : re) : bool :=
  match r with
  | REps | RChar _ => true
  | RCat r1 r2 | RAlt r1 r2 => no_groups r1 && no_groups r2
  | RStar r => no_groups r
  | RGrp _ _ => false
  end.

Lemma rmatches_no_groups r s e e' : rmatches r s e e' → no_groups r = true → e' = e.
Proof.
  induction 1; simpl; rewrite ?andb_true_iff; intuition congruence.
Qed.

Lemma star_class p s e : str_all p s = true → rmatches (RStar (RChar p)) s e e.
Proof.
  induction s as [|c s IH]; [constructor|]. simpl. intros [Hc Hs]%andb_true_iff.
  apply (m_star_cons _ (String c "") s e e e); [done|by constructor|auto].
Qed.

Lemma star_class_inv p s e e' : rmatches (RStar (RChar p)) s e e' → str_all p s = true ∧ e' = e.
Proof.
  remember (RStar (RChar p)) as r eqn:Er. induction 1; simplify_eq; [done|].
  inversion H0; subst. destruct IHrmatches2 as [? ->]; [done|].
  change (String c "" +:+ s2) with (String c s2). simpl. by rewrite andb_true_iff.
Qed.
