(* ===== verification/GoPath.v ===== *)
(** * GoPath: the lexical part of [path/filepath] on Unix

    [Clean], [Join], [Dir], [Base], [Ext] and [Rel], by the components of a path. *)

From Stdlib Require Import Ascii.
From S2P Require Import Prelude GoStrings.

Definition slash : ascii := "/".
Definition rooted (p : string) : bool := HasPrefix p "/".

(** [stack] holds the components kept so far, the last one first. *)
Definition clean_step (root : bool) (stack : list string) (c : string) : list string :=
  if String.eqb c EmptyString || String.eqb c "." then stack
  else if String.eqb c ".." then
    match stack with
    | [] => if root then [] else [".."]
    | top :: rest => if String.eqb top ".." then ".." :: stack else rest
    end
  else c :: stack.

Definition clean_comps (p : string) : list string :=
  rev (fold_left (clean_step (rooted p)) (Split p slash) []).

Definition unsplit (root : bool) (cs : list string) : string :=
  if root then String slash (Join cs "/")
  else match cs with [] => "." | _ => Join cs "/" end.

(** [filepath.Clean]. *)
Definition Clean (p : string) : string := unsplit (rooted p) (clean_comps p).

(** [filepath.Join] of two elements. *)
Definition PathJoin (a b : string) : string :=
  if String.eqb a EmptyString then if String.eqb b EmptyString then EmptyString else Clean b
  else Clean (a +:+ (String slash b)).

(** [filepath.Join] of any number of elements: leading empty ones are dropped. *)
Fixpoint JoinPath (elems : list string) : string :=
  match elems with
  | [] => EmptyString
  | e :: rest => if String.eqb e EmptyString then JoinPath rest else Clean (Join elems "/")
  end.

(** [filepath.Dir]: the directory part, cleaned; [dir_part] keeps its slash. *)
Definition dir_part (p : string) : string :=
  match rev (Split p slash) with
  | [] | [_] => EmptyString
  | _ :: init => Join (rev init) "/" +:+ "/"
  end.
Definition Dir (p : string) : string := Clean (dir_part p).

(** The last component of a path that is not empty; [filepath.Base]. *)
Fixpoint strip_slashes (rev_parts : list string) : list string :=
  match rev_parts with
  | c :: cs => if String.eqb c EmptyString then strip_slashes cs else rev_parts
  | [] => []
  end.
Definition Base (p : string) : string :=
  if String.eqb p EmptyString then "."
  else match strip_slashes (rev (Split p slash)) with [] => "/" | c :: _ => c end.

(** From the last dot of a name on; [filepath.Ext] does so in the last component. *)
Fixpoint from_last_dot (s : string) : string :=
  match s with
  | EmptyString => EmptyString
  | String c r =>
      match from_last_dot r with
      | EmptyString => if Ascii.eqb c "." then s else EmptyString
      | e => e
      end
  end.
Definition Ext (p : string) : string := from_last_dot (default EmptyString (list.last (Split p slash))).

Fixpoint strip_common (b t : list string) : list string * list string :=
  match b, t with
  | x :: b', y :: t' => if String.eqb x y then strip_common b' t' else (b, t)
  | _, _ => (b, t)
  end.

(** [filepath.Rel]: [None] is its error. *)
Definition Rel (base targ : string) : option string :=
  if negb (Bool.eqb (rooted base) (rooted targ)) then None
  else
    let '(b, t) := strip_common (clean_comps base) (clean_comps targ) in
    if bool_decide (list.head b = Some "..") then None
    else
      match (replicate (length b) ".." ++ t)%list with
      | [] => Some "."
      | cs => Some (Join cs "/")
      end.

Example Clean_ex :
  Clean "/a/./b//../c/" = "/a/c" ∧ Clean "../../x" = "../../x" ∧ Clean "/../x" = "/x" ∧ Clean EmptyString = "."
  ∧ Dir "/a/b" = "/a" ∧ Dir "b" = "." ∧ Rel "/a/b" "/a/b/c/d" = Some "c/d" ∧ Rel "." "x" = Some "x"
  ∧ JoinPath [EmptyString; "a"; EmptyString; "../b"] = "b" ∧ Base "/a/b//" = "b" ∧ Base "//" = "/" ∧ Ext "a.b/c.tar.gz" = ".gz"
  ∧ Ext "a.b/c" = EmptyString.
Proof. vm_compute. repeat split. Qed.

(** ** Lemmas: joining plain keys

    A segment is a non-empty name other than "." and "..", without a slash. *)

Definition segment (s : string) : bool :=
  negb (String.eqb s EmptyString) && negb (String.eqb s ".") && negb (String.eqb s "..")
  && str_all (not_char slash) s.

Lemma clean_step_segment root stack s : segment s = true → clean_step root stack s = s :: stack.
Proof.
  unfold segment, clean_step. intros H. zbool.
  repeat match goal with H : String.eqb _ _ = false |- _ => rewrite H end. done.
Qed.

Lemma clean_segments root stack cs :
  Forall (λ s, segment s = true) cs → fold_left (clean_step root) cs stack = (rev cs ++ stack)%list.
Proof.
  intros H. revert stack. induction H as [|c cs Hc _ IH]; intros stack; [done|].
  cbn [fold_left]. rewrite clean_step_segment, IH by done. cbn [rev]. by rewrite <- app_assoc.
Qed.

Lemma segments_no_slash cs :
  Forall (λ s, segment s = true) cs → Forall (λ s, str_all (not_char slash) s = true) cs.
Proof. apply Forall_impl. intros s H. unfold segment in H. by zbool. Qed.

Lemma seps_app c xs ys : seps c (xs ++ ys) = seps c xs +:+ seps c ys.
Proof.
  induction xs as [|x xs IH]; [done|]. cbn [app seps]. rewrite IH.
  by rewrite !str_app_cons, str_app_assoc.
Qed.

(** The path of a key made of segments, under a clean absolute base. *)
(** Joining to a clean absolute base goes on from the components of the base. *)
Lemma PathJoin_fold base p :
  Forall (λ c, segment c = true) base →
  PathJoin (unsplit true base) p = unsplit true (rev (fold_left (clean_step true) (Split p slash) (rev base))).
Proof.
  intros Hb. unfold PathJoin. cbn [unsplit String.eqb].
  destruct (Split_inv p slash) as (w & ws & Ew & Es & Hws). rewrite Ew in *.
  set (bs := match base with [] => [EmptyString] | _ => base end).
  assert (String slash (Join base "/") +:+ String slash p = EmptyString +:+ seps slash (bs ++ w :: ws)) as E.
  { unfold bs. rewrite Es, seps_app. destruct base as [|b base]; [done|]. by rewrite Join_seps. }
  rewrite E. unfold Clean, clean_comps.
  assert (rooted (EmptyString +:+ seps slash (bs ++ w :: ws)) = true) as -> by (rewrite <- E; apply HasPrefix_head).
  rewrite Split_join.
  2: { constructor; [done|]. apply Forall_app. split; [|done].
       unfold bs. destruct base; [by repeat constructor|by apply segments_no_slash]. }
  unfold unsplit. do 2 f_equal. cbn [fold_left]. rewrite fold_left_app.
  assert (fold_left (clean_step true) bs (clean_step true [] EmptyString) = rev base) as ->; [|done].
  unfold bs. destruct base; [done|]. rewrite clean_segments by done. by rewrite app_nil_r.
Qed.

Lemma PathJoin_segments base k key :
  Forall (λ s, segment s = true) base → Forall (λ s, segment s = true) (k :: key) →
  PathJoin (unsplit true base) (Join (k :: key) "/") = unsplit true (base ++ k :: key).
Proof.
  intros Hb Hk. rewrite PathJoin_fold, Join_seps, Split_join, clean_segments by (done || by apply segments_no_slash).
  by rewrite rev_app_distr, !rev_involutive.
Qed.

Lemma unsplit_inj cs ds :
  Forall (λ s, segment s = true) cs → Forall (λ s, segment s = true) ds →
  unsplit true cs = unsplit true ds → cs = ds.
Proof.
  intros Hc Hd E. unfold unsplit in E. simplify_eq.
  assert (∀ l, Forall (λ s, segment s = true) l → l ≠ [] → Split (Join l "/") slash = l) as Hs.
  { intros [|x l] Hl Hne; [done|]. rewrite Join_seps. by apply Split_join, segments_no_slash. }
  destruct cs as [|c cs], ds as [|d ds]; try done.
  - apply Forall_cons_iff in Hd as [Hd _]. rewrite Join_cons in E. by destruct d, ds.
  - apply Forall_cons_iff in Hc as [Hc _]. rewrite Join_cons in E. by destruct c, cs.
  - rewrite <- (Hs (c :: cs)), <- (Hs (d :: ds)) by done. by rewrite E.
Qed.

(** The directory of a file right under a clean absolute base. *)
Lemma Dir_segments base name :
  Forall (λ s, segment s = true) (base ++ [name]) → Dir (unsplit true (base ++ [name])) = unsplit true base.
Proof.
  intros H. unfold Dir, dir_part.
  assert (unsplit true (base ++ [name]) = EmptyString +:+ seps slash (base ++ [name])) as ->
    by (unfold unsplit; destruct base; cbn [app]; by rewrite Join_seps).
  rewrite Split_join by (constructor; [done|by apply segments_no_slash]).
  rewrite app_comm_cons, rev_app_distr. cbn [rev app].
  destruct (rev base ++ [EmptyString]) as [|r rs] eqn:Er; [by destruct (rev base)|].
  rewrite <- Er, rev_app_distr, rev_involutive. cbn [rev app].
  apply Forall_app in H as [Hb _].
  assert (Join (EmptyString :: base) "/" +:+ "/" = EmptyString +:+ seps slash (base ++ [EmptyString])) as ->.
  { rewrite Join_seps, seps_app. cbn [seps]. by rewrite str_app_nil_r. }
  unfold Clean, clean_comps.
  assert (rooted (EmptyString +:+ seps slash (base ++ [EmptyString])) = true) as ->
    by (destruct base; apply HasPrefix_head).
  rewrite Split_join.
  2: { constructor; [done|]. apply Forall_app. split; [by apply segments_no_slash|by repeat constructor]. }
  f_equal. cbn [fold_left]. change (clean_step true [] EmptyString) with (@nil string).
  rewrite fold_left_app, (clean_segments true [] base) by done. cbn [fold_left].
  rewrite app_nil_r. exact (rev_involutive base).
Qed.

(** The path of any name without ".." components, under a clean absolute base:
    the components that are segments, below the base. *)

Notation no_dotdot := (Forall (λ c, c ≠ ".."%string)).
Notation segments_of s := (filter (λ c, segment c = true) (Split s slash)).

Lemma clean_no_dotdot root stack cs :
  Forall (λ c, str_all (not_char slash) c = true) cs → no_dotdot cs →
  fold_left (clean_step root) cs stack = (rev (filter (λ c, segment c = true) cs) ++ stack)%list.
Proof.
  intros Hs Hd. revert stack. induction cs as [|c cs IH]; intros stack; [done|].
  apply Forall_cons_iff in Hs as [Hc Hs]. apply Forall_cons_iff in Hd as [Hcd Hd].
  cbn [fold_left]. rewrite IH, filter_cons by done. destruct (decide (segment c = true)) as [H|H].
  - rewrite clean_step_segment by done. cbn [rev]. by rewrite <- app_assoc.
  - f_equal. unfold clean_step. unfold segment in H. apply String.eqb_neq in Hcd. rewrite Hcd in *.
    rewrite Hc in H. destruct (String.eqb c EmptyString), (String.eqb c "."); done.
Qed.

Lemma Split_parts s : Forall (λ c, str_all (not_char slash) c = true) (Split s slash).
Proof. destruct (Split_inv s slash) as (w & ws & -> & _ & H). done. Qed.

Lemma segments_filter cs : Forall (λ c, segment c = true) cs → filter (λ c, segment c = true) cs = cs.
Proof. induction 1 as [|c cs Hc _ IH]; [done|]. by rewrite filter_cons_True, IH. Qed.

Lemma Forall_filter_segments cs : Forall (λ c, segment c = true) (filter (λ c, segment c = true) cs).
Proof. apply list.Forall_forall. by intros c [? _]%list_elem_of_filter. Qed.

Lemma segment_not_dotdot c : segment c = true → c ≠ ".."%string.
Proof. by intros H ->. Qed.

Lemma PathJoin_no_dotdot base s :
  Forall (λ c, segment c = true) base → no_dotdot (Split s slash) →
  PathJoin (unsplit true base) s = unsplit true (base ++ segments_of s).
Proof.
  intros Hb Hd. rewrite PathJoin_fold, clean_no_dotdot by (done || apply Split_parts).
  by rewrite rev_app_distr, !rev_involutive.
Qed.

(** [Clean] keeps the segments and their order when there is no "..". *)
Lemma Clean_no_dotdot s :
  no_dotdot (Split s slash) →
  segments_of (Clean s) = segments_of s ∧ no_dotdot (Split (Clean s) slash) ∧
  Clean s = unsplit (rooted s) (segments_of s).
Proof.
  intros Hd. assert (Clean s = unsplit (rooted s) (segments_of s)) as E.
  { unfold Clean, clean_comps. by rewrite clean_no_dotdot, app_nil_r, rev_involutive by (done || apply Split_parts). }
  rewrite E. set (cs := segments_of s). assert (Forall (λ c, segment c = true) cs) as Hcs by apply Forall_filter_segments.
  assert (no_dotdot cs) as Hn by (revert Hcs; apply Forall_impl; exact segment_not_dotdot).
  assert (∀ c l, Forall (λ c, segment c = true) (c :: l) → Split (Join (c :: l) "/") slash = c :: l) as HJ.
  { intros c l Hl. rewrite Join_seps. by apply Split_join, segments_no_slash. }
  split; [|split; [|done]]; unfold unsplit; destruct (rooted s), cs as [|c l] eqn:Ec; try (vm_compute; repeat constructor; done).
  - cbn [Split]. rewrite Ascii.eqb_refl, HJ by done. rewrite filter_cons_False by done. by apply segments_filter.
  - rewrite HJ by done. by apply segments_filter.
  - cbn [Split]. rewrite Ascii.eqb_refl, HJ by done. by constructor.
  - by rewrite HJ.
Qed.

Lemma Contains_no_dotdot s : Contains s ".." = false → no_dotdot (Split s slash).
Proof.
  intros H. destruct (Split_inv s slash) as (w & ws & -> & Es & _). apply list.Forall_forall. intros c Hc ->.
  assert (Contains s ".." = true) as H'; [|congruence]. apply Contains_spec. rewrite Es. clear -Hc.
  apply elem_of_cons in Hc as [<-|Hc]; [by exists EmptyString, (seps slash ws)|].
  apply list_elem_of_split in Hc as (l1 & l2 & ->). rewrite seps_app. cbn [seps].
  exists (w +:+ (seps slash l1 +:+ String slash EmptyString)), (seps slash l2).
  by rewrite !str_app_assoc.
Qed.

Lemma unsplit_prefix bs cs : HasPrefix (unsplit true (bs ++ cs)) (unsplit true bs) = true.
Proof.
  unfold HasPrefix, unsplit. apply prefix_spec. destruct bs as [|b bs]; cbn [app].
  - exists (Join cs "/"). done.
  - exists (seps slash cs). rewrite !Join_seps, seps_app. by rewrite str_app_cons, str_app_assoc.
Qed.

Lemma rooted_unsplit cs : rooted (unsplit true cs) = true.
Proof. apply HasPrefix_head. Qed.

Lemma Clean_unsplit cs : Forall (λ c, segment c = true) cs → Clean (unsplit true cs) = unsplit true cs.
Proof.
  intros Hc. unfold Clean, clean_comps. rewrite rooted_unsplit. f_equal.
  unfold unsplit. destruct cs as [|c cs]; [done|].
  assert (String slash (Join (c :: cs) "/") = EmptyString +:+ seps slash (c :: cs)) as -> by (by rewrite Join_seps).
  rewrite Split_join by (constructor; [done|by apply segments_no_slash]).
  rewrite clean_no_dotdot, filter_cons_False, segments_filter, app_nil_r, rev_involutive; try done.
  - constructor; [done|by apply segments_no_slash].
  - constructor; [done|]. revert Hc. apply Forall_impl. exact segment_not_dotdot.
Qed.

Lemma JoinPath_cons base e es :
  base ≠ EmptyString → JoinPath (base :: e :: es) = PathJoin base (Join (e :: es) "/").
Proof.
  intros H. apply String.eqb_neq in H. cbn [JoinPath]. unfold PathJoin. rewrite H.
  by rewrite Join_cons.
Qed.

Lemma Base_segments base name :
  Forall (λ s, segment s = true) (base ++ [name]) → Base (unsplit true (base ++ [name])) = name.
Proof.
  intros H. unfold Base.
  assert (unsplit true (base ++ [name]) = EmptyString +:+ seps slash (base ++ [name])) as E
    by (unfold unsplit; destruct base; cbn [app]; by rewrite Join_seps).
  rewrite E, Split_join by (constructor; [done|by apply segments_no_slash]).
  rewrite app_comm_cons, rev_app_distr. cbn [rev app strip_slashes].
  apply Forall_app in H as [_ [Hn _]%Forall_cons_iff].
  destruct (String.eqb name EmptyString) eqn:En; [by apply String.eqb_eq in En as ->|].
  by destruct base.
Qed.

Lemma Ext_segments base name :
  Forall (λ s, segment s = true) (base ++ [name]) → Ext (unsplit true (base ++ [name])) = from_last_dot name.
Proof.
  intros H. unfold Ext.
  assert (unsplit true (base ++ [name]) = EmptyString +:+ seps slash (base ++ [name])) as E
    by (unfold unsplit; destruct base; cbn [app]; by rewrite Join_seps).
  rewrite E, Split_join by (constructor; [done|by apply segments_no_slash]).
  by rewrite app_comm_cons, last_snoc.
Qed.

Lemma from_last_dot_app a b :
  from_last_dot b ≠ EmptyString → from_last_dot (a +:+ b) = from_last_dot b.
Proof.
  intros H. induction a as [|c a IH]; [done|]. rewrite str_app_cons. cbn [from_last_dot]. rewrite IH.
  by destruct (from_last_dot b).
Qed.

(** A relative path whose cleaned form has no ".." stays below any base. *)

Lemma clean_dotdot_stays cs st : ".." ∈ st → ".." ∈ fold_left (clean_step false) cs st.
Proof.
  revert st. induction cs as [|c cs IH]; intros st H; [done|]. cbn [fold_left]. apply IH. unfold clean_step.
  destruct (String.eqb c EmptyString || String.eqb c "."); [done|].
  destruct (String.eqb c ".."); [|by right]. destruct st as [|top st]; [by apply elem_of_nil in H|].
  destruct (String.eqb_spec top ".."); [by right|]. apply elem_of_cons in H as [<-|H]; done.
Qed.

Lemma clean_below cs st base :
  ".." ∉ fold_left (clean_step false) cs st →
  fold_left (clean_step true) cs (st ++ base) = (fold_left (clean_step false) cs st ++ base)%list.
Proof.
  revert st. induction cs as [|c cs IH]; intros st H; [done|]. cbn [fold_left] in *.
  rewrite <- IH by done. f_equal. unfold clean_step in *.
  destruct (String.eqb c EmptyString || String.eqb c "."); [done|].
  destruct (String.eqb c ".."); [|done]. destruct st as [|top st].
  - destruct H. apply clean_dotdot_stays. by left.
  - cbn [app]. destruct (String.eqb top ".."); [|done]. destruct H. apply clean_dotdot_stays. by left.
Qed.

Lemma clean_parts root cs st :
  Forall (λ c, str_all (not_char slash) c = true) cs → Forall (λ c, c = ".." ∨ segment c = true) st →
  Forall (λ c, c = ".." ∨ segment c = true) (fold_left (clean_step root) cs st).
Proof.
  intros Hcs. revert st. induction Hcs as [|c cs Hc _ IH]; intros st H; [done|]. cbn [fold_left]. apply IH.
  unfold clean_step. destruct (String.eqb c EmptyString) eqn:E1, (String.eqb c ".") eqn:E2; cbn [orb]; try done.
  destruct (String.eqb c "..") eqn:E3.
  - destruct st as [|top st]; [destruct root; repeat constructor; done|]. apply Forall_cons_iff in H as [H1 H2].
    destruct (String.eqb top ".."); [|done]. repeat (apply Forall_cons_iff; split); auto.
  - apply Forall_cons_iff. split; [right|done]. unfold segment. by rewrite E1, E2, E3, Hc.
Qed.

Lemma PathJoin_below base p :
  Forall (λ c, segment c = true) base → rooted p = false → Contains (Clean p) ".." = false →
  ∃ cs, Forall (λ c, segment c = true) cs ∧ PathJoin (unsplit true base) p = unsplit true (base ++ cs).
Proof.
  intros Hb Hr Hc. set (cs := fold_left (clean_step false) (Split p slash) []).
  assert (Forall (λ c, c = ".." ∨ segment c = true) cs) as Hcs by (apply clean_parts; [apply Split_parts|constructor]).
  assert (".." ∉ cs) as Hd.
  { intros Hin. apply list_elem_of_split in Hin as (l1 & l2 & E).
    assert (Contains (Clean p) ".." = true) as H'; [|congruence].
    unfold Clean, clean_comps. rewrite Hr. fold cs. rewrite E, rev_app_distr. cbn [rev]. rewrite <- app_assoc.
    cbn [app]. destruct (rev l2) as [|x xs]; cbn [app unsplit].
    - rewrite Join_seps. apply Contains_spec. by exists EmptyString, (seps slash (rev l1)).
    - rewrite Join_seps, seps_app. cbn [seps]. apply Contains_spec.
      exists (x +:+ (seps slash xs +:+ String slash EmptyString)), (seps slash (rev l1)).
      by rewrite !str_app_assoc. }
  exists (rev cs). split.
  { apply list.Forall_forall. intros c Hin. rewrite list.Forall_forall in Hcs.
    rewrite list_elem_of_In, <- in_rev, <- list_elem_of_In in Hin. destruct (Hcs c Hin) as [->|]; done. }
  pose proof (clean_below (Split p slash) [] (rev base) Hd) as E. cbn [app] in E.
  rewrite PathJoin_fold, E by done. by rewrite rev_app_distr, rev_involutive.
Qed.

(** ** Lemmas: names joined by slashes, whatever slashes surround them *)

(** A part of a path: not empty, without a slash. *)
Definition path_part (p : string) : bool := negb (String.eqb p EmptyString) && str_all (not_char "/") p.

Lemma path_part_starts p : path_part p = true → starts_without "/" p = true ∧ starts_without "/" (String.rev p) = true.
Proof.
  unfold path_part. intros [Hp Hs]%andb_true_iff. destruct (String.eqb_spec p EmptyString); [done|].
  split; [destruct p; [done|]; by cbn in Hs |- *; apply andb_true_iff in Hs as [? _]|].
  rewrite <- str_all_rev in Hs. destruct (String.rev p) as [|c r] eqn:E.
  - destruct n. by rewrite <- (str_rev_involutive p), E.
  - cbn in Hs |- *. by apply andb_true_iff in Hs as [? _].
Qed.

Lemma Join_ends parts :
  parts ≠ [] → Forall (λ p, path_part p = true) parts →
  starts_without "/" (Join parts "/") = true ∧ starts_without "/" (String.rev (Join parts "/")) = true.
Proof.
  intros Hne H. assert (∀ a s, starts_without "/" a = true → starts_without "/" (a +:+ s) = true) as Happ by (by intros [|c a] s).
  induction H as [|p parts Hp Hps IH]; [done|]. apply path_part_starts in Hp as [H1 H2]. rewrite Join_cons.
  destruct parts as [|q parts]; [done|]. destruct IH as [_ IH]; [done|]. split; [by apply Happ|].
  rewrite !str_rev_app_distr, str_app_assoc. by apply Happ.
Qed.

Lemma Split_slashes lead parts trail :
  str_all (λ d, Ascii.eqb d "/") lead = true → str_all (λ d, Ascii.eqb d "/") trail = true →
  parts ≠ [] → Forall (λ p, path_part p = true) parts →
  trim_char "/" (lead +:+ (Join parts "/" +:+ trail)) = Join parts "/" ∧ Join parts "/" ≠ EmptyString ∧
  Split (Join parts "/") "/" = parts.
Proof.
  intros Hl Ht Hne H. destruct (Join_ends parts Hne H) as [H1 H2]. split; [by apply trim_char_around|].
  split; [by intros E; rewrite E in H1|]. destruct parts as [|p parts]; [done|]. rewrite Join_seps. apply Split_join.
  eapply list.Forall_impl; [exact H|]. intros q. unfold path_part. by intros [_ ?]%andb_true_iff.
Qed.
