(* ===== verification/GoBase64.v ===== *)
(** * GoBase64: what the code uses of Go's [encoding/base64]

    [StdEncoding], [URLEncoding] and [RawURLEncoding], encoding and decoding.
    The decoder is the non-strict one of the package: it skips carriage returns
    and line feeds and does not look at the bits that pad the last quantum. *)

From Stdlib Require Import Ascii.
From S2P Require Import Prelude GoStrings.

Record encoding := mkEncoding { alphabet : string; padded : bool }.

Definition std_alphabet : string := "ABCDEFGHIJKLMNOPQRSTUVWXYZabcdefghijklmnopqrstuvwxyz0123456789+/".
Definition url_alphabet : string := "ABCDEFGHIJKLMNOPQRSTUVWXYZabcdefghijklmnopqrstuvwxyz0123456789-_".

Definition StdEncoding : encoding := mkEncoding std_alphabet true.
Definition URLEncoding : encoding := mkEncoding url_alphabet true.
Definition RawURLEncoding : encoding := mkEncoding url_alphabet false.

Definition pad_char : ascii := "=".

Definition byte (z : Z) : ascii := ascii_of_nat (Z.to_nat z).

(** The symbol of a 6-bit value, and the value of a symbol. *)
Definition symbol (e : encoding) (v : Z) : ascii := default pad_char (String.get (Z.to_nat v) (alphabet e)).

Fixpoint index_of (c : ascii) (s : string) : option Z :=
  match s with
  | EmptyString => None
  | String d s => if Ascii.eqb c d then Some 0 else (λ i, i + 1) <$> index_of c s
  end.
Definition value (e : encoding) (c : ascii) : option Z := index_of c (alphabet e).

Definition padding (e : encoding) (n : nat) (s : string) : string :=
  if padded e then String.concat EmptyString (replicate n (String pad_char EmptyString)) +:+ s else s.

(** [enc.EncodeToString(src)]. *)
Fixpoint EncodeToString (e : encoding) (s : string) : string :=
  match s with
  | EmptyString => EmptyString
  | String a EmptyString =>
      let v := byte_of a * 16 in
      String (symbol e (v / 64)) (String (symbol e (v mod 64)) (padding e 2 EmptyString))
  | String a (String b EmptyString) =>
      let v := (byte_of a * 256 + byte_of b) * 4 in
      String (symbol e (v / 4096)) (String (symbol e (v / 64 mod 64))
        (String (symbol e (v mod 64)) (padding e 1 EmptyString)))
  | String a (String b (String c s)) =>
      let v := (byte_of a * 256 + byte_of b) * 256 + byte_of c in
      String (symbol e (v / 262144)) (String (symbol e (v / 4096 mod 64))
        (String (symbol e (v / 64 mod 64)) (String (symbol e (v mod 64)) (EncodeToString e s))))
  end.

Definition is_newline (c : ascii) : bool := Ascii.eqb c "010" || Ascii.eqb c "013".

Fixpoint skip_newlines (s : string) : string :=
  match s with
  | EmptyString => EmptyString
  | String c s => if is_newline c then skip_newlines s else String c (skip_newlines s)
  end.

Definition is_pad (e : encoding) (c : ascii) : bool := padded e && Ascii.eqb c pad_char.

(** The bytes of a quantum of two or of three symbols. *)
Definition two (a b : Z) : string := String (byte ((a * 64 + b) / 16)) EmptyString.
Definition three (a b c : Z) : string :=
  let v := (a * 64 + b) * 64 + c in
  String (byte (v / 1024)) (String (byte (v / 4 mod 256)) EmptyString).

(** [enc.decodeQuantum], repeatedly: a quantum is four symbols, the last one may be
    shorter, and then is padded when the encoding is. *)
Fixpoint decode_go (e : encoding) (s : string) : option string :=
  match s with
  | EmptyString => Some EmptyString
  | String c0 (String c1 s) =>
      a ← value e c0; b ← value e c1;
      match s with
      | EmptyString => if padded e then None else Some (two a b)
      | String c2 s =>
          match value e c2 with
          | None =>
              match s with
              | String c3 EmptyString => if is_pad e c2 && is_pad e c3 then Some (two a b) else None
              | _ => None
              end
          | Some c =>
              match s with
              | EmptyString => if padded e then None else Some (three a b c)
              | String c3 s =>
                  match value e c3 with
                  | None => match s with
                            | EmptyString => if is_pad e c3 then Some (three a b c) else None
                            | _ => None
                            end
                  | Some d =>
                      let v := ((a * 64 + b) * 64 + c) * 64 + d in
                      (λ r, String (byte (v / 65536)) (String (byte (v / 256 mod 256)) (String (byte (v mod 256)) r)))
                        <$> decode_go e s
                  end
              end
          end
      end
  | _ => None
  end.

(** [enc.DecodeString(s)], [None] being a [CorruptInputError]. *)
Definition DecodeString (e : encoding) (s : string) : option string := decode_go e (skip_newlines s).

Example decode_std : DecodeString StdEncoding "dXNlcjpwYXNzd29yZA==" = Some "user:password"%string.
Proof. reflexivity. Qed.
Example encode_url : EncodeToString URLEncoding "user:password" = "dXNlcjpwYXNzd29yZA=="%string.
Proof. reflexivity. Qed.
Example decode_unpadded : DecodeString StdEncoding "dXNlcjpwYXNzd29yZA" = None.
Proof. reflexivity. Qed.

(** ** Round trip *)

Ltac Zify.zify_post_hook ::= Z.div_mod_to_equations.

Definition proper_encoding (e : encoding) : Prop := e = StdEncoding ∨ e = URLEncoding ∨ e = RawURLEncoding.

Lemma sextet_ind (P : Z → bool) :
  forallb (λ n, P (Z.of_nat n)) (seq 0 64) = true → ∀ v, 0 <= v < 64 → P v = true.
Proof.
  intros H v Hv. rewrite forallb_forall in H. specialize (H (Z.to_nat v)).
  rewrite Z2Nat.id in H by lia. apply H, in_seq. lia.
Qed.

Lemma value_symbol e v : proper_encoding e → 0 <= v < 64 → value e (symbol e v) = Some v.
Proof.
  intros He Hv.
  enough (bool_decide (value e (symbol e v) = Some v) = true) by by eapply bool_decide_eq_true_1.
  revert v Hv. apply (sextet_ind (λ v, bool_decide (value e (symbol e v) = Some v))).
  destruct He as [-> | [-> | ->]]; vm_compute; reflexivity.
Qed.

Lemma symbol_not_newline e v : proper_encoding e → 0 <= v < 64 → is_newline (symbol e v) = false.
Proof.
  intros He Hv. apply negb_true_iff. revert v Hv. apply (sextet_ind (λ v, negb (is_newline (symbol e v)))).
  destruct He as [-> | [-> | ->]]; vm_compute; reflexivity.
Qed.

Lemma symbol_url v : 0 <= v < 64 → symbol URLEncoding v = symbol RawURLEncoding v.
Proof. done. Qed.

Lemma value_pad e : proper_encoding e → value e pad_char = None.
Proof. by intros [-> | [-> | ->]]. Qed.

Lemma byte_eq z c : z = byte_of c → byte z = c.
Proof. intros ->. unfold byte, byte_of. by rewrite Nat2Z.id, ascii_nat_embedding. Qed.

(** Induction on a string three bytes at a time. *)
Lemma string_ind3 (P : string → Prop) :
  P EmptyString → (∀ a, P (String a EmptyString)) → (∀ a b, P (String a (String b EmptyString))) →
  (∀ a b c s, P s → P (String a (String b (String c s)))) → ∀ s, P s.
Proof.
  intros H0 H1 H2 H3. fix IH 1. intros [|a [|b [|c s]]]; [apply H0|apply H1|apply H2|apply H3, IH].
Qed.

Lemma skip_newlines_encoded e s : proper_encoding e → skip_newlines (EncodeToString e s) = EncodeToString e s.
Proof.
  intros He. induction s as [|a|a b|a b c s IH] using string_ind3; [done| | |];
    pose proof (byte_of_range a); try pose proof (byte_of_range b); try pose proof (byte_of_range c);
    cbn [EncodeToString skip_newlines]; cbn zeta.
  - rewrite !symbol_not_newline by (done || lia). by destruct He as [-> | [-> | ->]].
  - rewrite !symbol_not_newline by (done || lia). by destruct He as [-> | [-> | ->]].
  - rewrite !symbol_not_newline by (done || lia). by rewrite IH.
Qed.

Lemma decode_encode e s : proper_encoding e → decode_go e (EncodeToString e s) = Some s.
Proof.
  intros He. induction s as [|a|a b|a b c s IH] using string_ind3; [done| | |];
    pose proof (byte_of_range a); try pose proof (byte_of_range b); try pose proof (byte_of_range c);
    cbn [EncodeToString decode_go]; cbn zeta;
    rewrite !value_symbol by (done || lia); cbn [mbind option_bind].
  - assert (two (byte_of a * 16 / 64) ((byte_of a * 16) mod 64) = String a EmptyString) as E.
    { unfold two. by rewrite (byte_eq _ a) by lia. }
    destruct He as [-> | [-> | ->]]; unfold padding; cbn [padded StdEncoding URLEncoding RawURLEncoding];
      [| |by rewrite E]; cbn; by rewrite E.
  - set (v := (byte_of a * 256 + byte_of b) * 4).
    assert (three (v / 4096) (v / 64 mod 64) (v mod 64) = String a (String b EmptyString)) as E.
    { unfold three. by rewrite (byte_eq _ a), (byte_eq _ b) by (unfold v; lia). }
    destruct He as [-> | [-> | ->]]; unfold padding; cbn [padded StdEncoding URLEncoding RawURLEncoding];
      [| |by rewrite E]; cbn -[three Z.div Z.modulo]; by rewrite E.
  - rewrite IH. cbn [fmap option_fmap option_map]. f_equal.
    set (v := (byte_of a * 256 + byte_of b) * 256 + byte_of c).
    replace (((v / 262144 * 64 + v / 4096 mod 64) * 64 + v / 64 mod 64) * 64 + v mod 64) with v by lia.
    by rewrite (byte_eq _ a), (byte_eq _ b), (byte_eq _ c) by (unfold v; lia).
Qed.

Lemma DecodeString_EncodeToString e s : proper_encoding e → DecodeString e (EncodeToString e s) = Some s.
Proof. intros He. unfold DecodeString. rewrite skip_newlines_encoded by done. by apply decode_encode. Qed.

(** Every character of an encoding is a symbol or a pad. *)
Lemma EncodeToString_chars (p : ascii → bool) e s :
  (∀ v, 0 <= v < 64 → p (symbol e v) = true) → padded e = false ∨ p pad_char = true →
  str_all p (EncodeToString e s) = true.
Proof.
  intros Hp He.
  assert (∀ n, (n <= 2)%nat → str_all p (padding e n EmptyString) = true) as Hpad.
  { intros n Hn. unfold padding. destruct He as [-> |He]; [done|]. destruct (padded e); [|done].
    destruct n as [|[|[|n]]]; [done| | |lia]; cbn [replicate String.concat]; rewrite !str_all_app; cbn -[pad_char]; by rewrite He. }
  induction s as [|a|a b|a b c s IH] using string_ind3; [done| | |];
    pose proof (byte_of_range a); try pose proof (byte_of_range b); try pose proof (byte_of_range c);
    cbn [EncodeToString str_all]; cbn zeta; rewrite !Hp by lia; cbn [andb]; auto.
Qed.

Lemma raw_url_char (p : ascii → bool) s :
  forallb (λ n, p (symbol RawURLEncoding (Z.of_nat n))) (seq 0 64) = true →
  str_all p (EncodeToString RawURLEncoding s) = true.
Proof.
  intros H. apply EncodeToString_chars; [|by left].
  by apply (sextet_ind (λ v, p (symbol RawURLEncoding v))).
Qed.

Lemma EncodeToString_nonempty e s : s ≠ EmptyString → EncodeToString e s ≠ EmptyString.
Proof. by destruct s as [|a [|b [|c s]]]. Qed.
