(* ===== verification/GoHashes.v ===== *)
(** * GoHashes: [crypto/sha256], [crypto/md5], [crypto/sha1], [crypto/sha512] and [encoding/hex]

    The digests of FIPS 180-4 and RFC 1321 over the bytes of a string, [hex_encode], the
    lower-case hexadecimal text of bytes, test vectors and the lengths of the texts.  The
    round constants are computed from their definition (fractional parts of roots of
    primes). *)

From Stdlib Require Import Ascii.
From S2P Require Import Prelude GoStrings.

(** ** Words of 32 bits *)

Definition mask32 : Z := Z.ones 32.
Definition add32 (x y : Z) : Z := Z.land (x + y) mask32.
Definition rotr (n x : Z) : Z := Z.lor (Z.shiftr x n) (Z.land (Z.shiftl x (32 - n)) mask32).
Definition not32 (x : Z) : Z := Z.lxor x mask32.
Definition xor3 (x y z : Z) : Z := Z.lxor x (Z.lxor y z).

Definition big_sigma0 (x : Z) : Z := xor3 (rotr 2 x) (rotr 13 x) (rotr 22 x).
Definition big_sigma1 (x : Z) : Z := xor3 (rotr 6 x) (rotr 11 x) (rotr 25 x).
Definition small_sigma0 (x : Z) : Z := xor3 (rotr 7 x) (rotr 18 x) (Z.shiftr x 3).
Definition small_sigma1 (x : Z) : Z := xor3 (rotr 17 x) (rotr 19 x) (Z.shiftr x 10).
Definition choose (x y z : Z) : Z := Z.lxor (Z.land x y) (Z.land (not32 x) z).
Definition majority (x y z : Z) : Z := xor3 (Z.land x y) (Z.land x z) (Z.land y z).

(** ** Constants *)

(** The largest [r < acc + 2^bits] with [r^e <= n], bit by bit. *)
Fixpoint root_go (e : Z) (bits : nat) (n acc : Z) : Z :=
  match bits with
  | O => acc
  | S b => let c := acc + 2 ^ Z.of_nat b in root_go e b n (if c ^ e <=? n then c else acc)
  end.

Definition is_prime (n : nat) : bool := forallb (λ d, negb (Nat.eqb (n mod d) 0)) (seq 2 (n - 2)).
Definition primes : list Z := Z.of_nat <$> List.filter is_prime (seq 2 310).

(** The first 32 bits of the fractional part of the [e]-th root. *)
Definition root_frac (e p : Z) : Z := Z.land (root_go e 37 (p * 2 ^ (32 * e)) 0) mask32.

Definition round_constants : list Z := Eval vm_compute in root_frac 3 <$> primes.
Definition initial_state : list Z := Eval vm_compute in root_frac 2 <$> take 8 primes.

(** ** Compression *)

(** The message schedule, newest word first. *)
Fixpoint expand (n : nat) (w : list Z) : list Z :=
  match n with
  | O => w
  | S n =>
      let at_ i := nth i w 0 in
      expand n (add32 (add32 (small_sigma1 (at_ 1%nat)) (at_ 6%nat))
                      (add32 (small_sigma0 (at_ 14%nat)) (at_ 15%nat)) :: w)
  end.
Definition schedule (block : list Z) : list Z := rev (expand 48 (rev block)).

Definition round (st : list Z) (kw : Z * Z) : list Z :=
  match st with
  | [a; b; c; d; e; f; g; h] =>
      let t1 := add32 (add32 h (big_sigma1 e)) (add32 (choose e f g) (add32 kw.1 kw.2)) in
      let t2 := add32 (big_sigma0 a) (majority a b c) in
      [add32 t1 t2; a; b; c; add32 d t1; e; f; g]
  | _ => st
  end.

Definition compress (st block : list Z) : list Z :=
  zip_with add32 st (fold_left round (zip round_constants (schedule block)) st).

(** ** Padding and blocks *)

Definition bytes_of (s : string) : list Z := byte_of <$> String.list_ascii_of_string s.

Fixpoint be_bytes (n : nat) (v : Z) : list Z :=
  match n with O => [] | S n => Z.land (Z.shiftr v (8 * Z.of_nat n)) 255 :: be_bytes n v end.

Definition pad (m : list Z) : list Z :=
  let len := Z.of_nat (length m) in
  (m ++ [128] ++ replicate (Z.to_nat ((55 - len) mod 64)) 0 ++ be_bytes 8 (8 * len))%list.

Fixpoint words (m : list Z) : list Z :=
  match m with
  | a :: b :: c :: d :: m => (((a * 256 + b) * 256 + c) * 256 + d) :: words m
  | _ => []
  end.

Fixpoint blocks (fuel : nat) (st ws : list Z) : list Z :=
  match fuel, ws with
  | S fuel, _ :: _ => blocks fuel (compress st (take 16 ws)) (drop 16 ws)
  | _, _ => st
  end.

(** [sha256.Sum256], as 32 bytes. *)
Definition Sum256 (s : string) : list Z :=
  let ws := words (pad (bytes_of s)) in
  mbind (be_bytes 4) (blocks (length ws) initial_state ws).

(** ** Hexadecimal text *)

Definition hex_digit (v : Z) : ascii := default "0"%char (String.get (Z.to_nat v) "0123456789abcdef").

(** [hex.EncodeToString]. *)
Fixpoint hex_encode (bs : list Z) : string :=
  match bs with
  | [] => EmptyString
  | b :: bs => String (hex_digit (b / 16)) (String (hex_digit (b mod 16)) (hex_encode bs))
  end.

(** [hex.EncodeToString(hash.Sum(nil))]. *)
Definition sha256_hex (s : string) : string := hex_encode (Sum256 s).

Definition is_hex (c : ascii) : bool := in_range 48 57 c || in_range 97 102 c.

(** Test vectors of the standard. *)
Example sha256_abc :
  sha256_hex "abc" = "ba7816bf8f01cfea414140de5dae2223b00361a396177a9cb410ff61f20015ad"%string.
Proof. vm_compute. reflexivity. Qed.

Example sha256_empty :
  sha256_hex "" = "e3b0c44298fc1c149afbf4c8996fb92427ae41e4649b934ca495991b7852b855"%string.
Proof. vm_compute. reflexivity. Qed.

Example sha256_two_blocks :
  sha256_hex "abcdbcdecdefdefgefghfghighijhijkijkljklmklmnlmnomnopnopq"
  = "248d6a61d20638b8e5c026930c3e6039a33ce45964ff2167f6ecedd419db06c1"%string.
Proof. vm_compute. reflexivity. Qed.

(** ** Shape of a digest *)

Lemma be_bytes_range n v : Forall (λ b, 0 <= b < 256) (be_bytes n v).
Proof.
  induction n as [|n IH]; [constructor|]. cbn [be_bytes]. constructor; [|done].
  change 255 with (Z.ones 8). rewrite Z.land_ones by lia. apply Z.mod_pos_bound. lia.
Qed.

Lemma be_bytes_length n v : length (be_bytes n v) = n.
Proof. induction n as [|n IH]; [done|]. cbn [be_bytes length]. by rewrite IH. Qed.

Lemma round_length st kw : length st = 8%nat → length (round st kw) = 8%nat.
Proof. intros H. do 9 (destruct st as [|? st]; try done). Qed.

Lemma rounds_length ks st : length st = 8%nat → length (fold_left round ks st) = 8%nat.
Proof. revert st. induction ks as [|k ks IH]; intros st H; [done|]. cbn [fold_left]. apply IH, round_length, H. Qed.

Lemma compress_length st b : length st = 8%nat → length (compress st b) = 8%nat.
Proof. intros H. unfold compress. rewrite length_zip_with, rounds_length by done. lia. Qed.

Lemma blocks_length n st ws : length st = 8%nat → length (blocks n st ws) = 8%nat.
Proof.
  revert st ws. induction n as [|n IH]; intros st ws H; [done|]. cbn [blocks].
  destruct ws as [|w ws]; [done|]. apply IH, compress_length, H.
Qed.

Lemma Sum256_shape s : length (Sum256 s) = 32%nat ∧ Forall (λ b, 0 <= b < 256) (Sum256 s).
Proof.
  unfold Sum256. set (st := blocks _ _ _).
  assert (length st = 8%nat) as H by (by apply blocks_length). clearbody st. split.
  - do 9 (destruct st as [|? st]; try done).
  - induction st as [|w st IH] in |- *; cbn -[be_bytes]; [constructor|].
    apply Forall_app. split; [apply be_bytes_range|apply IH].
Qed.

Lemma hex_encode_length bs : String.length (hex_encode bs) = (2 * length bs)%nat.
Proof. induction bs as [|b bs IH]; [done|]. cbn [hex_encode String.length length]. lia. Qed.

Lemma hex_digit_hex v : 0 <= v < 16 → is_hex (hex_digit v) = true.
Proof.
  intros H. unfold hex_digit.
  assert (Z.to_nat v < 16)%nat as Hn by lia. revert Hn. generalize (Z.to_nat v). intros n Hn.
  do 16 (destruct n as [|n]; [reflexivity|]). lia.
Qed.

Lemma hex_encode_hex bs : Forall (λ b, 0 <= b < 256) bs → str_all is_hex (hex_encode bs) = true.
Proof.
  induction 1 as [|b bs Hb _ IH]; [done|]. cbn [hex_encode str_all]. rewrite IH, !hex_digit_hex; [done|..].
  - apply Z.mod_pos_bound. lia.
  - split; [apply Z.div_pos; lia|apply Z.div_lt_upper_bound; lia].
Qed.

Lemma sha256_hex_shape s :
  String.length (sha256_hex s) = 64%nat ∧ str_all is_hex (sha256_hex s) = true.
Proof.
  destruct (Sum256_shape s) as [H1 H2]. unfold sha256_hex. split.
  - by rewrite hex_encode_length, H1.
  - by apply hex_encode_hex.
Qed.

(** ** The other digests *)

(** ** Blocks of words, by any compression function *)

Section blocks.
Context (compress : list Z → list Z → list Z) (size : nat).

(** One block per step; there are at most as many as words. *)
Fixpoint blocks_with (fuel : nat) (st ws : list Z) : list Z :=
  match fuel, ws with
  | S fuel, _ :: _ => blocks_with fuel (compress st (take size ws)) (drop size ws)
  | _, _ => st
  end.

Lemma blocks_with_length k :
  (∀ st b, length st = k → length (compress st b) = k) →
  ∀ n st ws, length st = k → length (blocks_with n st ws) = k.
Proof.
  intros Hc n. induction n as [|n IH]; intros st ws H; [done|]. cbn [blocks_with].
  destruct ws as [|w ws]; [done|]. apply IH, Hc, H.
Qed.
End blocks.

Lemma fold_length {A} (f : list Z → A → list Z) k l st :
  (∀ st x, length st = k → length (f st x) = k) → length st = k → length (fold_left f l st) = k.
Proof. intros Hf. revert st. induction l as [|x l IH]; intros st H; [done|]. cbn [fold_left]. by apply IH, Hf. Qed.

Definition rotl (n x : Z) : Z := rotr (32 - n) x.

(** ** SHA-1 *)

Fixpoint expand1 (n : nat) (w : list Z) : list Z :=
  match n with
  | O => w
  | S n =>
      let at_ i := nth i w 0 in
      expand1 n (rotl 1 (Z.lxor (Z.lxor (at_ 2%nat) (at_ 7%nat)) (Z.lxor (at_ 13%nat) (at_ 15%nat))) :: w)
  end.

(** The function and the constant of round [t]. *)
Definition f1 (t : nat) (b c d : Z) : Z * Z :=
  if (t <? 20)%nat then (choose b c d, 1518500249)
  else if (t <? 40)%nat then (xor3 b c d, 1859775393)
  else if (t <? 60)%nat then (majority b c d, 2400959708)
  else (xor3 b c d, 3395469782).

Definition round1 (st : list Z) (tw : nat * Z) : list Z :=
  match st with
  | [a; b; c; d; e] =>
      let '(f, k) := f1 tw.1 b c d in
      [add32 (add32 (rotl 5 a) f) (add32 e (add32 k tw.2)); a; rotl 30 b; c; d]
  | _ => st
  end.

Definition compress1 (st block : list Z) : list Z :=
  zip_with add32 st (fold_left round1 (zip (seq 0 80) (rev (expand1 64 (rev block)))) st).

(** [sha1.Sum]. *)
Definition Sum1 (s : string) : list Z :=
  let ws := words (pad (bytes_of s)) in
  mbind (be_bytes 4) (blocks_with compress1 16 (length ws) [1732584193; 4023233417; 2562383102; 271733878; 3285377520] ws).
Definition sha1_hex (s : string) : string := hex_encode (Sum1 s).

Example sha1_abc : sha1_hex "abc" = "a9993e364706816aba3e25717850c26c9cd0d89d"%string.
Proof. vm_compute. reflexivity. Qed.
Example sha1_two_blocks :
  sha1_hex "abcdbcdecdefdefgefghfghighijhijkijkljklmklmnlmnomnopnopq" = "84983e441c3bd26ebaae4aa1f95129e5e54670f1"%string.
Proof. vm_compute. reflexivity. Qed.

(** ** MD5, with the bytes of a word in the other order *)

Definition le_bytes (n : nat) (v : Z) : list Z := rev (be_bytes n v).

Fixpoint le_words (m : list Z) : list Z :=
  match m with
  | a :: b :: c :: d :: m => (((d * 256 + c) * 256 + b) * 256 + a) :: le_words m
  | _ => []
  end.

Definition pad5 (m : list Z) : list Z :=
  let len := Z.of_nat (length m) in
  (m ++ [128] ++ replicate (Z.to_nat ((55 - len) mod 64)) 0 ++ le_bytes 8 (8 * len))%list.

(** The constant of round [i] is the whole part of [2^32 * abs (sin (i + 1))]. *)
Definition sines : list Z :=
  [3614090360; 3905402710; 606105819; 3250441966; 4118548399; 1200080426; 2821735955; 4249261313; 1770035416;
   2336552879; 4294925233; 2304563134; 1804603682; 4254626195; 2792965006; 1236535329; 4129170786; 3225465664;
   643717713; 3921069994; 3593408605; 38016083; 3634488961; 3889429448; 568446438; 3275163606; 4107603335;
   1163531501; 2850285829; 4243563512; 1735328473; 2368359562; 4294588738; 2272392833; 1839030562; 4259657740;
   2763975236; 1272893353; 4139469664; 3200236656; 681279174; 3936430074; 3572445317; 76029189; 3654602809;
   3873151461; 530742520; 3299628645; 4096336452; 1126891415; 2878612391; 4237533241; 1700485571; 2399980690;
   4293915773; 2240044497; 1873313359; 4264355552; 2734768916; 1309151649; 4149444226; 3174756917; 718787259;
   3951481745].

Definition shifts : list Z :=
  mbind (λ l : list Z, (l ++ l ++ l ++ l)%list) [[7; 12; 17; 22]; [5; 9; 14; 20]; [4; 11; 16; 23]; [6; 10; 15; 21]].

(** The function of round [i] and the word it takes. *)
Definition f5 (i : nat) (b c d : Z) : Z * nat :=
  if (i <? 16)%nat then (Z.lor (Z.land b c) (Z.land (not32 b) d), i)
  else if (i <? 32)%nat then (Z.lor (Z.land d b) (Z.land (not32 d) c), ((5 * i + 1) mod 16)%nat)
  else if (i <? 48)%nat then (xor3 b c d, ((3 * i + 5) mod 16)%nat)
  else (Z.lxor c (Z.lor b (not32 d)), ((7 * i) mod 16)%nat).

Definition round5 (block : list Z) (st : list Z) (i : nat) : list Z :=
  match st with
  | [a; b; c; d] =>
      let '(f, g) := f5 i b c d in
      let f := add32 (add32 f a) (add32 (nth i sines 0) (nth g block 0)) in
      [d; add32 b (rotl (nth i shifts 0) f); b; c]
  | _ => st
  end.

Definition compress5 (st block : list Z) : list Z := zip_with add32 st (fold_left (round5 block) (seq 0 64) st).

(** [md5.Sum]. *)
Definition Sum5 (s : string) : list Z :=
  let ws := le_words (pad5 (bytes_of s)) in
  mbind (le_bytes 4) (blocks_with compress5 16 (length ws) [1732584193; 4023233417; 2562383102; 271733878] ws).
Definition md5_hex (s : string) : string := hex_encode (Sum5 s).

Example md5_abc : md5_hex "abc" = "900150983cd24fb0d6963f7d28e17f72"%string ∧ md5_hex "" = "d41d8cd98f00b204e9800998ecf8427e"%string.
Proof. vm_compute. split; reflexivity. Qed.
Example md5_two_blocks :
  md5_hex "12345678901234567890123456789012345678901234567890123456789012345678901234567890" = "57edf4a22be3c955ac49da2e2107b67a"%string.
Proof. vm_compute. reflexivity. Qed.

(** ** SHA-512 and SHA-384, on words of 64 bits *)

Definition mask64 : Z := Z.ones 64.
Definition add64 (x y : Z) : Z := Z.land (x + y) mask64.
Definition rotr64 (n x : Z) : Z := Z.lor (Z.shiftr x n) (Z.land (Z.shiftl x (64 - n)) mask64).

Definition big_sigma0_64 (x : Z) : Z := xor3 (rotr64 28 x) (rotr64 34 x) (rotr64 39 x).
Definition big_sigma1_64 (x : Z) : Z := xor3 (rotr64 14 x) (rotr64 18 x) (rotr64 41 x).
Definition small_sigma0_64 (x : Z) : Z := xor3 (rotr64 1 x) (rotr64 8 x) (Z.shiftr x 7).
Definition small_sigma1_64 (x : Z) : Z := xor3 (rotr64 19 x) (rotr64 61 x) (Z.shiftr x 6).
Definition choose64 (x y z : Z) : Z := Z.lxor (Z.land x y) (Z.land (Z.lxor x mask64) z).

Definition primes80 : list Z := Z.of_nat <$> List.filter is_prime (seq 2 408).
Definition root_frac64 (e p : Z) : Z := Z.land (root_go e 69 (p * 2 ^ (64 * e)) 0) mask64.
Definition round_constants64 : list Z := Eval vm_compute in root_frac64 3 <$> primes80.
Definition initial_state512 : list Z := Eval vm_compute in root_frac64 2 <$> take 8 primes80.
Definition initial_state384 : list Z := Eval vm_compute in root_frac64 2 <$> take 8 (drop 8 primes80).

Fixpoint expand64 (n : nat) (w : list Z) : list Z :=
  match n with
  | O => w
  | S n =>
      let at_ i := nth i w 0 in
      expand64 n (add64 (add64 (small_sigma1_64 (at_ 1%nat)) (at_ 6%nat))
                        (add64 (small_sigma0_64 (at_ 14%nat)) (at_ 15%nat)) :: w)
  end.

Definition round64 (st : list Z) (kw : Z * Z) : list Z :=
  match st with
  | [a; b; c; d; e; f; g; h] =>
      let t1 := add64 (add64 h (big_sigma1_64 e)) (add64 (choose64 e f g) (add64 kw.1 kw.2)) in
      let t2 := add64 (big_sigma0_64 a) (majority a b c) in
      [add64 t1 t2; a; b; c; add64 d t1; e; f; g]
  | _ => st
  end.

Definition compress64 (st block : list Z) : list Z :=
  zip_with add64 st (fold_left round64 (zip round_constants64 (rev (expand64 64 (rev block)))) st).

Definition pad64 (m : list Z) : list Z :=
  let len := Z.of_nat (length m) in
  (m ++ [128] ++ replicate (Z.to_nat ((111 - len) mod 128)) 0 ++ be_bytes 16 (8 * len))%list.

Fixpoint pair_words (ws : list Z) : list Z :=
  match ws with a :: b :: ws => (a * 2 ^ 32 + b) :: pair_words ws | _ => [] end.

Definition state64 (init : list Z) (s : string) : list Z :=
  let ws := pair_words (words (pad64 (bytes_of s))) in blocks_with compress64 16 (length ws) init ws.

(** [sha512.Sum512] and [sha512.Sum384]. *)
Definition Sum512 (s : string) : list Z := mbind (be_bytes 8) (state64 initial_state512 s).
Definition Sum384 (s : string) : list Z := mbind (be_bytes 8) (take 6 (state64 initial_state384 s)).
Definition sha512_hex (s : string) : string := hex_encode (Sum512 s).

Example sha512_abc :
  sha512_hex "abc" = "ddaf35a193617abacc417349ae20413112e6fa4e89a97ea20a9eeee64b55d39a2192992a274fc1a836ba3c23a3feebbd454d4423643ce80e2a9ac94fa54ca49f"%string.
Proof. vm_compute. reflexivity. Qed.
Example sha384_abc :
  hex_encode (Sum384 "abc") = "cb00753f45a35e8bb5a03d699ac65007272c32ab0eded1631a8b605a43ff5bed8086072ba1e7cc2358baeca134c825a7"%string.
Proof. vm_compute. reflexivity. Qed.

(** ** Lengths and characters of the texts *)

Lemma bytes_of_words n (st : list Z) :
  length (mbind (be_bytes n) st) = (n * length st)%nat ∧ Forall (λ b, 0 <= b < 256) (mbind (be_bytes n) st).
Proof.
  induction st as [|w st [IH1 IH2]]; [split; [cbn; lia|constructor]|]. rewrite bind_cons. cbn [length]. split.
  - rewrite length_app, be_bytes_length, IH1. lia.
  - apply Forall_app. split; [apply be_bytes_range|done].
Qed.

Lemma le_bytes_of_words n (st : list Z) :
  length (mbind (le_bytes n) st) = (n * length st)%nat ∧ Forall (λ b, 0 <= b < 256) (mbind (le_bytes n) st).
Proof.
  induction st as [|w st [IH1 IH2]]; [split; [cbn; lia|constructor]|]. rewrite bind_cons. cbn [length]. split.
  - rewrite length_app, IH1. unfold le_bytes. rewrite length_rev, be_bytes_length. lia.
  - apply Forall_app. split; [apply Forall_rev, be_bytes_range|done].
Qed.

Lemma hex_shape bs n : length bs = n ∧ Forall (λ b, 0 <= b < 256) bs →
  String.length (hex_encode bs) = (2 * n)%nat ∧ str_all is_hex (hex_encode bs) = true.
Proof. intros [Hl Hb]. split; [by rewrite hex_encode_length, Hl|by apply hex_encode_hex]. Qed.

Lemma zip_fold_length {A} (add : Z → Z → Z) (f : list Z → A → list Z) k l st :
  (∀ st x, length st = k → length (f st x) = k) → length st = k → length (zip_with add st (fold_left f l st)) = k.
Proof. intros Hf H. rewrite length_zip_with, (fold_length f k) by done. lia. Qed.

Lemma sha1_hex_shape s : String.length (sha1_hex s) = 40%nat ∧ str_all is_hex (sha1_hex s) = true.
Proof.
  apply (hex_shape _ 20). unfold Sum1. destruct (bytes_of_words 4 (blocks_with compress1 16 (length (words (pad (bytes_of s))))
    [1732584193; 4023233417; 2562383102; 271733878; 3285377520] (words (pad (bytes_of s))))) as [H1 H2]. split; [|done].
  rewrite H1, (blocks_with_length compress1 16 5); [done| |done]. intros st b. apply zip_fold_length.
  clear. intros st x H. do 6 (destruct st as [|? st]; try done). cbn. by destruct (f1 _ _ _ _).
Qed.

Lemma md5_hex_shape s : String.length (md5_hex s) = 32%nat ∧ str_all is_hex (md5_hex s) = true.
Proof.
  apply (hex_shape _ 16). unfold Sum5. destruct (le_bytes_of_words 4 (blocks_with compress5 16 (length (le_words (pad5 (bytes_of s))))
    [1732584193; 4023233417; 2562383102; 271733878] (le_words (pad5 (bytes_of s))))) as [H1 H2]. split; [|done].
  rewrite H1, (blocks_with_length compress5 16 4); [done| |done]. intros st b. apply zip_fold_length.
  clear. intros st x H. do 5 (destruct st as [|? st]; try done). cbn [round5]. by destruct (f5 _ _ _ _).
Qed.

Lemma sha512_hex_shape s : String.length (sha512_hex s) = 128%nat ∧ str_all is_hex (sha512_hex s) = true.
Proof.
  apply (hex_shape _ 64). unfold Sum512. destruct (bytes_of_words 8 (state64 initial_state512 s)) as [H1 H2]. split; [|done].
  rewrite H1. unfold state64. rewrite (blocks_with_length compress64 16 8); [done| |done]. intros st b. apply zip_fold_length.
  clear. intros st x H. do 9 (destruct st as [|? st]; try done).
Qed.
