(* ===== verification/GoUrl.v ===== *)
(** * GoUrl: [net/url]'s query escaping, and replacing in strings

    [QueryEscape] and [QueryUnescape] byte by byte, with their round trip, and
    [strings.ReplaceAll], [strings.Trim] of a byte and [strings.SplitN] in two. *)

From Stdlib Require Import Ascii.
From S2P Require Import Prelude GoStrings.

Definition unreserved (c : ascii) : bool :=
  is_letter c || is_digit c || Ascii.eqb c "-" || Ascii.eqb c "_" || Ascii.eqb c "." || Ascii.eqb c "~".

Definition upper_hex (v : Z) : ascii := default "0"%char (String.get (Z.to_nat v) "0123456789ABCDEF").

(** [url.QueryEscape]. *)
Fixpoint QueryEscape (s : string) : string :=
  match s with
  | EmptyString => EmptyString
  | String c s =>
      if Ascii.eqb c " " then String "+" (QueryEscape s)
      else if unreserved c then String c (QueryEscape s)
      else String "%" (String (upper_hex (byte_of c / 16)) (String (upper_hex (byte_of c mod 16)) (QueryEscape s)))
  end.

Definition unhex (c : ascii) : option Z :=
  if in_range 48 57 c then Some (byte_of c - 48)
  else if in_range 97 102 c then Some (byte_of c - 87)
  else if in_range 65 70 c then Some (byte_of c - 55)
  else None.

(** [url.QueryUnescape]; [None] is its error. *)
Fixpoint QueryUnescape (s : string) : option string :=
  match s with
  | EmptyString => Some EmptyString
  | String c r =>
      if Ascii.eqb c "%" then
        match r with
        | String h (String l r) =>
            match unhex h, unhex l with
            | Some a, Some b => String (ascii_of_nat (Z.to_nat (a * 16 + b))) <$> QueryUnescape r
            | _, _ => None
            end
        | _ => None
        end
      else String (if Ascii.eqb c "+" then " " else c)%char <$> QueryUnescape r
  end.

Example escape_ex :
  QueryEscape "a b/c:d&e=%" = "a+b%2Fc%3Ad%26e%3D%25" ∧ QueryUnescape "a+b%2Fc%3ad" = Some "a b/c:d" ∧ QueryUnescape "%2" = None.
Proof. vm_compute. repeat split. Qed.

Lemma unhex_upper v : 0 <= v < 16 → unhex (upper_hex v) = Some v.
Proof.
  intros H. assert (∃ n, v = Z.of_nat n ∧ (n < 16)%nat) as (n & -> & Hn) by (exists (Z.to_nat v); lia).
  do 16 (destruct n as [|n]; [vm_compute; reflexivity|]). lia.
Qed.

Lemma unescape_escape s : QueryUnescape (QueryEscape s) = Some s.
Proof.
  induction s as [|c s IH]; [done|]. cbn [QueryEscape].
  destruct (Ascii.eqb_spec c " ") as [->|Hs]; [cbn; by rewrite IH|].
  destruct (unreserved c) eqn:Hu.
  - cbn [QueryUnescape]. rewrite IH.
    assert (Ascii.eqb c "%" = false) as -> by (apply Ascii.eqb_neq; intros ->; done).
    assert (Ascii.eqb c "+" = false) as -> by (apply Ascii.eqb_neq; intros ->; done). done.
  - cbn [QueryUnescape Ascii.eqb]. pose proof (byte_of_range c) as Hc.
    change (Ascii.eqb "%" "%") with true. cbv iota.
    rewrite !unhex_upper, IH; [|apply Z.mod_pos_bound; lia|].
    + cbn. do 2 f_equal. rewrite Z.mul_comm, <- Z_div_mod_eq_full. unfold byte_of. rewrite Nat2Z.id. apply ascii_nat_embedding.
    + split; [apply Z.div_pos; lia|apply Z.div_lt_upper_bound; lia].
Qed.

(** Escaped text contains only these bytes. *)
Definition escaped_char (c : ascii) : bool := unreserved c || Ascii.eqb c "%" || Ascii.eqb c "+".

Lemma upper_hex_plain v : 0 <= v < 16 → escaped_char (upper_hex v) = true.
Proof.
  intros H. assert (∃ n, v = Z.of_nat n ∧ (n < 16)%nat) as (n & -> & Hn) by (exists (Z.to_nat v); lia).
  do 16 (destruct n as [|n]; [vm_compute; reflexivity|]). lia.
Qed.

Lemma QueryEscape_plain s : str_all escaped_char (QueryEscape s) = true.
Proof.
  induction s as [|c s IH]; [done|]. cbn [QueryEscape]. pose proof (byte_of_range c) as Hc.
  destruct (Ascii.eqb c " "); [cbn; by rewrite IH|].
  destruct (unreserved c) eqn:Hu; cbn [str_all].
  - rewrite IH. unfold escaped_char. by rewrite Hu.
  - rewrite !upper_hex_plain, IH; [done|apply Z.mod_pos_bound; lia|].
    split; [apply Z.div_pos; lia|apply Z.div_lt_upper_bound; lia].
Qed.

Lemma QueryEscape_no c s : escaped_char c = false → str_all (not_char c) (QueryEscape s) = true.
Proof.
  intros Hc. apply (str_all_impl escaped_char); [|apply QueryEscape_plain].
  intros x Hx. unfold not_char. apply negb_true_iff, Ascii.eqb_neq. intros ->. congruence.
Qed.

Lemma QueryEscape_inj s t : QueryEscape s = QueryEscape t → s = t.
Proof. intros E. apply (f_equal QueryUnescape) in E. rewrite !unescape_escape in E. by simplify_eq. Qed.

(** ** strings *)

(** [strings.ReplaceAll] of a text that is not empty, from the left. *)
Fixpoint replace_go (old new : string) (skip : nat) (s : string) : string :=
  match s with
  | EmptyString => EmptyString
  | String c r =>
      match skip with
      | Datatypes.S k => replace_go old new k r
      | O => if String.prefix old s then new +:+ replace_go old new (String.length old - 1) r
             else String c (replace_go old new 0 r)
      end
  end.
Definition ReplaceAll (s old new : string) : string := replace_go old new 0 s.

(** [strings.SplitN(s, sep, 2)]: the text before and after the first separator. *)
Fixpoint split_two (sep : ascii) (s : string) : string * option string :=
  match s with
  | EmptyString => (EmptyString, None)
  | String c r =>
      if Ascii.eqb c sep then (EmptyString, Some r)
      else let '(a, b) := split_two sep r in (String c a, b)
  end.

Example replace_ex : ReplaceAll "a///b//c" "//" "/" = "a//b/c" ∧ split_two "=" "k=v=w" = ("k", Some "v=w").
Proof. vm_compute. split; reflexivity. Qed.

Lemma split_two_app sep a b :
  str_all (not_char sep) a = true → split_two sep (a +:+ String sep b) = (a, Some b).
Proof.
  induction a as [|c a IH]; cbn [str_all].
  - intros _. change (EmptyString +:+ String sep b) with (String sep b). cbn [split_two]. by rewrite Ascii.eqb_refl.
  - intros [Hc Ha]%andb_true_iff. rewrite str_app_cons. cbn [split_two].
    unfold not_char in Hc. apply negb_true_iff in Hc. by rewrite Hc, IH.
Qed.
