(* ===== verification/GoTime.v ===== *)
(** * GoTime: calendar dates, as [time.Time.Format] prints them

    The civil date and hour of an instant in the proleptic Gregorian calendar,
    and the layouts ["2006-01-02"] and ["2006-01-02-15"] the code formats with.
    The local time zone is a function giving the seconds east of UTC. *)

From Stdlib Require Import Ascii.
From S2P Require Import Prelude GoStrings.

Ltac Zify.zify_post_hook ::= Z.div_mod_to_equations.

Definition zone : Type := instant → Z.
Definition utc : zone := λ _, 0.

(** Seconds, hours and days on the local clock since January 1, year 1. *)
Definition local_seconds (z : zone) (t : instant) : Z := t / second + z t.
Definition local_hours (z : zone) (t : instant) : Z := local_seconds z t / 3600.
Definition local_days (z : zone) (t : instant) : Z := local_hours z t / 24.

(** The year of a day and the day of that year, from 0: cycles of 400, 100, 4 and
    1 years are cut off. *)
Definition year_day (days : Z) : Z * Z :=
  let y400 := days / 146097 in
  let d := days mod 146097 in
  let n100 := Z.min 3 (d / 36524) in
  let d := d - n100 * 36524 in
  let n4 := d / 1461 in
  let d := d mod 1461 in
  let n1 := Z.min 3 (d / 365) in
  let d := d - n1 * 365 in
  (400 * y400 + 100 * n100 + 4 * n4 + n1 + 1, d).

Definition is_leap (y : Z) : bool := (y mod 4 =? 0) && (negb (y mod 100 =? 0) || (y mod 400 =? 0)).

Definition month_lengths (leap : bool) : list Z :=
  [31; if leap then 29 else 28; 31; 30; 31; 30; 31; 31; 30; 31; 30; 31].

Fixpoint month_day (m : Z) (ls : list Z) (d : Z) : Z * Z :=
  match ls with
  | [] => (m, d + 1)
  | l :: ls => if d <? l then (m, d + 1) else month_day (m + 1) ls (d - l)
  end.

(** [t.Date()]. *)
Definition date (days : Z) : Z * Z * Z :=
  let '(y, d) := year_day days in
  let '(m, d) := month_day 1 (month_lengths (is_leap y)) d in (y, m, d).

(** [appendInt(b, x, width)]: decimal digits, padded with zeroes. *)
Definition digit (n : Z) : ascii := ascii_of_nat (48 + Z.to_nat n).
Fixpoint digits (w : nat) (n : Z) : string :=
  match w with
  | O => EmptyString
  | S w => String (digit (n / 10 ^ Z.of_nat w)) (digits w (n mod 10 ^ Z.of_nat w))
  end.
Definition append_int (w : nat) (x : Z) : string :=
  let u := Z.abs x in
  (if x <? 0 then "-" else EmptyString) +:+ (if u <? 10 ^ Z.of_nat w then digits w u else Itoa u).

(** [t.Format("2006-01-02")] and [t.Format("2006-01-02-15")]. *)
Definition format_date (days : Z) : string :=
  let '(y, m, d) := date days in
  append_int 4 y +:+ ("-" +:+ (append_int 2 m +:+ ("-" +:+ append_int 2 d))).
Definition format_day (z : zone) (t : instant) : string := format_date (local_days z t).
Definition format_hour (z : zone) (t : instant) : string :=
  format_date (local_days z t) +:+ ("-" +:+ append_int 2 (local_hours z t mod 24)).

(** 2024-02-29T13:05:00Z is 1709211900 seconds after 1970. *)
Example leap_day : format_hour utc ((1709211900 + 62135596800) * second) = "2024-02-29-13"%string.
Proof. vm_compute. reflexivity. Qed.
Example last_day : format_day utc ((1704067199 + 62135596800) * second) = "2023-12-31"%string.
Proof. vm_compute. reflexivity. Qed.

(** ** The order of strings is the order of dates

    Between the years 1 and 9999. *)

Lemma string_compare_cons c d s t :
  String.compare (String c s) (String d t) =
  match Ascii.compare c d with Eq => String.compare s t | r => r end.
Proof. done. Qed.

Lemma digit_ind (P : Z → bool) :
  forallb (λ n, P (Z.of_nat n)) (seq 0 10) = true → ∀ v, 0 <= v < 10 → P v = true.
Proof.
  intros H v Hv. rewrite forallb_forall in H. specialize (H (Z.to_nat v)).
  rewrite Z2Nat.id in H by lia. apply H, in_seq. lia.
Qed.

Lemma ascii_compare_digit a b : 0 <= a < 10 → 0 <= b < 10 → Ascii.compare (digit a) (digit b) = (a ?= b).
Proof.
  intros Ha Hb. enough (bool_decide (Ascii.compare (digit a) (digit b) = (a ?= b)) = true)
    by by eapply bool_decide_eq_true_1.
  revert a Ha. apply (digit_ind (λ a, bool_decide (Ascii.compare (digit a) (digit b) = (a ?= b)))).
  revert b Hb. apply (digit_ind (λ b, forallb (λ n, bool_decide (Ascii.compare (digit (Z.of_nat n)) (digit b) = (Z.of_nat n ?= b))) (seq 0 10))).
  vm_compute. reflexivity.
Qed.

Lemma Zcompare_digits p a b :
  0 < p → 0 <= a → 0 <= b →
  (a ?= b) = match a / p ?= b / p with Eq => a mod p ?= b mod p | r => r end.
Proof.
  intros Hp Ha Hb. destruct (Z.compare_spec (a / p) (b / p)).
  - destruct (Z.compare_spec (a mod p) (b mod p)); destruct (Z.compare_spec a b); try done; nia.
  - apply Z.compare_lt_iff. nia.
  - apply Z.compare_gt_iff. nia.
Qed.

Lemma digits_compare w a b s t :
  0 <= a < 10 ^ Z.of_nat w → 0 <= b < 10 ^ Z.of_nat w →
  String.compare (digits w a +:+ s) (digits w b +:+ t) =
  match a ?= b with Eq => String.compare s t | r => r end.
Proof.
  revert a b. induction w as [|w IH]; intros a b Ha Hb.
  - cbn [digits]. replace a with 0 by lia. by replace b with 0 by lia.
  - cbn [digits]. rewrite !str_app_cons, string_compare_cons.
    rewrite Nat2Z.inj_succ, Z.pow_succ_r in Ha, Hb by lia.
    assert (0 < 10 ^ Z.of_nat w) as Hp by (apply Z.pow_pos_nonneg; lia).
    set (p := 10 ^ Z.of_nat w) in *. clearbody p.
    rewrite ascii_compare_digit by nia. rewrite (Zcompare_digits p a b Hp) by lia.
    destruct (_ / _ ?= _); try done. rewrite IH by (apply Z.mod_pos_bound; lia). done.
Qed.

Lemma append_int_digits w x : 0 <= x < 10 ^ Z.of_nat w → append_int w x = digits w x.
Proof.
  intros Hx. unfold append_int. rewrite Z.abs_eq by lia.
  rewrite (proj2 (Z.ltb_ge x 0)) by lia. by rewrite (proj2 (Z.ltb_lt _ _)) by lia.
Qed.

Lemma append_int_compare w a b s t :
  0 <= a < 10 ^ Z.of_nat w → 0 <= b < 10 ^ Z.of_nat w →
  String.compare (append_int w a +:+ s) (append_int w b +:+ t) =
  match a ?= b with Eq => String.compare s t | r => r end.
Proof. intros. rewrite !append_int_digits by done. by apply digits_compare. Qed.

(** *** Days and dates *)

(** The first day of a year. *)
Definition year_start (y : Z) : Z := 365 * (y - 1) + (y - 1) / 4 - (y - 1) / 100 + (y - 1) / 400.
Definition year_length (y : Z) : Z := if is_leap y then 366 else 365.

Lemma year_day_spec days y d :
  year_day days = (y, d) → days = year_start y + d ∧ 0 <= d < year_length y.
Proof.
  unfold year_day. intros [= <- <-].
  set (q := days / 146097). set (r := days mod 146097).
  assert (days = 146097 * q + r ∧ 0 <= r < 146097) as [Hq Hr] by lia. clearbody q r.
  set (n100 := Z.min 3 (r / 36524)). set (r1 := r - n100 * 36524).
  assert (0 <= n100 <= 3 ∧ r = n100 * 36524 + r1 ∧ 0 <= r1 ∧ (r1 < 36524 ∨ n100 = 3 ∧ r1 < 36525)) as (H1 & H1r & H2 & H3) by lia.
  clearbody n100 r1.
  set (n4 := r1 / 1461). set (r2 := r1 mod 1461).
  assert (r1 = n4 * 1461 + r2 ∧ 0 <= r2 < 1461 ∧ 0 <= n4 <= 24) as (H4r & H4 & H5) by lia. clearbody n4 r2.
  set (n1 := Z.min 3 (r2 / 365)). set (d := r2 - n1 * 365).
  assert (0 <= n1 <= 3 ∧ r2 = n1 * 365 + d ∧ 0 <= d ∧ (d < 365 ∨ n1 = 3 ∧ d = 365)) as (H6 & H6r & H7 & H8) by lia.
  clearbody n1 d.
  set (y := 400 * q + 100 * n100 + 4 * n4 + n1 + 1).
  assert ((y - 1) / 4 = 100 * q + 25 * n100 + n4) as E4 by lia.
  assert ((y - 1) / 100 = 4 * q + n100) as E100 by lia.
  assert ((y - 1) / 400 = q) as E400 by lia.
  split; [unfold year_start; rewrite E4, E100, E400; lia|].
  unfold year_length. destruct H8 as [H8|[-> ->]]; [destruct (is_leap y); lia|].
  assert (is_leap y = true) as ->; [|lia].
  unfold is_leap. assert (y mod 4 = 0) as -> by lia. cbn [Z.eqb andb].
  destruct (decide (n4 = 24)) as [->|Hn].
  - assert (y mod 400 = 0) as -> by lia. cbn. apply orb_true_r.
  - assert (y mod 100 ≠ 0) as Hne by lia. apply Z.eqb_neq in Hne. by rewrite Hne.
Qed.

Lemma year_start_succ y : year_start (y + 1) = year_start y + year_length y.
Proof.
  unfold year_start, year_length, is_leap. replace (y + 1 - 1) with y by lia.
  destruct (y mod 4 =? 0) eqn:E4, (y mod 100 =? 0) eqn:E100, (y mod 400 =? 0) eqn:E400; zbool; cbn [andb orb negb]; lia.
Qed.

Lemma year_start_mono y y' : y < y' → year_start y + year_length y <= year_start y'.
Proof.
  intros Hy. rewrite <- year_start_succ. unfold year_start. lia.
Qed.

Lemma year_day_compare a b ya yb da db :
  year_day a = (ya, da) → year_day b = (yb, db) →
  (a ?= b) = match ya ?= yb with Eq => da ?= db | r => r end.
Proof.
  intros [-> Ha]%year_day_spec [-> Hb]%year_day_spec.
  destruct (Z.compare_spec ya yb) as [->|H%year_start_mono|H%year_start_mono].
  - destruct (Z.compare_spec da db); [apply Z.compare_eq_iff|apply Z.compare_lt_iff|apply Z.compare_gt_iff]; lia.
  - apply Z.compare_lt_iff; lia.
  - apply Z.compare_gt_iff; lia.
Qed.

Lemma month_day_spec m ls d m' d' :
  Forall (λ l, 0 <= l <= 31) ls → 0 <= d < fold_right Z.add 0 ls →
  month_day m ls d = (m', d') → m <= m' < m + Z.of_nat (length ls) ∧ 1 <= d' <= 31.
Proof.
  revert m d. induction ls as [|l ls IH]; intros m d; cbn [fold_right month_day length]; [lia|].
  intros [Hl Hls]%Forall_cons_iff Hd. destruct (d <? l) eqn:E; zbool; [intros [= <- <-]; lia|].
  intros H%IH; [lia|done|lia].
Qed.

Lemma month_day_compare m ls a b ma da mb db :
  Forall (λ l, 0 <= l <= 31) ls → 0 <= a < fold_right Z.add 0 ls → 0 <= b < fold_right Z.add 0 ls →
  month_day m ls a = (ma, da) → month_day m ls b = (mb, db) →
  (a ?= b) = match ma ?= mb with Eq => da ?= db | r => r end.
Proof.
  revert m a b. induction ls as [|l ls IH]; intros m a b; cbn [fold_right month_day]; [lia|].
  intros [Hl Hls]%Forall_cons_iff Ha Hb.
  destruct (a <? l) eqn:Ea, (b <? l) eqn:Eb; zbool.
  - intros [= <- <-] [= <- <-]. rewrite Z.compare_refl.
    destruct (Z.compare_spec a b); symmetry; [apply Z.compare_eq_iff|apply Z.compare_lt_iff|apply Z.compare_gt_iff]; lia.
  - intros [= <- <-] H%month_day_spec; [|done|lia].
    rewrite (proj2 (Z.compare_lt_iff m mb)) by lia. apply Z.compare_lt_iff. lia.
  - intros H%month_day_spec [= <- <-]; [|done|lia].
    rewrite (proj2 (Z.compare_gt_iff ma m)) by lia. apply Z.compare_gt_iff. lia.
  - intros H1 H2. rewrite <- (IH (m + 1) (a - l) (b - l)) by (done || lia).
    destruct (Z.compare_spec a b); symmetry; [apply Z.compare_eq_iff|apply Z.compare_lt_iff|apply Z.compare_gt_iff]; lia.
Qed.

Lemma month_lengths_ok leap :
  Forall (λ l, 0 <= l <= 31) (month_lengths leap) ∧
  fold_right Z.add 0 (month_lengths leap) = if leap then 366 else 365.
Proof. split; [|by destruct leap]. destruct leap; repeat constructor; lia. Qed.

(** The days of the years 1 to 9999. *)
Definition printable_days (d : Z) : Prop := 0 <= d < year_start 10000.

Lemma year_day_year days y d : printable_days days → year_day days = (y, d) → 1 <= y < 10000.
Proof.
  intros Hd [-> Hr]%year_day_spec. unfold printable_days in Hd. split.
  - destruct (decide (y < 1)) as [H|]; [|lia]. apply year_start_mono in H. change (year_start 1) with 0 in H. lia.
  - destruct (decide (10000 < y)) as [H%year_start_mono|H1].
    + assert (0 <= year_length 10000) by (vm_compute; done). lia.
    + destruct (decide (y = 10000)) as [->|]; lia.
Qed.

Lemma format_date_compare a b s t :
  printable_days a → printable_days b →
  String.compare (format_date a +:+ s) (format_date b +:+ t) =
  match a ?= b with Eq => String.compare s t | r => r end.
Proof.
  intros Pa Pb. unfold format_date, date.
  destruct (year_day a) as [ya da] eqn:Ea, (year_day b) as [yb db] eqn:Eb.
  pose proof (year_day_year _ _ _ Pa Ea) as Ya. pose proof (year_day_year _ _ _ Pb Eb) as Yb.
  rewrite (year_day_compare _ _ _ _ _ _ Ea Eb).
  pose proof (year_day_spec _ _ _ Ea) as [_ Da]. pose proof (year_day_spec _ _ _ Eb) as [_ Db].
  unfold year_length in *.
  destruct (month_day 1 (month_lengths (is_leap ya)) da) as [ma a'] eqn:Ma,
    (month_day 1 (month_lengths (is_leap yb)) db) as [mb b'] eqn:Mb.
  destruct (month_lengths_ok (is_leap ya)) as [La Sa]. destruct (month_lengths_ok (is_leap yb)) as [Lb Sb].
  pose proof (month_day_spec _ _ _ _ _ La ltac:(rewrite Sa; done) Ma) as [Hma Hda].
  pose proof (month_day_spec _ _ _ _ _ Lb ltac:(rewrite Sb; done) Mb) as [Hmb Hdb].
  cbn in Hma, Hmb. rewrite !str_app_assoc.
  rewrite append_int_compare by (change (10 ^ Z.of_nat 4) with 10000; lia).
  destruct (Z.compare_spec ya yb) as [->|H|H]; [|done|done].
  rewrite ?str_app_assoc, ?str_app_cons, string_compare_cons.
  change (Ascii.compare "-" "-") with Eq. cbn iota beta. change (EmptyString +:+ ?x) with x.
  rewrite ?str_app_assoc, append_int_compare by (change (10 ^ Z.of_nat 2) with 100; lia).
  rewrite (month_day_compare _ _ da db _ _ _ _ La ltac:(rewrite Sa; done) ltac:(rewrite Sa; done) Ma Mb).
  destruct (ma ?= mb); try done.
  rewrite ?str_app_assoc, ?str_app_cons, string_compare_cons.
  change (Ascii.compare "-" "-") with Eq. cbn iota beta. change (EmptyString +:+ ?x) with x.
  by rewrite append_int_compare by (change (10 ^ Z.of_nat 2) with 100; lia).
Qed.

Lemma format_day_compare z t u :
  printable_days (local_days z t) → printable_days (local_days z u) →
  String.compare (format_day z t) (format_day z u) = (local_days z t ?= local_days z u).
Proof.
  intros Ht Hu. unfold format_day. rewrite <- (str_app_nil_r (format_date (local_days z t))).
  rewrite <- (str_app_nil_r (format_date (local_days z u))), format_date_compare by done.
  by destruct (_ ?= _).
Qed.

Lemma format_hour_compare z t u :
  printable_days (local_days z t) → printable_days (local_days z u) →
  String.compare (format_hour z t) (format_hour z u) = (local_hours z t ?= local_hours z u).
Proof.
  intros Ht Hu. unfold format_hour. rewrite format_date_compare by done.
  rewrite !str_app_cons, string_compare_cons. change (Ascii.compare "-" "-") with Eq. cbn iota beta.
  change (EmptyString +:+ ?x) with x.
  rewrite <- (str_app_nil_r (append_int 2 (local_hours z t mod 24))).
  rewrite <- (str_app_nil_r (append_int 2 (local_hours z u mod 24))).
  rewrite append_int_compare by (change (10 ^ Z.of_nat 2) with 100; lia).
  unfold local_days. change (String.compare EmptyString EmptyString) with Eq.
  destruct (Z.compare_spec (local_hours z t / 24) (local_hours z u / 24)); symmetry;
    [|apply Z.compare_lt_iff; lia|apply Z.compare_gt_iff; lia].
  destruct (Z.compare_spec (local_hours z t mod 24) (local_hours z u mod 24));
    [apply Z.compare_eq_iff|apply Z.compare_lt_iff|apply Z.compare_gt_iff]; lia.
Qed.
