(* ===== verification/GoFS.v ===== *)
(** * GoFS: the file system and the JSON encoding, as interfaces

    The part of [os], [io] and [encoding/json] the caches and the queues use: the
    operations, what the code relies on, and an implementation in memory that the
    witnesses run on. *)

From Stdlib Require Import Ascii.
From S2P Require Import Prelude GoStrings GoPath.

(** ** The interface

    [files] is the content of the regular files, by clean path; directories and
    everything else the operations depend on are part of the state [S].  An
    operation returns [None] when it succeeds.  [OpenFile] gives the bytes that
    the opened file holds; a directory can be opened too, and reads as nothing.
    [StatSize] and [ModTime] are what a successful [Stat] reports. *)

Inductive os_err := ErrNotExist | ErrOther.

#[export] Instance os_err_eq_dec : EqDecision os_err.
Proof. solve_decision. Defined.

(** An entry met by [filepath.Walk]: its path, and the error or the kind and the
    size that the callback receives. *)
Record walk_entry := mkEntry { we_path : string; we_info : result os_err (bool * Z) }.

Class FileSystem (S : Type) := {
  files : S → gmap string string;
  ReadFile : string → S → result os_err string;
  OpenFile : string → S → result os_err string;
  StatFile : string → S → option os_err;
  StatSize : string → S → Z;
  ModTime : string → S → instant;
  MkdirAll : string → S → option os_err * S;
  CreateFile : string → S → option os_err * S;
  CopyTo : string → string → S → option os_err * S;
  CloseFile : string → S → option os_err * S;
  Rename : string → string → S → option os_err * S;
  Remove : string → S → option os_err * S;
  RemoveAll : string → S → option os_err * S;
  WriteFile : string → string → S → option os_err * S;
  Walk : string → S → list walk_entry;
  ReadDir : string → S → result os_err (list (string * bool));
  is_dir : string → S → Prop
}.

(** What the code relies on.  A failing write may leave any content in the file
    it writes to, and touches no other file; a directory listing or a walk names
    each entry once, and a walk without errors meets every file below its root. *)
Class FileSystemLaws (S : Type) `{!FileSystem S} : Prop := {
  ReadFile_ok p s d : ReadFile p s = Ok d → files s !! p = Some d;
  ReadFile_exist p s : is_Some (files s !! p) → ReadFile p s ≠ Err ErrNotExist;
  OpenFile_ok p s d : OpenFile p s = Ok d → files s !! p = Some d ∨ (files s !! p = None ∧ d = EmptyString);
  OpenFile_exist p s : is_Some (files s !! p) → OpenFile p s ≠ Err ErrNotExist;
  StatFile_missing p s : StatFile p s = Some ErrNotExist → files s !! p = None;
  StatFile_file p s : is_Some (files s !! p) → StatFile p s ≠ Some ErrNotExist;
  StatSize_ok p s d : files s !! p = Some d → StatSize p s = Z.of_nat (String.length d);
  MkdirAll_files p s : files (MkdirAll p s).2 = files s;
  CreateFile_ok p s : (CreateFile p s).1 = None → files (CreateFile p s).2 = <[p := EmptyString]> (files s);
  CreateFile_err p s : (CreateFile p s).1 ≠ None → files (CreateFile p s).2 = files s;
  CopyTo_ok p d s : (CopyTo p d s).1 = None → files (CopyTo p d s).2 = <[p := d]> (files s);
  CopyTo_frame p d s q : q ≠ p → files (CopyTo p d s).2 !! q = files s !! q;
  CloseFile_ok p s : (CloseFile p s).1 = None → files (CloseFile p s).2 = files s;
  CloseFile_frame p s q : q ≠ p → files (CloseFile p s).2 !! q = files s !! q;
  Rename_ok p q s d : files s !! p = Some d → (Rename p q s).1 = None →
    files (Rename p q s).2 = <[q := d]> (delete p (files s));
  Rename_err p q s : (Rename p q s).1 ≠ None → files (Rename p q s).2 = files s;
  Remove_ok p s : (Remove p s).1 = None → files (Remove p s).2 = delete p (files s);
  Remove_missing p s : (Remove p s).1 = Some ErrNotExist → files s !! p = None;
  Remove_err p s : (Remove p s).1 ≠ None → files (Remove p s).2 = files s;
  WriteFile_ok p d s : (WriteFile p d s).1 = None → files (WriteFile p d s).2 = <[p := d]> (files s);
  WriteFile_frame p d s q : q ≠ p → files (WriteFile p d s).2 !! q = files s !! q;
  WriteFile_dir p d s : (WriteFile p d s).1 = None → is_dir (Dir p) s;
  ReadDir_files base s es name :
    Forall (λ c, segment c = true) base → segment name = true → ReadDir (unsplit true base) s = Ok es →
    (name, false) ∈ es ↔ is_Some (files s !! PathJoin (unsplit true base) name);
  ReadDir_names p s es : ReadDir p s = Ok es → NoDup es.*1 ∧ Forall (λ e, segment e.1 = true) es;
  Walk_files base s q n :
    base ≠ [] → Forall (λ c, segment c = true) base → Forall (λ e, is_ok (we_info e) = true) (Walk (unsplit true base) s) →
    mkEntry q (Ok (false, n)) ∈ Walk (unsplit true base) s ↔
    HasPrefix q (unsplit true base +:+ "/") = true ∧ ∃ d, files s !! q = Some d ∧ n = Z.of_nat (String.length d);
  Walk_paths p s : NoDup (we_path <$> Walk p s)
}.

(** [encoding/json] on the values of a type.  [json_safe] is what makes a value
    survive the encoding: strings that are not valid UTF-8 do not. *)
Class Codec (A : Type) := {
  json_marshal : A → option string;
  json_unmarshal : string → option A;
  json_safe : A → Prop;
  json_round_trip m d : json_safe m → json_marshal m = Some d → json_unmarshal d = Some m
}.

(** An [io.Reader]: the bytes it delivers and whether it then fails. *)
Record Reader := mkReader { rd_data : string; rd_fails : bool }.

(** ** An implementation in memory

    Files and directories in memory, each operation that changes them failing
    when the next scheduled fault says so. *)

Record MemFS := mkMem { mem : gmap string string; dirs : gset string; faults : list bool }.

Definition faulty (s : MemFS) (ok : gmap string string) (ko : gmap string string) : option os_err * MemFS :=
  match faults s with
  | true :: r => (Some ErrOther, mkMem ko (dirs s) r)
  | r => (None, mkMem ok (dirs s) (tail r))
  end.

(** A file is only created in a directory that exists. *)
Definition in_dir (p : string) (s : MemFS) (ok ko : gmap string string) : option os_err * MemFS :=
  if bool_decide (Dir p ∈ dirs s) then faulty s ok ko else (Some ErrNotExist, s).

Definition mem_read (p : string) (s : MemFS) : result os_err string :=
  match mem s !! p with Some d => Ok d | None => Err ErrNotExist end.

Definition mem_walk (p : string) (s : MemFS) : list walk_entry :=
  (λ x, mkEntry x.1 (Ok (false, Z.of_nat (String.length x.2)))) <$>
    filter (λ x, HasPrefix x.1 (p +:+ "/") = true) (map_to_list (mem s)).

Definition base_name (p : string) : string := from_option id EmptyString (list.last (Split p slash)).

Definition mem_readdir (d : string) (s : MemFS) : result os_err (list (string * bool)) :=
  Ok (omap (λ x, let name := base_name x.1 in
                 if segment name && String.eqb (PathJoin d name) x.1 then Some (name, false) else None)
       (map_to_list (mem s))).

#[export] Instance mem_fs : FileSystem MemFS := {
  files := mem;
  ReadFile := mem_read;
  OpenFile := mem_read;
  StatFile p s := match mem s !! p with Some _ => None | None => Some ErrNotExist end;
  StatSize p s := Z.of_nat (String.length (default EmptyString (mem s !! p)));
  ModTime p s := zero_time;
  MkdirAll p s :=
    let '(r, s) := faulty s (mem s) (mem s) in
    (r, match r with None => mkMem (mem s) ({[p]} ∪ dirs s) (faults s) | Some _ => s end);
  CreateFile p s := in_dir p s (<[p := EmptyString]> (mem s)) (mem s);
  CopyTo p d s := faulty s (<[p := d]> (mem s)) (<[p := take_bytes 1 d]> (mem s));
  CloseFile p s := faulty s (mem s) (mem s);
  Rename p q s := match mem s !! p with
                  | None => (Some ErrNotExist, s)
                  | Some d => faulty s (<[q := d]> (delete p (mem s))) (mem s)
                  end;
  Remove p s := match mem s !! p with
                | None => (Some ErrNotExist, s)
                | Some _ => faulty s (delete p (mem s)) (mem s)
                end;
  RemoveAll p s := faulty s (filter (λ x, HasPrefix x.1 p = false) (mem s)) (mem s);
  WriteFile p d s := in_dir p s (<[p := d]> (mem s)) (<[p := EmptyString]> (mem s));
  Walk := mem_walk;
  ReadDir := mem_readdir;
  is_dir p s := p ∈ dirs s
}.

Ltac mem_law := cbn; unfold in_dir, faulty, mem_read; intros; repeat case_match; simplify_eq/=; try done; eauto;
  rewrite ?lookup_insert_ne by done; try done; by rewrite ?lookup_insert_eq.

Lemma base_name_segments base name :
  Forall (λ c, segment c = true) (base ++ [name]) → base_name (unsplit true (base ++ [name])) = name.
Proof.
  intros H. unfold base_name, unsplit.
  assert (String slash (Join (base ++ [name]) "/") = EmptyString +:+ seps slash (base ++ [name])) as ->
    by (destruct base; cbn [app]; by rewrite Join_seps).
  rewrite Split_join by (constructor; [done|by apply segments_no_slash]).
  by rewrite app_comm_cons, last_snoc.
Qed.

Lemma mem_readdir_files base s es name :
  Forall (λ c, segment c = true) base → segment name = true → mem_readdir (unsplit true base) s = Ok es →
  (name, false) ∈ es ↔ is_Some (mem s !! PathJoin (unsplit true base) name).
Proof.
  intros Hb Hn H. unfold mem_readdir in H. simplify_eq. rewrite list_elem_of_omap. split.
  - intros ([p d] & Hp & Hx). apply elem_of_map_to_list in Hp. cbn -[base_name PathJoin segment unsplit] in Hx.
    case_match; simplify_eq. zbool. change (String slash (Join base "/")) with (unsplit true base) in *.
    match goal with H : String.eqb _ _ = true |- _ => apply String.eqb_eq in H; rewrite H end. eauto.
  - intros [d Hd]. exists (PathJoin (unsplit true base) name, d). split; [by apply elem_of_map_to_list|].
    cbn -[base_name PathJoin segment unsplit].
    assert (PathJoin (unsplit true base) name = unsplit true (base ++ [name])) as E.
    { apply (PathJoin_segments base name []); [done|by apply Forall_cons_iff]. }
    assert (Forall (λ c, segment c = true) (base ++ [name])) as Hbn
      by (apply Forall_app; split; [done|]; by apply Forall_cons_iff).
    change (String slash (Join base "/")) with (unsplit true base).
    by rewrite E, base_name_segments, E, String.eqb_refl, Hn.
Qed.

Lemma mem_readdir_names p s es :
  mem_readdir p s = Ok es → NoDup es.*1 ∧ Forall (λ e, segment e.1 = true) es.
Proof.
  intros H. unfold mem_readdir in H. simplify_eq. pose proof (NoDup_fst_map_to_list (mem s)) as Hnd.
  induction (map_to_list (mem s)) as [|[q d] l IH]; [split; constructor|].
  cbn in Hnd. apply list.NoDup_cons in Hnd as [Hq Hnd]. destruct (IH Hnd) as [H1 H2].
  cbn -[base_name PathJoin segment unsplit]. case_match; [|done].
  case_match; simplify_eq. zbool.
  cbn -[base_name PathJoin segment unsplit]. split; [|by apply Forall_cons_iff].
  apply list.NoDup_cons. split; [|done]. intros ([n b] & Hn & Hin)%list_elem_of_fmap. cbn in Hn. subst n.
  apply list_elem_of_omap in Hin as ([q' d'] & Hq' & Hx). cbn -[base_name PathJoin segment unsplit] in Hx.
  case_match; simplify_eq. zbool.
  repeat match goal with H : String.eqb _ _ = true |- _ => apply String.eqb_eq in H end.
  apply Hq. apply list_elem_of_fmap. exists (q', d'). split; [cbn; congruence|done].
Qed.

Lemma mem_walk_files p s q n :
  mkEntry q (Ok (false, n)) ∈ mem_walk p s ↔
  HasPrefix q (p +:+ "/") = true ∧ ∃ d, mem s !! q = Some d ∧ n = Z.of_nat (String.length d).
Proof.
  unfold mem_walk. rewrite list_elem_of_fmap. split.
  - intros ([q' d] & E & [Hp Hq]%list_elem_of_filter). cbn in *. simplify_eq.
    apply elem_of_map_to_list in Hq. eauto.
  - intros (Hp & d & Hd & ->). exists (q, d). split; [done|].
    apply list_elem_of_filter. split; [done|]. by apply elem_of_map_to_list.
Qed.

Lemma mem_walk_paths p s : NoDup (we_path <$> mem_walk p s).
Proof.
  unfold mem_walk. rewrite <- list_fmap_compose. cbn.
  pose proof (NoDup_fst_map_to_list (mem s)) as H. revert H.
  generalize (map_to_list (mem s)). intros l H. apply (sublist_NoDup _ (l.*1)); [done|].
  apply fmap_sublist, sublist_filter.
Qed.

#[export] Instance mem_fs_laws : FileSystemLaws MemFS.
Proof.
  split; try solve [mem_law].
  - intros p s d Hd. cbn in *. by rewrite Hd.
  - intros p d s. cbn. unfold in_dir. destruct (bool_decide (Dir p ∈ dirs s)) eqn:E; [|done].
    intros _. by apply bool_decide_eq_true in E.
  - apply mem_readdir_files.
  - apply mem_readdir_names.
  - intros base s q n _ _ _. apply mem_walk_files.
  - apply mem_walk_paths.
Qed.
