(* ===== verification/GoHeap.v ===== *)
(** * GoHeap: the binary heap of [container/heap]

    What [heap.Init] and [heap.Pop] do to the slice of a [heap.Interface] whose
    [Less] compares an integer key, whose [Swap] exchanges two elements and whose
    [Pop] removes the last one.  The slice is a list. *)

From S2P Require Import Prelude.

Section heap.
Context {A : Type} (key : A → Z).

Implicit Types l : list A.

(** [h.Less(i, j)] and [h.Swap(i, j)], the indices being in range. *)
Definition less l (i j : nat) : bool :=
  match l !! i, l !! j with
  | Some a, Some b => key a <? key b
  | _, _ => false
  end.

Definition swap l (i j : nat) : list A :=
  match l !! i, l !! j with
  | Some a, Some b => <[i := b]> (<[j := a]> l)
  | _, _ => l
  end.

(** [heap.down]: [fuel] bounds the levels it goes down. *)
Fixpoint down (fuel : nat) l (i n : nat) : list A :=
  match fuel with
  | O => l
  | S fuel =>
      let j1 := (2 * i + 1)%nat in
      if (n <=? j1)%nat then l
      else
        let j2 := (j1 + 1)%nat in
        let j := if (j2 <? n)%nat && less l j2 j1 then j2 else j1 in
        if negb (less l j i) then l
        else down fuel (swap l i j) j n
  end.

(** [heap.Init]: [down] at [k - 1], ..., [0]. *)
Fixpoint init_go (k : nat) l : list A :=
  match k with O => l | S k => init_go k (down (length l) l k (length l)) end.
Definition Init l : list A := init_go (length l / 2) l.

(** [heap.Pop]: the element removed and the slice left. *)
Definition Pop l : option (A * list A) :=
  match length l with
  | O => None
  | S n =>
      let l := down n (swap l 0 n) 0 n in
      match l !! n with
      | Some x => Some (x, take n l)
      | None => None
      end
  end.

(** ** Lemmas *)

Definition kv l (i : nat) : Z := from_option key 0 (l !! i).

Definition parent (j : nat) : nat := ((j - 1) / 2)%nat.

(** The order of the heap below the node [k], among the first [n] elements;
    but for the children of [hole], which are only ordered with the parent of
    [hole]. *)
Definition heap_from (k n : nat) l : Prop :=
  ∀ j, (0 < j < n)%nat → (k <= parent j)%nat → kv l (parent j) <= kv l j.

Definition heap_hole (k hole n : nat) l : Prop :=
  (∀ j, (0 < j < n)%nat → (k <= parent j)%nat → parent j ≠ hole → kv l (parent j) <= kv l j) ∧
  (∀ j, (0 < j < n)%nat → parent j = hole → (0 < hole)%nat → (k <= parent hole)%nat →
     kv l (parent hole) <= kv l j).

Lemma parent_iff j i : (0 < j)%nat → parent j = i ↔ j = (2 * i + 1)%nat ∨ j = (2 * i + 2)%nat.
Proof.
  unfold parent. intros Hj. pose proof (Nat.div_mod (j - 1) 2 ltac:(lia)).
  pose proof (Nat.mod_upper_bound (j - 1) 2 ltac:(lia)). lia.
Qed.

Lemma parent_lt j : (0 < j)%nat → (parent j < j)%nat.
Proof. intros Hj. pose proof (proj1 (parent_iff j (parent j) Hj) eq_refl). lia. Qed.

Lemma swap_perm l i j : swap l i j ≡ₚ l.
Proof.
  unfold swap. destruct (l !! i) as [a|] eqn:Ei; [|done]. destruct (l !! j) as [b|] eqn:Ej; [|done].
  by apply Permutation_insert_swap.
Qed.

Lemma swap_length l i j : length (swap l i j) = length l.
Proof. by rewrite swap_perm. Qed.

Lemma swap_kv l i j m :
  (i < length l)%nat → (j < length l)%nat →
  kv (swap l i j) m = if decide (m = i) then kv l j else if decide (m = j) then kv l i else kv l m.
Proof.
  intros Hi Hj. unfold swap, kv.
  destruct (lookup_lt_is_Some_2 l i Hi) as [a Ea]. destruct (lookup_lt_is_Some_2 l j Hj) as [b Eb].
  rewrite Ea, Eb. rewrite !list_lookup_insert, length_insert.
  repeat case_decide; simplify_eq/=; try done; exfalso; naive_solver lia.
Qed.

Lemma less_kv l i j :
  (i < length l)%nat → (j < length l)%nat → less l i j = (kv l i <? kv l j).
Proof.
  intros Hi Hj. unfold less, kv.
  destruct (lookup_lt_is_Some_2 l i Hi) as [a ->]. by destruct (lookup_lt_is_Some_2 l j Hj) as [b ->].
Qed.

Lemma down_perm fuel l i n : down fuel l i n ≡ₚ l.
Proof.
  revert l i. induction fuel as [|fuel IH]; intros l i; cbn [down]; [done|].
  repeat case_match; try done; rewrite IH; apply swap_perm.
Qed.

Lemma down_length fuel l i n : length (down fuel l i n) = length l.
Proof. by rewrite down_perm. Qed.

(** The child [down] compares with: the smaller one. *)
Lemma child_min l i n :
  (n <= length l)%nat → (2 * i + 1 < n)%nat →
  let j2 := (2 * i + 1 + 1)%nat in
  let j := if (j2 <? n)%nat && less l j2 (2 * i + 1) then j2 else (2 * i + 1)%nat in
  (i < j < n)%nat ∧ parent j = i ∧
  ∀ m, (0 < m < n)%nat → parent m = i → kv l j <= kv l m.
Proof.
  intros Hn Hi. cbn zeta. destruct (2 * i + 1 + 1 <? n)%nat eqn:E2; cbn [andb].
  - apply Nat.ltb_lt in E2. rewrite less_kv by lia.
    destruct (kv l (2 * i + 1 + 1) <? kv l (2 * i + 1)) eqn:El; zbool;
      (split_and!; [lia|lia|apply parent_iff; lia|]);
      intros m Hm Hp%parent_iff; try lia; destruct Hp as [-> | ->];
      replace (2 * i + 2)%nat with (2 * i + 1 + 1)%nat by lia; lia.
  - apply Nat.ltb_ge in E2. split_and!; [lia|lia|apply parent_iff; lia|].
    intros m Hm Hp%parent_iff; [|lia]. destruct Hp as [-> | ->]; lia.
Qed.

Lemma hole_swap k n l i j :
  (n <= length l)%nat → (k <= i)%nat → (i < j < n)%nat → parent j = i → kv l j < kv l i →
  (∀ m, (0 < m < n)%nat → parent m = i → kv l j <= kv l m) →
  heap_hole k i n l → heap_hole k j n (swap l i j).
Proof.
  intros Hn Hk Hij Hp Hlt Hmin [H1 H2]. split; intros m Hm.
  - intros Hkp Hne. pose proof (parent_lt m ltac:(lia)). rewrite !swap_kv by lia.
    destruct (decide (parent m = i)) as [Hpi|Hpi].
    + rewrite (decide_False (P := m = i)) by lia.
      destruct (decide (m = j)) as [->|Hmj]; [lia|by apply Hmin].
    + rewrite (decide_False (P := parent m = j)) by done.
      destruct (decide (m = i)) as [->|Hmi].
      * apply H2; try done; lia.
      * destruct (decide (m = j)) as [->|Hmj]; [congruence|]. by apply H1.
  - intros Hpm Hj Hkj. pose proof (parent_lt m ltac:(lia)). rewrite Hp. rewrite !swap_kv by lia.
    rewrite decide_True by done. rewrite !decide_False by lia.
    rewrite <- Hpm. apply H1; [done|lia|lia].
Qed.

Lemma hole_closed k n l i :
  heap_hole k i n l → (∀ m, (0 < m < n)%nat → parent m = i → kv l i <= kv l m) → heap_from k n l.
Proof.
  intros [H1 _] Hi j Hj Hk. destruct (decide (parent j = i)) as [Hp|Hp].
  - rewrite Hp. by apply Hi.
  - by apply H1.
Qed.

Lemma down_heap fuel l i k n :
  (n <= length l)%nat → (k <= i)%nat → (n <= fuel + i)%nat →
  heap_hole k i n l → heap_from k n (down fuel l i n).
Proof.
  revert l i. induction fuel as [|fuel IH]; intros l i Hn Hk Hf Hh; cbn [down].
  - eapply hole_closed; [done|]. intros m Hm Hp%parent_iff; lia.
  - destruct (n <=? 2 * i + 1)%nat eqn:E1; [apply Nat.leb_le in E1|apply Nat.leb_gt in E1].
    { eapply hole_closed; [done|]. intros m Hm Hp%parent_iff; lia. }
    destruct (child_min l i n Hn E1) as (Hj & Hp & Hmin). cbn zeta in *.
    set (j := if _ && _ then _ else _) in *. rewrite less_kv by lia.
    destruct (kv l j <? kv l i) eqn:E2; cbn [negb]; zbool.
    + apply IH; [by rewrite swap_length|lia|lia|by apply hole_swap].
    + eapply hole_closed; [done|]. intros m Hm Hpm. specialize (Hmin m Hm Hpm). lia.
Qed.

(** ** [Init] and [Pop] *)

Lemma init_go_heap k l :
  heap_from k (length l) l → heap_from 0 (length l) (init_go k l).
Proof.
  revert l. induction k as [|k IH]; intros l H; cbn [init_go]; [done|].
  rewrite <- (down_length (length l) l k (length l)) at 1. apply IH.
  rewrite (down_length (length l) l k (length l)).
  apply down_heap; [lia|lia|lia|]. split.
  - intros j Hj Hk Hp. apply H; [done|lia].
  - intros j Hj Hp Hk0 Hk. pose proof (parent_lt k Hk0). lia.
Qed.

Lemma init_go_perm k l : init_go k l ≡ₚ l.
Proof.
  revert l. induction k as [|k IH]; intros l; cbn [init_go]; [done|]. by rewrite IH, down_perm.
Qed.

Definition is_heap l : Prop := heap_from 0 (length l) l.

Lemma Init_spec l : is_heap (Init l) ∧ Init l ≡ₚ l.
Proof.
  unfold is_heap, Init. split; [|apply init_go_perm]. rewrite init_go_perm at 1.
  apply init_go_heap. intros j Hj Hk. exfalso.
  pose proof (proj1 (parent_iff j (parent j) ltac:(lia)) eq_refl).
  pose proof (Nat.div_mod (length l) 2 ltac:(lia)).
  pose proof (Nat.mod_upper_bound (length l) 2 ltac:(lia)). lia.
Qed.

Lemma heap_root n l j : heap_from 0 n l → (j < n)%nat → kv l 0 <= kv l j.
Proof.
  intros Hh. induction j as [j IH] using lt_wf_ind. intros Hj.
  destruct j as [|j]; [lia|]. pose proof (parent_lt (S j) ltac:(lia)).
  pose proof (IH (parent (S j)) ltac:(lia) ltac:(lia)).
  pose proof (Hh (S j) ltac:(lia) ltac:(lia)). lia.
Qed.

Lemma down_above fuel l i n m :
  (n <= length l)%nat → (i < m)%nat → (n <= m)%nat → down fuel l i n !! m = l !! m.
Proof.
  revert l i. induction fuel as [|fuel IH]; intros l i Hn Hi Hm; cbn [down]; [done|].
  destruct (n <=? 2 * i + 1)%nat eqn:E1; [done|apply Nat.leb_gt in E1].
  destruct (child_min l i n Hn E1) as (Hj & Hp & _). cbn zeta in *.
  set (j := if _ && _ then _ else _) in *. destruct (less l j i); [cbn [negb]|done].
  rewrite IH by (rewrite ?swap_length; lia). unfold swap.
  destruct (l !! i); [|done]. destruct (l !! j); [|done].
  by rewrite !list_lookup_insert_ne by lia.
Qed.

Lemma kv_take n l j : (j < n)%nat → kv (take n l) j = kv l j.
Proof. intros Hj. unfold kv. by rewrite lookup_take_lt. Qed.

Lemma kv_lookup l j x : l !! j = Some x → kv l j = key x.
Proof. intros H. unfold kv. by rewrite H. Qed.

Lemma Pop_spec l :
  l ≠ [] → is_heap l →
  ∃ x l', Pop l = Some (x, l') ∧ l ≡ₚ x :: l' ∧ is_heap l' ∧ ∀ y, y ∈ l → key x <= key y.
Proof.
  intros Hne Hh. unfold is_heap in Hh. destruct (length l) as [|n] eqn:El; [by destruct l|].
  unfold Pop. rewrite El. set (d := down n (swap l 0 n) 0 n).
  assert (length d = S n) as Hd by (unfold d; by rewrite down_length, swap_length).
  destruct (lookup_lt_is_Some_2 d n ltac:(lia)) as [x Ex]. rewrite Ex.
  assert (kv l 0 = key x) as Hx.
  { rewrite <- (kv_lookup d n x Ex). destruct (decide (n = 0)%nat) as [->|Hn].
    - unfold d. cbn. by rewrite swap_kv by lia.
    - unfold kv at 2, d. rewrite down_above by (rewrite ?swap_length; lia).
      change (kv l 0 = kv (swap l 0 n) n). rewrite swap_kv by lia.
      rewrite decide_False by done. by rewrite decide_True. }
  exists x, (take n d). split_and!; [done| | |].
  - assert (d = take n d ++ [x]) as Hdx.
    { rewrite <- (take_drop n d) at 1. f_equal. erewrite drop_S by done. by rewrite drop_ge by lia. }
    assert (l ≡ₚ d) as -> by (unfold d; by rewrite down_perm, swap_perm).
    rewrite Hdx at 1. by rewrite Permutation_app_comm.
  - unfold is_heap. rewrite length_take, Hd, Nat.min_l by lia.
    assert (heap_from 0 n d) as Hdn.
    { apply down_heap; [rewrite swap_length; lia|lia|lia|]. split; [|lia].
      intros j Hj _ Hp. pose proof (parent_lt j ltac:(lia)).
      rewrite !swap_kv by lia. rewrite !decide_False by lia. apply Hh; lia. }
    intros j Hj Hk. pose proof (parent_lt j ltac:(lia)). rewrite !kv_take by lia. by apply Hdn.
  - intros y (j & Hj)%list_elem_of_lookup. rewrite <- Hx, <- (kv_lookup l j y Hj).
    apply (heap_root (S n)); [done|]. apply lookup_lt_Some in Hj. lia.
Qed.
End heap.
