(* ===== verification/SemVer.v ===== *)
(** * SemVer: semantic versions of Ansible collections

    Models [src/internal/domain/ansible/version.go]: the version pattern, the
    parser, the comparison, the version ranges and the choice of the latest
    version.  The theorems show that the parser accepts exactly the SemVer
    grammar and returns its parts, that the comparison is the lexicographic
    order of an explicit key (hence a total preorder), what each range operator
    accepts, and that the latest version is a maximum. *)

From S2P Require Import Prelude GoStrings GoRegexp.
From Stdlib Require Import Ascii.

(** ** The pattern *)

Definition nonzero_digit (c : ascii) : bool := in_range 49 57 c.
Definition letter_or_dash (c : ascii) : bool := is_letter c || Ascii.eqb c "-".
Definition ident_char (c : ascii) : bool := is_digit c || letter_or_dash c.

(** [0|[1-9]\d*] *)
Definition re_num : re :=
  RAlt (RLit "0") (RCat (RChar nonzero_digit) (RStar (RChar is_digit))).
(** [0|[1-9]\d*|\d*[a-zA-Z-][0-9a-zA-Z-]*] *)
Definition re_pre_ident : re :=
  RAlt re_num
    (RCat (RStar (RChar is_digit)) (RCat (RChar letter_or_dash) (RStar (RChar ident_char)))).
(** [[0-9a-zA-Z-]+] *)
Definition re_build_ident : re := RPlus (RChar ident_char).
(** [r(?:\.r)*] *)
Definition re_dotted (r : re) : re := RCat r (RStar (RCat (RLit ".") r)).

Definition semverRegex : re :=
  RCat (RGrp 1 re_num) (RCat (RLit ".")
  (RCat (RGrp 2 re_num) (RCat (RLit ".")
  (RCat (RGrp 3 re_num)
  (RCat (ROpt (RCat (RLit "-") (RGrp 4 (re_dotted re_pre_ident))))
        (ROpt (RCat (RLit "+") (RGrp 5 (re_dotted re_build_ident))))))))).

(** ** Versions *)

Record Version := mkVersion {
  Major : Z; Minor : Z; Patch : Z;
  Prerelease : string; Build : string; Original : string
}.

Inductive version_error :=
| ErrInvalidVersion
| ErrInvalidVersionRange (range : string)
| ErrVersionNotFound.

Definition ParseVersion (version : string) : result version_error Version :=
  if String.eqb version "" then Err ErrInvalidVersion
  else match full_match semverRegex version with
  | None => Err ErrInvalidVersion
  | Some m =>
      Ok {| Major := (Atoi (group m 1)).1;
            Minor := (Atoi (group m 2)).1;
            Patch := (Atoi (group m 3)).1;
            Prerelease := group m 4;
            Build := group m 5;
            Original := version |}
  end.

Definition String_ (v : Version) : string := Original v.

(** The loop of [comparePrerelease] over the parts both versions have. *)
Fixpoint compareParts (aParts bParts : list string) : option Z :=
  match aParts, bParts with
  | a :: aParts, b :: bParts =>
      match Atoi a, Atoi b with
      | (aNum, None), (bNum, None) =>
          if negb (aNum =? bNum) then Some (if aNum <? bNum then -1 else 1)
          else compareParts aParts bParts
      | (_, None), (_, Some _) => Some (-1)
      | (_, Some _), (_, None) => Some 1
      | (_, Some _), (_, Some _) =>
          if negb (String.eqb a b) then Some (if String.ltb a b then -1 else 1)
          else compareParts aParts bParts
      end
  | _, _ => None
  end.

Definition comparePrerelease (a b : string) : Z :=
  let aParts := Split a "." in
  let bParts := Split b "." in
  match compareParts aParts bParts with
  | Some c => c
  | None =>
      if negb (length aParts =? length bParts)%nat
      then if (length aParts <? length bParts)%nat then -1 else 1
      else 0
  end.

Definition Compare (v other : Version) : Z :=
  if negb (Major v =? Major other) then if Major v <? Major other then -1 else 1
  else if negb (Minor v =? Minor other) then if Minor v <? Minor other then -1 else 1
  else if negb (Patch v =? Patch other) then if Patch v <? Patch other then -1 else 1
  else if String.eqb (Prerelease v) "" && negb (String.eqb (Prerelease other) "") then 1
  else if negb (String.eqb (Prerelease v) "") && String.eqb (Prerelease other) "" then -1
  else if negb (String.eqb (Prerelease v) (Prerelease other))
       then comparePrerelease (Prerelease v) (Prerelease other)
  else 0.

Definition ValidateVersion (version : string) : option version_error :=
  match ParseVersion version with Ok _ => None | Err e => Some e end.

Definition CompareVersions (v1 v2 : string) : result version_error Z :=
  let? ver1 := ParseVersion v1 in
  let? ver2 := ParseVersion v2 in
  Ok (Compare ver1 ver2).

Inductive range_op := OpGe | OpLe | OpCompat | OpNe | OpEq | OpGt | OpLt.

(** The operator a range starts with, and the rest of the range, trimmed. *)
Definition split_range (versionRange : string) : range_op * string :=
  if HasPrefix versionRange ">=" then (OpGe, TrimSpace (drop_bytes 2 versionRange))
  else if HasPrefix versionRange "<=" then (OpLe, TrimSpace (drop_bytes 2 versionRange))
  else if HasPrefix versionRange "~=" then (OpCompat, TrimSpace (drop_bytes 2 versionRange))
  else if HasPrefix versionRange "!=" then (OpNe, TrimSpace (drop_bytes 2 versionRange))
  else if HasPrefix versionRange "==" then (OpEq, TrimSpace (drop_bytes 2 versionRange))
  else if HasPrefix versionRange ">" then (OpGt, TrimSpace (drop_bytes 1 versionRange))
  else if HasPrefix versionRange "<" then (OpLt, TrimSpace (drop_bytes 1 versionRange))
  else (OpEq, versionRange).

Definition range_holds (op : range_op) (ver targetVer : Version) : bool :=
  let cmp := Compare ver targetVer in
  match op with
  | OpEq => cmp =? 0
  | OpNe => negb (cmp =? 0)
  | OpGt => 0 <? cmp
  | OpGe => 0 <=? cmp
  | OpLt => cmp <? 0
  | OpLe => cmp <=? 0
  | OpCompat =>
      if negb (Major ver =? Major targetVer) || negb (Minor ver =? Minor targetVer) then false
      else 0 <=? cmp
  end.

Definition MatchesVersionRange (version versionRange : string) : result version_error bool :=
  let? ver := ParseVersion version in
  let versionRange := TrimSpace versionRange in
  if String.eqb versionRange "*" || String.eqb versionRange "" then Ok true
  else
    let '(op, targetVersionStr) := split_range versionRange in
    match ParseVersion targetVersionStr with
    | Err _ => Err (ErrInvalidVersionRange versionRange)
    | Ok targetVer => Ok (range_holds op ver targetVer)
    end.

(** The loop of [FindLatestVersion], which skips invalid versions. *)
Definition latest_step (acc : string * Version) (s : string) : string * Version :=
  match ParseVersion s with
  | Err _ => acc
  | Ok ver => if 0 <? Compare ver acc.2 then (s, ver) else acc
  end.

Definition FindLatestVersion (versions : list string) : result version_error string :=
  match versions with
  | [] => Err ErrVersionNotFound
  | latest :: rest =>
      let? latestVer := ParseVersion latest in
      Ok (foldl latest_step (latest, latestVer) rest).1
  end.

Example parse_ex : ParseVersion "1.20.3-rc.1+b7" =
  Ok (mkVersion 1 20 3 "rc.1" "b7" "1.20.3-rc.1+b7").
Proof. vm_compute. reflexivity. Qed.
Example parse_bad : ParseVersion "01.2.3" = Err ErrInvalidVersion ∧ ParseVersion "1.2" = Err ErrInvalidVersion.
Proof. vm_compute. done. Qed.
Example latest_ex : FindLatestVersion ["1.0.0-rc.10"; "bad"; "1.0.0-rc.9"; "1.0.0-rc.x"] = Ok "1.0.0-rc.x".
Proof. vm_compute. done. Qed.

(** ** The grammar *)

Definition is_numeric (s : string) : bool :=
  String.eqb s "0" ||
  match s with String c r => nonzero_digit c && str_all is_digit r | EmptyString => false end.
Definition is_build_ident (s : string) : bool :=
  negb (String.eqb s "") && str_all ident_char s.
Definition is_pre_ident (s : string) : bool :=
  is_numeric s || str_all ident_char s && negb (str_all is_digit s).
Definition dotted (p : string → bool) (s : string) : bool := forallb p (Split s ".").

Record parts := mkParts {
  p_major : string; p_minor : string; p_patch : string;
  p_pre : option string; p_build : option string
}.

Definition wf_parts (p : parts) : Prop :=
  is_numeric (p_major p) = true ∧ is_numeric (p_minor p) = true ∧ is_numeric (p_patch p) = true ∧
  (∀ x, p_pre p = Some x → dotted is_pre_ident x = true) ∧
  (∀ x, p_build p = Some x → dotted is_build_ident x = true).

Definition after (c : ascii) (o : option string) : string :=
  match o with Some x => String c x | None => EmptyString end.

Definition render (p : parts) : string :=
  p_major p +:+ String "." (p_minor p +:+ String "." (p_patch p +:+
  (after "-" (p_pre p) +:+ after "+" (p_build p)))).

Definition version_of (p : parts) : Version :=
  {| Major := (Atoi (p_major p)).1; Minor := (Atoi (p_minor p)).1; Patch := (Atoi (p_patch p)).1;
     Prerelease := default EmptyString (p_pre p); Build := default EmptyString (p_build p);
     Original := render p |}.

(** ** The patterns denote the grammar *)

Lemma rlit_spec c s e e' : rmatches (RLit c) s e e' ↔ s = String c "" ∧ e' = e.
Proof.
  split.
  - inversion 1 as [|p d e0 Hd| | | | | |]; subst. apply Ascii.eqb_eq in Hd as ->. done.
  - intros [-> ->]. constructor. apply Ascii.eqb_refl.
Qed.

Lemma rcat_spec r1 r2 s e e' :
  rmatches (RCat r1 r2) s e e' ↔
  ∃ s1 s2 e1, s = s1 +:+ s2 ∧ rmatches r1 s1 e e1 ∧ rmatches r2 s2 e1 e'.
Proof. split; [inversion 1; subst; eauto 7|]. intros (s1 & s2 & e1 & -> & ? & ?). by econstructor. Qed.

Lemma ralt_spec r1 r2 s e e' :
  rmatches (RAlt r1 r2) s e e' ↔ rmatches r1 s e e' ∨ rmatches r2 s e e'.
Proof. split; [inversion 1; subst; auto|]. intros [?|?]; [by constructor|by apply m_alt_r]. Qed.

Lemma rgrp_spec i r s e e' :
  rmatches (RGrp i r) s e e' ↔ ∃ e1, rmatches r s e e1 ∧ e' = <[i := s]> e1.
Proof. split; [inversion 1; subst; eauto|]. intros (e1 & ? & ->). by constructor. Qed.

Lemma rchar_spec p s e e' : rmatches (RChar p) s e e' ↔ ∃ c, s = String c "" ∧ p c = true ∧ e' = e.
Proof. split; [inversion 1; subst; eauto|]. intros (c & -> & ? & ->). by constructor. Qed.

Lemma rstar_spec p s e e' : rmatches (RStar (RChar p)) s e e' ↔ str_all p s = true ∧ e' = e.
Proof. split; [apply star_class_inv|]. intros [? ->]. by apply star_class. Qed.

Lemma re_num_spec s e e' : rmatches re_num s e e' ↔ is_numeric s = true ∧ e' = e.
Proof.
  unfold re_num, is_numeric. rewrite ralt_spec, rcat_spec, rlit_spec, orb_true_iff, String.eqb_eq.
  split.
  - intros [[-> ->]|(s1 & s2 & e1 & -> & H1 & H2)]; [by auto|].
    apply rchar_spec in H1 as (c & -> & Hc & ->). apply rstar_spec in H2 as [H2 ->].
    split; [right|done]. change (nonzero_digit c && str_all is_digit s2 = true). by rewrite Hc, H2.
  - intros [[->|H] ->]; [by left|]. destruct s as [|c s]; [done|].
    apply andb_true_iff in H as [Hc Hs]. right. exists (String c ""), s, e.
    rewrite rchar_spec, rstar_spec. eauto 10.
Qed.

Lemma digit_ident c : is_digit c = true → ident_char c = true.
Proof. unfold ident_char. by intros ->. Qed.

Lemma letter_not_digit c : letter_or_dash c = true → is_digit c = false.
Proof. destruct c as [[] [] [] [] [] [] [] []]; done. Qed.

(** A string with a non-digit is digits, a non-digit, and the rest. *)
Lemma first_non_digit s :
  str_all ident_char s = true → str_all is_digit s = false →
  ∃ a c b, s = a +:+ String c b ∧ str_all is_digit a = true ∧ letter_or_dash c = true ∧
           str_all ident_char b = true.
Proof.
  induction s as [|d s IH]; simpl; [done|]. intros [Hd Hs]%andb_true_iff Hn.
  destruct (is_digit d) eqn:Hdig; simpl in Hn.
  - destruct (IH Hs Hn) as (a & c & b & -> & Ha & Hc & Hb).
    exists (String d a), c, b. simpl. by rewrite Hdig.
  - exists EmptyString, d, s. unfold ident_char in Hd. rewrite Hdig in Hd. done.
Qed.

Lemma re_pre_ident_spec s e e' : rmatches re_pre_ident s e e' ↔ is_pre_ident s = true ∧ e' = e.
Proof.
  unfold re_pre_ident, is_pre_ident. rewrite ralt_spec, re_num_spec, orb_true_iff, andb_true_iff, negb_true_iff.
  setoid_rewrite rcat_spec. setoid_rewrite rcat_spec. setoid_rewrite rstar_spec. setoid_rewrite rchar_spec.
  split.
  - intros [[? ->]|(a & b & e1 & -> & [Ha ->] & (s1 & s2 & e2 & -> & (c & -> & Hc & ->) & Hs2 & ->))]; [by auto|].
    split; [right|done]. change (String c "" +:+ s2) with (String c s2). rewrite !str_all_app. simpl.
    assert (ident_char c = true) as -> by (unfold ident_char; by rewrite Hc, orb_true_r).
    rewrite Hs2, (str_all_impl _ _ _ digit_ident Ha), (letter_not_digit c Hc). by rewrite andb_false_r.
  - intros [[?|[Hi Hd]] ->]; [by left|]. right.
    destruct (first_non_digit s Hi Hd) as (a & c & b & -> & ? & ? & ?).
    exists a, (String c b), e. split_and!; [done..|]. exists (String c ""), b, e. eauto 10.
Qed.

Lemma re_build_ident_spec s e e' : rmatches re_build_ident s e e' ↔ is_build_ident s = true ∧ e' = e.
Proof.
  unfold re_build_ident, RPlus, is_build_ident.
  rewrite rcat_spec. setoid_rewrite rstar_spec. setoid_rewrite rchar_spec. split.
  - intros (s1 & s2 & e1 & -> & (c & -> & Hc & ->) & H2 & ->).
    change (String c "" +:+ s2) with (String c s2). simpl. by rewrite Hc, H2.
  - destruct s as [|c s]; simpl; [by intros []|]. intros [[Hc Hs]%andb_true_iff ->].
    exists (String c ""), s, e. eauto 10.
Qed.

Section dotted.
Context (r : re) (P : string → bool).
Hypothesis r_spec : ∀ s e e', rmatches r s e e' ↔ P s = true ∧ e' = e.
Hypothesis P_nodot : ∀ s, P s = true → str_all (not_char ".") s = true.

Lemma star_dots_spec s e e' :
  rmatches (RStar (RCat (RLit ".") r)) s e e' ↔
  (∃ ws, s = seps "." ws ∧ forallb P ws = true) ∧ e' = e.
Proof.
  split.
  - remember (RStar _) as q eqn:Eq. induction 1 as [| | | | |r' e|r' s1 s2 e e1 e2 Hne H1 _ H2 IH|];
      simplify_eq; [by split; [exists []|]|].
    apply rcat_spec in H1 as (d & w & e3 & -> & [-> ->]%rlit_spec & [Hw ->]%r_spec).
    destruct IH as [(ws & -> & Hws) ->]; [done|]. split; [|done].
    exists (w :: ws). simpl. rewrite Hw, Hws. done.
  - intros [(ws & -> & Hws) ->]. induction ws as [|w ws IH]; [apply m_star_nil|].
    simpl in *. apply andb_true_iff in Hws as [Hw Hws].
    apply (m_star_cons _ (String "." w) (seps "." ws) e e e); auto.
    apply rcat_spec. exists ".", w, e. by rewrite rlit_spec, r_spec.
Qed.

Lemma re_dotted_spec s e e' : rmatches (re_dotted r) s e e' ↔ dotted P s = true ∧ e' = e.
Proof.
  unfold re_dotted, dotted. rewrite rcat_spec. setoid_rewrite r_spec. setoid_rewrite star_dots_spec.
  split.
  - intros (w & s2 & e1 & -> & [Hw ->] & (ws & -> & Hws) & ->). split; [|done].
    rewrite Split_join; [simpl; by rewrite Hw|].
    constructor; [by apply P_nodot|]. apply Is_true_true, forallb_True in Hws.
    revert Hws. apply Forall_impl. intros x Hx%Is_true_true. by apply P_nodot.
  - intros [H ->]. destruct (Split_inv s ".") as (w & ws & E & -> & _). rewrite E in H. simpl in H.
    apply andb_true_iff in H as [Hw Hws]. exists w, (seps "." ws), e. eauto 10.
Qed.
End dotted.

Lemma numeric_digits s : is_numeric s = true → str_all is_digit s = true ∧ s ≠ EmptyString.
Proof.
  unfold is_numeric. intros [->%String.eqb_eq|H]%orb_true_iff; [done|].
  destruct s as [|c s]; [done|]. apply andb_true_iff in H as [Hc Hs]. split; [|done]. simpl.
  rewrite Hs, andb_true_r. apply in_range_spec in Hc. apply in_range_spec. lia.
Qed.

Lemma digit_not c d : is_digit d = true → is_digit c = false → not_char c d = true.
Proof. intros Hd Hc. apply negb_true_iff, Ascii.eqb_neq. congruence. Qed.

Lemma ident_not_dot c : ident_char c = true → not_char "." c = true.
Proof. intros H. apply negb_true_iff, Ascii.eqb_neq. by intros ->. Qed.

Lemma pre_ident_nodot s : is_pre_ident s = true → str_all (not_char ".") s = true.
Proof.
  unfold is_pre_ident. intros [H|H]%orb_true_iff.
  - apply numeric_digits in H as [H _]. revert H. apply str_all_impl. intros c Hc. by apply digit_not.
  - apply andb_true_iff in H as [H _]. revert H. apply str_all_impl, ident_not_dot.
Qed.

Lemma build_ident_nodot s : is_build_ident s = true → str_all (not_char ".") s = true.
Proof. intros [_ H]%andb_true_iff. revert H. apply str_all_impl, ident_not_dot. Qed.

Definition re_pre_spec := re_dotted_spec re_pre_ident is_pre_ident re_pre_ident_spec pre_ident_nodot.
Definition re_build_spec :=
  re_dotted_spec re_build_ident is_build_ident re_build_ident_spec build_ident_nodot.

(** What an optional suffix of the version matches, and the group it sets. *)
Lemma opt_group_spec c i r P s e e' :
  (∀ s e e', rmatches r s e e' ↔ P s = true ∧ e' = e) →
  rmatches (ROpt (RCat (RLit c) (RGrp i r))) s e e' ↔
  ∃ o, s = after c o ∧ (∀ x, o = Some x → P x = true) ∧
       e' = match o with Some x => <[i := x]> e | None => e end.
Proof.
  intros Hr. unfold ROpt. rewrite ralt_spec, rcat_spec. setoid_rewrite rgrp_spec.
  setoid_rewrite rlit_spec. setoid_rewrite Hr. split.
  - intros [(d & x & e1 & -> & [-> ->] & (e2 & [Hx ->] & ->))|H].
    + exists (Some x). split_and!; [done| |done]. by intros y [= <-].
    + inversion H; subst. by exists None.
  - intros ([x|] & -> & HP & ->); [left|right; constructor].
    exists (String c ""), x, e. split_and!; [done..|]. exists e. auto.
Qed.

Definition group_env (p : parts) : captures :=
  let e3 := <[3%nat := p_patch p]> (<[2%nat := p_minor p]> (<[1%nat := p_major p]> ∅)) in
  let e4 := match p_pre p with Some x => <[4%nat := x]> e3 | None => e3 end in
  match p_build p with Some x => <[5%nat := x]> e4 | None => e4 end.

Lemma semver_matches s e' :
  rmatches semverRegex s ∅ e' ↔ ∃ p, wf_parts p ∧ s = render p ∧ e' = group_env p.
Proof.
  unfold semverRegex. rewrite rcat_spec. setoid_rewrite rcat_spec. setoid_rewrite rcat_spec.
  setoid_rewrite rcat_spec. setoid_rewrite rcat_spec. setoid_rewrite rcat_spec.
  setoid_rewrite (opt_group_spec _ _ _ _ _ _ _ re_pre_spec).
  setoid_rewrite (opt_group_spec _ _ _ _ _ _ _ re_build_spec).
  setoid_rewrite rgrp_spec. setoid_rewrite re_num_spec. setoid_rewrite rlit_spec.
  split.
  - intros (M & ? & ? & -> & (? & [HM ->] & ->) & ? & ? & ? & -> & [-> ->] & m & ? & ? & -> &
      (? & [Hm ->] & ->) & ? & ? & ? & -> & [-> ->] & pa & ? & ? & -> & (? & [Hpa ->] & ->) & ? & ? & ? &
      -> & (pre & -> & Hpre & ->) & (build & -> & Hbuild & ->)).
    by exists (mkParts M m pa pre build).
  - intros ([M m pa pre build] & (HM & Hm & Hpa & Hpre & Hbuild) & -> & ->); simpl in *.
    repeat (eexists || split); eauto.
Qed.

Lemma dotted_chars P s :
  (∀ w, P w = true → str_all ident_char w = true) → dotted P s = true →
  str_all (λ c, ident_char c || Ascii.eqb c ".") s = true.
Proof.
  unfold dotted. intros HP. destruct (Split_inv s ".") as (w & ws & -> & -> & _).
  simpl. intros [Hw Hws]%andb_true_iff. rewrite str_all_app.
  assert (∀ w, P w = true → str_all (λ c, ident_char c || Ascii.eqb c ".") w = true) as HP'.
  { intros x Hx. apply (str_all_impl ident_char); [|auto]. by intros c ->. }
  rewrite (HP' w Hw). simpl. clear w Hw. induction ws as [|w ws IH]; [done|]. simpl in *.
  apply andb_true_iff in Hws as [Hw Hws].
  by rewrite str_all_app, (HP' w Hw), (IH Hws).
Qed.

Lemma is_pre_ident_chars w : is_pre_ident w = true → str_all ident_char w = true.
Proof.
  unfold is_pre_ident. intros [H|[H _]%andb_true_iff]%orb_true_iff; [|done].
  apply numeric_digits in H as [H _]. revert H. apply str_all_impl, digit_ident.
Qed.

Lemma after_build_inj o o' : after "+" o = after "+" o' → o = o'.
Proof. by destruct o, o'; intros; simplify_eq/=. Qed.

(** A rendered version determines its parts. *)
Lemma render_inj p p' : wf_parts p → wf_parts p' → render p = render p' → p = p'.
Proof.
  destruct p as [M m pa pre build], p' as [M' m' pa' pre' build'].
  intros (HM & Hm & Hpa & Hpre & Hb) (HM' & Hm' & Hpa' & Hpre' & Hb') E.
  unfold render in E; simpl in *.
  apply (span_unique is_digit) in E as [-> E]; [|by apply numeric_digits..|done|done].
  injection E as E.
  apply (span_unique is_digit) in E as [-> E]; [|by apply numeric_digits..|done|done].
  injection E as E.
  apply (span_unique is_digit) in E as [-> E];
    [|by apply numeric_digits..|by destruct pre, build|by destruct pre', build'].
  assert (∀ o x, (∀ x, o = Some x → dotted is_pre_ident x = true) → o = Some x →
    str_all (λ c, ident_char c || Ascii.eqb c ".") x = true) as Hch.
  { intros o x Ho ->. eapply dotted_chars, Ho; [apply is_pre_ident_chars|done]. }
  destruct pre as [x|], pre' as [x'|]; simpl in E.
  - rewrite !str_app_cons in E. injection E as E.
    apply (span_unique (λ c, ident_char c || Ascii.eqb c ".")) in E as [-> E];
      [by apply after_build_inj in E as ->|by eauto..|by destruct build|by destruct build'].
  - by destruct build'.
  - by destruct build.
  - by apply after_build_inj in E as ->.
Qed.

Lemma group_env_lookup p :
  group (group_env p) 1 = p_major p ∧ group (group_env p) 2 = p_minor p ∧
  group (group_env p) 3 = p_patch p ∧ group (group_env p) 4 = default EmptyString (p_pre p) ∧
  group (group_env p) 5 = default EmptyString (p_build p).
Proof.
  unfold group, group_env. destruct (p_pre p), (p_build p); split_and!; by simplify_map_eq.
Qed.

Lemma full_match_semver s e :
  full_match semverRegex s = Some e ↔ ∃ p, wf_parts p ∧ s = render p ∧ e = group_env p.
Proof.
  assert (∀ s e, full_match semverRegex s = Some e →
    ∃ p, wf_parts p ∧ s = render p ∧ e = group_env p) as Hsound.
  { clear. intros s e H. apply rmatch_sound in H as (s1 & s2 & e' & -> & Hm & Hk).
    destruct s2; [|done]. injection Hk as ->. rewrite str_app_nil_r. by apply semver_matches. }
  split; [apply Hsound|]. intros (p & Hp & -> & ->).
  pose proof (proj2 (semver_matches (render p) (group_env p)) ltac:(eauto)) as Hm.
  destruct (rmatch_complete _ _ _ _ EmptyString
    (λ s' e, match s' with EmptyString => Some e | _ => None end) Hm ltac:(by eexists)) as [e' He].
  rewrite str_app_nil_r in He. pose proof (Hsound _ _ He) as (p' & Hp' & E & ->).
  rewrite <- (render_inj p p' Hp Hp' E) in He. exact He.
Qed.

Lemma render_ne p : wf_parts p → String.eqb (render p) "" = false.
Proof.
  intros (HM & _). apply numeric_digits in HM as [_ HM]. apply String.eqb_neq.
  unfold render. intros E. apply HM. by destruct (p_major p).
Qed.

Lemma ParseVersion_iff s v :
  ParseVersion s = Ok v ↔ ∃ p, wf_parts p ∧ s = render p ∧ v = version_of p.
Proof.
  unfold ParseVersion. split.
  - destruct (String.eqb s ""); [done|]. destruct (full_match semverRegex s) as [m|] eqn:E; [|done].
    intros [= <-]. apply full_match_semver in E as (p & Hp & -> & ->). exists p.
    destruct (group_env_lookup p) as (-> & -> & -> & -> & ->). done.
  - intros (p & Hp & -> & ->). rewrite (render_ne p Hp).
    destruct (full_match semverRegex (render p)) as [m|] eqn:E.
    + apply full_match_semver in E as (p' & Hp' & Hr & ->).
      rewrite <- (render_inj p p' Hp Hp' Hr).
      by destruct (group_env_lookup p) as (-> & -> & -> & -> & ->).
    + rewrite (proj2 (full_match_semver (render p) (group_env p)) ltac:(eauto)) in E. done.
Qed.

(** ** The order *)

(** A pre-release part is a number or a string; numbers come first. *)
Definition part_key (s : string) : Z + string :=
  match Atoi s with (n, None) => inl n | (_, Some _) => inr s end.
Definition part_cmp : string → string → comparison :=
  key_cmp part_key (sum_cmp Z.compare String.compare).

(** A version without pre-release comes after those with one. *)
Definition pre_key (v : Version) : list string + unit :=
  if String.eqb (Prerelease v) "" then inr tt else inl (Split (Prerelease v) ".").
Definition ver_cmp : Version → Version → comparison :=
  key_cmp (λ v, (Major v, (Minor v, (Patch v, pre_key v))))
    (pair_cmp Z.compare (pair_cmp Z.compare (pair_cmp Z.compare
      (sum_cmp (list_cmp part_cmp) (λ _ _, Eq))))).

#[export] Instance unit_total : TotalCmp (λ _ _ : unit, Eq).
Proof. split; by intros. Qed.

#[export] Instance ver_cmp_total : TotalCmp ver_cmp.
Proof. apply _. Qed.

Lemma Zcompare_sign a b (k : Z) :
  (if negb (a =? b) then if a <? b then -1 else 1 else k) =
  match Z.compare a b with Eq => k | c => cmp_sign c end.
Proof. destruct (Z.compare_spec a b), (Z.eqb_spec a b), (Z.ltb_spec a b); simpl; lia. Qed.

Lemma string_compare_sign a b (k : Z) :
  (if negb (String.eqb a b) then if String.ltb a b then -1 else 1 else k) =
  match String.compare a b with Eq => k | c => cmp_sign c end.
Proof.
  unfold String.ltb. destruct (String.eqb_spec a b) as [->|Hne]; simpl.
  - by rewrite (cmp_refl String.compare).
  - destruct (String.compare a b) eqn:E; [|done..]. by apply String.compare_eq_iff in E.
Qed.

Lemma comparePrerelease_cmp a b :
  comparePrerelease a b = cmp_sign (list_cmp part_cmp (Split a ".") (Split b ".")).
Proof.
  unfold comparePrerelease. generalize (Split a ".") (Split b "."). clear a b.
  induction l as [|a l IH]; intros [|b k]; [done..|]. cbn [compareParts list_cmp].
  unfold part_cmp at 1, key_cmp, part_key. specialize (IH k). cbn [length Nat.eqb].
  destruct (Atoi a) as [n [ea|]], (Atoi b) as [m [eb|]]; cbn [sum_cmp]; try done.
  - pose proof (string_compare_sign a b 0) as H. destruct (String.eqb a b); simpl in *.
    + destruct (String.compare a b); [exact IH|done|done].
    + by destruct (String.compare a b), (String.ltb a b).
  - pose proof (Zcompare_sign n m 0) as H. destruct (n =? m); simpl in *.
    + destruct (n ?= m); [exact IH|done|done].
    + by destruct (n ?= m), (n <? m).
Qed.

Lemma Compare_cmp v w : Compare v w = cmp_sign (ver_cmp v w).
Proof.
  unfold Compare. rewrite !Zcompare_sign. unfold ver_cmp, key_cmp, pair_cmp; cbn [fst snd].
  destruct (Major v ?= Major w); [|done..]. destruct (Minor v ?= Minor w); [|done..].
  destruct (Patch v ?= Patch w); [|done..]. unfold pre_key.
  destruct (String.eqb_spec (Prerelease v) ""), (String.eqb_spec (Prerelease w) ""); simpl; try done.
  - replace (Prerelease v) with (Prerelease w) by congruence. by rewrite String.eqb_refl.
  - destruct (String.eqb_spec (Prerelease v) (Prerelease w)) as [E|E]; simpl.
    + by rewrite E, (cmp_refl (list_cmp part_cmp)).
    + apply comparePrerelease_cmp.
Qed.

Lemma Compare_le v w : Compare v w <= 0 ↔ ver_cmp v w ≠ Gt.
Proof. rewrite Compare_cmp. destruct (ver_cmp v w); simpl; naive_solver lia. Qed.

Lemma Compare_gt v w : 0 < Compare v w ↔ ver_cmp v w = Gt.
Proof. rewrite Compare_cmp. destruct (ver_cmp v w); simpl; naive_solver lia. Qed.

Lemma ParseVersion_render p : wf_parts p → ParseVersion (render p) = Ok (version_of p).
Proof. intros Hp. apply ParseVersion_iff. eauto. Qed.

(** ** Ranges *)

(** The operators a range may start with. *)
Definition op_table : list (string * range_op) :=
  [(">=", OpGe); ("<=", OpLe); ("~=", OpCompat); ("!=", OpNe); ("==", OpEq);
   (">", OpGt); ("<", OpLt); ("", OpEq)].

Lemma wf_render_word p : wf_parts p → ∃ c r, render p = String c r ∧ is_digit c = true ∧
  str_all word_char (String c r) = true.
Proof.
  intros Hp. pose proof Hp as (HM & Hm & Hpa & Hpre & Hb).
  assert (∀ s, str_all is_digit s = true → str_all word_char s = true) as Hd.
  { intros s. apply str_all_impl. intros c. unfold is_digit, word_char. rewrite !in_range_spec. lia. }
  assert (∀ s, str_all (λ c, ident_char c || Ascii.eqb c ".") s = true → str_all word_char s = true) as Hi.
  { intros s. apply str_all_impl. intros c. by destruct c as [[] [] [] [] [] [] [] []]. }
  apply numeric_digits in HM as [HM HMne], Hm as [Hm _], Hpa as [Hpa _].
  assert (str_all word_char (render p) = true) as Hall.
  { unfold render. rewrite str_all_app, (Hd _ HM). simpl. rewrite str_all_app, (Hd _ Hm). simpl.
    rewrite !str_all_app, (Hd _ Hpa). simpl. apply andb_true_iff. split.
    - destruct (p_pre p) as [x|] eqn:E; [|done]. simpl. apply Hi.
      eapply dotted_chars, Hpre; [apply is_pre_ident_chars|done].
    - destruct (p_build p) as [x|] eqn:E; [|done]. simpl. apply Hi.
      eapply dotted_chars, Hb; [|done]. by intros w [_ ?]%andb_true_iff. }
  unfold render in *. destruct (p_major p) as [|c r]; [done|].
  rewrite str_app_cons in *. simpl in HM. apply andb_true_iff in HM as [Hc _]. eauto.
Qed.

Lemma HasPrefix_2 a b c d r :
  HasPrefix (String c (String d r)) (String a (String b "")) = Ascii.eqb a c && Ascii.eqb b d.
Proof.
  unfold HasPrefix. simpl. destruct (ascii_dec a c) as [->|Hac], (ascii_dec b d) as [->|Hbd];
    rewrite ?Ascii.eqb_refl; try (apply Ascii.eqb_neq in Hac as ->); try (apply Ascii.eqb_neq in Hbd as ->);
    rewrite ?andb_false_r; try done. by destruct r.
Qed.

Lemma HasPrefix_1 a c r : HasPrefix (String c r) (String a "") = Ascii.eqb a c.
Proof.
  unfold HasPrefix. simpl. destruct (ascii_dec a c) as [->|Hac]; [|by apply Ascii.eqb_neq in Hac as ->].
  rewrite Ascii.eqb_refl. by destruct r.
Qed.

Lemma HasPrefix_ne a p c r : Ascii.eqb a c = false → HasPrefix (String c r) (String a p) = false.
Proof. intros H%Ascii.eqb_neq. unfold HasPrefix. simpl. by destruct (ascii_dec a c). Qed.

Lemma split_range_table o op p :
  (o, op) ∈ op_table → wf_parts p → split_range (TrimSpace (o +:+ render p)) = (op, render p).
Proof.
  intros Hin Hp. destruct (wf_render_word p Hp) as (c & r & E & Hc & Hw). rewrite E. clear E Hp.
  assert (∀ a, is_digit a = false → Ascii.eqb a c = false) as Hne.
  { intros a Ha. apply Ascii.eqb_neq. congruence. }
  assert (∀ a s, word_char a = true → str_all word_char s = true →
    TrimSpace (String a s) = String a s) as Htrim.
  { intros a s Ha Hs. apply str_all_words. simpl. by rewrite Ha, Hs. }
  repeat (apply elem_of_cons in Hin as [[= -> ->]|Hin]);
    [..|by apply elem_of_nil in Hin];
    rewrite ?str_app_cons; change ("" +:+ String c r) with (String c r).
  all: repeat (rewrite Htrim by (try done; simpl; by rewrite ?Hw)).
  all: unfold split_range; rewrite ?HasPrefix_2, ?HasPrefix_1; cbn [drop_bytes].
  all: rewrite ?Hne by done; simpl; rewrite ?andb_false_r, ?str_all_words by done; try done.
  by rewrite !HasPrefix_ne by auto.
Qed.

(** C33: Parsing accepts exactly the strings of the SemVer grammar
    [MAJOR.MINOR.PATCH[-PRERELEASE][+BUILD]], and returns their parts: it
    inverts rendering and nothing else parses. *)
Theorem ParseVersion_spec s v :
  ParseVersion s = Ok v ↔ ∃ p, wf_parts p ∧ s = render p ∧ v = version_of p.
Proof. apply ParseVersion_iff. Qed.

(** C34: The comparison of versions is the lexicographic order of the key
    (major, minor, patch, pre-release), where numeric pre-release parts come
    before alphanumeric ones, a shorter pre-release before its extensions and
    any pre-release before the release itself. *)
Theorem Compare_lexicographic v w : Compare v w = cmp_sign (ver_cmp v w).
Proof. apply Compare_cmp. Qed.

(** The comparison is a total preorder: reflexive, sign-antisymmetric and
    transitive. *)
Theorem Compare_total_preorder :
  (∀ v, Compare v v = 0) ∧ (∀ v w, Compare w v = - Compare v w) ∧
  (∀ u v w, Compare u v <= 0 → Compare v w <= 0 → Compare u w <= 0).
Proof.
  split_and!.
  - intros v. by rewrite Compare_cmp, (cmp_refl ver_cmp).
  - intros v w. by rewrite !Compare_cmp, (cmp_opp ver_cmp v w), cmp_sign_opp.
  - intros u v w. rewrite !Compare_le. apply (cmp_le_trans ver_cmp).
Qed.

(** For every operator and target version, a version matches the range made
    of the operator followed by the target exactly when the comparison with the
    target says so; [~=] also asks for the same major and minor numbers. *)
Theorem MatchesVersionRange_operators o op p q :
  (o, op) ∈ op_table → wf_parts p → wf_parts q →
  MatchesVersionRange (render q) (o +:+ render p) =
    Ok (range_holds op (version_of q) (version_of p)).
Proof.
  intros Hin Hp Hq. unfold MatchesVersionRange. rewrite (ParseVersion_render q Hq).
  pose proof (split_range_table o op p Hin Hp) as Hs.
  destruct (String.eqb_spec (TrimSpace (o +:+ render p)) "*") as [E|_].
  { exfalso. rewrite E in Hs. pose proof (ParseVersion_render p Hp) as Hv.
    change (split_range "*") with (OpEq, "*") in Hs. injection Hs as _ Hs.
    rewrite <- Hs in Hv. replace (ParseVersion "*") with (@Err version_error Version ErrInvalidVersion)
      in Hv by (vm_compute; reflexivity). done. }
  destruct (String.eqb_spec (TrimSpace (o +:+ render p)) "") as [E|_].
  { exfalso. rewrite E in Hs. pose proof (render_ne p Hp) as Hv.
    change (split_range "") with (OpEq, "") in Hs. injection Hs as _ Hs. by rewrite <- Hs in Hv. }
  simpl. by rewrite Hs, (ParseVersion_render p Hp).
Qed.

Definition parts_1_2_3 : parts := mkParts "1" "2" "3" None None.
Definition parts_1_2_9 : parts := mkParts "1" "2" "9" (Some "rc.1") None.

Lemma wf_parts_examples : wf_parts parts_1_2_3 ∧ wf_parts parts_1_2_9.
Proof. split; split_and!; try done; simpl; by intros x [= <-]. Qed.

Lemma MatchesVersionRange_operators_witness :
  MatchesVersionRange "1.2.9-rc.1" "~=1.2.3" = Ok true.
Proof.
  etrans; [apply (MatchesVersionRange_operators "~=" OpCompat parts_1_2_3 parts_1_2_9)|].
  - do 2 right. left.
  - apply wf_parts_examples.
  - apply wf_parts_examples.
  - vm_compute. reflexivity.
Defined.

(** ** The latest version *)

Lemma latest_step_inv acc s :
  latest_step acc s = acc ∨
  ∃ v, ParseVersion s = Ok v ∧ ver_cmp v acc.2 = Gt ∧ latest_step acc s = (s, v).
Proof.
  unfold latest_step. destruct (ParseVersion s) as [v|] eqn:E; [|by left].
  destruct (Z.ltb_spec 0 (Compare v acc.2)) as [H|]; [|by left].
  right. exists v. by rewrite <- Compare_gt.
Qed.

Lemma latest_fold rest acc :
  let r := foldl latest_step acc rest in
  (r = acc ∨ r.1 ∈ rest ∧ ParseVersion r.1 = Ok r.2) ∧
  ver_cmp acc.2 r.2 ≠ Gt ∧
  ∀ s v, s ∈ rest → ParseVersion s = Ok v → ver_cmp v r.2 ≠ Gt.
Proof.
  revert acc. induction rest as [|s rest IH]; intros acc; simpl.
  - split_and!; [by left| |by intros ? ? ?%elem_of_nil]. by rewrite (cmp_refl ver_cmp).
  - destruct (IH (latest_step acc s)) as (Hr & Hacc & Hrest). clear IH.
    set (r := foldl latest_step (latest_step acc s) rest) in *.
    assert (ver_cmp acc.2 (latest_step acc s).2 ≠ Gt) as Hstep.
    { destruct (latest_step_inv acc s) as [->|(v & _ & Hv & ->)]; [by rewrite (cmp_refl ver_cmp)|].
      simpl. by rewrite (cmp_opp ver_cmp v), Hv. }
    split_and!.
    + destruct Hr as [->|[Hin Hp]]; [|right; split; [by right|done]].
      destruct (latest_step_inv acc s) as [->|(v & Hv & _ & ->)]; [by left|]. right. split; [by left|done].
    + by apply (cmp_le_trans ver_cmp _ (latest_step acc s).2).
    + intros s' v [->|Hin]%elem_of_cons Hv; [|eauto].
      apply (cmp_le_trans ver_cmp _ (latest_step acc s).2); [|done].
      unfold latest_step. rewrite Hv. destruct (Z.ltb_spec 0 (Compare v acc.2)) as [|H]; simpl.
      * by rewrite (cmp_refl ver_cmp).
      * by apply Compare_le.
Qed.

(** On a non-empty list whose first element is a valid version, the latest
    version is an element of the list, it is valid, and no valid element of the
    list is greater; on any other list an error is returned. *)
Theorem FindLatestVersion_maximum versions :
  match FindLatestVersion versions with
  | Ok s => s ∈ versions ∧ ∃ v, ParseVersion s = Ok v ∧
      ∀ s' v', s' ∈ versions → ParseVersion s' = Ok v' → Compare v' v <= 0
  | Err e => match versions with
             | [] => e = ErrVersionNotFound
             | first :: _ => ParseVersion first = Err e
             end
  end.
Proof.
  unfold FindLatestVersion. destruct versions as [|first rest]; [done|].
  destruct (ParseVersion first) as [v0|e] eqn:E; [|done].
  destruct (latest_fold rest (first, v0)) as (Hr & Hacc & Hrest). simpl in Hacc.
  set (r := foldl latest_step (first, v0) rest) in *.
  split.
  - destruct Hr as [->|[? _]]; [by left|by right].
  - exists r.2. split; [by destruct Hr as [->|[_ ?]]|].
    intros s' v' [->|Hin]%elem_of_cons Hv; apply Compare_le; [|eauto].
    rewrite E in Hv. by injection Hv as <-.
Qed.
