(* ===== verification/AnsibleCollection.v ===== *)
(** * AnsibleCollection: names, manifests and tarballs of Ansible collections

    Models [collection.go], [manifest.go] and [validator.go] of
    [src/internal/domain/ansible].  Reading the archive (gzip, tar) and the YAML
    library are the class [Archive]; iterating over a Go map is [iter]. *)

From Stdlib Require Import Ascii.
From S2P Require Import Prelude GoStrings GoRegexp GoPath.
From S2P Require SemVer.

(** ** Errors of the package *)

Inductive ansible_err :=
| ErrInvalidNamespace
| ErrInvalidName
| ErrInvalidVersion (e : SemVer.version_error)
| ErrNamespaceTooLong
| ErrNameTooLong
| ErrReservedNamespace
| ErrManifestNotFound
| ErrManifestInvalid
| ErrMissingRequiredField (field : string)
| ErrInvalidDependency (dependency : string)
| ErrTarballTooLarge
| ErrTarballCorrupted
| ErrInvalidTarballPath (path : string)
| ErrForbiddenFile (path : string)
| ErrVersionMismatch
| ErrVersionAlreadyExists
| ErrFilename (e : option ansible_err).

(** [if err := e; err != nil { return err }]. *)
Notation "'check!' e 'in' k" := (match e with Some err => Some err | None => k end)
  (at level 10, e at level 100, k at level 200) : go_scope.

(** ** collection.go *)

Definition name_char (c : ascii) : bool := in_range 97 122 c || is_digit c || Ascii.eqb c "_".
Definition namespaceRegex : re := RPlus (RChar name_char).
Definition nameRegex : re := RPlus (RChar name_char).
Definition reservedNamespaces : list string := ["ansible"; "galaxy"].
Definition maxNamespaceLength : nat := 64.
Definition maxNameLength : nat := 64.

Definition matches (r : re) (s : string) : bool := if full_match r s then true else false.

Definition ValidateNamespace (namespace : string) : option ansible_err :=
  if String.eqb namespace EmptyString then Some ErrInvalidNamespace
  else if (maxNamespaceLength <? String.length namespace)%nat then Some ErrNamespaceTooLong
  else if bool_decide (to_lower namespace ∈ reservedNamespaces) then Some ErrReservedNamespace
  else if negb (matches namespaceRegex namespace) then Some ErrInvalidNamespace
  else None.

Definition ValidateName (name : string) : option ansible_err :=
  if String.eqb name EmptyString then Some ErrInvalidName
  else if (maxNameLength <? String.length name)%nat then Some ErrNameTooLong
  else if negb (matches nameRegex name) then Some ErrInvalidName
  else None.

(** [version.go]'s validation, among the errors of the package. *)
Definition ValidateVersion (version : string) : option ansible_err :=
  ErrInvalidVersion <$> SemVer.ValidateVersion version.

(** ** manifest.go *)

Record Manifest := mkManifest {
  Namespace : string; Name : string; Version : string;
  Authors : list string; Description : string; License : list string; Tags : list string;
  Dependencies : gmap string string;
  Repository : string; Documentation : string; Homepage : string; Issues : string;
  RequiresAnsible : string
}.

Inductive tar_type := TypeReg | TypeDir | TypeOther (flag : ascii).

(** A header of the archive, and what reading the body of its file gives. *)
Record tar_entry := mkTar { te_Name : string; te_Size : Z; te_Typeflag : tar_type; te_Body : option string }.

(** A stream as [gzip.NewReader] and [tar.Next] see it: the header of the
    compressed stream, the entries, and whether they end with [io.EOF]. *)
Record tar_stream := mkStream { ts_gzip : bool; ts_entries : list tar_entry; ts_eof : bool }.

Class Archive := { untar : string → tar_stream; yaml_unmarshal : string → option Manifest }.

Definition validOps : list string := [">="; "<="; "=="; "!="; "~="; ">"; "<"].

(** One round of the loop of [ValidateDependencies]. *)
Definition check_dependency (dep : string * string) : option ansible_err :=
  let '(collection, versionRange) := dep in
  match Split collection "." with
  | [namespace; name] =>
      if bool_decide (ValidateNamespace namespace ≠ None) then Some (ErrInvalidDependency collection)
      else if bool_decide (ValidateName name ≠ None) then Some (ErrInvalidDependency collection)
      else if negb (String.eqb versionRange "*") && negb (String.eqb versionRange EmptyString) then
        let versionRange := TrimSpace versionRange in
        if existsb (HasPrefix versionRange) validOps then None else Some (ErrInvalidDependency collection)
      else None
  | _ => Some (ErrInvalidDependency collection)
  end.

Fixpoint check_dependencies (deps : list (string * string)) : option ansible_err :=
  match deps with
  | [] => None
  | d :: deps => check! check_dependency d in check_dependencies deps
  end.

Section manifest.
Context (iter : gmap string string → list (string * string)).

Definition ValidateDependencies (m : Manifest) : option ansible_err := check_dependencies (iter (Dependencies m)).

Definition ManifestValidate (m : Manifest) : option ansible_err :=
  if String.eqb (Namespace m) EmptyString then Some (ErrMissingRequiredField "namespace")
  else if String.eqb (Name m) EmptyString then Some (ErrMissingRequiredField "name")
  else if String.eqb (Version m) EmptyString then Some (ErrMissingRequiredField "version")
  else
    check! ValidateNamespace (Namespace m) in
    check! ValidateName (Name m) in
    check! ValidateVersion (Version m) in
    if bool_decide (Authors m = []) then Some (ErrMissingRequiredField "authors")
    else ValidateDependencies m.

Definition ParseManifest `{!Archive} (data : string) : result ansible_err Manifest :=
  match yaml_unmarshal data with
  | None => Err ErrManifestInvalid
  | Some m => match ManifestValidate m with Some e => Err e | None => Ok m end
  end.

Definition is_manifest (e : tar_entry) : bool :=
  HasSuffix (te_Name e) "galaxy.yml" || HasSuffix (te_Name e) "galaxy.yaml".

(** The body of the first entry that is named like a manifest. *)
Fixpoint find_manifest (es : list tar_entry) (eof : bool) : result ansible_err string :=
  match es with
  | [] => if eof then Err ErrManifestNotFound else Err ErrTarballCorrupted
  | e :: es =>
      if is_manifest e then match te_Body e with Some d => Ok d | None => Err ErrManifestInvalid end
      else find_manifest es eof
  end.

Definition ParseManifestFromTarball `{!Archive} (content : string) : result ansible_err Manifest :=
  let ts := untar content in
  if negb (ts_gzip ts) then Err ErrTarballCorrupted
  else let? data := find_manifest (ts_entries ts) (ts_eof ts) in ParseManifest data.

(** *** Collections *)

Record Collection := mkCollection {
  co_Namespace : string; co_Name : string; co_Version : string;
  co_Manifest : option Manifest; co_SHA256 : string; co_Size : Z
}.

Definition FullName (c : Collection) : string := co_Namespace c +:+ ("." +:+ co_Name c).
Definition Filename (c : Collection) : string :=
  co_Namespace c +:+ ("-" +:+ (co_Name c +:+ ("-" +:+ (co_Version c +:+ ".tar.gz")))).

Definition CollectionValidate (c : Collection) : option ansible_err :=
  check! ValidateNamespace (co_Namespace c) in
  check! ValidateName (co_Name c) in
  check! ValidateVersion (co_Version c) in
  match co_Manifest c with
  | None => None
  | Some m =>
      check! ManifestValidate m in
      if negb (String.eqb (Namespace m) (co_Namespace c)) then Some ErrManifestInvalid
      else if negb (String.eqb (Name m) (co_Name c)) then Some ErrManifestInvalid
      else if negb (String.eqb (Version m) (co_Version c)) then Some ErrVersionMismatch
      else None
  end.
End manifest.

(** ** validator.go *)

Record TarballValidator := NewTarballValidator { MaxSize : Z }.

Definition forbiddenPatterns : list string :=
  [".git"; ".svn"; ".hg"; "__pycache__"; "*.pyc"; "*.pyo"; ".DS_Store"; "Thumbs.db"; ".idea"; ".vscode"].

Definition ValidateSize (v : TarballValidator) (size : Z) : option ansible_err :=
  if MaxSize v <? size then Some ErrTarballTooLarge else None.

Definition validatePath (path : string) : option ansible_err :=
  let cleaned := Clean path in
  if rooted cleaned then Some (ErrInvalidTarballPath path)
  else if Contains cleaned ".." then Some (ErrInvalidTarballPath path)
  else if HasPrefix path "/" then Some (ErrInvalidTarballPath path)
  else None.

Definition pattern_hits (part pattern : string) : bool :=
  String.eqb pattern part || (HasPrefix pattern "*." && HasSuffix part (drop_bytes 1 pattern)).

Definition isForbiddenFile (path : string) : bool :=
  existsb (λ part, existsb (pattern_hits part) forbiddenPatterns) (Split (Clean path) slash).

Definition is_galaxy (name : string) : bool :=
  let filename := Base name in String.eqb filename "galaxy.yml" || String.eqb filename "galaxy.yaml".

(** The loop over the headers: the running size and [hasGalaxyYml]. *)
Fixpoint check_entries (v : TarballValidator) (es : list tar_entry) (eof : bool) (totalSize : Z) (hasGalaxyYml : bool) :
    result ansible_err bool :=
  match es with
  | [] => if eof then Ok hasGalaxyYml else Err ErrTarballCorrupted
  | e :: es =>
      let totalSize := wrap64 (totalSize + te_Size e) in
      if wrap64 (MaxSize v * 2) <? totalSize then Err ErrTarballTooLarge
      else
        match validatePath (te_Name e) with
        | Some err => Err err
        | None =>
            if isForbiddenFile (te_Name e) then Err (ErrForbiddenFile (te_Name e))
            else
              let hasGalaxyYml := is_galaxy (te_Name e) || hasGalaxyYml in
              match te_Typeflag e with
              | TypeOther _ => Err ErrTarballCorrupted
              | TypeReg | TypeDir => check_entries v es eof totalSize hasGalaxyYml
              end
        end
  end.

Definition ValidateStructure `{!Archive} (v : TarballValidator) (content : string) : option ansible_err :=
  let ts := untar content in
  if negb (ts_gzip ts) then Some ErrTarballCorrupted
  else
    match check_entries v (ts_entries ts) (ts_eof ts) 0 false with
    | Err e => Some e
    | Ok hasGalaxyYml => if hasGalaxyYml then None else Some ErrManifestNotFound
    end.

Definition ValidateCollectionFilename (filename : string) : result ansible_err (string * string * string) :=
  if negb (HasSuffix filename ".tar.gz") then Err (ErrFilename None)
  else
    match Split (TrimSuffix filename ".tar.gz") "-" with
    | namespace :: name :: v :: vs =>
        let version := Join (v :: vs) "-" in
        match ValidateNamespace namespace with
        | Some e => Err (ErrFilename (Some e))
        | None =>
            match ValidateName name with
            | Some e => Err (ErrFilename (Some e))
            | None =>
                match ValidateVersion version with
                | Some e => Err (ErrFilename (Some e))
                | None => Ok (namespace, name, version)
                end
            end
        end
    | _ => Err (ErrFilename None)
    end.

Example filename_ex :
  ValidateCollectionFilename "acme-web_tools-1.0.0-rc.1.tar.gz" = Ok ("acme", "web_tools", "1.0.0-rc.1")
  ∧ ValidateCollectionFilename "ansible-web-1.0.0.tar.gz" = Err (ErrFilename (Some ErrReservedNamespace))
  ∧ validatePath "a/../../b" = Some (ErrInvalidTarballPath "a/../../b")
  ∧ validatePath "a/../b" = None ∧ isForbiddenFile "x/.git/y" = true ∧ isForbiddenFile "x/y.pyc/z" = true
  ∧ isForbiddenFile "x/y.py" = false.
Proof. vm_compute. repeat split. Qed.

(** ** Names *)

Lemma matches_class p s : matches (RPlus (RChar p)) s = true ↔ s ≠ EmptyString ∧ str_all p s = true.
Proof.
  unfold matches, full_match. split.
  - destruct (rmatch _ s ∅ _) as [x|] eqn:E; [|done]. intros _.
    apply rmatch_sound in E as (s1 & s2 & e' & -> & Hm & Hk). destruct s2; [|done]. rewrite str_app_nil_r.
    inversion Hm as [| |r1 r2 s3 s4 e0 e1 e2 H1 H2| | | | |]; subst. inversion H1; subst.
    apply star_class_inv in H2 as [H2 _]. rewrite str_app_cons. cbn. split; [done|]. by apply andb_true_iff.
  - intros [Hn Hs]. destruct s as [|c s]; [done|]. cbn [str_all] in Hs. apply andb_true_iff in Hs as [Hc Hs].
    pose proof (star_class p s ∅ Hs) as H2.
    assert (rmatches (RPlus (RChar p)) (String c EmptyString +:+ s) ∅ ∅) as Hm
      by (eapply m_cat; [by constructor|exact H2]).
    eapply (rmatch_complete _ _ _ _ EmptyString (λ s' e, match s' with EmptyString => Some e | _ => None end)) in Hm;
      [|by eexists].
    rewrite str_app_nil_r in Hm. change (String c EmptyString +:+ s) with (String c s) in Hm. by destruct Hm as [x ->].
Qed.

Definition valid_namespace (s : string) : Prop :=
  s ≠ EmptyString ∧ (String.length s <= 64)%nat ∧ str_all name_char s = true ∧ s ∉ reservedNamespaces.

Lemma name_char_lower s : str_all name_char s = true → to_lower s = s.
Proof.
  induction s as [|c s IH]; [done|]. cbn [str_all]. intros [Hc Hs]%andb_true_iff. specialize (IH Hs).
  assert (to_lower (String c s) = String (lower_char c) (to_lower s)) as ->.
  { unfold name_char in Hc. destruct c as [[] [] [] [] [] [] [] []]; try done; vm_compute in Hc; done. }
  rewrite IH. f_equal. unfold lower_char. destruct (in_range 65 90 c) eqn:E; [|done].
  unfold name_char in Hc. rewrite !orb_true_iff, Ascii.eqb_eq in Hc. apply in_range_spec in E.
  destruct Hc as [[Hc| Hc]| ->]; [apply in_range_spec in Hc; lia|apply in_range_spec in Hc; lia|].
  vm_compute in E. naive_solver.
Qed.

Lemma ValidateNamespace_None s : ValidateNamespace s = None ↔ valid_namespace s.
Proof.
  unfold ValidateNamespace, valid_namespace, maxNamespaceLength. split.
  - destruct (String.eqb_spec s EmptyString) as [|Hn]; [done|].
    destruct (Nat.ltb_spec 64 (String.length s)) as [|Hl]; [done|]. case_bool_decide as Hr; [done|].
    destruct (matches namespaceRegex s) eqn:Hm; [|done]. intros _. apply matches_class in Hm as [_ Hm].
    rewrite name_char_lower in Hr; done.
  - intros (Hn & Hl & Hs & Hr). apply String.eqb_neq in Hn as E. rewrite E.
    destruct (Nat.ltb_spec 64 (String.length s)); [lia|]. rewrite bool_decide_false by (by rewrite name_char_lower).
    assert (matches namespaceRegex s = true) as ->; [|done]. by apply matches_class.
Qed.

Definition valid_name (s : string) : Prop :=
  s ≠ EmptyString ∧ (String.length s <= 64)%nat ∧ str_all name_char s = true.

Lemma ValidateName_None s : ValidateName s = None ↔ valid_name s.
Proof.
  unfold ValidateName, valid_name, maxNameLength. split.
  - destruct (String.eqb_spec s EmptyString) as [|Hn]; [done|].
    destruct (Nat.ltb_spec 64 (String.length s)) as [|Hl]; [done|].
    destruct (matches nameRegex s) eqn:Hm; [|done]. intros _. by apply matches_class in Hm as [_ Hm].
  - intros (Hn & Hl & Hs). apply String.eqb_neq in Hn as E. rewrite E.
    destruct (Nat.ltb_spec 64 (String.length s)); [lia|].
    assert (matches nameRegex s = true) as ->; [|done]. by apply matches_class.
Qed.

(** ** File names of tarballs *)

Lemma HasSuffix_take s p : HasSuffix s p = true → s = TrimSuffix s p +:+ p.
Proof. intros [a ->]%HasSuffix_spec. by rewrite TrimSuffix_app. Qed.

Lemma name_no_dash s : str_all name_char s = true → str_all (not_char "-") s = true.
Proof.
  apply str_all_impl. intros c Hc. unfold not_char. apply negb_true_iff, Ascii.eqb_neq. intros ->. by vm_compute in Hc.
Qed.

Lemma Split_dashes a b v :
  str_all (not_char "-") a = true → str_all (not_char "-") b = true →
  ∃ w ws, Split (a +:+ ("-" +:+ (b +:+ ("-" +:+ v)))) "-" = a :: b :: w :: ws ∧ Join (w :: ws) "-" = v.
Proof.
  intros Ha Hb. destruct (Split_inv v "-") as (w & ws & _ & Ev & Hws). exists w, ws. split.
  - assert (a +:+ ("-" +:+ (b +:+ ("-" +:+ v))) = a +:+ seps "-" (b :: w :: ws)) as ->.
    { cbn [seps]. by rewrite Ev. }
    apply Split_join. by repeat (constructor; [done|]).
  - by rewrite Join_seps, <- Ev.
Qed.

(** The accepted file names are exactly those that [Filename] builds from a valid
    namespace, name and version, which are returned. *)
Theorem ValidateCollectionFilename_iff f ns name v :
  ValidateCollectionFilename f = Ok (ns, name, v) ↔
  f = Filename (mkCollection ns name v None EmptyString 0) ∧
  valid_namespace ns ∧ valid_name name ∧ ValidateVersion v = None.
Proof.
  unfold ValidateCollectionFilename, Filename. cbn [co_Namespace co_Name co_Version]. split.
  - destruct (HasSuffix f ".tar.gz") eqn:Hs; [|done]. cbn [negb]. apply HasSuffix_take in Hs.
    destruct (Split_inv (TrimSuffix f ".tar.gz") "-") as (w & ws & E & Et & _). rewrite E.
    destruct ws as [|n [|v0 vs]]; [done..|]. cbv zeta.
    pose proof (Join_seps v0 vs "-") as Ej. set (j := Join (v0 :: vs) "-") in *. clearbody j.
    destruct (ValidateNamespace w) eqn:E1; [done|]. destruct (ValidateName n) eqn:E2; [done|].
    destruct (ValidateVersion _) eqn:E3; [done|]. intros [= <- <- <-].
    split; [|split; [by apply ValidateNamespace_None|split; [by apply ValidateName_None|done]]].
    rewrite Hs at 1. rewrite Et. cbn [seps]. rewrite Ej.
    by rewrite !str_app_assoc, ?str_app_cons, ?str_app_assoc, ?str_app_cons, ?str_app_assoc.
  - intros (-> & Hns & Hn & Hv).
    assert (ns +:+ ("-" +:+ (name +:+ ("-" +:+ (v +:+ ".tar.gz"))))
            = (ns +:+ ("-" +:+ (name +:+ ("-" +:+ v)))) +:+ ".tar.gz") as E by (by rewrite !str_app_assoc).
    rewrite E, TrimSuffix_app.
    assert (HasSuffix ((ns +:+ ("-" +:+ (name +:+ ("-" +:+ v)))) +:+ ".tar.gz") ".tar.gz" = true) as ->
      by (apply HasSuffix_spec; eauto). cbn [negb].
    destruct (Split_dashes ns name v) as (w & ws & -> & Ej); [by apply name_no_dash, Hns|by apply name_no_dash, Hn|].
    cbv zeta. rewrite Ej. apply ValidateNamespace_None in Hns as ->. apply ValidateName_None in Hn as ->. by rewrite Hv.
Qed.

(** ** The structure of a tarball *)

Definition entry_ok (e : tar_entry) : Prop :=
  validatePath (te_Name e) = None ∧ isForbiddenFile (te_Name e) = false ∧
  match te_Typeflag e with TypeReg | TypeDir => True | TypeOther _ => False end.

Definition total_size (es : list tar_entry) : Z := foldr (λ e n, te_Size e + n) 0 es.

Lemma entries_size_nonneg es : Forall (λ e, 0 <= te_Size e) es → 0 <= total_size es.
Proof. induction 1 as [|e es He _ IH]; [done|]. cbn. fold (total_size es). lia. Qed.

Lemma check_entries_Ok v es eof t g b :
  0 <= MaxSize v * 2 <= max_int64 → 0 <= t → Forall (λ e, 0 <= te_Size e) es → t + total_size es <= max_int64 →
  check_entries v es eof t g = Ok b ↔
  eof = true ∧ Forall entry_ok es ∧ (es = [] ∨ t + total_size es <= MaxSize v * 2) ∧
  b = (existsb is_galaxy (te_Name <$> es) || g).
Proof.
  intros Hm. revert t g. induction es as [|e es IH]; intros t g Ht Hes Hsum; cbn [check_entries].
  { destruct eof; [|naive_solver]. cbn. split; [intros [= <-]; naive_solver|by intros (_ & _ & _ & ->)]. }
  apply Forall_cons_iff in Hes as [He Hes]. pose proof (entries_size_nonneg es Hes) as Hn.
  change (total_size (e :: es)) with (te_Size e + total_size es) in *.
  unfold max_int64 in *.
  rewrite (wrap64_id (t + te_Size e)), (wrap64_id (MaxSize v * 2)) by (unfold in_int64, min_int64, max_int64; lia).
  cbv zeta. rewrite Forall_cons_iff. unfold entry_ok at 1. cbn [fmap list_fmap existsb].
  destruct (MaxSize v * 2 <? t + te_Size e) eqn:E; zbool.
  { split; [done|]. intros (_ & _ & [[=]|H] & _). lia. }
  destruct (validatePath (te_Name e)); [naive_solver|].
  destruct (isForbiddenFile (te_Name e)); [naive_solver|].
  destruct (te_Typeflag e); [| |naive_solver].
  all: rewrite IH by (done || lia); rewrite (orb_comm (is_galaxy _) (existsb _ _)), <- orb_assoc.
  all: split; [intros (-> & H1 & H2 & ->)|intros (-> & [_ H1] & [[=]|H2] & ->)].
  all: split; [done|]; split; [done|]; split; [|done].
  all: try (right; lia).
  all: right; destruct H2 as [->|H2]; [cbn; lia|lia].
Qed.

(** A tarball is accepted exactly when the stream is readable to its end, every
    entry is a plain file or directory with a safe and permitted path, the
    uncompressed size is at most twice the limit, and a manifest is among them. *)
Theorem ValidateStructure_iff `{!Archive} v content :
  let es := ts_entries (untar content) in
  0 <= MaxSize v * 2 <= max_int64 → Forall (λ e, 0 <= te_Size e) es → total_size es <= max_int64 →
  ValidateStructure v content = None ↔
  ts_gzip (untar content) = true ∧ ts_eof (untar content) = true ∧ Forall entry_ok es ∧
  total_size es <= MaxSize v * 2 ∧ Exists (λ e, is_galaxy (te_Name e) = true) es.
Proof.
  intros es Hm Hsz Hsum. unfold ValidateStructure. destruct (ts_gzip _); cbn [negb]; [|naive_solver].
  fold es. pose proof (check_entries_Ok v es (ts_eof (untar content)) 0 false) as Hce.
  assert (existsb is_galaxy (te_Name <$> es) = true ↔ Exists (λ e, is_galaxy (te_Name e) = true) es) as Hg.
  { rewrite List.existsb_exists, List.Exists_exists. split.
    - intros (n & Hn & E). apply list_elem_of_In, list_elem_of_fmap in Hn as (e & -> & He). exists e.
      by rewrite <- list_elem_of_In.
    - intros (e & He & E). exists (te_Name e). split; [|done]. apply list_elem_of_In, list_elem_of_fmap.
      exists e. by rewrite list_elem_of_In. }
  rewrite orb_false_r in Hce. rewrite <- Hg. split.
  - destruct (check_entries _ _ _ _ _) as [b|]; [|done]. destruct b; [|done]. intros _.
    destruct (proj1 (Hce true Hm ltac:(lia) Hsz ltac:(lia)) eq_refl) as (He & Hok & Hle & Hb).
    split; [done|]. split; [done|]. split; [done|]. split; [|done]. destruct Hle as [->|]; [cbn; lia|done].
  - intros (_ & He & Hok & Hle & Hb). rewrite He in *.
    assert (check_entries v es true 0 false = Ok true) as ->; [|done].
    apply Hce; [done..|]. split; [done|]. split; [done|]. split; [by right|done].
Qed.

(** Every entry of an accepted tarball, joined to the directory it is unpacked
    in, names a path below that directory. *)
Theorem accepted_paths_stay_below `{!Archive} v content base e :
  ValidateStructure v content = None → e ∈ ts_entries (untar content) →
  Forall (λ c, segment c = true) base →
  ∃ cs, Forall (λ c, segment c = true) cs ∧
        PathJoin (unsplit true base) (te_Name e) = unsplit true (base ++ cs).
Proof.
  unfold ValidateStructure. intros Hv He Hb. destruct (ts_gzip _); [|done]. cbn [negb] in Hv.
  destruct (check_entries _ _ _ _ _) as [b|] eqn:Ec; [|done]. clear Hv. revert Ec He.
  generalize 0, false. induction (ts_entries (untar content)) as [|e' es IH]; intros t g Ec He;
    [by apply elem_of_nil in He|]. cbn [check_entries] in Ec.
  destruct (_ <? _); [done|]. destruct (validatePath (te_Name e')) eqn:Ep; [done|].
  destruct (isForbiddenFile _); [done|]. apply elem_of_cons in He as [->|He].
  - unfold validatePath in Ep. destruct (rooted (Clean _)); [done|].
    destruct (Contains _ _) eqn:Ed; [done|]. destruct (HasPrefix _ _) eqn:Er; [done|]. by apply PathJoin_below.
  - destruct (te_Typeflag e'); [by eapply IH..|done].
Qed.

(** ** Manifests *)

Lemma check_dependencies_None deps : check_dependencies deps = None ↔ Forall (λ d, check_dependency d = None) deps.
Proof.
  induction deps as [|d deps IH]; [split; [constructor|done]|]. cbn [check_dependencies]. rewrite Forall_cons_iff.
  destruct (check_dependency d); [naive_solver|]. rewrite IH. naive_solver.
Qed.

(** Whatever the order in which the dependencies are iterated, a manifest is
    accepted exactly when its names and version are valid, it has an author, and
    every dependency is a valid collection name with a recognised version range. *)
Theorem ManifestValidate_iff iter m :
  iter (Dependencies m) ≡ₚ map_to_list (Dependencies m) →
  ManifestValidate iter m = None ↔
  valid_namespace (Namespace m) ∧ valid_name (Name m) ∧ ValidateVersion (Version m) = None ∧ Authors m ≠ [] ∧
  ∀ c r, Dependencies m !! c = Some r → check_dependency (c, r) = None.
Proof.
  intros Hiter. unfold ManifestValidate, ValidateDependencies.
  assert (check_dependencies (iter (Dependencies m)) = None ↔
          ∀ c r, Dependencies m !! c = Some r → check_dependency (c, r) = None) as Hd.
  { rewrite check_dependencies_None, Hiter, list.Forall_forall. split.
    - intros H c r Hc. by apply H, elem_of_map_to_list.
    - intros H [c r] Hc. by apply H, elem_of_map_to_list. }
  rewrite <- ValidateNamespace_None, <- ValidateName_None, <- Hd.
  destruct (String.eqb_spec (Namespace m) EmptyString) as [->|_]; [naive_solver|].
  destruct (String.eqb_spec (Name m) EmptyString) as [->|_]; [naive_solver|].
  destruct (String.eqb_spec (Version m) EmptyString) as [->|_]; [naive_solver|].
  destruct (ValidateNamespace (Namespace m)); [naive_solver|].
  destruct (ValidateName (Name m)); [naive_solver|].
  destruct (ValidateVersion (Version m)); [naive_solver|].
  case_bool_decide; naive_solver.
Qed.

(** ** Witnesses *)

Definition demo_manifest : Manifest :=
  mkManifest "acme" "web" "1.0.0" ["ann"] EmptyString ["MIT"; "GPL"] [] {[ "acme.base" := ">=1.0.0" ]}
    EmptyString EmptyString EmptyString EmptyString EmptyString.

(** An archive is the text of its version, with the manifest next to a source file. *)
#[export] Instance demo_archive : Archive := {
  untar s := mkStream true
    [mkTar "acme-web/galaxy.yml" 100 TypeReg (Some s); mkTar "acme-web/plugins" 0 TypeDir None;
     mkTar "acme-web/plugins/a.py" 900 TypeReg (Some EmptyString)] true;
  yaml_unmarshal s :=
    Some (mkManifest "acme" "web" (take_bytes 5 s) ["ann"] EmptyString ["MIT"; "GPL"] [] {[ "acme.base" := ">=1.0.0" ]}
      EmptyString EmptyString EmptyString EmptyString EmptyString)
}.

Lemma ValidateStructure_iff_witness :
  let es := ts_entries (untar "x") in
  ValidateStructure (NewTarballValidator 600) "x" = None ↔
  ts_gzip (untar "x") = true ∧ ts_eof (untar "x") = true ∧ Forall entry_ok es ∧
  total_size es <= 600 * 2 ∧ Exists (λ e, is_galaxy (te_Name e) = true) es.
Proof.
  apply (ValidateStructure_iff (NewTarballValidator 600) "x"); [cbn; unfold max_int64; lia| |vm_compute; congruence].
  repeat (apply List.Forall_cons; [cbn; lia|]). apply List.Forall_nil.
Defined.

Lemma accepted_paths_stay_below_witness :
  ∃ cs, Forall (λ c, segment c = true) cs ∧
        PathJoin (unsplit true ["srv"; "unpack"]) "acme-web/plugins" = unsplit true (["srv"; "unpack"] ++ cs).
Proof.
  apply (accepted_paths_stay_below (NewTarballValidator 600) "x" ["srv"; "unpack"]
    (mkTar "acme-web/plugins" 0 TypeDir None)).
  - vm_compute. reflexivity.
  - right. left.
  - repeat (apply List.Forall_cons; [vm_compute; reflexivity|]). apply List.Forall_nil.
Defined.

Lemma ManifestValidate_iff_witness :
  ManifestValidate map_to_list demo_manifest = None ↔
  valid_namespace "acme" ∧ valid_name "web" ∧ ValidateVersion "1.0.0" = None ∧ ["ann"] ≠ [] ∧
  ∀ c r, Dependencies demo_manifest !! c = Some r → check_dependency (c, r) = None.
Proof. apply (ManifestValidate_iff map_to_list demo_manifest). reflexivity. Defined.
