(* ===== verification/Breaker.v ===== *)
(** * Breaker: the circuit breaker, its manager and its health check

    Models [src/internal/health/circuit_breaker.go].  A breaker's state is a
    record; every operation is a function of the state and of the instants it
    reads from the clock, one argument per [time.Now()].  The breaker's mutex
    makes each of [allow], [recordSuccess], [recordFailure] and
    [recordRejection] atomic, but not [Execute]: the calls of several goroutines
    interleave, which [sys_step] models.  Logging is left out. *)

From S2P Require Import Prelude GoStrings.

(** ** State *)

Inductive CircuitBreakerState := StateClosed | StateOpen | StateHalfOpen.

#[export] Instance CircuitBreakerState_eq_dec : EqDecision CircuitBreakerState.
Proof. solve_decision. Defined.

Record CircuitBreakerConfig := mkConfig {
  Name : string;
  FailureThreshold : Z;
  SuccessThreshold : Z;
  Timeout_ : duration;
  MaxRequests : Z;
  ResetTimeout : duration;
  EnableMetrics : bool;
  EnableNotification : bool
}.

Definition DefaultCircuitBreakerConfig (name : string) : CircuitBreakerConfig :=
  {| Name := name; FailureThreshold := 5; SuccessThreshold := 3; Timeout_ := 60 * second;
     MaxRequests := 3; ResetTimeout := 300 * second;
     EnableMetrics := true; EnableNotification := true |}.

Record CircuitBreakerMetrics := mkMetrics {
  TotalRequests : Z;
  SuccessfulRequests : Z;
  FailedRequests : Z;
  RejectedRequests : Z;
  StateChanges : Z;
  LastStateChange : instant;
  ConsecutiveFailures : Z;
  ConsecutiveSuccesses : Z
}.

(** [has_callback] says whether a state-change callback is set; [notified] is
    the list of its invocations (old state, new state), the last one first. *)
Record CircuitBreaker := mkBreaker {
  state : CircuitBreakerState;
  stateExpiry : instant;
  metrics : CircuitBreakerMetrics;
  has_callback : bool;
  notified : list (CircuitBreakerState * CircuitBreakerState)
}.

Definition NewCircuitBreaker (now : instant) : CircuitBreaker :=
  {| state := StateClosed; stateExpiry := zero_time;
     metrics := mkMetrics 0 0 0 0 0 now 0 0; has_callback := false; notified := [] |}.

Definition SetStateChangeCallback (cb : CircuitBreaker) : CircuitBreaker :=
  {| state := state cb; stateExpiry := stateExpiry cb; metrics := metrics cb;
     has_callback := true; notified := notified cb |}.

Definition set_metrics (m : CircuitBreakerMetrics) (cb : CircuitBreaker) : CircuitBreaker :=
  {| state := state cb; stateExpiry := stateExpiry cb; metrics := m;
     has_callback := has_callback cb; notified := notified cb |}.

Definition set_expiry (t : instant) (cb : CircuitBreaker) : CircuitBreaker :=
  {| state := state cb; stateExpiry := t; metrics := metrics cb;
     has_callback := has_callback cb; notified := notified cb |}.

Definition notify (old new : CircuitBreakerState) (cb : CircuitBreaker) :
    list (CircuitBreakerState * CircuitBreakerState) :=
  if has_callback cb then (old, new) :: notified cb else notified cb.

(** [setState]: [now] is read for [LastStateChange]. *)
Definition setState (newState : CircuitBreakerState) (now : instant) (cb : CircuitBreaker) : CircuitBreaker :=
  let m := metrics cb in
  {| state := newState; stateExpiry := stateExpiry cb;
     metrics := mkMetrics (TotalRequests m) (SuccessfulRequests m) (FailedRequests m)
       (RejectedRequests m) (StateChanges m + 1) now (ConsecutiveFailures m) (ConsecutiveSuccesses m);
     has_callback := has_callback cb; notified := notify (state cb) newState cb |}.

Definition resetMetrics (cb : CircuitBreaker) : CircuitBreaker :=
  let m := metrics cb in
  set_metrics (mkMetrics (TotalRequests m) (SuccessfulRequests m) (FailedRequests m)
    (RejectedRequests m) (StateChanges m) (LastStateChange m) 0 0) cb.

(** ** Operations *)

Section breaker.
Context (config : CircuitBreakerConfig).

(** [allow]: [now] decides, [now'] is read by [setState]. *)
Definition allow (now now' : instant) (cb : CircuitBreaker) : bool * CircuitBreaker :=
  match state cb with
  | StateClosed => (true, cb)
  | StateOpen =>
      if time_after now (stateExpiry cb)
      then (true, set_expiry zero_time (setState StateHalfOpen now' cb))
      else (false, cb)
  | StateHalfOpen => (TotalRequests (metrics cb) <? MaxRequests config, cb)
  end.

Definition recordSuccess (now : instant) (cb : CircuitBreaker) : CircuitBreaker :=
  let m := metrics cb in
  let cb := set_metrics (mkMetrics (TotalRequests m + 1) (SuccessfulRequests m + 1)
    (FailedRequests m) (RejectedRequests m) (StateChanges m) (LastStateChange m)
    0 (ConsecutiveSuccesses m + 1)) cb in
  match state cb with
  | StateHalfOpen =>
      if SuccessThreshold config <=? ConsecutiveSuccesses (metrics cb)
      then resetMetrics (setState StateClosed now cb) else cb
  | _ => cb
  end.

(** [recordFailure]: [now] is read by [setState], [now'] for the expiry. *)
Definition recordFailure (now now' : instant) (cb : CircuitBreaker) : CircuitBreaker :=
  let m := metrics cb in
  let cb := set_metrics (mkMetrics (TotalRequests m + 1) (SuccessfulRequests m)
    (FailedRequests m + 1) (RejectedRequests m) (StateChanges m) (LastStateChange m)
    (ConsecutiveFailures m + 1) 0) cb in
  match state cb with
  | StateClosed | StateHalfOpen =>
      if FailureThreshold config <=? ConsecutiveFailures (metrics cb)
      then set_expiry (time_add now' (Timeout_ config)) (setState StateOpen now cb) else cb
  | StateOpen => cb
  end.

Definition recordRejection (cb : CircuitBreaker) : CircuitBreaker :=
  let m := metrics cb in
  set_metrics (mkMetrics (TotalRequests m) (SuccessfulRequests m) (FailedRequests m)
    (RejectedRequests m + 1) (StateChanges m) (LastStateChange m)
    (ConsecutiveFailures m) (ConsecutiveSuccesses m)) cb.

Definition Reset_ (now : instant) (cb : CircuitBreaker) : CircuitBreaker :=
  {| state := StateClosed; stateExpiry := zero_time;
     metrics := mkMetrics 0 0 0 0 (StateChanges (metrics cb) + 1) now 0 0;
     has_callback := has_callback cb; notified := notify (state cb) StateClosed cb |}.

(** The instants a call of [Execute] reads: in [allow], in its [setState], and
    in the two reads of the recording. *)
Record call_clock := mkClock { c_allow : instant; c_half : instant; c_set : instant; c_exp : instant }.

Inductive exec_error (E : Type) : Type :=
| ErrOpen (name : string)
| ErrFn (e : E).
Arguments ErrOpen {E} name.
Arguments ErrFn {E} e.

(** The function called runs on the world [w], the state of everything outside
    the breaker; a rejected call does not run it. *)
Definition Call {W A E} (ck : call_clock) (fn : W → result E A * W)
    (cb : CircuitBreaker) (w : W) : result (exec_error E) A * CircuitBreaker * W :=
  let '(ok, cb) := allow (c_allow ck) (c_half ck) cb in
  if negb ok then (Err (ErrOpen (Name config)), recordRejection cb, w)
  else match fn w with
  | (Err e, w) => (Err (ErrFn e), recordFailure (c_set ck) (c_exp ck) cb, w)
  | (Ok v, w) => (Ok v, recordSuccess (c_set ck) cb, w)
  end.

Definition Execute {W E} (ck : call_clock) (fn : W → option E * W)
    (cb : CircuitBreaker) (w : W) : option (exec_error E) * CircuitBreaker * W :=
  let '(ok, cb) := allow (c_allow ck) (c_half ck) cb in
  if negb ok then (Some (ErrOpen (Name config)), recordRejection cb, w)
  else match fn w with
  | (Some e, w) => (Some (ErrFn e), recordFailure (c_set ck) (c_exp ck) cb, w)
  | (None, w) => (None, recordSuccess (c_set ck) cb, w)
  end.
End breaker.
Arguments ErrOpen {E} name.
Arguments ErrFn {E} e.

Definition GetState (cb : CircuitBreaker) : CircuitBreakerState := state cb.
Definition GetMetrics (cb : CircuitBreaker) : CircuitBreakerMetrics := metrics cb.

(** [GetStatus]: the state-dependent entry of the status map; the other entries
    are copies of the fields.  The remaining time is left in nanoseconds. *)
Inductive status_extra := TimeUntilHalfOpen (d : duration) | RemainingTestRequests (n : Z) | NoExtra.

Definition GetStatus (config : CircuitBreakerConfig) (now : instant) (cb : CircuitBreaker) : status_extra :=
  match state cb with
  | StateOpen =>
      if negb (time_is_zero (stateExpiry cb)) then TimeUntilHalfOpen (time_sub (stateExpiry cb) now)
      else NoExtra
  | StateHalfOpen => RemainingTestRequests (MaxRequests config - TotalRequests (metrics cb))
  | StateClosed => NoExtra
  end.

(** ** The manager: names to shared breakers

    Breakers and configurations are Go pointers: [cbs] and [cfgs] are the stores
    they point into, so that two holders of a pointer see the same breaker. *)

Record CircuitBreakerManager := mkManager {
  cfgs : gmap nat CircuitBreakerConfig;
  cbs : gmap nat (nat * CircuitBreaker);
  breakers : gmap string nat;
  next_loc : nat
}.

Definition NewCircuitBreakerManager (cfgs : gmap nat CircuitBreakerConfig) (next : nat) :
    CircuitBreakerManager :=
  {| cfgs := cfgs; cbs := ∅; breakers := ∅; next_loc := next |}.

Definition set_Name (name : string) (c : CircuitBreakerConfig) : CircuitBreakerConfig :=
  {| Name := name; FailureThreshold := FailureThreshold c; SuccessThreshold := SuccessThreshold c;
     Timeout_ := Timeout_ c; MaxRequests := MaxRequests c; ResetTimeout := ResetTimeout c;
     EnableMetrics := EnableMetrics c; EnableNotification := EnableNotification c |}.

(** [config] is a pointer or nil; the name is written into the caller's object. *)
Definition GetOrCreate (name : string) (config : option nat) (now : instant)
    (m : CircuitBreakerManager) : nat * CircuitBreakerManager :=
  match breakers m !! name with
  | Some cb => (cb, m)
  | None =>
      let '(c, cfgs, next) :=
        match config with
        | None => (next_loc m, <[next_loc m := DefaultCircuitBreakerConfig name]> (cfgs m), S (next_loc m))
        | Some c => (c, alter (set_Name name) c (cfgs m), next_loc m)
        end in
      (next, {| cfgs := cfgs; cbs := <[next := (c, NewCircuitBreaker now)]> (cbs m);
                breakers := <[name := next]> (breakers m); next_loc := S next |})
  end.

Definition Get (name : string) (m : CircuitBreakerManager) : option nat := breakers m !! name.

Definition List_ (m : CircuitBreakerManager) : gmap string nat := breakers m.

(** [now name] is the instant read while resetting the breaker called [name]. *)
Definition ResetAll (now : string → instant) (m : CircuitBreakerManager) : CircuitBreakerManager :=
  {| cfgs := cfgs m;
     cbs := foldr (λ '(name, l), alter (λ '(c, cb), (c, Reset_ (now name) cb)) l)
              (cbs m) (map_to_list (breakers m));
     breakers := breakers m; next_loc := next_loc m |}.

Definition Remove (name : string) (m : CircuitBreakerManager) : CircuitBreakerManager :=
  {| cfgs := cfgs m; cbs := cbs m; breakers := delete name (breakers m); next_loc := next_loc m |}.

(** ** The health check *)

Inductive Status := StatusHealthy | StatusDegraded | StatusUnhealthy.

Record CheckResult := mkCheck {
  cr_Status : Status; cr_Message : string;
  total_breakers : Z; open_breakers : Z; half_open_breakers : Z; closed_breakers : Z
}.

Definition count_state (s : CircuitBreakerState) (l : list CircuitBreakerState) : Z :=
  Z.of_nat (length (filter (λ s', s' = s) l)).

(** The states of the listed breakers; a name always points to a breaker. *)
Definition listed_states (m : CircuitBreakerManager) : list CircuitBreakerState :=
  omap (λ '(_, l), (λ x, state x.2) <$> cbs m !! l) (map_to_list (breakers m)).

(** [Check], without the per-breaker details and the durations. *)
Definition CheckBreakers (m : CircuitBreakerManager) : CheckResult :=
  let l := listed_states m in
  if (length l =? 0)%nat then mkCheck StatusHealthy "No circuit breakers configured" 0 0 0 0
  else
    let openCount := count_state StateOpen l in
    let halfOpenCount := count_state StateHalfOpen l in
    let closedCount := count_state StateClosed l in
    let '(st, msg) :=
      if 0 <? openCount then (StatusUnhealthy, Itoa openCount +:+ " circuit breaker(s) are open")
      else if 0 <? halfOpenCount then (StatusDegraded, Itoa halfOpenCount +:+ " circuit breaker(s) are half-open")
      else (StatusHealthy, "All " +:+ (Itoa closedCount +:+ " circuit breaker(s) are closed")) in
    mkCheck st msg (Z.of_nat (length l)) openCount halfOpenCount closedCount.

(** ** The sentinel error

    [errors.Is(err, ErrCircuitBreakerOpen)]: the error of a refused call is made
    by [fmt.Errorf] without [%w], so it wraps nothing; an error of the called
    function may, which [wraps] says. *)
Definition IsCircuitBreakerError {E} (wraps : E → bool) (err : option (exec_error E)) : bool :=
  match err with
  | None => false
  | Some (ErrOpen _) => false
  | Some (ErrFn e) => wraps e
  end.

(** ** Callers in turn: one [Execute] after the other *)

Fixpoint exec_all {W E} (config : CircuitBreakerConfig)
    (calls : list (call_clock * (W → option E * W))) (cb : CircuitBreaker) (w : W) :
    list (option (exec_error E)) * CircuitBreaker * W :=
  match calls with
  | [] => ([], cb, w)
  | (ck, fn) :: calls =>
      let '(r, cb, w) := Execute config ck fn cb w in
      let '(rs, cb, w) := exec_all config calls cb w in
      (r :: rs, cb, w)
  end.

(** ** Concurrent callers

    [inflight] calls have been admitted and have not recorded their outcome,
    [rejecting] calls have been refused and have not recorded the rejection. *)

Record Sys := mkSys { brk : CircuitBreaker; inflight : nat; rejecting : nat }.

Inductive sys_step (config : CircuitBreakerConfig) : Sys → Sys → Prop :=
| st_admit cb n r now now' cb' :
    allow config now now' cb = (true, cb') →
    sys_step config (mkSys cb n r) (mkSys cb' (S n) r)
| st_refuse cb n r now now' cb' :
    allow config now now' cb = (false, cb') →
    sys_step config (mkSys cb n r) (mkSys cb' n (S r))
| st_success cb n r now :
    sys_step config (mkSys cb (S n) r) (mkSys (recordSuccess config now cb) n r)
| st_failure cb n r now now' :
    sys_step config (mkSys cb (S n) r) (mkSys (recordFailure config now now' cb) n r)
| st_rejection cb n r :
    sys_step config (mkSys cb n (S r)) (mkSys (recordRejection cb) n r)
| st_reset cb n r now :
    sys_step config (mkSys cb n r) (mkSys (Reset_ now cb) n r)
| st_callback cb n r :
    sys_step config (mkSys cb n r) (mkSys (SetStateChangeCallback cb) n r).

(** The invariant of a breaker: the outcomes add up, only one of the two runs of
    consecutive outcomes is non-empty, and a closed breaker has seen fewer
    consecutive failures than its threshold. *)
Definition breaker_inv (config : CircuitBreakerConfig) (cb : CircuitBreaker) : Prop :=
  let m := metrics cb in
  TotalRequests m = SuccessfulRequests m + FailedRequests m ∧
  0 <= SuccessfulRequests m ∧ 0 <= FailedRequests m ∧ 0 <= RejectedRequests m ∧
  0 <= ConsecutiveFailures m ∧ 0 <= ConsecutiveSuccesses m ∧
  (ConsecutiveFailures m = 0 ∨ ConsecutiveSuccesses m = 0) ∧
  ConsecutiveFailures m <= FailedRequests m ∧ ConsecutiveSuccesses m <= SuccessfulRequests m ∧
  (state cb = StateClosed → ConsecutiveFailures m < FailureThreshold config) ∧
  (notified cb = [] ∨ has_callback cb = true).

Section breaker_facts.
Context (config : CircuitBreakerConfig) (HFT : 0 < FailureThreshold config).

Ltac inv_op := unfold breaker_inv; destruct_and?; cbn;
  repeat case_match; cbn in *; zbool; unfold notify in *; cbn in *;
  repeat case_match; simplify_eq/=; split_and!; intros; try done; try lia; auto.

Lemma allow_inv now now' cb ok cb' :
  breaker_inv config cb → allow config now now' cb = (ok, cb') → breaker_inv config cb'.
Proof.
  intros Hi Ha. unfold allow in Ha. destruct cb as [[] e [] c l]; cbn in *; [| case_match |];
    simplify_eq; unfold breaker_inv in *; cbn in *; inv_op; naive_solver.
Qed.

Lemma recordSuccess_inv now cb : breaker_inv config cb → breaker_inv config (recordSuccess config now cb).
Proof.
  destruct cb as [[] e [] c l]; unfold breaker_inv, recordSuccess; cbn; intros; inv_op; naive_solver.
Qed.

Lemma recordFailure_inv now now' cb :
  breaker_inv config cb → breaker_inv config (recordFailure config now now' cb).
Proof.
  destruct cb as [[] e [] c l]; unfold breaker_inv, recordFailure; cbn; intros; inv_op; naive_solver.
Qed.

Lemma sys_step_inv s s' : breaker_inv config (brk s) → sys_step config s s' → breaker_inv config (brk s').
Proof.
  intros Hi Hs. destruct Hs; cbn in *; eauto using allow_inv, recordSuccess_inv, recordFailure_inv.
  all: destruct cb as [[] e [] c l]; unfold breaker_inv in *; cbn in *; inv_op; naive_solver.
Qed.
End breaker_facts.

Definition fresh_sys (now : instant) : Sys := mkSys (NewCircuitBreaker now) 0 0.

(** A breaker that left [StateClosed] has counted at least [FailureThreshold]
    requests since its creation or its last reset. *)
Definition left_closed_inv (config : CircuitBreakerConfig) (cb : CircuitBreaker) : Prop :=
  state cb ≠ StateClosed → FailureThreshold config <= TotalRequests (metrics cb).

Section reachable_facts.
Context (config : CircuitBreakerConfig) (HFT : 0 < FailureThreshold config).

Lemma fresh_inv now : breaker_inv config (NewCircuitBreaker now).
Proof. unfold breaker_inv; cbn; split_and!; try done; try lia; auto. Qed.

Lemma reachable_inv now s :
  rtc (sys_step config) (fresh_sys now) s → breaker_inv config (brk s).
Proof.
  apply (rtc_ind_r (λ s, breaker_inv config (brk s))); [apply fresh_inv|].
  eauto using sys_step_inv.
Qed.

Lemma left_closed_step s s' :
  breaker_inv config (brk s) → left_closed_inv config (brk s) → sys_step config s s' →
  left_closed_inv config (brk s').
Proof.
  intros Hi Hl Hs. unfold left_closed_inv in *. unfold breaker_inv in Hi.
  destruct Hs; cbn in *; destruct cb as [[] e [] c l]; cbn in *;
    unfold allow, recordSuccess, recordFailure in *; cbn in *;
    repeat case_match; simplify_eq/=; zbool; intros; try done; try lia;
    destruct_and?; try lia; specialize (Hl ltac:(done)); lia.
Qed.

Lemma reachable_left_closed now s :
  rtc (sys_step config) (fresh_sys now) s →
  breaker_inv config (brk s) ∧ left_closed_inv config (brk s).
Proof.
  apply (rtc_ind_r (λ s, breaker_inv config (brk s) ∧ left_closed_inv config (brk s))).
  - split; [apply fresh_inv | intros H; done].
  - intros s1 s2 _ Hs [Hi Hl]. eauto using sys_step_inv, left_closed_step.
Qed.

(** Refused calls: exactly when [allow] refuses, nothing runs. *)
Definition refuses (t : instant) (cb : CircuitBreaker) : bool :=
  match state cb with
  | StateClosed => false
  | StateOpen => t <=? stateExpiry cb
  | StateHalfOpen => MaxRequests config <=? TotalRequests (metrics cb)
  end.

Lemma Execute_refused {W E} ck (fn : W → option E * W) cb w :
  refuses (c_allow ck) cb = true →
  Execute config ck fn cb w = (Some (ErrOpen (Name config)), recordRejection cb, w).
Proof.
  unfold refuses, Execute, allow. intros H.
  destruct (state cb) eqn:Es; [done|..]; zbool.
  - unfold time_after. by rewrite (proj2 (Z.ltb_ge _ _)) by lia.
  - by rewrite (proj2 (Z.ltb_ge _ _)) by lia.
Qed.

Lemma rejected_still_full {W E} (calls : list (call_clock * (W → option E * W))) cb w :
  state cb = StateHalfOpen → MaxRequests config <= TotalRequests (metrics cb) →
  ∃ cb', exec_all config calls cb w =
           (replicate (length calls) (Some (ErrOpen (Name config))), cb', w) ∧
         state cb' = StateHalfOpen ∧
         RejectedRequests (metrics cb') = RejectedRequests (metrics cb) + Z.of_nat (length calls).
Proof.
  revert cb. induction calls as [|[ck fn] calls IH]; intros cb Hs Hm.
  - exists cb. split_and!; [done..|simpl; lia].
  - cbn [exec_all]. rewrite Execute_refused
      by (unfold refuses; rewrite Hs; apply Z.leb_le; lia).
    destruct (IH (recordRejection cb)) as (cb' & E' & Hs' & Hr); [done..|].
    rewrite E'. exists cb'. split_and!; [done..|]. rewrite Hr. cbn. lia.
Qed.

Lemma Execute_closed {W E} ck (fn : W → option E * W) cb w e w' :
  state cb = StateClosed → fn w = (e, w') →
  Execute config ck fn cb w =
    (ErrFn <$> e, match e with Some _ => recordFailure config (c_set ck) (c_exp ck) cb
                          | None => recordSuccess config (c_set ck) cb end, w').
Proof. intros Hs Hf. unfold Execute, allow. rewrite Hs. cbn. rewrite Hf. by destruct e. Qed.

(** The length of the run of failures that ends a list of outcomes, having
    started from [n] ([true] is a success). *)
Definition fail_run (n : Z) (os : list bool) : Z :=
  fold_left (λ n o, if (o : bool) then 0 else n + 1) os n.

End reachable_facts.

(** [o] as the outcome of a function that leaves the world alone. *)
Definition outcome_calls (os : list (call_clock * bool)) : list (call_clock * (unit → option unit * unit)) :=
  (λ x, (x.1, λ w, (if (x.2 : bool) then None else Some (), w))) <$> os.

Definition breaker_after (config : CircuitBreakerConfig) (os : list (call_clock * bool))
    (cb : CircuitBreaker) : CircuitBreaker :=
  (exec_all config (outcome_calls os) cb ()).1.2.

Section sequential_facts.
Context (config : CircuitBreakerConfig) (HFT : 0 < FailureThreshold config).

Lemma breaker_after_cons ck o os cb :
  breaker_after config ((ck, o) :: os) cb =
  breaker_after config os
    (Execute config ck (λ w : unit, (if o then None else Some (), w)) cb ()).1.2.
Proof.
  unfold breaker_after, outcome_calls. cbn.
  destruct (Execute config ck _ cb ()) as [[r cb'] []]. cbn.
  by destruct (exec_all config _ cb' ()) as [[??]?].
Qed.

Lemma breaker_after_app os os' cb :
  breaker_after config (os ++ os') cb = breaker_after config os' (breaker_after config os cb).
Proof.
  revert cb. induction os as [|[ck o] os IH]; intros cb; [done|].
  by rewrite <- app_comm_cons, !breaker_after_cons, IH.
Qed.

Lemma closed_success now cb :
  state cb = StateClosed →
  state (recordSuccess config now cb) = StateClosed ∧
  ConsecutiveFailures (metrics (recordSuccess config now cb)) = 0.
Proof. intros Hs. unfold recordSuccess. cbn. by rewrite Hs. Qed.

Lemma closed_failure now now' cb :
  state cb = StateClosed → ConsecutiveFailures (metrics cb) + 1 < FailureThreshold config →
  state (recordFailure config now now' cb) = StateClosed ∧
  ConsecutiveFailures (metrics (recordFailure config now now' cb)) =
    ConsecutiveFailures (metrics cb) + 1.
Proof.
  intros Hs Hf. unfold recordFailure. cbn. rewrite Hs. by rewrite (proj2 (Z.leb_gt _ _)) by lia.
Qed.

(** While the breaker is closed the outcomes alone decide. *)
Lemma breaker_after_closed os cb :
  state cb = StateClosed →
  (∀ k, fail_run (ConsecutiveFailures (metrics cb)) (take k os.*2) < FailureThreshold config) →
  state (breaker_after config os cb) = StateClosed ∧
  ConsecutiveFailures (metrics (breaker_after config os cb)) =
    fail_run (ConsecutiveFailures (metrics cb)) os.*2.
Proof.
  revert cb. induction os as [|[ck o] os IH]; intros cb Hs Hk; [done|].
  rewrite breaker_after_cons. rewrite (Execute_closed config ck _ _ () (if o then None else Some ()) ()) by done. cbn.
  pose proof (Hk 1%nat) as H1. rewrite fmap_cons in H1. cbn in H1.
  assert (∀ k, fail_run (if o then 0 else ConsecutiveFailures (metrics cb) + 1) (take k os.*2)
               < FailureThreshold config) as Hk'
    by (intros k; exact (Hk (S k))).
  destruct o; cbn in H1 |- *.
  - destruct (closed_success (c_set ck) cb Hs) as [Hs' Hc']. rewrite <- Hc' in Hk'.
    destruct (IH _ Hs' Hk') as [? E]. split; [done|]. rewrite E. by rewrite Hc'.
  - destruct (closed_failure (c_set ck) (c_exp ck) cb Hs H1) as [Hs' Hc'].
    rewrite <- Hc' in Hk'.
    destruct (IH _ Hs' Hk') as [? E]. split; [done|]. rewrite E. by rewrite Hc'.
Qed.

Lemma recordFailure_trips now now' cb :
  state cb ≠ StateOpen → FailureThreshold config <= ConsecutiveFailures (metrics cb) + 1 →
  state (recordFailure config now now' cb) = StateOpen ∧
  stateExpiry (recordFailure config now now' cb) = now' + Timeout_ config.
Proof.
  intros Hs Hf. unfold recordFailure. cbn.
  rewrite (proj2 (Z.leb_le _ _)) by lia. by destruct (state cb).
Qed.

Lemma half_open_recovers os cb :
  state cb = StateHalfOpen → 0 <= ConsecutiveSuccesses (metrics cb) < SuccessThreshold config →
  Z.of_nat (length os) = SuccessThreshold config - ConsecutiveSuccesses (metrics cb) →
  TotalRequests (metrics cb) + Z.of_nat (length os) <= MaxRequests config →
  Forall (λ x, x.2 = true) os →
  state (breaker_after config os cb) = StateClosed ∧
  ConsecutiveFailures (metrics (breaker_after config os cb)) = 0.
Proof.
  revert cb. induction os as [|[ck o] os IH]; intros cb Hs Hc Hl Hm Ho; cbn in Hl, Hm; [lia|].
  apply Forall_cons_iff in Ho as [Ho Hos]. cbn in Ho. subst o.
  rewrite breaker_after_cons. unfold Execute, allow. rewrite Hs.
  rewrite (proj2 (Z.ltb_lt _ _)) by lia. cbn. unfold recordSuccess. cbn. rewrite Hs. cbn.
  destruct (SuccessThreshold config <=? ConsecutiveSuccesses (metrics cb) + 1) eqn:E; zbool.
  - destruct os; [done|]. cbn in Hl. lia.
  - apply IH; cbn; auto; lia.
Qed.
End sequential_facts.

(** ** Properties *)

(** C23: Whatever the interleaving of concurrent callers, resets and callback
    installation, the counters of a breaker stay consistent: total = successes +
    failures, the two runs of consecutive outcomes exclude each other and are
    bounded by the totals, and a closed breaker has seen fewer consecutive
    failures than its threshold, and one that is not closed has counted at
    least that many requests. *)
Theorem reachable_consistent config now s (HFT : 0 < FailureThreshold config)
    (Hr : rtc (sys_step config) (fresh_sys now) s) :
  breaker_inv config (brk s) ∧
  (state (brk s) ≠ StateClosed → FailureThreshold config <= TotalRequests (metrics (brk s))).
Proof. by apply reachable_left_closed in Hr. Qed.

Definition t0 : instant := 63000000000000000000.
Definition ck_at (t : instant) : call_clock := mkClock t t t t.
Definition default5 : CircuitBreakerConfig := DefaultCircuitBreakerConfig "upstream".

Definition two_failures : CircuitBreaker :=
  recordFailure default5 t0 t0 (recordFailure default5 t0 t0 (NewCircuitBreaker t0)).

Lemma two_failures_reachable : rtc (sys_step default5) (fresh_sys t0) (mkSys two_failures 0 0).
Proof.
  do 2 (eapply rtc_l; [by apply st_admit with (now := t0) (now' := t0)|]).
  do 2 (eapply rtc_l; [by apply st_failure with (now := t0) (now' := t0)|]). apply rtc_refl.
Qed.

Lemma reachable_consistent_witness :
  ConsecutiveFailures (metrics two_failures) = 2 ∧ breaker_inv default5 two_failures.
Proof.
  split; [done|].
  exact (proj1 (reachable_consistent default5 t0 _ eq_refl two_failures_reachable)).
Defined.

(** C40: [Execute] either refuses or runs the function exactly once.  It refuses
    exactly when the breaker is open and its timeout has not passed, or half-open
    with [MaxRequests] requests counted; then the world is untouched and only the
    rejection is counted.  Otherwise the function's own error is returned and its
    outcome recorded, on a breaker that an expired open state has turned
    half-open. *)
Theorem Execute_spec {W E} config ck (fn : W → option E * W) cb w :
  Execute config ck fn cb w =
    if refuses config (c_allow ck) cb
    then (Some (ErrOpen (Name config)), recordRejection cb, w)
    else
      let cb' := match state cb with
                 | StateOpen => set_expiry zero_time (setState StateHalfOpen (c_half ck) cb)
                 | _ => cb
                 end in
      match fn w with
      | (Some e, w') => (Some (ErrFn e), recordFailure config (c_set ck) (c_exp ck) cb', w')
      | (None, w') => (None, recordSuccess config (c_set ck) cb', w')
      end.
Proof.
  destruct (refuses config (c_allow ck) cb) eqn:E0; [by apply Execute_refused|].
  unfold refuses, Execute, allow, time_after in *.
  destruct (state cb) eqn:Es; zbool; [done|..]; rewrite (proj2 (Z.ltb_lt _ _)) by lia; done.
Qed.

(** A closed breaker trips on the [FailureThreshold]-th failure in a row and
    not before: as long as no run of failures reaches the threshold it stays
    closed and counts the current run; the call that completes the run opens it
    until [Timeout_] after the failure, and every call up to that instant is
    refused without running its function. *)
Theorem trips_after_threshold config os ck cb (HFT : 0 < FailureThreshold config)
    (Hs : state cb = StateClosed)
    (Hk : ∀ k, fail_run (ConsecutiveFailures (metrics cb)) (take k os.*2) < FailureThreshold config)
    (Hlast : FailureThreshold config <= fail_run (ConsecutiveFailures (metrics cb)) (os.*2 ++ [false])) :
  state (breaker_after config os cb) = StateClosed ∧
  let cb' := breaker_after config (os ++ [(ck, false)]) cb in
  state cb' = StateOpen ∧ stateExpiry cb' = c_exp ck + Timeout_ config ∧
  ∀ W E ck' (fn : W → option E * W) w,
    c_allow ck' <= c_exp ck + Timeout_ config →
    Execute config ck' fn cb' w = (Some (ErrOpen (Name config)), recordRejection cb', w).
Proof.
  destruct (breaker_after_closed config os cb Hs Hk) as [Hc Hr]. split; [done|].
  rewrite breaker_after_app, breaker_after_cons. rewrite (Execute_closed config ck _ _ () (Some ()) ()) by done. cbn.
  unfold fail_run in Hlast. rewrite fold_left_app in Hlast. cbn in Hlast.
  destruct (recordFailure_trips config (c_set ck) (c_exp ck) (breaker_after config os cb))
    as [Ho He]; [by rewrite Hc | unfold fail_run in Hr; lia |].
  split_and!; [done..|]. intros W E ck' fn w Ht. apply Execute_refused.
  unfold refuses. rewrite Ho, He. by apply Z.leb_le.
Qed.

Definition four_failures : list (call_clock * bool) := replicate 4 (ck_at t0, false).

Lemma trips_after_threshold_witness :
  let cb' := breaker_after default5 (four_failures ++ [(ck_at t0, false)]) (NewCircuitBreaker t0) in
  state cb' = StateOpen ∧ stateExpiry cb' = t0 + 60 * second.
Proof.
  destruct (trips_after_threshold default5 four_failures (ck_at t0) (NewCircuitBreaker t0))
    as (_ & Ho & He & _); [reflexivity..| | |split; [exact Ho|exact He]].
  - intros [|[|[|[|k]]]]; cbn; try lia. rewrite take_nil. cbn. lia.
  - cbn. lia.
Defined.

(** With [MaxRequests <= FailureThreshold], as in the default configuration, a
    breaker that is half-open never lets a request through again: in every
    sequence of later calls, one after the other, each one is refused without
    running its function, and the breaker stays half-open.  [allow]
    compares [MaxRequests] with the requests counted since the creation of the
    breaker, not since it became half-open. *)
Theorem half_open_wedges {W E} config now s (calls : list (call_clock * (W → option E * W))) w
    (HFT : 0 < FailureThreshold config)
    (HMax : MaxRequests config <= FailureThreshold config)
    (Hr : rtc (sys_step config) (fresh_sys now) s)
    (Hs : state (brk s) = StateHalfOpen) :
  ∃ cb', exec_all config calls (brk s) w =
           (replicate (length calls) (Some (ErrOpen (Name config))), cb', w) ∧
         state cb' = StateHalfOpen.
Proof.
  destruct (reachable_left_closed _ HFT _ _ Hr) as [_ Hl]. unfold left_closed_inv in Hl.
  destruct (rejected_still_full config calls (brk s) w) as (cb' & ? & ? & _); [done| |by exists cb'].
  specialize (Hl ltac:(congruence)). lia.
Qed.

(** The default breaker after five failures, the timeout and one success. *)
Definition tested_once : CircuitBreaker :=
  breaker_after default5
    (replicate 5 (ck_at t0, false) ++ [(ck_at (t0 + 61 * second), true)]) (NewCircuitBreaker t0).

Lemma tested_once_reachable : rtc (sys_step default5) (fresh_sys t0) (mkSys tested_once 0 0).
Proof.
  do 5 (eapply rtc_l; [by apply st_admit with (now := t0) (now' := t0)|];
        eapply rtc_l; [by apply st_failure with (now := t0) (now' := t0)|]).
  eapply rtc_l; [by apply st_admit with (now := t0 + 61 * second) (now' := t0 + 61 * second)|].
  eapply rtc_l; [by apply st_success with (now := t0 + 61 * second)|].
  apply rtc_refl.
Qed.

Lemma half_open_wedges_witness :
  ∃ cb', exec_all default5 (replicate 7 (ck_at (t0 + 1000 * hour), λ n : Z, (@None unit, n + 1)))
           tested_once 0 = (replicate 7 (Some (ErrOpen "upstream")), cb', 0) ∧
         state cb' = StateHalfOpen.
Proof.
  apply (half_open_wedges default5 t0 (mkSys tested_once 0 0)
           (replicate 7 (ck_at (t0 + 1000 * hour), λ n : Z, (@None unit, n + 1))) 0);
    [reflexivity | vm_compute; discriminate | exact tested_once_reachable | reflexivity].
Defined.

(** C24: Recovery, when [MaxRequests] leaves room for it: from a half-open
    breaker, [SuccessThreshold] successes in a row close it and clear the runs,
    provided the requests counted so far and these calls fit in [MaxRequests]. *)
Theorem half_open_closes config os cb
    (Hs : state cb = StateHalfOpen)
    (Hc : 0 <= ConsecutiveSuccesses (metrics cb) < SuccessThreshold config)
    (Hl : Z.of_nat (length os) = SuccessThreshold config - ConsecutiveSuccesses (metrics cb))
    (Hm : TotalRequests (metrics cb) + Z.of_nat (length os) <= MaxRequests config)
    (Ho : Forall (λ x, x.2 = true) os) :
  state (breaker_after config os cb) = StateClosed ∧
  ConsecutiveFailures (metrics (breaker_after config os cb)) = 0.
Proof. by apply half_open_recovers. Qed.

Definition roomy : CircuitBreakerConfig :=
  mkConfig "upstream" 2 2 (60 * second) 10 0 true true.

Lemma half_open_closes_witness :
  state (breaker_after roomy (replicate 2 (ck_at (t0 + hour), true))
    (breaker_after roomy (replicate 2 (ck_at t0, false)) (NewCircuitBreaker t0))) = StateClosed ∧
  state (breaker_after roomy [(ck_at (t0 + hour), true)]
    (set_expiry zero_time (setState StateHalfOpen t0
      (recordSuccess roomy t0 (NewCircuitBreaker t0))))) = StateClosed.
Proof.
  split; [reflexivity|].
  apply (half_open_closes roomy [(ck_at (t0 + hour), true)]);
    [reflexivity | cbn; lia | reflexivity | vm_compute; discriminate | repeat constructor].
Defined.

(** The error of a refused call is not recognised by
    [IsCircuitBreakerError], whatever the called functions' errors wrap. *)
Theorem refusal_not_recognised {W E} config ck (fn : W → option E * W) cb w (wraps : E → bool)
    (Hr : refuses config (c_allow ck) cb = true) :
  IsCircuitBreakerError wraps (Execute config ck fn cb w).1.1 = false.
Proof. by rewrite Execute_refused. Qed.

Lemma refusal_not_recognised_witness :
  IsCircuitBreakerError (λ _ : unit, true)
    (Execute default5 (ck_at (t0 + hour)) (λ n : Z, (@None unit, n + 1)) tested_once 0).1.1 = false.
Proof. apply refusal_not_recognised. reflexivity. Defined.
