(* ===== verification/Batch.v ===== *)
(** * Batch: the batch-script language, its parser and its executor

    Models [src/internal/batch]: the commands of [types.go], the parser of
    [parser.go] with its cursor made explicit, and the executor and the job
    manager of [executor.go].  The processes the executor starts, the context's
    cancellation and [strconv.ParseFloat] are parameters. *)

From Stdlib Require Import Ascii.
From S2P Require Import Prelude GoStrings.

(** ** Commands and scripts *)

Inductive Command :=
| EchoCommand (Message : string)
| CLICommand (Name : string) (Args : list string)
| ExitCommand (Code : Z)
| ConditionalCommand (Condition : string) (ThenBlock ElseBlock : list Command).

Record BatchScript := mkScript { Commands : list Command; Source : string }.

Definition joinArgs (args : list string) : string := Join args " ".

(** The [String] method of a command. *)
Definition command_string (c : Command) : string :=
  match c with
  | EchoCommand msg => "echo " +:+ msg
  | CLICommand name args => name +:+ " " +:+ joinArgs args
  | ExitCommand _ => "exit"
  | ConditionalCommand cond _ _ => "if " +:+ cond +:+ " then ... fi"
  end.

(** ** Reading the lines *)

Definition newline : ascii := "010".
Definition carriage_return : ascii := "013".

(** [bufio.ScanLines] cuts at newlines and drops one carriage return at the end
    of a line; the default buffer of a [bufio.Scanner] holds 65536 bytes, and the
    scan ends at the first line that does not fit with its newline. *)
Definition max_line : Z := 65535.

Definition drop_cr (s : string) : string :=
  match String.rev s with
  | String c r => if Ascii.eqb c carriage_return then String.rev r else s
  | EmptyString => s
  end.

Definition drop_last_empty (ls : list string) : list string :=
  match rev ls with
  | EmptyString :: r => rev r
  | _ => ls
  end.

Fixpoint fitting (ls : list string) : list string :=
  match ls with
  | [] => []
  | l :: ls => if Z.of_nat (String.length l) <=? max_line then l :: fitting ls else []
  end.

Definition scan_lines (source : string) : list string :=
  drop_cr <$> fitting (drop_last_empty (Split source newline)).

Definition keeps_line (line : string) : bool :=
  negb (String.eqb line EmptyString) && negb (HasPrefix line "#").

Definition NewParser (source : string) : list string :=
  filter (λ l, keeps_line l = true) (TrimSpace <$> scan_lines source).

(** ** The parser

    The parser's state is its cursor [current]; an error carries the cursor it
    was raised at.  [IndexPanic] is an index out of range. *)

Inductive parse_error :=
| InvalidExitCode (arg : string)
| InvalidIf (line : string)
| MissingFi
| EmptyCommandErr
| IndexPanic
| OutOfFuel.

Definition parse_result (A : Type) : Type := result (nat * parse_error) (A * nat).

Definition quote : ascii := "034".

Definition parseEcho (args : list string) : Command :=
  match args with
  | [] => EchoCommand EmptyString
  | _ => EchoCommand (trim_char quote (Join args " "))
  end.

Definition parseExit (args : list string) : parse_error + Command :=
  match args with
  | [] => inr (ExitCommand 0)
  | a :: _ =>
      match Atoi a with
      | (code, None) => inr (ExitCommand code)
      | (_, Some _) => inl (InvalidExitCode a)
      end
  end.

Definition parseCLICommand (parts : list string) : parse_error + Command :=
  match parts with
  | [] => inl EmptyCommandErr
  | name :: args => inr (CLICommand name args)
  end.

Definition at_cursor (current : nat) (r : parse_error + Command) : parse_result (option Command) :=
  match r with
  | inl e => Err (current, e)
  | inr c => Ok (Some c, current)
  end.

(** The first field of the line under the cursor, [strings.Fields(line)[0]]. *)
Definition keyword_at (lines : list string) (current : nat) : result (nat * parse_error) string :=
  match lines !! current with
  | None => Err (current, IndexPanic)
  | Some line => match Fields line with [] => Err (current, IndexPanic) | k :: _ => Ok k end
  end.

Section blocks.
(** [parseCommand], for the commands of the block. *)
Context (parseCommand : nat → parse_result (option Command)) (lines : list string).

(** The loop over the commands of a block, up to a line whose keyword [stop]s
    it or the end of the input; [n] bounds the number of iterations. *)
Fixpoint parse_block (stop : string → bool) (n : nat) (current : nat) (block : list Command) :
    parse_result (list Command) :=
  if (current <? length lines)%nat then
    match n with
    | O => Err (current, OutOfFuel)
    | S n =>
        let? keyword := keyword_at lines current in
        if stop keyword then Ok (block, current)
        else
          let? (cmd, current) := parseCommand current in
          parse_block stop n (S current) (block ++ from_option (λ c, [c]) [] cmd)
    end
  else Ok (block, current).

Definition stop_then (k : string) : bool := String.eqb k "else" || String.eqb k "fi".
Definition stop_else (k : string) : bool := String.eqb k "fi".

(** [current < len(lines) && strings.Fields(lines[current])[0] == keyword]. *)
Definition at_keyword (keyword : string) (current : nat) : result (nat * parse_error) bool :=
  if (current <? length lines)%nat then
    let? k := keyword_at lines current in Ok (String.eqb k keyword)
  else Ok false.

Definition parseConditional (current : nat) : parse_result Command :=
  match lines !! current with
  | None => Err (current, IndexPanic)
  | Some line =>
      let parts := Fields line in
      if (length parts <? 3)%nat || negb (bool_decide (list.head parts = Some "if"))
         || negb (bool_decide (list.last parts = Some "then"))
      then Err (current, InvalidIf line)
      else
        let condition := Join (take (length parts - 2) (drop 1 parts)) " " in
        let? (thenBlock, current) := parse_block stop_then (length lines) (S current) [] in
        let? has_else := at_keyword "else" current in
        let? (elseBlock, current) :=
          if has_else : bool then parse_block stop_else (length lines) (S current) []
          else Ok ([], current) in
        let? has_fi := at_keyword "fi" current in
        if negb has_fi then Err (current, MissingFi)
        else Ok (ConditionalCommand condition thenBlock elseBlock, current)
  end.
End blocks.

(** [fuel] bounds the nesting of conditionals. *)
Fixpoint parseCommand (fuel : nat) (lines : list string) (current : nat) :
    parse_result (option Command) :=
  match fuel with
  | O => Err (current, OutOfFuel)
  | S fuel =>
      match lines !! current with
      | None => Ok (None, current)
      | Some line =>
          match Fields line with
          | [] => Ok (None, current)
          | keyword :: args =>
              if String.eqb keyword "echo" then Ok (Some (parseEcho args), current)
              else if String.eqb keyword "exit" then at_cursor current (parseExit args)
              else if String.eqb keyword "if" then
                let? (c, current) := parseConditional (parseCommand fuel lines) lines current in
                Ok (Some c, current)
              else at_cursor current (parseCLICommand (keyword :: args))
          end
      end
  end.

(** The loop of [Parse] stops at no keyword. *)
Definition no_stop (_ : string) : bool := false.

Fixpoint parse_script (fuel : nat) (lines : list string) (n current : nat) (commands : list Command) :
    parse_result (list Command) :=
  if (current <? length lines)%nat then
    match n with
    | O => Err (current, OutOfFuel)
    | S n =>
        let? (cmd, current) := parseCommand fuel lines current in
        parse_script fuel lines n (S current) (commands ++ from_option (λ c, [c]) [] cmd)
    end
  else Ok (commands, current).

(** [Parse]: the error is wrapped with the 1-based cursor. *)
Definition Parse (lines : list string) : result (Z * parse_error) BatchScript :=
  match parse_script (S (length lines)) lines (length lines) 0 [] with
  | Err (current, e) => Err (Z.of_nat current + 1, e)
  | Ok (commands, _) =>
      Ok {| Commands := commands; Source := Join lines (String newline EmptyString) |}
  end.

Definition Validate (source : string) : option (Z * parse_error) :=
  match Parse (NewParser source) with Ok _ => None | Err e => Some e end.

Definition nl_join (ls : list string) : string := Join ls (String newline EmptyString).

Example Parse_ex :
  (Commands <$> match Parse (NewParser (nl_join
     ["# warm up"; "cache clear --all"; "if last_exit == 0 then"; "  echo done "; "else";
      "  exit 3"; "fi"; ""])) with Ok s => Some s | Err _ => None end)
  = Some [CLICommand "cache" ["clear"; "--all"];
          ConditionalCommand "last_exit == 0" [EchoCommand "done"] [ExitCommand 3]].
Proof. vm_compute. reflexivity. Qed.

(** ** The grammar of scripts

    A line is given by its fields.  The reference the parser is measured
    against: [gcommand seg c] when the lines [seg] are the text of [c], and
    [gblock stop seg cs] when they are that of the commands [cs], none of which
    starts with a keyword that [stop]s the block. *)

Inductive gcommand : list (list string) → Command → Prop :=
| g_echo args :
    gcommand [("echo" :: args)%list] (EchoCommand (trim_char quote (Join args " ")))
| g_exit : gcommand [["exit"]] (ExitCommand 0)
| g_exit_code a rest z :
    Atoi a = (z, None) → gcommand [("exit" :: a :: rest)%list] (ExitCommand z)
| g_cli name args :
    name ∉ ["echo"; "exit"; "if"] → gcommand [(name :: args)%list] (CLICommand name args)
| g_if ws thens T x :
    ws ≠ [] → gblock stop_then thens T →
    gcommand (("if" :: ws ++ ["then"]) :: thens ++ [("fi" :: x)])%list
      (ConditionalCommand (Join ws " ") T [])
| g_if_else ws thens T x elses E y :
    ws ≠ [] → gblock stop_then thens T → gblock stop_else elses E →
    gcommand (("if" :: ws ++ ["then"]) :: thens ++ ("else" :: x) :: elses ++ [("fi" :: y)])%list
      (ConditionalCommand (Join ws " ") T E)
with gblock : (string → bool) → list (list string) → list Command → Prop :=
| g_nil stop : gblock stop [] []
| g_cons stop k args seg c segs cs :
    stop k = false → gcommand ((k :: args) :: seg)%list c → gblock stop segs cs →
    gblock stop (((k :: args) :: seg) ++ segs)%list (c :: cs).

Scheme gcommand_mut := Induction for gcommand Sort Prop
with gblock_mut := Induction for gblock Sort Prop.
Combined Scheme grammar_ind from gcommand_mut, gblock_mut.

(** ** Lemmas: the parser and its cursor *)

Definition lines_ok (lines : list string) : Prop := Forall (λ l, Fields l ≠ []) lines.

Lemma NewParser_ok source : lines_ok (NewParser source).
Proof.
  unfold lines_ok, NewParser. apply list.Forall_forall. intros l Hl.
  apply list_elem_of_filter in Hl as [Hk Hl]. apply list_elem_of_fmap in Hl as (r & -> & _).
  apply Fields_TrimSpace. intros E. by rewrite E in Hk.
Qed.

Lemma drop_fields lines current line :
  lines !! current = Some line →
  drop current (Fields <$> lines) = Fields line :: drop (S current) (Fields <$> lines).
Proof. intros H. apply drop_S. by rewrite list_lookup_fmap, H. Qed.

Section parser_facts.
Context (lines : list string) (Hok : lines_ok lines).

Notation fs n := (drop n (Fields <$> lines)).

Lemma line_at current :
  (current < length lines)%nat →
  ∃ line k args, lines !! current = Some line ∧ Fields line = k :: args ∧
    keyword_at lines current = Ok k ∧ fs current = (k :: args) :: fs (S current).
Proof.
  intros Hc. destruct (lookup_lt_is_Some_2 lines current Hc) as [line Hl].
  pose proof (Forall_lookup_1 _ _ _ _ Hok Hl) as Hf. cbn in Hf.
  destruct (Fields line) as [|k args] eqn:E; [done|]. exists line, k, args.
  split_and!; try done; [|by rewrite (drop_fields _ _ _ Hl), E].
  unfold keyword_at. by rewrite Hl, E.
Qed.

Lemma at_keyword_spec k current :
  ∃ b, at_keyword lines k current = Ok b ∧
    (b = true → ∃ x, fs current = (k :: x) :: fs (S current) ∧ (current < length lines)%nat).
Proof.
  unfold at_keyword. destruct (current <? length lines)%nat eqn:Hc.
  - apply Nat.ltb_lt in Hc. destruct (line_at _ Hc) as (line & k' & args & _ & _ & -> & E).
    eexists. split; [done|]. intros ->%String.eqb_eq. eauto.
  - exists false. done.
Qed.

(** What a result of [parseCommand] at [current] has to satisfy. *)
Definition sound_command (current : nat) (r : parse_result (option Command)) : Prop :=
  match r with
  | Err (_, e) => e ≠ OutOfFuel ∧ e ≠ IndexPanic
  | Ok (oc, current') => ∃ c seg, oc = Some c ∧ gcommand seg c ∧ (current <= current' < length lines)%nat ∧
      fs current = seg ++ fs (S current')
  end.

Definition sound_block (stop : string → bool) (current : nat) (block : list Command)
    (r : parse_result (list Command)) : Prop :=
  match r with
  | Err (_, e) => e ≠ OutOfFuel ∧ e ≠ IndexPanic
  | Ok (b, current') => ∃ cs seg, b = block ++ cs ∧ gblock stop seg cs ∧ (current <= current')%nat ∧
      fs current = seg ++ fs current'
  end.

Lemma gcommand_nonempty seg c : gcommand seg c → seg ≠ [].
Proof. by destruct 1. Qed.

Lemma parse_block_sound pc stop n current block :
  (∀ i, (current <= i < length lines)%nat → sound_command i (pc i)) →
  (length lines <= current + n)%nat →
  sound_block stop current block (parse_block pc lines stop n current block).
Proof.
  revert current block. induction n as [|n IH]; intros current block Hpc Hn; cbn [parse_block];
    (destruct (current <? length lines)%nat eqn:Hc;
      [apply Nat.ltb_lt in Hc
      |exists [], []; rewrite app_nil_r; split_and!; [done|constructor|lia|done]]).
  - lia.
  - destruct (line_at _ Hc) as (line & k & args & _ & _ & -> & E).
    destruct (stop k) eqn:Hk;
      [exists [], []; rewrite app_nil_r; split_and!; [done|constructor|lia|done]|].
    pose proof (Hpc current ltac:(lia)) as Hs.
    destruct (pc current) as [[oc i]|[i e]]; [|done]. cbn in Hs.
    destruct Hs as (c & seg & -> & Hg & Hi & Hf). cbn [from_option].
    specialize (IH (S i) (block ++ [c]) ltac:(intros; apply Hpc; lia) ltac:(lia)).
    destruct (parse_block _ _ _ _ _ _) as [[b j]|[j e]]; [|done]. cbn in IH |- *.
    destruct IH as (cs & segs & -> & Hgs & Hj & Hfs).
    exists (c :: cs), (seg ++ segs). rewrite <- !app_assoc. split_and!; [done| |lia|by rewrite Hf, Hfs].
    destruct seg as [|p seg]; [by apply gcommand_nonempty in Hg|].
    rewrite E in Hf. simplify_eq/=. by apply g_cons.
Qed.

Lemma if_fields (parts : list string) :
  (length parts <? 3)%nat || negb (bool_decide (list.head parts = Some "if"))
    || negb (bool_decide (list.last parts = Some "then")) = false →
  ∃ ws, ws ≠ [] ∧ parts = "if" :: ws ++ ["then"] ∧ take (length parts - 2) (drop 1 parts) = ws.
Proof.
  rewrite !orb_false_iff, !negb_false_iff, !bool_decide_eq_true, Nat.ltb_ge.
  intros [[Hl Hh] Ht]. destruct parts as [|p parts]; [done|]. simplify_eq/=.
  destruct parts as [|p ws _] using rev_ind; [simpl in Hl; lia|].
  rewrite app_comm_cons, last_snoc in Ht. simplify_eq.
  rewrite length_app in Hl. cbn in Hl. exists ws. split_and!; [by destruct ws; simpl in *; [lia|]|done|].
  rewrite length_app. cbn. rewrite Nat.add_1_r. cbn. rewrite Nat.sub_0_r. apply take_app_length.
Qed.

Lemma parseConditional_sound pc current :
  (current < length lines)%nat →
  (∀ i, (current < i < length lines)%nat → sound_command i (pc i)) →
  match parseConditional pc lines current with
  | Err (_, e) => e ≠ OutOfFuel ∧ e ≠ IndexPanic
  | Ok (c, current') => ∃ seg, gcommand seg c ∧ (current <= current' < length lines)%nat ∧
      fs current = seg ++ fs (S current')
  end.
Proof.
  intros Hc Hpc. unfold parseConditional.
  destruct (line_at _ Hc) as (line & k & args & -> & E & _ & Hf). rewrite E in *.
  destruct (_ || _) eqn:Hif; [done|].
  destruct (if_fields _ Hif) as (ws & Hws & Hka & ->). rewrite Hka in Hf. clear Hif.
  pose proof (parse_block_sound pc stop_then (length lines) (S current) []
    ltac:(intros; apply Hpc; lia) ltac:(lia)) as H1.
  destruct (parse_block _ _ _ _ _ _) as [[T i]|[i e]]; [|done]. cbn in H1.
  destruct H1 as (Ts & thens & -> & Hthens & Hi & Hf1).
  destruct (at_keyword_spec "else" i) as (has_else & -> & Helse).
  assert (∀ E, ∃ b, at_keyword lines "fi" E = Ok b ∧
    (b = true → ∃ x, fs E = ("fi" :: x) :: fs (S E) ∧ (E < length lines)%nat)) as Hfi
    by (intros; apply at_keyword_spec).
  destruct has_else.
  - destruct (Helse eq_refl) as (x & Hf2 & Hi2).
    pose proof (parse_block_sound pc stop_else (length lines) (S i) []
      ltac:(intros; apply Hpc; lia) ltac:(lia)) as H2.
    destruct (parse_block _ _ _ _ _ _) as [[El j]|[j e]]; [|done]. cbn in H2.
    destruct H2 as (Es & elses & -> & Helses & Hj & Hf3).
    destruct (Hfi j) as ([] & -> & Hb); [|done]. destruct (Hb eq_refl) as (y & Hf4 & Hj2).
    exists (("if" :: ws ++ ["then"]) :: thens ++ ("else" :: x) :: elses ++ [("fi" :: y)])%list.
    split_and!; [by apply g_if_else|lia|lia|].
    rewrite Hf, Hf1, Hf2, Hf3, Hf4. by simplify_list_eq.
  - destruct (Hfi i) as ([] & -> & Hb); [|done]. destruct (Hb eq_refl) as (y & Hf4 & Hj2).
    exists (("if" :: ws ++ ["then"]) :: thens ++ [("fi" :: y)])%list.
    split_and!; [by apply g_if|lia|lia|]. rewrite Hf, Hf1, Hf4. by simplify_list_eq.
Qed.

Lemma parseCommand_sound fuel current :
  (current < length lines)%nat → (length lines - current < fuel)%nat →
  sound_command current (parseCommand fuel lines current).
Proof.
  revert current. induction fuel as [|fuel IH]; intros current Hc Hfuel; [lia|].
  cbn [parseCommand].
  destruct (line_at _ Hc) as (line & k & args & Hl & E & _ & Hf). rewrite Hl, E.
  assert (∀ c, gcommand [(k :: args)%list] c → sound_command current (Ok (Some c, current))) as Hone
    by (intros c Hg; exists c, [k :: args]; split_and!; [done..|lia|lia|by rewrite Hf]).
  destruct (String.eqb k "echo") eqn:E1; [apply String.eqb_eq in E1 as ->|].
  { destruct args; apply Hone; [exact (g_echo [])|exact (g_echo (s :: args))]. }
  destruct (String.eqb k "exit") eqn:E2; [apply String.eqb_eq in E2 as ->|].
  { destruct args as [|a rest]; [apply Hone, g_exit|]. unfold parseExit.
    destruct (Atoi a) as [z [e|]] eqn:Ea; [done|]. by apply Hone, g_exit_code. }
  destruct (String.eqb k "if") eqn:E3; [apply String.eqb_eq in E3 as ->|].
  - pose proof (parseConditional_sound (parseCommand fuel lines) current Hc
      ltac:(intros; apply IH; lia)) as H1.
    destruct (parseConditional _ _ _) as [[c i]|[i e]]; [|done].
    destruct H1 as (seg & ? & ? & ?). by exists c, seg.
  - apply Hone, g_cli. apply String.eqb_neq in E1, E2, E3.
    rewrite !not_elem_of_cons. split_and!; try done. apply not_elem_of_nil.
Qed.

Lemma parse_script_block fuel n current commands :
  parse_script fuel lines n current commands =
  parse_block (parseCommand fuel lines) lines no_stop n current commands.
Proof.
  revert current commands. induction n as [|n IH]; intros current commands; cbn [parse_script parse_block];
    (destruct (current <? length lines)%nat eqn:Hc; [|done]); [done|].
  apply Nat.ltb_lt in Hc. destruct (line_at _ Hc) as (line & k & args & _ & _ & -> & _). cbn [no_stop].
  by destruct (parseCommand fuel lines current) as [[oc i]|]; [apply IH|].
Qed.
End parser_facts.

Section complete_facts.
Context (lines : list string).

Notation fs n := (drop n (Fields <$> lines)).

Lemma fs_cons current parts rest :
  fs current = parts :: rest →
  ∃ line, lines !! current = Some line ∧ Fields line = parts ∧ rest = fs (S current) ∧
    (current < length lines)%nat.
Proof.
  intros H. assert ((Fields <$> lines) !! current = Some parts) as Hl.
  { rewrite <- (Nat.add_0_r current), <- lookup_drop, H. done. }
  rewrite list_lookup_fmap, fmap_Some in Hl. destruct Hl as (line & Hl & ->).
  exists line. rewrite (drop_fields _ _ _ Hl) in H. simplify_eq.
  split_and!; try done. by eapply lookup_lt_Some.
Qed.

Lemma fs_app current seg rest : fs current = seg ++ rest → rest = fs (current + length seg).
Proof. intros H. by rewrite <- drop_drop, H, drop_app_length. Qed.

Lemma keyword_at_fs current k x rest :
  fs current = (k :: x) :: rest → keyword_at lines current = Ok k ∧ (current <? length lines)%nat = true.
Proof.
  intros (line & Hl & E & _ & Hc)%fs_cons. unfold keyword_at. rewrite Hl, E.
  split; [done|by apply Nat.ltb_lt].
Qed.

Lemma at_keyword_fs current k k' x rest :
  fs current = (k :: x) :: rest → at_keyword lines k' current = Ok (String.eqb k k').
Proof. intros [H1 H2]%keyword_at_fs. unfold at_keyword. by rewrite H2, H1. Qed.

(** The block is followed by its stop or by the end of the input. *)
Definition ends (stop : string → bool) (rest : list (list string)) : Prop :=
  rest = [] ∨ ∃ k x rest', rest = ((k :: x) :: rest')%list ∧ stop k = true.

Definition complete_command (seg : list (list string)) (c : Command) : Prop :=
  ∀ fuel current rest, (length seg <= fuel)%nat → fs current = seg ++ rest →
    parseCommand fuel lines current = Ok (Some c, (current + length seg - 1)%nat).

Definition complete_block (stop : string → bool) (segs : list (list string)) (cs : list Command) : Prop :=
  ∀ fuel n current rest block,
    (length segs <= fuel)%nat → (length lines - current <= n)%nat → fs current = segs ++ rest → ends stop rest →
    parse_block (parseCommand fuel lines) lines stop n current block =
      Ok (block ++ cs, (current + length segs)%nat).

Lemma complete_nil stop : complete_block stop [] [].
Proof.
  intros fuel n current rest block _ Hn Hf Hr. simpl in Hf.
  rewrite app_nil_r, Nat.add_0_r. destruct Hr as [->|(k & x & rest' & -> & Hk)].
  - apply (f_equal length) in Hf. rewrite length_drop, length_fmap in Hf. cbn in Hf.
    destruct n; cbn [parse_block]; rewrite (proj2 (Nat.ltb_ge _ _)) by lia; done.
  - destruct (keyword_at_fs _ _ _ _ Hf) as [Hka Hc].
    destruct n; [apply Nat.ltb_lt in Hc; lia|]. cbn [parse_block]. by rewrite Hc, Hka, Hk.
Qed.

Lemma complete_cons stop k args seg c segs cs :
  stop k = false → complete_command ((k :: args) :: seg)%list c → complete_block stop segs cs →
  complete_block stop (((k :: args) :: seg) ++ segs)%list (c :: cs).
Proof.
  intros Hk Hcmd Hblk fuel n current rest block Hfuel Hn Hf Hr.
  rewrite length_app in Hfuel. rewrite <- app_assoc in Hf. pose proof Hf as Hf'.
  rewrite <- app_comm_cons in Hf'. destruct (keyword_at_fs _ _ _ _ Hf') as [Hka Hc].
  pose proof (fs_app _ _ _ Hf) as Hf2. apply Nat.ltb_lt in Hc as Hc'.
  destruct n; [lia|]. cbn [parse_block]. rewrite Hc, Hka, Hk.
  rewrite (Hcmd fuel current (segs ++ rest)) by (done || lia). cbn [from_option].
  replace (S (current + length ((k :: args) :: seg)%list - 1)) with
    (current + length ((k :: args) :: seg)%list)%nat by (cbn; lia).
  rewrite (Hblk fuel n _ rest) by (done || (cbn in *; lia)).
  rewrite <- app_assoc, length_app. by rewrite Nat.add_assoc.
Qed.

Lemma if_fields_complete ws :
  ws ≠ [] → let parts := ("if" :: ws ++ ["then"])%list in
  (length parts <? 3)%nat || negb (bool_decide (list.head parts = Some "if"))
    || negb (bool_decide (list.last parts = Some "then")) = false ∧
  take (length parts - 2) (drop 1 parts) = ws.
Proof.
  intros Hws parts. subst parts. rewrite !orb_false_iff, !negb_false_iff, !bool_decide_eq_true.
  rewrite Nat.ltb_ge. rewrite app_comm_cons, last_snoc. cbn. rewrite length_app. cbn.
  split_and!; try done.
  - destruct ws; [done|cbn; lia].
  - rewrite Nat.add_1_r. cbn. rewrite Nat.sub_0_r. apply take_app_length.
Qed.

Lemma complete_if ws thens T els elseT x :
  ws ≠ [] → complete_block stop_then thens T →
  (els = [] ∧ elseT = [] ∨
   ∃ y elses, els = (("else" :: y) :: elses)%list ∧ complete_block stop_else elses elseT) →
  complete_command (("if" :: ws ++ ["then"]) :: thens ++ els ++ [("fi" :: x)])%list
    (ConditionalCommand (Join ws " ") T elseT).
Proof.
  intros Hws HT HE fuel current rest Hfuel Hf. destruct fuel as [|fuel]; [cbn in Hfuel; lia|].
  cbn in Hfuel. rewrite !length_app in Hfuel. cbn in Hfuel.
  rewrite <- app_comm_cons, <- !app_assoc in Hf.
  destruct (fs_cons _ _ _ Hf) as (line & Hl & E & Hf1 & Hc). cbn [parseCommand].
  rewrite Hl, E. cbn [String.eqb Ascii.eqb Bool.eqb]. unfold parseConditional. rewrite Hl, E.
  destruct (if_fields_complete ws Hws) as [-> ->].
  symmetry in Hf1. pose proof (fs_app _ _ _ Hf1) as Hf2. symmetry in Hf2.
  rewrite (HT fuel (length lines) (S current) (els ++ [("fi" :: x)] ++ rest)%list)
    by (try lia; try done; destruct HE as [[-> _]|(y & elses & -> & _)];
        right; cbn; eauto).
  cbn [app]. destruct HE as [[-> ->]|(y & elses & -> & HE)]; cbn [app] in Hf2.
  - rewrite !(at_keyword_fs _ _ _ _ _ Hf2). cbn [String.eqb Ascii.eqb Bool.eqb negb].
    rewrite (at_keyword_fs _ _ _ _ _ Hf2). cbn. do 3 f_equal. rewrite !length_app. cbn. lia.
  - rewrite (at_keyword_fs _ _ _ _ _ Hf2). cbn [String.eqb Ascii.eqb Bool.eqb].
    destruct (fs_cons _ _ _ Hf2) as (_ & _ & _ & Hf3 & _). symmetry in Hf3.
    pose proof (fs_app _ _ _ Hf3) as Hf4. symmetry in Hf4.
    rewrite (HE fuel (length lines) _ ([("fi" :: x)] ++ rest)%list)
      by (try done; cbn in *; rewrite ?length_app in *; cbn in *; try lia; right; eauto).
    rewrite (at_keyword_fs _ _ _ _ _ Hf4). cbn. do 3 f_equal. rewrite !length_app. cbn.
    rewrite !length_app. cbn. lia.
Qed.

Lemma complete_one k args c :
  (∀ fuel current, (0 < fuel)%nat → ∀ line, lines !! current = Some line → Fields line = (k :: args)%list →
    parseCommand fuel lines current = Ok (Some c, current)) →
  complete_command [(k :: args)%list] c.
Proof.
  intros H fuel current rest Hfuel Hf. destruct (fs_cons _ _ _ Hf) as (line & Hl & E & _ & _).
  cbn in Hfuel. rewrite (H fuel current ltac:(lia) line Hl E). do 3 f_equal. cbn. lia.
Qed.

Lemma grammar_complete :
  (∀ seg c, gcommand seg c → complete_command seg c) ∧
  (∀ stop segs cs, gblock stop segs cs → complete_block stop segs cs).
Proof.
  apply grammar_ind; intros.
  - apply complete_one. intros [|fuel] current Hfu line Hl E; [lia|]. cbn [parseCommand].
    rewrite Hl, E. by destruct args.
  - apply complete_one. intros [|fuel] current Hfu line Hl E; [lia|]. cbn [parseCommand].
    by rewrite Hl, E.
  - apply complete_one. intros [|fuel] current Hfu line Hl E; [lia|]. cbn [parseCommand].
    rewrite Hl, E. cbn [String.eqb Ascii.eqb Bool.eqb]. unfold parseExit. by rewrite e.
  - apply complete_one. intros [|fuel] current Hfu line Hl E; [lia|]. cbn [parseCommand].
    rewrite Hl, E. rewrite !not_elem_of_cons in n. destruct n as (N1 & N2 & N3 & _).
    by rewrite !(proj2 (String.eqb_neq _ _)).
  - apply (complete_if ws thens T [] [] x); auto.
  - apply (complete_if ws thens T (("else" :: x) :: elses)%list E y); eauto.
  - apply complete_nil.
  - by apply complete_cons.
Qed.
End complete_facts.

(** ** Printing scripts

    The canonical text of a script, as the fields of its lines.  A command is
    printable when its words are; the first word of a line must be no keyword
    that its position gives another meaning to. *)

Fixpoint words_of (c : Command) : list (list string) :=
  match c with
  | EchoCommand msg => [("echo" :: Fields msg)%list]
  | CLICommand name args => [(name :: args)%list]
  | ExitCommand code => [["exit"; Itoa code]]
  | ConditionalCommand cond T E =>
      ("if" :: Fields cond ++ ["then"]) :: concat (words_of <$> T) ++
        match E with [] => [] | _ => ["else"] :: concat (words_of <$> E) end ++ [["fi"]]
  end%list.

Definition words_all (l : list string) : bool := forallb is_word l.

Fixpoint printable (stop : string → bool) (c : Command) : bool :=
  match c with
  | EchoCommand msg =>
      words_all (Fields msg) && String.eqb (Join (Fields msg) " ") msg
        && String.eqb (trim_char quote msg) msg
  | CLICommand name args =>
      words_all (name :: args) && negb (stop name) && negb (HasPrefix name "#")
        && negb (String.eqb name "echo") && negb (String.eqb name "exit") && negb (String.eqb name "if")
  | ExitCommand code => (min_int64 <=? code) && (code <=? max_int64)
  | ConditionalCommand cond T E =>
      words_all (Fields cond) && String.eqb (Join (Fields cond) " ") cond
        && negb (String.eqb cond EmptyString)
        && forallb (printable stop_then) T && forallb (printable stop_else) E
  end.

Definition unwords (ws : list string) : string := Join ws " ".

Definition print_script (cs : list Command) : string :=
  nl_join (unwords <$> concat (words_of <$> cs)).

(** Structural induction over commands and their blocks. *)
Section command_ind.
Context (P : Command → Prop)
  (Hecho : ∀ m, P (EchoCommand m)) (Hcli : ∀ n a, P (CLICommand n a)) (Hexit : ∀ z, P (ExitCommand z))
  (Hcond : ∀ c T E, Forall P T → Forall P E → P (ConditionalCommand c T E)).
Fixpoint command_tree_ind (c : Command) : P c :=
  let fix block (cs : list Command) : Forall P cs :=
    match cs with
    | [] => Forall_nil P
    | c :: cs => Forall_cons P c cs (command_tree_ind c) (block cs)
    end in
  match c with
  | EchoCommand m => Hecho m
  | CLICommand n a => Hcli n a
  | ExitCommand z => Hexit z
  | ConditionalCommand c T E => Hcond c T E (block T) (block E)
  end.
End command_ind.

Lemma words_all_spec l : words_all l = true ↔ Forall (λ w, is_word w = true) l.
Proof. unfold words_all. rewrite forallb_forall, <- List.Forall_forall. done. Qed.

Definition good_stop (stop : string → bool) : Prop :=
  stop "echo" = false ∧ stop "exit" = false ∧ stop "if" = false.

Lemma stops_good : good_stop stop_then ∧ good_stop stop_else ∧ good_stop no_stop.
Proof. done. Qed.

(** The line of some words begins a command, is no comment and is a sentence of
    words. *)
Definition line_good (ws : list string) : Prop :=
  Forall (λ w, is_word w = true) ws ∧ ∃ k args, ws = (k :: args)%list ∧ HasPrefix k "#" = false.

Definition command_good (stop : string → bool) (c : Command) : Prop :=
  printable stop c = true → gcommand (words_of c) c ∧ Forall line_good (words_of c) ∧
    ∃ k args seg, words_of c = ((k :: args) :: seg)%list ∧ stop k = false.

Lemma block_good stop cs :
  Forall (λ c, ∀ stop, good_stop stop → command_good stop c) cs → good_stop stop →
  forallb (printable stop) cs = true →
  gblock stop (concat (words_of <$> cs)) cs ∧ Forall line_good (concat (words_of <$> cs)).
Proof.
  intros Hcs Hstop. induction Hcs as [|c cs Hc _ IH]; [split; constructor|].
  cbn [forallb]. intros [Hp Hps]%andb_true_iff. destruct (IH Hps) as [Hg Hl].
  destruct (Hc stop Hstop Hp) as (Hgc & Hlc & k & args & seg & E & Hk).
  cbn [concat fmap list_fmap]. split.
  - rewrite E in *. by apply g_cons.
  - by apply Forall_app.
Qed.

(** Boolean tests on words and strings to propositions. *)
Ltac sbool :=
  repeat (zbool; match goal with
  | H : String.eqb _ _ = true |- _ => apply String.eqb_eq in H
  | H : String.eqb _ _ = false |- _ => apply String.eqb_neq in H
  | H : words_all _ = true |- _ => apply words_all_spec in H
  end).

Lemma good_one k args :
  is_word k = true → Forall (λ w, is_word w = true) args → HasPrefix k "#" = false →
  Forall line_good [(k :: args)%list].
Proof. intros. constructor; [|done]. split; [by constructor|eauto]. Qed.

Lemma Join_nil_inv s : Join (Fields s) " " = s → s ≠ EmptyString → Fields s ≠ [].
Proof. intros E Hne H. rewrite H in E. by subst. Qed.

Lemma printable_good c : ∀ stop, good_stop stop → command_good stop c.
Proof.
  induction c as [m|n a|z|c T E HT HE] using command_tree_ind;
    intros stop (H1 & H2 & H3) Hp; cbn [printable words_of] in *; sbool.
  - split_and!; [|by apply good_one|eauto 6].
    replace m with (trim_char quote (Join (Fields m) " ")) at 2 by congruence. apply g_echo.
  - match goal with H : Forall _ (n :: a) |- _ => apply Forall_cons_iff in H as [Hn Ha] end.
    split_and!; [|by apply good_one|eauto 6].
    apply g_cli. rewrite !not_elem_of_cons. split_and!; try done. apply not_elem_of_nil.
  - split_and!; [|apply good_one; [done|constructor; [apply Itoa_word|done]|done]|eauto 6].
    apply g_exit_code. apply Atoi_Itoa. unfold in_int64. lia.
  - destruct stops_good as (Gt & Ge & _).
    destruct (block_good stop_then T HT Gt) as [GT LT]; [done|].
    destruct (block_good stop_else E HE Ge) as [GE LE]; [done|].
    assert (Forall line_good [["fi"]]) as Lfi by (by apply good_one).
    assert (Forall line_good [["else"]]) as Lelse by (by apply good_one).
    assert (Forall line_good [("if" :: Fields c ++ ["then"])%list]) as Lif.
    { apply good_one; [done| |done]. apply Forall_app. split; [done|]. by repeat constructor. }
    assert (Fields c ≠ []) as Hc by (by apply Join_nil_inv).
    split_and!; [| |eauto 8].
    + replace c with (Join (Fields c) " ") at 2 by done. destruct E as [|e E]; [by apply g_if|].
      rewrite <- app_comm_cons. by apply g_if_else.
    + change (Forall line_good ([("if" :: Fields c ++ ["then"])%list] ++ concat (words_of <$> T) ++
        match E with [] => [] | _ => [["else"]] ++ concat (words_of <$> E) end ++ [["fi"]])).
      rewrite !Forall_app. split_and!; auto. destruct E; [constructor|]. by apply Forall_app.
Qed.

(** ** Lemmas: reading a printed script *)

Lemma line_good_text ws :
  line_good ws → str_all text_char (unwords ws) = true ∧ TrimSpace (unwords ws) = unwords ws ∧
    keeps_line (unwords ws) = true ∧ drop_cr (unwords ws) = unwords ws ∧ Fields (unwords ws) = ws.
Proof.
  unfold unwords. intros (Hw & k & args & -> & Hk).
  destruct (Join_text _ _ Hw) as (Ht & [t Et] & r & d & E & Hd). split_and!; [done| | | |].
  - by apply TrimSpace_Join.
  - apply Forall_cons_iff in Hw as [Hk' _]. destruct (word_ends k Hk') as [(c & s & -> & _) _].
    rewrite HasPrefix_head in Hk. rewrite Et, str_app_cons. unfold keeps_line.
    by rewrite HasPrefix_head, Hk.
  - rewrite E. unfold drop_cr. rewrite str_rev_snoc.
    destruct (Ascii.eqb d carriage_return) eqn:Ec; [|done]. apply Ascii.eqb_eq in Ec as ->. done.
  - by apply Fields_Join.
Qed.

Lemma drop_last_id (ls : list string) : Forall (λ l, l ≠ EmptyString) ls → drop_last_empty ls = ls.
Proof.
  unfold drop_last_empty. destruct ls as [|l ls _] using rev_ind; [done|].
  intros [_ Hl]%Forall_app. apply Forall_cons_iff in Hl as [Hl _]. rewrite rev_app_distr. cbn.
  by destruct l.
Qed.

Lemma fitting_id ls : Forall (λ l, Z.of_nat (String.length l) <= max_line) ls → fitting ls = ls.
Proof. induction 1 as [|l ls Hl _ IH]; [done|]. cbn [fitting]. by rewrite (proj2 (Z.leb_le _ _) Hl), IH. Qed.

Lemma text_no_newline s : str_all text_char s = true → str_all (not_char newline) s = true.
Proof.
  apply str_all_impl. intros c Hc. unfold not_char. apply negb_true_iff, Ascii.eqb_neq. intros ->. done.
Qed.

Lemma NewParser_print (wss : list (list string)) :
  Forall line_good wss →
  Forall (λ ws, Z.of_nat (String.length (unwords ws)) <= max_line) wss →
  NewParser (nl_join (unwords <$> wss)) = unwords <$> wss ∧ Fields <$> (unwords <$> wss) = wss.
Proof.
  intros Hg Hlen.
  assert (Forall (λ ws, TrimSpace (unwords ws) = unwords ws ∧ keeps_line (unwords ws) = true ∧
    drop_cr (unwords ws) = unwords ws ∧ Fields (unwords ws) = ws ∧ unwords ws ≠ EmptyString ∧
    str_all (not_char newline) (unwords ws) = true) wss) as Ht.
  { eapply list.Forall_impl; [exact Hg|]. intros ws Hws.
    destruct (line_good_text _ Hws) as (? & ? & ? & ? & ?).
    split_and!; try done; [|by apply text_no_newline].
    intros E. match goal with H : keeps_line _ = true |- _ => by rewrite E in H end. }
  split.
  2: { rewrite <- list_fmap_compose. rewrite <- (list_fmap_id wss) at 2. apply list_fmap_ext.
       intros i ws Hi. apply (Forall_lookup_1 _ _ _ _ Ht Hi). }
  unfold NewParser. assert (scan_lines (nl_join (unwords <$> wss)) = unwords <$> wss) as ->.
  - unfold scan_lines. destruct wss as [|ws wss]; [done|]. unfold nl_join.
    rewrite fmap_cons, Join_seps, Split_join, <- fmap_cons.
    + rewrite drop_last_id
        by (apply Forall_fmap; eapply list.Forall_impl; [exact Ht|]; by intros ? (_ & _ & _ & _ & ? & _)).
      rewrite fitting_id by (by apply Forall_fmap).
      rewrite <- list_fmap_compose. apply list_fmap_ext. intros i x Hi.
      apply (Forall_lookup_1 _ _ _ _ Ht Hi).
    + rewrite <- fmap_cons. apply Forall_fmap. eapply list.Forall_impl; [exact Ht|].
      by intros ? (_ & _ & _ & _ & _ & ?).
  - assert (TrimSpace <$> (unwords <$> wss) = unwords <$> wss) as ->.
    { rewrite <- list_fmap_compose. apply list_fmap_ext. intros i x Hi.
      apply (Forall_lookup_1 _ _ _ _ Ht Hi). }
    clear - Ht. induction Ht as [|ws wss (_ & Hk & _) _ IH]; [done|].
    rewrite fmap_cons, filter_cons_True by done. by rewrite IH.
Qed.

Lemma grammar_lines :
  (∀ seg c, gcommand seg c → Forall (λ l, l ≠ []) seg) ∧
  (∀ stop segs cs, gblock stop segs cs → Forall (λ l, l ≠ []) segs).
Proof.
  apply grammar_ind; intros; try by repeat constructor.
  - constructor; [done|]. apply Forall_app. split; [done|by repeat constructor].
  - constructor; [done|]. apply Forall_app. split; [done|].
    constructor; [done|]. apply Forall_app. split; [done|by repeat constructor].
  - by apply Forall_app.
Qed.

Lemma Parse_block lines cs :
  gblock no_stop (Fields <$> lines) cs →
  Parse lines = Ok {| Commands := cs; Source := nl_join lines |} ∧ lines_ok lines.
Proof.
  intros Hg.
  assert (lines_ok lines) as Hok.
  { pose proof (proj2 grammar_lines _ _ _ Hg) as Hne.
    rewrite list.Forall_fmap in Hne. exact Hne. }
  split; [|done]. unfold Parse. rewrite parse_script_block by done.
  destruct (grammar_complete lines) as [_ Hc].
  rewrite (Hc _ _ _ Hg (S (length lines)) (length lines) 0%nat [] []); try rewrite length_fmap; try done.
  - lia.
  - lia.
  - by rewrite app_nil_r.
  - by left.
Qed.

Lemma parse_block_end pc lines n current block cs i :
  parse_block pc lines no_stop n current block = Ok (cs, i) → (length lines <= i)%nat.
Proof.
  revert current block. induction n as [|n IH]; intros current block; cbn [parse_block];
    destruct (current <? length lines)%nat eqn:Hc; intros H; simplify_eq; try by apply Nat.ltb_ge in Hc.
  destruct (keyword_at lines current); [|done]. cbn [no_stop] in H.
  destruct (pc current) as [[oc j]|]; [|done]. by eapply IH.
Qed.

Lemma Parse_total lines :
  lines_ok lines →
  match Parse lines with
  | Ok s => gblock no_stop (Fields <$> lines) (Commands s) ∧ Source s = nl_join lines
  | Err (_, e) => e ≠ OutOfFuel ∧ e ≠ IndexPanic
  end.
Proof.
  intros Hok. unfold Parse. rewrite parse_script_block by done.
  pose proof (parse_block_sound lines Hok (parseCommand (S (length lines)) lines) no_stop (length lines) 0 []
    ltac:(intros; apply parseCommand_sound; [done|lia|lia]) ltac:(lia)) as H.
  destruct (parse_block _ _ _ _ _ _) as [[cs i]|[i e]] eqn:E; [|done]. cbn in H |- *.
  destruct H as (cs' & seg & -> & Hg & _ & Hf). split; [|done].
  apply parse_block_end in E. rewrite (drop_ge _ i) in Hf by (by rewrite length_fmap).
  rewrite app_nil_r in Hf. by rewrite drop_0 in Hf; subst.
Qed.

(** ** Properties *)

(** C9: The parser implements the grammar, on any source text: it accepts exactly
    the texts whose lines are those of a script, returns that script, which is
    the only one, and on any other text returns an error, never running past
    the end of the lines nor out of its bound on iterations. *)
Theorem Parse_grammar source :
  match Parse (NewParser source) with
  | Ok s => ∀ cs, gblock no_stop (Fields <$> NewParser source) cs ↔ cs = Commands s
  | Err (_, e) => (∀ cs, ¬ gblock no_stop (Fields <$> NewParser source) cs) ∧
      e ≠ OutOfFuel ∧ e ≠ IndexPanic
  end.
Proof.
  pose proof (Parse_total _ (NewParser_ok source)) as Ht.
  destruct (Parse (NewParser source)) as [s|[n e]] eqn:E.
  - destruct Ht as [Hg _]. intros cs. split; [|by intros ->].
    intros [H _]%Parse_block. rewrite E in H. by simplify_eq.
  - split; [|done]. intros cs [H _]%Parse_block. by rewrite E in H.
Qed.

(** Printing and parsing: the canonical text of a printable script is parsed
    back to the same commands, whatever the nesting of its conditionals. *)
Theorem print_parse cs
    (Hp : forallb (printable no_stop) cs = true)
    (Hlen : Forall (λ ws, Z.of_nat (String.length (unwords ws)) <= max_line) (concat (words_of <$> cs))) :
  ∃ src, Parse (NewParser (print_script cs)) = Ok {| Commands := cs; Source := src |}.
Proof.
  destruct (block_good no_stop cs) as [Hg Hl]; [|done|done|].
  - apply list.Forall_forall. intros c _. apply printable_good.
  - destruct (NewParser_print _ Hl Hlen) as [E1 E2]. unfold print_script. rewrite E1.
    rewrite <- E2 in Hg. apply Parse_block in Hg as [-> _]. eauto.
Qed.

Definition sample_script : list Command :=
  [EchoCommand "nightly job"; CLICommand "cache" ["clear"; "--all"];
   ConditionalCommand "last_exit == 0"
     [ConditionalCommand "a < 3" [CLICommand "status" []] []; EchoCommand "done"] [ExitCommand (-2)]].

Lemma print_parse_witness :
  ∃ src, Parse (NewParser (print_script sample_script)) =
    Ok {| Commands := sample_script; Source := src |}.
Proof.
  apply (print_parse sample_script); [vm_compute; reflexivity|].
  repeat (constructor; [vm_compute; discriminate|]). constructor.
Defined.
