(* ===== verification/BatchExec.v ===== *)
(** * BatchExec: running batch scripts, and the job manager

    Models the executor and the job manager of [src/internal/batch/executor.go].
    The world [W] holds everything outside the executor: the state the commands
    act on, the clock, and whether the job's context has been cancelled. *)

From Stdlib Require Import Ascii.
From S2P Require Import Prelude GoStrings Batch.

(** ** The executor's state *)

Record Executor := mkExecutor {
  Output : string;
  LastExitCode : Z;
  Variables : gmap string string;
  AllowedCommands : gmap string bool
}.

Definition NewExecutor : Executor :=
  {| Output := EmptyString; LastExitCode := 0; Variables := ∅;
     AllowedCommands := list_to_map ((λ c, (c, true)) <$>
       ["cache"; "maven-backup"; "maven-index"; "test"; "status"; "health"; "version"]) |}.

Definition write_output (s : string) (e : Executor) : Executor :=
  {| Output := Output e +:+ s; LastExitCode := LastExitCode e; Variables := Variables e;
     AllowedCommands := AllowedCommands e |}.

Definition set_exit (code : Z) (e : Executor) : Executor :=
  {| Output := Output e; LastExitCode := code; Variables := Variables e;
     AllowedCommands := AllowedCommands e |}.

(** How a process ends: [exec.ExitError] carries its code, any other error (the
    process could not be started, an I/O failure) carries none. *)
Inductive run_end := RunOk | RunExit (code : Z) | RunFailed.

Record run_result := mkRun { stdout : string; stderr : string; run_err : run_end }.

Inductive exec_err :=
| NotAllowed (name : string)
| RunError (r : run_end)
| InvalidCondition (condition : string)
| UnknownOperator (op : string)
| NonNumeric (s : string)
| ExitError (code : Z).

Inductive script_err (C : Type) :=
| Cancelled (c : C)
| ScriptExited (code : Z)
| FailedAtStep (step : Z) (e : exec_err).
Arguments Cancelled {C} c.
Arguments ScriptExited {C} code.
Arguments FailedAtStep {C} step e.

(** [e.AllowedCommands[name]]: a missing key reads as [false]. *)
Definition allowed (e : Executor) (name : string) : bool :=
  from_option id false (AllowedCommands e !! name).

Section executor.
(** [run] starts [proxyndctl] with the arguments and waits for it;
    [ctx_done] reads the context; [float] stands for [float64] and
    [ParseFloat s] for [strconv.ParseFloat(s, 64)] without its error. *)
Context {W C float : Type}.
Context (run : list string → W → run_result * W).
Context (ctx_done : W → option C).
Context (ParseFloat : string → option float).
Context (flt fle : float → float → bool).

Definition ExecuteCLI (name : string) (args : list string) (e : Executor) (w : W) :
    option exec_err * Executor * W :=
  if negb (allowed e name) then (Some (NotAllowed name), e, w)
  else
    let '(r, w) := run (name :: args) w in
    let e := if (0 <? String.length (stdout r))%nat then write_output (stdout r) e else e in
    let e := if (0 <? String.length (stderr r))%nat then write_output (stderr r) e else e in
    match run_err r with
    | RunOk => (None, set_exit 0 e, w)
    | RunExit code => (Some (RunError (RunExit code)), set_exit code e, w)
    | RunFailed => (Some (RunError RunFailed), set_exit 1 e, w)
    end.

Definition resolveValue (value : string) (e : Executor) : string :=
  if String.eqb value "last_exit" then Itoa (LastExitCode e)
  else if String.eqb value "last_exit_code" then Itoa (LastExitCode e)
  else from_option id value (Variables e !! value).

Definition compareNumeric (left_ right_ operator : string) : result exec_err bool :=
  match ParseFloat left_ with
  | None => Err (NonNumeric left_)
  | Some leftNum =>
      match ParseFloat right_ with
      | None => Err (NonNumeric right_)
      | Some rightNum =>
          if String.eqb operator ">" then Ok (flt rightNum leftNum)
          else if String.eqb operator "<" then Ok (flt leftNum rightNum)
          else if String.eqb operator ">=" then Ok (fle rightNum leftNum)
          else if String.eqb operator "<=" then Ok (fle leftNum rightNum)
          else Err (UnknownOperator operator)
      end
  end.

Definition EvaluateCondition (condition : string) (e : Executor) : result exec_err bool :=
  let condition := TrimSpace condition in
  match Fields condition with
  | left_ :: operator :: right_ :: _ =>
      let leftVal := resolveValue left_ e in
      let rightVal := resolveValue right_ e in
      if String.eqb operator "==" then Ok (String.eqb leftVal rightVal)
      else if String.eqb operator "!=" then Ok (negb (String.eqb leftVal rightVal))
      else if existsb (String.eqb operator) [">"; "<"; ">="; "<="]
      then compareNumeric leftVal rightVal operator
      else Err (UnknownOperator operator)
  | _ => Err (InvalidCondition condition)
  end.

(** The [Execute] methods of the commands.  A block stops at its first error. *)
Fixpoint command_execute (c : Command) (e : Executor) (w : W) : option exec_err * Executor * W :=
  let fix block (cs : list Command) (e : Executor) (w : W) :=
    match cs with
    | [] => (None, e, w)
    | c :: cs =>
        match command_execute c e w with
        | (Some err, e, w) => (Some err, e, w)
        | (None, e, w) => block cs e w
        end
    end in
  match c with
  | EchoCommand msg => (None, write_output (msg +:+ String newline EmptyString) e, w)
  | CLICommand name args => ExecuteCLI name args e w
  | ExitCommand code => (Some (ExitError code), e, w)
  | ConditionalCommand cond thenBlock elseBlock =>
      match EvaluateCondition cond e with
      | Err err => (Some err, e, w)
      | Ok true => block thenBlock e w
      | Ok false => if (0 <? length elseBlock)%nat then block elseBlock e w else (None, e, w)
      end
  end.

(** The block loop on its own. *)
Fixpoint block_execute (cs : list Command) (e : Executor) (w : W) : option exec_err * Executor * W :=
  match cs with
  | [] => (None, e, w)
  | c :: cs =>
      match command_execute c e w with
      | (Some err, e, w) => (Some err, e, w)
      | (None, e, w) => block_execute cs e w
      end
  end.

Definition step_header (i total : nat) (c : Command) : string :=
  "[Step " +:+ Itoa (Z.of_nat i) +:+ "/" +:+ Itoa (Z.of_nat total) +:+ "] "
    +:+ command_string c +:+ String newline EmptyString.

(** The loop of [Execute], at the 1-based step [i] of [total]. *)
Fixpoint execute_steps (total i : nat) (cs : list Command) (e : Executor) (w : W) :
    option (script_err C) * Executor * W :=
  match cs with
  | [] => (None, e, w)
  | c :: cs =>
      match ctx_done w with
      | Some err => (Some (Cancelled err), e, w)
      | None =>
          match command_execute c (write_output (step_header i total c) e) w with
          | (Some (ExitError code), e, w) =>
              (if negb (code =? 0) then Some (ScriptExited code) else None, set_exit code e, w)
          | (Some err, e, w) => (Some (FailedAtStep (Z.of_nat i) err), e, w)
          | (None, e, w) => execute_steps total (S i) cs e w
          end
      end
  end.

Definition Execute (script : BatchScript) (e : Executor) (w : W) :
    option (script_err C) * Executor * W :=
  execute_steps (length (Commands script)) 1 (Commands script) e w.
End executor.

(** ** The job manager

    A job is a Go pointer: [store] holds the objects and [jobs] maps an
    identifier to a location.  Each job has a goroutine, in one of three phases.
    The calls of [Start] and [Cancel] and the two blocks of assignments of the
    goroutine are taken as atomic: the code takes no lock, and the outcomes of
    its data races are not modelled. *)

Inductive JobStatus := JobPending | JobRunning | JobSuccess | JobFailed | JobCancelled.

#[export] Instance JobStatus_eq_dec : EqDecision JobStatus.
Proof. solve_decision. Defined.

Definition JobStatus_String (s : JobStatus) : string :=
  match s with
  | JobPending => "pending"
  | JobRunning => "running"
  | JobSuccess => "success"
  | JobFailed => "failed"
  | JobCancelled => "cancelled"
  end.

Record JobExecution (C : Type) := mkJob {
  ID : string;
  Script : BatchScript;
  cancel_requested : bool;
  StartTime : instant;
  EndTime : instant;
  Status : JobStatus;
  JobOutput : list string;
  ExitCode : Z;
  JobError : option (script_err C)
}.
Arguments mkJob {C}. Arguments ID {C}. Arguments Script {C}. Arguments cancel_requested {C}.
Arguments StartTime {C}. Arguments EndTime {C}. Arguments Status {C}. Arguments JobOutput {C}.
Arguments ExitCode {C}. Arguments JobError {C}.

Record JobManager (C : Type) := mkJobs {
  jobs : gmap string nat;
  store : gmap nat (JobExecution C)
}.
Arguments mkJobs {C}. Arguments jobs {C}. Arguments store {C}.

Definition NewJobManager (C : Type) : JobManager C := mkJobs ∅ ∅.

(** [unix_nano] is [time.Now().UnixNano()]. *)
Definition generateJobID (unix_nano : Z) : string := "job-" +:+ Itoa unix_nano.

Definition new_job {C} (script : BatchScript) (unix_nano : Z) (now : instant) : JobExecution C :=
  {| ID := generateJobID unix_nano; Script := script; cancel_requested := false; StartTime := now;
     EndTime := zero_time; Status := JobPending; JobOutput := []; ExitCode := 0; JobError := None |}.

Definition Start {C} (script : BatchScript) (unix_nano : Z) (now : instant) (jm : JobManager C) :
    nat * JobManager C :=
  let l := fresh (dom (store jm)) in
  (l, mkJobs (<[generateJobID unix_nano := l]> (jobs jm)) (<[l := new_job script unix_nano now]> (store jm))).

Inductive job_err := JobNotFound (id : string) | JobNotRunning (s : JobStatus).

Definition cancel_job {C} (j : JobExecution C) : JobExecution C :=
  {| ID := ID j; Script := Script j; cancel_requested := true; StartTime := StartTime j;
     EndTime := EndTime j; Status := JobCancelled; JobOutput := JobOutput j; ExitCode := ExitCode j;
     JobError := JobError j |}.

Definition GetJob {C} (id : string) (jm : JobManager C) : result job_err nat :=
  match jobs jm !! id with Some l => Ok l | None => Err (JobNotFound id) end.

Definition ListJobs {C} (jm : JobManager C) : list nat := (map_to_list (jobs jm)).*2.

Definition Cancel {C} (id : string) (jm : JobManager C) : option job_err * JobManager C :=
  match jobs jm !! id with
  | None => (Some (JobNotFound id), jm)
  | Some l =>
      match store jm !! l with
      | None => (Some (JobNotFound id), jm)
      | Some j =>
          if negb (bool_decide (Status j = JobRunning)) then (Some (JobNotRunning (Status j)), jm)
          else (None, mkJobs (jobs jm) (<[l := cancel_job j]> (store jm)))
      end
  end.

(** The two blocks of assignments of a job's goroutine. *)
Definition job_begin {C} (j : JobExecution C) : JobExecution C :=
  {| ID := ID j; Script := Script j; cancel_requested := cancel_requested j; StartTime := StartTime j;
     EndTime := EndTime j; Status := JobRunning; JobOutput := JobOutput j; ExitCode := ExitCode j;
     JobError := JobError j |}.

Definition job_finish {C} (now : instant) (err : option (script_err C)) (e : Executor)
    (j : JobExecution C) : JobExecution C :=
  {| ID := ID j; Script := Script j; cancel_requested := cancel_requested j; StartTime := StartTime j;
     EndTime := now; Status := match err with Some _ => JobFailed | None => JobSuccess end;
     JobOutput := Split (Output e) newline; ExitCode := LastExitCode e;
     JobError := match err with Some x => Some x | None => JobError j end |}.

Inductive phase := Spawned | Executing | Finished.

Section job_system.
Context {W C float : Type}.
Context (run : list string → W → run_result * W).
Context (ctx_done : W → option C).
Context (ParseFloat : string → option float).
Context (flt fle : float → float → bool).

Record JobSys := mkJobSys { jm : JobManager C; routines : gmap nat phase }.

Inductive job_step : JobSys → JobSys → Prop :=
| js_start m rs script nano now l m' :
    Start script nano now m = (l, m') → job_step (mkJobSys m rs) (mkJobSys m' (<[l := Spawned]> rs))
| js_cancel m rs id err m' :
    Cancel id m = (err, m') → job_step (mkJobSys m rs) (mkJobSys m' rs)
| js_begin m rs l j :
    rs !! l = Some Spawned → store m !! l = Some j →
    job_step (mkJobSys m rs)
      (mkJobSys (mkJobs (jobs m) (<[l := job_begin j]> (store m))) (<[l := Executing]> rs))
| js_finish m rs l j now w err e w' :
    rs !! l = Some Executing → store m !! l = Some j →
    Execute run ctx_done ParseFloat flt fle (Script j) NewExecutor w = (err, e, w') →
    job_step (mkJobSys m rs)
      (mkJobSys (mkJobs (jobs m) (<[l := job_finish now err e j]> (store m))) (<[l := Finished]> rs)).
End job_system.
Arguments JobSys : clear implicits.
Arguments mkJobSys {C}. Arguments jm {C}. Arguments routines {C}.

(** ** Lemmas: executions *)

Section executor_facts.
Context {W C float : Type}.
Context (run : list string → W → run_result * W).
Context (ctx_done : W → option C).
Context (ParseFloat : string → option float).
Context (flt fle : float → float → bool).

Notation command_execute := (command_execute run ParseFloat flt fle).
Notation block_execute := (block_execute run ParseFloat flt fle).
Notation execute_steps := (execute_steps run ctx_done ParseFloat flt fle).

Lemma conditional_execute cond T E e w :
  command_execute (ConditionalCommand cond T E) e w =
  match EvaluateCondition ParseFloat flt fle cond e with
  | Err err => (Some err, e, w)
  | Ok b => block_execute (if b : bool then T else E) e w
  end.
Proof.
  assert (∀ cs e w,
    (fix block (cs : list Command) (e : Executor) (w : W) :=
       match cs with
       | [] => (None, e, w)
       | c :: cs =>
           match command_execute c e w with
           | (Some err, e, w) => (Some err, e, w)
           | (None, e, w) => block cs e w
           end
       end) cs e w = block_execute cs e w) as Hb.
  { intros cs. induction cs as [|c cs IH]; intros e' w'; [done|]. cbn [BatchExec.block_execute].
    destruct (command_execute c e' w') as [[[]?]?]; [done|]. apply IH. }
  cbn [BatchExec.command_execute].
  destruct (EvaluateCondition _ _ _ _ _) as [[]|]; [apply Hb| |done].
  destruct E as [|c E]; [done|]. apply (Hb (c :: E)).
Qed.

(** A preorder on states that every write to the executor and every process
    started respects is respected by whole executions. *)
Section closure.
Context (R : Executor * W → Executor * W → Prop) `{!PreOrder R}.
Context (Hwrite : ∀ s e w, R (e, w) (write_output s e, w)).
Context (Hcli : ∀ name args e w r e' w',
  ExecuteCLI run name args e w = (r, e', w') → R (e, w) (e', w')).

Lemma command_closure c e w r e' w' :
  command_execute c e w = (r, e', w') → R (e, w) (e', w').
Proof.
  revert e w r e' w'. induction c as [m|n a|z|cond T E HT HE] using command_tree_ind;
    intros e w r e' w' Hx; [cbn in Hx; simplify_eq; auto|by eapply Hcli|cbn in Hx; by simplify_eq|].
  assert (∀ cs, Forall (λ c, ∀ e w r e' w', command_execute c e w = (r, e', w') → R (e, w) (e', w')) cs →
    ∀ e w r e' w', block_execute cs e w = (r, e', w') → R (e, w) (e', w')) as Hb.
  { induction 1 as [|c cs Hc _ IH]; intros e0 w0 r0 e0' w0' H; cbn [BatchExec.block_execute] in H;
      [by simplify_eq|].
    destruct (command_execute c e0 w0) as [[[err|] e1] w1] eqn:E1; simplify_eq; [by eapply Hc|].
    etrans; [by eapply Hc|by eapply IH]. }
  rewrite conditional_execute in Hx. destruct (EvaluateCondition _ _ _ _ _) as [[]|]; simplify_eq; eauto.
Qed.
End closure.

Lemma ExecuteCLI_exit name args e w r e' w' :
  ExecuteCLI run name args e w = (r, e', w') →
  AllowedCommands e' = AllowedCommands e ∧ Variables e' = Variables e ∧
  match r with
  | None => LastExitCode e' = 0
  | Some (RunError (RunExit code)) => LastExitCode e' = code
  | Some (RunError RunFailed) => LastExitCode e' = 1
  | Some (NotAllowed _) => LastExitCode e' = LastExitCode e
  | Some _ => False
  end.
Proof.
  unfold ExecuteCLI. destruct (allowed e name); cbn [negb]; [|intros; by simplify_eq].
  destruct (run (name :: args) w) as [[so se re] w1]. cbn. intros H.
  repeat case_match; simplify_eq; done.
Qed.

Lemma command_frame c e w r e' w' :
  command_execute c e w = (r, e', w') →
  AllowedCommands e' = AllowedCommands e ∧ Variables e' = Variables e.
Proof.
  assert (PreOrder (λ x y : Executor * W, AllowedCommands y.1 = AllowedCommands x.1 ∧
    Variables y.1 = Variables x.1)) as Hpre
    by (split; [done|]; intros x y z [-> ->] [-> ->]; done).
  intros H. apply (command_closure _ (PreOrder0 := Hpre)) in H; [done|done|].
  intros * (? & ? & _)%ExecuteCLI_exit. done.
Qed.

(** What the error of a command says about the last exit code, when it was 0. *)
Definition exit_agrees (r : option exec_err) (code : Z) : Prop :=
  match r with
  | None => code = 0
  | Some (RunError (RunExit c)) => code = c
  | Some (RunError RunFailed) => code = 1
  | Some (RunError RunOk) => False
  | Some _ => code = 0
  end.

Lemma condition_err cond e err code :
  EvaluateCondition ParseFloat flt fle cond e = Err err → code = 0 →
  exit_agrees (Some err) code ∧ ∀ c, err ≠ ExitError c.
Proof.
  unfold EvaluateCondition, compareNumeric. intros H Hc.
  repeat (case_match; simplify_eq/=; try done).
Qed.

Lemma command_exit c e w r e' w' :
  LastExitCode e = 0 → command_execute c e w = (r, e', w') → exit_agrees r (LastExitCode e').
Proof.
  revert e w r e' w'. induction c as [m|n a|z|cond T E HT HE] using command_tree_ind;
    intros e w r e' w' He Hx; [cbn in Hx; by simplify_eq| |cbn in Hx; by simplify_eq|].
  - apply ExecuteCLI_exit in Hx as (_ & _ & Hx). destruct r as [[|re| | | |]|]; cbn; try done; congruence.
  - assert (∀ cs, Forall (λ c, ∀ e w r e' w', LastExitCode e = 0 →
        command_execute c e w = (r, e', w') → exit_agrees r (LastExitCode e')) cs →
      ∀ e w r e' w', LastExitCode e = 0 →
        block_execute cs e w = (r, e', w') → exit_agrees r (LastExitCode e')) as Hb.
    { induction 1 as [|c cs Hc _ IH]; intros e0 w0 r0 e0' w0' H0 H;
        cbn [BatchExec.block_execute] in H; [by simplify_eq|].
      destruct (command_execute c e0 w0) as [[[err|] e1] w1] eqn:E1; simplify_eq; [by eapply Hc|].
      eapply IH; [|done]. by apply Hc in E1. }
    rewrite conditional_execute in Hx.
    destruct (EvaluateCondition _ _ _ _ _) as [[]|err] eqn:Ec; [by eapply Hb in Hx|by eapply Hb in Hx|].
    simplify_eq. by apply condition_err with (1 := Ec).
Qed.

(** The same for scripts. *)
Definition script_exit_agrees (r : option (script_err C)) (code : Z) : Prop :=
  match r with
  | None => code = 0
  | Some (Cancelled _) => code = 0
  | Some (ScriptExited c) => code = c ∧ c ≠ 0
  | Some (FailedAtStep _ err) => exit_agrees (Some err) code ∧ ∀ c, err ≠ ExitError c
  end.

Lemma steps_exit total i cs e w r e' w' :
  LastExitCode e = 0 → execute_steps total i cs e w = (r, e', w') →
  script_exit_agrees r (LastExitCode e').
Proof.
  revert i e w. induction cs as [|c cs IH]; intros i e w He; cbn [BatchExec.execute_steps];
    [intros; by simplify_eq|].
  destruct (ctx_done w) as [x|]; [intros; by simplify_eq|].
  destruct (command_execute c _ w) as [[[err|] e1] w1] eqn:E1.
  - apply command_exit in E1; [|done]. destruct err; intros; simplify_eq/=; try done.
    case_match; simplify_eq/=; zbool; done.
  - intros H. eapply IH; [|done]. by apply command_exit in E1.
Qed.
End executor_facts.

Section whole_runs.
Context {W C float : Type}.
Context (run : list string → W → run_result * W).
Context (ctx_done : W → option C).
Context (ParseFloat : string → option float).
Context (flt fle : float → float → bool).

Notation command_execute := (command_execute run ParseFloat flt fle).
Notation execute_steps := (execute_steps run ctx_done ParseFloat flt fle).

Lemma steps_closure (R : Executor * W → Executor * W → Prop) `{!PreOrder R} total i cs e w r e' w' :
  (∀ s e w, R (e, w) (write_output s e, w)) →
  (∀ code e w, R (e, w) (set_exit code e, w)) →
  (∀ name args e w r e' w', ExecuteCLI run name args e w = (r, e', w') → R (e, w) (e', w')) →
  execute_steps total i cs e w = (r, e', w') → R (e, w) (e', w').
Proof.
  intros Hw Hs Hc. revert i e w. induction cs as [|c cs IH]; intros i e w;
    cbn [BatchExec.execute_steps]; [intros; by simplify_eq|].
  destruct (ctx_done w); [intros; by simplify_eq|].
  destruct (command_execute c _ w) as [[[err|] e1] w1] eqn:E1; intros H;
    apply (command_closure run ParseFloat flt fle R Hw Hc) in E1;
    (etrans; [apply (Hw (step_header i total c))|]); (etrans; [exact E1|]).
  - destruct err; simplify_eq; done.
  - by eapply IH.
Qed.

(** Scripts that differ in one command, which behave alike there. *)
Lemma steps_swap total i pre c c' post e w :
  LastExitCode e = 0 → Variables e = ∅ → command_string c = command_string c' →
  (∀ e w, LastExitCode e = 0 → Variables e = ∅ → command_execute c e w = command_execute c' e w) →
  execute_steps total i (pre ++ c :: post) e w = execute_steps total i (pre ++ c' :: post) e w.
Proof.
  intros He Hv Hstr Hc. revert i e w He Hv.
  induction pre as [|d pre IH]; intros i e w He Hv; cbn [app BatchExec.execute_steps];
    (destruct (ctx_done w); [done|]).
  - unfold step_header. rewrite Hstr. by rewrite Hc.
  - destruct (command_execute d _ w) as [[[err|] e1] w1] eqn:E1; [done|].
    apply command_frame in E1 as Hf. apply command_exit in E1; [|done].
    apply IH; [done|]. by rewrite (proj2 Hf).
Qed.

Lemma last_exit_condition e :
  LastExitCode e = 0 → Variables e = ∅ →
  EvaluateCondition ParseFloat flt fle "last_exit == 0" e = Ok true ∧
  EvaluateCondition ParseFloat flt fle "last_exit != 0" e = Ok false.
Proof. intros He Hv. unfold EvaluateCondition, resolveValue. by rewrite He, Hv. Qed.
End whole_runs.

(** ** Properties *)

Section batch_properties.
Context {W C float : Type}.
Context (run : list string → W → run_result * W).
Context (ctx_done : W → option C).
Context (ParseFloat : string → option float).
Context (flt fle : float → float → bool).

(** Only whitelisted commands act on the world: an invariant of the world
    that every run of [proxyndctl] with an allowed first argument preserves is
    preserved by the execution of any script, to its end or to any error. *)
Theorem Execute_whitelist (I : W → Prop) script e w r e' w'
    (Hrun : ∀ name args w, allowed e name = true → I w → I (run (name :: args) w).2)
    (HI : I w)
    (Hx : Execute run ctx_done ParseFloat flt fle script e w = (r, e', w')) :
  I w' ∧ AllowedCommands e' = AllowedCommands e.
Proof.
  set (R := λ x y : Executor * W, AllowedCommands y.1 = AllowedCommands x.1 ∧
    (AllowedCommands x.1 = AllowedCommands e → I x.2 → I y.2)).
  assert (PreOrder R) as HR.
  { split; [done|]. intros x y z [Hxy Hi] [Hyz Hi']. split; [congruence|].
    intros. apply Hi'; [congruence|auto]. }
  apply (steps_closure run ctx_done ParseFloat flt fle R) in Hx; [|done|done|].
  - destruct Hx as [? Hi]. split; [by apply Hi|done].
  - intros name args e0 w0 r0 e0' w0' H. split; [by apply ExecuteCLI_exit in H as [? _]|].
    intros Ha Hi. cbn in Ha. unfold ExecuteCLI in H. unfold allowed in *. rewrite Ha in H.
    destruct (from_option id false _) eqn:Eal; cbn in H; [|by simplify_eq].
    specialize (Hrun name args w0 Eal Hi). destruct (run (name :: args) w0) as [x w1].
    cbn in *. destruct (run_err x); by simplify_eq.
Qed.

(** The exit code a job reports, from its start: 0 exactly when the script
    ended, was cancelled, or failed without a process having failed (a command
    that is not allowed, a condition that cannot be evaluated); the code of the
    process that failed, or of the [exit] command, otherwise. *)
Theorem Execute_exit_code script w r e' w'
    (Hx : Execute run ctx_done ParseFloat flt fle script NewExecutor w = (r, e', w')) :
  match r with
  | None | Some (Cancelled _) => LastExitCode e' = 0
  | Some (ScriptExited c) => LastExitCode e' = c ∧ c ≠ 0
  | Some (FailedAtStep _ (RunError (RunExit c))) => LastExitCode e' = c
  | Some (FailedAtStep _ (RunError RunFailed)) => LastExitCode e' = 1
  | Some (FailedAtStep _ (RunError RunOk)) | Some (FailedAtStep _ (ExitError _)) => False
  | Some (FailedAtStep _ _) => LastExitCode e' = 0
  end.
Proof.
  apply steps_exit in Hx; [|done]. destruct r as [[c|c|st [nm|re|cd|op|s|code]]|]; cbn in Hx; try tauto.
  destruct Hx as [_ Hx]. by apply (Hx code).
Qed.

(** The branches for a failed command never run: since a failing command
    ends the script, the last exit code is 0 wherever a condition is evaluated.
    The [else] block of [last_exit == 0] and the [then] block of
    [last_exit != 0] can be replaced by anything without changing any run. *)
Theorem failure_branches_dead pre post T E E' src w :
  let exec cs := Execute run ctx_done ParseFloat flt fle (mkScript cs src) NewExecutor w in
  exec (pre ++ ConditionalCommand "last_exit == 0" T E :: post) =
    exec (pre ++ ConditionalCommand "last_exit == 0" T E' :: post) ∧
  exec (pre ++ ConditionalCommand "last_exit != 0" E T :: post) =
    exec (pre ++ ConditionalCommand "last_exit != 0" E' T :: post).
Proof.
  unfold Execute. cbn [Commands]. rewrite !length_app. cbn [length].
  split; apply steps_swap; try done; intros e0 w0 He Hv; rewrite !conditional_execute.
  - by rewrite (proj1 (last_exit_condition ParseFloat flt fle e0 He Hv)).
  - by rewrite (proj2 (last_exit_condition ParseFloat flt fle e0 He Hv)).
Qed.
End batch_properties.

(** A world for the witnesses: the number of processes started; every process
    succeeds but the [test] command, which exits with code 3. *)
Definition demo_run (args : list string) (n : Z) : run_result * Z :=
  (mkRun "ran" EmptyString (match args with "test" :: _ => RunExit 3 | _ => RunOk end), n + 1).
Definition demo_done (_ : Z) : option unit := None.
Definition demo_float (s : string) : option Z := parse_uint s.

Definition demo_exec (script : BatchScript) (w : Z) : option (script_err unit) * Executor * Z :=
  Execute demo_run demo_done demo_float Z.ltb Z.leb script NewExecutor w.

Definition cleanup_script : BatchScript :=
  mkScript [CLICommand "cache" ["clear"]; CLICommand "rm" ["-rf"; "/"]; CLICommand "status" []] EmptyString.

Lemma Execute_whitelist_witness :
  (demo_exec cleanup_script 0).1.1 = Some (FailedAtStep 2 (NotAllowed "rm")) ∧
  0 <= (demo_exec cleanup_script 0).2.
Proof.
  split; [vm_compute; reflexivity|].
  apply (Execute_whitelist demo_run demo_done demo_float Z.ltb Z.leb (λ n, 0 <= n) cleanup_script
    NewExecutor 0 _ _ _ (λ name args w _ H, Z.le_trans 0 w (w + 1) H (Z.le_succ_diag_r w))
    (Z.le_refl 0) (eq_trans (surjective_pairing _) (f_equal2 _ (surjective_pairing _) eq_refl))).
Defined.

Definition failing_script : BatchScript :=
  mkScript [CLICommand "test" []; ExitCommand 7] EmptyString.

Lemma Execute_exit_code_witness :
  LastExitCode (demo_exec failing_script 0).1.2 = 3.
Proof.
  exact (Execute_exit_code demo_run demo_done demo_float Z.ltb Z.leb failing_script 0
    (Some (FailedAtStep 1 (RunError (RunExit 3)))) (demo_exec failing_script 0).1.2 1
    ltac:(vm_compute; reflexivity)).
Defined.

(** ** Jobs *)

(** The status of a job and the phase of its goroutine. *)
Definition job_ok {C} (p : phase) (j : JobExecution C) : Prop :=
  match p with
  | Spawned => Status j = JobPending
  | Executing => Status j = JobRunning ∨ Status j = JobCancelled
  | Finished => (Status j = JobSuccess ∧ ExitCode j = 0 ∧ JobError j = None) ∨
                (Status j = JobFailed ∧ JobError j ≠ None)
  end.

Definition jobs_inv {C} (s : JobSys C) : Prop :=
  (∀ l p, routines s !! l = Some p → ∃ j, store (jm s) !! l = Some j ∧ job_ok p j ∧
     (p ≠ Finished → JobError j = None)) ∧
  (∀ l, l ∈ dom (store (jm s)) → l ∈ dom (routines s)) ∧
  (∀ id l, jobs (jm s) !! id = Some l → l ∈ dom (store (jm s))).

Section job_facts.
Context {W C float : Type}.
Context (run : list string → W → run_result * W).
Context (ctx_done : W → option C).
Context (ParseFloat : string → option float).
Context (flt fle : float → float → bool).

Notation job_step := (job_step run ctx_done ParseFloat flt fle).

Lemma inv_update (m : JobManager C) rs l p j :
  jobs_inv (mkJobSys m rs) → l ∈ dom (store m) → job_ok p j → (p ≠ Finished → JobError j = None) →
  jobs_inv (mkJobSys (mkJobs (jobs m) (<[l := j]> (store m))) (<[l := p]> rs)).
Proof.
  intros (H1 & H2 & H3) Hl Hj He. split_and!; cbn in *.
  - intros l' p' [[<- <-]|[Hne Hp]]%lookup_insert_Some.
    + exists j. by rewrite lookup_insert_eq.
    + destruct (H1 l' p' Hp) as (j' & ? & ?). exists j'. by rewrite lookup_insert_ne.
  - intros l'. rewrite !dom_insert. set_solver.
  - intros id l' Hid. rewrite dom_insert. specialize (H3 id l' Hid). set_solver.
Qed.

Lemma job_step_inv s s' : jobs_inv s → job_step s s' → jobs_inv s'.
Proof.
  intros Hi Hs. pose proof Hi as (H1 & H2 & H3). destruct Hs as [m rs script nano now l m' Hst|
    m rs id err m' Hc|m rs l j Hp Hj|m rs l j now w err e w' Hp Hj Hx]; cbn in *.
  - unfold Start in Hst. simplify_eq. set (l := fresh (dom (store m))).
    assert (l ∉ dom (store m)) as Hl by apply is_fresh. split_and!; cbn.
    + intros l' p [[<- <-]|[Hne Hp]]%lookup_insert_Some.
      * exists (new_job script nano now). by rewrite lookup_insert_eq.
      * destruct (H1 l' p Hp) as (j' & ? & ?). exists j'. by rewrite lookup_insert_ne.
    + intros l'. rewrite !dom_insert. set_solver.
    + intros id l' [[<- <-]|[Hne Hp]]%lookup_insert_Some; rewrite dom_insert; [set_solver|].
      specialize (H3 id l' Hp). set_solver.
  - unfold Cancel in Hc. destruct (jobs m !! id) as [l|] eqn:El; [|by simplify_eq].
    destruct (store m !! l) as [j|] eqn:Ej; [|by simplify_eq].
    destruct (bool_decide (Status j = JobRunning)) eqn:Ed; cbn in Hc; simplify_eq; [|done].
    apply bool_decide_eq_true in Ed.
    assert (l ∈ dom rs) as [p Hp]%elem_of_dom by (apply H2, elem_of_dom; eauto).
    destruct (H1 l p Hp) as (j' & Ej' & Hok & He). simplify_eq.
    assert (p = Executing) as ->.
    { destruct p; cbn in Hok; try congruence. destruct Hok as [[]|[]]; congruence. }
    rewrite <- (insert_id rs l Executing) by done.
    apply inv_update; [done|by eapply elem_of_dom_2|by right|auto].
  - destruct (H1 l _ Hp) as (j' & Ej' & Hok & He). simplify_eq.
    apply inv_update; [done|by eapply elem_of_dom_2|by left|auto].
  - destruct (H1 l _ Hp) as (j' & Ej' & Hok & He). simplify_eq.
    apply inv_update; [done|by eapply elem_of_dom_2| |done].
    apply steps_exit in Hx; [|done]. destruct err as [x|]; cbn; [by right|left].
    split_and!; [done|exact Hx|by apply He].
Qed.

(** The status of a job against its goroutine, in any interleaving of
    [Start], [Cancel] and the goroutines: pending before the goroutine runs,
    running or cancelled while it does, and success (with exit code 0 and no
    error) or failure (with an error) once it has finished.  A cancellation is
    therefore never visible in a finished job. *)
Theorem job_status_reachable s l p
    (Hr : rtc job_step (mkJobSys (NewJobManager C) ∅) s)
    (Hp : routines s !! l = Some p) :
  ∃ j, store (jm s) !! l = Some j ∧ job_ok p j ∧ (p = Finished → Status j ≠ JobCancelled).
Proof.
  assert (jobs_inv s) as (H1 & _ & _).
  { revert Hr. apply rtc_ind_r; [|by eauto using job_step_inv].
    split_and!; cbn; intros *; rewrite ?lookup_empty; set_solver. }
  destruct (H1 l p Hp) as (j & Hj & Hok & _). exists j. split_and!; [done..|].
  intros ->. destruct Hok as [(-> & _)|(-> & _)]; done.
Qed.
End job_facts.

(** A job that is cancelled while it runs, then finishes. *)
Definition job42 : JobExecution unit := new_job cleanup_script 42 1.
Definition started : JobManager unit := (Start cleanup_script 42 1 (NewJobManager unit)).2.
Definition begun : JobManager unit := mkJobs (jobs started) (<[0%nat := job_begin job42]> (store started)).
Definition cancelled : JobManager unit := (Cancel "job-42" begun).2.
Definition finished : JobManager unit :=
  mkJobs (jobs cancelled)
    (<[0%nat := job_finish 2 (demo_exec cleanup_script 0).1.1 (demo_exec cleanup_script 0).1.2
         (cancel_job (job_begin job42))]> (store cancelled)).

Definition after_cancel : JobSys unit :=
  mkJobSys finished (<[0%nat := Finished]> (<[0%nat := Executing]> (<[0%nat := Spawned]> ∅))).

Lemma after_cancel_reachable :
  rtc (job_step demo_run demo_done demo_float Z.ltb Z.leb)
    (mkJobSys (NewJobManager unit) ∅) after_cancel.
Proof.
  eapply rtc_l; [exact (js_start _ _ _ _ _ (NewJobManager unit) ∅ cleanup_script 42 1 0%nat started eq_refl)|].
  eapply rtc_l; [exact (js_begin _ _ _ _ _ started (<[0%nat := Spawned]> ∅) 0%nat job42 eq_refl eq_refl)|].
  eapply rtc_l; [exact (js_cancel _ _ _ _ _ begun (<[0%nat := Executing]> (<[0%nat := Spawned]> ∅)) "job-42" None cancelled eq_refl)|].
  eapply rtc_l; [|apply rtc_refl].
  exact (js_finish demo_run demo_done demo_float Z.ltb Z.leb cancelled (<[0%nat := Executing]> (<[0%nat := Spawned]> ∅)) 0%nat (cancel_job (job_begin job42)) 2 0
    (demo_exec cleanup_script 0).1.1 (demo_exec cleanup_script 0).1.2 (demo_exec cleanup_script 0).2
    eq_refl eq_refl ltac:(vm_compute; reflexivity)).
Qed.

Lemma job_status_reachable_witness :
  ∃ j, store (jm after_cancel) !! 0%nat = Some j ∧ job_ok Finished j ∧
    (Finished = Finished → Status j ≠ JobCancelled).
Proof.
  exact (job_status_reachable demo_run demo_done demo_float Z.ltb Z.leb after_cancel 0 Finished
    after_cancel_reachable eq_refl).
Defined.
