(* ===== verification/Cache.v ===== *)
(** * Cache: the file-system cache, its eviction and its manager

    Models [src/cache]: the file-system backend ([filesystem.go]), the LRU policy
    and the evictor ([eviction.go]), and the manager ([manager.go]) with its
    options and statistics ([interface.go]).

    The operating system is the interface [FileSystem] of [GoFS], any
    implementation of which may fail at any call; the JSON encoding is the
    interface [Codec].  Each
    [time.Now()] is an argument. *)

From Stdlib Require Import Ascii.
From Stdlib Require Import SpecFloat.
From S2P Require Import Prelude GoStrings GoPath GoFS GoHeap.

(** ** Data *)

Record CacheMetadata := mkMeta {
  Key : string;
  Size_ : Z;
  CreatedAt : instant;
  AccessedAt : instant;
  TTL : duration;
  ContentType : string;
  ETag : string
}.

Record CacheOptions := mkOptions { DefaultTTL : duration; MaxSize : Z; BasePath : string }.

Record CacheStats := mkStats {
  Hits : Z; Misses : Z; StatsSize : Z; ItemCount : Z; LastClear : instant
}.

(** ** The backend *)

Inductive cache_err :=
| OsError (e : os_err)
| BadJson
| Expired
| MkdirFailed (e : os_err)
| CreateFailed (e : os_err)
| CopyFailed
| CloseFailed (e : os_err)
| RenameFailed (e : os_err)
| DeleteFailed (e : os_err)
| DeleteMetaFailed (e : os_err)
| MetaWriteFailed.


Section backend.
Context {S : Type} `{!FileSystem S} `{!Codec CacheMetadata}.
Context (basePath : string).

Definition getFilePath (key : string) : string := PathJoin basePath key.
Definition getMetadataPath (key : string) : string := getFilePath key +:+ ".meta".

Definition saveMetadata (key : string) (meta : CacheMetadata) (s : S) : option cache_err * S :=
  let metaPath := getMetadataPath key in
  match MkdirAll (Dir metaPath) s with
  | (Some _, s) => (Some MetaWriteFailed, s)
  | (None, s) =>
      match json_marshal meta with
      | None => (Some MetaWriteFailed, s)
      | Some data =>
          match WriteFile metaPath data s with
          | (Some _, s) => (Some MetaWriteFailed, s)
          | (None, s) => (None, s)
          end
      end
  end.

Definition loadMetadata (key : string) (s : S) : result cache_err CacheMetadata :=
  match ReadFile (getMetadataPath key) s with
  | Err e => Err (OsError e)
  | Ok data => match json_unmarshal data with None => Err BadJson | Some m => Ok m end
  end.

(** [meta.TTL > 0 && time.Since(meta.CreatedAt) > meta.TTL]. *)
Definition expired (now : instant) (m : CacheMetadata) : bool :=
  (0 <? TTL m) && (TTL m <? time_sub now (CreatedAt m)).

(** [os.Remove] whose error is only logged. *)
Definition remove_quietly (p : string) (s : S) : S := (Remove p s).2.

(** [Get]: on success the content the returned reader delivers.  The access
    time is updated later by a goroutine, [updateAccessTime]. *)
Definition Get (now : instant) (key : string) (s : S) : result cache_err string * S :=
  match loadMetadata key s with
  | Err e => (Err e, s)
  | Ok meta =>
      if expired now meta
      then (Err Expired, remove_quietly (getMetadataPath key) (remove_quietly (getFilePath key) s))
      else match OpenFile (getFilePath key) s with
           | Err e => (Err (OsError e), s)
           | Ok d => (Ok d, s)
           end
  end.

Definition updateAccessTime (now : instant) (key : string) (s : S) : S :=
  match loadMetadata key s with
  | Err _ => s
  | Ok m =>
      (saveMetadata key
         {| Key := Key m; Size_ := Size_ m; CreatedAt := CreatedAt m; AccessedAt := now; TTL := TTL m;
            ContentType := ContentType m; ETag := ETag m |} s).2
  end.

Definition put_meta (key : string) (size : Z) (now now' : instant) (ttl : duration) : CacheMetadata :=
  {| Key := key; Size_ := size; CreatedAt := now; AccessedAt := now'; TTL := ttl;
     ContentType := EmptyString; ETag := EmptyString |}.

(** [Put]: [now] and [now'] are read for the two times of the metadata. *)
Definition Put (now now' : instant) (key : string) (data : Reader) (ttl : duration) (s : S) :
    option cache_err * S :=
  let filePath := getFilePath key in
  match MkdirAll (Dir filePath) s with
  | (Some e, s) => (Some (MkdirFailed e), s)
  | (None, s) =>
      let tempFile := filePath +:+ ".tmp" in
      match CreateFile tempFile s with
      | (Some e, s) => (Some (CreateFailed e), s)
      | (None, s) =>
          let '(copy_err, s) := CopyTo tempFile (rd_data data) s in
          let '(close_err, s) := CloseFile tempFile s in
          if bool_decide (is_Some copy_err) || rd_fails data
          then (Some CopyFailed, remove_quietly tempFile s)
          else match close_err with
          | Some e => (Some (CloseFailed e), remove_quietly tempFile s)
          | None =>
              match Rename tempFile filePath s with
              | (Some e, s) => (Some (RenameFailed e), remove_quietly tempFile s)
              | (None, s) =>
                  saveMetadata key
                    (put_meta key (Z.of_nat (String.length (rd_data data))) now now' ttl) s
              end
          end
      end
  end.

Definition Exists (now : instant) (key : string) (s : S) : bool :=
  match StatFile (getFilePath key) s with
  | Some _ => false
  | None =>
      match loadMetadata key s with
      | Err _ => false
      | Ok meta => negb (expired now meta)
      end
  end.

Definition Delete (key : string) (s : S) : option cache_err * S :=
  let '(r, s) := Remove (getFilePath key) s in
  match r with
  | Some ErrOther => (Some (DeleteFailed ErrOther), s)
  | _ =>
      let '(r, s) := Remove (getMetadataPath key) s in
      match r with
      | Some ErrOther => (Some (DeleteMetaFailed ErrOther), s)
      | _ => (None, s)
      end
  end.

Definition GetMetadata (key : string) (s : S) : result cache_err CacheMetadata := loadMetadata key s.

Definition Clear (s : S) : option cache_err * S :=
  match RemoveAll basePath s with
  | (Some e, s) => (Some (OsError e), s)
  | (None, s) =>
      match MkdirAll basePath s with
      | (Some e, s) => (Some (OsError e), s)
      | (None, s) => (None, s)
      end
  end.

(** [Size]: the walk stops at its first error, with the sum so far. *)
Fixpoint size_walk (total : Z) (es : list walk_entry) : Z * option os_err :=
  match es with
  | [] => (total, None)
  | e :: es =>
      match we_info e with
      | Err err => (total, Some err)
      | Ok (dir, size) =>
          size_walk (if negb (HasSuffix (we_path e) ".meta") && negb dir then wrap64 (total + size) else total) es
      end
  end.

Definition Size (s : S) : Z * option os_err := size_walk 0 (Walk basePath s).
End backend.

(** ** The LRU policy *)

Definition ShouldEvict (now : instant) (currentSize maxSize : Z) (item : CacheMetadata) : bool :=
  if (0 <? TTL item) && (TTL item <? time_sub now (CreatedAt item)) then true
  else maxSize <? currentSize.

(** The loop of [SelectEvictionCandidates] on the heap ordered by [AccessedAt];
    [fuel] is the number of items. *)
Fixpoint select_go (fuel : nat) (h : list CacheMetadata) (requiredSpace freedSpace : Z) : list string :=
  match fuel with
  | O => []
  | Datatypes.S fuel =>
      if (0 <? length h)%nat && (freedSpace <? requiredSpace) then
        match Pop AccessedAt h with
        | None => []
        | Some (item, h) => Key item :: select_go fuel h requiredSpace (wrap64 (freedSpace + Size_ item))
        end
      else []
  end.

Definition SelectEvictionCandidates (items : list CacheMetadata) (requiredSpace : Z) : list string :=
  select_go (length items) (Init AccessedAt items) requiredSpace 0.

(** ** The evictor, on the file-system backend *)

(** [int64(float64(n) * 0.9)]: IEEE 754 binary64, then truncation. *)
Definition f64_of_int (n : Z) : spec_float := binary_normalize 53 1024 n 0 false.
Definition f64_0_9 : spec_float := S754_finite false 8106479329266893 (-53).
Definition int_of_f64 (f : spec_float) : Z :=
  match f with
  | S754_finite sgn m e =>
      let a := if 0 <=? e then Z.pos m * 2 ^ e else Z.pos m / 2 ^ (- e) in
      if sgn then - a else a
  | _ => 0
  end.
Definition ninety_percent (n : Z) : Z := int_of_f64 (SFmul 53 1024 (f64_of_int n) f64_0_9).

Example ninety_ex : ninety_percent 1000 = 900 ∧ ninety_percent 0 = 0 ∧ ninety_percent 1073741824 = 966367641.
Proof. vm_compute. repeat split. Qed.

Section evictor.
Context {S : Type} `{!FileSystem S} `{!Codec CacheMetadata}.
Context (basePath : string) (options : CacheOptions).

(** [scanCacheKeys]: errors of the walk and of [Rel] skip the entry. *)
Definition scan_entry (e : walk_entry) : option string :=
  match we_info e with
  | Err _ => None
  | Ok (dir, _) =>
      if dir : bool then None
      else if HasSuffix (we_path e) ".meta" then None
      else if HasSuffix (we_path e) ".tmp" || HasSuffix (we_path e) ".partial" then None
      else Rel basePath (we_path e)
  end.

Definition scanCacheKeys (s : S) : list string := omap scan_entry (Walk basePath s).

Definition collectAllMetadata (s : S) : list CacheMetadata :=
  omap (λ key, match GetMetadata basePath key s with Ok m => Some m | Err _ => None end) (scanCacheKeys s).

(** The deletions of a list of keys; errors are logged. *)
Definition delete_keys (keys : list string) (s : S) : S :=
  fold_left (λ s key, (Delete basePath key s).2) keys s.

Definition evictByPolicy (requiredSpace : Z) (s : S) : S :=
  delete_keys (SelectEvictionCandidates (collectAllMetadata s) requiredSpace) s.

(** [now key] is the instant read when the item of [key] is examined. *)
Definition evict_expired_step (now : string → instant) (s : S) (key : string) : S :=
  match GetMetadata basePath key s with
  | Err _ => s
  | Ok meta => if ShouldEvict (now key) 0 0 meta then (Delete basePath key s).2 else s
  end.

Definition evictExpiredItems (now : string → instant) (s : S) : S :=
  fold_left (evict_expired_step now) (scanCacheKeys s) s.

Definition performEviction (now : string → instant) (s : S) : option os_err * S :=
  match Size basePath s with
  | (_, Some e) => (Some e, s)
  | (currentSize, None) =>
      if (0 <? MaxSize options) && (currentSize <=? MaxSize options)
      then (None, evictExpiredItems now s)
      else (None, evictByPolicy (wrap64 (currentSize - ninety_percent (MaxSize options))) s)
  end.

Definition EvictKey (key : string) (s : S) : option cache_err * S := Delete basePath key s.

(** ** The manager *)

Definition record_hit (st : CacheStats) : CacheStats :=
  mkStats (Hits st + 1) (Misses st) (StatsSize st) (ItemCount st) (LastClear st).
Definition record_miss (st : CacheStats) : CacheStats :=
  mkStats (Hits st) (Misses st + 1) (StatsSize st) (ItemCount st) (LastClear st).

(** [delivered d] is what the reader of a file holding [d] delivers up to its
    end or its first error: the manager does not distinguish the two. *)
Definition ManagerGet (now : instant) (delivered : string → string) (key : string)
    (st : CacheStats) (s : S) : option string * CacheStats * S :=
  match Get basePath now key s with
  | (Err _, s) => (None, record_miss st, s)
  | (Ok d, s) => (Some (delivered d), record_hit st, s)
  end.

Definition ManagerPut (now now' : instant) (key data : string) (ttl : duration) (s : S) :
    option cache_err * S :=
  let ttl := if ttl =? 0 then DefaultTTL options else ttl in
  let currentSize := match Size basePath s with (n, None) => n | (_, Some _) => 0 end in
  let len := Z.of_nat (String.length data) in
  let s :=
    if (0 <? MaxSize options) && (MaxSize options <? wrap64 (currentSize + len))
    then evictByPolicy (wrap64 (wrap64 (currentSize + len) - MaxSize options)) s else s in
  Put basePath now now' key (mkReader data false) ttl s.

Definition ManagerExists (now : instant) (key : string) (s : S) : bool := Exists basePath now key s.

Definition ManagerDelete (key : string) (s : S) : option cache_err * S := Delete basePath key s.

Definition ManagerClear (now : instant) (st : CacheStats) (s : S) : option cache_err * CacheStats * S :=
  let st := mkStats (Hits st) (Misses st) (StatsSize st) (ItemCount st) now in
  let '(r, s) := Clear basePath s in (r, st, s).

Definition GetStats (st : CacheStats) (s : S) : CacheStats :=
  let size := match Size basePath s with (n, None) => n | (_, Some _) => 0 end in
  mkStats (Hits st) (Misses st) size (ItemCount st) (LastClear st).

Definition GetCachePath (proxyType requestPath : string) : string :=
  BasePath options +:+ "/" +:+ proxyType +:+ "/" +:+ requestPath.
End evictor.

(** ** Lemmas: paths of keys *)

(** A plain key: a relative path made of segments. *)
Definition plain_key (key : string) (segs : list string) : Prop :=
  segs ≠ [] ∧ Forall (λ s, segment s = true) segs ∧ key = Join segs "/".

Lemma append_ne s t : t ≠ EmptyString → s +:+ t ≠ s.
Proof.
  intros Ht E. apply (f_equal String.length) in E. rewrite str_length_app in E.
  destruct t; [done|]. cbn in E. lia.
Qed.

Lemma app_inj_r (s s' t t' : string) :
  String.length t = String.length t' → s +:+ t = s' +:+ t' → s = s' ∧ t = t'.
Proof.
  revert s'. induction s as [|c s IH]; intros [|c' s'] Hl E.
  - done.
  - pose proof (f_equal String.length E) as E'. rewrite !str_length_app in E'. cbn in E'. lia.
  - pose proof (f_equal String.length E) as E'. rewrite !str_length_app in E'. cbn in E'. lia.
  - rewrite !str_app_cons in E. injection E as -> E. by destruct (IH s' Hl E) as [-> ->].
Qed.

Lemma tmp_meta_ne s s' : s +:+ ".tmp" ≠ s' +:+ ".meta" ∨ s ≠ s'.
Proof.
  destruct (decide (s = s')) as [->|?]; [left|by right]. intros E.
  pose proof (f_equal String.length E) as E'. rewrite !str_length_app in E'. cbn in E'. lia.
Qed.

Section backend_facts.
Context {S : Type} `{!FileSystem S, !FileSystemLaws S, !Codec CacheMetadata}.
Context (basePath : string).

Notation fp := (getFilePath basePath).
Notation mp := (getMetadataPath basePath).
Notation tmp key := (fp key +:+ ".tmp").

Lemma own_paths key : mp key ≠ fp key ∧ tmp key ≠ fp key ∧ tmp key ≠ mp key.
Proof.
  unfold getMetadataPath. split_and!; [by apply append_ne..|].
  intros E. destruct (tmp_meta_ne (fp key) (fp key)); congruence.
Qed.

(** A state that differs only at some paths. *)
Definition same_but (ps : list string) (s s' : S) : Prop :=
  ∀ q, q ∉ ps → files s' !! q = files s !! q.

Lemma same_but_trans ps qs rs s s' s'' :
  same_but ps s s' → same_but qs s' s'' → ps ⊆ rs → qs ⊆ rs → same_but rs s s''.
Proof. intros H1 H2 Hp Hq q Hn. rewrite H2, H1; set_solver. Qed.

Lemma saveMetadata_spec key m s r s' :
  saveMetadata basePath key m s = (r, s') →
  same_but [mp key] s s' ∧
  (r = None → ∃ d, json_marshal m = Some d ∧ files s' !! mp key = Some d) ∧
  (r = None ∨ r = Some MetaWriteFailed).
Proof.
  unfold saveMetadata. pose proof (MkdirAll_files (Dir (mp key)) s) as Hm.
  destruct (MkdirAll (Dir (mp key)) s) as [[e|] s1]; cbn in Hm.
  { intros; simplify_eq. split_and!; [intros q _; by rewrite Hm|done|by right]. }
  destruct (json_marshal m) as [d|].
  2: { intros; simplify_eq. split_and!; [intros q _; by rewrite Hm|done|by right]. }
  pose proof (WriteFile_ok (mp key) d s1) as Hok. pose proof (WriteFile_frame (mp key) d s1) as Hfr.
  destruct (WriteFile (mp key) d s1) as [[e|] s2]; cbn in *; intros; simplify_eq.
  - split_and!; [|done|by right]. intros q Hq. rewrite Hfr, Hm by set_solver. done.
  - split_and!; [| |by left].
    + intros q Hq. rewrite Hfr, Hm by set_solver. done.
    + intros _. exists d. by rewrite Hok, lookup_insert_eq.
Qed.

Lemma remove_quietly_spec p s : same_but [p] s (remove_quietly p s).
Proof.
  intros q Hq. unfold remove_quietly. destruct (Remove p s).1 eqn:E.
  - by rewrite Remove_err by (by rewrite E).
  - rewrite Remove_ok by done. rewrite lookup_delete_ne; [done|set_solver].
Qed.

(** [Put]: what each outcome leaves in the files. *)
Definition put_outcome key data ttl now now' (s : S) (r : option cache_err) (s' : S) : Prop :=
  match r with
  | None => same_but [fp key; mp key; tmp key] s s' ∧ rd_fails data = false ∧
      files s' !! fp key = Some (rd_data data) ∧
      ∃ d, json_marshal (put_meta key (Z.of_nat (String.length (rd_data data))) now now' ttl) = Some d ∧
           files s' !! mp key = Some d
  | Some MetaWriteFailed => same_but [fp key; mp key; tmp key] s s' ∧
      files s' !! fp key = Some (rd_data data)
  | Some _ => same_but [tmp key] s s'
  end.

Lemma Put_spec now now' key data ttl s r s' :
  Put basePath now now' key data ttl s = (r, s') → put_outcome key data ttl now now' s r s'.
Proof.
  unfold Put, put_outcome. destruct (own_paths key) as (Hmf & Htf & Htm).
  pose proof (MkdirAll_files (Dir (fp key)) s) as Hm.
  destruct (MkdirAll (Dir (fp key)) s) as [[e|] s1]; cbn in Hm.
  { intros; simplify_eq. intros q _. by rewrite Hm. }
  pose proof (CreateFile_ok (tmp key) s1) as Hc. pose proof (CreateFile_err (tmp key) s1) as Hce.
  destruct (CreateFile (tmp key) s1) as [[e|] s2]; cbn in Hc, Hce.
  { intros; simplify_eq. intros q _. by rewrite Hce, Hm. }
  pose proof (CopyTo_ok (tmp key) (rd_data data) s2) as Hw.
  pose proof (CopyTo_frame (tmp key) (rd_data data) s2) as Hwf.
  destruct (CopyTo (tmp key) (rd_data data) s2) as [ce s3]; cbn in Hw, Hwf.
  pose proof (CloseFile_ok (tmp key) s3) as Hcl. pose proof (CloseFile_frame (tmp key) s3) as Hclf.
  destruct (CloseFile (tmp key) s3) as [cle s4]; cbn in Hcl, Hclf.
  assert (same_but [tmp key] s s4) as H4.
  { intros q Hq. rewrite Hclf, Hwf, Hc, Hm by (done || set_solver).
    rewrite lookup_insert_ne; [done|set_solver]. }
  assert (same_but [tmp key] s (remove_quietly (tmp key) s4)) as H4r
    by (eapply same_but_trans; [exact H4|apply remove_quietly_spec|set_solver..]).
  destruct (bool_decide (is_Some ce) || rd_fails data) eqn:Hcf; [intros; by simplify_eq|].
  apply orb_false_iff in Hcf as [Hce' Hrf]. apply bool_decide_eq_false in Hce'.
  destruct ce as [|]; [by destruct Hce'|].
  destruct cle as [e|]; [intros; by simplify_eq|].
  assert (files s4 !! tmp key = Some (rd_data data)) as Ht
    by (by rewrite Hcl, Hw, lookup_insert_eq).
  pose proof (Rename_ok (tmp key) (fp key) s4 _ Ht) as Hr. pose proof (Rename_err (tmp key) (fp key) s4) as Hre.
  destruct (Rename (tmp key) (fp key) s4) as [[e|] s5]; cbn in Hr, Hre.
  { intros; simplify_eq. eapply same_but_trans; [exact H4| |set_solver..].
    eapply (same_but_trans []); [|apply remove_quietly_spec|set_solver..].
    intros q _. by rewrite Hre. }
  assert (same_but [fp key; tmp key] s s5) as H5.
  { intros q Hq. rewrite Hr by done. rewrite lookup_insert_ne, lookup_delete_ne by set_solver.
    apply H4. set_solver. }
  assert (files s5 !! fp key = Some (rd_data data)) as Hf by (by rewrite Hr, lookup_insert_eq).
  intros (Hs & Hok & Hres)%saveMetadata_spec.
  assert (same_but [fp key; mp key; tmp key] s s') as H6
    by (eapply same_but_trans; [exact H5|exact Hs|set_solver..]).
  assert (files s' !! fp key = Some (rd_data data)) as Hf' by (rewrite Hs; [done|set_solver]).
  destruct Hres as [-> | ->]; [|done]. split_and!; auto.
Qed.
End backend_facts.

(** ** Lemmas: the LRU selection *)

Definition total_size (l : list CacheMetadata) : Z := foldr (λ m acc, Size_ m + acc) 0 l.

Definition sizes_ok (items : list CacheMetadata) : Prop :=
  Forall (λ m, 0 <= Size_ m) items ∧ total_size items <= max_int64.

#[export] Instance total_size_perm : Proper ((≡ₚ) ==> (=)) total_size.
Proof. intros l k H. unfold total_size. induction H; cbn; lia. Qed.

Lemma total_size_nonneg l : Forall (λ m, 0 <= Size_ m) l → 0 <= total_size l.
Proof. unfold total_size. induction 1; cbn; lia. Qed.

Lemma total_size_cons m l : total_size (m :: l) = Size_ m + total_size l.
Proof. done. Qed.

Lemma sizes_ok_perm l k : l ≡ₚ k → sizes_ok l → sizes_ok k.
Proof. intros H [H1 H2]. split; [by rewrite <- H|by rewrite <- H]. Qed.

(** The shortest prefix that frees the space, [freed] being freed already. *)
Definition frees (requiredSpace freed : Z) (sorted : list CacheMetadata) (n : nat) : Prop :=
  (n <= length sorted)%nat ∧
  (requiredSpace <= freed + total_size (take n sorted) ∨ n = length sorted) ∧
  ∀ m, (m < n)%nat → freed + total_size (take m sorted) < requiredSpace.

Definition oldest_first (l : list CacheMetadata) : Prop :=
  StronglySorted (λ a b, AccessedAt a <= AccessedAt b) l.

Lemma select_nil requiredSpace freed :
  ∃ sorted n, sorted ≡ₚ @nil CacheMetadata ∧ oldest_first sorted ∧ frees requiredSpace freed sorted n ∧
    [] = Key <$> take n sorted.
Proof.
  exists [], 0%nat. split; [done|]. split; [by apply SSorted_nil|]. split; [|done].
  split; [done|]. split; [by right|lia].
Qed.

Lemma select_go_spec fuel h requiredSpace freed :
  (length h <= fuel)%nat → is_heap AccessedAt h → Forall (λ m, 0 <= Size_ m) h →
  0 <= freed → freed + total_size h <= max_int64 →
  ∃ sorted n, sorted ≡ₚ h ∧ oldest_first sorted ∧ frees requiredSpace freed sorted n ∧
    select_go fuel h requiredSpace freed = Key <$> take n sorted.
Proof.
  revert h freed. induction fuel as [|fuel IH]; intros h freed Hf Hh Hs H0 Hm; cbn [select_go].
  { destruct h; [|cbn in Hf; lia]. apply select_nil. }
  destruct h as [|a h'].
  { apply select_nil. }
  set (h := a :: h') in *. change (0 <? length h)%nat with true. cbn [andb].
  destruct (Pop_spec AccessedAt h ltac:(done) Hh) as (x & l' & -> & Hp & Hl' & Hmin).
  assert (Forall (λ m, 0 <= Size_ m) (x :: l')) as Hs' by (by rewrite <- Hp).
  apply Forall_cons_iff in Hs' as [Hx Hs'].
  assert (total_size h = Size_ x + total_size l') as Ht by (by rewrite Hp).
  pose proof (total_size_nonneg _ Hs').
  rewrite wrap64_id by (unfold in_int64, min_int64; lia).
  destruct (IH l' (freed + Size_ x)) as (sorted & n & Hperm & Hsort & (Hn & Hr & Hlt) & Hsel);
    [assert (length h = Datatypes.S (length l')) by (by rewrite Hp); lia|done|done|lia|lia|].
  assert (oldest_first (x :: sorted)) as Hsorted.
  { constructor; [done|]. apply list.Forall_forall. intros y Hy. apply Hmin.
    rewrite Hp. right. by rewrite <- Hperm. }
  exists (x :: sorted). destruct (freed <? requiredSpace) eqn:E; zbool.
  - exists (Datatypes.S n). split_and!; [by rewrite Hp, Hperm|done|..].
    + unfold frees. split_and!.
      * cbn. lia.
      * rewrite firstn_cons, total_size_cons. destruct Hr as [Hr| ->]; [left; lia|by right].
      * intros [|m] Hlt'; [cbn; lia|]. specialize (Hlt m ltac:(lia)).
        rewrite firstn_cons, total_size_cons. lia.
    + by rewrite Hsel.
  - exists 0%nat. split_and!; [by rewrite Hp, Hperm|done|..|done].
    split_and!; [lia|left; cbn; lia|intros; lia].
Qed.

(** ** Lemmas: keys and their paths *)

Section plain_keys.
Context (base : list string) (Hbase : Forall (λ s, segment s = true) base).
Notation basePath := (unsplit true base).

Lemma plain_path key segs :
  plain_key key segs → getFilePath basePath key = unsplit true (base ++ segs).
Proof.
  intros (Hne & Hs & ->). destruct segs as [|s segs]; [done|]. by apply PathJoin_segments.
Qed.

Lemma plain_path_inj key key' segs segs' :
  plain_key key segs → plain_key key' segs' →
  getFilePath basePath key = getFilePath basePath key' → key = key'.
Proof.
  intros H H' E. erewrite !plain_path in E by done.
  apply unsplit_inj in E; [|apply Forall_app; split; [done|apply H || apply H']..].
  apply app_inv_head in E as ->. destruct H as (_ & _ & ->), H' as (_ & _ & ->). done.
Qed.

Lemma segments_slash_app key segs :
  plain_key key segs → getFilePath basePath key = match base with [] => "/" | _ => basePath +:+ "/" end +:+ key.
Proof.
  intros Hk. erewrite plain_path by done. destruct Hk as (Hne & Hs & ->).
  destruct segs as [|s segs]; [done|]. unfold unsplit.
  destruct base as [|b bs]; [done|].
  rewrite <- app_comm_cons, !Join_seps, seps_app. cbn [seps].
  rewrite !str_app_cons, !str_app_assoc. done.
Qed.

(** A plain key's file is no temporary or metadata file of another plain key
    when its name does not end that way. *)
Lemma plain_suffix key key' segs segs' suf :
  plain_key key segs → plain_key key' segs' → HasSuffix key' suf = false →
  getFilePath basePath key +:+ suf ≠ getFilePath basePath key'.
Proof.
  intros H H' Hsuf E. erewrite !segments_slash_app, str_app_assoc in E by done.
  assert (key +:+ suf = key') as Ek.
  { revert E. generalize (match base with [] => "/" | _ => basePath +:+ "/" end).
    induction s as [|c s IH]; [done|]. rewrite !str_app_cons. intros E. injection E as E. auto. }
  assert (HasSuffix key' suf = true) by (apply HasSuffix_spec; eauto). congruence.
Qed.
End plain_keys.

(** ** An implementation of the encoding, for the witnesses *)

Definition line_codec_safe (m : CacheMetadata) : Prop :=
  is_word (Key m) = true ∧ in_int64 (Size_ m) ∧ in_int64 (CreatedAt m) ∧ in_int64 (AccessedAt m) ∧
  in_int64 (TTL m) ∧ ContentType m = EmptyString ∧ ETag m = EmptyString.

Definition line_marshal (m : CacheMetadata) : option string :=
  Some (Join [Itoa (Size_ m); Itoa (CreatedAt m); Itoa (AccessedAt m); Itoa (TTL m); Key m] " ").

Definition line_unmarshal (d : string) : option CacheMetadata :=
  match Fields d with
  | [sz; c; a; t; k] => Some (mkMeta k (Atoi sz).1 (Atoi c).1 (Atoi a).1 (Atoi t).1 EmptyString EmptyString)
  | _ => None
  end.

#[export, program] Instance line_codec : Codec CacheMetadata := {
  json_marshal := line_marshal; json_unmarshal := line_unmarshal; json_safe := line_codec_safe
}.
Next Obligation.
  intros m d (Hk & Hs & Hc & Ha & Ht & E1 & E2) H. unfold line_marshal in H. simplify_eq.
  unfold line_unmarshal. rewrite Fields_Join by (repeat constructor; auto using Itoa_word).
  rewrite !Atoi_Itoa by done. cbn. destruct m; cbn in *; by subst.
Qed.

(** ** Properties *)

(** C19: the eviction candidates are the least recently used items, as few as
    possible: in some order of the items from the least to the most recently
    accessed, they are the shortest prefix whose sizes add up to the required
    space, or all the items when there is not that much. *)
Theorem SelectEvictionCandidates_lru items requiredSpace (Hs : sizes_ok items) :
  ∃ sorted n, sorted ≡ₚ items ∧ oldest_first sorted ∧ frees requiredSpace 0 sorted n ∧
    SelectEvictionCandidates items requiredSpace = Key <$> take n sorted.
Proof.
  destruct Hs as [H1 H2]. destruct (Init_spec AccessedAt items) as [Hh Hp].
  destruct (select_go_spec (length items) (Init AccessedAt items) requiredSpace 0)
    as (sorted & n & Hperm & Hsort & Hf & E); rewrite ?Hp; auto; try lia.
  exists sorted, n. split; [by etrans|done].
Qed.

Definition demo_items : list CacheMetadata :=
  (λ '(k, sz, a), mkMeta k sz 0 a 0 EmptyString EmptyString) <$>
    [("a", 10, 50); ("b", 20, 10); ("c", 30, 40); ("d", 5, 20); ("e", 1, 30)].

Lemma SelectEvictionCandidates_lru_witness :
  SelectEvictionCandidates demo_items 26 = ["b"; "d"; "e"] ∧
  ∃ sorted n, sorted ≡ₚ demo_items ∧ oldest_first sorted ∧ frees 26 0 sorted n ∧
    SelectEvictionCandidates demo_items 26 = Key <$> take n sorted.
Proof.
  split; [vm_compute; reflexivity|]. apply (SelectEvictionCandidates_lru demo_items 26).
  split; [|vm_compute; discriminate]. repeat (constructor; [vm_compute; discriminate|]). constructor.
Defined.

Section cache_properties.
Context {S : Type} `{!FileSystem S, !FileSystemLaws S, !Codec CacheMetadata}.
Context (basePath : string).

Notation fp := (getFilePath basePath).
Notation mp := (getMetadataPath basePath).

(** C17: a [Put] is atomic on the data file and touches nothing but its own
    three paths: when it fails before the metadata is saved, every file but the
    temporary one is as it was; when it succeeds, the file holds the data and
    the metadata of this very call; a failure to save the metadata is the one
    case where an error comes with the new data in place. *)
Theorem Put_atomic now now' key data ttl (s : S) r s'
    (Hput : Put basePath now now' key data ttl s = (r, s')) :
  same_but [fp key; mp key; fp key +:+ ".tmp"] s s' ∧
  match r with
  | None => rd_fails data = false ∧ files s' !! fp key = Some (rd_data data) ∧
      ∃ d, json_marshal (put_meta key (Z.of_nat (String.length (rd_data data))) now now' ttl) = Some d ∧
           files s' !! mp key = Some d
  | Some MetaWriteFailed => files s' !! fp key = Some (rd_data data)
  | Some _ => files s' !! fp key = files s !! fp key ∧ files s' !! mp key = files s !! mp key
  end.
Proof.
  apply Put_spec in Hput. destruct (own_paths basePath key) as (H1 & H2 & H3).
  unfold put_outcome in Hput. destruct r as [[]|]; try tauto;
    (split; [intros q Hq; apply Hput; set_solver|split; apply Hput; set_solver]).
Qed.

(** What was put is what is got: after a successful [Put], [Get] returns
    the data as long as the entry has not expired and the two files can be
    read, and the other way round nothing but that data. *)
Theorem Put_Get now now' key data ttl (s : S) s' t r s''
    (Hput : Put basePath now now' key data ttl s = (None, s'))
    (Hsafe : json_safe (put_meta key (Z.of_nat (String.length (rd_data data))) now now' ttl))
    (Hfresh : ttl <= 0 ∨ time_sub t now <= ttl)
    (Hget : Get basePath t key s' = (r, s'')) :
  s'' = s' ∧
  (r = Ok (rd_data data) ∨ ∃ e, r = Err (OsError e) ∧
     (ReadFile (mp key) s' = Err e ∨ OpenFile (fp key) s' = Err e)).
Proof.
  apply Put_spec in Hput as (_ & _ & Hf & d & Hd & Hm). unfold Get, loadMetadata in Hget.
  destruct (ReadFile (mp key) s') as [d'|e] eqn:Er; [|simplify_eq; eauto 6].
  apply ReadFile_ok in Er. rewrite Hm in Er. simplify_eq.
  rewrite (json_round_trip _ _ Hsafe Hd) in Hget.
  assert (expired t (put_meta key (Z.of_nat (String.length (rd_data data))) now now' ttl) = false) as Hx.
  { unfold expired. cbn. apply andb_false_iff. rewrite !Z.ltb_ge. lia. }
  rewrite Hx in Hget. destruct (OpenFile (fp key) s') as [x|e] eqn:Eo; [|simplify_eq; eauto 6].
  simplify_eq. split; [done|left]. f_equal. apply OpenFile_ok in Eo. rewrite Hf in Eo. naive_solver.
Qed.

(** An expired entry is a miss, and is gone afterwards: when neither removal
    fails, [Get] leaves neither of its files and every other file as it was. *)
Theorem Get_expired t key (s : S) m s' r
    (Hm : loadMetadata basePath key s = Ok m) (Hx : expired t m = true)
    (Hget : Get basePath t key s = (r, s'))
    (Hrm1 : (Remove (fp key) s).1 ≠ Some ErrOther)
    (Hrm2 : (Remove (mp key) (Remove (fp key) s).2).1 ≠ Some ErrOther) :
  r = Err Expired ∧ files s' = delete (mp key) (delete (fp key) (files s)).
Proof.
  unfold Get in Hget. rewrite Hm, Hx in Hget. simplify_eq. split; [done|]. unfold remove_quietly.
  assert (∀ p (s : S), (Remove p s).1 ≠ Some ErrOther → files (Remove p s).2 = delete p (files s)) as Hrm.
  { intros p s0 Hp. destruct (Remove p s0).1 as [[]|] eqn:E; [|done|by apply Remove_ok].
    rewrite Remove_err by (by rewrite E). by rewrite delete_id by (by apply Remove_missing). }
  by rewrite !Hrm.
Qed.
End cache_properties.

(** A cache under [/cache] with one entry, stored at instant 1000 for 60. *)
Definition empty_fs : MemFS := mkMem ∅ ∅ [].
Definition sample_put (key data : string) (s : MemFS) : option cache_err * MemFS :=
  Put "/cache" 1000 1000 key (mkReader data false) 60 s.
Definition one_entry : MemFS := (sample_put "npm/x.tgz" "tarball" empty_fs).2.

(** The seventh operation, the write of the metadata, fails. *)
Definition torn_fs : MemFS := mkMem (mem one_entry) (dirs one_entry) [false; false; false; false; false; false; true].

Lemma Put_atomic_witness :
  files (sample_put "npm/x.tgz" "new" torn_fs).2 !! "/cache/npm/x.tgz" = Some "new".
Proof.
  assert (sample_put "npm/x.tgz" "new" torn_fs =
    (Some MetaWriteFailed, (sample_put "npm/x.tgz" "new" torn_fs).2)) as E by (vm_compute; reflexivity).
  exact (proj2 (Put_atomic _ _ _ _ _ _ _ _ _ E)).
Defined.

Lemma Put_Get_witness :
  Get "/cache" 1050 "npm/x.tgz" one_entry = (Ok "tarball", one_entry) ∧ one_entry = one_entry.
Proof.
  assert (sample_put "npm/x.tgz" "tarball" empty_fs = (None, one_entry)) as Ep by (vm_compute; reflexivity).
  assert (Get "/cache" 1050 "npm/x.tgz" one_entry = (Ok "tarball", one_entry)) as Eg
    by (vm_compute; reflexivity).
  split; [exact Eg|]. refine (proj1 (Put_Get _ _ _ _ _ _ _ _ _ _ _ Ep _ _ Eg)).
  - cbn. unfold line_codec_safe, in_int64, min_int64, max_int64. cbn. repeat split; lia.
  - right. vm_compute. discriminate.
Defined.

Lemma Get_expired_witness :
  (Get "/cache" 1061 "npm/x.tgz" one_entry).1 = Err Expired ∧
  mem (Get "/cache" 1061 "npm/x.tgz" one_entry).2 = ∅.
Proof.
  assert (loadMetadata "/cache" "npm/x.tgz" one_entry =
    Ok (mkMeta "npm/x.tgz" 7 1000 1000 60 EmptyString EmptyString)) as El by (vm_compute; reflexivity).
  destruct (Get_expired "/cache" 1061 "npm/x.tgz" one_entry _ _ _ El eq_refl (surjective_pairing _))
    as [H1 H2]; [vm_compute; discriminate..|].
  split; [exact H1|]. etrans; [exact H2|]. vm_compute. reflexivity.
Defined.

Section key_properties.
Context {S : Type} `{!FileSystem S, !FileSystemLaws S, !Codec CacheMetadata}.
Context (base : list string) (Hbase : Forall (λ s, segment s = true) base).
Notation basePath := (unsplit true base).
Notation fp := (getFilePath basePath).
Notation mp := (getMetadataPath basePath).

Lemma meta_not_tmp s s' : s +:+ ".meta" ≠ s' +:+ ".tmp".
Proof.
  intros E. apply (f_equal String.rev) in E.
  change (s +:+ ".meta") with (s +:+ (".met" +:+ String "a" EmptyString)) in E.
  change (s' +:+ ".tmp") with (s' +:+ (".tm" +:+ String "p" EmptyString)) in E.
  rewrite <- !str_app_assoc, !str_rev_snoc in E. done.
Qed.

(** Entries do not interfere: storing, deleting or touching one plain key
    changes neither file of another, when none of the two names ends in ".meta"
    or ".tmp". *)
Theorem keys_isolated key segs key' segs' (s : S) now now' data ttl
    (Hk : plain_key key segs) (Hk' : plain_key key' segs') (Hne : key ≠ key')
    (Hsuf : HasSuffix key ".meta" = false) (Hsuf' : HasSuffix key' ".meta" = false)
    (Htmp' : HasSuffix key' ".tmp" = false) :
  ∀ p, p = fp key' ∨ p = mp key' →
  files (Put basePath now now' key data ttl s).2 !! p = files s !! p ∧
  files (Delete basePath key s).2 !! p = files s !! p ∧
  files (updateAccessTime basePath now key s) !! p = files s !! p.
Proof.
  intros p Hp.
  assert (p ∉ [fp key; mp key; fp key +:+ ".tmp"]) as Hnot.
  { assert (fp key ≠ fp key') as Hf by (intros E; by apply Hne; eapply plain_path_inj).
    rewrite !not_elem_of_cons. destruct Hp as [-> | ->]; split_and!; try apply not_elem_of_nil.
    - done.
    - intros E. by eapply (plain_suffix base Hbase key key' segs segs' ".meta").
    - intros E. by eapply (plain_suffix base Hbase key key' segs segs' ".tmp").
    - intros E. by eapply (plain_suffix base Hbase key' key segs' segs ".meta").
    - intros [E _]%app_inj_r; [by apply Hf|done].
    - apply meta_not_tmp. }
  split_and!.
  - destruct (Put basePath now now' key data ttl s) as [r s'] eqn:E.
    apply Put_spec in E. unfold put_outcome in E. destruct r as [[]|]; apply E; set_solver.
  - unfold Delete. rewrite !not_elem_of_cons in Hnot. destruct Hnot as (N1 & N2 & _).
    pose proof (remove_quietly_spec (fp key) s) as H1. unfold remove_quietly in H1.
    destruct (Remove (fp key) s) as [r s1]. pose proof (remove_quietly_spec (mp key) s1) as H2.
    unfold remove_quietly in H2. destruct (Remove (mp key) s1) as [r2 s2]. cbn in *.
    destruct r as [[]|], r2 as [[]|]; cbn; rewrite ?H2, ?H1 by set_solver; done.
  - unfold updateAccessTime. destruct (loadMetadata basePath key s); [|done].
    destruct (saveMetadata _ _ _ _) as [r s'] eqn:E. apply saveMetadata_spec in E as (E & _).
    apply E. set_solver.
Qed.

(** The metadata file of a plain key is the data file of the key followed
    by ".meta": storing data under that key replaces the metadata that the other
    key is read with. *)
Theorem meta_key_aliases key segs now now' data ttl (s : S) s'
    (Hk : plain_key key segs)
    (Hput : Put basePath now now' (key +:+ ".meta") data ttl s = (None, s')) :
  fp (key +:+ ".meta") = mp key ∧ files s' !! mp key = Some (rd_data data).
Proof.
  apply Put_spec in Hput as (_ & _ & Hf & _).
  assert (fp (key +:+ ".meta") = mp key) as E; [|by rewrite E in Hf].
  destruct Hk as (Hne & Hs & ->). destruct segs as [|x segs _] using rev_ind; [done|].
  apply Forall_app in Hs as [Hs Hx]. apply Forall_cons_iff in Hx as [Hx _].
  assert (∀ y, Join (segs ++ [x +:+ y]) "/" = Join (segs ++ [x]) "/" +:+ y) as Hj.
  { intros y. clear. induction segs as [|z segs IH]; [done|]. rewrite <- !app_comm_cons, !Join_cons.
    rewrite IH. destruct segs; cbn; by rewrite !str_app_assoc. }
  assert (segment (x +:+ ".meta") = true) as Hx'.
  { assert (∀ z, (String.length z < 5)%nat → String.eqb (x +:+ ".meta") z = false) as Hz.
    { intros z Hl. apply String.eqb_neq. intros E. apply (f_equal String.length) in E.
      rewrite str_length_app in E. cbn in E. lia. }
    unfold segment in Hx |- *. zbool. rewrite !Hz by (cbn; lia). rewrite str_all_app.
    by match goal with H : str_all _ x = true |- _ => rewrite H end. }
  rewrite <- Hj. unfold getMetadataPath.
  rewrite (plain_path base Hbase _ (segs ++ [x +:+ ".meta"])), (plain_path base Hbase _ (segs ++ [x])).
  - unfold unsplit. rewrite str_app_cons, !app_assoc. f_equal.
    generalize (base ++ segs). intros l. induction l as [|z l IH]; [done|].
    rewrite <- !app_comm_cons, !Join_cons, IH. destruct l; cbn; by rewrite !str_app_assoc.
  - split_and!; [by destruct segs| |done]. apply Forall_app. by repeat constructor.
  - split_and!; [by destruct segs| |done]. apply Forall_app. by repeat constructor.
Qed.
End key_properties.

Definition cache_base : list string := ["var"; "cache"].
Definition cache_dir : string := unsplit true cache_base.

Lemma cache_base_ok : Forall (λ s, segment s = true) cache_base.
Proof. repeat (constructor; [vm_compute; reflexivity|]). constructor. Qed.

Lemma plain_key_check key segs :
  bool_decide (segs ≠ []) && forallb segment segs && String.eqb key (Join segs "/") = true → plain_key key segs.
Proof.
  intros H. zbool. split_and!.
  - by eapply bool_decide_eq_true.
  - apply List.Forall_forall. by apply forallb_forall.
  - by apply String.eqb_eq.
Qed.

Lemma keys_isolated_witness :
  files (Put cache_dir 7 7 "npm/y.tgz" (mkReader "other" false) 60 one_entry).2
    !! getFilePath cache_dir "npm/x.tgz" =
  files one_entry !! getFilePath cache_dir "npm/x.tgz".
Proof.
  apply (keys_isolated cache_base cache_base_ok "npm/y.tgz" ["npm"; "y.tgz"] "npm/x.tgz" ["npm"; "x.tgz"]
    one_entry 7 7 (mkReader "other" false) 60);
    [by apply plain_key_check|by apply plain_key_check|discriminate|reflexivity..|by left].
Defined.

(** A document stored under "npm/x.tgz.meta" makes the next read of "npm/x.tgz"
    use its content as the metadata: here, one that never expires. *)
Definition forged : string := "7 1000 1000 0 npm/x.tgz".
Definition poisoned : MemFS :=
  (Put cache_dir 1001 1001 "npm/x.tgz.meta" (mkReader forged false) 60
     (Put cache_dir 1000 1000 "npm/x.tgz" (mkReader "tarball" false) 60 empty_fs).2).2.

Lemma meta_key_aliases_witness :
  files poisoned !! getMetadataPath cache_dir "npm/x.tgz" = Some forged ∧
  (Get cache_dir 9999 "npm/x.tgz" poisoned).1 = Ok "tarball".
Proof.
  split; [|vm_compute; reflexivity].
  assert (Put cache_dir 1001 1001 ("npm/x.tgz" +:+ ".meta") (mkReader forged false) 60
     (Put cache_dir 1000 1000 "npm/x.tgz" (mkReader "tarball" false) 60 empty_fs).2 = (None, poisoned)) as E
    by (vm_compute; reflexivity).
  refine (proj2 (meta_key_aliases cache_base cache_base_ok "npm/x.tgz" ["npm"; "x.tgz"] _ _ _ _ _ _ _ E)).
  by apply plain_key_check.
Defined.

(** A key that starts with ".." leaves the cache directory: [getFilePath]
    cleans the joined path but does not confine it to the base. *)
Theorem key_traversal base dir k ks
    (Hb : Forall (λ s, segment s = true) (base ++ [dir])) (Hk : Forall (λ s, segment s = true) (k :: ks)) :
  getFilePath (unsplit true (base ++ [dir])) ("../" +:+ Join (k :: ks) "/") = unsplit true (base ++ k :: ks).
Proof.
  unfold getFilePath, PathJoin, unsplit at 1. cbn [String.eqb].
  assert (String slash (Join (base ++ [dir]) "/") +:+ String slash ("../" +:+ Join (k :: ks) "/")
          = EmptyString +:+ seps slash ((base ++ [dir]) ++ ".." :: k :: ks)) as E.
  { assert (∀ l, l ≠ [] → String slash (Join l "/") = seps slash l) as Hsl
      by (intros [|x l] ?; [done|]; by rewrite Join_seps).
    rewrite Hsl by (by destruct base). rewrite (seps_app slash (base ++ [dir])).
    change (seps slash (base ++ [dir]) +:+ String slash ("../" +:+ Join (k :: ks) "/") =
            seps slash (base ++ [dir]) +:+ seps slash (".." :: k :: ks)). f_equal. cbn [seps]. rewrite Join_seps. done. }
  change (unsplit true (base ++ [dir])) with (String slash (Join (base ++ [dir]) "/")). rewrite E.
  unfold Clean, clean_comps.
  assert (rooted (EmptyString +:+ seps slash ((base ++ [dir]) ++ ".." :: k :: ks)) = true) as ->
    by (rewrite <- E; apply HasPrefix_head).
  rewrite Split_join.
  2: { constructor; [done|]. apply Forall_app. split; [by apply segments_no_slash|].
       constructor; [done|by apply segments_no_slash]. }
  f_equal. cbn [fold_left]. change (clean_step true [] EmptyString) with (@nil string).
  rewrite fold_left_app, (clean_segments true [] (base ++ [dir])) by done. rewrite app_nil_r, rev_app_distr. cbn [rev app].
  change (fold_left (clean_step true) (".." :: k :: ks) (dir :: rev base)) with
    (fold_left (clean_step true) (k :: ks) (clean_step true (dir :: rev base) "..")).
  apply Forall_app in Hb as [_ Hd]. apply Forall_cons_iff in Hd as [Hd _].
  assert (clean_step true (dir :: rev base) ".." = rev base) as ->.
  { unfold clean_step. cbn. unfold segment in Hd. zbool.
    by match goal with H : String.eqb dir ".." = false |- _ => rewrite H end. }
  rewrite (clean_segments true (rev base) (k :: ks)) by done.
  by rewrite rev_app_distr, !rev_involutive.
Qed.

Lemma key_traversal_witness :
  getFilePath cache_dir "../log/app.log" = "/var/log/app.log".
Proof.
  apply (key_traversal ["var"] "cache" "log" ["app.log"]);
    repeat (constructor; [vm_compute; reflexivity|]); constructor.
Defined.

(** With no size limit, the periodic eviction empties the cache: a [MaxSize]
    of 0, which [Manager.Put] takes as unlimited, makes [performEviction] delete
    every entry it can list, whatever its age, as soon as the files add up to
    anything. *)
Theorem unlimited_evicts_all {S : Type} `{!FileSystem S, !Codec CacheMetadata} basePath options now (s : S) n
    (Hmax : MaxSize options = 0)
    (Hsize : Size basePath s = (n, None)) (Hn : 0 < n <= max_int64)
    (Hpos : Forall (λ m, 0 < Size_ m) (collectAllMetadata basePath s))
    (Htotal : total_size (collectAllMetadata basePath s) <= n) :
  ∃ ks, ks ≡ₚ Key <$> collectAllMetadata basePath s ∧
    performEviction basePath options now s = (None, delete_keys basePath ks s).
Proof.
  unfold performEviction. rewrite Hsize, Hmax. cbn [andb Z.ltb Z.compare].
  change (ninety_percent 0) with 0. rewrite Z.sub_0_r, wrap64_id
    by (unfold in_int64, min_int64, max_int64 in *; lia).
  unfold evictByPolicy. set (items := collectAllMetadata basePath s) in *.
  exists (SelectEvictionCandidates items n). split; [|done].
  destruct (Init_spec AccessedAt items) as [Hh Hp].
  destruct (select_go_spec (length items) (Init AccessedAt items) n 0)
    as (sorted & k & Hperm & _ & (Hk & Hr & _) & E); rewrite ?Hp; auto; try lia.
  { eapply list.Forall_impl; [exact Hpos|]. cbn. lia. }
  unfold SelectEvictionCandidates. rewrite E.
  assert (sorted ≡ₚ items) as Hs by (by etrans).
  assert (take k sorted = sorted) as ->; [|by rewrite Hs].
  destruct Hr as [Hr| ->]; [|by rewrite firstn_all].
  destruct (drop k sorted) as [|x rest] eqn:Ed; [by rewrite <- (take_drop k sorted) at 2; rewrite Ed, app_nil_r|].
  exfalso. rewrite <- Hs in Hpos, Htotal. rewrite <- (take_drop k sorted), Ed in Hpos, Htotal.
  apply Forall_app in Hpos as [H1 H2]. apply Forall_cons_iff in H2 as [H2 H3].
  assert (0 <= total_size rest)
    by (apply total_size_nonneg; eapply list.Forall_impl; [exact H3|]; cbn; lia).
  assert (∀ l l', total_size (l ++ l') = total_size l + total_size l') as Happ
    by (intros l l'; induction l as [|y l IH]; [done|]; rewrite <- app_comm_cons, !total_size_cons; lia).
  rewrite Happ, total_size_cons in Htotal. lia.
Qed.

Definition no_limit : CacheOptions := mkOptions 60 0 "/cache".

Lemma unlimited_evicts_all_witness :
  (∃ ks, ks ≡ₚ Key <$> collectAllMetadata "/cache" one_entry ∧
    performEviction "/cache" no_limit (λ _, 1001) one_entry = (None, delete_keys "/cache" ks one_entry)) ∧
  mem (performEviction "/cache" no_limit (λ _, 1001) one_entry).2 = ∅.
Proof.
  split; [|vm_compute; reflexivity].
  assert (collectAllMetadata "/cache" one_entry = [mkMeta "npm/x.tgz" 7 1000 1000 60 EmptyString EmptyString])
    as E by (vm_compute; reflexivity).
  apply (unlimited_evicts_all "/cache" no_limit (λ _, 1001) one_entry 7); rewrite ?E;
    [reflexivity|vm_compute; reflexivity|vm_compute; split; [reflexivity|discriminate]
    |by repeat constructor|vm_compute; discriminate].
Defined.
