(* ===== verification/Cas.v ===== *)
(** * Cas: content-addressed storage on the local disk

    Models [src/internal/adapters/storage/cas/local.go] over the file system
    interface of [GoFS], with the digests of [GoHashes].  A blob lives in
    [base/ab/cd/<digest>.blob].  [store] and [spec_step] are what the storage
    promises, [refinement] that the code keeps it when it computes the digests. *)

From Stdlib Require Import Ascii.
From S2P Require Import Prelude GoStrings GoPath GoFS GoHashes.

(** ** Requests and answers *)

Record PutBlobRequest := mkPut {
  PB_SHA256 : string; PB_Content : Reader; PB_Size : Z; PB_ContentType : string
}.

Record PutBlobResponse := mkPutResp {
  PR_SHA256 : string; PR_Size : Z; PR_StoredAt : instant; PR_AlreadyExists : bool
}.

Record BlobInfo := mkBlob {
  BI_SHA256 : string; BI_Size : Z; BI_RefCount : Z; BI_CreatedAt : instant; BI_AccessedAt : instant
}.

Record ListBlobsRequest := mkList { LB_Prefix : string; LB_Page : Z; LB_PageSize : Z }.

Record ListBlobsResponse := mkListResp {
  LR_Blobs : list BlobInfo; LR_Total : Z; LR_Page : Z; LR_TotalPages : Z
}.

(** The size in megabytes, a float derived from [TotalSize], is left out. *)
Record StorageStats := mkStats { TotalBlobs : Z; TotalSize : Z; LastUpdated : instant }.

Inductive cas_err :=
| SlicePanic
| CreateTempFailed (e : os_err)
| HashFailed
| MkdirFailed (e : os_err)
| CreateFailed (e : os_err)
| WriteFailed
| SizeMismatch (expected got : Z)
| RenameFailed (e : os_err)
| BlobNotFound (sha256 : string)
| OpenFailed (e : os_err)
| StatFailed (e : os_err)
| DeleteFailed (e : os_err)
| WalkFailed (e : os_err).

Section cas.
Context {S : Type} `{!FileSystem S} (basePath : string).

(** [sha256[0:2]] and [sha256[2:4]] panic on a string of fewer than four bytes. *)
Definition getBlobPath (sha256 : string) : option string :=
  if (String.length sha256 <? 4)%nat then None
  else Some (JoinPath [basePath; take_bytes 2 sha256; take_bytes 2 (drop_bytes 2 sha256); sha256 +:+ ".blob"]).

(** What [io.Copy] reads in step 5: the temporary file that was hashed, or the
    reader of the request.  The flag says that reading ends with an error. *)
Inductive source := FromTemp (path : string) | FromReader (r : Reader).

Definition read_source (src : source) (s : S) : string * bool :=
  match src with
  | FromTemp path => match ReadFile path s with Ok d => (d, false) | Err _ => (EmptyString, true) end
  | FromReader r => (rd_data r, rd_fails r)
  end.

(** Steps 5 to 7, on the open file [tmpPath]. *)
Definition fill_blob (sha256 blobPath tmpPath : string) (src : source) (size : Z) (now : instant) (s : S) :
    result cas_err PutBlobResponse * S :=
  let '(data, fails) := read_source src s in
  match CopyTo tmpPath data s with
  | (Some _, s) => (Err WriteFailed, (CloseFile tmpPath s).2)
  | (None, s) =>
      let s := (CloseFile tmpPath s).2 in
      let written := Z.of_nat (String.length data) in
      if fails then (Err WriteFailed, s)
      else if (0 <? size) && negb (written =? size) then (Err (SizeMismatch size written), s)
      else
        match Rename tmpPath blobPath s with
        | (Some e, s) => (Err (RenameFailed e), s)
        | (None, s) => (Ok (mkPutResp sha256 written now false), s)
        end
  end.

(** Steps 2 to 7, with the deferred removal of [tmpPath]. *)
Definition store_blob (sha256 : string) (src : source) (size : Z) (now : instant) (s : S) :
    result cas_err PutBlobResponse * S :=
  match getBlobPath sha256 with
  | None => (Err SlicePanic, s)
  | Some blobPath =>
      match StatFile blobPath s with
      | None => (Ok (mkPutResp sha256 (StatSize blobPath s) (ModTime blobPath s) true), s)
      | Some _ =>
          match MkdirAll (Dir blobPath) s with
          | (Some e, s) => (Err (MkdirFailed e), s)
          | (None, s) =>
              let tmpPath := blobPath +:+ ".tmp" in
              match CreateFile tmpPath s with
              | (Some e, s) => (Err (CreateFailed e), s)
              | (None, s) =>
                  let '(r, s) := fill_blob sha256 blobPath tmpPath src size now s in
                  (r, (Remove tmpPath s).2)
              end
          end
      end
  end.

(** The deferred [tempFile.Close()] and [os.Remove(tempFile.Name())]. *)
Definition cleanup_temp (temp : string) (s : S) : S := (Remove temp (CloseFile temp s).2).2.

(** [temp] is the name [os.CreateTemp] picks in the system's temporary directory.
    Rewinding an open regular file does not fail. *)
Definition PutBlob (temp : string) (now : instant) (req : PutBlobRequest) (s : S) :
    result cas_err PutBlobResponse * S :=
  if String.eqb (PB_SHA256 req) EmptyString then
    match CreateFile temp s with
    | (Some e, s) => (Err (CreateTempFailed e), s)
    | (None, s) =>
        let '(r, s) :=
          match CopyTo temp (rd_data (PB_Content req)) s with
          | (Some _, s) => (Err HashFailed, s)
          | (None, s) =>
              if rd_fails (PB_Content req) then (Err HashFailed, s)
              else store_blob (sha256_hex (rd_data (PB_Content req))) (FromTemp temp) (PB_Size req) now s
          end in
        (r, cleanup_temp temp s)
    end
  else store_blob (PB_SHA256 req) (FromReader (PB_Content req)) (PB_Size req) now s.

(** The content that the reader returned by the code delivers. *)
Definition GetBlob (sha256 : string) (s : S) : result cas_err string :=
  match getBlobPath sha256 with
  | None => Err SlicePanic
  | Some blobPath =>
      match OpenFile blobPath s with
      | Ok d => Ok d
      | Err ErrNotExist => Err (BlobNotFound sha256)
      | Err e => Err (OpenFailed e)
      end
  end.

Definition GetBlobInfo (sha256 : string) (s : S) : result cas_err BlobInfo :=
  match getBlobPath sha256 with
  | None => Err SlicePanic
  | Some blobPath =>
      match StatFile blobPath s with
      | None => Ok (mkBlob sha256 (StatSize blobPath s) 1 (ModTime blobPath s) (ModTime blobPath s))
      | Some ErrNotExist => Err (BlobNotFound sha256)
      | Some e => Err (StatFailed e)
      end
  end.

Definition ExistsBlob (sha256 : string) (s : S) : result cas_err bool :=
  match getBlobPath sha256 with
  | None => Err SlicePanic
  | Some blobPath =>
      match StatFile blobPath s with
      | None => Ok true
      | Some ErrNotExist => Ok false
      | Some e => Err (StatFailed e)
      end
  end.

Definition DeleteBlob (sha256 : string) (s : S) : option cas_err * S :=
  match getBlobPath sha256 with
  | None => (Some SlicePanic, s)
  | Some blobPath =>
      match Remove blobPath s with
      | (None, s) => (None, s)
      | (Some ErrNotExist, s) => (Some (BlobNotFound sha256), s)
      | (Some e, s) => (Some (DeleteFailed e), s)
      end
  end.

(** ** Walking the blobs *)

(** [!info.IsDir() && filepath.Ext(path) == ".blob"]: the blob of an entry. *)
Definition blob_of_entry (s : S) (path : string) (info : bool * Z) : option BlobInfo :=
  if negb info.1 && String.eqb (Ext path) ".blob" then
    let name := Base path in
    Some (mkBlob (take_bytes (String.length name - 5) name) info.2 0 (ModTime path s) zero_time)
  else None.

(** The callback stops the walk at the first entry that has an error. *)
Fixpoint walk_blobs (s : S) (es : list walk_entry) : result cas_err (list BlobInfo) :=
  match es with
  | [] => Ok []
  | e :: es =>
      match we_info e with
      | Err err => Err (WalkFailed err)
      | Ok info => let? bs := walk_blobs s es in Ok (option_list (blob_of_entry s (we_path e) info) ++ bs)%list
      end
  end.

Definition wanted (prefix : string) (b : BlobInfo) : bool :=
  String.eqb prefix EmptyString || HasPrefix (BI_SHA256 b) prefix.

(** [total], [page] and [pageSize] are 64-bit; slicing out of range panics. *)
Definition paginate (blobs : list BlobInfo) (req_page req_size : Z) : result cas_err ListBlobsResponse :=
  let total := Z.of_nat (length blobs) in
  let pageSize := if req_size <=? 0 then 100 else req_size in
  let page := if req_page <? 1 then 1 else req_page in
  let start := wrap64 ((page - 1) * pageSize) in
  let stop := wrap64 (start + pageSize) in
  let pages := Z.quot (wrap64 (total + pageSize - 1)) pageSize in
  if total <=? start then Ok (mkListResp [] total page pages)
  else
    let stop := if total <? stop then total else stop in
    if (start <? 0) || (stop <? start) then Err SlicePanic
    else Ok (mkListResp (take (Z.to_nat (stop - start)) (drop (Z.to_nat start) blobs)) total page pages).

Definition ListBlobs (req : ListBlobsRequest) (s : S) : result cas_err ListBlobsResponse :=
  let? all := walk_blobs s (Walk basePath s) in
  paginate (List.filter (wanted (LB_Prefix req)) all) (LB_Page req) (LB_PageSize req).

Definition GetStats (now : instant) (s : S) : result cas_err StorageStats :=
  let? all := walk_blobs s (Walk basePath s) in
  Ok (mkStats (Z.of_nat (length all)) (foldr (λ b n, BI_Size b + n) 0 all) now).
End cas.

Arguments FromTemp path : clear implicits.
Arguments FromReader r : clear implicits.

(** [NewLocalCAS] only creates the base directory. *)
Definition NewLocalCAS {S} `{!FileSystem S} (basePath : string) (s : S) : option cas_err * S :=
  match MkdirAll basePath s with
  | (Some e, s) => (Some (MkdirFailed e), s)
  | (None, s) => (None, s)
  end.

(** ** The contract: a map from digests to contents *)

Definition is_digest (d : string) : bool := (String.length d =? 64)%nat && str_all is_hex d.

Notation store := (gmap string string).

(** Every blob is named after its content. *)
Definition intact (m : store) : Prop := map_Forall (λ d c, sha256_hex c = d) m.

Inductive op :=
| OPut (content : string) (size : Z)
| OGet (digest : string)
| OInfo (digest : string)
| OExists (digest : string)
| ODelete (digest : string)
| OList (prefix : string) (page pageSize : Z).

Inductive answer :=
| APut (digest : string) (size : Z) (existed : bool)
| AContent (content : string)
| ASize (size : Z)
| ABool (b : bool)
| ADone
| ANotFound
| APage (resp : result cas_err ListBlobsResponse)
| AFailed.

(** The digests and sizes that a listing names, in some order. *)
Definition listed (m : store) (bs : list BlobInfo) : Prop :=
  ((λ b, (BI_SHA256 b, BI_Size b)) <$> bs) ≡ₚ
  ((λ x, (x.1, Z.of_nat (String.length x.2))) <$> map_to_list m).

Inductive spec_step (m : store) : op → answer → store → Prop :=
| spec_put_new c n :
    (n <= 0 ∨ n = Z.of_nat (String.length c)) →
    spec_step m (OPut c n) (APut (sha256_hex c) (Z.of_nat (String.length c)) false) (<[sha256_hex c := c]> m)
| spec_put_known c n c' :
    m !! sha256_hex c = Some c' →
    spec_step m (OPut c n) (APut (sha256_hex c) (Z.of_nat (String.length c')) true) m
| spec_get d c : m !! d = Some c → spec_step m (OGet d) (AContent c) m
| spec_get_missing d : m !! d = None → spec_step m (OGet d) ANotFound m
| spec_info d c : m !! d = Some c → spec_step m (OInfo d) (ASize (Z.of_nat (String.length c))) m
| spec_info_missing d : m !! d = None → spec_step m (OInfo d) ANotFound m
| spec_exists d : spec_step m (OExists d) (ABool (bool_decide (is_Some (m !! d)))) m
| spec_delete d c : m !! d = Some c → spec_step m (ODelete d) ADone (delete d m)
| spec_delete_missing d : m !! d = None → spec_step m (ODelete d) ANotFound m
| spec_list prefix page size bs :
    listed m bs →
    spec_step m (OList prefix page size) (APage (paginate (List.filter (wanted prefix) bs) page size)) m
| spec_failed o : spec_step m o AFailed m.

Inductive spec_steps (m : store) : list op → list answer → store → Prop :=
| spec_nil : spec_steps m [] [] m
| spec_cons o a m' os rs m'' :
    spec_step m o a m' → spec_steps m' os rs m'' → spec_steps m (o :: os) (a :: rs) m''.

(** *** The code, as answers of the contract *)

Section run.
Context {S : Type} `{!FileSystem S} (basePath : string).

(** [sh_temp] and [sh_now] are what the system picks for one call. *)
Record shot := mkShot { sh_temp : string; sh_now : instant; sh_op : op }.

Definition run_op (x : shot) (s : S) : answer * S :=
  match sh_op x with
  | OPut c n =>
      match PutBlob basePath (sh_temp x) (sh_now x)
              (mkPut EmptyString (mkReader c false) n "application/octet-stream") s with
      | (Ok r, s) => (APut (PR_SHA256 r) (PR_Size r) (PR_AlreadyExists r), s)
      | (Err _, s) => (AFailed, s)
      end
  | OGet d =>
      (match GetBlob basePath d s with Ok c => AContent c | Err (BlobNotFound _) => ANotFound | Err _ => AFailed end, s)
  | OInfo d =>
      (match GetBlobInfo basePath d s with Ok i => ASize (BI_Size i) | Err (BlobNotFound _) => ANotFound | Err _ => AFailed end, s)
  | OExists d => (match ExistsBlob basePath d s with Ok b => ABool b | Err _ => AFailed end, s)
  | ODelete d =>
      match DeleteBlob basePath d s with
      | (None, s) => (ADone, s)
      | (Some (BlobNotFound _), s) => (ANotFound, s)
      | (Some _, s) => (AFailed, s)
      end
  | OList prefix page size =>
      (match walk_blobs s (Walk basePath s) with
       | Ok _ => APage (ListBlobs basePath (mkList prefix page size) s)
       | Err _ => AFailed
       end, s)
  end.

Fixpoint run (xs : list shot) (s : S) : list answer * S :=
  match xs with
  | [] => ([], s)
  | x :: xs => let '(a, s) := run_op x s in let '(rs, s) := run xs s in (a :: rs, s)
  end.
End run.

(** ** Paths of blobs *)

Section paths.
Context (base : list string) (Hbase : Forall (λ c, segment c = true) base).

Definition blob_segments (d : string) : list string :=
  (base ++ [take_bytes 2 d; take_bytes 2 (drop_bytes 2 d); d +:+ ".blob"])%list.
Definition blob_path (d : string) : string := unsplit true (blob_segments d).
Definition tmp_path (d : string) : string := blob_path d +:+ ".tmp".

Lemma is_hex_plain c : is_hex c = true → not_char slash c = true ∧ Ascii.eqb c "." = false.
Proof.
  unfold is_hex. rewrite orb_true_iff, !in_range_spec. intros H. unfold not_char.
  split; [apply negb_true_iff|]; apply Ascii.eqb_neq; intros ->; vm_compute in H; naive_solver.
Qed.

Lemma hex_segment s t : str_all is_hex s = true → s ≠ EmptyString → str_all (not_char slash) t = true →
  segment (s +:+ t) = true.
Proof.
  intros Hs Hn Ht. destruct s as [|c s]; [done|]. rewrite str_app_cons. unfold segment.
  cbn [str_all] in *. apply andb_true_iff in Hs as [Hc Hs]. destruct (is_hex_plain c Hc) as [Hc1 Hc2].
  rewrite str_all_app, Ht, Hc1, andb_true_r, (str_all_impl is_hex (not_char slash)) by (done || apply is_hex_plain).
  cbn [String.eqb]. by rewrite Hc2.
Qed.

Lemma digest_shape d : is_digest d = true →
  ∃ a b c e r, d = String a (String b (String c (String e r))) ∧ str_all is_hex d = true ∧ String.length d = 64%nat.
Proof.
  unfold is_digest. intros [Hl Hh]%andb_true_iff. apply Nat.eqb_eq in Hl.
  destruct d as [|a [|b [|c [|e r]]]]; try done. by exists a, b, c, e, r.
Qed.

Lemma blob_segments_ok d : is_digest d = true → Forall (λ c, segment c = true) (blob_segments d).
Proof.
  intros H. destruct (digest_shape d H) as (a & b & c & e & r & -> & Hh & _).
  apply Forall_app. split; [done|]. pose proof Hh as Hh'. cbn [str_all] in Hh'. zbool.
  repeat (apply Forall_cons_iff; split); [| | |done].
  - rewrite <- (str_app_nil_r (take_bytes _ _)). apply hex_segment; [|done..]. cbn. by repeat (apply andb_true_iff; split).
  - rewrite <- (str_app_nil_r (take_bytes _ _)). apply hex_segment; [|done..]. cbn. by repeat (apply andb_true_iff; split).
  - by apply hex_segment.
Qed.

Lemma getBlobPath_digest d :
  is_digest d = true → getBlobPath (unsplit true base) d = Some (blob_path d).
Proof.
  intros H. pose proof (blob_segments_ok d H) as Hseg. apply Forall_app in Hseg as [_ Hseg].
  destruct (digest_shape d H) as (a & b & c & e & r & Ed & _ & Hl).
  unfold getBlobPath. rewrite Hl. cbn [Nat.ltb Nat.leb]. rewrite JoinPath_cons by done.
  by rewrite PathJoin_segments.
Qed.

Lemma unsplit_snoc cs c t : unsplit true (cs ++ [c]) +:+ t = unsplit true (cs ++ [c +:+ t]).
Proof.
  assert (∀ x, unsplit true (cs ++ [x]) = seps slash (cs ++ [x])) as E.
  { intros x. unfold unsplit. destruct cs; cbn [app]; by rewrite Join_seps. }
  rewrite !E, !seps_app, str_app_assoc. do 2 f_equal. cbn [seps]. by rewrite !str_app_nil_r.
Qed.

Lemma snoc3 {A} (l : list A) x y z : (l ++ [x; y; z] = (l ++ [x; y]) ++ [z])%list.
Proof. by rewrite <- app_assoc. Qed.

Lemma tmp_path_eq d :
  tmp_path d = unsplit true (base ++ [take_bytes 2 d; take_bytes 2 (drop_bytes 2 d); (d +:+ ".blob") +:+ ".tmp"]).
Proof.
  unfold tmp_path, blob_path, blob_segments.
  by rewrite !snoc3, unsplit_snoc.
Qed.

Lemma tmp_segments_ok d : is_digest d = true →
  Forall (λ c, segment c = true) (base ++ [take_bytes 2 d; take_bytes 2 (drop_bytes 2 d); (d +:+ ".blob") +:+ ".tmp"]).
Proof.
  intros H. pose proof (blob_segments_ok d H) as Hs. apply Forall_app in Hs as [Hb Hs].
  apply Forall_app. split; [done|]. apply Forall_cons_iff in Hs as [H1 Hs]. apply Forall_cons_iff in Hs as [H2 _].
  repeat (apply Forall_cons_iff; split); [done..| |done]. rewrite str_app_assoc.
  destruct (digest_shape d H) as (a & b & c & e & r & -> & Hh & _). by apply hex_segment.
Qed.

Lemma str_app_inj_r a b t : a +:+ t = b +:+ t → a = b.
Proof.
  intros E. assert (String.length a = String.length b) as Hl.
  { apply (f_equal String.length) in E. rewrite !str_length_app in E. lia. }
  revert b Hl E. induction a as [|c a IH]; intros [|d b] Hl E; try done.
  rewrite !str_app_cons in E. injection E as -> E. injection Hl as Hl. f_equal. by apply IH.
Qed.

Lemma blob_path_inj d d' : is_digest d = true → is_digest d' = true → blob_path d = blob_path d' → d = d'.
Proof.
  intros H H' E. apply unsplit_inj in E; [|by apply blob_segments_ok..].
  apply app_inj_1 in E as [_ E]; [|done]. injection E. intros E' _ _. by apply str_app_inj_r in E'.
Qed.

Lemma tmp_path_not_blob d d' : is_digest d = true → is_digest d' = true → tmp_path d ≠ blob_path d'.
Proof.
  intros H H' E. rewrite tmp_path_eq in E.
  apply unsplit_inj in E; [|by apply tmp_segments_ok|by apply blob_segments_ok].
  apply app_inj_1 in E as [_ E]; [|done]. injection E. intros E' _ _.
  apply (f_equal String.length) in E'. rewrite !str_length_app in E'.
  destruct (digest_shape d H) as (? & ? & ? & ? & ? & _ & _ & Hl).
  destruct (digest_shape d' H') as (? & ? & ? & ? & ? & _ & _ & Hl'). rewrite Hl, Hl' in E'. done.
Qed.

Lemma Ext_blob d : is_digest d = true → Ext (blob_path d) = ".blob".
Proof.
  intros H. pose proof (blob_segments_ok d H) as Hs. unfold blob_path, blob_segments in *.
  rewrite snoc3 in *. by rewrite Ext_segments, from_last_dot_app.
Qed.

Lemma Base_blob d : is_digest d = true → Base (blob_path d) = d +:+ ".blob".
Proof.
  intros H. pose proof (blob_segments_ok d H) as Hs. unfold blob_path, blob_segments in *.
  rewrite snoc3 in *. by rewrite Base_segments.
Qed.

Lemma Ext_tmp d : is_digest d = true → Ext (tmp_path d) = ".tmp".
Proof.
  intros H. pose proof (tmp_segments_ok d H) as Hs. rewrite tmp_path_eq.
  rewrite snoc3 in *. by rewrite Ext_segments, from_last_dot_app.
Qed.

Lemma under_base d : base ≠ [] → HasPrefix (blob_path d) (unsplit true base +:+ "/") = true.
Proof.
  intros H. unfold blob_path, blob_segments, unsplit, HasPrefix. apply prefix_spec.
  destruct base as [|b bs]; [done|]. cbn [app]. rewrite !Join_seps, seps_app. cbn [seps].
  eexists. by rewrite !str_app_cons, !str_app_assoc, str_app_cons.
Qed.
End paths.

(** ** Effects of the operations on the files *)

(** What the development assumes of the base directory: nothing but the storage
    puts a directory where a blob would be, and closing a file that was written
    loses nothing (the code ignores the error of [Close]). *)
Record private_base {S : Type} `{!FileSystem S} (base : list string) : Prop := {
  pb_open s d c : is_digest d = true → OpenFile (blob_path base d) s = Ok c → files s !! blob_path base d = Some c;
  pb_stat s d : is_digest d = true → StatFile (blob_path base d) s = None → is_Some (files s !! blob_path base d);
  pb_remove s d : is_digest d = true → (Remove (blob_path base d) s).1 = None → is_Some (files s !! blob_path base d);
  pb_close (s : S) p : files (CloseFile p s).2 = files s
}.
Arguments private_base S {_} base.

Section effects.
Context {S : Type} `{!FileSystem S, !FileSystemLaws S} (base : list string).
Context (Hbase : Forall (λ c, segment c = true) base) (Hpriv : private_base S base).

Implicit Types (s : S) (p q : string).

Definition frame (p : string) (s s' : S) : Prop := ∀ q, q ≠ p → files s' !! q = files s !! q.

Lemma frame_refl p s : frame p s s. Proof. done. Qed.
Lemma frame_trans p s1 s2 s3 : frame p s1 s2 → frame p s2 s3 → frame p s1 s3.
Proof. intros H1 H2 q Hq. by rewrite H2, H1. Qed.
Lemma frame_close p q s : frame p s (CloseFile q s).2.
Proof. intros x _. by rewrite (pb_close base Hpriv). Qed.
Lemma frame_copy p d s : frame p s (CopyTo p d s).2.
Proof. intros x Hx. by apply CopyTo_frame. Qed.
Lemma frame_mkdir p q s : frame p s (MkdirAll q s).2.
Proof. intros x _. by rewrite MkdirAll_files. Qed.
Lemma frame_create p s : frame p s (CreateFile p s).2.
Proof.
  intros x Hx. destruct (CreateFile p s).1 eqn:E.
  - by rewrite CreateFile_err by (by rewrite E).
  - by rewrite CreateFile_ok, lookup_insert_ne by done.
Qed.
Lemma frame_remove p s : frame p s (Remove p s).2.
Proof.
  intros x Hx. destruct (Remove p s).1 eqn:E.
  - by rewrite Remove_err by (by rewrite E).
  - by rewrite Remove_ok, lookup_delete_ne by done.
Qed.
Hint Resolve frame_refl frame_close frame_copy frame_mkdir frame_create frame_remove : core.

Definition source_gives (src : source) (s : S) (data : string) : Prop :=
  match src with
  | FromTemp t => files s !! t = Some data
  | FromReader r => rd_data r = data ∧ rd_fails r = false
  end.

Lemma read_source_gives src s data : read_source src s = (data, false) → source_gives src s data.
Proof.
  destruct src as [t|r]; cbn.
  - destruct (ReadFile t s) eqn:E; [|done]. intros [= <-]. by apply ReadFile_ok.
  - by intros [= <- ->].
Qed.

Definition size_ok (size : Z) (data : string) : Prop := size <= 0 ∨ size = Z.of_nat (String.length data).

Lemma fill_blob_files sha blob tmp src size now s r s' :
  tmp ≠ blob → fill_blob sha blob tmp src size now s = (r, s') →
  (∃ e, r = Err e ∧ frame tmp s s') ∨
  (∃ data, source_gives src s data ∧ size_ok size data ∧
     r = Ok (mkPutResp sha (Z.of_nat (String.length data)) now false) ∧
     ∀ q, q ≠ tmp → files s' !! q = <[blob := data]> (files s) !! q).
Proof.
  intros Hne. unfold fill_blob. destruct (read_source src s) as [data fails] eqn:Esrc.
  destruct (CopyTo tmp data s) as [[e|] s1] eqn:Ecopy.
  { intros [= <- <-]. left. eexists. split; [done|]. apply (frame_trans _ _ s1); [|done].
    pose proof (frame_copy tmp data s) as Hf. by rewrite Ecopy in Hf. }
  pose proof (CopyTo_ok tmp data s) as Hc. rewrite Ecopy in Hc. specialize (Hc eq_refl). cbn in Hc.
  set (s2 := (CloseFile tmp s1).2). assert (files s2 = <[tmp := data]> (files s)) as H2
    by (unfold s2; by rewrite (pb_close base Hpriv)).
  assert (frame tmp s s2) as Hf2 by (intros q Hq; by rewrite H2, lookup_insert_ne).
  cbv zeta. destruct fails; [intros [= <- <-]; eauto|].
  destruct ((0 <? size) && _) eqn:Esz; [intros [= <- <-]; eauto|].
  destruct (Rename tmp blob s2) as [[e|] s3] eqn:Eren; intros [= <- <-].
  - left. eexists. split; [done|]. intros q Hq. rewrite <- Hf2 by done. f_equal.
    pose proof (Rename_err tmp blob s2) as Hr. rewrite Eren in Hr. by apply Hr.
  - right. exists data. split; [by apply read_source_gives|]. split.
    { unfold size_ok. destruct (0 <? size) eqn:Es; zbool; [right; cbn in Esz; zbool; lia|by left]. }
    split; [done|]. intros q Hq.
    pose proof (Rename_ok tmp blob s2 data) as Hr. rewrite Eren in Hr. cbn in Hr.
    rewrite Hr by (rewrite ?H2, ?lookup_insert_eq; done). rewrite H2.
    destruct (decide (q = blob)) as [->|Hqb]; [by rewrite !lookup_insert_eq|].
    by rewrite !lookup_insert_ne, lookup_delete_ne, lookup_insert_ne by done.
Qed.
Lemma store_blob_files d src size now s r s' :
  is_digest d = true → (∀ t, src = FromTemp t → t ≠ tmp_path base d) →
  store_blob (unsplit true base) d src size now s = (r, s') →
  (∃ e, r = Err e ∧ frame (tmp_path base d) s s') ∨
  (StatFile (blob_path base d) s = None ∧ s' = s ∧
     r = Ok (mkPutResp d (StatSize (blob_path base d) s) (ModTime (blob_path base d) s) true)) ∨
  (∃ data, StatFile (blob_path base d) s ≠ None ∧ source_gives src s data ∧ size_ok size data ∧
     r = Ok (mkPutResp d (Z.of_nat (String.length data)) now false) ∧
     ∀ q, q ≠ tmp_path base d → files s' !! q = <[blob_path base d := data]> (files s) !! q).
Proof.
  intros Hd Hsrc. unfold store_blob. rewrite getBlobPath_digest by done.
  destruct (StatFile (blob_path base d) s) as [st|] eqn:Est; [|intros [= <- <-]; right; left; done].
  change (blob_path base d +:+ ".tmp") with (tmp_path base d).
  pose proof (frame_mkdir (tmp_path base d) (Dir (blob_path base d)) s) as F1.
  destruct (MkdirAll _ s) as [[e|] s1]; cbn in F1; [intros [= <- <-]; eauto|].
  pose proof (frame_create (tmp_path base d) s1) as F2.
  destruct (CreateFile _ s1) as [[e|] s2]; cbn in F2.
  { intros [= <- <-]. left. eexists. split; [done|]. by eapply frame_trans. }
  pose proof (frame_trans _ _ _ _ F1 F2) as F. clear F1 F2 s1.
  destruct (fill_blob _ _ _ _ _ _ s2) as [r3 s3] eqn:Efill.
  pose proof (frame_remove (tmp_path base d) s3) as F4. intros [= <- <-].
  apply fill_blob_files in Efill as [(e & -> & F3)|(data & Hg & Hsz & -> & Hfiles)];
    [..|by apply tmp_path_not_blob].
  - left. eexists. split; [done|]. eapply frame_trans; [eapply frame_trans|]; eassumption.
  - right. right. exists data. split; [done|]. split; [|split; [done|split; [done|]]].
    { destruct src as [t|rd]; [|done]. cbn in *. rewrite <- F; [done|]. by apply Hsrc. }
    intros q Hq. rewrite F4, Hfiles by done.
    destruct (decide (q = blob_path base d)) as [->|Hqb]; [by rewrite !lookup_insert_eq|].
    rewrite !lookup_insert_ne by done. by apply F.
Qed.

(** The names the system picks for temporary files are outside of the base. *)
Definition outside (temp : string) : Prop := HasPrefix temp (unsplit true base) = false.

Lemma outside_ne temp cs : outside temp → temp ≠ unsplit true (base ++ cs).
Proof. unfold outside. intros H ->. by rewrite unsplit_prefix in H. Qed.

Lemma frame_cleanup temp s : frame temp s (cleanup_temp temp s).
Proof. unfold cleanup_temp. eapply frame_trans; [apply frame_close|apply frame_remove]. Qed.

(** [PutBlob] of a content whose digest the code computes: every outcome. *)
Lemma PutBlob_files temp now c fails size ct s r s' :
  let d := sha256_hex c in
  outside temp →
  PutBlob (unsplit true base) temp now (mkPut EmptyString (mkReader c fails) size ct) s = (r, s') →
  (∃ e, r = Err e ∧ ∀ q, q ≠ temp → q ≠ tmp_path base d → files s' !! q = files s !! q) ∨
  (∃ c', files s !! blob_path base d = Some c' ∧ (∃ t, r = Ok (mkPutResp d (Z.of_nat (String.length c')) t true)) ∧
     ∀ q, q ≠ temp → files s' !! q = files s !! q) ∨
  (fails = false ∧ size_ok size c ∧
     r = Ok (mkPutResp d (Z.of_nat (String.length c)) now false) ∧
     ∀ q, q ≠ temp → q ≠ tmp_path base d → files s' !! q = <[blob_path base d := c]> (files s) !! q).
Proof.
  intros d Hout. assert (is_digest d = true) as Hd.
  { destruct (sha256_hex_shape c) as [H1 H2]. unfold is_digest, d. by rewrite H1, H2. }
  unfold PutBlob. cbn [PB_SHA256 PB_Content PB_Size String.eqb rd_data rd_fails].
  pose proof (frame_create temp s) as F1. pose proof (CreateFile_ok temp s) as Hc.
  destruct (CreateFile temp s) as [[e|] s1]; cbn in F1, Hc; [intros [= <- <-]; left; eauto|].
  pose proof (frame_copy temp c s1) as F2. pose proof (CopyTo_ok temp c s1) as Hcp.
  destruct (CopyTo temp c s1) as [[e|] s2]; cbn in F2, Hcp.
  { intros [= <- <-]. left. eexists. split; [done|]. intros q Hq _.
    rewrite (frame_cleanup temp s2), F2, F1; done. }
  pose proof (frame_trans _ _ _ _ F1 F2) as F.
  assert (files s2 !! temp = Some c) as Ht by (rewrite Hcp by done; apply lookup_insert_eq).
  clear F1 F2 Hcp Hc s1.
  destruct fails.
  { intros [= <- <-]. left. eexists. split; [done|]. intros q Hq _. rewrite (frame_cleanup temp s2), F; done. }
  destruct (store_blob _ _ _ _ _ s2) as [r3 s3] eqn:Est. intros [= <- <-]. fold d in Est.
  pose proof (frame_cleanup temp s3) as F4.
  assert (blob_path base d ≠ temp) as Hbt by (intros E; by eapply outside_ne).
  assert (temp ≠ tmp_path base d) as Htt by (rewrite tmp_path_eq; by apply outside_ne).
  apply store_blob_files in Est as [(e & -> & F3)|[(Hst & -> & ->)|(data & Hst & Hg & Hsz & -> & Hfiles)]];
    [..|done|by intros t [= <-]].
  - left. eexists. split; [done|]. intros q Hq Hq'. rewrite F4, F3, F; done.
  - right. left. destruct (pb_stat base Hpriv s2 d Hd Hst) as [c' Hc']. exists c'.
    rewrite <- F by done. split; [done|]. split; [by rewrite (StatSize_ok _ _ c') by done; eauto|].
    intros q Hq. by rewrite F4, F.
  - right. right. cbn in Hg. rewrite Ht in Hg. simplify_eq. split; [done|]. split; [done|]. split; [done|].
    intros q Hq Hq'. rewrite F4, Hfiles by done.
    destruct (decide (q = blob_path base d)) as [->|Hqb]; [by rewrite !lookup_insert_eq|].
    rewrite !lookup_insert_ne by done. by apply F.
Qed.
End effects.

(** ** Refinement *)

Section refinement.
Context {S : Type} `{!FileSystem S, !FileSystemLaws S} (base : list string).
Context (Hbase : Forall (λ c, segment c = true) base) (Hne : base ≠ []) (Hpriv : private_base S base).

(** The files of the base directory that are named like blobs are the store. *)
Record represents (m : store) (s : S) : Prop := {
  rep_digest d : is_Some (m !! d) → is_digest d = true;
  rep_blob d : is_digest d = true → m !! d = files s !! blob_path base d;
  rep_only q : HasPrefix q (unsplit true base +:+ "/") = true → Ext q = ".blob" → is_Some (files s !! q) →
    ∃ d, is_digest d = true ∧ q = blob_path base d
}.

Definition shot_ok (x : shot) : Prop :=
  outside base (sh_temp x) ∧
  match sh_op x with OGet d | OInfo d | OExists d | ODelete d => is_digest d = true | _ => True end.

Lemma is_digest_sha c : is_digest (sha256_hex c) = true.
Proof. destruct (sha256_hex_shape c) as [H1 H2]. unfold is_digest. by rewrite H1, H2. Qed.

(** A change that leaves alone what is named like a blob. *)
Lemma represents_frame m s s' :
  (∀ q, (HasPrefix q (unsplit true base +:+ "/") = true ∧ Ext q = ".blob") → files s' !! q = files s !! q) →
  represents m s → represents m s'.
Proof.
  intros Hf HR. assert (∀ d, is_digest d = true → files s' !! blob_path base d = files s !! blob_path base d) as Hb.
  { intros d Hd. apply Hf. split; [by apply under_base|by apply Ext_blob]. }
  split.
  - apply HR.
  - intros d Hd. rewrite Hb by done. by apply HR.
  - intros q Hq He Hs. apply (rep_only m s HR q); [done..|]. by rewrite <- Hf.
Qed.

Lemma represents_update m s s' d (oc : option string) :
  is_digest d = true →
  (∀ q, (HasPrefix q (unsplit true base +:+ "/") = true ∧ Ext q = ".blob") →
     files s' !! q = partial_alter (λ _, oc) (blob_path base d) (files s) !! q) →
  represents m s → represents (partial_alter (λ _, oc) d m) s'.
Proof.
  intros Hd Hf HR. split.
  - intros d'. destruct (decide (d' = d)) as [->|Hn]; [done|].
    rewrite lookup_partial_alter_ne by done. apply HR.
  - intros d' Hd'. rewrite Hf by (split; [by apply under_base|by apply Ext_blob]).
    destruct (decide (d' = d)) as [->|Hn]; [by rewrite !lookup_partial_alter_eq|].
    rewrite !lookup_partial_alter_ne; [by apply HR| |done]. intros E. by apply blob_path_inj in E.
  - intros q Hq He Hs. rewrite Hf in Hs by done.
    destruct (decide (q = blob_path base d)) as [->|Hn]; [eauto|].
    rewrite lookup_partial_alter_ne in Hs by done. by apply (rep_only m s HR q).
Qed.

(** Files that are not named like blobs. *)
Lemma not_temp q temp : outside base temp → HasPrefix q (unsplit true base +:+ "/") = true → q ≠ temp.
Proof.
  unfold outside, HasPrefix. intros Ho Hq ->. apply prefix_spec in Hq as [t ->].
  by rewrite str_app_assoc, prefix_app in Ho.
Qed.

Lemma not_tmp q d : is_digest d = true → Ext q = ".blob" → q ≠ tmp_path base d.
Proof. intros Hd He ->. by rewrite Ext_tmp in He. Qed.
(** The walk of a base that represents a store lists the store. *)
Lemma walk_blobs_omap s es bs :
  walk_blobs s es = Ok bs →
  Forall (λ e, is_ok (we_info e) = true) es ∧
  ∀ b, b ∈ bs ↔ ∃ q i, mkEntry q (Ok i) ∈ es ∧ blob_of_entry s q i = Some b.
Proof.
  revert bs. induction es as [|[q [i|e]] es IH]; cbn [walk_blobs we_info we_path]; intros bs.
  - intros [= <-]. split; [constructor|]. intros b. split; [by intros ?%elem_of_nil|].
    by intros (? & ? & ?%elem_of_nil & _).
  - destruct (walk_blobs s es) as [bs'|]; [|done]. destruct (IH bs' eq_refl) as [H1 H2]. intros [= <-].
    split; [by constructor|]. intros b. rewrite elem_of_app, H2. split.
    + intros [Hb|(q' & i' & Hin & Hb)].
      * exists q, i. split; [left|]. destruct (blob_of_entry s q i); [|by apply elem_of_nil in Hb].
        cbn in Hb. by apply list_elem_of_singleton in Hb as ->.
      * exists q', i'. split; [by right|done].
    + intros (q' & i' & [E|Hin]%elem_of_cons & Hb); [left|right; eauto].
      injection E as -> ->. rewrite Hb. by apply list_elem_of_singleton.
  - done.
Qed.

Lemma blob_entry_sha s d n : is_digest d = true →
  blob_of_entry s (blob_path base d) (false, n) = Some (mkBlob d n 0 (ModTime (blob_path base d) s) zero_time).
Proof.
  intros Hd. unfold blob_of_entry. rewrite Ext_blob, Base_blob by done. cbn [negb fst snd andb String.eqb].
  do 2 f_equal. rewrite str_length_app. replace (_ - 5)%nat with (String.length d) by (cbn; lia).
  clear Hd. induction d as [|c d IH]; [done|]. cbn [String.length]. rewrite str_app_cons. cbn [take_bytes]. by rewrite IH.
Qed.

Lemma blob_entry_inv s m q i b :
  represents m s → mkEntry q (Ok i) ∈ Walk (unsplit true base) s →
  Forall (λ e, is_ok (we_info e) = true) (Walk (unsplit true base) s) →
  blob_of_entry s q i = Some b →
  ∃ d c, q = blob_path base d ∧ m !! d = Some c ∧ BI_SHA256 b = d ∧ BI_Size b = Z.of_nat (String.length c).
Proof.
  intros HR Hin Hok Hb. destruct i as [[] n]; unfold blob_of_entry in Hb; cbn [negb fst snd andb] in Hb; [done|].
  destruct (String.eqb (Ext q) ".blob") eqn:He; [|done]. apply String.eqb_eq in He.
  pose proof Hin as Hw. apply Walk_files in Hw as (Hp & c & Hc & ->); [|done..].
  destruct (rep_only m s HR q Hp He) as (d & Hd & ->); [by rewrite Hc|].
  exists d, c. split; [done|]. split; [by rewrite (rep_blob m s HR)|].
  pose proof (blob_entry_sha s d (Z.of_nat (String.length c)) Hd) as E. unfold blob_of_entry in E.
  rewrite He, String.eqb_refl in E. cbn [negb fst snd andb] in E. rewrite E in Hb. by simplify_eq.
Qed.
Lemma walk_blobs_NoDup s es bs :
  (∀ q q' i i' b b', mkEntry q (Ok i) ∈ es → mkEntry q' (Ok i') ∈ es → blob_of_entry s q i = Some b →
     blob_of_entry s q' i' = Some b' → BI_SHA256 b = BI_SHA256 b' → q = q') →
  NoDup (we_path <$> es) → walk_blobs s es = Ok bs → NoDup (BI_SHA256 <$> bs).
Proof.
  revert bs. induction es as [|[q [i|e]] es IH]; intros bs Hinj Hnd; cbn [walk_blobs we_info we_path].
  - intros [= <-]. constructor.
  - destruct (walk_blobs s es) as [bs'|] eqn:Ew; [|done]. intros [= <-].
    cbn in Hnd. apply list.NoDup_cons in Hnd as [Hq Hnd].
    assert (NoDup (BI_SHA256 <$> bs')) as Hbs.
    { apply IH; [|done..]. intros. eapply Hinj; [right|right|..]; eassumption. }
    destruct (blob_of_entry s q i) as [b|] eqn:Eb; [|done]. cbn. apply list.NoDup_cons. split; [|done].
    intros (b' & Eb' & Hb')%list_elem_of_fmap. apply walk_blobs_omap in Ew as [_ Hel].
    apply Hel in Hb' as (q' & i' & Hin & Hb').
    assert (q = q') as <- by (eapply Hinj; [left|right|..]; eauto).
    apply Hq, list_elem_of_fmap. by exists (mkEntry q (Ok i')).
  - done.
Qed.

Lemma walk_listed m s bs :
  represents m s → walk_blobs s (Walk (unsplit true base) s) = Ok bs → listed m bs.
Proof.
  intros HR Hw. pose proof (walk_blobs_omap _ _ _ Hw) as [Hok Hel].
  assert (NoDup (BI_SHA256 <$> bs)) as Hnd.
  { eapply walk_blobs_NoDup; [|apply Walk_paths|exact Hw]. intros q q' i i' b b' H1 H2 Hb Hb' E.
    apply (blob_entry_inv s m) in Hb as (d & c & -> & _ & <- & _); [|done..].
    apply (blob_entry_inv s m) in Hb' as (d & c' & -> & _ & <- & _); [|done..]. by rewrite E. }
  apply NoDup_Permutation.
  - apply (NoDup_fmap_1 fst). by rewrite <- list_fmap_compose.
  - apply (NoDup_fmap_1 fst). rewrite <- list_fmap_compose. apply NoDup_fst_map_to_list.
  - intros [d n]. rewrite !list_elem_of_fmap. split.
    + intros (b & E & Hb). injection E as -> ->. apply Hel in Hb as (q & i & Hin & Hb).
      apply (blob_entry_inv s m) in Hb as (d & c & -> & Hc & <- & ->); [|done..].
      exists (BI_SHA256 b, c). split; [done|]. by apply elem_of_map_to_list.
    + intros ([d' c] & E & Hc). cbn in E. injection E as -> ->. apply elem_of_map_to_list in Hc.
      assert (is_digest d' = true) as Hd by (apply (rep_digest m s HR); by rewrite Hc).
      eexists. split; [|apply Hel; eexists _, _; split; [|by apply (blob_entry_sha s d')]]; [done|].
      apply Walk_files; [done..|]. split; [by apply under_base|]. exists c. split; [|done].
      by rewrite <- (rep_blob m s HR).
Qed.

(** One operation of the code is one step of the contract. *)
Lemma run_put_step m s x c n a s' :
  represents m s → shot_ok x → sh_op x = OPut c n → run_op (unsplit true base) x s = (a, s') →
  ∃ m', spec_step m (OPut c n) a m' ∧ represents m' s'.
Proof.
  intros HR [Hout _] Ex. unfold run_op. rewrite Ex.
  destruct (PutBlob _ _ _ _ s) as [r s1] eqn:Ep. pose proof (is_digest_sha c) as Hd.
  apply PutBlob_files in Ep as [(e & -> & Hf)|[(c' & Hc' & (t & ->) & Hf)|(_ & Hsz & -> & Hf)]]; [..|done|done|done].
  - intros [= <- <-]. exists m. split; [constructor|]. eapply represents_frame; [|done].
    intros q [Hq He]. apply Hf; [by eapply not_temp|by eapply not_tmp].
  - intros [= <- <-]. exists m. split; [|eapply represents_frame; [|done]; intros q [Hq He]; apply Hf; by eapply not_temp].
    apply spec_put_known. by rewrite (rep_blob m s HR).
  - intros [= <- <-]. exists (<[sha256_hex c := c]> m). split; [by apply spec_put_new|].
    eapply represents_update; [done| |done]. intros q [Hq He].
    apply Hf; [by eapply not_temp|by eapply not_tmp].
Qed.

Lemma run_read_step m s x a s' :
  represents m s → shot_ok x → (∀ c n, sh_op x ≠ OPut c n) → (∀ d, sh_op x ≠ ODelete d) →
  run_op (unsplit true base) x s = (a, s') → s' = s ∧ spec_step m (sh_op x) a m.
Proof.
  intros HR [_ Hd] Hp Hdel. unfold run_op. destruct (sh_op x) as [c n|d|d|d|d|pre page size].
  - by destruct (Hp c n).
  - intros [<- <-]%pair_eq. split; [done|]. unfold GetBlob. rewrite getBlobPath_digest by done.
    destruct (OpenFile _ s) as [c|[]] eqn:Eo; [..|constructor].
    + apply spec_get. rewrite (rep_blob m s HR) by done. by apply (pb_open base Hpriv).
    + apply spec_get_missing. rewrite (rep_blob m s HR) by done.
      destruct (files s !! blob_path base d) eqn:E; [|done]. by destruct (OpenFile_exist (blob_path base d) s).
  - intros [<- <-]%pair_eq. split; [done|]. unfold GetBlobInfo. rewrite getBlobPath_digest by done.
    destruct (StatFile _ s) as [[]|] eqn:Es; cbn [BI_Size]; [|constructor|].
    + apply spec_info_missing. rewrite (rep_blob m s HR) by done. by apply StatFile_missing.
    + destruct (pb_stat base Hpriv s d Hd Es) as [c Hc]. rewrite (StatSize_ok _ _ c Hc).
      apply spec_info. by rewrite (rep_blob m s HR).
  - intros [<- <-]%pair_eq. split; [done|]. unfold ExistsBlob. rewrite getBlobPath_digest by done.
    destruct (StatFile _ s) as [[]|] eqn:Es; [|constructor|].
    + apply StatFile_missing in Es. rewrite <- (rep_blob m s HR) in Es by done.
      pose proof (spec_exists m d) as H. by rewrite Es in H.
    + apply (pb_stat base Hpriv s d Hd) in Es. rewrite <- (rep_blob m s HR) in Es by done.
      pose proof (spec_exists m d) as H. by rewrite bool_decide_true in H.
  - by destruct (Hdel d).
  - destruct (walk_blobs s _) as [bs|] eqn:Ew; intros [<- <-]%pair_eq; (split; [done|]); [|constructor].
    unfold ListBlobs. cbn [LB_Prefix LB_Page LB_PageSize]. rewrite Ew. apply spec_list. by eapply walk_listed.
Qed.

Lemma run_delete_step m s x d a s' :
  represents m s → shot_ok x → sh_op x = ODelete d → run_op (unsplit true base) x s = (a, s') →
  ∃ m', spec_step m (ODelete d) a m' ∧ represents m' s'.
Proof.
  intros HR [_ Hd] Ex. rewrite Ex in Hd. unfold run_op. rewrite Ex. unfold DeleteBlob.
  rewrite getBlobPath_digest by done.
  pose proof (Remove_ok (blob_path base d) s) as H1. pose proof (Remove_missing (blob_path base d) s) as H2.
  pose proof (Remove_err (blob_path base d) s) as H3. destruct (Remove _ s) as [[[]|] s1] eqn:Erm; cbn [fst snd] in *;
    intros [<- <-]%pair_eq.
  - exists m. split; [apply spec_delete_missing; rewrite (rep_blob m s HR) by done; by apply H2|].
    eapply represents_frame; [|done]. intros q _. by rewrite H3.
  - exists m. split; [constructor|]. eapply represents_frame; [|done]. intros q _. by rewrite H3.
  - pose proof (pb_remove base Hpriv s d Hd) as [c Hc]; [by rewrite Erm|]. rewrite <- (rep_blob m s HR) in Hc by done.
    exists (delete d m). split; [by eapply spec_delete|].
    eapply represents_update; [done| |done]. intros q _. by rewrite H1.
Qed.
Lemma run_op_step m s x :
  represents m s → shot_ok x →
  ∃ m', spec_step m (sh_op x) (run_op (unsplit true base) x s).1 m' ∧ represents m' (run_op (unsplit true base) x s).2.
Proof.
  intros HR Hx. destruct (run_op _ x s) as [a s'] eqn:E. cbn [fst snd].
  destruct (sh_op x) as [c n|d|d|d|d|pre page size] eqn:Ex.
  1: by eapply run_put_step.
  4: by eapply run_delete_step.
  all: eapply run_read_step in E as [-> E]; [|done|done|congruence..]; exists m; by rewrite Ex in E.
Qed.

Lemma run_steps m s xs :
  represents m s → Forall shot_ok xs →
  ∃ m', spec_steps m (sh_op <$> xs) (run (unsplit true base) xs s).1 m' ∧ represents m' (run (unsplit true base) xs s).2.
Proof.
  revert m s. induction xs as [|x xs IH]; intros m s HR Hxs; [exists m; split; [constructor|done]|].
  apply Forall_cons_iff in Hxs as [Hx Hxs]. cbn [run fmap list_fmap].
  destruct (run_op_step m s x HR Hx) as (m1 & Hs1 & HR1). destruct (run_op _ x s) as [a s1]. cbn [fst snd] in *.
  destruct (IH m1 s1 HR1 Hxs) as (m2 & Hs2 & HR2). destruct (run _ xs s1) as [rs s2]. cbn [fst snd] in *.
  exists m2. split; [by econstructor|done].
Qed.

(** The contract keeps blobs intact, so the code does. *)
Lemma spec_steps_intact m os rs m' : spec_steps m os rs m' → intact m → intact m'.
Proof.
  induction 1 as [|o a m1 os rs m2 m3 Hs _ IH]; [done|]. intros Hi. apply IH. destruct Hs; try done.
  - by apply map_Forall_insert_2.
  - by apply map_Forall_delete.
Qed.
End refinement.



(** A digest that comes with the request is believed: whatever the content, a
    successful call that stores leaves it under that name. *)
Theorem supplied_digest_believed {S} `{!FileSystem S, !FileSystemLaws S} base temp now d c n ct (s : S) r s' :
  Forall (λ c, segment c = true) base → private_base S base → is_digest d = true →
  PutBlob (unsplit true base) temp now (mkPut d (mkReader c false) n ct) s = (Ok r, s') → PR_AlreadyExists r = false →
  files s' !! blob_path base d = Some c.
Proof.
  intros Hb Hp Hd Hput Hr. unfold PutBlob in Hput. cbn [PB_SHA256 PB_Content PB_Size] in Hput.
  assert (String.eqb d EmptyString = false) as E by (by destruct d). rewrite E in Hput.
  apply (store_blob_files base Hb Hp) in Hput as [(e & [=] & _)|[(_ & _ & [= ->])|(data & _ & [<- _] & _ & _ & Hf)]];
    [done| |done|done].
  rewrite Hf; [apply lookup_insert_eq|]. intros Et. by eapply tmp_path_not_blob.
Qed.

(** ** Pages of a listing *)

Section pages.
Context (blobs : list BlobInfo) (size : Z).
Notation len := (Z.of_nat (length blobs)).
Context (Hsize : 0 < size) (Hroom : len + size <= max_int64).

Definition page_count : Z := (len + size - 1) / size.

Ltac Zify.zify_post_hook ::= Z.div_mod_to_equations.

Lemma page_count_bounds : len <= page_count * size < len + size.
Proof. unfold page_count. nia. Qed.

Lemma paginate_page p :
  1 <= p → (p - 1) * size < len →
  paginate blobs p size =
    Ok (mkListResp (take (Z.to_nat size) (drop (Z.to_nat ((p - 1) * size)) blobs)) len p page_count).
Proof.
  intros Hp Hs. unfold max_int64 in Hroom. unfold paginate.
  assert (0 <= (p - 1) * size) by nia.
  assert ((size <=? 0) = false) as -> by lia. assert ((p <? 1) = false) as -> by lia.
  rewrite (wrap64_id ((p - 1) * size)) by (unfold in_int64, min_int64, max_int64; lia).
  rewrite (wrap64_id (_ + size)) by (unfold in_int64, min_int64, max_int64; lia).
  rewrite (wrap64_id (len + size - 1)) by (unfold in_int64, min_int64, max_int64; lia).
  cbv zeta. assert ((len <=? (p - 1) * size) = false) as -> by lia.
  assert (((p - 1) * size <? 0) = false) as -> by lia. cbn [orb].
  destruct (len <? (p - 1) * size + size) eqn:E; zbool.
  - assert ((len <? (p - 1) * size) = false) as -> by lia.
    rewrite Z.quot_div_nonneg by lia. do 2 f_equal.
    rewrite take_ge, take_ge; [done|rewrite length_drop; lia..].
  - assert (((p - 1) * size + size <? (p - 1) * size) = false) as -> by lia.
    rewrite Z.quot_div_nonneg by lia. do 2 f_equal. f_equal. lia.
Qed.

Definition page_blobs (p : Z) : list BlobInfo :=
  match paginate blobs p size with Ok r => LR_Blobs r | Err _ => [] end.

Lemma first_pages k : Z.of_nat k <= page_count → mbind page_blobs (seqZ 1 (Z.of_nat k)) = take (k * Z.to_nat size) blobs.
Proof.
  pose proof page_count_bounds as Hc.
  induction k as [|k IH]; intros Hk; [done|].
  rewrite Nat2Z.inj_succ, <- Z.add_1_r, seqZ_app, bind_app, IH by lia.
  cbn [seqZ]. change (seqZ (1 + Z.of_nat k) 1) with [0 + (1 + Z.of_nat k)]. cbn [mbind list_bind].
  rewrite app_nil_r. unfold page_blobs.
  assert ((0 + (1 + Z.of_nat k) - 1) * size < len) by nia.
  rewrite paginate_page by lia. cbn [LR_Blobs].
  replace (Z.to_nat ((0 + (1 + Z.of_nat k) - 1) * size)) with (k * Z.to_nat size)%nat by nia.
  rewrite take_take_drop. f_equal. lia.
Qed.
End pages.

(** The pages 1 to [TotalPages] of a listing are full but the last, none is empty,
    and together they are the listing, in its order; a later page is empty. *)
Theorem pages_cover blobs size :
  0 < size → Z.of_nat (length blobs) + size <= max_int64 →
  let pages := page_count blobs size in
  mbind (page_blobs blobs size) (seqZ 1 pages) = blobs ∧
  (∀ p, 1 <= p <= pages → ∃ r, paginate blobs p size = Ok r ∧ LR_TotalPages r = pages ∧
     LR_Total r = Z.of_nat (length blobs) ∧ 0 < Z.of_nat (length (LR_Blobs r)) <= size ∧
     (p < pages → Z.of_nat (length (LR_Blobs r)) = size)) ∧
  (∀ p, pages < p → (p - 1) * size <= max_int64 → paginate blobs p size = Ok (mkListResp [] (Z.of_nat (length blobs)) p pages)).
Proof.
  intros Hs Hr pages. pose proof (page_count_bounds blobs size Hs) as Hc. fold pages in Hc.
  assert (0 <= pages) by nia. split; [|split].
  - rewrite <- (Z2Nat.id pages) by done. rewrite first_pages; [|done|done|by rewrite Z2Nat.id].
    apply take_ge. nia.
  - intros p Hp. assert ((p - 1) * size < Z.of_nat (length blobs)) by nia. eexists.
    split; [apply paginate_page; lia|]. cbn [LR_TotalPages LR_Total LR_Blobs].
    split; [done|]. split; [done|]. rewrite length_take, length_drop. split; [nia|]. intros Hlt. nia.
  - intros p Hp Ho. unfold max_int64 in *. unfold paginate.
    assert ((size <=? 0) = false) as -> by lia. assert ((p <? 1) = false) as -> by lia.
    rewrite (wrap64_id ((p - 1) * size)) by (unfold in_int64, min_int64, max_int64; nia).
    rewrite (wrap64_id (_ + size - 1)) by (unfold in_int64, min_int64, max_int64; lia).
    cbv zeta. assert ((Z.of_nat (length blobs) <=? (p - 1) * size) = true) as -> by nia.
    by rewrite Z.quot_div_nonneg by lia.
Qed.

(** A page number near 2^61 makes the multiplication overflow, and the slice
    expression panics, whatever the storage holds. *)
Theorem huge_page_panics blobs : paginate blobs (2 ^ 61 + 1) 4 = Err SlicePanic.
Proof.
  unfold paginate. cbv zeta. change (4 <=? 0) with false. change (2 ^ 61 + 1 <? 1) with false. cbv iota.
  change (wrap64 ((2 ^ 61 + 1 - 1) * 4)) with (- 9223372036854775808).
  assert ((Z.of_nat (length blobs) <=? - 9223372036854775808) = false) as -> by (apply Z.leb_gt; lia). done.
Qed.

(** ** Witnesses *)

Definition cas_dir : list string := ["srv"; "cas"].
Definition cas_fs : MemFS := mkMem ∅ {["/srv/cas"; "/tmp"]} [].

(** A fault hits the rename of the second upload. *)
Definition cas_shots : list shot :=
  let d := sha256_hex "abc" in
  [mkShot "/tmp/cas-upload-1" 10 (OPut "abc" 3);
   mkShot "/tmp/cas-upload-2" 11 (OPut "abc" 0);
   mkShot "/tmp/cas-upload-3" 12 (OPut "abcd" 9);
   mkShot "/tmp/x" 13 (OGet d);
   mkShot "/tmp/x" 14 (OList "ba78" 1 10);
   mkShot "/tmp/x" 15 (ODelete d);
   mkShot "/tmp/x" 16 (OExists d)].

Example cas_run :
  (run "/srv/cas" cas_shots cas_fs).1 =
  [APut (sha256_hex "abc") 3 false; APut (sha256_hex "abc") 3 true; AFailed; AContent "abc";
   APage (Ok (mkListResp [mkBlob (sha256_hex "abc") 3 0 0 0] 1 1 1)); ADone; ABool false].
Proof. vm_compute. reflexivity. Qed.

Lemma cas_dir_segments : Forall (λ c, segment c = true) cas_dir.
Proof. repeat (apply Forall_cons_iff; split); done. Qed.

Lemma mem_private base : private_base MemFS base.
Proof.
  split; cbn -[blob_path].
  - intros s d c _. unfold mem_read. by case_match; intros [= <-].
  - intros s d _. case_match; [by eauto|done].
  - intros s d _. case_match; [by eauto|done].
  - intros s p. unfold faulty. by repeat case_match.
Qed.

Lemma cas_fs_empty : represents cas_dir ∅ cas_fs.
Proof.
  split; cbn -[blob_path].
  - intros d [? H]. by rewrite lookup_empty in H.
  - intros d _. by rewrite !lookup_empty.
  - intros q _ _ [? H]. by rewrite lookup_empty in H.
Qed.

Lemma cas_shots_ok : Forall (shot_ok cas_dir) cas_shots.
Proof. repeat (apply List.Forall_cons; [split; vm_compute; reflexivity|]). apply List.Forall_nil. Qed.


Definition two_puts : list shot :=
  [mkShot "/tmp/1" 10 (OPut "abc" 3); mkShot "/tmp/2" 11 (OPut "abcd" 0)].


Lemma supplied_digest_believed_witness :
  let put := PutBlob (unsplit true cas_dir) "/tmp/1" 7 (mkPut (sha256_hex "abc") (mkReader "evil" false) 0 EmptyString) cas_fs in
  files put.2 !! blob_path cas_dir (sha256_hex "abc") = Some "evil".
Proof.
  assert (PutBlob (unsplit true cas_dir) "/tmp/1" 7 (mkPut (sha256_hex "abc") (mkReader "evil" false) 0 EmptyString) cas_fs
    = (Ok (mkPutResp (sha256_hex "abc") 4 7 false),
       mkMem {[ blob_path cas_dir (sha256_hex "abc") := "evil" ]}
         {["/srv/cas"; "/tmp"; Dir (blob_path cas_dir (sha256_hex "abc"))]} [])) as E by (vm_compute; reflexivity).
  cbv zeta. rewrite E. cbn [snd].
  exact (supplied_digest_believed cas_dir "/tmp/1" 7 _ _ _ _ cas_fs _ _ cas_dir_segments (mem_private _)
    (is_digest_sha "abc") E eq_refl).
Defined.

Lemma pages_cover_witness :
  let b d := mkBlob d 1 0 0 0 in
  mbind (page_blobs [b "a"; b "b"; b "c"] 2) (seqZ 1 2) = [b "a"; b "b"; b "c"].
Proof. intros b. apply (pages_cover [b "a"; b "b"; b "c"] 2); [done|vm_compute; congruence]. Defined.
