(* ===== verification/HostedAnsible.v ===== *)
(** * HostedAnsible: publishing Ansible collections

    Models [src/internal/adapters/pm/ansible/hosted_driver.go] and
    [src/internal/config/ansible.go]: storing, fetching and deleting collections,
    over the blobs of [Cas] and the metadata repository of
    [src/internal/ports/metadata.go], a class with the laws its statements keep. *)

From Stdlib Require Import Ascii.
From S2P Require Import Prelude GoStrings GoPath GoFS GoHashes Cas AnsibleCollection.

(** ** config/ansible.go *)

Inductive RepositoryType := RepositoryTypeProxy | RepositoryTypeHosted | RepositoryTypeOther (t : string).

Record AnsibleRepositoryConfig := mkConfig {
  cf_Name : string; cf_Type : RepositoryType; cf_Enabled : bool;
  cf_Upstream : string; cf_CacheTTL : duration; cf_CacheEnabled : bool;
  cf_MaxUploadSize : Z; cf_AllowedNamespaces : list string; cf_RequireAuth : bool; cf_AdminUsers : list string
}.

Definition IsProxy (c : AnsibleRepositoryConfig) : bool :=
  match cf_Type c with RepositoryTypeProxy => true | _ => false end.
Definition IsHosted (c : AnsibleRepositoryConfig) : bool :=
  match cf_Type c with RepositoryTypeHosted => true | _ => false end.

Definition IsNamespaceAllowed (c : AnsibleRepositoryConfig) (namespace : string) : bool :=
  match cf_AllowedNamespaces c with
  | [] => true
  | allowed => existsb (λ a, String.eqb a "*" || String.eqb a namespace) allowed
  end.

Definition IsAdminUser (c : AnsibleRepositoryConfig) (username : string) : bool :=
  existsb (λ a, String.eqb a username) (cf_AdminUsers c).

Inductive config_err := NameRequired | BadRepositoryType | UpstreamRequired.

(** [Validate] also gives the default size, 10 MB, to the configuration it is called on. *)
Definition ConfigValidate (c : AnsibleRepositoryConfig) : result config_err AnsibleRepositoryConfig :=
  if String.eqb (cf_Name c) EmptyString then Err NameRequired
  else
    match cf_Type c with
    | RepositoryTypeOther _ => Err BadRepositoryType
    | RepositoryTypeProxy => if String.eqb (cf_Upstream c) EmptyString then Err UpstreamRequired else Ok c
    | RepositoryTypeHosted =>
        if cf_MaxUploadSize c <=? 0 then
          Ok (mkConfig (cf_Name c) (cf_Type c) (cf_Enabled c) (cf_Upstream c) (cf_CacheTTL c) (cf_CacheEnabled c)
                (10 * 1024 * 1024) (cf_AllowedNamespaces c) (cf_RequireAuth c) (cf_AdminUsers c))
        else Ok c
    end.

(** ** ports/metadata.go *)

Record ArtifactMetadata := mkArtifact {
  am_SHA256 : string; am_Size : Z; am_ContentType : string; am_RefCount : Z;
  am_CreatedAt : instant; am_AccessedAt : instant
}.

Record CreateVersionRequest := mkCreate {
  cv_Namespace : string; cv_Name : string; cv_Version : string; cv_ArtifactSHA256 : string;
  cv_License : string; cv_Tags : list string; cv_Authors : list string; cv_Dependencies : gmap string string;
  cv_RepositoryURL : string; cv_DocumentationURL : string; cv_HomepageURL : string; cv_IssuesURL : string;
  cv_RequiresAnsible : string; cv_UploadedBy : string
}.

(** The fields of a stored version that the driver reads. *)
Record CollectionVersion := mkVer { ver_ArtifactSHA256 : string; ver_CreatedAt : instant }.

(** A version is found by namespace, name and version. *)
Definition vkey : Type := string * string * string.

(** [refs] is the reference count of each artifact row, [versions] the digest of each
    version row. *)
Class MetadataRepository (M E : Type) := {
  refs : M → gmap string Z;
  versions : M → gmap vkey string;
  GetArtifact : string → M → result E ArtifactMetadata;
  StoreArtifact : ArtifactMetadata → M → option E * M;
  IncrementRefCount : string → M → option E * M;
  DecrementRefCount : string → M → option E * M;
  GetVersion : vkey → M → result E CollectionVersion;
  CreateVersion : CreateVersionRequest → M → result E CollectionVersion * M;
  DeleteVersion : vkey → M → option E * M
}.

Definition cv_key (r : CreateVersionRequest) : vkey := (cv_Namespace r, cv_Name r, cv_Version r).

(** Each statement succeeds with its effect or fails without one: inserting an
    artifact that is there does nothing, a version is unique, counts stop at zero. *)
Class MetadataLaws (M E : Type) `{!MetadataRepository M E} : Prop := {
  GetArtifact_ok d m a : GetArtifact d m = Ok a → refs m !! d = Some (am_RefCount a);
  StoreArtifact_ok a m : (StoreArtifact a m).1 = None →
    refs (StoreArtifact a m).2 = match refs m !! am_SHA256 a with Some _ => refs m | None => <[am_SHA256 a := am_RefCount a]> (refs m) end;
  StoreArtifact_err a m : (StoreArtifact a m).1 ≠ None → refs (StoreArtifact a m).2 = refs m;
  StoreArtifact_versions a m : versions (StoreArtifact a m).2 = versions m;
  IncrementRefCount_ok d m : (IncrementRefCount d m).1 = None →
    ∃ n, refs m !! d = Some n ∧ refs (IncrementRefCount d m).2 = <[d := n + 1]> (refs m);
  IncrementRefCount_err d m : (IncrementRefCount d m).1 ≠ None → refs (IncrementRefCount d m).2 = refs m;
  IncrementRefCount_versions d m : versions (IncrementRefCount d m).2 = versions m;
  DecrementRefCount_ok d m : (DecrementRefCount d m).1 = None →
    ∃ n, refs m !! d = Some n ∧ refs (DecrementRefCount d m).2 = <[d := if 0 <? n then n - 1 else 0]> (refs m);
  DecrementRefCount_err d m : (DecrementRefCount d m).1 ≠ None → refs (DecrementRefCount d m).2 = refs m;
  DecrementRefCount_versions d m : versions (DecrementRefCount d m).2 = versions m;
  GetVersion_ok k m v : GetVersion k m = Ok v → versions m !! k = Some (ver_ArtifactSHA256 v);
  CreateVersion_ok r m v m' : CreateVersion r m = (Ok v, m') →
    versions m !! cv_key r = None ∧ versions m' = <[cv_key r := cv_ArtifactSHA256 r]> (versions m) ∧ refs m' = refs m;
  CreateVersion_err r m e m' : CreateVersion r m = (Err e, m') → versions m' = versions m ∧ refs m' = refs m;
  DeleteVersion_ok k m m' : DeleteVersion k m = (None, m') →
    is_Some (versions m !! k) ∧ versions m' = delete k (versions m) ∧ refs m' = refs m;
  DeleteVersion_err k m e m' : DeleteVersion k m = (Some e, m') → versions m' = versions m ∧ refs m' = refs m
}.

(** ** hosted_driver.go *)

Record StorePackageRequest := mkStore {
  sp_Content : Reader; sp_Size : Z; sp_SHA256 : string; sp_UploadedBy : string
}.

Record StorePackageResponse := mkStoreResp {
  sr_SHA256 : string; sr_Size : Z; sr_StoredAt : instant; sr_PackagePath : string
}.

Record GetPackageResponse := mkGetResp {
  gp_Content : string; gp_Size : Z; gp_SHA256 : string; gp_Namespace : string; gp_Name : string; gp_Version : string
}.

Inductive driver_err (E : Type) :=
| Rejected (e : ansible_err)
| ReadFailed
| NamespaceNotAllowed (namespace : string)
| BlobFailed (e : cas_err)
| ArtifactFailed (e : E)
| VersionFailed (e : E)
| VersionNotFound (e : E)
| BadCollectionName (name : string).
Arguments Rejected {E} e.
Arguments ReadFailed {E}.
Arguments NamespaceNotAllowed {E} namespace.
Arguments BlobFailed {E} e.
Arguments ArtifactFailed {E} e.
Arguments VersionFailed {E} e.
Arguments VersionNotFound {E} e.
Arguments BadCollectionName {E} name.

Definition parseCollectionName (fullName : string) : option (string * string) :=
  match Split fullName "." with [ns; name] => Some (ns, name) | _ => None end.

Section driver.
Context {S : Type} `{!FileSystem S} {M E : Type} `{!MetadataRepository M E} `{!Archive}.
Context (iter : gmap string string → list (string * string)).
Context (basePath : string) (config : AnsibleRepositoryConfig).

(** The two stores the driver works on. *)
Notation world := (M * S)%type.

(** [NewHostedDriver]'s validator. *)
Definition validator : TarballValidator := NewTarballValidator (cf_MaxUploadSize config).

(** Steps 1 to 5: what is checked before anything is written. *)
Definition check_upload (req : StorePackageRequest) : result (driver_err E) Manifest :=
  match ValidateSize validator (sp_Size req) with
  | Some e => Err (Rejected e)
  | None =>
      if rd_fails (sp_Content req) then Err ReadFailed
      else
        let content := rd_data (sp_Content req) in
        match ParseManifestFromTarball iter content with
        | Err e => Err (Rejected e)
        | Ok manifest =>
            if negb (IsNamespaceAllowed config (Namespace manifest)) then Err (NamespaceNotAllowed (Namespace manifest))
            else
              match ValidateStructure validator content with
              | Some e => Err (Rejected e)
              | None => Ok manifest
              end
        end
  end.

(** Steps 6 and 7: the blob, and the row of a new blob.  One instant stands for the
    readings of the clock, which are only stored. *)
Definition store_artifact (temp : string) (now : instant) (req : StorePackageRequest) (w : world) :
    result (driver_err E) PutBlobResponse * world :=
  let '(m, s) := w in
  match PutBlob basePath temp now
          (mkPut (sp_SHA256 req) (mkReader (rd_data (sp_Content req)) false) 0 EmptyString) s with
  | (Err e, s) => (Err (BlobFailed e), (m, s))
  | (Ok putResp, s) =>
      if PR_AlreadyExists putResp then (Ok putResp, (m, s))
      else
        match StoreArtifact (mkArtifact (PR_SHA256 putResp) (sp_Size req) "application/gzip" 0 now now) m with
        | (Some e, m) => (Err (ArtifactFailed e), (m, s))
        | (None, m) => (Ok putResp, (m, s))
        end
  end.

Definition version_request (manifest : Manifest) (sha256 uploadedBy : string) : CreateVersionRequest :=
  mkCreate (Namespace manifest) (Name manifest) (Version manifest) sha256
    (Join (License manifest) ", ") (Tags manifest) (Authors manifest) (Dependencies manifest)
    (Repository manifest) (Documentation manifest) (Homepage manifest) (Issues manifest)
    (RequiresAnsible manifest) uploadedBy.

(** Steps 8 to 10: the version, and the reference to the blob. *)
Definition publish_version (req : StorePackageRequest) (manifest : Manifest) (sha256 : string) (w : world) :
    result (driver_err E) StorePackageResponse * world :=
  let '(m, s) := w in
  match GetVersion (Namespace manifest, Name manifest, Version manifest) m with
  | Ok _ => (Err (Rejected ErrVersionAlreadyExists), w)
  | Err _ =>
      match CreateVersion (version_request manifest sha256 (sp_UploadedBy req)) m with
      | (Err e, m) => (Err (VersionFailed e), (m, s))
      | (Ok version, m) =>
          let m := (IncrementRefCount sha256 m).2 in
          (Ok (mkStoreResp sha256 (sp_Size req) (ver_CreatedAt version)
                 (Filename (mkCollection (Namespace manifest) (Name manifest) (Version manifest) None sha256 0))), (m, s))
      end
  end.

Definition StorePackage (temp : string) (now : instant) (req : StorePackageRequest) (w : world) :
    result (driver_err E) StorePackageResponse * world :=
  match check_upload req with
  | Err e => (Err e, w)
  | Ok manifest =>
      match store_artifact temp now req w with
      | (Err e, w) => (Err e, w)
      | (Ok putResp, w) => publish_version req manifest (PR_SHA256 putResp) w
      end
  end.

Definition GetPackage (reqName reqVersion : string) (w : world) : result (driver_err E) GetPackageResponse :=
  let '(m, s) := w in
  match parseCollectionName reqName with
  | None => Err (BadCollectionName reqName)
  | Some (namespace, name) =>
      match GetVersion (namespace, name, reqVersion) m with
      | Err e => Err (VersionNotFound e)
      | Ok version =>
          match GetBlob basePath (ver_ArtifactSHA256 version) s with
          | Err e => Err (BlobFailed e)
          | Ok content =>
              let size := match GetArtifact (ver_ArtifactSHA256 version) m with Ok a => am_Size a | Err _ => 0 end in
              Ok (mkGetResp content size (ver_ArtifactSHA256 version) namespace name reqVersion)
          end
      end
  end.

(** Steps 3 and 4: the reference, and the blob that nothing refers to any more. *)
Definition drop_reference (sha256 : string) (w : world) : world :=
  let '(m, s) := w in
  let m := (DecrementRefCount sha256 m).2 in
  match GetArtifact sha256 m with
  | Ok a => if am_RefCount a =? 0 then (m, (DeleteBlob basePath sha256 s).2) else (m, s)
  | Err _ => (m, s)
  end.

Definition DeletePackage (reqName reqVersion : string) (w : world) : option (driver_err E) * world :=
  let '(m, s) := w in
  match parseCollectionName reqName with
  | None => (Some (BadCollectionName reqName), w)
  | Some (namespace, name) =>
      match GetVersion (namespace, name, reqVersion) m with
      | Err e => (Some (VersionNotFound e), w)
      | Ok version =>
          match DeleteVersion (namespace, name, reqVersion) m with
          | (Some e, m) => (Some (VersionFailed e), (m, s))
          | (None, m) => (None, drop_reference (ver_ArtifactSHA256 version) (m, s))
          end
      end
  end.

(** A sequence of requests, each with what the system picks for it. *)
Inductive request :=
| RStore (temp : string) (now : instant) (req : StorePackageRequest)
| RDelete (name version : string).

Definition serve (r : request) (w : world) : world :=
  match r with
  | RStore temp now req => (StorePackage temp now req w).2
  | RDelete name version => (DeletePackage name version w).2
  end.
End driver.

(** [NewHostedDriver]: the configuration is validated, in place, and must be hosted. *)
Definition NewHostedDriver (config : AnsibleRepositoryConfig) : option AnsibleRepositoryConfig :=
  match ConfigValidate config with
  | Err _ => None
  | Ok config => if IsHosted config then Some config else None
  end.

(** ** What happens to the blobs *)

Section blobs.
Context {S : Type} `{!FileSystem S, !FileSystemLaws S} (base : list string).
Context (Hbase : Forall (λ c, segment c = true) base) (Hpriv : private_base S base).

(** The digest of a request: computed, or believed. *)
Definition put_digest (sha256 content : string) : string :=
  if String.eqb sha256 EmptyString then sha256_hex content else sha256.

Definition digest_ok (sha256 : string) : Prop := sha256 = EmptyString ∨ is_digest sha256 = true.

Lemma put_digest_ok sha256 content : digest_ok sha256 → is_digest (put_digest sha256 content) = true.
Proof.
  unfold put_digest. intros [->|H]; [apply is_digest_sha|].
  destruct (String.eqb_spec sha256 EmptyString); [apply is_digest_sha|done].
Qed.

Definition same_blobs (s s' : S) : Prop :=
  ∀ d, is_digest d = true → files s' !! blob_path base d = files s !! blob_path base d.

(** The effect of [PutBlob] on the blobs, whether the digest is computed or given. *)
Lemma PutBlob_blobs temp now sha256 content ct s r s' :
  outside base temp → digest_ok sha256 →
  PutBlob (unsplit true base) temp now (mkPut sha256 (mkReader content false) 0 ct) s = (r, s') →
  match r with
  | Err _ => same_blobs s s'
  | Ok resp =>
      PR_SHA256 resp = put_digest sha256 content ∧
      if PR_AlreadyExists resp then same_blobs s s' ∧ is_Some (files s !! blob_path base (PR_SHA256 resp))
      else ∀ d, is_digest d = true →
        files s' !! blob_path base d = <[blob_path base (PR_SHA256 resp) := content]> (files s) !! blob_path base d
  end.
Proof.
  intros Hout Hsha Hput. pose proof (put_digest_ok sha256 content Hsha) as Hd. unfold put_digest in *.
  assert (∀ d, is_digest d = true → blob_path base d ≠ temp) as Hnt by (intros d _ E; symmetry in E; by eapply outside_ne in E).
  assert (∀ d d', is_digest d = true → is_digest d' = true → blob_path base d ≠ tmp_path base d') as Hnp
    by (intros d d' H1 H2 E; symmetry in E; by eapply tmp_path_not_blob in E).
  destruct (String.eqb_spec sha256 EmptyString) as [->|Hn].
  - apply (PutBlob_files base Hbase Hpriv) in Hput as [(e & -> & Hf)|[(c' & Hc & (t & ->) & Hf)|(_ & _ & -> & Hf)]]; [..|done].
    + intros d Hd'. apply Hf; auto.
    + cbn [PR_SHA256 PR_AlreadyExists]. split; [done|]. split; [|by eexists]. intros d Hd'. apply Hf; auto.
    + cbn [PR_SHA256 PR_AlreadyExists]. split; [done|]. intros d Hd'. apply Hf; auto.
  - unfold PutBlob in Hput. cbn [PB_SHA256 PB_Content PB_Size] in Hput. apply String.eqb_neq in Hn as En. rewrite En in Hput.
    apply (store_blob_files base Hbase Hpriv) in Hput
      as [(e & -> & Hf)|[(Hst & -> & ->)|(data & _ & [<- _] & _ & -> & Hf)]]; [..|done|done].
    + intros d Hd'. apply Hf; auto.
    + cbn [PR_SHA256 PR_AlreadyExists]. split; [done|]. split; [done|]. by apply (pb_stat base Hpriv).
    + cbn [PR_SHA256 PR_AlreadyExists]. split; [done|]. intros d Hd'. apply Hf; auto.
Qed.

Lemma DeleteBlob_blobs d d' s :
  is_digest d = true → is_digest d' = true → d' ≠ d →
  files (DeleteBlob (unsplit true base) d s).2 !! blob_path base d' = files s !! blob_path base d'.
Proof.
  intros Hd Hd' Hne. unfold DeleteBlob. rewrite getBlobPath_digest by done.
  pose proof (frame_remove (blob_path base d) s (blob_path base d')) as Hf.
  destruct (Remove _ s) as [[[]|] s1]; cbn [snd] in *; apply Hf; intros E; by apply blob_path_inj in E.
Qed.

Lemma DeleteBlob_subset d d' s :
  is_digest d = true → is_digest d' = true →
  is_Some (files (DeleteBlob (unsplit true base) d s).2 !! blob_path base d') → is_Some (files s !! blob_path base d').
Proof.
  intros Hd Hd'. destruct (decide (d' = d)) as [->|Hne]; [|by rewrite DeleteBlob_blobs].
  unfold DeleteBlob. rewrite getBlobPath_digest by done.
  pose proof (Remove_ok (blob_path base d) s) as H1. pose proof (Remove_err (blob_path base d) s) as H2.
  destruct (Remove _ s) as [[[]|] s1]; cbn [fst snd] in *; [by rewrite H2..|].
  rewrite H1 by done. rewrite lookup_delete_eq. by intros [? ?].
Qed.
End blobs.

(** ** Published versions stay available *)

Section available.
Context {S : Type} `{!FileSystem S, !FileSystemLaws S} {M E : Type} `{!MetadataRepository M E, !MetadataLaws M E}.
Context {AR : Archive} (iter : gmap string string → list (string * string)).
Context (base : list string) (Hbase : Forall (λ c, segment c = true) base) (Hpriv : private_base S base).
Context (config : AnsibleRepositoryConfig).

Implicit Types (m : M) (s : S) (w : M * S).

(** How many versions refer to an artifact. *)
Definition users (vs : gmap vkey string) (d : string) : nat := size (filter (λ x, x.2 = d) vs).

Lemma users_insert vs k d d' :
  vs !! k = None → users (<[k := d]> vs) d' = ((if decide (d = d') then 1 else 0) + users vs d')%nat.
Proof.
  intros Hk. unfold users. destruct (decide (d = d')) as [Hd|Hd].
  - rewrite map_filter_insert_True by done. rewrite map_size_insert_None; [done|].
    apply map_lookup_filter_None. by left.
  - rewrite map_filter_insert_False by done. by rewrite delete_id.
Qed.

Lemma users_delete vs k d d' :
  vs !! k = Some d → (users (delete k vs) d' + (if decide (d = d') then 1 else 0) = users vs d')%nat.
Proof.
  intros Hk. rewrite <- (insert_delete_id vs k d) at 2 by done.
  rewrite users_insert by apply lookup_delete_eq. lia.
Qed.

Lemma users_0 vs k d : users vs d = 0%nat → vs !! k ≠ Some d.
Proof.
  unfold users. intros H Hk. apply map_size_empty_inv in H.
  assert (filter (λ x, x.2 = d) vs !! k = Some d) as Ef by (by apply map_lookup_filter_Some).
  by rewrite H, lookup_empty in Ef.
Qed.

Lemma users_none vs d : (∀ k, vs !! k ≠ Some d) → users vs d = 0%nat.
Proof.
  intros H. unfold users. apply map_size_empty_iff, map_empty. intros k.
  apply map_lookup_filter_None. right. intros x Hx Hd. cbn in Hd. subst. by apply (H k).
Qed.

(** Every version has its blob, no count is below the number of versions, and every
    blob has a row. *)
Record available w : Prop := {
  av_blob k d : versions w.1 !! k = Some d → is_digest d = true ∧ is_Some (files w.2 !! blob_path base d);
  av_count d n : refs w.1 !! d = Some n → Z.of_nat (users (versions w.1) d) <= n;
  av_row d : is_digest d = true → is_Some (files w.2 !! blob_path base d) → is_Some (refs w.1 !! d)
}.

(** The two statements whose failure the driver does not undo: the row of a new blob,
    and the reference of a new version (its error is only logged). *)
Record reliable : Prop := {
  rl_store a m : (StoreArtifact a m).1 = None;
  rl_increment d m : is_Some (refs m !! d) → (IncrementRefCount d m).1 = None
}.

Definition request_ok (r : request) : Prop :=
  match r with RStore temp _ req => outside base temp ∧ digest_ok (sp_SHA256 req) | RDelete _ _ => True end.

Lemma available_same_blobs m s s' : same_blobs base s s' → available (m, s) → available (m, s').
Proof.
  intros Hs [H1 H2 H3]. split; cbn [fst snd] in *.
  - intros k d Hk. destruct (H1 k d Hk) as [Hd Hf]. split; [done|]. by rewrite Hs.
  - done.
  - intros d Hd Hf. apply H3; [done|]. by rewrite <- Hs.
Qed.

Lemma store_artifact_available temp now req w r w' :
  reliable → outside base temp → digest_ok (sp_SHA256 req) → available w →
  store_artifact (unsplit true base) temp now req w = (r, w') →
  available w' ∧ ∀ resp, r = Ok resp →
    is_digest (PR_SHA256 resp) = true ∧ is_Some (files w'.2 !! blob_path base (PR_SHA256 resp)).
Proof.
  intros Hrel Hout Hsha Hav. destruct w as [m s]. unfold store_artifact.
  destruct (PutBlob _ _ _ _ s) as [[resp|e] s1] eqn:Ep; apply (PutBlob_blobs base Hbase Hpriv _ _ _ _ _ _ _ _ Hout Hsha) in Ep;
    cbv beta iota in Ep.
  2: { intros [= <- <-]. split; [|done]. by eapply available_same_blobs. }
  destruct Ep as [Hresp Hp]. assert (is_digest (PR_SHA256 resp) = true) as Hd by (rewrite Hresp; by apply put_digest_ok).
  clear Hresp. destruct (PR_AlreadyExists resp).
  { destruct Hp as [Hs Hex]. intros [= <- <-]. split; [by eapply available_same_blobs|].
    intros ? [= <-]. split; [done|]. cbn [snd]. by rewrite Hs. }
  set (a := mkArtifact _ _ _ _ _ _).
  pose proof (rl_store Hrel a m) as Hst. pose proof (StoreArtifact_ok a m Hst) as Hrefs.
  pose proof (StoreArtifact_versions a m) as Hvers. destruct (StoreArtifact a m) as [o m1]. cbn [fst snd am_SHA256 am_RefCount a] in Hst, Hrefs, Hvers. subst o.
  intros [= <- <-]. destruct Hav as [H1 H2 H3]. cbn [fst snd] in *.
  assert (is_Some (refs m1 !! PR_SHA256 resp)) as Hrow.
  { rewrite Hrefs. destruct (refs m !! PR_SHA256 resp) eqn:Er; [by rewrite Er|]. by rewrite lookup_insert_eq. }
  assert (is_Some (files s1 !! blob_path base (PR_SHA256 resp))) as Hblob by (rewrite Hp, lookup_insert_eq by done; eauto).
  split; [split; cbn [fst snd]|by intros ? [= <-]].
  - intros k d Hk. rewrite Hvers in Hk. destruct (H1 k d Hk) as [Hdd Hf]. split; [done|]. rewrite Hp by done.
    destruct (decide (blob_path base (PR_SHA256 resp) = blob_path base d)) as [->|Hne];
      [rewrite lookup_insert_eq; eauto|by rewrite lookup_insert_ne].
  - intros d n Hn. rewrite Hvers. rewrite Hrefs in Hn.
    destruct (refs m !! PR_SHA256 resp) eqn:Er; [by apply H2|].
    destruct (decide (d = PR_SHA256 resp)) as [->|Hne]; [|rewrite lookup_insert_ne in Hn by done; by apply H2].
    rewrite lookup_insert_eq in Hn. simplify_eq. rewrite users_none; [done|]. intros k Hk.
    destruct (H1 k _ Hk) as [_ Hf]. destruct (H3 _ Hd Hf) as [? ?]. congruence.
  - intros d Hdd Hf. destruct (decide (d = PR_SHA256 resp)) as [->|Hne]; [done|].
    rewrite Hp in Hf by done. rewrite lookup_insert_ne in Hf by (intros Eq; by apply blob_path_inj in Eq).
    destruct (H3 d Hdd Hf) as [n Hn]. rewrite Hrefs. destruct (refs m !! PR_SHA256 resp); [eauto|].
    rewrite lookup_insert_ne by done. eauto.
Qed.

Lemma publish_available req manifest d w :
  reliable → available w → is_digest d = true → is_Some (files w.2 !! blob_path base d) →
  available (publish_version req manifest d w).2.
Proof.
  intros Hrel Hav Hd Hf. destruct w as [m s]. unfold publish_version.
  destruct (GetVersion _ m); [done|]. set (q := version_request _ _ _).
  destruct (CreateVersion q m) as [[v|e'] m1] eqn:Ec.
  2: { apply CreateVersion_err in Ec as [Hv Hr]. destruct Hav as [H1 H2 H3]. split; cbn [fst snd] in *; rewrite ?Hv, ?Hr; done. }
  apply CreateVersion_ok in Ec as (Hk & Hv & Hr). change (cv_ArtifactSHA256 q) with d in Hv.
  destruct Hav as [H1 H2 H3]. cbn [fst snd] in *. destruct (H3 d Hd Hf) as [n Hn].
  pose proof (rl_increment Hrel d m1) as Hi. rewrite Hr in Hi. specialize (Hi ltac:(eauto)).
  apply IncrementRefCount_ok in Hi as (n' & Hn' & Hr2). pose proof (IncrementRefCount_versions d m1) as Hv2.
  rewrite Hr in *. simplify_eq. split; cbn [fst snd]; rewrite ?Hv2, ?Hr2, ?Hv.
  - intros k x Hx. apply lookup_insert_Some in Hx as [[_ <-]|[_ Hx]]; [done|by apply (H1 k)].
  - intros x nx Hx. rewrite users_insert by done.
    destruct (decide (d = x)) as [<-|Hne].
    + rewrite lookup_insert_eq in Hx. simplify_eq. specialize (H2 _ _ Hn). lia.
    + rewrite lookup_insert_ne in Hx by done. by apply H2.
  - intros x Hx Hxf. destruct (decide (d = x)) as [<-|Hne]; [rewrite lookup_insert_eq; eauto|].
    rewrite lookup_insert_ne by done. by apply H3.
Qed.
Lemma drop_reference_available m1 m s k d :
  available (m, s) → versions m !! k = Some d →
  versions m1 = delete k (versions m) → refs m1 = refs m →
  available (drop_reference (unsplit true base) d (m1, s)).
Proof.
  intros [H1 H2 H3] Hk Hv Hr. cbn [fst snd] in *. destruct (H1 k d Hk) as [Hd Hf].
  destruct (H3 d Hd Hf) as [n Hn]. pose proof (H2 d n Hn) as Hle.
  pose proof (λ x, users_delete (versions m) k d x Hk) as Hu.
  assert (∀ x, is_Some (refs (DecrementRefCount d m1).2 !! x) ↔ is_Some (refs m !! x)) as Hdom.
  { intros x. destruct (DecrementRefCount d m1).1 eqn:Ed.
    - by rewrite DecrementRefCount_err, Hr by (by rewrite Ed).
    - apply DecrementRefCount_ok in Ed as (n' & Hn' & ->). rewrite Hr in *.
      destruct (decide (d = x)) as [<-|Hne]; [rewrite lookup_insert_eq, Hn; split; eauto|by rewrite lookup_insert_ne]. }
  assert (∀ x nx, refs (DecrementRefCount d m1).2 !! x = Some nx → Z.of_nat (users (versions m1) x) <= nx) as Hcount.
  { intros x nx. specialize (Hu x). rewrite Hv. destruct (DecrementRefCount d m1).1 eqn:Ed.
    - rewrite DecrementRefCount_err, Hr by (by rewrite Ed). intros Hx. specialize (H2 x nx Hx). lia.
    - apply DecrementRefCount_ok in Ed as (n' & Hn' & ->). rewrite Hr in *. simplify_eq.
      specialize (Hu). destruct (decide (d = x)) as [<-|Hne].
      + rewrite lookup_insert_eq. intros [= <-]. destruct (0 <? n) eqn:E0; zbool; lia.
      + rewrite lookup_insert_ne by done. intros Hx. specialize (H2 x nx Hx). lia. }
  assert (∀ k' d', versions m1 !! k' = Some d' → is_digest d' = true ∧ is_Some (files s !! blob_path base d')) as Hblob.
  { intros k' d'. rewrite Hv, lookup_delete_Some. intros [_ Hk']. by eapply H1. }
  unfold drop_reference. pose proof (DecrementRefCount_versions d m1) as Hv2.
  destruct (DecrementRefCount d m1) as [o m2] eqn:Edec. cbn [fst snd] in *.
  assert (available (m2, s)) as Hav.
  { split; cbn [fst snd]; rewrite ?Hv2; [done..|]. intros x Hx Hxf. apply Hdom. by apply H3. }
  destruct (GetArtifact d m2) as [a|] eqn:Ea; [|done]. destruct (am_RefCount a =? 0) eqn:E0; [|done]. zbool.
  apply GetArtifact_ok in Ea. specialize (Hcount d _ Ea). split; cbn [fst snd]; rewrite ?Hv2.
  - intros k' d' Hk'. destruct (Hblob k' d' Hk') as [Hd' Hf']. split; [done|].
    rewrite DeleteBlob_blobs; [done..|]. intros ->. apply (users_0 _ k') in Hk'; [done|]. lia.
  - intros x nx Hx. apply (av_count _ Hav x nx) in Hx. cbn [fst] in Hx. by rewrite Hv2 in Hx.
  - intros x Hx Hxf. apply DeleteBlob_subset in Hxf; [|done..]. by apply (av_row _ Hav).
Qed.

Lemma serve_available r w :
  reliable → request_ok r → available w → available (serve iter (unsplit true base) config r w).
Proof.
  intros Hrel Hr Hav. destruct r as [temp now req|name v]; cbn [serve].
  - destruct Hr as [Hout Hsha]. unfold StorePackage. destruct (check_upload _ _ _) as [manifest|]; [|done].
    destruct (store_artifact _ _ _ _ w) as [[resp|] w'] eqn:Es;
      pose proof (store_artifact_available _ _ _ _ _ _ Hrel Hout Hsha Hav Es) as [Hav' Hp]; [|done].
    destruct (Hp resp eq_refl). by apply publish_available.
  - destruct w as [m s]. unfold DeletePackage. destruct (parseCollectionName name) as [[ns nm]|]; [|done].
    destruct (GetVersion (ns, nm, v) m) as [ver|] eqn:Eg; [|done]. apply GetVersion_ok in Eg.
    destruct (DeleteVersion (ns, nm, v) m) as [[e'|] m1] eqn:Ed.
    + apply DeleteVersion_err in Ed as [Hv Hrf]. destruct Hav as [H1 H2 H3].
      split; cbn [fst snd] in *; rewrite ?Hv, ?Hrf; done.
    + apply DeleteVersion_ok in Ed as (_ & Hv & Hrf). by eapply drop_reference_available.
Qed.

Lemma serve_all_available rs w :
  reliable → Forall request_ok rs → available w →
  available (fold_left (λ w r, serve iter (unsplit true base) config r w) rs w).
Proof.
  intros Hrel Hrs. revert w. induction Hrs as [|r rs Hr _ IH]; intros w Hav; [done|]. cbn [fold_left].
  by apply IH, serve_available.
Qed.
End available.


(** *** Uploads *)

(** A successful upload was within the size limit, readable, of an allowed
    namespace, with a valid manifest in a tarball of accepted structure; and it
    records the version under the names of the manifest, which was not there. *)
Theorem StorePackage_checked {S M E} `{!FileSystem S, !MetadataRepository M E, !MetadataLaws M E} {AR : Archive}
    iter basePath config temp now req (w : M * S) resp w' :
  StorePackage iter basePath config temp now req w = (Ok resp, w') →
  let content := rd_data (sp_Content req) in
  ∃ manifest,
    sp_Size req <= cf_MaxUploadSize config ∧ rd_fails (sp_Content req) = false ∧
    ParseManifestFromTarball iter content = Ok manifest ∧ ManifestValidate iter manifest = None ∧
    IsNamespaceAllowed config (Namespace manifest) = true ∧
    ValidateStructure (validator config) content = None ∧
    let k := (Namespace manifest, Name manifest, Version manifest) in
    versions w.1 !! k = None ∧ versions w'.1 = <[k := sr_SHA256 resp]> (versions w.1).
Proof.
  intros H content. unfold StorePackage, check_upload in H. fold content in H.
  unfold ValidateSize, validator in H. cbn [MaxSize] in H.
  destruct (cf_MaxUploadSize config <? sp_Size req) eqn:Esz; zbool; [done|].
  destruct (rd_fails _) eqn:Efl; [done|]. destruct (ParseManifestFromTarball _ _) as [manifest|] eqn:Em; [|done].
  destruct (IsNamespaceAllowed _ _) eqn:En; cbn [negb] in H; [|done].
  destruct (ValidateStructure _ _) eqn:Ev; [done|]. exists manifest.
  split; [done|]. split; [done|]. split; [done|]. split.
  { unfold ParseManifestFromTarball in Em. destruct (ts_gzip _); [|done]. cbn [negb] in Em.
    destruct (find_manifest _ _); [|done]. unfold ParseManifest in Em. destruct (yaml_unmarshal _); [|done].
    destruct (ManifestValidate _ _) eqn:Emv; [done|]. by injection Em as <-. }
  split; [done|]. split; [done|]. destruct w as [m s]. unfold store_artifact in H.
  destruct (PutBlob _ _ _ _ s) as [[pr|] s1]; [|done].
  assert (∀ m1, versions m1 = versions m → publish_version req manifest (PR_SHA256 pr) (m1, s1) = (Ok resp, w') →
    versions m !! (Namespace manifest, Name manifest, Version manifest) = None ∧
    versions w'.1 = <[(Namespace manifest, Name manifest, Version manifest) := sr_SHA256 resp]> (versions m)) as Hpub.
  { intros m1 Hm1. unfold publish_version. destruct (GetVersion _ m1); [done|].
    destruct (CreateVersion _ m1) as [[ver|] m2] eqn:Ec; [|done].
    apply CreateVersion_ok in Ec as (Hk & Hv & _). intros [= <- <-]. cbn [fst sr_SHA256].
    rewrite IncrementRefCount_versions, Hv, Hm1. split; [by rewrite <- Hm1|done]. }
  destruct (PR_AlreadyExists pr); [by apply Hpub in H|].
  pose proof (StoreArtifact_versions (mkArtifact (PR_SHA256 pr) (sp_Size req) "application/gzip" 0 now now) m) as Hsv.
  destruct (StoreArtifact _ m) as [[|] m1]; [done|]. by apply Hpub in H.
Qed.

(** ** A repository in memory, for the witnesses *)

Record MemRepo := mkRepo { mr_refs : gmap string Z; mr_versions : gmap vkey string }.

#[export] Instance mem_repo : MetadataRepository MemRepo unit := {
  refs := mr_refs;
  versions := mr_versions;
  GetArtifact d m :=
    match mr_refs m !! d with Some n => Ok (mkArtifact d 0 "application/gzip" n 0 0) | None => Err () end;
  StoreArtifact a m :=
    (None, match mr_refs m !! am_SHA256 a with
           | Some _ => m
           | None => mkRepo (<[am_SHA256 a := am_RefCount a]> (mr_refs m)) (mr_versions m)
           end);
  IncrementRefCount d m :=
    match mr_refs m !! d with Some n => (None, mkRepo (<[d := n + 1]> (mr_refs m)) (mr_versions m)) | None => (Some (), m) end;
  DecrementRefCount d m :=
    match mr_refs m !! d with
    | Some n => (None, mkRepo (<[d := if 0 <? n then n - 1 else 0]> (mr_refs m)) (mr_versions m))
    | None => (Some (), m)
    end;
  GetVersion k m := match mr_versions m !! k with Some d => Ok (mkVer d 0) | None => Err () end;
  CreateVersion r m :=
    match mr_versions m !! cv_key r with
    | Some _ => (Err (), m)
    | None => (Ok (mkVer (cv_ArtifactSHA256 r) 0), mkRepo (mr_refs m) (<[cv_key r := cv_ArtifactSHA256 r]> (mr_versions m)))
    end;
  DeleteVersion k m :=
    match mr_versions m !! k with
    | Some _ => (None, mkRepo (mr_refs m) (delete k (mr_versions m)))
    | None => (Some (), m)
    end
}.

#[export] Instance mem_repo_laws : MetadataLaws MemRepo unit.
Proof.
  split; intros; cbn in *; repeat case_match; simplify_eq/=; eauto.
  all: eexists; split; [done|]; by repeat case_match.
Qed.

Lemma mem_repo_reliable : reliable (M := MemRepo) (E := unit).
Proof. split; [done|]. intros d m [n Hn]. cbn in *. by rewrite Hn. Qed.

Definition demo_config : AnsibleRepositoryConfig :=
  mkConfig "collections" RepositoryTypeHosted true EmptyString 0 false 1000 ["acme"] true ["root"].

Definition empty_world : MemRepo * MemFS := (mkRepo ∅ ∅, cas_fs).

Lemma empty_world_available : available cas_dir empty_world.
Proof.
  split; cbn.
  - intros k d Hk. by rewrite lookup_empty in Hk.
  - intros d n Hn. by rewrite lookup_empty in Hn.
  - intros d _ [? H]. by rewrite lookup_empty in H.
Qed.

Definition demo_upload (version sha256 : string) : StorePackageRequest :=
  mkStore (mkReader version false) 500 sha256 "ann".

Definition demo_requests : list request :=
  [RStore "/tmp/1" 10 (demo_upload "1.0.0" EmptyString); RStore "/tmp/2" 20 (demo_upload "1.0.1" EmptyString);
   RStore "/tmp/3" 30 (demo_upload "1.0.0" EmptyString); RDelete "acme.web" "1.0.0"].


Lemma StorePackage_checked_witness :
  let '(r, w') := StorePackage map_to_list "/srv/cas" demo_config "/tmp/1" 10 (demo_upload "1.0.0" EmptyString) empty_world in
  ∃ resp, r = Ok resp ∧ ∃ manifest,
    500 <= 1000 ∧ rd_fails (mkReader "1.0.0" false) = false ∧
    ParseManifestFromTarball map_to_list "1.0.0" = Ok manifest ∧ ManifestValidate map_to_list manifest = None ∧
    IsNamespaceAllowed demo_config (Namespace manifest) = true ∧
    ValidateStructure (validator demo_config) "1.0.0" = None ∧
    let k := (Namespace manifest, Name manifest, Version manifest) in
    versions empty_world.1 !! k = None ∧ versions w'.1 = <[k := sr_SHA256 resp]> (versions empty_world.1).
Proof.
  destruct (StorePackage _ _ _ _ _ _ empty_world) as [[resp|] w'] eqn:E; [|vm_compute in E; discriminate].
  exists resp. split; [done|].
  exact (StorePackage_checked map_to_list "/srv/cas" demo_config "/tmp/1" 10 (demo_upload "1.0.0" EmptyString)
    empty_world resp w' E).
Defined.

(** Two requests on one content: an upload that has found its blob present, a
    deletion of the version that held it, then the rest of the upload.  Both succeed,
    and the published version has lost its blob. *)
Theorem upload_delete_race :
  let upload := demo_upload "1.0.0" EmptyString in
  let w0 := (StorePackage map_to_list "/srv/cas" demo_config "/tmp/1" 10 upload empty_world).2 in
  match check_upload (E := unit) map_to_list demo_config upload, store_artifact "/srv/cas" "/tmp/2" 20 upload w0 with
  | Ok manifest, (Ok put, w1) =>
      let '(deleted, w2) := DeletePackage "/srv/cas" "acme.web" "1.0.0" w1 in
      let '(published, w3) := publish_version upload manifest (PR_SHA256 put) w2 in
      PR_AlreadyExists put = true ∧ deleted = None ∧ is_ok published = true ∧
      GetPackage "/srv/cas" "acme.web" "1.0.0" w3 = Err (BlobFailed (BlobNotFound (PR_SHA256 put)))
  | _, _ => False
  end.
Proof. vm_compute. repeat split. Qed.

(** An upload that claims the digest of another package is accepted, its content
    is thrown away, and fetching it gives the other package. *)
Theorem claimed_digest_hijacks :
  let w1 := (StorePackage map_to_list "/srv/cas" demo_config "/tmp/1" 10 (demo_upload "1.0.0" EmptyString) empty_world).2 in
  let '(r, w2) := StorePackage map_to_list "/srv/cas" demo_config "/tmp/2" 20 (demo_upload "1.0.1" (sha256_hex "1.0.0")) w1 in
  is_ok r = true ∧
  gp_Content <$> (match GetPackage "/srv/cas" "acme.web" "1.0.1" w2 with Ok g => Some g | Err _ => None end) = Some "1.0.0".
Proof. vm_compute. split; reflexivity. Qed.
