(* ===== verification/CacheKeys.v ===== *)
(** * CacheKeys: cache keys and caching strategies

    Models [src/internal/domain/common/cache_key_builder.go], and
    [cache_strategy.go] and [strategies.go] of [src/internal/usecase]: how the key of
    a request is built and parsed, which strategy a package type gets, and reading
    and writing through the cache manager, which is the class [CacheManager]. *)

From Stdlib Require Import Ascii.
From S2P Require Import Prelude GoStrings GoUrl.

(** ** domain/common/cache_key_builder.go *)

(** The separator is the byte that [NewStandardCacheKeyBuilder] sets. *)
Record StandardCacheKeyBuilder := mkBuilder { separator : ascii }.
Definition NewStandardCacheKeyBuilder : StandardCacheKeyBuilder := mkBuilder ":".

Inductive key_err := InvalidKeyFormat (key : string) | BadKeyEscape (text : string) | BadValueEscape (text : string).

Definition sanitizePath (path : string) : string := QueryEscape (ReplaceAll (trim_char "/" path) "//" "/").

Definition param_pair (kv : string * string) : string := QueryEscape kv.1 +:+ ("=" +:+ QueryEscape kv.2).

(** The parameters in the order of [sort.Strings] on their names. *)
Definition sorted_params (params : gmap string string) : list (string * string) :=
  (λ k, (k, default EmptyString (params !! k))) <$> merge_sort String.le (map_to_list params).*1.

Definition buildParamString (params : gmap string string) : string := Join (param_pair <$> sorted_params params) "&".

(** One round of the loop of [parseParamString]; a pair without "=" is skipped. *)
Definition parse_pair (text : string) (params : gmap string string) : result key_err (gmap string string) :=
  match split_two "=" text with
  | (_, None) => Ok params
  | (k, Some v) =>
      match QueryUnescape k with
      | None => Err (BadKeyEscape k)
      | Some key => match QueryUnescape v with None => Err (BadValueEscape v) | Some value => Ok (<[key := value]> params) end
      end
  end.

Fixpoint parse_pairs (pairs : list string) (params : gmap string string) : result key_err (gmap string string) :=
  match pairs with
  | [] => Ok params
  | text :: pairs => let? params := parse_pair text params in parse_pairs pairs params
  end.

Definition parseParamString (paramStr : string) : result key_err (gmap string string) :=
  if String.eqb paramStr EmptyString then Ok ∅ else parse_pairs (Split paramStr "&") ∅.

Definition BuildKey (b : StandardCacheKeyBuilder) (proxyType path : string) (params : gmap string string) : string :=
  let paramStr := buildParamString params in
  let parts := proxyType :: sanitizePath path :: (if String.eqb paramStr EmptyString then [] else [paramStr]) in
  Join parts (String (separator b) EmptyString).

Definition ParseKey (b : StandardCacheKeyBuilder) (key : string) : result key_err (string * string * gmap string string) :=
  match Split key (separator b) with
  | proxyType :: path :: rest =>
      match rest with
      | [] => Ok (proxyType, path, ∅)
      | paramStr :: _ => let? params := parseParamString paramStr in Ok (proxyType, path, params)
      end
  | _ => Err (InvalidKeyFormat key)
  end.

(** ** usecase/strategies.go *)

Record CacheMetadata := mkMeta {
  ContentType : string; Size_ : Z; Headers : gmap string string; Source : string;
  CachedAt : instant; LastAccessed : instant; AccessCount : Z
}.

Record CacheStats := mkStats { StatsSize : Z }.

(** What the manager is asked for. *)
Record CacheManagerRequest := mkManagerRequest {
  cr_Key : string; cr_PackageType : string; cr_Fallback : bool; cr_TTL : duration; cr_Metadata : CacheMetadata
}.

Definition LRU_default_size : Z := 1024 * 1024 * 1024.

(** [time.Since(metadata.LastAccessed) > time.Hour*24*7]. *)
Definition LRU_ShouldEvict (maxSize : Z) (now : instant) (m : CacheMetadata) (stats : CacheStats) : bool :=
  if maxSize <? StatsSize stats then true else hour * 24 * 7 <? time_sub now (LastAccessed m).

Definition TTL_ShouldEvict (defaultTTL : duration) (now : instant) (m : CacheMetadata) : bool :=
  time_after now (time_add (CachedAt m) defaultTTL).

(** The clock is read once or twice. *)
Definition TTL_GetPriority (defaultTTL : duration) (now now' : instant) (m : CacheMetadata) : Z :=
  let expiryTime := time_add (CachedAt m) defaultTTL in
  if time_after now expiryTime then 1000
  else
    let timeToExpiry := time_sub expiryTime now' in
    if timeToExpiry <? hour then 100 else if timeToExpiry <? hour * 6 then 50 else 10.

(** The interface of a strategy; the three implementations answer with their fields. *)
Record CacheStrategy := mkStrategy {
  ShouldCache : CacheManagerRequest → bool;
  GetTTL : CacheManagerRequest → duration;
  GetBackend : CacheManagerRequest → string;
  GenerateKey : CacheManagerRequest → string
}.

Definition NewReadThroughStrategy : CacheStrategy := mkStrategy (λ _, true) (λ _, hour * 24) (λ _, "filesystem"%string) cr_Key.
Definition NewWriteThroughStrategy (ttl : duration) (backend : string) : CacheStrategy :=
  mkStrategy (λ _, true) (λ _, ttl) (λ _, backend) cr_Key.
(** The stale window is kept for [GetStaleWindow] only. *)
Definition NewStaleWhileRevalidateStrategy (ttl staleWindow : duration) : CacheStrategy :=
  mkStrategy (λ _, true) (λ _, ttl) (λ _, "filesystem"%string) cr_Key.

(** ** usecase/cache_strategy.go *)

Record CacheRequest := mkRequest {
  PackageType : string; Repository : string; Name : string; Version : string; Path : string;
  rq_ContentType : string; rq_Size : Z; rq_Headers : gmap string string
}.

(** Without the reason, a text for the log. *)
Record CacheDecision := mkDecision {
  d_ShouldCache : bool; d_TTL : duration; d_Backend : string; d_CacheKey : string; d_Strategy : string
}.

Record CacheResponse := mkResponse {
  rs_Hit : bool; rs_Content : string; rs_Size : Z; rs_Backend : string; rs_CacheKey : string;
  rs_ExpiresAt : instant; rs_Metadata : gmap string string
}.

(** What the manager stores and gives back. *)
Record ManagerResponse := mkManagerResponse {
  mr_Data : string; mr_Backend : string; mr_Size : Z; mr_Metadata : CacheMetadata; mr_ExpiresAt : instant
}.

Record CacheSetRequest := mkSet {
  st_Key : string; st_Data : string; st_PackageType : string; st_TTL : duration; st_Metadata : CacheMetadata; st_Backend : string
}.

(** [ports.CacheManager]: [Get] gives nothing on a miss; both may fail. *)
Class CacheManager (C : Type) := {
  mgr_Get : CacheManagerRequest → C → result string (option ManagerResponse) * C;
  mgr_Set : CacheSetRequest → C → option string * C;
  mgr_Invalidate : string → C → option string * C
}.

(** A manager gives back what was last stored under a key, until it expires or is
    invalidated, if it answers. *)
Class CacheManagerLaws (C : Type) `{!CacheManager C} : Prop := {
  mgr_get_set req set c c' :
    mgr_Set set c = (None, c') → cr_Key req = st_Key set →
    match (mgr_Get req c').1 with
    | Ok (Some r) => mr_Data r = st_Data set ∧ mr_Backend r = st_Backend set ∧ mr_Metadata r = st_Metadata set
    | Ok None => False
    | Err _ => True
    end
}.

Record CacheStrategyService := mkService {
  strategies : gmap string CacheStrategy;
  defaultTTLs : gmap string duration;
  cacheKeyBuilder : option (string → string → string → string → string → string)
}.

Definition RegisterStrategy (packageType : string) (strategy : CacheStrategy) (cs : CacheStrategyService) : CacheStrategyService :=
  mkService (<[packageType := strategy]> (strategies cs)) (defaultTTLs cs) (cacheKeyBuilder cs).

Definition registerDefaultStrategies (cs : CacheStrategyService) : CacheStrategyService :=
  let cs := RegisterStrategy "default" NewReadThroughStrategy cs in
  let cs := RegisterStrategy "maven" (NewWriteThroughStrategy (hour * 24) "filesystem") cs in
  let cs := RegisterStrategy "npm" (NewStaleWhileRevalidateStrategy (hour * 12) hour) cs in
  let cs := RegisterStrategy "docker" (NewWriteThroughStrategy (hour * 48) "s3") cs in
  let cs := RegisterStrategy "apt" (NewStaleWhileRevalidateStrategy (hour * 6) hour) cs in
  let cs := RegisterStrategy "yum" (NewStaleWhileRevalidateStrategy (hour * 6) hour) cs in
  let cs := RegisterStrategy "apk" (NewStaleWhileRevalidateStrategy (hour * 6) hour) cs in
  RegisterStrategy "pypi" NewReadThroughStrategy cs.

Definition NewCacheStrategyService (builder : option (string → string → string → string → string → string)) : CacheStrategyService :=
  registerDefaultStrategies
    (mkService ∅ (list_to_map [("maven", hour * 24); ("npm", hour * 12); ("apt", hour * 6); ("docker", hour * 48);
                               ("pypi", hour * 24); ("yum", hour * 6); ("apk", hour * 6)]) builder).

Definition GetStrategy (cs : CacheStrategyService) (packageType : string) : option CacheStrategy :=
  match strategies cs !! packageType with
  | Some strategy => Some strategy
  | None => strategies cs !! "default"
  end.

Definition getDefaultTTL (cs : CacheStrategyService) (packageType : string) : duration :=
  default (hour * 24) (defaultTTLs cs !! packageType).

Definition generateCacheKey (req : CacheRequest) : string :=
  let cleanPath := TrimPrefix (Path req) "/" in
  Join ([PackageType req; Repository req]
        ++ (if String.eqb (Name req) EmptyString then [] else [Name req])
        ++ (if String.eqb (Version req) EmptyString then [] else [Version req])
        ++ (if String.eqb (Path req) EmptyString then [] else if String.eqb cleanPath EmptyString then [] else [cleanPath])) ":".

Definition cache_key (cs : CacheStrategyService) (req : CacheRequest) : string :=
  match cacheKeyBuilder cs with
  | Some build => build (PackageType req) (Repository req) (Name req) (Version req) (Path req)
  | None => generateCacheKey req
  end.

Definition request_metadata (req : CacheRequest) : CacheMetadata :=
  mkMeta (rq_ContentType req) (rq_Size req) (rq_Headers req) EmptyString zero_time zero_time 0.

(** [None] is the panic on a nil strategy, when not even the default one is there. *)
Definition DetermineStrategy (cs : CacheStrategyService) (req : CacheRequest) : option CacheDecision :=
  match (match GetStrategy cs (PackageType req) with Some s => Some s | None => GetStrategy cs "default" end) with
  | None => None
  | Some strategy =>
      let ask ttl := mkManagerRequest (Path req) (PackageType req) false ttl (request_metadata req) in
      let asked := ask (getDefaultTTL cs (PackageType req)) in
      let shouldCache := ShouldCache strategy asked in
      let ttl := if shouldCache then GetTTL strategy asked else 0 in
      let backend := if shouldCache then GetBackend strategy (ask ttl) else "filesystem" in
      Some (mkDecision shouldCache ttl backend (cache_key cs req) (PackageType req))
  end.

Section service.
Context {C : Type} {CM : CacheManager C}.

Definition hit_metadata (m : CacheMetadata) : gmap string string :=
  Headers m ∪ (if String.eqb (ContentType m) EmptyString then ∅ else {[ "content_type" := ContentType m ]}).

Definition no_hit (key : string) : CacheResponse := mkResponse false EmptyString 0 EmptyString key zero_time ∅.

Definition lookup_request (cs : CacheStrategyService) (req : CacheRequest) : CacheManagerRequest :=
  mkManagerRequest (cache_key cs req) (PackageType req) true (getDefaultTTL cs (PackageType req)) (request_metadata req).

(** An error of the manager is a miss without a key; so is, with its key, an entry
    without data. *)
Definition Get (cs : CacheStrategyService) (req : CacheRequest) (c : C) : CacheResponse * C :=
  let key := cache_key cs req in
  match mgr_Get (lookup_request cs req) c with
  | (Err _, c) => (no_hit EmptyString, c)
  | (Ok None, c) => (no_hit key, c)
  | (Ok (Some r), c) =>
      if String.eqb (mr_Data r) EmptyString then (no_hit key, c)
      else (mkResponse true (mr_Data r) (mr_Size r) (mr_Backend r) key (mr_ExpiresAt r) (hit_metadata (mr_Metadata r)), c)
  end.

Inductive set_err := NilStrategy | StorageFailed (e : string).

Definition Set_ (cs : CacheStrategyService) (now now' : instant) (req : CacheRequest) (content : string) (c : C) :
    option set_err * C :=
  match DetermineStrategy cs req with
  | None => (Some NilStrategy, c)
  | Some d =>
      if negb (d_ShouldCache d) then (None, c)
      else
        let m := mkMeta (rq_ContentType req) (Z.of_nat (String.length content)) (rq_Headers req) (Repository req) now now' 1 in
        match mgr_Set (mkSet (d_CacheKey d) content (PackageType req) (d_TTL d) m (d_Backend d)) c with
        | (Some e, c) => (Some (StorageFailed e), c)
        | (None, c) => (None, c)
        end
  end.

Definition Invalidate (pattern : string) (c : C) : option string * C := mgr_Invalidate pattern c.
End service.

(** ** Lemmas: parameters *)

(** A name without ["="] and what follows are cut where they were joined. *)
Lemma parse_pair_spec kv m : parse_pair (param_pair kv) m = Ok (<[kv.1 := kv.2]> m).
Proof.
  unfold parse_pair, param_pair. change ("=" +:+ QueryEscape kv.2) with (String "=" (QueryEscape kv.2)).
  rewrite split_two_app by (by apply QueryEscape_no). by rewrite !unescape_escape.
Qed.

Lemma parse_pairs_spec kvs m :
  parse_pairs (param_pair <$> kvs) m = Ok (foldl (λ m kv, <[kv.1 := kv.2]> m) m kvs).
Proof.
  revert m. induction kvs as [|kv kvs IH]; intros m; [done|].
  cbn [fmap list_fmap parse_pairs foldl]. by rewrite parse_pair_spec, IH.
Qed.

(** Inserting the names of a map with its values gives the map back, in any order. *)
Lemma foldl_names (params m : gmap string string) ks k :
  foldl (λ m kv, <[kv.1 := kv.2]> m) m ((λ k, (k, default EmptyString (params !! k))) <$> ks) !! k
  = if decide (k ∈ ks) then Some (default EmptyString (params !! k)) else m !! k.
Proof.
  revert m. induction ks as [|k' ks IH]; intros m; [done|]. cbn [fmap list_fmap foldl]. rewrite IH.
  destruct (decide (k ∈ ks)) as [Hk|Hk].
  - by rewrite decide_True by (by right).
  - cbn [fst snd]. destruct (decide (k = k')) as [->|Hne].
    + by rewrite lookup_insert_eq, decide_True by (by left).
    + rewrite lookup_insert_ne by done. rewrite decide_False; [done|].
      intros [->|?]%elem_of_cons; done.
Qed.

Lemma sorted_params_map params : foldl (λ m kv, <[kv.1 := kv.2]> m) ∅ (sorted_params params) = params.
Proof.
  apply map_eq. intros k. unfold sorted_params. rewrite foldl_names, lookup_empty.
  destruct (params !! k) as [v|] eqn:Hk.
  - rewrite decide_True; [done|]. rewrite merge_sort_Permutation. apply list_elem_of_fmap.
    exists (k, v). split; [done|]. by apply elem_of_map_to_list.
  - rewrite decide_False; [done|]. rewrite merge_sort_Permutation. intros Hin.
    apply list_elem_of_fmap in Hin as ([k' v] & -> & Hin%elem_of_map_to_list). cbn in Hk. congruence.
Qed.

Lemma sorted_params_nil params : sorted_params params = [] ↔ params = ∅.
Proof.
  split; intros H; [|by subst].
  by rewrite <- (sorted_params_map params), H.
Qed.

Definition pair_char (c : ascii) : bool := escaped_char c || Ascii.eqb c "=".

Lemma param_pair_plain kv : str_all pair_char (param_pair kv) = true.
Proof.
  unfold param_pair. rewrite str_all_app. apply andb_true_iff. split.
  - apply (str_all_impl escaped_char); [|apply QueryEscape_plain]. intros c Hc. unfold pair_char. by rewrite Hc.
  - change (str_all pair_char (String "=" (QueryEscape kv.2)) = true). cbn [str_all]. apply andb_true_iff. split; [done|].
    apply (str_all_impl escaped_char); [|apply QueryEscape_plain]. intros c Hc. unfold pair_char. by rewrite Hc.
Qed.

(** Bytes outside a class do not occur in a string of the class. *)
Lemma str_all_no (p : ascii → bool) c s : p c = false → str_all p s = true → str_all (not_char c) s = true.
Proof.
  intros Hc. apply str_all_impl. intros x Hx. unfold not_char. apply negb_true_iff, Ascii.eqb_neq. congruence.
Qed.

Lemma seps_all (p : ascii → bool) c ws :
  p c = true → Forall (λ w, str_all p w = true) ws → str_all p (seps c ws) = true.
Proof.
  intros Hc. induction 1 as [|w ws Hw _ IH]; [done|]. cbn [seps]. rewrite str_app_cons. cbn [str_all].
  by rewrite Hc, str_all_app, Hw, IH.
Qed.

Lemma param_pairs_plain kvs : Forall (λ w, str_all pair_char w = true) (param_pair <$> kvs).
Proof. apply Forall_fmap, Forall_true. intros kv. apply param_pair_plain. Qed.

Lemma buildParamString_parse params : parseParamString (buildParamString params) = Ok params.
Proof.
  unfold parseParamString, buildParamString.
  destruct (sorted_params params) as [|kv kvs] eqn:Hs.
  { apply sorted_params_nil in Hs as ->. done. }
  cbn [fmap list_fmap]. rewrite Join_seps.
  destruct (String.eqb_spec (param_pair kv +:+ seps "&" (param_pair <$> kvs)) EmptyString) as [E|_].
  { exfalso. apply (f_equal String.length) in E. unfold param_pair in E. rewrite !str_length_app in E. cbn in E. lia. }
  rewrite Split_join.
  - change (param_pair kv :: (param_pair <$> kvs)) with (param_pair <$> kv :: kvs).
    by rewrite parse_pairs_spec, <- Hs, sorted_params_map.
  - change (Forall (λ w, str_all (not_char "&") w = true) (param_pair <$> kv :: kvs)).
    eapply list.Forall_impl; [apply param_pairs_plain|]. intros w. by apply str_all_no.
Qed.

Lemma buildParamString_empty params : buildParamString params = EmptyString ↔ params = ∅.
Proof.
  split; [|intros ->; done]. intros H.
  pose proof (buildParamString_parse params) as E. rewrite H in E. cbn in E. congruence.
Qed.

Lemma buildParamString_no_colon params : str_all (not_char ":") (buildParamString params) = true.
Proof.
  unfold buildParamString. pose proof (param_pairs_plain (sorted_params params)) as Hp.
  destruct (param_pair <$> sorted_params params) as [|w ws]; [done|]. rewrite Join_seps, str_all_app.
  apply Forall_cons_iff in Hp as [Hw Hws]. apply andb_true_iff. split.
  - by apply (str_all_no pair_char).
  - apply seps_all; [done|]. eapply list.Forall_impl; [apply Hws|]. intros x. by apply (str_all_no pair_char).
Qed.

Lemma ParseKey_Build proxyType path params :
  str_all (not_char ":") proxyType = true →
  ParseKey NewStandardCacheKeyBuilder (BuildKey NewStandardCacheKeyBuilder proxyType path params)
  = Ok (proxyType, sanitizePath path, params).
Proof.
  intros Hpt. unfold ParseKey, BuildKey. cbn [separator NewStandardCacheKeyBuilder].
  assert (str_all (not_char ":") (sanitizePath path) = true) as Hp by (by apply QueryEscape_no).
  destruct (String.eqb_spec (buildParamString params) EmptyString) as [E|_].
  - apply buildParamString_empty in E as ->. rewrite Join_seps, Split_join by (by repeat constructor). done.
  - rewrite Join_seps, Split_join; [by rewrite buildParamString_parse|].
    repeat constructor; try done. apply buildParamString_no_colon.
Qed.

(** ** The key of a request determines it *)

(** C29: a key is parsed into the proxy type, the escaped path and exactly the
    parameters it was built from, when the type has no colon. *)
Theorem ParseKey_BuildKey (proxyType path : string) (params : gmap string string)
    (Hpt : str_all (not_char ":") proxyType = true) :
  ParseKey NewStandardCacheKeyBuilder (BuildKey NewStandardCacheKeyBuilder proxyType path params)
  = Ok (proxyType, sanitizePath path, params).
Proof. by apply ParseKey_Build. Qed.

Lemma ParseKey_BuildKey_witness :
  ParseKey NewStandardCacheKeyBuilder
    (BuildKey NewStandardCacheKeyBuilder "npm" "/@scope//pkg/" (<[ "b&" := "=2" ]> {[ "a" := "x y" ]}))
  = Ok ("npm", "%40scope%2Fpkg", <[ "b&" := "=2" ]> {[ "a" := "x y" ]}).
Proof. apply ParseKey_BuildKey. reflexivity. Defined.

(** Two requests have the same key only if their types, their normalised paths
    and their parameters are the same. *)
Theorem BuildKey_inj (t t' p p' : string) (q q' : gmap string string)
    (Ht : str_all (not_char ":") t = true) (Ht' : str_all (not_char ":") t' = true)
    (E : BuildKey NewStandardCacheKeyBuilder t p q = BuildKey NewStandardCacheKeyBuilder t' p' q') :
  t = t' ∧ ReplaceAll (trim_char "/" p) "//" "/" = ReplaceAll (trim_char "/" p') "//" "/" ∧ q = q'.
Proof.
  apply (f_equal (ParseKey NewStandardCacheKeyBuilder)) in E. rewrite !ParseKey_Build in E by done.
  simplify_eq. split_and!; [done| |done]. by apply QueryEscape_inj.
Qed.

Lemma BuildKey_inj_witness :
  "npm" = "npm" ∧ ReplaceAll (trim_char "/" "/a//b") "//" "/" = ReplaceAll (trim_char "/" "a/b/") "//" "/"
  ∧ (∅ : gmap string string) = ∅.
Proof. apply (BuildKey_inj "npm" "npm" "/a//b" "a/b/" ∅ ∅); reflexivity. Defined.

(** ** Lemmas: strategies *)

Definition named (req : CacheRequest) : Prop :=
  Forall (λ w, str_all (not_char ":") w = true) [PackageType req; Repository req; Name req; Version req]
  ∧ Name req ≠ EmptyString ∧ Version req ≠ EmptyString.

Definition path_part (req : CacheRequest) : list string :=
  if String.eqb (TrimPrefix (Path req) "/") EmptyString then [] else [TrimPrefix (Path req) "/"].

Lemma generateCacheKey_named req :
  named req →
  generateCacheKey req
  = PackageType req +:+ String ":" (Repository req +:+ String ":" (Name req +:+ String ":" (Version req +:+ seps ":" (path_part req)))).
Proof.
  intros (_ & Hn & Hv). unfold generateCacheKey, path_part.
  destruct (String.eqb_spec (Name req) EmptyString) as [|_]; [done|].
  destruct (String.eqb_spec (Version req) EmptyString) as [|_]; [done|].
  destruct (String.eqb_spec (Path req) EmptyString) as [->|_]; [|destruct (String.eqb _ EmptyString)];
    cbn [app]; by rewrite Join_seps.
Qed.

(** ** Keys of the strategy service *)

(** Without a key builder, requests that name package, repository, name and
    version without colons have different keys unless they agree on all of them and
    on the path up to one leading slash. *)
Theorem generateCacheKey_inj (a b : CacheRequest) (Ha : named a) (Hb : named b)
    (E : generateCacheKey a = generateCacheKey b) :
  (PackageType a, Repository a, Name a, Version a) = (PackageType b, Repository b, Name b, Version b)
  ∧ TrimPrefix (Path a) "/" = TrimPrefix (Path b) "/".
Proof.
  rewrite !generateCacheKey_named in E by done.
  destruct Ha as (Ha & _ & _), Hb as (Hb & _ & _).
  rewrite !Forall_cons_iff in Ha, Hb. destruct Ha as (? & ? & ? & ? & _), Hb as (? & ? & ? & ? & _).
  apply cut_same in E as [-> E]; [|done..]. apply cut_same in E as [-> E]; [|done..].
  apply cut_same in E as [-> E]; [|done..].
  assert (∀ r, stops (not_char ":") (seps ":" (path_part r)) = true) as Hs.
  { intros r. unfold path_part. by case_match. }
  destruct (span_unique (not_char ":") (Version a) (Version b) (seps ":" (path_part a)) (seps ":" (path_part b))) as [-> Ep]; auto.
  split; [done|]. unfold path_part in Ep.
  destruct (String.eqb_spec (TrimPrefix (Path a) "/") EmptyString) as [->|_],
    (String.eqb_spec (TrimPrefix (Path b) "/") EmptyString) as [->|_]; try done.
  cbn [seps] in Ep. rewrite !str_app_nil_r in Ep. by simplify_eq.
Qed.

Definition npm_request (version path : string) : CacheRequest :=
  mkRequest "npm" "registry" "left-pad" version path EmptyString 0 ∅.

Lemma generateCacheKey_inj_witness :
  ("npm", "registry", "left-pad", "1.0")%string = ("npm", "registry", "left-pad", "1.0")%string
  ∧ TrimPrefix "/a:b" "/" = TrimPrefix "a:b" "/".
Proof.
  apply (generateCacheKey_inj (npm_request "1.0" "/a:b") (npm_request "1.0" "a:b")); [..|reflexivity];
    (split; [repeat constructor|split; discriminate]).
Defined.

(** ** Storing, then reading *)

Section set_get.
Context {C : Type} {CM : CacheManager C} {CL : CacheManagerLaws C}.

(** What storing [content] for [a] makes of reading [b], when their keys agree. *)
Definition reads_back (cs : CacheStrategyService) (b : CacheRequest) (strategy : CacheStrategy) (asked : CacheManagerRequest)
    (content : string) (c : C) : Prop :=
  match (mgr_Get (lookup_request cs b) c).1 with
  | Err _ => rs_Hit (Get cs b c).1 = false
  | Ok _ =>
      rs_Hit (Get cs b c).1 = negb (String.eqb content EmptyString) ∧ rs_Content (Get cs b c).1 = content
      ∧ rs_CacheKey (Get cs b c).1 = cache_key cs b
      ∧ (content ≠ EmptyString → rs_Backend (Get cs b c).1 = GetBackend strategy asked)
  end.

Definition backend_request (cs : CacheStrategyService) (s : CacheStrategy) (req : CacheRequest) : CacheManagerRequest :=
  let ask ttl := mkManagerRequest (Path req) (PackageType req) false ttl (request_metadata req) in
  ask (GetTTL s (ask (getDefaultTTL cs (PackageType req)))).

Lemma default_strategies builder packageType :
  ∃ s, GetStrategy (NewCacheStrategyService builder) packageType = Some s ∧ (∀ r, ShouldCache s r = true)
       ∧ (∀ r, GetBackend s r = if String.eqb packageType "docker" then "s3"%string else "filesystem"%string)
       ∧ (∀ r, GetTTL s r = getDefaultTTL (NewCacheStrategyService builder) packageType).
Proof.
  unfold GetStrategy, NewCacheStrategyService, registerDefaultStrategies, getDefaultTTL.
  cbn [strategies RegisterStrategy defaultTTLs cacheKeyBuilder].
  repeat match goal with
  | |- context [<[?k := _]> _ !! packageType] =>
      destruct (decide (packageType = k)) as [->|?]; [eexists; split; [reflexivity|split_and!; reflexivity]|];
      rewrite (lookup_insert_ne _ k packageType) by done
  end.
  rewrite lookup_empty. eexists. split; [reflexivity|]. split_and!; [done| |].
  - intros r. by destruct (String.eqb_spec packageType "docker").
  - intros r. rewrite not_elem_of_list_to_map_1; [done|]. cbn. set_solver.
Qed.

Lemma Set_Get_key cs now now' a b s content c c' :
  cache_key cs a = cache_key cs b → GetStrategy cs (PackageType a) = Some s → (∀ r, ShouldCache s r = true) →
  Set_ cs now now' a content c = (None, c') → reads_back cs b s (backend_request cs s a) content c'.
Proof.
  intros Hk Hs Hcache. unfold Set_, DetermineStrategy. rewrite Hs, !Hcache.
  cbn [d_ShouldCache negb d_CacheKey d_TTL d_Backend].
  destruct (mgr_Set _ c) as [[e|] c1] eqn:Eset; intros [= ->].
  pose proof (mgr_get_set (lookup_request cs b) _ _ _ Eset (eq_sym Hk)) as Hg. unfold reads_back, Get.
  destruct (mgr_Get (lookup_request cs b) c') as [[[r|]|e] c2]; cbn in Hg |- *; [|done..].
  destruct Hg as (Hd & Hb & _). rewrite Hd.
  destruct (String.eqb_spec content EmptyString) as [->|Hne]; cbn; by split_and!.
Qed.

(** What is stored through the default strategies is what a reader of the same
    key gets, whatever the manager is, if it gives back what it was given; content
    without a byte is stored but never read back as a hit; the backend is S3 for
    docker and the file system for every other type. *)
Theorem Set_Get (cs : CacheStrategyService) builder (Hcs : cs = NewCacheStrategyService builder)
    (now now' : instant) (a b : CacheRequest) (content : string) (c c' : C)
    (Hk : cache_key cs a = cache_key cs b) (Hset : Set_ cs now now' a content c = (None, c')) :
  match (mgr_Get (lookup_request cs b) c').1 with
  | Err _ => rs_Hit (Get cs b c').1 = false
  | Ok _ =>
      rs_Hit (Get cs b c').1 = negb (String.eqb content EmptyString) ∧ rs_Content (Get cs b c').1 = content
      ∧ rs_CacheKey (Get cs b c').1 = cache_key cs b
      ∧ (content ≠ EmptyString →
         rs_Backend (Get cs b c').1 = if String.eqb (PackageType a) "docker" then "s3"%string else "filesystem"%string)
  end.
Proof.
  destruct (default_strategies builder (PackageType a)) as (s & Hs & Hcache & Hbackend & _). rewrite <- Hcs in Hs.
  pose proof (Set_Get_key _ _ _ _ _ _ _ _ _ Hk Hs Hcache Hset) as H. unfold reads_back in H.
  rewrite Hbackend in H. exact H.
Qed.
End set_get.

(** A manager in memory that never expires an entry. *)
Definition MemManager : Type := gmap string CacheSetRequest.

#[export] Instance mem_manager : CacheManager MemManager := {
  mgr_Get req c :=
    (Ok ((λ st, mkManagerResponse (st_Data st) (st_Backend st) (Z.of_nat (String.length (st_Data st)))
                  (st_Metadata st) (st_TTL st)) <$> (c : gmap string CacheSetRequest) !! cr_Key req), c);
  mgr_Set st c := (None, <[st_Key st := st]> (c : gmap string CacheSetRequest));
  mgr_Invalidate key c := (None, delete key (c : gmap string CacheSetRequest))
}.

#[export] Instance mem_manager_laws : CacheManagerLaws MemManager.
Proof. split. intros req st c c' [= <-] E. cbn. by rewrite E, lookup_insert_eq. Qed.

(** A version in the path and a version in its field make the same key. *)
Lemma Set_Get_witness :
  let cs := NewCacheStrategyService None in
  let c' := (Set_ (C := MemManager) cs 1 2 (npm_request "1.0" EmptyString) "tarball" ∅).2 in
  let r := (Get cs (npm_request EmptyString "/1.0") c').1 in
  rs_Hit r = negb (String.eqb "tarball" EmptyString) ∧ rs_Content r = "tarball"
  ∧ rs_CacheKey r = "npm:registry:left-pad:1.0" ∧ ("tarball" ≠ EmptyString → rs_Backend r = "filesystem").
Proof.
  exact (Set_Get (C := MemManager) (NewCacheStrategyService None) None eq_refl 1 2 (npm_request "1.0" EmptyString)
           (npm_request EmptyString "/1.0") "tarball" ∅ _ eq_refl eq_refl).
Defined.
