(* ===== verification/RateLimit.v ===== *)
(** * RateLimit: the webhook rate limiters and the in-memory event queue

    Models [src/internal/webhook/rate_limiter.go] and
    [src/internal/webhook/queue.go].  The methods of the [RateLimiter] interface
    are a class, with an instance per limiter; a composite is a list of limiters
    of any instance.  Mutexes make each method atomic, so a limiter shared by
    goroutines runs through a sequence of method calls. *)

From S2P Require Import Prelude.

(** ** The interface *)

Class RateLimiter (L : Type) := {
  Allow : instant → L → bool * L;
  Tokens : L → Z;
  SetLimit : Z → L → L
}.

(** A round of [Wait]'s loop: what other goroutines did to the limiter before it,
    the instant of its [Allow], and whether the context ends the wait after a
    refusal. *)
Record poll (L : Type) := mkPoll { p_others : L → L; p_now : instant; p_cancelled : bool }.
Arguments mkPoll {L}. Arguments p_others {L}. Arguments p_now {L}. Arguments p_cancelled {L}.

Inductive wait_result := WaitOk | WaitCancelled | StillWaiting.

Fixpoint Wait {L} `{!RateLimiter L} (polls : list (poll L)) (l : L) : wait_result * L :=
  match polls with
  | [] => (StillWaiting, l)
  | p :: polls =>
      let '(ok, l) := Allow (p_now p) (p_others p l) in
      if ok : bool then (WaitOk, l)
      else if p_cancelled p then (WaitCancelled, l)
      else Wait polls l
  end.

(** ** The token bucket *)

Record TokenBucketLimiter := mkBucket { tokens : Z; capacity : Z; refillRate : Z; lastRefill : instant }.

Definition NewTokenBucketLimiter (rate cap : Z) (now : instant) : TokenBucketLimiter :=
  let rate := if rate <=? 0 then 10 else rate in
  let cap := if cap <=? 0 then wrap64 (rate * 2) else cap in
  {| tokens := cap; capacity := cap; refillRate := rate; lastRefill := now |}.

Definition bucket_allow (tbl : TokenBucketLimiter) : bool * TokenBucketLimiter :=
  if 0 <? tokens tbl
  then (true, mkBucket (tokens tbl - 1) (capacity tbl) (refillRate tbl) (lastRefill tbl))
  else (false, tbl).

Definition bucket_set_limit (limit : Z) (tbl : TokenBucketLimiter) : TokenBucketLimiter :=
  mkBucket (tokens tbl) (wrap64 (limit * 2)) limit (lastRefill tbl).

(** One tick of [refillTokens]. *)
Definition refill (now : instant) (tbl : TokenBucketLimiter) : TokenBucketLimiter :=
  let newTokens := wrap64 (tokens tbl + refillRate tbl) in
  let newTokens := if capacity tbl <? newTokens then capacity tbl else newTokens in
  mkBucket newTokens (capacity tbl) (refillRate tbl) now.

#[export] Instance bucket_limiter : RateLimiter TokenBucketLimiter := {
  Allow _ := bucket_allow; Tokens := tokens; SetLimit := bucket_set_limit
}.

(** ** The sliding window *)

Record SlidingWindowLimiter := mkWindow { requests : list instant; limit : Z; window : duration }.

Definition NewSlidingWindowLimiter (limit : Z) (window : duration) : SlidingWindowLimiter :=
  {| requests := []; limit := limit; window := window |}.

Definition window_allow (now : instant) (swl : SlidingWindowLimiter) : bool * SlidingWindowLimiter :=
  let cutoff := time_add now (- window swl) in
  let kept := filter (λ r, time_after r cutoff = true) (requests swl) in
  if limit swl <=? Z.of_nat (length kept)
  then (false, mkWindow kept (limit swl) (window swl))
  else (true, mkWindow (kept ++ [now]) (limit swl) (window swl)).

#[export] Instance window_limiter : RateLimiter SlidingWindowLimiter := {
  Allow := window_allow;
  Tokens swl := limit swl - Z.of_nat (length (requests swl));
  SetLimit n swl := mkWindow (requests swl) n (window swl)
}.

(** ** Composites *)

#[export] Instance sum_limiter {L M} `{!RateLimiter L, !RateLimiter M} : RateLimiter (L + M) := {
  Allow now x := match x with
                 | inl l => let '(ok, l) := Allow now l in (ok, inl l)
                 | inr m => let '(ok, m) := Allow now m in (ok, inr m)
                 end;
  Tokens x := match x with inl l => Tokens l | inr m => Tokens m end;
  SetLimit n x := match x with inl l => inl (SetLimit n l) | inr m => inr (SetLimit n m) end
}.

Section composite.
Context {L : Type} `{!RateLimiter L}.

Fixpoint composite_allow (now : list instant) (limiters : list L) : bool * list L :=
  match limiters with
  | [] => (true, [])
  | limiter :: rest =>
      let '(ok, limiter) := Allow (default zero_time (head now)) limiter in
      if negb ok then (false, limiter :: rest)
      else let '(ok, rest) := composite_allow (tail now) rest in (ok, limiter :: rest)
  end.

Definition composite_tokens (limiters : list L) : Z :=
  fold_left (λ minTokens l, if Tokens l <? minTokens then Tokens l else minTokens) limiters max_int64.

Definition composite_set_limit (n : Z) (limiters : list L) : list L := SetLimit n <$> limiters.

(** [Wait] of a composite: the waits of its limiters in turn. *)
Fixpoint composite_wait (polls : list (list (poll L))) (limiters : list L) : wait_result * list L :=
  match limiters with
  | [] => (WaitOk, [])
  | limiter :: rest =>
      match Wait (default [] (head polls)) limiter with
      | (WaitOk, limiter) =>
          let '(r, rest) := composite_wait (tail polls) rest in (r, limiter :: rest)
      | (r, limiter) => (r, limiter :: rest)
      end
  end.
End composite.

(** ** The in-memory event queue *)

(** [notified] is the one-element buffer of the notification channel; sending on
    a closed channel, and closing it again, panic. *)
Record MemoryEventQueue (E : Type) := mkQueue {
  events : list E; maxSize : Z; notified : bool; closed : bool
}.
Arguments mkQueue {E}. Arguments events {E}. Arguments maxSize {E}. Arguments notified {E}. Arguments closed {E}.

Inductive queue_err := QueueEmpty | ChannelPanic.

Section queue.
Context {E : Type}.

Definition NewMemoryEventQueue (maxSize : Z) : MemoryEventQueue E :=
  mkQueue [] (if maxSize <=? 0 then 1000 else maxSize) false false.

Definition Push (event : E) (q : MemoryEventQueue E) : result queue_err (MemoryEventQueue E) :=
  let es := if maxSize q <=? Z.of_nat (length (events q)) then tail (events q) else events q in
  if closed q then Err ChannelPanic else Ok (mkQueue (es ++ [event]) (maxSize q) true (closed q)).

Definition Pop (q : MemoryEventQueue E) : result queue_err (E * MemoryEventQueue E) :=
  match events q with
  | [] => Err QueueEmpty
  | event :: es => Ok (event, mkQueue es (maxSize q) (notified q) (closed q))
  end.

Definition QueueSize (q : MemoryEventQueue E) : Z := Z.of_nat (length (events q)).

Definition QueueClear (q : MemoryEventQueue E) : MemoryEventQueue E :=
  mkQueue [] (maxSize q) (notified q) (closed q).

Definition QueueClose (q : MemoryEventQueue E) : result queue_err (MemoryEventQueue E) :=
  if closed q then Err ChannelPanic else Ok (mkQueue [] (maxSize q) (notified q) true).

(** A receive from [NotifyCh]: does it get a notification? *)
Definition receive_notify (q : MemoryEventQueue E) : bool * MemoryEventQueue E :=
  (notified q, mkQueue (events q) (maxSize q) false (closed q)).
End queue.

(** [PersistentEventQueue] forwards every call to a memory queue: its file is not
    written yet. *)
Record PersistentEventQueue (E : Type) := mkPersistent { filePath : string; memory : MemoryEventQueue E }.
Arguments mkPersistent {E}. Arguments filePath {E}. Arguments memory {E}.

Definition PersistentPush {E} (event : E) (q : PersistentEventQueue E) : result queue_err (PersistentEventQueue E) :=
  let? m := Push event (memory q) in Ok (mkPersistent (filePath q) m).

Definition PersistentPop {E} (q : PersistentEventQueue E) : result queue_err (E * PersistentEventQueue E) :=
  let? (e, m) := Pop (memory q) in Ok (e, mkPersistent (filePath q) m).

(** ** Traces *)

Inductive bucket_event := BAllow | BTick (now : instant).

Fixpoint bucket_run (evs : list bucket_event) (tbl : TokenBucketLimiter) : list bool * TokenBucketLimiter :=
  match evs with
  | [] => ([], tbl)
  | BAllow :: evs =>
      let '(ok, tbl) := bucket_allow tbl in
      let '(oks, tbl) := bucket_run evs tbl in (ok :: oks, tbl)
  | BTick now :: evs => bucket_run evs (refill now tbl)
  end.

Definition count_true (l : list bool) : Z := Z.of_nat (length (filter (λ b, b = true) l)).

Definition ticks (evs : list bucket_event) : Z :=
  Z.of_nat (length (filter (λ e, match e with BTick _ => true | BAllow => false end = true) evs)).

Definition bucket_ok (tbl : TokenBucketLimiter) : Prop :=
  0 <= tokens tbl <= capacity tbl ∧ 0 < refillRate tbl ∧ capacity tbl + refillRate tbl <= max_int64.

(** The instants at which a sliding window allowed a request, the last one first. *)
Fixpoint window_run (times : list instant) (swl : SlidingWindowLimiter) (acc : list instant) :
    list instant * SlidingWindowLimiter :=
  match times with
  | [] => (acc, swl)
  | t :: times =>
      let '(ok, swl) := window_allow t swl in
      window_run times swl (if ok : bool then t :: acc else acc)
  end.

Inductive queue_op (E : Type) := OpPush (e : E) | OpPop.
Arguments OpPush {E} e.
Arguments OpPop {E}.

(** The events pushed, the events popped and the queue left; [None] is a panic. *)
Fixpoint queue_run {E} (ops : list (queue_op E)) (q : MemoryEventQueue E) :
    option (list E * list E * MemoryEventQueue E) :=
  match ops with
  | [] => Some ([], [], q)
  | OpPush e :: ops =>
      match Push e q with
      | Err _ => None
      | Ok q => (λ '(ins, outs, q), (e :: ins, outs, q)) <$> queue_run ops q
      end
  | OpPop :: ops =>
      match Pop q with
      | Err _ => queue_run ops q
      | Ok (e, q) => (λ '(ins, outs, q), (ins, e :: outs, q)) <$> queue_run ops q
      end
  end.

(** ** Lemmas *)

Lemma count_true_cons b l : count_true (b :: l) = (if b then 1 else 0) + count_true l.
Proof.
  unfold count_true. destruct b.
  - rewrite filter_cons_True by done. cbn [length]. lia.
  - by rewrite filter_cons_False.
Qed.

Lemma ticks_cons e evs : ticks (e :: evs) = match e with BTick _ => 1 | BAllow => 0 end + ticks evs.
Proof.
  unfold ticks. destruct e.
  - by rewrite filter_cons_False.
  - rewrite filter_cons_True by done. cbn [length]. lia.
Qed.

Lemma bucket_run_ok evs tbl oks tbl' :
  bucket_ok tbl → bucket_run evs tbl = (oks, tbl') →
  bucket_ok tbl' ∧ capacity tbl' = capacity tbl ∧ refillRate tbl' = refillRate tbl ∧
  count_true oks + tokens tbl' <= tokens tbl + refillRate tbl * ticks evs.
Proof.
  revert tbl oks. induction evs as [|[|now] evs IH]; intros tbl oks Hok H; cbn [bucket_run] in H.
  - simplify_eq. split_and!; try done. change (count_true []) with 0. change (ticks []) with 0. lia.
  - unfold bucket_allow in H. destruct Hok as (Ht & Hr & Hc). destruct (0 <? tokens tbl) eqn:E; zbool.
    + destruct (bucket_run evs _) as [oks' t'] eqn:Er. simplify_eq.
      apply IH in Er as (? & ? & ? & Hle); [|unfold bucket_ok; cbn -[max_int64]; lia].
      cbn in Hle. split_and!; try done; rewrite count_true_cons, ticks_cons; lia.
    + destruct (bucket_run evs tbl) as [oks' t'] eqn:Er. simplify_eq.
      apply IH in Er as (? & ? & ? & Hle); [|done].
      split_and!; try done; rewrite count_true_cons, ticks_cons; lia.
  - destruct Hok as (Ht & Hr & Hc). unfold max_int64 in Hc.
    assert (tokens (refill now tbl) <= tokens tbl + refillRate tbl ∧ bucket_ok (refill now tbl)) as [Hle' Hok'].
    { unfold refill, bucket_ok. rewrite wrap64_id by (unfold in_int64, min_int64, max_int64; lia).
      unfold max_int64. cbn. case_match; zbool; lia. }
    apply IH in H as (? & ? & ? & Hle); [|done]. split_and!; try done.
    change (refillRate (refill now tbl)) with (refillRate tbl) in *. rewrite ticks_cons. lia.
Qed.

Definition in_window (w t : Z) (a : instant) : Prop := t - w < a <= t.
#[export] Instance in_window_dec w t a : Decision (in_window w t a).
Proof. unfold in_window. apply _. Defined.

Lemma filter_length_le {A} (P Q : A → Prop) `{!∀ x, Decision (P x), !∀ x, Decision (Q x)} (l : list A) :
  (∀ x, x ∈ l → P x → Q x) → (length (filter P l) <= length (filter Q l))%nat.
Proof.
  induction l as [|x l IH]; intros HPQ; [done|].
  assert (length (filter P l) <= length (filter Q l))%nat by (apply IH; intros y Hy; apply HPQ; by right).
  destruct (decide (P x)) as [Hp|Hp].
  - rewrite (filter_cons_True P) by done. rewrite filter_cons_True by (apply HPQ; [by left|done]). cbn. lia.
  - rewrite filter_cons_False by done. destruct (decide (Q x));
      [rewrite filter_cons_True by done; cbn; lia|by rewrite filter_cons_False].
Qed.

(** The window holds, oldest first, the allowed instants after its last cutoff,
    and no window of allowed instants has ever exceeded the limit. *)
Definition window_inv (now : instant) (allowed : list instant) (swl : SlidingWindowLimiter) : Prop :=
  0 < window swl ∧
  rev (requests swl) = filter (λ a, now - window swl < a) allowed ∧
  Forall (λ a, a <= now) allowed ∧
  ∀ t, (Z.of_nat (length (filter (in_window (window swl) t) allowed)) <= Z.max 0 (limit swl))%Z.

Lemma filter_filter_impl {A} (P Q : A → Prop) `{!∀ x, Decision (P x), !∀ x, Decision (Q x)} (l : list A) :
  (∀ x, P x → Q x) → filter P (filter Q l) = filter P l.
Proof.
  intros HPQ. induction l as [|x l IH]; [done|]. destruct (decide (Q x)) as [Hq|Hq].
  - rewrite (filter_cons_True Q) by done. destruct (decide (P x)).
    + by rewrite !(filter_cons_True P), IH.
    + by rewrite !(filter_cons_False P), IH.
  - rewrite (filter_cons_False Q), (filter_cons_False P) by naive_solver. done.
Qed.

Lemma filter_rev {A} (P : A → Prop) `{!∀ x, Decision (P x)} (l : list A) :
  filter P (rev l) = rev (filter P l).
Proof.
  induction l as [|x l IH]; [done|]. cbn [rev]. rewrite list.filter_app, IH.
  destruct (decide (P x)).
  - by rewrite !filter_cons_True.
  - rewrite !filter_cons_False by done. by rewrite app_nil_r.
Qed.

Lemma window_allow_inv now t allowed swl ok swl' :
  window_inv now allowed swl → now <= t → window_allow t swl = (ok, swl') →
  window_inv t (if ok then t :: allowed else allowed) swl' ∧
  limit swl' = limit swl ∧ window swl' = window swl.
Proof.
  intros (Hw & Hreq & Hle & Hcnt) Ht Ha. unfold window_allow, time_after, time_add in Ha.
  set (kept := filter _ (requests swl)) in Ha.
  assert (rev kept = filter (λ a, t - window swl < a) allowed) as Hkept.
  { unfold kept. rewrite <- filter_rev, Hreq.
    transitivity (filter (λ a, t - window swl < a) (filter (λ a, now - window swl < a) allowed)).
    - apply list_filter_iff. intros x. rewrite Z.ltb_lt. lia.
    - apply filter_filter_impl. lia. }
  assert (length kept = length (filter (λ a, t - window swl < a) allowed)) as Hlen
    by (by rewrite <- Hkept, length_rev).
  destruct (limit swl <=? Z.of_nat (length kept)) eqn:E; simplify_eq; zbool; (split; [|done]); cbn.
  - split_and!; [done|done| |done]. eapply list.Forall_impl; [exact Hle|]. cbn. lia.
  - unfold window_inv. cbn [requests limit window]. split_and!; [done|..].
    + rewrite rev_app_distr, filter_cons_True by lia. cbn [rev app]. f_equal. exact Hkept.
    + constructor; [lia|]. eapply list.Forall_impl; [exact Hle|]. cbn. lia.
    + intros u. destruct (decide (in_window (window swl) u t)) as [Hu|Hu].
      * rewrite filter_cons_True by done. cbn [length]. unfold in_window in Hu.
        assert (length (filter (in_window (window swl) u) allowed) <= length kept)%nat; [|lia].
        rewrite Hlen. apply filter_length_le. intros x Hx [H1 H2].
        rewrite list.Forall_forall in Hle. specialize (Hle x Hx). lia.
      * rewrite filter_cons_False by done. apply Hcnt.
Qed.

Lemma window_run_inv times now allowed swl acc' swl' :
  window_inv now allowed swl → Sorted Z.le (now :: times) → window_run times swl allowed = (acc', swl') →
  ∃ now', window_inv now' acc' swl' ∧ limit swl' = limit swl ∧ window swl' = window swl.
Proof.
  revert now allowed swl. induction times as [|t times IH]; intros now allowed swl Hi Hs H;
    cbn [window_run] in H; [simplify_eq; eauto|].
  apply Sorted_inv in Hs as [Hs Hnt]. apply HdRel_inv in Hnt.
  destruct (window_allow t swl) as [ok swl1] eqn:Ea.
  destruct (window_allow_inv _ _ _ _ _ _ Hi Hnt Ea) as (Hi' & Hl & Hw).
  destruct (IH _ _ _ Hi' Hs H) as (now' & ? & -> & ->). eauto.
Qed.

Lemma queue_run_inv {E} (ops : list (queue_op E)) q ins outs q' :
  0 < maxSize q → Z.of_nat (length (events q)) <= maxSize q →
  queue_run ops q = Some (ins, outs, q') →
  (outs ++ events q') `sublist_of` (events q ++ ins) ∧
  Z.of_nat (length (events q')) <= maxSize q' ∧ maxSize q' = maxSize q.
Proof.
  revert q ins outs. induction ops as [|[e|] ops IH]; intros q ins outs Hm Hl H; cbn [queue_run] in H.
  - simplify_eq. rewrite app_nil_r. done.
  - unfold Push in H. destruct (closed q); [done|].
    set (es := if maxSize q <=? Z.of_nat (length (events q)) then tail (events q) else events q) in H.
    assert (es `sublist_of` events q ∧ Z.of_nat (length es) < maxSize q) as [Hes Hlen].
    { unfold es. destruct (maxSize q <=? _) eqn:E1; zbool; [|done].
      destruct (events q) as [|x l] eqn:Eq; rewrite ?Eq in *; [cbn in *; lia|].
      cbn in *. split; [by apply sublist_cons|lia]. }
    destruct (queue_run ops _) as [[[ins' outs'] q1]|] eqn:Er; cbn in H; simplify_eq.
    apply IH in Er as (Hsub & ? & ?); cbn in *; [|done|rewrite length_app; cbn; lia].
    split_and!; try done. etrans; [exact Hsub|]. rewrite <- app_assoc. by apply sublist_app.
  - unfold Pop in H. destruct (events q) as [|e es] eqn:Ee; [rewrite <- Ee in *; by eapply IH|].
    destruct (queue_run ops _) as [[[ins' outs'] q1]|] eqn:Er; cbn in H; simplify_eq.
    cbn in Hl. apply IH in Er as (Hsub & ? & ?); cbn in *; [|done|lia].
    split_and!; try done. by apply sublist_skip.
Qed.

(** ** Properties *)

(** A token bucket bounds the requests of any stretch of time: over any
    sequence of requests and refill ticks, the requests allowed are at most the
    tokens at hand plus [refillRate] per tick, hence at most [capacity] plus
    [refillRate] per tick; and the tokens stay between 0 and [capacity]. *)
Theorem bucket_bound evs tbl oks tbl'
    (Hok : bucket_ok tbl) (Hrun : bucket_run evs tbl = (oks, tbl')) :
  count_true oks <= tokens tbl + refillRate tbl * ticks evs ∧
  count_true oks <= capacity tbl + refillRate tbl * ticks evs ∧
  0 <= tokens tbl' <= capacity tbl.
Proof.
  destruct (bucket_run_ok _ _ _ _ Hok Hrun) as ((? & _) & Hc & _ & ?).
  destruct Hok as (? & _). rewrite Hc in *. lia.
Qed.

Definition bucket_3 : TokenBucketLimiter := NewTokenBucketLimiter 2 3 0.

Lemma bucket_bound_witness :
  (bucket_run [BAllow; BAllow; BAllow; BAllow; BTick 5; BAllow] bucket_3).1 = [true; true; true; false; true] ∧
  count_true [true; true; true; false; true] <= 3 + 2 * 1.
Proof.
  split; [reflexivity|].
  refine (proj1 (proj2 (bucket_bound [BAllow; BAllow; BAllow; BAllow; BTick 5; BAllow] bucket_3 _ _ _ eq_refl))).
  unfold bucket_ok, max_int64. cbn. lia.
Defined.

(** A sliding window never lets more than [limit] requests through in any
    window of time: whatever the instants of the requests, in the order of the
    clock, at most [limit] of those allowed lie in [(t - window, t]], for every
    instant [t]. *)
Theorem sliding_window_bound lim w t0 times t
    (Hw : 0 < w) (Hs : Sorted Z.le (t0 :: times)) :
  let allowed := (window_run times (NewSlidingWindowLimiter lim w) []).1 in
  Z.of_nat (length (filter (in_window w t) allowed)) <= Z.max 0 lim.
Proof.
  destruct (window_run times (NewSlidingWindowLimiter lim w) []) as [acc swl] eqn:E. cbn [fst].
  assert (window_inv t0 [] (NewSlidingWindowLimiter lim w)) as Hi.
  { unfold window_inv. cbn. split_and!; try done. intros. lia. }
  destruct (window_run_inv _ _ _ _ _ _ Hi Hs E) as (now' & (_ & _ & _ & Hc) & Hl & Hww).
  rewrite Hl, Hww in Hc. exact (Hc t).
Qed.

Lemma sliding_window_bound_witness :
  (window_run [1; 2; 3; 11; 12] (NewSlidingWindowLimiter 2 10) []).1 = [12; 11; 2; 1] ∧
  Z.of_nat (length (filter (in_window 10 11) [12; 11; 2; 1])) <= 2.
Proof.
  split; [reflexivity|].
  apply (sliding_window_bound 2 10 0 [1; 2; 3; 11; 12] 11); [lia|].
  repeat (constructor; [|constructor; lia]). constructor; constructor.
Defined.

(** A composite allows a request exactly when each limiter in turn does; on a
    refusal the limiters before the refusing one have been charged for the
    request, and those after it have not been asked. *)
Theorem composite_allow_spec {L} `{!RateLimiter L} now (ls : list L) ok ls'
    (Ha : composite_allow now ls = (ok, ls')) :
  ∃ k, (k <= length ls)%nat ∧ (ok = true ↔ k = length ls) ∧ length ls' = length ls ∧
    (∀ i l, ls !! i = Some l → (i < k)%nat →
       ∃ l', Allow (default zero_time (now !! i)) l = (true, l') ∧ ls' !! i = Some l') ∧
    (∀ l, ls !! k = Some l → ∃ l', Allow (default zero_time (now !! k)) l = (false, l') ∧ ls' !! k = Some l') ∧
    (∀ i, (k < i)%nat → ls' !! i = ls !! i).
Proof.
  revert now ok ls' Ha. induction ls as [|l ls IH]; intros now ok ls' Ha; cbn [composite_allow] in Ha.
  { simplify_eq. exists 0%nat. split_and!; try done; intros; cbn in *; try done; lia. }
  destruct (Allow (default zero_time (head now)) l) as [[] l1] eqn:El; cbn [negb] in Ha.
  - destruct (composite_allow (tail now) ls) as [ok1 ls1] eqn:Er. simplify_eq.
    destruct (IH _ _ _ Er) as (k & Hk & Hok & Hlen & Hlt & Heq & Hgt).
    assert (∀ i, tail now !! i = now !! S i) as Htl by (intros i; by destruct now).
    exists (S k). split; [cbn; lia|]. split; [rewrite Hok; cbn; lia|]. split; [cbn; lia|]. split_and!.
    + intros [|i] x Hx Hi; cbn in Hx; simplify_eq.
      * exists l1. split; [|done]. rewrite <- El. by destruct now.
      * rewrite <- Htl. apply Hlt; [done|lia].
    + intros x Hx. rewrite <- Htl. by apply Heq.
    + intros [|i] Hi; [lia|]. apply Hgt. lia.
  - simplify_eq. exists 0%nat. split; [lia|]. split; [by split|]. split; [done|]. split; [lia|]. split.
    + intros x Hx. simplify_eq/=. exists l1. split; [|done]. rewrite <- El. by destruct now.
    + intros [|i] Hi; [lia|done].
Qed.

(** A refused request charges the first bucket. *)
Definition two_buckets : list TokenBucketLimiter := [NewTokenBucketLimiter 1 5 0; mkBucket 0 1 1 0].

Lemma composite_allow_spec_witness :
  composite_allow [0; 0] two_buckets = (false, [mkBucket 4 5 1 0; mkBucket 0 1 1 0]) ∧
  ∃ k, (k <= 2)%nat ∧ (false = true ↔ k = 2%nat).
Proof.
  assert (composite_allow [0; 0] two_buckets = (false, [mkBucket 4 5 1 0; mkBucket 0 1 1 0])) as E
    by reflexivity.
  split; [exact E|]. destruct (composite_allow_spec _ _ _ _ E) as (k & Hk & Hok & _).
  exists k. split; [exact Hk|exact Hok].
Defined.

(** The event queue is a bounded first-in first-out queue that drops its
    oldest events: over any sequence of pushes and pops that does not panic, the
    events popped, followed by those still queued, are the pushed events in
    order, some left out, and there are never more than [maxSize] of them. *)
Theorem queue_fifo {E} (ops : list (queue_op E)) n ins outs q'
    (Hrun : queue_run ops (NewMemoryEventQueue n) = Some (ins, outs, q')) :
  (outs ++ events q') `sublist_of` ins ∧
  Z.of_nat (length (events q')) <= (if n <=? 0 then 1000 else n).
Proof.
  apply queue_run_inv in Hrun as (Hsub & Hlen & Hm); [split; [done|by rewrite Hm in Hlen]|..];
    cbn; case_match; zbool; lia.
Qed.

Lemma queue_fifo_witness :
  queue_run [OpPush 1; OpPush 2; OpPop; OpPush 3; OpPush 4] (NewMemoryEventQueue 2)
    = Some ([1; 2; 3; 4], [1], mkQueue [3; 4] 2 true false) ∧
  [1; 3; 4] `sublist_of` [1; 2; 3; 4].
Proof.
  split; [reflexivity|].
  apply (queue_fifo [OpPush 1; OpPush 2; OpPop; OpPush 3; OpPush 4] 2 [1; 2; 3; 4] [1]
    (mkQueue [3; 4] 2 true false)). reflexivity.
Defined.
