(* ===== verification/FailureQueue.v ===== *)
(** * FailureQueue: the persistent failure queue and the dead letter queue

    Models [src/internal/webhook/persistent_queue.go] and
    [src/internal/webhook/dlq.go]: webhook events that could not be delivered,
    kept as one JSON file each.  The operating system and the JSON encoding are
    the interfaces of [GoFS]; an alert event is opaque, but for its identifier.
    Each [time.Now()] is an argument; logging is left out. *)

From Stdlib Require Import Ascii.
From S2P Require Import Prelude GoStrings GoPath GoFS GoHeap.

(** ** The persistent failure queue *)

Record FailedWebhookItem (E : Type) := mkFailed {
  FID : string;
  FEvent : E;
  FEndpoint : string;
  FAttempts : Z;
  MaxRetries : Z;
  NextRetry : instant;
  LastError : string;
  CreatedAt : instant;
  UpdatedAt : instant
}.
Arguments mkFailed {E}. Arguments FID {E}. Arguments FEvent {E}. Arguments FEndpoint {E}.
Arguments FAttempts {E}. Arguments MaxRetries {E}. Arguments NextRetry {E}. Arguments LastError {E}.
Arguments CreatedAt {E}. Arguments UpdatedAt {E}.

(** [items] is [None] when the queue has been closed: Go's nil map, which reads as
    empty and panics when written. *)
Record PersistentFailureQueue (E : Type) := mkPQ {
  storageDir : string;
  items : option (gmap string (FailedWebhookItem E));
  maxRetries : Z;
  retryTTL : duration
}.
Arguments mkPQ {E}. Arguments storageDir {E}. Arguments items {E}. Arguments maxRetries {E}. Arguments retryTTL {E}.

Inductive queue_error :=
| DirFailed (e : os_err)
| MarshalFailed
| UnmarshalFailed
| WriteFailed (e : os_err)
| ItemNotFound (id : string)
| RemoveFailed (e : os_err)
| ListFailed (e : os_err)
| ReadFailed (e : os_err)
| NilMapPanic.

Definition item_path (dir id : string) : string := PathJoin dir (id +:+ ".json").

(** The delay before the next attempt: [time.Duration(a) * time.Minute *
    time.Duration(a)], at most an hour. *)
Definition backoff_delay (attempts : Z) : duration :=
  let d := wrap64 (wrap64 (attempts * minute) * attempts) in
  if hour <? d then hour else d.

Section failure_queue.
Context {S : Type} `{!FileSystem S} {E : Type} `{!Codec (FailedWebhookItem E)}.
Context (event_id : E → string).

Notation queue := (PersistentFailureQueue E).
Notation item := (FailedWebhookItem E).

Definition the_items (q : queue) : gmap string item := default ∅ (items q).

Definition set_items (m : gmap string item) (q : queue) : queue :=
  mkPQ (storageDir q) (Some m) (maxRetries q) (retryTTL q).

Definition saveToDisk (q : queue) (i : item) (s : S) : option queue_error * S :=
  match json_marshal i with
  | None => (Some MarshalFailed, s)
  | Some data =>
      match WriteFile (item_path (storageDir q) (FID i)) data s with
      | (Some e, s) => (Some (WriteFailed e), s)
      | (None, s) => (None, s)
      end
  end.

(** Errors are only logged. *)
Definition removeFromDisk (q : queue) (id : string) (s : S) : S :=
  (Remove (item_path (storageDir q) id) s).2.

(** [filepath.Glob(storageDir/*.json)], for a directory whose name has none of
    the characters that are special in a pattern. *)
Definition glob_json (dir : string) (s : S) : list string :=
  match ReadDir dir s with
  | Err _ => []
  | Ok es => (λ e, PathJoin dir e.1) <$> filter (λ e, HasSuffix e.1 ".json" = true) es
  end.

Definition load_file (s : S) (m : gmap string item) (file : string) : gmap string item :=
  match ReadFile file s with
  | Err _ => m
  | Ok data =>
      match json_unmarshal data with
      | None => m
      | Some i => <[FID i := i]> m
      end
  end.

Definition loadFromDisk (dir : string) (s : S) : gmap string item :=
  fold_left (load_file s) (glob_json dir s) ∅.

Definition NewPersistentFailureQueue (dir : string) (maxRetries : Z) (ttl : duration) (s : S) :
    result queue_error queue * S :=
  match MkdirAll dir s with
  | (Some e, s) => (Err (DirFailed e), s)
  | (None, s) => (Ok (mkPQ dir (Some (loadFromDisk dir s)) maxRetries ttl), s)
  end.

(** The instants read by [AddFailedEvent]: the seconds of the identifier, then
    the bases of [NextRetry], [CreatedAt] and [UpdatedAt]. *)
Record add_clock := mkAddClock { a_unix : Z; a_next : instant; a_created : instant; a_updated : instant }.

Definition failed_id (event : E) (endpoint : string) (unix : Z) : string :=
  event_id event +:+ ("_" +:+ (endpoint +:+ ("_" +:+ Itoa unix))).

Definition failed_item (ck : add_clock) (event : E) (endpoint lastError : string) (q : queue) : item :=
  {| FID := failed_id event endpoint (a_unix ck); FEvent := event; FEndpoint := endpoint;
     FAttempts := 1; MaxRetries := maxRetries q; NextRetry := time_add (a_next ck) minute;
     LastError := lastError; CreatedAt := a_created ck; UpdatedAt := a_updated ck |}.

Definition AddFailedEvent (ck : add_clock) (event : E) (endpoint lastError : string) (q : queue) (s : S) :
    option queue_error * queue * S :=
  match items q with
  | None => (Some NilMapPanic, q, s)
  | Some m =>
      let i := failed_item ck event endpoint lastError q in
      let q := set_items (<[FID i := i]> m) q in
      let '(r, s) := saveToDisk q i s in (r, q, s)
  end.

Definition retryable (now : instant) (i : item) : bool :=
  time_after now (NextRetry i) && (FAttempts i <? MaxRetries i).

(** The order of the result is that of an iteration over a map. *)
Definition GetRetryableItems (now : instant) (q : queue) : list item :=
  filter (λ i, retryable now i = true) (map_to_list (the_items q)).*2.

(** [now] is read for [UpdatedAt], [now'] for [NextRetry]. *)
Definition failed_again (now now' : instant) (lastError : option string) (i : item) : item :=
  let attempts := wrap64 (FAttempts i + 1) in
  {| FID := FID i; FEvent := FEvent i; FEndpoint := FEndpoint i; FAttempts := attempts;
     MaxRetries := MaxRetries i; NextRetry := time_add now' (backoff_delay attempts);
     LastError := default (LastError i) lastError; CreatedAt := CreatedAt i; UpdatedAt := now |}.

Definition UpdateRetryAttempt (now now' : instant) (id : string) (success : bool) (lastError : option string)
    (q : queue) (s : S) : option queue_error * queue * S :=
  match the_items q !! id with
  | None => (Some (ItemNotFound id), q, s)
  | Some i =>
      if success then
        (None, set_items (delete id (the_items q)) q, removeFromDisk q id s)
      else
        let i := failed_again now now' lastError i in
        let q := set_items (<[id := i]> (the_items q)) q in
        let '(r, s) := saveToDisk q i s in (r, q, s)
  end.

Definition GetFailedItems (q : queue) : gmap string item := the_items q.

(** [ids] is the order the map is iterated in. *)
Definition remove_expired_step (now : instant) (acc : queue * S * Z) (id : string) : queue * S * Z :=
  let '(q, s, n) := acc in
  match the_items q !! id with
  | None => (q, s, n)
  | Some i =>
      if retryTTL q <? time_sub now (CreatedAt i)
      then (set_items (delete id (the_items q)) q, removeFromDisk q id s, n + 1)
      else (q, s, n)
  end.

Definition RemoveExpiredItems (now : instant) (ids : list string) (q : queue) (s : S) : queue * S * Z :=
  fold_left (remove_expired_step now) ids (q, s, 0).

Record queue_stats := mkQStats { total : Z; pending : Z; exceeded : Z; oldest_age : duration }.

(** [GetStats], the age being left in nanoseconds. *)
Definition QGetStats (now : instant) (q : queue) : queue_stats :=
  let l := (map_to_list (the_items q)).*2 in
  let pend := filter (λ i, (FAttempts i <? MaxRetries i) = true) l in
  let oldest := fold_left (λ o i, if time_before (CreatedAt i) o then CreatedAt i else o) l now in
  mkQStats (Z.of_nat (length l)) (Z.of_nat (length pend))
    (Z.of_nat (length l) - Z.of_nat (length pend)) (time_sub now oldest).

Definition QClose (q : queue) : queue := mkPQ (storageDir q) None (maxRetries q) (retryTTL q).
End failure_queue.

(** ** The dead letter queue *)

Record DeadLetterItem (E : Type) := mkDead {
  DID : string;
  DEvent : E;
  DEndpoint : string;
  DAttempts : Z;
  LastAttempt : instant;
  FirstFailed : instant;
  DError : string;
  Metadata : gmap string string
}.
Arguments mkDead {E}. Arguments DID {E}. Arguments DEvent {E}. Arguments DEndpoint {E}.
Arguments DAttempts {E}. Arguments LastAttempt {E}. Arguments FirstFailed {E}. Arguments DError {E}.
Arguments Metadata {E}.

Section sort.
Context {A : Type} (key : A → Z).

(** The two nested loops that sort a list: for each [i], for each [j > i],
    exchange the elements when that at [i] is after that at [j].  [n] and [m]
    count the iterations left. *)
Fixpoint sort_inner (m : nat) (i j : nat) (l : list A) : list A :=
  match m with
  | O => l
  | S m => sort_inner m i (S j) (if less key l j i then swap l i j else l)
  end.

Fixpoint sort_outer (n : nat) (i : nat) (l : list A) : list A :=
  match n with
  | O => l
  | S n => sort_outer n (S i) (sort_inner (length l - (i + 1)) i (i + 1) l)
  end.

Definition exchange_sort (l : list A) : list A := sort_outer (length l) 0 l.
End sort.

Section dead_letter.
Context {S : Type} `{!FileSystem S} {E : Type} `{!Codec (DeadLetterItem E)}.
Context (dir : string) (maxSize : Z).

Notation item := (DeadLetterItem E).

(** An entry of the directory, when it is an item that can be read. *)
Definition read_entry (s : S) (e : string * bool) : option item :=
  if (e.2 : bool) || negb (HasSuffix e.1 ".json") then None
  else match ReadFile (PathJoin dir e.1) s with
       | Err _ => None
       | Ok data => json_unmarshal data
       end.

(** [listUnlocked]; [List] only adds the lock. *)
Definition listUnlocked (s : S) : result queue_error (list item) :=
  match ReadDir dir s with
  | Err e => Err (ListFailed e)
  | Ok entries => Ok (exchange_sort FirstFailed (omap (read_entry s) entries))
  end.

Definition removeUnlocked (id : string) (s : S) : option queue_error * S :=
  match Remove (item_path dir id) s with
  | (Some ErrOther, s) => (Some (RemoveFailed ErrOther), s)
  | (_, s) => (None, s)
  end.

Definition DRemove (id : string) (s : S) : option queue_error * S := removeUnlocked id s.

(** [unix_nano] is read for a missing identifier, [now] for a missing time. *)
Definition fill_item (unix_nano : Z) (now : instant) (i : item) : item :=
  {| DID := if String.eqb (DID i) EmptyString
            then "dlq-" +:+ (Itoa unix_nano +:+ ("-" +:+ DEndpoint i)) else DID i;
     DEvent := DEvent i; DEndpoint := DEndpoint i; DAttempts := DAttempts i; LastAttempt := LastAttempt i;
     FirstFailed := if time_is_zero (FirstFailed i) then now else FirstFailed i;
     DError := DError i; Metadata := Metadata i |}.

Definition Add (unix_nano : Z) (now : instant) (i : item) (s : S) : option queue_error * S :=
  let i := fill_item unix_nano now i in
  match listUnlocked s with
  | Err e => (Some e, s)
  | Ok items =>
      let s :=
        if maxSize <=? Z.of_nat (length items)
        then match items with [] => s | oldest :: _ => (removeUnlocked (DID oldest) s).2 end
        else s in
      match json_marshal i with
      | None => (Some MarshalFailed, s)
      | Some data =>
          match WriteFile (item_path dir (DID i)) data s with
          | (Some e, s) => (Some (WriteFailed e), s)
          | (None, s) => (None, s)
          end
      end
  end.

Definition DGet (id : string) (s : S) : result queue_error item :=
  match ReadFile (item_path dir id) s with
  | Err ErrNotExist => Err (ItemNotFound id)
  | Err e => Err (ReadFailed e)
  | Ok data => match json_unmarshal data with None => Err UnmarshalFailed | Some i => Ok i end
  end.

Definition Retry (id : string) (s : S) : result queue_error item * S :=
  match DGet id s with
  | Err e => (Err e, s)
  | Ok i =>
      match removeUnlocked id s with
      | (Some e, s) => (Err e, s)
      | (None, s) => (Ok i, s)
      end
  end.

Definition purge_step (before : instant) (acc : Z * S) (i : item) : Z * S :=
  let '(removed, s) := acc in
  if time_before (FirstFailed i) before
  then match removeUnlocked (DID i) s with
       | (Some _, s) => (removed, s)
       | (None, s) => (removed + 1, s)
       end
  else (removed, s).

Definition Purge (before : instant) (s : S) : result queue_error Z * S :=
  match listUnlocked s with
  | Err e => (Err e, s)
  | Ok items => let '(removed, s) := fold_left (purge_step before) items (0, s) in (Ok removed, s)
  end.

Definition DSize (s : S) : result queue_error Z :=
  match listUnlocked s with Err e => Err e | Ok items => Ok (Z.of_nat (length items)) end.

Definition DClear (s : S) : option queue_error * S :=
  match listUnlocked s with
  | Err e => (Some e, s)
  | Ok items => (None, fold_left (λ s i, (removeUnlocked (DID i) s).2) items s)
  end.

Record dlq_stats := mkDStats {
  total_items : Z; oldest_item : option instant; newest_item : option instant;
  by_endpoint : gmap string Z
}.

(** [GetStatistics], without the usage percentage. *)
Definition GetStatistics (s : S) : result queue_error dlq_stats :=
  match listUnlocked s with
  | Err e => Err e
  | Ok items =>
      Ok (mkDStats (Z.of_nat (length items)) (FirstFailed <$> list.head items)
        (FirstFailed <$> list.last items)
        (fold_left (λ m i, partial_alter (λ c, Some (default 0 c + 1)) (DEndpoint i) m) items ∅))
  end.
End dead_letter.

(** ** Lemmas: the exchange sort *)

Section sort_facts.
Context {A : Type} (key : A → Z).
Notation kv := (kv key).

Lemma sort_inner_perm m i j (l : list A) : sort_inner key m i j l ≡ₚ l.
Proof.
  revert j l. induction m as [|m IH]; intros j l; cbn [sort_inner]; [done|].
  rewrite IH. destruct (less key l j i); [apply swap_perm|done].
Qed.

Lemma sort_outer_perm n i (l : list A) : sort_outer key n i l ≡ₚ l.
Proof.
  revert i l. induction n as [|n IH]; intros i l; cbn [sort_outer]; [done|].
  by rewrite IH, sort_inner_perm.
Qed.

(** The first [i] elements are in order and not above the others. *)
Definition sorted_to (i : nat) (l : list A) : Prop :=
  ∀ a b, (a < i)%nat → (a < b < length l)%nat → kv l a <= kv l b.

(** During the inner loop the element at [i] is not above those before [j]. *)
Lemma sort_inner_spec m i j (l : list A) :
  (i < j)%nat → (j + m)%nat = length l → sorted_to i l →
  (∀ b, (i < b < j)%nat → kv l i <= kv l b) →
  sorted_to (S i) (sort_inner key m i j l).
Proof.
  revert j l. induction m as [|m IH]; intros j l Hij Hm Hs Hi; cbn [sort_inner].
  - intros a b Ha Hb. destruct (decide (a = i)) as [->|]; [apply Hi; lia|apply Hs; lia].
  - rewrite less_kv by lia. destruct (kv l j <? kv l i) eqn:E; zbool.
    + apply IH; rewrite ?swap_length; try lia.
      * intros a b Ha Hb. rewrite swap_length in Hb. rewrite !swap_kv by lia.
        repeat case_decide; subst; try lia; apply Hs; lia.
      * intros b Hb. rewrite !swap_kv by lia. repeat case_decide; subst; try lia.
        assert (b ≠ j → kv l i <= kv l b) by (intros; apply Hi; lia). lia.
    + apply IH; try lia; [done|]. intros b Hb. destruct (decide (b = j)) as [->|]; [lia|apply Hi; lia].
Qed.

Lemma sort_outer_spec n i (l : list A) :
  (i + n)%nat = length l → sorted_to i l → sorted_to (length l) (sort_outer key n i l).
Proof.
  revert i l. induction n as [|n IH]; intros i l Hn Hs; cbn [sort_outer].
  - by replace (length l) with i by lia.
  - rewrite <- (Permutation_length (sort_inner_perm (length l - (i + 1)) i (i + 1) l)) at 1.
    apply IH; [rewrite sort_inner_perm; lia|].
    apply sort_inner_spec; [lia|lia|done|]. intros b Hb. lia.
Qed.

Lemma exchange_sort_spec (l : list A) :
  exchange_sort key l ≡ₚ l ∧ StronglySorted (λ a b, key a <= key b) (exchange_sort key l).
Proof.
  split; [apply sort_outer_perm|].
  assert (sorted_to (length l) (exchange_sort key l)) as Hs
    by (apply sort_outer_spec; [done|]; intros a b Ha; lia).
  assert (length (exchange_sort key l) = length l) as Hl
    by (unfold exchange_sort; by rewrite sort_outer_perm).
  rewrite <- Hl in Hs. clear Hl. revert Hs. generalize (exchange_sort key l). clear l.
  induction l as [|x l IH]; intros Hs; [constructor|]. constructor.
  - apply IH. intros a b Ha Hb. apply (Hs (S a) (S b)); cbn; lia.
  - apply list.Forall_forall. intros y (b & Hb)%list_elem_of_lookup.
    pose proof (lookup_lt_Some _ _ _ Hb). specialize (Hs 0%nat (S b) ltac:(cbn; lia) ltac:(cbn; lia)).
    by rewrite (kv_lookup key (x :: l) (S b) y Hb) in Hs.
Qed.
End sort_facts.

(** ** Lemmas: one file per identifier *)

(** An identifier that names a file: its file name has no slash. *)
Definition plain_id (id : string) : bool := segment (id +:+ ".json").

Section ids.
Context (base : list string) (Hbase : Forall (λ s, segment s = true) base).
Notation dir := (unsplit true base).

Lemma name_path name :
  segment name = true → PathJoin dir name = unsplit true (base ++ [name]).
Proof. intros H. apply (PathJoin_segments base name []); [done|by apply Forall_cons_iff]. Qed.

Lemma name_path_inj name name' :
  segment name = true → segment name' = true → PathJoin dir name = PathJoin dir name' → name = name'.
Proof.
  intros H H' E. rewrite !name_path in E by done.
  apply unsplit_inj in E; [|apply Forall_app; split; [done|by apply Forall_cons_iff]..].
  apply app_inv_head in E. by simplify_eq.
Qed.

Lemma json_inj id id' : id +:+ ".json" = id' +:+ ".json" → id = id'.
Proof.
  revert id'. induction id as [|c id IH]; intros [|c' id'] E; [done| | |].
  - pose proof (f_equal String.length E) as El. rewrite !str_length_app in El. cbn in El. lia.
  - pose proof (f_equal String.length E) as El. rewrite !str_length_app in El. cbn in El. lia.
  - rewrite !str_app_cons in E. injection E as -> E. f_equal. by apply IH.
Qed.

Lemma item_path_inj id id' :
  plain_id id = true → plain_id id' = true → item_path dir id = item_path dir id' → id = id'.
Proof. intros H H' E. by apply json_inj, name_path_inj. Qed.

Lemma json_suffix id : HasSuffix (id +:+ ".json") ".json" = true.
Proof. apply HasSuffix_spec. eauto. Qed.
End ids.

Section failure_facts.
Context {S : Type} `{!FileSystem S, !FileSystemLaws S} {E : Type} `{!Codec (FailedWebhookItem E)}.
Context (event_id : E → string).
Context (base : list string) (Hbase : Forall (λ s, segment s = true) base).
Notation dir := (unsplit true base).
Notation item := (FailedWebhookItem E).

(** The files mirror the items: one file per item, named by its identifier and
    holding it, and no other ".json" file. *)
Definition mirrors (m : gmap string item) (s : S) : Prop :=
  (∀ id i, m !! id = Some i → FID i = id ∧ plain_id id = true ∧ json_safe i ∧
     ∃ d, json_marshal i = Some d ∧ files s !! item_path dir id = Some d) ∧
  (∀ name, segment name = true → HasSuffix name ".json" = true → is_Some (files s !! PathJoin dir name) →
     ∃ id, name = id +:+ ".json" ∧ is_Some (m !! id)).

Lemma saveToDisk_ok q i s s' :
  storageDir q = dir → saveToDisk q i s = (None, s') →
  ∃ d, json_marshal i = Some d ∧ files s' = <[item_path dir (FID i) := d]> (files s) ∧
    is_dir (Dir (item_path dir (FID i))) s.
Proof.
  intros Hd. unfold saveToDisk. rewrite Hd. destruct (json_marshal i) as [d|]; [|done].
  pose proof (WriteFile_ok (item_path dir (FID i)) d s) as Hok.
  pose proof (WriteFile_dir (item_path dir (FID i)) d s) as Hdir.
  destruct (WriteFile (item_path dir (FID i)) d s) as [[e|] s1]; intros; simplify_eq.
  exists d. auto.
Qed.

Lemma mirrors_insert m s s' i d :
  mirrors m s → plain_id (FID i) = true → json_safe i → json_marshal i = Some d →
  files s' = <[item_path dir (FID i) := d]> (files s) → mirrors (<[FID i := i]> m) s'.
Proof.
  intros [H1 H2] Hp Hs Hd Hf. split.
  - intros id j [[<- <-]|[Hne Hj]]%lookup_insert_Some.
    + split_and!; try done. exists d. by rewrite Hf, lookup_insert_eq.
    + destruct (H1 id j Hj) as (? & Hpj & ? & dj & ? & ?). split_and!; try done. exists dj. split; [done|].
      rewrite Hf, lookup_insert_ne; [done|]. intros E0%(item_path_inj base Hbase); done.
  - intros name Hn Hsuf Hsome. destruct (decide (name = FID i +:+ ".json")) as [->|Hne].
    + exists (FID i). by rewrite lookup_insert_eq.
    + rewrite Hf, lookup_insert_ne in Hsome
        by (intros E0; unfold item_path in E0; apply (name_path_inj base Hbase) in E0; [congruence|done..]).
      destruct (H2 name Hn Hsuf Hsome) as (id & -> & Hid). exists id. split; [done|].
      rewrite lookup_insert_ne; [done|]. intros <-. done.
Qed.

Lemma mirrors_delete m s s' id :
  mirrors m s → plain_id id = true → files s' = delete (item_path dir id) (files s) →
  mirrors (delete id m) s'.
Proof.
  intros [H1 H2] Hp Hf. split.
  - intros id' j [Hne Hj]%lookup_delete_Some.
    destruct (H1 id' j Hj) as (? & Hpj & ? & dj & ? & ?). split_and!; try done. exists dj. split; [done|].
    rewrite Hf, lookup_delete_ne; [done|]. intros E0%(item_path_inj base Hbase); done.
  - intros name Hn Hsuf Hsome. destruct (decide (name = id +:+ ".json")) as [->|Hne].
    + change (PathJoin dir (id +:+ ".json")) with (item_path dir id) in Hsome.
      rewrite Hf, lookup_delete_eq in Hsome. by destruct Hsome.
    + rewrite Hf, lookup_delete_ne in Hsome
        by (intros E0; unfold item_path in E0; apply (name_path_inj base Hbase) in E0; [congruence|done..]).
      destruct (H2 name Hn Hsuf Hsome) as (id' & -> & Hid). exists id'. split; [done|].
      rewrite lookup_delete_ne; [done|]. by intros ->.
Qed.

(** Reading the files back gives the items. *)
Lemma load_mirrors m s es :
  mirrors m s → ReadDir dir s = Ok es → (∀ p d, files s !! p = Some d → ReadFile p s = Ok d) →
  loadFromDisk dir s = m.
Proof.
  intros [H1 H2] Hrd Hread. destruct (ReadDir_names _ _ _ Hrd) as [_ Hseg].
  assert (∀ id, is_Some (m !! id) → (id +:+ ".json", false) ∈ es) as Hin.
  { intros id [i Hi]. destruct (H1 id i Hi) as (_ & Hp & _ & d & _ & Hd).
    by eapply ReadDir_files. }
  unfold loadFromDisk, glob_json. rewrite Hrd.
  assert (∀ es' m0,
    Forall (λ e, segment e.1 = true) es' → m0 ⊆ m →
    let m1 := fold_left (load_file s)
      ((λ e, PathJoin dir e.1) <$> filter (λ e, HasSuffix e.1 ".json" = true) es') m0 in
    m1 ⊆ m ∧ ∀ id, is_Some (m !! id) → is_Some (m0 !! id) ∨ (id +:+ ".json", false) ∈ es' → is_Some (m1 !! id))
    as Hfold.
  { clear Hrd Hseg Hin. induction es' as [|[name isd] es' IH]; intros m0 Hs Hsub.
    { cbn. split; [done|]. intros id _ [?|?%not_elem_of_nil]; done. }
    apply Forall_cons_iff in Hs as [Hname Hs]. cbn in Hname.
    destruct (decide (HasSuffix name ".json" = true)) as [Hsuf|Hsuf].
    - rewrite filter_cons_True by done. cbn [fmap list_fmap fold_left fst].
      assert (load_file s m0 (PathJoin dir name) ⊆ m ∧
        (∀ id, is_Some (m0 !! id) → is_Some (load_file s m0 (PathJoin dir name) !! id)) ∧
        (∀ id, is_Some (m !! id) → name = id +:+ ".json" → is_Some (load_file s m0 (PathJoin dir name) !! id)))
        as (Hl1 & Hl2 & Hl3).
      { unfold load_file. destruct (ReadFile (PathJoin dir name) s) as [d|e] eqn:Er.
        - apply ReadFile_ok in Er. destruct (H2 name Hname Hsuf ltac:(eauto)) as (id & -> & i & Hi).
          destruct (H1 id i Hi) as (Hid & _ & Hsafe & d' & Hd' & Hf). unfold item_path in Hf.
          rewrite Er in Hf. simplify_eq. rewrite (json_round_trip _ _ Hsafe Hd'). split_and!.
          + apply insert_subseteq_l; [done|]. done.
          + intros id [x Hx]. destruct (decide (FID i = id)) as [->|]; [by rewrite lookup_insert_eq|].
            rewrite lookup_insert_ne by done. eauto.
          + intros id _ E0%json_inj. subst. by rewrite lookup_insert_eq.
        - split_and!; [done|done|]. intros id [i Hi] ->.
          destruct (H1 id i Hi) as (_ & _ & _ & d & _ & Hf). unfold item_path in Hf.
          apply Hread in Hf. congruence. }
      destruct (IH _ Hs Hl1) as [Hm1 Hm2]. split; [done|]. intros id Hid [H|H].
      + apply Hm2; auto.
      + apply elem_of_cons in H as [H|H]; [|apply Hm2; auto]. simplify_eq. apply Hm2; auto.
    - rewrite filter_cons_False by done. destruct (IH _ Hs Hsub) as [Hm1 Hm2]. split; [done|].
      intros id Hid [H|H]; [by apply Hm2; auto|]. apply elem_of_cons in H as [H|H]; [|apply Hm2; auto].
      simplify_eq. by rewrite json_suffix in Hsuf. }
  destruct (Hfold es ∅ Hseg (map_empty_subseteq _)) as [Hm1 Hm2]. cbn zeta in *.
  apply map_eq. intros id. destruct (m !! id) as [i|] eqn:Hi.
  - destruct (Hm2 id ltac:(by exists i)) as [j Hj]; [right; apply Hin; eauto|]. pose proof (lookup_weaken _ _ _ _ Hj Hm1). congruence.
  - apply eq_None_not_Some. intros [j Hj]. pose proof (lookup_weaken _ _ _ _ Hj Hm1). congruence.
Qed.
End failure_facts.

(** ** Operations that succeed *)

Section failure_runs.
Context {S : Type} `{!FileSystem S, !FileSystemLaws S} {E : Type} `{!Codec (FailedWebhookItem E)}.
Context (event_id : E → string).
Context (base : list string) (Hbase : Forall (λ s, segment s = true) base).
Notation dir := (unsplit true base).

(** A step of the queue on items whose identifier names a file and that the
    encoding keeps, without an error of the operating system. *)
Inductive q_step : PersistentFailureQueue E * S → PersistentFailureQueue E * S → Prop :=
| q_add ck event endpoint err q s q' s' :
    AddFailedEvent event_id ck event endpoint err q s = (None, q', s') →
    plain_id (failed_id event_id event endpoint (a_unix ck)) = true →
    json_safe (failed_item event_id ck event endpoint err q) →
    q_step (q, s) (q', s')
| q_failed now now' id err q s q' s' i :
    UpdateRetryAttempt now now' id false err q s = (None, q', s') →
    the_items q !! id = Some i → json_safe (failed_again now now' err i) →
    q_step (q, s) (q', s')
| q_delivered now now' id err q s q' s' :
    UpdateRetryAttempt now now' id true err q s = (None, q', s') →
    (Remove (item_path dir id) s).1 ≠ Some ErrOther →
    q_step (q, s) (q', s')
| q_expired now id q s q' s' n n' :
    remove_expired_step now (q, s, n) id = (q', s', n') →
    (Remove (item_path dir id) s).1 ≠ Some ErrOther →
    q_step (q, s) (q', s').

Lemma Remove_delete p (s : S) :
  (Remove p s).1 ≠ Some ErrOther → files (Remove p s).2 = delete p (files s).
Proof.
  intros Hr. destruct (Remove p s).1 as [[]|] eqn:E0; [|done|by apply Remove_ok].
  rewrite Remove_err by (by rewrite E0). by rewrite delete_id by (by apply Remove_missing).
Qed.

Definition queue_inv (x : PersistentFailureQueue E * S) : Prop :=
  storageDir x.1 = dir ∧ mirrors base (the_items x.1) x.2.

Lemma q_step_inv x y : queue_inv x → q_step x y → queue_inv y.
Proof.
  intros [Hd Hm] Hs. destruct Hs as [ck event endpoint err q s q' s' H Hp Hj|
    now now' id err q s q' s' i H Hi Hj|now now' id err q s q' s' H Hr|now id q s q' s' n n' H Hr];
    cbn [fst snd] in *.
  - unfold AddFailedEvent in H. destruct (items q) as [m|] eqn:Em; [|done].
    unfold the_items in Hm. rewrite Em in Hm. cbn in Hm.
    destruct (saveToDisk _ _ _) as [r s1] eqn:Es. simplify_eq.
    apply saveToDisk_ok with (base := base) in Es as (d & Hd1 & Hf & _); [|done..].
    split; [done|]. by apply (mirrors_insert base Hbase m s s' (failed_item event_id ck event endpoint err q) d).
  - unfold UpdateRetryAttempt in H. rewrite Hi in H. destruct (saveToDisk _ _ _) as [r s1] eqn:Es. simplify_eq.
    apply saveToDisk_ok with (base := base) in Es as (d & Hd1 & Hf & _); [|done..].
    destruct Hm as [Hm1 Hm2]. destruct (Hm1 id i Hi) as (Hid & Hp & _). split; [done|].
    assert (FID (failed_again now now' err i) = id) as Hid' by done. rewrite <- Hid'.
    apply (mirrors_insert base Hbase (the_items q) s s' (failed_again now now' err i) d); try done.
    by rewrite Hid'.
  - unfold UpdateRetryAttempt in H. destruct (the_items q !! id) as [i|] eqn:Hi; [|done]. simplify_eq.
    destruct (proj1 Hm id i Hi) as (_ & Hp & _). split; [done|].
    apply (mirrors_delete base Hbase (the_items q) s _ id); [done|done|].
    unfold removeFromDisk. rewrite Hd. by apply Remove_delete.
  - unfold remove_expired_step in H. destruct (the_items q !! id) as [i|] eqn:Hi; [|by simplify_eq].
    case_match; simplify_eq; [|done]. destruct (proj1 Hm id i Hi) as (_ & Hp & _). split; [done|].
    apply (mirrors_delete base Hbase (the_items q) s _ id); [done|done|].
    unfold removeFromDisk. rewrite Hd. by apply Remove_delete.
Qed.
End failure_runs.

(** ** Encodings for the witnesses: events are their identifiers *)

Definition words_ok (l : list string) : Prop := Forall (λ w, is_word w = true) l.
Definition ints_ok (l : list Z) : Prop := Forall in_int64 l.

Definition failed_marshal (i : FailedWebhookItem string) : option string :=
  Some (Join [FID i; FEvent i; FEndpoint i; LastError i; Itoa (FAttempts i);
    Itoa (MaxRetries i); Itoa (NextRetry i); Itoa (CreatedAt i); Itoa (UpdatedAt i)] " ").

Definition failed_unmarshal (d : string) : option (FailedWebhookItem string) :=
  match Fields d with
  | [id; ev; ep; err; a; m; n; c; u] =>
      Some (mkFailed id ev ep (Atoi a).1 (Atoi m).1 (Atoi n).1 err (Atoi c).1 (Atoi u).1)
  | _ => None
  end.

Definition failed_safe (i : FailedWebhookItem string) : Prop :=
  words_ok [FID i; FEvent i; FEndpoint i; LastError i] ∧
  ints_ok [FAttempts i; MaxRetries i; NextRetry i; CreatedAt i; UpdatedAt i].

Ltac codec_law :=
  unfold words_ok, ints_ok in *;
  repeat match goal with H : Forall _ (_ :: _) |- _ => apply Forall_cons_iff in H as [? H] end;
  rewrite Fields_Join by (repeat (apply Forall_cons_iff; split; [auto using Itoa_word|]); constructor);
  rewrite !Atoi_Itoa by done.

Lemma failed_round_trip i d : failed_safe i → failed_marshal i = Some d → failed_unmarshal d = Some i.
Proof.
  intros [Hw Hz] E. unfold failed_marshal in E. simplify_eq. unfold failed_unmarshal.
  codec_law. by destruct i.
Qed.

#[export] Instance failed_codec : Codec (FailedWebhookItem string) := {
  json_marshal := failed_marshal; json_unmarshal := failed_unmarshal; json_safe := failed_safe;
  json_round_trip := failed_round_trip
}.

Definition dead_marshal (i : DeadLetterItem string) : option string :=
  Some (Join [DID i; DEvent i; DEndpoint i; DError i; Itoa (DAttempts i); Itoa (LastAttempt i);
    Itoa (FirstFailed i)] " ").

Definition dead_unmarshal (d : string) : option (DeadLetterItem string) :=
  match Fields d with
  | [id; ev; ep; err; a; l; f] => Some (mkDead id ev ep (Atoi a).1 (Atoi l).1 (Atoi f).1 err ∅)
  | _ => None
  end.

Definition dead_safe (i : DeadLetterItem string) : Prop :=
  words_ok [DID i; DEvent i; DEndpoint i; DError i] ∧
  ints_ok [DAttempts i; LastAttempt i; FirstFailed i] ∧ Metadata i = ∅.

Lemma dead_round_trip i d : dead_safe i → dead_marshal i = Some d → dead_unmarshal d = Some i.
Proof.
  intros (Hw & Hz & Hm) E. unfold dead_marshal in E. simplify_eq. unfold dead_unmarshal.
  codec_law. destruct i; cbn in *. by subst.
Qed.

#[export] Instance dead_codec : Codec (DeadLetterItem string) := {
  json_marshal := dead_marshal; json_unmarshal := dead_unmarshal; json_safe := dead_safe;
  json_round_trip := dead_round_trip
}.

(** ** Lemmas: identifiers with an endpoint URL *)

Lemma digits_no_slash s : str_all is_digit s = true → str_all (not_char slash) s = true.
Proof. apply str_all_impl. intros c Hc. unfold not_char. apply negb_true_iff, Ascii.eqb_neq. by intros ->. Qed.

Lemma Itoa_no_slash z : str_all (not_char slash) (Itoa z) = true.
Proof.
  assert (∀ n : N, str_all (not_char slash) (pretty n) = true) as Hn.
  { intros n. pose proof (parse_uint_pretty n) as H. destruct (pretty n) as [|c s]; [done|].
    apply digits_go_all in H. by apply digits_no_slash. }
  unfold Itoa. destruct z as [|p|p].
  - reflexivity.
  - exact (Hn (N.pos p)).
  - exact (Hn (N.pos p)).
Qed.

(** A path with an empty component in the middle. *)
Lemma PathJoin_double_slash base a b :
  Forall (λ s, segment s = true) base → segment a = true → segment b = true →
  PathJoin (unsplit true base) (a +:+ ("//" +:+ b)) = unsplit true (base ++ [a; b]).
Proof.
  intros Hb Ha Hbs.
  assert (∀ x, segment x = true → str_all (not_char slash) x = true) as Hns
    by (intros x Hx; unfold segment in Hx; by zbool).
  unfold PathJoin, unsplit. cbn [String.eqb].
  assert (String slash (Join base "/") +:+ String slash (a +:+ ("//" +:+ b))
    = EmptyString +:+ seps slash (match base with [] => [EmptyString] | _ => base end ++ [a; EmptyString; b])) as ->.
  { rewrite seps_app. cbn [seps]. rewrite str_app_nil_r. destruct base as [|x base]; [done|]. by rewrite Join_seps. }
  unfold Clean, clean_comps.
  assert (rooted (EmptyString +:+ seps slash (match base with [] => [EmptyString] | _ => base end
    ++ [a; EmptyString; b])) = true) as -> by (destruct base; apply HasPrefix_head).
  rewrite Split_join.
  2: { constructor; [done|]. apply Forall_app. split.
       - destruct base; [by repeat constructor|by apply segments_no_slash].
       - by repeat (apply Forall_cons_iff; split; [auto|]). }
  unfold unsplit. do 2 f_equal. cbn [fold_left]. rewrite fold_left_app.
  assert (fold_left (clean_step true) (match base with [] => [EmptyString] | _ => base end)
    (clean_step true [] EmptyString) = rev base) as ->.
  { destruct base; [done|]. rewrite clean_segments by done. by rewrite app_nil_r. }
  cbn [fold_left]. rewrite (clean_step_segment _ _ a) by done.
  change (clean_step true (a :: rev base) EmptyString) with (a :: rev base).
  rewrite clean_step_segment by done. cbn [rev]. by rewrite rev_involutive, <- app_assoc.
Qed.

Lemma segment_suffix x suf :
  (2 < String.length suf)%nat → str_all (not_char slash) (x +:+ suf) = true → segment (x +:+ suf) = true.
Proof.
  intros Hl Hs. unfold segment. rewrite Hs.
  assert (∀ z, (String.length z <= 2)%nat → String.eqb (x +:+ suf) z = false) as Hz.
  { intros z Hz. apply String.eqb_neq. intros E. apply (f_equal String.length) in E.
    rewrite str_length_app in E. lia. }
  by rewrite !Hz by (cbn; lia).
Qed.

(** ** Properties *)

(** The delay before a retry grows with the square of the attempts, from a
    minute up to an hour: for every attempt number up to 12398 it is the smaller
    of [attempts² minutes] and an hour.  From 12399 on the product overflows
    64 bits, and the delay can be negative. *)
Theorem backoff_bounds a :
  (1 <= a <= 12398 → backoff_delay a = Z.min (a * a * minute) hour ∧ minute <= backoff_delay a <= hour) ∧
  backoff_delay 12399 < 0.
Proof.
  split; [|vm_compute; reflexivity]. intros Ha. unfold backoff_delay.
  change hour with (60 * minute). change minute with 60000000000.
  rewrite (wrap64_id (a * 60000000000)) by (unfold in_int64, min_int64, max_int64; nia).
  rewrite wrap64_id by (unfold in_int64, min_int64, max_int64; nia).
  case_match; zbool; nia.
Qed.

Section failure_properties.
Context {S : Type} `{!FileSystem S, !FileSystemLaws S} {E : Type} `{!Codec (FailedWebhookItem E)}.
Context (event_id : E → string).
Context (base : list string) (Hbase : Forall (λ s, segment s = true) base).
Notation dir := (unsplit true base).


(** An endpoint that is a URL cannot be stored: its slashes end up in the
    file name, so that [AddFailedEvent] succeeds only if a directory named after
    the event and the scheme exists, which nothing creates. *)
Theorem url_endpoint_needs_directory ck event host err q (s : S) q' s'
    (Hdir : storageDir q = dir)
    (He : str_all (not_char slash) (event_id event) = true) (Hh : str_all (not_char slash) host = true)
    (Hadd : AddFailedEvent event_id ck event ("https://" +:+ host) err q s = (None, q', s')) :
  is_dir (unsplit true (base ++ [event_id event +:+ "_https:"])) s.
Proof.
  unfold AddFailedEvent in Hadd. destruct (items q) as [m|]; [|done].
  destruct (saveToDisk _ _ _) as [r s1] eqn:Es. simplify_eq.
  apply saveToDisk_ok with (base := base) in Es as (_ & _ & _ & Hd); [|done..].
  assert (segment (event_id event +:+ "_https:") = true) as Ha
    by (apply segment_suffix; [cbn; lia|by rewrite str_all_app, He]).
  assert (segment ((host +:+ ("_" +:+ Itoa (a_unix ck))) +:+ ".json") = true) as Hb
    by (apply segment_suffix; [cbn; lia|by rewrite !str_all_app, Hh, Itoa_no_slash]).
  assert (item_path dir (FID (failed_item event_id ck event ("https://" +:+ host) err q)) =
    unsplit true (base ++ [event_id event +:+ "_https:"; (host +:+ ("_" +:+ Itoa (a_unix ck))) +:+ ".json"])) as Hp.
  { rewrite <- PathJoin_double_slash by done. unfold item_path. f_equal. cbn [FID failed_item].
    unfold failed_id. by rewrite !str_app_assoc. }
  rewrite Hp in Hd.
  change [event_id event +:+ "_https:"; (host +:+ ("_" +:+ Itoa (a_unix ck))) +:+ ".json"] with
    ([event_id event +:+ "_https:"] ++ [(host +:+ ("_" +:+ Itoa (a_unix ck))) +:+ ".json"]) in Hd.
  rewrite app_assoc, Dir_segments in Hd; [done|].
  repeat (apply Forall_app; split); [done|by apply Forall_cons_iff..].
Qed.
End failure_properties.

Section dead_letter_properties.
Context {S : Type} `{!FileSystem S, !FileSystemLaws S} {E : Type} `{!Codec (DeadLetterItem E)}.
Context (dir : string) (maxSize : Z).

(** C40: [List] returns every item that can be read, once each, the oldest first
    failure first. *)
Theorem List_sorted (s : S) (l : list (DeadLetterItem E)) es
    (Hls : ReadDir dir s = Ok es) (Hl : listUnlocked dir s = Ok l) :
  l ≡ₚ omap (read_entry dir s) es ∧ StronglySorted (λ a b, FirstFailed a <= FirstFailed b) l.
Proof. unfold listUnlocked in Hl. rewrite Hls in Hl. simplify_eq. apply exchange_sort_spec. Qed.

(** C36: [Add] keeps the queue bounded by giving up its oldest item: below the
    limit the new file is all that changes; at the limit the file of an item
    that failed first, before or with every other one, is removed. *)
Theorem Add_evicts_oldest nano now (i : DeadLetterItem E) (s : S) l s'
    (Hl : listUnlocked dir s = Ok l) (Hadd : Add dir maxSize nano now i s = (None, s'))
    (Hrm : ∀ p, (Remove p s).1 ≠ Some ErrOther) :
  let new := fill_item nano now i in
  ∃ d, json_marshal new = Some d ∧
    if Z.of_nat (length l) <? maxSize
    then files s' = <[item_path dir (DID new) := d]> (files s)
    else match l with
         | [] => files s' = <[item_path dir (DID new) := d]> (files s)
         | oldest :: _ => (∀ j, j ∈ l → FirstFailed oldest <= FirstFailed j) ∧
             files s' = <[item_path dir (DID new) := d]> (delete (item_path dir (DID oldest)) (files s))
         end.
Proof.
  cbn zeta. unfold Add in Hadd. rewrite Hl in Hadd. set (new := fill_item nano now i) in *.
  set (s1 := if maxSize <=? Z.of_nat (length l) then _ else s) in Hadd.
  destruct (json_marshal new) as [d|]; [|done]. exists d. split; [done|].
  pose proof (WriteFile_ok (item_path dir (DID new)) d s1) as Hw.
  destruct (WriteFile (item_path dir (DID new)) d s1) as [[e|] s2]; simplify_eq. cbn in Hw. rewrite Hw by done.
  unfold s1. destruct (Z.of_nat (length l) <? maxSize) eqn:El; zbool.
  - by rewrite (proj2 (Z.leb_gt _ _)) by lia.
  - rewrite (proj2 (Z.leb_le _ _)) by lia. destruct l as [|o l]; [done|]. split.
    + unfold listUnlocked in Hl. destruct (ReadDir dir s) as [es|]; [|done]. simplify_eq.
      pose proof (proj2 (exchange_sort_spec FirstFailed (omap (read_entry dir s) es))) as Hs.
      match goal with H : _ = o :: l |- _ => rewrite H in Hs end.
      apply StronglySorted_inv in Hs as [_ Hs]. intros j [->|Hj]%elem_of_cons; [done|].
      rewrite list.Forall_forall in Hs. by apply Hs.
    + f_equal. unfold removeUnlocked. rewrite <- (Remove_delete _ s (Hrm _)).
      destruct (Remove _ s) as [[[]|] s3]; done.
Qed.

(** An item is handed out for retry at most once: [Retry] returns the item
    the file holds and removes the file, and nothing else, so that a second
    [Retry] of the same identifier fails. *)
Theorem Retry_once id (s : S) (i : DeadLetterItem E) s'
    (Hr : Retry dir id s = (Ok i, s')) :
  DGet dir id s = Ok i ∧ files s' = delete (item_path dir id) (files s) ∧
  is_ok (Retry (E := E) dir id s').1 = false.
Proof.
  unfold Retry in Hr. destruct (DGet dir id s) as [j|] eqn:Eg; [|done].
  assert (files (removeUnlocked dir id s).2 = delete (item_path dir id) (files s) ∨
    is_Some (removeUnlocked dir id s).1) as Hrm.
  { unfold removeUnlocked. pose proof (Remove_delete (item_path dir id) s) as Hd.
    destruct (Remove (item_path dir id) s) as [[[]|] s1]; cbn in *; [left; by apply Hd|by right|left; by apply Hd]. }
  destruct (removeUnlocked dir id s) as [[e|] s1]; simplify_eq. cbn in Hrm.
  destruct Hrm as [Hrm|[]]; [|done]. split_and!; [done|done|].
  unfold Retry, DGet. destruct (ReadFile (item_path dir id) s') as [x|e] eqn:Er; [|by destruct e].
  apply ReadFile_ok in Er. by rewrite Hrm, lookup_delete_eq in Er.
Qed.
End dead_letter_properties.

(** ** Witnesses *)

Lemma backoff_bounds_witness :
  backoff_delay 3 = 9 * minute ∧ backoff_delay 9 = hour ∧ minute <= backoff_delay 3 <= hour.
Proof.
  split; [reflexivity|]. split; [reflexivity|]. apply (backoff_bounds 3). lia.
Defined.

Definition queue_base : list string := ["var"; "failed"].
Lemma queue_base_ok : Forall (λ s, segment s = true) queue_base.
Proof. repeat (constructor; [vm_compute; reflexivity|]). constructor. Qed.

Definition queue_dir : string := unsplit true queue_base.
Definition fresh_disk : MemFS := mkMem ∅ {[queue_dir]} [].
Definition fresh_queue : PersistentFailureQueue string := mkPQ queue_dir (Some ∅) 3 hour.

(** Two events added, one retried in vain, the other delivered. *)
Definition add1 := AddFailedEvent (S := MemFS) id (mkAddClock 7 7 7 7) "e1" "hook" "timeout" fresh_queue fresh_disk.
Definition add2 := AddFailedEvent (S := MemFS) id (mkAddClock 8 8 8 8) "e2" "hook" "refused" add1.1.2 add1.2.
Definition retry1 := UpdateRetryAttempt (S := MemFS) 100 101 "e1_hook_7" false (Some "again") add2.1.2 add2.2.
Definition retry2 := UpdateRetryAttempt (S := MemFS) 102 102 "e2_hook_8" true None retry1.1.2 retry1.2.

Ltac safe_item := split;
  [repeat (apply List.Forall_cons; [vm_compute; reflexivity|]); apply List.Forall_nil
  |repeat (apply List.Forall_cons; [split; vm_compute; discriminate|]); apply List.Forall_nil].

Lemma demo_steps :
  rtc (q_step (S := MemFS) id queue_base) (fresh_queue, fresh_disk) (retry2.1.2, retry2.2).
Proof.
  eapply (rtc_l _ _ (add1.1.2, add1.2)); [|eapply (rtc_l _ _ (add2.1.2, add2.2));
    [|eapply (rtc_l _ _ (retry1.1.2, retry1.2)); [|eapply (rtc_l _ _ (retry2.1.2, retry2.2)); [|apply rtc_refl]]]].
  - apply (q_add id queue_base (mkAddClock 7 7 7 7) "e1" "hook" "timeout");
      [vm_compute; reflexivity|vm_compute; reflexivity|safe_item].
  - apply (q_add id queue_base (mkAddClock 8 8 8 8) "e2" "hook" "refused");
      [vm_compute; reflexivity|vm_compute; reflexivity|safe_item].
  - apply (q_failed id queue_base 100 101 "e1_hook_7" (Some "again") _ _ _ _
      (failed_item id (mkAddClock 7 7 7 7) "e1" "hook" "timeout" fresh_queue));
      [vm_compute; reflexivity|vm_compute; reflexivity|safe_item].
  - apply (q_delivered id queue_base 102 102 "e2_hook_8" None); [vm_compute; reflexivity|vm_compute; discriminate].
Qed.

Lemma mem_read_total (s : MemFS) p d : files s !! p = Some d → ReadFile p s = Ok d.
Proof. cbn. unfold mem_read. by intros ->. Qed.


(** With the directory that the code never makes, and without it. *)
Definition odd_disk : MemFS := mkMem ∅ {[queue_dir; "/var/failed/e1_https:"]} [].
Definition url_add (s : MemFS) :=
  AddFailedEvent (S := MemFS) id (mkAddClock 7 7 7 7) "e1" ("https://" +:+ "hooks.example") "timeout" fresh_queue s.

Lemma url_endpoint_needs_directory_witness :
  (url_add fresh_disk).1.1 = Some (WriteFailed ErrNotExist) ∧
  is_dir "/var/failed/e1_https:" odd_disk.
Proof.
  split; [vm_compute; reflexivity|].
  apply (url_endpoint_needs_directory id queue_base queue_base_ok (mkAddClock 7 7 7 7) "e1" "hooks.example"
    "timeout" fresh_queue odd_disk (url_add odd_disk).1.2 (url_add odd_disk).2);
    [reflexivity|reflexivity|reflexivity|vm_compute; reflexivity].
Defined.

Definition dead (id : string) (t : instant) : DeadLetterItem string := mkDead id "ev" "hook" 3 t t "gone" ∅.
Definition dlq_add (i : DeadLetterItem string) (s : MemFS) := (Add (S := MemFS) queue_dir 2 0 1 i s).2.
Definition full_dlq : MemFS := dlq_add (dead "a" 30) (dlq_add (dead "b" 20) fresh_disk).

Lemma List_sorted_witness :
  listUnlocked queue_dir full_dlq = Ok [dead "b" 20; dead "a" 30] ∧
  StronglySorted (λ a b : DeadLetterItem string, FirstFailed a <= FirstFailed b) [dead "b" 20; dead "a" 30].
Proof.
  assert (listUnlocked queue_dir full_dlq = Ok [dead "b" 20; dead "a" 30]) as E by (vm_compute; reflexivity).
  split; [exact E|].
  destruct (ReadDir queue_dir full_dlq) as [es|] eqn:Ed; [|vm_compute in Ed; discriminate].
  exact (proj2 (List_sorted queue_dir full_dlq _ es Ed E)).
Defined.

Lemma no_faults_remove (s : MemFS) : faults s = [] → ∀ p, (Remove p s).1 ≠ Some ErrOther.
Proof. intros H p. cbn. unfold faulty. rewrite H. by destruct (mem s !! p). Qed.

Lemma Add_evicts_oldest_witness :
  files (dlq_add (dead "c" 40) full_dlq) !! "/var/failed/b.json" = None ∧
  is_Some (files (dlq_add (dead "c" 40) full_dlq) !! "/var/failed/a.json").
Proof.
  assert (listUnlocked queue_dir full_dlq = Ok [dead "b" 20; dead "a" 30]) as El by (vm_compute; reflexivity).
  assert (Add queue_dir 2 0 1 (dead "c" 40) full_dlq = (None, dlq_add (dead "c" 40) full_dlq)) as Ea
    by (vm_compute; reflexivity).
  destruct (Add_evicts_oldest queue_dir 2 0 1 (dead "c" 40) full_dlq _ _ El Ea
    (no_faults_remove full_dlq eq_refl)) as (d & _ & _ & Hf).
  rewrite Hf. split; [vm_compute; reflexivity|]. vm_compute. eauto.
Defined.

Lemma Retry_once_witness :
  is_ok (Retry (E := string) queue_dir "a" (Retry (E := string) queue_dir "a" full_dlq).2).1 = false.
Proof.
  assert (Retry queue_dir "a" full_dlq = (Ok (dead "a" 30), (Retry (E := string) queue_dir "a" full_dlq).2)) as E
    by (vm_compute; reflexivity).
  exact (proj2 (proj2 (Retry_once queue_dir "a" full_dlq _ _ E))).
Defined.
