(* ===== verification/ApiKeys.v ===== *)
(** * ApiKeys: the API key manager

    Models [src/internal/auth/api_keys.go]: the keys by identifier, how they are
    issued, validated, counted, revoked, updated, expired and stored.  The file
    system and the JSON encoding of the key map are the interfaces of [GoFS]; the
    bytes of [crypto/rand] and each [time.Now()] are arguments; the order in which
    a map is iterated is an argument where the result can depend on it.  The lock
    makes each operation one step, but for the save that [RecordAPIKeyUsage] leaves
    to a goroutine, which is an operation of its own.  Logging is left out; a key
    that is nil and a nil map of statistics, which only a file not written by
    [saveKeys] can hold, have no counterpart. *)

From Stdlib Require Import Ascii.
From S2P Require Import Prelude GoStrings GoPath GoFS GoBase64 GoTime.

(** ** Data *)

Record APIKeyStats := mkStats {
  TotalRequests : Z;
  SuccessfulReqs : Z;
  FailedReqs : Z;
  LastIPs : list string;
  HourlyUsage : gmap string Z;
  DailyUsage : gmap string Z;
  EndpointUsage : gmap string Z
}.

Record APIKey := mkKey {
  ID : string;
  Key : string;
  Name : string;
  Description : string;
  UserID : string;
  Permissions : list string;
  CreatedAt : instant;
  ExpiresAt : option instant;
  LastUsedAt : option instant;
  UsageCount : Z;
  IsActive : bool;
  RateLimit : Z;
  RateLimitUsed : Z;
  RateLimitReset : instant;
  AllowedIPs : list string;
  BlockedIPs : list string;
  Statistics : option APIKeyStats
}.

Record APIKeyConfig := mkConfig {
  StoragePath : string;
  DefaultRateLimit : Z;
  DefaultExpiration : duration;
  MaxKeysPerUser : Z;
  KeyLength : Z;
  EnableStatistics : bool;
  StatisticsRetention : duration;
  AutoCleanup : bool;
  CleanupInterval : duration
}.

Definition DefaultAPIKeyConfig : APIKeyConfig := {|
  StoragePath := "data/api_keys.json";
  DefaultRateLimit := 1000;
  DefaultExpiration := 90 * 24 * hour;
  MaxKeysPerUser := 10;
  KeyLength := 32;
  EnableStatistics := true;
  StatisticsRetention := 30 * 24 * hour;
  AutoCleanup := true;
  CleanupInterval := 24 * hour
|}.

Record APIKeyManager := mkManager { keys : gmap string APIKey; config : APIKeyConfig }.

Inductive key_error :=
| QuotaReached (userID : string) (max : Z)
| RandFailed
| KeyNotFound
| KeyDeactivated
| KeyExpired
| KeyRateExceeded
| KeyInvalid
| DirFailed (e : os_err)
| ReadFailed (e : os_err)
| ParseFailed
| MarshalFailed
| WriteFailed (e : os_err)
| MoveFailed (e : os_err).

Definition set_keys (m : gmap string APIKey) (mg : APIKeyManager) : APIKeyManager := mkManager m (config mg).

(** Assignments to the fields of a key. *)
Definition set_rate (used : Z) (reset : instant) (k : APIKey) : APIKey :=
  mkKey (ID k) (Key k) (Name k) (Description k) (UserID k) (Permissions k) (CreatedAt k) (ExpiresAt k)
    (LastUsedAt k) (UsageCount k) (IsActive k) (RateLimit k) used reset (AllowedIPs k) (BlockedIPs k) (Statistics k).
Definition set_usage (count : Z) (last : option instant) (k : APIKey) : APIKey :=
  mkKey (ID k) (Key k) (Name k) (Description k) (UserID k) (Permissions k) (CreatedAt k) (ExpiresAt k)
    last count (IsActive k) (RateLimit k) (RateLimitUsed k) (RateLimitReset k) (AllowedIPs k) (BlockedIPs k) (Statistics k).
Definition set_stats (st : option APIKeyStats) (k : APIKey) : APIKey :=
  mkKey (ID k) (Key k) (Name k) (Description k) (UserID k) (Permissions k) (CreatedAt k) (ExpiresAt k)
    (LastUsedAt k) (UsageCount k) (IsActive k) (RateLimit k) (RateLimitUsed k) (RateLimitReset k) (AllowedIPs k) (BlockedIPs k) st.
Definition set_active (b : bool) (k : APIKey) : APIKey :=
  mkKey (ID k) (Key k) (Name k) (Description k) (UserID k) (Permissions k) (CreatedAt k) (ExpiresAt k)
    (LastUsedAt k) (UsageCount k) b (RateLimit k) (RateLimitUsed k) (RateLimitReset k) (AllowedIPs k) (BlockedIPs k) (Statistics k).
Definition set_secret (s : string) (k : APIKey) : APIKey :=
  mkKey (ID k) s (Name k) (Description k) (UserID k) (Permissions k) (CreatedAt k) (ExpiresAt k)
    (LastUsedAt k) (UsageCount k) (IsActive k) (RateLimit k) (RateLimitUsed k) (RateLimitReset k) (AllowedIPs k) (BlockedIPs k) (Statistics k).
Definition set_info (name desc : string) (perms : list string) (limit : Z) (allowed blocked : list string)
    (k : APIKey) : APIKey :=
  mkKey (ID k) (Key k) name desc (UserID k) perms (CreatedAt k) (ExpiresAt k)
    (LastUsedAt k) (UsageCount k) (IsActive k) limit (RateLimitUsed k) (RateLimitReset k) allowed blocked (Statistics k).

(** ** Rate limits, statistics and masks *)

(** A new minute resets the counter. *)
Definition rate_window (now : instant) (k : APIKey) : APIKey :=
  if time_after now (RateLimitReset k) then set_rate 0 (time_add now minute) k else k.

Definition isRateLimited (now : instant) (k : APIKey) : bool * APIKey :=
  let k := rate_window now k in (RateLimit k <=? RateLimitUsed k, k).

Definition updateRateLimit (now : instant) (k : APIKey) : APIKey :=
  let k := rate_window now k in set_rate (wrap64 (RateLimitUsed k + 1)) (RateLimitReset k) k.

(** The first occurrence of [item] is removed. *)
Fixpoint remove_first (item : string) (l : list string) : list string :=
  match l with
  | [] => []
  | x :: l => if String.eqb x item then l else x :: remove_first item l
  end.

Definition addToRecentList (l : list string) (item : string) (maxSize : nat) : list string :=
  let l := [item] ++ remove_first item l in
  if (maxSize <? length l)%nat then take maxSize l else l.

(** Go's [<] on strings. *)
Definition string_lt (s t : string) : bool := match String.compare s t with Lt => true | _ => false end.

Definition drop_before (cutoff : string) (m : gmap string Z) : gmap string Z :=
  filter (λ x, string_lt x.1 cutoff = false) m.

Definition set_usage_maps (h d e : gmap string Z) (st : APIKeyStats) : APIKeyStats :=
  mkStats (TotalRequests st) (SuccessfulReqs st) (FailedReqs st) (LastIPs st) h d e.

Definition cleanupOldStatistics (z : zone) (now : instant) (cfg : APIKeyConfig) (st : APIKeyStats) : APIKeyStats :=
  let cutoff := time_add now (wrap64 (- StatisticsRetention cfg)) in
  let cutoffHour := format_hour z cutoff in
  let cutoffDay := format_day z cutoff in
  set_usage_maps (drop_before cutoffHour (HourlyUsage st)) (drop_before cutoffDay (DailyUsage st)) (EndpointUsage st) st.

Definition maskAPIKey (key : string) : string :=
  if (String.length key <=? 8)%nat then "***"
  else take_bytes 4 key +:+ ("****" +:+ drop_bytes (String.length key - 4) key).

(** [m[k]++] on a map of 64-bit counters. *)
Definition bump (k : string) (m : gmap string Z) : gmap string Z :=
  <[k := wrap64 (default 0 (m !! k) + 1)]> m.

Definition record_stats (z : zone) (now clean : instant) (cfg : APIKeyConfig) (clientIP endpoint : string)
    (success : bool) (st : APIKeyStats) : APIKeyStats :=
  let st := mkStats (wrap64 (TotalRequests st + 1))
              (if success then wrap64 (SuccessfulReqs st + 1) else SuccessfulReqs st)
              (if success then FailedReqs st else wrap64 (FailedReqs st + 1))
              (addToRecentList (LastIPs st) clientIP 10)
              (bump (format_hour z now) (HourlyUsage st))
              (bump (format_day z now) (DailyUsage st))
              (if negb (String.eqb endpoint EmptyString) then bump endpoint (EndpointUsage st) else EndpointUsage st) in
  cleanupOldStatistics z clean cfg st.

(** ** The manager *)

Definition keys_of_user (userID : string) (m : gmap string APIKey) : gmap string APIKey :=
  filter (λ x, UserID x.2 = userID ∧ IsActive x.2 = true) m.
Definition userKeyCount (userID : string) (m : gmap string APIKey) : Z := Z.of_nat (size (keys_of_user userID m)).

(** [generateSecureID] and [generateSecureKey]: what [rand.Read] gives, encoded. *)
Definition generate_secure (bytes : option string) : option string := EncodeToString URLEncoding <$> bytes.

(** The instants [GenerateAPIKey] reads. *)
Record gen_clock := mkGenClock { g_expiry : instant; g_created : instant }.

Definition new_key (ck : gen_clock) (cfg : APIKeyConfig) (id secret userID name desc : string)
    (perms : list string) : APIKey := {|
  ID := id; Key := secret; Name := name; Description := desc; UserID := userID; Permissions := perms;
  CreatedAt := g_created ck; ExpiresAt := Some (time_add (g_expiry ck) (DefaultExpiration cfg));
  LastUsedAt := None; UsageCount := 0; IsActive := true; RateLimit := DefaultRateLimit cfg;
  RateLimitUsed := 0; RateLimitReset := zero_time; AllowedIPs := []; BlockedIPs := [];
  Statistics := Some (mkStats 0 0 0 [] ∅ ∅ ∅)
|}.

Definition expired (now : instant) (k : APIKey) : bool :=
  match ExpiresAt k with Some e => time_after now e | None => false end.

Section manager.
Context {S : Type} `{!FileSystem S} `{!Codec (gmap string APIKey)}.

Definition temp_path (mg : APIKeyManager) : string := StoragePath (config mg) +:+ ".tmp".

Definition saveKeys (mg : APIKeyManager) (s : S) : option key_error * S :=
  match json_marshal (keys mg) with
  | None => (Some MarshalFailed, s)
  | Some data =>
      match WriteFile (temp_path mg) data s with
      | (Some e, s) => (Some (WriteFailed e), s)
      | (None, s) =>
          match Rename (temp_path mg) (StoragePath (config mg)) s with
          | (Some e, s) => let '(_, s) := Remove (temp_path mg) s in (Some (MoveFailed e), s)
          | (None, s) => (None, s)
          end
      end
  end.

Definition loadKeys (mg : APIKeyManager) (s : S) : option key_error * APIKeyManager * S :=
  let path := StoragePath (config mg) in
  match MkdirAll (Dir path) s with
  | (Some e, s) => (Some (DirFailed e), mg, s)
  | (None, s) =>
      match StatFile path s with
      | Some ErrNotExist => (None, mg, s)
      | _ =>
          match ReadFile path s with
          | Err e => (Some (ReadFailed e), mg, s)
          | Ok data =>
              match json_unmarshal data with
              | None => (Some ParseFailed, mg, s)
              | Some m => (None, set_keys m mg, s)
              end
          end
      end
  end.

(** A load that fails is only logged; the clean-up goroutine runs
    [cleanupExpiredKeys] at each tick. *)
Definition NewAPIKeyManager (cfg : option APIKeyConfig) (s : S) : APIKeyManager * S :=
  let cfg := default DefaultAPIKeyConfig cfg in
  let '(_, mg, s) := loadKeys (mkManager ∅ cfg) s in (mg, s).

Definition GenerateAPIKey (ck : gen_clock) (rid rkey : option string) (userID name desc : string)
    (perms : list string) (mg : APIKeyManager) (s : S) : result key_error APIKey * APIKeyManager * S :=
  if MaxKeysPerUser (config mg) <=? userKeyCount userID (keys mg)
  then (Err (QuotaReached userID (MaxKeysPerUser (config mg))), mg, s)
  else
    match generate_secure rid, generate_secure rkey with
    | Some id, Some secret =>
        let k := new_key ck (config mg) id secret userID name desc perms in
        let mg := set_keys (<[id := k]> (keys mg)) mg in
        match saveKeys mg s with
        | (Some e, s) => (Err e, set_keys (delete id (keys mg)) mg, s)
        | (None, s) => (Ok k, mg, s)
        end
    | _, _ => (Err RandFailed, mg, s)
    end.

(** The instants [ValidateAPIKey] reads: for the expiry, and for the rate limit. *)
Record val_clock := mkValClock { v_expiry : instant; v_rate : instant }.

(** The loop over the map, in the order [order].  The key found is returned by
    reference: its identifier stands for it. *)
Fixpoint validate_go (ck : val_clock) (keyValue : string) (order : list string) (m : gmap string APIKey) :
    result key_error string * gmap string APIKey :=
  match order with
  | [] => (Err KeyInvalid, m)
  | id :: order =>
      match m !! id with
      | None => validate_go ck keyValue order m
      | Some k =>
          if String.eqb (Key k) keyValue then
            if negb (IsActive k) then (Err KeyDeactivated, m)
            else if expired (v_expiry ck) k then (Err KeyExpired, m)
            else
              let '(limited, k) := isRateLimited (v_rate ck) k in
              let m := <[id := k]> m in
              if limited then (Err KeyRateExceeded, m) else (Ok id, m)
          else validate_go ck keyValue order m
      end
  end.

Definition ValidateAPIKey (ck : val_clock) (order : list string) (keyValue : string) (mg : APIKeyManager) :
    result key_error string * APIKeyManager :=
  let '(r, m) := validate_go ck keyValue order (keys mg) in (r, set_keys m mg).

(** The instants [RecordAPIKeyUsage] reads. *)
Record rec_clock := mkRecClock { r_now : instant; r_rate : instant; r_clean : instant }.

Definition record_key (z : zone) (ck : rec_clock) (cfg : APIKeyConfig) (clientIP endpoint : string)
    (success : bool) (k : APIKey) : APIKey :=
  let k := set_usage (wrap64 (UsageCount k + 1)) (Some (r_now ck)) k in
  let k := updateRateLimit (r_rate ck) k in
  match Statistics k with
  | Some st =>
      if EnableStatistics cfg
      then set_stats (Some (record_stats z (r_now ck) (r_clean ck) cfg clientIP endpoint success st)) k
      else k
  | None => k
  end.

Definition RecordAPIKeyUsage (z : zone) (ck : rec_clock) (keyID clientIP endpoint : string) (success : bool)
    (mg : APIKeyManager) : option key_error * APIKeyManager :=
  match keys mg !! keyID with
  | None => (Some KeyNotFound, mg)
  | Some k => (None, set_keys (<[keyID := record_key z ck (config mg) clientIP endpoint success k]> (keys mg)) mg)
  end.

Definition RevokeAPIKey (keyID : string) (mg : APIKeyManager) (s : S) : option key_error * APIKeyManager * S :=
  match keys mg !! keyID with
  | None => (Some KeyNotFound, mg, s)
  | Some k =>
      let mg := set_keys (<[keyID := set_active false k]> (keys mg)) mg in
      let '(r, s) := saveKeys mg s in (r, mg, s)
  end.

(** Copies without the secret, in the order of the iteration. *)
Definition masked (k : APIKey) : APIKey := set_secret (maskAPIKey (Key k)) k.
Definition ListAPIKeys (order : list string) (userID : string) (mg : APIKeyManager) : list APIKey :=
  masked <$> filter (λ k, UserID k = userID) (omap (λ id, keys mg !! id) order).

Definition GetAPIKeyInfo (keyID : string) (mg : APIKeyManager) : result key_error APIKey :=
  match keys mg !! keyID with
  | None => Err KeyNotFound
  | Some k => Ok (masked k)
  end.

(** The values of [updates]: an [interface{}] holds a string, a list of strings,
    an int or something else. *)
Inductive update_value := UStr (s : string) | UStrs (l : list string) | UInt (n : Z) | UOther.

Definition as_str (d : string) (v : option update_value) : string :=
  match v with Some (UStr s) => s | _ => d end.
Definition as_strs (d : list string) (v : option update_value) : list string :=
  match v with Some (UStrs l) => l | _ => d end.
Definition as_int (d : Z) (v : option update_value) : Z :=
  match v with Some (UInt n) => n | _ => d end.

Definition update_key (u : gmap string update_value) (k : APIKey) : APIKey :=
  set_info (as_str (Name k) (u !! "name"%string)) (as_str (Description k) (u !! "description"%string))
    (as_strs (Permissions k) (u !! "permissions"%string)) (as_int (RateLimit k) (u !! "rate_limit"%string))
    (as_strs (AllowedIPs k) (u !! "allowed_ips"%string)) (as_strs (BlockedIPs k) (u !! "blocked_ips"%string)) k.

Definition UpdateAPIKey (keyID : string) (u : gmap string update_value) (mg : APIKeyManager) (s : S) :
    option key_error * APIKeyManager * S :=
  match keys mg !! keyID with
  | None => (Some KeyNotFound, mg, s)
  | Some k =>
      let mg := set_keys (<[keyID := update_key u k]> (keys mg)) mg in
      let '(r, s) := saveKeys mg s in (r, mg, s)
  end.

(** Saved only when a key is gone; an error is only logged. *)
Definition cleanupExpiredKeys (now : instant) (mg : APIKeyManager) (s : S) : APIKeyManager * S :=
  let m := filter (λ x, expired now x.2 = false) (keys mg) in
  let cleanedCount := (size (keys mg) - size m)%nat in
  let mg := set_keys m mg in
  if (0 <? cleanedCount)%nat then (mg, (saveKeys mg s).2) else (mg, s).
End manager.

(** ** Statistics over all keys *)

Record GlobalStatistics := mkGlobal {
  total_keys : Z; active_keys : Z; expired_keys : Z; total_usage : Z;
  users : gmap string Z; daily_usage : gmap string Z; endpoint_usage : gmap string Z
}.

(** [for k, n := range src { dst[k] += n }]. *)
Definition add_usage (src dst : gmap string Z) : gmap string Z :=
  map_fold (λ k n dst, <[k := wrap64 (default 0 (dst !! k) + n)]> dst) dst src.

Definition stat_key (now : instant) (k : APIKey) (g : GlobalStatistics) : GlobalStatistics :=
  let live := match ExpiresAt k with None => true | Some e => time_before now e end in
  {| total_keys := total_keys g + 1;
     active_keys := if IsActive k && live then active_keys g + 1 else active_keys g;
     expired_keys := if IsActive k && negb live then expired_keys g + 1 else expired_keys g;
     total_usage := wrap64 (total_usage g + UsageCount k);
     users := bump (UserID k) (users g);
     daily_usage := match Statistics k with Some st => add_usage (DailyUsage st) (daily_usage g) | None => daily_usage g end;
     endpoint_usage :=
       match Statistics k with Some st => add_usage (EndpointUsage st) (endpoint_usage g) | None => endpoint_usage g end |}.

Definition GetGlobalStatistics (now : instant) (order : list string) (mg : APIKeyManager) : GlobalStatistics :=
  fold_left (λ g k, stat_key now k g) (omap (λ id, keys mg !! id) order) (mkGlobal 0 0 0 0 ∅ ∅ ∅).

(** ** Sequences of operations *)

Section operations.
Context {S : Type} `{!FileSystem S} `{!Codec (gmap string APIKey)}.

Notation state := (APIKeyManager * S)%type.

Inductive key_op :=
| OGenerate (ck : gen_clock) (rid rkey : option string) (userID name desc : string) (perms : list string)
| OValidate (ck : val_clock) (order : list string) (keyValue : string)
| ORecord (z : zone) (ck : rec_clock) (keyID clientIP endpoint : string) (success : bool)
| ORevoke (keyID : string)
| OUpdate (keyID : string) (u : gmap string update_value)
| OCleanup (now : instant)
| OSave.

Definition apply_op (o : key_op) (x : state) : state :=
  let '(mg, s) := x in
  match o with
  | OGenerate ck rid rkey u n d p => let '(_, mg, s) := GenerateAPIKey ck rid rkey u n d p mg s in (mg, s)
  | OValidate ck order v => ((ValidateAPIKey ck order v mg).2, s)
  | ORecord z ck id ip ep ok => ((RecordAPIKeyUsage z ck id ip ep ok mg).2, s)
  | ORevoke id => let '(_, mg, s) := RevokeAPIKey id mg s in (mg, s)
  | OUpdate id u => let '(_, mg, s) := UpdateAPIKey id u mg s in (mg, s)
  | OCleanup now => cleanupExpiredKeys now mg s
  | OSave => (mg, (saveKeys mg s).2)
  end.

(** Random identifiers and secrets are new. *)
Definition op_fresh (o : key_op) (mg : APIKeyManager) : Prop :=
  match o with
  | OGenerate _ rid rkey _ _ _ _ =>
      (∀ id, generate_secure rid = Some id → keys mg !! id = None) ∧
      (∀ v id k, generate_secure rkey = Some v → keys mg !! id = Some k → Key k ≠ v)
  | _ => True
  end.

(** Any number of operations, each allowed by [P]. *)
Inductive steps (P : key_op → Prop) : state → state → Prop :=
| steps_refl x : steps P x x
| steps_op x y o : steps P x y → P o → op_fresh o y.1 → steps P x (apply_op o y).

(** The operation does not draw the identifier [id] again. *)
Definition draws_not (id : string) (o : key_op) : Prop :=
  match o with OGenerate _ rid _ _ _ _ _ => generate_secure rid ≠ Some id | _ => True end.

(** An order in which the map can be iterated. *)
Definition order_of (m : gmap string APIKey) (order : list string) : Prop :=
  NoDup order ∧ ∀ id, id ∈ order ↔ is_Some (m !! id).

(** ** Invariants *)

(** Every key of [m'] is a key of [m], no more active than it was. *)
Definition keys_le (m' m : gmap string APIKey) : Prop :=
  ∀ id k', m' !! id = Some k' →
    ∃ k, m !! id = Some k ∧ ID k' = ID k ∧ Key k' = Key k ∧ UserID k' = UserID k ∧
         (IsActive k' = true → IsActive k = true).

Definition stats_ok (k : APIKey) : Prop :=
  match Statistics k with
  | Some st => NoDup (LastIPs st) ∧ (length (LastIPs st) <= 10)%nat
  | None => True
  end.

Definition keys_wf (m : gmap string APIKey) : Prop :=
  (∀ id k, m !! id = Some k → ID k = id ∧ stats_ok k) ∧
  (∀ id id' k k', m !! id = Some k → m !! id' = Some k' → Key k = Key k' → id = id').

#[global] Instance keys_le_preorder : PreOrder keys_le.
Proof.
  split; [intros m id k' ?; eauto 10|]. intros m1 m2 m3 H1 H2 id k1 E1.
  destruct (H1 id k1 E1) as (k2 & E2 & ? & ? & ? & ?). destruct (H2 id k2 E2) as (k3 & E3 & ? & ? & ? & ?).
  exists k3. split_and!; [done|congruence..|auto].
Qed.

Lemma keys_le_insert m id k k' :
  m !! id = Some k → ID k' = ID k → Key k' = Key k → UserID k' = UserID k →
  (IsActive k' = true → IsActive k = true) → keys_le (<[id := k']> m) m.
Proof.
  intros E ???? id' k''. destruct (decide (id' = id)) as [->|].
  - rewrite lookup_insert_eq. intros [= <-]. eauto 10.
  - rewrite lookup_insert_ne by done. eauto 10.
Qed.

Lemma keys_le_filter m (P : string * APIKey → Prop) `{!∀ x, Decision (P x)} : keys_le (filter P m) m.
Proof. intros id k' [E _]%map_lookup_filter_Some. eauto 10. Qed.

Lemma count_le user m m' : keys_le m' m → userKeyCount user m' <= userKeyCount user m.
Proof.
  intros H. unfold userKeyCount. apply Nat2Z.inj_le. rewrite <- !size_dom. apply subseteq_size.
  intros id [k' E]%elem_of_dom. apply map_lookup_filter_Some in E as [E [Hu Ha]]. cbn in Hu, Ha.
  destruct (H id k' E) as (k & E' & _ & _ & Hu' & Ha'). apply elem_of_dom. exists k.
  apply map_lookup_filter_Some. split; [done|]. cbn. split; [congruence|auto].
Qed.

Lemma count_insert user m id k :
  userKeyCount user (<[id := k]> m) <=
  userKeyCount user m + (if bool_decide (UserID k = user) then 1 else 0).
Proof.
  unfold userKeyCount, keys_of_user. rewrite map_filter_insert.
  destruct (decide _) as [[Hu Ha]|Hn]; cbn in *.
  - rewrite bool_decide_true by done. rewrite map_size_insert. case_match; cbn; lia.
  - assert (size (filter (λ x, UserID x.2 = user ∧ IsActive x.2 = true) (delete id m)) <=
            size (filter (λ x, UserID x.2 = user ∧ IsActive x.2 = true) m))%nat; [|case_bool_decide; lia].
    rewrite map_filter_delete, map_size_delete. case_match; cbn; lia.
Qed.

(** *** What each operation does to the keys *)

Lemma rate_window_same now k :
  ID (rate_window now k) = ID k ∧ Key (rate_window now k) = Key k ∧ UserID (rate_window now k) = UserID k ∧
  IsActive (rate_window now k) = IsActive k ∧ Statistics (rate_window now k) = Statistics k ∧
  RateLimit (rate_window now k) = RateLimit k.
Proof. unfold rate_window. by case_match. Qed.

(** The loop of [ValidateAPIKey] changes nothing, or the window of the key found. *)
Lemma validate_go_cases ck v order m r m' :
  validate_go ck v order m = (r, m') →
  (m' = m ∧ is_ok r = false) ∨
  ∃ id k, m !! id = Some k ∧ Key k = v ∧ IsActive k = true ∧ expired (v_expiry ck) k = false ∧
    m' = <[id := rate_window (v_rate ck) k]> m ∧
    r = (if RateLimit k <=? RateLimitUsed (rate_window (v_rate ck) k) then Err KeyRateExceeded else Ok id).
Proof.
  induction order as [|id order IH]; cbn [validate_go]; [intros [= <- <-]; by left|].
  destruct (m !! id) as [k|] eqn:E; [|done].
  destruct (String.eqb (Key k) v) eqn:Ev; [apply String.eqb_eq in Ev|done].
  destruct (IsActive k) eqn:Ea; cbn [negb]; [|intros [= <- <-]; by left].
  destruct (expired _ k) eqn:Ex; [intros [= <- <-]; by left|].
  unfold isRateLimited. cbn zeta. destruct (rate_window_same (v_rate ck) k) as (_ & _ & _ & _ & _ & ->).
  intros H. right. exists id, k. split_and!; [done..| |]; destruct (RateLimit k <=? _); by simplify_eq.
Qed.

Lemma ValidateAPIKey_keys ck order v mg :
  keys (ValidateAPIKey ck order v mg).2 = keys mg ∨
  ∃ id k, keys mg !! id = Some k ∧
    keys (ValidateAPIKey ck order v mg).2 = <[id := rate_window (v_rate ck) k]> (keys mg).
Proof.
  unfold ValidateAPIKey. destruct (validate_go _ _ _ _) as [r m'] eqn:E.
  apply validate_go_cases in E as [[-> _]|(id & k & Hk & _ & _ & _ & -> & _)]; [by left|right; eauto].
Qed.

Lemma record_key_same z ck cfg ip ep ok k :
  let k' := record_key z ck cfg ip ep ok k in
  ID k' = ID k ∧ Key k' = Key k ∧ UserID k' = UserID k ∧ IsActive k' = IsActive k ∧ RateLimit k' = RateLimit k ∧
  RateLimitUsed k' = RateLimitUsed (updateRateLimit (r_rate ck) k) ∧
  RateLimitReset k' = RateLimitReset (updateRateLimit (r_rate ck) k).
Proof.
  unfold record_key, updateRateLimit, rate_window. cbn -[record_stats wrap64].
  repeat case_match; simplify_eq; cbn -[record_stats wrap64]; done.
Qed.

Definition is_generate (o : key_op) : bool := match o with OGenerate _ _ _ _ _ _ _ => true | _ => false end.

Lemma apply_op_le o mg s : is_generate o = false → keys_le (keys (apply_op o (mg, s)).1) (keys mg).
Proof.
  destruct o; cbn [is_generate apply_op]; intros Hg; [done| | | | | |reflexivity].
  - cbn [fst]. destruct (ValidateAPIKey_keys ck order keyValue mg) as [-> |(id & k & Hk & ->)]; [reflexivity|].
    destruct (rate_window_same (v_rate ck) k) as (? & ? & ? & Ha & _).
    eapply keys_le_insert; eauto; by rewrite Ha.
  - unfold RecordAPIKeyUsage. destruct (keys mg !! keyID) as [k|] eqn:Hk; cbn [fst snd set_keys keys]; [|reflexivity].
    destruct (record_key_same z ck (config mg) clientIP endpoint success k) as (? & ? & ? & Ha & _).
    eapply keys_le_insert; eauto; by rewrite Ha.
  - unfold RevokeAPIKey. destruct (keys mg !! keyID) as [k|] eqn:Hk; [|reflexivity].
    cbn zeta. destruct (saveKeys _ s) as [r s']. by eapply keys_le_insert.
  - unfold UpdateAPIKey. destruct (keys mg !! keyID) as [k|] eqn:Hk; [|reflexivity].
    cbn zeta. destruct (saveKeys _ s) as [r s']. by eapply keys_le_insert.
  - unfold cleanupExpiredKeys. cbn zeta. case_match; apply keys_le_filter.
Qed.

Lemma GenerateAPIKey_cases ck rid rkey u n d p mg s r mg' s' :
  (∀ id, generate_secure rid = Some id → keys mg !! id = None) →
  GenerateAPIKey ck rid rkey u n d p mg s = (r, mg', s') →
  (is_ok r = false ∧ mg' = mg ∧ s' = s) ∨
  ∃ id secret, generate_secure rid = Some id ∧ generate_secure rkey = Some secret ∧
    userKeyCount u (keys mg) < MaxKeysPerUser (config mg) ∧
    let k := new_key ck (config mg) id secret u n d p in
    let mg1 := set_keys (<[id := k]> (keys mg)) mg in
    (saveKeys mg1 s = (None, s') ∧ r = Ok k ∧ mg' = mg1) ∨
    (∃ e, saveKeys mg1 s = (Some e, s') ∧ r = Err e ∧ mg' = mg).
Proof.
  intros Hf. unfold GenerateAPIKey.
  destruct (_ <=? userKeyCount _ _) eqn:Eq; [intros [= <- <- <-]; by left|].
  destruct (generate_secure rid) as [id|] eqn:Ei; [|intros [= <- <- <-]; by left].
  destruct (generate_secure rkey) as [secret|] eqn:Es; [|intros [= <- <- <-]; by left].
  cbn zeta. intros H. right. exists id, secret. zbool. split_and!; [done..|].
  destruct (saveKeys _ s) as [[e|] s1] eqn:Esv; simplify_eq; [|by left].
  right. exists e. split_and!; [done..|]. destruct mg as [m cfg]. unfold set_keys. cbn [keys config].
  by rewrite delete_insert_id by auto.
Qed.

Lemma apply_op_config o mg s : config (apply_op o (mg, s)).1 = config mg.
Proof.
  destruct o; cbn [apply_op]; try done.
  - unfold GenerateAPIKey. repeat case_match; simplify_eq; done.
  - unfold ValidateAPIKey. by destruct (validate_go _ _ _ _).
  - unfold RecordAPIKeyUsage. by case_match.
  - unfold RevokeAPIKey. repeat case_match; simplify_eq; done.
  - unfold UpdateAPIKey. repeat case_match; simplify_eq; done.
  - unfold cleanupExpiredKeys. cbn zeta. by case_match.
Qed.

(** *** The statistics of a key *)

Lemma remove_first_sub item l x : x ∈ remove_first item l → x ∈ l.
Proof.
  induction l as [|y l IH]; [done|]. cbn [remove_first]. case_match; rewrite !elem_of_cons; naive_solver.
Qed.

Lemma remove_first_nodup item l : NoDup l → NoDup (remove_first item l) ∧ item ∉ remove_first item l.
Proof.
  induction l as [|y l IH]; cbn [remove_first]; [intros; split; [constructor|set_solver]|].
  intros [Hy Hl]%list.NoDup_cons. destruct (String.eqb y item) eqn:E; [apply String.eqb_eq in E; by subst|].
  apply String.eqb_neq in E. destruct (IH Hl) as [H1 H2]. split.
  - apply list.NoDup_cons. split; [|done]. intros H. by apply Hy, (remove_first_sub item).
  - rewrite elem_of_cons. naive_solver.
Qed.

Lemma addToRecentList_ok l item n : NoDup l → (0 < n)%nat →
  NoDup (addToRecentList l item n) ∧ (length (addToRecentList l item n) <= n)%nat ∧
  head (addToRecentList l item n) = Some item.
Proof.
  intros Hl Hn. destruct (remove_first_nodup item l Hl) as [H1 H2]. unfold addToRecentList. cbn zeta.
  assert (NoDup ([item] ++ remove_first item l)) as Hnd by (by apply list.NoDup_cons).
  destruct (n <? _)%nat eqn:E; [apply Nat.ltb_lt in E|apply Nat.ltb_ge in E; done].
  split_and!; [|rewrite length_take; lia|by destruct n; [lia|]].
  rewrite <- (take_drop n _) in Hnd. by apply list.NoDup_app in Hnd as [? _].
Qed.

Lemma record_stats_ok z now clean cfg ip ep ok st :
  NoDup (LastIPs st) →
  let st' := record_stats z now clean cfg ip ep ok st in
  NoDup (LastIPs st') ∧ (length (LastIPs st') <= 10)%nat ∧ head (LastIPs st') = Some ip.
Proof. intros H. by apply addToRecentList_ok; [|lia]. Qed.

Lemma record_key_stats z ck cfg ip ep ok k : stats_ok k → stats_ok (record_key z ck cfg ip ep ok k).
Proof.
  unfold record_key, stats_ok. cbn zeta.
  set (k2 := updateRateLimit _ _).
  assert (Statistics k2 = Statistics k) as -> by (unfold k2, updateRateLimit, rate_window; cbn zeta; by case_match).
  destruct (Statistics k) as [st|] eqn:E.
  - intros [H1 H2]. destruct (EnableStatistics cfg).
    + cbn -[record_stats]. destruct (record_stats_ok z (r_now ck) (r_clean ck) cfg ip ep ok st H1) as (? & ? & _). done.
    + assert (Statistics k2 = Some st) as -> by (unfold k2, updateRateLimit, rate_window; cbn zeta; by case_match). done.
  - intros _. assert (Statistics k2 = None) as -> by (unfold k2, updateRateLimit, rate_window; cbn zeta; by case_match). done.
Qed.

Definition all_stats (m : gmap string APIKey) : Prop := ∀ id k, m !! id = Some k → stats_ok k.

Lemma all_stats_insert m id k : all_stats m → stats_ok k → all_stats (<[id := k]> m).
Proof. intros H Hk id' k'. rewrite lookup_insert_Some. naive_solver. Qed.

Lemma apply_op_stats o mg s :
  op_fresh o mg → all_stats (keys mg) → all_stats (keys (apply_op o (mg, s)).1).
Proof.
  intros Hf H. destruct o; cbn [apply_op]; try done.
  - destruct (GenerateAPIKey _ _ _ _ _ _ _ mg s) as [[r mg'] s'] eqn:E. destruct Hf as [Hf _].
    apply GenerateAPIKey_cases in E as [(_ & -> & _)|(id & v & _ & _ & _ & [(_ & _ & ->)|(e & _ & _ & ->)])]; try done.
    apply all_stats_insert; [done|]. cbn. split; [constructor|lia].
  - cbn [fst]. destruct (ValidateAPIKey_keys ck order keyValue mg) as [-> |(id & k & Hk & ->)]; [done|].
    apply all_stats_insert; [done|]. specialize (H id k Hk).
    destruct (rate_window_same (v_rate ck) k) as (_ & _ & _ & _ & E & _). unfold stats_ok. by rewrite E.
  - unfold RecordAPIKeyUsage. destruct (keys mg !! keyID) as [k|] eqn:Hk; [|done].
    apply all_stats_insert; [done|]. apply record_key_stats. by apply (H keyID k).
  - unfold RevokeAPIKey. destruct (keys mg !! keyID) as [k|] eqn:Hk; [|done].
    cbn zeta. destruct (saveKeys _ s) as [r s']. apply all_stats_insert; [done|]. by apply (H keyID k).
  - unfold UpdateAPIKey. destruct (keys mg !! keyID) as [k|] eqn:Hk; [|done].
    cbn zeta. destruct (saveKeys _ s) as [r s']. apply all_stats_insert; [done|]. by apply (H keyID k).
  - unfold cleanupExpiredKeys. cbn zeta.
    assert (all_stats (filter (λ x, expired now x.2 = false) (keys mg))); [|by case_match].
    intros id k [E _]%map_lookup_filter_Some. by apply (H id).
Qed.

Definition manager_ok (mg : APIKeyManager) : Prop :=
  keys_wf (keys mg) ∧ ∀ u, userKeyCount u (keys mg) <= Z.max 0 (MaxKeysPerUser (config mg)).

Lemma apply_op_ok o mg s : op_fresh o mg → manager_ok mg → manager_ok (apply_op o (mg, s)).1.
Proof.
  intros Hf [[H1 H2] Hq]. unfold manager_ok. rewrite apply_op_config.
  assert (all_stats (keys (apply_op o (mg, s)).1)) as Hst.
  { apply apply_op_stats; [done|]. intros id k Hk. by apply H1 in Hk as []. }
  destruct (is_generate o) eqn:Eg.
  - destruct o; try done. cbn [apply_op] in *. destruct Hf as [Hf1 Hf2].
    destruct (GenerateAPIKey _ _ _ _ _ _ _ mg s) as [[r mg'] s'] eqn:E.
    apply GenerateAPIKey_cases in E as
      [(_ & -> & _)|(id & v & Ei & Ev & Hc & [(_ & _ & ->)|(e & _ & _ & ->)])]; [done| |done|done].
    cbn [fst set_keys keys]. split; [split|].
    + intros id' k. rewrite lookup_insert_Some. intros [[-> <-]|[_ Hk]]; [|by apply H1].
      split; [done|]. cbn. split; [constructor|lia].
    + intros id1 id2 k1 k2. rewrite !lookup_insert_Some.
      intros [[<- <-]|[_ E1]] [[<- <-]|[_ E2]] HK; [done| | |by eapply H2]; exfalso; cbn in HK; naive_solver.
    + intros u. pose proof (count_insert u (keys mg) id (new_key ck (config mg) id v userID name desc perms)) as Hi.
      specialize (Hq u). cbn in Hi. case_bool_decide; [subst u; lia|lia].
  - pose proof (apply_op_le o mg s Eg) as Hle. split; [split|].
    + intros id k' Hk'. split; [|by apply (Hst id)].
      destruct (Hle id k' Hk') as (k & Hk & E & _). apply H1 in Hk as [? _]. congruence.
    + intros id1 id2 k1 k2 E1 E2 HK. destruct (Hle _ _ E1) as (k1' & ? & _ & ? & _).
      destruct (Hle _ _ E2) as (k2' & ? & _ & ? & _). eapply H2; [done..|congruence].
    + intros u. etrans; [apply (count_le u _ _ Hle)|apply Hq].
Qed.

Lemma steps_ok P x y : steps P x y → manager_ok x.1 → config y.1 = config x.1 ∧ manager_ok y.1.
Proof.
  induction 1 as [x|x [mg s] o _ IH _ Hf]; [done|]. intros Hx. destruct (IH Hx) as [Hc Hok].
  rewrite apply_op_config. split; [done|by apply apply_op_ok].
Qed.

Lemma manager_ok_empty cfg : manager_ok (mkManager ∅ cfg).
Proof.
  split; [split; [intros ??|intros ????]; cbn [keys]; rewrite lookup_empty; done|].
  intros u. unfold userKeyCount, keys_of_user. cbn [keys config]. rewrite map_filter_empty, map_size_empty. lia.
Qed.


(** The decision on the key that has the secret. *)
Definition decide_key (ck : val_clock) (id : string) (k : APIKey) : result key_error string :=
  if negb (IsActive k) then Err KeyDeactivated
  else if expired (v_expiry ck) k then Err KeyExpired
  else if RateLimit k <=? (if time_after (v_rate ck) (RateLimitReset k) then 0 else RateLimitUsed k)
  then Err KeyRateExceeded else Ok id.

Lemma rate_window_used now k :
  RateLimitUsed (rate_window now k) = if time_after now (RateLimitReset k) then 0 else RateLimitUsed k.
Proof. unfold rate_window. by case_match. Qed.

Lemma validate_go_missing ck v order m :
  (∀ id k, m !! id = Some k → Key k ≠ v) → validate_go ck v order m = (Err KeyInvalid, m).
Proof.
  intros H. induction order as [|id order IH]; cbn [validate_go]; [done|].
  destruct (m !! id) as [k|] eqn:E; [|done]. destruct (String.eqb (Key k) v) eqn:Ev; [|done].
  apply String.eqb_eq in Ev. by destruct (H id k E).
Qed.

Lemma validate_go_found ck order m id k :
  keys_wf m → m !! id = Some k → id ∈ order → (validate_go ck (Key k) order m).1 = decide_key ck id k.
Proof.
  intros [_ Huniq] Hk. induction order as [|i order IH]; [by intros ?%not_elem_of_nil|]. intros Hin.
  cbn [validate_go]. destruct (m !! i) as [k'|] eqn:E.
  - destruct (String.eqb (Key k') (Key k)) eqn:Ev.
    + apply String.eqb_eq in Ev. assert (i = id) as -> by (by eapply Huniq). rewrite Hk in E. simplify_eq.
      unfold decide_key, isRateLimited. cbn zeta. rewrite rate_window_used.
      destruct (rate_window_same (v_rate ck) k') as (_ & _ & _ & _ & _ & ->).
      by repeat case_match.
    + apply elem_of_cons in Hin as [->|Hin]; [|by apply IH]. rewrite Hk in E. simplify_eq.
      by rewrite String.eqb_refl in Ev.
  - apply elem_of_cons in Hin as [->|Hin]; [congruence|by apply IH].
Qed.

(** Validation, in whatever order the map is iterated: the key that has the
    secret presented, and only that key, decides. It is accepted when it is
    active, not expired and below its rate limit in the current minute, and is
    refused for the first of these that fails; a secret that no key has is
    invalid. Nothing changes but the rate window of the key found. *)
Theorem ValidateAPIKey_spec ck order v mg :
  keys_wf (keys mg) → order_of (keys mg) order →
  (∀ id k, keys mg !! id = Some k → Key k = v → (ValidateAPIKey ck order v mg).1 = decide_key ck id k) ∧
  ((∀ id k, keys mg !! id = Some k → Key k ≠ v) → ValidateAPIKey ck order v mg = (Err KeyInvalid, mg)) ∧
  (∀ id k, keys mg !! id = Some k → ∃ k',
     keys (ValidateAPIKey ck order v mg).2 !! id = Some k' ∧
     (k' = k ∨ (Key k = v ∧ k' = rate_window (v_rate ck) k))).
Proof.
  intros Hwf [_ Ho]. unfold ValidateAPIKey. split_and!.
  - intros id k Hk <-. pose proof (validate_go_found ck order (keys mg) id k Hwf Hk) as H.
    destruct (validate_go _ _ _ _). apply H. apply Ho. by eexists.
  - intros H. rewrite validate_go_missing by done. by destruct mg.
  - intros id k Hk. destruct (validate_go _ _ _ _) as [r m'] eqn:E.
    apply validate_go_cases in E as [[-> _]|(i & k1 & Hk1 & Hv & _ & _ & -> & _)]; cbn; [eauto|].
    destruct (decide (i = id)) as [->|Hne].
    + rewrite Hk in Hk1. simplify_eq. rewrite lookup_insert_eq. eauto.
    + rewrite lookup_insert_ne by done. eauto.
Qed.

(** ** Revocation *)

Definition inactive (id : string) (mg : APIKeyManager) : Prop :=
  ∀ k, keys mg !! id = Some k → IsActive k = false.

Lemma inactive_steps id x y : steps (draws_not id) x y → inactive id x.1 → inactive id y.1.
Proof.
  induction 1 as [x|x [mg s] o _ IH Hd Hf]; [done|]. intros Hx. specialize (IH Hx). intros k' Hk'.
  destruct (is_generate o) eqn:Eg.
  - destruct o; try done. cbn [apply_op draws_not] in *. destruct Hf as [Hf _].
    destruct (GenerateAPIKey _ _ _ _ _ _ _ mg s) as [[r mg'] s'] eqn:E.
    apply GenerateAPIKey_cases in E as
      [(_ & -> & _)|(id' & v & Ei & _ & _ & [(_ & _ & ->)|(e & _ & _ & ->)])]; [by apply IH| |by apply IH|done].
    cbn [fst set_keys keys] in Hk'. rewrite lookup_insert_ne in Hk' by congruence. by apply IH.
  - destruct (apply_op_le o mg s Eg id k' Hk') as (k & Hk & _ & _ & _ & Ha).
    apply IH in Hk. destruct (IsActive k'); [|done]. by rewrite Ha in Hk.
Qed.

(** A key that has been revoked is never accepted again, whatever operations
    follow and even when saving the revocation failed, unless its identifier is
    drawn again after the key has expired. *)
Theorem revoked_stays_refused id mg s r mg1 s1 mg2 s2 ck order v :
  RevokeAPIKey id mg s = (r, mg1, s1) → r ≠ Some KeyNotFound →
  steps (draws_not id) (mg1, s1) (mg2, s2) →
  (ValidateAPIKey ck order v mg2).1 ≠ Ok id.
Proof.
  intros Hr Hne Hs. apply inactive_steps in Hs; cbn [fst] in *.
  - unfold ValidateAPIKey. destruct (validate_go _ _ _ _) as [r' m'] eqn:E. cbn [fst]. intros ->.
    apply validate_go_cases in E as [[_ ?]|(i & k & Hk & _ & Ha & _ & _ & Er)]; [done|].
    case_match; simplify_eq. specialize (Hs k Hk). congruence.
  - unfold RevokeAPIKey in Hr. destruct (keys mg !! id) as [k|] eqn:Hk; [|by simplify_eq].
    cbn zeta in Hr. destruct (saveKeys _ s) as [r' s']. simplify_eq. intros k'. cbn [set_keys keys].
    rewrite lookup_insert_eq. by intros [= <-].
Qed.
End operations.

(** ** What is stored *)

Section storage.
Context {S : Type} `{!FileSystem S} `{!FileSystemLaws S} `{!Codec (gmap string APIKey)}.

Notation path mg := (StoragePath (config mg)).

Lemma path_temp mg : path mg ≠ temp_path mg.
Proof.
  unfold temp_path. intros H. apply (f_equal String.length) in H. rewrite str_length_app in H. cbn in H. lia.
Qed.

Lemma saveKeys_cases mg s r s' :
  saveKeys mg s = (r, s') →
  match r with
  | None => ∃ d, json_marshal (keys mg) = Some d ∧ files s' !! path mg = Some d
  | Some _ => files s' !! path mg = files s !! path mg
  end.
Proof.
  pose proof (path_temp mg) as Hne. unfold saveKeys.
  destruct (json_marshal (keys mg)) as [d|]; [|by intros [= <- <-]].
  pose proof (WriteFile_frame (temp_path mg) d s (path mg) Hne) as Hw.
  pose proof (WriteFile_ok (temp_path mg) d s) as Hok.
  destruct (WriteFile _ d s) as [[e|] s1]; cbn [fst snd] in *; [by intros [= <- <-]|].
  assert (files s1 !! temp_path mg = Some d) as Ht by (by rewrite Hok, lookup_insert_eq).
  pose proof (Rename_ok (temp_path mg) (path mg) s1 d Ht) as Hr.
  pose proof (Rename_err (temp_path mg) (path mg) s1) as He.
  destruct (Rename _ _ s1) as [[e|] s2]; cbn [fst snd] in *.
  - pose proof (Remove_ok (temp_path mg) s2) as Hro. pose proof (Remove_err (temp_path mg) s2) as Hre.
    destruct (Remove _ s2) as [e' s3]. cbn [fst snd] in *. intros [= <- <-].
    rewrite <- Hw, <- He by done. destruct e'; [by rewrite Hre|].
    by rewrite Hro, lookup_delete_ne by done.
  - intros [= <- <-]. exists d. split; [done|]. by rewrite Hr, lookup_insert_eq.
Qed.

(** The storage file can be read back. *)
Definition loadable (path : string) (s : S) : Prop :=
  (MkdirAll (Dir path) s).1 = None ∧ is_ok (ReadFile path (MkdirAll (Dir path) s).2) = true.

Lemma load_saved mg s d m :
  files s !! path mg = Some d → json_unmarshal d = Some m → loadable (path mg) s →
  (NewAPIKeyManager (Some (config mg)) s).1 = set_keys m mg.
Proof.
  intros Hd Hm [H1 H2]. unfold NewAPIKeyManager, loadKeys. cbn [default from_option id config keys].
  pose proof (MkdirAll_files (Dir (path mg)) s) as Hf.
  destruct (MkdirAll _ s) as [e s1]. cbn [fst snd] in *. subst e.
  pose proof (StatFile_missing (path mg) s1) as Hst.
  assert (∃ data, ReadFile (path mg) s1 = Ok data) as [data Er] by (destruct (ReadFile _ s1); [eauto|done]).
  pose proof (ReadFile_ok _ _ _ Er) as Hr. rewrite Hf, Hd in Hr. simplify_eq. rewrite Er, Hm.
  destruct (StatFile _ s1) as [[|]|]; cbn; try done. rewrite Hf in Hst. by rewrite Hst in Hd.
Qed.

(** C25: Issuing a key is all or nothing. When it succeeds the user was below the
    quota, exactly the key returned has been added, and a manager started again
    on the stored file has the very same keys; when it fails, for whatever
    reason, neither the keys in memory nor the stored file have changed. *)
Theorem GenerateAPIKey_atomic ck rid rkey userID name desc perms mg s r mg' s' :
  (∀ id, generate_secure rid = Some id → keys mg !! id = None) →
  GenerateAPIKey ck rid rkey userID name desc perms mg s = (r, mg', s') →
  json_safe (keys mg') →
  match r with
  | Ok k => keys mg !! ID k = None ∧ UserID k = userID ∧ IsActive k = true ∧
            userKeyCount userID (keys mg) < MaxKeysPerUser (config mg) ∧
            mg' = set_keys (<[ID k := k]> (keys mg)) mg ∧
            (loadable (path mg) s' → (NewAPIKeyManager (Some (config mg)) s').1 = mg')
  | Err _ => mg' = mg ∧ files s' !! path mg = files s !! path mg
  end.
Proof.
  intros Hf H Hsafe. apply GenerateAPIKey_cases in H as
    [(Hr & -> & ->)|(id & v & Ei & _ & Hc & [(Hs & -> & ->)|(e & Hs & -> & ->)])]; [by destruct r| | |done].
  - apply saveKeys_cases in Hs as (d & Hm & Hd). cbn [ID new_key]. split_and!; try done; [by apply Hf|].
    intros Hl. apply (load_saved mg s' d); [done| |done]. by eapply json_round_trip.
  - by apply saveKeys_cases in Hs.
Qed.
End storage.

(** ** Rate limiting *)

Section serving.
Context (z : zone).

(** A request that presents a secret, and what is recorded when it is accepted. *)
Record request := mkRequest {
  rq_val : val_clock; rq_order : list string; rq_secret : string;
  rq_rec : rec_clock; rq_ip : string; rq_endpoint : string; rq_success : bool
}.

(** Validated, then counted: the identifier of the key accepted. *)
Definition serve (rq : request) (mg : APIKeyManager) : option string * APIKeyManager :=
  match ValidateAPIKey (rq_val rq) (rq_order rq) (rq_secret rq) mg with
  | (Ok id, mg) => (Some id, (RecordAPIKeyUsage z (rq_rec rq) id (rq_ip rq) (rq_endpoint rq) (rq_success rq) mg).2)
  | (Err _, mg) => (None, mg)
  end.

Fixpoint serve_all (rqs : list request) (mg : APIKeyManager) : list (option string) :=
  match rqs with
  | [] => []
  | rq :: rqs => let '(r, mg) := serve rq mg in r :: serve_all rqs mg
  end.

Definition accepted (id : string) (rs : list (option string)) : Z :=
  Z.of_nat (length (filter (λ r, r = Some id) rs)).

(** The rate clock is read between [t0] and [t1]. *)
Definition within (t0 t1 : instant) (rq : request) : Prop :=
  t0 <= v_rate (rq_val rq) <= t1 ∧ t0 <= r_rate (rq_rec rq) <= t1.

(** How many more requests a key can have accepted until [t1]: what is left of
    the current window, and another window when this one ends before. *)
Definition allowance (t1 : instant) (k : APIKey) : Z :=
  let l := Z.max 0 (RateLimit k) in
  (if RateLimitReset k <? t1 then l else 0) + Z.max 0 (l - RateLimitUsed k).

Lemma allowance_window t0 now k :
  t0 <= now <= t0 + minute → 0 <= RateLimitUsed k →
  allowance (t0 + minute) (rate_window now k) <= allowance (t0 + minute) k ∧
  0 <= RateLimitUsed (rate_window now k).
Proof.
  intros Hn Hu. unfold allowance, rate_window, time_after, time_add.
  destruct (RateLimitReset k <? now) eqn:E; [|lia]. zbool. cbn [set_rate RateLimit RateLimitUsed RateLimitReset].
  rewrite (proj2 (Z.ltb_ge (now + minute) (t0 + minute))) by lia.
  rewrite (proj2 (Z.ltb_lt (RateLimitReset k) (t0 + minute))) by lia. lia.
Qed.

Lemma allowance_update t0 now k :
  t0 <= now <= t0 + minute → 0 <= RateLimitUsed k < RateLimit k → RateLimit k <= max_int64 →
  allowance (t0 + minute) (updateRateLimit now k) + 1 <= allowance (t0 + minute) k ∧
  0 <= RateLimitUsed (updateRateLimit now k).
Proof.
  intros Hn Hu Hl. unfold allowance, updateRateLimit, rate_window, time_after, time_add. cbn zeta.
  destruct (RateLimitReset k <? now) eqn:E; zbool; cbn [set_rate RateLimit RateLimitUsed RateLimitReset];
    rewrite wrap64_id by (unfold in_int64, min_int64, max_int64 in *; lia).
  - rewrite (proj2 (Z.ltb_ge (now + minute) (t0 + minute))) by lia.
    rewrite (proj2 (Z.ltb_lt (RateLimitReset k) (t0 + minute))) by lia. lia.
  - destruct (RateLimitReset k <? t0 + minute); lia.
Qed.

(** One request: what it does to a key. *)
Lemma serve_key t0 rq mg r mg' id k :
  within t0 (t0 + minute) rq → serve rq mg = (r, mg') → keys mg !! id = Some k →
  0 <= RateLimitUsed k → RateLimit k <= max_int64 →
  ∃ k', keys mg' !! id = Some k' ∧ 0 <= RateLimitUsed k' ∧ RateLimit k' = RateLimit k ∧
    allowance (t0 + minute) k' + (if bool_decide (r = Some id) then 1 else 0) <= allowance (t0 + minute) k.
Proof.
  intros [Hv Hr] H Hk Hu Hl. unfold serve, ValidateAPIKey in H.
  destruct (validate_go _ _ _ _) as [r1 m1] eqn:E.
  apply validate_go_cases in E as [[-> Hr1]|(i & ki & Hki & _ & _ & _ & -> & Er)].
  { destruct r1; [done|]. simplify_eq. exists k. rewrite bool_decide_false by done. split_and!; try done; lia. }
  destruct (decide (i = id)) as [->|Hne].
  - rewrite Hk in Hki. simplify_eq. destruct (allowance_window t0 (v_rate (rq_val rq)) ki Hv Hu) as [Ha Hu1].
    destruct (rate_window_same (v_rate (rq_val rq)) ki) as (_ & _ & _ & _ & _ & El).
    set (k1 := rate_window _ ki) in *. destruct (RateLimit ki <=? RateLimitUsed k1) eqn:Elim; zbool.
    + simplify_eq. exists k1. cbn [set_keys keys]. rewrite lookup_insert_eq, bool_decide_false by done.
      split_and!; try done; lia.
    + unfold RecordAPIKeyUsage in H. cbn [set_keys keys config] in H. rewrite lookup_insert_eq in H. simplify_eq.
      destruct (record_key_same z (rq_rec rq) (config mg) (rq_ip rq) (rq_endpoint rq) (rq_success rq) k1)
        as (_ & _ & _ & _ & Hl2 & Hu2 & Hr2). set (k2 := record_key _ _ _ _ _ _ k1) in *.
      destruct (allowance_update t0 (r_rate (rq_rec rq)) k1 Hr ltac:(lia) ltac:(lia)) as [Ha2 Hu3].
      exists k2. cbn [fst snd set_keys keys]. rewrite lookup_insert_eq, bool_decide_true by done.
      assert (allowance (t0 + minute) k2 = allowance (t0 + minute) (updateRateLimit (r_rate (rq_rec rq)) k1)) as ->.
      { unfold allowance. rewrite Hl2, Hu2, Hr2. unfold updateRateLimit, rate_window. cbn zeta.
        by destruct (time_after _ k1.(RateLimitReset)). }
      split_and!; [done|lia|lia|lia].
  - destruct (RateLimit ki <=? _); simplify_eq.
    + exists k. cbn [set_keys keys]. rewrite lookup_insert_ne, bool_decide_false by done. split_and!; try done; lia.
    + exists k. unfold RecordAPIKeyUsage. cbn [set_keys keys config]. rewrite lookup_insert_eq.
      cbn [fst snd set_keys keys]. rewrite !lookup_insert_ne by done.
      rewrite bool_decide_false by congruence. split_and!; try done; lia.
Qed.

Lemma serve_all_allowance t0 rqs mg id k :
  Forall (within t0 (t0 + minute)) rqs → keys mg !! id = Some k →
  0 <= RateLimitUsed k → RateLimit k <= max_int64 →
  accepted id (serve_all rqs mg) <= allowance (t0 + minute) k.
Proof.
  revert mg k. induction rqs as [|rq rqs IH]; intros mg k Hw Hk Hu Hl.
  { unfold accepted, allowance. cbn. destruct (RateLimitReset k <? t0 + minute); lia. }
  apply Forall_cons_iff in Hw as [Hw Hws]. cbn [serve_all]. destruct (serve rq mg) as [r mg'] eqn:E.
  destruct (serve_key t0 rq mg r mg' id k Hw E Hk Hu Hl) as (k' & Hk' & Hu' & Hl' & Ha).
  specialize (IH mg' k' Hws Hk' Hu' ltac:(lia)). unfold accepted in *. rewrite filter_cons.
  case_bool_decide; [rewrite decide_True by done; cbn [length]|rewrite decide_False by done]; lia.
Qed.

End serving.

(** ** Retention of the statistics *)

Lemma drop_before_lookup cutoff m h :
  drop_before cutoff m !! h = if string_lt h cutoff then None else m !! h.
Proof.
  unfold drop_before. destruct (m !! h) as [n|] eqn:E.
  - destruct (string_lt h cutoff) eqn:El.
    + apply map_lookup_filter_None. right. intros x Hx. cbn. congruence.
    + apply map_lookup_filter_Some. done.
  - assert (filter (λ x, string_lt x.1 cutoff = false) m !! h = None) as -> by (apply map_lookup_filter_None; by left).
    by case_match.
Qed.

(** The clean-up of the statistics, which compares the texts of dates, drops
    exactly the hours and the days that come before those of the cut-off by the
    local clock, and keeps every other count, for all the dates between the years 1
    and 9999. *)
Theorem cleanup_exact z now cfg st t :
  let cutoff := time_add now (wrap64 (- StatisticsRetention cfg)) in
  let st' := cleanupOldStatistics z now cfg st in
  printable_days (local_days z t) → printable_days (local_days z cutoff) →
  HourlyUsage st' !! format_hour z t =
    (if local_hours z t <? local_hours z cutoff then None else HourlyUsage st !! format_hour z t) ∧
  DailyUsage st' !! format_day z t =
    (if local_days z t <? local_days z cutoff then None else DailyUsage st !! format_day z t) ∧
  EndpointUsage st' = EndpointUsage st ∧ TotalRequests st' = TotalRequests st.
Proof.
  cbn zeta. intros Ht Hc. unfold cleanupOldStatistics. cbn zeta.
  cbn [set_usage_maps HourlyUsage DailyUsage EndpointUsage TotalRequests].
  rewrite !drop_before_lookup. unfold string_lt. rewrite format_hour_compare, format_day_compare by done.
  unfold Z.ltb. split_and!; [by destruct (_ ?= _)|by destruct (_ ?= _)|done|done].
Qed.

(** ** Witnesses

    Keys are encoded one per line; the encoding loses what a new key does not
    have. *)

Definition key_line (k : APIKey) : string :=
  Join [ID k; Key k; Name k; Description k; UserID k; Itoa (CreatedAt k); Itoa (default 0 (ExpiresAt k));
        Itoa (RateLimit k)] " ".

Definition line_key (l : string) : option (string * APIKey) :=
  match Fields l with
  | [i; v; n; d; u; c; e; r] =>
      Some (i, {| ID := i; Key := v; Name := n; Description := d; UserID := u; Permissions := [];
        CreatedAt := (Atoi c).1; ExpiresAt := Some (Atoi e).1; LastUsedAt := None; UsageCount := 0; IsActive := true;
        RateLimit := (Atoi r).1; RateLimitUsed := 0; RateLimitReset := zero_time; AllowedIPs := []; BlockedIPs := [];
        Statistics := Some (mkStats 0 0 0 [] ∅ ∅ ∅) |})
  | _ => None
  end.

Definition encode_keys (m : gmap string APIKey) : string :=
  String.concat EmptyString ((λ x, key_line x.2 +:+ String "010" EmptyString) <$> map_to_list m).
Definition decode_keys (s : string) : gmap string APIKey := list_to_map (omap line_key (Split s "010")).

#[export, program] Instance keys_codec : Codec (gmap string APIKey) := {
  json_marshal m := Some (encode_keys m);
  json_unmarshal s := Some (decode_keys s);
  json_safe m := decode_keys (encode_keys m) = m
}.
Next Obligation. by intros m d H [= <-]; rewrite H. Qed.

Definition demo_config : APIKeyConfig :=
  mkConfig "/data/api_keys.json" 1 (24 * hour) 1 3 true hour true hour.
Definition demo_manager : APIKeyManager := mkManager ∅ demo_config.
Definition demo_disk (faults : list bool) : MemFS := mkMem ∅ {["/data"%string]} faults.

Definition demo_op : key_op := OGenerate (mkGenClock 5 6) (Some "id1"%string) (Some "abc"%string) "ann" "ci" "build" [].
Definition demo_state : APIKeyManager * MemFS := apply_op demo_op (demo_manager, demo_disk []).

Lemma demo_reach : steps (λ _, True) (demo_manager, demo_disk []) demo_state.
Proof.
  apply steps_op; [apply steps_refl|done|]. split; [intros; apply lookup_empty|].
  intros v id k _. cbn [fst demo_manager keys]. by rewrite lookup_empty.
Qed.

Definition demo_key : APIKey := new_key (mkGenClock 5 6) demo_config "aWQx" "YWJj" "ann" "ci" "build" [].

Lemma demo_keys : keys demo_state.1 = {[ "aWQx"%string := demo_key ]}.
Proof. vm_compute. reflexivity. Qed.

Lemma demo_wf : keys_wf (keys demo_state.1).
Proof.
  rewrite demo_keys. split.
  - intros id k [<- <-]%lookup_singleton_Some. split; [reflexivity|]. cbn. split; [constructor|lia].
  - intros id id' k k' [<- <-]%lookup_singleton_Some [<- <-]%lookup_singleton_Some. done.
Qed.


Lemma ValidateAPIKey_spec_witness :
  (ValidateAPIKey (mkValClock 7 7) ["aWQx"%string] "YWJj" demo_state.1).1 = Ok "aWQx"%string.
Proof.
  assert (order_of (keys demo_state.1) ["aWQx"%string]) as Ho.
  { rewrite demo_keys. split; [repeat constructor; set_solver|]. intros id. rewrite list_elem_of_singleton. split.
    - intros ->. rewrite lookup_singleton_eq. by eexists.
    - intros [k [<- _]%lookup_singleton_Some]. done. }
  destruct (ValidateAPIKey_spec (mkValClock 7 7) ["aWQx"%string] "YWJj" demo_state.1 demo_wf Ho) as [H _].
  rewrite (H "aWQx"%string demo_key); [vm_compute; reflexivity|by rewrite demo_keys|reflexivity].
Defined.

Definition demo_revoked := RevokeAPIKey "aWQx" demo_state.1 (demo_disk [true]).

Lemma revoked_stays_refused_witness :
  demo_revoked.1.1 = Some (WriteFailed ErrOther) ∧
  (ValidateAPIKey (mkValClock 7 7) ["aWQx"%string] "YWJj" demo_revoked.1.2).1 = Err KeyDeactivated ∧
  (ValidateAPIKey (mkValClock 7 7) ["aWQx"%string] "YWJj" demo_revoked.1.2).1 ≠ Ok "aWQx"%string.
Proof.
  split; [vm_compute; reflexivity|]. split; [vm_compute; reflexivity|].
  apply (revoked_stays_refused "aWQx" demo_state.1 (demo_disk [true]) demo_revoked.1.1 demo_revoked.1.2 demo_revoked.2
    demo_revoked.1.2 demo_revoked.2); [by rewrite <- !surjective_pairing|vm_compute; discriminate|apply steps_refl].
Defined.

(** The disk refuses the rename: nothing has changed. *)
Definition demo_failed : result key_error APIKey * APIKeyManager * MemFS :=
  GenerateAPIKey (mkGenClock 5 6) (Some "id1"%string) (Some "abc"%string) "ann" "ci" "build" [] demo_manager
    (demo_disk [false; true]).

Lemma GenerateAPIKey_atomic_witness :
  demo_failed.1.1 = Err (MoveFailed ErrOther) ∧ demo_failed.1.2 = demo_manager ∧
  (∃ k, (NewAPIKeyManager (Some demo_config) demo_state.2).1 = set_keys {[ "aWQx"%string := k ]} demo_manager).
Proof.
  split; [vm_compute; reflexivity|]. split.
  - assert (demo_failed.1.1 = Err (MoveFailed ErrOther)) as E by (vm_compute; reflexivity).
    assert (GenerateAPIKey (mkGenClock 5 6) (Some "id1"%string) (Some "abc"%string) "ann" "ci" "build" [] demo_manager
      (demo_disk [false; true]) = (Err (MoveFailed ErrOther), demo_failed.1.2, demo_failed.2)) as Eg.
    { rewrite <- E. unfold demo_failed. by rewrite <- !surjective_pairing. }
    apply (GenerateAPIKey_atomic _ _ _ _ _ _ _ _ _ _ _ _ (λ _ _, lookup_empty _) Eg).
    vm_compute. reflexivity.
  - exists demo_key.
    assert (GenerateAPIKey (mkGenClock 5 6) (Some "id1"%string) (Some "abc"%string) "ann" "ci" "build" [] demo_manager
      (demo_disk []) = (Ok demo_key, demo_state.1, demo_state.2)) as Eg by (vm_compute; reflexivity).
    destruct (GenerateAPIKey_atomic _ _ _ _ _ _ _ _ _ _ _ _ (λ _ _, lookup_empty _) Eg) as (_ & _ & _ & _ & E & Hl).
    { vm_compute. reflexivity. }
    etrans; [apply Hl; split; vm_compute; reflexivity|]. rewrite E. reflexivity.
Defined.

(** The limit is one request a minute: the last of the first window and the first
    of the next are accepted in the same minute. *)
Definition demo_request (t : instant) : request :=
  mkRequest (mkValClock t t) ["aWQx"%string] "YWJj" (mkRecClock t t t) "10.0.0.1" "/npm" true.
Definition demo_full : APIKeyManager := set_keys {[ "aWQx"%string := set_rate 0 minute demo_key ]} demo_manager.
Definition demo_burst : list request :=
  [demo_request (minute - 1); demo_request minute; demo_request (minute + 1); demo_request (minute + 2)].


(** With a retention of one hour, the uses of 11:59 on January 1, year 1 are gone
    at 13:00, those of 12:00 are kept. *)
Definition demo_stats : APIKeyStats :=
  mkStats 2 2 0 [] {[ format_hour utc (12 * hour - 1) := 1; format_hour utc (12 * hour) := 1 ]} ∅ ∅.

Lemma cleanup_exact_witness :
  let st := cleanupOldStatistics utc (13 * hour) demo_config demo_stats in
  HourlyUsage st !! format_hour utc (12 * hour - 1) = None ∧ HourlyUsage st !! format_hour utc (12 * hour) = Some 1.
Proof.
  assert (printable_days (local_days utc (12 * hour - 1))) as H1 by (split; vm_compute; [discriminate|reflexivity]).
  assert (printable_days (local_days utc (12 * hour))) as H2 by (split; vm_compute; [discriminate|reflexivity]).
  assert (printable_days (local_days utc (time_add (13 * hour) (wrap64 (- StatisticsRetention demo_config))))) as H3
    by (split; vm_compute; [discriminate|reflexivity]).
  split.
  - rewrite (proj1 (cleanup_exact utc (13 * hour) demo_config demo_stats (12 * hour - 1) H1 H3)). vm_compute. reflexivity.
  - rewrite (proj1 (cleanup_exact utc (13 * hour) demo_config demo_stats (12 * hour) H2 H3)). vm_compute. reflexivity.
Defined.
