(* ===== verification/Jwt.v ===== *)
(** * Jwt: the token service

    Models [src/internal/auth/jwt/jwt_service.go] and the JWT part of
    [src/internal/config/oauth2_config.go]: the pairs of access and refresh tokens
    that are issued, their validation and their renewal.  The library
    [golang-jwt] that signs and parses is the class [JwtLib]; random bytes and
    each [time.Now()] are arguments; logging is left out.  The renewal that asks
    the OAuth2 provider for the organisations is not modelled. *)

From Stdlib Require Import Ascii.
From S2P Require Import Prelude GoStrings GoBase64.

(** ** Configuration *)

Record JWTConfig := mkJWT {
  Secret : string;
  AccessTokenTTL : Z;
  RefreshTokenTTL : Z;
  Issuer : string;
  Audience : string;
  Algorithm : string
}.

Inductive config_error := SecretRequired | SecretTooShort | UnsupportedAlgorithm (alg : string).

Definition supportedAlgorithms : list string :=
  ["HS256"; "HS384"; "HS512"; "RS256"; "RS384"; "RS512"; "ES256"; "ES384"; "ES512"].

(** The default lifetimes are set in place. *)
Definition ValidateJWT (j : JWTConfig) : option config_error * JWTConfig :=
  if String.eqb (Secret j) EmptyString then (Some SecretRequired, j)
  else if (String.length (Secret j) <? 32)%nat then (Some SecretTooShort, j)
  else
    let j := mkJWT (Secret j)
               (if AccessTokenTTL j <=? 0 then 3600 else AccessTokenTTL j)
               (if RefreshTokenTTL j <=? 0 then 604800 else RefreshTokenTTL j)
               (Issuer j) (Audience j) (Algorithm j) in
    if negb (bool_decide (Algorithm j ∈ supportedAlgorithms)) then (Some (UnsupportedAlgorithm (Algorithm j)), j)
    else (None, j).

(** ** Claims *)

Record Claims := mkClaims {
  UserID : string;
  Email : string;
  Name : string;
  Username : string;
  Role : string;
  Provider : string;
  Organizations : list string;
  TokenType : string;
  MFAVerified : bool;
  MFAVerifiedAt : option instant;
  MFAMethod : string;
  (** The registered claims. *)
  JTI : string;
  Iss : string;
  Aud : list string;
  Subject : string;
  IssuedAt : option instant;
  ExpiresAt : option instant;
  NotBefore : option instant
}.

Record TokenPair := mkPair {
  AccessToken : string;
  RefreshToken : string;
  PairType : string;
  ExpiresIn : Z;
  PairExpiresAt : instant
}.

Inductive jwt_error :=
| RandFailed
| SigningUnsupported
| SignFailed
| UnexpectedMethod (alg : string)
| ParseFailed
| InvalidIssuer
| InvalidAudience
| MissingUserID
| MissingEmail
| MissingRole
| MissingTokenType
| InvalidTokenType (t : string)
| NotAccessToken
| NotRefreshToken
| NilMethodPanic.

#[export] Instance jwt_error_eq_dec : EqDecision jwt_error.
Proof. solve_decision. Defined.

(** ** The library

    [ParseWithClaims] asks its key function for the key of the algorithm that the
    token names, verifies the signature and the times of the claims, and returns
    the claims of a valid token.  [signed tok alg key c] says that [tok] carries the
    claims [c] and that its signature under [alg] verifies with [key]. *)

Definition times_valid (now : instant) (c : Claims) : Prop :=
  (∀ e, ExpiresAt c = Some e → now < e) ∧ (∀ n, NotBefore c = Some n → n <= now).

Class JwtLib := {
  ParseWithClaims : string → (string → result jwt_error string) → instant → result jwt_error Claims;
  SignedString : string → Claims → string → option string;
  (** [GetSigningMethod(alg) != nil]. *)
  known_method : string → bool;
  signed : string → string → string → Claims → Prop;
  (** The claims that survive the encoding. *)
  claims_safe : Claims → Prop;
  parse_sound tok kf now c :
    ParseWithClaims tok kf now = Ok c →
    times_valid now c ∧ ∃ alg key, kf alg = Ok key ∧ signed tok alg key c;
  sign_parse alg c key tok kf now :
    SignedString alg c key = Some tok → claims_safe c → kf alg = Ok key → times_valid now c →
    ParseWithClaims tok kf now = Ok c;
  sign_only alg c key tok kf now c' :
    SignedString alg c key = Some tok → claims_safe c → ParseWithClaims tok kf now = Ok c' → c' = c
}.

(** [jwt.NewNumericDate]: whole seconds. *)
Definition NewNumericDate (t : instant) : instant := t / second * second.

Section service.
Context `{!JwtLib} (cfg : JWTConfig).

Definition is_hmac (alg : string) : bool :=
  String.eqb alg "HS256" || String.eqb alg "HS384" || String.eqb alg "HS512".

Definition generateJTI (bytes : option string) : option string := EncodeToString URLEncoding <$> bytes.

Record user := mkUser {
  u_id : string; u_email : string; u_name : string; u_username : string;
  u_role : string; u_provider : string; u_orgs : list string
}.

Definition token_claims (u : user) (tokenType jti : string) (issuedAt expiresAt : instant) : Claims := {|
  UserID := u_id u; Email := u_email u; Name := u_name u; Username := u_username u; Role := u_role u;
  Provider := u_provider u; Organizations := u_orgs u; TokenType := tokenType;
  MFAVerified := false; MFAVerifiedAt := None; MFAMethod := EmptyString;
  JTI := jti; Iss := Issuer cfg; Aud := [Audience cfg]; Subject := u_id u;
  IssuedAt := Some (NewNumericDate issuedAt); ExpiresAt := Some (NewNumericDate expiresAt);
  NotBefore := Some (NewNumericDate issuedAt)
|}.

(** [jwt.NewWithClaims] calls a method of the signing method, which is nil for an
    algorithm that the library does not know. *)
Definition generateToken (rand : option string) (u : user) (tokenType : string) (issuedAt : instant)
    (d : duration) : result jwt_error (string * instant) :=
  let expiresAt := time_add issuedAt d in
  match generateJTI rand with
  | None => Err RandFailed
  | Some jti =>
      let claims := token_claims u tokenType jti issuedAt expiresAt in
      if negb (known_method (Algorithm cfg)) then Err NilMethodPanic
      else if is_hmac (Algorithm cfg) then
        match SignedString (Algorithm cfg) claims (Secret cfg) with
        | None => Err SignFailed
        | Some tok => Ok (tok, expiresAt)
        end
      else Err SigningUnsupported
  end.

Definition ttl (seconds : Z) : duration := wrap64 (seconds * second).

Definition GenerateTokenPair (now : instant) (rand1 rand2 : option string) (u : user) : result jwt_error TokenPair :=
  let? (accessToken, accessExpiresAt) := generateToken rand1 u "access" now (ttl (AccessTokenTTL cfg)) in
  let? (refreshToken, _) := generateToken rand2 u "refresh" now (ttl (RefreshTokenTTL cfg)) in
  Ok (mkPair accessToken refreshToken "Bearer" (AccessTokenTTL cfg) accessExpiresAt).

Definition validateClaims (c : Claims) : option jwt_error :=
  if negb (String.eqb (Iss c) (Issuer cfg)) then Some InvalidIssuer
  else if match Aud c with [] => true | [a] => negb (String.eqb a (Audience cfg)) | _ => false end
  then Some InvalidAudience
  else if String.eqb (UserID c) EmptyString then Some MissingUserID
  else if String.eqb (Email c) EmptyString then Some MissingEmail
  else if String.eqb (Role c) EmptyString then Some MissingRole
  else if String.eqb (TokenType c) EmptyString then Some MissingTokenType
  else if negb (String.eqb (TokenType c) "access") && negb (String.eqb (TokenType c) "refresh")
  then Some (InvalidTokenType (TokenType c))
  else None.

Definition key_func (alg : string) : result jwt_error string :=
  if negb (String.eqb alg (Algorithm cfg)) then Err (UnexpectedMethod alg)
  else if is_hmac (Algorithm cfg) then Ok (Secret cfg)
  else Err SigningUnsupported.

Definition ValidateToken (tok : string) (now : instant) : result jwt_error Claims :=
  let? claims := ParseWithClaims tok key_func now in
  match validateClaims claims with
  | Some e => Err e
  | None => Ok claims
  end.

Definition ValidateAccessToken (tok : string) (now : instant) : result jwt_error Claims :=
  let? claims := ValidateToken tok now in
  if negb (String.eqb (TokenType claims) "access") then Err NotAccessToken else Ok claims.

Definition ValidateRefreshToken (tok : string) (now : instant) : result jwt_error Claims :=
  let? claims := ValidateToken tok now in
  if negb (String.eqb (TokenType claims) "refresh") then Err NotRefreshToken else Ok claims.

Definition claims_user (c : Claims) : user :=
  mkUser (UserID c) (Email c) (Name c) (Username c) (Role c) (Provider c) (Organizations c).

Definition RefreshAccessToken (tok : string) (now1 now2 : instant) (rand1 rand2 : option string) :
    result jwt_error TokenPair :=
  let? refreshClaims := ValidateRefreshToken tok now1 in
  GenerateTokenPair now2 rand1 rand2 (claims_user refreshClaims).

(** [time.Until] saturates. *)
Definition IsTokenExpiringSoon (c : Claims) (now : instant) : bool :=
  match ExpiresAt c with
  | None => true
  | Some e => time_sub e now <? 10 * minute
  end.

(** ** Theorems *)

Lemma validateClaims_spec c :
  validateClaims c = None ↔
  Iss c = Issuer cfg ∧ Aud c ≠ [] ∧ (∀ a, Aud c = [a] → a = Audience cfg) ∧
  UserID c ≠ EmptyString ∧ Email c ≠ EmptyString ∧ Role c ≠ EmptyString ∧
  (TokenType c = "access"%string ∨ TokenType c = "refresh"%string).
Proof.
  unfold validateClaims.
  destruct (String.eqb_spec (Iss c) (Issuer cfg)); cbn [negb]; [|split; [done|tauto]].
  destruct (Aud c) as [|a [|b l]]; [split; [done|tauto]| |].
  - destruct (String.eqb_spec a (Audience cfg)); cbn [negb];
      [|split; [done|intros (_ & _ & Ha & _); by destruct (Ha a eq_refl)]].
    destruct (String.eqb_spec (UserID c) EmptyString); [split; [done|tauto]|].
    destruct (String.eqb_spec (Email c) EmptyString); [split; [done|tauto]|].
    destruct (String.eqb_spec (Role c) EmptyString); [split; [done|tauto]|].
    destruct (String.eqb_spec (TokenType c) EmptyString) as [->|]; [split; [done|naive_solver]|].
    destruct (String.eqb_spec (TokenType c) "access"), (String.eqb_spec (TokenType c) "refresh"); cbn [negb andb];
      split; try done; try tauto; intros _; split_and!; try done; try tauto; by intros ? [= <-].
  - destruct (String.eqb_spec (UserID c) EmptyString); [split; [done|tauto]|].
    destruct (String.eqb_spec (Email c) EmptyString); [split; [done|tauto]|].
    destruct (String.eqb_spec (Role c) EmptyString); [split; [done|tauto]|].
    destruct (String.eqb_spec (TokenType c) EmptyString) as [->|]; [split; [done|naive_solver]|].
    destruct (String.eqb_spec (TokenType c) "access"), (String.eqb_spec (TokenType c) "refresh"); cbn [negb andb];
      split; try done; try tauto; intros _; split_and!; try done; tauto.
Qed.

(** C31: A token is only ever accepted when its signature verifies with the
    configured algorithm, an HMAC, and the configured secret, when it is within
    its times, comes from the configured issuer, names a user, an email and a
    role, and has the type asked for; a single audience is the configured one. *)
Theorem ValidateAccessToken_sound tok now c :
  ValidateAccessToken tok now = Ok c →
  is_hmac (Algorithm cfg) = true ∧ signed tok (Algorithm cfg) (Secret cfg) c ∧ times_valid now c ∧
  TokenType c = "access"%string ∧ Iss c = Issuer cfg ∧ Aud c ≠ [] ∧ (∀ a, Aud c = [a] → a = Audience cfg) ∧
  UserID c ≠ EmptyString ∧ Email c ≠ EmptyString ∧ Role c ≠ EmptyString ∧
  ValidateRefreshToken tok now = Err NotRefreshToken.
Proof.
  unfold ValidateAccessToken, ValidateRefreshToken, ValidateToken.
  destruct (ParseWithClaims tok key_func now) as [c'|] eqn:Ep; [|done].
  destruct (validateClaims c') eqn:Ev; [done|].
  destruct (String.eqb_spec (TokenType c') "access"%string) as [Et|]; cbn [negb]; [|done].
  intros [= <-]. apply parse_sound in Ep as (Ht & alg & key & Hk & Hs).
  apply validateClaims_spec in Ev as (? & ? & ? & ? & ? & ? & _).
  unfold key_func in Hk. destruct (String.eqb_spec alg (Algorithm cfg)) as [->|]; cbn [negb] in Hk; [|done].
  destruct (is_hmac (Algorithm cfg)) eqn:Eh; [|done]. injection Hk as <-.
  split_and!; try done. by rewrite Et.
Qed.
Definition user_ok (u : user) : Prop := u_id u ≠ EmptyString ∧ u_email u ≠ EmptyString ∧ u_role u ≠ EmptyString.

Lemma claims_user_token u typ jti t e : claims_user (token_claims u typ jti t e) = u.
Proof. by destruct u. Qed.

(** What becomes of a token that has been generated. *)
Lemma generateToken_validates rand u typ issued d tok e t :
  generateToken rand u typ issued d = Ok (tok, e) → user_ok u →
  typ = "access"%string ∨ typ = "refresh"%string →
  (∀ jti, generateJTI rand = Some jti → claims_safe (token_claims u typ jti issued (time_add issued d))) →
  e = time_add issued d ∧ ∃ c, claims_user c = u ∧ TokenType c = typ ∧
    (NewNumericDate issued <= t < NewNumericDate e → ValidateToken tok t = Ok c) ∧
    (NewNumericDate e <= t → ∀ c', ValidateToken tok t ≠ Ok c').
Proof.
  unfold generateToken. intros Hg (Hid & Hem & Hro) Htyp Hsafe.
  destruct (generateJTI rand) as [jti|]; [|done]. specialize (Hsafe jti eq_refl). cbn zeta in Hg.
  destruct (negb (known_method _)); [done|]. destruct (is_hmac _) eqn:Eh; [|done].
  destruct (SignedString _ _ _) as [tok'|] eqn:Es; [|done]. injection Hg as <- <-. split; [done|].
  exists (token_claims u typ jti issued (time_add issued d)). split; [apply claims_user_token|]. split; [done|].
  unfold ValidateToken. split.
  - intros [H1 H2]. erewrite sign_parse; [|done|done| |].
    + assert (validateClaims (token_claims u typ jti issued (time_add issued d)) = None) as ->; [|done].
      apply validateClaims_spec. cbn. split_and!; try done. by intros a [= <-].
    + unfold key_func. by rewrite String.eqb_refl, Eh.
    + split; [by intros ? [= <-]|by intros ? [= <-]].
  - intros He c'. destruct (ParseWithClaims tok' key_func t) as [c|] eqn:Ep; [|done].
    pose proof (sign_only _ _ _ _ _ _ _ Es Hsafe Ep) as ->. apply parse_sound in Ep as [[Hx _] _].
    specialize (Hx _ eq_refl). lia.
Qed.

(** The claims of both tokens survive the encoding. *)
Definition pair_safe (now : instant) (rand1 rand2 : option string) (u : user) : Prop :=
  (∀ jti, generateJTI rand1 = Some jti →
     claims_safe (token_claims u "access" jti now (time_add now (ttl (AccessTokenTTL cfg))))) ∧
  (∀ jti, generateJTI rand2 = Some jti →
     claims_safe (token_claims u "refresh" jti now (time_add now (ttl (RefreshTokenTTL cfg))))).

End service.

(** ** Witnesses

    A toy library: a token spells out its algorithm, its claims and a code that
    only the holder of the key can write.  The encoding of the claims loses what an
    issued token does not have. *)

Definition claims_text (c : Claims) : string :=
  Join [UserID c; Email c; Name c; Username c; Role c; Provider c; TokenType c; JTI c; Iss c;
        from_option id EmptyString (head (Aud c)); Itoa (default 0 (IssuedAt c)); Itoa (default 0 (ExpiresAt c))] " ".

Definition text_claims (s : string) : option Claims :=
  match Fields s with
  | [i; e; n; un; r; p; ty; j; iss; a; ia; ex] =>
      Some (mkClaims i e n un r p [] ty false None EmptyString j iss [a] i
              (Some (Atoi ia).1) (Some (Atoi ex).1) (Some (Atoi ia).1))
  | _ => None
  end.

Definition toy_sign (alg : string) (c : Claims) (key : string) : string :=
  EncodeToString RawURLEncoding alg +:+
  seps "." [EncodeToString RawURLEncoding (claims_text c); EncodeToString RawURLEncoding key].

Definition toy_parts (tok : string) : option (string * string * string) :=
  match Split tok "." with
  | [h; p; k] => match DecodeString RawURLEncoding h, DecodeString RawURLEncoding p, DecodeString RawURLEncoding k with
                 | Some h, Some p, Some k => Some (h, p, k)
                 | _, _, _ => None
                 end
  | _ => None
  end.

Definition times_valid_b (now : instant) (c : Claims) : bool :=
  match ExpiresAt c with Some e => now <? e | None => true end &&
  match NotBefore c with Some n => n <=? now | None => true end.

Lemma times_valid_b_spec now c : times_valid_b now c = true ↔ times_valid now c.
Proof.
  unfold times_valid_b, times_valid. rewrite andb_true_iff. split.
  - intros [H1 H2]. split; [intros e E|intros n E]; rewrite E in *; zbool; done.
  - intros [H1 H2]. split; [destruct (ExpiresAt c) as [e|]|destruct (NotBefore c) as [n|]]; try done.
    + apply Z.ltb_lt. by apply H1.
    + apply Z.leb_le. by apply H2.
Qed.

Definition toy_parse (tok : string) (kf : string → result jwt_error string) (now : instant) : result jwt_error Claims :=
  match toy_parts tok with
  | None => Err ParseFailed
  | Some (alg, p, k) =>
      match text_claims p, kf alg with
      | Some c, Ok key => if String.eqb k key && times_valid_b now c then Ok c else Err ParseFailed
      | _, _ => Err ParseFailed
      end
  end.

Definition toy_signed (tok alg key : string) (c : Claims) : Prop :=
  ∃ p, toy_parts tok = Some (alg, p, key) ∧ text_claims p = Some c.

Lemma toy_parts_sign alg c key : toy_parts (toy_sign alg c key) = Some (alg, claims_text c, key).
Proof.
  unfold toy_parts, toy_sign. rewrite Split_join.
  - rewrite !DecodeString_EncodeToString by (right; right; done). done.
  - repeat constructor; apply raw_url_char; vm_compute; reflexivity.
Qed.

#[export, program] Instance toy_lib : JwtLib := {
  ParseWithClaims := toy_parse;
  SignedString alg c key := Some (toy_sign alg c key);
  known_method alg := bool_decide (alg ∈ supportedAlgorithms);
  signed := toy_signed;
  claims_safe c := text_claims (claims_text c) = Some c
}.
Next Obligation.
  unfold toy_parse, toy_signed. intros tok kf now c H.
  destruct (toy_parts tok) as [[[alg p] k]|]; [|done]. destruct (text_claims p) as [c'|] eqn:Et; [|done].
  destruct (kf alg) as [key|] eqn:Ek; [|done]. destruct (String.eqb_spec k key) as [->|]; cbn [andb] in H; [|done].
  destruct (times_valid_b now c') eqn:Eb; [|done]. injection H as <-.
  split; [by apply times_valid_b_spec|]. eauto 10.
Qed.
Next Obligation.
  intros alg c key tok kf now [= <-] Hs Hk Ht. unfold toy_parse.
  rewrite toy_parts_sign, Hs, Hk, String.eqb_refl. apply times_valid_b_spec in Ht. by rewrite Ht.
Qed.
Next Obligation.
  intros alg c key tok kf now c' [= <-] Hs H. unfold toy_parse in H.
  rewrite toy_parts_sign, Hs in H. destruct (kf alg); [|done]. case_match; [by injection H|done].
Qed.

Definition demo_jwt : JWTConfig :=
  mkJWT "0123456789abcdef0123456789abcdef" 3600 604800 "proxynd" "proxynd-api" "HS256".
Definition demo_user : user := mkUser "u1" "ann@example.org" "Ann" "ann" "viewer" "github" [].
Definition demo_pair : TokenPair :=
  match GenerateTokenPair demo_jwt (second * 100 + 5) (Some "r1"%string) (Some "r2"%string) demo_user with
  | Ok p => p
  | Err _ => mkPair EmptyString EmptyString EmptyString 0 0
  end.

Lemma demo_pair_ok :
  GenerateTokenPair demo_jwt (second * 100 + 5) (Some "r1"%string) (Some "r2"%string) demo_user = Ok demo_pair.
Proof. vm_compute. reflexivity. Qed.


Lemma ValidateAccessToken_sound_witness :
  ∃ c, ValidateAccessToken demo_jwt (AccessToken demo_pair) (second * 200) = Ok c ∧
       signed (AccessToken demo_pair) "HS256" (Secret demo_jwt) c ∧ TokenType c = "access"%string.
Proof.
  assert (∃ c, ValidateAccessToken demo_jwt (AccessToken demo_pair) (second * 200) = Ok c) as [c Hc]
    by (vm_compute; by eexists).
  exists c. pose proof (ValidateAccessToken_sound demo_jwt _ _ _ Hc) as (_ & Hs & _ & Ht & _).
  split; [exact Hc|split; [exact Hs|exact Ht]].
Defined.
