(* ===== verification/PathValidator.v ===== *)
(** * PathValidator: paths that come from requests

    Models [src/internal/security/path_validator.go]: the joining of a path from a
    request with a base directory, and what it rejects.  The working directory that
    [filepath.Abs] reads is an argument. *)

From Stdlib Require Import Ascii.
From S2P Require Import Prelude GoStrings GoPath.

Inductive path_error :=
| ErrInvalidPath
| ErrPathOutsideRoot
| GetwdFailed
| FilenameEmpty
| FilenameNull
| FilenameSeparator.

Definition traversal_patterns : list string :=
  [".."; "..\"; "../"; "..%2F"; "..%2f"; "..%5C"; "..%5c"; "%2e%2e"; "%252e%252e"].

Definition ContainsTraversalPattern (path : string) : bool := existsb (Contains path) traversal_patterns.

(** [filepath.Abs]; [cwd] is what [os.Getwd] gives. *)
Definition Abs (cwd : option string) (path : string) : result path_error string :=
  if rooted path then Ok (Clean path)
  else match cwd with Some d => Ok (PathJoin d path) | None => Err GetwdFailed end.

Definition SafeJoinPath (cwd : option string) (basePath userPath : string) : result path_error string :=
  let userPath := TrimSpace userPath in
  if ContainsTraversalPattern userPath then Err ErrInvalidPath
  else
    let cleanedPath := Clean userPath in
    let fullPath := PathJoin basePath cleanedPath in
    let? absBase := Abs cwd basePath in
    let? absPath := Abs cwd fullPath in
    if negb (HasPrefix absPath absBase) then Err ErrPathOutsideRoot else Ok fullPath.

Definition null_byte : string := String "000" EmptyString.

Definition ValidateFilename (filename : string) : option path_error :=
  if String.eqb filename EmptyString then Some FilenameEmpty
  else if Contains filename null_byte then Some FilenameNull
  else if Contains filename "/" || Contains filename "\" then Some FilenameSeparator
  else None.

Example SafeJoinPath_ex :
  SafeJoinPath None "/var/cache" "./ubuntu//focal/p.deb" = Ok "/var/cache/ubuntu/focal/p.deb"%string ∧
  SafeJoinPath None "/var/cache" "valid/../../../etc/passwd" = Err ErrInvalidPath ∧
  SafeJoinPath None "/var/cache" "..%2Fetc%2Fpasswd" = Err ErrInvalidPath ∧
  SafeJoinPath None "/var/cache" "v1..2/p" = Err ErrInvalidPath ∧
  SafeJoinPath None "/var/cache" "/etc/passwd" = Ok "/var/cache/etc/passwd"%string.
Proof. vm_compute. repeat split. Qed.

(** ** Theorems *)

Lemma traversal_dotdot path : ContainsTraversalPattern path = false → Contains path ".." = false.
Proof.
  unfold ContainsTraversalPattern. cbn [existsb traversal_patterns]. intros H. apply orb_false_iff in H. tauto.
Qed.

(** Under a clean absolute base, the join is refused exactly when the trimmed
    path holds a traversal pattern; otherwise it is the base followed by the names
    of the path, in order, each a proper name (never ".", ".." or empty, without a
    slash): it never leaves the base, so that the check of the prefix never fires. *)
Theorem SafeJoinPath_spec cwd base userPath :
  Forall (λ c, segment c = true) base →
  SafeJoinPath cwd (unsplit true base) userPath =
  if ContainsTraversalPattern (TrimSpace userPath) then Err ErrInvalidPath
  else Ok (unsplit true (base ++ segments_of (TrimSpace userPath))).
Proof.
  intros Hb. unfold SafeJoinPath. cbn zeta.
  destruct (ContainsTraversalPattern (TrimSpace userPath)) eqn:E; [done|].
  apply traversal_dotdot, Contains_no_dotdot in E. destruct (Clean_no_dotdot _ E) as (Es & Hd & _).
  rewrite PathJoin_no_dotdot, Es by done. set (cs := segments_of (TrimSpace userPath)).
  assert (Forall (λ c, segment c = true) cs) as Hcs by apply Forall_filter_segments.
  unfold Abs. rewrite !rooted_unsplit, !Clean_unsplit by (done || by apply Forall_app).
  by rewrite unsplit_prefix.
Qed.

(** A file name that passes is not empty and holds no byte that could end it
    or lead to another directory; joined to a clean absolute base it is a file of
    that very directory, but for the names "." and "..", which pass. *)
Theorem ValidateFilename_spec filename base :
  Forall (λ c, segment c = true) base → ValidateFilename filename = None →
  filename ≠ EmptyString ∧ Contains filename null_byte = false ∧
  (filename = "."%string ∨ filename = ".."%string ∨
   PathJoin (unsplit true base) filename = unsplit true (base ++ [filename])).
Proof.
  intros Hb. unfold ValidateFilename. destruct (String.eqb filename EmptyString) eqn:Ee; [done|].
  destruct (Contains filename null_byte) eqn:En; [done|]. destruct (Contains filename "/") eqn:Es; [done|].
  intros _. split; [by apply String.eqb_neq|]. split; [done|].
  destruct (decide (filename = "."%string)) as [|Hd]; [by left|].
  destruct (decide (filename = ".."%string)) as [|Hdd]; [by right; left|]. right; right.
  assert (str_all (not_char slash) filename = true) as Hs.
  { destruct (str_all (not_char slash) filename) eqn:E; [done|]. exfalso.
    assert (∀ s, str_all (not_char slash) s = false → Contains s "/" = true) as H.
    { clear. intros s H. apply Contains_spec. induction s as [|c s IH]; [done|]. cbn [str_all] in H.
      unfold not_char at 1 in H. destruct (Ascii.eqb c slash) eqn:Ec.
      - apply Ascii.eqb_eq in Ec as ->. by exists EmptyString, s.
      - destruct IH as (a & b & ->); [done|]. by exists (String c a), b. }
    apply H in E. congruence. }
  apply (PathJoin_segments base filename []); [done|]. apply Forall_cons_iff. split; [|done].
  unfold segment. rewrite Hs, Ee. apply String.eqb_neq in Hd, Hdd. by rewrite Hd, Hdd.
Qed.

(** ** Witnesses *)

Definition site_base : list string := ["var"; "cache"].
Lemma site_base_ok : Forall (λ c, segment c = true) site_base.
Proof. repeat (apply List.Forall_cons; [vm_compute; reflexivity|]). apply List.Forall_nil. Qed.

Lemma SafeJoinPath_spec_witness :
  SafeJoinPath None (unsplit true site_base) "/npm/../x" = Err ErrInvalidPath ∧
  SafeJoinPath None (unsplit true site_base) " npm//left-pad/ " = Ok "/var/cache/npm/left-pad"%string.
Proof.
  split; rewrite (SafeJoinPath_spec None site_base _ site_base_ok); vm_compute; reflexivity.
Defined.

Lemma ValidateFilename_spec_witness :
  ValidateFilename "a.deb" = None ∧ Contains "a.deb" null_byte = false.
Proof.
  assert (ValidateFilename "a.deb" = None) as H by (vm_compute; reflexivity).
  split; [exact H|]. apply (ValidateFilename_spec "a.deb" site_base site_base_ok H).
Defined.
