(* ===== verification/ProxyPolicy.v ===== *)
(** * ProxyPolicy: the policy middleware of the proxy

    Models [src/internal/adapters/http/fiber/middleware/proxy_policy.go]: which
    requests pass, by the type of the proxy and by their credentials, with the cache
    of authentication results in front of the key manager and of the token service;
    and where a package would be in the cache on disk.  The headers, the paths,
    the environment and the configuration read from files are arguments, as is each
    [time.Now()]; logging is left out. *)

From Stdlib Require Import Ascii.
From S2P Require Import Prelude GoStrings GoPath GoFS GoBase64 PathValidator.
From S2P Require ApiKeys Jwt.

(** ** State *)

Inductive auth_info :=
| NoInfo
| KeyInfo (user_id : string) (permissions : list string)
| TokenInfo (user_id email role : string) (organizations : list string).

Record authCacheEntry := mkEntry { valid : bool; expiresAt : instant; userInfo : auth_info }.

(** The cache and the two services; [None] before their first use, and
    [Some None] for a token service whose configuration could not be read. *)
Record policy := mkPolicy {
  authCacheData : gmap string authCacheEntry;
  apiKeyManagerInst : option ApiKeys.APIKeyManager;
  jwtServiceInst : option (option Jwt.JWTConfig)
}.

Definition set_cache (m : gmap string authCacheEntry) (p : policy) : policy :=
  mkPolicy m (apiKeyManagerInst p) (jwtServiceInst p).

(** What a request reads from outside: the clocks, in the order of the code; the
    order in which the keys are iterated; the token configuration on disk. *)
Record env := mkEnv {
  t_get : instant;
  t_key : ApiKeys.val_clock;
  t_jwt : instant;
  t_until : instant;
  t_set : instant;
  t_clean : instant;
  key_order : list string;
  oauth2_config : option Jwt.JWTConfig
}.

(** ** The cache of authentication results *)

Definition getCachedAuth (now : instant) (key : string) (p : policy) : option authCacheEntry :=
  match authCacheData p !! key with
  | Some e => if time_before now (expiresAt e) then Some e else None
  | None => None
  end.

Definition setCachedAuth (e : env) (key : string) (v : bool) (info : auth_info) (ttl : duration) (p : policy) : policy :=
  let m := <[key := mkEntry v (time_add (t_set e) ttl) info]> (authCacheData p) in
  let m := if (1000 <? size m)%nat
           then filter (λ x, time_after (t_clean e) (expiresAt x.2) = false) m else m in
  set_cache m p.

(** ** Credentials *)

(** A character above 127 is never valid, nor is any byte of its encoding. *)
Definition isValidAPIKeyChar (c : ascii) : bool :=
  is_letter c || is_digit c || Ascii.eqb c "-" || Ascii.eqb c "_".

Definition validateAPIKeyFormat (apiKey : string) : bool :=
  if (String.length apiKey <? 16)%nat || (128 <? String.length apiKey)%nat then false
  else if negb (HasPrefix apiKey "px_") && negb (HasPrefix apiKey "proxynd_") then false
  else
    let keyPart := if HasPrefix apiKey "px_" then TrimPrefix apiKey "px_" else TrimPrefix apiKey "proxynd_" in
    if (String.length keyPart <? 12)%nat then false else str_all isValidAPIKeyChar keyPart.

Definition part_ok (i : nat) (part : string) : bool :=
  match part with
  | EmptyString => false
  | _ => match DecodeString RawURLEncoding part with
         | None => false
         | Some decoded =>
             if (i <? 2)%nat
             then negb (String.length decoded <? 2)%nat && HasPrefix decoded "{"
             else true
         end
  end.

Definition validateJWTFormat (token : string) : bool :=
  if (String.length token <? 20)%nat then false
  else match Split token "." with
       | [a; b; c] => part_ok 0 a && part_ok 1 b && part_ok 2 c
       | _ => false
       end.

Definition api_cache_key (apiKey : string) : string := "apikey:" +:+ take_bytes 8 apiKey.

Definition bearer_cache_key (token : string) : string :=
  "bearer:" +:+
  (if (16 <? String.length token)%nat
   then take_bytes 8 token +:+ drop_bytes (String.length token - 8) token
   else token).

Definition five_minutes : duration := 5 * minute.

(** [strings.SplitN(s, sep, 2)]: what comes before and after the first separator. *)
Fixpoint cut (s : string) (sep : ascii) : string * option string :=
  match s with
  | EmptyString => (EmptyString, None)
  | String c s => if Ascii.eqb c sep then (EmptyString, Some s)
                  else let '(a, b) := cut s sep in (String c a, b)
  end.

(** [strings.ToLower], on the letters that can matter: no character above 127
    becomes a letter of the words compared below. *)
Definition lower (c : ascii) : ascii :=
  if in_range 65 90 c then ascii_of_nat (nat_of_ascii c + 32) else c.
Fixpoint ToLower (s : string) : string :=
  match s with EmptyString => EmptyString | String c s => String (lower c) (ToLower s) end.

Definition isDevelopmentMode (proxynd_env : string) : bool :=
  let e := ToLower proxynd_env in
  String.eqb e "development" || String.eqb e "dev" || String.eqb e "local".

(** The users of the global configuration: [None] when it cannot be read,
    [Some None] when it has no basic authentication. *)
Definition basic_users : Type := option (option (gmap string string)).

Definition validateBasicAuth (cfg : basic_users) (dev : bool) (authHeader : string) : bool :=
  match DecodeString StdEncoding (TrimPrefix authHeader "Basic ") with
  | None => false
  | Some credentials =>
      match cut credentials ":" with
      | (_, None) => false
      | (username, Some password) =>
          if (String.length username =? 0)%nat then false
          else if (String.length password <? 8)%nat then false
          else match cfg with
               | Some (Some users) => match users !! username with
                                      | Some expected => String.eqb expected password
                                      | None => false
                                      end
               | _ => dev
               end
      end
  end.

Definition isPublicAccessAllowed (dev : bool) (path : string) : bool :=
  if HasPrefix path "/healthz" || HasPrefix path "/health" then true
  else if HasPrefix path "/metrics" then true
  else dev.

Definition isProxyTypeAllowed (proxyType : string) : bool :=
  existsb (String.eqb proxyType) ["apt"; "maven"; "npm"; "pip"; "docker"; "apk"; "yum"].

Section policy.
Context {S : Type} `{!FileSystem S} `{!Codec (gmap string ApiKeys.APIKey)} `{!Jwt.JwtLib}.

(** [sync.Once] *)
Definition getAPIKeyManagerInstance (p : policy) (s : S) : ApiKeys.APIKeyManager * policy * S :=
  match apiKeyManagerInst p with
  | Some mg => (mg, p, s)
  | None =>
      let '(mg, s) := ApiKeys.NewAPIKeyManager None s in
      (mg, mkPolicy (authCacheData p) (Some mg) (jwtServiceInst p), s)
  end.

Definition getJWTServiceInstance (e : env) (p : policy) : option Jwt.JWTConfig * policy :=
  match jwtServiceInst p with
  | Some svc => (svc, p)
  | None => (oauth2_config e, mkPolicy (authCacheData p) (apiKeyManagerInst p) (Some (oauth2_config e)))
  end.

(** The key found by the manager, by reference. *)
Definition key_info (mg : ApiKeys.APIKeyManager) (id : string) : auth_info :=
  match ApiKeys.keys mg !! id with
  | Some k => KeyInfo (ApiKeys.UserID k) (ApiKeys.Permissions k)
  | None => NoInfo
  end.

Definition set_manager (mg : ApiKeys.APIKeyManager) (p : policy) : policy :=
  mkPolicy (authCacheData p) (Some mg) (jwtServiceInst p).

Definition validateAPIKey (e : env) (apiKey : string) (p : policy) (s : S) : bool * policy * S :=
  let cacheKey := api_cache_key apiKey in
  match getCachedAuth (t_get e) cacheKey p with
  | Some cached => (valid cached, p, s)
  | None =>
      let '(mg, p, s) := getAPIKeyManagerInstance p s in
      match ApiKeys.ValidateAPIKey (t_key e) (key_order e) apiKey mg with
      | (Ok id, mg) =>
          (true, setCachedAuth e cacheKey true (key_info mg id) five_minutes (set_manager mg p), s)
      | (Err _, mg) =>
          let p := set_manager mg p in
          if validateAPIKeyFormat apiKey
          then (true, setCachedAuth e cacheKey true NoInfo five_minutes p, s)
          else (false, setCachedAuth e cacheKey false NoInfo minute p, s)
      end
  end.

(** Until the expiry of the token, or for five minutes. *)
Definition bearer_ttl (e : env) (c : Jwt.Claims) : duration :=
  match Jwt.ExpiresAt c with
  | None => five_minutes
  | Some x =>
      let remaining := time_sub x (t_until e) in
      if (0 <? remaining) && (remaining <? five_minutes) then remaining else five_minutes
  end.

Definition validateBearerToken (e : env) (token : string) (p : policy) : bool * policy :=
  let cacheKey := bearer_cache_key token in
  match getCachedAuth (t_get e) cacheKey p with
  | Some cached => (valid cached, p)
  | None =>
      let '(svc, p) := getJWTServiceInstance e p in
      match (match svc with
             | Some cfg => match Jwt.ValidateAccessToken cfg token (t_jwt e) with Ok c => Some c | Err _ => None end
             | None => None
             end) with
      | Some c =>
          (true, setCachedAuth e cacheKey true
                   (TokenInfo (Jwt.UserID c) (Jwt.Email c) (Jwt.Role c) (Jwt.Organizations c)) (bearer_ttl e c) p)
      | None =>
          if validateJWTFormat token
          then (true, setCachedAuth e cacheKey true NoInfo minute p)
          else (false, setCachedAuth e cacheKey false NoInfo minute p)
      end
  end.

(** A request: [c.Params], [c.Path], the two headers, empty when absent; and the
    environment it is served in. *)
Record http_request := mkRequest {
  proxyType : string;
  requestPath : string;
  path : string;
  x_api_key : string;
  authorization : string
}.

Record site := mkSite {
  users_config : basic_users;
  proxynd_env : string;
  storageDir : string;
  proxy_path : string → string;
  cwd : option string
}.

Definition isBasicAuthenticated (st : site) (e : env) (c : http_request) (p : policy) (s : S) : bool * policy * S :=
  let authHeader := authorization c in
  if negb (String.eqb (x_api_key c) EmptyString) then validateAPIKey e (x_api_key c) p s
  else if HasPrefix authHeader "Bearer "
  then let '(b, p) := validateBearerToken e (TrimPrefix authHeader "Bearer ") p in (b, p, s)
  else if HasPrefix authHeader "Basic "
  then (validateBasicAuth (users_config st) (isDevelopmentMode (proxynd_env st)) authHeader, p, s)
  else (isPublicAccessAllowed (isDevelopmentMode (proxynd_env st)) (path c), p, s).

(** ** Where a package is cached *)

Record CacheInfo := mkInfo { Hit : bool; Path : string }.

(** [filepath.Join(storageDir, config.Path)], and for another type
    [filepath.Join(storageDir, "proxy", proxyType)]. *)
Definition base_dir (st : site) (proxyType : string) : string :=
  if isProxyTypeAllowed proxyType then PathJoin (storageDir st) (proxy_path st proxyType)
  else if String.eqb (storageDir st) EmptyString then PathJoin "proxy" proxyType
  else Clean (Join [storageDir st; "proxy"; proxyType] "/").

(** The first component of an APT path is the type of the system. *)
Definition target_path (proxyType requestPath : string) : string :=
  if String.eqb proxyType "apt" then
    match cut requestPath slash with (_, Some rest) => rest | (_, None) => requestPath end
  else requestPath.

Definition checkCache (st : site) (proxyType requestPath : string) (s : S) : CacheInfo :=
  match SafeJoinPath (cwd st) (base_dir st proxyType) (target_path proxyType requestPath) with
  | Err _ => mkInfo false EmptyString
  | Ok cachePath =>
      match StatFile cachePath s with
      | None => mkInfo true cachePath
      | Some _ => mkInfo false cachePath
      end
  end.

Inductive response := Forbidden (proxyType : string) | Unauthorized | Next (info : CacheInfo).

Definition ProxyPolicyMiddleware (st : site) (e : env) (c : http_request) (p : policy) (s : S) :
    response * policy * S :=
  if negb (isProxyTypeAllowed (proxyType c)) then (Forbidden (proxyType c), p, s)
  else
    let '(ok, p, s) := isBasicAuthenticated st e c p s in
    if negb ok then (Unauthorized, p, s)
    else (Next (checkCache st (proxyType c) (requestPath c) s), p, s).
End policy.

(** ** Credentials and their verdicts *)

Section verdicts.
Context {S : Type} `{!FileSystem S} `{!Codec (gmap string ApiKeys.APIKey)} `{!Jwt.JwtLib}.

Inductive credential := CKey (apiKey : string) | CBearer (token : string).

Definition cred_key (c : credential) : string :=
  match c with CKey k => api_cache_key k | CBearer t => bearer_cache_key t end.

Definition authenticate (e : env) (c : credential) (p : policy) (s : S) : bool * policy * S :=
  match c with
  | CKey k => validateAPIKey e k p s
  | CBearer t => let '(b, p) := validateBearerToken e t p in (b, p, s)
  end.

(** The verdict that is not taken from the cache. *)
Definition fresh (e : env) (c : credential) (p : policy) (s : S) : bool :=
  (authenticate e c (set_cache ∅ p) s).1.1.

Lemma bearer_ttl_bound e c : bearer_ttl e c <= five_minutes.
Proof.
  unfold bearer_ttl. destruct (Jwt.ExpiresAt c) as [x|]; [|lia]. cbn zeta.
  destruct ((0 <? _) && (_ <? five_minutes)) eqn:E; [|lia]. zbool. lia.
Qed.

Lemma getCachedAuth_empty now key p : getCachedAuth now key (set_cache ∅ p) = None.
Proof. unfold getCachedAuth. cbn [set_cache authCacheData]. by rewrite lookup_empty. Qed.

(** What a verdict, given afresh, leaves. *)
Definition entered (e : env) (c : credential) (b : bool) (p p' : policy) : Prop :=
  ∃ info ttl p1, ttl <= five_minutes ∧ (∀ k, c = CKey k → minute <= ttl) ∧
    authCacheData p1 = authCacheData p ∧ p' = setCachedAuth e (cred_key c) b info ttl p1.

Lemma entered_intro e c b p info ttl p1 :
  ttl <= five_minutes → (∀ k, c = CKey k → minute <= ttl) → authCacheData p1 = authCacheData p →
  entered e c b p (setCachedAuth e (cred_key c) b info ttl p1).
Proof. intros. exists info, ttl, p1. auto. Qed.

Lemma minute_five : minute <= five_minutes.
Proof. vm_compute. discriminate. Qed.

Lemma validateAPIKey_miss e k p s b p' s' :
  getCachedAuth (t_get e) (api_cache_key k) p = None → validateAPIKey e k p s = (b, p', s') →
  b = fresh e (CKey k) p s ∧ entered e (CKey k) b p p'.
Proof.
  pose proof minute_five as Hm. intros Ec. unfold fresh. cbn [authenticate]. unfold validateAPIKey.
  rewrite Ec, getCachedAuth_empty. unfold getAPIKeyManagerInstance. cbn [set_cache apiKeyManagerInst].
  intros Ha. destruct (apiKeyManagerInst p) as [mg|]; [|destruct (ApiKeys.NewAPIKeyManager None s) as [mg s1]];
    (destruct (ApiKeys.ValidateAPIKey _ _ _ mg) as [[id|er] mg1]; [|destruct (validateAPIKeyFormat k)];
     injection Ha as <- <- <-; (split; [reflexivity|]); apply (entered_intro e (CKey k)); done).
Qed.

Lemma validateBearerToken_miss e t p b p' s :
  getCachedAuth (t_get e) (bearer_cache_key t) p = None → validateBearerToken e t p = (b, p') →
  b = fresh e (CBearer t) p s ∧ entered e (CBearer t) b p p'.
Proof.
  pose proof minute_five as Hm. intros Ec. unfold fresh. cbn [authenticate]. unfold validateBearerToken.
  rewrite Ec, getCachedAuth_empty. unfold getJWTServiceInstance. cbn [set_cache jwtServiceInst].
  intros Ha. destruct (jwtServiceInst p) as [svc|];
    (destruct (match _ with Some cfg => _ | None => None end) as [cl|]; [|destruct (validateJWTFormat t)];
     injection Ha as <- <-; (split; [reflexivity|]); apply (entered_intro e (CBearer t));
     done || apply bearer_ttl_bound).
Qed.

(** A credential is decided by the entry of its cache key, or else afresh, and
    then the verdict is entered. *)
Lemma authenticate_cases e c p s b p' s' :
  authenticate e c p s = (b, p', s') →
  (∃ x, getCachedAuth (t_get e) (cred_key c) p = Some x ∧ b = valid x ∧ p' = p ∧ s' = s) ∨
  (getCachedAuth (t_get e) (cred_key c) p = None ∧ b = fresh e c p s ∧ entered e c b p p').
Proof.
  destruct (getCachedAuth (t_get e) (cred_key c) p) as [x|] eqn:Ec.
  - intros Ha. left. exists x. split; [done|]. destruct c as [k|t]; cbn [authenticate cred_key] in *.
    + unfold validateAPIKey in Ha. rewrite Ec in Ha. by simplify_eq.
    + unfold validateBearerToken in Ha. rewrite Ec in Ha. by simplify_eq.
  - intros Ha. right. split; [done|]. destruct c as [k|t]; cbn [authenticate cred_key] in *.
    + by eapply validateAPIKey_miss.
    + destruct (validateBearerToken e t p) as [b1 p1] eqn:E. injection Ha as <- <- <-.
      by apply validateBearerToken_miss.
Qed.

(** The states reached from an empty cache; the keys and the disk may change
    between requests in any way.  The list holds the credentials accepted afresh,
    each with the readings of its request. *)
Definition newly_accepted (e : env) (c : credential) (p : policy) (b : bool) : list (env * credential) :=
  match getCachedAuth (t_get e) (cred_key c) p with
  | None => if b then [(e, c)] else []
  | Some _ => []
  end.

Inductive served : list (env * credential) → policy → S → Prop :=
| served_start p s : authCacheData p = ∅ → served [] p s
| served_request g p s e c b p' s' :
    served g p s → authenticate e c p s = (b, p', s') → served (newly_accepted e c p b ++ g) p' s'
| served_other g p s mg s' : served g p s → served g (set_manager mg p) s'.

Definition backed (g : list (env * credential)) (key : string) (x : authCacheEntry) : Prop :=
  valid x = true → ∃ e c, (e, c) ∈ g ∧ cred_key c = key ∧ expiresAt x <= time_add (t_set e) five_minutes.

Lemma setCachedAuth_lookup e key b info ttl p k x :
  authCacheData (setCachedAuth e key b info ttl p) !! k = Some x →
  (k = key ∧ x = mkEntry b (time_add (t_set e) ttl) info) ∨ authCacheData p !! k = Some x.
Proof.
  unfold setCachedAuth. cbn zeta. cbn [set_cache authCacheData].
  assert (∀ k x, <[key := mkEntry b (time_add (t_set e) ttl) info]> (authCacheData p) !! k = Some x →
    (k = key ∧ x = mkEntry b (time_add (t_set e) ttl) info) ∨ authCacheData p !! k = Some x) as Hi.
  { intros k' x' [[-> <-]|[_ ?]]%lookup_insert_Some; auto. }
  case_match; [|apply Hi]. intros [Hk _]%map_lookup_filter_Some. by apply Hi.
Qed.

Lemma served_backed g p s : served g p s → map_Forall (backed g) (authCacheData p).
Proof.
  induction 1 as [p s ->|g p s e c b p' s' _ IH Ha|g p s mg s' _ IH]; [apply map_Forall_empty| |done].
  unfold newly_accepted. apply authenticate_cases in Ha as [(x & -> & -> & -> & ->)|(-> & _ & Hent)]; [done|].
  destruct Hent as (info & ttl & p1 & Hle & _ & Ep & ->). intros k x Hk.
  apply setCachedAuth_lookup in Hk as [[-> ->]|Hk].
  - intros Hv. cbn in Hv. subst b. exists e, c. split; [left|]. split; [done|].
    cbn [expiresAt]. unfold time_add. lia.
  - rewrite Ep in Hk. intros Hv. destruct (IH k x Hk Hv) as (e' & c' & Hin & Hc & Hx).
    exists e', c'. split; [|done]. apply elem_of_app. by right.
Qed.

(** C22: Whatever requests came before, and however the keys changed in between,
    an API key or a bearer token is accepted only when it passes the checks now,
    or when a credential with the same cache key passed them less than five
    minutes ago: so the acceptance of a key that has since been revoked does not
    outlive five minutes. *)
Theorem acceptance_recent g p s e c p' s' :
  served g p s → authenticate e c p s = (true, p', s') →
  fresh e c p s = true ∨
  ∃ e' c', (e', c') ∈ g ∧ cred_key c' = cred_key c ∧ t_get e < time_add (t_set e') five_minutes.
Proof.
  intros Hs%served_backed Ha. apply authenticate_cases in Ha as [(x & Hg & Hv & _ & _)|(_ & Hf & _)]; [|by left].
  right. unfold getCachedAuth in Hg. destruct (authCacheData p !! cred_key c) as [y|] eqn:Ey; [|done].
  destruct (time_before (t_get e) (expiresAt y)) eqn:Et; [|done]. injection Hg as ->.
  destruct (Hs _ _ Ey (eq_sym Hv)) as (e' & c' & Hin & Hc & Hx). exists e', c'. split_and!; [done|done|].
  unfold time_before in Et. zbool. lia.
Qed.

Lemma setCachedAuth_same e key b info ttl p :
  t_clean e <= time_add (t_set e) ttl →
  authCacheData (setCachedAuth e key b info ttl p) !! key = Some (mkEntry b (time_add (t_set e) ttl) info).
Proof.
  intros Hc. unfold setCachedAuth. cbn zeta. cbn [set_cache authCacheData].
  case_match; [|apply lookup_insert_eq]. apply map_lookup_filter_Some. split; [apply lookup_insert_eq|].
  cbn. unfold time_after. apply Z.ltb_ge. lia.
Qed.

(** The cache key of an API key is its first eight bytes: once a key has been
    decided, every other key with the same eight bytes is given the same verdict
    for at least a minute, without a check.  The documented prefix [proxynd_] has
    eight bytes, so that one accepted key of that form lets every other in, and
    one refused key shuts every other out. *)
Theorem same_prefix_same_verdict e e2 k k2 p s b p' s' :
  getCachedAuth (t_get e) (api_cache_key k) p = None →
  validateAPIKey e k p s = (b, p', s') →
  take_bytes 8 k = take_bytes 8 k2 →
  t_clean e <= time_add (t_set e) minute → t_get e2 < time_add (t_set e) minute →
  validateAPIKey e2 k2 p' s' = (b, p', s').
Proof.
  intros Hm Ha Hk Hc Ht. destruct (validateAPIKey_miss e k p s b p' s' Hm Ha) as [_ Hent].
  destruct Hent as (info & ttl & p1 & _ & Hle & _ & ->). specialize (Hle k eq_refl). cbn [cred_key].
  unfold validateAPIKey. assert (api_cache_key k2 = api_cache_key k) as -> by (unfold api_cache_key; by rewrite Hk).
  unfold getCachedAuth. rewrite setCachedAuth_same by (unfold time_add in *; lia). cbn [expiresAt].
  assert (time_before (t_get e2) (time_add (t_set e) ttl) = true) as ->; [|done].
  unfold time_before, time_add in *. apply Z.ltb_lt. lia.
Qed.

Lemma part_ok_encoded i d :
  d ≠ EmptyString → ((i < 2)%nat → (2 <= String.length d)%nat ∧ HasPrefix d "{" = true) →
  part_ok i (EncodeToString RawURLEncoding d) = true.
Proof.
  intros Hne Hi. unfold part_ok. pose proof (EncodeToString_nonempty RawURLEncoding d Hne) as He.
  rewrite DecodeString_EncodeToString by (right; right; done).
  destruct (EncodeToString RawURLEncoding d); [done|].
  destruct (i <? 2)%nat eqn:E; [|done]. apply Nat.ltb_lt in E. destruct (Hi E) as [Hl ->].
  by rewrite (proj2 (Nat.ltb_ge _ _) Hl).
Qed.

Definition encoded_token (header payload signature : string) : string :=
  EncodeToString RawURLEncoding header +:+
  seps "." [EncodeToString RawURLEncoding payload; EncodeToString RawURLEncoding signature].

(** A bearer token needs no valid signature: any text that starts with a
    brace as header and as payload, with any signature, is accepted whatever the
    token service says of it, unless a refusal is in the cache. *)
Theorem unsigned_token_accepted e header payload signature p :
  let token := encoded_token header payload signature in
  HasPrefix header "{" = true → HasPrefix payload "{" = true →
  (2 <= String.length header)%nat → (2 <= String.length payload)%nat → signature ≠ EmptyString →
  (20 <= String.length token)%nat →
  getCachedAuth (t_get e) (bearer_cache_key token) p = None →
  (validateBearerToken e token p).1 = true.
Proof.
  cbn zeta. intros Hh Hp Lh Lp Hs Hl Hc. unfold validateBearerToken. rewrite Hc.
  destruct (getJWTServiceInstance e p) as [svc p1]. case_match; [done|].
  assert (validateJWTFormat (encoded_token header payload signature) = true) as ->; [|done].
  unfold validateJWTFormat. rewrite (proj2 (Nat.ltb_ge _ _) Hl). unfold encoded_token. rewrite Split_join.
  - rewrite !part_ok_encoded; first [reflexivity|by intros ->|by intros ?; split|intros ?; lia].
  - repeat (apply List.Forall_cons; [apply raw_url_char; vm_compute; reflexivity|]). apply List.Forall_nil.
Qed.

End verdicts.

(** ** Witnesses *)

#[local] Existing Instances ApiKeys.keys_codec Jwt.toy_lib.

Definition demo_env (t : instant) : env :=
  mkEnv t (ApiKeys.mkValClock t t) t t t t ["aWQx"%string] (Some Jwt.demo_jwt).

Definition demo_policy : policy := mkPolicy ∅ (Some ApiKeys.demo_state.1) (Some (Some Jwt.demo_jwt)).
Definition demo_fs : MemFS := mkMem {[ "/srv/maven/a.jar"%string := "jar"%string ]} ∅ [].

(** The key issued in [ApiKeys.demo_state], used at 10 and again at 20. *)
Definition demo_first := authenticate (S := MemFS) (demo_env 10) (CKey "YWJj") demo_policy demo_fs.
Definition demo_second := authenticate (S := MemFS) (demo_env 20) (CKey "YWJj") demo_first.1.2 demo_first.2.

Lemma demo_served : served (S := MemFS) [(demo_env 10, CKey "YWJj")] demo_first.1.2 demo_first.2.
Proof.
  assert (newly_accepted (demo_env 10) (CKey "YWJj") demo_policy demo_first.1.1 ++ [] = [(demo_env 10, CKey "YWJj")])
    as <- by (vm_compute; reflexivity).
  apply (served_request [] demo_policy demo_fs); [by apply served_start|].
  unfold demo_first. by rewrite <- !surjective_pairing.
Qed.

Lemma acceptance_recent_witness :
  demo_second.1.1 = true ∧
  (fresh (S := MemFS) (demo_env 20) (CKey "YWJj") demo_first.1.2 demo_first.2 = true ∨
   ∃ e' c', (e', c') ∈ [(demo_env 10, CKey "YWJj")] ∧ cred_key c' = cred_key (CKey "YWJj") ∧
            20 < time_add (t_set e') five_minutes).
Proof.
  assert (demo_second.1.1 = true) as Ht by (vm_compute; reflexivity). split; [exact Ht|].
  assert (authenticate (S := MemFS) (demo_env 20) (CKey "YWJj") demo_first.1.2 demo_first.2
          = (true, demo_second.1.2, demo_second.2)) as Ha
    by (rewrite <- Ht; unfold demo_second; by rewrite <- !surjective_pairing).
  exact (acceptance_recent _ _ _ _ _ _ _ demo_served Ha).
Defined.

(** A well-formed key lets in another that is not even well-formed. *)
Definition good_key : string := "proxynd_0123456789ab".
Definition bad_key : string := "proxynd_!".
Definition demo_good := validateAPIKey (S := MemFS) (demo_env 10) good_key demo_policy demo_fs.

Lemma same_prefix_same_verdict_witness :
  fresh (S := MemFS) (demo_env 20) (CKey bad_key) demo_good.1.2 demo_good.2 = false ∧
  (validateAPIKey (S := MemFS) (demo_env 20) bad_key demo_good.1.2 demo_good.2).1.1 = true.
Proof.
  split; [vm_compute; reflexivity|].
  assert (validateAPIKey (S := MemFS) (demo_env 10) good_key demo_policy demo_fs
          = (true, demo_good.1.2, demo_good.2)) as Ha.
  { assert (demo_good.1.1 = true) as <- by (vm_compute; reflexivity).
    unfold demo_good. by rewrite <- !surjective_pairing. }
  assert (getCachedAuth (t_get (demo_env 10)) (api_cache_key good_key) demo_policy = None) as Hm
    by (vm_compute; reflexivity).
  assert (take_bytes 8 good_key = take_bytes 8 bad_key) as Hk by (vm_compute; reflexivity).
  assert (t_clean (demo_env 10) <= time_add (t_set (demo_env 10)) minute) as Hc by (vm_compute; discriminate).
  assert (t_get (demo_env 20) < time_add (t_set (demo_env 10)) minute) as Ht by (vm_compute; reflexivity).
  by rewrite (same_prefix_same_verdict _ (demo_env 20) good_key bad_key _ _ _ _ _ Hm Ha Hk Hc Ht).
Defined.

Lemma unsigned_token_accepted_witness :
  let token := encoded_token "{}" "{}" "no-signature" in
  Jwt.ValidateAccessToken Jwt.demo_jwt token 10 = Err Jwt.ParseFailed ∧
  (validateBearerToken (demo_env 10) token demo_policy).1 = true.
Proof.
  cbn zeta. split; [vm_compute; reflexivity|].
  apply unsigned_token_accepted; try (vm_compute; reflexivity); try (vm_compute; discriminate); vm_compute; lia.
Defined.

Definition demo_site : site := mkSite None "production" "/srv" (λ t, t) None.
Definition demo_request (p : string) : http_request := mkRequest "maven" p "/proxy/maven" "YWJj" EmptyString.
Definition demo_pass (p : string) := ProxyPolicyMiddleware (S := MemFS) demo_site (demo_env 10) (demo_request p) demo_policy demo_fs.

Lemma demo_base : PathJoin (storageDir demo_site) (proxy_path demo_site "maven") = unsplit true ["srv"; "maven"]%string.
Proof. vm_compute. reflexivity. Qed.

