(* ===== verification/Plugins.v ===== *)
(** * Plugins: the plugin registry and its manager

    Models [src/internal/plugins/registry.go], [manager.go] and the choice of
    upstreams of [group_manager.go].  Plugins and handlers are other people's code:
    records of what their methods answer.  The mutex is part of the state: locking
    one that is held blocks for ever, which is an outcome of its own. *)

From Stdlib Require Import Ascii.
From S2P Require Import Prelude.

(** ** interfaces.go *)

Inductive OperationMode := ProxyMode | MirrorMode.

#[export] Instance OperationMode_eq_dec : EqDecision OperationMode.
Proof. solve_decision. Defined.

(** What the methods of a handler answer; an error is a text. *)
Record PackageHandler := mkHandler {
  GetType : string; GetName : string; GetVersion : string;
  supported : list OperationMode;
  shutdown_error : option string; health_error : option string
}.

Definition SupportsMode (h : PackageHandler) (mode : OperationMode) : bool := bool_decide (mode ∈ supported h).

Record PluginMetadata := mkMetadata { pm_Type : string; pm_Name : string; pm_Version : string }.

Record Plugin := mkPlugin {
  GetMetadata : PluginMetadata;
  GetDependencies : list string;
  load_error : option string; unload_error : option string;
  CreateHandler : option PackageHandler
}.

(** The calls that a plugin and a handler can observe. *)
Inductive event := Loaded (ty : string) | Unloaded (ty : string) | ShutDown (ty : string).

(** ** Outcomes of code that takes locks *)

Inductive outcome (R A : Type) :=
| Returns (a : A) (r : R)
| Blocks (r : R).
Arguments Returns {R A} a r.
Arguments Blocks {R A} r.

Definition final_state {R A} (o : outcome R A) : R := match o with Returns _ r => r | Blocks r => r end.

(** ** registry.go *)

Inductive registry_err :=
| ErrHandlerNotFound
| ErrHandlerExists
| ErrInvalidHandler
| ErrRegistryClosed
| ErrCircularDependency
| EmptyType
| ValidationFailed (why : string)
| LoadFailed (why : string)
| RegisterFailed (e : registry_err).

Record Registry := mkRegistry {
  handlers : gmap string PackageHandler;
  plugins : gmap string Plugin;
  metadata : gmap string PluginMetadata;
  closed : bool;
  locked : bool;
  events : list event
}.

Definition NewPluginRegistry : Registry := mkRegistry ∅ ∅ ∅ false false [].

Definition set_locked (b : bool) (r : Registry) : Registry :=
  mkRegistry (handlers r) (plugins r) (metadata r) (closed r) b (events r).
Definition emit (es : list event) (r : Registry) : Registry :=
  mkRegistry (handlers r) (plugins r) (metadata r) (closed r) (locked r) (events r ++ es).

(** [r.mu.Lock(); defer r.mu.Unlock()] around [body]. *)
Definition with_lock {A} (body : Registry → outcome Registry A) (r : Registry) : outcome Registry A :=
  if locked r then Blocks r
  else
    match body (set_locked true r) with
    | Returns a r => Returns a (set_locked false r)
    | Blocks r => Blocks r
    end.

(** [r.mu.RLock(); defer r.mu.RUnlock()] around a read. *)
Definition with_rlock {A} (read : Registry → A) (r : Registry) : outcome Registry A :=
  if locked r then Blocks r else Returns (read r) r.

Definition validateHandler (h : PackageHandler) : option string :=
  if String.eqb (GetType h) EmptyString then Some "handler type cannot be empty"
  else if String.eqb (GetName h) EmptyString then Some "handler name cannot be empty"
  else if String.eqb (GetVersion h) EmptyString then Some "handler version cannot be empty"
  else if negb (SupportsMode h ProxyMode) && negb (SupportsMode h MirrorMode)
  then Some "handler must support at least one operation mode"
  else health_error h.

Definition register_body (handler : option PackageHandler) (r : Registry) : outcome Registry (option registry_err) :=
  if closed r then Returns (Some ErrRegistryClosed) r
  else
    match handler with
    | None => Returns (Some ErrInvalidHandler) r
    | Some h =>
        let packageType := GetType h in
        if String.eqb packageType EmptyString then Returns (Some EmptyType) r
        else if bool_decide (is_Some (handlers r !! packageType)) then Returns (Some ErrHandlerExists) r
        else
          match validateHandler h with
          | Some why => Returns (Some (ValidationFailed why)) r
          | None =>
              Returns None (mkRegistry (<[packageType := h]> (handlers r)) (plugins r) (metadata r) (closed r) (locked r) (events r))
          end
    end.
Definition Register (handler : option PackageHandler) : Registry → outcome Registry (option registry_err) :=
  with_lock (register_body handler).

Definition Unregister (packageType : string) : Registry → outcome Registry (option registry_err) :=
  with_lock (λ r,
    if closed r then Returns (Some ErrRegistryClosed) r
    else
      match handlers r !! packageType with
      | None => Returns (Some ErrHandlerNotFound) r
      | Some _ =>
          Returns None (mkRegistry (delete packageType (handlers r)) (delete packageType (plugins r))
                          (delete packageType (metadata r)) (closed r) (locked r) (events r ++ [ShutDown packageType]))
      end).

Definition GetHandler (packageType : string) : Registry → outcome Registry (option PackageHandler) :=
  with_rlock (λ r, handlers r !! packageType).

(** Lists in some iteration order. *)
Definition ListHandlers : Registry → outcome Registry (list string) :=
  with_rlock (λ r, (map_to_list (handlers r)).*1).
Definition GetHandlersByMode (mode : OperationMode) : Registry → outcome Registry (list PackageHandler) :=
  with_rlock (λ r, List.filter (λ h, SupportsMode h mode) (map_to_list (handlers r)).*2).
Definition IsRegistered (packageType : string) : Registry → outcome Registry bool :=
  with_rlock (λ r, bool_decide (is_Some (handlers r !! packageType))).
Definition GetHandlerCount : Registry → outcome Registry nat := with_rlock (λ r, size (handlers r)).
Definition GetPluginMetadata (packageType : string) : Registry → outcome Registry (option PluginMetadata) :=
  with_rlock (λ r, metadata r !! packageType).

(** *** The search for circular dependencies *)

Definition dependencies (ps : gmap string Plugin) (t : string) : list string :=
  match ps !! t with Some p => GetDependencies p | None => [] end.

Inductive search := Cycle | Done (visited recursion : gset string) | OutOfFuel.

(** The loop over the dependencies, with the recursive call [visit]. *)
Fixpoint visit_all (visit : string → gset string → gset string → search) (ds : list string)
    (visited recursion : gset string) : search :=
  match ds with
  | [] => Done visited recursion
  | d :: ds =>
      match visit d visited recursion with
      | Done visited recursion => visit_all visit ds visited recursion
      | stop => stop
      end
  end.

Fixpoint checkCircular (fuel : nat) (ps : gmap string Plugin) (packageType : string)
    (visited recursion : gset string) : search :=
  match fuel with
  | O => OutOfFuel
  | S fuel =>
      if bool_decide (packageType ∈ recursion) then Cycle
      else if bool_decide (packageType ∈ visited) then Done visited recursion
      else
        match visit_all (checkCircular fuel ps) (dependencies ps packageType)
                ({[packageType]} ∪ visited) ({[packageType]} ∪ recursion) with
        | Done visited recursion => Done visited (recursion ∖ {[packageType]})
        | stop => stop
        end
  end.

(** The search starts at the type of the new plugin; one level of calls per plugin
    and one more is enough ([checkCircular_correct]). *)
Definition checkDependencies (plugin : Plugin) (r : Registry) : option registry_err :=
  match GetDependencies plugin with
  | [] => None
  | _ =>
      match checkCircular (Datatypes.S (size (plugins r))) (plugins r) (pm_Type (GetMetadata plugin)) ∅ ∅ with
      | Cycle => Some ErrCircularDependency
      | _ => None
      end
  end.

(** *** Plugins *)

(** [RegisterPlugin] calls [Register] while it holds the lock. *)
Definition register_plugin_body (plugin : option Plugin) (r : Registry) : outcome Registry (option registry_err) :=
  if closed r then Returns (Some ErrRegistryClosed) r
  else
    match plugin with
    | None => Returns (Some ErrInvalidHandler) r
    | Some p =>
        let packageType := pm_Type (GetMetadata p) in
        if bool_decide (is_Some (plugins r !! packageType)) then Returns (Some ErrHandlerExists) r
        else
          match checkDependencies p r with
          | Some e => Returns (Some e) r
          | None =>
              match load_error p with
              | Some why => Returns (Some (LoadFailed why)) r
              | None =>
                  match Register (CreateHandler p) (emit [Loaded packageType] r) with
                  | Blocks r => Blocks r
                  | Returns (Some e) r => Returns (Some (RegisterFailed e)) (emit [Unloaded packageType] r)
                  | Returns None r =>
                      Returns None (mkRegistry (handlers r) (<[packageType := p]> (plugins r))
                        (<[packageType := GetMetadata p]> (metadata r)) (closed r) (locked r) (events r))
                  end
              end
          end
    end.
Definition RegisterPlugin (plugin : option Plugin) : Registry → outcome Registry (option registry_err) :=
  with_lock (register_plugin_body plugin).

Definition unregisterHandler (packageType : string) (r : Registry) : option registry_err * Registry :=
  match handlers r !! packageType with
  | None => (Some ErrHandlerNotFound, r)
  | Some _ =>
      (None, mkRegistry (delete packageType (handlers r)) (plugins r) (metadata r) (closed r) (locked r)
               (events r ++ [ShutDown packageType]))
  end.

Definition UnregisterPlugin (packageType : string) : Registry → outcome Registry (option registry_err) :=
  with_lock (λ r,
    if closed r then Returns (Some ErrRegistryClosed) r
    else
      match plugins r !! packageType with
      | None => Returns (Some ErrHandlerNotFound) r
      | Some _ =>
          match unregisterHandler packageType r with
          | (Some e, r) => Returns (Some e) r
          | (None, r) =>
              Returns None (mkRegistry (handlers r) (delete packageType (plugins r)) (delete packageType (metadata r))
                (closed r) (locked r) (events r ++ [Unloaded packageType]))
          end
      end).

(** Errors of the handlers and plugins are only logged. *)
Definition Shutdown : Registry → outcome Registry unit :=
  with_lock (λ r,
    if closed r then Returns () r
    else
      Returns () (mkRegistry (handlers r) (plugins r) (metadata r) true (locked r)
        (events r ++ (ShutDown <$> (map_to_list (handlers r)).*1) ++ (Unloaded <$> (map_to_list (plugins r)).*1)))).

(** ** manager.go *)

Record PluginManagerConfig := mkManagerConfig {
  AutoRegisterBuiltins : bool; HealthCheckInterval : duration; EnableHotReload : bool
}.

(** [health_loops] counts the goroutines that run the periodic health check. *)
Record PluginManager := mkManager {
  registry : Registry;
  mg_plugins : gmap string Plugin;
  mg_handlers : gmap string PackageHandler;
  started : bool;
  stopped : bool;
  mg_locked : bool;
  health_loops : nat
}.

Inductive manager_err :=
| ErrManagerNotStarted
| ErrManagerStopped
| NilPluginPanic
| AlreadyRegistered
| RegistryFailed (e : registry_err)
| PluginNotFound
| HandlerNotFound404
| ModeNotSupported400.

Definition NewPluginManager : PluginManager := mkManager NewPluginRegistry ∅ ∅ false false false 0.

Definition set_registry (r : Registry) (pm : PluginManager) : PluginManager :=
  mkManager r (mg_plugins pm) (mg_handlers pm) (started pm) (stopped pm) (mg_locked pm) (health_loops pm).
Definition mg_set_locked (b : bool) (pm : PluginManager) : PluginManager :=
  mkManager (registry pm) (mg_plugins pm) (mg_handlers pm) (started pm) (stopped pm) b (health_loops pm).

(** [pm.mu.Lock(); defer pm.mu.Unlock()]; a panic unlocks too. *)
Definition mg_with_lock {A} (body : PluginManager → outcome PluginManager A) (pm : PluginManager) :
    outcome PluginManager A :=
  if mg_locked pm then Blocks pm
  else
    match body (mg_set_locked true pm) with
    | Returns a pm => Returns a (mg_set_locked false pm)
    | Blocks pm => Blocks pm
    end.
Definition mg_with_rlock {A} (read : PluginManager → A) (pm : PluginManager) : outcome PluginManager A :=
  if mg_locked pm then Blocks pm else Returns (read pm) pm.

(** The built-in plugins are left to an external caller. *)
Definition Start (config : PluginManagerConfig) : PluginManager → outcome PluginManager (option manager_err) :=
  mg_with_lock (λ pm,
    if started pm then Returns None pm
    else
      Returns None (mkManager (registry pm) (mg_plugins pm) (mg_handlers pm) true (stopped pm) (mg_locked pm)
        (if 0 <? HealthCheckInterval config then Datatypes.S (health_loops pm) else health_loops pm))).

Definition Stop : PluginManager → outcome PluginManager (option manager_err) :=
  mg_with_lock (λ pm,
    if stopped pm then Returns None pm
    else
      let es := ((ShutDown <$> (map_to_list (mg_handlers pm)).*1) ++ (Unloaded <$> (map_to_list (mg_plugins pm)).*1))%list in
      match Shutdown (emit es (registry pm)) with
      | Blocks r => Blocks (set_registry r pm)
      | Returns _ r =>
          Returns None (mkManager r (mg_plugins pm) (mg_handlers pm) (started pm) true (mg_locked pm) (health_loops pm))
      end).

(** The handler that is kept is a second one, made by another call of [CreateHandler]. *)
Definition mg_RegisterPlugin (plugin : option Plugin) : PluginManager → outcome PluginManager (option manager_err) :=
  mg_with_lock (λ pm,
    if stopped pm then Returns (Some ErrManagerStopped) pm
    else
      match plugin with
      | None => Returns (Some NilPluginPanic) pm
      | Some p =>
          let packageType := pm_Type (GetMetadata p) in
          if bool_decide (is_Some (mg_plugins pm !! packageType)) then Returns (Some AlreadyRegistered) pm
          else
            match RegisterPlugin (Some p) (registry pm) with
            | Blocks r => Blocks (set_registry r pm)
            | Returns (Some e) r => Returns (Some (RegistryFailed e)) (set_registry r pm)
            | Returns None r =>
                Returns None (mkManager r (<[packageType := p]> (mg_plugins pm))
                  (match CreateHandler p with Some h => <[packageType := h]> (mg_handlers pm) | None => mg_handlers pm end)
                  (started pm) (stopped pm) (mg_locked pm) (health_loops pm))
            end
      end).
Definition RegisterBuiltinPlugin : option Plugin → PluginManager → outcome PluginManager (option manager_err) :=
  mg_RegisterPlugin.

Definition mg_UnregisterPlugin (packageType : string) : PluginManager → outcome PluginManager (option manager_err) :=
  mg_with_lock (λ pm,
    if stopped pm then Returns (Some ErrManagerStopped) pm
    else
      match mg_plugins pm !! packageType with
      | None => Returns (Some PluginNotFound) pm
      | Some _ =>
          let es := match mg_handlers pm !! packageType with Some _ => [ShutDown packageType] | None => [] end in
          match Unregister packageType (emit es (registry pm)) with
          | Blocks r => Blocks (set_registry r pm)
          | Returns _ r =>
              Returns None (mkManager (emit [Unloaded packageType] r) (delete packageType (mg_plugins pm))
                (delete packageType (mg_handlers pm)) (started pm) (stopped pm) (mg_locked pm) (health_loops pm))
          end
      end).

Definition mg_GetHandler (packageType : string) : PluginManager → outcome PluginManager (option PackageHandler) :=
  mg_with_rlock (λ pm, mg_handlers pm !! packageType).
Definition mg_ListHandlers : PluginManager → outcome PluginManager (list string) :=
  mg_with_rlock (λ pm, (map_to_list (mg_handlers pm)).*1).
Definition getHandlersByModeInternal (mode : OperationMode) (pm : PluginManager) : list PackageHandler :=
  List.filter (λ h, SupportsMode h mode) (map_to_list (mg_handlers pm)).*2.
Definition mg_GetHandlersByMode (mode : OperationMode) : PluginManager → outcome PluginManager (list PackageHandler) :=
  mg_with_rlock (getHandlersByModeInternal mode).
Definition mg_GetPluginMetadata (packageType : string) : PluginManager → outcome PluginManager (option PluginMetadata) :=
  mg_with_rlock (λ pm, GetMetadata <$> mg_plugins pm !! packageType).
Definition HealthCheck : PluginManager → outcome PluginManager (gmap string (option string)) :=
  mg_with_rlock (λ pm, health_error <$> mg_handlers pm).

(** A request that reaches a handler is answered by it. *)
Definition HandleRequest (packageType : string) (mode : OperationMode) (pm : PluginManager) :
    outcome PluginManager (result manager_err (PackageHandler * OperationMode)) :=
  if negb (started pm) then Returns (Err ErrManagerNotStarted) pm
  else if stopped pm then Returns (Err ErrManagerStopped) pm
  else
    match mg_GetHandler packageType pm with
    | Blocks pm => Blocks pm
    | Returns None pm => Returns (Err HandlerNotFound404) pm
    | Returns (Some h) pm =>
        if negb (SupportsMode h mode) then Returns (Err ModeNotSupported400) pm else Returns (Ok (h, mode)) pm
    end.

Record Statistics := mkStatistics {
  total_plugins : nat; total_handlers : nat; st_started : bool; st_stopped : bool;
  proxy_handlers : nat; mirror_handlers : nat; handler_status : gmap string bool
}.

(** A handler is reported healthy when its health check has no error. *)
Definition GetStatistics : PluginManager → outcome PluginManager Statistics :=
  mg_with_rlock (λ pm,
    mkStatistics (size (mg_plugins pm)) (size (mg_handlers pm)) (started pm) (stopped pm)
      (length (getHandlersByModeInternal ProxyMode pm)) (length (getHandlersByModeInternal MirrorMode pm))
      ((λ h, bool_decide (health_error h = None)) <$> mg_handlers pm)).

(** The operations that change the manager, and what is left after one. *)
Inductive mg_op :=
| OpStart (c : PluginManagerConfig) | OpStop | OpRegister (p : option Plugin) | OpUnregister (ty : string).

Definition mg_step (op : mg_op) (pm : PluginManager) : PluginManager :=
  match op with
  | OpStart c => final_state (Start c pm)
  | OpStop => final_state (Stop pm)
  | OpRegister p => final_state (mg_RegisterPlugin p pm)
  | OpUnregister ty => final_state (mg_UnregisterPlugin ty pm)
  end.

(** ** group_manager.go *)

Record GroupManagerConfig := mkGroupConfig { MaxRetry : Z; UserAgent : string }.
(** The time limit of the client is part of the client. *)
Definition NewGroupManager (c : GroupManagerConfig) : GroupManagerConfig :=
  mkGroupConfig (if MaxRetry c =? 0 then 3 else MaxRetry c)
    (if String.eqb (UserAgent c) EmptyString then "ProxyND/1.0 GroupManager"%string else UserAgent c).

Record UpstreamConfig := mkUpstream {
  up_URL : string; up_Priority : Z; up_Headers : gmap string string; up_Username : string; up_Password : string
}.

(** A request as it is sent: its headers, whose names [net/http] then makes canonical,
    and the basic credentials, if any. *)
Record Request := mkRequest { rq_URL : string; rq_Headers : gmap string string; rq_Auth : option (string * string) }.
(** An answer; its body may fail while it is read. *)
Record Response := mkResponse { rp_StatusCode : Z; rp_Header : gmap string (list string); rp_Body : result string string }.

(** The last one is the panic on the missing response when no attempt is made. *)
Inductive fetch_err := BadRequest (e : string) | CtxDone (e : string) | RequestFailed (e : string) | BodyFailed (e : string) | NilResponse.

Record GroupResult := mkGroupResult {
  gr_URL : string; gr_StatusCode : Z; gr_Headers : gmap string string; gr_Body : string; gr_Error : option fetch_err
}.

(** The client: whether the URL makes a request, what the n-th attempt answers, and the
    error of the context if it ends during the wait after that attempt. *)
Class HttpClient := {
  bad_url : string → option string;
  client_Do : Request → nat → result string Response;
  ctx_done : Request → nat → option string
}.

Section group.
Context {HC : HttpClient} (m : GroupManagerConfig).

(** Attempts [retry], [retry + 1], ...; [more] is how many may still follow. *)
Fixpoint attempts (req : Request) (more retry : nat) : result fetch_err Response :=
  match client_Do req retry with
  | Ok resp => Ok resp
  | Err e =>
      match more with
      | O => Err (RequestFailed e)
      | S more => match ctx_done req retry with Some e => Err (CtxDone e) | None => attempts req more (S retry) end
      end
  end.

Definition retry_loop (req : Request) : result fetch_err Response :=
  if MaxRetry m <=? 0 then Err NilResponse else attempts req (Z.to_nat (MaxRetry m) - 1) 0.

Definition make_request (path : string) (u : UpstreamConfig) : Request :=
  mkRequest (up_URL u +:+ path) (up_Headers u ∪ {[ "User-Agent" := UserAgent m ]})
    (if negb (String.eqb (up_Username u) EmptyString) && negb (String.eqb (up_Password u) EmptyString)
     then Some (up_Username u, up_Password u) else None).

Definition fetchFromSingleUpstream (path : string) (u : UpstreamConfig) : GroupResult :=
  let failed e := mkGroupResult (up_URL u) 0 ∅ EmptyString (Some e) in
  match bad_url (up_URL u +:+ path) with
  | Some e => failed (BadRequest e)
  | None =>
      match retry_loop (make_request path u) with
      | Err e => failed e
      | Ok resp =>
          let headers := omap head (rp_Header resp) in
          match rp_Body resp with
          | Err e => mkGroupResult (up_URL u) (rp_StatusCode resp) headers EmptyString (Some (BodyFailed e))
          | Ok body => mkGroupResult (up_URL u) (rp_StatusCode resp) headers body None
          end
      end
  end.

Definition good (u : UpstreamConfig) (r : GroupResult) : bool :=
  match gr_Error r with None => true | Some _ => false end && (gr_StatusCode r =? 200) && (0 <? up_Priority u).

Fixpoint fetchSequential (path : string) (upstreams : list UpstreamConfig) : list GroupResult :=
  match upstreams with
  | [] => []
  | u :: us =>
      let r := fetchFromSingleUpstream path u in
      r :: (if good u r then [] else fetchSequential path us)
  end.

(** The results arrive in some order; this is the order of the upstreams. *)
Definition fetchParallel (path : string) (upstreams : list UpstreamConfig) : list GroupResult :=
  fetchFromSingleUpstream path <$> upstreams.

Definition FetchOnDemand (path : string) (upstreams : list UpstreamConfig) : list GroupResult :=
  fetchSequential path upstreams.
End group.

(** [SyncFromMirrors], by the error of each mirror. *)
Definition SyncFromMirrors (errors : list (option string)) : option string :=
  if (length (List.filter (λ e, bool_decide (e ≠ None)) errors) =? length errors)%nat
  then Some "all mirrors failed to sync" else None.

(** ** The search finds exactly the cycles *)

Section search.
Context (ps : gmap string Plugin).

Definition edge (u v : string) : Prop := v ∈ dependencies ps u.
Definition succ (v u : string) : Prop := edge u v.

(** Visited and not on the path: successors are too, and no cycle is reachable. *)
Record finished (V R : gset string) : Prop := {
  fin_sub : R ⊆ V;
  fin_succ u v : u ∈ V ∖ R → edge u v → v ∈ V ∖ R;
  fin_acc u : u ∈ V ∖ R → Acc succ u
}.

(** What a call on [t] promises; [visited] only grows. *)
Definition search_post (t : string) (V R : gset string) (s : search) : Prop :=
  match s with
  | OutOfFuel => False
  | Cycle => ∃ u, rtc edge t u ∧ tc edge u u
  | Done V' R' => R' = R ∧ V ⊆ V' ∧ t ∈ V' ∖ R ∧ finished V' R
  end.

Definition search_ok (fuel : nat) (visit : string → gset string → gset string → search) : Prop :=
  ∀ t V R, (size (dom ps ∖ V) < fuel)%nat → finished V R → (∀ r, r ∈ R → tc edge r t) → search_post t V R (visit t V R).

Lemma unvisited_mono V V' : V ⊆ V' → (size (dom ps ∖ V') <= size (dom ps ∖ V))%nat.
Proof. intros H. apply subseteq_size. set_solver. Qed.

Lemma visit_all_ok fuel visit t ds V R :
  search_ok fuel visit → (size (dom ps ∖ V) < fuel)%nat → finished V R →
  (∀ r, r ∈ R → r = t ∨ tc edge r t) → (∀ d, d ∈ ds → edge t d) →
  match visit_all visit ds V R with
  | OutOfFuel => False
  | Cycle => ∃ u, rtc edge t u ∧ tc edge u u
  | Done V' R' => R' = R ∧ V ⊆ V' ∧ (∀ d, d ∈ ds → d ∈ V' ∖ R) ∧ finished V' R
  end.
Proof.
  intros Hv. revert V. induction ds as [|d ds IH]; intros V Hf Hfin HR Hds; cbn [visit_all].
  { split; [done|]. split; [done|]. split; [|done]. by intros d ?%elem_of_nil. }
  assert (edge t d) as Htd by (apply Hds; left).
  pose proof (Hv d V R Hf Hfin) as Hd. destruct (visit d V R) as [|V1 R1|].
  - destruct Hd as (u & Hu & Hc); [|exists u; split; [by eapply rtc_l|done]].
    intros r Hr. destruct (HR r Hr) as [->|Hrt]; [by apply tc_once|by eapply tc_r].
  - destruct Hd as (-> & Hsub & Hin & Hfin1).
    { intros r Hr. destruct (HR r Hr) as [->|Hrt]; [by apply tc_once|by eapply tc_r]. }
    specialize (IH V1). pose proof (unvisited_mono V V1 Hsub). destruct (visit_all visit ds V1 R) as [|V2 R2|].
    + apply IH; [lia|done..|]. intros x Hx. apply Hds. by right.
    + destruct IH as (-> & Hsub2 & Hin2 & Hfin2); [lia|done..| |].
      { intros x Hx. apply Hds. by right. }
      split; [done|]. split; [set_solver|]. split; [|done].
      intros x [->|Hx]%elem_of_cons; [set_solver|by apply Hin2].
    + apply IH; [lia|done..|]. intros x Hx. apply Hds. by right.
  - apply Hd. intros r Hr. destruct (HR r Hr) as [->|Hrt]; [by apply tc_once|by eapply tc_r].
Qed.

Lemma checkCircular_ok fuel : search_ok fuel (checkCircular fuel ps).
Proof.
  induction fuel as [|fuel IH]; intros t V R Hf Hfin HR; [lia|]. cbn [checkCircular].
  destruct (bool_decide_reflect (t ∈ R)) as [HtR|HtR].
  { exists t. split; [done|by apply HR]. }
  destruct (bool_decide_reflect (t ∈ V)) as [HtV|HtV].
  { split; [done|]. split; [done|]. split; [set_solver|done]. }
  set (V1 := {[t]} ∪ V). set (R1 := {[t]} ∪ R).
  assert (V1 ∖ R1 = V ∖ R) as E1 by (unfold V1, R1; destruct Hfin; set_solver).
  assert (finished V1 R1) as Hfin1.
  { destruct Hfin as [Hs H1 H2]. split; [unfold V1, R1; set_solver|..]; rewrite E1; done. }
  destruct (dependencies ps t) as [|d0 ds0] eqn:Eds.
  - cbn [visit_all]. unfold search_post. replace (R1 ∖ {[t]}) with R by (unfold R1; set_solver).
    split; [done|]. split; [unfold V1; set_solver|]. split; [unfold V1; set_solver|].
    assert (V1 ∖ R = {[t]} ∪ V ∖ R) as E2 by (unfold V1; set_solver).
    destruct Hfin as [Hs H1 H2]. split; [unfold V1; set_solver|..]; rewrite E2.
    + intros u v [->%elem_of_singleton|Hu]%elem_of_union Huv; [unfold edge in Huv; rewrite Eds in Huv; by apply elem_of_nil in Huv|].
      apply elem_of_union. right. by eapply H1.
    + intros u [->%elem_of_singleton|Hu]%elem_of_union; [|by apply H2].
      constructor. intros v Hv. unfold succ, edge in Hv. rewrite Eds in Hv. by apply elem_of_nil in Hv.
  - assert (t ∈ dom ps) as Hdom.
    { apply elem_of_dom. unfold dependencies in Eds. destruct (ps !! t); [by eexists|done]. }
    assert (size (dom ps ∖ V1) < fuel)%nat as Hf1.
    { assert (size (dom ps ∖ V1) < size (dom ps ∖ V))%nat; [|lia]. apply subset_size. unfold V1. set_solver. }
    pose proof (visit_all_ok fuel (checkCircular fuel ps) t (d0 :: ds0) V1 R1 IH Hf1 Hfin1) as Hall.
    assert (∀ r, r ∈ R1 → r = t ∨ tc edge r t) as HR1.
    { unfold R1. intros r [->%elem_of_singleton|Hr]%elem_of_union; [by left|right; by apply HR]. }
    specialize (Hall HR1). rewrite <- Eds in Hall |- *. specialize (Hall ltac:(done)).
    destruct (visit_all _ _ V1 R1) as [|V2 R2|]; [done| |done].
    destruct Hall as (-> & Hsub & Hin & Hfin2). unfold search_post.
    replace (R1 ∖ {[t]}) with R by (unfold R1; set_solver).
    assert (t ∈ V2) as Ht2 by (unfold V1 in Hsub; set_solver).
    assert (V2 ∖ R = {[t]} ∪ V2 ∖ R1) as E2.
    { unfold R1. apply set_eq. intros x. rewrite !elem_of_union, !elem_of_difference, elem_of_union, elem_of_singleton.
      destruct (decide (x = t)); naive_solver. }
    split; [done|]. split; [unfold V1 in Hsub; set_solver|]. split; [set_solver|].
    destruct Hfin2 as [Hs H1 H2]. split; [unfold R1 in Hs; set_solver|..]; rewrite E2.
    + intros u v [->%elem_of_singleton|Hu]%elem_of_union Huv; apply elem_of_union; right; [by apply Hin|by eapply H1].
    + intros u [->%elem_of_singleton|Hu]%elem_of_union; [|by apply H2].
      constructor. intros v Hv. by apply H2, Hin.
Qed.

Lemma acc_no_cycle u : Acc succ u → ∀ x, rtc edge u x → ¬ tc edge x x.
Proof.
  intros Hacc x Hr Hc.
  assert (Acc succ x) as Hx.
  { clear Hc. induction Hr as [|a b c Hab _ IH]; [done|]. apply IH. by apply (Acc_inv Hacc). }
  clear Hacc Hr. induction Hx as [x _ IH]. inversion Hc as [? ? H1|? y ? H1 H2]; subst.
  - by apply (IH x H1), tc_once.
  - apply (IH y H1). by eapply tc_r.
Qed.
End search.

(** C18: The search terminates within its fuel and reports a cycle exactly when one can
    be reached from the type it starts at. *)
Theorem checkCircular_correct ps t :
  match checkCircular (Datatypes.S (size ps)) ps t ∅ ∅ with
  | OutOfFuel => False
  | Cycle => ∃ u, rtc (edge ps) t u ∧ tc (edge ps) u u
  | Done _ _ => ∀ u, rtc (edge ps) t u → ¬ tc (edge ps) u u
  end.
Proof.
  pose proof (checkCircular_ok ps (Datatypes.S (size ps)) t ∅ ∅) as H.
  destruct (checkCircular _ ps t ∅ ∅) as [|V R|]; unfold search_post in H.
  - apply H; [|split; set_solver|set_solver]. rewrite difference_empty_L, size_dom. lia.
  - destruct H as (-> & _ & Hin & [_ _ Hacc]); [|split; set_solver|set_solver|].
    { rewrite difference_empty_L, size_dom. lia. }
    by apply acc_no_cycle, Hacc.
  - apply H; [|split; set_solver|set_solver]. rewrite difference_empty_L, size_dom. lia.
Qed.

(** *** What the registry makes of it

    A new plugin is not in the map yet, so the search stops where it starts. *)
Lemma checkDependencies_None p r : plugins r !! pm_Type (GetMetadata p) = None → checkDependencies p r = None.
Proof.
  intros H. unfold checkDependencies. destruct (GetDependencies p); [done|].
  cbn [checkCircular]. unfold dependencies. by rewrite H.
Qed.

(** [Register] under the lock blocks, so that no branch is left that succeeds. *)
Lemma RegisterPlugin_not_ok p r r' : RegisterPlugin p r ≠ Returns None r'.
Proof.
  unfold RegisterPlugin, with_lock. destruct (locked r); [done|]. unfold register_plugin_body.
  cbn [closed set_locked plugins]. destruct (closed r); [done|]. destruct p as [q|]; [|done].
  case_bool_decide; [done|]. destruct (checkDependencies _ _); [done|]. by destruct (load_error q).
Qed.

(** Registering a plugin never succeeds: a plugin whose type is new and whose
    [Load] works makes the call block on the registry's own lock, which stays held, so
    that every later call blocks as well; in all other cases it returns an error. *)
Theorem RegisterPlugin_deadlocks r p :
  locked r = false →
  match RegisterPlugin p r with
  | Returns None _ => False
  | Returns (Some _) r' => locked r' = false
  | Blocks r' =>
      closed r = false ∧ (∃ q, p = Some q ∧ plugins r !! pm_Type (GetMetadata q) = None ∧ load_error q = None) ∧
      ∀ (h : option PackageHandler) (q : option Plugin) (ty : string),
        Register h r' = Blocks r' ∧ RegisterPlugin q r' = Blocks r' ∧ Unregister ty r' = Blocks r' ∧
        GetHandler ty r' = Blocks r' ∧ Shutdown r' = Blocks r'
  end.
Proof.
  intros Hl. unfold RegisterPlugin at 1, with_lock at 1. rewrite Hl. unfold register_plugin_body at 1.
  cbn [closed set_locked plugins]. destruct (closed r); [done|]. destruct p as [q|]; [|done].
  case_bool_decide as Hq; [done|].
  assert (plugins r !! pm_Type (GetMetadata q) = None) as Hnew
    by (destruct (plugins r !! _) eqn:E; [destruct Hq; eauto|done]).
  rewrite checkDependencies_None by done. destruct (load_error q) eqn:El; [done|].
  split; [done|]. split; [by exists q|]. intros h q' ty.
  unfold Register, RegisterPlugin, Unregister, Shutdown, GetHandler, with_lock, with_rlock. cbn. done.
Qed.

(** *** The manager *)

Lemma manager_empty op pm :
  mg_plugins pm = ∅ → mg_handlers pm = ∅ → mg_plugins (mg_step op pm) = ∅ ∧ mg_handlers (mg_step op pm) = ∅.
Proof.
  intros Hp Hh. destruct op as [c| |p|ty]; cbn [mg_step].
  - unfold Start, mg_with_lock. destruct (mg_locked pm); [done|]. cbn. by destruct (started pm).
  - unfold Stop, mg_with_lock. destruct (mg_locked pm); [done|]. cbn. destruct (stopped pm); [done|].
    by destruct (Shutdown _).
  - unfold mg_RegisterPlugin, mg_with_lock. destruct (mg_locked pm); [done|]. cbn. destruct (stopped pm); [done|].
    destruct p as [p|]; [|done]. case_bool_decide; [done|].
    destruct (RegisterPlugin (Some p) (registry pm)) as [[e|] r|r] eqn:E; [done| |done].
    by apply RegisterPlugin_not_ok in E.
  - unfold mg_UnregisterPlugin, mg_with_lock. destruct (mg_locked pm); [done|]. cbn. destruct (stopped pm); [done|].
    by rewrite Hp, lookup_empty.
Qed.

(** Whatever the manager is asked to do, it never holds a plugin, and no request
    ever reaches a handler. *)
Theorem manager_never_serves ops ty mode :
  let pm := fold_left (λ pm op, mg_step op pm) ops NewPluginManager in
  mg_plugins pm = ∅ ∧ mg_handlers pm = ∅ ∧
  ∀ x pm', HandleRequest ty mode pm ≠ Returns (Ok x) pm'.
Proof.
  intros pm. assert (mg_plugins pm = ∅ ∧ mg_handlers pm = ∅) as [Hp Hh].
  { unfold pm. assert (mg_plugins NewPluginManager = ∅ ∧ mg_handlers NewPluginManager = ∅) as [H1 H2] by done.
    revert H1 H2. generalize NewPluginManager. induction ops as [|op ops IH]; intros q H1 H2; [done|].
    cbn [fold_left]. apply IH; by apply manager_empty. }
  split; [done|]. split; [done|]. intros x pm'. unfold HandleRequest, mg_GetHandler, mg_with_rlock.
  destruct (negb (started pm)); [done|]. destruct (stopped pm); [done|]. destruct (mg_locked pm); [done|].
  by rewrite Hh, lookup_empty.
Qed.

(** *** Handlers that are registered directly *)

Inductive reg_op := RRegister (h : option PackageHandler) | RUnregister (ty : string) | RUnregisterPlugin (ty : string)
  | RRegisterPlugin (p : option Plugin) | RShutdown.

Definition reg_step (op : reg_op) (r : Registry) : Registry :=
  match op with
  | RRegister h => final_state (Register h r)
  | RUnregister ty => final_state (Unregister ty r)
  | RUnregisterPlugin ty => final_state (UnregisterPlugin ty r)
  | RRegisterPlugin p => final_state (RegisterPlugin p r)
  | RShutdown => final_state (Shutdown r)
  end.

(** A registered handler is under its own type and was validated; plugins never get in. *)
Definition registry_wf (r : Registry) : Prop :=
  map_Forall (λ ty h, GetType h = ty ∧ validateHandler h = None) (handlers r) ∧ plugins r = ∅ ∧ metadata r = ∅.

Lemma reg_step_wf op r : registry_wf r → registry_wf (reg_step op r).
Proof.
  intros (Hh & Hp & Hm). destruct op as [h|ty|ty|p|]; cbn [reg_step].
  - unfold Register, with_lock. destruct (locked r); [done|]. unfold register_body. cbn [closed handlers set_locked].
    destruct (closed r); [done|]. destruct h as [h|]; [|done]. destruct (String.eqb _ _); [done|].
    case_bool_decide; [done|]. destruct (validateHandler h) eqn:Ev; [done|].
    split; [|done]. by apply map_Forall_insert_2.
  - unfold Unregister, with_lock. destruct (locked r); [done|]. cbn [closed handlers set_locked].
    destruct (closed r); [done|]. destruct (handlers r !! ty); [|done]. split; [by apply map_Forall_delete|].
    cbn. by rewrite Hp, Hm, !delete_empty.
  - unfold UnregisterPlugin, with_lock. destruct (locked r); [done|]. cbn [closed plugins set_locked].
    destruct (closed r); [done|]. by rewrite Hp, lookup_empty.
  - destruct (RegisterPlugin p r) as [[e|] r'|r'] eqn:E; [|by apply RegisterPlugin_not_ok in E|];
      unfold RegisterPlugin, with_lock in E; (destruct (locked r); [by simplify_eq|]);
      unfold register_plugin_body in E; cbn [closed plugins set_locked] in E;
      (destruct (closed r) eqn:Ec; [simplify_eq; by destruct r|]); (destruct p as [q|]; [|simplify_eq; by destruct r]);
      unfold Register, with_lock in E; cbn [locked emit set_locked] in E;
      repeat case_match; simplify_eq; exact (conj Hh (conj Hp Hm)).
  - unfold Shutdown, with_lock. destruct (locked r); [done|]. cbn [closed set_locked]. by destruct (closed r).
Qed.

(** C28: In every reachable registry each handler is registered under its own type and
    has passed validation; looking it up by that type finds it. *)
Theorem registered_handlers_valid ops :
  let r := fold_left (λ r op, reg_step op r) ops NewPluginRegistry in
  registry_wf r ∧
  ∀ ty h r', GetHandler ty r = Returns (Some h) r' →
    GetType h = ty ∧ GetName h ≠ EmptyString ∧ GetVersion h ≠ EmptyString ∧
    (SupportsMode h ProxyMode = true ∨ SupportsMode h MirrorMode = true) ∧ health_error h = None.
Proof.
  intros r. assert (registry_wf r) as Hwf.
  { unfold r. assert (registry_wf NewPluginRegistry) as H0 by (split; [apply map_Forall_empty|done]).
    revert H0. generalize NewPluginRegistry. induction ops as [|op ops IH]; intros q Hq; [done|].
    cbn [fold_left]. by apply IH, reg_step_wf. }
  split; [done|]. intros ty h r' Hg. unfold GetHandler, with_rlock in Hg. destruct (locked r); [done|].
  injection Hg as Hg _. destruct Hwf as [Hh _]. apply Hh in Hg as [Ht Hv]. split; [done|].
  unfold validateHandler in Hv. destruct (String.eqb (GetType h) _); [done|].
  destruct (String.eqb_spec (GetName h) EmptyString); [done|].
  destruct (String.eqb_spec (GetVersion h) EmptyString); [done|].
  destruct (SupportsMode h ProxyMode), (SupportsMode h MirrorMode); try done; auto.
Qed.

(** Fetching on demand asks the upstreams in their order and stops at the first one
    of positive priority that answers 200: the results are those of the upstreams up to
    and including it, or of all. *)
Theorem fetchSequential_prefix {HC : HttpClient} m path us :
  let fetch := fetchFromSingleUpstream m in
  (fetchSequential m path us = (fetch path <$> us) ∧ Forall (λ u, good u (fetch path u) = false) us) ∨
  ∃ pre u post, us = (pre ++ u :: post)%list ∧
    fetchSequential m path us = (fetch path <$> (pre ++ [u])) ∧
    good u (fetch path u) = true ∧ Forall (λ v, good v (fetch path v) = false) pre.
Proof.
  intros fetch. induction us as [|u us IH]; [by left|]. cbn [fetchSequential]. fold fetch.
  destruct (good u (fetch path u)) eqn:Eg; [right; by exists [], u, us|].
  destruct IH as [[-> H]|(pre & v & post & -> & -> & Hv & H)].
  - left. split; [done|by constructor].
  - right. exists (u :: pre), v, post. split; [done|]. split; [done|]. split; [done|by constructor].
Qed.

(** The attempts end with the first answer, with the end of the context during a
    wait, or with the error of the last attempt. *)
Lemma attempts_spec {HC : HttpClient} req left retry :
  let silent k := ∀ n, (retry <= n < k)%nat → is_ok (client_Do req n) = false ∧ ctx_done req n = None in
  match attempts req left retry with
  | Ok resp => ∃ k, (retry <= k <= retry + left)%nat ∧ client_Do req k = Ok resp ∧ silent k
  | Err (RequestFailed e) => client_Do req (retry + left) = Err e ∧ silent (retry + left)%nat
  | Err (CtxDone e) => ∃ k, (retry <= k < retry + left)%nat ∧ is_ok (client_Do req k) = false ∧ ctx_done req k = Some e ∧ silent k
  | Err _ => False
  end.
Proof.
  revert retry. induction left as [|left IH]; intros retry; cbn [attempts];
    destruct (client_Do req retry) as [resp|e] eqn:Ed.
  - exists retry. split; [lia|]. split; [done|]. intros n Hn. lia.
  - replace (retry + 0)%nat with retry by lia. split; [done|]. intros n Hn. lia.
  - exists retry. split; [lia|]. split; [done|]. intros n Hn. lia.
  - destruct (ctx_done req retry) as [e'|] eqn:Ec.
    { exists retry. split; [lia|]. rewrite Ed. split; [done|]. split; [done|]. intros n Hn. lia. }
    assert (∀ k, (∀ n, (S retry <= n < k)%nat → is_ok (client_Do req n) = false ∧ ctx_done req n = None) →
                 ∀ n, (retry <= n < k)%nat → is_ok (client_Do req n) = false ∧ ctx_done req n = None) as Hs.
    { intros k H n Hn. destruct (decide (n = retry)) as [->|]; [by rewrite Ed|]. apply H. lia. }
    specialize (IH (S retry)). cbv zeta in IH |- *. replace (retry + S left)%nat with (S retry + left)%nat by lia.
    destruct (attempts req left (S retry)) as [resp|[]]; try done.
    + destruct IH as (k & Hk & Hd & H). exists k. split_and!; [lia..|done|by apply Hs].
    + destruct IH as (k & Hk & Hd & He & H). exists k. split_and!; [lia..|done|done|by apply Hs].
    + destruct IH as (Hd & H). split; [done|by apply Hs].
Qed.

(** Without mirrors, synchronising reports that all of them failed. *)
Example no_mirrors : SyncFromMirrors [] = Some "all mirrors failed to sync".
Proof. reflexivity. Qed.

(** ** Witnesses *)

Definition demo_handler : PackageHandler := mkHandler "npm" "npm proxy" "1.0" [ProxyMode] None None.
Definition demo_plugin (ty : string) (deps : list string) : Plugin :=
  mkPlugin (mkMetadata ty ty "1.0") deps None None (Some demo_handler).

Example cycle_found :
  let ps := {[ "a" := demo_plugin "a" ["b"]; "b" := demo_plugin "b" ["c"; "a"]; "c" := demo_plugin "c" [] ]} : gmap string Plugin in
  checkCircular 4 ps "c" ∅ ∅ = Done {["c"]} ∅ ∧ checkCircular 4 ps "a" ∅ ∅ = Cycle.
Proof. vm_compute. split; reflexivity. Qed.

Lemma RegisterPlugin_deadlocks_witness :
  match RegisterPlugin (Some (demo_plugin "npm" [])) NewPluginRegistry with
  | Returns None _ => False
  | Returns (Some _) r' => locked r' = false
  | Blocks r' =>
      closed NewPluginRegistry = false ∧
      (∃ q, Some (demo_plugin "npm" []) = Some q ∧ plugins NewPluginRegistry !! pm_Type (GetMetadata q) = None ∧ load_error q = None) ∧
      ∀ (h : option PackageHandler) (q : option Plugin) (ty : string),
        Register h r' = Blocks r' ∧ RegisterPlugin q r' = Blocks r' ∧ Unregister ty r' = Blocks r' ∧
        GetHandler ty r' = Blocks r' ∧ Shutdown r' = Blocks r'
  end.
Proof. apply (RegisterPlugin_deadlocks NewPluginRegistry (Some (demo_plugin "npm" []))). reflexivity. Defined.
