(* ===== verification/WorkerPool.v ===== *)
(** * WorkerPool: the pool of goroutines

    Models [src/internal/goroutine/worker_pool.go] as a step relation: the callers of
    the pool and its workers interleave, each step being a critical section, a
    channel operation or a choice of [select].  A task is any value, and finishes
    with any error. *)

From S2P Require Import Prelude.

Section pool.
Context {T E : Type}.

(** [Workers] and [BufferSize] of the configuration. *)
Record WorkerPoolConfig := mkPoolConfig { Workers : nat; BufferSize : nat }.

(** A task in the channel, with the context that [SubmitWithTimeout] made for it. *)
Record item := mkItem { it_task : T; it_ctx : option nat }.

(** [idle] workers are at their [select], [running] ones execute a task, the others
    have returned; [wg] counts the first two kinds.  [in_shutdown] is a [Shutdown] that
    holds the lock and waits.  [accepted] and [began] are the history. *)
Record WorkerPool := mkPool {
  taskChan : list item;
  idle : nat;
  running : list item;
  started : bool;
  closed : bool;
  cancelled : bool;
  in_shutdown : bool;
  errorChan : list E;
  error_closed : bool;
  in_call : gset nat;
  done_ctx : gset nat;
  next_ctx : nat;
  panicked : bool;
  accepted : list T;
  began : list T
}.

Context (config : WorkerPoolConfig).

Definition NewWorkerPool : WorkerPool :=
  mkPool [] 0 [] false false false false [] false ∅ ∅ 0 false [] [].

Definition set_workers (i : nat) (r : list item) (p : WorkerPool) : WorkerPool :=
  mkPool (taskChan p) i r (started p) (closed p) (cancelled p) (in_shutdown p) (errorChan p) (error_closed p)
    (in_call p) (done_ctx p) (next_ctx p) (panicked p) (accepted p) (began p).

(** [Start]: nothing the second time. *)
Definition Start (p : WorkerPool) : WorkerPool :=
  if started p then p
  else
    mkPool (taskChan p) (idle p + Workers config) (running p) true (closed p) (cancelled p) (in_shutdown p)
      (errorChan p) (error_closed p) (in_call p) (done_ctx p) (next_ctx p) (panicked p) (accepted p) (began p).

(** *** Submit *)

Inductive submit_err := ErrPoolClosed | CtxErr | QueueFull.

(** A send finds room in the buffer, or a worker that waits at an empty channel. *)
Definition has_room (p : WorkerPool) : Prop := (length (taskChan p) < BufferSize config)%nat.
Definition has_receiver (p : WorkerPool) : Prop := taskChan p = [] ∧ (0 < idle p)%nat.

Definition enqueue (it : item) (p : WorkerPool) : WorkerPool :=
  mkPool (taskChan p ++ [it]) (idle p) (running p) (started p) (closed p) (cancelled p) (in_shutdown p) (errorChan p)
    (error_closed p) (in_call p) (done_ctx p) (next_ctx p) (panicked p) (accepted p ++ [it_task it]) (began p).
Definition handoff (it : item) (p : WorkerPool) : WorkerPool :=
  mkPool (taskChan p) (idle p - 1) (it :: running p) (started p) (closed p) (cancelled p) (in_shutdown p) (errorChan p)
    (error_closed p) (in_call p) (done_ctx p) (next_ctx p) (panicked p) (accepted p ++ [it_task it]) (began p ++ [it_task it]).

(** The flag is read under the lock; [select] takes any ready case, the default one
    only if there is none. *)
Inductive Submit (p : WorkerPool) (it : item) : option submit_err → WorkerPool → Prop :=
| submit_closed : closed p = true → Submit p it (Some ErrPoolClosed) p
| submit_done : closed p = false → cancelled p = true → Submit p it (Some CtxErr) p
| submit_buffered : closed p = false → has_room p → Submit p it None (enqueue it p)
| submit_received : closed p = false → has_receiver p → Submit p it None (handoff it p)
| submit_full : closed p = false → cancelled p = false → ¬ has_room p → ¬ has_receiver p → Submit p it (Some QueueFull) p.

(** [SubmitWithTimeout]: a new context, which the deferred [cancel] ends on return. *)
Definition begin_call (p : WorkerPool) : WorkerPool :=
  mkPool (taskChan p) (idle p) (running p) (started p) (closed p) (cancelled p) (in_shutdown p) (errorChan p)
    (error_closed p) ({[next_ctx p]} ∪ in_call p) (done_ctx p) (Datatypes.S (next_ctx p)) (panicked p) (accepted p) (began p).
Definition end_call (c : nat) (p : WorkerPool) : WorkerPool :=
  mkPool (taskChan p) (idle p) (running p) (started p) (closed p) (cancelled p) (in_shutdown p) (errorChan p)
    (error_closed p) (in_call p ∖ {[c]}) ({[c]} ∪ done_ctx p) (next_ctx p) (panicked p) (accepted p) (began p).
(** The timeout of a context expires. *)
Definition expire (c : nat) (p : WorkerPool) : WorkerPool :=
  mkPool (taskChan p) (idle p) (running p) (started p) (closed p) (cancelled p) (in_shutdown p) (errorChan p)
    (error_closed p) (in_call p) ({[c]} ∪ done_ctx p) (next_ctx p) (panicked p) (accepted p) (began p).

(** *** The workers *)

Definition take_task (it : item) (rest : list item) (p : WorkerPool) : WorkerPool :=
  mkPool rest (idle p - 1) (it :: running p) (started p) (closed p) (cancelled p) (in_shutdown p) (errorChan p)
    (error_closed p) (in_call p) (done_ctx p) (next_ctx p) (panicked p) (accepted p) (began p ++ [it_task it]).

(** The error of a task is sent if the channel has room; a closed channel panics. *)
Definition finish (r1 r2 : list item) (err : option E) (p : WorkerPool) : WorkerPool :=
  let q := set_workers (idle p + 1) (r1 ++ r2) p in
  match err with
  | None => q
  | Some e =>
      if error_closed p then
        mkPool (taskChan q) (idle q) (running q) (started q) (closed q) (cancelled q) (in_shutdown q) (errorChan q)
          (error_closed q) (in_call q) (done_ctx q) (next_ctx q) true (accepted q) (began q)
      else if (length (errorChan p) <? BufferSize config)%nat then
        mkPool (taskChan q) (idle q) (running q) (started q) (closed q) (cancelled q) (in_shutdown q) (errorChan q ++ [e])
          (error_closed q) (in_call q) (done_ctx q) (next_ctx q) (panicked q) (accepted q) (began q)
      else q
  end.

Inductive worker_step (p : WorkerPool) : WorkerPool → Prop :=
| worker_takes it rest : (0 < idle p)%nat → taskChan p = it :: rest → worker_step p (take_task it rest p)
| worker_cancelled : (0 < idle p)%nat → cancelled p = true → worker_step p (set_workers (idle p - 1) (running p) p)
| worker_drained : (0 < idle p)%nat → closed p = true → taskChan p = [] →
    worker_step p (set_workers (idle p - 1) (running p) p)
| worker_finishes r1 it r2 err : running p = (r1 ++ it :: r2)%list → worker_step p (finish r1 r2 err p).

(** *** Shutdown, in two steps: up to [wg.Wait()], and after it. *)

Definition shutdown_begin (p : WorkerPool) : WorkerPool :=
  mkPool (taskChan p) (idle p) (running p) (started p) true true true (errorChan p)
    (error_closed p) (in_call p) (done_ctx p) (next_ctx p) (panicked p) (accepted p) (began p).
Definition shutdown_end (p : WorkerPool) : WorkerPool :=
  mkPool (taskChan p) (idle p) (running p) (started p) (closed p) (cancelled p) false (errorChan p)
    true (in_call p) (done_ctx p) (next_ctx p) (panicked p) (accepted p) (began p).
Definition cancel_parent (p : WorkerPool) : WorkerPool :=
  mkPool (taskChan p) (idle p) (running p) (started p) (closed p) true (in_shutdown p) (errorChan p)
    (error_closed p) (in_call p) (done_ctx p) (next_ctx p) (panicked p) (accepted p) (began p).
(** Someone receives from [ErrorChan()]. *)
Definition drain_errors (es : list E) (p : WorkerPool) : WorkerPool :=
  mkPool (taskChan p) (idle p) (running p) (started p) (closed p) (cancelled p) (in_shutdown p) es
    (error_closed p) (in_call p) (done_ctx p) (next_ctx p) (panicked p) (accepted p) (began p).

Definition IsStarted (p : WorkerPool) : bool := started p.
Definition IsClosed (p : WorkerPool) : bool := closed p.
Definition PendingTasks (p : WorkerPool) : nat := length (taskChan p).

(** Calls that take the lock wait while a [Shutdown] holds it. *)
Inductive step (p : WorkerPool) : WorkerPool → Prop :=
| step_start : in_shutdown p = false → step p (Start p)
| step_submit t r p' : in_shutdown p = false → Submit p (mkItem t None) r p' → step p p'
| step_submit_timeout t r p' : in_shutdown p = false →
    Submit (begin_call p) (mkItem t (Some (next_ctx p))) r p' → step p p'
| step_return c : c ∈ in_call p → step p (end_call c p)
| step_expire c : (c < next_ctx p)%nat → step p (expire c p)
| step_worker p' : worker_step p p' → step p p'
| step_shutdown : in_shutdown p = false → closed p = false → step p (shutdown_begin p)
| step_shutdown_end : in_shutdown p = true → idle p = 0%nat → running p = [] → step p (shutdown_end p)
| step_parent : step p (cancel_parent p)
| step_errors e es : errorChan p = e :: es → step p (drain_errors es p).

Definition reachable : WorkerPool → Prop := rtc step NewWorkerPool.

(** A program that does not start the pool once it has been shut down. *)
Inductive orderly_step (p : WorkerPool) : WorkerPool → Prop :=
| orderly p' : step p p' → (closed p = true → started p' = started p) → orderly_step p p'.

(** ** Invariants *)

(** What holds in every reachable state. *)
Record pool_inv (p : WorkerPool) : Prop := {
  inv_fifo : accepted p = (began p ++ (it_task <$> taskChan p))%list;
  inv_room : (length (taskChan p) <= BufferSize config)%nat;
  inv_workers : (idle p + length (running p) <= if started p then Workers config else 0)%nat;
  inv_closed : closed p = true → cancelled p = true;
  inv_shutdown : in_shutdown p = true ∨ error_closed p = true → closed p = true;
  inv_errors : (length (errorChan p) <= BufferSize config)%nat;
  inv_fresh c : c ∈ in_call p → (c < next_ctx p)%nat;
  inv_ctx it c : it ∈ taskChan p → it_ctx it = Some c → c ∈ in_call p ∨ c ∈ done_ctx p
}.

Lemma inv_new : pool_inv NewWorkerPool.
Proof.
  split; cbn; try done; try lia; try (by intros [|]).
  intros it c Hit. by apply elem_of_nil in Hit.
Qed.

Lemma inv_begin_call p : pool_inv p → pool_inv (begin_call p).
Proof.
  intros [H1 H2 H3 H4 H5 H6 H7 H8]. split; cbn; try done.
  - intros c [->%elem_of_singleton|Hc]%elem_of_union; [lia|]. specialize (H7 c Hc). lia.
  - intros it c Hit Hc. destruct (H8 it c Hit Hc); [left|by right]. apply elem_of_union. by right.
Qed.

Lemma inv_submit p it r p' :
  (∀ c, it_ctx it = Some c → c ∈ in_call p) → Submit p it r p' → pool_inv p → pool_inv p'.
Proof.
  intros Hctx Hs [H1 H2 H3 H4 H5 H6 H7 H8]. destruct Hs as [Hc|Hc Hd|Hc Hr|Hc [Hq Hi]|Hc Hd Hr Hv];
    try (split; done); split; cbn; try done.
  - by rewrite H1, fmap_app, app_assoc.
  - unfold has_room in Hr. rewrite length_app. cbn. lia.
  - intros x c Hx Hcx. apply elem_of_app in Hx as [Hx| ->%list_elem_of_singleton]; [by apply (H8 x)|]. left. by apply Hctx.
  - rewrite H1, Hq. cbn. by rewrite !app_nil_r.
  - destruct (started p); lia.
Qed.

Lemma inv_worker p p' : worker_step p p' → pool_inv p → pool_inv p'.
Proof.
  intros Hw [H1 H2 H3 H4 H5 H6 H7 H8]. destruct Hw as [it rest Hi Hq|Hi Hc|Hi Hc Hq|r1 it r2 err Hr].
  - split; cbn; try done.
    + rewrite H1, Hq. cbn. by rewrite <- app_assoc.
    + rewrite Hq in H2. cbn in H2. lia.
    + destruct (started p); lia.
    + intros x c Hx. apply H8. rewrite Hq. by right.
  - split; cbn; try done. destruct (started p); lia.
  - split; cbn; try done. destruct (started p); lia.
  - rewrite Hr, length_app in H3. cbn in H3. unfold finish.
    destruct err as [e|]; [destruct (error_closed p) eqn:Ec; [|destruct (Nat.ltb_spec (length (errorChan p)) (BufferSize config))]|].
    all: split; cbn; rewrite ?Ec; try done; rewrite ?length_app; cbn; try lia.
    all: destruct (started p); lia.
Qed.

Lemma step_inv p p' : step p p' → pool_inv p → pool_inv p'.
Proof.
  intros Hs Hinv. destruct Hs as [Hl|t r p' Hl Hs|t r p' Hl Hs|c Hc|c Hc|p' Hw|Hl Hc|Hl Hi Hr| |e es He].
  - unfold Start. destruct (started p) eqn:Es; [done|]. destruct Hinv as [H1 H2 H3 H4 H5 H6 H7 H8].
    rewrite Es in H3. split; cbn; try done. lia.
  - eapply inv_submit; [|eassumption|done]. by intros c [=].
  - eapply inv_submit; [|eassumption|by apply inv_begin_call]. cbn. intros c [= <-]. apply elem_of_union. left.
    by apply elem_of_singleton.
  - destruct Hinv as [H1 H2 H3 H4 H5 H6 H7 H8]. split; cbn; try done; [set_solver|].
    intros it x Hit Hx. destruct (H8 it x Hit Hx); [|set_solver]. destruct (decide (x = c)); set_solver.
  - destruct Hinv as [H1 H2 H3 H4 H5 H6 H7 H8]. split; cbn; try done.
    intros it x Hit Hx. destruct (H8 it x Hit Hx); set_solver.
  - by eapply inv_worker.
  - destruct Hinv as [H1 H2 H3 H4 H5 H6 H7 H8]. by split.
  - destruct Hinv as [H1 H2 H3 H4 H5 H6 H7 H8]. split; try done. intros _. cbn. auto.
  - destruct Hinv as [H1 H2 H3 H4 H5 H6 H7 H8]. by split.
  - destruct Hinv as [H1 H2 H3 H4 H5 H6 H7 H8]. split; try done. cbn. rewrite He in H6. cbn in H6. lia.
Qed.

Lemma pool_reachable_inv p : reachable p → pool_inv p.
Proof.
  intros H. pose proof inv_new as H0. induction H as [|p q r Hs _ IH]; [done|]. by apply IH, (step_inv p).
Qed.
End pool.

Arguments item T : clear implicits.
Arguments WorkerPool T E : clear implicits.
Arguments mkItem {T} it_task it_ctx.

Section properties.
Context {T E : Type} (config : WorkerPoolConfig).
Implicit Types p q : WorkerPool T E.

(** In every reachable state the tasks that were accepted are, in order, those that
    were begun followed by those in the channel: tasks begin in the order of their
    submission, none twice, none is invented; the channel holds at most its buffer and
    at most [Workers] tasks run at a time. *)
Theorem tasks_fifo p :
  reachable config p →
  accepted p = (began p ++ (it_task <$> taskChan p))%list ∧
  (length (taskChan p) <= BufferSize config)%nat ∧ (length (running p) <= Workers config)%nat.
Proof.
  intros H. destruct (pool_reachable_inv config p H) as [H1 H2 H3]. split; [done|]. split; [done|].
  destruct (started p); lia.
Qed.

(** *** Panics *)

(** Once the error channel is closed no worker is left. *)
Definition quiet p : Prop := panicked p = false ∧ (error_closed p = true → idle p = 0%nat ∧ running p = [] ∧ closed p = true).

Lemma quiet_submit p it r p' : Submit config p it r p' → quiet p → quiet p'.
Proof.
  intros Hs [H1 H2]. destruct Hs as [Hc|Hc Hd|Hc Hr|Hc [Hq Hi]|Hc Hd Hr Hv]; split; cbn; try done;
    intros He; destruct (H2 He) as (_ & _ & Hcl); congruence.
Qed.

Lemma quiet_worker p p' : worker_step config p p' → quiet p → quiet p'.
Proof.
  intros Hw [H1 H2]. assert (error_closed p = false) as He.
  { destruct (error_closed p); [|done]. destruct (H2 eq_refl) as (Hi & Hr & _).
    destruct Hw as [it rest Hi'|Hi'|Hi'|r1 it r2 err Hr']; try lia. rewrite Hr in Hr'. by destruct r1. }
  destruct Hw as [it rest Hi Hq|Hi Hc|Hi Hc Hq|r1 it r2 err Hr]; try (split; cbn; [done|congruence]).
  unfold finish. rewrite He. destruct err; [case_match|]; split; cbn; congruence.
Qed.

Lemma quiet_step p p' : orderly_step config p p' → pool_inv config p → quiet p → quiet p'.
Proof.
  intros [p1 Hs Hord] Hinv Hq. destruct Hs as [Hl|t r p1 Hl Hs|t r p1 Hl Hs|c Hc|c Hc|p1 Hw|Hl Hc|Hl Hi Hr| |e es He].
  - unfold Start in *. destruct (started p) eqn:Es; [done|]. destruct Hq as [H1 H2]. split; [done|]. cbn in *.
    intros He. destruct (H2 He) as (_ & _ & Hc). by specialize (Hord Hc).
  - by eapply quiet_submit.
  - eapply quiet_submit; [eassumption|]. by destruct Hq.
  - by destruct Hq.
  - by destruct Hq.
  - by eapply quiet_worker.
  - destruct Hq as [H1 H2]. split; [done|]. cbn. intros He. by destruct (H2 He) as (? & ? & ?).
  - destruct Hq as [H1 H2]. split; [done|]. cbn. intros _. split; [done|]. split; [done|].
    apply (inv_shutdown _ _ Hinv). by left.
  - by destruct Hq.
  - by destruct Hq.
Qed.

(** C20: No worker ever sends on a closed channel, as long as the program does not start
    the pool after having shut it down. *)
Theorem orderly_never_panics p : rtc (orderly_step config) (NewWorkerPool) p → panicked p = false.
Proof.
  intros H. assert (quiet p) as [Hq _]; [|done].
  assert (quiet (NewWorkerPool (T := T) (E := E))) as Hq by (by split).
  pose proof (inv_new config (T := T) (E := E)) as Hinv. revert Hq Hinv.
  induction H as [|p1 p2 p3 Hs _ IH]; intros Hq Hinv; [done|]. apply IH; [by eapply quiet_step|].
  destruct Hs as [p2 Hs _]. by eapply step_inv.
Qed.

(** A pool that is filled, shut down and only then started can panic: its workers
    find the tasks still in the channel, and send the error of one on the closed
    channel. *)
Theorem start_after_shutdown_panics (t : T) (e : E) :
  (0 < BufferSize config)%nat → (0 < Workers config)%nat →
  ∃ p, reachable config p ∧ panicked p = true.
Proof.
  intros Hb Hw. unfold reachable.
  set (p1 := enqueue (mkItem t None) (NewWorkerPool (T := T) (E := E))).
  set (p4 := Start config (shutdown_end (shutdown_begin p1))).
  set (p5 := take_task (mkItem t None) [] p4).
  exists (finish config [] [] (Some e) p5). split; [|done].
  apply (rtc_l _ _ p1). { apply (step_submit config _ t None); [done|]. by apply submit_buffered. }
  apply (rtc_l _ _ (shutdown_begin p1)). { by apply step_shutdown. }
  apply (rtc_l _ _ (shutdown_end (shutdown_begin p1))). { by apply step_shutdown_end. }
  apply (rtc_l _ _ p4). { by apply step_start. }
  apply (rtc_l _ _ p5). { apply step_worker, worker_takes; [cbn; lia|done]. }
  apply rtc_once, step_worker. by apply (worker_finishes config p5 [] (mkItem t None) []).
Qed.

(** *** Timeouts *)

(** The context of [SubmitWithTimeout] is cancelled when that call returns: a task
    still in the channel after its submission returned can only run with a context
    that is already done. *)
Theorem timeout_context_dead p it c :
  reachable config p → it ∈ taskChan p → it_ctx it = Some c → c ∉ in_call p → c ∈ done_ctx p.
Proof. intros H Hit Hc Hn. by destruct (inv_ctx _ _ (pool_reachable_inv config p H) it c Hit Hc). Qed.

(** *** Shutdown *)

Definition work p : nat := 3 * length (taskChan p) + 2 * length (running p) + idle p.

Lemma worker_step_work p q : worker_step config p q → (work q < work p)%nat.
Proof.
  unfold work. intros [it rest Hi Hq|Hi Hc|Hi Hc Hq|r1 it r2 err Hr].
  - cbn. rewrite Hq. cbn. lia.
  - cbn. lia.
  - cbn. lia.
  - rewrite Hr, length_app. unfold finish.
    destruct err; [destruct (error_closed p); [|case_match]|]; cbn; rewrite ?length_app; cbn; lia.
Qed.

Lemma workers_terminate p : Acc (λ q p, worker_step config p q) p.
Proof.
  remember (work p) as n eqn:En. revert p En. induction (Nat.lt_wf_0 n) as [n _ IH]. intros p ->.
  constructor. intros q Hq. eapply IH; [by apply worker_step_work|done].
Qed.

Lemma worker_cancelled_stays p q :
  worker_step config p q → cancelled q = cancelled p ∧ in_shutdown q = in_shutdown p.
Proof.
  intros [it rest Hi Hq|Hi Hc|Hi Hc Hq|r1 it r2 err Hr]; [done..|]. unfold finish.
  destruct err; [destruct (error_closed p); [|case_match]|]; done.
Qed.


(** Once the pool is closed, nothing is accepted any more, whatever happens. *)
Theorem closed_accepts_nothing p q :
  closed p = true → rtc (step config) p q → closed q = true ∧ accepted q = accepted p.
Proof.
  intros Hc H. induction H as [|p1 p2 p3 Hs _ IH]; [done|].
  assert (closed p2 = true ∧ accepted p2 = accepted p1) as [E1 E2].
  { destruct Hs as [Hl|t r p2 Hl Hs|t r p2 Hl Hs|c Hcc|c Hcc|p2 Hw|Hl Hcc|Hl Hi Hr| |e es He]; try done.
    - unfold Start. by destruct (started p1).
    - destruct Hs; try done; congruence.
    - destruct Hs; try done; cbn in *; congruence.
    - destruct Hw as [it rest Hi Hq|Hi Hcc|Hi Hcc Hq|r1 it r2 err Hr]; [done..|]. unfold finish.
      destruct err; [destruct (error_closed p1); [|case_match]|]; done. }
  destruct (IH E1) as [E3 E4]. split; [done|]. congruence.
Qed.
End properties.

(** ** Witnesses *)

Definition demo_pool : WorkerPoolConfig := mkPoolConfig 2 3.
Definition one_queued : WorkerPool nat string := enqueue (mkItem 7%nat (Some 0%nat)) (begin_call NewWorkerPool).
Definition call_over : WorkerPool nat string := end_call 0 one_queued.

Lemma one_queued_reachable : reachable demo_pool one_queued.
Proof.
  apply rtc_once, (step_submit_timeout demo_pool _ 7%nat None); [done|]. apply submit_buffered; [done|].
  unfold has_room. cbn. lia.
Qed.

Lemma call_over_reachable : reachable demo_pool call_over.
Proof. eapply rtc_r; [apply one_queued_reachable|]. apply step_return. vm_compute. done. Qed.

Lemma tasks_fifo_witness :
  accepted call_over = (began call_over ++ (it_task <$> taskChan call_over))%list ∧
  (length (taskChan call_over) <= 3)%nat ∧ (length (running call_over) <= 2)%nat.
Proof. exact (tasks_fifo demo_pool call_over call_over_reachable). Defined.

Lemma orderly_never_panics_witness : panicked one_queued = false.
Proof.
  apply (orderly_never_panics demo_pool). apply rtc_once. apply orderly; [|done].
  apply (step_submit_timeout demo_pool _ 7%nat None); [done|]. apply submit_buffered; [done|].
  unfold has_room. cbn. lia.
Defined.

Lemma start_after_shutdown_panics_witness :
  ∃ p : WorkerPool nat string, reachable demo_pool p ∧ panicked p = true.
Proof. apply (start_after_shutdown_panics demo_pool 1%nat "boom"); cbn; lia. Defined.

Lemma timeout_context_dead_witness : 0%nat ∈ done_ctx call_over.
Proof.
  apply (timeout_context_dead demo_pool call_over (mkItem 7%nat (Some 0%nat)) 0%nat call_over_reachable).
  - left.
  - reflexivity.
  - cbn. set_solver.
Defined.


Lemma closed_accepts_nothing_witness :
  closed (shutdown_end (shutdown_begin one_queued)) = true ∧
  accepted (shutdown_end (shutdown_begin one_queued)) = accepted (shutdown_begin one_queued).
Proof.
  apply (closed_accepts_nothing demo_pool (shutdown_begin one_queued)); [reflexivity|].
  apply rtc_once. by apply step_shutdown_end.
Defined.
