(* ===== verification/MavenPaths.v ===== *)
(** * MavenPaths: reading Maven paths and comparing versions

    Models [src/internal/services/maven/path_analyzer.go], with the types of
    [src/internal/domain/maven]: which part of a repository path is the version, the
    artifact and the group, and the order on versions. *)

From Stdlib Require Import Ascii.
From S2P Require Import Prelude GoStrings GoRegexp GoPath GoUrl.

(** ** Letters *)

(** [strings.ToUpper], as far as ASCII text is looked for in its result: besides the
    small letters, the two characters above 127 whose upper case is ASCII (dotless i,
    long s). *)
Definition upper_char (c : ascii) : ascii :=
  if in_range 97 122 c then ascii_of_nat (nat_of_ascii c - 32) else c.

Fixpoint to_upper (s : string) : string :=
  match s with
  | EmptyString => EmptyString
  | String c r =>
      match r with
      | EmptyString => String (upper_char c) EmptyString
      | String d r' =>
          if Ascii.eqb c "196" && Ascii.eqb d "177" then String "I" (to_upper r')
          else if Ascii.eqb c "197" && Ascii.eqb d "191" then String "S" (to_upper r')
          else String (upper_char c) (to_upper r)
      end
  end.

(** ** The patterns *)

Definition digit : re := RChar is_digit.
Definition alnum (c : ascii) : bool := is_letter c || is_digit c.

(** [^\d+(\.\d+)*(-[a-zA-Z0-9]+)*$] *)
Definition versionPattern : re :=
  RCat (RPlus digit) (RCat (RStar (RCat (RLit ".") (RPlus digit))) (RStar (RCat (RLit "-") (RPlus (RChar alnum))))).
(** [^[a-zA-Z0-9][a-zA-Z0-9\-_.]*[a-zA-Z0-9]$] *)
Definition artifactPattern : re :=
  RCat (RChar alnum)
    (RCat (RStar (RChar (λ c, alnum c || Ascii.eqb c "-" || Ascii.eqb c "_" || Ascii.eqb c "."))) (RChar alnum)).
(** [^\d{4}-\d{2}-\d{2}$], and with dots. *)
Definition datePattern (sep : ascii) : re :=
  foldr RCat REps [digit; digit; digit; digit; RLit sep; digit; digit; RLit sep; digit; digit].

Definition matches (r : re) (s : string) : bool := if full_match r s then true else false.

(** ** Classifying the parts of a path *)

Definition isDateLike (s : string) : bool :=
  if (String.length s =? 8)%nat && negb (str_all is_digit s) then false
  else if (String.length s =? 8)%nat && String.leb "2000" (take_bytes 4 s) && String.leb (take_bytes 4 s) "2099" then true
  else matches (datePattern "-") s || matches (datePattern ".") s.

Definition versionKeywords : list string :=
  ["SNAPSHOT"; "snapshot"; "RELEASE"; "release"; "Final"; "final"; "GA"; "ga"; "RC"; "rc";
   "Alpha"; "alpha"; "ALPHA"; "Beta"; "beta"; "BETA"; "M"].

Definition IsVersionLike (s : string) : bool :=
  if String.eqb s EmptyString then false
  else if existsb (λ keyword, Contains (to_upper s) (to_upper keyword)) versionKeywords then true
  else if matches versionPattern s then true
  else if match s with String c _ => is_digit c | EmptyString => false end then true
  else isDateLike s.

Definition groupPatterns : list string :=
  ["org"; "com"; "net"; "io"; "co"; "gov"; "edu"; "apache"; "springframework"; "google"; "microsoft";
   "eclipse"; "junit"; "slf4j"; "hibernate"].

Definition isGroupLike (name : string) : bool :=
  if existsb (λ pattern, String.eqb (to_lower name) pattern || Contains (to_lower name) pattern) groupPatterns then true
  else (String.length name <=? 3)%nat && negb (IsVersionLike name).

Definition artifactSuffixes : list string :=
  ["-core"; "-api"; "-impl"; "-client"; "-server"; "-common"; "-util"; "-utils"; "-test"; "-tests"; "-web"; "-service";
   "-dao"; "-model"; "-entity"; "-spring"; "-boot"; "-starter"; "-plugin"; "-parent"; "-bom"; "-dependencies"].
Definition artifactPrefixes : list string :=
  ["spring-"; "jackson-"; "commons-"; "apache-"; "google-"; "junit-"; "slf4j-"; "logback-"; "hibernate-"; "mybatis-"; "redis-"].

Definition IsLikelyArtifact (name : string) : bool :=
  if String.eqb name EmptyString then false
  else if existsb (HasSuffix (to_lower name)) artifactSuffixes then true
  else if existsb (HasPrefix (to_lower name)) artifactPrefixes then true
  else if matches artifactPattern name then true
  else negb (IsVersionLike name) && negb (isGroupLike name).

(** ** Reading a path *)

Inductive EntryType := TypeDirectory | TypeFile | TypeGroup | TypeArtifact | TypeVersion | TypeMetadata.

Record PathInfo := mkInfo { Type_ : EntryType; GroupID : string; ArtifactID : string; Version : string; Level : nat }.

(** The loops from the end: the last index whose part passes, none being -1. *)
Fixpoint last_index (p : string → bool) (parts : list string) : option nat :=
  match parts with
  | [] => None
  | part :: parts =>
      match last_index p parts with
      | Some i => Some (S i)
      | None => if p part then Some O else None
      end
  end.

Definition part_at (parts : list string) (i : nat) : string := default EmptyString (parts !! i).

(** The part of [ParsePath] for a path without a version. *)
Definition parse_unversioned (parts : list string) : PathInfo :=
  match last_index IsLikelyArtifact parts with
  | Some (S i) => mkInfo TypeArtifact (Join (take (S i) parts) ".") (part_at parts (S i)) EmptyString (length parts)
  | _ => mkInfo TypeGroup (Join parts ".") EmptyString EmptyString (length parts)
  end.

Definition ParsePath (path : string) : PathInfo :=
  let path := trim_char "/" path in
  if String.eqb path EmptyString then mkInfo TypeDirectory EmptyString EmptyString EmptyString 0
  else
    let parts := Split path "/" in
    match last_index IsVersionLike parts with
    | Some (S i) => mkInfo TypeVersion (Join (take i parts) ".") (part_at parts i) (part_at parts (S i)) (length parts)
    | _ => parse_unversioned parts
    end.

Definition ExtractGAV (path : string) : string * string * string :=
  let info := ParsePath path in (GroupID info, ArtifactID info, Version info).

Definition GetPathType (path : string) : EntryType := Type_ (ParsePath path).

(** The pattern [SNAPSHOT|snapshot], anywhere. *)
Definition IsSnapshotVersion (version : string) : bool := Contains version "SNAPSHOT" || Contains version "snapshot".

(** ** Comparing versions *)

Definition cleanVersionString (version : string) : string :=
  ReplaceAll (ReplaceAll version "-SNAPSHOT" EmptyString) "-snapshot" EmptyString.

(** Splitting at every dot and hyphen, without the empty parts. *)
Definition splitVersion (version : string) : list string :=
  filter (λ part, part ≠ EmptyString) (mbind (λ s, Split s "-") (Split version ".")).

Fixpoint digits_prefix (s : string) : string :=
  match s with
  | String c s => if is_digit c then String c (digits_prefix s) else EmptyString
  | EmptyString => EmptyString
  end.

Fixpoint number_go (acc : Z) (s : string) : Z :=
  match s with
  | EmptyString => acc
  | String c s => number_go (wrap64 (wrap64 (acc * 10) + (byte_of c - 48))) s
  end.

(** The number a part starts with; 64 bits wrap around. *)
Definition parseVersionNumber (part : string) : option Z :=
  match digits_prefix part with EmptyString => None | ds => Some (number_go 0 ds) end.

Definition compareVersionPart (part1 part2 : string) : Z :=
  if String.eqb part1 part2 then 0
  else
    let text := if String.ltb part1 part2 then -1 else 1 in
    match parseVersionNumber part1, parseVersionNumber part2 with
    | Some p1, Some p2 => if p1 <? p2 then -1 else if p2 <? p1 then 1 else 0
    | _, _ => text
    end.

(** The loop over [maxLen] parts; a missing part is empty. *)
Fixpoint compare_parts (maxLen : nat) (parts1 parts2 : list string) : Z :=
  match maxLen with
  | O => 0
  | S maxLen =>
      let cmp := compareVersionPart (default EmptyString (head parts1)) (default EmptyString (head parts2)) in
      if negb (cmp =? 0) then cmp else compare_parts maxLen (tail parts1) (tail parts2)
  end.

Definition CompareVersions (v1 v2 : string) : Z :=
  let parts1 := splitVersion (cleanVersionString v1) in
  let parts2 := splitVersion (cleanVersionString v2) in
  compare_parts (length parts1 `max` length parts2) parts1 parts2.

Example versions_ex :
  CompareVersions "1.2.10" "1.2.9" = 1 ∧ CompareVersions "1.0-SNAPSHOT" "1.0" = 0 ∧ CompareVersions "1.0-rc1" "1.0" = 1
  ∧ CompareVersions "1" "1.0" = -1.
Proof. vm_compute. repeat split. Qed.

(** ** Lemmas: the order of versions *)

(** The key that two parts are compared by: parts that start with a digit by their
    number, and all together where ["0"] is among the others. *)
Definition part_key (part : string) : string * Z :=
  match parseVersionNumber part with Some n => ("0"%string, n) | None => (part, 0) end.
Definition part_cmp : string → string → comparison := key_cmp part_key (pair_cmp String.compare Z.compare).

#[export] Instance part_cmp_total : TotalCmp part_cmp.
Proof. apply _. Qed.

Lemma number_starts part : is_Some (parseVersionNumber part) ↔ ∃ c s, part = String c s ∧ is_digit c = true.
Proof.
  unfold parseVersionNumber. split.
  - intros [n H]. destruct part as [|c s]; [done|]. cbn [digits_prefix] in H. exists c, s. by destruct (is_digit c).
  - intros (c & s & -> & Hc). cbn [digits_prefix]. rewrite Hc. eauto.
Qed.

Lemma str_compare_cons c s d t :
  String.compare (String c s) (String d t) = match Ascii.compare c d with Eq => String.compare s t | r => r end.
Proof. done. Qed.

(** A text that starts with a digit is on the same side of one that does not as ["0"]. *)
Lemma digit_side c s part :
  is_digit c = true → parseVersionNumber part = None →
  String.compare (String c s) part = String.compare "0" part ∧ String.compare "0" part ≠ Eq.
Proof.
  intros Hc Hp. destruct part as [|d t]; [done|].
  assert (is_digit d = false) as Hd.
  { destruct (is_digit d) eqn:E; [|done]. assert (is_Some (parseVersionNumber (String d t))) as [n Hn]; [|congruence].
    apply number_starts. eauto. }
  rewrite !str_compare_cons. unfold Ascii.compare.
  assert (48 <= byte_of c <= 57) as Hc' by (by apply in_range_spec).
  assert (¬ (48 <= byte_of d <= 57)) as Hd' by (intros H; apply in_range_spec in H; unfold is_digit in Hd; congruence).
  unfold byte_of, nat_of_ascii in Hc', Hd'. change (N_of_ascii "0") with 48%N.
  destruct (N.compare_spec (N_of_ascii c) (N_of_ascii d)), (N.compare_spec 48 (N_of_ascii d)); try done; lia.
Qed.

Lemma compareVersionPart_spec a b : compareVersionPart a b = cmp_sign (part_cmp a b).
Proof.
  unfold compareVersionPart. destruct (String.eqb_spec a b) as [->|Hab].
  { by rewrite (cmp_refl part_cmp). }
  unfold part_cmp, key_cmp, pair_cmp, part_key, String.ltb.
  destruct (parseVersionNumber a) as [n|] eqn:Ea, (parseVersionNumber b) as [m|] eqn:Eb; cbn [fst snd].
  - change (String.compare "0" "0") with Eq. cbv iota. unfold Z.ltb. rewrite (Z.compare_antisym n m).
    by destruct (n ?= m).
  - apply mk_is_Some in Ea. apply number_starts in Ea as (c & s & -> & Hc).
    destruct (digit_side c s b Hc Eb) as [-> Hne]. by destruct (String.compare "0" b).
  - apply mk_is_Some in Eb. apply number_starts in Eb as (c & s & -> & Hc).
    destruct (digit_side c s a Hc Ea) as [E Hne].
    rewrite (cmp_opp String.compare (String c s) a), E, (cmp_opp String.compare "0" a).
    by destruct (String.compare "0" a).
  - destruct (String.compare a b) eqn:E; try done. by apply String.compare_eq_iff in E.
Qed.

Lemma part_cmp_empty c s : part_cmp EmptyString (String c s) = Lt.
Proof. unfold part_cmp, key_cmp, pair_cmp, part_key. cbn. by destruct (parseVersionNumber (String c s)). Qed.

Lemma compare_parts_spec n l k :
  (length l <= n)%nat → (length k <= n)%nat →
  Forall (λ p, p ≠ EmptyString) l → Forall (λ p, p ≠ EmptyString) k →
  compare_parts n l k = cmp_sign (list_cmp part_cmp l k).
Proof.
  revert l k. induction n as [|n IH]; intros l k Hl Hk Fl Fk.
  { destruct l, k; cbn in Hl, Hk; try lia. done. }
  cbn [compare_parts]. rewrite compareVersionPart_spec.
  destruct l as [|x l], k as [|y k]; cbn [head tail default length] in *.
  - rewrite (cmp_refl part_cmp). cbn. apply IH; (done || cbn; lia).
  - apply Forall_cons_iff in Fk as [Hy _]. destruct y; [done|]. cbn. by rewrite part_cmp_empty.
  - apply Forall_cons_iff in Fl as [Hx _]. destruct x; [done|]. cbn.
    by rewrite (cmp_opp part_cmp EmptyString), part_cmp_empty.
  - apply Forall_cons_iff in Fl as [_ Fl], Fk as [_ Fk]. cbn [list_cmp from_option id].
    destruct (part_cmp x y); [|done..]. cbn. apply IH; (done || lia).
Qed.

(** The parts that versions are compared by. *)
Definition version_parts (v : string) : list string := splitVersion (cleanVersionString v).

Lemma version_parts_nonempty v : Forall (λ p, p ≠ EmptyString) (version_parts v).
Proof. apply list.Forall_forall. intros p Hp. unfold version_parts, splitVersion in Hp. by apply list_elem_of_filter in Hp as [? _]. Qed.

Lemma CompareVersions_key v1 v2 :
  CompareVersions v1 v2 = cmp_sign (key_cmp version_parts (list_cmp part_cmp) v1 v2).
Proof. apply compare_parts_spec; [lia..|apply version_parts_nonempty|apply version_parts_nonempty]. Qed.

(** Comparing Maven versions is reflexive, antisymmetric in sign and transitive,
    numbers that overflow included, so that sorting by it is meaningful. *)
Theorem CompareVersions_preorder a b c :
  CompareVersions a a = 0 ∧ CompareVersions b a = - CompareVersions a b ∧
  (CompareVersions a b <= 0 → CompareVersions b c <= 0 → CompareVersions a c <= 0).
Proof.
  rewrite !CompareVersions_key. set (cmp := key_cmp version_parts (list_cmp part_cmp)).
  assert (∀ x y, cmp_sign (cmp x y) <= 0 ↔ cmp x y ≠ Gt) as Hs by (intros x y; destruct (cmp x y); cbn; naive_solver lia).
  split; [by rewrite (cmp_refl cmp)|]. split; [by rewrite (cmp_opp cmp a b), cmp_sign_opp|].
  rewrite !Hs. apply (cmp_le_trans cmp).
Qed.

(** *** Dotted numbers *)

Lemma digits_prefix_all s : str_all is_digit s = true → digits_prefix s = s.
Proof. induction s as [|c s IH]; [done|]. cbn. intros [-> H]%andb_true_iff. by rewrite IH. Qed.

Lemma number_go_digits s acc n :
  0 <= acc → digits_go acc s = Some n → n <= max_int64 → number_go acc s = n ∧ acc <= n.
Proof.
  revert acc. induction s as [|c s IH]; intros acc Ha; cbn [digits_go number_go]; [intros [= ->]; lia|].
  destruct (is_digit c) eqn:Hc; [|done]. apply in_range_spec in Hc. intros Hd Hn.
  destruct (IH (10 * acc + (byte_of c - 48))) as [E Hle]; [lia|done|done|].
  rewrite (wrap64_id (acc * 10)), wrap64_id by (unfold in_int64, min_int64, max_int64 in *; lia).
  split; [|lia]. by replace (acc * 10 + (byte_of c - 48)) with (10 * acc + (byte_of c - 48)) by lia.
Qed.

Lemma pretty_digits (n : N) : str_all is_digit (pretty n) = true ∧ pretty n ≠ EmptyString.
Proof.
  pose proof (parse_uint_pretty n) as H. destruct (pretty n) as [|c s]; [done|]. split; [|done].
  by apply digits_go_all in H.
Qed.

Lemma parse_number_pretty (n : N) : Z.of_N n <= max_int64 → parseVersionNumber (pretty n) = Some (Z.of_N n).
Proof.
  intros Hn. unfold parseVersionNumber. destruct (pretty_digits n) as [Hd Hne]. rewrite digits_prefix_all by done.
  pose proof (parse_uint_pretty n) as H. destruct (pretty n) as [|c s]; [done|]. cbn [parse_uint] in H.
  by apply number_go_digits in H as [-> _]; [|lia|done].
Qed.

Lemma part_cmp_numbers (n m : N) :
  Z.of_N n <= max_int64 → Z.of_N m <= max_int64 → part_cmp (pretty n) (pretty m) = N.compare n m.
Proof.
  intros Hn Hm. unfold part_cmp, key_cmp, pair_cmp, part_key. rewrite !parse_number_pretty by done. cbn [fst snd].
  change (String.compare "0" "0") with Eq. apply N2Z.inj_compare.
Qed.

(** Text without a hyphen is not changed by cleaning. *)
Lemma replace_absent c old s : str_all (not_char c) s = true → ReplaceAll s (String c old) EmptyString = s.
Proof.
  unfold ReplaceAll. induction s as [|d s IH]; [done|]. cbn [str_all]. intros [Hd Hs]%andb_true_iff.
  cbn [replace_go]. assert (String.prefix (String c old) (String d s) = false) as ->; [|by rewrite IH].
  cbn. unfold not_char in Hd. apply negb_true_iff, Ascii.eqb_neq in Hd. destruct (ascii_dec c d); [by subst|done].
Qed.

(** The parts of a version that is made of names without dots and hyphens. *)
Lemma version_parts_dotted part parts :
  Forall (λ p, p ≠ EmptyString ∧ str_all (λ c, not_char "." c && not_char "-" c) p = true) (part :: parts) →
  version_parts (Join (part :: parts) ".") = part :: parts.
Proof.
  intros H. assert (Forall (λ p, str_all (not_char ".") p = true) (part :: parts)
    ∧ Forall (λ p, str_all (not_char "-") p = true) (part :: parts)) as [Hd Hh].
  { split; (eapply list.Forall_impl; [exact H|]); intros p [_ Hp]; revert Hp; apply str_all_impl;
      by intros c [? ?]%andb_true_iff. }
  unfold version_parts, cleanVersionString, splitVersion.
  rewrite Join_seps. set (s := part +:+ seps "." parts).
  assert (str_all (not_char "-") s = true) as Hs.
  { unfold s. rewrite str_all_app. apply Forall_cons_iff in Hh as [Hp Hps]. rewrite Hp. cbn [andb].
    clear -Hps. induction Hps as [|p ps Hp _ IH]; [done|]. cbn [seps]. rewrite str_app_cons. cbn [str_all].
    by rewrite str_all_app, Hp, IH. }
  rewrite (replace_absent "-" "SNAPSHOT" s Hs), (replace_absent "-" "snapshot" s Hs). unfold s. rewrite Split_join by done.
  assert (mbind (λ s, Split s "-") (part :: parts) = part :: parts) as ->.
  { clear -Hh. induction Hh as [|p ps Hp _ IH]; [done|]. cbn [mbind list_bind]. rewrite IH, Split_none by done. done. }
  clear -H. induction H as [|p ps [Hp _] _ IH]; [done|]. by rewrite filter_cons_True, IH.
Qed.

(** Versions that are dotted numbers are compared number by number from the left,
    and a version that continues another one is above it. *)
Theorem CompareVersions_numeric (x y : N) (xs ys : list N)
    (Hx : Forall (λ n, Z.of_N n <= max_int64) (x :: xs)) (Hy : Forall (λ n, Z.of_N n <= max_int64) (y :: ys)) :
  CompareVersions (Join (pretty <$> x :: xs) ".") (Join (pretty <$> y :: ys) ".")
  = cmp_sign (list_cmp N.compare (x :: xs) (y :: ys)).
Proof.
  assert (∀ l : list N, Forall (λ p, p ≠ EmptyString ∧ str_all (λ c, not_char "." c && not_char "-" c) p = true) (pretty <$> l)) as Hw.
  { intros l. apply Forall_fmap, Forall_true. intros n. destruct (pretty_digits n) as [Hd Hne]. split; [done|].
    revert Hd. apply str_all_impl. intros c Hc. apply in_range_spec in Hc. unfold not_char.
    destruct (Ascii.eqb_spec c "."), (Ascii.eqb_spec c "-"); subst; try done;
      destruct Hc as [H1 H2]; vm_compute in H1, H2; congruence. }
  rewrite CompareVersions_key. unfold key_cmp. f_equal. cbn [fmap list_fmap].
  rewrite !version_parts_dotted by apply (Hw (_ :: _)).
  change (list_cmp part_cmp (pretty <$> x :: xs) (pretty <$> y :: ys) = list_cmp N.compare (x :: xs) (y :: ys)).
  revert Hx Hy. generalize (y :: ys). generalize (x :: xs). clear. intros l. induction l as [|n l IH]; intros [|m k] Hl Hk; try done.
  apply Forall_cons_iff in Hl as [Hn Hl], Hk as [Hm Hk]. cbn [fmap list_fmap list_cmp].
  rewrite part_cmp_numbers by done. destruct (N.compare n m); [|done..]. by apply IH.
Qed.

Lemma CompareVersions_numeric_witness : CompareVersions "5.10.0" "5.9" = 1.
Proof.
  apply (CompareVersions_numeric 5 5 [10%N; 0%N] [9%N]); repeat constructor; vm_compute; discriminate.
Defined.

(** ** Lemmas: paths of the standard layout *)

Lemma last_index_app p l x r :
  p x = true → Forall (λ y, p y = false) r → last_index p (l ++ x :: r) = Some (length l).
Proof.
  intros Hx Hr. induction l as [|y l IH]; cbn [app last_index length].
  - assert (last_index p r = None) as ->; [|by rewrite Hx].
    clear -Hr. induction Hr as [|y r Hy _ IH]; [done|]. cbn. by rewrite IH, Hy.
  - by rewrite IH.
Qed.

Lemma last_index_None p l : last_index p l = None ↔ Forall (λ y, p y = false) l.
Proof.
  induction l as [|y l IH]; [by split|]. cbn [last_index]. rewrite Forall_cons_iff.
  destruct (last_index p l), (p y); naive_solver.
Qed.

Lemma ParsePath_version (lead trail : string) (group : list string) (artifact version : string) (rest : list string)
    (Hlead : str_all (λ d, Ascii.eqb d "/") lead = true) (Htrail : str_all (λ d, Ascii.eqb d "/") trail = true)
    (Hparts : Forall (λ p, path_part p = true) (group ++ artifact :: version :: rest))
    (Hversion : IsVersionLike version = true) (Hrest : Forall (λ p, IsVersionLike p = false) rest) :
  ParsePath (lead +:+ (Join (group ++ artifact :: version :: rest) "/" +:+ trail))
  = mkInfo TypeVersion (Join group ".") artifact version (length group + length rest + 2).
Proof.
  destruct (Split_slashes lead (group ++ artifact :: version :: rest) trail) as (Et & Hne & Es); try done; [by destruct group|].
  unfold ParsePath. rewrite Et. destruct (String.eqb_spec (Join (group ++ artifact :: version :: rest) "/") EmptyString); [done|].
  rewrite Es. assert (group ++ artifact :: version :: rest = (group ++ [artifact]) ++ version :: rest)%list as E by (by rewrite <- app_assoc).
  rewrite E, last_index_app, length_app, Nat.add_comm by done. cbn [length Nat.add].
  assert (take (length group) ((group ++ [artifact]) ++ version :: rest) = group) as -> by (by rewrite <- app_assoc, take_app_length).
  f_equal.
  - unfold part_at. rewrite <- app_assoc, lookup_app_r, Nat.sub_diag by lia. done.
  - unfold part_at. rewrite lookup_app_r by (rewrite length_app; cbn; lia). rewrite length_app. cbn [length].
    by replace (S (length group) - (length group + 1))%nat with 0%nat by lia.
  - rewrite !length_app. cbn [length]. lia.
Qed.

(** In the standard layout the coordinates come back: of a path that goes through
    the parts of the group, the artifact, a part that looks like a version and then only
    parts that do not, whatever slashes surround it, group, artifact and version are
    those parts. *)
Theorem ParsePath_layout (lead trail : string) (group : list string) (artifact version : string) (rest : list string)
    (Hlead : str_all (λ d, Ascii.eqb d "/") lead = true) (Htrail : str_all (λ d, Ascii.eqb d "/") trail = true)
    (Hparts : Forall (λ p, path_part p = true) (group ++ artifact :: version :: rest))
    (Hversion : IsVersionLike version = true) (Hrest : Forall (λ p, IsVersionLike p = false) rest) :
  ParsePath (lead +:+ (Join (group ++ artifact :: version :: rest) "/" +:+ trail))
  = mkInfo TypeVersion (Join group ".") artifact version (length group + length rest + 2).
Proof. by apply ParsePath_version. Qed.

Lemma ParsePath_layout_witness :
  ParsePath "/org/apache/httpcomponents/httpclient5/5.3.1/httpclient5-5.3.1.jar/"
  = mkInfo TypeVersion "org.apache.httpcomponents" "httpclient5" "5.3.1" 6.
Proof.
  apply (ParsePath_layout "/" "/" ["org"; "apache"; "httpcomponents"] "httpclient5" "5.3.1" ["httpclient5-5.3.1.jar"]);
    first [reflexivity | repeat (constructor; [reflexivity|]); constructor].
Defined.

Lemma to_upper_m a b : ∃ x y, to_upper (a +:+ String "m" b) = x +:+ String "M" y.
Proof.
  remember (String.length a) as n eqn:Hn. revert a Hn. induction (Nat.lt_wf_0 n) as [n _ IH]. intros [|c a] ->.
  - exists EmptyString. destruct b as [|d b]; [by exists EmptyString|]. by exists (to_upper (String d b)).
  - assert (∀ a', (String.length a' < S (String.length a))%nat → ∃ x y, to_upper (a' +:+ String "m" b) = x +:+ String "M" y) as IH'.
    { intros a' Ha. by apply (IH (String.length a')). }
    clear IH. rewrite str_app_cons. cbn [to_upper].
    destruct (IH' a) as (x & y & Ea); [lia|].
    destruct a as [|d a]; [|cbn [String.length] in IH'; rewrite str_app_cons in *].
    + change (EmptyString +:+ String "m" b) with (String "m" b) in *. cbv iota.
      change (Ascii.eqb "m" "177") with false. change (Ascii.eqb "m" "191") with false. rewrite !andb_false_r, Ea.
      by exists (String (upper_char c) x), y.
    + destruct (IH' a) as (x' & y' & Ea'); [lia|].
      destruct (Ascii.eqb c "196" && Ascii.eqb d "177"); [rewrite Ea'; by exists (String "I" x'), y'|].
      destruct (Ascii.eqb c "197" && Ascii.eqb d "191"); [rewrite Ea'; by exists (String "S" x'), y'|].
      rewrite Ea. by exists (String (upper_char c) x), y.
Qed.

Lemma m_version_like a b : IsVersionLike (a +:+ String "m" b) = true.
Proof.
  unfold IsVersionLike. destruct (String.eqb_spec (a +:+ String "m" b) EmptyString) as [E|_]; [by destruct a|].
  assert (existsb (λ keyword, Contains (to_upper (a +:+ String "m" b)) (to_upper keyword)) versionKeywords = true) as ->; [|done].
  apply existsb_exists. exists "M"%string. split; [do 16 right; by left|]. apply Contains_spec.
  destruct (to_upper_m a b) as (x & y & ->). by exists x, y.
Qed.

(** The keyword for milestones is the single letter M: every part that contains an m
    looks like a version, so that the directory org/apache/commons is taken for version
    commons of an artifact apache of the group org. *)
Theorem letter_m_is_version (a b : string) (group : list string) (artifact : string)
    (Hparts : Forall (λ p, path_part p = true) (group ++ [artifact; a +:+ String "m" b])) :
  ParsePath (Join (group ++ [artifact; a +:+ String "m" b]) "/")
  = mkInfo TypeVersion (Join group ".") artifact (a +:+ String "m" b) (length group + 2).
Proof.
  pose proof (ParsePath_version EmptyString EmptyString group artifact (a +:+ String "m" b) [] eq_refl eq_refl Hparts
    (m_version_like a b) (Forall_nil _)) as E.
  cbn [length] in E. rewrite Nat.add_0_r, str_app_nil_r in E. exact E.
Qed.

Lemma letter_m_is_version_witness :
  ParsePath "org/apache/commons" = mkInfo TypeVersion "org" "apache" "commons" 3.
Proof. apply (letter_m_is_version "com" "ons" ["org"] "apache"). repeat (constructor; [reflexivity|]); constructor. Defined.
