(* ===== verification/Normalizer.v ===== *)
(** * Normalizer: package paths in one form

    Models [src/internal/adapters/pm/common/normalizer.go]: the normalisation, the
    validation and the parts of a path for each package manager. *)

From Stdlib Require Import Ascii.
From S2P Require Import Prelude GoStrings GoRegexp GoPath GoUrl.

(** ** The patterns *)

(** [ReplaceAllString] of the pattern [/+] by a slash. *)
Fixpoint collapse (after_slash : bool) (s : string) : string :=
  match s with
  | EmptyString => EmptyString
  | String c r =>
      if Ascii.eqb c slash then if after_slash then collapse true r else String c (collapse true r)
      else String c (collapse false r)
  end.
Definition collapse_slashes (s : string) : string := collapse false s.

Definition matches (r : re) (s : string) : bool := if full_match r s then true else false.

Definition RText (s : string) : re := foldr (λ c r, RCat (RLit c) r) REps (String.list_ascii_of_string s).
(** A dot of a pattern does not match a line feed. *)
Definition RAny : re := RChar (not_char "010").
Definition name_char (c : ascii) : bool := not_char slash c.
Definition RName : re := RPlus (RChar name_char).
Definition RSeq (rs : list re) : re := foldr RCat REps rs.

(** [^/[^/]+(/[^/]+)*/[^/]+\.[^/]+$] *)
Definition mavenPattern : re :=
  RSeq [RText "/"; RName; RStar (RCat (RText "/") RName); RText "/"; RName; RText "."; RName].

Definition scopedPattern : re := RSeq [RText "/@"; RName; RText "/"; RName].
Definition regularPattern : re := RSeq [RText "/"; RChar (λ c, not_char "@" c); RStar (RChar name_char)].
Definition tarballPattern : re := RSeq [RText "/"; RName; RText "/-/"; RName; RText "-"; RName; RText ".tgz"].
Definition scopedTarballPattern : re :=
  RSeq [RText "/@"; RName; RText "/"; RName; RText "/-/"; RName; RText "-"; RName; RText ".tgz"].

Definition pypiPatterns : list re :=
  [RSeq [RText "/simple/"; RName; ROpt (RText "/")];
   RSeq [RText "/pypi/"; RName; ROpt (RText "/")];
   RSeq [RText "/packages/"; RStar RAny; RText "."; foldr RAlt (RText "egg") [RText "tar.gz"; RText "zip"; RText "whl"]]].

Definition registryPatterns : list re :=
  [RSeq [RText "/v2"; ROpt (RText "/")];
   RSeq [RText "/v2/"; RName; RText "/"; RName; RText "/manifests/"; RName];
   RSeq [RText "/v2/"; RName; RText "/"; RName; RText "/blobs/sha256:"; RPlus (RChar (λ c, in_range 97 102 c || is_digit c))];
   RSeq [RText "/v2/"; RName; RText "/"; RName; RText "/tags/list"];
   RText "/v2/_catalog"].

(** ** Types of package managers *)

Inductive PMType := Maven | Npm | Apt | Pypi | Yum | Apk | Registry | OtherPM (name : string).

Inductive path_err :=
| InvalidMavenFormat (path : string) | InvalidMavenPath (path : string)
| InvalidNpmFormat (path : string) | InvalidNpmPath (path : string)
| PathWithoutSlash | InvalidPypiFormat (path : string) | InvalidRegistryFormat (path : string).

Record PathComponents := mkComponents {
  PackageName : string; Version : string; Extension : string; Scope : string; Attributes : gmap string string
}.
Definition no_components : PathComponents := mkComponents EmptyString EmptyString EmptyString EmptyString ∅.

(** ** Normalisation *)

Definition with_slash (s : string) : string := if HasPrefix s "/" then s else String slash s.

Definition normalizeGenericPath (path : string) : string := collapse_slashes (with_slash (Clean path)).
Definition normalizeMavenPath (path : string) : string := collapse_slashes (with_slash (Clean path)).

(** [parts[i] = f(parts[i])]. *)
Definition update_part (i : nat) (f : string → string) (parts : list string) : list string := alter f i parts.

(** Letters above 127 are not lowered here (see [to_lower]). *)
Definition normalizeNpmPath (path : string) : string :=
  let normalized := with_slash (TrimSpace path) in
  let normalized := ReplaceAll normalized "%40" "@" in
  let normalized := ReplaceAll normalized "%2F" "/" in
  let parts := Split normalized "/" in
  if HasPrefix normalized "/@" then
    if (3 <=? length parts)%nat then Join (update_part 2 to_lower (update_part 1 to_lower parts)) "/" else normalized
  else if HasPrefix normalized "/" && negb (HasPrefix normalized "/@") then
    if (2 <=? length parts)%nat then Join (update_part 1 to_lower parts) "/" else normalized
  else normalized.

Definition normalizePypiPath (path : string) : string :=
  let normalized := with_slash (to_lower (TrimSpace path)) in
  if HasPrefix normalized "/simple/" then
    let parts := Split normalized "/" in
    if (3 <=? length parts)%nat then
      Join (update_part 2 (λ p, ReplaceAll (ReplaceAll p "_" "-") "." "-") parts) "/"
    else normalized
  else normalized.

Definition normalizeRegistryPath (path : string) : string :=
  let normalized := with_slash (TrimSpace path) in
  if String.eqb normalized "/" then "/v2/" else normalized.

(** Normalisation never fails. *)
Definition NormalizePath (pmType : PMType) (path : string) : string :=
  match pmType with
  | Maven => normalizeMavenPath path
  | Npm => normalizeNpmPath path
  | Pypi => normalizePypiPath path
  | Registry => normalizeRegistryPath path
  | Apt | Yum | Apk | OtherPM _ => normalizeGenericPath path
  end.

(** ** Validation *)

Definition validateMavenPath (path : string) : option path_err :=
  if matches mavenPattern path then None else Some (InvalidMavenFormat path).
Definition npmPatterns : list re := [scopedPattern; regularPattern; tarballPattern; scopedTarballPattern].
Definition validateNpmPath (path : string) : option path_err :=
  if existsb (λ r, matches r path) npmPatterns then None else Some (InvalidNpmFormat path).
Definition validateAptPath (path : string) : option path_err :=
  if HasPrefix path "/" then None else Some PathWithoutSlash.
Definition validatePypiPath (path : string) : option path_err :=
  if existsb (λ r, matches r path) pypiPatterns then None else Some (InvalidPypiFormat path).
Definition validateRegistryPath (path : string) : option path_err :=
  if existsb (λ r, matches r path) registryPatterns then None else Some (InvalidRegistryFormat path).

Definition ValidatePath (pmType : PMType) (path : string) : option path_err :=
  let normalized := NormalizePath pmType path in
  match pmType with
  | Maven => validateMavenPath normalized
  | Npm => validateNpmPath normalized
  | Apt => validateAptPath normalized
  | Pypi => validatePypiPath normalized
  | Registry => validateRegistryPath normalized
  | Yum | Apk | OtherPM _ => None
  end.

(** ** Components *)

Definition extractMavenComponents (path : string) : result path_err PathComponents :=
  let parts := Split (trim_char slash path) "/" in
  match rev parts with
  | filename :: version :: artifactId :: group =>
      let groupId := Join (rev group) "." in
      Ok (mkComponents (groupId +:+ (":" +:+ artifactId)) version (Ext filename) EmptyString
            (<[ "groupId" := groupId ]> (<[ "artifactId" := artifactId ]> {[ "filename" := filename ]})))
  | _ => Err (InvalidMavenPath path)
  end.

Definition extractNpmComponents (path : string) : result path_err PathComponents :=
  if HasPrefix path "/@" then
    match Split path "/" with
    | _ :: scope :: packageName :: _ =>
        Ok (mkComponents (scope +:+ ("/" +:+ packageName)) EmptyString EmptyString scope
              (<[ "scope" := scope ]> {[ "name" := packageName ]}))
    | _ => Err (InvalidNpmPath path)
    end
  else
    match Split (trim_char slash path) "/" with
    | name :: _ => Ok (mkComponents name EmptyString EmptyString EmptyString {[ "name" := name ]})
    | [] => Err (InvalidNpmPath path)
    end.

Definition ExtractComponents (pmType : PMType) (path : string) : result path_err PathComponents :=
  let normalized := NormalizePath pmType path in
  match pmType with
  | Maven => extractMavenComponents normalized
  | Npm => extractNpmComponents normalized
  | _ => Ok no_components
  end.

Example normalize_ex :
  NormalizePath Maven "/org//x/./y/../a-1.jar" = "/org/x/a-1.jar" ∧ NormalizePath Npm " /%40Corp%2FTool/X " = "/@corp/tool/X"
  ∧ NormalizePath Pypi "Simple/My_Pkg.x/" = "/simple/my-pkg-x/" ∧ NormalizePath Registry EmptyString = "/v2/"
  ∧ ValidatePath Npm "/left-pad/-/left-pad-1.0.tgz" = None ∧ ValidatePath Pypi "/packages/a/b.tar.gz" = None
  ∧ ValidatePath Registry "/v2/library/x/blobs/sha256:0a" = None ∧ ValidatePath Maven "/a" = Some (InvalidMavenFormat "/a").
Proof. vm_compute. repeat split. Qed.

(** ** Lemmas: rooted paths *)

Lemma clean_rooted_segments cs st :
  Forall (λ c, str_all (not_char slash) c = true) cs → Forall (λ c, segment c = true) st →
  Forall (λ c, segment c = true) (fold_left (clean_step true) cs st).
Proof.
  intros Hcs. revert st. induction Hcs as [|c cs Hc _ IH]; intros st H; [done|]. cbn [fold_left]. apply IH.
  unfold clean_step. destruct (String.eqb c EmptyString) eqn:E1, (String.eqb c ".") eqn:E2; cbn [orb]; try done.
  destruct (String.eqb c "..") eqn:E3.
  - destruct st as [|top st]; [done|]. apply Forall_cons_iff in H as [H1 H2].
    destruct (String.eqb_spec top ".."); [by subst|done].
  - apply Forall_cons_iff. split; [|done]. unfold segment. by rewrite E1, E2, E3, Hc.
Qed.

Lemma Clean_rooted p : rooted p = true → ∃ cs, Forall (λ c, segment c = true) cs ∧ Clean p = unsplit true cs.
Proof.
  intros Hr. exists (clean_comps p). unfold Clean. rewrite Hr. split; [|done].
  unfold clean_comps. rewrite Hr. apply Forall_rev, clean_rooted_segments; [apply Split_parts|constructor].
Qed.

Lemma collapse_name b w r : w ≠ EmptyString → str_all (not_char slash) w = true → collapse b (w +:+ r) = w +:+ collapse false r.
Proof.
  intros Hne. revert b. induction w as [|c w IH]; [done|]. intros b. cbn [str_all]. intros [Hc Hw]%andb_true_iff.
  rewrite !str_app_cons. cbn [collapse]. unfold not_char in Hc. apply negb_true_iff in Hc. rewrite Hc. f_equal.
  destruct w as [|d w]; [done|]. by apply IH.
Qed.

Lemma collapse_seps cs :
  Forall (λ c, c ≠ EmptyString ∧ str_all (not_char slash) c = true) cs → collapse false (seps slash cs) = seps slash cs.
Proof.
  induction 1 as [|c cs [Hne Hc] _ IH]; [done|]. cbn [seps]. rewrite str_app_cons. cbn [collapse].
  rewrite Ascii.eqb_refl, collapse_name, IH by done. done.
Qed.

Lemma segment_name c : segment c = true → c ≠ EmptyString ∧ str_all (not_char slash) c = true.
Proof. unfold segment. intros H. zbool. split; [by intros ->|done]. Qed.

Lemma collapse_unsplit cs : Forall (λ c, segment c = true) cs → collapse_slashes (unsplit true cs) = unsplit true cs.
Proof.
  intros H. destruct cs as [|c cs]; [done|].
  assert (unsplit true (c :: cs) = seps slash (c :: cs)) as -> by (unfold unsplit; by rewrite Join_seps).
  apply collapse_seps. eapply list.Forall_impl; [exact H|]. apply segment_name.
Qed.

Lemma normalize_segments p cs :
  Forall (λ c, segment c = true) cs → Clean p = unsplit true cs → normalizeGenericPath p = unsplit true cs.
Proof.
  intros H E. unfold normalizeGenericPath, with_slash. rewrite E. fold (rooted (unsplit true cs)).
  by rewrite rooted_unsplit, collapse_unsplit.
Qed.

(** The types whose paths are cleaned. *)
Definition cleans (pm : PMType) : bool := match pm with Npm | Pypi | Registry => false | _ => true end.

Lemma NormalizePath_cleans pm p : cleans pm = true → NormalizePath pm p = normalizeGenericPath p.
Proof. by destruct pm. Qed.

(** A path that starts with a slash is normalised, for every type but npm, pypi and
    registry, to a clean absolute path: names only, no "." or ".." among them, no empty
    ones; and normalising again changes nothing. *)
Theorem NormalizePath_rooted (pm : PMType) (path : string) (Hpm : cleans pm = true) (Hr : rooted path = true) :
  ∃ cs, Forall (λ c, segment c = true) cs ∧ NormalizePath pm path = unsplit true cs ∧
    NormalizePath pm (NormalizePath pm path) = NormalizePath pm path.
Proof.
  destruct (Clean_rooted path Hr) as (cs & Hcs & E). exists cs. rewrite !NormalizePath_cleans by done.
  assert (normalizeGenericPath path = unsplit true cs) as En by (by apply normalize_segments).
  split; [done|]. split; [done|]. rewrite En. by apply normalize_segments, Clean_unsplit.
Qed.

Lemma NormalizePath_rooted_witness :
  ∃ cs, Forall (λ c, segment c = true) cs ∧ NormalizePath Apt "/pool//main/../../../etc/./x" = unsplit true cs ∧
    NormalizePath Apt (NormalizePath Apt "/pool//main/../../../etc/./x") = NormalizePath Apt "/pool//main/../../../etc/./x".
Proof. apply NormalizePath_rooted; reflexivity. Defined.

(** *** Relative paths *)

Lemma clean_dotdots n cs :
  Forall (λ c, segment c = true) cs →
  rev (fold_left (clean_step false) (replicate n ".." ++ cs)%list []) = (replicate n ".." ++ cs)%list.
Proof.
  intros H. rewrite fold_left_app, clean_segments by done.
  assert (∀ k, fold_left (clean_step false) (replicate n "..") (replicate k "..") = replicate (n + k) "..") as Hn.
  { induction n as [|n IH]; intros k; [done|]. cbn [replicate fold_left].
    assert (clean_step false (replicate k "..") ".." = replicate (S k) "..") as -> by (by destruct k).
    rewrite IH. by rewrite Nat.add_succ_r. }
  pose proof (Hn 0%nat) as E. cbn [replicate] in E. rewrite E, Nat.add_0_r, rev_app_distr, rev_involutive.
  f_equal. clear. induction n as [|n IH]; [done|]. cbn [replicate rev]. rewrite IH.
  change [".."%string] with (replicate 1 ".."%string). by rewrite <- replicate_add, Nat.add_1_r.
Qed.

(** Of a relative path the leading ".." are kept under the slash that is put in front:
    for those types a path that climbs out by any number of levels is normalised to one
    that still does. *)
Theorem NormalizePath_climbs (pm : PMType) (n : nat) (cs : list string)
    (Hpm : cleans pm = true) (Hcs : Forall (λ c, segment c = true) cs) (Hn : (0 < n)%nat) :
  NormalizePath pm (Join (replicate n ".." ++ cs) "/") = String slash (Join (replicate n ".." ++ cs) "/").
Proof.
  rewrite NormalizePath_cleans by done. set (parts := (replicate n ".." ++ cs)%list).
  assert (Forall (λ c, c ≠ EmptyString ∧ str_all (not_char slash) c = true) parts) as Hp.
  { apply Forall_app. split; [by apply Forall_replicate|]. eapply list.Forall_impl; [exact Hcs|]. apply segment_name. }
  assert (parts ≠ []) as Hne by (by destruct n; [lia|]). destruct parts as [|p parts'] eqn:Ep; [done|].
  assert (p = "..") as -> by (destruct n; [lia|]; unfold parts in Ep; by injection Ep).
  assert (Clean (Join (".." :: parts') "/") = Join (".." :: parts') "/") as Ec.
  { assert (rooted (Join (".." :: parts') "/") = false) as Hr by (rewrite Join_seps, str_app_cons; apply HasPrefix_head).
    unfold Clean, clean_comps. rewrite Hr, Join_seps, Split_join.
    - rewrite <- Ep. unfold parts. rewrite clean_dotdots by done. fold parts. rewrite Ep. cbn [unsplit]. by rewrite Join_seps.
    - eapply list.Forall_impl; [exact Hp|]. by intros ? [_ ?]. }
  unfold normalizeGenericPath. rewrite Ec. unfold with_slash, collapse_slashes. rewrite Join_seps.
  assert (HasPrefix (".." +:+ seps "/" parts') "/" = false) as -> by (rewrite str_app_cons; apply HasPrefix_head).
  change (collapse false (seps slash (".." :: parts')) = seps slash (".." :: parts')). by apply collapse_seps.
Qed.

Lemma NormalizePath_climbs_witness :
  NormalizePath Maven "../../etc/passwd.conf" = "/../../etc/passwd.conf".
Proof.
  apply (NormalizePath_climbs Maven 2 ["etc"; "passwd.conf"]); [reflexivity|repeat constructor|lia].
Defined.

(** And the validation does not mind. *)
Example climbing_path_valid : ValidatePath Maven "../../etc/passwd.conf" = None.
Proof. vm_compute. reflexivity. Qed.

(** *** Maven coordinates *)

Lemma segment_path_part c : segment c = true → path_part c = true.
Proof. intros H. apply segment_name in H as [Hne Hs]. unfold path_part. change "/"%char with slash. rewrite Hs. by destruct (String.eqb_spec c EmptyString). Qed.

(** The components of a path in Maven's layout are its directories: the group with
    dots, the artifact, the version, and the extension of the file. *)
Theorem ExtractComponents_layout (group : list string) (artifact version file : string)
    (H : Forall (λ c, segment c = true) (group ++ [artifact; version; file])) :
  ExtractComponents Maven (unsplit true (group ++ [artifact; version; file]))
  = Ok (mkComponents (Join group "." +:+ (":" +:+ artifact)) version (from_last_dot file) EmptyString
          (<[ "groupId" := Join group "." ]> (<[ "artifactId" := artifact ]> {[ "filename" := file ]}))).
Proof.
  unfold ExtractComponents. rewrite NormalizePath_cleans by done.
  rewrite (normalize_segments _ (group ++ [artifact; version; file])) by (done || by apply Clean_unsplit).
  destruct (Split_slashes "/" (group ++ [artifact; version; file]) EmptyString) as (Et & _ & Es); try done.
  { by destruct group. }
  { eapply list.Forall_impl; [exact H|]. apply segment_path_part. }
  rewrite str_app_nil_r in Et. unfold extractMavenComponents.
  change (unsplit true (group ++ [artifact; version; file])) with ("/" +:+ Join (group ++ [artifact; version; file]) "/").
  unfold slash. rewrite Et, Es, rev_app_distr. cbn [rev app]. rewrite rev_involutive. do 2 f_equal.
  apply Forall_app in H as [_ H]. rewrite !Forall_cons_iff in H. destruct H as (_ & _ & Hf & _).
  unfold Ext. rewrite Split_none; [done|]. by apply segment_name.
Qed.

Lemma ExtractComponents_layout_witness :
  ExtractComponents Maven "/org/springframework/spring-core/5.3.21/spring-core-5.3.21.jar"
  = Ok (mkComponents "org.springframework:spring-core" "5.3.21" ".jar" EmptyString
          (<[ "groupId" := "org.springframework" ]> (<[ "artifactId" := "spring-core" ]> {[ "filename" := "spring-core-5.3.21.jar" ]}))).
Proof.
  apply (ExtractComponents_layout ["org"; "springframework"] "spring-core" "5.3.21" "spring-core-5.3.21.jar").
  repeat constructor.
Defined.
