(* ===== verification/PackageDrivers.v ===== *)
(** * PackageDrivers: what the package drivers share

    Models [errors.go], [signature.go] and [auth.go] of [src/internal/adapters/pm/common],
    the types of [src/internal/ports/pm.go], the interface of a driver as the class
    [PackageManagerDriver] with its laws [DriverLaws], and the steps that the seven
    [driver.go] have in common.  The network is a function from requests to responses. *)

From Stdlib Require Import Ascii.
From S2P Require Import Prelude GoStrings GoRegexp GoPath GoBase64 GoHashes GoUrl Normalizer.

(** ** common/errors.go *)

(** An error: a text, or one that was mapped. *)
Inductive goerror :=
| EText (text : string)
| EProxy (code message pmType : string) (status : Z) (retryable : bool) (cause : goerror).

Fixpoint error_text (e : goerror) : string :=
  match e with
  | EText text => text
  | EProxy code message _ _ _ cause => "[" +:+ (code +:+ ("] " +:+ (message +:+ (": " +:+ error_text cause))))
  end.

(** [errors.As(err, &proxyErr)]. *)
Definition is_proxy (e : goerror) : bool := match e with EProxy _ _ _ _ _ _ => true | EText _ => false end.

Definition any_of (texts : list string) (msg : string) : bool := existsb (Contains msg) texts.

(** The cases of [mapHTTPError], in their order: texts looked for, code, message,
    status, retryable. *)
Definition http_cases : list (list string * (string * string * Z * bool)) :=
  [(["401"; "unauthorized"], ("UNAUTHORIZED", "Authentication required", 401, false));
   (["403"; "forbidden"], ("FORBIDDEN", "Access forbidden", 403, false));
   (["404"; "not found"], ("NOT_FOUND", "Resource not found", 404, false));
   (["429"; "rate limit"], ("RATE_LIMITED", "Rate limit exceeded", 429, true));
   (["502"; "503"; "504"; "unavailable"], ("SERVICE_UNAVAILABLE", "Service temporarily unavailable", 503, true));
   (["timeout"], ("NETWORK_TIMEOUT", "Network timeout", 504, true))]%string.

Definition make_error (pmType : string) (c : string * string * Z * bool) (err : goerror) : goerror :=
  let '(code, message, status, retryable) := c in EProxy code message pmType status retryable err.

Definition pm_name (pm : PMType) : string :=
  match pm with
  | Maven => "maven" | Npm => "npm" | Apt => "apt" | Pypi => "pypi" | Yum => "yum" | Apk => "apk"
  | Registry => "registry" | OtherPM name => name
  end.

Definition mapHTTPError (pmType : PMType) (err : goerror) : option goerror :=
  let msg := to_lower (error_text err) in
  (λ c, make_error (pm_name pmType) c.2 err) <$> List.find (λ c, any_of c.1 msg) http_cases.

Definition mapGenericError (err : goerror) : goerror :=
  let msg := to_lower (error_text err) in
  if any_of ["connection refused"; "connection failed"] msg then
    EProxy "CONNECTION_FAILED" "Connection to upstream failed" "generic" 502 true err
  else if any_of ["no such host"; "dns"] msg then EProxy "DNS_RESOLUTION_FAILED" "DNS resolution failed" "generic" 502 true err
  else EProxy "UPSTREAM_ERROR" "Upstream error" "generic" 502 true err.

Definition mapMavenError (err : goerror) : goerror :=
  let msg := to_lower (error_text err) in
  if any_of ["invalid pom"; "malformed"] msg then EProxy "INVALID_FORMAT" "Invalid Maven POM format" "maven" 400 false err
  else if Contains msg "repository" && Contains msg "not configured" then
    EProxy "REPOSITORY_NOT_FOUND" "Maven repository not configured" "maven" 400 false err
  else mapGenericError err.

Definition mapNpmError (err : goerror) : goerror :=
  let msg := to_lower (error_text err) in
  if Contains msg "package.json" && Contains msg "invalid" then
    EProxy "INVALID_FORMAT" "Invalid package.json format" "npm" 400 false err
  else if Contains msg "registry" && Contains msg "not configured" then
    EProxy "REPOSITORY_NOT_FOUND" "NPM registry not configured" "npm" 400 false err
  else mapGenericError err.

Definition mapAptError (err : goerror) : goerror :=
  let msg := to_lower (error_text err) in
  if Contains msg "release" && Contains msg "invalid" then EProxy "INVALID_FORMAT" "Invalid APT Release file" "apt" 400 false err
  else mapGenericError err.

Definition mapRegistryError (err : goerror) : goerror :=
  let msg := to_lower (error_text err) in
  if Contains msg "manifest" && Contains msg "invalid" then EProxy "INVALID_FORMAT" "Invalid Docker manifest" "registry" 400 false err
  else mapGenericError err.

Definition MapError (pmType : PMType) (err : goerror) : goerror :=
  if is_proxy err then err
  else
    match mapHTTPError pmType err with
    | Some e => e
    | None =>
        match pmType with
        | Maven => mapMavenError err
        | Npm => mapNpmError err
        | Apt => mapAptError err
        | Registry => mapRegistryError err
        | Pypi | Yum | Apk | OtherPM _ => mapGenericError err
        end
    end.

Definition IsRetryableError (err : goerror) : bool :=
  match err with
  | EProxy _ _ _ _ retryable _ => retryable
  | EText text =>
      any_of ["timeout"; "connection refused"; "network"; "temporary"; "unavailable"; "rate limit"; "too many requests";
              "502"; "503"; "504"] (to_lower text)
  end.

Definition IsNotFoundError (err : goerror) : bool :=
  match err with
  | EProxy code _ _ _ _ _ => String.eqb code "NOT_FOUND"
  | EText text => any_of ["not found"; "404"; "no such"; "does not exist"; "missing"] (to_lower text)
  end.

Definition IsForbiddenError (err : goerror) : bool :=
  match err with
  | EProxy code _ _ _ _ _ => String.eqb code "FORBIDDEN" || String.eqb code "UNAUTHORIZED"
  | EText text => any_of ["forbidden"; "unauthorized"; "access denied"; "401"; "403"; "permission denied"] (to_lower text)
  end.

(** ** common/signature.go *)

Inductive hash_type := MD5 | SHA1 | SHA256 | SHA512.

Definition hash_hex (h : hash_type) (content : string) : string :=
  match h with MD5 => md5_hex content | SHA1 => sha1_hex content | SHA256 => sha256_hex content | SHA512 => sha512_hex content end.

Inductive sig_err :=
| HashMismatch (h : hash_type) | NotImplemented (what : string) | UnknownSignatureFormat | UnknownSignatureLength
| InvalidSRI | UnsupportedSRI | SRIMismatch
| InvalidSignatureFormat | InvalidDigestFormat | InvalidDigestLength | DigestMismatch | UnsupportedSignatureFormat.

Definition verifyHashSignature (content expectedHash : string) (h : hash_type) : option sig_err :=
  if String.eqb (hash_hex h content) expectedHash then None else Some (HashMismatch h).

Definition verifyPGPSignature (content signature : string) : option sig_err := Some (NotImplemented "pgp").

Definition verifyMavenSignature (content signature : string) : option sig_err :=
  let text := TrimSpace signature in
  let n := String.length text in
  if (n =? 32)%nat then verifyHashSignature content text MD5
  else if (n =? 40)%nat then verifyHashSignature content text SHA1
  else if (n =? 64)%nat then verifyHashSignature content text SHA256
  else if (n =? 128)%nat then verifyHashSignature content text SHA512
  else verifyPGPSignature content signature.

Definition verifyNpmSignature (content signature : string) : option sig_err :=
  let text := TrimSpace signature in
  if HasPrefix text "sha512-" then Some (NotImplemented "sha512 base64")
  else if HasPrefix text "sha1-" then verifyHashSignature content (TrimPrefix text "sha1-") SHA1
  else verifyHashSignature content text SHA1.

Definition verifyPypiSignature (content signature : string) : option sig_err :=
  let text := TrimSpace signature in
  let n := String.length text in
  if (n =? 32)%nat then verifyHashSignature content text MD5
  else if (n =? 64)%nat then verifyHashSignature content text SHA256
  else verifyPGPSignature content signature.

Definition verifyGenericSignature (content signature : string) : option sig_err :=
  let text := TrimSpace signature in
  let n := String.length text in
  if (n =? 32)%nat then verifyHashSignature content text MD5
  else if (n =? 40)%nat then verifyHashSignature content text SHA1
  else if (n =? 64)%nat then verifyHashSignature content text SHA256
  else if (n =? 128)%nat then verifyHashSignature content text SHA512
  else Some UnknownSignatureFormat.

Definition VerifySignature (pmType : PMType) (content signature : string) : option sig_err :=
  match pmType with
  | Maven => verifyMavenSignature content signature
  | Npm => verifyNpmSignature content signature
  | Apt | Yum => verifyPGPSignature content signature
  | Pypi => verifyPypiSignature content signature
  | Apk => Some (NotImplemented "apk")
  | Registry => Some (NotImplemented "docker")
  | OtherPM _ => verifyGenericSignature content signature
  end.

Definition GenerateSignature (pmType : PMType) (content : string) : string :=
  match pmType with
  | Maven => sha1_hex content
  | Npm => "sha1-" +:+ sha1_hex content
  | Registry => "sha256:" +:+ sha256_hex content
  | Apt | Pypi | Yum | Apk | OtherPM _ => sha256_hex content
  end.

(** Hexadecimal digests in either case, by their length. *)
Definition ValidateHashSignature (content signature : string) : option sig_err :=
  let text := to_lower (TrimSpace signature) in
  let check h := if String.eqb (hash_hex h content) text then None else Some (HashMismatch h) in
  let n := String.length text in
  if (n =? 32)%nat then check MD5
  else if (n =? 40)%nat then check SHA1
  else if (n =? 64)%nat then check SHA256
  else if (n =? 128)%nat then check SHA512
  else Some UnknownSignatureLength.

(** ** common/auth.go *)

Record AuthConfig := mkAuth { au_Type : string; au_Username : string; au_Password : string; au_Token : string }.

Definition EncodeBasicAuth (username password : string) : string :=
  EncodeToString StdEncoding (username +:+ (":" +:+ password)).

Definition nonempty (s : string) : bool := negb (String.eqb s EmptyString).

Definition ApplyAuthentication (headers : gmap string string) (auth : option AuthConfig) : gmap string string :=
  match auth with
  | None => headers
  | Some a =>
      if String.eqb (au_Type a) "basic" then
        if nonempty (au_Username a) && nonempty (au_Password a)
        then <[ "Authorization" := "Basic " +:+ EncodeBasicAuth (au_Username a) (au_Password a) ]> headers else headers
      else if String.eqb (au_Type a) "bearer" || String.eqb (au_Type a) "token" then
        if nonempty (au_Token a) then <[ "Authorization" := "Bearer " +:+ au_Token a ]> headers else headers
      else if String.eqb (au_Type a) "digest" then
        if nonempty (au_Username a) then <[ "X-Auth-Username" := au_Username a ]> headers else headers
      else headers
  end.

(** ** ports/pm.go: requests, responses and the interface of a driver *)

Record DriverRequest := mkRequest {
  rq_Path : string; rq_Method : string; rq_Headers : gmap string string; rq_QueryParams : gmap string string;
  rq_RemoteAddr : string; rq_UserAgent : string; rq_Repository : string; rq_Authentication : option AuthConfig
}.

(** A body is its content. *)
Record ProxyHTTPResponse := mkHTTPResponse {
  hr_Body : string; hr_StatusCode : Z; hr_Headers : gmap string string; hr_Size : Z
}.

Record PackageMetadata := mkMetadata {
  pm_Name : string; pm_Version : string; pm_Description : string; pm_License : string; pm_Author : string;
  pm_Homepage : string; pm_Dependencies : list string; pm_Keywords : list string;
  pm_Attributes : gmap string string; pm_CreatedAt : instant; pm_UpdatedAt : instant
}.

Record DriverResponse := mkResponse {
  dr_Content : string; dr_ContentType : string; dr_Size : Z; dr_Headers : gmap string string; dr_StatusCode : Z;
  dr_Checksum : string; dr_LastModified : instant; dr_Metadata : option PackageMetadata
}.

(** What a driver is given besides its configuration; each may be missing. *)
Record Ports := mkPorts {
  normalizer : option (PMType → string → string * option goerror);
  verifier : option (PMType → string → string → option sig_err);
  errorMapper : option (PMType → goerror → goerror)
}.

Definition common_ports : Ports :=
  mkPorts (Some (λ pm path, (NormalizePath pm path, None))) (Some VerifySignature) (Some MapError).
Definition no_ports : Ports := mkPorts None None None.

Definition map_error (p : Ports) (pm : PMType) (err : goerror) : goerror :=
  match errorMapper p with Some f => f pm err | None => err end.

(** [regexp.MatchString] for some of the patterns. *)
Definition any_match (patterns : list re) (path : string) : bool := existsb (λ r, matches r path) patterns.

(** What may follow a pattern without a dollar. *)
Definition RRest : re := RStar (RChar (λ _, true)).

Definition trim_right_char (c : ascii) (s : string) : string := String.rev (trim_left_char c (String.rev s)).

Definition upstream_url (base path : string) : string :=
  trim_right_char slash base +:+ ("/" +:+ trim_left_char slash path).

(** An upstream of a driver: where it is, whether it may be used, with which credentials. *)
Record source := mkSource { so_URL : string; so_Enabled : bool; so_Auth : option AuthConfig }.

Definition quoted (before name after : string) : goerror := EText (before +:+ (" '" +:+ (name +:+ ("' " +:+ after)))).

Definition source_url (what name : string) (s : option source) (path : string) : result goerror string :=
  match s with
  | None => Err (quoted what name "not configured")
  | Some s => if so_Enabled s then Ok (upstream_url (so_URL s) path) else Err (quoted what name "is disabled")
  end.

Definition default_name (name fallback : string) : string := if nonempty name then name else fallback.

(** [pm:source:path] with the slashes of the path replaced. *)
Definition cache_key (pm name normalizedPath : string) : string :=
  pm +:+ (":" +:+ (name +:+ (":" +:+ ReplaceAll normalizedPath "/" "_"))).

(** Maps are iterated to find the first source that is not as it should be. *)
Definition first_bad {A} (bad : A → bool) (order : list (string * A)) : option string :=
  fst <$> List.find (λ e, bad e.2) order.

Definition validate_sources {A} (pm none bad_before bad_after : string) (enabled : bool) (bad : A → bool)
    (order : list (string * A)) : option goerror :=
  if negb enabled then Some (EText (pm +:+ " driver is disabled"))
  else match order with
       | [] => Some (EText none)
       | _ => match first_bad bad order with Some name => Some (quoted bad_before name bad_after) | None => None end
       end.

(** A request sent to an upstream: the URL and the headers. *)
Abbreviation sent := (string * gmap string string)%type.

Section fetch.
Context (get : sent → result goerror ProxyHTTPResponse) (p : Ports) (pm : PMType).

(** The second half of every [FetchPackage]: the request, then the response. *)
Definition fetch_with (contentType : gmap string string → string) (now : instant) (url : string)
    (headers : gmap string string) : list sent * result goerror DriverResponse :=
  ([(url, headers)],
   match get (url, headers) with
   | Err e => Err (map_error p pm e)
   | Ok r => Ok (mkResponse (hr_Body r) (contentType (hr_Headers r)) (hr_Size r) (hr_Headers r) (hr_StatusCode r)
                   EmptyString now None)
   end).
End fetch.

Definition day : duration := 24 * hour.
Definition week : duration := 7 * 24 * hour.

(** ** What the parsers of metadata share *)

(** The text between the first [open] and the next [close]. *)
Definition between (open close s : string) : option string :=
  match cut_at open s with Some (_, r) => fst <$> cut_at close r | None => None end.

Definition element (tag : string) : string → option string :=
  between ("<" +:+ (tag +:+ ">")) ("</" +:+ (tag +:+ ">")).

Definition line_feed : ascii := "010".
Definition quote_char : ascii := "034".

(** A fresh record; the clock is read twice. *)
Definition new_metadata (name version description : string) (attributes : gmap string string) (clock : instant * instant) :
    PackageMetadata :=
  mkMetadata name version description EmptyString EmptyString EmptyString [] [] attributes clock.1 clock.2.

Definition set_version (v : string) (x : PackageMetadata) : PackageMetadata :=
  mkMetadata (pm_Name x) v (pm_Description x) (pm_License x) (pm_Author x) (pm_Homepage x) (pm_Dependencies x)
    (pm_Keywords x) (pm_Attributes x) (pm_CreatedAt x) (pm_UpdatedAt x).
Definition set_attribute (k v : string) (x : PackageMetadata) : PackageMetadata :=
  mkMetadata (pm_Name x) (pm_Version x) (pm_Description x) (pm_License x) (pm_Author x) (pm_Homepage x) (pm_Dependencies x)
    (pm_Keywords x) (<[k := v]> (pm_Attributes x)) (pm_CreatedAt x) (pm_UpdatedAt x).

(** The attribute, when there is a value for it. *)
Definition opt_attribute (k : string) (v : option string) (m : gmap string string) : gmap string string :=
  match v with Some v => <[k := v]> m | None => m end.

(** The first line that starts with [head], then a line among the next [window - 1]
    that starts with [version]. *)
Fixpoint first_entry (head version : string) (window : nat) (lines : list string) : option (string * option string) :=
  match lines with
  | [] => None
  | l :: rest =>
      if HasPrefix l head then
        Some (TrimPrefix l head,
              (λ v, TrimPrefix v version) <$> List.find (λ v, HasPrefix v version) (take (window - 1) rest))
      else first_entry head version window rest
  end.

(** [headers["Accept"] = ...], where the driver chooses one. *)
Definition set_accept (accept : option string) (headers : gmap string string) : gmap string string :=
  match accept with Some v => <[ "Accept" := v ]> headers | None => headers end.

(** The marks of a text that is taken for a signature when there is no verifier. *)
Definition contains_pgp (signature : string) : bool := Contains signature "BEGIN PGP SIGNATURE".

(** The fallback of the drivers whose signatures are PGP texts. *)
Definition pgp_or_hash (lengths : list nat) (content signature : string) : option sig_err :=
  if String.eqb signature EmptyString then None
  else if negb (contains_pgp signature) then
    if existsb (Nat.eqb (String.length signature)) lengths then ValidateHashSignature content signature
    else Some InvalidSignatureFormat
  else None.

(** The interface [PackageManagerDriver]; a fetch also tells which requests it sent. *)
Class PackageManagerDriver (D : Type) := {
  drv_Type : D → PMType;
  drv_NormalizePath : D → string → string * option goerror;
  drv_BuildUpstreamURL : D → DriverRequest → result goerror string;
  drv_FetchPackage : D → (sent → result goerror ProxyHTTPResponse) → instant → DriverRequest →
    list sent * result goerror DriverResponse;
  drv_ValidateSignature : D → string → string → option sig_err;
  drv_GetCacheKey : D → DriverRequest → string;
  drv_ShouldCache : D → DriverResponse → bool;
  drv_ports : D → Ports;
  drv_source_name : D → DriverRequest → string;
  drv_sources : D → gmap string source
}.

(** What every driver keeps to. *)
Class DriverLaws (D : Type) {PD : PackageManagerDriver D} : Prop := {
  law_url d req url : drv_BuildUpstreamURL d req = Ok url →
    ∃ s rest, drv_sources d !! drv_source_name d req = Some s ∧ so_Enabled s = true ∧
      url = trim_right_char slash (so_URL s) +:+ String slash rest;
  law_refused d get now req e : drv_BuildUpstreamURL d req = Err e →
    drv_FetchPackage d get now req = ([], Err (map_error (drv_ports d) (drv_Type d) e));
  law_sent d get now req url s : drv_BuildUpstreamURL d req = Ok url → drv_sources d !! drv_source_name d req = Some s →
    ∃ own ct, own !! "Authorization" = None ∧
      drv_FetchPackage d get now req =
        fetch_with get (drv_ports d) (drv_Type d) ct now url (ApplyAuthentication (own ∪ rq_Headers req) (so_Auth s));
  law_key d req :
    drv_GetCacheKey d req =
      cache_key (pm_name (drv_Type d)) (drv_source_name d req) (drv_NormalizePath d (rq_Path req)).1;
  law_errors d resp : 400 <= dr_StatusCode resp → drv_ShouldCache d resp = false
}.

(** ** Helper lemmas *)

Lemma source_url_ok what name s path url :
  source_url what name s path = Ok url →
  ∃ s', s = Some s' ∧ so_Enabled s' = true ∧ url = upstream_url (so_URL s') path.
Proof. unfold source_url. destruct s as [s|]; [|done]. destruct (so_Enabled s) eqn:E; [|done]. intros [= <-]. eauto. Qed.

(** [strings.ReplaceAll] of one byte by another. *)
Lemma ReplaceAll_char c d s :
  ReplaceAll s (String c EmptyString) (String d EmptyString) =
  String.string_of_list_ascii ((λ a, if Ascii.eqb a c then d else a) <$> String.list_ascii_of_string s).
Proof.
  unfold ReplaceAll. induction s as [|a s IH]; [done|]. cbn. rewrite <- IH.
  destruct (ascii_dec c a) as [->|n]; [rewrite Ascii.eqb_refl; by destruct s|].
  by rewrite (proj2 (Ascii.eqb_neq a c)) by congruence.
Qed.

Lemma ReplaceAll_char_inj c d s t :
  str_all (not_char d) s = true → str_all (not_char d) t = true →
  ReplaceAll s (String c EmptyString) (String d EmptyString) = ReplaceAll t (String c EmptyString) (String d EmptyString) →
  s = t.
Proof.
  rewrite !ReplaceAll_char. revert t.
  induction s as [|a s IH]; intros [|b t]; cbn; try done.
  intros [Ha Hs]%andb_true_iff [Hb Ht]%andb_true_iff [= E1 E2]. f_equal; [|by apply IH].
  unfold not_char in Ha, Hb. rewrite negb_true_iff, Ascii.eqb_neq in Ha, Hb.
  destruct (Ascii.eqb_spec a c), (Ascii.eqb_spec b c); congruence.
Qed.

Lemma cache_key_inj pm n n' p p' :
  str_all (not_char ":") n = true → str_all (not_char ":") n' = true →
  cache_key pm n p = cache_key pm n' p' → n = n' ∧ ReplaceAll p "/" "_" = ReplaceAll p' "/" "_".
Proof.
  intros Hn Hn' E. unfold cache_key in E. apply (inj (String.append pm)) in E. cbn in E. injection E as E.
  by apply (cut_same ":").
Qed.

Lemma default_name_some n d : n ≠ EmptyString → default_name n d = n.
Proof. unfold default_name, nonempty. by destruct n. Qed.

(** The header that the credentials of a source make. *)
Definition credentials (auth : option AuthConfig) : option string := ApplyAuthentication ∅ auth !! "Authorization".

Lemma ApplyAuthentication_header h auth :
  ApplyAuthentication h auth !! "Authorization" = credentials auth ∪ (h !! "Authorization").
Proof.
  unfold credentials, ApplyAuthentication. destruct auth as [a|]; [|rewrite lookup_empty; by destruct (h !! _)].
  assert (∀ (b : bool) k v, (if b then <[k:=v]> h else h) !! "Authorization" =
     ((if b then <[k:=v]> ∅ else ∅ : gmap string string) !! "Authorization") ∪ (h !! "Authorization")) as Hb.
  { intros [] k v; [|rewrite lookup_empty; by destruct (h !! _)].
    destruct (decide (k = "Authorization"%string)) as [->|?]; simplify_map_eq; [by destruct (h !! _)|].
    by destruct (h !! _). }
  destruct (String.eqb (au_Type a) "basic"); [apply Hb|].
  destruct (String.eqb (au_Type a) "bearer" || String.eqb (au_Type a) "token"); [apply Hb|].
  destruct (String.eqb (au_Type a) "digest"); [apply Hb|]. rewrite lookup_empty. by destruct (h !! _).
Qed.

Lemma between_skip c o close w t :
  str_all (not_char c) w = true → String.prefix o t = false →
  between (String c o) close (w +:+ String c t) = between (String c o) close t.
Proof.
  intros Hw Ht. unfold between. induction w as [|d w IH].
  - change (EmptyString +:+ String c t) with (String c t). cbn [cut_at String.prefix].
    destruct (ascii_dec c c); [|done]. rewrite Ht. by destruct (cut_at _ t) as [[? ?]|].
  - cbn [str_all] in Hw. apply andb_true_iff in Hw as [Hd Hw]. rewrite <- (IH Hw). rewrite str_app_cons. cbn [cut_at String.prefix].
    unfold not_char in Hd. apply negb_true_iff, Ascii.eqb_neq in Hd. destruct (ascii_dec c d); [by subst|].
    by destruct (cut_at _ (w +:+ _)) as [[? ?]|].
Qed.

Lemma between_here c o c' close w x rest :
  str_all (not_char c) w = true → str_all (not_char c') x = true →
  between (String c o) (String c' close) (w +:+ (String c o +:+ (x +:+ (String c' close +:+ rest)))) = Some x.
Proof. intros Hw Hx. unfold between. by rewrite cut_at_first, cut_at_first by done. Qed.

(** For the laws of the drivers. *)
Lemma source_url_rest what name s path url :
  source_url what name s path = Ok url →
  ∃ s' rest, s = Some s' ∧ so_Enabled s' = true ∧ url = trim_right_char slash (so_URL s') +:+ String slash rest.
Proof. intros (s' & -> & He & ->)%source_url_ok. eexists s', _. done. Qed.

Lemma set_accept_own a v (h : gmap string string) :
  set_accept a (<[ "User-Agent" := v ]> h) = set_accept a (<[ "User-Agent" := v ]> ∅) ∪ h.
Proof. destruct a; cbn; by rewrite <- !insert_union_l, (left_id_L ∅ (∪)). Qed.

Lemma set_accept_no_auth a v : set_accept a (<[ "User-Agent" := v ]> ∅) !! "Authorization" = None.
Proof. by destruct a. Qed.

(** The laws of a driver with the given [FetchPackage] and [ShouldCache], of which the
    third, what is sent, is left open up to the choice of the source. *)
Ltac driver_laws fetch should_cache :=
  split;
  [ intros d req url; cbn; rewrite lookup_fmap; by apply source_url_rest
  | intros d get now req e E; cbn in *; unfold fetch; by rewrite E
  | intros d get now req url s E Hs; cbn in *; unfold fetch; rewrite E; rewrite lookup_fmap in Hs;
    destruct (_ !! _) as [r|]; [|done]; injection Hs as <-; eexists _, _; split; cycle 1
  | done
  | intros d resp H; cbn; unfold should_cache; by rewrite (proj2 (Z.leb_le _ _) H) ].

Lemma between_cons open close c s :
  String.prefix open (String c s) = false → between open close (String c s) = between open close s.
Proof. intros H. unfold between. cbn [cut_at]. rewrite H. by destruct (cut_at open s) as [[? ?]|]. Qed.

Lemma str_app_nil_l s : EmptyString +:+ s = s.
Proof. done. Qed.

(** Walks over literal text and over values without the byte the tag starts with. *)
Ltac walk_between :=
  rewrite ?str_app_cons, ?str_app_nil_l;
  repeat first [ rewrite between_cons by reflexivity
               | match goal with
                 | H : str_all (not_char ?c) ?w = true |- context [between (String ?c ?o) ?cl (?w +:+ String ?c ?t)] =>
                     rewrite (between_skip c o cl w t H) by reflexivity
                 end ].
