(* ===== verification/MavenDriver.v ===== *)
(** * MavenDriver: the driver of Maven repositories

    Models [src/internal/adapters/pm/maven/driver.go].  [ValidateConfig] iterates a map;
    its order is an argument. *)

From Stdlib Require Import Ascii.
From S2P Require Import Prelude GoStrings GoRegexp GoPath GoHashes GoUrl Normalizer PackageDrivers.

Record SnapshotPolicy := mkSnapshot { sn_Enabled : bool; sn_UpdatePolicy : string; sn_ChecksumPolicy : string }.

Record RepositoryConfig := mkRepository {
  re_Name : string; re_URL : string; re_Enabled : bool; re_Auth : option AuthConfig; re_LayoutType : string;
  re_SnapshotPolicy : option SnapshotPolicy
}.

Record Config := mkConfig {
  cf_Enabled : bool; cf_Repositories : gmap string RepositoryConfig; cf_CacheTTL : duration; cf_Timeout : duration
}.

Record Driver := mkDriver { config : Config; ports : Ports }.

Definition NewDriver (c : option Config) (p : Ports) : Driver :=
  mkDriver (default (mkConfig false ∅ (24 * hour) (30 * second)) c) p.

(** [^/[^/]+(/[^/]+)*/.+\..+$] *)
Definition IsSupported (d : Driver) (path : string) : bool :=
  any_match [RSeq [RText "/"; RName; RStar (RCat (RText "/") RName); RText "/"; RPlus RAny; RText "."; RPlus RAny]] path.

Definition NormalizePath (d : Driver) (path : string) : string * option goerror :=
  match normalizer (ports d) with Some f => f Maven path | None => (with_slash (Clean path), None) end.

Definition repository_of (req : DriverRequest) : string := default_name (rq_Repository req) "central".

Definition as_source (r : RepositoryConfig) : source := mkSource (re_URL r) (re_Enabled r) (re_Auth r).

Definition BuildUpstreamURL (d : Driver) (req : DriverRequest) : result goerror string :=
  let repository := repository_of req in
  source_url "repository" repository (as_source <$> cf_Repositories (config d) !! repository) (rq_Path req).

Definition mapError (d : Driver) (err : goerror) : goerror := map_error (ports d) Maven err.

Definition getContentType (path : string) : string :=
  let ext := to_lower (Ext path) in
  if String.eqb ext ".pom" then "application/xml"
  else if String.eqb ext ".jar" || String.eqb ext ".war" || String.eqb ext ".ear" then "application/java-archive"
  else if String.eqb ext ".xml" then "application/xml"
  else if String.eqb ext ".md5" || String.eqb ext ".sha1" || String.eqb ext ".sha256" || String.eqb ext ".sha512"
  then "text/plain"
  else if String.eqb ext ".asc" then "application/pgp-signature"
  else "application/octet-stream".

Definition FetchPackage (d : Driver) (get : sent → result goerror ProxyHTTPResponse) (now : instant) (req : DriverRequest) :
    list sent * result goerror DriverResponse :=
  match BuildUpstreamURL d req with
  | Err e => ([], Err (mapError d e))
  | Ok url =>
      let headers := set_accept (Some "*/*"%string) (<[ "User-Agent" := "ProxyND/1.0 Maven-Proxy" ]> (rq_Headers req)) in
      let headers :=
        match cf_Repositories (config d) !! repository_of req with
        | Some r => ApplyAuthentication headers (re_Auth r)
        | None => headers
        end in
      fetch_with get (ports d) Maven (λ _, getContentType (rq_Path req)) now url headers
  end.

(** ** Metadata *)

Definition parseMavenMetadataXML (clock : instant * instant) (content : string) : PackageMetadata :=
  new_metadata (default "maven-metadata" (element "artifactId" content))
    (match cut_at "<release>" content with
     | Some _ => default EmptyString (element "release" content)
     | None => default EmptyString (element "latest" content)
     end)
    "Maven repository metadata" (opt_attribute "group_id" (element "groupId" content) ∅) clock.

Definition parsePOMXML (clock : instant * instant) (content : string) : PackageMetadata :=
  new_metadata (default "unknown" (element "artifactId" content)) (default EmptyString (element "version" content))
    (default "Maven POM" (element "description" content)) (opt_attribute "group_id" (element "groupId" content) ∅) clock.

(** Two bytes are compared with a text of two: a text longer than four that starts with PK. *)
Definition ParseMetadata (clock : instant * instant) (content : string) : PackageMetadata :=
  if Contains content "<metadata" && Contains content "<groupId>" then parseMavenMetadataXML clock content
  else if Contains content "<project" && Contains content "<artifactId>" then parsePOMXML clock content
  else if (4 <? String.length content)%nat && String.eqb (take_bytes 2 content) "PK" then
    new_metadata "java-archive" EmptyString "Java JAR/WAR/EAR package" ∅ clock
  else new_metadata "unknown" EmptyString "Maven metadata" ∅ clock.

(** ** Signatures and caching *)

Definition ValidateSignature (d : Driver) (content signature : string) : option sig_err :=
  match verifier (ports d) with
  | Some f => f Maven content signature
  | None =>
      if String.eqb signature EmptyString then None
      else if contains_pgp signature then None
      else ValidateHashSignature content signature
  end.

Definition GetCacheKey (d : Driver) (req : DriverRequest) : string :=
  cache_key "maven" (repository_of req) (NormalizePath d (rq_Path req)).1.

Definition content_type_header (resp : DriverResponse) : string := default EmptyString (dr_Headers resp !! "Content-Type").

Definition ShouldCache (d : Driver) (resp : DriverResponse) : bool :=
  if 400 <=? dr_StatusCode resp then false
  else if Contains (content_type_header resp) "SNAPSHOT" then false else true.

Definition GetCacheTTL (d : Driver) (resp : DriverResponse) : duration :=
  if Contains (content_type_header resp) "SNAPSHOT" then 1 * hour else cf_CacheTTL (config d).

(** The configuration of a driver is never nil. *)
Definition ValidateConfig (d : Driver) (order : list (string * RepositoryConfig)) : option goerror :=
  validate_sources "maven" "no maven repositories configured" "repository" "has empty URL" (cf_Enabled (config d))
    (λ r, String.eqb (re_URL r) EmptyString) order.

(** ** The interface *)

#[export] Instance maven_driver : PackageManagerDriver Driver := {
  drv_Type _ := Maven;
  drv_NormalizePath := NormalizePath;
  drv_BuildUpstreamURL := BuildUpstreamURL;
  drv_FetchPackage := FetchPackage;
  drv_ValidateSignature := ValidateSignature;
  drv_GetCacheKey := GetCacheKey;
  drv_ShouldCache := ShouldCache;
  drv_ports := ports;
  drv_source_name _ := repository_of;
  drv_sources d := as_source <$> cf_Repositories (config d)
}.

#[export] Instance maven_laws : DriverLaws Driver.
Proof. driver_laws FetchPackage ShouldCache; [by rewrite set_accept_own|apply set_accept_no_auth]. Qed.

(** ** What a POM says *)

Definition no_tag (s : string) : Prop := str_all (not_char "<") s = true.

Definition coordinates (g a v : string) : string :=
  "<groupId>" +:+ (g +:+ ("</groupId><artifactId>" +:+ (a +:+ ("</artifactId><version>" +:+ (v +:+ "</version>"))))).

Lemma element_groupId before g a v rest :
  before = "<project>"%string ∨ before = "<project><parent>"%string → no_tag g →
  element "groupId" (before +:+ (coordinates g a v +:+ rest)) = Some g.
Proof.
  intros Hb Hg. unfold element, coordinates. rewrite !str_app_assoc.
  destruct Hb as [-> | ->]; walk_between; by apply (between_here "<" "groupId>" "<" "/groupId>" EmptyString).
Qed.

Lemma element_artifactId before g a v rest :
  before = "<project>"%string ∨ before = "<project><parent>"%string → no_tag g → no_tag a →
  element "artifactId" (before +:+ (coordinates g a v +:+ rest)) = Some a.
Proof.
  intros Hb Hg Ha. unfold element, coordinates. rewrite !str_app_assoc.
  destruct Hb as [-> | ->]; unfold no_tag in *; walk_between;
    by apply (between_here "<" "artifactId>" "<" "/artifactId>" EmptyString).
Qed.

Lemma element_version before g a v rest :
  before = "<project>"%string ∨ before = "<project><parent>"%string → no_tag g → no_tag a → no_tag v →
  element "version" (before +:+ (coordinates g a v +:+ rest)) = Some v.
Proof.
  intros Hb Hg Ha Hv. unfold element, coordinates. rewrite !str_app_assoc.
  destruct Hb as [-> | ->]; unfold no_tag in *; walk_between;
    by apply (between_here "<" "version>" "<" "/version>" EmptyString).
Qed.

(** The coordinates read from a POM are the first ones it has: its own when it starts
    with them, but those of its parent when it starts with a parent block, as the POM of
    every module of a multi-module build does, whatever the rest says. *)
Theorem parsePOM_first_coordinates (before g a v rest : string) clock
    (Hb : before = "<project>"%string ∨ before = "<project><parent>"%string)
    (Hg : no_tag g) (Ha : no_tag a) (Hv : no_tag v) :
  let x := parsePOMXML clock (before +:+ (coordinates g a v +:+ rest)) in
  pm_Name x = a ∧ pm_Version x = v ∧ pm_Attributes x !! "group_id" = Some g.
Proof.
  unfold parsePOMXML. rewrite element_artifactId, element_version, element_groupId by done. cbn.
  by rewrite lookup_insert, decide_True by done.
Qed.

(** The module's own name and version are lost. *)
Lemma parsePOM_first_coordinates_witness :
  let x := parsePOMXML (0, 0) ("<project><parent>" +:+ (coordinates "org.acme" "acme-parent" "7" +:+
             "</parent><artifactId>acme-core</artifactId><version>1.2.3</version></project>")) in
  pm_Name x = "acme-parent"%string ∧ pm_Version x = "7"%string ∧ pm_Attributes x !! "group_id" = Some "org.acme"%string.
Proof. apply (parsePOM_first_coordinates "<project><parent>"); [by right|done..]. Defined.
