(* ===== verification/NpmDriver.v ===== *)
(** * NpmDriver: the driver of npm registries

    Models [src/internal/adapters/pm/npm/driver.go], except [ParseMetadata], which is the
    decoding of JSON. *)

From Stdlib Require Import Ascii.
From S2P Require Import Prelude GoStrings GoRegexp GoPath GoBase64 GoHashes GoUrl Normalizer PackageDrivers.

Record RegistryConfig := mkRegistry {
  rg_Name : string; rg_URL : string; rg_Enabled : bool; rg_Auth : option AuthConfig; rg_Token : string; rg_AlwaysAuth : bool
}.

Record Config := mkConfig {
  cf_Enabled : bool; cf_Registries : gmap string RegistryConfig; cf_CacheTTL : duration; cf_Timeout : duration;
  cf_Scopes : gmap string string
}.

Record Driver := mkDriver { config : Config; ports : Ports }.

Definition NewDriver (c : option Config) (p : Ports) : Driver :=
  mkDriver (default (mkConfig false ∅ (6 * hour) (30 * second) ∅) c) p.

Definition patterns : list re :=
  [scopedPattern; regularPattern; tarballPattern; scopedTarballPattern; RSeq [RText "/"; RName; RText "/"; RName]].

Definition IsSupported (d : Driver) (path : string) : bool := any_match patterns path.

Definition NormalizePath (d : Driver) (path : string) : string * option goerror :=
  match normalizer (ports d) with
  | Some f => f Npm path
  | None => (ReplaceAll (ReplaceAll (with_slash (TrimSpace path)) "%40" "@") "%2F" "/", None)
  end.

Definition getRegistryForPath (d : Driver) (path : string) : string :=
  if HasPrefix path "/@" then
    let parts := Split path slash in
    if (2 <=? length parts)%nat then default "npmjs" (parts !! 1%nat ≫= λ scope, cf_Scopes (config d) !! scope) else "npmjs"
  else "npmjs".

(** A token comes before the credentials. *)
Definition auth_of (r : RegistryConfig) : option AuthConfig :=
  if nonempty (rg_Token r) then Some (mkAuth "bearer" EmptyString EmptyString (rg_Token r)) else rg_Auth r.

Definition as_source (r : RegistryConfig) : source := mkSource (rg_URL r) (rg_Enabled r) (auth_of r).

Definition BuildUpstreamURL (d : Driver) (req : DriverRequest) : result goerror string :=
  let registry := getRegistryForPath d (rq_Path req) in
  source_url "registry" registry (as_source <$> cf_Registries (config d) !! registry) (rq_Path req).

Definition mapError (d : Driver) (err : goerror) : goerror := map_error (ports d) Npm err.

Definition getContentType (path : string) : string :=
  if HasSuffix path ".tgz" || HasSuffix path ".tar.gz" then "application/octet-stream" else "application/json".

Definition FetchPackage (d : Driver) (get : sent → result goerror ProxyHTTPResponse) (now : instant) (req : DriverRequest) :
    list sent * result goerror DriverResponse :=
  match BuildUpstreamURL d req with
  | Err e => ([], Err (mapError d e))
  | Ok url =>
      let headers := set_accept (Some "application/json"%string) (<[ "User-Agent" := "ProxyND/1.0 NPM-Proxy" ]> (rq_Headers req)) in
      let headers :=
        match cf_Registries (config d) !! getRegistryForPath d (rq_Path req) with
        | Some r =>
            if nonempty (rg_Token r) then <[ "Authorization" := "Bearer " +:+ rg_Token r ]> headers
            else ApplyAuthentication headers (rg_Auth r)
        | None => headers
        end in
      fetch_with get (ports d) Npm (λ _, getContentType (rq_Path req)) now url headers
  end.

(** ** Signatures and caching *)

Definition text_of_bytes (bs : list Z) : string := String.string_of_list_ascii (byte <$> bs).

(** The digest in base64. *)
Definition sri_digest (algorithm content : string) : option string :=
  if String.eqb algorithm "sha256" then Some (EncodeToString StdEncoding (text_of_bytes (Sum256 content)))
  else if String.eqb algorithm "sha384" then Some (EncodeToString StdEncoding (text_of_bytes (Sum384 content)))
  else if String.eqb algorithm "sha512" then Some (EncodeToString StdEncoding (text_of_bytes (Sum512 content)))
  else None.

Definition validateSRIIntegrity (content integrity : string) : option sig_err :=
  match split_two "-" integrity with
  | (_, None) => Some InvalidSRI
  | (algorithm, Some expectedHash) =>
      match sri_digest algorithm content with
      | None => Some UnsupportedSRI
      | Some computed => if negb (String.eqb computed expectedHash) then Some SRIMismatch else None
      end
  end.

Definition ValidateSignature (d : Driver) (content signature : string) : option sig_err :=
  match verifier (ports d) with
  | Some f => f Npm content signature
  | None =>
      if String.eqb signature EmptyString then None
      else
        let sigStr := TrimSpace signature in
        if HasPrefix sigStr "sha512-" || HasPrefix sigStr "sha384-" || HasPrefix sigStr "sha256-"
        then validateSRIIntegrity content sigStr
        else ValidateHashSignature content signature
  end.

Definition GetCacheKey (d : Driver) (req : DriverRequest) : string :=
  cache_key "npm" (getRegistryForPath d (rq_Path req)) (NormalizePath d (rq_Path req)).1.

Definition ShouldCache (d : Driver) (resp : DriverResponse) : bool := if 400 <=? dr_StatusCode resp then false else true.

Definition GetCacheTTL (d : Driver) (resp : DriverResponse) : duration :=
  if Contains (dr_ContentType resp) "application/octet-stream" then 24 * hour else cf_CacheTTL (config d).

Definition ValidateConfig (d : Driver) (order : list (string * RegistryConfig)) : option goerror :=
  validate_sources "npm" "no npm registries configured" "registry" "has empty URL" (cf_Enabled (config d))
    (λ r, String.eqb (rg_URL r) EmptyString) order.

(** ** The interface *)

#[export] Instance npm_driver : PackageManagerDriver Driver := {
  drv_Type _ := Npm;
  drv_NormalizePath := NormalizePath;
  drv_BuildUpstreamURL := BuildUpstreamURL;
  drv_FetchPackage := FetchPackage;
  drv_ValidateSignature := ValidateSignature;
  drv_GetCacheKey := GetCacheKey;
  drv_ShouldCache := ShouldCache;
  drv_ports := ports;
  drv_source_name d req := getRegistryForPath d (rq_Path req);
  drv_sources d := as_source <$> cf_Registries (config d)
}.

#[export] Instance npm_laws : DriverLaws Driver.
Proof.
  driver_laws FetchPackage ShouldCache; [|apply set_accept_no_auth].
  rewrite set_accept_own. cbn [as_source so_Auth]. unfold auth_of. destruct (nonempty (rg_Token r)) eqn:Ht; [|done].
  cbn. by rewrite Ht.
Qed.

(** ** The registry of a scope *)

(** A request for /@scope/name goes to the registry configured for that scope, but the
    same package spelt /%40scope/name, or /@scope%2Fname as npm clients send it, goes to the
    public npmjs registry whatever the scopes say: the registry is looked up before the
    path is normalised. *)
Theorem encoded_scope_escapes (d : Driver) (scope name registry : string)
    (Hs : str_all (not_char slash) scope = true) (Hn : str_all (not_char slash) name = true)
    (Hreg : cf_Scopes (config d) !! ("@" +:+ scope) = Some registry)
    (Hraw : cf_Scopes (config d) !! ("@" +:+ (scope +:+ ("%2F" +:+ name))) = None) :
  getRegistryForPath d ("/@" +:+ (scope +:+ ("/" +:+ name))) = registry ∧
  getRegistryForPath d ("/%40" +:+ (scope +:+ ("/" +:+ name))) = "npmjs" ∧
  getRegistryForPath d ("/@" +:+ (scope +:+ ("%2F" +:+ name))) = "npmjs".
Proof.
  assert (∀ t, HasPrefix ("/@" +:+ t) "/@" = true) as Hp by (intros t; apply (prefix_app "/@" t)).
  split_and!; [|done|]; unfold getRegistryForPath; rewrite Hp.
  - change ("/@" +:+ (scope +:+ ("/" +:+ name))) with (EmptyString +:+ String slash (("@" +:+ scope) +:+ String slash name)).
    rewrite Split_first by done. rewrite (Split_first _ ("@" +:+ scope)) by exact Hs.
    destruct (Split name slash); cbn in Hreg |- *; by rewrite Hreg.
  - change ("/@" +:+ (scope +:+ ("%2F" +:+ name))) with (EmptyString +:+ String slash ("@" +:+ (scope +:+ ("%2F" +:+ name)))).
    rewrite Split_first, Split_none by (done || by rewrite ?str_all_app, Hs, ?str_all_app, Hn).
    cbn in Hraw |- *. by rewrite Hraw.
Qed.

Definition corp_npm : Driver :=
  mkDriver (mkConfig true {[ "npmjs" := mkRegistry "npmjs" "https://registry.npmjs.org" true None EmptyString false;
      "corp" := mkRegistry "corp" "https://npm.corp.example/" true None "s3cret" true ]} (6 * hour) (30 * second)
      {[ "@corp" := "corp" ]}) no_ports.

(** The three spellings are the same path once normalised. *)
Lemma encoded_scope_escapes_witness :
  (getRegistryForPath corp_npm "/@corp/tool" = "corp" ∧ getRegistryForPath corp_npm "/%40corp/tool" = "npmjs" ∧
   getRegistryForPath corp_npm "/@corp%2Ftool" = "npmjs") ∧
  NormalizePath corp_npm "/%40corp/tool" = NormalizePath corp_npm "/@corp/tool" ∧
  NormalizePath corp_npm "/@corp%2Ftool" = NormalizePath corp_npm "/@corp/tool".
Proof.
  split; [apply (encoded_scope_escapes corp_npm "corp" "tool" "corp"); reflexivity|]. split; reflexivity.
Defined.

(** ** Integrity *)

Lemma sri_digest_cases algorithm content computed :
  sri_digest algorithm content = Some computed →
  computed ∈ [EncodeToString StdEncoding (text_of_bytes (Sum256 content));
              EncodeToString StdEncoding (text_of_bytes (Sum384 content));
              EncodeToString StdEncoding (text_of_bytes (Sum512 content))].
Proof. unfold sri_digest. intros. repeat case_match; simplify_eq; set_solver. Qed.
