(* ===== verification/PypiDriver.v ===== *)
(** * PypiDriver: the driver of Python package indexes

    Models [src/internal/adapters/pm/pypi/driver.go], except the decoding of JSON
    ([ParseMetadata], [parseJSONMetadata]). *)

From Stdlib Require Import Ascii.
From S2P Require Import Prelude GoStrings GoRegexp GoPath GoHashes GoUrl Normalizer PackageDrivers.

Record IndexConfig := mkIndex {
  ix_Name : string; ix_URL : string; ix_Enabled : bool; ix_Auth : option AuthConfig; ix_TrustedHost : bool
}.

Record Config := mkConfig {
  cf_Enabled : bool; cf_Indexes : gmap string IndexConfig; cf_CacheTTL : duration; cf_Timeout : duration
}.

Record Driver := mkDriver { config : Config; ports : Ports }.

Definition NewDriver (c : option Config) (p : Ports) : Driver :=
  mkDriver (default (mkConfig false ∅ (6 * hour) (30 * second)) c) p.

Definition patterns : list re :=
  [RSeq [RText "/simple/"; RName; ROpt (RText "/")];
   RSeq [RText "/pypi/"; RName; ROpt (RText "/")];
   RSeq [RText "/pypi/"; RName; RText "/json"; ROpt (RText "/")];
   RSeq [RText "/packages/"; RStar RAny; RText "."; foldr RAlt (RText "egg") [RText "tar.gz"; RText "zip"; RText "whl"]]].

Definition IsSupported (d : Driver) (path : string) : bool := any_match patterns path.

Definition NormalizePath (d : Driver) (path : string) : string * option goerror :=
  match normalizer (ports d) with
  | Some f => f Pypi path
  | None =>
      let normalized := with_slash (to_lower (TrimSpace path)) in
      (if HasPrefix normalized "/simple/" then
         let parts := Split normalized slash in
         if (3 <=? length parts)%nat then
           Join (update_part 2 (λ name, ReplaceAll (ReplaceAll name "_" "-") "." "-") parts) "/"
         else normalized
       else normalized, None)
  end.

Definition index_of_request (req : DriverRequest) : string := default_name (rq_Repository req) "pypi".

Definition as_source (x : IndexConfig) : source := mkSource (ix_URL x) (ix_Enabled x) (ix_Auth x).

Definition BuildUpstreamURL (d : Driver) (req : DriverRequest) : result goerror string :=
  let index := index_of_request req in
  source_url "index" index (as_source <$> cf_Indexes (config d) !! index) (rq_Path req).

Definition mapError (d : Driver) (err : goerror) : goerror := map_error (ports d) Pypi err.

Definition getContentType (path : string) : string :=
  let ext := to_lower (Ext path) in
  if String.eqb ext ".whl" then "application/zip"
  else if String.eqb ext ".gz" then "application/gzip"
  else if String.eqb ext ".zip" then "application/zip"
  else if String.eqb ext ".egg" then "application/zip"
  else if Contains path "/simple/" then "text/html"
  else if Contains path "/json" then "application/json"
  else "application/octet-stream".

Definition accept (path : string) : option string :=
  if Contains path "/simple/" then Some "text/html, application/vnd.pypi.simple.v1+html"
  else if Contains path "/json" then Some "application/json"
  else None.

Definition FetchPackage (d : Driver) (get : sent → result goerror ProxyHTTPResponse) (now : instant) (req : DriverRequest) :
    list sent * result goerror DriverResponse :=
  match BuildUpstreamURL d req with
  | Err e => ([], Err (mapError d e))
  | Ok url =>
      let headers := set_accept (accept (rq_Path req)) (<[ "User-Agent" := "ProxyND/1.0 PyPI-Proxy" ]> (rq_Headers req)) in
      let headers :=
        match cf_Indexes (config d) !! index_of_request req with
        | Some x => ApplyAuthentication headers (ix_Auth x)
        | None => headers
        end in
      fetch_with get (ports d) Pypi (λ _, getContentType (rq_Path req)) now url headers
  end.

(** ** Metadata *)

(** One field of a PKG-INFO file. *)
Definition set_field (key value : string) (x : PackageMetadata) : PackageMetadata :=
  let upd name version description license author homepage keywords :=
    mkMetadata name version description license author homepage (pm_Dependencies x) keywords (pm_Attributes x)
      (pm_CreatedAt x) (pm_UpdatedAt x) in
  let n := pm_Name x in let v := pm_Version x in let d := pm_Description x in let l := pm_License x in
  let a := pm_Author x in let h := pm_Homepage x in let k := pm_Keywords x in
  if String.eqb key "Name" then upd value v d l a h k
  else if String.eqb key "Version" then upd n value d l a h k
  else if String.eqb key "Summary" then upd n v value l a h k
  else if String.eqb key "Author" then upd n v d l value h k
  else if String.eqb key "License" then upd n v d value a h k
  else if String.eqb key "Home-page" then upd n v d l a value k
  else if String.eqb key "Keywords" then upd n v d l a h (TrimSpace <$> Split value ",")
  else if String.eqb key "Metadata-Version" then set_attribute "metadata_version" value x
  else x.

Definition pkg_info_line (x : PackageMetadata) (line : string) : PackageMetadata :=
  match split_two ":" line with
  | (key, Some value) => set_field (TrimSpace key) (TrimSpace value) x
  | (_, None) => x
  end.

Definition parsePKGInfoMetadata (clock : instant * instant) (content : string) : PackageMetadata :=
  fold_left pkg_info_line (Split content line_feed)
    (new_metadata "unknown" EmptyString "Python package metadata" ∅ clock).

(** ** Signatures and caching *)

Definition ValidateSignature (d : Driver) (content signature : string) : option sig_err :=
  match verifier (ports d) with
  | Some f => f Pypi content signature
  | None => pgp_or_hash [64%nat] content signature
  end.

Definition GetCacheKey (d : Driver) (req : DriverRequest) : string :=
  cache_key "pypi" (index_of_request req) (NormalizePath d (rq_Path req)).1.

Definition ShouldCache (d : Driver) (resp : DriverResponse) : bool := if 400 <=? dr_StatusCode resp then false else true.

Definition GetCacheTTL (d : Driver) (resp : DriverResponse) : duration :=
  if Contains (dr_ContentType resp) "application/" then 24 * hour else cf_CacheTTL (config d).

Definition ValidateConfig (d : Driver) (order : list (string * IndexConfig)) : option goerror :=
  validate_sources "pypi" "no pypi indexes configured" "index" "has empty URL" (cf_Enabled (config d))
    (λ x, String.eqb (ix_URL x) EmptyString) order.

(** ** The interface *)

#[export] Instance pypi_driver : PackageManagerDriver Driver := {
  drv_Type _ := Pypi;
  drv_NormalizePath := NormalizePath;
  drv_BuildUpstreamURL := BuildUpstreamURL;
  drv_FetchPackage := FetchPackage;
  drv_ValidateSignature := ValidateSignature;
  drv_GetCacheKey := GetCacheKey;
  drv_ShouldCache := ShouldCache;
  drv_ports := ports;
  drv_source_name _ := index_of_request;
  drv_sources d := as_source <$> cf_Indexes (config d)
}.

#[export] Instance pypi_laws : DriverLaws Driver.
Proof. driver_laws FetchPackage ShouldCache; [by rewrite set_accept_own|apply set_accept_no_auth]. Qed.
