(* ===== verification/ApkDriver.v ===== *)
(** * ApkDriver: the driver of Alpine repositories

    Models [src/internal/adapters/pm/apk/driver.go]. *)

From Stdlib Require Import Ascii.
From S2P Require Import Prelude GoStrings GoRegexp GoPath GoHashes GoUrl Normalizer PackageDrivers.

Record RepositoryConfig := mkRepository {
  re_Name : string; re_URL : string; re_Enabled : bool; re_Auth : option AuthConfig; re_Branch : string;
  re_Architecture : string; re_SigningKey : string
}.

Record Config := mkConfig {
  cf_Enabled : bool; cf_Repositories : gmap string RepositoryConfig; cf_CacheTTL : duration; cf_Timeout : duration
}.

Record Driver := mkDriver { config : Config; ports : Ports }.

Definition NewDriver (c : option Config) (p : Ports) : Driver :=
  mkDriver (default (mkConfig false ∅ (6 * hour) (30 * second)) c) p.

(** [[\d.]+] *)
Definition RVersion : re := RPlus (RChar (λ c, is_digit c || Ascii.eqb c ".")).
Definition RIndex : re := RText "/APKINDEX.tar.gz".
Definition RPackage : re := RSeq [RText "/"; RStar RAny; RText ".apk"].

Definition patterns : list re :=
  [RSeq [RText "/alpine/v"; RVersion; RText "/"; RName; RText "/"; RName; RIndex];
   RSeq [RText "/alpine/v"; RVersion; RText "/"; RName; RText "/"; RName; RPackage];
   RSeq [RText "/alpine/edge/"; RName; RText "/"; RName; RIndex];
   RSeq [RText "/alpine/edge/"; RName; RText "/"; RName; RPackage];
   RSeq [RText "/"; RName; RText "/"; RName; RText "/"; RName; RIndex];
   RSeq [RText "/"; RName; RText "/"; RName; RText "/"; RName; RPackage]].

Definition IsSupported (d : Driver) (path : string) : bool := any_match patterns path.

Definition NormalizePath (d : Driver) (path : string) : string * option goerror :=
  match normalizer (ports d) with Some f => f Apk path | None => (with_slash (Clean path), None) end.

Definition repository_of (req : DriverRequest) : string := default_name (rq_Repository req) "alpine".

Definition as_source (r : RepositoryConfig) : source := mkSource (re_URL r) (re_Enabled r) (re_Auth r).

Definition BuildUpstreamURL (d : Driver) (req : DriverRequest) : result goerror string :=
  let repository := repository_of req in
  source_url "repository" repository (as_source <$> cf_Repositories (config d) !! repository) (rq_Path req).

Definition mapError (d : Driver) (err : goerror) : goerror := map_error (ports d) Apk err.

Definition getContentType (path : string) : string :=
  if Contains path "APKINDEX.tar.gz" then "application/gzip"
  else
    let ext := to_lower (Ext path) in
    if String.eqb ext ".apk" then "application/vnd.alpine.apk"
    else if String.eqb ext ".gz" then "application/gzip"
    else if String.eqb ext ".tar" then "application/x-tar"
    else "application/octet-stream".

Definition accept (path : string) : option string :=
  if Contains path "APKINDEX" then Some "application/gzip, application/x-tar"
  else if Contains path ".apk" then Some "application/vnd.alpine.apk"
  else None.

Definition FetchPackage (d : Driver) (get : sent → result goerror ProxyHTTPResponse) (now : instant) (req : DriverRequest) :
    list sent * result goerror DriverResponse :=
  match BuildUpstreamURL d req with
  | Err e => ([], Err (mapError d e))
  | Ok url =>
      let headers := set_accept (accept (rq_Path req)) (<[ "User-Agent" := "ProxyND/1.0 APK-Proxy" ]> (rq_Headers req)) in
      let headers :=
        match cf_Repositories (config d) !! repository_of req with
        | Some r => ApplyAuthentication headers (re_Auth r)
        | None => headers
        end in
      fetch_with get (ports d) Apk (λ _, getContentType (rq_Path req)) now url headers
  end.

(** ** Metadata *)

Definition parseAPKINDEXMetadata (clock : instant * instant) (content : string) : PackageMetadata :=
  let packageCount := (Count content (String line_feed "P:") + (if HasPrefix content "P:" then 1 else 0))%nat in
  let metadata :=
    new_metadata "apkindex" EmptyString "APK package index" {[ "package_count" := Itoa (Z.of_nat packageCount) ]} clock in
  match first_entry "P:" "V:" 10 (Split content line_feed) with
  | None => metadata
  | Some (name, version) =>
      let metadata := set_attribute "example_package" name metadata in
      match version with Some v => set_version v metadata | None => metadata end
  end.

(** The first two bytes of a gzip file. *)
Definition gzip_magic : string := String "031" (String "139" EmptyString).

Definition ParseMetadata (clock : instant * instant) (content : string) : PackageMetadata :=
  if (2 <? String.length content)%nat && HasPrefix content gzip_magic then parseAPKINDEXMetadata clock content
  else if Contains content "P:" || Contains content "V:" then parseAPKINDEXMetadata clock content
  else new_metadata "unknown" EmptyString "APK package or index" ∅ clock.

(** ** Signatures and caching *)

Definition ValidateSignature (d : Driver) (content signature : string) : option sig_err :=
  match verifier (ports d) with
  | Some f => f Apk content signature
  | None =>
      if String.eqb signature EmptyString then None
      else if Contains signature "-----BEGIN" && Contains signature "SIGNATURE" then None
      else if (String.length signature =? 64)%nat then ValidateHashSignature content signature
      else Some InvalidSignatureFormat
  end.

Definition GetCacheKey (d : Driver) (req : DriverRequest) : string :=
  cache_key "apk" (repository_of req) (NormalizePath d (rq_Path req)).1.

Definition ShouldCache (d : Driver) (resp : DriverResponse) : bool := if 400 <=? dr_StatusCode resp then false else true.

Definition GetCacheTTL (d : Driver) (resp : DriverResponse) : duration :=
  if Contains (dr_ContentType resp) "application/vnd.alpine.apk" then week
  else if Contains (dr_ContentType resp) "application/gzip" then 6 * hour
  else cf_CacheTTL (config d).

Definition ValidateConfig (d : Driver) (order : list (string * RepositoryConfig)) : option goerror :=
  validate_sources "apk" "no apk repositories configured" "repository" "has empty URL" (cf_Enabled (config d))
    (λ r, String.eqb (re_URL r) EmptyString) order.

(** ** The interface *)

#[export] Instance apk_driver : PackageManagerDriver Driver := {
  drv_Type _ := Apk;
  drv_NormalizePath := NormalizePath;
  drv_BuildUpstreamURL := BuildUpstreamURL;
  drv_FetchPackage := FetchPackage;
  drv_ValidateSignature := ValidateSignature;
  drv_GetCacheKey := GetCacheKey;
  drv_ShouldCache := ShouldCache;
  drv_ports := ports;
  drv_source_name _ := repository_of;
  drv_sources d := as_source <$> cf_Repositories (config d)
}.

#[export] Instance apk_laws : DriverLaws Driver.
Proof. driver_laws FetchPackage ShouldCache; [by rewrite set_accept_own|apply set_accept_no_auth]. Qed.
