(* ===== verification/YumDriver.v ===== *)
(** * YumDriver: the driver of RPM repositories

    Models [src/internal/adapters/pm/yum/driver.go]. *)

From Stdlib Require Import Ascii.
From S2P Require Import Prelude GoStrings GoRegexp GoPath GoHashes GoUrl Normalizer PackageDrivers.

Record RepositoryConfig := mkRepository {
  re_Name : string; re_BaseURL : string; re_MirrorList : string; re_Enabled : bool; re_GPGCheck : bool;
  re_GPGKey : string; re_Auth : option AuthConfig; re_Priority : Z
}.

Record Config := mkConfig {
  cf_Enabled : bool; cf_Repositories : gmap string RepositoryConfig; cf_CacheTTL : duration; cf_Timeout : duration
}.

Record Driver := mkDriver { config : Config; ports : Ports }.

Definition NewDriver (c : option Config) (p : Ports) : Driver :=
  mkDriver (default (mkConfig false ∅ (6 * hour) (30 * second)) c) p.

Definition patterns : list re :=
  [RSeq [RText "/repodata/"; RStar RAny; RText ".xml"; ROpt (foldr RAlt (RText ".xz") [RText ".gz"; RText ".bz2"])];
   RText "/repodata/repomd.xml";
   RSeq [RText "/Packages/"; RStar RAny; RText ".rpm"];
   RSeq [RText "/"; RStar RAny; RText ".rpm"];
   RSeq [RText "/"; RStar RAny; RText ".drpm"];
   RSeq [RText "/"; RStar RAny; RText ".src.rpm"]].

Definition IsSupported (d : Driver) (path : string) : bool := any_match patterns path.

Definition NormalizePath (d : Driver) (path : string) : string * option goerror :=
  match normalizer (ports d) with Some f => f Yum path | None => (with_slash (Clean path), None) end.

Definition repository_of (req : DriverRequest) : string := default_name (rq_Repository req) "centos".

Definition BuildUpstreamURL (d : Driver) (req : DriverRequest) : result goerror string :=
  let repository := repository_of req in
  match cf_Repositories (config d) !! repository with
  | None => Err (quoted "repository" repository "not configured")
  | Some r =>
      if negb (re_Enabled r) then Err (quoted "repository" repository "is disabled")
      else if String.eqb (re_BaseURL r) EmptyString && nonempty (re_MirrorList r)
      then Err (EText "mirror list resolution not implemented")
      else if String.eqb (re_BaseURL r) EmptyString then Err (EText ("no base URL configured for repository '" +:+ (repository +:+ "'")))
      else Ok (upstream_url (re_BaseURL r) (rq_Path req))
  end.

Definition mapError (d : Driver) (err : goerror) : goerror := map_error (ports d) Yum err.

Definition getContentType (path : string) : string :=
  let ext := to_lower (Ext path) in
  if String.eqb ext ".rpm" then "application/x-rpm"
  else if String.eqb ext ".drpm" then "application/x-rpm"
  else if String.eqb ext ".xml" then "application/xml"
  else if String.eqb ext ".gz" then if Contains path ".xml.gz" then "application/xml" else "application/gzip"
  else if String.eqb ext ".bz2" then "application/x-bzip2"
  else if String.eqb ext ".xz" then "application/x-xz"
  else "application/octet-stream".

Definition accept (path : string) : option string :=
  if Contains path ".xml" then Some "application/xml, text/xml"
  else if Contains path ".rpm" then Some "application/x-rpm"
  else None.

Definition FetchPackage (d : Driver) (get : sent → result goerror ProxyHTTPResponse) (now : instant) (req : DriverRequest) :
    list sent * result goerror DriverResponse :=
  match BuildUpstreamURL d req with
  | Err e => ([], Err (mapError d e))
  | Ok url =>
      let headers := set_accept (accept (rq_Path req)) (<[ "User-Agent" := "ProxyND/1.0 YUM-Proxy" ]> (rq_Headers req)) in
      let headers :=
        match cf_Repositories (config d) !! repository_of req with
        | Some r => ApplyAuthentication headers (re_Auth r)
        | None => headers
        end in
      fetch_with get (ports d) Yum (λ _, getContentType (rq_Path req)) now url headers
  end.

(** ** Metadata *)

Definition quote (s : string) : string := String quote_char (s +:+ String quote_char EmptyString).

(** The location is the first one at or after the mark of the primary data. *)
Definition primary_location (content : string) : option string :=
  let mark := "type=" +:+ quote "primary" in
  match cut_at mark content with
  | Some (_, rest) => between ("href=" +:+ String quote_char EmptyString) (String quote_char EmptyString) (mark +:+ rest)
  | None => None
  end.

Definition parseRepomdMetadata (clock : instant * instant) (content : string) : PackageMetadata :=
  new_metadata "repository-metadata" (default EmptyString (element "revision" content))
    "YUM repository metadata descriptor" (opt_attribute "primary_location" (primary_location content) ∅) clock.

Definition parsePrimaryMetadata (clock : instant * instant) (content : string) : PackageMetadata :=
  new_metadata "primary-metadata" EmptyString "YUM primary package metadata"
    (opt_attribute "example_package" (element "name" content)
       {[ "package_count" := Itoa (Z.of_nat (Count content "<package")) ]}) clock.

(** The first four bytes of an RPM file. *)
Definition rpm_magic : string := String "237" (String "171" (String "238" (String "219" EmptyString))).

Definition ParseMetadata (clock : instant * instant) (content : string) : PackageMetadata :=
  if Contains content "<repomd" && Contains content "xmlns" then parseRepomdMetadata clock content
  else if Contains content "<metadata" && Contains content "<package" then parsePrimaryMetadata clock content
  else if HasPrefix content rpm_magic then new_metadata "rpm-package" EmptyString "RPM binary package" ∅ clock
  else new_metadata "unknown" "unknown" EmptyString ∅ clock.

(** ** Signatures and caching *)

Definition ValidateSignature (d : Driver) (content signature : string) : option sig_err :=
  match verifier (ports d) with
  | Some f => f Yum content signature
  | None => pgp_or_hash [64%nat; 128%nat] content signature
  end.

Definition GetCacheKey (d : Driver) (req : DriverRequest) : string :=
  cache_key "yum" (repository_of req) (NormalizePath d (rq_Path req)).1.

Definition ShouldCache (d : Driver) (resp : DriverResponse) : bool := if 400 <=? dr_StatusCode resp then false else true.

Definition GetCacheTTL (d : Driver) (resp : DriverResponse) : duration :=
  if Contains (dr_ContentType resp) "application/x-rpm" then week
  else if Contains (dr_ContentType resp) "xml" then 6 * hour
  else cf_CacheTTL (config d).

Definition ValidateConfig (d : Driver) (order : list (string * RepositoryConfig)) : option goerror :=
  validate_sources "yum" "no yum repositories configured" "repository" "has neither baseurl nor mirrorlist"
    (cf_Enabled (config d)) (λ r, String.eqb (re_BaseURL r) EmptyString && String.eqb (re_MirrorList r) EmptyString) order.

(** ** The interface *)

Definition as_source (r : RepositoryConfig) : source := mkSource (re_BaseURL r) (re_Enabled r) (re_Auth r).

#[export] Instance yum_driver : PackageManagerDriver Driver := {
  drv_Type _ := Yum;
  drv_NormalizePath := NormalizePath;
  drv_BuildUpstreamURL := BuildUpstreamURL;
  drv_FetchPackage := FetchPackage;
  drv_ValidateSignature := ValidateSignature;
  drv_GetCacheKey := GetCacheKey;
  drv_ShouldCache := ShouldCache;
  drv_ports := ports;
  drv_source_name _ := repository_of;
  drv_sources d := as_source <$> cf_Repositories (config d)
}.

Lemma BuildUpstreamURL_source_url d req url :
  BuildUpstreamURL d req = Ok url →
  source_url "repository" (repository_of req) (as_source <$> cf_Repositories (config d) !! repository_of req) (rq_Path req) =
    Ok url.
Proof.
  unfold BuildUpstreamURL, source_url. destruct (_ !! _) as [r|]; [|done]. cbn.
  destruct (re_Enabled r); [|done]. cbn. by repeat case_match.
Qed.

#[export] Instance yum_laws : DriverLaws Driver.
Proof.
  split.
  - intros d req url E%BuildUpstreamURL_source_url. cbn. rewrite lookup_fmap. by apply source_url_rest in E.
  - intros d get now req e E. cbn in *. unfold FetchPackage. by rewrite E.
  - intros d get now req url s E Hs. cbn in *. unfold FetchPackage. rewrite E. rewrite lookup_fmap in Hs.
    destruct (_ !! _) as [r|]; [|done]. injection Hs as <-. eexists _, _.
    split; cycle 1; [by rewrite set_accept_own|apply set_accept_no_auth].
  - done.
  - intros d resp H. cbn. unfold ShouldCache. by rewrite (proj2 (Z.leb_le _ _) H).
Qed.
