(* ===== verification/RegistryDriver.v ===== *)
(** * RegistryDriver: the driver of Docker registries

    Models [src/internal/adapters/pm/registry/driver.go], except [ParseMetadata], which is
    the decoding of JSON. *)

From Stdlib Require Import Ascii.
From S2P Require Import Prelude GoStrings GoRegexp GoPath GoHashes GoUrl Normalizer PackageDrivers.

Record RegistryConfig := mkRegistry {
  rg_Name : string; rg_URL : string; rg_Enabled : bool; rg_Auth : option AuthConfig; rg_Insecure : bool; rg_Version : string
}.

Record Config := mkConfig {
  cf_Enabled : bool; cf_Registries : gmap string RegistryConfig; cf_CacheTTL : duration; cf_Timeout : duration
}.

Record Driver := mkDriver { config : Config; ports : Ports }.

Definition NewDriver (c : option Config) (p : Ports) : Driver :=
  mkDriver (default (mkConfig false ∅ (24 * hour) (30 * second)) c) p.

(** The same five patterns as the path normaliser's. *)
Definition IsSupported (d : Driver) (path : string) : bool := any_match registryPatterns path.

Definition NormalizePath (d : Driver) (path : string) : string * option goerror :=
  match normalizer (ports d) with
  | Some f => f Registry path
  | None => let normalized := with_slash (TrimSpace path) in
            (if String.eqb normalized "/" then "/v2/" else normalized, None)
  end.

Definition registry_of (req : DriverRequest) : string := default_name (rq_Repository req) "dockerhub".

Definition as_source (r : RegistryConfig) : source := mkSource (rg_URL r) (rg_Enabled r) (rg_Auth r).

Definition BuildUpstreamURL (d : Driver) (req : DriverRequest) : result goerror string :=
  let registry := registry_of req in
  source_url "registry" registry (as_source <$> cf_Registries (config d) !! registry) (rq_Path req).

Definition mapError (d : Driver) (err : goerror) : goerror := map_error (ports d) Registry err.

Definition getContentType (path : string) (headers : gmap string string) : string :=
  let ct := default EmptyString (headers !! "Content-Type") in
  if nonempty ct then ct
  else if Contains path "/manifests/" then "application/vnd.docker.distribution.manifest.v2+json"
  else if Contains path "/blobs/" then "application/octet-stream"
  else "application/json".

Definition accept (path : string) : string :=
  if Contains path "/manifests/" then
    "application/vnd.docker.distribution.manifest.v2+json, application/vnd.docker.distribution.manifest.v1+json"
  else if Contains path "/blobs/" then "application/octet-stream"
  else "application/json".

Definition FetchPackage (d : Driver) (get : sent → result goerror ProxyHTTPResponse) (now : instant) (req : DriverRequest) :
    list sent * result goerror DriverResponse :=
  match BuildUpstreamURL d req with
  | Err e => ([], Err (mapError d e))
  | Ok url =>
      let headers :=
        set_accept (Some (accept (rq_Path req))) (<[ "User-Agent" := "ProxyND/1.0 Registry-Proxy" ]> (rq_Headers req)) in
      let headers :=
        match cf_Registries (config d) !! registry_of req with
        | Some r => ApplyAuthentication headers (rg_Auth r)
        | None => headers
        end in
      fetch_with get (ports d) Registry (getContentType (rq_Path req)) now url headers
  end.

(** ** Signatures and caching *)

Definition validateDockerDigest (content digest : string) : option sig_err :=
  if negb (HasPrefix digest "sha256:") then Some InvalidDigestFormat
  else
    let expectedHash := TrimPrefix digest "sha256:" in
    if negb (String.length expectedHash =? 64)%nat then Some InvalidDigestLength
    else if negb (String.eqb (sha256_hex content) (to_lower expectedHash)) then Some DigestMismatch
    else None.

Definition ValidateSignature (d : Driver) (content signature : string) : option sig_err :=
  match verifier (ports d) with
  | Some f => f Registry content signature
  | None =>
      if String.eqb signature EmptyString then None
      else
        let sigStr := TrimSpace signature in
        if HasPrefix sigStr "sha256:" then validateDockerDigest content sigStr
        else if (String.length sigStr =? 64)%nat then ValidateHashSignature content signature
        else Some UnsupportedSignatureFormat
  end.

Definition GetCacheKey (d : Driver) (req : DriverRequest) : string :=
  cache_key "registry" (registry_of req) (NormalizePath d (rq_Path req)).1.

Definition ShouldCache (d : Driver) (resp : DriverResponse) : bool :=
  if 400 <=? dr_StatusCode resp then false
  else if Contains (default EmptyString (dr_Headers resp !! "Content-Type")) "application/json" && (dr_Size resp <? 100)
  then false else true.

Definition GetCacheTTL (d : Driver) (resp : DriverResponse) : duration :=
  if Contains (dr_ContentType resp) "application/octet-stream" then week
  else if Contains (dr_ContentType resp) "application/json" then 6 * hour
  else cf_CacheTTL (config d).

Definition ValidateConfig (d : Driver) (order : list (string * RegistryConfig)) : option goerror :=
  validate_sources "registry" "no registries configured" "registry" "has empty URL" (cf_Enabled (config d))
    (λ r, String.eqb (rg_URL r) EmptyString) order.

(** ** The interface *)

#[export] Instance registry_driver : PackageManagerDriver Driver := {
  drv_Type _ := Registry;
  drv_NormalizePath := NormalizePath;
  drv_BuildUpstreamURL := BuildUpstreamURL;
  drv_FetchPackage := FetchPackage;
  drv_ValidateSignature := ValidateSignature;
  drv_GetCacheKey := GetCacheKey;
  drv_ShouldCache := ShouldCache;
  drv_ports := ports;
  drv_source_name _ := registry_of;
  drv_sources d := as_source <$> cf_Registries (config d)
}.

#[export] Instance registry_laws : DriverLaws Driver.
Proof. driver_laws FetchPackage ShouldCache; [by rewrite set_accept_own|apply set_accept_no_auth]. Qed.
