(* ===== verification/AptDriver.v ===== *)
(** * AptDriver: the driver of Debian mirrors

    Models [src/internal/adapters/pm/apt/driver.go].  The mirror of a path is found by
    iterating a map: the order is an argument of every operation that does it. *)

From Stdlib Require Import Ascii.
From S2P Require Import Prelude GoStrings GoRegexp GoPath GoHashes GoUrl Normalizer PackageDrivers.

Record MirrorConfig := mkMirror {
  mi_Name : string; mi_URL : string; mi_Enabled : bool; mi_Auth : option AuthConfig; mi_Priority : Z;
  mi_Architectures : list string
}.

Record DistroConfig := mkDistro { di_Name : string; di_Codename : string; di_Components : list string; di_Mirror : string }.

Record Config := mkConfig {
  cf_Enabled : bool; cf_Mirrors : gmap string MirrorConfig; cf_CacheTTL : duration; cf_Timeout : duration;
  cf_Distributions : gmap string DistroConfig
}.

Record Driver := mkDriver { config : Config; ports : Ports }.

Definition NewDriver (c : option Config) (p : Ports) : Driver :=
  mkDriver (default (mkConfig false ∅ (12 * hour) (30 * second) ∅) c) p.

(** [/pool/[^/]+/[^/]+/[^/]+/.*] *)
Definition RPool : re := RSeq [RText "/pool/"; RName; RText "/"; RName; RText "/"; RName; RText "/"; RStar RAny].

(** Seven of the patterns have no dollar. *)
Definition patterns : list re :=
  [RSeq [RText "/dists/"; RName; RText "/Release"; RRest];
   RSeq [RText "/dists/"; RName; RText "/Release.gpg"; RRest];
   RSeq [RText "/dists/"; RName; RText "/InRelease"; RRest];
   RSeq [RText "/dists/"; RName; RText "/"; RName; RText "/binary-"; RName; RText "/Packages"; RRest];
   RSeq [RText "/dists/"; RName; RText "/"; RName; RText "/source/Sources"; RRest];
   RSeq [RPool; RText ".deb"];
   RSeq [RPool; RText ".dsc"];
   RSeq [RPool; RText ".tar."; foldr RAlt (RText "bz2") [RText "gz"; RText "xz"]];
   RSeq [RText "/"; RName; RText "/dists/"; RRest];
   RSeq [RText "/"; RName; RText "/pool/"; RRest]].

Definition IsSupported (d : Driver) (path : string) : bool := any_match patterns path.

Definition NormalizePath (d : Driver) (path : string) : string * option goerror :=
  match normalizer (ports d) with
  | Some f => f Apt path
  | None => (collapse_slashes (with_slash (Clean path)), None)
  end.

Definition mirror_order : Type := list (string * MirrorConfig).

Definition names_path (path : string) (e : string * MirrorConfig) : bool := HasPrefix path ("/" +:+ (e.1 +:+ "/")).

Definition getMirrorForPath (d : Driver) (order : mirror_order) (path : string) : string :=
  match List.find (names_path path) order with Some (name, _) => name | None => "ubuntu" end.

Definition as_source (m : MirrorConfig) : source := mkSource (mi_URL m) (mi_Enabled m) (mi_Auth m).

Definition BuildUpstreamURL (d : Driver) (order : mirror_order) (req : DriverRequest) : result goerror string :=
  let mirror := getMirrorForPath d order (rq_Path req) in
  match cf_Mirrors (config d) !! mirror with
  | None => Err (quoted "mirror" mirror "not configured")
  | Some m =>
      if negb (mi_Enabled m) then Err (quoted "mirror" mirror "is disabled")
      else
        let baseURL := trim_right_char slash (mi_URL m) in
        let cleanPath := trim_left_char slash (rq_Path req) in
        let cleanPath :=
          if HasPrefix cleanPath (mirror +:+ "/") then TrimPrefix cleanPath (mirror +:+ "/") else cleanPath in
        Ok (baseURL +:+ ("/" +:+ cleanPath))
  end.

Definition mapError (d : Driver) (err : goerror) : goerror := map_error (ports d) Apt err.

Definition getContentType (path : string) : string :=
  let ext := to_lower (Ext path) in
  if String.eqb ext ".deb" then "application/x-debian-package"
  else if String.eqb ext ".dsc" then "text/plain"
  else if String.eqb ext ".gz" then if Contains path "Packages" then "application/x-gzip" else "application/gzip"
  else if String.eqb ext ".xz" then "application/x-xz"
  else if String.eqb ext ".bz2" then "application/x-bzip2"
  else if String.eqb ext ".gpg" then "application/pgp-signature"
  else if Contains path "Release" || Contains path "Packages" || Contains path "Sources" then "text/plain"
  else "application/octet-stream".

Definition accept (path : string) : option string :=
  if Contains path "Packages" then Some "text/plain, application/x-gzip"
  else if Contains path "Release" then Some "text/plain"
  else None.

(** The mirror is looked up twice, for the URL and for the credentials. *)
Definition FetchPackage (d : Driver) (order_url order_auth : mirror_order) (get : sent → result goerror ProxyHTTPResponse)
    (now : instant) (req : DriverRequest) : list sent * result goerror DriverResponse :=
  match BuildUpstreamURL d order_url req with
  | Err e => ([], Err (mapError d e))
  | Ok url =>
      let headers := set_accept (accept (rq_Path req)) (<[ "User-Agent" := "ProxyND/1.0 APT-Proxy" ]> (rq_Headers req)) in
      let headers :=
        match cf_Mirrors (config d) !! getMirrorForPath d order_auth (rq_Path req) with
        | Some m => ApplyAuthentication headers (mi_Auth m)
        | None => headers
        end in
      fetch_with get (ports d) Apt (λ _, getContentType (rq_Path req)) now url headers
  end.

(** ** Metadata *)

Definition release_field (key value : string) (x : PackageMetadata) : PackageMetadata :=
  if String.eqb key "Origin" then set_attribute "origin" value x
  else if String.eqb key "Suite" then set_attribute "suite" value x
  else if String.eqb key "Version" then set_version value x
  else if String.eqb key "Codename" then set_attribute "codename" value x
  else if String.eqb key "Label" then set_attribute "label" value x
  else if String.eqb key "Date" then set_attribute "date" value x
  else x.

Definition release_line (x : PackageMetadata) (line : string) : PackageMetadata :=
  match split_two ":" line with
  | (key, Some value) => release_field (TrimSpace key) (TrimSpace value) x
  | (_, None) => x
  end.

Definition parseReleaseMetadata (clock : instant * instant) (content : string) : PackageMetadata :=
  fold_left release_line (Split content line_feed)
    (new_metadata "release" EmptyString "APT repository release metadata" ∅ clock).

Definition parsePackagesMetadata (clock : instant * instant) (content : string) : PackageMetadata :=
  let packageCount :=
    (Count content (String line_feed "Package:") + (if HasPrefix content "Package:" then 1 else 0))%nat in
  let metadata :=
    new_metadata "packages" EmptyString "APT package list metadata"
      {[ "package_count" := Itoa (Z.of_nat packageCount) ]} clock in
  match first_entry "Package:" "Version:" 20 (Split content line_feed) with
  | None => metadata
  | Some (name, version) =>
      let metadata := set_attribute "example_package" (TrimSpace name) metadata in
      match version with Some v => set_version (TrimSpace v) metadata | None => metadata end
  end.

Definition ar_magic : string := "!<arch>" +:+ String line_feed EmptyString.

Definition ParseMetadata (clock : instant * instant) (content : string) : PackageMetadata :=
  if Contains content "Origin:" && Contains content "Suite:" then parseReleaseMetadata clock content
  else if Contains content "Package:" && Contains content "Version:" then parsePackagesMetadata clock content
  else if (8 <? String.length content)%nat && String.eqb (take_bytes 8 content) ar_magic then
    new_metadata "debian-package" EmptyString "Debian binary package" ∅ clock
  else new_metadata "unknown" EmptyString "APT metadata" ∅ clock.

(** ** Signatures and caching *)

Definition ValidateSignature (d : Driver) (content signature : string) : option sig_err :=
  match verifier (ports d) with
  | Some f => f Apt content signature
  | None => pgp_or_hash [64%nat] content signature
  end.

Definition GetCacheKey (d : Driver) (order : mirror_order) (req : DriverRequest) : string :=
  cache_key "apt" (getMirrorForPath d order (rq_Path req)) (NormalizePath d (rq_Path req)).1.

Definition ShouldCache (d : Driver) (resp : DriverResponse) : bool := if 400 <=? dr_StatusCode resp then false else true.

Definition GetCacheTTL (d : Driver) (resp : DriverResponse) : duration :=
  if HasSuffix (dr_ContentType resp) "application/x-debian-package" then week
  else if Contains (dr_ContentType resp) "text/plain" then 6 * hour
  else cf_CacheTTL (config d).

Definition ValidateConfig (d : Driver) (order : mirror_order) : option goerror :=
  validate_sources "apt" "no apt mirrors configured" "mirror" "has empty URL" (cf_Enabled (config d))
    (λ m, String.eqb (mi_URL m) EmptyString) order.

(** ** The interface, with one order of iteration *)

Definition any_order (d : Driver) : mirror_order := map_to_list (cf_Mirrors (config d)).

#[export] Instance apt_driver : PackageManagerDriver Driver := {
  drv_Type _ := Apt;
  drv_NormalizePath := NormalizePath;
  drv_BuildUpstreamURL d := BuildUpstreamURL d (any_order d);
  drv_FetchPackage d := FetchPackage d (any_order d) (any_order d);
  drv_ValidateSignature := ValidateSignature;
  drv_GetCacheKey d := GetCacheKey d (any_order d);
  drv_ShouldCache := ShouldCache;
  drv_ports := ports;
  drv_source_name d req := getMirrorForPath d (any_order d) (rq_Path req);
  drv_sources d := as_source <$> cf_Mirrors (config d)
}.

#[export] Instance apt_laws : DriverLaws Driver.
Proof.
  split.
  - intros d req url. cbn. unfold BuildUpstreamURL. rewrite lookup_fmap. destruct (_ !! _) as [m|]; [|done].
    destruct (mi_Enabled m) eqn:He; [|done]. cbn [negb]. intros [= <-]. eexists _, _. split; [done|]. by split.
  - intros d get now req e E. cbn in *. unfold FetchPackage. by rewrite E.
  - intros d get now req url s E Hs. cbn in *. unfold FetchPackage. rewrite E. rewrite lookup_fmap in Hs.
    destruct (_ !! _) as [m|]; [|done]. injection Hs as <-. eexists _, _.
    split; cycle 1; [by rewrite set_accept_own|apply set_accept_no_auth].
  - done.
  - intros d resp H. cbn. unfold ShouldCache. by rewrite (proj2 (Z.leb_le _ _) H).
Qed.

(** ** The order of iteration *)

Lemma names_path_split path name m :
  names_path path (name, m) = true → ∃ rest, path = "/" +:+ (name +:+ String slash rest).
Proof.
  unfold names_path. intros (t & ->)%prefix_split. exists t. by rewrite !str_app_assoc.
Qed.

Lemma slash_free_names_agree path n m n' m' :
  str_all (not_char slash) n = true → str_all (not_char slash) n' = true →
  names_path path (n, m) = true → names_path path (n', m') = true → n = n'.
Proof.
  intros Hn Hn' (r & ->)%names_path_split (r' & E)%names_path_split. cbn in E. injection E as E.
  by apply cut_same in E as [-> _].
Qed.

(** When no mirror has a slash in its name, the mirror of a path - and with it the URL,
    the credentials and the cache key - does not depend on the order in which Go iterates
    the map of mirrors. *)
Theorem mirror_of_path_any_order (d : Driver) (order order' : mirror_order) (path : string)
    (Ho : order ≡ₚ map_to_list (cf_Mirrors (config d))) (Ho' : order' ≡ₚ map_to_list (cf_Mirrors (config d)))
    (Hnames : ∀ name m, cf_Mirrors (config d) !! name = Some m → str_all (not_char slash) name = true) :
  getMirrorForPath d order path = getMirrorForPath d order' path.
Proof.
  unfold getMirrorForPath.
  assert (∀ o e, o ≡ₚ map_to_list (cf_Mirrors (config d)) → List.find (names_path path) o = Some e →
    str_all (not_char slash) e.1 = true ∧ names_path path e = true ∧ e ∈ map_to_list (cf_Mirrors (config d))) as Hin.
  { intros o [n m] Hp [Hi Hm]%List.find_some. rewrite <- list_elem_of_In, Hp in Hi. split; [|done].
    apply elem_of_map_to_list in Hi. by eapply Hnames. }
  assert (∀ o e, o ≡ₚ map_to_list (cf_Mirrors (config d)) → List.find (names_path path) o = None →
    e ∈ map_to_list (cf_Mirrors (config d)) → names_path path e = false) as Hno.
  { intros o e Hp Hf Hi. apply (List.find_none _ _ Hf). rewrite <- list_elem_of_In. by rewrite Hp. }
  destruct (List.find (names_path path) order) as [[n m]|] eqn:E, (List.find (names_path path) order') as [[n' m']|] eqn:E'.
  - apply Hin in E as (Hs & Hm & _), E' as (Hs' & Hm' & _); [|done..]. by eapply slash_free_names_agree.
  - apply Hin in E as (_ & Hm & Hi); [|done]. by rewrite (Hno _ _ Ho' E' Hi) in Hm.
  - apply Hin in E' as (_ & Hm & Hi); [|done]. by rewrite (Hno _ _ Ho E Hi) in Hm.
  - done.
Qed.

Definition two_mirrors : Driver :=
  mkDriver (mkConfig true {[ "ubuntu" := mkMirror "ubuntu" "http://archive.ubuntu.com/ubuntu" true None 1 [];
      "debian" := mkMirror "debian" "http://deb.debian.org/debian/" true None 2 [] ]} (12 * hour) (30 * second) ∅) no_ports.

Lemma two_mirrors_names name m :
  cf_Mirrors (config two_mirrors) !! name = Some m → str_all (not_char slash) name = true.
Proof. intros H. cbn in H. rewrite lookup_insert_Some, lookup_singleton_Some in H. by destruct H as [[<- _]|[_ [<- _]]]. Qed.

Lemma mirror_of_path_any_order_witness :
  getMirrorForPath two_mirrors (any_order two_mirrors) "/debian/pool/main/x.deb" =
  getMirrorForPath two_mirrors (rev (any_order two_mirrors)) "/debian/pool/main/x.deb".
Proof.
  apply mirror_of_path_any_order; [done|symmetry; apply Permutation_rev|exact two_mirrors_names].
Defined.

(** Any entry of a map can come first. *)
Lemma can_come_first (m : gmap string MirrorConfig) k v :
  m !! k = Some v → ∃ o, ((k, v) :: o) ≡ₚ map_to_list m.
Proof.
  intros (l1 & l2 & ->)%elem_of_map_to_list%list_elem_of_split. exists (l1 ++ l2). by rewrite Permutation_middle.
Qed.

(** When the name of a mirror continues the name of another after a slash, a request
    under the longer name can be sent to the host of the shorter one with the credentials
    of the longer: the two look-ups of one fetch may iterate the map in different orders. *)
Theorem nested_mirrors_mix (d : Driver) (outer inner file : string) (mo mi : MirrorConfig) get now req
    (Ho : cf_Mirrors (config d) !! outer = Some mo) (Heo : mi_Enabled mo = true)
    (Hi : cf_Mirrors (config d) !! (outer +:+ ("/" +:+ inner)) = Some mi)
    (Hp : rq_Path req = "/" +:+ (outer +:+ ("/" +:+ (inner +:+ ("/" +:+ file))))) :
  ∃ order_url order_auth rest headers,
    order_url ≡ₚ map_to_list (cf_Mirrors (config d)) ∧ order_auth ≡ₚ map_to_list (cf_Mirrors (config d)) ∧
    (FetchPackage d order_url order_auth get now req).1 =
      [(trim_right_char slash (mi_URL mo) +:+ ("/" +:+ rest), ApplyAuthentication headers (mi_Auth mi))].
Proof.
  destruct (can_come_first _ _ _ Ho) as (o1 & H1), (can_come_first _ _ _ Hi) as (o2 & H2).
  eexists _, _, _, _. split; [exact H1|]. split; [exact H2|].
  assert (∀ n rest, HasPrefix ("/" +:+ (n +:+ ("/" +:+ rest))) ("/" +:+ (n +:+ "/")) = true) as Hpre.
  { intros n rest. apply prefix_spec. exists rest. by rewrite !str_app_assoc. }
  assert (getMirrorForPath d ((outer, mo) :: o1) (rq_Path req) = outer) as E1.
  { unfold getMirrorForPath, names_path. cbn [List.find fst]. by rewrite Hp, Hpre. }
  assert (getMirrorForPath d ((outer +:+ ("/" +:+ inner), mi) :: o2) (rq_Path req) = outer +:+ ("/" +:+ inner)) as E2.
  { unfold getMirrorForPath, names_path. cbn [List.find fst].
    replace (rq_Path req) with ("/" +:+ ((outer +:+ ("/" +:+ inner)) +:+ ("/" +:+ file))); [by rewrite Hpre|].
    by rewrite Hp, !str_app_assoc. }
  unfold FetchPackage, BuildUpstreamURL. rewrite E1, E2, Ho, Hi, Heo. done.
Qed.

Definition nested_mirrors : Driver :=
  mkDriver (mkConfig true {[ "debian" := mkMirror "debian" "http://deb.debian.org/debian" true None 1 [];
      "debian/private" := mkMirror "debian/private" "https://deb.corp.example" true
        (Some (mkAuth "bearer" "" "" "s3cret")) 2 [] ]} (12 * hour) (30 * second) ∅) no_ports.

Lemma nested_mirrors_mix_witness :
  ∃ order_url order_auth rest headers,
    order_url ≡ₚ map_to_list (cf_Mirrors (config nested_mirrors)) ∧
    order_auth ≡ₚ map_to_list (cf_Mirrors (config nested_mirrors)) ∧
    (FetchPackage nested_mirrors order_url order_auth (λ _, Err (EText "down")) 0
       (mkRequest "/debian/private/pool/x.deb" "GET" ∅ ∅ "" "" "" None)).1 =
      [(trim_right_char slash "http://deb.debian.org/debian" +:+ ("/" +:+ rest),
        ApplyAuthentication headers (Some (mkAuth "bearer" "" "" "s3cret")))].
Proof.
  apply (nested_mirrors_mix nested_mirrors "debian" "private" "pool/x.deb"
            (mkMirror "debian" "http://deb.debian.org/debian" true None 1 [])
            (mkMirror "debian/private" "https://deb.corp.example" true (Some (mkAuth "bearer" "" "" "s3cret")) 2 []));
    reflexivity.
Defined.
