(* ===== verification/DriverContracts.v ===== *)
(** * DriverContracts: what holds of every package driver

    The seven drivers behind the interface [PackageManagerDriver], and the theorems that
    are proved once from its laws: where a fetch goes and with which credentials, when two
    cache keys are equal, what an accepted signature means, how errors are mapped. *)

From Stdlib Require Import Ascii.
From S2P Require Import Prelude GoStrings GoPath GoBase64 GoHashes GoUrl Normalizer PackageDrivers.
From S2P Require Import MavenDriver NpmDriver PypiDriver ApkDriver YumDriver RegistryDriver AptDriver.

(** A value of the interface. *)
Inductive driver :=
| DMaven (d : MavenDriver.Driver) | DNpm (d : NpmDriver.Driver) | DPypi (d : PypiDriver.Driver) | DApk (d : ApkDriver.Driver)
| DYum (d : YumDriver.Driver) | DRegistry (d : RegistryDriver.Driver) | DApt (d : AptDriver.Driver).

(** A call through the interface. *)
Definition dispatch {A} (f : ∀ D, PackageManagerDriver D → D → A) (d : driver) : A :=
  match d with
  | DMaven d => f _ _ d | DNpm d => f _ _ d | DPypi d => f _ _ d | DApk d => f _ _ d
  | DYum d => f _ _ d | DRegistry d => f _ _ d | DApt d => f _ _ d
  end.

#[export] Instance any_driver : PackageManagerDriver driver := {
  drv_Type := dispatch (@drv_Type);
  drv_NormalizePath := dispatch (@drv_NormalizePath);
  drv_BuildUpstreamURL := dispatch (@drv_BuildUpstreamURL);
  drv_FetchPackage := dispatch (@drv_FetchPackage);
  drv_ValidateSignature := dispatch (@drv_ValidateSignature);
  drv_GetCacheKey := dispatch (@drv_GetCacheKey);
  drv_ShouldCache := dispatch (@drv_ShouldCache);
  drv_ports := dispatch (@drv_ports);
  drv_source_name := dispatch (@drv_source_name);
  drv_sources := dispatch (@drv_sources)
}.

#[export] Instance any_driver_laws : DriverLaws driver.
Proof.
  split; intros []; cbn [any_driver drv_Type drv_NormalizePath drv_BuildUpstreamURL drv_FetchPackage drv_GetCacheKey
    drv_ShouldCache drv_ports drv_source_name drv_sources dispatch];
    first [apply law_url | apply law_refused | apply law_sent | apply law_key | apply law_errors].
Qed.

(** ** Where a fetch goes *)


(** ** Cache keys *)

Lemma pm_name_no_colon (d : driver) : str_all (not_char ":") (pm_name (drv_Type d)) = true.
Proof. by destruct d. Qed.

Lemma pm_name_inj (d d' : driver) : pm_name (drv_Type d) = pm_name (drv_Type d') → drv_Type d = drv_Type d'.
Proof. by destruct d, d'. Qed.


Definition central : driver :=
  DMaven (MavenDriver.mkDriver (MavenDriver.mkConfig true
    {[ "central" := MavenDriver.mkRepository "central" "https://repo1.maven.org/maven2/" true None "default" None ]}
    (24 * hour) (30 * second)) common_ports).

Definition get_request (path : string) : DriverRequest := mkRequest path "GET" ∅ ∅ "" "" "" None.


(** ** Signatures *)

Lemma hash_hex_shape h content :
  String.length (hash_hex h content) = match h with MD5 => 32 | SHA1 => 40 | SHA256 => 64 | SHA512 => 128 end%nat ∧
  str_all is_hex (hash_hex h content) = true.
Proof. destruct h; [apply md5_hex_shape|apply sha1_hex_shape|apply sha256_hex_shape|apply sha512_hex_shape]. Qed.

Lemma is_hex_word s : str_all is_hex s = true → s ≠ EmptyString → is_word s = true.
Proof.
  intros H Hn. unfold is_word. destruct s as [|c s]; [done|]. cbn [String.eqb negb andb].
  eapply str_all_impl; [|exact H]. intros d. unfold is_hex, word_char. rewrite orb_true_iff, !in_range_spec. lia.
Qed.

Lemma TrimSpace_word w : is_word w = true → TrimSpace w = w.
Proof. destruct w as [|c w]; [done|]. intros H%is_word_all. by apply str_all_words. Qed.

Lemma hash_hex_word h content : is_word (hash_hex h content) = true.
Proof.
  destruct (hash_hex_shape h content) as [Hl Hh]. apply is_hex_word; [done|]. intros E. rewrite E in Hl. by destruct h.
Qed.

Lemma verifyHashSignature_ok content expected h : verifyHashSignature content expected h = None ↔ expected = hash_hex h content.
Proof. unfold verifyHashSignature. destruct (String.eqb_spec (hash_hex h content) expected); split; congruence. Qed.

(** The signature names a digest of the content: in the clear, or in lower case, or after a
    sha1 or sha256 label, or in base64 after the name of the algorithm. *)
Definition carries_digest (content signature : string) : Prop :=
  let text := TrimSpace signature in
  (∃ h, text = hash_hex h content ∨ to_lower text = hash_hex h content) ∨
  text = "sha1-" +:+ hash_hex SHA1 content ∨
  (∃ t, text = "sha256:" +:+ t ∧ to_lower t = hash_hex SHA256 content) ∨
  (∃ algorithm, split_two "-" text = (algorithm, sri_digest algorithm content) ∧ sri_digest algorithm content ≠ None).

Lemma verify_by_length_ok content text k :
  (if (String.length text =? 32)%nat then verifyHashSignature content text MD5
   else if (String.length text =? 40)%nat then verifyHashSignature content text SHA1
   else if (String.length text =? 64)%nat then verifyHashSignature content text SHA256
   else if (String.length text =? 128)%nat then verifyHashSignature content text SHA512
   else Some k) = None → ∃ h, text = hash_hex h content.
Proof. repeat case_match; try done; intros Hv; apply verifyHashSignature_ok in Hv; eauto. Qed.

Lemma verify_digest pm content signature :
  VerifySignature pm content signature = None → carries_digest content signature.
Proof.
  unfold carries_digest. intros H. destruct pm; cbn in H; try done.
  - left. destruct (verify_by_length_ok _ _ _ H) as [h E]. eauto.
  - unfold verifyNpmSignature in H. destruct (HasPrefix (TrimSpace signature) "sha512-"); [done|].
    destruct (HasPrefix (TrimSpace signature) "sha1-") eqn:Hp; apply verifyHashSignature_ok in H; [|eauto].
    right; left. apply prefix_split in Hp as (t & E). rewrite E in H |- *. by rewrite TrimPrefix_app in H; subst t.
  - unfold verifyPypiSignature in H. left.
    revert H. repeat case_match; try done; intros Hv; apply verifyHashSignature_ok in Hv; eauto.
  - left. destruct (verify_by_length_ok _ _ _ H) as [h E]. eauto.
Qed.

Lemma ValidateHashSignature_ok content signature :
  ValidateHashSignature content signature = None ↔ ∃ h, to_lower (TrimSpace signature) = hash_hex h content.
Proof.
  unfold ValidateHashSignature. split.
  - repeat case_match; try done; intros _; match goal with E : String.eqb _ _ = true |- _ => apply String.eqb_eq in E; eauto end.
  - intros [h E]. destruct (hash_hex_shape h content) as [Hl _]. rewrite E, Hl.
    destruct h; cbn [Nat.eqb]; by rewrite String.eqb_refl.
Qed.

(** What is taken for a signature without a verifier. *)
Definition signature_mark (signature : string) : bool :=
  contains_pgp signature || (Contains signature "-----BEGIN" && Contains signature "SIGNATURE").

Lemma carries_hash content signature :
  ValidateHashSignature content signature = None → carries_digest content signature.
Proof. intros [h E]%ValidateHashSignature_ok. left. eauto. Qed.

Lemma pgp_or_hash_digest ls content signature :
  pgp_or_hash ls content signature = None →
  carries_digest content signature ∨ signature = EmptyString ∨ signature_mark signature = true.
Proof.
  unfold pgp_or_hash, signature_mark. destruct (String.eqb_spec signature EmptyString); [auto|].
  destruct (contains_pgp signature); [auto|]. cbn [negb]. destruct (existsb _ ls); [|done].
  intros H. left. by apply carries_hash.
Qed.

Lemma sri_carries content signature :
  validateSRIIntegrity content (TrimSpace signature) = None → carries_digest content signature.
Proof.
  unfold validateSRIIntegrity. destruct (split_two "-" (TrimSpace signature)) as [alg [expected|]] eqn:E; [|done].
  destruct (sri_digest alg content) as [computed|] eqn:Ed; [|done].
  destruct (String.eqb_spec computed expected) as [->|]; [|done]. intros _. right; right; right. exists alg. by rewrite Ed.
Qed.

Lemma docker_carries content signature :
  validateDockerDigest content (TrimSpace signature) = None → carries_digest content signature.
Proof.
  unfold validateDockerDigest. destruct (HasPrefix _ _) eqn:Hp; [|done]. cbn [negb].
  apply prefix_split in Hp as (t & E). rewrite E, TrimPrefix_app. destruct (_ =? 64)%nat; [|done]. cbn [negb].
  destruct (String.eqb_spec (sha256_hex content) (to_lower t)); [|done]. intros _. right; right; left. eauto.
Qed.

Lemma fallback_digest (d : driver) content signature :
  verifier (drv_ports d) = None → drv_ValidateSignature d content signature = None →
  carries_digest content signature ∨ signature = EmptyString ∨ signature_mark signature = true.
Proof.
  destruct d as [d|d|d|d|d|d|d]; cbn; intros Hv;
    unfold MavenDriver.ValidateSignature, NpmDriver.ValidateSignature, PypiDriver.ValidateSignature,
      ApkDriver.ValidateSignature, YumDriver.ValidateSignature, RegistryDriver.ValidateSignature,
      AptDriver.ValidateSignature; rewrite Hv; try apply pgp_or_hash_digest;
    (destruct (String.eqb_spec signature EmptyString); [auto|]).
  - unfold signature_mark. destruct (contains_pgp signature); [auto|]. left. by apply carries_hash.
  - destruct (_ || _); left; [by apply sri_carries|by apply carries_hash].
  - unfold signature_mark. destruct (_ && _); [rewrite orb_true_r; auto|]. destruct (_ =? 64)%nat; [|done].
    left. by apply carries_hash.
  - destruct (HasPrefix _ _); [left; by apply docker_carries|]. destruct (_ =? 64)%nat; [left; by apply carries_hash|done].
Qed.

(** A driver that uses the common verifier, or none, accepts a signature only if it
    carries a digest of the content; without a verifier it also accepts an empty signature
    and any text with the mark of a PGP or RSA signature. *)
Theorem accepted_signature_sound (d : driver) (content signature : string)
    (Hv : verifier (drv_ports d) = Some VerifySignature ∨ verifier (drv_ports d) = None)
    (Ha : drv_ValidateSignature d content signature = None) :
  carries_digest content signature ∨
  (verifier (drv_ports d) = None ∧ (signature = EmptyString ∨ signature_mark signature = true)).
Proof.
  destruct Hv as [Hv|Hv].
  - left. destruct d as [d|d|d|d|d|d|d]; cbn in Hv, Ha;
      unfold MavenDriver.ValidateSignature, NpmDriver.ValidateSignature, PypiDriver.ValidateSignature,
        ApkDriver.ValidateSignature, YumDriver.ValidateSignature, RegistryDriver.ValidateSignature,
        AptDriver.ValidateSignature in Ha; rewrite Hv in Ha; by apply verify_digest in Ha.
  - destruct (fallback_digest d content signature Hv Ha) as [?|?]; [by left|by right].
Qed.

Lemma accepted_signature_sound_witness :
  drv_ValidateSignature central "hello" "5d41402abc4b2a76b9719d911017c592" = None ∧
  (carries_digest "hello" "5d41402abc4b2a76b9719d911017c592" ∨
   (verifier (drv_ports central) = None ∧
    ("5d41402abc4b2a76b9719d911017c592"%string = EmptyString ∨ signature_mark "5d41402abc4b2a76b9719d911017c592" = true))).
Proof.
  assert (drv_ValidateSignature central "hello" "5d41402abc4b2a76b9719d911017c592" = None) as H by (vm_compute; reflexivity).
  split; [exact H|]. apply (accepted_signature_sound central); [by left|exact H].
Defined.

(** A signature made by the common component is accepted by it exactly for Maven, npm,
    PyPI and the generic type: for apt, yum, apk and Docker registries nothing is ever
    accepted, so that a driver with the verifier refuses every package. *)
Theorem generated_signatures_verify (pm : PMType) (content : string) :
  VerifySignature pm content (GenerateSignature pm content) =
    match pm with
    | Maven | Npm | Pypi | OtherPM _ => None
    | Apt | Yum => Some (NotImplemented "pgp")
    | Apk => Some (NotImplemented "apk")
    | Registry => Some (NotImplemented "docker")
    end ∧
  (match pm with Maven | Npm | Pypi | OtherPM _ => True | _ => ∀ c s, VerifySignature pm c s ≠ None end).
Proof.
  assert (∀ h, TrimSpace (hash_hex h content) = hash_hex h content) as Ht by (intros h; apply TrimSpace_word, hash_hex_word).
  assert (∀ h, String.length (hash_hex h content) = match h with MD5 => 32 | SHA1 => 40 | SHA256 => 64 | SHA512 => 128 end)%nat
    as Hl by (intros h; apply hash_hex_shape).
  assert (∀ h, verifyHashSignature content (hash_hex h content) h = None) as Hok by (intros h; by apply verifyHashSignature_ok).
  pose proof (Ht SHA1) as Ht1. pose proof (Hl SHA1) as Hl1. pose proof (Ht SHA256) as Ht2. pose proof (Hl SHA256) as Hl2.
  cbn [hash_hex] in *. split; [|by destruct pm].
  destruct pm; cbn [VerifySignature GenerateSignature]; try done.
  - unfold verifyMavenSignature. rewrite Ht1, Hl1. apply (Hok SHA1).
  - unfold verifyNpmSignature. assert (TrimSpace ("sha1-" +:+ sha1_hex content) = "sha1-" +:+ sha1_hex content) as ->.
    { apply str_all_words. change (str_all word_char ("sha1-" +:+ sha1_hex content) = true).
      rewrite str_all_app. exact (is_word_all _ (hash_hex_word SHA1 content)). }
    assert (∀ t, HasPrefix ("sha1-" +:+ t) "sha512-" = false) as -> by done.
    assert (∀ t, HasPrefix ("sha1-" +:+ t) "sha1-" = true) as -> by (intros t; apply (prefix_app "sha1-" t)). rewrite TrimPrefix_app. apply (Hok SHA1).
  - unfold verifyPypiSignature. rewrite Ht2, Hl2. apply (Hok SHA256).
  - unfold verifyGenericSignature. rewrite Ht2, Hl2. apply (Hok SHA256).
Qed.

(** ** Errors *)

(** A mapped error, as it should be. *)
Definition mapped (err e : goerror) : Prop :=
  ∃ code message pmType status retryable,
    e = EProxy code message pmType status retryable err ∧
    status ∈ [400; 401; 403; 404; 429; 502; 503; 504] ∧
    (retryable = true ↔ status ∈ [429; 502; 503; 504]).

Lemma mapped_intro code message pmType status retryable err :
  status ∈ [400; 401; 403; 404; 429; 502; 503; 504] →
  retryable = bool_decide (status ∈ [429; 502; 503; 504]) →
  mapped err (EProxy code message pmType status retryable err).
Proof. intros Hs ->. eexists _, _, _, _, _. split; [done|]. split; [done|]. by rewrite bool_decide_eq_true. Qed.

Lemma generic_mapped err : mapped err (mapGenericError err).
Proof. unfold mapGenericError. repeat case_match; (apply mapped_intro; [set_solver|by vm_compute]). Qed.

Lemma specific_mapped pm err e : mapHTTPError pm err = Some e → mapped err e.
Proof.
  unfold mapHTTPError. intros H. apply fmap_Some in H as ([ts [[[code msg] status] retryable]] & Hf & ->).
  apply List.find_some in Hf as [Hin _]. cbn [snd make_error]. apply mapped_intro; cbn in Hin;
    repeat destruct Hin as [[= <- <- <- <- <-]|Hin]; try done; try set_solver; by vm_compute.
Qed.

(** C8: Every error that was not yet mapped becomes a proxy error that keeps it as its
    cause, has one of eight HTTP statuses, is retryable exactly when the status is 429 or
    5xx, and is not changed by being mapped again, for any package manager. *)
Theorem MapError_total (pm pm' : PMType) (text : string) :
  mapped (EText text) (MapError pm (EText text)) ∧
  MapError pm' (MapError pm (EText text)) = MapError pm (EText text) ∧
  (IsRetryableError (MapError pm (EText text)) = true ↔
   ∃ code message p status retryable,
     MapError pm (EText text) = EProxy code message p status retryable (EText text) ∧ (status = 429 ∨ 500 <= status)).
Proof.
  assert (mapped (EText text) (MapError pm (EText text))) as Hm.
  { unfold MapError. cbn [is_proxy]. destruct (mapHTTPError pm (EText text)) as [e|] eqn:E; [by eapply specific_mapped|].
    destruct pm; try apply generic_mapped;
      unfold mapMavenError, mapNpmError, mapAptError, mapRegistryError; repeat case_match;
      first [apply generic_mapped | apply mapped_intro; [set_solver|by vm_compute]]. }
  split; [done|]. destruct Hm as (code & message & p & status & retryable & E & Hs & Hr). rewrite E. split; [done|].
  cbn [IsRetryableError]. set_unfold in Hs. set_unfold in Hr. split.
  - intros H%Hr. eexists _, _, _, _, _. split; [done|]. lia.
  - intros (? & ? & ? & ? & ? & [= <- <- <- <- <-] & H). apply Hr. lia.
Qed.
