(* ===== verification/FileRepository.v ===== *)
(** * FileRepository: the cache repository of the proxy services

    Models [src/internal/repositories/cache/file_repository.go] and [interface.go] on the
    file system of [GoFS]: the items in memory, the files below the base directory, and
    [metadata.json], whose encoding is the class [Codec].  [List], which matches keys with
    a pattern, is left out; the ticker that runs [cleanup] is too. *)

From Stdlib Require Import Ascii.
From S2P Require Import Prelude GoStrings GoPath GoFS GoUrl.

Record CacheItem := mkItem { it_Key : string; it_Size : Z; it_ModifiedAt : instant; it_AccessedAt : instant; it_TTL : duration }.

Record CacheStats := mkStats {
  st_TotalItems : Z; st_TotalSize : Z; st_OldestItem : instant; st_NewestItem : instant;
  st_HitCount : Z; st_MissCount : Z; st_EvictedCount : Z
}.

Inductive repo_err :=
| KeyNotFound | ItemExpired | OpenFailed (e : os_err) | MkdirFailed (e : os_err) | TempFailed (e : os_err) | CopyFailed
| RenameFailed (e : os_err) | RemoveFailed (e : os_err) | WalkFailed (e : os_err) | LoadFailed (e : os_err) | BadMetadata.

(** The repository and the disk below it. *)
Record Repo (S : Type) := mkRepo {
  rp_metadata : gmap string CacheItem; rp_hits : Z; rp_misses : Z; rp_evicted : Z; rp_fs : S
}.
Arguments mkRepo {S}.
Arguments rp_metadata {S}.
Arguments rp_hits {S}.
Arguments rp_misses {S}.
Arguments rp_evicted {S}.
Arguments rp_fs {S}.

Section repo.
Context {S : Type} {FS : FileSystem S} {CM : Codec (gmap string CacheItem)} (basePath : string).

Implicit Types r : Repo S.

Definition with_fs (fs : S) r : Repo S := mkRepo (rp_metadata r) (rp_hits r) (rp_misses r) (rp_evicted r) fs.
Definition with_metadata (m : gmap string CacheItem) r : Repo S := mkRepo m (rp_hits r) (rp_misses r) (rp_evicted r) (rp_fs r).
Definition count_miss r : Repo S := mkRepo (rp_metadata r) (rp_hits r) (rp_misses r + 1) (rp_evicted r) (rp_fs r).
Definition count_hit r : Repo S := mkRepo (rp_metadata r) (rp_hits r + 1) (rp_misses r) (rp_evicted r) (rp_fs r).

Definition getFilePath (key : string) : string := PathJoin basePath (ReplaceAll key ".." EmptyString).

Definition isExpired (now : instant) (item : CacheItem) : bool :=
  if it_TTL item =? 0 then false else time_after now (time_add (it_ModifiedAt item) (it_TTL item)).

Definition metaPath : string := PathJoin basePath "metadata.json".

(** The error is only logged. *)
Definition saveMetadata r : Repo S :=
  match json_marshal (rp_metadata r) with
  | None => r
  | Some data => with_fs (WriteFile metaPath data (rp_fs r)).2 r
  end.

(** A missing file is no error. *)
Definition loadMetadata r : option repo_err * Repo S :=
  match ReadFile metaPath (rp_fs r) with
  | Err ErrNotExist => (None, r)
  | Err e => (Some (LoadFailed e), r)
  | Ok data =>
      match json_unmarshal data with
      | Some m => (None, with_metadata m r)
      | None => (Some BadMetadata, r)
      end
  end.

(** The limits [maxSize] and [maxAge] are kept and never read. *)
Definition NewFileRepository (fs : S) : result repo_err (Repo S) :=
  match MkdirAll basePath fs with
  | (Some e, _) => Err (MkdirFailed e)
  | (None, fs) => Ok (loadMetadata (mkRepo ∅ 0 0 0 fs)).2
  end.

Definition touch (now : instant) (item : CacheItem) : CacheItem :=
  mkItem (it_Key item) (it_Size item) (it_ModifiedAt item) now (it_TTL item).

(** The content that the opened file delivers; [now'] is read for the access time. *)
Definition Get (now now' : instant) (key : string) r : result repo_err string * Repo S :=
  match rp_metadata r !! key with
  | None => (Err KeyNotFound, count_miss r)
  | Some item =>
      if isExpired now item then (Err ItemExpired, count_miss r)
      else
        match OpenFile (getFilePath key) (rp_fs r) with
        | Err e => (Err (OpenFailed e), count_miss r)
        | Ok data => (Ok data, count_hit (with_metadata (<[ key := touch now' item ]> (rp_metadata r)) r))
        end
  end.

(** [temp] is what [os.CreateTemp] appends to the name; [left] what the copy leaves unread
    in the reader when it fails. *)
Definition Put (temp : string) (left : Reader) (now : instant) (key : string) (content : Reader) (ttl : duration) r :
    option repo_err * Reader * Repo S :=
  let filePath := getFilePath key in
  let dir := Dir filePath in
  match MkdirAll dir (rp_fs r) with
  | (Some e, fs) => (Some (MkdirFailed e), content, with_fs fs r)
  | (None, fs) =>
      let tmpPath := PathJoin dir (".tmp-" +:+ temp) in
      match CreateFile tmpPath fs with
      | (Some e, fs) => (Some (TempFailed e), content, with_fs fs r)
      | (None, fs) =>
          let '(copy_err, fs) := CopyTo tmpPath (rd_data content) fs in
          let fs := (CloseFile tmpPath fs).2 in
          if bool_decide (is_Some copy_err) || rd_fails content then (Some CopyFailed, left, with_fs (Remove tmpPath fs).2 r)
          else
            let drained := mkReader EmptyString false in
            match Rename tmpPath filePath fs with
            | (Some e, fs) => (Some (RenameFailed e), drained, with_fs (Remove tmpPath fs).2 r)
            | (None, fs) =>
                let item := mkItem key (Z.of_nat (String.length (rd_data content))) now now ttl in
                (None, drained, saveMetadata (with_metadata (<[ key := item ]> (rp_metadata r)) (with_fs fs r)))
            end
      end
  end.

Definition Exists (now : instant) (key : string) r : bool :=
  match rp_metadata r !! key with
  | None => false
  | Some item =>
      if isExpired now item then false
      else match StatFile (getFilePath key) (rp_fs r) with Some ErrNotExist => false | _ => true end
  end.

Definition Delete (key : string) r : option repo_err * Repo S :=
  match Remove (getFilePath key) (rp_fs r) with
  | (Some ErrOther, fs) => (Some (RemoveFailed ErrOther), with_fs fs r)
  | (_, fs) => (None, saveMetadata (with_metadata (delete key (rp_metadata r)) (with_fs fs r)))
  end.

Definition Size (key : string) r : result repo_err Z :=
  match rp_metadata r !! key with Some item => Ok (it_Size item) | None => Err KeyNotFound end.

(** The walk stops at the first error, its own or that of a removal. *)
Fixpoint clear_walk (es : list walk_entry) (fs : S) : option os_err * S :=
  match es with
  | [] => (None, fs)
  | e :: es =>
      match we_info e with
      | Err err => (Some err, fs)
      | Ok (dir, _) =>
          if dir || HasSuffix (we_path e) "metadata.json" then clear_walk es fs
          else match Remove (we_path e) fs with
               | (Some err, fs) => (Some err, fs)
               | (None, fs) => clear_walk es fs
               end
      end
  end.

Definition Clear r : option repo_err * Repo S :=
  match clear_walk (Walk basePath (rp_fs r)) (rp_fs r) with
  | (Some e, fs) => (Some (WalkFailed e), with_fs fs r)
  | (None, fs) => (None, saveMetadata (with_metadata ∅ (with_fs fs r)))
  end.

(** One item of the loop of [Stats]: the total size, the oldest and the newest item. *)
Definition stats_step (acc : Z * instant * instant) (item : CacheItem) : Z * instant * instant :=
  let '(total, oldest, newest) := acc in
  (wrap64 (total + it_Size item),
   (if time_is_zero oldest || time_before (it_ModifiedAt item) oldest then it_ModifiedAt item else oldest),
   (if time_is_zero newest || time_after (it_ModifiedAt item) newest then it_ModifiedAt item else newest)).

(** [order] is the order in which the map is iterated. *)
Definition Stats (order : list (string * CacheItem)) r : CacheStats :=
  let '(total, oldest, newest) := fold_left stats_step order.*2 (0, zero_time, zero_time) in
  mkStats (Z.of_nat (size (rp_metadata r))) total oldest newest (rp_hits r) (rp_misses r) (rp_evicted r).

(** The errors of the removals are dropped. *)
Definition evict_expired r (key : string) : Repo S :=
  let fs := (Remove (getFilePath key) (rp_fs r)).2 in
  mkRepo (delete key (rp_metadata r)) (rp_hits r) (rp_misses r) (rp_evicted r + 1) fs.

(** All the items are compared before the first is removed; each reads the clock. *)
Definition cleanup (now : string → instant) (order : list (string * CacheItem)) r : Repo S :=
  let keysToDelete := (List.filter (λ e, isExpired (now e.1) e.2) order).*1 in
  let r := fold_left evict_expired keysToDelete r in
  match keysToDelete with [] => r | _ => saveMetadata r end.
End repo.

(** ** Paths of keys *)

Lemma no_double_dot_step c d r :
  ReplaceAll (String c (String d r)) ".." EmptyString =
  if Ascii.eqb c "." && Ascii.eqb d "." then ReplaceAll r ".." EmptyString
  else String c (ReplaceAll (String d r) ".." EmptyString).
Proof.
  unfold ReplaceAll. destruct (Ascii.eqb_spec c ".") as [->|Hc]; [destruct (Ascii.eqb_spec d ".") as [->|Hd]|]; cbn [andb].
  - by destruct r.
  - cbn [replace_go String.prefix]. destruct (ascii_dec "." "."); [|done]. destruct (ascii_dec "." d); [congruence|done].
  - cbn [replace_go String.prefix]. destruct (ascii_dec "." c); [congruence|done].
Qed.

(** A single pass leaves no two dots in a row. *)
Lemma no_double_dot s : Contains (ReplaceAll s ".." EmptyString) ".." = false.
Proof.
  assert (∀ n s, (String.length s <= n)%nat →
    Contains (ReplaceAll s ".." EmptyString) ".." = false ∧
    (∀ c r, s = String c r → c ≠ "."%char → ∃ r', ReplaceAll s ".." EmptyString = String c r')) as H; [|by eapply H].
  clear s. induction n as [|n IH]; intros [|c [|d r]] Hl; cbn in Hl; try lia; try done.
  - destruct (Ascii.eqb_spec c ".") as [->|Hc]; [split; [done|by intros ? ? [= <- <-]]|].
    assert (ReplaceAll (String c EmptyString) ".." EmptyString = String c EmptyString) as ->.
    { unfold ReplaceAll. cbn [replace_go String.prefix]. destruct (ascii_dec "." c); [congruence|done]. }
    split; [|intros ? ? [= <- <-] _; eauto]. cbn [Contains String.prefix]. destruct (ascii_dec "." c); [congruence|done].
  - rewrite no_double_dot_step. destruct (Ascii.eqb_spec c ".") as [->|Hc]; cbn [andb].
    + destruct (Ascii.eqb_spec d ".") as [->|Hd]; [split; [apply IH; lia|by intros ? ? [= <- <-]]|].
      split; [|by intros ? ? [= <- <-]]. destruct (IH (String d r) ltac:(cbn; lia)) as [H1 H2].
      destruct (H2 d r eq_refl Hd) as [r' E]. rewrite E in *. cbn [Contains String.prefix] in *.
      destruct (ascii_dec "." "."); [|done]. destruct (ascii_dec "." d); [congruence|]. exact H1.
    + split; [|intros ? ? [= <- <-] _; eauto].
      cbn [Contains String.prefix]. destruct (ascii_dec "." c); [congruence|]. apply (IH (String d r)). cbn. lia.
Qed.

Section laws.
Context {S : Type} {FS : FileSystem S} {FL : FileSystemLaws S} {CM : Codec (gmap string CacheItem)}.
Context (bs : list string) (Hbs : Forall (λ c, segment c = true) bs).

Local Notation base := (unsplit true bs).
Implicit Types r : Repo S.

Lemma getFilePath_segments key :
  getFilePath base key = unsplit true (bs ++ segments_of (ReplaceAll key ".." EmptyString)).
Proof. unfold getFilePath. apply PathJoin_no_dotdot; [done|]. apply Contains_no_dotdot, no_double_dot. Qed.

(** Below a clean base every key has its file below the base, whatever the key; two keys
    have the same file exactly when they have the same components once every pair of dots
    is cut out of them. *)
Theorem getFilePath_iff key key' :
  HasPrefix (getFilePath base key) base = true ∧
  (getFilePath base key = getFilePath base key' ↔
   segments_of (ReplaceAll key ".." EmptyString) = segments_of (ReplaceAll key' ".." EmptyString)).
Proof.
  rewrite !getFilePath_segments. split; [apply unsplit_prefix|]. split; [|by intros ->].
  intros E%unsplit_inj; [by apply app_inv_head in E|apply Forall_app; split; [done|apply Forall_filter_segments]..].
Qed.

(** The keys of the proxies: names joined by slashes, without two dots in a row. *)
Definition proper_key (key : string) : Prop :=
  ∃ k ks, key = Join (k :: ks) "/" ∧ Forall (λ c, segment c = true) (k :: ks) ∧ Contains key ".." = false ∧
    k :: ks ≠ ["metadata.json"%string].

Lemma ReplaceAll_absent s : Contains s ".." = false → ReplaceAll s ".." EmptyString = s.
Proof.
  unfold ReplaceAll. induction s as [|c s IH]; [done|]. cbn [Contains]. intros [Hp Hs]%orb_false_iff.
  cbn [replace_go]. by rewrite Hp, IH.
Qed.

Lemma proper_path k ks :
  Forall (λ c, segment c = true) (k :: ks) → Contains (Join (k :: ks) "/") ".." = false →
  getFilePath base (Join (k :: ks) "/") = unsplit true (bs ++ k :: ks).
Proof. intros Hf Hd. unfold getFilePath. rewrite ReplaceAll_absent by done. by apply PathJoin_segments. Qed.

Lemma proper_path_inj key key' :
  proper_key key → proper_key key' → getFilePath base key = getFilePath base key' → key = key'.
Proof.
  intros (k & ks & -> & Hf & Hd & _) (k' & ks' & -> & Hf' & Hd' & _). rewrite !proper_path by done.
  intros E%unsplit_inj; [|by apply Forall_app|by apply Forall_app]. apply app_inv_head in E. by rewrite E.
Qed.

Lemma metaPath_eq : metaPath base = unsplit true (bs ++ ["metadata.json"%string]).
Proof. apply (PathJoin_segments bs "metadata.json" []); [done|]. by repeat constructor. Qed.

Lemma proper_path_meta key : proper_key key → getFilePath base key ≠ metaPath base.
Proof.
  intros (k & ks & -> & Hf & Hd & Hm). rewrite proper_path, metaPath_eq by done.
  intros E%unsplit_inj; [|by apply Forall_app|apply Forall_app; split; [done|by repeat constructor]].
  by apply app_inv_head in E.
Qed.

(** ** What a key holds *)

(** The content stored for a key, expired or not. *)
Definition stored r (key : string) : option string :=
  match rp_metadata r !! key with Some _ => files (rp_fs r) !! getFilePath base key | None => None end.

(** Every key of the map is proper and has its file. *)
Definition consistent r : Prop :=
  ∀ key, is_Some (rp_metadata r !! key) → proper_key key ∧ is_Some (files (rp_fs r) !! getFilePath base key).

(** [os.CreateTemp] creates a file that was not there. *)
Definition temp_path (temp key : string) : string := PathJoin (Dir (getFilePath base key)) (".tmp-" +:+ temp).
Definition fresh_temp (temp key : string) r : Prop := files (rp_fs r) !! temp_path temp key = None.

Lemma saveMetadata_frame r p : p ≠ metaPath base → files (rp_fs (saveMetadata base r)) !! p = files (rp_fs r) !! p.
Proof. intros H. unfold saveMetadata. destruct (json_marshal _) as [d|]; [|done]. cbn. by rewrite WriteFile_frame. Qed.

Lemma saveMetadata_metadata r : rp_metadata (saveMetadata base r) = rp_metadata r.
Proof. unfold saveMetadata. by destruct (json_marshal _). Qed.

Lemma Remove_frame p fs q : q ≠ p → files (Remove p fs).2 !! q = files fs !! q.
Proof.
  intros H. destruct (Remove p fs) as [o fs'] eqn:E. destruct (decide (o = None)) as [->|Ho].
  - pose proof (Remove_ok p fs) as Hr. rewrite E in Hr. cbn in *. rewrite Hr by done. by rewrite lookup_delete_ne.
  - pose proof (Remove_err p fs) as Hr. rewrite E in Hr. cbn in *. by rewrite Hr.
Qed.

Lemma Get_stored now now' key r d r' :
  consistent r → Get base now now' key r = (Ok d, r') → stored r key = Some d.
Proof.
  unfold Get, stored. intros Hc. destruct (rp_metadata r !! key) as [item|] eqn:E; [|done].
  destruct (isExpired now item); [done|]. destruct (OpenFile _ _) as [d'|] eqn:Ho; [|done]. intros [= <- _].
  apply OpenFile_ok in Ho as [Ho|[Ho _]]; [done|]. destruct (Hc key) as [_ [? Hf]]; [by rewrite E|]. congruence.
Qed.

(** Reading changes no content. *)
Lemma Get_state now now' key r k :
  (consistent r → consistent (Get base now now' key r).2) ∧ stored (Get base now now' key r).2 k = stored r k.
Proof.
  unfold Get, stored, consistent. destruct (rp_metadata r !! key) as [item|] eqn:E; [|done].
  destruct (isExpired now item); [done|]. destruct (OpenFile _ _) as [d'|]; [|done].
  cbn [snd count_hit with_metadata rp_metadata rp_fs]. split.
  - intros Hc k' Hk'. apply Hc. rewrite lookup_insert_is_Some in Hk'. destruct Hk' as [->|[_ ?]]; [by rewrite E|done].
  - destruct (decide (key = k)) as [->|Hn]; [by rewrite lookup_insert, decide_True, E by done|].
    by rewrite lookup_insert_ne.
Qed.

Context (close_ok : ∀ p fs, (CloseFile p fs).1 = None).

Lemma temp_other temp key k r :
  consistent r → fresh_temp temp key r → is_Some (rp_metadata r !! k) → getFilePath base k ≠ temp_path temp key.
Proof. intros Hc Hf Hk E. destruct (Hc k Hk) as [_ [d Hd]]. unfold fresh_temp in Hf. congruence. Qed.

Lemma stored_frame r r' k :
  rp_metadata r' !! k = rp_metadata r !! k →
  (is_Some (rp_metadata r !! k) → files (rp_fs r') !! getFilePath base k = files (rp_fs r) !! getFilePath base k) →
  stored r' k = stored r k.
Proof. unfold stored. intros -> H. destruct (rp_metadata r !! k); [by apply H|done]. Qed.

Lemma consistent_frame r r' :
  consistent r → rp_metadata r' = rp_metadata r →
  (∀ k, is_Some (rp_metadata r !! k) → files (rp_fs r') !! getFilePath base k = files (rp_fs r) !! getFilePath base k) →
  consistent r'.
Proof. intros Hc E Hf k. rewrite E. intros Hk. rewrite Hf by done. by apply Hc. Qed.

Lemma close_files p fs : files (CloseFile p fs).2 = files fs.
Proof. apply CloseFile_ok, close_ok. Qed.

(** What [Put] does to the files, whatever fails. *)
Lemma Put_cases temp left now key content ttl r :
  proper_key key →
  let '(e, _, r') := Put base temp left now key content ttl r in
  match e with
  | Some _ =>
      rp_metadata r' = rp_metadata r ∧
      ∀ q, q ≠ temp_path temp key → files (rp_fs r') !! q = files (rp_fs r) !! q
  | None =>
      rp_metadata r' = <[ key := mkItem key (Z.of_nat (String.length (rd_data content))) now now ttl ]> (rp_metadata r) ∧
      rd_fails content = false ∧
      files (rp_fs r') !! getFilePath base key = Some (rd_data content) ∧
      ∀ q, q ≠ temp_path temp key → q ≠ getFilePath base key → q ≠ metaPath base →
        files (rp_fs r') !! q = files (rp_fs r) !! q
  end.
Proof.
  intros Hk. unfold Put. fold (temp_path temp key). set (t := temp_path temp key).
  pose proof (MkdirAll_files (Dir (getFilePath base key)) (rp_fs r)) as Hmk.
  destruct (MkdirAll _ _) as [[e|] fs1]; cbn in Hmk; [cbn; by rewrite Hmk|].
  pose proof (CreateFile_ok t fs1) as Hc. pose proof (CreateFile_err t fs1) as Hce.
  destruct (CreateFile t fs1) as [[e|] fs2]; cbn in Hc, Hce; [cbn; rewrite Hce, Hmk by done; done|].
  specialize (Hc eq_refl). clear Hce.
  pose proof (CopyTo_ok t (rd_data content) fs2) as Hcp. pose proof (λ q, CopyTo_frame t (rd_data content) fs2 q) as Hcf.
  destruct (CopyTo t (rd_data content) fs2) as [o fs3]; cbn in Hcp, Hcf.
  assert (∀ q, q ≠ t → files fs3 !! q = files (rp_fs r) !! q) as Hfr.
  { intros q Hq. rewrite Hcf, Hc, lookup_insert_ne, Hmk by done. done. }
  destruct (bool_decide (is_Some o) || rd_fails content) eqn:Hb.
  { cbn. split; [done|]. intros q Hq. rewrite Remove_frame, close_files by done. by apply Hfr. }
  apply orb_false_iff in Hb as [Ho Hrd]. apply bool_decide_eq_false, eq_None_not_Some in Ho as ->. specialize (Hcp eq_refl).
  pose proof (Rename_ok t (getFilePath base key) (CloseFile t fs3).2 (rd_data content)) as Hrn.
  pose proof (Rename_err t (getFilePath base key) (CloseFile t fs3).2) as Hre.
  destruct (Rename t _ _) as [[e|] fs4]; cbn in Hrn, Hre.
  { cbn. split; [done|]. intros q Hq. rewrite Remove_frame, Hre, close_files by done. by apply Hfr. }
  rewrite close_files, Hcp, lookup_insert, decide_True in Hrn by done. specialize (Hrn eq_refl eq_refl).
  rewrite saveMetadata_metadata. split; [done|]. split; [done|]. split.
  - rewrite saveMetadata_frame by (by apply proper_path_meta). cbn. by rewrite Hrn, lookup_insert, decide_True.
  - intros q Hq Hqk Hqm. rewrite saveMetadata_frame by done. cbn.
    rewrite Hrn, lookup_insert_ne, lookup_delete_ne, <- Hfr, Hcp by done. by rewrite lookup_insert_ne.
Qed.

Lemma Put_stored temp left now key content ttl r :
  proper_key key → consistent r → fresh_temp temp key r →
  let '(e, _, r') := Put base temp left now key content ttl r in
  consistent r' ∧
  (∀ k, k ≠ key → stored r' k = stored r k) ∧
  match e with
  | Some _ => stored r' key = stored r key
  | None => stored r' key = Some (rd_data content) ∧ rd_fails content = false
  end.
Proof.
  intros Hk Hc Hf. pose proof (Put_cases temp left now key content ttl r Hk) as H.
  destruct (Put _ _ _ _ _ _ _ _) as [[[e|] lr] r'].
  - destruct H as [Hm Hfr].
    assert (∀ k, is_Some (rp_metadata r !! k) → files (rp_fs r') !! getFilePath base k = files (rp_fs r) !! getFilePath base k)
      as Hq by (intros k Hk'; apply Hfr; by eapply temp_other).
    split; [by eapply consistent_frame|]. split; [intros k _|]; apply stored_frame; [by rewrite Hm|by apply Hq|by rewrite Hm|by apply Hq].
  - destruct H as (Hm & Hrd & Hd & Hfr).
    assert (∀ k, k ≠ key → is_Some (rp_metadata r !! k) →
      files (rp_fs r') !! getFilePath base k = files (rp_fs r) !! getFilePath base k) as Hq.
    { intros k Hn Hs. destruct (Hc k Hs) as [Hp _]. apply Hfr; [by eapply temp_other| |by apply proper_path_meta].
      intros E. by apply proper_path_inj in E. }
    split; [|split].
    + intros k. rewrite Hm, lookup_insert_is_Some. intros [<-|[Hn Hs]]; [rewrite Hd; split; [done|eauto]|].
      rewrite Hq by done. by apply Hc.
    + intros k Hn. apply stored_frame; [by rewrite Hm, lookup_insert_ne|by apply Hq].
    + split; [|done]. unfold stored. by rewrite Hm, lookup_insert, decide_True.
Qed.
End laws.

(** ** Witness *)

Lemma getFilePath_iff_witness :
  getFilePath "/cache" "npm/a..b" = getFilePath "/cache" "npm/ab" ∧ HasPrefix (getFilePath "/cache" "../../etc/passwd") "/cache" = true.
Proof.
  assert (Forall (λ c, segment c = true) ["cache"%string]) as Hs by (by repeat constructor).
  split; [apply (getFilePath_iff ["cache"%string] Hs); vm_compute; reflexivity|].
  apply (getFilePath_iff ["cache"%string] Hs "../../etc/passwd" EmptyString).
Defined.
