(* ===== verification/ProxyBase.v ===== *)
(** * ProxyBase: what the proxy services share

    Models [src/internal/services/proxy/base_service.go] and [interface.go], the cache
    adapter of [src/internal/services/adapters/cache_adapter.go], and the loop over the
    upstreams that the services of [src/internal/services/proxy] have in common.  The cache
    is the class [CacheService] with the laws [CacheLaws], which the file repository behind
    the adapter satisfies; the network is the class [HttpClient].  Logging is left out. *)

From Stdlib Require Import Ascii.
From S2P Require Import Prelude GoStrings GoPath GoFS GoBase64 GoUrl PathValidator FileRepository.

(** ** Requests and responses *)

Record ProxyRequest := mkRequest {
  pr_Path : string; pr_ProxyType : string; pr_Method : string; pr_Headers : gmap string string; pr_RemoteAddr : string
}.

(** A body is a reader: what it delivers and whether it then fails. *)
Record ProxyResponse := mkResponse {
  ps_Body : Reader; ps_StatusCode : Z; ps_Headers : gmap string string; ps_ContentType : string; ps_FileName : string;
  ps_Cached : bool
}.

Definition text_body (s : string) : Reader := mkReader s false.

(** What one request reads from its environment: the clock at each call of the cache, the
    name [os.CreateTemp] picks, what a failed copy leaves unread, the working directory. *)
Record Env := mkEnv {
  at_exists : instant; at_get : instant; at_touch : instant; at_put : instant;
  temp_name : string; unread : Reader; working_dir : option string
}.

(** ** The cache *)

Class CacheService (S E : Type) := {
  cs_Exists : Env → string → S → result E bool * S;
  cs_Get : Env → string → S → result E (option Reader) * S;
  cs_Put : Env → string → Reader → S → option E * Reader * S
}.

(** What the services rely on.  [cs_stored] is what a key holds, [cs_valid] an invariant of
    the cache, [cs_fresh] says that the environment picks a name for the temporary file of a
    key that is not taken.  Reading changes no content; a [Put] that succeeds has read all
    of its reader, which is then empty. *)
Class CacheLaws (S E : Type) {CS : CacheService S E} := {
  cs_stored : S → string → option string;
  cs_valid : S → Prop;
  cs_fresh : Env → string → S → Prop;
  cs_same s s' := (cs_valid s → cs_valid s') ∧ (∀ k, cs_stored s' k = cs_stored s k) ∧ ∀ env k, cs_fresh env k s → cs_fresh env k s';
  cs_exists_state env key s : cs_same s (cs_Exists env key s).2;
  cs_get_state env key s : cs_same s (cs_Get env key s).2;
  cs_get_stored env key s r : cs_valid s → (cs_Get env key s).1 = Ok (Some r) → cs_stored s key = Some (rd_data r);
  cs_put env key r s : cs_valid s → proper_key key → cs_fresh env key s →
    let '(e, rest, s') := cs_Put env key r s in
    cs_valid s' ∧ (∀ k, k ≠ key → cs_stored s' k = cs_stored s k) ∧
    match e with
    | Some _ => cs_stored s' key = cs_stored s key
    | None => cs_stored s' key = Some (rd_data r) ∧ rd_fails r = false ∧ rest = text_body EmptyString
    end
}.

(** ** The adapter of the file repository *)

Section adapter.
Context {S : Type} {FS : FileSystem S} {CM : Codec (gmap string CacheItem)} (basePath : string) (ttl : duration).

(** A miss of any kind is no error here. *)
Definition adapter_Get (env : Env) (key : string) (r : Repo S) : result repo_err (option Reader) * Repo S :=
  match Get basePath (at_get env) (at_touch env) key r with
  | (Err _, r) => (Ok None, r)
  | (Ok data, r) => (Ok (Some (text_body data)), r)
  end.

Definition adapter_Put (env : Env) (key : string) (content : Reader) (r : Repo S) : option repo_err * Reader * Repo S :=
  Put basePath (temp_name env) (unread env) (at_put env) key content ttl r.

Definition adapter_Exists (env : Env) (key : string) (r : Repo S) : result repo_err bool * Repo S :=
  (Ok (Exists basePath (at_exists env) key r), r).

Definition adapter_Delete (key : string) (r : Repo S) : option repo_err * Repo S := Delete basePath key r.
End adapter.

(** ** Upstream requests *)

Record HttpRequest := mkHttp { hq_Method : string; hq_URL : string; hq_Header : gmap string string }.
Record HttpResponse := mkAnswer { ha_Status : Z; ha_Header : gmap string string; ha_Body : Reader }.

(** The HTTP client: whether a URL makes a request, and what the n-th upstream answers; of
    a header with several values the first, under its canonical name. *)
Class HttpClient := {
  bad_url : string → bool;
  client_Do : nat → HttpRequest → result string HttpResponse
}.

(** ** BaseProxyService *)

Section base.
Context {S E : Type} {CS : CacheService S E} (ProxyType : string).

Definition base_ValidateRequest (req : ProxyRequest) : option string :=
  if String.eqb (pr_Path req) EmptyString then Some "request path cannot be empty"%string
  else if ContainsTraversalPattern (pr_Path req) then Some "invalid path: directory traversal detected"%string
  else None.

Definition TryCache (env : Env) (cacheKey : string) (s : S) : result E (option Reader) * S :=
  match cs_Exists env cacheKey s with
  | (Err _, s) => (Ok None, s)
  | (Ok false, s) => (Ok None, s)
  | (Ok true, s) => cs_Get env cacheKey s
  end.

Definition CacheResponse (env : Env) (cacheKey : string) (content : Reader) (s : S) : option E * Reader * S :=
  cs_Put env cacheKey content s.

Definition BuildCacheKey (env : Env) (requestPath : string) : string :=
  match SafeJoinPath (working_dir env) ProxyType requestPath with
  | Ok cacheKey => cacheKey
  | Err _ => PathJoin ProxyType "invalid-path"
  end.

Definition DetermineContentType (filename : string) : string :=
  let ext := to_lower (Ext filename) in
  if String.eqb ext ".xml" || String.eqb ext ".pom" then "application/xml"
  else if String.eqb ext ".json" then "application/json"
  else if String.eqb ext ".jar" then "application/java-archive"
  else if String.eqb ext ".tar" then "application/x-tar"
  else if String.eqb ext ".gz" || String.eqb ext ".tgz" then "application/gzip"
  else if String.eqb ext ".zip" then "application/zip"
  else if String.eqb ext ".deb" then "application/vnd.debian.binary-package"
  else if String.eqb ext ".rpm" then "application/x-rpm"
  else "application/octet-stream".

Definition BuildProxyResponse (body : Reader) (statusCode : Z) (contentType filename : string) (cached : bool) : ProxyResponse :=
  let disposition :=
    if String.eqb filename EmptyString then ∅
    else if String.eqb contentType "application/xml" || HasSuffix filename ".xml"
    then {[ "Content-Disposition" := "inline; filename=" +:+ filename ]}
    else {[ "Content-Disposition" := "attachment; filename=" +:+ filename ]} in
  let headers : gmap string string :=
    <[ "X-Proxy-Type" := ProxyType ]> (<[ "X-Cache" := if cached then "HIT" else "MISS" ]> disposition) in
  mkResponse body statusCode headers contentType filename cached.

Definition plain_response (message : string) (statusCode : Z) : ProxyResponse :=
  mkResponse (text_body message) statusCode {[ "Content-Type" := "text/plain" ]} "text/plain" EmptyString false.

Definition HandleNotFound (message : string) : ProxyResponse := plain_response message 404.
Definition HandleError (err : string) (statusCode : Z) : ProxyResponse := plain_response err statusCode.
Definition base_HandleRequest (req : ProxyRequest) : ProxyResponse := plain_response "service not implemented" 501.

(** ** What the handlers of the services have in common *)

(** The body of a handler: the cached content when there is some and it makes an answer,
    and otherwise what the upstream gives.  The requests that were sent come along. *)
Definition from_cache (env : Env) (cacheKey : string) (answer : Reader → option ProxyResponse)
    (miss : S → ProxyResponse * list HttpRequest * S) (s : S) : ProxyResponse * list HttpRequest * S :=
  match TryCache env cacheKey s with
  | (Ok (Some content), s) =>
      match answer content with Some resp => (resp, [], s) | None => miss s end
  | (_, s) => miss s
  end.

(** A cached answer with the given headers, whose body is handed on as it is. *)
Definition streamed (headers : gmap string string) (contentType : string) (content : Reader) : option ProxyResponse :=
  Some (mkResponse content 200 headers contentType EmptyString true).

(** The same with the content read first; it is fetched again when that fails. *)
Definition read_all (headers : gmap string string) (contentType : string) (content : Reader) : option ProxyResponse :=
  if rd_fails content then None else Some (mkResponse (text_body (rd_data content)) 200 headers contentType EmptyString true).

(** [for _, h := range names { if v := header.Get(h); v != "" { headers[h] = v } }] *)
Definition copy_headers (names : list string) (from to : gmap string string) : gmap string string :=
  fold_left (λ headers h,
    match from !! h with
    | Some v => if String.eqb v EmptyString then headers else <[ h := v ]> headers
    | None => headers
    end) names to.

(** [if header.Get(name) == "" { header.Set(name, value) }] *)
Definition default_header (name value : string) (headers : gmap string string) : gmap string string :=
  if String.eqb (default EmptyString (headers !! name)) EmptyString then <[ name := value ]> headers else headers.

Definition basic_auth (username password : string) : string :=
  "Basic " +:+ EncodeToString StdEncoding (username +:+ (":" +:+ password)).

(** [httpReq.SetBasicAuth], when both are given. *)
Definition set_basic_auth (username password : string) (headers : gmap string string) : gmap string string :=
  if String.eqb username EmptyString || String.eqb password EmptyString then headers
  else <[ "Authorization" := basic_auth username password ]> headers.

(** [serverURL + "/" + requestPath] without a doubled slash. *)
Definition join_url (serverURL requestPath : string) : string :=
  TrimSuffix serverURL "/" +:+ ("/" +:+ TrimPrefix requestPath "/").
End base.

Section upstreams.
Context {S : Type} {HC : HttpClient}.

(** The loop over the upstreams: [early] ends it with the answer of an upstream that is not
    a success, [on_ok] takes the content of the first one that is.  An upstream that cannot
    be asked, that fails, or whose body cannot be read, is skipped. *)
Fixpoint try_upstreams (early : HttpResponse → option ProxyResponse)
    (on_ok : HttpResponse → string → S → ProxyResponse * S) (n : nat) (requests : list HttpRequest) (s : S) :
    option ProxyResponse * list HttpRequest * S :=
  match requests with
  | [] => (None, [], s)
  | q :: rest =>
      if bad_url (hq_URL q) then try_upstreams early on_ok (Datatypes.S n) rest s
      else
        let next s := let '(r, sent, s) := try_upstreams early on_ok (Datatypes.S n) rest s in (r, q :: sent, s) in
        match client_Do n q with
        | Err _ => next s
        | Ok resp =>
            match early resp with
            | Some r => (Some r, [q], s)
            | None =>
                if ha_Status resp =? 200 then
                  if rd_fails (ha_Body resp) then next s
                  else let '(r, s) := on_ok resp (rd_data (ha_Body resp)) s in (Some r, [q], s)
                else next s
            end
        end
  end.

Definition no_early (resp : HttpResponse) : option ProxyResponse := None.

(** The HEAD requests of the services: the first upstream that answers 200. *)
Fixpoint try_head (names : list string) (headers0 : gmap string string) (n : nat) (requests : list HttpRequest) :
    option ProxyResponse :=
  match requests with
  | [] => None
  | q :: rest =>
      if bad_url (hq_URL q) then try_head names headers0 (Datatypes.S n) rest
      else
        match client_Do n q with
        | Err _ => try_head names headers0 (Datatypes.S n) rest
        | Ok resp =>
            if ha_Status resp =? 200 then
              Some (mkResponse (text_body EmptyString) 200 (copy_headers names (ha_Header resp) headers0)
                      (default EmptyString (ha_Header resp !! "Content-Type")) EmptyString false)
            else try_head names headers0 (Datatypes.S n) rest
        end
  end.
End upstreams.
