(* ===== verification/ProxyServices.v ===== *)
(** * ProxyServices: the proxies of apk, yum, pip and apt repositories

    Models [apk_service.go], [yum_service.go], [pip_service.go] and [apt_service.go] of
    [src/internal/services/proxy]: how a request is classified, answered from the cache or
    fetched from the upstreams in their order, and stored.  [parsePackagesIndex] only logs. *)

From Stdlib Require Import Ascii.
From S2P Require Import Prelude GoStrings GoPath GoFS GoUrl PathValidator ProxyBase.

(** [strings.HasSuffix] for one of the texts. *)
Definition has_suffix (s : string) (suffixes : list string) : bool := existsb (HasSuffix s) suffixes.

(** An upstream; of the settings of a proxy the services read only the list of these. *)
Record Upstream := mkUpstream { up_Name : string; up_URL : string }.

Section services.
Context {S E : Type} {CS : CacheService S E} {HC : HttpClient}.

(** [headers := map[string]string{"Content-Type": ..., "X-Cache-Status": ...}] *)
Definition cache_headers (contentType status : string) : gmap string string :=
  <[ "X-Cache-Status" := status ]> {[ "Content-Type" := contentType ]}.

(** What the loop of [fetchFromUpstream] does with a success. *)
Definition store_and_answer (env : Env) (cacheKey contentType : string) (resp : HttpResponse) (data : string) (s : S) :
    ProxyResponse * S :=
  let s := if String.eqb cacheKey EmptyString then s else (CacheResponse env cacheKey (text_body data) s).2 in
  (mkResponse (text_body data) 200
     (<[ "X-Cache-Status" := "MISS" ]> (<[ "Content-Type" := contentType ]>
        (copy_headers ["Content-Length"; "ETag"; "Last-Modified"]%string (ha_Header resp) ∅)))
     contentType EmptyString false, s).

(** The whole of it, for the upstreams [urls]. *)
Definition fetch_from (env : Env) (cacheKey contentType notFound : string) (header : gmap string string)
    (urls : list string) (s : S) : ProxyResponse * list HttpRequest * S :=
  match try_upstreams no_early (store_and_answer env cacheKey contentType) 0 ((λ u, mkHttp "GET" u header) <$> urls) s with
  | (Some r, sent, s) => (r, sent, s)
  | (None, sent, s) => (HandleNotFound notFound, sent, s)
  end.

(** The whole of [HandleHead]; [urls] is [None] without upstreams. *)
Definition head_from (env : Env) (cacheKey contentType notFound : string) (header : gmap string string)
    (urls : option (list string)) (s : S) : ProxyResponse * S :=
  match cs_Exists env cacheKey s with
  | (Ok true, s) =>
      (mkResponse (text_body EmptyString) 200 {[ "Content-Type" := contentType ]} contentType EmptyString true, s)
  | (_, s) =>
      (match urls with
       | None => HandleNotFound "no proxies configured"
       | Some urls =>
           default (HandleNotFound notFound)
             (try_head ["Content-Length"; "Content-Type"; "ETag"; "Last-Modified"]%string ∅ 0
                ((λ u, mkHttp "HEAD" u header) <$> urls))
       end, s)
  end.

(** ** apk_service.go *)

Inductive ApkRequestType := ApkUnknown | ApkIndex | ApkPackage | ApkSignature | ApkDescription.

Definition apk_classifyRequest (requestPath : string) : ApkRequestType :=
  let filename := to_lower (Base requestPath) in
  let lowerPath := to_lower requestPath in
  if String.eqb filename "apkindex.tar.gz" then ApkIndex
  else if HasSuffix lowerPath ".apk" then ApkPackage
  else if has_suffix lowerPath [".sig"; ".rsa.pub"]%string then ApkSignature
  else if HasSuffix lowerPath ".txt" || String.eqb filename "description" then ApkDescription
  else ApkUnknown.

Definition apk_getContentType (requestPath : string) : string :=
  let lowerPath := to_lower requestPath in
  let filename := to_lower (Base requestPath) in
  if HasSuffix lowerPath ".apk" then "application/vnd.alpine.package"
  else if String.eqb filename "apkindex.tar.gz" then "application/gzip"
  else if has_suffix lowerPath [".tar.gz"; ".tgz"]%string then "application/gzip"
  else if HasSuffix lowerPath ".gz" then "application/gzip"
  else if has_suffix lowerPath [".sig"; ".rsa.pub"]%string then "application/octet-stream"
  else if HasSuffix lowerPath ".txt" then "text/plain; charset=utf-8"
  else "application/octet-stream".

(** The five headers of the client that are passed on, then two defaults. *)
Definition conditional_headers (agent : string) (req : ProxyRequest) : gmap string string :=
  default_header "Accept-Encoding" "gzip, deflate" (default_header "User-Agent" agent
    (copy_headers ["Accept"; "Accept-Encoding"; "User-Agent"; "If-Modified-Since"; "If-None-Match"]%string (pr_Headers req) ∅)).

Definition apk_copyRequestHeaders (req : ProxyRequest) : gmap string string :=
  conditional_headers "ProxyND/1.0 APK-Proxy" req.

Definition apk_buildUpstreamURL (serverURL requestPath : string) : string := join_url serverURL requestPath.

Definition apk_fetchFromUpstream (proxies : list Upstream) (env : Env) (req : ProxyRequest) (cacheKey : string) (s : S) :
    ProxyResponse * list HttpRequest * S :=
  match proxies with
  | [] => (HandleError "no apk proxies configured" 503, [], s)
  | _ =>
      fetch_from env cacheKey (apk_getContentType (pr_Path req)) "package not found in any upstream repository"
        (apk_copyRequestHeaders req) ((λ p, apk_buildUpstreamURL (up_URL p) (pr_Path req)) <$> proxies) s
  end.

(** The five handlers differ in the type they announce and in whether they read the content. *)
Definition apk_answer (req : ProxyRequest) : Reader → option ProxyResponse :=
  match apk_classifyRequest (pr_Path req) with
  | ApkIndex => read_all (cache_headers "application/gzip" "HIT") "application/gzip"
  | ApkPackage => streamed (cache_headers "application/vnd.alpine.package" "HIT") "application/vnd.alpine.package"
  | ApkSignature => streamed (cache_headers "application/octet-stream" "HIT") "application/octet-stream"
  | ApkDescription => read_all (cache_headers "text/plain; charset=utf-8" "HIT") "text/plain; charset=utf-8"
  | ApkUnknown => let ct := apk_getContentType (pr_Path req) in streamed (cache_headers ct "HIT") ct
  end.

Definition apk_HandleRequest (proxies : list Upstream) (env : Env) (req : ProxyRequest) (s : S) :
    ProxyResponse * list HttpRequest * S :=
  match base_ValidateRequest req with
  | Some e => (HandleError e 400, [], s)
  | None =>
      let cacheKey := BuildCacheKey "apk" env (pr_Path req) in
      from_cache env cacheKey (apk_answer req) (apk_fetchFromUpstream proxies env req cacheKey) s
  end.

Definition some_urls (proxies : list Upstream) (f : string → string) : option (list string) :=
  match proxies with [] => None | _ => Some ((λ p, f (up_URL p)) <$> proxies) end.

Definition apk_HandleHead (proxies : list Upstream) (env : Env) (req : ProxyRequest) (s : S) : ProxyResponse * S :=
  head_from env (BuildCacheKey "apk" env (pr_Path req)) (apk_getContentType (pr_Path req)) "package not found"
    (apk_copyRequestHeaders req) (some_urls proxies (λ u, apk_buildUpstreamURL u (pr_Path req))) s.

(** ** yum_service.go *)

Inductive YumRequestType :=
  YumUnknown | YumRepoMD | YumPrimary | YumFilelists | YumOther | YumComps | YumRPM | YumDRPM | YumModules.

Definition yum_classifyRequest (requestPath : string) : YumRequestType :=
  let path := TrimPrefix requestPath "/" in
  let filename := to_lower (Base path) in
  let lowerPath := to_lower path in
  if String.eqb filename "repomd.xml" then YumRepoMD
  else if HasPrefix filename "primary" then YumPrimary
  else if HasPrefix filename "filelists" then YumFilelists
  else if HasPrefix filename "other" then YumOther
  else if Contains filename "comps" || Contains filename "group" then YumComps
  else if HasPrefix filename "modules" then YumModules
  else if HasSuffix lowerPath ".rpm" then YumRPM
  else if HasSuffix lowerPath ".drpm" then YumDRPM
  else YumUnknown.

Definition yum_getContentType (requestPath : string) : string :=
  let lowerPath := to_lower requestPath in
  let ext := to_lower (Ext requestPath) in
  if HasSuffix lowerPath ".rpm" then "application/x-rpm"
  else if HasSuffix lowerPath ".drpm" then "application/x-rpm"
  else if HasSuffix lowerPath ".gz" then "application/gzip"
  else if HasSuffix lowerPath ".xz" then "application/x-xz"
  else if HasSuffix lowerPath ".bz2" then "application/x-bzip2"
  else if String.eqb ext ".xml" || HasSuffix lowerPath "repomd.xml" then "application/xml"
  else "application/octet-stream".

Definition yum_copyRequestHeaders (req : ProxyRequest) : gmap string string :=
  conditional_headers "ProxyND/1.0 YUM-Proxy" req.

Definition yum_buildUpstreamURL (serverURL requestPath : string) : string := join_url serverURL requestPath.

Definition yum_fetchFromUpstream (proxies : list Upstream) (env : Env) (req : ProxyRequest) (cacheKey : string) (s : S) :
    ProxyResponse * list HttpRequest * S :=
  match proxies with
  | [] => (HandleError "no yum proxies configured" 503, [], s)
  | _ =>
      fetch_from env cacheKey (yum_getContentType (pr_Path req)) "package not found in any upstream repository"
        (yum_copyRequestHeaders req) ((λ p, yum_buildUpstreamURL (up_URL p) (pr_Path req)) <$> proxies) s
  end.

Definition yum_answer (req : ProxyRequest) : Reader → option ProxyResponse :=
  let ct := yum_getContentType (pr_Path req) in
  match yum_classifyRequest (pr_Path req) with
  | YumRepoMD => read_all (cache_headers "application/xml" "HIT") "application/xml"
  | YumPrimary | YumFilelists | YumOther | YumComps | YumModules => streamed (cache_headers ct "HIT") ct
  | YumRPM | YumDRPM => streamed (cache_headers "application/x-rpm" "HIT") "application/x-rpm"
  | YumUnknown => streamed (cache_headers ct "HIT") ct
  end.

Definition yum_HandleRequest (proxies : list Upstream) (env : Env) (req : ProxyRequest) (s : S) :
    ProxyResponse * list HttpRequest * S :=
  match base_ValidateRequest req with
  | Some e => (HandleError e 400, [], s)
  | None =>
      let cacheKey := BuildCacheKey "yum" env (pr_Path req) in
      from_cache env cacheKey (yum_answer req) (yum_fetchFromUpstream proxies env req cacheKey) s
  end.

Definition yum_HandleHead (proxies : list Upstream) (env : Env) (req : ProxyRequest) (s : S) : ProxyResponse * S :=
  head_from env (BuildCacheKey "yum" env (pr_Path req)) (yum_getContentType (pr_Path req)) "package not found"
    (yum_copyRequestHeaders req) (some_urls proxies (λ u, yum_buildUpstreamURL u (pr_Path req))) s.

(** ** pip_service.go *)

Inductive PipRequestType := PipUnknown | PipSimpleIndex | PipPackageIndex | PipPackageFile | PipJSON.

Definition pip_classifyRequest (requestPath : string) : PipRequestType :=
  let path := TrimSuffix (TrimPrefix requestPath "/") "/" in
  if String.eqb path EmptyString || String.eqb path "simple" then PipSimpleIndex
  else if HasPrefix path "pypi/" && HasSuffix path "/json" then PipJSON
  else if has_suffix (to_lower path) [".whl"; ".tar.gz"; ".zip"; ".egg"; ".tar.bz2"; ".tgz"]%string then PipPackageFile
  else if HasPrefix path "simple/" then PipPackageIndex
  else PipUnknown.

Definition pip_getContentType (requestPath : string) : string :=
  let lowerPath := to_lower requestPath in
  let ext := to_lower (Ext requestPath) in
  if HasSuffix lowerPath ".whl" then "application/octet-stream"
  else if has_suffix lowerPath [".tar.gz"; ".tgz"]%string then "application/gzip"
  else if HasSuffix lowerPath ".zip" then "application/zip"
  else if HasSuffix lowerPath ".egg" then "application/zip"
  else if HasSuffix lowerPath ".tar.bz2" then "application/x-bzip2"
  else if String.eqb ext ".json" || HasSuffix lowerPath "/json" then "application/json"
  else if Contains lowerPath "/simple/" || String.eqb lowerPath "simple" then "text/html; charset=utf-8"
  else "application/octet-stream".

Definition pip_copyRequestHeaders (req : ProxyRequest) : gmap string string :=
  default_header "User-Agent" "ProxyND/1.0 PyPI-Proxy" (default_header "Accept" "text/html, application/json"
    (copy_headers ["Accept"; "Accept-Encoding"; "User-Agent"]%string (pr_Headers req) ∅)).

Definition pip_buildUpstreamURL (serverURL requestPath : string) : string := join_url serverURL requestPath.

Definition pip_fetchFromUpstream (proxies : list Upstream) (env : Env) (req : ProxyRequest) (cacheKey : string) (s : S) :
    ProxyResponse * list HttpRequest * S :=
  match proxies with
  | [] => (HandleError "no pip proxies configured" 503, [], s)
  | _ =>
      fetch_from env cacheKey (pip_getContentType (pr_Path req)) "package not found in any upstream repository"
        (pip_copyRequestHeaders req) ((λ p, pip_buildUpstreamURL (up_URL p) (pr_Path req)) <$> proxies) s
  end.

(** The root index has a key of its own. *)
Definition pip_cache_path (requestPath : string) : string :=
  match pip_classifyRequest requestPath with PipSimpleIndex => "simple/index" | _ => requestPath end.

Definition pip_answer (req : ProxyRequest) : Reader → option ProxyResponse :=
  match pip_classifyRequest (pr_Path req) with
  | PipSimpleIndex | PipPackageIndex => read_all (cache_headers "text/html; charset=utf-8" "HIT") "text/html; charset=utf-8"
  | PipJSON => read_all (cache_headers "application/json" "HIT") "application/json"
  | PipPackageFile | PipUnknown => let ct := pip_getContentType (pr_Path req) in streamed (cache_headers ct "HIT") ct
  end.

Definition pip_HandleRequest (proxies : list Upstream) (env : Env) (req : ProxyRequest) (s : S) :
    ProxyResponse * list HttpRequest * S :=
  match base_ValidateRequest req with
  | Some e => (HandleError e 400, [], s)
  | None =>
      let cacheKey := BuildCacheKey "pip" env (pip_cache_path (pr_Path req)) in
      from_cache env cacheKey (pip_answer req) (pip_fetchFromUpstream proxies env req cacheKey) s
  end.

Definition pip_HandleHead (proxies : list Upstream) (env : Env) (req : ProxyRequest) (s : S) : ProxyResponse * S :=
  head_from env (BuildCacheKey "pip" env (pr_Path req)) (pip_getContentType (pr_Path req)) "package not found"
    (pip_copyRequestHeaders req) (some_urls proxies (λ u, pip_buildUpstreamURL u (pr_Path req))) s.

(** ** apt_service.go *)

Inductive AptRequestType :=
  AptUnknown | AptInRelease | AptRelease | AptReleaseGPG | AptPackages | AptSources | AptDebPackage | AptContents.

(** [path.Base] is [filepath.Base] here. *)
Definition apt_classifyRequest (requestPath : string) : AptRequestType :=
  let filename := Base requestPath in
  let lowerPath := to_lower requestPath in
  if String.eqb filename "InRelease" then AptInRelease
  else if String.eqb filename "Release" then AptRelease
  else if String.eqb filename "Release.gpg" then AptReleaseGPG
  else if HasPrefix filename "Packages" then AptPackages
  else if HasPrefix filename "Sources" then AptSources
  else if has_suffix lowerPath [".deb"; ".udeb"]%string then AptDebPackage
  else if HasPrefix filename "Contents" then AptContents
  else AptUnknown.

Definition apt_getContentType (requestPath : string) : string :=
  let lowerPath := to_lower requestPath in
  if has_suffix lowerPath [".deb"; ".udeb"]%string then "application/vnd.debian.binary-package"
  else if HasSuffix lowerPath ".gz" then "application/gzip"
  else if HasSuffix lowerPath ".xz" then "application/x-xz"
  else if HasSuffix lowerPath ".bz2" then "application/x-bzip2"
  else if has_suffix lowerPath [".gpg"; ".sig"]%string then "application/pgp-signature"
  else if existsb (Contains lowerPath) ["release"; "packages"; "sources"; "contents"]%string then "text/plain; charset=utf-8"
  else "application/octet-stream".

Definition apt_copyRequestHeaders (req : ProxyRequest) : gmap string string :=
  conditional_headers "ProxyND/1.0 APT-Proxy" req.

Definition apt_buildUpstreamURL (serverURL requestPath : string) : string := join_url serverURL requestPath.

Definition extractOSType (requestPath : string) : string :=
  match Split (TrimPrefix requestPath "/") slash with
  | first :: _ =>
      let osType := to_lower first in
      if existsb (String.eqb osType) ["ubuntu"; "debian"; "raspbian"; "linuxmint"]%string then osType else "default"
  | [] => "default"
  end.

Definition extractRequestPath (requestPath osType : string) : string :=
  let requestPath := TrimPrefix requestPath "/" in
  if negb (String.eqb osType "default") && HasPrefix (to_lower requestPath) (osType +:+ "/")
  then drop_bytes (String.length osType + 1) requestPath else requestPath.

(** The upstreams of a type of system: its own, the default ones, then, for [fetchFromUpstream],
    the first entry of the map in the order in which it is iterated. *)
Definition apt_proxies (config : gmap string (list Upstream)) (order : list (string * list Upstream)) (osType : string) :
    list Upstream :=
  match default [] (config !! osType) with
  | [] =>
      match default [] (config !! "default"%string) with
      | [] => match order with [] => [] | (_, p) :: _ => p end
      | ps => ps
      end
  | ps => ps
  end.

Definition apt_fetchFromUpstream (config : gmap string (list Upstream)) (order : list (string * list Upstream)) (env : Env)
    (req : ProxyRequest) (cacheKey : string) (s : S) : ProxyResponse * list HttpRequest * S :=
  if bool_decide (config = ∅) then (HandleError "no apt proxies configured" 503, [], s)
  else
    let osType := extractOSType (pr_Path req) in
    match apt_proxies config order osType with
    | [] => (HandleError ("no apt proxies configured for " +:+ osType) 503, [], s)
    | proxies =>
        let requestPath := extractRequestPath (pr_Path req) osType in
        fetch_from env cacheKey (apt_getContentType (pr_Path req)) "resource not found in any upstream repository"
          (apt_copyRequestHeaders req) ((λ p, apt_buildUpstreamURL (up_URL p) requestPath) <$> proxies) s
    end.

Definition apt_answer (req : ProxyRequest) : Reader → option ProxyResponse :=
  let ct := apt_getContentType (pr_Path req) in
  match apt_classifyRequest (pr_Path req) with
  | AptInRelease | AptRelease | AptReleaseGPG | AptPackages | AptSources | AptContents => read_all (cache_headers ct "HIT") ct
  | AptDebPackage => streamed (cache_headers "application/vnd.debian.binary-package" "HIT") "application/vnd.debian.binary-package"
  | AptUnknown => streamed (cache_headers ct "HIT") ct
  end.

Definition apt_HandleRequest (config : gmap string (list Upstream)) (order : list (string * list Upstream)) (env : Env)
    (req : ProxyRequest) (s : S) : ProxyResponse * list HttpRequest * S :=
  match base_ValidateRequest req with
  | Some e => (HandleError e 400, [], s)
  | None =>
      let cacheKey := BuildCacheKey "apt" env (pr_Path req) in
      from_cache env cacheKey (apt_answer req) (apt_fetchFromUpstream config order env req cacheKey) s
  end.

Definition apt_HandleHead (config : gmap string (list Upstream)) (env : Env) (req : ProxyRequest) (s : S) : ProxyResponse * S :=
  let osType := extractOSType (pr_Path req) in
  let requestPath := extractRequestPath (pr_Path req) osType in
  let urls := some_urls (apt_proxies config [] osType) (λ u, apt_buildUpstreamURL u requestPath) in
  head_from env (BuildCacheKey "apt" env (pr_Path req)) (apt_getContentType (pr_Path req)) "file not found"
    (apt_copyRequestHeaders req) urls s.
End services.
