(* ===== verification/ProxyNpm.v ===== *)
(** * ProxyNpm: the proxy of npm registries

    Models [src/internal/services/proxy/npm_service.go].  JSON values are the type [json],
    whose text form is the class [Codec]. *)

From Stdlib Require Import Ascii QArith.
From S2P Require Import Prelude GoStrings GoPath GoFS GoUrl PathValidator ProxyBase ProxyServices.

Open Scope Z_scope.

(** A value that [encoding/json] decodes into an interface; a number is a [float64]. *)
Inductive json :=
| JNull | JBool (b : bool) | JNumber (q : Q) | JString (s : string) | JArray (l : list json) | JObject (m : gmap string json).

Definition as_object (j : json) : option (gmap string json) := match j with JObject m => Some m | _ => None end.
Definition as_string (j : json) : option string := match j with JString s => Some s | _ => None end.

Record NpmUpstream := mkNpm { np_Name : string; np_URL : string; np_Username : string; np_Password : string }.

Inductive NpmRequestType := NpmUnknown | NpmMetadata | NpmTarball | NpmSearch | NpmScopedMetadata.

Definition parseRequestType (path : string) : NpmRequestType :=
  let path := TrimPrefix path "/" in
  let parts := Split path slash in
  if HasPrefix path "-/v1/search" || HasPrefix path "-/all" then NpmSearch
  else if Contains path "/-/" && (HasSuffix path ".tgz" || HasSuffix path ".tar.gz") then NpmTarball
  else if (HasPrefix path "@" && negb (Contains path "/-/")) && (length parts =? 2)%nat then NpmScopedMetadata
  else match parts with
       | [p] => if negb (String.eqb p EmptyString) && negb (HasPrefix p "-") then NpmMetadata else NpmUnknown
       | _ => NpmUnknown
       end.

Definition buildUpstreamURL (serverURL requestPath : string) : string := join_url serverURL requestPath.

Definition copyRequestHeaders (req : ProxyRequest) : gmap string string :=
  default_header "Accept" "application/json"
    (copy_headers ["Accept"; "Authorization"; "User-Agent"; "Accept-Encoding"]%string (pr_Headers req) ∅).

(** The path of a package in the URL of its tarball. *)
Definition extractPackagePath (tarballURL : string) : string :=
  match cut_at "registry.npmjs.org/" tarballURL with
  | Some (_, rest) => rest
  | None =>
      match cut_at "registry.yarnpkg.com/" tarballURL with
      | Some (_, rest) => rest
      | None =>
          match cut_last "://" tarballURL with
          | Some (_, rest) => match cut_at "/" rest with Some (_, path) => path | None => EmptyString end
          | None => EmptyString
          end
      end
  end.

(** The URL under which the client sees the proxy, by what the client says it is. *)
Definition base_url (req : ProxyRequest) : string :=
  match pr_Headers req !! "Host"%string with
  | None => EmptyString
  | Some host =>
      if String.eqb host EmptyString then EmptyString
      else
        let forwarded := default EmptyString (pr_Headers req !! "X-Forwarded-Proto"%string) in
        let scheme := if String.eqb forwarded EmptyString then "http"%string else forwarded in
        scheme +:+ ("://" +:+ host)
  end.

Definition rewrite_dist (baseURL : string) (dist : gmap string json) : gmap string json :=
  match (dist !! "tarball"%string) ≫= as_string with
  | None => dist
  | Some tarball =>
      let packagePath := extractPackagePath tarball in
      if String.eqb packagePath EmptyString then dist
      else <[ "tarball" := JString (baseURL +:+ ("/npm/" +:+ packagePath)) ]> dist
  end.

Definition rewrite_version (baseURL : string) (version : json) : json :=
  match version with
  | JObject v =>
      match (v !! "dist"%string) ≫= as_object with
      | Some dist => JObject (<[ "dist" := JObject (rewrite_dist baseURL dist) ]> v)
      | None => version
      end
  | _ => version
  end.

Definition rewrite_metadata (baseURL : string) (metadata : gmap string json) : gmap string json :=
  match (metadata !! "versions"%string) ≫= as_object with
  | Some versions => <[ "versions" := JObject (rewrite_version baseURL <$> versions) ]> metadata
  | None => metadata
  end.

Section npm.
Context {S E : Type} {CS : CacheService S E} {HC : HttpClient} {CJ : Codec json}.

(** Only an object, or null, fits the map that the text is decoded into. *)
Definition rewriteMetadataURLs (data : string) (req : ProxyRequest) : string :=
  match json_unmarshal data with
  | Some (JObject metadata) =>
      let baseURL := base_url req in
      if String.eqb baseURL EmptyString then data
      else default data (json_marshal (JObject (rewrite_metadata baseURL metadata)))
  | Some JNull =>
      if String.eqb (base_url req) EmptyString then data else default data (json_marshal JNull)
  | _ => data
  end.

(** What the loop does with a success. *)
Definition npm_store (env : Env) (req : ProxyRequest) (cacheKey : string) (isMetadata : bool) (resp : HttpResponse)
    (data : string) (s : S) : ProxyResponse * S :=
  let data := if isMetadata then rewriteMetadataURLs data req else data in
  let s := if String.eqb cacheKey EmptyString then s else (CacheResponse env cacheKey (text_body data) s).2 in
  let contentType :=
    if isMetadata then "application/json; charset=utf-8"%string
    else if HasSuffix (pr_Path req) ".tgz" || HasSuffix (pr_Path req) ".tar.gz" then "application/x-gzip"%string
    else "application/octet-stream"%string in
  (mkResponse (text_body data) 200
     (<[ "Content-Type" := contentType ]>
        (copy_headers ["Content-Length"; "ETag"; "Last-Modified"]%string (ha_Header resp) ∅))
     contentType EmptyString false, s).

Definition npm_requests (method : string) (req : ProxyRequest) (proxies : list NpmUpstream) : list HttpRequest :=
  (λ p, mkHttp method (buildUpstreamURL (np_URL p) (pr_Path req))
          (set_basic_auth (np_Username p) (np_Password p) (copyRequestHeaders req))) <$> proxies.

Definition fetchFromUpstream (config : gmap string (list NpmUpstream)) (env : Env) (req : ProxyRequest) (cacheKey : string)
    (isMetadata : bool) (s : S) : ProxyResponse * list HttpRequest * S :=
  if bool_decide (config = ∅) then (HandleError "no npm proxies configured" 503, [], s)
  else
    match default [] (config !! "default"%string) with
    | [] => (HandleError "no default npm proxies configured" 503, [], s)
    | proxies =>
        match try_upstreams no_early (npm_store env req cacheKey isMetadata) 0 (npm_requests "GET" req proxies) s with
        | (Some r, sent, s) => (r, sent, s)
        | (None, sent, s) => (HandleNotFound "package not found in any upstream registry", sent, s)
        end
    end.

Definition npm_headers (contentType : string) : gmap string string := {[ "Content-Type" := contentType ]}.

Definition handleMetadata (config : gmap string (list NpmUpstream)) (env : Env) (req : ProxyRequest) (s : S) :
    ProxyResponse * list HttpRequest * S :=
  let cacheKey := BuildCacheKey "npm" env (pr_Path req) in
  from_cache env cacheKey (read_all (npm_headers "application/json; charset=utf-8") "application/json; charset=utf-8")
    (fetchFromUpstream config env req cacheKey true) s.

Definition handleTarball (config : gmap string (list NpmUpstream)) (env : Env) (req : ProxyRequest) (s : S) :
    ProxyResponse * list HttpRequest * S :=
  let cacheKey := BuildCacheKey "npm" env (pr_Path req) in
  from_cache env cacheKey (streamed (npm_headers "application/octet-stream") "application/octet-stream")
    (fetchFromUpstream config env req cacheKey false) s.

Definition handleSearch (config : gmap string (list NpmUpstream)) (env : Env) (req : ProxyRequest) (s : S) :
    ProxyResponse * list HttpRequest * S :=
  fetchFromUpstream config env req EmptyString false s.

Definition HandleRequest (config : gmap string (list NpmUpstream)) (env : Env) (req : ProxyRequest) (s : S) :
    ProxyResponse * list HttpRequest * S :=
  match base_ValidateRequest req with
  | Some e => (HandleError e 400, [], s)
  | None =>
      match parseRequestType (pr_Path req) with
      | NpmMetadata | NpmScopedMetadata => handleMetadata config env req s
      | NpmTarball => handleTarball config env req s
      | NpmSearch => handleSearch config env req s
      | NpmUnknown => (HandleError "unknown npm request type" 400, [], s)
      end
  end.

Definition HandleHead (config : gmap string (list NpmUpstream)) (env : Env) (req : ProxyRequest) (s : S) : ProxyResponse * S :=
  match cs_Exists env (BuildCacheKey "npm" env (pr_Path req)) s with
  | (Ok true, s) =>
      (mkResponse (text_body EmptyString) 200 (npm_headers "application/json") "application/json" EmptyString true, s)
  | (_, s) =>
      (if bool_decide (config = ∅) then HandleNotFound "no proxies configured"
       else
         match default [] (config !! "default"%string) with
         | [] => HandleNotFound "no default proxies configured"
         | proxies =>
             default (HandleNotFound "package not found")
               (try_head ["Content-Length"; "Content-Type"; "ETag"; "Last-Modified"]%string ∅ 0
                  (npm_requests "HEAD" req proxies))
         end, s)
  end.
End npm.
