(* ===== verification/ProxyDocker.v ===== *)
(** * ProxyDocker: the proxy of Docker registries

    Models [src/internal/services/proxy/docker_service.go]. *)

From Stdlib Require Import Ascii QArith.
From S2P Require Import Prelude GoStrings GoPath GoFS GoUrl PathValidator ProxyBase ProxyServices ProxyNpm.

Open Scope Z_scope.

Record DockerUpstream := mkDocker { do_Name : string; do_URL : string; do_Username : string; do_Password : string }.

Inductive DockerRequestType := DockerUnknown | DockerAPIVersion | DockerManifest | DockerBlob | DockerTags | DockerCatalog.

Definition parseRequestType (path : string) : DockerRequestType :=
  let path := TrimPrefix path "/" in
  if String.eqb path "v2" || String.eqb path "v2/" then DockerAPIVersion
  else if Contains path "/manifests/" then DockerManifest
  else if Contains path "/blobs/" then DockerBlob
  else if HasSuffix path "/tags/list" then DockerTags
  else if Contains path "_catalog" then DockerCatalog
  else DockerUnknown.

Definition MediaTypeDockerManifestV1 : string := "application/vnd.docker.distribution.manifest.v1+json".
Definition MediaTypeDockerManifestV2 : string := "application/vnd.docker.distribution.manifest.v2+json".
Definition MediaTypeDockerManifestListV2 : string := "application/vnd.docker.distribution.manifest.list.v2+json".
Definition MediaTypeOCIManifestV1 : string := "application/vnd.oci.image.manifest.v1+json".
Definition MediaTypeOCIIndexV1 : string := "application/vnd.oci.image.index.v1+json".

Definition buildUpstreamURL (serverURL requestPath : string) : string :=
  join_url serverURL
    (if negb (HasPrefix requestPath "v2/") && negb (HasPrefix requestPath "/v2/") then "v2/" +:+ requestPath else requestPath).

Definition default_accept : string :=
  Join [MediaTypeDockerManifestV2; MediaTypeDockerManifestListV2; MediaTypeOCIManifestV1; MediaTypeOCIIndexV1;
        MediaTypeDockerManifestV1] ", ".

Definition copyRequestHeaders (req : ProxyRequest) : gmap string string :=
  let headers :=
    copy_headers ["Accept"; "Authorization"; "User-Agent"; "Docker-Distribution-Api-Version"]%string (pr_Headers req) ∅ in
  if Contains (pr_Path req) "/manifests/" then default_header "Accept" default_accept headers else headers.

(** The first component that starts like a digest. *)
Definition extractDigestFromPath (path : string) : string :=
  default EmptyString (List.find (λ part, HasPrefix part "sha256:") (Split path slash)).

Definition api_version : gmap string string := {[ "Docker-Distribution-Api-Version" := "registry/2.0"%string ]}.

Definition with_digest (req : ProxyRequest) (headers : gmap string string) : gmap string string :=
  let digest := extractDigestFromPath (pr_Path req) in
  if String.eqb digest EmptyString then headers else <[ "Docker-Content-Digest" := digest ]> headers.

(** The body is the JSON text of an object with an empty list of errors. *)
Definition api_body : string := "{" +:+ (String "034" ("errors" +:+ (String "034" ":[]}"))).

Definition handleAPIVersion : ProxyResponse :=
  mkResponse (text_body api_body) 200 (<[ "Content-Type" := "application/json"%string ]> api_version) "application/json"
    EmptyString false.

Section docker.
Context {S E : Type} {CS : CacheService S E} {HC : HttpClient} {CJ : Codec json}.

Definition detectManifestMediaType (data : string) : string :=
  match json_unmarshal data with
  | Some (JObject manifest) =>
      if match manifest !! "schemaVersion"%string with Some (JNumber q) => Qeq_bool q 1 | _ => false end
      then MediaTypeDockerManifestV1
      else if bool_decide (is_Some (manifest !! "manifests"%string)) then MediaTypeDockerManifestListV2
      else
        match (manifest !! "mediaType"%string) ≫= as_string with
        | Some t =>
            if String.eqb t MediaTypeOCIManifestV1 || String.eqb t MediaTypeOCIIndexV1 then t else MediaTypeDockerManifestV2
        | None => MediaTypeDockerManifestV2
        end
  | _ => MediaTypeDockerManifestV2
  end.

(** The challenge of an upstream that asks for credentials ends the loop. *)
Definition challenge (resp : HttpResponse) : option ProxyResponse :=
  if ha_Status resp =? 401 then
    Some (mkResponse (text_body EmptyString) 401 (ha_Header resp) "application/json" EmptyString false)
  else None.

Definition docker_store (env : Env) (cacheKey : string) (isManifest : bool) (resp : HttpResponse) (data : string) (s : S) :
    ProxyResponse * S :=
  let s := if String.eqb cacheKey EmptyString then s else (CacheResponse env cacheKey (text_body data) s).2 in
  let contentType := if isManifest then detectManifestMediaType data else "application/octet-stream"%string in
  (mkResponse (text_body data) 200
     (<[ "Content-Type" := contentType ]>
        (copy_headers ["Docker-Content-Digest"; "Content-Length"; "ETag"]%string (ha_Header resp) api_version))
     contentType EmptyString false, s).

Definition docker_requests (method : string) (req : ProxyRequest) (proxies : list DockerUpstream) : list HttpRequest :=
  (λ p, mkHttp method (buildUpstreamURL (do_URL p) (pr_Path req))
          (set_basic_auth (do_Username p) (do_Password p) (copyRequestHeaders req))) <$> proxies.

Definition fetchFromUpstream (proxies : list DockerUpstream) (env : Env) (req : ProxyRequest) (cacheKey : string)
    (isManifest : bool) (s : S) : ProxyResponse * list HttpRequest * S :=
  match proxies with
  | [] => (HandleError "no docker proxies configured" 503, [], s)
  | _ =>
      match try_upstreams challenge (docker_store env cacheKey isManifest) 0 (docker_requests "GET" req proxies) s with
      | (Some r, sent, s) => (r, sent, s)
      | (None, sent, s) => (HandleNotFound "resource not found in any upstream registry", sent, s)
      end
  end.

Definition manifest_answer (req : ProxyRequest) (content : Reader) : option ProxyResponse :=
  let contentType := detectManifestMediaType (rd_data content) in
  read_all (with_digest req (<[ "Content-Type" := contentType ]> api_version)) contentType content.

Definition handleManifest (proxies : list DockerUpstream) (env : Env) (req : ProxyRequest) (s : S) :
    ProxyResponse * list HttpRequest * S :=
  let cacheKey := BuildCacheKey "docker" env (pr_Path req) in
  from_cache env cacheKey (manifest_answer req) (fetchFromUpstream proxies env req cacheKey true) s.

Definition handleBlob (proxies : list DockerUpstream) (env : Env) (req : ProxyRequest) (s : S) :
    ProxyResponse * list HttpRequest * S :=
  let cacheKey := BuildCacheKey "docker" env (pr_Path req) in
  from_cache env cacheKey
    (streamed (with_digest req (<[ "Content-Type" := "application/octet-stream"%string ]> api_version)) "application/octet-stream")
    (fetchFromUpstream proxies env req cacheKey false) s.

(** Lists of tags and of repositories are never cached. *)
Definition handleTags (proxies : list DockerUpstream) (env : Env) (req : ProxyRequest) (s : S) :
    ProxyResponse * list HttpRequest * S := fetchFromUpstream proxies env req EmptyString false s.
Definition handleCatalog (proxies : list DockerUpstream) (env : Env) (req : ProxyRequest) (s : S) :
    ProxyResponse * list HttpRequest * S := fetchFromUpstream proxies env req EmptyString false s.

Definition HandleRequest (proxies : list DockerUpstream) (env : Env) (req : ProxyRequest) (s : S) :
    ProxyResponse * list HttpRequest * S :=
  match base_ValidateRequest req with
  | Some e => (HandleError e 400, [], s)
  | None =>
      match parseRequestType (pr_Path req) with
      | DockerAPIVersion => (handleAPIVersion, [], s)
      | DockerManifest => handleManifest proxies env req s
      | DockerBlob => handleBlob proxies env req s
      | DockerTags => handleTags proxies env req s
      | DockerCatalog => handleCatalog proxies env req s
      | DockerUnknown => (HandleError "unknown docker request type" 400, [], s)
      end
  end.

Definition HandleHead (proxies : list DockerUpstream) (env : Env) (req : ProxyRequest) (s : S) : ProxyResponse * S :=
  match cs_Exists env (BuildCacheKey "docker" env (pr_Path req)) s with
  | (Ok true, s) =>
      (mkResponse (text_body EmptyString) 200 (with_digest req api_version) "application/octet-stream" EmptyString true, s)
  | (_, s) =>
      (match proxies with
       | [] => HandleNotFound "no proxies configured"
       | _ =>
           default (HandleNotFound "blob not found")
             (try_head ["Docker-Content-Digest"; "Content-Length"; "Content-Type"]%string api_version 0
                (docker_requests "HEAD" req proxies))
       end, s)
  end.
End docker.
