(* ===== verification/ProxyMaven.v ===== *)
(** * ProxyMaven: the proxy of Maven repositories and the upstream client

    Models [src/internal/services/proxy/maven_service.go] and
    [src/internal/services/adapters/upstream_client.go] as [app/container.go] creates it,
    without a connection pool.  Unlike the other services this one hands the reader of
    the upstream's answer to the cache and then to the client. *)

From Stdlib Require Import Ascii.
From S2P Require Import Prelude GoStrings GoPath GoFS GoBase64 GoUrl PathValidator ProxyBase.

(** ** upstream_client.go *)

Definition quote : ascii := "034".

Definition unquote (filename : string) : string :=
  if (2 <? String.length filename)%nat && HasPrefix filename (String quote EmptyString) && HasSuffix filename (String quote EmptyString)
  then take_bytes (String.length filename - 2) (drop_bytes 1 filename) else filename.

(** The text after the first [filename=] that something follows. *)
Definition extractFilename (contentDisposition : string) : string :=
  match cut_at "filename=" contentDisposition with
  | Some (_, filename) => if String.eqb filename EmptyString then EmptyString else unquote filename
  | None => EmptyString
  end.

(** An error also for a status of 400 and more. *)
Definition Fetch {HC : HttpClient} (n : nat) (url : string) (headers : gmap string string) : result string ProxyResponse :=
  if bad_url url then Err "failed to create request"%string
  else
    match client_Do n (mkHttp "GET" url (default_header "User-Agent" "ProxyND/1.0" headers)) with
    | Err e => Err ("upstream request failed: " +:+ e)
    | Ok resp =>
        let body := ha_Body resp in
        if 400 <=? ha_Status resp then
          let text := if rd_fails body then "failed to read error response"%string else rd_data body in
          Err ("upstream returned error: " +:+ (Itoa (ha_Status resp) +:+ (" - " +:+ text)))
        else
          let h name := default EmptyString (ha_Header resp !! name) in
          Ok (mkResponse body (ha_Status resp) (ha_Header resp) (h "Content-Type"%string)
                (extractFilename (h "Content-Disposition"%string)) false)
    end.

(** ** maven_service.go *)

Record MavenUpstream := mkMaven {
  mv_Name : string; mv_URL : string; mv_Enabled : bool; mv_Username : string; mv_Password : string
}.

Definition extensions : list string := [".pom"; ".jar"; ".war"; ".ear"; ".xml"; ".sha1"; ".md5"; ".asc"].

Definition isValidMavenPath (path : string) : bool :=
  let parts := Split (trim_char slash path) slash in
  (4 <=? length parts)%nat && existsb (HasSuffix (default EmptyString (list.last parts))) extensions.

Definition buildUpstreamURL (baseURL requestPath : string) : string :=
  let baseURL := String.rev (trim_left_char slash (String.rev baseURL)) in
  baseURL +:+ (if HasPrefix requestPath "/" then requestPath else "/" +:+ requestPath).

Definition encodeBasicAuth (username password : string) : string :=
  EncodeToString StdEncoding (username +:+ (":" +:+ password)).

Definition auth_headers (p : MavenUpstream) : gmap string string :=
  if negb (String.eqb (mv_Username p) EmptyString) && negb (String.eqb (mv_Password p) EmptyString)
  then {[ "Authorization" := "Basic " +:+ encodeBasicAuth (mv_Username p) (mv_Password p) ]} else ∅.

Definition with_body (body : Reader) (r : ProxyResponse) : ProxyResponse :=
  mkResponse body (ps_StatusCode r) (ps_Headers r) (ps_ContentType r) (ps_FileName r) (ps_Cached r).

Section maven.
Context {S E : Type} {CS : CacheService S E} {HC : HttpClient}.

Definition ValidateRequest (req : ProxyRequest) : option string :=
  match base_ValidateRequest req with
  | Some e => Some e
  | None =>
      if negb (String.eqb (pr_Method req) "GET") && negb (String.eqb (pr_Method req) "HEAD")
      then Some ("unsupported method for Maven proxy: " +:+ pr_Method req)
      else if negb (isValidMavenPath (pr_Path req)) then Some ("invalid Maven artifact path: " +:+ pr_Path req)
      else None
  end.

(** The cache reads the body that is then returned: what it leaves unread is what the
    client gets. *)
Fixpoint fetchFromUpstream (cache_enabled : bool) (env : Env) (req : ProxyRequest) (n : nat) (proxies : list MavenUpstream)
    (s : S) : option ProxyResponse * S :=
  match proxies with
  | [] => (None, s)
  | p :: rest =>
      let next := fetchFromUpstream cache_enabled env req (Datatypes.S n) rest s in
      if negb (mv_Enabled p) then next
      else
        match Fetch n (buildUpstreamURL (mv_URL p) (pr_Path req)) (auth_headers p) with
        | Err _ => next
        | Ok response =>
            if ps_StatusCode response =? 200 then
              if cache_enabled then
                let '(_, body, s) := CacheResponse env (BuildCacheKey "maven" env (pr_Path req)) (ps_Body response) s in
                (Some (with_body body response), s)
              else (Some response, s)
            else next
        end
  end.

Definition HandleRequest (cache_enabled : bool) (proxies : list MavenUpstream) (env : Env) (req : ProxyRequest) (s : S) :
    ProxyResponse * S :=
  match ValidateRequest req with
  | Some e => (HandleError e 400, s)
  | None =>
      match TryCache env (BuildCacheKey "maven" env (pr_Path req)) s with
      | (Ok (Some content), s) =>
          let filename := Base (pr_Path req) in
          (BuildProxyResponse "maven" content 200 (DetermineContentType filename) filename true, s)
      | (_, s) =>
          match fetchFromUpstream cache_enabled env req 0 proxies s with
          | (Some response, s) => (response, s)
          | (None, s) => (HandleError "all upstream proxies failed" 502, s)
          end
      end
  end.
End maven.
