(* ===== verification/ProxyContracts.v ===== *)
(** * ProxyContracts: what holds of every proxy service

    The file repository, through its adapter, satisfies the laws of the cache; the cache
    keys of requests that pass the validation; the loop over the upstreams; and, for the
    seven services behind one type, where the answers come from: a cached answer is that of
    an upstream to an earlier request with the same key, whoever asked. *)

From Stdlib Require Import Ascii.
From S2P Require Import Prelude GoStrings GoPath GoFS GoUrl PathValidator FileRepository ProxyBase ProxyServices.
From S2P Require ProxyNpm ProxyDocker ProxyMaven.

(** ** The file repository is such a cache *)

Section repository.
Context {S : Type} {FS : FileSystem S} {FL : FileSystemLaws S} {CM : Codec (gmap string CacheItem)}.
Context (bs : list string) (Hbs : Forall (λ c, segment c = true) bs) (ttl : duration).
Context (close_ok : ∀ p fs, (CloseFile p fs).1 = None).

Definition repo_cache : CacheService (Repo S) repo_err := {|
  cs_Exists := adapter_Exists (unsplit true bs);
  cs_Get := adapter_Get (unsplit true bs);
  cs_Put := adapter_Put (unsplit true bs) ttl
|}.

Lemma Put_drained base temp left now key content r rest r' :
  Put base temp left now key content ttl r = (None, rest, r') → rest = text_body EmptyString.
Proof. unfold Put. intros H. repeat case_match; by simplify_eq. Qed.

Lemma Get_fs base now now' key (r : Repo S) : rp_fs (Get base now now' key r).2 = rp_fs r.
Proof. unfold Get. by repeat case_match. Qed.

Definition repo_laws : @CacheLaws (Repo S) repo_err repo_cache.
Proof using Hbs FL close_ok.
  refine {| cs_stored := stored bs; cs_valid := consistent bs; cs_fresh env key r := fresh_temp bs (temp_name env) key r |}.
  - intros env key r. done.
  - intros env key r. cbn. unfold adapter_Get.
    pose proof (λ k, Get_state bs (at_get env) (at_touch env) key r k) as H.
    pose proof (Get_fs (unsplit true bs) (at_get env) (at_touch env) key r) as Hf.
    destruct (Get _ _ _ _ _) as [[d|e] r']; cbn in H, Hf |- *; (split; [apply (H EmptyString)|]); (split; [apply H|]);
      intros env' k; unfold fresh_temp; by rewrite Hf.
  - intros env key r x Hc. cbn. unfold adapter_Get. destruct (Get _ _ _ _ _) as [[d|e] r'] eqn:E; [|done].
    intros [= <-]. by eapply Get_stored.
  - intros env key x r Hc Hk Hf. cbn. unfold adapter_Put.
    pose proof (Put_stored bs Hbs close_ok (temp_name env) (unread env) (at_put env) key x ttl r Hk Hc Hf) as H.
    destruct (Put _ _ _ _ _ _ _ _) as [[[e|] rest] r'] eqn:E; [done|]. destruct H as (? & ? & ? & ?).
    split_and!; try done. by eapply Put_drained.
Defined.
End repository.

(** ** Cache keys *)

Lemma Contains_slash a b : Contains (a +:+ String slash b) ".." = Contains a ".." || Contains b "..".
Proof.
  induction a as [|c a IH]; [done|]. rewrite str_app_cons. cbn [Contains]. rewrite IH, orb_assoc. f_equal. f_equal.
  destruct a as [|d a].
  - change (EmptyString +:+ ?x) with x. cbn [String.prefix]. destruct (ascii_dec "." c); [|done]. by destruct (ascii_dec "." slash).
  - rewrite str_app_cons. cbn [String.prefix]. by destruct (ascii_dec "." c), (ascii_dec "." d), a.
Qed.


Lemma Contains_substring s a b c sub : s = a +:+ (b +:+ c) → Contains s sub = false → Contains b sub = false.
Proof.
  intros -> H. apply not_true_iff_false. apply not_true_iff_false in H. contradict H.
  apply Contains_spec in H as (x & y & ->). apply Contains_spec. exists (a +:+ x), (y +:+ c). by rewrite !str_app_assoc.
Qed.

Lemma Contains_Join k ks :
  Forall (λ c, Contains c ".." = false) (k :: ks) → Contains (Join (k :: ks) "/") ".." = false.
Proof.
  revert k. induction ks as [|k' ks IH]; intros k [Hk Hks]%Forall_cons_iff; [done|]. rewrite Join_cons by done.
  change ("/" +:+ ?x) with (String slash x). by rewrite Contains_slash, Hk, IH.
Qed.

Lemma Split_no_dotdots s : Contains s ".." = false → Forall (λ c, Contains c ".." = false) (Split s slash).
Proof.
  destruct (Split_inv s slash) as (w & ws & -> & -> & _). revert w.
  induction ws as [|v ws IH]; intros w H; [by rewrite str_app_nil_r in H; constructor|].
  cbn [seps] in H. rewrite ?str_app_cons, Contains_slash in H. apply orb_false_iff in H as [Hw H]. constructor; [done|]. by apply IH.
Qed.

Lemma trim_left_suffix sk s : ∃ p, s = p +:+ trim_left_go sk s.
Proof.
  revert sk. induction s as [|c s IH]; intros [|sk]; cbn [trim_left_go]; try by exists EmptyString.
  - destruct (space_len (String c s)) as [|k]; [by exists EmptyString|]. destruct (IH k) as [p Hp].
    exists (String c p). by rewrite str_app_cons, <- Hp.
  - destruct (IH sk) as [p Hp]. exists (String c p). by rewrite str_app_cons, <- Hp.
Qed.

Lemma TrimSpace_substring s : ∃ a c, s = a +:+ (TrimSpace s +:+ c).
Proof.
  unfold TrimSpace. destruct (trim_left_suffix 0 s) as [a Ha]. destruct (trim_right_prefix (trim_left_go 0 s)) as [c Hc].
  exists a, c. by rewrite <- Hc.
Qed.

Lemma traversal_substring s a b c :
  s = a +:+ (b +:+ c) → ContainsTraversalPattern s = false → ContainsTraversalPattern b = false.
Proof.
  intros E H. unfold ContainsTraversalPattern in *. apply not_true_iff_false. apply not_true_iff_false in H. contradict H.
  apply existsb_exists in H as (p & Hp & Hb). apply existsb_exists. exists p. split; [done|].
  destruct (Contains s p) eqn:Hs; [done|]. by rewrite (Contains_substring _ _ _ _ _ E Hs) in Hb.
Qed.

Lemma segment_parts pt :
  segment pt = true → pt ≠ EmptyString ∧ pt ≠ ".."%string ∧ str_all (not_char slash) pt = true.
Proof.
  intros H. split_and!; [by intros ->|by apply segment_not_dotdot|]. unfold segment in H. by zbool.
Qed.

Lemma PathJoin_relative pt s :
  segment pt = true → no_dotdot (Split s slash) → PathJoin pt s = Join (pt :: segments_of s) "/".
Proof.
  intros Hp Hd. destruct (segment_parts _ Hp) as (He & Hdd & Hs). unfold PathJoin.
  rewrite (proj2 (String.eqb_neq _ _) He).
  destruct (Clean_no_dotdot (pt +:+ String slash s)) as (_ & _ & ->).
  { rewrite Split_first by done. by constructor. }
  rewrite Split_first, filter_cons_True by done. destruct pt as [|c pt]; [done|].
  rewrite str_app_cons. unfold rooted. rewrite HasPrefix_head. cbn [str_all] in Hs. unfold not_char in Hs at 1.
  apply andb_true_iff in Hs as [Hc _]. apply negb_true_iff in Hc. unfold slash in Hc. by rewrite Hc.
Qed.

(** The names of the paths of the proxies. *)
Definition plain_name (pt : string) : Prop := segment pt = true ∧ Contains pt ".." = false ∧ pt ≠ "metadata.json"%string.

Lemma BuildCacheKey_spec pt env ds path :
  plain_name pt → working_dir env = Some (unsplit true ds) → Forall (λ c, segment c = true) ds →
  ContainsTraversalPattern path = false →
  BuildCacheKey pt env path = Join (pt :: segments_of (TrimSpace path)) "/" ∧ proper_key (BuildCacheKey pt env path).
Proof.
  intros (Hp & Hpd & Hpm) Hw Hds Ht. destruct (TrimSpace_substring path) as (a & c & E).
  pose proof (traversal_substring _ _ _ _ E Ht) as Ht'. clear E. set (u := TrimSpace path) in *.
  pose proof (traversal_dotdot _ Ht') as Hc. pose proof (Contains_no_dotdot _ Hc) as Hd.
  destruct (Clean_no_dotdot u Hd) as (Es & Hd' & _).
  assert (BuildCacheKey pt env path = Join (pt :: segments_of u) "/") as ->.
  { unfold BuildCacheKey, SafeJoinPath. fold u. rewrite Ht'. rewrite PathJoin_relative, Es by done.
    assert (∀ l, rooted (Join (pt :: l) "/") = false) as Hr.
    { intros l. destruct (segment_parts _ Hp) as (He & _ & Hs). destruct pt as [|x pt]; [done|].
      rewrite Join_seps, str_app_cons. unfold rooted. rewrite HasPrefix_head. cbn [str_all] in Hs. unfold not_char in Hs at 1.
      apply andb_true_iff in Hs as [Hx _]. by apply negb_true_iff in Hx. }
    assert (Forall (λ c, segment c = true) (pt :: segments_of u)) as Hf by (constructor; [done|apply Forall_filter_segments]).
    unfold Abs. rewrite Hw. assert (rooted pt = false) as -> by apply (Hr []). rewrite Hr.
    rewrite PathJoin_segments by done.
    assert (PathJoin (unsplit true ds) pt = unsplit true (ds ++ [pt])) as ->
      by (apply (PathJoin_segments ds pt []); [done|by constructor]).
    change (pt :: segments_of u) with ([pt] ++ segments_of u). rewrite app_assoc. by rewrite unsplit_prefix. }
  split; [done|]. exists pt, (segments_of u). split_and!; [done| | |].
  - constructor; [done|apply Forall_filter_segments].
  - apply Contains_Join. constructor; [done|]. apply list.Forall_forall. intros x [_ Hx]%list_elem_of_filter.
    revert x Hx. apply list.Forall_forall. by apply Split_no_dotdots.
  - by intros [= ? _].
Qed.

Lemma Join_inj l l' :
  Forall (λ c, segment c = true) l → Forall (λ c, segment c = true) l' → l ≠ [] → l' ≠ [] →
  Join l "/" = Join l' "/" → l = l'.
Proof.
  assert (∀ l, Forall (λ c, segment c = true) l → l ≠ [] → Split (Join l "/") slash = l) as H.
  { intros [|x k] Hl Hne; [done|]. rewrite Join_seps. by apply Split_join, segments_no_slash. }
  intros Hl Hl' Hn Hn' E. by rewrite <- (H l), <- (H l'), E.
Qed.

(** ** The loop over the upstreams *)

Section upstreams.
Context {S : Type} {HC : HttpClient}.

(** An upstream that the loop passes over. *)
Definition skipped (early : HttpResponse → option ProxyResponse) (n : nat) (q : HttpRequest) : Prop :=
  bad_url (hq_URL q) = true ∨
  match client_Do n q with
  | Err _ => True
  | Ok resp => early resp = None ∧ (ha_Status resp ≠ 200 ∨ rd_fails (ha_Body resp) = true)
  end.

(** The first upstream that is not passed over decides; without one nothing changes. *)
Definition decided early (on_ok : HttpResponse → string → S → ProxyResponse * S) n (requests : list HttpRequest) s
    (out : option ProxyResponse * S) : Prop :=
  match out.1 with
  | None => out.2 = s ∧ ∀ i q, requests !! i = Some q → skipped early (n + i) q
  | Some r => ∃ i q resp,
      requests !! i = Some q ∧ (∀ j q', (j < i)%nat → requests !! j = Some q' → skipped early (n + j) q') ∧
      bad_url (hq_URL q) = false ∧ client_Do (n + i) q = Ok resp ∧
      match early resp with
      | Some r' => r = r' ∧ out.2 = s
      | None => ha_Status resp = 200 ∧ rd_fails (ha_Body resp) = false ∧ (r, out.2) = on_ok resp (rd_data (ha_Body resp)) s
      end
  end.

Lemma decided_skip early on_ok n q rest s out :
  skipped early n q → decided early on_ok (Datatypes.S n) rest s out → decided early on_ok n (q :: rest) s out.
Proof.
  intros Hq. unfold decided. destruct out as [[r|] s']; cbn [fst snd].
  - intros (i & q0 & resp & Hi & Hb & H). exists (Datatypes.S i), q0, resp. rewrite Nat.add_succ_r. split; [done|].
    split; [|done]. intros [|j] q' Hj; [intros [= <-]; by rewrite Nat.add_0_r|]. intros Hq'.
    rewrite Nat.add_succ_r. apply (Hb j); [lia|done].
  - intros [-> H]. split; [done|]. intros [|i] q'; [intros [= <-]; by rewrite Nat.add_0_r|]. intros Hq'.
    rewrite Nat.add_succ_r. by apply (H i).
Qed.

Lemma decided_here early on_ok n q rest s resp r s' :
  bad_url (hq_URL q) = false → client_Do n q = Ok resp →
  match early resp with
  | Some r' => r = r' ∧ s' = s
  | None => ha_Status resp = 200 ∧ rd_fails (ha_Body resp) = false ∧ (r, s') = on_ok resp (rd_data (ha_Body resp)) s
  end → decided early on_ok n (q :: rest) s (Some r, s').
Proof.
  intros Hb Hc H. exists 0%nat, q, resp. rewrite Nat.add_0_r. split_and!; [done| |done..]. intros j q' Hj. lia.
Qed.

Lemma try_upstreams_spec early on_ok n requests s :
  let '(r, _, s') := try_upstreams early on_ok n requests s in decided early on_ok n requests s (r, s').
Proof.
  revert n. induction requests as [|q rest IH]; intros n; cbn [try_upstreams]; [done|]. specialize (IH (Datatypes.S n)).
  destruct (bad_url (hq_URL q)) eqn:Hb.
  { destruct (try_upstreams _ _ _ _ _) as [[r sent] s']. apply decided_skip; [by left|done]. }
  destruct (try_upstreams early on_ok (Datatypes.S n) rest s) as [[r sent] s'].
  assert (match client_Do n q with
          | Err _ => True
          | Ok resp => early resp = None ∧ (ha_Status resp ≠ 200 ∨ rd_fails (ha_Body resp) = true)
          end → decided early on_ok n (q :: rest) s (r, s')) as Hnext by (intros H; apply decided_skip; [by right|done]).
  destruct (client_Do n q) as [resp|] eqn:Hc; [|by apply Hnext].
  destruct (early resp) as [r'|] eqn:He; [by eapply decided_here; [..|rewrite He]|].
  destruct (Z.eqb_spec (ha_Status resp) 200) as [H2|H2]; [|by apply Hnext; auto].
  destruct (rd_fails (ha_Body resp)) eqn:Hf; [by apply Hnext; auto|].
  destruct (on_ok resp (rd_data (ha_Body resp)) s) as [r0 s0] eqn:Eo. eapply decided_here; [done..|]. by rewrite He, Eo.
Qed.
End upstreams.

(** ** The seven services *)

(** A service is its settings; those of apt come with the order in which the map of them is
    iterated. *)
Inductive service :=
| SApk (proxies : list Upstream)
| SYum (proxies : list Upstream)
| SPip (proxies : list Upstream)
| SApt (config : gmap string (list Upstream)) (order : list (string * list Upstream))
| SNpm (config : gmap string (list ProxyNpm.NpmUpstream))
| SDocker (proxies : list ProxyDocker.DockerUpstream)
| SMaven (cache_enabled : bool) (proxies : list ProxyMaven.MavenUpstream).

Definition GetProxyType (svc : service) : string :=
  match svc with
  | SApk _ => "apk" | SYum _ => "yum" | SPip _ => "pip" | SApt _ _ => "apt" | SNpm _ => "npm" | SDocker _ => "docker"
  | SMaven _ _ => "maven"
  end.

(** ** factory.go

    The configuration service, [read], gives the settings of a type. *)

Definition proxy_types : list string := ["maven"; "apt"; "npm"; "docker"; "pip"; "yum"; "apk"].

(** The seven constructors. *)
Definition NewService (read : string → result string service) (proxyType : string) : result string service :=
  match read proxyType with
  | Err e => Err ("failed to load " +:+ (proxyType +:+ (" config: " +:+ e)))
  | Ok config =>
      if String.eqb (GetProxyType config) proxyType then Ok config
      else Err ("invalid " +:+ (proxyType +:+ " config type"))
  end.

(** Under the write lock, where the map is looked up again: the look-up before it, under the
    read lock, only saves taking this one. *)
Definition GetService (read : string → result string service) (proxyType : string) (services : gmap string service) :
    result string service * gmap string service :=
  match services !! proxyType with
  | Some service => (Ok service, services)
  | None =>
      if existsb (String.eqb proxyType) proxy_types then
        match NewService read proxyType with
        | Err e => (Err ("failed to create " +:+ (proxyType +:+ (" service: " +:+ e))), services)
        | Ok service => (Ok service, <[ proxyType := service ]> services)
        end
      else (Err ("unsupported proxy type: " +:+ proxyType), services)
  end.

Definition ReloadServices (services : gmap string service) : gmap string service := ∅.

(** Each service is kept under its own type, and is given again until the map is cleared,
    whatever the configuration has become. *)
Lemma GetService_again read read' proxyType services :
  map_Forall (λ t svc, GetProxyType svc = t) services →
  let '(r, services') := GetService read proxyType services in
  map_Forall (λ t svc, GetProxyType svc = t) services' ∧
  match r with
  | Ok svc => GetProxyType svc = proxyType ∧ GetService read' proxyType services' = (Ok svc, services')
  | Err _ => services' = services
  end.
Proof.
  intros H. unfold GetService. destruct (services !! proxyType) as [svc|] eqn:E.
  { split; [done|]. rewrite E. split; [by apply H|done]. }
  destruct (existsb _ _); [|done]. destruct (NewService read proxyType) as [svc|] eqn:En; [|done].
  assert (GetProxyType svc = proxyType) as Ht.
  { unfold NewService in En. destruct (read proxyType); [|done]. case_match eqn:Et; simplify_eq. by apply String.eqb_eq. }
  split; [by apply map_Forall_insert_2|]. split; [done|]. by rewrite lookup_insert, decide_True.
Qed.

(** ** Requests to a service *)

Definition ValidateRequest (svc : service) (req : ProxyRequest) : option string :=
  match svc with SMaven _ _ => ProxyMaven.ValidateRequest req | _ => base_ValidateRequest req end.

(** The key under which an answer is looked up and stored, and the path it is made of. *)
Definition key_path (svc : service) (req : ProxyRequest) : string :=
  match svc with SPip _ => pip_cache_path (pr_Path req) | _ => pr_Path req end.

Definition key_of (svc : service) (env : Env) (req : ProxyRequest) : string :=
  BuildCacheKey (GetProxyType svc) env (key_path svc req).

(** Searches of npm and the lists of docker are not cached. *)
Definition cacheable (svc : service) (req : ProxyRequest) : bool :=
  match svc with
  | SNpm _ =>
      match ProxyNpm.parseRequestType (pr_Path req) with
      | ProxyNpm.NpmMetadata | ProxyNpm.NpmScopedMetadata | ProxyNpm.NpmTarball => true
      | _ => false
      end
  | SDocker _ =>
      match ProxyDocker.parseRequestType (pr_Path req) with
      | ProxyDocker.DockerManifest | ProxyDocker.DockerBlob => true
      | _ => false
      end
  | _ => true
  end.

(** The requests that a miss may send, in order; upstreams of maven can be disabled. *)
Definition get (header : gmap string string) (url : string) : HttpRequest := mkHttp "GET" url header.

Definition requests_of (svc : service) (req : ProxyRequest) : list HttpRequest :=
  match svc with
  | SApk ps => (λ p, get (apk_copyRequestHeaders req) (apk_buildUpstreamURL (up_URL p) (pr_Path req))) <$> ps
  | SYum ps => (λ p, get (yum_copyRequestHeaders req) (yum_buildUpstreamURL (up_URL p) (pr_Path req))) <$> ps
  | SPip ps => (λ p, get (pip_copyRequestHeaders req) (pip_buildUpstreamURL (up_URL p) (pr_Path req))) <$> ps
  | SApt config order =>
      let osType := extractOSType (pr_Path req) in
      (λ p, get (apt_copyRequestHeaders req) (apt_buildUpstreamURL (up_URL p) (extractRequestPath (pr_Path req) osType)))
        <$> apt_proxies config order osType
  | SNpm config => ProxyNpm.npm_requests "GET" req (default [] (config !! "default"%string))
  | SDocker ps => ProxyDocker.docker_requests "GET" req ps
  | SMaven _ ps =>
      (λ p, get (default_header "User-Agent" "ProxyND/1.0" (ProxyMaven.auth_headers p))
              (ProxyMaven.buildUpstreamURL (ProxyMaven.mv_URL p) (pr_Path req))) <$> filter (λ p, ProxyMaven.mv_Enabled p = true) ps
  end.

Section services.
Context {S E : Type} {CS : CacheService S E} {CJ : Codec ProxyNpm.json}.

(** A call through the interface [ProxyService]. *)
Definition HandleRequest {HC : HttpClient} (svc : service) (env : Env) (req : ProxyRequest) (s : S) : ProxyResponse * S :=
  let drop (out : ProxyResponse * list HttpRequest * S) := (out.1.1, out.2) in
  match svc with
  | SApk ps => drop (apk_HandleRequest ps env req s)
  | SYum ps => drop (yum_HandleRequest ps env req s)
  | SPip ps => drop (pip_HandleRequest ps env req s)
  | SApt config order => drop (apt_HandleRequest config order env req s)
  | SNpm config => drop (ProxyNpm.HandleRequest config env req s)
  | SDocker ps => drop (ProxyDocker.HandleRequest ps env req s)
  | SMaven cache_enabled ps => ProxyMaven.HandleRequest cache_enabled ps env req s
  end.

(** ** Every service looks into its cache first *)

(** The answer made of cached content, and what a miss does. *)
Definition answer_of (svc : service) (req : ProxyRequest) : Reader → option ProxyResponse :=
  match svc with
  | SApk _ => apk_answer req
  | SYum _ => yum_answer req
  | SPip _ => pip_answer req
  | SApt _ _ => apt_answer req
  | SNpm _ =>
      match ProxyNpm.parseRequestType (pr_Path req) with
      | ProxyNpm.NpmTarball => streamed (ProxyNpm.npm_headers "application/octet-stream") "application/octet-stream"
      | _ => read_all (ProxyNpm.npm_headers "application/json; charset=utf-8") "application/json; charset=utf-8"
      end
  | SDocker _ =>
      match ProxyDocker.parseRequestType (pr_Path req) with
      | ProxyDocker.DockerManifest => ProxyDocker.manifest_answer req
      | _ =>
          streamed (ProxyDocker.with_digest req (<[ "Content-Type" := "application/octet-stream"%string ]> ProxyDocker.api_version))
            "application/octet-stream"
      end
  | SMaven _ _ => λ content,
      let filename := Base (pr_Path req) in
      Some (BuildProxyResponse "maven" content 200 (DetermineContentType filename) filename true)
  end.

Definition miss_of {HC : HttpClient} (svc : service) (env : Env) (req : ProxyRequest) (s : S) : ProxyResponse * S :=
  let drop (out : ProxyResponse * list HttpRequest * S) := (out.1.1, out.2) in
  let key := key_of svc env req in
  match svc with
  | SApk ps => drop (apk_fetchFromUpstream ps env req key s)
  | SYum ps => drop (yum_fetchFromUpstream ps env req key s)
  | SPip ps => drop (pip_fetchFromUpstream ps env req key s)
  | SApt config order => drop (apt_fetchFromUpstream config order env req key s)
  | SNpm config =>
      match ProxyNpm.parseRequestType (pr_Path req) with
      | ProxyNpm.NpmMetadata | ProxyNpm.NpmScopedMetadata => drop (ProxyNpm.fetchFromUpstream config env req key true s)
      | ProxyNpm.NpmTarball => drop (ProxyNpm.fetchFromUpstream config env req key false s)
      | ProxyNpm.NpmSearch => drop (ProxyNpm.fetchFromUpstream config env req EmptyString false s)
      | ProxyNpm.NpmUnknown => (HandleError "unknown npm request type" 400, s)
      end
  | SDocker ps =>
      match ProxyDocker.parseRequestType (pr_Path req) with
      | ProxyDocker.DockerAPIVersion => (ProxyDocker.handleAPIVersion, s)
      | ProxyDocker.DockerManifest => drop (ProxyDocker.fetchFromUpstream ps env req key true s)
      | ProxyDocker.DockerBlob => drop (ProxyDocker.fetchFromUpstream ps env req key false s)
      | ProxyDocker.DockerTags | ProxyDocker.DockerCatalog => drop (ProxyDocker.fetchFromUpstream ps env req EmptyString false s)
      | ProxyDocker.DockerUnknown => (HandleError "unknown docker request type" 400, s)
      end
  | SMaven cache_enabled ps =>
      match ProxyMaven.fetchFromUpstream cache_enabled env req 0 ps s with
      | (Some response, s) => (response, s)
      | (None, s) => (HandleError "all upstream proxies failed" 502, s)
      end
  end.

Lemma HandleRequest_eq {HC : HttpClient} svc env req s :
  HandleRequest svc env req s =
  match ValidateRequest svc req with
  | Some e => (HandleError e 400, s)
  | None =>
      if cacheable svc req then
        match TryCache env (key_of svc env req) s with
        | (Ok (Some content), s) => match answer_of svc req content with Some r => (r, s) | None => miss_of svc env req s end
        | (_, s) => miss_of svc env req s
        end
      else miss_of svc env req s
  end.
Proof.
  destruct svc; cbn [HandleRequest ValidateRequest cacheable key_of key_path GetProxyType answer_of miss_of];
    unfold apk_HandleRequest, yum_HandleRequest, pip_HandleRequest, apt_HandleRequest, ProxyNpm.HandleRequest,
      ProxyDocker.HandleRequest, ProxyMaven.HandleRequest;
    (destruct (_ req) as [e|]; [done|]);
    try (destruct (ProxyNpm.parseRequestType _)); try (destruct (ProxyDocker.parseRequestType _)); try done;
    unfold ProxyNpm.handleMetadata, ProxyNpm.handleTarball, ProxyDocker.handleManifest, ProxyDocker.handleBlob, from_cache;
    destruct (TryCache _ _ _) as [[[content|]|e] s']; try done;
    match goal with |- context [match ?a content with _ => _ end] => by destruct (a content) end.
Qed.

(** ** A cached answer *)

Definition hit (r : ProxyResponse) (content : Reader) : Prop :=
  rd_data (ps_Body r) = rd_data content ∧ ps_StatusCode r = 200 ∧ ps_Cached r = true.

Lemma read_all_hit headers contentType content r :
  read_all headers contentType content = Some r → hit r content.
Proof. unfold read_all. destruct (rd_fails content); [done|]. by intros [= <-]. Qed.

Lemma streamed_hit headers contentType content r : streamed headers contentType content = Some r → hit r content.
Proof. by intros [= <-]. Qed.

Lemma answer_of_hit svc req content r : answer_of svc req content = Some r → hit r content.
Proof.
  destruct svc; cbn [answer_of];
    unfold apk_answer, yum_answer, pip_answer, apt_answer, ProxyDocker.manifest_answer; cbn zeta;
    repeat case_match; try apply read_all_hit; try apply streamed_hit. by intros [= <-].
Qed.

(** Only content that cannot be read makes no answer. *)
Lemma answer_of_some svc req content : rd_fails content = false → is_Some (answer_of svc req content).
Proof.
  intros H. destruct svc; cbn [answer_of];
    unfold apk_answer, yum_answer, pip_answer, apt_answer, ProxyDocker.manifest_answer, read_all, streamed; cbn zeta;
    rewrite ?H; repeat case_match; first [congruence|eexists; reflexivity].
Qed.

(** The answer is made from the path alone. *)
Lemma answer_of_path svc req req' : pr_Path req = pr_Path req' → answer_of svc req = answer_of svc req'.
Proof. destruct req, req'. cbn. intros ->. by destruct svc. Qed.

Lemma cacheable_path svc req req' : pr_Path req = pr_Path req' → cacheable svc req = cacheable svc req'.
Proof. destruct req, req'. cbn. intros ->. by destruct svc. Qed.

Lemma key_of_path svc env req req' : pr_Path req = pr_Path req' → key_of svc env req = key_of svc env req'.
Proof. destruct req, req'. cbn. intros ->. by destruct svc. Qed.

(** Once the content of a path is cached and readable, every valid request for the path
    gets one and the same answer, the cached content with status 200, whatever its headers
    and its Authorization among them, its method or its sender, and whatever the upstreams
    would say: what was fetched with one client's credentials is given to all. *)
Theorem cached_answer_ignores_client svc env req s s' content :
  ValidateRequest svc req = None → cacheable svc req = true →
  TryCache env (key_of svc env req) s = (Ok (Some content), s') → rd_fails content = false →
  ∃ r, hit r content ∧ ∀ HC req', pr_Path req' = pr_Path req → ValidateRequest svc req' = None →
    HandleRequest (HC := HC) svc env req' s = (r, s').
Proof.
  intros _ Hc Ht Hf. destruct (answer_of_some svc req content Hf) as [r Hr]. exists r. split; [by eapply answer_of_hit|].
  intros HC req' Hp Hv. rewrite HandleRequest_eq, Hv, (cacheable_path _ _ req), Hc, (key_of_path _ _ _ req), Ht by done.
  by rewrite (answer_of_path _ _ req), Hr.
Qed.

(** ** What a miss stores *)

(** The content that is made of an upstream's. *)
Definition published (svc : service) (req : ProxyRequest) (data : string) : string :=
  match svc with
  | SNpm _ =>
      match ProxyNpm.parseRequestType (pr_Path req) with
      | ProxyNpm.NpmMetadata | ProxyNpm.NpmScopedMetadata => ProxyNpm.rewriteMetadataURLs data req
      | _ => data
      end
  | _ => data
  end.

(** The cache after a miss: as it was, or with one [Put] of what an upstream answered. *)
Definition put_answer {HC : HttpClient} (env : Env) (key : string) (requests : list HttpRequest) (f : string → string)
    (s s' : S) : Prop :=
  ∃ n q resp rd, q ∈ requests ∧ client_Do n q = Ok resp ∧ ha_Status resp = 200 ∧
    s' = (cs_Put env key rd s).2 ∧ rd_fails rd = rd_fails (ha_Body resp) ∧ rd_data rd = f (rd_data (ha_Body resp)).

Definition fetched {HC : HttpClient} svc env req (s s' : S) : Prop :=
  s' = s ∨ cacheable svc req = true ∧ put_answer env (key_of svc env req) (requests_of svc req) (published svc req) s s'.

Lemma loop_stores {HC : HttpClient} early on_ok env key f requests s :
  (∀ resp r, early resp = Some r → ps_Cached r = false) →
  (∀ resp d s, ps_Cached (on_ok resp d s).1 = false ∧
    ((on_ok resp d s).2 = s ∨ String.eqb key EmptyString = false ∧ (on_ok resp d s).2 = (cs_Put env key (text_body (f d)) s).2)) →
  let '(r, _, s') := try_upstreams early on_ok 0 requests s in
  match r with Some r => ps_Cached r = false | None => s' = s end ∧
  (s' = s ∨ String.eqb key EmptyString = false ∧ put_answer env key requests f s s').
Proof.
  intros He Hok. pose proof (try_upstreams_spec early on_ok 0 requests s) as H.
  destruct (try_upstreams _ _ _ _ _) as [[[r|] sent] s']; cbn in H; [|destruct H as [-> _]; by auto].
  destruct H as (i & q & resp & Hq & _ & _ & Hc & H). destruct (early resp) eqn:Ee.
  { destruct H as [-> ->]. split; [by eapply He|by left]. }
  destruct H as (H2 & Hf & H). pose proof (Hok resp (rd_data (ha_Body resp)) s) as [Hca Hs]. rewrite <- H in Hca, Hs.
  split; [done|]. destruct Hs as [Hs|[Hk Hs]]; [by left|right]. split; [done|].
  exists i, q, resp, (text_body (f (rd_data (ha_Body resp)))). split; [by eapply list_elem_of_lookup_2|]. done.
Qed.

Lemma fetch_from_stores {HC : HttpClient} env key ct nf header urls (s : S) :
  let '(r, _, s') := fetch_from env key ct nf header urls s in
  ps_Cached r = false ∧ (s' = s ∨ put_answer env key (get header <$> urls) id s s').
Proof.
  unfold fetch_from.
  pose proof (loop_stores no_early (store_and_answer env key ct) env key id ((λ u, mkHttp "GET" u header) <$> urls) s) as H.
  destruct (try_upstreams _ _ _ _ _) as [[[r|] sent] s']; (destruct H as [Hr Hs]; [done| |]);
    try (intros resp d s0; unfold store_and_answer; destruct (String.eqb key EmptyString); by auto);
    (split; [done|]); destruct Hs as [|[_ ?]]; auto.
Qed.

Lemma npm_stores {HC : HttpClient} config env req key (b : bool) (s : S) (f : string → string) :
  (∀ d, f d = if b then ProxyNpm.rewriteMetadataURLs d req else d) →
  let '(r, _, s') := ProxyNpm.fetchFromUpstream config env req key b s in
  ps_Cached r = false ∧
  (s' = s ∨ String.eqb key EmptyString = false ∧ put_answer env key (requests_of (SNpm config) req) f s s').
Proof.
  intros Hb. unfold ProxyNpm.fetchFromUpstream. destruct (bool_decide (config = ∅)); [by auto|]. cbn [requests_of].
  destruct (default [] (config !! "default"%string)) as [|p ps]; [by auto|].
  pose proof (loop_stores no_early (ProxyNpm.npm_store env req key b) env key f (ProxyNpm.npm_requests "GET" req (p :: ps)) s) as H.
  destruct (try_upstreams _ _ _ _ _) as [[[r|] sent] s']; (destruct H as [Hr Hs]; [done| |by split]);
    intros resp d s0; unfold ProxyNpm.npm_store; rewrite Hb; destruct (String.eqb key EmptyString); by auto.
Qed.

Lemma docker_stores {HC : HttpClient} ps env req key (b : bool) (s : S) :
  let '(r, _, s') := ProxyDocker.fetchFromUpstream ps env req key b s in
  ps_Cached r = false ∧
  (s' = s ∨ String.eqb key EmptyString = false ∧ put_answer env key (requests_of (SDocker ps) req) id s s').
Proof.
  unfold ProxyDocker.fetchFromUpstream. destruct ps as [|p ps]; [by auto|]. cbn [requests_of].
  pose proof (loop_stores ProxyDocker.challenge (ProxyDocker.docker_store env key b) env key id
    (ProxyDocker.docker_requests "GET" req (p :: ps)) s) as H.
  destruct (try_upstreams _ _ _ _ _) as [[[r|] sent] s'];
    (destruct H as [Hr Hs]; [unfold ProxyDocker.challenge; intros resp r0; destruct (_ =? 401); by intros [= <-]| |by split]);
    intros resp d s0; unfold ProxyDocker.docker_store; destruct (String.eqb key EmptyString); by auto.
Qed.

Lemma Fetch_ok {HC : HttpClient} n url headers r :
  ProxyMaven.Fetch n url headers = Ok r →
  ∃ resp, client_Do n (get (default_header "User-Agent" "ProxyND/1.0" headers) url) = Ok resp ∧
    ps_StatusCode r = ha_Status resp ∧ ps_Body r = ha_Body resp ∧ ps_Cached r = false.
Proof.
  unfold ProxyMaven.Fetch, get. destruct (bad_url url); [done|]. destruct (client_Do _ _) as [resp|]; [|done].
  cbn zeta. destruct (400 <=? ha_Status resp); [done|]. intros [= <-]. by exists resp.
Qed.

Lemma maven_stores {HC : HttpClient} ce ps env req n (s : S) :
  match ProxyMaven.fetchFromUpstream ce env req n ps s with
  | (None, s') => s' = s
  | (Some r, s') => ps_Cached r = false ∧
      (s' = s ∨ put_answer env (BuildCacheKey "maven" env (pr_Path req)) (requests_of (SMaven ce ps) req) id s s')
  end.
Proof.
  revert n. induction ps as [|p ps IH]; intros n; cbn [ProxyMaven.fetchFromUpstream]; [done|].
  specialize (IH (Datatypes.S n)).
  assert (match ProxyMaven.fetchFromUpstream ce env req (Datatypes.S n) ps s with
    | (None, s') => s' = s
    | (Some r, s') => ps_Cached r = false ∧
        (s' = s ∨ put_answer env (BuildCacheKey "maven" env (pr_Path req)) (requests_of (SMaven ce (p :: ps)) req) id s s')
    end) as Hnext.
  { destruct (ProxyMaven.fetchFromUpstream _ _ _ _ _ _) as [[r|] s']; [|done]. destruct IH as [Hr Hs]. split; [done|].
    destruct Hs as [|(m & q & resp & rd & Hq & Hs)]; [by left|right]. exists m, q, resp, rd. split; [|done].
    cbn [requests_of] in *. rewrite filter_cons. case_decide; [by right|done]. }
  destruct (ProxyMaven.mv_Enabled p) eqn:He; cbn [negb]; [|exact Hnext].
  destruct (ProxyMaven.Fetch _ _ _) as [r|] eqn:Hf; [|exact Hnext].
  destruct (Z.eqb_spec (ps_StatusCode r) 200) as [H2|]; [|exact Hnext].
  destruct (Fetch_ok _ _ _ _ Hf) as (resp & Hc & Hst & Hbd & Hca). destruct ce; [|by auto].
  unfold CacheResponse. destruct (cs_Put _ _ _ _) as [[e rest] s'] eqn:Ep. split; [done|right].
  eexists n, _, resp, (ps_Body r). cbn [requests_of]. rewrite filter_cons_True by done. split; [left|].
  rewrite Ep, Hbd. split_and!; try done; congruence.
Qed.

Lemma miss_stores {HC : HttpClient} svc env req s :
  ps_Cached (miss_of svc env req s).1 = false ∧ fetched svc env req s (miss_of svc env req s).2.
Proof.
  assert (∀ ct nf header urls s key, key = key_of svc env req → cacheable svc req = true →
    requests_of svc req = get header <$> urls → published svc req = id →
    let out := fetch_from env key ct nf header urls s in ps_Cached out.1.1 = false ∧ fetched svc env req s out.2) as Hfrom.
  { intros ct nf header urls s0 key -> Hc Hq Hp. pose proof (fetch_from_stores env (key_of svc env req) ct nf header urls s0) as H.
    destruct (fetch_from _ _ _ _ _ _ _) as [[r sent] s']. destruct H as [? H]. split; [done|]. unfold fetched. rewrite Hq, Hp, Hc.
    destruct H; auto. }
  destruct svc; cbn [miss_of]; cbn zeta.
  1-3: unfold apk_fetchFromUpstream, yum_fetchFromUpstream, pip_fetchFromUpstream;
    destruct proxies as [|p ps]; [split; [done|by left]|]; apply Hfrom; try done; by rewrite <- list_fmap_compose.
  - unfold apt_fetchFromUpstream. destruct (bool_decide (config = ∅)); [split; [done|by left]|].
    destruct (apt_proxies _ _ _) as [|p ps] eqn:Ep; [split; [done|by left]|]. apply Hfrom; try done.
    cbn [requests_of]. rewrite Ep. by rewrite <- list_fmap_compose.
  - unfold fetched, published. cbn [cacheable key_of key_path GetProxyType]. destruct (ProxyNpm.parseRequestType (pr_Path req)); try (by auto);
      match goal with |- context [ProxyNpm.fetchFromUpstream config env req ?k ?b s] =>
        pose proof (npm_stores config env req k b s (λ d, if b then ProxyNpm.rewriteMetadataURLs d req else d) (λ _, eq_refl)) as H;
        destruct (ProxyNpm.fetchFromUpstream config env req k b s) as [[r sent] s'] end;
      destruct H as [Hr [|[Hk Hs]]]; first [discriminate Hk|by auto].
  - unfold fetched, published. cbn [cacheable key_of key_path GetProxyType]. destruct (ProxyDocker.parseRequestType (pr_Path req)); try (by auto);
      match goal with |- context [ProxyDocker.fetchFromUpstream ?ps env req ?k ?b s] =>
        pose proof (docker_stores ps env req k b s) as H;
        destruct (ProxyDocker.fetchFromUpstream ps env req k b s) as [[r sent] s'] end;
      destruct H as [Hr [|[Hk Hs]]]; first [discriminate Hk|by auto].
  - pose proof (maven_stores cache_enabled proxies env req 0 s) as H. unfold fetched, published. cbn [cacheable key_of key_path GetProxyType].
    destruct (ProxyMaven.fetchFromUpstream _ _ _ _ _ _) as [[r|] s']; [destruct H as [Hr [|Hs]]; by auto|].
    subst s'. by auto.
Qed.

(** ** Sequences of requests *)

Context {CL : CacheLaws S E}.

Record event := mkEvent { ev_client : HttpClient; ev_service : service; ev_env : Env; ev_req : ProxyRequest }.

Definition ev_key (e : event) : string := key_of (ev_service e) (ev_env e) (ev_req e).
Definition serve (e : event) (s : S) : ProxyResponse * S :=
  HandleRequest (HC := ev_client e) (ev_service e) (ev_env e) (ev_req e) s.

(** The content [d] under [key] is what an upstream answered, with status 200 and in full,
    to a request sent for [e]. *)
Definition origin (e : event) (key d : string) : Prop :=
  ValidateRequest (ev_service e) (ev_req e) = None ∧ cacheable (ev_service e) (ev_req e) = true ∧ ev_key e = key ∧
  ∃ n q resp, q ∈ requests_of (ev_service e) (ev_req e) ∧ client_Do (HttpClient := ev_client e) n q = Ok resp ∧
    ha_Status resp = 200 ∧ rd_fails (ha_Body resp) = false ∧
    d = published (ev_service e) (ev_req e) (rd_data (ha_Body resp)).

(** What the environment of an event guarantees: a working directory, and a fresh name for a
    temporary file. *)
Definition env_ok (e : event) (s : S) : Prop :=
  (∃ ds, working_dir (ev_env e) = Some (unsplit true ds) ∧ Forall (λ c, segment c = true) ds) ∧ cs_fresh (ev_env e) (ev_key e) s.

Inductive reach (s0 : S) : list event → S → Prop :=
| reach_init : reach s0 [] s0
| reach_step es s e : reach s0 es s → env_ok e s → reach s0 (es ++ [e]) (serve e s).2.

Lemma same_trans s1 s2 s3 : cs_same s1 s2 → cs_same s2 s3 → cs_same s1 s3.
Proof.
  intros (Hv & Hs & Hf) (Hv' & Hs' & Hf'). split_and!; [by auto| |by auto]. intros k. by rewrite Hs', Hs.
Qed.

Lemma TryCache_same env key s : cs_same s (TryCache env key s).2.
Proof.
  unfold TryCache. pose proof (cs_exists_state env key s) as H. destruct (cs_Exists env key s) as [[[]|e] s'] eqn:Ee; try done.
  eapply same_trans; [exact H|apply cs_get_state].
Qed.

Lemma TryCache_stored env key s s' r :
  cs_valid s → TryCache env key s = (Ok (Some r), s') → cs_stored s key = Some (rd_data r).
Proof.
  unfold TryCache. pose proof (cs_exists_state env key s) as H. destruct (cs_Exists env key s) as [[[]|e] s1]; try done.
  destruct H as (Hv & Hs & _). intros Hc Hg. rewrite <- Hs. cbn in *. eapply cs_get_stored; [by apply Hv|by rewrite Hg].
Qed.

Lemma valid_path svc req :
  ValidateRequest svc req = None → ContainsTraversalPattern (pr_Path req) = false.
Proof.
  assert (base_ValidateRequest req = None → ContainsTraversalPattern (pr_Path req) = false) as H.
  { unfold base_ValidateRequest. destruct (String.eqb _ _); [done|]. by destruct (ContainsTraversalPattern _). }
  destruct svc; try exact H. cbn. unfold ProxyMaven.ValidateRequest. by destruct (base_ValidateRequest req); auto.
Qed.

Lemma type_plain svc : plain_name (GetProxyType svc).
Proof. by destruct svc; split_and!; vm_compute. Qed.

Lemma key_of_spec svc env req ds :
  working_dir env = Some (unsplit true ds) → Forall (λ c, segment c = true) ds → ValidateRequest svc req = None →
  key_of svc env req = Join (GetProxyType svc :: segments_of (TrimSpace (key_path svc req))) "/" ∧
  proper_key (key_of svc env req).
Proof.
  intros Hw Hds Hv%valid_path. eapply BuildCacheKey_spec; [apply type_plain|done..|].
  destruct svc; try done. cbn [key_path]. unfold pip_cache_path. by destruct (pip_classifyRequest _).
Qed.

(** A request answers from the cache or leaves there what an upstream said. *)
Definition served (e : event) (s : S) (out : ProxyResponse * S) : Prop :=
  (ps_Cached out.1 = true → cs_stored s (ev_key e) = Some (rd_data (ps_Body out.1))) ∧ cs_valid out.2 ∧
  ∀ k d, cs_stored out.2 k = Some d → cs_stored s k = Some d ∨ origin e k d.

Lemma miss_served e s s1 :
  ValidateRequest (ev_service e) (ev_req e) = None → cs_valid s → env_ok e s → cs_same s s1 →
  served e s (miss_of (HC := ev_client e) (ev_service e) (ev_env e) (ev_req e) s1).
Proof.
  destruct e as [HC svc env req]. unfold served, origin, env_ok, ev_key. cbn [ev_client ev_service ev_env ev_req].
  intros Hv Hc [(ds & Hw & Hds) Hf] (Hv1 & Hs1 & Hf1). destruct (miss_stores svc env req s1) as [Hca Hfe].
  rewrite Hca. split; [done|]. destruct Hfe as [->|(Hcc & n & q & resp & rd & Hq & Hd & H2 & -> & Hrf & Hrd)].
  { split; [by auto|]. intros k d. rewrite Hs1. by auto. }
  pose proof (cs_put env (key_of svc env req) rd s1 (Hv1 Hc) (proj2 (key_of_spec _ _ _ _ Hw Hds Hv)) (Hf1 _ _ Hf)) as Hp.
  destruct (cs_Put _ _ _ _) as [[o rest] s2]. destruct Hp as (Hv2 & Hs2 & Hp). split; [done|]. cbn [snd]. intros k d.
  destruct (decide (k = key_of svc env req)) as [->|Hn]; [|rewrite Hs2, Hs1 by done; by auto].
  destruct o; [rewrite Hp, Hs1; by auto|]. destruct Hp as (-> & Hrf' & _). intros [= <-]. right.
  split_and!; try done. exists n, q, resp. split_and!; try done. congruence.
Qed.

Lemma hit_served e s s1 content r :
  cs_valid s → TryCache (ev_env e) (ev_key e) s = (Ok (Some content), s1) → answer_of (ev_service e) (ev_req e) content = Some r →
  served e s (r, s1).
Proof.
  intros Hc Ht Ha. pose proof (TryCache_same (ev_env e) (ev_key e) s) as (Hv1 & Hs1 & _). rewrite Ht in *. cbn in *.
  split_and!; [|by auto|cbn; intros k d; rewrite Hs1; by auto]. intros _. cbn.
  destruct (answer_of_hit _ _ _ _ Ha) as [-> _]. by eapply TryCache_stored.
Qed.

Lemma serve_served e s : cs_valid s → env_ok e s → served e s (serve e s).
Proof.
  intros Hc He. unfold serve. rewrite HandleRequest_eq.
  assert (cs_same s s) as Hrefl by (by split_and!).
  destruct (ValidateRequest _ _) eqn:Hv; [by split_and!; [|done|auto]|].
  destruct (cacheable _ _) eqn:Hcc; [|by apply miss_served].
  pose proof (TryCache_same (ev_env e) (ev_key e) s) as Hsame. unfold ev_key in *.
  destruct (TryCache _ _ _) as [[[content|]|err] s1] eqn:Ht; try by apply miss_served.
  destruct (answer_of _ _ content) eqn:Ha; [by eapply hit_served|by apply miss_served].
Qed.

Lemma reach_served s0 es s :
  cs_valid s0 → reach s0 es s →
  cs_valid s ∧ ∀ k d, cs_stored s k = Some d → cs_stored s0 k = Some d ∨ ∃ e, e ∈ es ∧ origin e k d.
Proof.
  intros Hc. induction 1 as [|es s e _ [Hv IH] He]; [by auto|]. destruct (serve_served e s Hv He) as (_ & Hv' & Hs).
  split; [done|]. intros k d Hk. destruct (Hs _ _ Hk) as [Ho|Ho]; [|right; exists e; split; [set_solver|done]].
  destruct (IH _ _ Ho) as [|(e' & ? & ?)]; [by left|right]. exists e'. split; [set_solver|done].
Qed.


(** ** Cache keys of requests *)

(** C4: Two valid requests share a cache key exactly when they are for one type of proxy and
    their paths, without surrounding white space, have the same components but empty ones
    and single dots; the path of pip's root index being simple/index, which is also that
    of a package named index. *)
Theorem key_of_iff svc svc' env env' req req' ds ds'
    (Hw : working_dir env = Some (unsplit true ds)) (Hds : Forall (λ c, segment c = true) ds)
    (Hw' : working_dir env' = Some (unsplit true ds')) (Hds' : Forall (λ c, segment c = true) ds') :
  ValidateRequest svc req = None → ValidateRequest svc' req' = None →
  key_of svc env req = key_of svc' env' req' ↔
  GetProxyType svc = GetProxyType svc' ∧
  segments_of (TrimSpace (key_path svc req)) = segments_of (TrimSpace (key_path svc' req')).
Proof.
  intros Hv Hv'. rewrite (proj1 (key_of_spec _ _ _ _ Hw Hds Hv)), (proj1 (key_of_spec _ _ _ _ Hw' Hds' Hv')).
  assert (∀ svc p, Forall (λ c, segment c = true) (GetProxyType svc :: segments_of p)) as Hf.
  { intros sv p. constructor; [by destruct sv|apply Forall_filter_segments]. }
  split; [|by intros [-> ->]]. intros Ej%Join_inj; [by simplify_eq|apply Hf..|done|done].
Qed.

(** ** Revalidation *)

Lemma no_success_not_found {HC : HttpClient} env key ct nf header urls (s : S) :
  (∀ i url, urls !! i = Some url → skipped no_early i (get header url)) →
  (fetch_from env key ct nf header urls s).1.1 = HandleNotFound nf.
Proof.
  intros H. unfold fetch_from.
  pose proof (try_upstreams_spec no_early (store_and_answer env key ct) 0 ((λ u, mkHttp "GET" u header) <$> urls) s) as Hs.
  destruct (try_upstreams _ _ _ _ _) as [[[r|] sent] s']; [exfalso|done].
  destruct Hs as (i & q & resp & Hq & _ & Hb & Hc & H2 & Hf & _). rewrite list_lookup_fmap in Hq. destruct (urls !! i) as [url|] eqn:Hu; [|done]. injection Hq as <-.
  destruct (H _ _ Hu) as [Hb'|Hr]; unfold get in *; [by rewrite Hb in Hb'|]. cbn [Nat.add] in Hc. rewrite Hc in Hr.
  destruct Hr as [_ [Hr|Hr]]; [done|]. by rewrite Hf in Hr.
Qed.

Lemma copy_headers_other h names from to : h ∉ names → copy_headers names from to !! h = to !! h.
Proof.
  unfold copy_headers. revert to. induction names as [|n names IH]; intros to Hn; [done|]. cbn [fold_left].
  apply not_elem_of_cons in Hn as [Hne Hn]. rewrite IH by done. destruct (from !! n) as [v|]; [|done].
  destruct (String.eqb v EmptyString); [done|]. by rewrite lookup_insert_ne.
Qed.

Lemma default_header_other h name value headers : h ≠ name → default_header name value headers !! h = headers !! h.
Proof. intros H. unfold default_header. destruct (String.eqb _ _); [|done]. by rewrite lookup_insert_ne. Qed.

Lemma conditional_headers_tag agent req tag :
  pr_Headers req !! "If-None-Match" = Some tag → tag ≠ EmptyString →
  conditional_headers agent req !! "If-None-Match" = Some tag.
Proof.
  intros Hh Ht%String.eqb_neq. unfold conditional_headers. rewrite !default_header_other by done. unfold copy_headers.
  cbn [fold_left]. rewrite Hh, Ht. by rewrite lookup_insert, decide_True.
Qed.

(** The services that pass conditional headers on. *)
Definition revalidates (svc : service) : bool :=
  match svc with SApk _ | SYum _ | SApt _ _ => true | _ => false end.

Lemma requests_carry_tag svc req tag q :
  revalidates svc = true → pr_Headers req !! "If-None-Match" = Some tag → tag ≠ EmptyString →
  q ∈ requests_of svc req → hq_Header q !! "If-None-Match" = Some tag.
Proof.
  intros Hr Hh Ht. destruct svc; try done; cbn [requests_of]; intros (p & -> & _)%list_elem_of_fmap; by apply conditional_headers_tag.
Qed.

(** A request with an entity tag for a path that is not cached, sent to apk, yum or apt
    upstreams that all agree that the client's copy is current (304), is answered with 404. *)
Theorem not_modified_is_not_found {HC : HttpClient} svc env req s tag :
  revalidates svc = true → ValidateRequest svc req = None → requests_of svc req ≠ [] →
  (∀ config order, svc = SApt config order → config ≠ ∅) →
  pr_Headers req !! "If-None-Match" = Some tag → tag ≠ EmptyString →
  (∀ content, (TryCache env (key_of svc env req) s).1 ≠ Ok (Some content)) →
  (∀ n q, hq_Header q !! "If-None-Match" = Some tag → ∃ resp, client_Do n q = Ok resp ∧ ha_Status resp = 304) →
  ps_StatusCode (HandleRequest svc env req s).1 = 404.
Proof.
  intros Hr Hv Hne Hcfg Hh Ht Hmiss H304. rewrite HandleRequest_eq, Hv.
  assert (cacheable svc req = true) as -> by (by destruct svc).
  assert (∀ s1, ps_StatusCode (miss_of svc env req s1).1 = 404) as Hm.
  { intros s1. assert (∀ ct nf header urls key, requests_of svc req = get header <$> urls →
      ps_StatusCode (fetch_from env key ct nf header urls s1).1.1 = 404) as Hfr.
    { intros ct nf header urls key Hq. rewrite no_success_not_found; [done|]. intros i url Hu. right.
      destruct (H304 i (get header url)) as (resp & -> & H3).
      { eapply requests_carry_tag; [done..|]. rewrite Hq. apply list_elem_of_fmap. exists url. split; [done|].
        by eapply list_elem_of_lookup_2. }
      split; [done|]. left. by rewrite H3. }
    destruct svc; try done; cbn [miss_of]; cbn zeta; unfold apk_fetchFromUpstream, yum_fetchFromUpstream, apt_fetchFromUpstream.
    1-2: destruct proxies as [|p ps]; [done|]; apply Hfr; by rewrite <- list_fmap_compose.
    rewrite bool_decide_eq_false_2 by (by eapply Hcfg). cbn [requests_of] in Hne, Hfr.
    destruct (apt_proxies _ _ _) as [|p ps] eqn:Ep; [done|]. apply Hfr. by rewrite <- list_fmap_compose. }
  destruct (TryCache _ _ _) as [[[content|]|e] s1]; [by destruct (Hmiss content)|apply Hm..].
Qed.

(** ** The first client of a Maven artifact *)

Lemma maven_drained {HC : HttpClient} ce ps env req n s r s' ds :
  cs_valid s → cs_fresh env (BuildCacheKey "maven" env (pr_Path req)) s →
  working_dir env = Some (unsplit true ds) → Forall (λ c, segment c = true) ds → ProxyMaven.ValidateRequest req = None →
  ProxyMaven.fetchFromUpstream ce env req n ps s = (Some r, s') →
  (∀ k, cs_stored s' k = cs_stored s k) ∨ ps_Body r = text_body EmptyString.
Proof.
  intros Hc Hf Hw Hds Hv. revert n. induction ps as [|p ps IH]; intros n; cbn [ProxyMaven.fetchFromUpstream]; [done|].
  destruct (ProxyMaven.mv_Enabled p); cbn [negb]; [|by apply IH].
  destruct (ProxyMaven.Fetch _ _ _) as [r0|]; [|by apply IH]. destruct (ps_StatusCode r0 =? 200); [|by apply IH].
  destruct ce; [|by intros [= _ <-]; left]. unfold CacheResponse.
  pose proof (key_of_spec (SMaven true ps) env req ds Hw Hds Hv) as [_ Hp]. cbn [key_of key_path GetProxyType] in Hp.
  pose proof (cs_put env _ (ps_Body r0) s Hc Hp Hf) as Hput.
  destruct (cs_Put _ _ _ _) as [[o rest] s2]. destruct Hput as (_ & Hk & Hput). intros [= <- <-]. destruct o.
  - left. intros k. destruct (decide (k = BuildCacheKey "maven" env (pr_Path req))) as [->|]; by auto.
  - right. by destruct Hput as (_ & _ & ->).
Qed.

(** C5: The request that fills the cache with a Maven artifact is itself answered with an
    empty body: storing the artifact has read the body that is then returned. *)
Theorem maven_first_answer_empty {HC : HttpClient} ce ps env req s ds :
  cs_valid s → cs_fresh env (key_of (SMaven ce ps) env req) s →
  working_dir env = Some (unsplit true ds) → Forall (λ c, segment c = true) ds →
  let '(r, s') := HandleRequest (SMaven ce ps) env req s in
  cs_stored s' (key_of (SMaven ce ps) env req) ≠ cs_stored s (key_of (SMaven ce ps) env req) →
  ps_Body r = text_body EmptyString.
Proof.
  intros Hc Hf Hw Hds. rewrite HandleRequest_eq. destruct (ValidateRequest _ _) eqn:Hv; [done|]. cbn [cacheable].
  pose proof (TryCache_same env (key_of (SMaven ce ps) env req) s) as (Hv1 & Hs1 & Hf1).
  assert (∀ s1, cs_valid s1 → cs_fresh env (key_of (SMaven ce ps) env req) s1 → (∀ k, cs_stored s1 k = cs_stored s k) →
    let '(r, s') := miss_of (SMaven ce ps) env req s1 in
    cs_stored s' (key_of (SMaven ce ps) env req) ≠ cs_stored s (key_of (SMaven ce ps) env req) → ps_Body r = text_body EmptyString) as Hm.
  { intros s1 Hc1 Hfr1 Hst1. cbn [miss_of]. pose proof (maven_stores ce ps env req 0 s1) as Hn.
    destruct (ProxyMaven.fetchFromUpstream _ _ _ _ _ _) as [[r|] s2] eqn:Eq; [|intros H; destruct H; by subst].
    destruct (maven_drained ce ps env req 0 s1 r s2 ds) as [Hk|Hb]; try done. intros H. by destruct H; rewrite Hk. }
  destruct (TryCache _ _ _) as [[[content|]|e] s1]; cbn [snd] in *; try (apply Hm; by auto).
  cbn [answer_of]. intros H. by destruct H.
Qed.
End services.

(** ** npm metadata *)

(** The URL of the tarball of a version of a package. *)
Definition tarball_of (metadata : gmap string ProxyNpm.json) (version : string) : option string :=
  versions ← (metadata !! "versions"%string) ≫= ProxyNpm.as_object;
  v ← (versions !! version) ≫= ProxyNpm.as_object;
  dist ← (v !! "dist"%string) ≫= ProxyNpm.as_object;
  (dist !! "tarball"%string) ≫= ProxyNpm.as_string.

(** The rewriting of a URL: kept when no path is found in it. *)
Definition proxied (base tarball : string) : string :=
  if String.eqb (ProxyNpm.extractPackagePath tarball) EmptyString then tarball
  else base +:+ ("/npm/" +:+ ProxyNpm.extractPackagePath tarball).

(** The tarballs of every version in rewritten metadata are at the proxy under the
    scheme and host that the headers of the request name, whatever they say; versions that
    have no tarball get none, and without a host nothing changes.  These headers are
    therefore those of the client that filled the cache. *)
Theorem rewritten_tarballs {CJ : Codec ProxyNpm.json} req data metadata out version :
  json_unmarshal data = Some (ProxyNpm.JObject metadata) → ProxyNpm.base_url req ≠ EmptyString →
  json_marshal (ProxyNpm.JObject (ProxyNpm.rewrite_metadata (ProxyNpm.base_url req) metadata)) = Some out →
  json_safe (ProxyNpm.JObject (ProxyNpm.rewrite_metadata (ProxyNpm.base_url req) metadata)) →
  ProxyNpm.rewriteMetadataURLs data req = out ∧
  ∃ metadata', json_unmarshal out = Some (ProxyNpm.JObject metadata') ∧
    tarball_of metadata' version = proxied (ProxyNpm.base_url req) <$> tarball_of metadata version.
Proof.
  intros Hu Hb%String.eqb_neq Hm Hs. unfold ProxyNpm.rewriteMetadataURLs. rewrite Hu, Hb, Hm. split; [done|].
  eexists. split; [by eapply json_round_trip|]. unfold ProxyNpm.rewrite_metadata, tarball_of. set (b := ProxyNpm.base_url req).
  destruct (metadata !! "versions"%string) as [j|] eqn:Ev; [|by cbn; rewrite Ev].
  destruct j as [| | | | |versions]; try by (cbn; rewrite Ev). cbn. rewrite lookup_insert, decide_True by done. cbn.
  rewrite lookup_fmap. destruct (versions !! version) as [v|]; [|done]. cbn. unfold ProxyNpm.rewrite_version.
  destruct v as [| | | | |v]; try done. destruct (v !! "dist"%string) as [d|] eqn:Ed; [|by cbn; rewrite Ed].
  destruct d as [| | | | |dist]; try by (cbn; rewrite Ed). cbn. rewrite lookup_insert, decide_True by done. cbn.
  rewrite Ed. cbn. unfold ProxyNpm.rewrite_dist. destruct (dist !! "tarball"%string) as [t|] eqn:Et; [|by cbn; rewrite Et].
  destruct t as [| | |t| |]; try by (cbn; rewrite Et). cbn. unfold proxied.
  destruct (String.eqb (ProxyNpm.extractPackagePath t) EmptyString); [by rewrite Et|]. by rewrite lookup_insert, decide_True.
Qed.

(** ** Witnesses: the repository on a file system in memory that closes its files *)

Definition closing_fs : FileSystem MemFS := {|
  files := mem; ReadFile := ReadFile; OpenFile := OpenFile; StatFile := StatFile; StatSize := StatSize; ModTime := ModTime;
  MkdirAll := MkdirAll; CreateFile := CreateFile; CopyTo := CopyTo; CloseFile p s := (None, s); Rename := Rename;
  Remove := Remove; RemoveAll := RemoveAll; WriteFile := WriteFile; Walk := Walk; ReadDir := ReadDir; is_dir := is_dir
|}.

Lemma closing_laws : @FileSystemLaws MemFS closing_fs.
Proof. destruct mem_fs_laws. split; try eassumption; done. Qed.

Definition blind_codec : Codec (gmap string CacheItem) := {|
  json_marshal _ := Some "{}"%string; json_unmarshal _ := None; json_safe _ := False; json_round_trip m d H := False_ind _ H
|}.

Definition site_dirs : list string := ["cache"].
Lemma site_dirs_ok : Forall (λ c, segment c = true) site_dirs.
Proof. by repeat constructor. Qed.

Definition site_cache : CacheService (Repo MemFS) repo_err := repo_cache (FS := closing_fs) (CM := blind_codec) site_dirs 0.
Definition site_laws : @CacheLaws _ _ site_cache :=
  repo_laws (FL := closing_laws) (CM := blind_codec) site_dirs site_dirs_ok 0 (λ _ _, eq_refl).
#[local] Existing Instance site_cache.
#[local] Existing Instance site_laws.

Definition empty_repo : Repo MemFS := mkRepo ∅ 0 0 0 (mkMem ∅ ∅ []).
Definition site_env (n : string) : Env := mkEnv 5 5 5 5 n (text_body EmptyString) (Some "/srv"%string).

Lemma srv_ok : Forall (λ c, segment c = true) ["srv"%string].
Proof. by repeat constructor. Qed.

Lemma site_wd n : ∃ ds, working_dir (site_env n) = Some (unsplit true ds) ∧ Forall (λ c, segment c = true) ds.
Proof. exists ["srv"%string]. split; [done|exact srv_ok]. Qed.

(** JSON of one document. *)
Definition doc (url : string) : ProxyNpm.json :=
  ProxyNpm.JObject {[ "versions"%string := ProxyNpm.JObject {[ "1.0.0"%string := ProxyNpm.JObject {[ "dist"%string :=
    ProxyNpm.JObject {[ "tarball"%string := ProxyNpm.JString url ]} ]} ]} ]}.
Definition npm_url : string := "https://registry.npmjs.org/a/-/a-1.0.0.tgz".
Definition evil_url : string := "http://evil.example/npm/a/-/a-1.0.0.tgz".
#[local, program] Instance doc_codec : Codec ProxyNpm.json := {|
  json_marshal _ := Some "evil"%string;
  json_unmarshal s := if String.eqb s "evil" then Some (doc evil_url) else if String.eqb s "good" then Some (doc npm_url) else None;
  json_safe j := j = doc evil_url
|}.
Next Obligation. intros m d -> [= <-]. done. Qed.

Definition ask (path : string) (headers : gmap string string) : ProxyRequest := mkRequest path "" "GET" headers "".
Definition alice : gmap string string := {[ "Authorization" := "Basic YWxpY2U="%string ]}.

(** A registry that knows alice, and one that refuses everybody. *)
Definition hub : HttpClient := {|
  bad_url _ := false;
  client_Do _ q :=
    if bool_decide (hq_Header q !! "Authorization"%string = alice !! "Authorization"%string)
    then Ok (mkAnswer 200 ∅ (text_body "layer")) else Ok (mkAnswer 401 ∅ (text_body EmptyString))
|}.
Definition hub_service : service := SDocker [ProxyDocker.mkDocker "hub" "https://hub.example" "" ""].
Definition blob_path : string := "/v2/alice/private/blobs/sha256:0a".
Definition first_pull : event := mkEvent hub hub_service (site_env "1") (ask blob_path alice).
Definition second_pull : event := mkEvent hub hub_service (site_env "2") (ask blob_path ∅).
Definition after_first : Repo MemFS := (serve first_pull empty_repo).2.

Lemma cached_answer_ignores_client_witness :
  ps_StatusCode (serve second_pull empty_repo).1 = 401 ∧
  ∃ r s', hit r (text_body "layer") ∧ serve second_pull after_first = (r, s').
Proof.
  split; [vm_compute; reflexivity|].
  assert (TryCache (site_env "2") (key_of hub_service (site_env "2") (ask blob_path alice)) after_first =
    (Ok (Some (text_body "layer")), (TryCache (site_env "2") (key_of hub_service (site_env "2") (ask blob_path alice)) after_first).2))
    as Ht by (vm_compute; reflexivity).
  destruct (cached_answer_ignores_client hub_service (site_env "2") (ask blob_path alice) after_first _ (text_body "layer")
    eq_refl eq_refl Ht eq_refl) as (r & Hr & Ha).
  exists r. eexists. split; [exact Hr|]. exact (Ha hub (ask blob_path ∅) eq_refl eq_refl).
Defined.

Lemma consistent_empty : cs_valid empty_repo.
Proof. intros k Hk. cbn in Hk. rewrite lookup_empty in Hk. by destruct Hk. Qed.

Lemma stored_empty k : cs_stored empty_repo k = None.
Proof. cbn. unfold stored. cbn. by rewrite lookup_empty. Qed.


Lemma key_of_iff_witness :
  key_of (SPip []) (site_env "1") (ask "/" ∅) = key_of (SPip []) (site_env "1") (ask "/simple/index/" ∅) ∧
  key_of (SApk []) (site_env "1") (ask "/a//b" ∅) ≠ key_of (SApk []) (site_env "1") (ask "/a/c" ∅).
Proof.
  pose proof srv_ok as Hs. split.
  - apply (key_of_iff (SPip []) (SPip []) (site_env "1") (site_env "1") (ask "/" ∅) (ask "/simple/index/" ∅) ["srv"%string]
      ["srv"%string] eq_refl Hs eq_refl Hs); vm_compute; repeat split.
  - intros H. apply (key_of_iff (SApk []) (SApk []) (site_env "1") (site_env "1") (ask "/a//b" ∅) (ask "/a/c" ∅) ["srv"%string]
      ["srv"%string] eq_refl Hs eq_refl Hs) in H; [|reflexivity..]. destruct H as [_ H]. vm_compute in H. discriminate H.
Defined.

Definition unchanged : HttpClient := {|
  bad_url _ := false; client_Do _ _ := Ok (mkAnswer 304 ∅ (text_body EmptyString))
|}.

Lemma not_modified_is_not_found_witness :
  ps_StatusCode (HandleRequest (HC := unchanged) (SApk [mkUpstream "main" "https://dl.example"]) (site_env "1")
    (ask "/v3.19/main/x86_64/APKINDEX.tar.gz" {[ "If-None-Match" := "etag"%string ]}) empty_repo).1 = 404.
Proof.
  apply (not_modified_is_not_found (HC := unchanged)) with (tag := "etag"%string); try (vm_compute; reflexivity).
  - discriminate.
  - discriminate.
  - discriminate.
  - intros content. vm_compute. discriminate.
  - intros n q _. eexists. split; reflexivity.
Defined.

Definition central : HttpClient := {| bad_url _ := false; client_Do _ _ := Ok (mkAnswer 200 ∅ (text_body "jar")) |}.
Definition jar : string := "/org/example/a/1.0/a-1.0.jar".
Definition central_service : service := SMaven true [ProxyMaven.mkMaven "central" "https://repo.example" true "" ""].
Definition jar_answer : ProxyResponse * Repo MemFS := HandleRequest (HC := central) central_service (site_env "1") (ask jar ∅) empty_repo.

Lemma maven_first_answer_empty_witness :
  ps_StatusCode jar_answer.1 = 200 ∧ cs_stored jar_answer.2 (key_of central_service (site_env "1") (ask jar ∅)) = Some "jar"%string ∧
  ps_Body jar_answer.1 = text_body EmptyString.
Proof.
  assert (cs_stored jar_answer.2 (key_of central_service (site_env "1") (ask jar ∅)) = Some "jar"%string) as Hs by (vm_compute; reflexivity).
  split; [vm_compute; reflexivity|]. split; [exact Hs|].
  assert (cs_fresh (site_env "1") (key_of central_service (site_env "1") (ask jar ∅)) empty_repo) as Hf by (vm_compute; reflexivity).
  pose proof (maven_first_answer_empty (HC := central) true [ProxyMaven.mkMaven "central" "https://repo.example" true "" ""]
    (site_env "1") (ask jar ∅) empty_repo ["srv"%string] consistent_empty Hf eq_refl srv_ok) as H.
  change (HandleRequest (SMaven true _) _ _ _) with jar_answer in H. destruct jar_answer as [r s'] eqn:E.
  apply H. cbn [fst snd] in Hs. change (SMaven true _) with central_service. rewrite Hs, stored_empty. discriminate.
Defined.

Lemma rewritten_tarballs_witness :
  ProxyNpm.rewriteMetadataURLs "good" (ask "/a" {[ "Host" := "evil.example"%string ]}) = "evil"%string ∧
  ∃ metadata', json_unmarshal "evil"%string = Some (ProxyNpm.JObject metadata') ∧ tarball_of metadata' "1.0.0" = Some evil_url.
Proof.
  destruct (rewritten_tarballs (ask "/a" {[ "Host" := "evil.example"%string ]}) "good"
    {[ "versions"%string := ProxyNpm.JObject {[ "1.0.0"%string := ProxyNpm.JObject {[ "dist"%string :=
       ProxyNpm.JObject {[ "tarball"%string := ProxyNpm.JString npm_url ]} ]} ]} ]} "evil" "1.0.0") as (H & m & Hm & Ht).
  - reflexivity.
  - vm_compute. discriminate.
  - reflexivity.
  - vm_compute. reflexivity.
  - split; [exact H|]. exists m. split; [exact Hm|]. rewrite Ht. vm_compute. reflexivity.
Defined.
