(* ===== verification/GoNet.v ===== *)
(** * GoNet: the addresses and networks of package [net]

    [net.ParseIP], [net.ParseCIDR] and [IPNet.Contains], byte by byte as Go's
    parsers go through a text: decimal fields without leading zeros for IPv4,
    hexadecimal groups with at most one ellipsis and possibly an IPv4 tail for
    IPv6.  [ParseIP_dotted] is the round trip of the dotted notation, and
    [Contains_prefix] says that a network holds the addresses that share its
    leading bits. *)

From Stdlib Require Import Ascii.
From S2P Require Import Prelude GoStrings.

(** An address is its 4 or 16 bytes. *)
Definition IP : Type := list Z.

(** ** IPv4 *)

(** The fields so far, the current one and its number of digits, which is [0] at
    the start of the text and after a dot. *)
Fixpoint v4_go (fields : list Z) (val digLen : Z) (s : string) : option (list Z) :=
  match s with
  | EmptyString => if Z.of_nat (length fields) <? 3 then None else Some (fields ++ [val])
  | String c s' =>
      if is_digit c then
        if (digLen =? 1) && (val =? 0) then None
        else let val' := val * 10 + (byte_of c - 48) in
             if 255 <? val' then None else v4_go fields val' (digLen + 1) s'
      else if Ascii.eqb c "." then
        if (digLen =? 0) || String.eqb s' EmptyString then None
        else if Z.of_nat (length fields) =? 3 then None
        else v4_go (fields ++ [val]) 0 0 s'
      else None
  end.

Definition parseIPv4 (s : string) : option (list Z) := v4_go [] 0 0 s.

(** ** IPv6 *)

Definition hex_digit (c : ascii) : option Z :=
  if in_range 48 57 c then Some (byte_of c - 48)
  else if in_range 97 102 c then Some (byte_of c - 87)
  else if in_range 65 70 c then Some (byte_of c - 55)
  else None.

(** The digits of a group: how many, their value, what follows.  A fifth digit is
    an error, so that the value fits 16 bits. *)
Fixpoint hex_group (off : Z) (acc : Z) (s : string) : option (Z * Z * string) :=
  match s with
  | EmptyString => Some (off, acc, s)
  | String c s' =>
      match hex_digit c with
      | Some d => if 3 <? off then None else hex_group (off + 1) (acc * 16 + d) s'
      | None => Some (off, acc, s)
      end
  end.

(** [groups] more groups may be read; [ip] holds the bytes read, [ellipsis] the
    position of the ellipsis in them. *)
Fixpoint v6_go (groups : nat) (ip : list Z) (ellipsis : option nat) (s : string)
    : option (list Z * option nat * string) :=
  match groups with
  | O => Some (ip, ellipsis, s)
  | S groups =>
      match hex_group 0 0 s with
      | None => None
      | Some (off, acc, rest) =>
          let ip' := ip ++ [acc / 256; acc mod 256] in
          if off =? 0 then None
          else match rest with
          | EmptyString => Some (ip', ellipsis, EmptyString)
          | String "." _ =>
              (* an IPv4 tail: the last four bytes, or anywhere there is room for it
                 after an ellipsis *)
              if (match ellipsis with None => true | Some _ => false end)
                 && negb (Nat.eqb (length ip) 12) then None
              else if Nat.ltb 16 (length ip + 4) then None
              else match parseIPv4 s with
                   | Some f => Some (ip ++ f, ellipsis, EmptyString)
                   | None => None
                   end
          | String ":" EmptyString => None
          | String ":" (String ":" s2) =>
              match ellipsis with
              | Some _ => None
              | None =>
                  if String.eqb s2 EmptyString then Some (ip', Some (length ip'), s2)
                  else v6_go groups ip' (Some (length ip')) s2
              end
          | String ":" s1 => v6_go groups ip' ellipsis s1
          | _ => None
          end
      end
  end.

(** What is read must be the whole text and 16 bytes, the ellipsis standing for at
    least one group. *)
Definition v6_end (r : option (list Z * option nat * string)) : option (list Z) :=
  match r with
  | Some (ip, ellipsis, EmptyString) =>
      if Nat.ltb (length ip) 16 then
        match ellipsis with
        | Some e => Some (take e ip ++ replicate (16 - length ip) 0 ++ drop e ip)
        | None => None
        end
      else match ellipsis with Some _ => None | None => Some ip end
  | _ => None
  end.

Definition parseIPv6 (s : string) : option (list Z) :=
  match s with
  | String ":" (String ":" EmptyString) => Some (replicate 16 0)
  | String ":" (String ":" s) => v6_end (v6_go 8 [] (Some 0%nat) s)
  | _ => v6_end (v6_go 8 [] None s)
  end.

(** ** [netip.ParseAddr], without the zones that [net.ParseIP] refuses *)

Inductive addr := V4 (f : list Z) | V6 (b : list Z).

(** The first dot, colon or percent sign tells the notation. *)
Fixpoint addr_kind (s : string) : option ascii :=
  match s with
  | EmptyString => None
  | String c s =>
      if Ascii.eqb c "." || Ascii.eqb c ":" || Ascii.eqb c "%" then Some c else addr_kind s
  end.

Definition ParseAddr (s : string) : option addr :=
  match addr_kind s with
  | Some "."%char => V4 <$> parseIPv4 s
  | Some ":"%char => if Contains s "%" then None else V6 <$> parseIPv6 s
  | _ => None
  end.

Definition v4InV6Prefix : list Z := replicate 10 0 ++ [255; 255].

Definition As16 (a : addr) : IP := match a with V4 f => v4InV6Prefix ++ f | V6 b => b end.
Definition BitLen (a : addr) : Z := match a with V4 _ => 32 | V6 _ => 128 end.

(** [net.ParseIP]: 16 bytes, or nil. *)
Definition ParseIP (s : string) : option IP := As16 <$> ParseAddr s.

(** [ip.To4()]. *)
Definition To4 (ip : IP) : option IP :=
  if Nat.eqb (length ip) 4 then Some ip
  else if Nat.eqb (length ip) 16 && bool_decide (take 12 ip = v4InV6Prefix) then Some (drop 12 ip)
  else None.

(** ** Networks *)

Definition IPMask : Type := list Z.

(** [net.CIDRMask]: [ones] set bits in [n] bytes. *)
Fixpoint CIDRMask (ones : Z) (n : nat) : IPMask :=
  match n with
  | O => []
  | S n =>
      if 8 <=? ones then 255 :: CIDRMask (ones - 8) n
      else (255 - Z.shiftr 255 ones) :: CIDRMask 0 n
  end.

Definition land_bytes (a m : list Z) : list Z := zip_with Z.land a m.

(** [ip.Mask(mask)]. *)
Definition Mask (ip : IP) (mask : IPMask) : option IP :=
  let mask := if Nat.eqb (length mask) 16 && Nat.eqb (length ip) 4
                 && forallb (Z.eqb 255) (take 12 mask) then drop 12 mask else mask in
  let ip := if Nat.eqb (length mask) 4 && Nat.eqb (length ip) 16
               && bool_decide (take 12 ip = v4InV6Prefix) then drop 12 ip else ip in
  if Nat.eqb (length ip) (length mask) then Some (land_bytes ip mask) else None.

Record IPNet := mkNet { net_ip : IP; net_mask : IPMask }.

(** [dtoi], then the conditions of [ParseCIDR] on the number of leading bits. *)
Definition parse_bits (s : string) (max : Z) : option Z :=
  match parse_uint s with
  | Some n => if n <=? max then Some n else None
  | None => None
  end.

(** [net.ParseCIDR], its network: the address is cut at the first slash. *)
Definition ParseCIDR (s : string) : option IPNet :=
  match cut_at "/" s with
  | None => None
  | Some (addr, mask) =>
      match ParseAddr addr with
      | None => None
      | Some a =>
          match parse_bits mask (BitLen a) with
          | None => None
          | Some n =>
              let m := CIDRMask n (Z.to_nat (BitLen a / 8)) in
              (λ ip, mkNet ip m) <$> Mask (As16 a) m
          end
      end
  end.

(** [networkNumberAndMask]. *)
Definition networkNumberAndMask (n : IPNet) : option (IP * IPMask) :=
  let ip := default (net_ip n) (To4 (net_ip n)) in
  match To4 (net_ip n), length (net_ip n) with
  | None, 16%nat | Some _, _ =>
      match length (net_mask n) with
      | 4%nat => if Nat.eqb (length ip) 4 then Some (ip, net_mask n) else None
      | 16%nat => Some (ip, if Nat.eqb (length ip) 4 then drop 12 (net_mask n) else net_mask n)
      | _ => None
      end
  | None, _ => None
  end.

(** [n.Contains(ip)]. *)
Definition NetContains (n : IPNet) (ip : IP) : bool :=
  let ip := default ip (To4 ip) in
  match networkNumberAndMask n with
  | None => Nat.eqb (length ip) 0
  | Some (nn, m) =>
      Nat.eqb (length ip) (length nn) && bool_decide (land_bytes nn m = land_bytes ip m)
  end.

Example ParseIP_ex :
  ParseIP "10.0.0.1" = Some (v4InV6Prefix ++ [10; 0; 0; 1]) ∧ ParseIP "10.0.0.01" = None ∧ ParseIP "1.2.3" = None
  ∧ ParseIP "1.2.3.4.5" = None ∧ ParseIP "256.1.1.1" = None ∧ ParseIP "1..2.3" = None ∧ ParseIP EmptyString = None
  ∧ ParseIP "::1" = Some (replicate 15 0 ++ [1]) ∧ ParseIP "::" = Some (replicate 16 0)
  ∧ ParseIP "2001:db8::8:800:200C:417A" = Some [32; 1; 13; 184; 0; 0; 0; 0; 0; 8; 8; 0; 32; 12; 65; 122]
  ∧ ParseIP "::ffff:1.2.3.4" = ParseIP "1.2.3.4" ∧ ParseIP "fe80::1%eth0" = None
  ∧ ParseIP "1::2::3" = None ∧ ParseIP "1:2:3:4:5:6:7:8:9" = None ∧ ParseIP "1:2:3:4:5:6:7::" = Some [0; 1; 0; 2; 0; 3; 0; 4; 0; 5; 0; 6; 0; 7; 0; 0]
  ∧ ParseIP "1:2:3:4:5:6:7:8::" = None ∧ ParseIP "12345::" = None ∧ ParseIP " 1.2.3.4" = None.
Proof. vm_compute. repeat split. Qed.

Definition in_cidr (net ip : string) : option bool :=
  match ParseCIDR net, ParseIP ip with Some n, Some a => Some (NetContains n a) | _, _ => None end.

Example NetContains_ex :
  in_cidr "10.0.0.0/8" "10.255.3.4" = Some true ∧ in_cidr "10.0.0.0/8" "11.0.0.1" = Some false
  ∧ in_cidr "192.168.1.130/25" "192.168.1.200" = Some true ∧ in_cidr "192.168.1.130/25" "192.168.1.100" = Some false
  ∧ in_cidr "0.0.0.0/0" "::1" = Some false ∧ in_cidr "::/0" "1.2.3.4" = Some false ∧ in_cidr "::/0" "fe80::1" = Some true
  ∧ in_cidr "::ffff:0:0/96" "1.2.3.4" = Some true ∧ in_cidr "fe80::/10" "febf::1" = Some true
  ∧ in_cidr "10.0.0.0/33" "10.0.0.1" = None ∧ in_cidr "10.0.0.0" "10.0.0.1" = None ∧ in_cidr "10.0.0.0/" "10.0.0.1" = None.
Proof. vm_compute. repeat split. Qed.

(** ** Networks are prefixes *)

(** The bytes as one big-endian number. *)
Fixpoint net_num (bs : list Z) : Z :=
  match bs with [] => 0 | b :: bs => b * 2 ^ (8 * Z.of_nat (length bs)) + net_num bs end.

Definition bytes (bs : list Z) : Prop := Forall (λ b, 0 <= b < 256) bs.

(** [n] leading bits of [L] bytes. *)
Definition leading (n : Z) (bs : list Z) : Z := net_num bs / 2 ^ (8 * Z.of_nat (length bs) - n).

Lemma net_num_bound bs : bytes bs → 0 <= net_num bs < 2 ^ (8 * Z.of_nat (length bs)).
Proof.
  induction 1 as [|b bs Hb _ IH]; cbn [net_num length]; [done|].
  replace (8 * Z.of_nat (Datatypes.S (length bs))) with (8 + 8 * Z.of_nat (length bs)) by lia.
  rewrite Z.pow_add_r by lia. change (2 ^ 8) with 256. nia.
Qed.

Lemma CIDRMask_length n L : length (CIDRMask n L) = L.
Proof. revert n. induction L as [|L IH]; intros n; cbn; [done|]. destruct (8 <=? n); cbn; by rewrite IH. Qed.

(** A byte of a mask keeps the leading bits: a check of all masks and bytes. *)
Lemma mask_byte k a : 0 <= k < 8 → 0 <= a < 256 → Z.land a (255 - Z.shiftr 255 k) = a / 2 ^ (8 - k) * 2 ^ (8 - k).
Proof.
  intros Hk Ha.
  assert (forallb (λ k, forallb (λ a, Z.land a (255 - Z.shiftr 255 k) =? a / 2 ^ (8 - k) * 2 ^ (8 - k)) (seqZ 0 256))
            (seqZ 0 8) = true) as H by (vm_compute; reflexivity).
  rewrite forallb_forall in H. specialize (H k ltac:(apply list_elem_of_In, elem_of_seqZ; lia)). rewrite forallb_forall in H.
  specialize (H a ltac:(apply list_elem_of_In, elem_of_seqZ; lia)). by apply Z.eqb_eq in H.
Qed.

Lemma mask_full a : 0 <= a < 256 → Z.land a 255 = a.
Proof. intros. change 255 with (Z.ones 8). rewrite Z.land_ones by lia. apply Z.mod_small. lia. Qed.

Lemma mask_none L a : length a = L → land_bytes a (CIDRMask 0 L) = replicate L 0.
Proof.
  revert a. induction L as [|L IH]; intros [|b a] H; simplify_eq/=; [done|].
  rewrite Z.land_0_r. unfold land_bytes in IH. by rewrite IH.
Qed.

Lemma div_byte b r m k : 0 <= r < 2 ^ m → 0 <= k <= m → (b * 2 ^ m + r) / 2 ^ (m - k) = b * 2 ^ k + r / 2 ^ (m - k).
Proof.
  intros Hr Hk. replace (2 ^ m) with (2 ^ k * 2 ^ (m - k)) by (rewrite <- Z.pow_add_r by lia; f_equal; lia).
  rewrite Z.mul_assoc, Z.add_comm, Z.div_add by (pose proof (Z.pow_pos_nonneg 2 (m - k)); lia). lia.
Qed.

Lemma div_high b r m k : 0 <= r < 2 ^ m → 0 <= m → 0 <= k → (b * 2 ^ m + r) / 2 ^ (m + k) = b / 2 ^ k.
Proof.
  intros Hr Hm Hk. rewrite Z.pow_add_r by lia.
  rewrite <- Z.div_div by (try apply Z.pow_nonzero; try apply Z.pow_pos_nonneg; lia).
  f_equal. rewrite Z.add_comm, Z.div_add by lia. rewrite Z.div_small by lia. lia.
Qed.

(** Two addresses agree under a mask exactly when their leading bits do. *)
Lemma mask_prefix a b n :
  bytes a → bytes b → length a = length b → 0 <= n <= 8 * Z.of_nat (length a) →
  (land_bytes a (CIDRMask n (length a)) = land_bytes b (CIDRMask n (length a)) ↔ leading n a = leading n b).
Proof.
  unfold leading. intros Ha. revert b n. induction Ha as [|x a Hx Ha IH]; intros [|y b] n Hb Hl Hn; simplify_eq/=; [done|].
  apply list.Forall_cons in Hb as [Hy Hb]. rewrite <- Hl. unfold land_bytes in *.
  pose proof (net_num_bound _ Ha) as Ba. pose proof (net_num_bound _ Hb) as Bb. rewrite <- Hl in Bb.
  set (m := 8 * Z.of_nat (length a)) in *.
  destruct (8 <=? n) eqn:E; zbool.
  - cbn [zip_with]. rewrite !mask_full by done.
    replace (8 * Z.of_nat (Datatypes.S (length a)) - n) with (m - (n - 8)) by lia.
    rewrite !div_byte by lia. specialize (IH b (n - 8) Hb Hl ltac:(lia)). rewrite <- Hl in IH.
    fold m in IH.
    assert (∀ r, 0 <= r < 2 ^ m → 0 <= r / 2 ^ (m - (n - 8)) < 2 ^ (n - 8)) as Hq.
    { intros r Hr. split; [apply Z.div_pos; [lia|apply Z.pow_pos_nonneg; lia]|].
      apply Z.div_lt_upper_bound; [apply Z.pow_pos_nonneg; lia|]. rewrite <- Z.pow_add_r by lia.
      replace (m - (n - 8) + (n - 8)) with m by lia. lia. }
    pose proof (Hq _ Ba) as Qa. pose proof (Hq _ Bb) as Qb.
    split; [intros [= -> H]; f_equal; by apply IH|]. intros H. assert (x = y) as -> by nia.
    f_equal. apply IH. nia.
  - cbn [zip_with]. rewrite !mask_byte by lia.
    replace (8 * Z.of_nat (Datatypes.S (length a)) - n) with (m + (8 - n)) by lia.
    rewrite !div_high by lia. fold (land_bytes a (CIDRMask 0 (length a))) (land_bytes b (CIDRMask 0 (length a))).
    rewrite !mask_none by done.
    pose proof (Z.pow_pos_nonneg 2 (8 - n) ltac:(lia) ltac:(lia)).
    split; [intros [= H1]; nia|intros ->; done].
Qed.

(** ** The dotted notation *)

Definition dotted (f : list Z) : string := Join (Itoa <$> f) ".".

(** A number below 256 is read as a field, whatever follows. *)
Lemma v4_field fs a s :
  0 <= a < 256 → ∃ len, 0 < len ∧ v4_go fs 0 0 (Itoa a +:+ s) = v4_go fs a len s.
Proof.
  intros Ha.
  set (ok := λ a, match Itoa a with
     | String c EmptyString => is_digit c && (byte_of c - 48 =? a)
     | String c (String d EmptyString) =>
         is_digit c && negb (byte_of c =? 48) && is_digit d && ((byte_of c - 48) * 10 + (byte_of d - 48) =? a)
     | String c (String d (String e EmptyString)) =>
         is_digit c && negb (byte_of c =? 48) && is_digit d && is_digit e
         && (((byte_of c - 48) * 10 + (byte_of d - 48)) * 10 + (byte_of e - 48) =? a)
     | _ => false end).
  assert (forallb ok (seqZ 0 256) = true) as H by (vm_compute; reflexivity).
  rewrite forallb_forall in H. specialize (H a ltac:(apply list_elem_of_In, elem_of_seqZ; lia)). unfold ok in H.
  clear ok. assert (∀ c, is_digit c = true → 48 <= byte_of c <= 57) as Hd by (intros c; apply in_range_spec).
  destruct (Itoa a) as [|c [|d [|e [|]]]]; try done; zbool; rewrite !str_app_cons; change (EmptyString +:+ s) with s;
    cbn [v4_go].
  - exists 1. split; [lia|]. rewrite H. cbn. pose proof (Hd c H).
    rewrite (proj2 (Z.ltb_ge 255 _)) by lia. f_equal. lia.
  - exists 2. split; [lia|]. pose proof (Hd c ltac:(done)). pose proof (Hd d ltac:(done)).
    rewrite H, H1. cbn [Z.eqb andb Z.add Z.mul]. rewrite !(proj2 (Z.ltb_ge 255 _)) by lia.
    rewrite (proj2 (Z.eqb_neq _ 0)) by lia. cbn. f_equal. lia.
  - exists 3. split; [lia|]. pose proof (Hd c ltac:(done)). pose proof (Hd d ltac:(done)). pose proof (Hd e ltac:(done)).
    rewrite H, H1, H2. cbn [Z.eqb andb Z.add Z.mul]. rewrite !(proj2 (Z.ltb_ge 255 _)) by lia.
    rewrite (proj2 (Z.eqb_neq _ 0)) by lia. cbn. f_equal. lia.
Qed.

(** A field and its dot, when something follows. *)
Lemma v4_next fs a c s :
  0 <= a < 256 → length fs ≠ 3%nat →
  v4_go fs 0 0 (Itoa a +:+ (String "." (String c s))) = v4_go (fs ++ [a]) 0 0 (String c s).
Proof.
  intros Ha Hl. destruct (v4_field fs a (String "." (String c s)) Ha) as (len & Hlen & ->).
  cbn [v4_go]. change (is_digit ".") with false. cbn [Ascii.eqb]. change (Ascii.eqb "." ".") with true. cbv iota.
  rewrite (proj2 (Z.eqb_neq len 0)) by lia. cbn [orb String.eqb].
  rewrite (proj2 (Z.eqb_neq _ 3)) by lia. done.
Qed.

Lemma Itoa_cons a : 0 <= a → ∃ c s, Itoa a = String c s ∧ is_digit c = true.
Proof.
  intros Ha. unfold Itoa. destruct (pretty_N_first (Z.to_N a)) as (c & s & E & Hc). exists c, s. split; [|done].
  destruct a; [done|exact E|lia].
Qed.

Lemma parseIPv4_dotted f : bytes f → length f = 4%nat → parseIPv4 (dotted f) = Some f.
Proof.
  intros Hf Hl. destruct f as [|a [|b [|c [|d [|]]]]]; try done. unfold bytes in Hf. rewrite !list.Forall_cons in Hf.
  destruct Hf as (Ha & Hb & Hc & Hd & _). unfold parseIPv4, dotted. cbn [fmap list_fmap].
  change (Join [Itoa a; Itoa b; Itoa c; Itoa d] ".") with
    (Itoa a +:+ ("." +:+ (Itoa b +:+ ("." +:+ (Itoa c +:+ ("." +:+ Itoa d)))))).
  destruct (Itoa_cons b ltac:(lia)) as (b1 & bs & Eb & _). destruct (Itoa_cons c ltac:(lia)) as (c1 & cs & Ec & _).
  destruct (Itoa_cons d ltac:(lia)) as (d1 & ds & Ed & _).
  assert (∀ s t r, Itoa s = r → "." +:+ (Itoa s +:+ t) = String "." (r +:+ t)) as Hdot by (by intros s t r <-).
  rewrite (Hdot _ _ _ Eb), str_app_cons, v4_next, <- str_app_cons, <- Eb by (cbn; lia).
  rewrite (Hdot _ _ _ Ec), str_app_cons, v4_next, <- str_app_cons, <- Ec by (cbn; lia).
  change ("." +:+ Itoa d) with (String "." (Itoa d)). rewrite Ed, v4_next, <- Ed by (cbn; lia).
  rewrite <- (str_app_nil_r (Itoa d)).
  destruct (v4_field (([] ++ [a]) ++ [b] ++ [c]) d EmptyString Hd) as (len & _ & E). cbn [app] in *. rewrite E. done.
Qed.

Lemma Itoa_digits a : 0 <= a → str_all is_digit (Itoa a) = true.
Proof.
  intros Ha. pose proof (parse_uint_pretty (Z.to_N a)) as H. rewrite <- (Z2N.id a Ha). unfold Itoa.
  replace (pretty (Z.of_N (Z.to_N a))) with (pretty (Z.to_N a)) by (by destruct (Z.to_N a)).
  destruct (pretty_N_first (Z.to_N a)) as (c & s & E & _). rewrite E in *. exact (digits_go_all _ _ _ H).
Qed.

Lemma dotted_text f : bytes f → str_all (λ c, is_digit c || Ascii.eqb c ".") (dotted f) = true.
Proof.
  unfold dotted. intros Hf. induction Hf as [|a f Ha Hf IH]; [done|]. cbn [fmap list_fmap].
  assert (str_all (λ c, is_digit c || Ascii.eqb c ".") (Itoa a) = true) as H0.
  { eapply str_all_impl; [|apply Itoa_digits; lia]. intros c ->. done. }
  destruct f as [|b f]; [exact H0|]. cbn [fmap list_fmap] in *. rewrite Join_cons. cbn [Join String.concat] in *.
  rewrite !str_all_app, H0, IH. done.
Qed.

Lemma addr_kind_dot w s : str_all is_digit w = true → addr_kind (w +:+ String "." s) = Some "."%char.
Proof.
  induction w as [|c w IH]; [done|]. cbn [str_all]. intros [Hc Hw]%andb_true_iff. rewrite str_app_cons. cbn [addr_kind].
  destruct (Ascii.eqb_spec c "."); [by subst|]. destruct (Ascii.eqb_spec c ":"); [by subst|].
  destruct (Ascii.eqb_spec c "%"); [by subst|]. by apply IH.
Qed.

Lemma ParseAddr_dotted f : bytes f → length f = 4%nat → ParseAddr (dotted f) = Some (V4 f).
Proof.
  intros Hf Hl. unfold ParseAddr. rewrite (parseIPv4_dotted f Hf Hl).
  destruct f as [|a [|b f]]; try done. apply list.Forall_cons in Hf as [Ha _].
  unfold dotted. cbn [fmap list_fmap]. rewrite Join_cons.
  change ("." +:+ ?x) with (String "." x). rewrite addr_kind_dot by (apply Itoa_digits; lia). done.
Qed.

Lemma ParseIP_dotted f : bytes f → length f = 4%nat → ParseIP (dotted f) = Some (v4InV6Prefix ++ f).
Proof. intros Hf Hl. unfold ParseIP. by rewrite ParseAddr_dotted. Qed.

Lemma To4_mapped f : length f = 4%nat → To4 (v4InV6Prefix ++ f) = Some f.
Proof.
  intros Hl. unfold To4. rewrite length_app, Hl.
  change (Nat.eqb (length v4InV6Prefix + 4) 4) with false. change (Nat.eqb (length v4InV6Prefix + 4) 16) with true.
  rewrite take_app_length', drop_app_length' by done. by rewrite bool_decide_true.
Qed.

Lemma land_bytes_length a m : length a = length m → length (land_bytes a m) = length a.
Proof. intros H. unfold land_bytes. rewrite length_zip_with. lia. Qed.

Lemma land_bytes_idem a m : land_bytes (land_bytes a m) m = land_bytes a m.
Proof.
  revert m. induction a as [|x a IH]; intros [|y m]; try done. unfold land_bytes in *. cbn.
  by rewrite IH, <- Z.land_assoc, Z.land_diag.
Qed.

(** A network of IPv4 written [a.b.c.d/n] holds the addresses with its [n] leading bits. *)
Lemma Contains_prefix f g n :
  bytes f → length f = 4%nat → bytes g → length g = 4%nat → 0 <= n <= 32 →
  ∃ net, ParseCIDR (dotted f +:+ (String "/" (Itoa n))) = Some net ∧
    NetContains net (v4InV6Prefix ++ g) = bool_decide (leading n f = leading n g).
Proof.
  intros Hf Lf Hg Lg Hn. unfold ParseCIDR.
  change (String "/" (Itoa n)) with ("/" +:+ Itoa n). rewrite (cut_at_first "/" EmptyString (dotted f) (Itoa n)).
  2: { eapply str_all_impl; [|by apply dotted_text]. intros c [Hc|Hc]%orb_true_iff; unfold not_char;
       apply negb_true_iff, Ascii.eqb_neq; intros ->; done. }
  rewrite ParseAddr_dotted by done. unfold parse_bits.
  replace (parse_uint (Itoa n)) with (Some n).
  2: { pose proof (parse_uint_pretty (Z.to_N n)) as H. rewrite Z2N.id in H by lia. rewrite <- H. f_equal.
       unfold Itoa. by destruct n as [|p|p]; [..|lia]. }
  cbn [BitLen]. rewrite (proj2 (Z.leb_le n 32)) by lia. change (Z.to_nat (32 / 8)) with 4%nat.
  pose proof (CIDRMask_length n 4) as Hm. set (m := CIDRMask n 4) in *.
  assert (Mask (As16 (V4 f)) m = Some (land_bytes f m)) as ->.
  { unfold Mask. cbn [As16]. rewrite Hm, length_app, Lf.
    change (Nat.eqb (length v4InV6Prefix + 4) 16) with true. cbn [Nat.eqb andb]. rewrite Hm. cbn [Nat.eqb andb].
    rewrite take_app_length', drop_app_length' by done. rewrite bool_decide_true by done.
    rewrite ?Lf, ?Hm. done. }
  cbn [fmap option_fmap option_map]. eexists. split; [done|].
  assert (length (land_bytes f m) = 4%nat) as Hlm by (rewrite land_bytes_length; lia).
  unfold NetContains, networkNumberAndMask. cbn [net_ip net_mask]. rewrite To4_mapped by done.
  assert (To4 (land_bytes f m) = Some (land_bytes f m)) as -> by (unfold To4; by rewrite Hlm).
  unfold default, from_option, id. rewrite ?Hm, ?Hlm, ?Lg. cbn [Nat.eqb]. rewrite ?Hlm. cbn [andb]. rewrite land_bytes_idem.
  apply bool_decide_ext. unfold m. rewrite <- Lf. apply mask_prefix; try done; lia.
Qed.
