(* ===== verification/GoText.v ===== *)
(** * GoText: more of [strings], [fmt] and [time] for the HTTP layer

    Comparisons without case, decimal numbers of a minimal width, Unix times and
    whole seconds. *)

From Stdlib Require Import Ascii.
From S2P Require Import Prelude GoStrings.

(** [strings.ToUpper], as far as its result is compared with ASCII text: the small
    letters, and the two characters above 127 whose upper case is ASCII (dotless i,
    long s). *)
Definition upper_char (c : ascii) : ascii :=
  if in_range 97 122 c then ascii_of_nat (nat_of_ascii c - 32) else c.

Fixpoint to_upper (s : string) : string :=
  match s with
  | String "196" (String "177" s) => String "I" (to_upper s)
  | String "197" (String "191" s) => String "S" (to_upper s)
  | String c s => String (upper_char c) (to_upper s)
  | EmptyString => EmptyString
  end.

(** [strings.EqualFold], as far as one of the two texts is ASCII: the letters
    without case, with the Kelvin sign and the long s, which fold to [k] and [s]. *)
Fixpoint fold_case (s : string) : string :=
  match s with
  | String "197" (String "191" s) => String "s" (fold_case s)
  | String "226" (String "132" (String "170" s)) => String "k" (fold_case s)
  | String c s => String (lower_char c) (fold_case s)
  | EmptyString => EmptyString
  end.

Definition EqualFold (s t : string) : bool := String.eqb (fold_case s) (fold_case t).

Lemma EqualFold_refl s : EqualFold s s = true.
Proof. apply String.eqb_refl. Qed.

(** [%0nd] of a number that is not negative. *)
Fixpoint zeros (n : nat) : string := match n with O => EmptyString | S n => String "0" (zeros n) end.
Definition pad_zeros (n : nat) (z : Z) : string := zeros (n - String.length (Itoa z)) +:+ Itoa z.

Example text_ex :
  to_upper "Get" = "GET"%string ∧ EqualFold "GeT" "get" = true ∧ EqualFold "a" "b" = false
  ∧ pad_zeros 6 42 = "000042"%string ∧ pad_zeros 2 123 = "123"%string.
Proof. vm_compute. repeat split. Qed.

(** ** Times *)

(** The first of January 1970, in seconds since the zero [time.Time]. *)
Definition unix_epoch : Z := 62135596800.

(** [t.Unix()] and [t.UnixNano()], the latter within the years it can express. *)
Definition Unix (t : instant) : Z := t / second - unix_epoch.
Definition UnixNano (t : instant) : Z := t - unix_epoch * second.

(** [int(d.Seconds())]: the seconds are a float64, exact enough below 97 days. *)
Definition int_seconds (d : duration) : Z := Z.quot d second.
