(* ===== verification/Mfa.v ===== *)
(** * Mfa: the multi-factor authentication service

    Models [src/internal/auth/mfa/mfa_service.go].  The users and the challenges
    are maps by identifier.  The [Methods] of a user are a Go map, which is a
    reference: copying the record of a user shares it.  The heap [method_maps]
    holds these maps, and [GetUserMFAStatus] works on it through the reference of
    its shallow copy.  No pointer to a challenge, a user or a method outlives the
    call that returns it, so that these are values of their maps.  The library
    that validates one-time passwords is the class [TotpLib]; random bytes are
    arguments, and each [time.Now()] of an operation is [now i], the readings in
    the order of the code.  The QR image is left to its library. *)

From Stdlib Require Import Ascii.
From S2P Require Import Prelude GoStrings GoText GoPath GoFS GoUrl GoHashes.

(** ** Data *)

Definition MethodTOTP : string := "totp".
Definition MethodSMS : string := "sms".
Definition MethodEmail : string := "email".
Definition MethodBackupCode : string := "backup_code".

Record MFASetup := mkSetup {
  ms_Method : string;
  ms_Secret : string;
  ms_PhoneNumber : string;
  ms_Enabled : bool;
  ms_Verified : bool;
  ms_CreatedAt : instant;
  ms_VerifiedAt : option instant;
  ms_LastUsedAt : option instant
}.

(** The address of a map of methods. *)
Definition ref : Type := positive.

Record MFAUserConfig := mkUser {
  mu_UserID : string;
  mu_Email : string;
  mu_Enabled : bool;
  mu_Methods : ref;
  mu_BackupCodes : list string;
  mu_CreatedAt : instant;
  mu_UpdatedAt : instant;
  mu_LastUsedAt : option instant;
  mu_FailedAttempts : Z;
  mu_LockedUntil : option instant
}.

Record MFAChallenge := mkChallenge {
  mc_ChallengeID : string;
  mc_UserID : string;
  mc_Method : string;
  mc_Code : string;
  mc_ExpiresAt : instant;
  mc_Attempts : Z;
  mc_MaxAttempts : Z;
  mc_CreatedAt : instant;
  mc_Completed : bool;
  mc_CompletedAt : option instant
}.

Record MFAConfig := mkConfig {
  StoragePath : string;
  Issuer : string;
  Algorithm : string;
  Digits : Z;
  Period : Z;
  BackupCodeCount : Z;
  BackupCodeLength : Z;
  CodeExpiration : duration;
  MaxFailedAttempts : Z;
  LockoutDuration : duration;
  ChallengeExpiration : duration;
  EnableRecovery : bool
}.

Definition DefaultMFAConfig : MFAConfig := {|
  StoragePath := "data/mfa_users.json"; Issuer := "ProxyND"; Algorithm := "SHA1"; Digits := 6; Period := 30;
  BackupCodeCount := 10; BackupCodeLength := 8; CodeExpiration := 5 * minute; MaxFailedAttempts := 5;
  LockoutDuration := 30 * minute; ChallengeExpiration := 10 * minute; EnableRecovery := true
|}.

Record MFAService := mkService {
  config : MFAConfig;
  users : gmap string MFAUserConfig;
  challenges : gmap string MFAChallenge;
  method_maps : gmap ref (gmap string MFASetup);
  next_ref : ref
}.

Definition set_users (f : gmap string MFAUserConfig → gmap string MFAUserConfig) (sv : MFAService) : MFAService :=
  mkService (config sv) (f (users sv)) (challenges sv) (method_maps sv) (next_ref sv).
Definition set_challenges (f : gmap string MFAChallenge → gmap string MFAChallenge) (sv : MFAService) : MFAService :=
  mkService (config sv) (users sv) (f (challenges sv)) (method_maps sv) (next_ref sv).
Definition set_map (r : ref) (m : gmap string MFASetup) (sv : MFAService) : MFAService :=
  mkService (config sv) (users sv) (challenges sv) (<[r := m]> (method_maps sv)) (next_ref sv).

(** [make(map[MFAMethod]*MFASetup)]. *)
Definition new_map (sv : MFAService) : ref * MFAService :=
  (next_ref sv, mkService (config sv) (users sv) (challenges sv) (<[next_ref sv := ∅]> (method_maps sv))
                  (Pos.succ (next_ref sv))).

Definition methods_at (r : ref) (sv : MFAService) : gmap string MFASetup := default ∅ (method_maps sv !! r).
(** [userConfig.Methods]. *)
Definition methods (u : MFAUserConfig) (sv : MFAService) : gmap string MFASetup := methods_at (mu_Methods u) sv.

Inductive mfa_error :=
| AlreadyEnabled
| SaveFailed
| NotEnabled
| RandFailed
| SetupNotFound
| InvalidTOTP
| Locked (until : instant)
| NoMethod
| InvalidChallenge
| ChallengeExpired
| ChallengeCompleted
| TooManyAttempts
| UnsupportedMethod
| InvalidCode
| LoadFailed
| Panic.

#[export] Instance mfa_error_eq_dec : EqDecision mfa_error.
Proof. solve_decision. Defined.

(** [pquerna/otp]: the validation of a code against a secret at an instant.  A
    secret that is not base32 text validates no code. *)
Definition base32_char (c : ascii) : bool :=
  is_letter c || in_range 50 55 c || Ascii.eqb c "=" || in_range 0 32 c || in_range 127 255 c.

Class TotpLib := {
  totp_Validate : string → string → instant → bool;
  totp_secret code secret now : totp_Validate code secret now = true → str_all base32_char secret = true
}.

(** ** Random values *)

Definition code_charset : string := "ABCDEFGHIJKLMNOPQRSTUVWXYZ0123456789".

(** What [rand.Read] gives, and the instant of the fallback. *)
Record code_draw := mkDraw { d_bytes : option (list Z); d_now : instant }.

Fixpoint of_chars (l : list ascii) : string :=
  match l with [] => EmptyString | c :: l => String c (of_chars l) end.

Definition generateRandomCode (d : code_draw) : string :=
  match d_bytes d with
  | None => pad_zeros 8 (UnixNano (d_now d) mod 100000000)
  | Some bs => of_chars ((λ b, default "A"%char (String.get (Z.to_nat (b mod 36)) code_charset)) <$> bs)
  end.

(** [draws] has [BackupCodeCount] elements, of [BackupCodeLength] bytes each. *)
Definition generateBackupCodes (draws : list code_draw) : list string := generateRandomCode <$> draws.

Definition base32_symbol (v : Z) : ascii := default "="%char (String.get (Z.to_nat v) "ABCDEFGHIJKLMNOPQRSTUVWXYZ234567").

(** Five bytes as eight symbols; a shorter last group is padded. *)
Definition base32_group (bs : list Z) : string :=
  let n := fold_left (λ acc b, acc * 256 + b) (bs ++ replicate (5 - length bs) 0) 0 in
  let symbols := match length bs with 1%nat => 2%nat | 2%nat => 4%nat | 3%nat => 5%nat | 4%nat => 7%nat | _ => 8%nat end in
  of_chars ((λ i, if (i <? symbols)%nat then base32_symbol (Z.shiftr n (35 - 5 * Z.of_nat i) mod 32) else "="%char) <$> seq 0 8).

Fixpoint base32_go (fuel : nat) (bs : list Z) : string :=
  match fuel, bs with
  | Datatypes.S fuel, _ :: _ => base32_group (take 5 bs) +:+ base32_go fuel (drop 5 bs)
  | _, _ => EmptyString
  end.
(** [base32.StdEncoding.EncodeToString]. *)
Definition base32_encode (bs : list Z) : string := base32_go (length bs) bs.

(** Twenty random bytes. *)
Definition generateTOTPSecret (rand : option (list Z)) : option string := base32_encode <$> rand.

(** Three random bytes. *)
Definition generateVerificationCode (rand : option (list Z)) : option string :=
  (λ bs, pad_zeros 6 (fold_left (λ acc b, Z.lor (Z.shiftl acc 8) b) bs 0 mod 1000000)) <$> rand.

(** Sixteen random bytes, as a string. *)
Definition generateChallengeID (rand : option string) : option string :=
  (λ bytes, take_bytes 16 (sha256_hex bytes)) <$> rand.

(** [url.PathEscape], and the escaping of [URL.String] for a path. *)
Fixpoint escape_with (keep : ascii → bool) (s : string) : string :=
  match s with
  | EmptyString => EmptyString
  | String c s =>
      if unreserved c || keep c then String c (escape_with keep s)
      else String "%" (String (upper_hex (byte_of c / 16)) (String (upper_hex (byte_of c mod 16)) (escape_with keep s)))
  end.
Definition one_of (l : list ascii) (c : ascii) : bool := existsb (Ascii.eqb c) l.
Definition PathEscape : string → string := escape_with (one_of ["$"; "&"; "+"; ":"; "="; "@"]%char).
Definition escape_path : string → string := escape_with (one_of ["$"; "&"; "+"; ","; "/"; ":"; ";"; "="; "@"]%char).

Definition generateTOTPURL (cfg : MFAConfig) (email secret : string) : string :=
  let path := String "/" (PathEscape (Issuer cfg +:+ (String ":" email))) in
  "otpauth://totp" +:+ (escape_path path +:+ ("?algorithm=" +:+ (QueryEscape (Algorithm cfg) +:+
    ("&digits=" +:+ (QueryEscape (Itoa (Digits cfg)) +:+ ("&issuer=" +:+ (QueryEscape (Issuer cfg) +:+
    ("&period=" +:+ (QueryEscape (Itoa (Period cfg)) +:+ ("&secret=" +:+ QueryEscape secret)))))))))).

(** ** The service *)

(** A user as it is written: the map of methods in place of its reference. *)
Definition saved_user : Type := MFAUserConfig * gmap string MFASetup.

Section service.
Context {S : Type} `{HFS : !FileSystem S} `{HCO : !Codec (gmap string saved_user)} `{HTO : !TotpLib}.

Definition saved_users (sv : MFAService) : gmap string saved_user := (λ u, (u, methods u sv)) <$> users sv.

Definition saveUsers (sv : MFAService) (s : S) : option mfa_error * S :=
  match json_marshal (saved_users sv) with
  | None => (Some SaveFailed, s)
  | Some data =>
      let tempPath := StoragePath (config sv) +:+ ".tmp" in
      match WriteFile tempPath data s with
      | (Some _, s) => (Some SaveFailed, s)
      | (None, s) =>
          match Rename tempPath (StoragePath (config sv)) s with
          | (Some _, s) => let '(_, s) := Remove tempPath s in (Some SaveFailed, s)
          | (None, s) => (None, s)
          end
      end
  end.

(** The maps of methods are allocated anew. *)
Definition load_user (x : string * saved_user) (sv : MFAService) : MFAService :=
  let '(id, (u, ms)) := x in
  let '(r, sv) := new_map sv in
  let u := mkUser (mu_UserID u) (mu_Email u) (mu_Enabled u) r (mu_BackupCodes u) (mu_CreatedAt u) (mu_UpdatedAt u)
             (mu_LastUsedAt u) (mu_FailedAttempts u) (mu_LockedUntil u) in
  set_users (<[id := u]>) (set_map r ms sv).

Definition loadUsers (sv : MFAService) (s : S) : option mfa_error * MFAService * S :=
  let path := StoragePath (config sv) in
  match MkdirAll (Dir path) s with
  | (Some _, s) => (Some LoadFailed, sv, s)
  | (None, s) =>
      match StatFile path s with
      | Some ErrNotExist => (None, sv, s)
      | _ =>
          match ReadFile path s with
          | Err _ => (Some LoadFailed, sv, s)
          | Ok data =>
              match json_unmarshal data with
              | None => (Some LoadFailed, sv, s)
              | Some us => (None, foldr load_user (set_users (λ _, ∅) sv) (map_to_list us), s)
              end
          end
      end
  end.

(** A load that fails is only logged. *)
Definition NewMFAService (cfg : option MFAConfig) (s : S) : MFAService * S :=
  let '(_, sv, s) := loadUsers (mkService (default DefaultMFAConfig cfg) ∅ ∅ ∅ 1%positive) s in (sv, s).

Definition new_user (userID email : string) (r : ref) (codes : list string) (created updated : instant) : MFAUserConfig := {|
  mu_UserID := userID; mu_Email := email; mu_Enabled := false; mu_Methods := r; mu_BackupCodes := codes;
  mu_CreatedAt := created; mu_UpdatedAt := updated; mu_LastUsedAt := None; mu_FailedAttempts := 0; mu_LockedUntil := None
|}.

(** On an error [AlreadyEnabled] the existing configuration is returned with it. *)
Definition EnableMFA (draws : list code_draw) (now : nat → instant) (userID email : string) (sv : MFAService) (s : S)
    : result mfa_error MFAUserConfig * MFAService * S :=
  if match users sv !! userID with Some u => mu_Enabled u | None => false end then (Err AlreadyEnabled, sv, s)
  else
    let '(r, sv) := new_map sv in
    let u := new_user userID email r (generateBackupCodes draws) (now 0%nat) (now 1%nat) in
    let sv := set_users (<[userID := u]>) sv in
    match saveUsers sv s with
    | (Some e, s) => (Err e, set_users (delete userID) sv, s)
    | (None, s) => (Ok u, sv, s)
    end.

Definition with_updated (t : instant) (u : MFAUserConfig) : MFAUserConfig :=
  mkUser (mu_UserID u) (mu_Email u) (mu_Enabled u) (mu_Methods u) (mu_BackupCodes u) (mu_CreatedAt u) t
    (mu_LastUsedAt u) (mu_FailedAttempts u) (mu_LockedUntil u).
Definition with_enabled (b : bool) (t : instant) (u : MFAUserConfig) : MFAUserConfig :=
  mkUser (mu_UserID u) (mu_Email u) b (mu_Methods u) (mu_BackupCodes u) (mu_CreatedAt u) t
    (mu_LastUsedAt u) (mu_FailedAttempts u) (mu_LockedUntil u).
Definition with_codes (codes : list string) (u : MFAUserConfig) : MFAUserConfig :=
  mkUser (mu_UserID u) (mu_Email u) (mu_Enabled u) (mu_Methods u) codes (mu_CreatedAt u) (mu_UpdatedAt u)
    (mu_LastUsedAt u) (mu_FailedAttempts u) (mu_LockedUntil u).

Definition SetupTOTP (rand : option (list Z)) (now : nat → instant) (userID : string) (sv : MFAService) (s : S)
    : result mfa_error (MFASetup * string) * MFAService * S :=
  match users sv !! userID with
  | None => (Err NotEnabled, sv, s)
  | Some u =>
      match generateTOTPSecret rand with
      | None => (Err RandFailed, sv, s)
      | Some secret =>
          let setup := mkSetup MethodTOTP secret EmptyString false false (now 0%nat) None None in
          let sv := set_map (mu_Methods u) (<[MethodTOTP := setup]> (methods u sv)) sv in
          let sv := set_users (<[userID := with_updated (now 1%nat) u]>) sv in
          let qrURL := generateTOTPURL (config sv) (mu_Email u) secret in
          match saveUsers sv s with
          | (Some e, s) => (Err e, sv, s)
          | (None, s) => (Ok (setup, qrURL), sv, s)
          end
      end
  end.

Definition VerifyTOTPSetup (now : nat → instant) (userID code : string) (sv : MFAService) (s : S)
    : option mfa_error * MFAService * S :=
  match users sv !! userID with
  | None => (Some NotEnabled, sv, s)
  | Some u =>
      match methods u sv !! MethodTOTP with
      | None => (Some SetupNotFound, sv, s)
      | Some st =>
          if ms_Verified st then (Some SetupNotFound, sv, s)
          else if negb (totp_Validate code (ms_Secret st) (now 0%nat)) then (Some InvalidTOTP, sv, s)
          else
            let t := now 1%nat in
            let st := mkSetup (ms_Method st) (ms_Secret st) (ms_PhoneNumber st) true true (ms_CreatedAt st) (Some t) (Some t) in
            let sv := set_map (mu_Methods u) (<[MethodTOTP := st]> (methods u sv)) sv in
            let sv := set_users (<[userID := with_enabled true t u]>) sv in
            let '(r, s) := saveUsers sv s in (r, sv, s)
      end
  end.

(** ** Challenges *)

Definition usable (st : MFASetup) : bool := ms_Enabled st && ms_Verified st.

(** [order] is the order in which the methods are iterated. *)
Definition choose_method (preferred : string) (order : list string) (ms : gmap string MFASetup) : option string :=
  if match ms !! preferred with Some st => usable st | None => false end then Some preferred
  else match List.find (λ m, match ms !! m with Some st => usable st | None => false end) order with
       | Some m => if String.eqb m EmptyString then None else Some m
       | None => None
       end.

(** [rid] are the random bytes of the identifier, [rcode] those of a code that is sent. *)
Definition StartMFAChallenge (order : list string) (rid : option string) (rcode : option (list Z)) (now : nat → instant)
    (userID preferred : string) (sv : MFAService) : result mfa_error MFAChallenge * MFAService :=
  match users sv !! userID with
  | None => (Err NotEnabled, sv)
  | Some u =>
      if negb (mu_Enabled u) then (Err NotEnabled, sv)
      else match (match mu_LockedUntil u with Some t => if time_before (now 0%nat) t then Some t else None | None => None end) with
      | Some t => (Err (Locked t), sv)
      | None =>
          match choose_method preferred order (methods u sv) with
          | None => (Err NoMethod, sv)
          | Some m =>
              match generateChallengeID rid with
              | None => (Err RandFailed, sv)
              | Some id =>
                  let c := mkChallenge id userID m EmptyString (time_add (now 1%nat) (ChallengeExpiration (config sv))) 0 3
                             (now 2%nat) false None in
                  if String.eqb m MethodSMS || String.eqb m MethodEmail then
                    match generateVerificationCode rcode with
                    | None => (Err RandFailed, sv)
                    | Some code =>
                        let c := mkChallenge id userID m code (mc_ExpiresAt c) 0 3 (mc_CreatedAt c) false None in
                        (Ok c, set_challenges (<[id := c]>) sv)
                    end
                  else (Ok c, set_challenges (<[id := c]>) sv)
              end
          end
      end
  end.

Definition incrementFailedAttempts (now : nat → instant) (userID : string) (sv : MFAService) (s : S) : MFAService * S :=
  match users sv !! userID with
  | None => (sv, s)
  | Some u =>
      let n := wrap64 (mu_FailedAttempts u + 1) in
      let locked := if MaxFailedAttempts (config sv) <=? n
                    then Some (time_add (now 1%nat) (LockoutDuration (config sv))) else mu_LockedUntil u in
      let u := mkUser (mu_UserID u) (mu_Email u) (mu_Enabled u) (mu_Methods u) (mu_BackupCodes u) (mu_CreatedAt u)
                 (now 0%nat) (mu_LastUsedAt u) n locked in
      let sv := set_users (<[userID := u]>) sv in
      (sv, (saveUsers sv s).2)
  end.

Definition validateBackupCode (userID code : string) (sv : MFAService) : bool :=
  match users sv !! userID with
  | None => false
  | Some u => existsb (λ b, EqualFold b code) (mu_BackupCodes u)
  end.

Fixpoint remove_first (p : string → bool) (l : list string) : list string :=
  match l with [] => [] | x :: l => if p x then l else x :: remove_first p l end.

Definition removeUsedBackupCode (userID code : string) (sv : MFAService) : MFAService :=
  match users sv !! userID with
  | None => sv
  | Some u => set_users (<[userID := with_codes (remove_first (λ b, EqualFold b code) (mu_BackupCodes u)) u]>) sv
  end.

Definition with_attempt (c : MFAChallenge) : MFAChallenge :=
  mkChallenge (mc_ChallengeID c) (mc_UserID c) (mc_Method c) (mc_Code c) (mc_ExpiresAt c) (mc_Attempts c + 1)
    (mc_MaxAttempts c) (mc_CreatedAt c) (mc_Completed c) (mc_CompletedAt c).
Definition with_completed (t : instant) (c : MFAChallenge) : MFAChallenge :=
  mkChallenge (mc_ChallengeID c) (mc_UserID c) (mc_Method c) (mc_Code c) (mc_ExpiresAt c) (mc_Attempts c)
    (mc_MaxAttempts c) (mc_CreatedAt c) true (Some t).
Definition with_used (t : instant) (st : MFASetup) : MFASetup :=
  mkSetup (ms_Method st) (ms_Secret st) (ms_PhoneNumber st) (ms_Enabled st) (ms_Verified st) (ms_CreatedAt st)
    (ms_VerifiedAt st) (Some t).

(** The code of a challenge: [None] for a method the switch does not know, an
    error for a nil pointer that is followed. *)
Definition check_code (c : MFAChallenge) (code : string) (now : instant) (sv : MFAService) : option (result mfa_error bool) :=
  if String.eqb (mc_Method c) MethodTOTP then
    Some (match users sv !! mc_UserID c with
          | None => Err Panic
          | Some u => match methods u sv !! MethodTOTP with
                      | None => Err Panic
                      | Some st => Ok (totp_Validate code (ms_Secret st) now)
                      end
          end)
  else if String.eqb (mc_Method c) MethodSMS || String.eqb (mc_Method c) MethodEmail then
    Some (Ok (String.eqb code (mc_Code c)))
  else if String.eqb (mc_Method c) MethodBackupCode then Some (Ok (validateBackupCode (mc_UserID c) code sv))
  else None.

(** What follows a code that is right. *)
Definition complete_challenge (id : string) (c : MFAChallenge) (code : string) (t : instant) (sv : MFAService) (s : S)
    : option mfa_error * MFAService * S :=
  let sv := set_challenges (<[id := with_completed t c]>) sv in
  match users sv !! mc_UserID c with
  | None => (Some Panic, sv, s)
  | Some u =>
      let u := mkUser (mu_UserID u) (mu_Email u) (mu_Enabled u) (mu_Methods u) (mu_BackupCodes u) (mu_CreatedAt u)
                 (mu_UpdatedAt u) (Some t) 0 None in
      let sv := set_users (<[mc_UserID c := u]>) sv in
      let sv := match methods u sv !! mc_Method c with
                | Some st => set_map (mu_Methods u) (<[mc_Method c := with_used t st]> (methods u sv)) sv
                | None => sv
                end in
      let sv := if String.eqb (mc_Method c) MethodBackupCode then removeUsedBackupCode (mc_UserID c) code sv else sv in
      (None, sv, (saveUsers sv s).2)
  end.

(** The completed challenge is deleted a minute later, by [ForgetChallenge]. *)
Definition VerifyMFAChallenge (now : nat → instant) (id code : string) (sv : MFAService) (s : S)
    : option mfa_error * MFAService * S :=
  match challenges sv !! id with
  | None => (Some InvalidChallenge, sv, s)
  | Some c =>
      if time_after (now 0%nat) (mc_ExpiresAt c) then (Some ChallengeExpired, set_challenges (delete id) sv, s)
      else if mc_Completed c then (Some ChallengeCompleted, sv, s)
      else if mc_MaxAttempts c <=? mc_Attempts c then
        let '(sv, s) := incrementFailedAttempts (λ i, now (2 + i)%nat) (mc_UserID c) (set_challenges (delete id) sv) s in
        (Some TooManyAttempts, sv, s)
      else
        let c := with_attempt c in
        let sv := set_challenges (<[id := c]>) sv in
        match check_code c code (now 1%nat) sv with
        | None => (Some UnsupportedMethod, sv, s)
        | Some (Err e) => (Some e, sv, s)
        | Some (Ok false) =>
            if mc_MaxAttempts c <=? mc_Attempts c then
              let '(sv, s) := incrementFailedAttempts (λ i, now (2 + i)%nat) (mc_UserID c) (set_challenges (delete id) sv) s in
              (Some InvalidCode, sv, s)
            else (Some InvalidCode, sv, s)
        | Some (Ok true) => complete_challenge id c code (now 2%nat) sv s
        end
  end.

Definition ForgetChallenge (id : string) (sv : MFAService) : MFAService := set_challenges (delete id) sv.

Definition cleanupExpiredChallenges (now : instant) (sv : MFAService) : MFAService :=
  set_challenges (filter (λ x, time_after now (mc_ExpiresAt x.2) = false)) sv.

(** ** Status, disabling, backup codes *)

Definition masked : string := "***masked***".

Definition mask_setup (st : MFASetup) : MFASetup :=
  mkSetup (ms_Method st) (if String.eqb (ms_Secret st) EmptyString then ms_Secret st else masked) (ms_PhoneNumber st)
    (ms_Enabled st) (ms_Verified st) (ms_CreatedAt st) (ms_VerifiedAt st) (ms_LastUsedAt st).

(** [safeCopy := *userConfig] copies the reference to the map; the loop then
    stores the masked copies through it. *)
Definition GetUserMFAStatus (userID : string) (sv : MFAService) : result mfa_error MFAUserConfig * MFAService :=
  match users sv !! userID with
  | None => (Err NotEnabled, sv)
  | Some u =>
      let safeCopy := with_codes [] u in
      (Ok safeCopy, set_map (mu_Methods safeCopy) (mask_setup <$> methods safeCopy sv) sv)
  end.

Definition disable_setup (st : MFASetup) : MFASetup :=
  mkSetup (ms_Method st) (ms_Secret st) (ms_PhoneNumber st) false (ms_Verified st) (ms_CreatedAt st)
    (ms_VerifiedAt st) (ms_LastUsedAt st).

Definition DisableMFA (now : nat → instant) (userID : string) (sv : MFAService) (s : S) : option mfa_error * MFAService * S :=
  match users sv !! userID with
  | None => (Some NotEnabled, sv, s)
  | Some u =>
      let sv := set_map (mu_Methods u) (disable_setup <$> methods u sv) sv in
      let sv := set_users (<[userID := with_codes [] (with_enabled false (now 0%nat) u)]>) sv in
      let '(r, s) := saveUsers sv s in (r, sv, s)
  end.

Definition RegenerateBackupCodes (draws : list code_draw) (now : nat → instant) (userID : string) (sv : MFAService) (s : S)
    : result mfa_error (list string) * MFAService * S :=
  match users sv !! userID with
  | None => (Err NotEnabled, sv, s)
  | Some u =>
      if negb (mu_Enabled u) then (Err NotEnabled, sv, s)
      else
        let codes := generateBackupCodes draws in
        let sv := set_users (<[userID := with_updated (now 0%nat) (with_codes codes u)]>) sv in
        match saveUsers sv s with
        | (Some e, s) => (Err e, sv, s)
        | (None, s) => (Ok codes, sv, s)
        end
  end.

(** ** Sequences of operations *)

Inductive mfa_op :=
| OEnable (draws : list code_draw) (now : nat → instant) (userID email : string)
| OSetup (rand : option (list Z)) (now : nat → instant) (userID : string)
| OVerifySetup (now : nat → instant) (userID code : string)
| OStart (order : list string) (rid : option string) (rcode : option (list Z)) (now : nat → instant) (userID preferred : string)
| OVerify (now : nat → instant) (id code : string)
| OForget (id : string)
| OCleanup (now : instant)
| OStatus (userID : string)
| ODisable (now : nat → instant) (userID : string)
| ORegenerate (draws : list code_draw) (now : nat → instant) (userID : string).

Definition step (o : mfa_op) (st : MFAService * S) : MFAService * S :=
  let '(sv, s) := st in
  match o with
  | OEnable draws now userID email => let '(_, sv, s) := EnableMFA draws now userID email sv s in (sv, s)
  | OSetup rand now userID => let '(_, sv, s) := SetupTOTP rand now userID sv s in (sv, s)
  | OVerifySetup now userID code => let '(_, sv, s) := VerifyTOTPSetup now userID code sv s in (sv, s)
  | OStart order rid rcode now userID p => ((StartMFAChallenge order rid rcode now userID p sv).2, s)
  | OVerify now id code => let '(_, sv, s) := VerifyMFAChallenge now id code sv s in (sv, s)
  | OForget id => (ForgetChallenge id sv, s)
  | OCleanup now => (cleanupExpiredChallenges now sv, s)
  | OStatus userID => ((GetUserMFAStatus userID sv).2, s)
  | ODisable now userID => let '(_, sv, s) := DisableMFA now userID sv s in (sv, s)
  | ORegenerate draws now userID => let '(_, sv, s) := RegenerateBackupCodes draws now userID sv s in (sv, s)
  end.

Definition steps (os : list mfa_op) (st : MFAService * S) : MFAService * S := foldl (λ st o, step o st) st os.

(** ** Invariants *)

(** The maps of methods of two users are different, and are allocated. *)
Definition refs_ok (sv : MFAService) : Prop :=
  (∀ i u, users sv !! i = Some u → (mu_Methods u < next_ref sv)%positive) ∧
  (∀ i j u v, users sv !! i = Some u → users sv !! j = Some v → mu_Methods u = mu_Methods v → i = j).

Lemma refs_ok_keep sv sv' i u u' :
  refs_ok sv → users sv !! i = Some u → mu_Methods u' = mu_Methods u →
  users sv' = <[i := u']> (users sv) → next_ref sv' = next_ref sv → refs_ok sv'.
Proof.
  intros [H1 H2] Hu Hm Hus Hn. unfold refs_ok. rewrite Hus, Hn. split.
  - intros j v [[<- <-]|[_ Hv]]%lookup_insert_Some; [rewrite Hm|]; eauto.
  - intros j k v w [[<- <-]|[_ Hv]]%lookup_insert_Some [[<- <-]|[_ Hw]]%lookup_insert_Some E; [done|..];
      rewrite ?Hm in E; eauto.
Qed.

Lemma refs_ok_same sv sv' : refs_ok sv → users sv' = users sv → next_ref sv' = next_ref sv → refs_ok sv'.
Proof. unfold refs_ok. intros H Hu Hn. by rewrite Hu, Hn. Qed.

Lemma methods_set_map u r m sv : methods u (set_map r m sv) = if decide (mu_Methods u = r) then m else methods u sv.
Proof.
  unfold methods, methods_at. cbn. destruct (decide _) as [->|Hn]; [by rewrite lookup_insert, decide_True by done|].
  by rewrite lookup_insert_ne by done.
Qed.

Lemma methods_users u f sv : methods u (set_users f sv) = methods u sv.
Proof. done. Qed.
Lemma methods_challenges u f sv : methods u (set_challenges f sv) = methods u sv.
Proof. done. Qed.

(** A failed attempt changes its user only, and neither the methods nor the references. *)
Lemma incrementFailedAttempts_spec now id sv s :
  let sv' := (incrementFailedAttempts now id sv s).1 in
  challenges sv' = challenges sv ∧ method_maps sv' = method_maps sv ∧ next_ref sv' = next_ref sv ∧
  (users sv !! id = None ∧ sv' = sv ∨
   ∃ u u', users sv !! id = Some u ∧ users sv' = <[id := u']> (users sv) ∧ mu_Methods u' = mu_Methods u).
Proof.
  unfold incrementFailedAttempts. cbv zeta. destruct (users sv !! id) as [u|] eqn:E; cbn; [|by eauto 6].
  split_and!; try done. right. eexists _, _. split_and!; done.
Qed.

(** What a verification does to the service, whatever its outcome: one user is
    updated, keeping its methods; one method of it may be marked as used. *)
Definition verified_shape (sv sv' : MFAService) (uid : string) : Prop :=
  next_ref sv' = next_ref sv ∧ (∀ j c, challenges sv' !! j = Some c → ∃ c0, challenges sv !! j = Some c0 ∧ mc_Method c0 = mc_Method c) ∧
  ((users sv' = users sv ∧ method_maps sv' = method_maps sv) ∨
   ∃ u u', users sv !! uid = Some u ∧ users sv' = <[uid := u']> (users sv) ∧ mu_Methods u' = mu_Methods u ∧
     (method_maps sv' = method_maps sv ∨
      ∃ m st t, methods u sv !! m = Some st ∧
        method_maps sv' = <[mu_Methods u := <[m := with_used t st]> (methods u sv)]> (method_maps sv))).

Lemma challenge_methods_delete id (cs : gmap string MFAChallenge) j c :
  delete id cs !! j = Some c → ∃ c0, cs !! j = Some c0 ∧ mc_Method c0 = mc_Method c.
Proof. intros [_ H]%lookup_delete_Some. eauto. Qed.

Lemma complete_challenge_shape id c c0 code t sv s r sv' s' :
  complete_challenge id c code t sv s = (r, sv', s') →
  challenges sv !! id = Some c0 → mc_Method c0 = mc_Method c → verified_shape sv sv' (mc_UserID c).
Proof.
  unfold complete_challenge. intros H Hc Hm.
  assert (∀ j c1, <[id := with_completed t c]> (challenges sv) !! j = Some c1 →
    ∃ c2, challenges sv !! j = Some c2 ∧ mc_Method c2 = mc_Method c1) as Hcs.
  { intros j c1 [[<- <-]|[_ Hj]]%lookup_insert_Some; eauto. }
  cbn [users set_challenges] in H. destruct (users sv !! mc_UserID c) as [u|] eqn:Eu; [|simplify_eq; split_and!; [done|done|by left]].
  set (u1 := mkUser _ _ _ _ _ _ _ _ _ _) in H. injection H as <- <- <-.
  assert (∀ sv1, verified_shape sv sv1 (mc_UserID c) → users sv1 !! mc_UserID c = Some u1 → users sv1 = <[mc_UserID c := u1]> (users sv) →
    verified_shape sv (if String.eqb (mc_Method c) MethodBackupCode then removeUsedBackupCode (mc_UserID c) code sv1 else sv1) (mc_UserID c)) as Hb.
  { intros sv1 Hs Hu1 Hus. destruct (String.eqb _ _); [|done]. unfold removeUsedBackupCode. rewrite Hu1.
    destruct Hs as (Hn & Hcc & Hcase). split_and!; [done|done|]. right. eexists u, (with_codes _ u1). split_and!; [done| |done|].
    - cbn. rewrite Hus, insert_insert, decide_True by done. done.
    - destruct Hcase as [[_ ?]|(u0 & u' & E0 & _ & _ & ?)]; [by left|]. simplify_eq. done. }
  change (methods u1 (set_users _ (set_challenges _ sv))) with (methods u sv).
  apply Hb.
  - split_and!; [by destruct (methods u sv !! _)| |].
    + intros j c1 Hj. apply Hcs. by destruct (methods u sv !! mc_Method c).
    + right. exists u, u1. destruct (methods u sv !! mc_Method c) as [st|] eqn:Est; split_and!; try done; [|by left].
      right. eexists _, _, _. split; [exact Est|done].
  - destruct (methods u sv !! mc_Method c); cbn; by rewrite lookup_insert, decide_True by done.
  - by destruct (methods u sv !! mc_Method c).
Qed.

Lemma VerifyMFAChallenge_shape now id code sv s r sv' s' :
  VerifyMFAChallenge now id code sv s = (r, sv', s') → ∃ uid, verified_shape sv sv' uid.
Proof.
  unfold VerifyMFAChallenge. intros H.
  destruct (challenges sv !! id) as [c|] eqn:Ec; [|injection H as <- <- <-; exists EmptyString; split_and!; eauto].
  exists (mc_UserID c).
  assert (∀ cs, (∀ j c1, cs !! j = Some c1 → ∃ c2, challenges sv !! j = Some c2 ∧ mc_Method c2 = mc_Method c1) →
    verified_shape sv (set_challenges (λ _, cs) sv) (mc_UserID c)) as Hk by (intros cs Hcs; split_and!; [done|done|by left]).
  assert (∀ cs now' sv1 s1, (∀ j c1, cs !! j = Some c1 → ∃ c2, challenges sv !! j = Some c2 ∧ mc_Method c2 = mc_Method c1) →
    incrementFailedAttempts now' (mc_UserID c) (set_challenges (λ _, cs) sv) s = (sv1, s1) → verified_shape sv sv1 (mc_UserID c)) as Hi.
  { intros cs now' sv1 s1 Hcs Hinc. pose proof (incrementFailedAttempts_spec now' (mc_UserID c) (set_challenges (λ _, cs) sv) s) as Hsp.
    rewrite Hinc in Hsp. cbn in Hsp. destruct Hsp as (Hch & Hmm & Hn & Hu). split_and!; [done|by rewrite Hch|].
    destruct Hu as [[_ ->]|(u & u' & Hu & -> & Hm)]; [by left|]. right. exists u, u'. eauto. }
  destruct (time_after _ _).
  { injection H as <- <- <-. apply (Hk (delete id (challenges sv))). apply challenge_methods_delete. }
  destruct (mc_Completed c); [injection H as <- <- <-; split_and!; [done|by eauto|by left]|].
  assert (∀ j c1, <[id := with_attempt c]> (challenges sv) !! j = Some c1 →
    ∃ c2, challenges sv !! j = Some c2 ∧ mc_Method c2 = mc_Method c1) as Hins
    by (intros j c1 [[<- <-]|[_ Hj]]%lookup_insert_Some; eauto).
  destruct (mc_MaxAttempts c <=? mc_Attempts c).
  { destruct (incrementFailedAttempts _ _ _ _) as [sv1 s1] eqn:Einc. injection H as <- <- <-.
    eapply (Hi (delete id (challenges sv))); [apply challenge_methods_delete|exact Einc]. }
  cbv zeta in H. destruct (check_code _ _ _ _) as [[[|]|e]|]; [| |injection H as <- <- <-; by apply (Hk (<[id := with_attempt c]> (challenges sv)))..].
  - eapply complete_challenge_shape in H as (Hn & Hcs & Hcase); [|cbn; by rewrite lookup_insert, decide_True by done|done].
    split_and!; [done| |done]. intros j c1 Hj. destruct (Hcs j c1 Hj) as (c2 & Hc2 & E2). rewrite <- E2. by apply Hins.
  - destruct (_ <=? _); [|injection H as <- <- <-; by apply (Hk (<[id := with_attempt c]> (challenges sv)))].
    destruct (incrementFailedAttempts _ _ _ _) as [sv1 s1] eqn:Einc. injection H as <- <- <-.
    eapply (Hi (delete id (<[id := with_attempt c]> (challenges sv)))); [|exact Einc].
    intros j c1 [_ Hj]%lookup_delete_Some. by apply Hins.
Qed.

(** The time-based secret of a user stays what it is, or is masked. *)
Definition keeps (uid : string) (sv sv' : MFAService) : Prop :=
  ∀ u, users sv !! uid = Some u →
  ∃ u', users sv' !! uid = Some u' ∧ mu_Methods u' = mu_Methods u ∧
    ∀ st', methods u' sv' !! MethodTOTP = Some st' →
    ∃ st, methods u sv !! MethodTOTP = Some st ∧ (ms_Secret st' = ms_Secret st ∨ ms_Secret st' = masked).

Lemma keeps_same uid sv sv' : users sv' = users sv → method_maps sv' = method_maps sv → keeps uid sv sv'.
Proof.
  intros Hu Hm u E. exists u. rewrite Hu. split_and!; [done|done|]. unfold methods, methods_at. rewrite Hm. eauto.
Qed.

Lemma keeps_update uid i u u' m' sv sv' :
  refs_ok sv → users sv !! i = Some u → mu_Methods u' = mu_Methods u → users sv' = <[i := u']> (users sv) →
  method_maps sv' = <[mu_Methods u := m']> (method_maps sv) →
  (i = uid → ∀ st', m' !! MethodTOTP = Some st' →
    ∃ st, methods u sv !! MethodTOTP = Some st ∧ (ms_Secret st' = ms_Secret st ∨ ms_Secret st' = masked)) →
  keeps uid sv sv'.
Proof.
  intros [_ Hinj] Hu Hm Hus Hmm Hst v Hv. unfold methods, methods_at. rewrite Hus, Hmm.
  destruct (decide (i = uid)) as [->|Hne].
  - simplify_eq. exists u'. rewrite lookup_insert, decide_True by done. split_and!; [done|done|].
    rewrite Hm, lookup_insert, decide_True by done. cbn. by apply Hst.
  - exists v. rewrite lookup_insert_ne by done. split_and!; [done|done|].
    rewrite lookup_insert_ne; [eauto|]. intros E. apply Hne. by eapply Hinj.
Qed.

Lemma keeps_user uid i u u' sv sv' :
  users sv !! i = Some u → mu_Methods u' = mu_Methods u → users sv' = <[i := u']> (users sv) →
  method_maps sv' = method_maps sv → keeps uid sv sv'.
Proof.
  intros Hu Hm Hus Hmm v Hv. unfold methods, methods_at. rewrite Hus, Hmm. destruct (decide (i = uid)) as [->|Hne].
  - simplify_eq. exists u'. rewrite lookup_insert, decide_True by done. rewrite Hm. split_and!; [done|done|]. eauto.
  - exists v. rewrite lookup_insert_ne by done. split_and!; [done|done|]. eauto.
Qed.

(** The operations that give [uid] another secret. *)
Definition sets_up (uid : string) (o : mfa_op) : bool :=
  match o with
  | OEnable _ _ userID _ | OSetup _ _ userID => String.eqb userID uid
  | _ => false
  end.

Lemma fmap_totp (f : MFASetup → MFASetup) (m : gmap string MFASetup) st' :
  (∀ st, ms_Secret (f st) = ms_Secret st ∨ ms_Secret (f st) = masked) → (f <$> m) !! MethodTOTP = Some st' →
  ∃ st, m !! MethodTOTP = Some st ∧ (ms_Secret st' = ms_Secret st ∨ ms_Secret st' = masked).
Proof. intros Hf H. rewrite lookup_fmap in H. destruct (m !! MethodTOTP); simplify_eq/=. eauto. Qed.

(** What every operation preserves; [free] says that the secret of [uid] may change. *)
Definition preserves (uid : string) (free : bool) (sv sv' : MFAService) : Prop :=
  refs_ok sv' ∧ (free = false → keeps uid sv sv').

Lemma preserves_same uid free sv sv' :
  refs_ok sv → users sv' = users sv → method_maps sv' = method_maps sv → next_ref sv' = next_ref sv →
  preserves uid free sv sv'.
Proof. intros. split; [by eapply refs_ok_same|]. intros _. by apply keeps_same. Qed.

Lemma preserves_user uid free i u u' sv sv' :
  refs_ok sv → users sv !! i = Some u → users sv' = <[i := u']> (users sv) → mu_Methods u' = mu_Methods u →
  method_maps sv' = method_maps sv → next_ref sv' = next_ref sv → preserves uid free sv sv'.
Proof. intros. split; [by eapply refs_ok_keep|]. intros _. by eapply keeps_user. Qed.

Lemma preserves_update uid free i u u' m' sv sv' :
  refs_ok sv → users sv !! i = Some u → users sv' = <[i := u']> (users sv) → mu_Methods u' = mu_Methods u →
  method_maps sv' = <[mu_Methods u := m']> (method_maps sv) → next_ref sv' = next_ref sv →
  (i = uid → free = false → ∀ st', m' !! MethodTOTP = Some st' →
    ∃ st, methods u sv !! MethodTOTP = Some st ∧ (ms_Secret st' = ms_Secret st ∨ ms_Secret st' = masked)) →
  preserves uid free sv sv'.
Proof. intros. split; [by eapply refs_ok_keep|]. intros Hf. eapply keeps_update; eauto. Qed.

Lemma EnableMFA_preserves uid draws now i email sv s :
  refs_ok sv → preserves uid (String.eqb i uid) sv (EnableMFA draws now i email sv s).1.2.
Proof.
  intros Hr. unfold EnableMFA. destruct (match users sv !! i with Some u => mu_Enabled u | None => false end).
  { by apply preserves_same. }
  unfold new_map. cbv zeta iota beta. set (u := new_user _ _ _ _ _ _). set (sv1 := set_users _ _). pose proof Hr as [Ha Hb].
  assert (refs_ok sv1) as [Ha1 Hb1].
  { unfold refs_ok. change (users sv1) with (<[i := u]> (users sv)). split.
    - intros j v [[<- <-]|[_ Hv]]%lookup_insert_Some; cbn; [lia|]. specialize (Ha _ _ Hv). lia.
    - intros j k v w [[<- <-]|[_ Hv]]%lookup_insert_Some [[<- <-]|[_ Hw]]%lookup_insert_Some E; [done|..|by eauto].
      + specialize (Ha _ _ Hw). cbn in E. lia.
      + specialize (Ha _ _ Hv). cbn in E. lia. }
  assert (i ≠ uid → keeps uid sv sv1) as H2.
  { intros Hne v Hv. exists v. cbn. rewrite lookup_insert_ne by done. split_and!; [done|done|].
    unfold methods, methods_at, sv1. cbn. rewrite lookup_insert_ne; [eauto|]. specialize (Ha _ _ Hv). lia. }
  destruct (saveUsers _ s) as [[e|] s1]; cbn -[sv1]; (split; [|intros Hne%String.eqb_neq]); [| |done|by apply H2].
  - unfold refs_ok. change (users (set_users (delete i) sv1)) with (delete i (users sv1)).
    split; [intros j v [_ Hv]%lookup_delete_Some; by apply (Ha1 j)|].
    intros j k v w [_ Hv]%lookup_delete_Some [_ Hw]%lookup_delete_Some E. by eapply Hb1.
  - intros v Hv. destruct (H2 Hne v Hv) as (v' & Hv' & Hrest). exists v'.
    cbn [users set_users]. by rewrite lookup_delete_ne.
Qed.

Lemma SetupTOTP_preserves uid rand now i sv s :
  refs_ok sv → preserves uid (String.eqb i uid) sv (SetupTOTP rand now i sv s).1.2.
Proof.
  intros Hr. unfold SetupTOTP. destruct (users sv !! i) as [u|] eqn:E; [|by apply preserves_same].
  destruct (generateTOTPSecret rand) as [sec|]; [|by apply preserves_same]. cbv zeta.
  destruct (saveUsers _ s) as [[e|] s1]; cbn;
    (eapply preserves_update; [exact Hr|exact E|..]; [done..|]; intros ->; by rewrite String.eqb_refl).
Qed.

Lemma VerifyTOTPSetup_preserves uid now i code sv s :
  refs_ok sv → preserves uid false sv (VerifyTOTPSetup now i code sv s).1.2.
Proof.
  intros Hr. unfold VerifyTOTPSetup. destruct (users sv !! i) as [u|] eqn:E; [|by apply preserves_same].
  destruct (methods u sv !! MethodTOTP) as [st|] eqn:Est; [|by apply preserves_same].
  destruct (ms_Verified st); [by apply preserves_same|]. destruct (negb _); [by apply preserves_same|].
  cbv zeta. destruct (saveUsers _ s) as [e s1]; cbn.
  eapply preserves_update; [exact Hr|exact E|..]; [done..|].
  intros _ _ st'. rewrite lookup_insert, decide_True by done. intros [= <-]. eauto.
Qed.

Lemma StartMFAChallenge_frame order rid rcode now i p sv :
  let sv' := (StartMFAChallenge order rid rcode now i p sv).2 in
  users sv' = users sv ∧ method_maps sv' = method_maps sv ∧ next_ref sv' = next_ref sv ∧ config sv' = config sv.
Proof. unfold StartMFAChallenge. cbv zeta. repeat case_match; done. Qed.

Lemma VerifyMFAChallenge_preserves uid now id code sv s :
  refs_ok sv → preserves uid false sv (VerifyMFAChallenge now id code sv s).1.2.
Proof.
  intros Hr. destruct (VerifyMFAChallenge now id code sv s) as [[r sv'] s'] eqn:E. cbn.
  apply VerifyMFAChallenge_shape in E as (w & Hn & _ & [[Hu Hm]|(u & u' & Eu & Hus & Hm & Hcase)]).
  { by apply preserves_same. }
  destruct Hcase as [Hmm|(m & st & t & Hst & Hmm)]; [by eapply preserves_user|].
  eapply preserves_update; [exact Hr|exact Eu|..]; [done..|].
  intros _ _ st' [[-> <-]|[_ H]]%lookup_insert_Some; eauto.
Qed.

Lemma GetUserMFAStatus_preserves uid i sv : refs_ok sv → preserves uid false sv (GetUserMFAStatus i sv).2.
Proof.
  intros Hr. unfold GetUserMFAStatus. destruct (users sv !! i) as [u|] eqn:E; cbn; [|by apply preserves_same].
  eapply (preserves_update uid false i u u); [done|exact E|by rewrite insert_id|done..|].
  intros _ _ st' H. eapply fmap_totp in H; [exact H|]. intros st. cbn. destruct (String.eqb _ _); eauto.
Qed.

Lemma DisableMFA_preserves uid now i sv s : refs_ok sv → preserves uid false sv (DisableMFA now i sv s).1.2.
Proof.
  intros Hr. unfold DisableMFA. destruct (users sv !! i) as [u|] eqn:E; [|by apply preserves_same].
  cbv zeta. destruct (saveUsers _ s) as [e s1]; cbn. eapply preserves_update; [exact Hr|exact E|..]; [done..|].
  intros _ _ st' H. eapply fmap_totp in H; [exact H|]. intros st. by left.
Qed.

Lemma RegenerateBackupCodes_preserves uid draws now i sv s :
  refs_ok sv → preserves uid false sv (RegenerateBackupCodes draws now i sv s).1.2.
Proof.
  intros Hr. unfold RegenerateBackupCodes. destruct (users sv !! i) as [u|] eqn:E; [|by apply preserves_same].
  destruct (negb _); [by apply preserves_same|]. cbv zeta.
  destruct (saveUsers _ s) as [[e|] s1]; cbn; by eapply preserves_user.
Qed.

Lemma step_preserves uid o sv s : refs_ok sv → preserves uid (sets_up uid o) sv (step o (sv, s)).1.
Proof.
  intros Hr. destruct o as [draws now i email|rand now i|now i code|order rid rcode now i p|now id code|id|now|i|now i|draws now i];
    cbn [step sets_up].
  - pose proof (EnableMFA_preserves uid draws now i email sv s Hr) as H. by destruct (EnableMFA _ _ _ _ _ _) as [[??]?].
  - pose proof (SetupTOTP_preserves uid rand now i sv s Hr) as H. by destruct (SetupTOTP _ _ _ _ _) as [[??]?].
  - pose proof (VerifyTOTPSetup_preserves uid now i code sv s Hr) as H. by destruct (VerifyTOTPSetup _ _ _ _ _) as [[??]?].
  - destruct (StartMFAChallenge_frame order rid rcode now i p sv) as (? & ? & ? & _). by apply preserves_same.
  - pose proof (VerifyMFAChallenge_preserves uid now id code sv s Hr) as H. by destruct (VerifyMFAChallenge _ _ _ _ _) as [[??]?].
  - by apply preserves_same.
  - by apply preserves_same.
  - by apply GetUserMFAStatus_preserves.
  - pose proof (DisableMFA_preserves uid now i sv s Hr) as H. by destruct (DisableMFA _ _ _ _) as [[??]?].
  - pose proof (RegenerateBackupCodes_preserves uid draws now i sv s Hr) as H.
    by destruct (RegenerateBackupCodes _ _ _ _ _) as [[??]?].
Qed.

Lemma steps_preserves uid os sv s :
  refs_ok sv → Forall (λ o, sets_up uid o = false) os →
  refs_ok (steps os (sv, s)).1 ∧ keeps uid sv (steps os (sv, s)).1.
Proof.
  revert sv s. induction os as [|o os IH]; intros sv s Hr Ho; [split; [done|by apply keeps_same]|].
  apply list.Forall_cons in Ho as [Ho Hos]. change (steps (o :: os) (sv, s)) with (steps os (step o (sv, s))).
  destruct (step_preserves uid o sv s Hr) as [Hr1 Hk1]. specialize (Hk1 Ho).
  destruct (step o (sv, s)) as [sv1 s1]. destruct (IH sv1 s1 Hr1 Hos) as [Hr2 Hk2]. split; [done|].
  intros u Hu. destruct (Hk1 u Hu) as (u1 & Hu1 & Hm1 & Ht1). destruct (Hk2 u1 Hu1) as (u2 & Hu2 & Hm2 & Ht2).
  exists u2. split_and!; [done|congruence|]. intros st2 (st1 & E1 & Hs1)%Ht2.
  destruct (Ht1 _ E1) as (st & E & Hst). exists st. split; [done|]. destruct Hs1 as [->| ->]; [done|by right].
Qed.

(** ** Theorems *)

Lemma masked_never_validates code now : totp_Validate code masked now = false.
Proof. destruct (totp_Validate code masked now) eqn:E; [|done]. by apply totp_secret in E. Qed.

(** Once masked, a secret validates nothing until the user is set up anew. *)
Lemma masked_forever sv s uid u st os now code :
  refs_ok sv → users sv !! uid = Some u → methods u sv !! MethodTOTP = Some st → ms_Secret st ≠ EmptyString →
  Forall (λ o, sets_up uid o = false) os →
  let '(sv', s') := steps os ((GetUserMFAStatus uid sv).2, s) in
  (∀ id c, challenges sv' !! id = Some c → mc_UserID c = uid → mc_Method c = MethodTOTP →
   ∃ e, (VerifyMFAChallenge now id code sv' s').1.1 = Some e) ∧
  ∃ e, (VerifyTOTPSetup now uid code sv' s').1.1 = Some e.
Proof.
  intros Hr Hu Hst Hne Hos.
  pose proof (GetUserMFAStatus_preserves uid uid sv Hr) as [Hr1 _].
  assert (∃ u1, users (GetUserMFAStatus uid sv).2 !! uid = Some u1 ∧
    ∀ st1, methods u1 (GetUserMFAStatus uid sv).2 !! MethodTOTP = Some st1 → ms_Secret st1 = masked) as (u1 & Hu1 & Hm1).
  { unfold GetUserMFAStatus. rewrite Hu. exists u. split; [done|]. intros st1. cbn [snd].
    rewrite methods_set_map, decide_True by done. cbn [with_codes mu_Methods].
    change (methods (with_codes [] u) sv) with (methods u sv). rewrite lookup_fmap, Hst. intros [= <-]. cbn.
    by apply String.eqb_neq in Hne as ->. }
  destruct (steps_preserves uid os (GetUserMFAStatus uid sv).2 s Hr1 Hos) as [_ Hk].
  destruct (steps os _) as [sv' s']. cbn [fst] in Hk. destruct (Hk u1 Hu1) as (u2 & Hu2 & _ & Ht).
  assert (∀ st2, methods u2 sv' !! MethodTOTP = Some st2 → ms_Secret st2 = masked) as Hm2.
  { intros st2 (st1 & E1 & [->| ->])%Ht; [by apply Hm1|done]. }
  split.
  - intros id c Hc Hcu Hcm. unfold VerifyMFAChallenge. rewrite Hc. destruct (time_after _ _); [by eexists|].
    destruct (mc_Completed c); [by eexists|]. destruct (_ <=? _); [destruct (incrementFailedAttempts _ _ _ _); by eexists|].
    cbv zeta. unfold check_code. cbn [mc_Method with_attempt mc_UserID]. rewrite Hcm, Hcu, String.eqb_refl.
    change (users (set_challenges ?f sv')) with (users sv'). rewrite Hu2. rewrite methods_challenges.
    destruct (methods u2 sv' !! MethodTOTP) as [st2|] eqn:E2; [|by eexists]. rewrite (Hm2 st2 eq_refl), masked_never_validates.
    destruct (_ <=? _); [destruct (incrementFailedAttempts _ _ _ _)|]; by eexists.
  - unfold VerifyTOTPSetup. rewrite Hu2. destruct (methods u2 sv' !! MethodTOTP) as [st2|] eqn:E2; [|by eexists].
    destruct (ms_Verified st2); [by eexists|]. rewrite (Hm2 st2 eq_refl), masked_never_validates. by eexists.
Qed.

(** One question about the status of a user destroys the secret of the user's
    time-based method: whatever happens next to the service, until the user is set
    up anew, no code is accepted, neither for a challenge nor for the verification
    of the set-up. *)
Theorem status_destroys_secret sv s uid u st os now code :
  refs_ok sv → users sv !! uid = Some u → methods u sv !! MethodTOTP = Some st → ms_Secret st ≠ EmptyString →
  Forall (λ o, sets_up uid o = false) os →
  let '(sv', s') := steps (OStatus uid :: os) (sv, s) in
  (∀ id c, challenges sv' !! id = Some c → mc_UserID c = uid → mc_Method c = MethodTOTP →
   ∃ e, (VerifyMFAChallenge now id code sv' s').1.1 = Some e) ∧
  ∃ e, (VerifyTOTPSetup now uid code sv' s').1.1 = Some e.
Proof. exact (masked_forever sv s uid u st os now code). Qed.

(** A round of guessing: a challenge, and two codes for it. *)
Record guesses := mkGuess {
  g_rid : string; g_start : nat → instant; g_code1 : string; g_now1 : nat → instant; g_code2 : string; g_now2 : nat → instant
}.

Definition guess_id (g : guesses) : string := take_bytes 16 (sha256_hex (g_rid g)).

Definition guess_ops (order : list string) (uid : string) (g : guesses) : list mfa_op :=
  [OStart order (Some (g_rid g)) None (g_start g) uid MethodTOTP;
   OVerify (g_now1 g) (guess_id g) (g_code1 g); OVerify (g_now2 g) (guess_id g) (g_code2 g)].

(** Both codes are wrong, and in time. *)
Definition guess_wrong (cfg : MFAConfig) (secret : string) (g : guesses) : Prop :=
  g_now1 g 0%nat <= g_start g 1%nat + ChallengeExpiration cfg ∧ g_now2 g 0%nat <= g_start g 1%nat + ChallengeExpiration cfg ∧
  totp_Validate (g_code1 g) secret (g_now1 g 1%nat) = false ∧ totp_Validate (g_code2 g) secret (g_now2 g 1%nat) = false.

Lemma wrong_code now id code c u st sv s :
  challenges sv !! id = Some c → now 0%nat <= mc_ExpiresAt c → mc_Completed c = false → mc_Method c = MethodTOTP →
  mc_Attempts c + 1 < mc_MaxAttempts c → users sv !! mc_UserID c = Some u → methods u sv !! MethodTOTP = Some st →
  totp_Validate code (ms_Secret st) (now 1%nat) = false →
  VerifyMFAChallenge now id code sv s = (Some InvalidCode, set_challenges (<[id := with_attempt c]>) sv, s).
Proof.
  intros Hc Ht Hd Hm Ha Hu Hst Hv. unfold VerifyMFAChallenge. rewrite Hc. unfold time_after.
  rewrite (proj2 (Z.ltb_ge _ _)) by done. rewrite Hd, (proj2 (Z.leb_gt _ _)) by lia. cbv zeta.
  unfold check_code. cbn [mc_Method with_attempt mc_UserID mc_Attempts mc_MaxAttempts]. rewrite Hm, String.eqb_refl.
  change (users (set_challenges ?f sv)) with (users sv). rewrite Hu, methods_challenges, Hst, Hv.
  by rewrite (proj2 (Z.leb_gt _ _)) by lia.
Qed.

Lemma guess_round order uid u st g sv s :
  users sv !! uid = Some u → mu_Enabled u = true → mu_LockedUntil u = None →
  methods u sv !! MethodTOTP = Some st → usable st = true → guess_wrong (config sv) (ms_Secret st) g →
  ∃ f, steps (guess_ops order uid g) (sv, s) = (set_challenges f sv, s).
Proof.
  intros Hu He Hl Hst Hus (H1 & H2 & H3 & H4). unfold guess_ops, steps. cbn [foldl].
  set (c := mkChallenge (guess_id g) uid MethodTOTP EmptyString (time_add (g_start g 1%nat) (ChallengeExpiration (config sv)))
              0 3 (g_start g 2%nat) false None).
  assert (step (OStart order (Some (g_rid g)) None (g_start g) uid MethodTOTP) (sv, s)
          = (set_challenges (<[guess_id g := c]>) sv, s)) as ->.
  { cbn [step]. unfold StartMFAChallenge. rewrite Hu, He, Hl. cbn [negb]. unfold choose_method. by rewrite Hst, Hus. }
  assert (∀ now code f d, f (challenges sv) !! guess_id g = Some d →
    now 0%nat <= mc_ExpiresAt d → mc_Completed d = false → mc_Method d = MethodTOTP →
    mc_Attempts d + 1 < mc_MaxAttempts d → mc_UserID d = uid → totp_Validate code (ms_Secret st) (now 1%nat) = false →
    step (OVerify now (guess_id g) code) (set_challenges f sv, s)
      = (set_challenges (λ cs, <[guess_id g := with_attempt d]> (f cs)) sv, s)) as Hw.
  { intros now code f d Hd ? ? ? ? Hdu ?. cbn [step]. rewrite (wrong_code now _ code d u st); try done. by rewrite Hdu. }
  rewrite (Hw (g_now1 g) (g_code1 g) _ c); [|by rewrite lookup_insert, decide_True by done|done..].
  rewrite (Hw (g_now2 g) (g_code2 g) _ (with_attempt c)); [|by rewrite lookup_insert, decide_True by done|done..].
  by eexists.
Qed.

(** The lock-out never comes for a client who abandons each challenge before
    its last attempt: however many codes are tried, two per challenge, the user is
    neither locked nor charged with a failed attempt. *)
Theorem lockout_bypassed order uid u st gs sv s :
  users sv !! uid = Some u → mu_Enabled u = true → mu_LockedUntil u = None →
  methods u sv !! MethodTOTP = Some st → usable st = true → Forall (guess_wrong (config sv) (ms_Secret st)) gs →
  users (steps (mbind (guess_ops order uid) gs) (sv, s)).1 = users sv.
Proof.
  intros Hu He Hl Hst Hus Hg. revert sv s Hu Hst Hg. induction gs as [|g gs IH]; intros sv s Hu Hst Hg; [done|].
  apply list.Forall_cons in Hg as [Hg Hgs]. cbn [mbind list_bind]. unfold steps. rewrite foldl_app.
  destruct (guess_round order uid u st g sv s) as [f Hf]; [done..|]. unfold steps in Hf. rewrite Hf.
  change (users sv) with (users (set_challenges f sv)). by apply IH.
Qed.

(** The maps of methods hold nothing but time-based methods, and so do the challenges. *)
Definition only_totp (ms : gmap string MFASetup) : Prop := ∀ m st, ms !! m = Some st → m = MethodTOTP.

Definition totp_only (sv : MFAService) : Prop :=
  (∀ r ms, method_maps sv !! r = Some ms → only_totp ms) ∧
  (∀ j c, challenges sv !! j = Some c → mc_Method c = MethodTOTP).

Lemma only_totp_methods sv u : totp_only sv → only_totp (methods u sv).
Proof.
  intros [H _] m st. unfold methods, methods_at. destruct (method_maps sv !! mu_Methods u) eqn:E; cbn; [by eapply H|done].
Qed.

Lemma totp_only_map sv sv' r ms :
  totp_only sv → only_totp ms → method_maps sv' = <[r := ms]> (method_maps sv) → challenges sv' = challenges sv →
  totp_only sv'.
Proof.
  intros [H1 H2] Hms Hm Hc. unfold totp_only. rewrite Hm, Hc. split; [|done].
  intros r' ms' [[_ <-]|[_ ?]]%lookup_insert_Some; eauto.
Qed.

Lemma only_totp_insert st ms : only_totp ms → only_totp (<[MethodTOTP := st]> ms).
Proof. intros H m st' [[<- _]|[_ ?]]%lookup_insert_Some; eauto. Qed.

Lemma only_totp_fmap f (ms : gmap string MFASetup) : only_totp ms → only_totp (f <$> ms).
Proof. intros H m st. rewrite lookup_fmap. destruct (ms !! m) eqn:E; [|done]. intros _. by eapply H. Qed.

Lemma choose_method_totp p order ms m : only_totp ms → choose_method p order ms = Some m → m = MethodTOTP.
Proof.
  intros H. unfold choose_method. destruct (ms !! p) as [st|] eqn:E.
  - destruct (usable st); [intros [= <-]; by eapply H|].
    destruct (List.find _ order) as [x|] eqn:Ef; [|done]. destruct (String.eqb x EmptyString); [done|]. intros [= <-].
    apply List.find_some in Ef as [_ Ef]. destruct (ms !! x) eqn:Ex; [|done]. by eapply H.
  - destruct (List.find _ order) as [x|] eqn:Ef; [|done]. destruct (String.eqb x EmptyString); [done|]. intros [= <-].
    apply List.find_some in Ef as [_ Ef]. destruct (ms !! x) eqn:Ex; [|done]. by eapply H.
Qed.

Lemma StartMFAChallenge_totp order rid rcode now i p sv :
  totp_only sv → totp_only (StartMFAChallenge order rid rcode now i p sv).2.
Proof.
  intros H. unfold StartMFAChallenge. destruct (users sv !! i) as [u|]; [|done]. destruct (negb _); [done|].
  destruct (match mu_LockedUntil u with Some t => _ | None => None end); [done|].
  destruct (choose_method p order (methods u sv)) as [m|] eqn:E; [|done].
  apply choose_method_totp in E as ->; [|by apply only_totp_methods].
  destruct (generateChallengeID rid) as [id|]; [|done].
  change (String.eqb MethodTOTP MethodSMS || String.eqb MethodTOTP MethodEmail) with false. cbv iota zeta. cbn [snd].
  destruct H as [H1 H2]. split; [done|]. unfold ForgetChallenge, cleanupExpiredChallenges. cbn [fst challenges set_challenges]. intros j c [[_ <-]|[_ ?]]%lookup_insert_Some; [done|]. by eapply H2.
Qed.

Lemma VerifyMFAChallenge_totp now id code sv s : totp_only sv → totp_only (VerifyMFAChallenge now id code sv s).1.2.
Proof.
  intros H. destruct (VerifyMFAChallenge now id code sv s) as [[r sv'] s'] eqn:E. cbn.
  apply VerifyMFAChallenge_shape in E as (w & _ & Hcs & Hcase). destruct H as [H1 H2]. split.
  - destruct Hcase as [[_ ->]|(u & u' & _ & _ & _ & [->|(m & st & t & Hst & ->)])]; [done|done|].
    intros r' ms [[_ <-]|[_ ?]]%lookup_insert_Some; [|eauto].
    pose proof (only_totp_methods sv u (conj H1 H2)) as Hu. rewrite (Hu m st Hst). by apply only_totp_insert.
  - intros j c (c0 & Hc0 & <-)%Hcs. eauto.
Qed.

Lemma step_totp o sv s : totp_only sv → totp_only (step o (sv, s)).1.
Proof.
  intros H. destruct o as [draws now i email|rand now i|now i code|order rid rcode now i p|now id code|id|now|i|now i|draws now i];
    cbn [step].
  - unfold EnableMFA. destruct (match users sv !! i with Some u => mu_Enabled u | None => false end); [done|].
    unfold new_map. cbv zeta iota beta. destruct (saveUsers _ s) as [[e|] s1]; by eapply (totp_only_map sv _ _ ∅).
  - unfold SetupTOTP. destruct (users sv !! i) as [u|]; [|done]. destruct (generateTOTPSecret rand); [|done]. cbv zeta.
    destruct (saveUsers _ s) as [[e|] s1];
      (eapply (totp_only_map sv); [done| |done..]; by apply only_totp_insert, only_totp_methods).
  - unfold VerifyTOTPSetup. destruct (users sv !! i) as [u|]; [|done]. destruct (methods u sv !! MethodTOTP) as [st|]; [|done].
    destruct (ms_Verified st); [done|]. destruct (negb _); [done|]. cbv zeta. destruct (saveUsers _ s).
    eapply (totp_only_map sv); [done| |done..]. by apply only_totp_insert, only_totp_methods.
  - by apply StartMFAChallenge_totp.
  - pose proof (VerifyMFAChallenge_totp now id code sv s H) as Hv. by destruct (VerifyMFAChallenge _ _ _ _ _) as [[??]?].
  - destruct H as [H1 H2]. split; [done|]. unfold ForgetChallenge, cleanupExpiredChallenges. cbn [fst challenges set_challenges]. intros j c [_ ?]%lookup_delete_Some. eauto.
  - destruct H as [H1 H2]. split; [done|]. unfold ForgetChallenge, cleanupExpiredChallenges. cbn [fst challenges set_challenges]. intros j c [? _]%map_lookup_filter_Some. eauto.
  - unfold GetUserMFAStatus. destruct (users sv !! i) as [u|]; [|done].
    eapply (totp_only_map sv); [done| |done..]. by apply only_totp_fmap, (only_totp_methods sv (with_codes [] u)).
  - unfold DisableMFA. destruct (users sv !! i) as [u|]; [|done]. cbv zeta. destruct (saveUsers _ s).
    eapply (totp_only_map sv); [done| |done..]. by apply only_totp_fmap, only_totp_methods.
  - unfold RegenerateBackupCodes. destruct (users sv !! i) as [u|]; [|done]. destruct (negb _); [done|]. cbv zeta.
    destruct (saveUsers _ s) as [[e|] s1]; done.
Qed.

(** From an empty service, every challenge that is ever started is for a
    time-based code, whatever method the client asks for: the backup codes that
    were handed out, SMS and mail are never checked. *)
Theorem challenges_totp_only cfg os s id c :
  challenges (steps os (mkService cfg ∅ ∅ ∅ 1%positive, s)).1 !! id = Some c → mc_Method c = MethodTOTP.
Proof.
  assert (totp_only (mkService cfg ∅ ∅ ∅ 1%positive)) as H by (by split).
  revert H. generalize (mkService cfg ∅ ∅ ∅ 1%positive). revert s.
  induction os as [|o os IH]; intros s sv H; [apply H|].
  change (steps (o :: os) (sv, s)) with (steps os (step o (sv, s))).
  pose proof (step_totp o sv s H) as Ho. destruct (step o (sv, s)) as [sv1 s1]. by apply IH.
Qed.

(** C11: A verification succeeds only for a challenge that is pending, in time and
    under its bound of attempts, with the code of its method; the challenge is then
    completed, and is refused from then on. *)
Theorem VerifyMFAChallenge_sound now id code sv s sv' s' :
  VerifyMFAChallenge now id code sv s = (None, sv', s') →
  ∃ c u, challenges sv !! id = Some c ∧ users sv !! mc_UserID c = Some u ∧ now 0%nat <= mc_ExpiresAt c ∧
    mc_Completed c = false ∧ mc_Attempts c < mc_MaxAttempts c ∧
    (mc_Method c = MethodTOTP ∧ (∃ st, methods u sv !! MethodTOTP = Some st ∧ totp_Validate code (ms_Secret st) (now 1%nat) = true) ∨
     (mc_Method c = MethodSMS ∨ mc_Method c = MethodEmail) ∧ code = mc_Code c ∨
     mc_Method c = MethodBackupCode ∧ ∃ b, b ∈ mu_BackupCodes u ∧ EqualFold b code = true) ∧
    ∀ now' code' s'', ∃ e, (VerifyMFAChallenge now' id code' sv' s'').1.1 = Some e.
Proof.
  intros H. pose proof H as Hv. unfold VerifyMFAChallenge in H. destruct (challenges sv !! id) as [c|] eqn:Ec; [|done].
  unfold time_after in H. destruct (Z.ltb_spec (mc_ExpiresAt c) (now 0%nat)); [done|].
  destruct (mc_Completed c) eqn:Ed; [done|].
  destruct (Z.leb_spec (mc_MaxAttempts c) (mc_Attempts c)); [by destruct (incrementFailedAttempts _ _ _ _)|].
  cbv zeta in H. destruct (check_code _ _ _ _) as [[[|]|e]|] eqn:Ek; [|by destruct (_ <=? _); [destruct (incrementFailedAttempts _ _ _ _)|]|done..].
  assert (∃ u, users sv !! mc_UserID c = Some u) as [u Eu].
  { unfold complete_challenge in H. cbn in H. destruct (users sv !! mc_UserID c); [eauto|done]. }
  assert (∃ c', challenges sv' !! id = Some c' ∧ mc_Completed c' = true) as (c' & Ec' & Ed').
  { unfold complete_challenge in H. cbn in H. rewrite Eu in H. injection H as <- _.
    exists (with_completed (now 2%nat) (with_attempt c)). split; [|done].
    repeat case_match; unfold removeUsedBackupCode; repeat case_match; cbn; by rewrite lookup_insert, decide_True by done. }
  exists c, u. split_and!; try done.
  - unfold check_code in Ek. cbn [mc_Method with_attempt mc_UserID mc_Code] in Ek. cbn [users set_challenges] in Ek.
    destruct (String.eqb_spec (mc_Method c) MethodTOTP) as [Em|].
    { rewrite Eu, methods_challenges in Ek. destruct (methods u sv !! MethodTOTP) as [st|] eqn:Est; [|done].
      injection Ek as Ek. left. eauto. }
    destruct (String.eqb (mc_Method c) MethodSMS || String.eqb (mc_Method c) MethodEmail) eqn:Em.
    { injection Ek as Ek. apply String.eqb_eq in Ek as ->. right. left.
      apply orb_true_iff in Em as [->%String.eqb_eq| ->%String.eqb_eq]; auto. }
    destruct (String.eqb_spec (mc_Method c) MethodBackupCode); [|done]. right. right. split; [done|].
    injection Ek as Ek. unfold validateBackupCode in Ek. cbn in Ek. rewrite Eu in Ek.
    apply existsb_exists in Ek as (b & Hb & Eb). exists b. split; [by apply list_elem_of_In|done].
  - intros now' code' s''. unfold VerifyMFAChallenge. rewrite Ec'. destruct (time_after _ _); [by eexists|].
    rewrite Ed'. by eexists.
Qed.

(** A lock does not stop the challenges that are already open: a right code
    is accepted, and lifts the lock. *)
Theorem open_challenge_lifts_lock now id code c u st sv s :
  challenges sv !! id = Some c → now 0%nat <= mc_ExpiresAt c → mc_Completed c = false → mc_Method c = MethodTOTP →
  mc_Attempts c < mc_MaxAttempts c → users sv !! mc_UserID c = Some u → methods u sv !! MethodTOTP = Some st →
  totp_Validate code (ms_Secret st) (now 1%nat) = true →
  let '(r, sv', _) := VerifyMFAChallenge now id code sv s in
  r = None ∧ ∃ u', users sv' !! mc_UserID c = Some u' ∧ mu_LockedUntil u' = None ∧ mu_FailedAttempts u' = 0.
Proof.
  intros Hc Ht Hd Hm Ha Hu Hst Hv. unfold VerifyMFAChallenge. rewrite Hc. unfold time_after.
  rewrite (proj2 (Z.ltb_ge _ _)) by done. rewrite Hd, (proj2 (Z.leb_gt _ _)) by lia. cbv zeta.
  unfold check_code. cbn [mc_Method with_attempt mc_UserID mc_Attempts mc_MaxAttempts]. rewrite Hm, String.eqb_refl.
  cbn [users set_challenges]. rewrite Hu, methods_challenges, Hst, Hv.
  unfold complete_challenge. cbn [users set_challenges mc_UserID with_attempt mc_Method]. rewrite Hu, Hm. cbn [String.eqb Ascii.eqb Bool.eqb].
  change (String.eqb MethodTOTP MethodBackupCode) with false. cbv iota zeta. split; [done|].
  set (u1 := mkUser _ _ _ _ _ _ _ (Some _) 0 None). exists u1. split; [|done]. repeat case_match; cbn; by rewrite lookup_insert, decide_True by done.
Qed.

(** Disabling and enabling anew replaces the methods under an open challenge:
    answering it then follows a nil pointer. *)
Theorem stale_challenge_panics draws now now' i email id code c u sv s s' s'' sv' :
  EnableMFA draws now i email sv s = (Ok u, sv', s') → challenges sv !! id = Some c → mc_UserID c = i →
  mc_Method c = MethodTOTP → now' 0%nat <= mc_ExpiresAt c → mc_Completed c = false → mc_Attempts c < mc_MaxAttempts c →
  (VerifyMFAChallenge now' id code sv' s'').1.1 = Some Panic.
Proof.
  intros H Hc Hi Hm Ht Hd Ha. unfold EnableMFA in H.
  destruct (match users sv !! i with Some u => mu_Enabled u | None => false end); [done|].
  unfold new_map in H. cbv zeta iota beta in H. destruct (saveUsers _ s) as [[e|] s1]; [done|]. injection H as <- <- <-.
  unfold VerifyMFAChallenge. cbn [challenges set_users]. rewrite Hc. unfold time_after.
  rewrite (proj2 (Z.ltb_ge _ _)) by done. rewrite Hd, (proj2 (Z.leb_gt _ _)) by lia. cbv zeta.
  unfold check_code. cbn [mc_Method with_attempt mc_UserID]. rewrite Hm, Hi, String.eqb_refl.
  cbn [users set_challenges set_users]. rewrite lookup_insert, decide_True by done.
  unfold methods, methods_at. cbn. by rewrite lookup_insert, decide_True by done.
Qed.
End service.

(** ** Witnesses: one user, set up and verified *)

#[local] Instance demo_totp : TotpLib.
Proof.
  refine {| totp_Validate code secret _ := str_all base32_char secret && String.eqb code "123456" |}.
  by intros code secret _ [? _]%andb_true_iff.
Defined.

#[local] Instance demo_codec : Codec (gmap string saved_user).
Proof.
  refine {| json_marshal _ := Some "{}"%string; json_unmarshal _ := None; json_safe _ := False |}. done.
Defined.

Definition demo_fs : MemFS := mkMem ∅ {["data"%string]} [].
Definition at_ (t : Z) : nat → instant := λ _, t.
Definition demo_setup : list mfa_op :=
  [OEnable [] (at_ 1) "u" "u@x"; OSetup (Some (seqZ 0 20)) (at_ 2) "u"; OVerifySetup (at_ 3) "u" "123456"].
Definition demo_state : MFAService * MemFS := steps demo_setup (mkService DefaultMFAConfig ∅ ∅ ∅ 1%positive, demo_fs).
Definition demo_user : MFAUserConfig := default (new_user EmptyString EmptyString 1%positive [] 0 0) (users demo_state.1 !! "u"%string).
Definition demo_method : MFASetup :=
  default (mkSetup EmptyString EmptyString EmptyString false false 0 None None) (methods demo_user demo_state.1 !! MethodTOTP).

Example demo_ready :
  mu_Enabled demo_user = true ∧ usable demo_method = true ∧ ms_Secret demo_method = "AAAQEAYEAUDAOCAJBIFQYDIOB4IBCEQT"%string
  ∧ generateTOTPURL DefaultMFAConfig "u@x" "A" =
      "otpauth://totp/ProxyND:u@x?algorithm=SHA1&digits=6&issuer=ProxyND&period=30&secret=A"%string.
Proof. vm_compute. repeat split. Qed.

Lemma demo_refs : refs_ok demo_state.1.
Proof.
  assert (refs_ok (mkService DefaultMFAConfig ∅ ∅ ∅ 1%positive)) as H by (by split).
  unfold demo_state, steps, demo_setup. cbn [foldl].
  pose proof (step_preserves EmptyString (OEnable [] (at_ 1) "u" "u@x") _ demo_fs H) as [H1 _].
  destruct (step (OEnable [] (at_ 1) "u" "u@x") _) as [sv1 s1].
  pose proof (step_preserves EmptyString (OSetup (Some (seqZ 0 20)) (at_ 2) "u") _ s1 H1) as [H2 _].
  destruct (step (OSetup (Some (seqZ 0 20)) (at_ 2) "u") _) as [sv2 s2].
  pose proof (step_preserves EmptyString (OVerifySetup (at_ 3) "u" "123456") _ s2 H2) as [H3 _].
  exact H3.
Qed.

Definition demo_rid : string := "0123456789abcdef".
Definition demo_id : string := take_bytes 16 (sha256_hex demo_rid).
Definition demo_start : mfa_op := OStart [] (Some demo_rid) None (at_ 4) "u" MethodTOTP.

Lemma status_destroys_secret_witness :
  (VerifyMFAChallenge (at_ 5) demo_id "123456" (steps [demo_start] demo_state).1 demo_fs).1.1 = None ∧
  let '(sv', s') := steps (OStatus "u" :: [demo_start]) demo_state in
  ∃ e, (VerifyTOTPSetup (at_ 5) "u" "123456" sv' s').1.1 = Some e.
Proof.
  split; [vm_compute; reflexivity|].
  pose proof (status_destroys_secret demo_state.1 demo_state.2 "u" demo_user demo_method [demo_start] (at_ 5) "123456" demo_refs
    ltac:(vm_compute; reflexivity) ltac:(vm_compute; reflexivity) ltac:(vm_compute; discriminate)
    ltac:(repeat constructor)) as H.
  replace (demo_state.1, demo_state.2) with demo_state in H by (by destruct demo_state).
  destruct (steps _ demo_state) as [sv' s']. exact (proj2 H).
Defined.

Definition demo_guess : guesses := mkGuess demo_rid (at_ 4) "000000" (at_ 5) "000001" (at_ 6).

Lemma lockout_bypassed_witness :
  users (steps (mbind (guess_ops [] "u") (replicate 20 demo_guess)) (demo_state.1, demo_state.2)).1 = users demo_state.1.
Proof.
  apply (lockout_bypassed [] "u" demo_user demo_method (replicate 20 demo_guess)); [vm_compute; reflexivity..|].
  apply Forall_replicate. split_and!; vm_compute; first [reflexivity|discriminate].
Defined.

Lemma challenges_totp_only_witness :
  ∃ c, challenges (steps (demo_setup ++ [OStart [MethodTOTP] (Some demo_rid) None (at_ 4) "u" MethodBackupCode])
    (mkService DefaultMFAConfig ∅ ∅ ∅ 1%positive, demo_fs)).1 !! demo_id = Some c ∧ mc_Method c = MethodTOTP.
Proof.
  destruct (challenges _ !! demo_id) as [c|] eqn:E; [|vm_compute in E; discriminate].
  exists c. split; [done|]. exact (challenges_totp_only _ _ _ _ _ E).
Defined.

Lemma VerifyMFAChallenge_sound_witness :
  let '(sv, s) := steps [demo_start] demo_state in
  ∃ sv' s' c, VerifyMFAChallenge (at_ 5) demo_id "123456" sv s = (None, sv', s') ∧ challenges sv !! demo_id = Some c ∧ mc_Completed c = false.
Proof.
  destruct (steps [demo_start] demo_state) as [sv s] eqn:E.
  assert ((VerifyMFAChallenge (at_ 5) demo_id "123456" (steps [demo_start] demo_state).1 (steps [demo_start] demo_state).2).1.1 = None) as Hn
    by (vm_compute; reflexivity).
  rewrite E in Hn. cbn [fst snd] in Hn. destruct (VerifyMFAChallenge (at_ 5) demo_id "123456" sv s) as [[r sv'] s'] eqn:Ev.
  cbn in Hn. subst r. destruct (VerifyMFAChallenge_sound _ _ _ _ _ _ _ Ev) as (c & u & Hc & _ & _ & Hd & _).
  exists sv', s', c. done.
Defined.

Definition demo_challenge : MFAChallenge :=
  mkChallenge demo_id "u" MethodTOTP EmptyString 10 0 3 4 false None.
(** The user is locked while a challenge is open. *)
Definition demo_locked : MFAService :=
  set_users (<[("u"%string : string) := mkUser "u" "u@x" true (mu_Methods demo_user) [] 1 3 None 5 (Some 100)]>)
    (set_challenges (<[demo_id := demo_challenge]>) demo_state.1).

Lemma open_challenge_lifts_lock_witness :
  let '(r, sv', _) := VerifyMFAChallenge (at_ 5) demo_id "123456" demo_locked demo_fs in
  r = None ∧ ∃ u', users sv' !! "u"%string = Some u' ∧ mu_LockedUntil u' = None ∧ mu_FailedAttempts u' = 0.
Proof.
  apply (open_challenge_lifts_lock (at_ 5) demo_id "123456" demo_challenge
    (mkUser "u" "u@x" true (mu_Methods demo_user) [] 1 3 None 5 (Some 100)) demo_method);
    vm_compute; first [reflexivity|discriminate].
Defined.

Lemma stale_challenge_panics_witness :
  ∃ sv' s', (EnableMFA [] (at_ 6) "u" "u@x" (steps [demo_start; ODisable (at_ 5) "u"] demo_state).1 demo_fs).1.2 = sv' ∧
    (VerifyMFAChallenge (at_ 7) demo_id "123456" sv' s').1.1 = Some Panic.
Proof.
  destruct (EnableMFA [] (at_ 6) "u" "u@x" (steps [demo_start; ODisable (at_ 5) "u"] demo_state).1 demo_fs) as [[r sv'] s'] eqn:E.
  exists sv', s'. split; [done|].
  assert (∃ u, r = Ok u) as [u ->].
  { assert (is_ok (EnableMFA [] (at_ 6) "u" "u@x" (steps [demo_start; ODisable (at_ 5) "u"] demo_state).1 demo_fs).1.1 = true) as Hr
      by (vm_compute; reflexivity). rewrite E in Hr. cbn in Hr. destruct r; [eauto|done]. }
  eapply (stale_challenge_panics [] (at_ 6) (at_ 7) "u" "u@x" demo_id "123456"); [exact E|..].
  - vm_compute. reflexivity.
  - reflexivity.
  - reflexivity.
  - vm_compute. discriminate.
  - reflexivity.
  - reflexivity.
Defined.
