(* ===== verification/Fiber.v ===== *)
(** * Fiber: the context of a request, and handlers

    What the middleware under [src/internal/adapters/http/fiber/middleware] uses
    of the web framework: the values of a request, and a log of what the handlers
    do to the response and to the locals of the context.  [c.Next()] runs the
    handlers that follow, which are a parameter; its entry [CallNext] in the log
    marks that they have been reached.  [MiddlewareChain] and the adapter of
    [factory.go] are here too. *)

From Stdlib Require Import Ascii.
From S2P Require Import Prelude GoStrings.

(** The values stored in the locals of a context. *)
Inductive lval := LStr (s : string) | LBool (b : bool) | LStrs (l : list string) | LTime (t : instant) | LOther.

(** What a handler may return as an error: [fiber.NewError(status, ...)], or another. *)
Inductive herr := FiberErr (status : Z) | OtherErr (msg : string).

Inductive action :=
| Reply (status : Z)
| SetHeader (name value : string)
| SetLocal (key : string) (v : lval)
| CallNext.

#[export] Instance lval_eq_dec : EqDecision lval.
Proof. solve_decision. Defined.
#[export] Instance herr_eq_dec : EqDecision herr.
Proof. solve_decision. Defined.
#[export] Instance action_eq_dec : EqDecision action.
Proof. solve_decision. Defined.

Definition log : Type := list action.

(** A request: headers by the names under which the code asks for them (the framework ignores their case). *)
Record Ctx := mkCtx {
  c_IP : string;
  c_Method : string;
  c_Path : string;
  c_Headers : gmap string string;
  c_Params : gmap string string;
  c_Queries : gmap string string;
  c_QueryString : string;
  c_QueryArgs : list (string * string);
  c_ArgsString : string;
  c_ContentLength : Z;
  c_Body : string;
  c_Locals : gmap string lval
}.

Definition Get (c : Ctx) (name : string) : string := default EmptyString (c_Headers c !! name).
Definition Params (c : Ctx) (name : string) : string := default EmptyString (c_Params c !! name).
Definition Query (c : Ctx) (name : string) : string := default EmptyString (c_Queries c !! name).

(** [c.Locals(key)]: the last value stored, or the one the request came with. *)
Definition Locals (c : Ctx) (tr : log) (key : string) : option lval :=
  match omap (λ a, match a with SetLocal k v => if String.eqb k key then Some v else None | _ => None end) (rev tr) with
  | v :: _ => Some v
  | [] => c_Locals c !! key
  end.

(** [c.Response().StatusCode()]. *)
Definition StatusCode (tr : log) : Z :=
  match omap (λ a, match a with Reply s => Some s | _ => None end) (rev tr) with s :: _ => s | [] => 200 end.

(** A handler returns an error and extends the log. *)
Definition handler : Type := Ctx → log → option herr * log.

(** [c.Status(status).JSON(...)] and the like, whose own errors are left out. *)
Definition reply (status : Z) (tr : log) : option herr * log := (None, tr ++ [Reply status]).
Definition set_header (name value : string) (tr : log) : log := tr ++ [SetHeader name value].
Definition set_local (key : string) (v : lval) (tr : log) : log := tr ++ [SetLocal key v].

(** The handlers that follow: what they do and return, given what has been done. *)
Class Chain := { after : Ctx → log → log * option herr }.

Definition Next `{!Chain} : handler := λ c tr, let '(acts, e) := after c tr in (e, tr ++ CallNext :: acts).

(** The handlers that follow are reached. *)
Definition reached (tr : log) : bool := existsb (λ a, bool_decide (a = CallNext)) tr.

(** A chain that does nothing and succeeds, for witnesses. *)
Definition quiet : Chain := {| after _ _ := ([], None) |}.

Lemma reached_app t1 t2 : reached (t1 ++ t2) = reached t1 || reached t2.
Proof. apply existsb_app. Qed.

Lemma reached_In tr : reached tr = true ↔ CallNext ∈ tr.
Proof.
  unfold reached. rewrite existsb_exists. split.
  - intros (x & Hx & Hb). apply bool_decide_eq_true in Hb as ->. by apply list_elem_of_In.
  - intros H. exists CallNext. split; [by apply list_elem_of_In|]. by apply bool_decide_eq_true.
Qed.

Lemma Next_reached `{!Chain} c tr : reached (Next c tr).2 = true.
Proof. unfold Next. destruct (after c tr). cbn. rewrite reached_app. cbn. by rewrite orb_true_r. Qed.

Lemma reply_reached status tr : reached (reply status tr).2 = reached tr.
Proof. unfold reply. cbn. rewrite reached_app. cbn. by rewrite orb_false_r. Qed.

Lemma set_header_reached n v tr : reached (set_header n v tr) = reached tr.
Proof. unfold set_header. rewrite reached_app. cbn. by rewrite orb_false_r. Qed.

Lemma set_local_reached k v tr : reached (set_local k v tr) = reached tr.
Proof. unfold set_local. rewrite reached_app. cbn. by rewrite orb_false_r. Qed.

#[export] Hint Rewrite @Next_reached reply_reached set_header_reached set_local_reached : fiber.

Lemma Locals_set c tr k v k' : Locals c (set_local k v tr) k' = if String.eqb k k' then Some v else Locals c tr k'.
Proof. unfold Locals, set_local. rewrite rev_app_distr. cbn. by destruct (String.eqb k k'). Qed.

Lemma Locals_header c tr n v k : Locals c (set_header n v tr) k = Locals c tr k.
Proof. unfold Locals, set_header. by rewrite rev_app_distr. Qed.

#[export] Hint Rewrite Locals_set Locals_header : fiber.

(** ** Chains of middleware ([factory.go]) *)

(** [ports.EnhancedHTTPMiddleware]: [Process] wraps a handler. *)
Record EnhancedMiddleware := mkMiddleware {
  mw_Process : handler → handler;
  mw_Order : Z;
  mw_Name : string;
  mw_IsEnabled : bool
}.

Definition MiddlewareChain : Type := list EnhancedMiddleware.

(** [Add] appends and sorts by order; a sort of at most twelve elements is stable
    in Go, and the orders of a chain are different anyway. *)
Fixpoint insert_by_order (m : EnhancedMiddleware) (l : MiddlewareChain) : MiddlewareChain :=
  match l with
  | [] => [m]
  | x :: l' => if mw_Order m <? mw_Order x then m :: l else x :: insert_by_order m l'
  end.

Definition Add (m : EnhancedMiddleware) (c : MiddlewareChain) : MiddlewareChain := insert_by_order m c.

(** [Build]: the first middleware is the outermost. *)
Definition Build (c : MiddlewareChain) (finalHandler : handler) : handler := foldr mw_Process finalHandler c.

Definition Count (c : MiddlewareChain) : Z := Z.of_nat (length c).

(** [adaptToFiberHandler]: the middleware around [c.Next()]. *)
Definition adaptToFiberHandler `{!Chain} (m : EnhancedMiddleware) : handler := mw_Process m Next.

Definition orders_sorted (c : MiddlewareChain) : Prop := StronglySorted (λ a b, mw_Order a <= mw_Order b) c.

Lemma Add_Permutation m c : Add m c ≡ₚ m :: c.
Proof.
  unfold Add. induction c as [|x c IH]; [done|]. cbn. destruct (_ <? _); [done|].
  rewrite IH. apply Permutation_swap.
Qed.

Lemma Add_sorted m c : orders_sorted c → orders_sorted (Add m c).
Proof.
  unfold Add. induction 1 as [|x c Hs IH Hx]; [repeat constructor|]. cbn. destruct (mw_Order m <? mw_Order x) eqn:E; zbool.
  - constructor; [by constructor|]. constructor; [lia|]. eapply list.Forall_impl; [exact Hx|]. cbn. lia.
  - constructor; [done|]. rewrite (Add_Permutation m c : insert_by_order m c ≡ₚ m :: c). by constructor.
Qed.
