(* ===== verification/HttpAuth.v ===== *)
(** * HttpAuth: authentication and authorisation in the HTTP layer

    Models, under [src/internal/adapters/http/fiber/middleware]: [auth.go] (basic
    authentication), [jwt_auth.go], [admin_middleware.go], [auth_middleware.go],
    [permission.go], [permission_middleware.go], [mfa_middleware.go] with its
    handlers, and the chain that [factory.go] builds.  The handlers that follow are
    the [Chain] of [Fiber]; the token library is a class, the services are
    arguments or the models [Jwt] and [Mfa].  Logging is left out. *)

From Stdlib Require Import Ascii.
From S2P Require Import Prelude GoStrings GoText GoUrl GoBase64 Fiber.
From S2P Require Jwt Mfa GoFS.

(** ** Basic authentication ([auth.go]) *)

Record BasicAuthConfig := mkBasic { ba_Users : gmap string string; ba_Realm : string }.

Definition unauthorized (realm : string) (tr : log) : option herr * log :=
  reply 401 (set_header "WWW-Authenticate" ("Basic realm=" +:+ (String "034" (realm +:+ String "034" EmptyString))) tr).

Definition basic_prefix : string := "Basic ".

Definition BasicAuthMiddleware `{!Chain} (config : BasicAuthConfig) : handler := λ c tr,
  let realm := if String.eqb (ba_Realm config) EmptyString then "Restricted"%string else ba_Realm config in
  let auth := Get c "Authorization" in
  if String.eqb auth EmptyString then unauthorized realm tr
  else if negb (HasPrefix auth basic_prefix) then unauthorized realm tr
  else match DecodeString StdEncoding (drop_bytes 6 auth) with
  | None => unauthorized realm tr
  | Some credentials =>
      match split_two ":" credentials with
      | (_, None) => unauthorized realm tr
      | (username, Some password) =>
          match ba_Users config !! username with
          | None => unauthorized realm tr
          | Some expected =>
              if negb (String.eqb password expected) then unauthorized realm tr
              else Next c (set_local "username" (LStr username) tr)
          end
      end
  end.

(** ** Tokens of the middleware ([jwt_auth.go]) *)

Record JWTConfig := mkJWTConfig {
  jc_SecretKey : string;
  jc_TokenDuration : duration;
  jc_Issuer : string;
  jc_SkipPaths : list string
}.

(** The fields [IssuedAt] and [ExpiresAt] shadow those of the embedded registered
    claims in the encoding: the library sees no expiry, the code checks it. *)
Record JWTClaims := mkJWTClaims {
  jl_UserID : string;
  jl_Username : string;
  jl_Roles : list string;
  jl_IssuedAt : Z;
  jl_ExpiresAt : Z;
  jl_NotBefore : option instant;
  jl_Issuer : string;
  jl_Subject : string
}.

(** [golang-jwt] on these claims: parsing asks for the key of the algorithm the
    token names; [hs_signed tok alg key c] says that [tok] carries [c] with a
    signature that verifies. *)
Class JwtHs := {
  hs_Parse : string → (string → option string) → instant → option JWTClaims;
  hs_Sign : string → JWTClaims → string → option string;
  hs_signed : string → string → string → JWTClaims → Prop;
  hs_sound tok kf now c : hs_Parse tok kf now = Some c → ∃ alg key, kf alg = Some key ∧ hs_signed tok alg key c
}.

Definition dev_secret : string := "dev-secret-key-change-this-in-production".

(** The defaults of [JWTMiddleware]. *)
Definition with_defaults (config : JWTConfig) : JWTConfig := {|
  jc_SecretKey := if String.eqb (jc_SecretKey config) EmptyString then dev_secret else jc_SecretKey config;
  jc_TokenDuration := if jc_TokenDuration config =? 0 then 24 * hour else jc_TokenDuration config;
  jc_Issuer := if String.eqb (jc_Issuer config) EmptyString then "proxynd" else jc_Issuer config;
  jc_SkipPaths := jc_SkipPaths config
|}.

Definition hmac_key (secret alg : string) : option string := if Jwt.is_hmac alg then Some secret else None.

(** [time.Unix(claims.ExpiresAt, 0).Before(now)]. *)
Definition jwt_expired (cl : JWTClaims) (now : instant) : bool :=
  time_before ((jl_ExpiresAt cl + unix_epoch) * second) now.

Section middleware.
Context `{HCH : !Chain} `{HHS : !JwtHs}.

Definition store_claims (cl : JWTClaims) (tr : log) : log :=
  set_local "jwt_claims" LOther (set_local "roles" (LStrs (jl_Roles cl))
    (set_local "username" (LStr (jl_Username cl)) (set_local "user_id" (LStr (jl_UserID cl)) tr))).

(** [now1] is the clock of the library, [now2] the one of the expiry check. *)
Definition JWTMiddleware (config : JWTConfig) (now1 now2 : instant) : handler := λ c tr,
  let config := with_defaults config in
  if existsb (HasPrefix (c_Path c)) (jc_SkipPaths config) then Next c tr
  else
    let authHeader := Get c "Authorization" in
    if String.eqb authHeader EmptyString then reply 401 tr
    else match split_two " " authHeader with
    | (scheme, Some tokenString) =>
        if negb (String.eqb scheme "Bearer") then reply 401 tr
        else match hs_Parse tokenString (hmac_key (jc_SecretKey config)) now1 with
        | None => reply 401 tr
        | Some claims => if jwt_expired claims now2 then reply 401 tr else Next c (store_claims claims tr)
        end
    | (_, None) => reply 401 tr
    end.

Definition GenerateJWTToken (userID username : string) (roles : list string) (config : JWTConfig) (now : instant)
    : option string :=
  let d := if jc_TokenDuration config =? 0 then 24 * hour else jc_TokenDuration config in
  let claims := mkJWTClaims userID username roles (Unix now) (Unix (time_add now d)) (Some (now / second * second))
                  (jc_Issuer config) userID in
  hs_Sign "HS256" claims (jc_SecretKey config).

Definition ValidateJWTToken (tokenString : string) (config : JWTConfig) (now1 now2 : instant) : option JWTClaims :=
  match hs_Parse tokenString (hmac_key (jc_SecretKey config)) now1 with
  | None => None
  | Some claims => if jwt_expired claims now2 then None else Some claims
  end.

Definition GetUserFromContext (c : Ctx) (tr : log) : option (string * string * list string) :=
  match Locals c tr "user_id", Locals c tr "username", Locals c tr "roles" with
  | Some (LStr userID), Some (LStr username), Some (LStrs roles) => Some (userID, username, roles)
  | _, _, _ => None
  end.

Definition RequireRole (requiredRole : string) : handler := λ c tr,
  match GetUserFromContext c tr with
  | None => reply 401 tr
  | Some (_, _, roles) =>
      if existsb (λ role, String.eqb role requiredRole || String.eqb role "admin") roles then Next c tr else reply 403 tr
  end.

(** ** Administrators ([admin_middleware.go]) *)

Definition AdminOnlyMiddleware : handler := λ c tr,
  match GetUserFromContext c tr with
  | None => reply 401 tr
  | Some (_, _, roles) => if existsb (λ role, String.eqb role "admin") roles then Next c tr else reply 403 tr
  end.

(** The token check is a middleware, which goes on to the next handlers itself. *)
Definition AdminOnlyMiddlewareWithJWT (config : JWTConfig) (now1 now2 : instant) : handler := λ c tr,
  match JWTMiddleware config now1 now2 c tr with
  | (Some err, tr) => (Some err, tr)
  | (None, tr) => AdminOnlyMiddleware c tr
  end.

(** ** [auth_middleware.go] and [permission_middleware.go]

    The context of the ports is an adapter: its [Get] reads the locals, its
    [Header] the headers. *)

Record MiddlewareAuthConfig := mkAuthConfig { ma_Enabled : bool; ma_SkipPaths : list string; ma_RequireAuth : bool }.

Record auth_claims := mkAuthClaims { ac_UserID : string; ac_Email : string; ac_Role : string }.

(** [ports.MiddlewareAuthService]. *)
Record MiddlewareAuthService := mkAuthService { as_IsEnabled : bool; as_ValidateToken : string → option auth_claims }.

Definition bearer_of (authHeader : string) : string :=
  if (7 <? String.length authHeader)%nat && String.eqb (to_lower (take_bytes 7 authHeader)) "bearer "
  then drop_bytes 7 authHeader else authHeader.

Definition extractToken (c : Ctx) (tr : log) : string :=
  match Locals c tr "Authorization" with
  | Some (LStr authHeader) =>
      if negb (String.eqb authHeader EmptyString) then bearer_of authHeader
      else match Locals c tr "X-API-Key" with
           | Some (LStr apiKey) => if negb (String.eqb apiKey EmptyString) then apiKey else Query c "api_key"
           | _ => Query c "api_key"
           end
  | _ => match Locals c tr "X-API-Key" with
         | Some (LStr apiKey) => if negb (String.eqb apiKey EmptyString) then apiKey else Query c "api_key"
         | _ => Query c "api_key"
         end
  end.

Definition shouldSkipPath (skipPaths : list string) (path : string) : bool := existsb (HasPrefix path) skipPaths.

Definition AuthHandler (config : MiddlewareAuthConfig) (svc : option MiddlewareAuthService) (next : handler) : handler := λ c tr,
  if shouldSkipPath (ma_SkipPaths config) (c_Path c) then next c tr
  else match svc with
  | Some svc =>
      if negb (ma_Enabled config) || negb (as_IsEnabled svc) then next c tr
      else
        let token := extractToken c tr in
        if String.eqb token EmptyString then if ma_RequireAuth config then reply 401 tr else next c tr
        else match as_ValidateToken svc token with
        | None => reply 401 tr
        | Some claims =>
            next c (set_local "authenticated" (LBool true) (set_local "user_role" (LStr (ac_Role claims))
              (set_local "user_email" (LStr (ac_Email claims)) (set_local "user_id" (LStr (ac_UserID claims)) tr))))
        end
  | None => next c tr
  end.

(** The authorisation itself is left to do: every branch goes on. *)
Definition PermissionHandler (enabled : bool) (skipPaths : list string) (svc_enabled : option bool) (next : handler) : handler := λ c tr,
  if shouldSkipPath skipPaths (c_Path c) then next c tr
  else if negb enabled || negb (default false svc_enabled) then next c tr
  else next c tr.

(** ** Permissions and package filters ([permission.go]) *)

Definition PermissionRead : Z := 1.
Definition PermissionWrite : Z := 2.
Definition PermissionDelete : Z := 4.

Record PermissionConfig := mkPermConfig { pc_UserPermissions : gmap string Z; pc_DefaultPermission : Z }.

Definition getRequiredPermission (method : string) : Z :=
  let m := to_upper method in
  if String.eqb m "GET" || String.eqb m "HEAD" then PermissionRead
  else if String.eqb m "POST" || String.eqb m "PUT" || String.eqb m "PATCH" then PermissionWrite
  else if String.eqb m "DELETE" then PermissionDelete
  else PermissionRead.

Definition hasPermission (userPermission requiredPermission : Z) : bool :=
  negb (Z.land userPermission requiredPermission =? 0).

Definition LegacyPermissionMiddleware (config : PermissionConfig) : handler := λ c tr,
  let required := getRequiredPermission (c_Method c) in
  let username := match Locals c tr "username" with Some (LStr u) => u | _ => EmptyString end in
  if String.eqb username EmptyString then
    if negb (hasPermission (pc_DefaultPermission config) required) then reply 403 tr else Next c tr
  else
    let userPermission := default (pc_DefaultPermission config) (pc_UserPermissions config !! username) in
    if negb (hasPermission userPermission required) then reply 403 tr
    else Next c (set_local "userPermissions" LOther tr).

Record PackageFilter := mkFilter { pf_AllowedPackages : gmap string (list string); pf_DenyAll : bool }.

Definition matchesPattern (path pattern : string) : bool :=
  let exact := String.eqb path pattern || HasPrefix path (pattern +:+ "/") in
  if String.eqb pattern "*" then true
  else if Contains pattern "*" then
    match Split pattern "*" with
    | [prefix; suffix] => HasPrefix path prefix && HasSuffix path suffix
    | _ => exact
    end
  else exact.

Definition PackageFilterMiddleware (config : PackageFilter) : handler := λ c tr,
  let proxyType := Params c "type" in
  let packagePath := Params c "*" in
  if String.eqb proxyType EmptyString || String.eqb packagePath EmptyString then
    if pf_DenyAll config then reply 403 tr else Next c tr
  else match pf_AllowedPackages config !! proxyType with
  | None => if pf_DenyAll config then reply 403 tr else Next c tr
  | Some allowedPatterns =>
      if existsb (matchesPattern packagePath) allowedPatterns then Next c tr
      else if pf_DenyAll config then reply 403 tr else Next c tr
  end.

(** ** Multi-factor authentication ([mfa_middleware.go]) *)

Record MFAMiddlewareConfig := mkMfaConfig {
  mm_SkipPaths : list string;
  mm_RequiredPaths : list string;
  mm_GracePeriod : duration;
  mm_EnableForAllUsers : bool
}.

Definition DefaultMFAMiddlewareConfig : MFAMiddlewareConfig := {|
  mm_SkipPaths := ["/health"; "/metrics"; "/auth/login"; "/auth/callback"; "/auth/mfa/setup"; "/auth/mfa/verify"];
  mm_RequiredPaths := ["/admin"; "/proxy/*/upload"];
  mm_GracePeriod := 7 * 24 * hour;
  mm_EnableForAllUsers := false
|}.

Definition isMFARequiredPath (path : string) (requiredPaths : list string) : bool :=
  existsb (λ requiredPath,
    if Contains requiredPath "*" then Contains path (ReplaceAll requiredPath "*" EmptyString)
    else HasPrefix path requiredPath) requiredPaths.

Definition getAvailableMethods (u : Mfa.MFAUserConfig) (sv : Mfa.MFAService) : list string :=
  (map_to_list (Mfa.methods u sv) ≫= λ x, if Mfa.usable x.2 then [x.1] else [])
  ++ match Mfa.mu_BackupCodes u with [] => [] | _ => [Mfa.MethodBackupCode] end.

Context `{HJW : !Jwt.JwtLib} (jwt_config : Jwt.JWTConfig).

Definition bearer_prefix : string := "Bearer ".

(** [extractClaimsFromContext]. *)
Definition extractClaims (c : Ctx) (now : instant) : option Jwt.Claims :=
  let authHeader := Get c "Authorization" in
  if String.eqb authHeader EmptyString || negb (HasPrefix authHeader bearer_prefix) then None
  else match Jwt.ValidateAccessToken jwt_config (TrimPrefix authHeader bearer_prefix) now with
       | Ok claims => Some claims
       | Err _ => None
       end.

(** [now 0] is the clock of the token library, [now 1] the one of the grace period,
    [now 2] the one of the verification that a token carries.  The service is
    changed by the question about the status. *)
Definition MFAMiddleware (config : MFAMiddlewareConfig) (now : nat → instant) (c : Ctx) (tr : log) (sv : Mfa.MFAService)
    : option herr * log * Mfa.MFAService :=
  if existsb (HasPrefix (c_Path c)) (mm_SkipPaths config) then (Next c tr, sv)
  else match extractClaims c (now 0%nat) with
  | None => (Next c tr, sv)
  | Some claims =>
      let required := mm_EnableForAllUsers config || isMFARequiredPath (c_Path c) (mm_RequiredPaths config) in
      match Mfa.GetUserMFAStatus (Jwt.UserID claims) sv with
      | (Err _, sv) => (if required then reply 401 tr else Next c tr, sv)
      | (Ok userMFA, sv) =>
          if negb (Mfa.mu_Enabled userMFA) then
            (if (mm_GracePeriod config <? time_sub (now 1%nat) (Mfa.mu_CreatedAt userMFA)) || required
             then reply 401 tr else Next c tr, sv)
          else if bool_decide (Locals c tr "mfa_verified" = Some (LBool true)) then (Next c tr, sv)
          else if Jwt.MFAVerified claims && match Jwt.MFAVerifiedAt claims with
                                            | Some t => time_sub (now 2%nat) t <? 24 * hour
                                            | None => false end
          then (Next c (set_local "mfa_verified" (LBool true) tr), sv)
          else (reply 401 tr, sv)
      end
  end.

(** *** The handlers: [body] is the method that the body of the request names, if it
    can be parsed. *)

Section handlers.
Context {S : Type} `{HFS : !GoFS.FileSystem S} `{HCO : !GoFS.Codec (gmap string Mfa.saved_user)} `{HTO : !Mfa.TotpLib}.

(** [c.JSON] keeps the status. *)
Definition json (tr : log) : option herr * log := reply (StatusCode tr) tr.

Definition answer (r : option herr * log) (sv : Mfa.MFAService) (s : S) : option herr * log * Mfa.MFAService * S := (r, sv, s).

(** The QR image decides the content type of the answer only. *)
Definition handleMFASetup (body : option string) (draws : list Mfa.code_draw) (rand : option (list Z)) (now : nat → instant)
    (claims : Jwt.Claims) (tr : log) (sv : Mfa.MFAService) (s : S) : option herr * log * Mfa.MFAService * S :=
  match body with
  | None => answer (reply 400 tr) sv s
  | Some method =>
      if String.eqb method Mfa.MethodTOTP || String.eqb method EmptyString then
        match Mfa.EnableMFA draws now (Jwt.UserID claims) (Jwt.Email claims) sv s with
        | (Err _, sv, s) => answer (reply 400 tr) sv s
        | (Ok _, sv, s) =>
            match Mfa.SetupTOTP rand (λ i, now (2 + i)%nat) (Jwt.UserID claims) sv s with
            | (Err _, sv, s) => answer (reply 500 tr) sv s
            | (Ok _, sv, s) => answer (json tr) sv s
            end
        end
      else answer (reply 400 tr) sv s
  end.

Definition handleMFAStatus (claims : Jwt.Claims) (tr : log) (sv : Mfa.MFAService) (s : S) : option herr * log * Mfa.MFAService * S :=
  answer (json tr) (Mfa.GetUserMFAStatus (Jwt.UserID claims) sv).2 s.

Definition handleMFADisable (now : nat → instant) (claims : Jwt.Claims) (tr : log) (sv : Mfa.MFAService) (s : S)
    : option herr * log * Mfa.MFAService * S :=
  match Mfa.DisableMFA now (Jwt.UserID claims) sv s with
  | (Some _, sv, s) => answer (reply 500 tr) sv s
  | (None, sv, s) => answer (json tr) sv s
  end.

Definition MFASetupHandler (body : option string) (draws : list Mfa.code_draw) (rand : option (list Z)) (now : nat → instant)
    (c : Ctx) (tr : log) (sv : Mfa.MFAService) (s : S) : option herr * log * Mfa.MFAService * S :=
  match extractClaims c (now 0%nat) with
  | None => answer (reply 401 tr) sv s
  | Some claims =>
      let now := λ i, now (1 + i)%nat in
      if String.eqb (c_Method c) "POST" then handleMFASetup body draws rand now claims tr sv s
      else if String.eqb (c_Method c) "GET" then handleMFAStatus claims tr sv s
      else if String.eqb (c_Method c) "DELETE" then handleMFADisable now claims tr sv s
      else answer (reply 405 tr) sv s
  end.

Definition handleChallengeStart (body : option string) (order : list string) (rid : option string) (rcode : option (list Z))
    (now : nat → instant) (claims : Jwt.Claims) (tr : log) (sv : Mfa.MFAService) (s : S) : option herr * log * Mfa.MFAService * S :=
  match body with
  | None => answer (reply 400 tr) sv s
  | Some m =>
      let method := if String.eqb m EmptyString then Mfa.MethodTOTP else m in
      match Mfa.StartMFAChallenge order rid rcode now (Jwt.UserID claims) method sv with
      | (Err _, sv) => answer (reply 400 tr) sv s
      | (Ok _, sv) => answer (json tr) sv s
      end
  end.

Definition MFAChallengeHandler (body : option string) (order : list string) (rid : option string) (rcode : option (list Z))
    (now : nat → instant) (c : Ctx) (tr : log) (sv : Mfa.MFAService) (s : S) : option herr * log * Mfa.MFAService * S :=
  match extractClaims c (now 0%nat) with
  | None => answer (reply 401 tr) sv s
  | Some claims =>
      if String.eqb (c_Method c) "POST" then handleChallengeStart body order rid rcode (λ i, now (1 + i)%nat) claims tr sv s
      else answer (reply 405 tr) sv s
  end.

(** The body names a challenge and a code; a panic is left to the recovery. *)
Definition handleChallengeVerify (body : option (string * string)) (now : nat → instant) (tr : log) (sv : Mfa.MFAService) (s : S)
    : option herr * log * Mfa.MFAService * S :=
  match body with
  | None => answer (reply 400 tr) sv s
  | Some (challengeID, code) =>
      if String.eqb challengeID EmptyString || String.eqb code EmptyString then answer (reply 400 tr) sv s
      else match Mfa.VerifyMFAChallenge now challengeID code sv s with
      | (Some Mfa.Panic, sv, s) => answer (Some (OtherErr "panic"), tr) sv s
      | (Some _, sv, s) => answer (reply 401 tr) sv s
      | (None, sv, s) =>
          answer (json (set_local "mfa_verified_at" (LTime (now 5%nat)) (set_local "mfa_verified" (LBool true) tr))) sv s
      end
  end.

Definition MFAVerifyHandler (body : option (string * string)) (now : nat → instant) (c : Ctx) (tr : log)
    (sv : Mfa.MFAService) (s : S) : option herr * log * Mfa.MFAService * S :=
  if String.eqb (c_Method c) "POST" then handleChallengeVerify body now tr sv s
  else answer (reply 405 tr) sv s.

(** *** Sequences of requests *)

Inductive mfa_call :=
| CSetup (body : option string) (draws : list Mfa.code_draw) (rand : option (list Z)) (now : nat → instant) (c : Ctx)
| CChallenge (body : option string) (order : list string) (rid : option string) (rcode : option (list Z)) (now : nat → instant) (c : Ctx)
| CVerify (body : option (string * string)) (now : nat → instant) (c : Ctx)
| CMiddleware (config : MFAMiddlewareConfig) (now : nat → instant) (c : Ctx).

Definition serve (call : mfa_call) (st : Mfa.MFAService * S) : Mfa.MFAService * S :=
  let '(sv, s) := st in
  match call with
  | CSetup body draws rand now c => let '(_, sv, s) := MFASetupHandler body draws rand now c [] sv s in (sv, s)
  | CChallenge body order rid rcode now c => let '(_, sv, s) := MFAChallengeHandler body order rid rcode now c [] sv s in (sv, s)
  | CVerify body now c => let '(_, sv, s) := MFAVerifyHandler body now c [] sv s in (sv, s)
  | CMiddleware config now c => ((MFAMiddleware config now c [] sv).2, s)
  end.

Definition serve_all (calls : list mfa_call) (st : Mfa.MFAService * S) : Mfa.MFAService * S :=
  foldl (λ st call, serve call st) st calls.

(** No user is enabled, and no challenge is open. *)
Definition nobody_enabled (sv : Mfa.MFAService) : Prop :=
  Mfa.challenges sv = ∅ ∧ ∀ i u, Mfa.users sv !! i = Some u → Mfa.mu_Enabled u = false.

Lemma nobody_enabled_user sv sv' i u' :
  nobody_enabled sv → Mfa.mu_Enabled u' = false → Mfa.users sv' = <[i := u']> (Mfa.users sv) →
  Mfa.challenges sv' = Mfa.challenges sv → nobody_enabled sv'.
Proof.
  intros [H1 H2] Hu Hus Hc. unfold nobody_enabled. rewrite Hus, Hc. split; [done|].
  intros j v [[_ <-]|[_ ?]]%lookup_insert_Some; eauto.
Qed.

Lemma EnableMFA_nobody draws now i email sv s :
  nobody_enabled sv → nobody_enabled (Mfa.EnableMFA draws now i email sv s).1.2.
Proof.
  intros H. unfold Mfa.EnableMFA. destruct (match Mfa.users sv !! i with Some u => Mfa.mu_Enabled u | None => false end); [done|].
  unfold Mfa.new_map. cbv zeta iota beta. set (u := Mfa.new_user _ _ _ _ _ _). set (sv1 := Mfa.set_users _ _).
  assert (nobody_enabled sv1) as H1 by (apply (nobody_enabled_user sv sv1 i u); [exact H|reflexivity|reflexivity|reflexivity]).
  destruct (Mfa.saveUsers sv1 s) as [[e|] s1]; [|exact H1]. destruct H1 as [Ha Hb]. split; [done|].
  intros j v Hv. apply (Hb j v). cbn in Hv. by apply lookup_delete_Some in Hv as [_ ?].
Qed.

Lemma SetupTOTP_nobody rand now i sv s : nobody_enabled sv → nobody_enabled (Mfa.SetupTOTP rand now i sv s).1.2.
Proof.
  intros H. unfold Mfa.SetupTOTP. destruct (Mfa.users sv !! i) as [u|] eqn:E; [|done].
  destruct (Mfa.generateTOTPSecret rand); [|done]. cbv zeta.
  destruct (Mfa.saveUsers _ s) as [[e|] s1]; (eapply (nobody_enabled_user sv); [done| |done..]; exact (proj2 H i u E)).
Qed.

Lemma StartMFAChallenge_nobody order rid rcode now i p sv :
  nobody_enabled sv → Mfa.StartMFAChallenge order rid rcode now i p sv = (Err Mfa.NotEnabled, sv).
Proof.
  intros [_ H]. unfold Mfa.StartMFAChallenge. destruct (Mfa.users sv !! i) as [u|] eqn:E; [|done]. by rewrite (H i u E).
Qed.

Lemma status_nobody i sv : nobody_enabled sv → nobody_enabled (Mfa.GetUserMFAStatus i sv).2.
Proof. intros [H1 H2]. unfold Mfa.GetUserMFAStatus. by destruct (Mfa.users sv !! i). Qed.

Lemma MFAMiddleware_service config now c tr sv :
  (MFAMiddleware config now c tr sv).2 = sv ∨ ∃ uid, (MFAMiddleware config now c tr sv).2 = (Mfa.GetUserMFAStatus uid sv).2.
Proof.
  unfold MFAMiddleware. destruct (existsb _ _); [by left|]. destruct (extractClaims c _) as [claims|]; [|by left].
  right. exists (Jwt.UserID claims). destruct (Mfa.GetUserMFAStatus _ sv) as [[u|e] sv']; [|done].
  destruct (negb _); [done|]. destruct (bool_decide _); [done|]. by destruct (Jwt.MFAVerified claims && _).
Qed.

Lemma serve_nobody call sv s : nobody_enabled sv → nobody_enabled (serve call (sv, s)).1.
Proof.
  intros H. destruct call as [body draws rand now c|body order rid rcode now c|body now c|config now c]; cbn [serve].
  - unfold MFASetupHandler. destruct (extractClaims c (now 0%nat)) as [cl|]; [|done]. cbv zeta.
    destruct (String.eqb _ "POST"); [|destruct (String.eqb _ "GET"); [by apply (status_nobody (Jwt.UserID cl))|destruct (String.eqb _ "DELETE"); [|done]]].
    + unfold handleMFASetup. destruct body as [m|]; [|done]. destruct (_ || _); [|done].
      pose proof (EnableMFA_nobody draws (λ i, now (1 + i)%nat) (Jwt.UserID cl) (Jwt.Email cl) sv s H) as H1.
      destruct (Mfa.EnableMFA _ _ _ _ sv s) as [[[u|e] sv1] s1]; [|done]. cbn in H1.
      pose proof (SetupTOTP_nobody rand (λ i, now (1 + (2 + i))%nat) (Jwt.UserID cl) sv1 s1 H1) as H2.
      by destruct (Mfa.SetupTOTP _ _ _ sv1 s1) as [[[x|e] sv2] s2].
    + unfold handleMFADisable, Mfa.DisableMFA. destruct (Mfa.users sv !! Jwt.UserID cl) as [u|] eqn:E; [|done]. cbv zeta.
      destruct (Mfa.saveUsers _ s) as [[e|] s1]; (eapply (nobody_enabled_user sv); [exact H| |reflexivity..]; done).
  - unfold MFAChallengeHandler. destruct (extractClaims c (now 0%nat)) as [cl|]; [|done].
    destruct (String.eqb _ "POST"); [|done]. unfold handleChallengeStart. destruct body as [m|]; [|done]. cbv zeta.
    by rewrite StartMFAChallenge_nobody.
  - unfold MFAVerifyHandler. destruct (String.eqb _ "POST"); [|done]. unfold handleChallengeVerify.
    destruct body as [[id code]|]; [|done]. destruct (_ || _); [done|]. unfold Mfa.VerifyMFAChallenge.
    destruct H as [Hc H]. by rewrite Hc, lookup_empty.
  - cbn [fst]. destruct (MFAMiddleware_service config now c [] sv) as [-> |[uid ->]]; [done|by apply status_nobody].
Qed.

Lemma serve_all_nobody calls sv s : nobody_enabled sv → nobody_enabled (serve_all calls (sv, s)).1.
Proof.
  revert sv s. induction calls as [|call calls IH]; intros sv s H; [done|].
  change (serve_all (call :: calls) (sv, s)) with (serve_all calls (serve call (sv, s))).
  pose proof (serve_nobody call sv s H). destruct (serve call (sv, s)). by apply IH.
Qed.

(** Nothing that the handlers call verifies the set-up of a method, so that
    whatever requests are made, no user ever becomes enabled; once the grace period
    has passed, the middleware refuses every request of a user who started. *)
Theorem enrolment_never_completes calls cfg s0 config now c claims u :
  let '(sv, s) := serve_all calls (Mfa.mkService cfg ∅ ∅ ∅ 1%positive, s0) in
  existsb (HasPrefix (c_Path c)) (mm_SkipPaths config) = false → extractClaims c (now 0%nat) = Some claims →
  Mfa.users sv !! Jwt.UserID claims = Some u → mm_GracePeriod config < time_sub (now 1%nat) (Mfa.mu_CreatedAt u) →
  Mfa.mu_Enabled u = false ∧ (MFAMiddleware config now c [] sv).1 = reply 401 [].
Proof.
  assert (nobody_enabled (Mfa.mkService cfg ∅ ∅ ∅ 1%positive)) as H0 by (by split).
  pose proof (serve_all_nobody calls _ s0 H0) as H. destruct (serve_all _ _) as [sv s]. destruct H as [_ H].
  intros Hskip Hcl Hu Hg. pose proof (H _ _ Hu) as He. split; [done|].
  unfold MFAMiddleware. rewrite Hskip, Hcl. unfold Mfa.GetUserMFAStatus. rewrite Hu.
  cbn [Mfa.with_codes Mfa.mu_Enabled Mfa.mu_CreatedAt]. rewrite He. cbn [negb].
  by rewrite (proj2 (Z.ltb_lt _ _) Hg).
Qed.

(** The middleware asks for the status of the user of each request: once a
    request of a user has passed by, no code of the user's authenticator is
    accepted any more, until the user is set up anew. *)
Theorem middleware_destroys_secret config now c claims sv s u st os id ch now' code :
  existsb (HasPrefix (c_Path c)) (mm_SkipPaths config) = false → extractClaims c (now 0%nat) = Some claims →
  Mfa.refs_ok sv → Mfa.users sv !! Jwt.UserID claims = Some u → Mfa.methods u sv !! Mfa.MethodTOTP = Some st →
  Mfa.ms_Secret st ≠ EmptyString → Forall (λ o, Mfa.sets_up (Jwt.UserID claims) o = false) os →
  let '(sv', s') := Mfa.steps os ((MFAMiddleware config now c [] sv).2, s) in
  Mfa.challenges sv' !! id = Some ch → Mfa.mc_UserID ch = Jwt.UserID claims → Mfa.mc_Method ch = Mfa.MethodTOTP →
  ∃ e, (Mfa.VerifyMFAChallenge now' id code sv' s').1.1 = Some e.
Proof.
  intros Hskip Hcl Hr Hu Hst Hne Hos.
  assert ((MFAMiddleware config now c [] sv).2 = (Mfa.GetUserMFAStatus (Jwt.UserID claims) sv).2) as ->.
  { unfold MFAMiddleware. rewrite Hskip, Hcl. unfold Mfa.GetUserMFAStatus. rewrite Hu.
    destruct (negb _); [done|]. destruct (bool_decide _); [done|]. by destruct (Jwt.MFAVerified claims && _). }
  pose proof (Mfa.masked_forever sv s (Jwt.UserID claims) u st os now' code Hr Hu Hst Hne Hos) as H.
  destruct (Mfa.steps os _) as [sv' s']. intros Hch Hid Hm. by eapply (proj1 H).
Qed.
End handlers.

(** ** Theorems *)

Lemma split_two_inv sep s a b : split_two sep s = (a, Some b) → s = a +:+ String sep b ∧ str_all (not_char sep) a = true.
Proof.
  revert a. induction s as [|c s IH]; intros a; cbn [split_two]; [done|].
  destruct (Ascii.eqb_spec c sep) as [->|Hc]; [by intros [= <- <-]|].
  destruct (split_two sep s) as [a' b'] eqn:E. intros [= <- ->]. destruct (IH a' eq_refl) as [-> Ha].
  split; [done|]. cbn [str_all]. rewrite Ha. unfold not_char. by apply Ascii.eqb_neq in Hc as ->.
Qed.

Lemma prefix_drop p s : HasPrefix s p = true → s = p +:+ drop_bytes (String.length p) s.
Proof.
  unfold HasPrefix. intros [t ->]%prefix_split. f_equal. induction p as [|c p IH]; [by destruct t|]. exact IH.
Qed.

(** Basic authentication lets a request through exactly when its header is the
    encoding of a known user, without a colon, and the password of that user. *)
Theorem BasicAuth_iff config c :
  reached (BasicAuthMiddleware config c []).2 = true ↔
  ∃ payload username password, Get c "Authorization" = basic_prefix +:+ payload ∧
    DecodeString StdEncoding payload = Some (username +:+ String ":" password) ∧
    str_all (not_char ":") username = true ∧ ba_Users config !! username = Some password.
Proof.
  unfold BasicAuthMiddleware, unauthorized. cbv zeta. split.
  - destruct (String.eqb_spec (Get c "Authorization") EmptyString); [done|].
    destruct (HasPrefix (Get c "Authorization") basic_prefix) eqn:Ep; [|done]. apply prefix_drop in Ep.
    change (String.length basic_prefix) with 6%nat in Ep. cbn [negb].
    destruct (DecodeString StdEncoding _) as [cred|] eqn:Ed; [|done].
    destruct (split_two ":" cred) as [u [p|]] eqn:Es; [|done]. apply split_two_inv in Es as [-> Hu].
    destruct (ba_Users config !! u) as [e|] eqn:Eu; [|done].
    destruct (String.eqb_spec p e) as [->|]; [|done]. intros _. eauto 10.
  - intros (payload & u & p & Hg & Hd & Hu & Hp). rewrite Hg.
    assert (HasPrefix (basic_prefix +:+ payload) basic_prefix = true) as -> by apply prefix_app.
    assert (String.eqb (basic_prefix +:+ payload) EmptyString = false) as -> by done.
    change (drop_bytes 6 (basic_prefix +:+ payload)) with (drop_bytes 0 payload). cbn [negb].
    assert (drop_bytes 0 payload = payload) as -> by (by destruct payload).
    rewrite Hd, split_two_app by done. rewrite Hp, String.eqb_refl. apply Next_reached.
Qed.

(** Administrators only, with a token: the handlers behind the middleware run
    for any valid token, whatever its roles; a user without the role [admin] is
    answered 403 after they have run. *)
Theorem admin_checked_after_handler config now1 now2 c tok claims :
  existsb (HasPrefix (c_Path c)) (jc_SkipPaths config) = false →
  Get c "Authorization" = "Bearer " +:+ tok →
  hs_Parse tok (hmac_key (jc_SecretKey (with_defaults config)) ) now1 = Some claims → jwt_expired claims now2 = false →
  let r := AdminOnlyMiddlewareWithJWT config now1 now2 c [] in
  reached r.2 = true ∧
  (existsb (λ role, String.eqb role "admin") (jl_Roles claims) = false → after c (store_claims claims []) = ([], None) →
   r = (None, store_claims claims [] ++ [CallNext; Reply 403])).
Proof.
  intros Hskip Hg Hp He. cbv zeta. unfold AdminOnlyMiddlewareWithJWT, JWTMiddleware. cbv zeta.
  change (jc_SkipPaths (with_defaults config)) with (jc_SkipPaths config). rewrite Hskip, Hg.
  assert (String.eqb ("Bearer " +:+ tok) EmptyString = false) as -> by done.
  change ("Bearer " +:+ tok) with ("Bearer" +:+ String " " tok). rewrite split_two_app by done.
  rewrite String.eqb_refl. cbn [negb]. rewrite Hp, He.
  unfold Next. destruct (after c (store_claims claims [])) as [acts e]. split.
  - destruct e as [e|]; cbn [snd]; [rewrite reached_app; cbn; by rewrite orb_true_r|].
    assert (∀ tr, reached tr = true → reached (AdminOnlyMiddleware c tr).2 = true) as Hm.
    { intros tr Htr. unfold AdminOnlyMiddleware. destruct (GetUserFromContext c tr) as [[[??] roles]|]; [|by rewrite reply_reached].
      destruct (existsb _ roles); [apply Next_reached|by rewrite reply_reached]. }
    apply Hm. rewrite reached_app. cbn. by rewrite orb_true_r.
  - intros Hr [= -> ->]. unfold AdminOnlyMiddleware.
    assert (∀ k v, Locals c (store_claims claims []) k = Some v → Locals c (store_claims claims [] ++ [CallNext]) k = Some v) as Hl.
    { intros k v. unfold Locals. by rewrite rev_app_distr. }
    unfold GetUserFromContext. rewrite (Hl "user_id" (LStr (jl_UserID claims))), (Hl "username" (LStr (jl_Username claims))),
      (Hl "roles" (LStrs (jl_Roles claims))) by (unfold store_claims; by rewrite !Locals_set).
    rewrite Hr. unfold reply. by rewrite <- app_assoc.
Qed.

(** Put one after the other, the two checks do hold the handlers back: behind
    the token check, a request goes on exactly when its claims have the role. *)
Theorem AdminOnly_iff c tr :
  reached tr = false →
  (reached (AdminOnlyMiddleware c tr).2 = true ↔
   ∃ id name roles, Locals c tr "user_id" = Some (LStr id) ∧ Locals c tr "username" = Some (LStr name) ∧
     Locals c tr "roles" = Some (LStrs roles) ∧ "admin"%string ∈ roles).
Proof.
  intros Ht. unfold AdminOnlyMiddleware, GetUserFromContext. split.
  - destruct (Locals c tr "user_id") as [[id|?|?|?|]|]; try (by rewrite reply_reached, Ht).
    destruct (Locals c tr "username") as [[name|?|?|?|]|]; try (by rewrite reply_reached, Ht).
    destruct (Locals c tr "roles") as [[?|?|roles|?|]|]; try (by rewrite reply_reached, Ht).
    destruct (existsb _ roles) eqn:E; [|by rewrite reply_reached, Ht]. intros _.
    apply existsb_exists in E as (r & Hr & ->%String.eqb_eq). exists id, name, roles. split_and!; try done.
    by apply list_elem_of_In.
  - intros (id & name & roles & -> & -> & -> & Hr).
    assert (existsb (λ role, String.eqb role "admin") roles = true) as -> by (apply existsb_exists; exists "admin"%string; by rewrite <- list_elem_of_In).
    apply Next_reached.
Qed.

Definition with_headers (hs : gmap string string) (c : Ctx) : Ctx :=
  mkCtx (c_IP c) (c_Method c) (c_Path c) hs (c_Params c) (c_Queries c) (c_QueryString c) (c_QueryArgs c) (c_ArgsString c)
    (c_ContentLength c) (c_Body c) (c_Locals c).

(** The authentication middleware looks for its token among the locals of the
    context, not among the headers: with authentication required, a request without
    the query parameter is refused whatever Authorization header it carries. *)
Theorem authorization_header_ignored config svc next c tr hs :
  ma_Enabled config = true → as_IsEnabled svc = true → ma_RequireAuth config = true →
  shouldSkipPath (ma_SkipPaths config) (c_Path c) = false → Query c "api_key" = EmptyString →
  Locals c tr "Authorization" = None → Locals c tr "X-API-Key" = None →
  AuthHandler config (Some svc) next (with_headers hs c) tr = reply 401 tr.
Proof.
  intros He Hs Hr Hp Hq Ha Hx. unfold AuthHandler. change (c_Path (with_headers hs c)) with (c_Path c).
  rewrite Hp, He, Hs. cbn [negb orb]. unfold extractToken.
  change (Locals (with_headers hs c) tr) with (Locals c tr). change (Query (with_headers hs c)) with (Query c).
  rewrite Ha, Hx, Hq. cbn [String.eqb]. by rewrite Hr.
Qed.

(** A legacy permission check lets a request through exactly when the
    permissions of its user, or the default ones, contain the one its method needs. *)
Theorem LegacyPermission_iff config c tr :
  reached tr = false →
  let username := match Locals c tr "username" with Some (LStr u) => u | _ => EmptyString end in
  let permission := if String.eqb username EmptyString then pc_DefaultPermission config
                    else default (pc_DefaultPermission config) (pc_UserPermissions config !! username) in
  reached (LegacyPermissionMiddleware config c tr).2 = true ↔
  Z.land permission (getRequiredPermission (c_Method c)) ≠ 0.
Proof.
  intros Ht. cbv zeta. unfold LegacyPermissionMiddleware, hasPermission.
  set (username := match Locals c tr "username" with Some (LStr u) => u | _ => EmptyString end). cbv zeta.
  destruct (String.eqb username EmptyString); rewrite negb_involutive;
    match goal with |- context [Z.land ?p ?q =? 0] => destruct (Z.eqb_spec (Z.land p q) 0) as [E|E] end; rewrite ?reply_reached, ?Ht, ?Next_reached; done.
Qed.

(** The pattern that should protect uploads matches none: with the default
    configuration, no path without an empty component asks for multi-factor
    authentication, except the administrators' ones. *)
Theorem upload_never_requires_mfa path :
  Contains path "//" = false → HasPrefix path "/admin" = false →
  isMFARequiredPath path (mm_RequiredPaths DefaultMFAMiddlewareConfig) = false.
Proof.
  intros Hc Hp. unfold isMFARequiredPath. cbn [mm_RequiredPaths DefaultMFAMiddlewareConfig existsb].
  change (Contains "/admin" "*") with false. change (Contains "/proxy/*/upload" "*") with true. cbv iota. rewrite Hp.
  change (ReplaceAll "/proxy/*/upload" "*" EmptyString) with ("/proxy//upload"%string). cbn [orb]. rewrite orb_false_r.
  destruct (Contains path "/proxy//upload") eqn:E; [|done]. exfalso.
  apply Contains_spec in E as (a & b & ->). assert (Contains (a +:+ ("/proxy//upload" +:+ b)) "//" = true) as H; [|congruence].
  apply Contains_spec. exists (a +:+ "/proxy"), ("upload" +:+ b). by rewrite str_app_assoc.
Qed.
End middleware.

(** ** The chain that is built ([factory.go]) *)

Section factory.

(** What a middleware does around the next handler, by its name. *)
Context (process : string → handler → handler).

(** Which parts are configured, with their switch where they have one. *)
Record MiddlewareConfig := mkMwConfig {
  mf_Recovery : option bool;
  mf_Auth : option bool;
  mf_Permission : option bool;
  mf_RateLimit : bool;
  mf_RequestID : option bool;
  mf_Logging : option bool;
  mf_Metrics : option bool;
  mf_Tracing : option bool
}.

(** The services are there or nil. *)
Record MiddlewareFactory := mkFactory {
  mf_config : MiddlewareConfig;
  mf_authService : bool;
  mf_permService : bool;
  mf_rateLimiter : bool
}.

(** [initializeServices] leaves the three services nil. *)
Definition NewMiddlewareFactory (config : MiddlewareConfig) : MiddlewareFactory := mkFactory config false false false.

Definition create (name : string) (order : Z) : EnhancedMiddleware := mkMiddleware (process name) order name true.

Definition OrderRecovery : Z := 10.
Definition OrderAuth : Z := 20.
Definition OrderPermission : Z := 30.
Definition OrderRateLimit : Z := 40.
Definition OrderRequestID : Z := 50.
Definition OrderLogging : Z := 60.
Definition OrderMetrics : Z := 70.
Definition OrderTracing : Z := 80.

Definition on (o : option bool) : bool := default false o.
Definition add_if (b : bool) (name : string) (order : Z) (c : MiddlewareChain) : MiddlewareChain :=
  if b then Add (create name order) c else c.

Definition BuildMiddlewareChain (f : MiddlewareFactory) : MiddlewareChain :=
  let cfg := mf_config f in
  let c := add_if (on (mf_Recovery cfg)) "recovery" OrderRecovery [] in
  let c := add_if (on (mf_Auth cfg) && mf_authService f) "auth" OrderAuth c in
  let c := add_if (on (mf_Permission cfg) && mf_permService f) "permission" OrderPermission c in
  let c := add_if (mf_RateLimit cfg && mf_rateLimiter f) "rate_limit" OrderRateLimit c in
  let c := add_if (on (mf_RequestID cfg)) "request_id" OrderRequestID c in
  let c := add_if (on (mf_Logging cfg)) "logging" OrderLogging c in
  let c := add_if (on (mf_Metrics cfg)) "metrics" OrderMetrics c in
  add_if (on (mf_Tracing cfg)) "tracing" OrderTracing c.

Definition BuildFiberHandlers `{!Chain} (f : MiddlewareFactory) : list handler := adaptToFiberHandler <$> BuildMiddlewareChain f.

Lemma add_if_sorted b name order c : orders_sorted c → orders_sorted (add_if b name order c).
Proof. destruct b; [|done]. apply Add_sorted. Qed.

(** A chain runs its parts by their order, whatever is configured; but the
    factory has no service for authentication, permissions or rate limits, and
    leaves these three out even when the configuration asks for them. *)
Theorem factory_leaves_out_auth cfg :
  let c := BuildMiddlewareChain (NewMiddlewareFactory cfg) in
  orders_sorted c ∧
  mw_Name <$> c = (if on (mf_Recovery cfg) then ["recovery"%string] else []) ++ (if on (mf_RequestID cfg) then ["request_id"%string] else [])
    ++ (if on (mf_Logging cfg) then ["logging"%string] else []) ++ (if on (mf_Metrics cfg) then ["metrics"%string] else [])
    ++ (if on (mf_Tracing cfg) then ["tracing"%string] else []).
Proof.
  cbv zeta. split; [by repeat apply add_if_sorted; constructor|].
  unfold BuildMiddlewareChain, NewMiddlewareFactory. cbn [mf_config mf_authService mf_permService mf_rateLimiter].
  rewrite !andb_false_r.
  destruct (on (mf_Recovery cfg)), (on (mf_RequestID cfg)), (on (mf_Logging cfg)), (on (mf_Metrics cfg)), (on (mf_Tracing cfg));
    reflexivity.
Qed.
End factory.

(** ** Witnesses *)

#[local] Existing Instances quiet Jwt.toy_lib Mfa.demo_totp Mfa.demo_codec GoFS.mem_fs.

Definition demo_request (method path : string) (headers : gmap string string) (locals : gmap string lval) : Ctx :=
  mkCtx "192.0.2.1" method path headers ∅ ∅ EmptyString [] EmptyString 0 EmptyString locals.

(** A library that knows one token, signed with the configured key. *)
Definition demo_claims : JWTClaims := mkJWTClaims "u1" "ann" ["viewer"] 100 200 None "proxynd" "u1".
Definition demo_parse (tok : string) (kf : string → option string) : option JWTClaims :=
  match kf "HS256"%string with
  | Some key => if String.eqb tok "t" && String.eqb key "k" then Some demo_claims else None
  | None => None
  end.
#[local] Instance demo_hs : JwtHs.
Proof.
  refine {| hs_Parse tok kf now := demo_parse tok kf; hs_Sign _ _ _ := None;
    hs_signed tok alg key c := tok = "t"%string ∧ alg = "HS256"%string ∧ key = "k"%string ∧ c = demo_claims |}.
  unfold demo_parse. intros tok kf now c H. destruct (kf "HS256"%string) as [k|] eqn:E; [|done].
  destruct (String.eqb_spec tok "t") as [->|]; [|done]. destruct (String.eqb_spec k "k") as [->|]; [|done].
  injection H as <-. by exists "HS256"%string, "k"%string.
Defined.

Example BasicAuth_ex :
  reached (BasicAuthMiddleware (mkBasic {["ann"%string := "a:b"%string]} EmptyString)
    (demo_request "GET" "/" {["Authorization"%string := "Basic YW5uOmE6Yg=="%string]} ∅) []).2 = true.
Proof. vm_compute. reflexivity. Qed.

Definition demo_jwt_config : JWTConfig := mkJWTConfig "k" 0 EmptyString [].
Definition admin_request : Ctx := demo_request "DELETE" "/admin/pools" {["Authorization"%string := "Bearer t"%string]} ∅.

Lemma admin_checked_after_handler_witness :
  reached (AdminOnlyMiddlewareWithJWT demo_jwt_config 0 0 admin_request []).2 = true.
Proof.
  apply (admin_checked_after_handler demo_jwt_config 0 0 admin_request "t" demo_claims); vm_compute; reflexivity.
Defined.

Lemma AdminOnly_iff_witness :
  reached (AdminOnlyMiddleware admin_request (store_claims (mkJWTClaims "u2" "bob" ["admin"] 0 0 None EmptyString EmptyString) [])).2 = true.
Proof.
  apply (AdminOnly_iff admin_request (store_claims (mkJWTClaims "u2" "bob" ["admin"] 0 0 None EmptyString EmptyString) []) eq_refl).
  exists "u2"%string, "bob"%string, ["admin"%string]. split_and!; [reflexivity..|]. by apply list_elem_of_singleton.
Defined.

Lemma authorization_header_ignored_witness :
  AuthHandler (mkAuthConfig true [] true) (Some (mkAuthService true (λ _, Some (mkAuthClaims "u" "e" "r")))) Next
    (with_headers {["Authorization"%string := "Bearer good"%string]} (demo_request "GET" "/api" ∅ ∅)) [] = reply 401 [].
Proof. by apply authorization_header_ignored. Defined.

Lemma LegacyPermission_iff_witness :
  reached (LegacyPermissionMiddleware (mkPermConfig {["ann"%string := 3]} 1) (demo_request "DELETE" "/" ∅ {["username"%string := LStr "ann"]}) []).2
    = true → False.
Proof.
  intros H. pose proof (proj1 (LegacyPermission_iff (mkPermConfig {["ann"%string := 3]} 1)
    (demo_request "DELETE" "/" ∅ {["username"%string := LStr "ann"]}) [] eq_refl) H) as E. by apply E.
Defined.

Lemma upload_never_requires_mfa_witness :
  isMFARequiredPath "/proxy/npm/upload" (mm_RequiredPaths DefaultMFAMiddlewareConfig) = false.
Proof. by apply upload_never_requires_mfa. Defined.

(** A user of the token service asks for the set-up, and comes back nine days later. *)
Definition bearer_request (method path : string) : Ctx :=
  demo_request method path {["Authorization"%string := "Bearer "%string +:+ Jwt.AccessToken Jwt.demo_pair]} ∅.
Definition demo_calls : list mfa_call :=
  [CSetup (Some "totp"%string) [] (Some (seqZ 0 20)) (λ _, second * 200) (bearer_request "POST" "/auth/mfa/setup")].
Definition later : nat → instant := λ i, match i with O => second * 200 | _ => second * 200 + 9 * 24 * hour end.

Definition demo_served : Mfa.MFAService * GoFS.MemFS :=
  serve_all Jwt.demo_jwt demo_calls (Mfa.mkService Mfa.DefaultMFAConfig ∅ ∅ ∅ 1%positive, Mfa.demo_fs).

Lemma demo_extract path now : now = second * 200 →
  option_map Jwt.UserID (extractClaims Jwt.demo_jwt (bearer_request "GET" path) now) = Some "u1"%string.
Proof. intros ->. vm_compute. reflexivity. Qed.

Lemma enrolment_never_completes_witness :
  ∃ u, Mfa.users demo_served.1 !! "u1"%string = Some u ∧ Mfa.mu_Enabled u = false ∧
    (MFAMiddleware Jwt.demo_jwt DefaultMFAMiddlewareConfig later (bearer_request "GET" "/proxy/npm/x") [] demo_served.1).1 = reply 401 [].
Proof.
  assert (∃ u, Mfa.users demo_served.1 !! "u1"%string = Some u ∧ Mfa.mu_CreatedAt u = second * 200) as (u & Eu & Hu)
    by (eexists; split; vm_compute; reflexivity).
  exists u. split; [exact Eu|].
  pose proof (demo_extract "/proxy/npm/x" (later 0%nat) eq_refl) as Hid.
  destruct (extractClaims Jwt.demo_jwt (bearer_request "GET" "/proxy/npm/x") (later 0%nat)) as [claims|] eqn:Ec; [|discriminate Hid].
  injection Hid as Hid.
  pose proof (enrolment_never_completes Jwt.demo_jwt demo_calls Mfa.DefaultMFAConfig Mfa.demo_fs DefaultMFAMiddlewareConfig later
    (bearer_request "GET" "/proxy/npm/x") claims u) as H. fold demo_served in H.
  destruct demo_served as [sv s]. apply H; [reflexivity|exact Ec|by rewrite Hid|]. rewrite Hu. vm_compute. reflexivity.
Defined.

Definition secret_user : Mfa.MFAUserConfig := Mfa.new_user "u1" "u@x" 1%positive [] 0 0.
Definition secret_method : Mfa.MFASetup := Mfa.mkSetup Mfa.MethodTOTP "AAAA" EmptyString true true 0 None None.
Definition secret_service : Mfa.MFAService :=
  Mfa.mkService Mfa.DefaultMFAConfig {["u1"%string := Mfa.with_enabled true 0 secret_user]}
    {["ch"%string := Mfa.mkChallenge "ch" "u1" Mfa.MethodTOTP EmptyString 100 0 3 0 false None]}
    {[1%positive := {[Mfa.MethodTOTP := secret_method]}]} 2%positive.

Lemma middleware_destroys_secret_witness :
  (Mfa.VerifyMFAChallenge (λ _, 0) "ch" "123456" secret_service Mfa.demo_fs).1.1 = None ∧
  ∃ e, (Mfa.VerifyMFAChallenge (λ _, 0) "ch" "123456"
    (MFAMiddleware Jwt.demo_jwt DefaultMFAMiddlewareConfig later (bearer_request "GET" "/proxy/npm/x") [] secret_service).2 Mfa.demo_fs).1.1 = Some e.
Proof.
  split; [vm_compute; reflexivity|].
  pose proof (demo_extract "/proxy/npm/x" (later 0%nat) eq_refl) as Hid.
  destruct (extractClaims Jwt.demo_jwt (bearer_request "GET" "/proxy/npm/x") (later 0%nat)) as [claims|] eqn:Ec; [|discriminate Hid].
  injection Hid as Hid.
  pose proof (middleware_destroys_secret Jwt.demo_jwt DefaultMFAMiddlewareConfig later (bearer_request "GET" "/proxy/npm/x") claims
    secret_service Mfa.demo_fs (Mfa.with_enabled true 0 secret_user) secret_method [] "ch"
    (Mfa.mkChallenge "ch" "u1" Mfa.MethodTOTP EmptyString 100 0 3 0 false None) (λ _, 0) "123456") as H.
  rewrite Hid in H. apply H; [reflexivity|exact Ec| |reflexivity|vm_compute; reflexivity|discriminate|constructor|reflexivity..].
  unfold Mfa.refs_ok, secret_service. cbn [Mfa.users Mfa.next_ref]. split.
  - intros i u [<- <-]%lookup_singleton_Some. reflexivity.
  - by intros i j u v [<- _]%lookup_singleton_Some [<- _]%lookup_singleton_Some _.
Defined.
