(* ===== verification/HttpLimits.v ===== *)
(** * HttpLimits: who may come in, and how often

    Models, under [src/internal/adapters/http/fiber/middleware]: [rate_limiter.go],
    [enhanced_rate_limiter.go], [rate_limit_middleware.go], [ip_filter.go],
    [http_method_validator.go], and the address checks of [input_validation.go].
    A limiter is shared by the requests, and each call on it is a critical section:
    handlers take it and give it back.  The library behind the enhanced limiter is
    the class [LimiterLib].  Logging is left out. *)

From Stdlib Require Import Ascii.
From S2P Require Import Prelude GoStrings GoText GoNet Fiber.
From S2P Require RateLimit.

(** ** The limiter by address ([rate_limiter.go]) *)

Record RateLimiter := mkLimiter { requests : gmap string (list instant); limit : Z; window : duration }.

Record RateLimitConfig := mkRlConfig {
  RequestsPerWindow : Z;
  WindowSize : duration;
  SkipSuccessful : bool;
  TrustedProxies : list string
}.

Definition localhost : list string := ["127.0.0.1"; "::1"].
Definition DefaultRateLimitConfig : RateLimitConfig := mkRlConfig 60 minute false localhost.
Definition StrictRateLimitConfig : RateLimitConfig := mkRlConfig 30 minute false localhost.

Definition NewRateLimiter (config : RateLimitConfig) : RateLimiter := mkLimiter ∅ (RequestsPerWindow config) (WindowSize config).

Definition times_of (ip : string) (rl : RateLimiter) : list instant := default [] (requests rl !! ip).
Definition set_times (ip : string) (ts : list instant) (rl : RateLimiter) : RateLimiter :=
  mkLimiter (<[ip := ts]> (requests rl)) (limit rl) (window rl).

(** The requests within the window. *)
Definition valid_times (now : instant) (w : duration) (ts : list instant) : list instant :=
  filter (λ t, time_sub now t < w) ts.

(** One tick of [cleanup]. *)
Definition cleanup (now : instant) (rl : RateLimiter) : RateLimiter :=
  mkLimiter (omap (λ ts, match valid_times now (window rl) ts with [] => None | v => Some v end) (requests rl))
    (limit rl) (window rl).

(** [isAllowed]: [None] is the index out of range when the limit is not positive
    and no request is in the window. *)
Definition isAllowed (now : instant) (ip : string) (rl : RateLimiter) : option (bool * Z * instant * RateLimiter) :=
  let validTimes := valid_times now (window rl) (times_of ip rl) in
  let n := Z.of_nat (length validTimes) in
  if limit rl <=? n then
    match validTimes with
    | [] => None
    | oldestRequest :: _ => Some (false, n, time_add oldestRequest (window rl), rl)
    end
  else Some (true, n + 1, zero_time, set_times ip (validTimes ++ [now]) rl).

(** The text up to the length of the header: all of it. *)
Definition first_forwarded (forwardedFor : string) : string := take_bytes (String.length forwardedFor) forwardedFor.

Definition getClientIP (c : Ctx) (trustedProxies : list string) : string :=
  let forwardedFor := Get c "X-Forwarded-For" in
  if negb (String.eqb forwardedFor EmptyString) && existsb (String.eqb (c_IP c)) trustedProxies
  then first_forwarded forwardedFor
  else
    let realIP := Get c "X-Real-IP" in
    if negb (String.eqb realIP EmptyString) then realIP else c_IP c.

Section limits.
Context `{HCH : !Chain}.

Definition limit_headers (cfg : RateLimitConfig) (remaining reset : Z) (tr : log) : log :=
  set_header "X-RateLimit-Reset" (Itoa reset) (set_header "X-RateLimit-Remaining" (Itoa remaining)
    (set_header "X-RateLimit-Limit" (Itoa (RequestsPerWindow cfg)) tr)).

(** [now 0] is read under the lock, [now 1] for the headers of the answer.
    [others] is what other requests do to the limiter while the handlers that
    follow run. *)
Definition RateLimit (cfg : RateLimitConfig) (now : nat → instant) (others : RateLimiter → RateLimiter)
    (c : Ctx) (tr : log) (rl : RateLimiter) : option (option herr * log * RateLimiter) :=
  let clientIP := getClientIP c (TrustedProxies cfg) in
  match isAllowed (now 0%nat) clientIP rl with
  | None => None
  | Some (false, _, retryAfter, rl) =>
      let secs := int_seconds (time_sub retryAfter (now 1%nat)) in
      let secs := if secs <=? 0 then int_seconds (WindowSize cfg) else secs in
      Some (reply 429 (set_header "Retry-After" (Itoa secs) (limit_headers cfg 0 (Unix retryAfter) tr)), rl)
  | Some (true, currentCount, _, rl) =>
      let tr := limit_headers cfg (RequestsPerWindow cfg - currentCount) (Unix (time_add (now 1%nat) (WindowSize cfg))) tr in
      let '(err, tr) := Next c tr in
      let rl := others rl in
      let success := match err with None => true | Some _ => false end in
      let rl := if SkipSuccessful cfg && success && (StatusCode tr <? 400) then
                  match times_of clientIP rl with
                  | [] => rl
                  | ts => set_times clientIP (removelast ts) rl
                  end
                else rl in
      Some (err, tr, rl)
  end.

(** [BurstRateLimit]: the limiter of the short window is asked first. *)
Record BurstLimiter := mkBurst { burst : RateLimiter; normal : RateLimiter }.

Definition NewBurstLimiter (normalLimit burstLimit : Z) (windowSize : duration) : BurstLimiter := {|
  burst := NewRateLimiter (mkRlConfig burstLimit (Z.quot windowSize 10) false []);
  normal := NewRateLimiter (mkRlConfig normalLimit windowSize false [])
|}.

Definition BurstRateLimit (now : nat → instant) (c : Ctx) (tr : log) (bl : BurstLimiter) : option (option herr * log * BurstLimiter) :=
  let clientIP := getClientIP c localhost in
  match isAllowed (now 0%nat) clientIP (burst bl) with
  | None => None
  | Some (false, _, _, b) => Some (reply 429 tr, mkBurst b (normal bl))
  | Some (true, _, _, b) =>
      match isAllowed (now 1%nat) clientIP (normal bl) with
      | None => None
      | Some (false, _, _, n) => Some (reply 429 tr, mkBurst b n)
      | Some (true, _, _, n) => Some (Next c tr, mkBurst b n)
      end
  end.

(** ** Addresses *)

(** [isIPInList] of the enhanced limiter and of [rate_limit_middleware.go]. *)
Definition isIPInList (ip : string) (list : list string) : bool :=
  match ParseIP ip with
  | None => false
  | Some clientIP =>
      existsb (λ allowedIP,
        if Contains allowedIP "/" then match ParseCIDR allowedIP with Some net => NetContains net clientIP | None => false end
        else String.eqb allowedIP ip) list
  end.

(** The first element of the header, trimmed. *)
Definition first_of (header : string) : string :=
  match Split header "," with first :: _ => TrimSpace first | [] => EmptyString end.

(** [getRealIP]; [getClientIP] of [rate_limit_middleware.go] is the same function. *)
Definition getRealIP (c : Ctx) (trustedProxies : list string) : string :=
  match trustedProxies with
  | [] => c_IP c
  | _ =>
      let clientIP := c_IP c in
      if negb (isIPInList clientIP trustedProxies) then clientIP
      else if negb (String.eqb (Get c "X-Forwarded-For") EmptyString) then first_of (Get c "X-Forwarded-For")
      else if negb (String.eqb (Get c "X-Real-IP") EmptyString) then Get c "X-Real-IP"
      else clientIP
  end.

(** [isIPInCIDR] of [input_validation.go]. *)
Definition isIPInCIDR (ip cidr : string) : bool :=
  if negb (Contains cidr "/") then String.eqb ip cidr
  else match ParseIP ip with
  | None => false
  | Some clientIP => match ParseCIDR cidr with None => false | Some ipNet => NetContains ipNet clientIP end
  end.

(** [IPValidation]. *)
Definition IPValidation (blockedCIDRs allowedCIDRs : list string) : handler := λ c tr,
  let clientIP := c_IP c in
  if existsb (isIPInCIDR clientIP) blockedCIDRs then reply 403 tr
  else match allowedCIDRs with
  | [] => Next c tr
  | _ => if existsb (isIPInCIDR clientIP) allowedCIDRs then Next c tr else reply 403 tr
  end.

(** ** [ip_filter.go] and [http_method_validator.go] *)

Record IPFilterConfig := mkIPFilter { AllowedIPs : list string; AllowedCIDRs : list string; DenyAll : bool }.

Definition getClientIPSimple (c : Ctx) : string :=
  if negb (String.eqb (Get c "X-Forwarded-For") EmptyString) then first_of (Get c "X-Forwarded-For")
  else if negb (String.eqb (Get c "X-Real-IP") EmptyString) then TrimSpace (Get c "X-Real-IP")
  else c_IP c.

Definition IPFilterMiddleware (config : IPFilterConfig) : handler := λ c tr,
  let allowedNetworks := omap ParseCIDR (AllowedCIDRs config) in
  let refuse := if DenyAll config then reply 403 tr else Next c tr in
  let clientIP := getClientIPSimple c in
  if String.eqb clientIP EmptyString then refuse
  else match ParseIP clientIP with
  | None => refuse
  | Some ip =>
      if existsb (String.eqb clientIP) (AllowedIPs config) then Next c tr
      else if existsb (λ network, NetContains network ip) allowedNetworks then Next c tr
      else refuse
  end.

Definition ReadOnlyMethodValidator : handler := λ c tr,
  if String.eqb (c_Method c) "GET" || String.eqb (c_Method c) "HEAD" then Next c tr
  else reply 405 (set_header "Allow" "GET, HEAD" tr).

(** ** The enhanced limiter ([enhanced_rate_limiter.go]) *)

(** [limiter.Context]. *)
Record limit_context := mkLimitContext { lx_Limit : Z; lx_Remaining : Z; lx_Reset : Z; lx_Reached : bool }.

(** [ulule/limiter] with its memory store: the parsing of a rate, and the account
    of a key in the store at an instant. *)
Class LimiterLib := {
  lm_rate : Type;
  lm_store : Type;
  NewRateFromFormatted : string → option lm_rate;
  make_rate : duration → Z → lm_rate;
  NewStore : lm_store;
  limiter_Get : lm_rate → string → instant → lm_store → option limit_context * lm_store
}.
Context `{HLM : !LimiterLib}.

Record PathRateConfig := mkPathRate { pr_Rate : string; pr_Burst : Z }.

Record EnhancedRateLimitConfig := mkEnhanced {
  er_Rate : string;
  er_Burst : Z;
  er_KeyGenerator : option (Ctx → string);
  er_SkipHandler : option (Ctx → bool);
  er_ErrorHandler : option handler;
  er_TrustedProxies : list string;
  er_WhitelistIPs : list string;
  er_BlacklistIPs : list string;
  er_PathConfigs : gmap string PathRateConfig
}.

Definition too_many : handler := λ _ tr, reply 429 tr.

Definition DefaultEnhancedRateLimitConfig : EnhancedRateLimitConfig := {|
  er_Rate := "1000-H"; er_Burst := 100;
  er_KeyGenerator := Some c_IP;
  er_SkipHandler := Some (λ c, HasPrefix (c_Path c) "/health" || HasPrefix (c_Path c) "/metrics");
  er_ErrorHandler := Some too_many;
  er_TrustedProxies := localhost; er_WhitelistIPs := []; er_BlacklistIPs := [];
  er_PathConfigs := list_to_map [("/auth", mkPathRate "5-M" 2); ("/api", mkPathRate "100-M" 20); ("/proxy", mkPathRate "500-M" 50)]%string
|}.

(** What the constructor computes: the rate by default and those of the paths whose
    text can be parsed. *)
Record EnhancedLimiter := mkEnhancedLimiter {
  el_config : EnhancedRateLimitConfig;
  el_default : lm_rate;
  el_paths : gmap string lm_rate
}.

Definition NewEnhancedRateLimiter (config : option EnhancedRateLimitConfig) : EnhancedLimiter * lm_store :=
  let cfg := match config with
    | None => DefaultEnhancedRateLimitConfig
    | Some c =>
        let key := match er_KeyGenerator c with None => er_KeyGenerator DefaultEnhancedRateLimitConfig | k => k end in
        let err := match er_ErrorHandler c with None => er_ErrorHandler DefaultEnhancedRateLimitConfig | h => h end in
        mkEnhanced (er_Rate c) (er_Burst c) key (er_SkipHandler c) err (er_TrustedProxies c) (er_WhitelistIPs c)
          (er_BlacklistIPs c) (er_PathConfigs c)
    end in
  (mkEnhancedLimiter cfg (default (make_rate hour 1000) (NewRateFromFormatted (er_Rate cfg)))
     (omap (λ p, NewRateFromFormatted (pr_Rate p)) (er_PathConfigs cfg)), NewStore).

(** The first path of the map, in the order it is iterated, that is a prefix. *)
Definition select_limiter (order : list (string * lm_rate)) (path : string) (def : lm_rate) : lm_rate :=
  match List.find (λ p, HasPrefix path p.1) order with Some (_, r) => r | None => def end.

Definition enhanced_headers (x : limit_context) (tr : log) : log :=
  set_header "X-RateLimit-Reset" (Itoa (lx_Reset x)) (set_header "X-RateLimit-Remaining" (Itoa (lx_Remaining x))
    (set_header "X-RateLimit-Limit" (Itoa (lx_Limit x)) tr)).

Definition EnhancedRateLimit (el : EnhancedLimiter) (order : list (string * lm_rate)) (now : instant)
    (c : Ctx) (tr : log) (st : lm_store) : option herr * log * lm_store :=
  let cfg := el_config el in
  if match er_SkipHandler cfg with Some skip => skip c | None => false end then (Next c tr, st)
  else
    let ip := getRealIP c (er_TrustedProxies cfg) in
    if isIPInList ip (er_BlacklistIPs cfg) then (reply 403 tr, st)
    else if match er_WhitelistIPs cfg with [] => false | l => negb (isIPInList ip l) end then (reply 403 tr, st)
    else
      let key := default c_IP (er_KeyGenerator cfg) c in
      match limiter_Get (select_limiter order (c_Path c) (el_default el)) key now st with
      | (None, st) => ((Some (FiberErr 500), tr), st)
      | (Some x, st) =>
          let tr := enhanced_headers x tr in
          if lx_Reached x then (default too_many (er_ErrorHandler cfg) c tr, st) else (Next c tr, st)
      end.

Definition AuthRateLimiterConfig : EnhancedRateLimitConfig := {|
  er_Rate := "5-M"; er_Burst := 2;
  er_KeyGenerator := Some (λ c, c_IP c +:+ (String ":" (Get c "User-Agent")));
  er_SkipHandler := None; er_ErrorHandler := Some too_many;
  er_TrustedProxies := []; er_WhitelistIPs := []; er_BlacklistIPs := []; er_PathConfigs := ∅
|}.

Definition ProxyRateLimiterConfig : EnhancedRateLimitConfig := {|
  er_Rate := "500-M"; er_Burst := 50;
  er_KeyGenerator := Some c_IP;
  er_SkipHandler := Some (λ c, Contains (c_Path c) "/proxy/apt" || Contains (c_Path c) "/proxy/maven");
  er_ErrorHandler := None;
  er_TrustedProxies := []; er_WhitelistIPs := []; er_BlacklistIPs := []; er_PathConfigs := ∅
|}.

Definition AuthRateLimiter : EnhancedLimiter * lm_store := NewEnhancedRateLimiter (Some AuthRateLimiterConfig).
Definition ProxyRateLimiter : EnhancedLimiter * lm_store := NewEnhancedRateLimiter (Some ProxyRateLimiterConfig).

(** ** The limiter of the ports ([rate_limit_middleware.go]) *)

(** [ports.RateLimiter]: [Allow] by key, failing or not, and the whole requests per
    second that its configuration reports. *)
Class PortLimiter (L : Type) := { port_Allow : string → L → option bool * L; port_PerSecond : L → Z }.

Record RateLimitMiddlewareConfig := mkPortConfig { rm_KeyGenerator : option (Ctx → string); rm_TrustedProxies : list string }.

Definition generateKey (config : option RateLimitMiddlewareConfig) (c : Ctx) : string :=
  match config with
  | Some cfg => match rm_KeyGenerator cfg with Some key => key c | None => getRealIP c (rm_TrustedProxies cfg) end
  | None => c_IP c
  end.

(** The limiter may be nil; a failure of it lets the request through. *)
Definition RateLimitHandler {L} `{!PortLimiter L} (config : option RateLimitMiddlewareConfig) (now : instant) (next : handler)
    (c : Ctx) (tr : log) (limiter : option L) : option herr * log * option L :=
  match limiter with
  | None => (next c tr, None)
  | Some l =>
      match port_Allow (generateKey config c) l with
      | (None, l) => (next c tr, Some l)
      | (Some allowed, l) =>
          let resetTime := Unix (time_add now second) in
          let tr1 := set_header "X-RateLimit-Limit" (Itoa (port_PerSecond l)) tr in
          if negb allowed then
            (reply 429 (set_header "Retry-After" "1" (set_header "X-RateLimit-Reset" (Itoa resetTime)
               (set_header "X-RateLimit-Remaining" "0" tr1))), Some l)
          else (next c (set_header "X-RateLimit-Reset" (Itoa resetTime) tr1), Some l)
      end
  end.

(** ** Lemmas on the limiter by address *)

(** Operations on the limiter, in the order of its lock. *)
Inductive limiter_op := OpAllow (now : instant) (ip : string) | OpCleanup (now : instant).

Definition op_time (o : limiter_op) : instant := match o with OpAllow t _ | OpCleanup t => t end.

(** The accepted requests by address, the last one first, and the limiter. *)
Definition limiter_step (o : limiter_op) (st : gmap string (list instant) * RateLimiter)
    : option (gmap string (list instant) * RateLimiter) :=
  let '(acc, rl) := st in
  match o with
  | OpAllow now ip =>
      match isAllowed now ip rl with
      | None => None
      | Some (ok, _, _, rl) => Some (if ok : bool then <[ip := now :: default [] (acc !! ip)]> acc else acc, rl)
      end
  | OpCleanup now => Some (acc, cleanup now rl)
  end.

Fixpoint limiter_run (os : list limiter_op) (st : gmap string (list instant) * RateLimiter)
    : option (gmap string (list instant) * RateLimiter) :=
  match os with
  | [] => Some st
  | o :: os => match limiter_step o st with None => None | Some st => limiter_run os st end
  end.

(** Within the window of an instant, the limiter remembers exactly what it accepted. *)
Definition limiter_inv (now : instant) (acc : gmap string (list instant)) (rl : RateLimiter) : Prop :=
  ∀ ip, let a := default [] (acc !! ip) in
    filter (λ t, now - window rl < t) (times_of ip rl) = rev (filter (λ t, now - window rl < t) a) ∧
    Forall (λ t, t <= now) a ∧
    ∀ u, Z.of_nat (length (filter (RateLimit.in_window (window rl) u) a)) <= limit rl.

Lemma default_Some {A} (d x : A) : default d (Some x) = x.
Proof. done. Qed.

Lemma valid_times_spec now w ts :
  min_int64 < w <= max_int64 → valid_times now w ts = filter (λ t, now - w < t) ts.
Proof.
  intros Hw. unfold valid_times. apply list_filter_iff. intros t. unfold time_sub, min_int64, max_int64 in *. lia.
Qed.

Lemma limiter_inv_later now now' acc rl : now <= now' → limiter_inv now acc rl → limiter_inv now' acc rl.
Proof.
  intros Hn H ip. specialize (H ip) as (H1 & H2 & H3). split_and!; [| |exact H3].
  - transitivity (filter (λ t, now' - window rl < t) (filter (λ t, now - window rl < t) (times_of ip rl))).
    { symmetry. apply RateLimit.filter_filter_impl. intros x Hx. lia. }
    rewrite H1, RateLimit.filter_rev, RateLimit.filter_filter_impl; [done|intros x Hx; lia].
  - eapply list.Forall_impl; [exact H2|]. cbn. lia.
Qed.

Lemma times_of_cleanup now ip rl : times_of ip (cleanup now rl) = valid_times now (window rl) (times_of ip rl).
Proof.
  unfold times_of, cleanup. cbn [requests]. rewrite lookup_omap. destruct (requests rl !! ip) as [ts|]; [|done].
  cbn [mbind option_bind default]. by destruct (valid_times now (window rl) ts) eqn:E.
Qed.

Lemma limiter_step_inv now o acc rl acc' rl' :
  0 < window rl <= max_int64 → 0 < limit rl → limiter_inv now acc rl → now <= op_time o →
  limiter_step o (acc, rl) = Some (acc', rl') →
  limiter_inv (op_time o) acc' rl' ∧ window rl' = window rl ∧ limit rl' = limit rl.
Proof.
  intros Hw Hl H Hn Hs. assert (min_int64 < window rl <= max_int64) as Hw' by (unfold min_int64; lia).
  apply (limiter_inv_later now (op_time o)) in H; [|done]. destruct o as [t ip|t]; cbn [op_time] in *; unfold limiter_step in Hs.
  2: { injection Hs as <- <-. split; [|done]. intros j. specialize (H j) as (H1 & H2 & H3). cbn [window limit cleanup].
       rewrite times_of_cleanup, valid_times_spec by done. split_and!; [|done|done].
       rewrite RateLimit.filter_filter_impl; [done|auto]. }
  unfold isAllowed in Hs. rewrite valid_times_spec in Hs by done. pose proof (H ip) as (H1 & H2 & H3).
  set (kept := filter _ (times_of ip rl)) in *.
  destruct (limit rl <=? Z.of_nat (length kept)) eqn:E; zbool.
  { destruct kept; [done|]. injection Hs as <- <-. done. }
  injection Hs as <- <-. split; [|done]. intros j. cbn [window limit set_times]. unfold times_of. cbn [requests set_times].
  destruct (decide (ip = j)) as [<-|Hne]; [|by rewrite !lookup_insert_ne by done; apply H].
  rewrite !lookup_insert, !decide_True by done. rewrite !default_Some.
  split_and!.
  - rewrite list.filter_app. rewrite (filter_cons_True _ t []) by lia. rewrite filter_cons_True by lia. cbn [rev].
    f_equal. unfold kept. rewrite RateLimit.filter_filter_impl by auto. exact H1.
  - constructor; [lia|done].
  - intros u. destruct (decide (RateLimit.in_window (window rl) u t)) as [Hu|Hu].
    + rewrite filter_cons_True by done. cbn [length]. unfold RateLimit.in_window in Hu.
      assert (length (filter (RateLimit.in_window (window rl) u) (default [] (acc !! ip))) <= length kept)%nat; [|lia].
      rewrite H1, length_rev. apply RateLimit.filter_length_le. intros x Hx [Ha Hb].
      rewrite list.Forall_forall in H2. specialize (H2 x Hx). lia.
    + rewrite filter_cons_False by done. apply H3.
Qed.

Lemma limiter_run_inv os now acc rl acc' rl' :
  0 < window rl <= max_int64 → 0 < limit rl → limiter_inv now acc rl → Sorted Z.le (now :: (op_time <$> os)) →
  limiter_run os (acc, rl) = Some (acc', rl') →
  ∃ now', limiter_inv now' acc' rl' ∧ window rl' = window rl ∧ limit rl' = limit rl.
Proof.
  revert now acc rl. induction os as [|o os IH]; intros now acc rl Hw Hl Hi Hs H; cbn [limiter_run] in H; [simplify_eq; eauto|].
  cbn in Hs. apply Sorted_inv in Hs as [Hs Hh]. apply HdRel_inv in Hh.
  destruct (limiter_step o (acc, rl)) as [[acc1 rl1]|] eqn:E; [|done].
  destruct (limiter_step_inv _ _ _ _ _ _ Hw Hl Hi Hh E) as (Hi1 & Hw1 & Hl1).
  rewrite <- Hw1, <- Hl1. eapply IH; [by rewrite Hw1|by rewrite Hl1|exact Hi1|exact Hs|exact H].
Qed.

Lemma limiter_run_total os acc rl : 0 < limit rl → is_Some (limiter_run os (acc, rl)).
Proof.
  revert acc rl. induction os as [|o os IH]; intros acc rl Hl; [eauto|]. cbn [limiter_run]. unfold limiter_step.
  destruct o as [t ip|t]; [|by apply IH]. unfold isAllowed.
  destruct (limit rl <=? _) eqn:E; [|by apply IH]. destruct (valid_times _ _ _); [cbn in E; zbool; lia|]. by apply IH.
Qed.

Lemma limiter_run_start cfg os t0 :
  0 < RequestsPerWindow cfg → 0 < WindowSize cfg <= max_int64 → Sorted Z.le (t0 :: (op_time <$> os)) →
  ∃ acc rl now', limiter_run os (∅, NewRateLimiter cfg) = Some (acc, rl) ∧ limiter_inv now' acc rl ∧
    window rl = WindowSize cfg ∧ limit rl = RequestsPerWindow cfg.
Proof.
  intros Hl Hw Hs. destruct (limiter_run_total os ∅ (NewRateLimiter cfg) Hl) as [[acc rl] E].
  assert (limiter_inv t0 ∅ (NewRateLimiter cfg)) as Hi.
  { intros ip. unfold times_of. cbn [requests NewRateLimiter]. rewrite !lookup_empty. cbn. split_and!; [done|constructor|lia]. }
  destruct (limiter_run_inv os t0 ∅ (NewRateLimiter cfg) acc rl Hw Hl Hi Hs E) as (now' & H1 & H2 & H3). eauto 10.
Qed.

Lemma getRealIP_untrusted c l : isIPInList (c_IP c) l = false → getRealIP c l = c_IP c.
Proof. intros H. unfold getRealIP. destruct l; [done|]. by rewrite H. Qed.

(** ** The limiter by address *)

(** C12: [isAllowed] and [cleanup] limit each address: for any sequence of requests and
    ticks of the cleanup, in the order of the clock, with a positive limit, every call
    returns, and of the accepted requests of an address at most the limit lie in any
    window of time; the cleanup never forgets a request that still counts. *)
Theorem rate_limit_window_bound cfg os t0 ip u
    (Hl : 0 < RequestsPerWindow cfg) (Hw : 0 < WindowSize cfg <= max_int64) (Hs : Sorted Z.le (t0 :: (op_time <$> os))) :
  ∃ acc rl, limiter_run os (∅, NewRateLimiter cfg) = Some (acc, rl) ∧
    Z.of_nat (length (filter (RateLimit.in_window (WindowSize cfg) u) (default [] (acc !! ip)))) <= RequestsPerWindow cfg.
Proof.
  destruct (limiter_run_start cfg os t0 Hl Hw Hs) as (acc & rl & now' & E & Hi & Hww & Hll).
  exists acc, rl. split; [done|]. rewrite <- Hww, <- Hll. apply (Hi ip).
Qed.

(** With a limit that is not positive the first request of an address is an index
    out of range in [RateLimit]: a panic, and no answer. *)
Theorem rate_limit_zero_panics cfg now others c tr
    (Hl : RequestsPerWindow cfg <= 0) :
  RateLimit cfg now others c tr (NewRateLimiter cfg) = None.
Proof.
  unfold RateLimit, isAllowed, times_of. cbn [requests limit window NewRateLimiter]. rewrite lookup_empty. cbn.
  by rewrite (proj2 (Z.leb_le _ 0)) by lia.
Qed.

(** Whoever sends a new [X-Real-IP] with each request is never limited, whatever
    address the connection comes from and however many requests came before: the
    request is accounted to the header's text, and the handlers that follow run. *)
Theorem rate_limit_evaded cfg now others c tr rl r
    (Hf : Get c "X-Forwarded-For" = EmptyString) (Hr : Get c "X-Real-IP" = r) (Hne : r ≠ EmptyString)
    (Hl : 0 < limit rl) (Hnew : requests rl !! r = None) :
  ∃ e tr' rl', RateLimit cfg now others c tr rl = Some (e, tr', rl') ∧ reached tr' = true.
Proof.
  assert (getClientIP c (TrustedProxies cfg) = r) as Hip.
  { unfold getClientIP. rewrite Hf, Hr. cbn. by rewrite (proj2 (String.eqb_neq r EmptyString)). }
  unfold RateLimit. rewrite Hip. unfold isAllowed, times_of. rewrite Hnew. cbn [default from_option length].
  change (valid_times (now 0%nat) (window rl) []) with (@nil instant). cbn [length]. rewrite (proj2 (Z.leb_gt (limit rl) _)) by lia.
  set (tr1 := limit_headers _ _ _ _). pose proof (Next_reached c tr1) as Hn. destruct (Next c tr1) as [e tr2]. eauto 10.
Qed.

(** ** Addresses *)

(** A rule [a.b.c.d/n] of the address checks matches an IPv4 client exactly when
    the [n] leading bits of the two addresses are equal, and a rule without a length
    when it is the client's text. *)
Theorem isIPInCIDR_prefix f g n
    (Hf : bytes f) (Lf : length f = 4%nat) (Hg : bytes g) (Lg : length g = 4%nat) (Hn : 0 <= n <= 32) :
  isIPInCIDR (dotted g) (dotted f +:+ (String "/" (Itoa n))) = bool_decide (leading n f = leading n g)
  ∧ isIPInCIDR (dotted g) (dotted f) = bool_decide (f = g).
Proof.
  destruct (Contains_prefix f g n Hf Lf Hg Lg Hn) as (net & Hp & Hc). unfold isIPInCIDR. split.
  - replace (Contains _ "/") with true; [cbn [negb]; by rewrite ParseIP_dotted, Hp by done|].
    symmetry. apply Contains_spec. by exists (dotted f), (Itoa n).
  - replace (Contains (dotted f) "/") with false.
    + cbn [negb]. apply eq_true_iff_eq. rewrite String.eqb_eq, bool_decide_eq_true. split; [|by intros ->].
      intros E. apply (f_equal parseIPv4) in E. rewrite !parseIPv4_dotted in E by done. by injection E.
    + symmetry. apply not_true_iff_false. rewrite Contains_spec. intros (a & b & E).
      pose proof (dotted_text f Hf) as H. rewrite E, !str_all_app in H. cbn in H. by rewrite andb_false_r in H.
Qed.

Lemma IPValidation_open blocked allowed c :
  reached (IPValidation blocked allowed c []).2 =
    negb (existsb (isIPInCIDR (c_IP c)) blocked) && match allowed with [] => true | _ => existsb (isIPInCIDR (c_IP c)) allowed end.
Proof.
  unfold IPValidation. destruct (existsb _ blocked); [done|]. destruct allowed; [by rewrite Next_reached|].
  destruct (existsb _ (_ :: _)); [by rewrite Next_reached|done].
Qed.

(** C99: [IPValidation] lets a request through exactly when no blocked rule matches the
    address of the connection, and some allowed rule does if there are any. *)
Theorem IPValidation_iff blocked allowed c :
  reached (IPValidation blocked allowed c []).2 = true ↔
  Forall (λ r, isIPInCIDR (c_IP c) r = false) blocked ∧ (allowed = [] ∨ Exists (λ r, isIPInCIDR (c_IP c) r = true) allowed).
Proof.
  rewrite IPValidation_open, andb_true_iff, negb_true_iff.
  assert (existsb (isIPInCIDR (c_IP c)) blocked = false ↔ Forall (λ r, isIPInCIDR (c_IP c) r = false) blocked) as ->.
  { induction blocked as [|r l IH]; [done|]. cbn. rewrite orb_false_iff, IH, list.Forall_cons. done. }
  assert (∀ l, existsb (isIPInCIDR (c_IP c)) l = true ↔ Exists (λ r, isIPInCIDR (c_IP c) r = true) l) as He.
  { intros l. rewrite existsb_exists, list.Exists_exists.
    split; intros (x & Hx & Hm); exists x; (split; [|done]); by apply list_elem_of_In. }
  destruct allowed; [naive_solver|]. rewrite <- He. naive_solver.
Qed.

(** A filter that denies everything but a list of addresses lets through whoever
    puts one of them in [X-Forwarded-For], wherever the connection comes from. *)
Theorem ip_filter_spoofed config c a tr
    (Ha : a ∈ AllowedIPs config) (Hp : is_Some (ParseIP a)) (Hh : Get c "X-Forwarded-For" = a)
    (Hc : str_all (not_char ",") a = true) (Ht : TrimSpace a = a) :
  reached (IPFilterMiddleware config c tr).2 = true.
Proof.
  assert (a ≠ EmptyString) as Hne by (intros ->; by destruct Hp).
  assert (getClientIPSimple c = a) as Hip.
  { unfold getClientIPSimple, first_of. rewrite Hh, (proj2 (String.eqb_neq a EmptyString)), Split_none by done. done. }
  unfold IPFilterMiddleware. rewrite Hip, (proj2 (String.eqb_neq a EmptyString)) by done. destruct Hp as [ip ->].
  replace (existsb (String.eqb a) (AllowedIPs config)) with true; [by rewrite Next_reached|].
  symmetry. rewrite existsb_exists. exists a. by rewrite String.eqb_refl, <- list_elem_of_In.
Qed.

(** ** The limiter by path *)

Definition prefix_free (keys : list string) : Prop := ∀ p q, p ∈ keys → q ∈ keys → HasPrefix p q = true → p = q.

Lemma prefixes_comparable path p q :
  HasPrefix path p = true → HasPrefix path q = true → HasPrefix p q = true ∨ HasPrefix q p = true.
Proof.
  unfold HasPrefix. revert p q. induction path as [|a path IH]; intros p q Hp Hq.
  - destruct p; [|done]. destruct q; [|done]. by left.
  - destruct p as [|b p]; [right; by destruct q|]. destruct q as [|b' q]; [by left|]. cbn [String.prefix] in *.
    destruct (ascii_dec b a) as [->|]; [|done]. destruct (ascii_dec b' a) as [->|]; [|done].
    destruct (ascii_dec a a); [|done]. by apply IH.
Qed.

Lemma select_limiter_spec order path def r :
  NoDup order.*1 → prefix_free order.*1 →
  select_limiter order path def = r ↔
  (∃ p, (p, r) ∈ order ∧ HasPrefix path p = true) ∨ (r = def ∧ ∀ p r', (p, r') ∈ order → HasPrefix path p = false).
Proof.
  intros Hn Hf. unfold select_limiter. destruct (List.find _ order) as [[k s]|] eqn:E.
  - apply List.find_some in E as [Hin%list_elem_of_In Hp]. cbn [fst] in Hp. split; [intros ->; left; eauto|].
    intros [(p & Hp1 & Hp2)|[_ H]]; [|by rewrite (H _ _ Hin) in Hp].
    assert (k = p) as ->.
    { destruct (prefixes_comparable path k p Hp Hp2); [|symmetry]; (apply Hf; [..|done]); apply list_elem_of_fmap; eexists (_, _); eauto. }
    pose proof (elem_of_list_to_map_1 (M:=gmap string) order p s Hn Hin). pose proof (elem_of_list_to_map_1 (M:=gmap string) order p r Hn Hp1).
    congruence.
  - assert (∀ p r', (p, r') ∈ order → HasPrefix path p = false) as Hnone.
    { intros p r' Hin. apply list_elem_of_In in Hin. by apply (List.find_none _ _ E) in Hin. }
    split; [intros ->; by right|]. intros [(p & Hp1 & Hp2)|[-> _]]; [|done]. by rewrite (Hnone _ _ Hp1) in Hp2.
Qed.

Lemma default_prefix_free : prefix_free (map_to_list (el_paths (NewEnhancedRateLimiter None).1)).*1.
Proof.
  assert (∀ p, p ∈ (map_to_list (el_paths (NewEnhancedRateLimiter None).1)).*1 → p ∈ ["/auth"; "/api"; "/proxy"]%string) as H.
  { intros p Hp. apply list_elem_of_fmap in Hp as ([p' r] & -> & Hp). apply elem_of_map_to_list in Hp. cbn in Hp.
    rewrite lookup_omap in Hp. apply bind_Some in Hp as (x & E & _).
    apply (elem_of_list_to_map_2 (M:=gmap string) [("/auth", mkPathRate "5-M" 2); ("/api", mkPathRate "100-M" 20);
      ("/proxy", mkPathRate "500-M" 50)]%string) in E. set_solver. }
  intros p q Hp%H Hq%H. set_unfold. destruct Hp as [->|[->|[->|[]]]], Hq as [->|[->|[->|[]]]]; done.
Qed.

(** Which limiter serves a path does not depend on the order in which Go iterates
    over the map of paths, when no path of it is a prefix of another, as is the case for
    the default configuration. *)
Theorem enhanced_order_irrelevant el o1 o2 now c tr st
    (H1 : o1 ≡ₚ map_to_list (el_paths el)) (H2 : o2 ≡ₚ map_to_list (el_paths el))
    (Hf : prefix_free (map_to_list (el_paths el)).*1) :
  EnhancedRateLimit el o1 now c tr st = EnhancedRateLimit el o2 now c tr st.
Proof.
  enough (select_limiter o1 (c_Path c) (el_default el) = select_limiter o2 (c_Path c) (el_default el)) as E.
  { unfold EnhancedRateLimit. by rewrite E. }
  assert (∀ o, o ≡ₚ map_to_list (el_paths el) → NoDup o.*1 ∧ prefix_free o.*1) as Ho.
  { intros o H. split; [rewrite H; apply NoDup_fst_map_to_list|]. intros p q. rewrite H. apply Hf. }
  destruct (Ho _ H1) as [N1 F1], (Ho _ H2) as [N2 F2]. apply select_limiter_spec; [done..|].
  assert (o1 ≡ₚ o2) as Hp by (by rewrite H1, H2).
  destruct (proj1 (select_limiter_spec o2 (c_Path c) (el_default el) _ N2 F2) eq_refl) as [(p & Hin & Hp')|[-> Hall]].
  - left. exists p. by rewrite Hp.
  - right. split; [done|]. intros p r. rewrite Hp. apply Hall.
Qed.

(** A request passes the enhanced limiter, with its own answer to excess, exactly
    when the skip rule says so, or its address is not in the blacklist, is in the
    whitelist if there is one, and the account of its key is not exhausted; a failure of
    the store is an error of the request. *)
Theorem enhanced_pass_iff cfg order now c st
    (He : er_ErrorHandler cfg = None) :
  let el := (NewEnhancedRateLimiter (Some cfg)).1 in
  let ip := getRealIP c (er_TrustedProxies cfg) in
  let key := default c_IP (er_KeyGenerator cfg) c in
  reached (EnhancedRateLimit el order now c [] st).1.2 = true ↔
  match er_SkipHandler cfg with Some skip => skip c | None => false end = true ∨
  (isIPInList ip (er_BlacklistIPs cfg) = false ∧ (er_WhitelistIPs cfg = [] ∨ isIPInList ip (er_WhitelistIPs cfg) = true) ∧
   ∃ x st', limiter_Get (select_limiter order (c_Path c) (el_default el)) key now st = (Some x, st') ∧ lx_Reached x = false).
Proof.
  intros el ip key. subst el. unfold EnhancedRateLimit. cbn [NewEnhancedRateLimiter fst el_config el_default er_SkipHandler
    er_TrustedProxies er_BlacklistIPs er_WhitelistIPs er_KeyGenerator er_ErrorHandler]. rewrite He. fold ip.
  set (K := default c_IP _ c). assert (K = key) as -> by (unfold K, key; by destruct (er_KeyGenerator cfg)).
  destruct (match er_SkipHandler cfg with Some skip => skip c | None => false end);
    [cbn [fst snd]; rewrite Next_reached; naive_solver|].
  destruct (isIPInList ip (er_BlacklistIPs cfg)); [naive_solver|].
  destruct (er_WhitelistIPs cfg) as [|w l] eqn:Ew; [|rewrite <- Ew; destruct (isIPInList ip (er_WhitelistIPs cfg)) eqn:E; [|split; [done|intros [?|(_ & [?|?] & _)]; congruence]]];
    cbn [negb]; (destruct (limiter_Get _ _ _ _) as [[x|] st']; [destruct (lx_Reached x) eqn:Er|]);
    cbn [fst snd]; rewrite ?Next_reached; cbn; naive_solver.
Qed.

(** The blacklist of the enhanced limiter does not hold behind a trusted proxy:
    when the first element of [X-Forwarded-For] is not an address, no entry of the
    blacklist matches, and a request that is not over its rate is let through. *)
Theorem blacklist_evaded el order now c st x st'
    (Hs : er_SkipHandler (el_config el) = None) (Hw : er_WhitelistIPs (el_config el) = [])
    (Hh : Get c "X-Forwarded-For" ≠ EmptyString) (Hp : ParseIP (first_of (Get c "X-Forwarded-For")) = None)
    (Ht : isIPInList (c_IP c) (er_TrustedProxies (el_config el)) = true)
    (Hg : limiter_Get (select_limiter order (c_Path c) (el_default el)) (default c_IP (er_KeyGenerator (el_config el)) c) now st = (Some x, st'))
    (Hx : lx_Reached x = false) :
  reached (EnhancedRateLimit el order now c [] st).1.2 = true.
Proof.
  assert (getRealIP c (er_TrustedProxies (el_config el)) = first_of (Get c "X-Forwarded-For")) as Hip.
  { unfold getRealIP. rewrite Ht, (proj2 (String.eqb_neq _ _) Hh). cbn [negb].
    destruct (er_TrustedProxies (el_config el)); [|done]. unfold isIPInList in Ht. by destruct (ParseIP (c_IP c)). }
  unfold EnhancedRateLimit. rewrite Hs, Hip, Hw, Hg, Hx. unfold isIPInList at 1. rewrite Hp. cbn [fst snd]. by rewrite Next_reached.
Qed.

(** C99: [RateLimitHandler] stops a request only when its limiter says no: without a
    limiter, and whenever the limiter fails, every request goes through. *)
Theorem rate_limit_handler_open {L} `{!PortLimiter L} config now c (limiter : option L) :
  reached (RateLimitHandler config now Next c [] limiter).1.2 = false ↔
  ∃ l l', limiter = Some l ∧ port_Allow (generateKey config c) l = (Some false, l').
Proof.
  unfold RateLimitHandler. destruct limiter as [l|].
  2: { cbn [fst snd]. rewrite Next_reached. split; [done|]. by intros (? & ? & ? & _). }
  destruct (port_Allow _ l) as [[[]|] l'] eqn:E; cbn [negb fst snd]; rewrite ?Next_reached.
  2: { split; [eauto|done]. }
  all: split; [done|]; intros (l1 & l2 & [= <-] & H); congruence.
Qed.

(** A request that only the long window of [BurstRateLimit] refuses has been
    charged to the short one. *)
Theorem burst_charged_when_refused now c tr bl n b a r r'
    (Hb : isAllowed (now 0%nat) (getClientIP c localhost) (burst bl) = Some (true, n, r, b))
    (Hn : isAllowed (now 1%nat) (getClientIP c localhost) (normal bl) = Some (false, a, r', normal bl)) :
  BurstRateLimit now c tr bl = Some (reply 429 tr, mkBurst b (normal bl)) ∧
  times_of (getClientIP c localhost) b = valid_times (now 0%nat) (window b) (times_of (getClientIP c localhost) (burst bl)) ++ [now 0%nat].
Proof.
  unfold BurstRateLimit. rewrite Hb, Hn. split; [done|]. unfold isAllowed in Hb.
  destruct (limit (burst bl) <=? _); [by destruct (valid_times _ _ _)|]. injection Hb as <- <- <-.
  unfold times_of at 1. cbn [requests set_times window]. by rewrite lookup_insert, decide_True by done.
Qed.

(** ** Witnesses *)

Definition a_request (ip : string) (hs : list (string * string)) : Ctx :=
  mkCtx ip "GET" "/proxy/npm/react" (list_to_map hs) ∅ ∅ EmptyString [] EmptyString 0 EmptyString ∅.
End limits.

#[local] Existing Instance quiet.

(** A store of fixed windows, by key. *)
#[local] Instance demo_limiter : LimiterLib := {|
  lm_rate := duration * Z;
  lm_store := gmap string (instant * Z);
  NewRateFromFormatted s :=
    match Split s "-" with
    | [n; u] =>
        match parse_uint n with
        | Some n => if String.eqb u "M" then Some (minute, n) else if String.eqb u "H" then Some (hour, n) else None
        | None => None
        end
    | _ => None
    end;
  make_rate d n := (d, n);
  NewStore := ∅;
  limiter_Get r key now st :=
    let '(start, n) := default (now, 0) (st !! key) in
    let '(start, n) := if time_sub now start <? r.1 then (start, n + 1) else (now, 1) in
    (Some (mkLimitContext r.2 (r.2 - n) (Unix (time_add start r.1)) (r.2 <? n)), <[key := (start, n)]> st)
|}.

Definition demo_ops : list limiter_op := [OpAllow 1 "a"; OpAllow 2 "a"; OpAllow 3 "b"; OpAllow 4 "a"; OpCleanup 5; OpAllow (minute + 1) "a"].
Definition demo_rl : RateLimitConfig := mkRlConfig 2 minute false localhost.

Lemma rate_limit_window_bound_witness :
  fst <$> limiter_run demo_ops (∅, NewRateLimiter demo_rl) = Some (<["a" := [minute + 1; 2; 1]]> {["b" := [3]]})
  ∧ ∃ acc rl, limiter_run demo_ops (∅, NewRateLimiter demo_rl) = Some (acc, rl) ∧
    Z.of_nat (length (filter (RateLimit.in_window minute (minute + 1)) (default [] (acc !! "a")))) <= 2.
Proof.
  split; [by vm_compute|]. apply (rate_limit_window_bound demo_rl demo_ops 0 "a" (minute + 1)); [by cbn|by vm_compute|].
  repeat (constructor; [|constructor; vm_compute; discriminate]). constructor; constructor.
Defined.

Lemma rate_limit_zero_panics_witness :
  RateLimit (mkRlConfig 0 minute false []) (λ _, 5) id (a_request "1.2.3.4" []) [] (NewRateLimiter (mkRlConfig 0 minute false [])) = None.
Proof. apply rate_limit_zero_panics. cbn. lia. Defined.

Lemma rate_limit_evaded_witness :
  ∃ e tr rl, RateLimit demo_rl (λ _, 9) id (a_request "1.2.3.4" [("X-Real-IP", "n7")]) []
    (mkLimiter {["1.2.3.4" := [7; 8]]} 2 minute) = Some (e, tr, rl) ∧ reached tr = true.
Proof. by apply (rate_limit_evaded demo_rl _ _ _ _ _ "n7"); vm_compute. Defined.

Lemma isIPInCIDR_prefix_witness :
  isIPInCIDR (dotted [10; 1; 2; 3]) (dotted [10; 1; 0; 0] +:+ (String "/" (Itoa 16))) = bool_decide (leading 16 [10; 1; 0; 0] = leading 16 [10; 1; 2; 3])
  ∧ isIPInCIDR (dotted [10; 1; 2; 3]) (dotted [10; 1; 0; 0]) = bool_decide ([10; 1; 0; 0] = [10; 1; 2; 3]).
Proof. apply (isIPInCIDR_prefix [10; 1; 0; 0] [10; 1; 2; 3] 16); [repeat constructor; lia|done|repeat constructor; lia|done|lia]. Defined.

Lemma ip_filter_spoofed_witness :
  reached (IPFilterMiddleware (mkIPFilter ["10.0.0.1"] [] true) (a_request "6.6.6.6" [("X-Forwarded-For", "10.0.0.1")]) []).2 = true.
Proof. apply (ip_filter_spoofed _ _ "10.0.0.1"); [by constructor|eexists; by vm_compute|by vm_compute..]. Defined.

Lemma enhanced_order_irrelevant_witness :
  let el := (NewEnhancedRateLimiter None).1 in
  EnhancedRateLimit el (map_to_list (el_paths el)) 5 (a_request "1.2.3.4" []) [] ∅ =
  EnhancedRateLimit el (rev (map_to_list (el_paths el))) 5 (a_request "1.2.3.4" []) [] ∅.
Proof.
  apply (enhanced_order_irrelevant (NewEnhancedRateLimiter None).1); [done|by rewrite <- Permutation_rev|apply default_prefix_free].
Defined.

Definition listed : EnhancedRateLimitConfig := mkEnhanced "1-M" 0 None None None localhost [] ["6.6.6.6"] ∅.

Lemma enhanced_pass_iff_witness :
  reached (EnhancedRateLimit (NewEnhancedRateLimiter (Some listed)).1 [] 5 (a_request "6.6.6.6" []) [] ∅).1.2 = false
  ∧ reached (EnhancedRateLimit (NewEnhancedRateLimiter (Some listed)).1 [] 5 (a_request "6.6.6.7" []) [] ∅).1.2 = true.
Proof.
  split; [by vm_compute|]. apply (enhanced_pass_iff listed [] 5 (a_request "6.6.6.7" []) ∅ eq_refl). right.
  split; [by vm_compute|]. split; [by left|]. eexists _, _. split; [by vm_compute|done].
Defined.

Lemma blacklist_evaded_witness :
  reached (EnhancedRateLimit (NewEnhancedRateLimiter (Some listed)).1 [] 5
    (a_request "127.0.0.1" [("X-Forwarded-For", "unknown, 6.6.6.6")]) [] ∅).1.2 = true.
Proof. eapply (blacklist_evaded (NewEnhancedRateLimiter (Some listed)).1); by vm_compute. Defined.

Lemma burst_charged_when_refused_witness :
  ∃ b, BurstRateLimit (λ _, 5) (a_request "1.2.3.4" []) [] (mkBurst (mkLimiter ∅ 3 second) (mkLimiter {["1.2.3.4" := [4]]} 1 minute))
    = Some (reply 429 [], mkBurst b (mkLimiter {["1.2.3.4" := [4]]} 1 minute)) ∧ times_of "1.2.3.4" b = [5].
Proof.
  exists (mkLimiter {["1.2.3.4" := [5]]} 3 second). split; [|by vm_compute].
  apply (burst_charged_when_refused (λ _, 5) (a_request "1.2.3.4" []) [] (mkBurst (mkLimiter ∅ 3 second) (mkLimiter {["1.2.3.4" := [4]]} 1 minute))
    1 _ 1 zero_time (time_add 4 minute)); by vm_compute.
Defined.
