(* ===== verification/DomainErrors.v ===== *)
(** * DomainErrors: errors with a code, and their HTTP status

    Models [src/internal/errors]: the structured errors and their builder, the
    predefined errors of each package manager, the table of statuses, and what is
    derived from a code: the class of an error, whether to try again, the
    suggestions to the client, the fields of a log entry.  Details of any type are
    their text.  The instant at which the package is initialised, which the
    predefined errors carry, is a variable. *)

From Stdlib Require Import Ascii.
From S2P Require Import Prelude GoStrings GoText.

(** ** Errors ([base.go]) *)

Definition ErrorLevel : Type := Z.
Definition ErrorLevelInfo : ErrorLevel := 0.
Definition ErrorLevelWarning : ErrorLevel := 1.
Definition ErrorLevelError : ErrorLevel := 2.
Definition ErrorLevelCritical : ErrorLevel := 3.

Definition level_string (e : ErrorLevel) : string :=
  if e =? ErrorLevelInfo then "info"
  else if e =? ErrorLevelWarning then "warning"
  else if e =? ErrorLevelError then "error"
  else if e =? ErrorLevelCritical then "critical"
  else "unknown".

(** An error of the program, of the web framework, or another. *)
Inductive error :=
| EDomain (e : DomainError)
| EFiber (code : Z) (message : string)
| EOther (message : string)
with DomainError :=
| mkDomainError (code message domain : string) (level : ErrorLevel) (timestamp : instant)
    (details : option string) (cause : option error).

Definition Code (e : DomainError) : string := let '(mkDomainError c _ _ _ _ _ _) := e in c.
Definition Message (e : DomainError) : string := let '(mkDomainError _ m _ _ _ _ _) := e in m.
Definition Domain (e : DomainError) : string := let '(mkDomainError _ _ d _ _ _ _) := e in d.
Definition Level (e : DomainError) : ErrorLevel := let '(mkDomainError _ _ _ l _ _ _) := e in l.
Definition Timestamp (e : DomainError) : instant := let '(mkDomainError _ _ _ _ t _ _) := e in t.
Definition Details (e : DomainError) : option string := let '(mkDomainError _ _ _ _ _ d _) := e in d.
Definition Cause (e : DomainError) : option error := let '(mkDomainError _ _ _ _ _ _ c) := e in c.

(** [Error()]. *)
Fixpoint error_text (e : error) : string :=
  match e with
  | EDomain d => domain_error_text d
  | EFiber _ m => m
  | EOther m => m
  end
with domain_error_text (d : DomainError) : string :=
  match d with
  | mkDomainError code message domain _ _ _ cause =>
      let text := "[" +:+ (domain +:+ ("] " +:+ (code +:+ (": " +:+ message)))) in
      match cause with
      | Some e => text +:+ (" (caused by: " +:+ (error_text e +:+ ")"))
      | None => text
      end
  end.

(** The builder is its error; each step returns it. *)
Definition NewError (now : instant) (code message : string) : DomainError :=
  mkDomainError code message EmptyString ErrorLevelError now None None.
Definition WithDomain (domain : string) (e : DomainError) : DomainError :=
  mkDomainError (Code e) (Message e) domain (Level e) (Timestamp e) (Details e) (Cause e).
Definition WithCause (cause : option error) (e : DomainError) : DomainError :=
  mkDomainError (Code e) (Message e) (Domain e) (Level e) (Timestamp e) (Details e) cause.
Definition WithDetails (details : option string) (e : DomainError) : DomainError :=
  mkDomainError (Code e) (Message e) (Domain e) (Level e) (Timestamp e) details (Cause e).
Definition WithLevel (level : ErrorLevel) (e : DomainError) : DomainError :=
  mkDomainError (Code e) (Message e) (Domain e) level (Timestamp e) (Details e) (Cause e).

(** [NewDomainError], and the pairs [NewXError] and [WrapXError] of each domain. *)
Definition NewDomainError (now : instant) (code message : string) (err : option error) : error :=
  EDomain (WithCause err (NewError now code message)).
Definition new_in (domain : string) (now : instant) (code message : string) : DomainError := WithDomain domain (NewError now code message).
Definition wrap_in (domain : string) (now : instant) (err : option error) (code message : string) : DomainError :=
  WithCause err (new_in domain now code message).

Definition NewCacheError := new_in "cache".
Definition WrapCacheError := wrap_in "cache".
Definition NewSystemError := new_in "system".
Definition WrapSystemError := wrap_in "system".
Definition NewAuthError := new_in "auth".
Definition WrapAuthError := wrap_in "auth".
Definition NewProxyError := new_in "proxy".
Definition WrapProxyError := wrap_in "proxy".
Definition NewAPTError := new_in "apt".
Definition WrapAPTError := wrap_in "apt".
Definition NewMavenError := new_in "maven".
Definition WrapMavenError := wrap_in "maven".
Definition NewNPMError := new_in "npm".
Definition WrapNPMError := wrap_in "npm".
Definition NewDockerError := new_in "docker".
Definition WrapDockerError := wrap_in "docker".
Definition NewPipError := new_in "pip".
Definition WrapPipError := wrap_in "pip".
Definition NewYumError := new_in "yum".
Definition WrapYumError := wrap_in "yum".
Definition NewApkError := new_in "apk".
Definition WrapApkError := wrap_in "apk".

(** ** The predefined errors *)

Section predefined.
Context (init : instant).

Definition predefined (code message domain : string) (level : ErrorLevel) : DomainError :=
  mkDomainError code message domain level init None None.

Definition ErrAPTPackageNotFound : DomainError := predefined "APT001" "요청한 APT 패키지를 찾을 수 없습니다" "apt" ErrorLevelWarning.
Definition ErrAPTMirrorUnavailable : DomainError := predefined "APT002" "APT 미러 서버에 접근할 수 없습니다" "apt" ErrorLevelError.
Definition ErrAPTInvalidPackageFormat : DomainError := predefined "APT003" "잘못된 APT 패키지 형식입니다" "apt" ErrorLevelError.
Definition ErrAPTProxyDisabled : DomainError := predefined "APT004" "APT 프록시가 비활성화되어 있습니다" "apt" ErrorLevelError.
Definition ErrAPTInvalidPath : DomainError := predefined "APT005" "잘못된 APT 패키지 경로입니다" "apt" ErrorLevelError.
Definition ErrAPTConfigError : DomainError := predefined "APT006" "APT 설정 파일을 읽을 수 없습니다" "apt" ErrorLevelCritical.
Definition ErrMavenArtifactNotFound : DomainError := predefined "MVN001" "Maven 아티팩트를 찾을 수 없습니다" "maven" ErrorLevelWarning.
Definition ErrMavenChecksumMismatch : DomainError := predefined "MVN002" "체크섬이 일치하지 않습니다" "maven" ErrorLevelError.
Definition ErrMavenRepositoryUnavailable : DomainError := predefined "MVN003" "Maven 리포지토리에 접근할 수 없습니다" "maven" ErrorLevelError.
Definition ErrMavenProxyDisabled : DomainError := predefined "MVN004" "Maven 프록시가 비활성화되어 있습니다" "maven" ErrorLevelError.
Definition ErrMavenInvalidArtifactPath : DomainError := predefined "MVN005" "잘못된 Maven 아티팩트 경로입니다" "maven" ErrorLevelError.
Definition ErrMavenConfigError : DomainError := predefined "MVN006" "Maven 설정 파일을 읽을 수 없습니다" "maven" ErrorLevelCritical.
Definition ErrMavenSnapshotDownload : DomainError := predefined "MVN007" "SNAPSHOT 아티팩트 다운로드에 실패했습니다" "maven" ErrorLevelError.
Definition ErrMavenInvalidFormat : DomainError := predefined "MVN008" "잘못된 Maven 아티팩트 형식입니다" "maven" ErrorLevelError.
Definition ErrNPMPackageNotFound : DomainError := predefined "NPM001" "NPM 패키지를 찾을 수 없습니다" "npm" ErrorLevelWarning.
Definition ErrNPMRegistryUnavailable : DomainError := predefined "NPM002" "NPM 레지스트리 서버에 접근할 수 없습니다" "npm" ErrorLevelError.
Definition ErrNPMInvalidPackageFormat : DomainError := predefined "NPM003" "잘못된 NPM 패키지 형식입니다" "npm" ErrorLevelError.
Definition ErrNPMProxyDisabled : DomainError := predefined "NPM004" "NPM 프록시가 비활성화되어 있습니다" "npm" ErrorLevelError.
Definition ErrNPMInvalidPath : DomainError := predefined "NPM005" "잘못된 패키지 경로입니다" "npm" ErrorLevelError.
Definition ErrNPMConfigError : DomainError := predefined "NPM006" "NPM 설정 파일을 읽을 수 없습니다" "npm" ErrorLevelCritical.
Definition ErrNPMMetadataCorrupted : DomainError := predefined "NPM007" "NPM 패키지 메타데이터가 손상되었습니다" "npm" ErrorLevelError.
Definition ErrNPMTarballDownload : DomainError := predefined "NPM008" "NPM tarball 다운로드에 실패했습니다" "npm" ErrorLevelError.
Definition ErrDockerImageNotFound : DomainError := predefined "DOCKER001" "Docker 이미지를 찾을 수 없습니다" "docker" ErrorLevelWarning.
Definition ErrDockerRegistryUnavailable : DomainError := predefined "DOCKER002" "Docker 레지스트리 서버에 접근할 수 없습니다" "docker" ErrorLevelError.
Definition ErrDockerAuthenticationRequired : DomainError := predefined "DOCKER003" "Docker 레지스트리 인증이 필요합니다" "docker" ErrorLevelError.
Definition ErrDockerProxyDisabled : DomainError := predefined "DOCKER004" "Docker 프록시가 비활성화되어 있습니다" "docker" ErrorLevelError.
Definition ErrDockerInvalidPath : DomainError := predefined "DOCKER005" "잘못된 이미지 경로입니다" "docker" ErrorLevelError.
Definition ErrDockerConfigError : DomainError := predefined "DOCKER006" "Docker 설정 파일을 읽을 수 없습니다" "docker" ErrorLevelCritical.
Definition ErrDockerManifestCorrupted : DomainError := predefined "DOCKER007" "Docker 매니페스트가 손상되었습니다" "docker" ErrorLevelError.
Definition ErrDockerBlobDownload : DomainError := predefined "DOCKER008" "Docker blob 다운로드에 실패했습니다" "docker" ErrorLevelError.
Definition ErrDockerDigestMismatch : DomainError := predefined "DOCKER009" "Docker 이미지 다이제스트가 일치하지 않습니다" "docker" ErrorLevelError.
Definition ErrPipPackageNotFound : DomainError := predefined "PIP001" "PIP 패키지를 찾을 수 없습니다" "pip" ErrorLevelWarning.
Definition ErrPipMirrorUnavailable : DomainError := predefined "PIP002" "PIP 미러 서버에 접근할 수 없습니다" "pip" ErrorLevelError.
Definition ErrPipInvalidPackageFormat : DomainError := predefined "PIP003" "잘못된 PIP 패키지 형식입니다" "pip" ErrorLevelError.
Definition ErrPipTimeout : DomainError := predefined "PIP004" "PIP 서버 응답 타임아웃" "pip" ErrorLevelError.
Definition ErrPipInvalidPath : DomainError := predefined "PIP005" "잘못된 패키지 경로입니다" "pip" ErrorLevelError.
Definition ErrPipConfigError : DomainError := predefined "PIP006" "PIP 설정 파일을 읽을 수 없습니다" "pip" ErrorLevelCritical.
Definition ErrPipWheelCorrupted : DomainError := predefined "PIP007" "PIP wheel 파일이 손상되었습니다" "pip" ErrorLevelError.
Definition ErrPipIndexCorrupted : DomainError := predefined "PIP008" "PIP 패키지 인덱스가 손상되었습니다" "pip" ErrorLevelError.
Definition ErrPipProxyDisabled : DomainError := predefined "PIP009" "PIP 프록시가 비활성화되어 있습니다" "pip" ErrorLevelError.
Definition ErrYumPackageNotFound : DomainError := predefined "YUM001" "YUM 패키지를 찾을 수 없습니다" "yum" ErrorLevelWarning.
Definition ErrYumMirrorUnavailable : DomainError := predefined "YUM002" "YUM 미러 서버에 접근할 수 없습니다" "yum" ErrorLevelError.
Definition ErrYumRpmCorrupted : DomainError := predefined "YUM003" "YUM RPM 파일이 손상되었습니다" "yum" ErrorLevelError.
Definition ErrYumTimeout : DomainError := predefined "YUM004" "YUM 서버 응답 타임아웃" "yum" ErrorLevelError.
Definition ErrYumInvalidPath : DomainError := predefined "YUM005" "잘못된 패키지 경로입니다" "yum" ErrorLevelError.
Definition ErrYumConfigError : DomainError := predefined "YUM006" "YUM 설정 파일을 읽을 수 없습니다" "yum" ErrorLevelCritical.
Definition ErrYumMetadataCorrupted : DomainError := predefined "YUM007" "YUM 메타데이터가 손상되었습니다" "yum" ErrorLevelError.
Definition ErrYumSignatureVerification : DomainError := predefined "YUM008" "YUM 패키지 서명 검증에 실패했습니다" "yum" ErrorLevelError.
Definition ErrYumProxyDisabled : DomainError := predefined "YUM009" "YUM 프록시가 비활성화되어 있습니다" "yum" ErrorLevelError.
Definition ErrYumRepomdNotFound : DomainError := predefined "YUM010" "YUM repomd.xml을 찾을 수 없습니다" "yum" ErrorLevelError.
Definition ErrApkPackageNotFound : DomainError := predefined "APK001" "APK 패키지를 찾을 수 없습니다" "apk" ErrorLevelWarning.
Definition ErrApkMirrorUnavailable : DomainError := predefined "APK002" "APK 미러 서버에 접근할 수 없습니다" "apk" ErrorLevelError.
Definition ErrApkSignatureVerification : DomainError := predefined "APK003" "APK 패키지 서명 검증에 실패했습니다" "apk" ErrorLevelError.
Definition ErrApkTimeout : DomainError := predefined "APK004" "APK 서버 응답 타임아웃" "apk" ErrorLevelError.
Definition ErrApkInvalidPath : DomainError := predefined "APK005" "잘못된 패키지 경로입니다" "apk" ErrorLevelError.
Definition ErrApkConfigError : DomainError := predefined "APK006" "APK 설정 파일을 읽을 수 없습니다" "apk" ErrorLevelCritical.
Definition ErrApkIndexCorrupted : DomainError := predefined "APK007" "APK 패키지 인덱스가 손상되었습니다" "apk" ErrorLevelError.
Definition ErrApkKeyNotFound : DomainError := predefined "APK008" "APK 서명 키를 찾을 수 없습니다" "apk" ErrorLevelError.
Definition ErrApkProxyDisabled : DomainError := predefined "APK009" "APK 프록시가 비활성화되어 있습니다" "apk" ErrorLevelError.
Definition ErrApkMirrorSelectionFailed : DomainError := predefined "APK010" "APK 미러 선택에 실패했습니다" "apk" ErrorLevelError.

Definition ErrCacheNotFound : DomainError := new_in "cache" init "CACHE001" "캐시 항목을 찾을 수 없습니다".
Definition ErrCacheExpired : DomainError := new_in "cache" init "CACHE002" "캐시가 만료되었습니다".
Definition ErrCacheInvalidData : DomainError := new_in "cache" init "CACHE003" "캐시 데이터가 손상되었습니다".
Definition ErrSystemInternal : DomainError := new_in "system" init "SYS001" "내부 시스템 오류".
Definition ErrConfigInvalid : DomainError := new_in "system" init "SYS002" "설정이 잘못되었습니다".
Definition ErrAuthInvalidCredentials : DomainError := new_in "auth" init "AUTH001" "잘못된 인증 정보".
Definition ErrAuthTokenExpired : DomainError := new_in "auth" init "AUTH002" "토큰이 만료됨".

(** The errors of the package managers, and all of them. *)
Definition package_errors : list DomainError := [
  ErrAPTPackageNotFound; ErrAPTMirrorUnavailable; ErrAPTInvalidPackageFormat; ErrAPTProxyDisabled; ErrAPTInvalidPath; ErrAPTConfigError;
  ErrMavenArtifactNotFound; ErrMavenChecksumMismatch; ErrMavenRepositoryUnavailable; ErrMavenProxyDisabled; ErrMavenInvalidArtifactPath; ErrMavenConfigError;
  ErrMavenSnapshotDownload; ErrMavenInvalidFormat; ErrNPMPackageNotFound; ErrNPMRegistryUnavailable; ErrNPMInvalidPackageFormat; ErrNPMProxyDisabled;
  ErrNPMInvalidPath; ErrNPMConfigError; ErrNPMMetadataCorrupted; ErrNPMTarballDownload; ErrDockerImageNotFound; ErrDockerRegistryUnavailable;
  ErrDockerAuthenticationRequired; ErrDockerProxyDisabled; ErrDockerInvalidPath; ErrDockerConfigError; ErrDockerManifestCorrupted; ErrDockerBlobDownload;
  ErrDockerDigestMismatch; ErrPipPackageNotFound; ErrPipMirrorUnavailable; ErrPipInvalidPackageFormat; ErrPipTimeout; ErrPipInvalidPath;
  ErrPipConfigError; ErrPipWheelCorrupted; ErrPipIndexCorrupted; ErrPipProxyDisabled; ErrYumPackageNotFound; ErrYumMirrorUnavailable;
  ErrYumRpmCorrupted; ErrYumTimeout; ErrYumInvalidPath; ErrYumConfigError; ErrYumMetadataCorrupted; ErrYumSignatureVerification;
  ErrYumProxyDisabled; ErrYumRepomdNotFound; ErrApkPackageNotFound; ErrApkMirrorUnavailable; ErrApkSignatureVerification; ErrApkTimeout;
  ErrApkInvalidPath; ErrApkConfigError; ErrApkIndexCorrupted; ErrApkKeyNotFound; ErrApkProxyDisabled; ErrApkMirrorSelectionFailed].
Definition all_errors : list DomainError := package_errors ++ [
  ErrCacheNotFound; ErrCacheExpired; ErrCacheInvalidData; ErrSystemInternal; ErrConfigInvalid; ErrAuthInvalidCredentials;
  ErrAuthTokenExpired].
End predefined.

(** ** Statuses ([http_mapping.go]) *)

Definition status_table : list (string * Z) := [
  ("APT001", 404); ("APT002", 503); ("APT003", 400); ("APT004", 403); ("APT005", 400); ("APT006", 500);
  ("MAVEN001", 404); ("MAVEN002", 503); ("MAVEN003", 422); ("MAVEN004", 403); ("MAVEN005", 400); ("MAVEN006", 500);
  ("MVN001", 404); ("MVN002", 422); ("MVN003", 503); ("MVN004", 403); ("MVN005", 400); ("MVN006", 500);
  ("MVN007", 502); ("MVN008", 400); ("NPM001", 404); ("NPM002", 503); ("NPM003", 400); ("NPM004", 403);
  ("NPM005", 400); ("NPM006", 500); ("NPM007", 422); ("NPM008", 502); ("DOCKER001", 404); ("DOCKER002", 503);
  ("DOCKER003", 401); ("DOCKER004", 403); ("DOCKER005", 400); ("DOCKER006", 500); ("DOCKER007", 422); ("DOCKER008", 502);
  ("DOCKER009", 422); ("PIP001", 404); ("PIP002", 503); ("PIP003", 400); ("PIP004", 504); ("PIP005", 400);
  ("PIP006", 500); ("PIP007", 422); ("PIP008", 422); ("PIP009", 403); ("YUM001", 404); ("YUM002", 503);
  ("YUM003", 422); ("YUM004", 504); ("YUM005", 400); ("YUM006", 500); ("YUM007", 422); ("YUM008", 422);
  ("YUM009", 403); ("YUM010", 404); ("APK001", 404); ("APK002", 503); ("APK003", 422); ("APK004", 504);
  ("APK005", 400); ("APK006", 500); ("APK007", 422); ("APK008", 404); ("APK009", 403); ("APK010", 503);
  ("CACHE001", 404); ("CACHE002", 507); ("CACHE003", 500); ("CACHE_READ", 500); ("CACHE_WRITE", 500); ("SYS001", 500);
  ("SYS002", 500); ("SYS003", 500); ("SYSTEM001", 500); ("CONFIG001", 500); ("PANIC001", 500); ("AUTH001", 401);
  ("AUTH002", 403); ("AUTH_FAILED", 401); ("AUTHZ_FAILED", 403); ("PROXY001", 503); ("PROXY002", 500); ("PROXY003", 500)].
Definition errorToHTTPStatus : gmap string Z := list_to_map status_table.

Definition GetHTTPStatus (err : error) : Z :=
  match err with
  | EDomain d =>
      match errorToHTTPStatus !! Code d with
      | Some status => status
      | None =>
          if Level d =? ErrorLevelWarning then 404
          else if Level d =? ErrorLevelError then 400
          else if Level d =? ErrorLevelCritical then 500
          else 500
      end
  | EFiber code _ => code
  | EOther _ => 500
  end.

Definition GetHTTPStatusByCode (errorCode : string) : Z := default 500 (errorToHTTPStatus !! errorCode).
Definition IsClientError (err : error) : bool := (400 <=? GetHTTPStatus err) && (GetHTTPStatus err <? 500).
Definition IsServerError (err : error) : bool := 500 <=? GetHTTPStatus err.

(** ** Answers and logs ([utils.go]) *)

(** The cases of [generateSuggestions]; each is a list of texts. *)
Inductive suggestion := SNotFound | SUnreachable | SAuthentication | STimeout | SPath | SConfiguration | SDisabled | SLater.

Definition disabled_text : string := "비활성화".

Definition generateSuggestions (err : DomainError) : suggestion :=
  if HasSuffix (Code err) "001" then SNotFound
  else if HasSuffix (Code err) "002" then SUnreachable
  else if Contains (Code err) "AUTH" || HasSuffix (Code err) "003" then SAuthentication
  else if HasSuffix (Code err) "004" then STimeout
  else if HasSuffix (Code err) "005" then SPath
  else if HasSuffix (Code err) "006" then SConfiguration
  else if Contains (Message err) disabled_text then SDisabled
  else SLater.

(** What [SendProxyError] answers: the status and the error of the body, whose code
    and domain are headers too. *)
Definition as_domain_error (now : instant) (err : error) : DomainError :=
  match err with
  | EDomain d => d
  | _ => WithLevel ErrorLevelError (WithDomain "system" (NewError now "UNKNOWN001" (error_text err)))
  end.

Record proxy_answer := mkAnswer { pa_Status : Z; pa_Error : DomainError; pa_Suggestions : suggestion }.

Definition SendProxyError (now : instant) (err : error) : proxy_answer :=
  let domainErr := as_domain_error now err in
  mkAnswer (GetHTTPStatus (EDomain domainErr)) domainErr (generateSuggestions domainErr).

Definition IsRetryableError (err : error) : bool :=
  match err with
  | EDomain d =>
      if HasSuffix (Code d) "002" || HasSuffix (Code d) "004" then true
      else if HasPrefix (Code d) "CACHE" then true
      else IsServerError err
  | _ => false
  end.

Definition GetErrorSeverity (err : error) : string :=
  match err with EDomain d => level_string (Level d) | _ => "error" end.

(** The values of a log entry. *)
Inductive log_value := LogText (s : string) | LogTime (t : instant).

Definition FormatErrorForLogging (err : error) (context : gmap string log_value) : gmap string log_value :=
  let logData : gmap string log_value :=
    match err with
    | EDomain d =>
        let base := <["error_timestamp"%string := LogTime (Timestamp d)]> (<["error_level"%string := LogText (level_string (Level d))]>
          (<["error_domain"%string := LogText (Domain d)]> (<["error_message"%string := LogText (Message d)]>
            (<["error_code"%string := LogText (Code d)]> ∅)))) in
        let base := match Details d with Some x => <["error_details"%string := LogText x]> base | None => base end in
        match Cause d with Some c => <["error_cause"%string := LogText (error_text c)]> base | None => base end
    | _ => <["error_level"%string := LogText "error"]> (<["error_message"%string := LogText (error_text err)]> ∅)
    end in
  context ∪ logData.

Definition ErrorCodeExists (code : string) : bool := bool_decide (is_Some (errorToHTTPStatus !! code)).

(** In the order in which the table is iterated. *)
Definition GetErrorsByDomain (order : list string) (domain : string) : list string :=
  filter (λ code, HasPrefix code (to_upper domain) = true) order.

Inductive code_error := CodeEmpty | CodeShort | CodeInvalid.

Definition code_char (c : ascii) : bool :=
  let n := Z.of_nat (nat_of_ascii c) in
  ((65 <=? n) && (n <=? 90)) || ((48 <=? n) && (n <=? 57)) || (n =? 95).

(** The bytes of a character beyond ASCII are not allowed either. *)
Definition ValidateErrorCode (code : string) : option code_error :=
  if String.eqb code EmptyString then Some CodeEmpty
  else if (String.length code <? 3)%nat then Some CodeShort
  else if str_all code_char code then None
  else Some CodeInvalid.

(** ** Lemmas *)

Lemma status_in_table code status : errorToHTTPStatus !! code = Some status → (code, status) ∈ status_table.
Proof. apply elem_of_list_to_map_2. Qed.

Lemma table_bounds : Forall (λ x, 400 <= x.2 < 600) status_table.
Proof. by apply (bool_decide_unpack _); vm_compute. Qed.

Lemma domain_status d : 400 <= GetHTTPStatus (EDomain d) < 600.
Proof.
  unfold GetHTTPStatus. destruct (errorToHTTPStatus !! Code d) as [s|] eqn:E.
  - apply status_in_table in E. pose proof table_bounds as H. rewrite list.Forall_forall in H. exact (H _ E).
  - repeat case_match; lia.
Qed.

(** ** The predefined errors *)

(** The predefined errors are told apart by their codes; each code is well-formed
    and has a status: 404 for a warning and 500 for a critical error of a package
    manager, and another one from 400 on for the rest. *)
Theorem predefined_errors_sound init :
  NoDup (Code <$> all_errors init) ∧
  Forall (λ e, ErrorCodeExists (Code e) = true ∧ ValidateErrorCode (Code e) = None) (all_errors init) ∧
  Forall (λ e, (Level e = ErrorLevelWarning → GetHTTPStatus (EDomain e) = 404) ∧
               (Level e = ErrorLevelCritical ↔ GetHTTPStatus (EDomain e) = 500)) (package_errors init).
Proof.
  split_and!.
  - by apply (bool_decide_unpack _); vm_compute.
  - apply list.Forall_forall. intros e He. enough (forallb (λ e, ErrorCodeExists (Code e) && match ValidateErrorCode (Code e) with None => true | _ => false end)
      (all_errors init) = true) as H.
    { rewrite forallb_forall in H. apply list_elem_of_In in He. specialize (H e He). apply andb_true_iff in H as [-> H].
      by destruct (ValidateErrorCode (Code e)). }
    by vm_compute.
  - apply list.Forall_forall. intros e He. enough (forallb (λ e, (negb (Level e =? ErrorLevelWarning) || (GetHTTPStatus (EDomain e) =? 404))
      && Bool.eqb (Level e =? ErrorLevelCritical) (GetHTTPStatus (EDomain e) =? 500)) (package_errors init) = true) as H.
    { rewrite forallb_forall in H. apply list_elem_of_In in He. specialize (H e He). apply andb_true_iff in H as [H1 H2].
      apply Bool.eqb_prop in H2. split; [intros E; rewrite E in H1; cbn in H1; by apply Z.eqb_eq|]. rewrite <- (Z.eqb_eq (GetHTTPStatus _)), <- H2. symmetry. apply Z.eqb_eq. }
    by vm_compute.
Qed.

(** Every structured error, with a known code or not, is either a client's or a
    server's error, and not both. *)
Theorem error_classes d : IsServerError (EDomain d) = negb (IsClientError (EDomain d)).
Proof. unfold IsServerError, IsClientError. pose proof (domain_status d). apply eq_true_iff_eq. rewrite negb_true_iff. lia. Qed.

(** An error that is not structured is sent as a client's error, 400, with the
    suggestions for a package that was not found; its status is 500, or the one the
    framework chose. *)
Theorem plain_errors_are_client_errors now message code :
  pa_Status (SendProxyError now (EOther message)) = 400 ∧ GetHTTPStatus (EOther message) = 500 ∧
  pa_Status (SendProxyError now (EFiber code message)) = 400 ∧ GetHTTPStatus (EFiber code message) = code ∧
  pa_Suggestions (SendProxyError now (EOther message)) = SNotFound.
Proof. by vm_compute. Qed.

(** A proxy that is switched off is a reason to try again for four of the package
    managers, and their clients are told to wait; for the other three it is not. *)
Theorem disabled_is_retryable init :
  Forall (λ e, GetHTTPStatus (EDomain e) = 403 ∧ IsRetryableError (EDomain e) = true ∧ generateSuggestions e = STimeout)
    [ErrAPTProxyDisabled init; ErrMavenProxyDisabled init; ErrNPMProxyDisabled init; ErrDockerProxyDisabled init] ∧
  Forall (λ e, GetHTTPStatus (EDomain e) = 403 ∧ IsRetryableError (EDomain e) = false ∧ generateSuggestions e = SDisabled)
    [ErrPipProxyDisabled init; ErrYumProxyDisabled init; ErrApkProxyDisabled init].
Proof. by vm_compute; repeat constructor. Qed.

(** The predefined errors that are worth another try are those of servers and of
    the cache, the switched-off proxies of four package managers, a checksum that does
    not match, and an expired token. *)
Theorem retryable_errors init :
  filter (λ e, IsRetryableError (EDomain e) = true ∧ IsServerError (EDomain e) = false) (all_errors init) =
  [ErrAPTProxyDisabled init; ErrMavenChecksumMismatch init; ErrMavenProxyDisabled init; ErrNPMProxyDisabled init;
   ErrDockerProxyDisabled init; ErrCacheNotFound init; ErrAuthTokenExpired init].
Proof. by vm_compute. Qed.

(** Asked for the errors of Maven, in whatever order the table is iterated, the
    answer contains no code of the predefined errors of Maven. *)
Theorem maven_domain_misses_its_errors init order e
    (He : e ∈ [ErrMavenArtifactNotFound init; ErrMavenChecksumMismatch init; ErrMavenRepositoryUnavailable init; ErrMavenProxyDisabled init;
               ErrMavenInvalidArtifactPath init; ErrMavenConfigError init; ErrMavenSnapshotDownload init; ErrMavenInvalidFormat init]) :
  Domain e = "maven" ∧ ErrorCodeExists (Code e) = true ∧ Code e ∉ GetErrorsByDomain order (Domain e).
Proof.
  assert (Domain e = "maven" ∧ ErrorCodeExists (Code e) = true ∧ HasPrefix (Code e) "MAVEN" = false) as (Hd & Hx & Hp).
  { set_unfold. destruct_or?; subst e; by vm_compute. }
  split_and!; [done..|]. unfold GetErrorsByDomain. rewrite Hd, list_elem_of_filter.
  change (to_upper "maven") with "MAVEN"%string. rewrite Hp. by intros [? _].
Qed.

(** A code is valid exactly when it has at least three bytes, each of them a
    capital letter, a digit or an underscore. *)
Theorem ValidateErrorCode_iff code :
  ValidateErrorCode code = None ↔ (3 <= String.length code)%nat ∧ str_all code_char code = true.
Proof.
  unfold ValidateErrorCode. destruct (String.eqb_spec code EmptyString) as [->|Hne]; [cbn; split; [done|lia]|].
  destruct (String.length code <? 3)%nat eqn:E; [apply Nat.ltb_lt in E|apply Nat.ltb_ge in E];
    destruct (str_all code_char code) eqn:Es; split; (done || (try lia)); intros [? ?]; lia || done.
Qed.

(** The context of a log entry wins over what is known of the error: its own
    fields are kept only where the context has none. *)
Theorem log_context_wins err context k :
  FormatErrorForLogging err context !! k = match context !! k with Some v => Some v | None => FormatErrorForLogging err ∅ !! k end.
Proof. unfold FormatErrorForLogging. rewrite lookup_union, map_empty_union. destruct (context !! k); [by rewrite union_Some_l|by rewrite option_union_left_id]. Qed.

Lemma maven_domain_misses_its_errors_witness :
  Domain (ErrMavenChecksumMismatch 0) = "maven" ∧ ErrorCodeExists (Code (ErrMavenChecksumMismatch 0)) = true ∧
  Code (ErrMavenChecksumMismatch 0) ∉ GetErrorsByDomain ["MVN002"; "MAVEN002"]%string (Domain (ErrMavenChecksumMismatch 0)).
Proof. apply (maven_domain_misses_its_errors 0). right. left. Defined.
