(* ===== verification/HttpErrors.v ===== *)
(** * HttpErrors: what becomes of errors and panics, and the identifier of a request

    Models, under [src/internal/adapters/http/fiber/middleware]: [error_handler.go],
    [error_recovery.go], [recovery.go] and [request_id.go].  The handlers behind a
    middleware return an error or panic; a middleware adds to the log of the
    request and may write a body.  Stack traces, values of panics as text, identifiers
    made by the UUID library and random bytes are arguments. *)

From Stdlib Require Import Ascii.
From S2P Require Import Prelude GoStrings GoHashes GoNet DomainErrors Fiber.

(** ** Handlers that may panic *)

Inductive result := Returned (e : option error) | Panicked (v : string).

(** The handlers that follow, given what has been done. *)
Class Behind := { behind : Ctx → log → log * result }.

Definition next `{!Behind} (c : Ctx) (tr : log) : log * result :=
  let '(acts, r) := behind c tr in (tr ++ CallNext :: acts, r).

Record ErrorResponse := mkErrorResponse {
  er_Error : string;
  er_Message : string;
  er_Domain : string;
  er_Details : option string;
  er_TraceID : string;
  er_Timestamp : instant
}.

(** The body that a middleware writes: of an error, or of the recovery with what it
    says about the panic: its value and the stack. *)
Inductive body := BError (r : ErrorResponse) | BRecovered (debug : option (string * string)).

Definition answer : Type := log * result * option body.

Definition status_of (tr : log) (status : Z) : log := tr ++ [Reply status].

Section errors.
Context `{HBE : !Behind}.

(** ** [error_handler.go] *)

Definition unknownTraceID : string := "unknown".

(** [c.Locals("requestID")], when it is a text. *)
Definition trace_id (c : Ctx) (tr : log) : string :=
  match Locals c tr "requestID" with Some (LStr s) => s | _ => unknownTraceID end.

Definition handleDomainError (tr : log) (err : DomainError) (traceID : string) : answer :=
  (status_of tr (GetHTTPStatus (EDomain err)), Returned None,
   Some (BError (mkErrorResponse (Code err) (Message err) (Domain err) (Details err) traceID (Timestamp err)))).

Definition handleFiberError (now : instant) (tr : log) (code : Z) (message traceID : string) : answer :=
  (status_of tr code, Returned None, Some (BError (mkErrorResponse "FIBER_ERROR" message EmptyString None traceID now))).

Definition handleGenericError (now : instant) (tr : log) (traceID : string) : answer :=
  (status_of tr 500, Returned None,
   Some (BError (mkErrorResponse "INTERNAL_ERROR" "내부 서버 오류가 발생했습니다" EmptyString None traceID now))).

Definition ErrorHandler (now : instant) (c : Ctx) (tr : log) : answer :=
  match next c tr with
  | (tr, Panicked v) => (tr, Panicked v, None)
  | (tr, Returned None) => (tr, Returned None, None)
  | (tr, Returned (Some err)) =>
      let traceID := trace_id c tr in
      match err with
      | EDomain d => handleDomainError tr d traceID
      | EFiber code message => handleFiberError now tr code message traceID
      | EOther _ => handleGenericError now tr traceID
      end
  end.

(** The severity under which an error is logged. *)
Definition getLogLevel (level : ErrorLevel) : string :=
  if level =? ErrorLevelInfo then "info"
  else if level =? ErrorLevelWarning then "warning"
  else if level =? ErrorLevelError then "error"
  else if level =? ErrorLevelCritical then "critical"
  else "error".

Definition LegacyErrorHandler (c : Ctx) (tr : log) : answer := (next c tr, None).

(** ** [error_recovery.go] *)

(** The details of the error of a panic, as text: the value, the stack if it is kept,
    and the identifier. *)
Context (panic_details : string → option string → string → string).

Definition panic_error (now : instant) (v : string) (stack : option string) (traceID : string) : DomainError :=
  WithDetails (Some (panic_details v stack traceID))
    (WithLevel ErrorLevelCritical (WithDomain "system" (NewError now "PANIC001" "서버 패닉이 발생했습니다"))).

(** The details are not sent. *)
Definition panic_response (e : DomainError) (traceID : string) : ErrorResponse :=
  mkErrorResponse (Code e) (Message e) (Domain e) None traceID (Timestamp e).

Definition ErrorRecovery (now : instant) (stack : string) (c : Ctx) (tr : log) : answer :=
  match next c tr with
  | (tr, Panicked v) =>
      let traceID := trace_id c tr in
      let e := panic_error now v (Some stack) traceID in
      (status_of (set_local "panic_error" LOther tr) 500, Returned None, Some (BError (panic_response e traceID)))
  | (tr, r) => (tr, r, None)
  end.

(** [StackTraceHandler] is left out: the program never sets it. *)
Definition RecoveryWithConfig (EnableStackTrace : bool) (now : instant) (stack : string) (c : Ctx) (tr : log) : answer :=
  match next c tr with
  | (tr, Panicked v) =>
      let traceID := trace_id c tr in
      let e := panic_error now v (if EnableStackTrace then Some stack else None) traceID in
      (status_of tr 500, Returned None, Some (BError (panic_response e traceID)))
  | (tr, r) => (tr, r, None)
  end.

(** ** [recovery.go] *)

Record RecoveryConfig := mkRecovery { rc_Enabled : bool; rc_EnableStackTrace : bool }.

Definition NewRecoveryMiddleware (config : option RecoveryConfig) : RecoveryConfig := default (mkRecovery true true) config.

Definition handlePanic (config : RecoveryConfig) (stack : string) (tr : log) (recovered : string) : answer :=
  (status_of tr 500, Returned None, Some (BRecovered (if rc_EnableStackTrace config then Some (recovered, stack) else None))).

Definition RecoveryHandler (config : RecoveryConfig) (stack : string) (c : Ctx) (tr : log) : answer :=
  if negb (rc_Enabled config) then (next c tr, None)
  else match next c tr with
  | (tr, Panicked v) => handlePanic config stack tr v
  | (tr, r) => (tr, r, None)
  end.

(** The digits after the first space, as an unsigned integer of 64 bits. *)
Fixpoint goroutine_digits (id : Z) (s : string) : Z :=
  match s with
  | String c s' => if is_digit c then goroutine_digits ((id * 10 + (Z.of_nat (nat_of_ascii c) - 48)) mod 2 ^ 64) s' else id
  | EmptyString => id
  end.

Fixpoint parseGoroutineID (stack : string) : Z :=
  match stack with
  | String c s => if Ascii.eqb c " " then goroutine_digits 0 s else parseGoroutineID s
  | EmptyString => 0
  end.

(** ** [request_id.go] *)

Inductive RequestIDGenerator :=
| UUIDRequestIDGenerator (headerName : string)
| NanoIDRequestIDGenerator (headerName alphabet : string) (size : nat)
| CustomRequestIDGenerator (headerName : string) (generator : option string)
| HexRequestIDGenerator (headerName : string) (length : nat).

Definition HeaderXRequestID : string := "X-Request-ID".
Definition or_header (headerName : string) : string := if String.eqb headerName EmptyString then HeaderXRequestID else headerName.

Definition NewUUIDRequestIDGenerator (headerName : string) : RequestIDGenerator := UUIDRequestIDGenerator (or_header headerName).

Definition default_alphabet : string := "0123456789ABCDEFGHIJKLMNOPQRSTUVWXYZabcdefghijklmnopqrstuvwxyz".

Definition NewNanoIDRequestIDGenerator (headerName alphabet : string) (size : Z) : RequestIDGenerator :=
  NanoIDRequestIDGenerator (or_header headerName) (if String.eqb alphabet EmptyString then default_alphabet else alphabet)
    (if size <=? 0 then 21%nat else Z.to_nat size).

(** [generator] is what the given function returns, if there is one. *)
Definition NewCustomRequestIDGenerator (headerName : string) (generator : option string) : RequestIDGenerator :=
  CustomRequestIDGenerator (or_header headerName) generator.

Definition NewHexRequestIDGenerator (headerName : string) (length : Z) : RequestIDGenerator :=
  HexRequestIDGenerator (or_header headerName) (if length <=? 0 then 16%nat else Z.to_nat length).

Definition headerName (g : RequestIDGenerator) : string :=
  match g with
  | UUIDRequestIDGenerator h | NanoIDRequestIDGenerator h _ _ | CustomRequestIDGenerator h _ | HexRequestIDGenerator h _ => h
  end.

(** The character of a random byte. *)
Definition nano_char (alphabet : string) (b : Z) : ascii :=
  default zero (String.get (Z.to_nat (b mod Z.of_nat (String.length alphabet))) alphabet).

Fixpoint nano_text (alphabet : string) (bytes : list Z) : string :=
  match bytes with [] => EmptyString | b :: bs => String (nano_char alphabet b) (nano_text alphabet bs) end.

(** [rand] fills a slice of a length, or fails; [uuid] is a new UUID. *)
Definition Generate (rand : nat → option (list Z)) (uuid : string) (g : RequestIDGenerator) : string :=
  match g with
  | UUIDRequestIDGenerator _ => uuid
  | NanoIDRequestIDGenerator _ alphabet size =>
      match rand size with None => uuid | Some bytes => nano_text alphabet bytes end
  | CustomRequestIDGenerator _ f => default uuid f
  | HexRequestIDGenerator _ n => match rand n with None => uuid | Some bytes => hex_encode bytes end
  end.

Definition Extract (c : Ctx) (tr : log) (g : RequestIDGenerator) : string :=
  if negb (String.eqb (Get c (headerName g)) EmptyString) then Get c (headerName g)
  else match Locals c tr "request_id" with Some (LStr id) => id | _ => EmptyString end.

Definition SetRequestID (id : string) (g : RequestIDGenerator) (tr : log) : log :=
  set_header (headerName g) id (set_local "request_id" (LStr id) tr).

Record RequestIDConfig := mkRequestID { ri_Enabled : bool; ri_HeaderName : string; ri_Generator : string }.

Definition CreateRequestIDGenerator (config : option RequestIDConfig) : RequestIDGenerator :=
  match config with
  | None => NewUUIDRequestIDGenerator EmptyString
  | Some cfg =>
      if String.eqb (ri_Generator cfg) "uuid" then NewUUIDRequestIDGenerator (ri_HeaderName cfg)
      else if String.eqb (ri_Generator cfg) "nanoid" then NewNanoIDRequestIDGenerator (ri_HeaderName cfg) EmptyString 0
      else if String.eqb (ri_Generator cfg) "hex" then NewHexRequestIDGenerator (ri_HeaderName cfg) 0
      else NewUUIDRequestIDGenerator (ri_HeaderName cfg)
  end.

Definition NewRequestIDMiddleware (config : option RequestIDConfig) (generator : option RequestIDGenerator) : RequestIDConfig * RequestIDGenerator :=
  let config := default (mkRequestID true HeaderXRequestID "uuid") config in
  (config, default (NewUUIDRequestIDGenerator (ri_HeaderName config)) generator).

(** [inner] is the handler that the middleware wraps. *)
Definition RequestIDHandler {A} (config : RequestIDConfig) (g : RequestIDGenerator) (rand : nat → option (list Z)) (uuid : string)
    (inner : Ctx → log → A) (c : Ctx) (tr : log) : A :=
  let requestID := Extract c tr g in
  let requestID := if String.eqb requestID EmptyString then Generate rand uuid g else requestID in
  inner c (set_header (ri_HeaderName config) requestID (SetRequestID requestID g tr)).

(** ** Lemmas *)

Lemma Locals_app_other c tr acts k :
  Forall (λ a, match a with SetLocal k' _ => k' ≠ k | _ => True end) acts → Locals c (tr ++ acts) k = Locals c tr k.
Proof.
  revert tr. induction acts as [|a acts IH]; intros tr H; [by rewrite app_nil_r|]. apply list.Forall_cons in H as [Ha H].
  change (tr ++ a :: acts) with (tr ++ [a] ++ acts). rewrite (assoc_L app), IH by done.
  unfold Locals. rewrite rev_app_distr. cbn. destruct a; try done. by apply String.eqb_neq in Ha as ->.
Qed.

Lemma StatusCode_reply tr s : StatusCode (status_of tr s) = s.
Proof. unfold StatusCode, status_of. by rewrite rev_app_distr. Qed.

Lemma Locals_after_next c tr tr' r k :
  (∀ t, Forall (λ a, match a with SetLocal k' _ => k' ≠ k | _ => True end) (behind c t).1) →
  next c tr = (tr', r) → Locals c tr' k = Locals c tr k.
Proof.
  unfold next. intros H E. specialize (H tr). destruct (behind c tr) as [acts r']. injection E as <- <-.
  apply Locals_app_other. by constructor.
Qed.

(** ** Errors *)

(** The error handler turns every error into an answer with the error's status,
    and lets only success and panics through. *)
Theorem ErrorHandler_answers now c tr tr' e
    (Hn : next c tr = (tr', Returned (Some e))) :
  ∃ r, ErrorHandler now c tr = (status_of tr' (GetHTTPStatus e), Returned None, Some (BError r)) ∧
    StatusCode (ErrorHandler now c tr).1.1 = GetHTTPStatus e ∧ er_TraceID r = trace_id c tr' ∧
    er_Error r = match e with EDomain d => Code d | EFiber _ _ => "FIBER_ERROR" | EOther _ => "INTERNAL_ERROR" end.
Proof.
  unfold ErrorHandler. rewrite Hn. destruct e as [d|code m|m]; cbn [fst]; eexists; (split; [reflexivity|]);
    (split; [apply StatusCode_reply|done]).
Qed.

(** The identifier of a request never reaches an error answer: the middleware
    stores it as [request_id], the error handler behind it reads [requestID], so that,
    unless another handler stores that, every answer has the trace [unknown]. *)
Theorem trace_id_lost cfg g rand uuid now c r
    (Hc : c_Locals c !! "requestID"%string = None)
    (Hb : ∀ t, Forall (λ a, match a with SetLocal k _ => k ≠ "requestID"%string | _ => True end) (behind c t).1)
    (Ha : (RequestIDHandler cfg g rand uuid (ErrorHandler now) c []).2 = Some (BError r)) :
  er_TraceID r = unknownTraceID.
Proof.
  unfold RequestIDHandler in Ha. set (tr := set_header _ _ _) in Ha.
  assert (∀ tr' x, next c tr = (tr', x) → trace_id c tr' = unknownTraceID) as Ht.
  { intros tr' x E. unfold trace_id. rewrite (Locals_after_next _ _ _ _ _ Hb E). subst tr. unfold SetRequestID.
    rewrite !Locals_header, Locals_set. cbn [String.eqb Ascii.eqb eqb]. unfold Locals. cbn. by rewrite Hc. }
  unfold ErrorHandler in Ha. destruct (next c tr) as [tr' [[[d|code m|m]|]|v]] eqn:E; [..|done|done];
    cbn in Ha; injection Ha as <-; cbn; by eapply Ht.
Qed.

(** ** Panics *)

(** The recovery of the chain turns a panic into the answer 500 and success; with
    the configuration by default, the value of the panic and the stack go to the
    client. *)
Theorem recovery_discloses stack c tr tr' v
    (Hn : next c tr = (tr', Panicked v)) :
  RecoveryHandler (NewRecoveryMiddleware None) stack c tr = (status_of tr' 500, Returned None, Some (BRecovered (Some (v, stack)))).
Proof. unfold RecoveryHandler. cbn. by rewrite Hn. Qed.

(** The three recoveries let no panic through; a panic is the answer 500, and only
    the one of the chain says more than the code and the message. *)
Theorem recoveries_contain config b now stack c tr (He : rc_Enabled config = true) :
  let safe (a : answer) := ∀ v, a.1.2 ≠ Panicked v in
  safe (RecoveryHandler config stack c tr) ∧ safe (ErrorRecovery now stack c tr) ∧ safe (RecoveryWithConfig b now stack c tr) ∧
  ((∃ v, (next c tr).2 = Panicked v) →
    StatusCode (RecoveryHandler config stack c tr).1.1 = 500 ∧ StatusCode (ErrorRecovery now stack c tr).1.1 = 500 ∧
    StatusCode (RecoveryWithConfig b now stack c tr).1.1 = 500 ∧
    ∃ r, (ErrorRecovery now stack c tr).2 = Some (BError r) ∧ er_Details r = None ∧ er_Error r = "PANIC001").
Proof.
  cbv zeta. unfold RecoveryHandler, ErrorRecovery, RecoveryWithConfig, handlePanic. rewrite He. cbn [negb].
  destruct (next c tr) as [tr' [e|v]]; cbn [fst snd].
  - split_and!; [done..|]. by intros [v ?].
  - split_and!; [done..|]. intros _. rewrite !StatusCode_reply. eauto 10.
Qed.

Lemma goroutine_digits_spec id m w v rest :
  digits_go m w = Some v → id = m mod 2 ^ 64 → goroutine_digits id (w +:+ String " " rest) = v mod 2 ^ 64.
Proof.
  revert id m. induction w as [|c w IH]; intros id m Hd ->; [by injection Hd as <-|]. revert Hd. cbn [digits_go].
  rewrite str_app_cons. cbn [goroutine_digits]. destruct (is_digit c); [|done]. intros Hd. eapply IH; [exact Hd|].
  change (Z.of_nat (nat_of_ascii c)) with (byte_of c). rewrite <- Zplus_mod_idemp_l, Zmult_mod_idemp_l, Zplus_mod_idemp_l. f_equal. lia.
Qed.

(** The number of a goroutine is read back from the first line of its stack, modulo
    2^64. *)
Theorem parseGoroutineID_stack n rest : parseGoroutineID ("goroutine " +:+ (pretty n +:+ String " " rest)) = Z.of_N n mod 2 ^ 64.
Proof.
  change (parseGoroutineID _) with (goroutine_digits 0 (pretty n +:+ String " " rest)).
  apply (goroutine_digits_spec 0 0); [|by vm_compute]. pose proof (parse_uint_pretty n) as H. unfold parse_uint in H.
  by destruct (pretty n).
Qed.

(** ** Identifiers *)

(** The handlers behind see one identifier, in the local, in the header of the
    generator and in that of the configuration: the one the client sent, unless it
    sent none; then the local's, and a new one if there is none either. *)
Theorem request_id_adopted cfg g rand uuid c tr :
  let id := RequestIDHandler cfg g rand uuid (λ c tr, default (LStr EmptyString) (Locals c tr "request_id")) c tr in
  id = LStr (if negb (String.eqb (Get c (headerName g)) EmptyString) then Get c (headerName g)
             else match Locals c tr "request_id" with
                  | Some (LStr l) => if String.eqb l EmptyString then Generate rand uuid g else l
                  | _ => Generate rand uuid g
                  end) ∧
  RequestIDHandler cfg g rand uuid (λ _ tr, tr) c tr =
    tr ++ [SetLocal "request_id" id; SetHeader (headerName g) (match id with LStr s => s | _ => EmptyString end);
           SetHeader (ri_HeaderName cfg) (match id with LStr s => s | _ => EmptyString end)].
Proof.
  cbv zeta. unfold RequestIDHandler, SetRequestID. rewrite !Locals_header, Locals_set. cbn [String.eqb Ascii.eqb eqb default from_option].
  unfold id. unfold set_header, set_local. rewrite <- !app_assoc. cbn [app]. split; [|done].
  unfold Extract. destruct (String.eqb_spec (Get c (headerName g)) EmptyString) as [E|E]; cbn [negb].
  - destruct (Locals c tr "request_id") as [[]|]; done || by destruct (String.eqb_spec s EmptyString) as [->|].
  - by apply String.eqb_neq in E as ->.
Qed.

Lemma get_In k s : (k < String.length s)%nat → In (default zero (String.get k s)) (String.list_ascii_of_string s).
Proof. revert k. induction s as [|c s IH]; intros k Hk; [cbn in Hk; lia|]. destruct k; [by left|]. right. apply IH. cbn in Hk. lia. Qed.

(** How many of the bytes are drawn as the [i]-th character. *)
Definition draws (n i : Z) : nat := length (filter (λ b, b mod n = i) (seqZ 0 256)).

(** A short identifier has the length asked for and characters of its alphabet;
    with the alphabet by default each of the first eight is drawn by five of the 256
    bytes, and each other by four. *)
Theorem nano_id_shape h size rand uuid bytes
    (Hr : rand size = Some bytes) (Hl : length bytes = size) :
  let id := Generate rand uuid (NewNanoIDRequestIDGenerator h EmptyString (Z.of_nat size)) in
  (0 < size)%nat → String.length id = size ∧
  (∀ c, In c (String.list_ascii_of_string id) → In c (String.list_ascii_of_string default_alphabet)) ∧
  ∀ i, 0 <= i < 62 → draws 62 i = if i <? 8 then 5%nat else 4%nat.
Proof.
  cbv zeta. intros Hs. unfold NewNanoIDRequestIDGenerator. cbn [String.eqb Generate]. rewrite (proj2 (Z.leb_gt _ _)) by lia.
  rewrite Nat2Z.id, Hr. split_and!.
  - rewrite <- Hl. clear. induction bytes as [|b bs IH]; [done|]. cbn. by rewrite IH.
  - clear. induction bytes as [|b bs IH]; intros c; [done|]. cbn [nano_text]. intros [<-|Hc]; [|by apply IH]. unfold nano_char.
    change (Z.of_nat (String.length default_alphabet)) with 62. pose proof (Z.mod_pos_bound b 62 ltac:(lia)) as Hb.
    apply get_In. change (String.length default_alphabet) with 62%nat. lia.
  - intros i Hi. assert (∀ k, (k < 62)%nat → draws 62 (Z.of_nat k) = if Z.of_nat k <? 8 then 5%nat else 4%nat) as H.
    { intros k Hk. do 62 (destruct k as [|k]; [by vm_compute|]). lia. }
    specialize (H (Z.to_nat i)). rewrite Z2Nat.id in H by lia. apply H. lia.
Qed.
End errors.

(** ** Witnesses *)

Definition a_get (hs : list (string * string)) : Ctx :=
  mkCtx "1.2.3.4" "GET" "/npm/react" (list_to_map hs) ∅ ∅ EmptyString [] EmptyString 0 EmptyString ∅.

(** The handlers behind fail with an error of npm, or panic. *)
Definition failing : Behind := {| behind _ _ := ([], Returned (Some (EDomain (ErrNPMPackageNotFound 3)))) |}.
Definition panicking : Behind := {| behind _ _ := ([SetHeader "X" "y"], Panicked "nil map") |}.

Lemma ErrorHandler_answers_witness :
  ∃ r, ErrorHandler (HBE:=failing) 7 (a_get []) [] = (status_of [CallNext] 404, Returned None, Some (BError r)) ∧
    StatusCode (ErrorHandler (HBE:=failing) 7 (a_get []) []).1.1 = 404 ∧ er_TraceID r = "unknown" ∧ er_Error r = "NPM001".
Proof. by apply (ErrorHandler_answers (HBE:=failing) 7 (a_get []) [] [CallNext] (EDomain (ErrNPMPackageNotFound 3))). Defined.

Lemma trace_id_lost_witness :
  ∃ r, (RequestIDHandler (NewRequestIDMiddleware None None).1 (NewRequestIDMiddleware None None).2 (λ _, None) "uuid-1"
          (ErrorHandler (HBE:=failing) 7) (a_get [("X-Request-ID", "abc")]) []).2 = Some (BError r) ∧ er_TraceID r = "unknown".
Proof.
  eexists. split; [vm_compute; reflexivity|].
  apply (trace_id_lost (HBE:=failing) (NewRequestIDMiddleware None None).1 (NewRequestIDMiddleware None None).2 (λ _, None) "uuid-1" 7
    (a_get [("X-Request-ID", "abc")])); [done| |by vm_compute]. intros t. constructor.
Defined.

Lemma recovery_discloses_witness :
  RecoveryHandler (HBE:=panicking) (NewRecoveryMiddleware None) "goroutine 7 [running]" (a_get []) []
    = (status_of [CallNext; SetHeader "X" "y"] 500, Returned None, Some (BRecovered (Some ("nil map", "goroutine 7 [running]")%string))).
Proof. by apply (recovery_discloses (HBE:=panicking)). Defined.

Lemma recoveries_contain_witness :
  (∀ v, (RecoveryHandler (HBE:=panicking) (mkRecovery true false) "s" (a_get []) []).1.2 ≠ Panicked v) ∧
  StatusCode (ErrorRecovery (HBE:=panicking) (λ _ _ _, EmptyString) 1 "s" (a_get []) []).1.1 = 500.
Proof.
  destruct (recoveries_contain (HBE:=panicking) (λ _ _ _, EmptyString) (mkRecovery true false) true 1 "s" (a_get []) [] eq_refl) as (H1 & _ & _ & H2).
  split; [exact H1|]. destruct H2 as (_ & H3 & _); [by eexists|exact H3].
Defined.

Lemma nano_id_shape_witness :
  let id := Generate (λ _, Some [0; 61; 62; 255]) "u" (NewNanoIDRequestIDGenerator EmptyString EmptyString 4) in
  id = "0z07" ∧ String.length id = 4%nat ∧
  (∀ c, In c (String.list_ascii_of_string id) → In c (String.list_ascii_of_string default_alphabet)) ∧
  ∀ i, 0 <= i < 62 → draws 62 i = if i <? 8 then 5%nat else 4%nat.
Proof.
  split; [by vm_compute|]. apply (nano_id_shape EmptyString 4 (λ _, Some [0; 61; 62; 255]) "u" [0; 61; 62; 255] eq_refl eq_refl). lia.
Defined.
