(* ===== verification/Alerts.v ===== *)
(** * Alerts: events, channels, and the alert manager

    Models [src/internal/alerts]: events and channels, the manager with its filter
    rules and its limiter ([alert_manager.go], [alert_interface.go]), and the channel
    that posts to a webhook ([webhook_alerter.go]).  A channel acts on the world, which
    is a type parameter; metadata is the text of its JSON.  Waiting and logging are
    left out, as is the text form of the log channel. *)

From Stdlib Require Import Ascii.
From S2P Require Import Prelude GoStrings.
From S2P Require RateLimit.

Lemma filter_all {A} (P : A → Prop) `{!∀ x, Decision (P x)} (l : list A) : Forall P l → filter P l = l.
Proof. induction 1 as [|x l Hx _ IH]; [done|]. by rewrite filter_cons_True, IH. Qed.

Lemma filter_none {A} (P : A → Prop) `{!∀ x, Decision (P x)} (l : list A) : Forall (λ x, ¬ P x) l → filter P l = [].
Proof. induction 1 as [|x l Hx _ IH]; [done|]. by rewrite filter_cons_False. Qed.

Lemma Forall_filter_sub {A} (P Q : A → Prop) `{!∀ x, Decision (Q x)} (l : list A) : Forall P l → Forall P (filter Q l).
Proof. rewrite !list.Forall_forall. intros HP x [_ Hx]%list_elem_of_filter. by apply HP. Qed.

Lemma StronglySorted_filter {A} (R : relation A) (P : A → Prop) `{!∀ x, Decision (P x)} (l : list A) :
  StronglySorted R l → StronglySorted R (filter P l).
Proof.
  induction 1 as [|x l Hs IH Hx]; [constructor|]. destruct (decide (P x)); [rewrite filter_cons_True by done|by rewrite filter_cons_False].
  constructor; [done|]. by apply Forall_filter_sub.
Qed.

(** ** Events *)

Definition AlertLevelInfo : string := "INFO".
Definition AlertLevelWarning : string := "WARNING".
Definition AlertLevelError : string := "ERROR".
Definition AlertLevelCritical : string := "CRITICAL".

Record PackageInfo := mkPackageInfo {
  pi_Type : string;
  pi_Name : string;
  pi_Version : string;
  pi_Path : string;
  pi_ExpectedHash : string;
  pi_ActualHash : string;
  pi_RemoteURL : string
}.

Record AlertEvent := mkEvent {
  ev_ID : string;
  ev_Level : string;
  ev_Type : string;
  ev_Title : string;
  ev_Message : string;
  ev_Source : string;
  ev_Timestamp : instant;
  ev_Metadata : string;
  ev_PackageInfo : option PackageInfo
}.

Definition with_id (id : string) (e : AlertEvent) : AlertEvent :=
  mkEvent id (ev_Level e) (ev_Type e) (ev_Title e) (ev_Message e) (ev_Source e) (ev_Timestamp e) (ev_Metadata e) (ev_PackageInfo e).
Definition with_time (t : instant) (e : AlertEvent) : AlertEvent :=
  mkEvent (ev_ID e) (ev_Level e) (ev_Type e) (ev_Title e) (ev_Message e) (ev_Source e) t (ev_Metadata e) (ev_PackageInfo e).

(** ** Filter rules *)

(** [Conditions] are never evaluated. *)
Record FilterRule := mkRule {
  fr_Name : string;
  fr_Enabled : bool;
  fr_Levels : list string;
  fr_Types : list string;
  fr_Action : string;
  fr_Target : string
}.

(** An empty list matches everything. *)
Definition in_or_empty (x : string) (l : list string) : bool :=
  match l with [] => true | _ => existsb (String.eqb x) l end.

Definition rule_matches (event : AlertEvent) (rule : FilterRule) : bool :=
  fr_Enabled rule && in_or_empty (ev_Level event) (fr_Levels rule) && in_or_empty (ev_Type event) (fr_Types rule).

Fixpoint Evaluate (rules : list FilterRule) (event : AlertEvent) : string * string :=
  match rules with
  | [] => ("allow"%string, EmptyString)
  | rule :: rules => if rule_matches event rule then (fr_Action rule, fr_Target rule) else Evaluate rules event
  end.

(** ** The limiter *)

Record timeWindow := mkTimeWindow { duration : duration; timestamps : list instant }.

Definition newTimeWindow (d : Prelude.duration) : timeWindow := mkTimeWindow d [].

Fixpoint drop_before (cutoff : instant) (ts : list instant) : list instant :=
  match ts with
  | [] => []
  | t :: ts' => if time_before t cutoff then drop_before cutoff ts' else ts
  end.

Definition cleanup (now : instant) (tw : timeWindow) : timeWindow :=
  mkTimeWindow (duration tw) (drop_before (time_add now (- duration tw)) (timestamps tw)).

Definition add (t : instant) (tw : timeWindow) : timeWindow :=
  cleanup t (mkTimeWindow (duration tw) (timestamps tw ++ [t])).

Definition count (now : instant) (tw : timeWindow) : Z * timeWindow :=
  let tw := cleanup now tw in (Z.of_nat (length (timestamps tw)), tw).

(** From the last one back, up to the first before the cutoff. *)
Fixpoint count_back (cutoff : instant) (ts : list instant) : Z :=
  match ts with
  | [] => 0
  | t :: ts => if time_before t cutoff then 0 else 1 + count_back cutoff ts
  end.

Definition countRecent (now : instant) (d : Prelude.duration) (tw : timeWindow) : Z :=
  count_back (time_add now (- d)) (rev (timestamps tw)).

Record RateLimiter := mkRateLimiter {
  maxPerMinute : Z;
  maxPerHour : Z;
  burstSize : Z;
  minuteWindow : timeWindow;
  hourWindow : timeWindow
}.

Definition NewRateLimiter (maxPerMinute maxPerHour burstSize : Z) : RateLimiter :=
  mkRateLimiter maxPerMinute maxPerHour burstSize (newTimeWindow minute) (newTimeWindow hour).

Definition with_windows (m h : timeWindow) (rl : RateLimiter) : RateLimiter :=
  mkRateLimiter (maxPerMinute rl) (maxPerHour rl) (burstSize rl) m h.

(** The count of a window against its limit, if there is one. *)
Definition check_window (limit : Z) (now : instant) (tw : timeWindow) : bool * timeWindow :=
  if 0 <? limit then let '(n, tw) := count now tw in (limit <=? n, tw) else (false, tw).

Definition Allow (now : instant) (rl : RateLimiter) : bool * RateLimiter :=
  let '(full, m) := check_window (maxPerMinute rl) now (minuteWindow rl) in
  let rl := with_windows m (hourWindow rl) rl in
  if full then (false, rl)
  else
    let '(full, h) := check_window (maxPerHour rl) now (hourWindow rl) in
    let rl := with_windows m h rl in
    if full then (false, rl)
    else if (0 <? burstSize rl) && (burstSize rl <=? countRecent now (10 * second) (minuteWindow rl)) then (false, rl)
    else (true, with_windows (add now (minuteWindow rl)) (add now (hourWindow rl)) rl).

(** ** Channels and the manager *)

Inductive alert_error :=
| RateExceeded
| ChannelNotFound (name : string)
| ChannelDisabled (name : string)
| AllFailed (errors : list (string * alert_error))
| PayloadFailed
| ContextDone
| StatusError (code : Z)
| RequestFailed
| FailedAfter (retries : Z) (last : alert_error).

Section alerts.
Context {S : Type}.

Record Alerter := mkAlerter {
  al_Name : string;
  al_IsEnabled : bool;
  al_Send : AlertEvent → S → option alert_error * S
}.

Record AlertManager := mkManager {
  alerters : gmap string Alerter;
  rateLimiter : option RateLimiter;
  filterEngine : option (list FilterRule)
}.

Record RateLimitConfig := mkRlConfig { rl_Enabled : bool; rl_MaxPerMinute : Z; rl_MaxPerHour : Z; rl_BurstSize : Z }.
Record AlertConfig := mkAlertConfig { ac_RateLimit : RateLimitConfig; ac_FilterRules : list FilterRule }.

Definition NewAlertManager (config : option AlertConfig) : AlertManager :=
  match config with
  | None => mkManager ∅ None None
  | Some cfg =>
      let r := ac_RateLimit cfg in
      mkManager ∅ (if rl_Enabled r then Some (NewRateLimiter (rl_MaxPerMinute r) (rl_MaxPerHour r) (rl_BurstSize r)) else None)
        (match ac_FilterRules cfg with [] => None | rules => Some rules end)
  end.

Definition RegisterAlerter (a : Alerter) (am : AlertManager) : AlertManager :=
  mkManager (<[al_Name a := a]> (alerters am)) (rateLimiter am) (filterEngine am).
Definition UnregisterAlerter (name : string) (am : AlertManager) : AlertManager :=
  mkManager (delete name (alerters am)) (rateLimiter am) (filterEngine am).

Definition SendToChannel (channelName : string) (event : AlertEvent) (am : AlertManager) (s : S) : option alert_error * S :=
  match alerters am !! channelName with
  | None => (Some (ChannelNotFound channelName), s)
  | Some a => if negb (al_IsEnabled a) then (Some (ChannelDisabled channelName), s) else al_Send a event s
  end.

(** The loop over the channels: the errors, and how many succeeded. *)
Fixpoint send_all (event : AlertEvent) (order : list (string * Alerter)) (s : S) : list (string * alert_error) * Z * S :=
  match order with
  | [] => ([], 0, s)
  | (name, a) :: order =>
      if negb (al_IsEnabled a) then send_all event order s
      else
        let '(err, s) := al_Send a event s in
        let '(errors, successCount, s) := send_all event order s in
        match err with
        | Some e => ((name, e) :: errors, successCount, s)
        | None => (errors, 1 + successCount, s)
        end
  end.

(** [order] is the order in which the channels are iterated.  The event is a
    pointer: the identifier and the time that it lacks are stored in it. *)
Definition Send (uuid : string) (now : nat → instant) (order : list (string * Alerter)) (event : AlertEvent) (am : AlertManager) (s : S)
    : option alert_error * AlertEvent * AlertManager * S :=
  let event := if String.eqb (ev_ID event) EmptyString then with_id uuid event else event in
  let event := if time_is_zero (ev_Timestamp event) then with_time (now 0%nat) event else event in
  let '(allowed, rl) := match rateLimiter am with
                        | Some rl => let '(ok, rl) := Allow (now 1%nat) rl in (ok, Some rl)
                        | None => (true, None)
                        end in
  let am := mkManager (alerters am) rl (filterEngine am) in
  if negb allowed then (Some RateExceeded, event, am, s)
  else
    let '(action, target) := match filterEngine am with Some rules => Evaluate rules event | None => ("allow"%string, EmptyString) end in
    if String.eqb action "deny" then (None, event, am, s)
    else if String.eqb action "redirect" && negb (String.eqb target EmptyString) then
      let '(err, s) := SendToChannel target event am s in (err, event, am, s)
    else
      let '(errors, successCount, s) := send_all event order s in
      if (successCount =? 0) && negb (match errors with [] => true | _ => false end)
      then (Some (AllFailed errors), event, am, s)
      else (None, event, am, s).

Definition GetAlerters (am : AlertManager) : list string := (map_to_list (alerters am)).*1.

(** ** The webhook channel *)

(** [request] posts a payload: the status of the answer, or none. *)
Context (request : string → S → option Z * S).

Record WebhookAlerterConfig := mkWaConfig {
  wc_Enabled : bool;
  wc_URL : string;
  wc_Method : string;
  wc_RetryCount : Z
}.

(** The timeouts and the headers belong to [request]. *)
Record WebhookAlerter := mkWebhookAlerter { wa_enabled : bool; wa_url : string; wa_method : string; wa_retryCount : Z }.

Definition NewWebhookAlerter (config : WebhookAlerterConfig) : option WebhookAlerter :=
  if String.eqb (wc_URL config) EmptyString then None
  else Some (mkWebhookAlerter (wc_Enabled config) (wc_URL config)
    (if String.eqb (wc_Method config) EmptyString then "POST" else wc_Method config)
    (if wc_RetryCount config <=? 0 then 3 else wc_RetryCount config)).

Definition sendRequest (payload : string) (s : S) : option alert_error * S :=
  match request payload s with
  | (None, s) => (Some RequestFailed, s)
  | (Some code, s) => if (code <? 200) || (300 <=? code) then (Some (StatusError code), s) else (None, s)
  end.

Inductive attempt_result := Sent | Cancelled | Exhausted (last : option alert_error).

(** [n] more attempts; [cancelled i] tells whether the context ends the wait before
    the attempt [i]. *)
Fixpoint attempts (cancelled : nat → bool) (payload : string) (n i : nat) (last : option alert_error) (s : S) : attempt_result * S :=
  match n with
  | O => (Exhausted last, s)
  | Datatypes.S n =>
      if (0 <? i)%nat && cancelled i then (Cancelled, s)
      else match sendRequest payload s with
      | (Some e, s) => attempts cancelled payload n (Datatypes.S i) (Some e) s
      | (None, s) => (Sent, s)
      end
  end.

(** [Send] and [SendBatch] differ in the payload, whose encoding may fail. *)
Definition post (cancelled : nat → bool) (payload : option string) (wa : WebhookAlerter) (s : S) : option alert_error * S :=
  match payload with
  | None => (Some PayloadFailed, s)
  | Some payload =>
      match attempts cancelled payload (Z.to_nat (wa_retryCount wa + 1)) 0 None s with
      | (Sent, s) => (None, s)
      | (Cancelled, s) => (Some ContextDone, s)
      | (Exhausted last, s) => (Some (FailedAfter (wa_retryCount wa) (default RequestFailed last)), s)
      end
  end.

(** [createPayload] and the encoding of a batch. *)
Context (createPayload : AlertEvent → option string) (batch_payload : list AlertEvent → option string).

Definition webhook_alerter (cancelled : nat → bool) (wa : WebhookAlerter) : Alerter :=
  mkAlerter "webhook" (wa_enabled wa) (λ event, post cancelled (createPayload event) wa).
Definition SendBatch (cancelled : nat → bool) (events : list AlertEvent) (wa : WebhookAlerter) (s : S) : option alert_error * S :=
  post cancelled (batch_payload events) wa s.

(** ** Lemmas on windows *)

Lemma drop_before_spec c ts : StronglySorted Z.le ts → drop_before c ts = filter (λ t, c <= t) ts.
Proof.
  induction 1 as [|t ts Hs IH Ht]; [done|]. cbn [drop_before]. unfold time_before. destruct (t <? c) eqn:E; zbool.
  - by rewrite filter_cons_False by lia.
  - rewrite filter_cons_True by lia. f_equal. symmetry. apply filter_all. eapply list.Forall_impl; [exact Ht|]. cbn. lia.
Qed.

Lemma count_back_spec c ts : StronglySorted Z.ge ts → count_back c ts = Z.of_nat (length (filter (λ t, c <= t) ts)).
Proof.
  induction 1 as [|t ts Hs IH Ht]; [done|]. cbn [count_back]. unfold time_before. destruct (t <? c) eqn:E; zbool.
  - rewrite filter_cons_False by lia. rewrite filter_none; [done|].
    eapply list.Forall_impl; [exact Ht|]. cbn. lia.
  - rewrite filter_cons_True by lia. rewrite IH. cbn [length]. lia.
Qed.

(** The limiter remembers, within each of its windows, exactly what it accepted
    ([acc], the last one first). *)
Definition window_holds (now : instant) (acc : list instant) (tw : timeWindow) : Prop :=
  StronglySorted Z.le (timestamps tw) ∧ Forall (λ t, t <= now) (timestamps tw) ∧
  filter (λ t, now - duration tw <= t) (timestamps tw) = rev (filter (λ t, now - duration tw <= t) acc).

(** The accepted instants in [[u - d, u]]. *)
Definition within (d u : Z) (acc : list instant) : Z := Z.of_nat (length (filter (λ t, u - d <= t <= u) acc)).

Definition bounded (d limit : Z) (acc : list instant) : Prop := 0 < limit → ∀ u, within d u acc <= limit.

Lemma window_holds_later now now' acc tw :
  now <= now' → Forall (λ t, t <= now) acc → window_holds now acc tw → window_holds now' acc tw.
Proof.
  intros Hn Ha (Hs & Hf & H). split_and!; [done|eapply list.Forall_impl; [exact Hf|]; cbn; lia|].
  transitivity (filter (λ t, now' - duration tw <= t) (filter (λ t, now - duration tw <= t) (timestamps tw))).
  { symmetry. apply RateLimit.filter_filter_impl. intros. lia. }
  rewrite H, RateLimit.filter_rev, RateLimit.filter_filter_impl; [done|]. intros. lia.
Qed.

Lemma cleanup_holds now acc tw :
  window_holds now acc tw → window_holds now acc (cleanup now tw) ∧
  timestamps (cleanup now tw) = rev (filter (λ t, now - duration tw <= t) acc).
Proof.
  intros (Hs & Hf & H). unfold cleanup, time_add. cbn [timestamps]. rewrite drop_before_spec by done.
  change (now + - duration tw) with (now - duration tw). split; [|done]. split_and!; cbn [timestamps duration].
  - by apply StronglySorted_filter.
  - by apply Forall_filter_sub.
  - rewrite RateLimit.filter_filter_impl by auto. exact H.
Qed.

Lemma add_holds now acc tw :
  Forall (λ t, t <= now) acc → 0 <= duration tw → window_holds now acc tw → window_holds now (now :: acc) (add now tw).
Proof.
  intros Ha Hd (Hs & Hf & H). unfold add. apply cleanup_holds. split_and!; cbn [timestamps duration].
  - apply StronglySorted_app_2; [|done|repeat constructor]. intros x y Hx ->%list_elem_of_singleton.
    rewrite list.Forall_forall in Hf. by apply Hf.
  - apply Forall_app. split; [done|]. repeat constructor; lia.
  - rewrite list.filter_app. rewrite (filter_cons_True _ now []), (filter_cons_True _ now acc) by lia. cbn [rev].
    f_equal. exact H.
Qed.

Lemma within_now d now acc :
  Forall (λ t, t <= now) acc → within d now acc = Z.of_nat (length (filter (λ t, now - d <= t) acc)).
Proof.
  intros Ha. unfold within. f_equal. apply Nat.le_antisymm; apply RateLimit.filter_length_le; [lia|].
  rewrite list.Forall_forall in Ha. intros x Hx. specialize (Ha x Hx). lia.
Qed.

Lemma within_cons (d now : Z) (acc : list Z) : 0 <= d → within d now (now :: acc) = within d now acc + 1.
Proof. intros Hd. unfold within. rewrite filter_cons_True by lia. cbn [length]. by rewrite Nat2Z.inj_succ. Qed.

Lemma check_window_spec limit now acc tw :
  Forall (λ t, t <= now) acc → window_holds now acc tw →
  let '(full, tw') := check_window limit now tw in
  full = (0 <? limit) && (limit <=? within (duration tw) now acc) ∧ window_holds now acc tw' ∧ duration tw' = duration tw.
Proof.
  intros Ha H. unfold check_window, count. destruct (0 <? limit); [|done].
  destruct (cleanup_holds _ _ _ H) as [H1 H2]. rewrite H2, length_rev, within_now by done. done.
Qed.

Lemma countRecent_spec d now acc tw :
  Forall (λ t, t <= now) acc → 0 <= d <= duration tw → window_holds now acc tw → countRecent now d tw = within d now acc.
Proof.
  intros Ha Hd (Hs & Hf & H). unfold countRecent. rewrite count_back_spec.
  2: { clear -Hs. induction Hs as [|x l Hs IH Hx]; [constructor|]. cbn [rev]. apply StronglySorted_app_2; [|done|repeat constructor].
       intros y z Hy ->%list_elem_of_singleton. apply list_elem_of_In, in_rev, list_elem_of_In in Hy.
       rewrite list.Forall_forall in Hx. specialize (Hx _ Hy). lia. }
  rewrite within_now by done. f_equal. unfold time_add. change (now + - d) with (now - d).
  rewrite RateLimit.filter_rev, length_rev. transitivity (length (rev (filter (λ t, now - d <= t) acc))); [|apply length_rev].
  f_equal. transitivity (filter (λ t, now - d <= t) (filter (λ t, now - duration tw <= t) (timestamps tw))).
  { symmetry. apply RateLimit.filter_filter_impl. lia. }
  transitivity (filter (λ t, now - d <= t) (rev (filter (λ t, now - duration tw <= t) acc))); [f_equal; exact H|].
  rewrite RateLimit.filter_rev, RateLimit.filter_filter_impl by lia. done.
Qed.

Lemma bounded_cons d limit now acc :
  0 <= d → Forall (λ t, t <= now) acc → bounded d limit acc → (0 < limit → within d now acc < limit) → bounded d limit (now :: acc).
Proof.
  intros Hd Ha Hb Hw Hl u. specialize (Hb Hl u). specialize (Hw Hl). unfold within in *.
  destruct (decide (u - d <= now <= u)) as [Hu|Hu]; [|by rewrite filter_cons_False].
  rewrite filter_cons_True by done. cbn [length].
  rewrite Nat2Z.inj_succ. etransitivity; [|apply Z.le_succ_l; exact Hw]. apply Zsucc_le_compat, inj_le.
  apply RateLimit.filter_length_le. rewrite list.Forall_forall in Ha. intros x Hx [H1 H2]. specialize (Ha x Hx). lia.
Qed.

(** The state of a limiter that has accepted [acc]. *)
Definition limiter_ok (now : instant) (acc : list instant) (rl : RateLimiter) : Prop :=
  Forall (λ t, t <= now) acc ∧ duration (minuteWindow rl) = minute ∧ duration (hourWindow rl) = hour ∧
  window_holds now acc (minuteWindow rl) ∧ window_holds now acc (hourWindow rl) ∧
  bounded minute (maxPerMinute rl) acc ∧ bounded hour (maxPerHour rl) acc ∧ bounded (10 * second) (burstSize rl) acc.

(** There is room for one more. *)
Definition room (now : instant) (acc : list instant) (rl : RateLimiter) : Prop :=
  (0 < maxPerMinute rl → within minute now acc < maxPerMinute rl) ∧ (0 < maxPerHour rl → within hour now acc < maxPerHour rl) ∧
  (0 < burstSize rl → within (10 * second) now acc < burstSize rl).

Lemma Allow_spec now acc rl :
  limiter_ok now acc rl →
  let '(ok, rl') := Allow now rl in
  (ok = true ↔ room now acc rl) ∧ limiter_ok now (if ok then now :: acc else acc) rl' ∧
  maxPerMinute rl' = maxPerMinute rl ∧ maxPerHour rl' = maxPerHour rl ∧ burstSize rl' = burstSize rl.
Proof.
  intros (Ha & Hdm & Hdh & Hm & Hh & Bm & Bh & Bb). unfold Allow.
  pose proof (check_window_spec (maxPerMinute rl) now acc _ Ha Hm) as Cm. destruct (check_window _ now (minuteWindow rl)) as [full m].
  destruct Cm as (-> & Hm' & Hdm'). rewrite Hdm in *.
  destruct ((0 <? maxPerMinute rl) && (maxPerMinute rl <=? within minute now acc)) eqn:Em; zbool.
  { split_and!; [|done..]. split; [done|]. intros [Hr _]. lia. }
  cbn [with_windows hourWindow maxPerHour burstSize minuteWindow].
  pose proof (check_window_spec (maxPerHour rl) now acc _ Ha Hh) as Ch. destruct (check_window _ now (hourWindow rl)) as [full h].
  destruct Ch as (-> & Hh' & Hdh'). rewrite Hdh in *.
  destruct ((0 <? maxPerHour rl) && (maxPerHour rl <=? within hour now acc)) eqn:Eh; zbool.
  { split_and!; [|done..]. split; [done|]. intros (_ & Hr & _). lia. }
  cbn [with_windows hourWindow maxPerHour burstSize minuteWindow].
  rewrite (countRecent_spec _ now acc) by (done || rewrite Hdm'; vm_compute; split; discriminate).
  destruct ((0 <? burstSize rl) && (burstSize rl <=? within (10 * second) now acc)) eqn:Eb; zbool.
  { split_and!; [|done..]. split; [done|]. intros (_ & _ & Hr). lia. }
  assert (room now acc rl) as Hr by (split_and!; lia).
  split; [done|]. split; [|done]. unfold limiter_ok. cbn [with_windows minuteWindow hourWindow maxPerMinute maxPerHour burstSize].
  destruct Hr as (Hr1 & Hr2 & Hr3). split_and!; try done.
  - constructor; [lia|done].
  - apply add_holds; [done| |done]. rewrite Hdm'. by vm_compute.
  - apply add_holds; [done| |done]. rewrite Hdh'. by vm_compute.
  - apply bounded_cons; done.
  - apply bounded_cons; done.
  - apply bounded_cons; done.
Qed.

(** ** The limiter *)

Fixpoint limiter_run (times : list instant) (rl : RateLimiter) (acc : list instant) : list instant * RateLimiter :=
  match times with
  | [] => (acc, rl)
  | t :: times => let '(ok, rl) := Allow t rl in limiter_run times rl (if ok then t :: acc else acc)
  end.

Lemma limiter_ok_later now now' acc rl : now <= now' → limiter_ok now acc rl → limiter_ok now' acc rl.
Proof.
  intros Hn (Ha & Hdm & Hdh & Hm & Hh & Hb). split; [eapply list.Forall_impl; [exact Ha|]; cbn; lia|].
  do 2 (split; [done|]). split; [by eapply window_holds_later|]. split; [by eapply window_holds_later|done].
Qed.

Lemma limiter_run_ok times now t acc rl :
  Sorted Z.le (now :: times) → Forall (λ x, x <= t) (now :: times) → limiter_ok now acc rl →
  let '(acc', rl') := limiter_run times rl acc in
  limiter_ok t acc' rl' ∧ maxPerMinute rl' = maxPerMinute rl ∧ maxPerHour rl' = maxPerHour rl ∧ burstSize rl' = burstSize rl.
Proof.
  revert now acc rl. induction times as [|x times IH]; intros now acc rl Hs Hf H; apply list.Forall_cons in Hf as [Hn Hf].
  { cbn. split; [by eapply limiter_ok_later|done]. }
  apply Sorted_inv in Hs as [Hs Hh]. apply HdRel_inv in Hh. apply (limiter_ok_later _ _ _ _ Hh) in H.
  cbn [limiter_run]. pose proof (Allow_spec x acc rl H) as HA. destruct (Allow x rl) as [ok rl1].
  destruct HA as (_ & H1 & E1 & E2 & E3). specialize (IH x _ _ Hs Hf H1).
  destruct (limiter_run times rl1 _) as [acc' rl']. by rewrite <- E1, <- E2, <- E3.
Qed.

Lemma fresh_ok now m h b : limiter_ok now [] (NewRateLimiter m h b).
Proof.
  assert (∀ d u, within d u [] = 0) as H0 by done.
  assert (∀ d limit, bounded d limit []) as Hb by (intros d limit Hl u; rewrite H0; lia).
  split; [constructor|]. do 2 (split; [done|]). do 2 (split; [by repeat constructor|]). done.
Qed.

(** C13: Whatever the instants at which alerts arrive, in the order of the clock, of
    those that the limiter accepts at most [MaxPerMinute] lie in any minute, at most
    [MaxPerHour] in any hour and at most [BurstSize] in any ten seconds, where these
    limits are positive; and an alert is accepted exactly when none of them is reached. *)
Theorem alert_limits m h b t0 times t (Hs : Sorted Z.le (t0 :: times ++ [t])) :
  let '(acc, rl) := limiter_run times (NewRateLimiter m h b) [] in
  bounded minute m acc ∧ bounded hour h acc ∧ bounded (10 * second) b acc ∧
  ((Allow t rl).1 = true ↔ (0 < m → within minute t acc < m) ∧ (0 < h → within hour t acc < h) ∧ (0 < b → within (10 * second) t acc < b)).
Proof.
  assert (Sorted Z.le (t0 :: times) ∧ Forall (λ x, x <= t) (t0 :: times)) as [Hs1 Hle].
  { apply Sorted_StronglySorted in Hs; [|intros ? ? ?; lia]. change (t0 :: times ++ [t]) with ((t0 :: times) ++ [t]) in Hs.
    apply StronglySorted_app in Hs as (Hx & Hs & _). split; [by apply StronglySorted_Sorted|].
    apply list.Forall_forall. intros x Hin. apply Hx; [done|by left]. }
  pose proof (limiter_run_ok times t0 t [] (NewRateLimiter m h b) Hs1 Hle (fresh_ok t0 m h b)) as Hrun.
  destruct (limiter_run times _ []) as [acc rl]. destruct Hrun as (Hok & E1 & E2 & E3). cbn in E1, E2, E3.
  pose proof (Allow_spec t acc rl Hok) as HA. destruct (Allow t rl) as [ok rl']. destruct HA as (HA & _).
  destruct Hok as (_ & _ & _ & _ & _ & Bm & Bh & Bb). unfold room in HA. rewrite E1, E2, E3 in *. done.
Qed.

(** ** The manager *)

(** The first rule that is enabled and matches the level and the type decides;
    without one the alert is allowed. *)
Theorem Evaluate_first rules event :
  (Forall (λ r, rule_matches event r = false) rules ∧ Evaluate rules event = ("allow"%string, EmptyString)) ∨
  ∃ before rule after, rules = before ++ rule :: after ∧ Forall (λ r, rule_matches event r = false) before ∧
    rule_matches event rule = true ∧ Evaluate rules event = (fr_Action rule, fr_Target rule).
Proof.
  induction rules as [|r rules IH]; [by left|]. cbn [Evaluate]. destruct (rule_matches event r) eqn:E.
  - right. by exists [], r, rules.
  - destruct IH as [[H ->]|(b & x & a & -> & H & Hx & ->)]; [left; by repeat constructor|].
    right. exists (r :: b), x, a. by repeat constructor.
Qed.

Lemma send_all_spec event order s :
  let '(errors, n, s') := send_all event order s in
  0 <= n ∧ Z.of_nat (length errors) + n = Z.of_nat (length (filter (λ x, al_IsEnabled x.2 = true) order)).
Proof.
  revert s. induction order as [|[name a] order IH]; intros s; [done|]. cbn [send_all].
  destruct (al_IsEnabled a) eqn:E; cbn [negb].
  - rewrite filter_cons_True by done. destruct (al_Send a event s) as [err s1]. specialize (IH s1).
    destruct (send_all event order s1) as [[errors n] s']. destruct err; cbn [length] in *; lia.
  - rewrite filter_cons_False by (cbn; by rewrite E). apply IH.
Qed.

(** An alert that is neither limited, denied nor redirected fails exactly when
    there is an enabled channel and every enabled channel fails: one success hides the
    failures of all the others. *)
Theorem Send_fails_iff uuid now order event am s
    (Hr : rateLimiter am = None) (Hf : filterEngine am = None) :
  let '(err, event', _, _) := Send uuid now order event am s in
  let '(errors, n, _) := send_all event' order s in
  (err = None ∨ err = Some (AllFailed errors)) ∧
  (err ≠ None ↔ n = 0 ∧ ∃ x, x ∈ order ∧ al_IsEnabled x.2 = true).
Proof.
  unfold Send. rewrite Hr. cbn [filterEngine]. rewrite Hf. cbn. set (e := if time_is_zero _ then _ else _).
  pose proof (send_all_spec e order s) as Hs. destruct (send_all e order s) as [[errors n] s'] eqn:E.
  destruct Hs as [Hn Hl]. destruct (n =? 0) eqn:E0; zbool; cbn [andb]; [|rewrite E; split; [by left|]; split; [done|lia]].
  destruct errors as [|x errors]; cbn [negb]; rewrite E.
  - split; [by left|]. split; [done|]. intros (_ & y & Hy & Hen). exfalso.
    assert (y ∈ filter (λ x, al_IsEnabled x.2 = true) order) as Hin by by apply list_elem_of_filter.
    destruct (filter (λ x, al_IsEnabled x.2 = true) order); [by apply elem_of_nil in Hin|]. cbn in Hl. lia.
  - split; [by right|]. split; [intros _|done]. split; [done|].
    destruct (filter (λ x, al_IsEnabled x.2 = true) order) as [|y l] eqn:Ef; [cbn in Hl; lia|].
    exists y. assert (y ∈ filter (λ x, al_IsEnabled x.2 = true) order) as Hin by (rewrite Ef; by left).
    apply list_elem_of_filter in Hin as [??]. done.
Qed.

(** The state after sending the events one after the other. *)
Definition send_many (uuid : string) (now : nat → instant) (order : list (string * Alerter)) (events : list AlertEvent)
    (am : AlertManager) (s : S) : AlertManager * S :=
  foldl (λ st e, let '(_, _, am, s) := Send uuid now order e st.1 st.2 in (am, s)) (am, s) events.

Lemma Send_denied uuid now order e am rl s rules :
  rateLimiter am = Some rl → filterEngine am = Some rules →
  (∀ e', ev_Level e' = ev_Level e → ev_Type e' = ev_Type e → (Evaluate rules e').1 = "deny"%string) →
  let '(_, _, am', s') := Send uuid now order e am s in
  s' = s ∧ alerters am' = alerters am ∧ filterEngine am' = Some rules ∧ rateLimiter am' = Some (Allow (now 1%nat) rl).2.
Proof.
  intros Hr Hf Hd. unfold Send. rewrite Hr.
  set (e' := if time_is_zero _ then _ else _).
  assert (ev_Level e' = ev_Level e ∧ ev_Type e' = ev_Type e) as [Hl Ht].
  { subst e'. destruct (time_is_zero _), (String.eqb _ _); done. }
  destruct (Allow (now 1%nat) rl) as [ok rl']. cbn [filterEngine alerters]. rewrite Hf. specialize (Hd e' Hl Ht).
  destruct (Evaluate rules e') as [action target]. cbn [fst] in Hd. subst action. by destruct ok.
Qed.

(** Alerts that the rules deny use up the limit: after as many of them as the limit
    of a minute, an alert of any kind, a critical one included, is refused at that
    instant and reaches no channel. *)
Theorem denied_alerts_starve uuid t order events event am s m rules
    (Hr : rateLimiter am = Some (NewRateLimiter m 0 0)) (Hf : filterEngine am = Some rules) (Hm : 0 < m)
    (Hd : ∀ e e', e ∈ events → ev_Level e' = ev_Level e → ev_Type e' = ev_Type e → (Evaluate rules e').1 = "deny"%string)
    (Hn : Z.of_nat (length events) = m) :
  let '(am', s') := send_many uuid (λ _, t) order events am s in
  s' = s ∧ (Send uuid (λ _, t) order event am' s').1.1.1 = Some RateExceeded.
Proof.
  assert (∀ es am rl s acc, (∀ e, e ∈ es → e ∈ events) → rateLimiter am = Some rl → filterEngine am = Some rules →
    limiter_ok t acc rl → maxPerMinute rl = m → maxPerHour rl = 0 → burstSize rl = 0 →
    within minute t acc + Z.of_nat (length es) <= m →
    let '(am', s') := send_many uuid (λ _, t) order es am s in
    s' = s ∧ ∃ rl' acc', rateLimiter am' = Some rl' ∧ limiter_ok t acc' rl' ∧ maxPerMinute rl' = m ∧ maxPerHour rl' = 0 ∧ burstSize rl' = 0 ∧
      within minute t acc' = within minute t acc + Z.of_nat (length es)) as H.
  { unfold send_many. induction es as [|e es IH]; intros am0 rl s0 acc Hin Hr0 Hf0 Hok E1 E2 E3 Hlen.
    { cbn. split; [done|]. exists rl, acc. split_and!; try done. lia. }
    cbn [foldl fst snd]. pose proof (Send_denied uuid (λ _, t) order e am0 rl s0 rules Hr0 Hf0 (λ e', Hd e e' (Hin e (list_elem_of_here _ _)))) as Hs.
    destruct (Send uuid (λ _, t) order e am0 s0) as [[[err e'] am1] s1]. destruct Hs as (-> & _ & Hf1 & Hr1).
    pose proof (Allow_spec t acc rl Hok) as HA. destruct (Allow t rl) as [ok rl1]. destruct HA as (HA & Hok1 & D1 & D2 & D3).
    cbn [length] in Hlen. assert (ok = true) as ->.
    { apply HA. unfold room. rewrite E1, E2, E3. split_and!; lia. }
    assert (within minute t (t :: acc) = within minute t acc + 1) as Hw.
    { apply within_cons. by vm_compute. }
    specialize (IH am1 rl1 s0 (t :: acc) (λ x Hx, Hin x (list_elem_of_further _ _ _ Hx)) Hr1 Hf1 Hok1). cbn [snd fst] in *.
    destruct (foldl _ (am1, s0) es) as [am' s']. destruct IH as (-> & rl' & acc' & F1 & F2 & F3 & F4 & F5 & F6);
      [by rewrite D1|by rewrite D2|by rewrite D3|rewrite Hw; lia|]. split; [done|]. exists rl', acc'. split_and!; try done.
    rewrite F6, Hw. cbn [length]. lia. }
  specialize (H events am (NewRateLimiter m 0 0) s [] (λ e He, He) Hr Hf (fresh_ok t m 0 0) eq_refl eq_refl eq_refl).
  assert (within minute t [] = 0) as H0 by done. rewrite H0 in H. specialize (H ltac:(lia)).
  destruct (send_many uuid (λ _, t) order events am s) as [am' s'].
  destruct H as (-> & rl' & acc' & F1 & F2 & F3 & F4 & F5 & F6). split; [done|].
  unfold Send. rewrite F1. pose proof (Allow_spec t acc' rl' F2) as HA. destruct (Allow t rl') as [ok rl1]. destruct HA as (HA & _).
  destruct ok; [|done]. destruct HA as [HA _]. destruct (HA eq_refl) as (HA1 & _). lia.
Qed.

(** ** The webhook channel *)

(** The world after [k] requests, and whether the next one is answered with success. *)
Fixpoint world_after (payload : string) (k : nat) (s : S) : S :=
  match k with O => s | Datatypes.S k => world_after payload k (request payload s).2 end.
Definition delivers (payload : string) (s : S) : bool :=
  match (request payload s).1 with Some code => (200 <=? code) && (code <? 300) | None => false end.

Lemma sendRequest_spec payload s :
  (sendRequest payload s).2 = (request payload s).2 ∧ ((sendRequest payload s).1 = None ↔ delivers payload s = true).
Proof.
  unfold sendRequest, delivers. destruct (request payload s) as [[code|] s']; [|done]. cbn [fst snd].
  destruct ((code <? 200) || (300 <=? code)) eqn:E; zbool; split; try done; split; try done; intros; zbool; try done; lia.
Qed.

Definition stopped (cancelled : nat → bool) (i : nat) : bool := (0 <? i)%nat && cancelled i.

Lemma post_attempts_spec cancelled payload n i last s :
  let '(r, s') := attempts cancelled payload n i last s in
  (∃ m, (m <= n)%nat ∧ s' = world_after payload m s) ∧
  (r = Sent ↔ ∃ k, (k < n)%nat ∧ (∀ j, (j < k)%nat → delivers payload (world_after payload j s) = false) ∧
    delivers payload (world_after payload k s) = true ∧ ∀ j, (j <= k)%nat → stopped cancelled (i + j) = false).
Proof.
  revert i last s. induction n as [|n IH]; intros i last s.
  { cbn. split; [by exists O|]. split; [done|]. intros (k & Hk & _). lia. }
  cbn [attempts]. fold (stopped cancelled i). destruct (stopped cancelled i) eqn:Ec.
  { split; [by exists O; split; [lia|]|]. split; [done|]. intros (k & _ & _ & _ & Hc). specialize (Hc 0%nat ltac:(lia)).
    rewrite Nat.add_0_r in Hc. congruence. }
  destruct (sendRequest_spec payload s) as [Hs Hd]. destruct (sendRequest payload s) as [[e|] s1]; cbn [fst snd] in Hs, Hd; subst s1.
  - assert (delivers payload s = false) as Hf by (apply not_true_iff_false; intros H; by apply Hd in H).
    specialize (IH (Datatypes.S i) (Some e) (request payload s).2). destruct (attempts _ _ n _ _ _) as [r s'].
    destruct IH as [(m & Hm & ->) IH]. split; [exists (Datatypes.S m); split; [lia|done]|]. rewrite IH. split.
    + intros (k & Hk & H1 & H2 & H3). exists (Datatypes.S k). split_and!; [lia| |done|].
      * intros [|j] Hj; [done|]. apply H1. lia.
      * intros [|j] Hj; [by rewrite Nat.add_0_r|]. rewrite Nat.add_succ_r. apply (H3 j). lia.
    + intros ([|k] & Hk & H1 & H2 & H3); [cbn in H2; congruence|]. exists k. split_and!; [lia| |done|].
      * intros j Hj. apply (H1 (Datatypes.S j)). lia.
      * intros j Hj. specialize (H3 (Datatypes.S j) ltac:(lia)). by rewrite Nat.add_succ_r in H3.
  - split; [exists 1%nat; split; [lia|done]|]. split; [intros _|done]. exists O. split_and!; [lia|lia|by apply Hd|].
    intros j Hj. replace (i + j)%nat with i by lia. done.
Qed.

(** The channel makes at most one request more than its number of retries, and
    succeeds exactly when one of them is answered with a status from 200 to 299 before
    the context is done; the requests before it have all been answered otherwise. *)
Theorem post_spec cancelled payload wa s
    (Hr : 0 < wa_retryCount wa) :
  let '(err, s') := post cancelled (Some payload) wa s in
  (∃ m, Z.of_nat m <= wa_retryCount wa + 1 ∧ s' = world_after payload m s) ∧
  (err = None ↔ ∃ k, Z.of_nat k <= wa_retryCount wa ∧ (∀ j, (j < k)%nat → delivers payload (world_after payload j s) = false) ∧
    delivers payload (world_after payload k s) = true ∧ ∀ j, (0 < j <= k)%nat → cancelled j = false).
Proof.
  unfold post. pose proof (post_attempts_spec cancelled payload (Z.to_nat (wa_retryCount wa + 1)) 0 None s) as H.
  destruct (attempts _ _ _ _ _ _) as [r s']. destruct H as [(m & Hm & Hs') H].
  assert (r = Sent ↔ ∃ k, Z.of_nat k <= wa_retryCount wa ∧ (∀ j, (j < k)%nat → delivers payload (world_after payload j s) = false) ∧
    delivers payload (world_after payload k s) = true ∧ ∀ j, (0 < j <= k)%nat → cancelled j = false) as H'.
  { rewrite H. split; intros (k & H1 & H2 & H3 & H4); exists k; (split; [lia|]); split_and!; try done.
    - intros j Hj. specialize (H4 j ltac:(lia)). unfold stopped in H4. cbn [Nat.add] in H4.
      by rewrite (proj2 (Nat.ltb_lt 0 j)) in H4 by lia.
    - intros j Hj. unfold stopped. cbn [Nat.add]. destruct (0 <? j)%nat eqn:E; [|done]. apply Nat.ltb_lt in E. rewrite H4 by lia. done. }
  destruct r; (split; [exists m; split; [lia|done]|]); rewrite <- H'; split; done.
Qed.
End alerts.

(** ** Witnesses *)

Definition an_event (id level type : string) : AlertEvent := mkEvent id level type "t" "m" "src" 7 EmptyString None.

(** The world is the list of what was sent. *)
Definition log_channel (name : string) (fails : bool) : Alerter (S:=list string) :=
  mkAlerter name true (λ e s, (if fails then Some RequestFailed else None, s ++ [name])).

Lemma alert_limits_witness :
  (limiter_run [10; 10; 20] (NewRateLimiter 2 0 0) []).1 = [10; 10] ∧
  let '(acc, rl) := limiter_run [10; 10; 20] (NewRateLimiter 2 0 0) [] in
  bounded minute 2 acc ∧ bounded hour 0 acc ∧ bounded (10 * second) 0 acc ∧
  ((Allow (minute + 11) rl).1 = true ↔ (0 < 2 → within minute (minute + 11) acc < 2) ∧ (0 < 0 → within hour (minute + 11) acc < 0) ∧
     (0 < 0 → within (10 * second) (minute + 11) acc < 0)).
Proof.
  split; [by vm_compute|]. apply (alert_limits 2 0 0 0 [10; 10; 20] (minute + 11)).
  cbn [app]. repeat (constructor; [|constructor; vm_compute; discriminate]). constructor; constructor.
Defined.

Lemma Send_fails_iff_witness :
  (Send "u" (λ _, 3) [("a"%string, log_channel "a" true); ("b"%string, log_channel "b" false)] (an_event "e" "INFO" "x")
    (mkManager ∅ None None) []).1.1.1 = None ∧
  let '(err, event', _, _) := Send "u" (λ _, 3) [("a"%string, log_channel "a" true)] (an_event "e" "INFO" "x") (mkManager ∅ None None) [] in
  let '(errors, n, _) := send_all event' [("a"%string, log_channel "a" true)] [] in
  (err = None ∨ err = Some (AllFailed errors)) ∧
  (err ≠ None ↔ n = 0 ∧ ∃ x, x ∈ [("a"%string, log_channel "a" true)] ∧ al_IsEnabled x.2 = true).
Proof. split; [by vm_compute|]. by apply (Send_fails_iff "u" (λ _, 3) [("a"%string, log_channel "a" true)] (an_event "e" "INFO" "x")). Defined.

Definition quiet_info : list FilterRule := [mkRule "quiet" true ["INFO"%string] [] "deny" EmptyString].

Lemma denied_alerts_starve_witness :
  let am := mkManager ∅ (Some (NewRateLimiter 2 0 0)) (Some quiet_info) in
  let order := [("a"%string, log_channel "a" false)] in
  let '(am', s') := send_many "u" (λ _, 5) order [an_event "1" "INFO" "x"; an_event "2" "INFO" "y"] am [] in
  s' = [] ∧ (Send "u" (λ _, 5) order (an_event "3" "CRITICAL" "z") am' s').1.1.1 = Some RateExceeded.
Proof.
  apply (denied_alerts_starve "u" 5 [("a"%string, log_channel "a" false)] [an_event "1" "INFO" "x"; an_event "2" "INFO" "y"]
    (an_event "3" "CRITICAL" "z") (mkManager ∅ (Some (NewRateLimiter 2 0 0)) (Some quiet_info)) [] 2 quiet_info); [done|done|lia| |done].
  intros e e' He Hl _. assert (ev_Level e = "INFO"%string) as Hi by (set_unfold; destruct_or?; by subst e).
  unfold quiet_info. cbn [Evaluate]. unfold rule_matches. cbn. by rewrite Hl, Hi.
Defined.

(** The first answer is 503, the others are 204. *)
Lemma post_spec_witness :
  let request (_ : string) (s : Z) := (Some (if s =? 0 then 503 else 204), s + 1) in
  post request (λ _, false) (Some "p"%string) (mkWebhookAlerter true "u" "POST" 3) 0 = (None, 2) ∧
  let '(err, s') := post request (λ _, false) (Some "p"%string) (mkWebhookAlerter true "u" "POST" 3) 0 in
  (∃ m, Z.of_nat m <= 4 ∧ s' = world_after request "p" m 0) ∧
  (err = None ↔ ∃ k, Z.of_nat k <= 3 ∧ (∀ j, (j < k)%nat → delivers request "p" (world_after request "p" j 0) = false) ∧
    delivers request "p" (world_after request "p" k 0) = true ∧ ∀ j, (0 < j <= k)%nat → false = false).
Proof. split; [by vm_compute|]. apply (post_spec _ (λ _, false) "p" (mkWebhookAlerter true "u" "POST" 3) 0). cbn. lia. Defined.
