(* ===== verification/Webhook.v ===== *)
(** * Webhook: filters, adapters and the sender

    Models, under [src/internal/webhook]: [filtering/simple_filter.go], [adapters.go],
    [sender/core.go] with the placeholders of [sender/stubs.go], [sender.go], and what
    they use of [src/internal/config/webhook_config.go].  The world is a type
    parameter, and [request] sends one HTTP request to it; the encoding of a payload
    and the creation of a request, which can fail, are parameters too.  Headers are a
    map by their canonical names.  Logging is left out. *)

From Stdlib Require Import Ascii.
From S2P Require Import Prelude GoStrings GoText GoBase64 Alerts.

(** ** Configuration *)

Record WebhookCredentials := mkCredentials {
  cr_Type : string;
  cr_Username : string;
  cr_Password : string;
  cr_Token : string;
  cr_Secret : string;
  cr_ClientID : string;
  cr_ClientSecret : string;
  cr_TokenURL : string;
  cr_ExtraHeaders : gmap string string
}.

Definition no_credentials : WebhookCredentials :=
  mkCredentials EmptyString EmptyString EmptyString EmptyString EmptyString EmptyString EmptyString EmptyString ∅.

(** Of the filters of an endpoint only the minimal level is ever read. *)
Record WebhookEndpointConfig := mkEndpoint {
  ep_Name : string;
  ep_URL : string;
  ep_Enabled : bool;
  ep_Method : string;
  ep_Headers : gmap string string;
  ep_EventTypes : list string;
  ep_Format : string;
  ep_Credentials : WebhookCredentials;
  ep_MinLevel : string
}.

Record WebhookEventFilter := mkEventFilter {
  ef_Enabled : bool;
  ef_DefaultLevel : string;
  ef_LevelOverrides : gmap string string
}.

(** ** Filters ([simple_filter.go]) *)

Definition levelPriority (level : string) : Z :=
  if String.eqb level "INFO" then 1
  else if String.eqb level "WARNING" then 2
  else if String.eqb level "ERROR" then 3
  else if String.eqb level "CRITICAL" then 4
  else 0.

(** A level that is not known counts as the lowest. *)
Definition priority_or_info (level : string) : Z := if levelPriority level =? 0 then 1 else levelPriority level.

Definition matchesPattern (eventType pattern : string) : bool :=
  if String.eqb pattern "*" then true
  else if String.eqb pattern eventType then true
  else if (2 <? String.length pattern)%nat && HasSuffix pattern ".*" then
    let prefix := take_bytes (String.length pattern - 2) pattern in
    (String.length prefix <? String.length eventType)%nat && HasPrefix eventType prefix &&
      match String.get (String.length prefix) eventType with Some c => Ascii.eqb c "." | None => false end
  else false.

Definition MatchesLevelFilter (cfg : WebhookEventFilter) (event : AlertEvent) : bool :=
  priority_or_info (ef_DefaultLevel cfg) <=? priority_or_info (ev_Level event).

(** [order] is the order in which the overrides are iterated. *)
Definition ShouldSendEvent (cfg : WebhookEventFilter) (order : list (string * string)) (event : AlertEvent) : bool :=
  if String.eqb (ev_ID event) EmptyString then false
  else if negb (ef_Enabled cfg) then true
  else match List.find (λ o, matchesPattern (ev_Type event) o.1) order with
  | Some (_, overrideLevel) => priority_or_info overrideLevel <=? priority_or_info (ev_Level event)
  | None => MatchesLevelFilter cfg event
  end.

Definition MatchesEndpointFilter (event : AlertEvent) (endpoint : WebhookEndpointConfig) : bool :=
  match ep_EventTypes endpoint with [] => true | types => existsb (matchesPattern (ev_Type event)) types end &&
  (String.eqb (ep_MinLevel endpoint) EmptyString || (levelPriority (ep_MinLevel endpoint) <=? levelPriority (ev_Level event))).

(** ** Adapters ([adapters.go]) *)

Inductive payload :=
| PText (s : string)
| PInt (z : Z)
| PBool (b : bool)
| PTime (t : instant)
| PMetadata (json : string)
| PObject (fields : list (string * payload))
| PArray (items : list payload).

Definition package_payload (p : PackageInfo) : payload := PObject [
  ("type"%string, PText (pi_Type p)); ("name"%string, PText (pi_Name p)); ("version"%string, PText (pi_Version p));
  ("path"%string, PText (pi_Path p)); ("expected_hash"%string, PText (pi_ExpectedHash p));
  ("actual_hash"%string, PText (pi_ActualHash p)); ("remote_url"%string, PText (pi_RemoteURL p))].

Definition formatJSON (event : AlertEvent) : payload := PObject ([
  ("id"%string, PText (ev_ID event)); ("level"%string, PText (ev_Level event)); ("type"%string, PText (ev_Type event));
  ("title"%string, PText (ev_Title event)); ("message"%string, PText (ev_Message event)); ("source"%string, PText (ev_Source event));
  ("timestamp"%string, PInt (Unix (ev_Timestamp event))); ("metadata"%string, PMetadata (ev_Metadata event))] ++
  match ev_PackageInfo event with Some p => [("package"%string, package_payload p)] | None => [] end).

Definition formatText (event : AlertEvent) : payload := PObject [
  ("text"%string, PText ("[" +:+ (ev_Level event +:+ ("] " +:+ (ev_Type event +:+ (": " +:+ ev_Message event))))));
  ("details"%string, PObject [("id"%string, PText (ev_ID event)); ("timestamp"%string, PTime (ev_Timestamp event));
    ("source"%string, PText (ev_Source event)); ("metadata"%string, PMetadata (ev_Metadata event))])].

Definition FormatMessage (event : AlertEvent) (format : string) : payload :=
  if String.eqb format "text" then formatText event else formatJSON event.

Definition getSlackColorForLevel (level : string) : string :=
  if String.eqb level "INFO" then "good"
  else if String.eqb level "WARNING" then "warning"
  else if String.eqb level "ERROR" then "danger"
  else if String.eqb level "CRITICAL" then "#ff0000"
  else "#cccccc".

Definition getDiscordColorForLevel (level : string) : Z :=
  if String.eqb level "INFO" then 65280
  else if String.eqb level "WARNING" then 16776960
  else if String.eqb level "ERROR" then 16737792
  else if String.eqb level "CRITICAL" then 16711680
  else 8421504.

(** The same for Slack and Discord. *)
Definition emoji_for_type (eventType : string) : string :=
  if HasPrefix eventType "auth." then "🔒"
  else if HasPrefix eventType "cache." then "💾"
  else if HasPrefix eventType "server." then "🚨"
  else if HasPrefix eventType "security." then "🛡️"
  else if HasPrefix eventType "package." then "📦"
  else "ℹ️".

Definition newline : string := String "010" EmptyString.

Definition slack_field (title value : string) : payload :=
  PObject [("title"%string, PText title); ("value"%string, PText value); ("short"%string, PBool true)].

Definition slack_attachment (event : AlertEvent) : payload := PObject [
  ("text"%string, PText "🚨 ProxyND Alert");
  ("attachments"%string, PArray [PObject [
    ("color"%string, PText (getSlackColorForLevel (ev_Level event)));
    ("title"%string, PText (emoji_for_type (ev_Type event) +:+ (" " +:+ ev_Title event)));
    ("text"%string, PText (ev_Message event));
    ("timestamp"%string, PInt (Unix (ev_Timestamp event)));
    ("fields"%string, PArray ([slack_field "Event Type" (ev_Type event); slack_field "Level" (ev_Level event); slack_field "Source" (ev_Source event)] ++
      match ev_PackageInfo event with
      | Some p => [slack_field "Package" (pi_Type p +:+ ("/" +:+ (pi_Name p +:+ ("@" +:+ pi_Version p))))]
      | None => []
      end))]])].

Definition slack_blocks (event : AlertEvent) : payload := PObject [("blocks"%string, PArray [
  PObject [("type"%string, PText "header");
    ("text"%string, PObject [("type"%string, PText "plain_text"); ("text"%string, PText (emoji_for_type (ev_Type event) +:+ " ProxyND Alert"))])];
  PObject [("type"%string, PText "section");
    ("text"%string, PObject [("type"%string, PText "mrkdwn");
      ("text"%string, PText ("*" +:+ (ev_Title event +:+ ("*" +:+ (newline +:+ ev_Message event)))))])]])].

Definition slack_text (event : AlertEvent) : payload := PObject [("text"%string, PText
  (emoji_for_type (ev_Type event) +:+ (" *ProxyND Alert*" +:+ (newline +:+ (newline +:+ ("*" +:+ (ev_Title event +:+ ("*" +:+
    (newline +:+ (ev_Message event +:+ (newline +:+ newline)))))))))))].

Definition slack_FormatMessage (event : AlertEvent) (format : string) : payload :=
  if String.eqb format "slack-blocks" then slack_blocks event
  else if String.eqb format "slack-text" then slack_text event
  else slack_attachment event.

Definition discord_embed (event : AlertEvent) : payload := PObject [("embeds"%string, PArray [PObject [
  ("title"%string, PText (emoji_for_type (ev_Type event) +:+ (" " +:+ ev_Title event)));
  ("description"%string, PText (ev_Message event));
  ("color"%string, PInt (getDiscordColorForLevel (ev_Level event)));
  ("timestamp"%string, PTime (ev_Timestamp event));
  ("footer"%string, PObject [("text"%string, PText ("ProxyND Alert • ID: " +:+ ev_ID event))])]])].

Definition discord_text (event : AlertEvent) : payload := PObject [("content"%string, PText
  (emoji_for_type (ev_Type event) +:+ (" **ProxyND Alert**" +:+ (newline +:+ (newline +:+ ("**" +:+ (ev_Title event +:+ ("**" +:+
    (newline +:+ ev_Message event)))))))))].

Definition discord_FormatMessage (event : AlertEvent) (format : string) : payload :=
  if String.eqb format "discord-text" then discord_text event else discord_embed event.

(** *** Requests *)

Record http_request := mkRequest { rq_Method : string; rq_URL : string; rq_Header : gmap string string; rq_Body : string }.

Inductive webhook_error :=
| MarshalFailed
| RequestCreation
| AuthMissing (what : string)
| UnsupportedAuth (type : string)
| SendFailed
| BadStatus (code : Z)
| NotStarted
| AlreadyStarted
| StopTimeout
| StopCancelled
| NilEvent.

(** Later values win. *)
Definition set_headers (hs : list (string * string)) (h : gmap string string) : gmap string string :=
  foldl (λ h x, <[x.1 := x.2]> h) h hs.

Definition setHMACSignature (creds : WebhookCredentials) (h : gmap string string) : result webhook_error (gmap string string) :=
  if String.eqb (cr_Secret creds) EmptyString then Err (AuthMissing "secret")
  else Ok (<["X-Hub-Signature-256"%string := "hmac-sha256=" +:+ cr_Secret creds]> h).

Definition setOAuth2Token (creds : WebhookCredentials) (h : gmap string string) : result webhook_error (gmap string string) :=
  if String.eqb (cr_ClientID creds) EmptyString || String.eqb (cr_ClientSecret creds) EmptyString || String.eqb (cr_TokenURL creds) EmptyString
  then Err (AuthMissing "oauth2")
  else Ok (<["Authorization"%string := "Bearer oauth2_access_token"%string]> h).

Definition setAuthentication (creds : WebhookCredentials) (h : gmap string string) : result webhook_error (gmap string string) :=
  let extra h := Ok (set_headers (map_to_list (cr_ExtraHeaders creds)) h) in
  if String.eqb (cr_Type creds) "none" then Ok h
  else if String.eqb (cr_Type creds) "basic" then
    if String.eqb (cr_Username creds) EmptyString || String.eqb (cr_Password creds) EmptyString then Err (AuthMissing "basic")
    else extra (<["Authorization"%string := "Basic " +:+ EncodeToString StdEncoding (cr_Username creds +:+ (":" +:+ cr_Password creds))]> h)
  else if String.eqb (cr_Type creds) "bearer" then
    if String.eqb (cr_Token creds) EmptyString then Err (AuthMissing "token")
    else extra (<["Authorization"%string := "Bearer " +:+ cr_Token creds]> h)
  else if String.eqb (cr_Type creds) "hmac" then setHMACSignature creds h
  else if String.eqb (cr_Type creds) "oauth2" then setOAuth2Token creds h
  else Err (UnsupportedAuth (cr_Type creds)).

Definition base_headers : gmap string string :=
  <["User-Agent"%string := "ProxyND-Webhook/1.0"%string]> {["Content-Type"%string := "application/json"%string]}.

Section webhook.
Context {S : Type} (marshal : payload → option string) (new_request : string → string → bool)
  (request : http_request → S → option Z * S).

Definition SendToEndpoint (event : AlertEvent) (endpoint : WebhookEndpointConfig) (s : S) : option webhook_error * S :=
  match marshal (FormatMessage event (ep_Format endpoint)) with
  | None => (Some MarshalFailed, s)
  | Some jsonData =>
      if negb (new_request (ep_Method endpoint) (ep_URL endpoint)) then (Some RequestCreation, s)
      else match setAuthentication (ep_Credentials endpoint) (set_headers (map_to_list (ep_Headers endpoint)) base_headers) with
      | Err e => (Some e, s)
      | Ok h =>
          match request (mkRequest (ep_Method endpoint) (ep_URL endpoint) h jsonData) s with
          | (None, s) => (Some SendFailed, s)
          | (Some code, s) => if (code <? 200) || (300 <=? code) then (Some (BadStatus code), s) else (None, s)
          end
      end
  end.

(** [Send], the method of the interface: the endpoint is made of the address alone. *)
Definition generic_Send (url : string) (event : AlertEvent) (s : S) : option webhook_error * S :=
  SendToEndpoint event (mkEndpoint EmptyString url false "POST" ∅ [] "json" no_credentials EmptyString) s.

Definition send_formatted (accepts : Z → bool) (p : payload) (url : string) (s : S) : option webhook_error * S :=
  match marshal p with
  | None => (Some MarshalFailed, s)
  | Some jsonData =>
      if negb (new_request "POST" url) then (Some RequestCreation, s)
      else match request (mkRequest "POST" url base_headers jsonData) s with
      | (None, s) => (Some SendFailed, s)
      | (Some code, s) => if accepts code then (None, s) else (Some (BadStatus code), s)
      end
  end.

Definition slack_Send (event : AlertEvent) (endpoint : WebhookEndpointConfig) (s : S) : option webhook_error * S :=
  send_formatted (λ code, code =? 200) (slack_FormatMessage event (ep_Format endpoint)) (ep_URL endpoint) s.
Definition discord_Send (event : AlertEvent) (endpoint : WebhookEndpointConfig) (s : S) : option webhook_error * S :=
  send_formatted (λ code, (code =? 204) || (code =? 200)) (discord_FormatMessage event (ep_Format endpoint)) (ep_URL endpoint) s.

(** The adapters of the sender: the generic one is that of [adapters.go], the two
    others are placeholders. *)
Inductive adapter := AGeneric | ASlack | ADiscord.

Definition adapter_Send (a : adapter) (url : string) (event : AlertEvent) (s : S) : option webhook_error * S :=
  match a with AGeneric => generic_Send url event s | ASlack | ADiscord => (None, s) end.

(** ** The core ([sender/core.go]) *)

Record WebhookConfig := mkConfig {
  wh_Endpoints : list WebhookEndpointConfig;
  wh_EventFilter : WebhookEventFilter
}.

(** [stopped] and [retry_stopped]: the two channels have been closed. *)
Record Core := mkCore {
  co_config : WebhookConfig;
  co_started : bool;
  co_stopped : bool;
  co_retry_stopped : bool;
  co_TotalSent : Z;
  co_TotalFailed : Z
}.

Definition NewCore (config : WebhookConfig) : Core := mkCore config false false false 0 0.

Definition with_metrics (sent failed : Z) (c : Core) : Core :=
  mkCore (co_config c) (co_started c) (co_stopped c) (co_retry_stopped c) sent failed.

(** The placeholders: the limiter allows, the queue drops what it is given. *)
Definition stub_Allow : bool := true.
Definition stub_Push (event : AlertEvent) : option webhook_error := None.
Definition core_shouldSendEvent (event : AlertEvent) : bool := negb (String.eqb (ev_ID event) EmptyString).

(** [sendToEndpoint] only logs. *)
Definition core_sendToEndpoint (event : AlertEvent) (endpoint : WebhookEndpointConfig) (s : S) : option webhook_error * S := (None, s).

Definition core_SendEvent (event : AlertEvent) (c : Core) : option webhook_error * Core :=
  if negb (co_started c) then (Some NotStarted, c)
  else if negb (core_shouldSendEvent event) then (None, c)
  else if negb stub_Allow then (Some SendFailed, c)
  else match stub_Push event with
  | Some e => (Some e, with_metrics (co_TotalSent c) (co_TotalFailed c + 1) c)
  | None => (None, c)
  end.

Fixpoint core_send_all (event : AlertEvent) (endpoints : list WebhookEndpointConfig) (last : option webhook_error) (c : Core) (s : S)
    : option webhook_error * Core * S :=
  match endpoints with
  | [] => (last, c, s)
  | endpoint :: endpoints =>
      match core_sendToEndpoint event endpoint s with
      | (Some e, s) => core_send_all event endpoints (Some e) (with_metrics (co_TotalSent c) (co_TotalFailed c + 1) c) s
      | (None, s) => core_send_all event endpoints last (with_metrics (co_TotalSent c + 1) (co_TotalFailed c) c) s
      end
  end.

Definition core_SendEventSync (event : AlertEvent) (c : Core) (s : S) : option webhook_error * Core * S :=
  if negb (co_started c) then (Some NotStarted, c, s)
  else if negb (core_shouldSendEvent event) then (None, c, s)
  else core_send_all event (wh_Endpoints (co_config c)) None c s.

Definition core_Start (c : Core) : option webhook_error * Core :=
  if co_started c then (Some AlreadyStarted, c)
  else (None, mkCore (co_config c) true (co_stopped c) (co_retry_stopped c) (co_TotalSent c) (co_TotalFailed c)).

(** How the wait for the goroutines ends. *)
Inductive stop_wait := WaitDone | WaitCancelled | WaitTimeout.

(** [None] is a panic: a channel is closed twice. *)
Definition core_Stop (w : stop_wait) (c : Core) : option (option webhook_error * Core) :=
  if negb (co_started c) then Some (Some NotStarted, c)
  else if co_stopped c || co_retry_stopped c then None
  else
    let c := mkCore (co_config c) false true true (co_TotalSent c) (co_TotalFailed c) in
    Some (match w with WaitDone => None | WaitCancelled => Some StopCancelled | WaitTimeout => Some StopTimeout end, c).

(** ** The sender ([sender.go]) *)

(** The metrics that nothing increments, and the size of a queue that only grows. *)
Record WebhookSender := mkSender { ws_core : Core; ws_started : bool; ws_queue : Z; ws_sent : Z; ws_failed : Z }.

Definition NewWebhookSender (config : WebhookConfig) : WebhookSender := mkSender (NewCore config) false 0 0 0.

Definition with_core (c : Core) (ws : WebhookSender) : WebhookSender := mkSender c (ws_started ws) (ws_queue ws) (ws_sent ws) (ws_failed ws).

Definition Start (ws : WebhookSender) : option webhook_error * WebhookSender :=
  match core_Start (ws_core ws) with
  | (None, c) => (None, mkSender c true (ws_queue ws) (ws_sent ws) (ws_failed ws))
  | (Some e, c) => (Some e, with_core c ws)
  end.

Definition Stop (w : stop_wait) (ws : WebhookSender) : option (option webhook_error * WebhookSender) :=
  match core_Stop w (ws_core ws) with
  | None => None
  | Some (None, c) => Some (None, mkSender c false (ws_queue ws) (ws_sent ws) (ws_failed ws))
  | Some (Some e, c) => Some (Some e, with_core c ws)
  end.

Definition sender_filter (order : list (string * string)) (event : AlertEvent) (ws : WebhookSender) : bool :=
  ShouldSendEvent (wh_EventFilter (co_config (ws_core ws))) order event.

Definition SendEvent (order : list (string * string)) (event : AlertEvent) (ws : WebhookSender) : option webhook_error * WebhookSender :=
  if negb (sender_filter order event ws) then (None, ws)
  else
    let '(e, c) := core_SendEvent event (ws_core ws) in
    (e, mkSender c (ws_started ws) (ws_queue ws + 1) (ws_sent ws) (ws_failed ws)).

Definition SendEventSync (order : list (string * string)) (event : AlertEvent) (ws : WebhookSender) (s : S)
    : option webhook_error * WebhookSender * S :=
  if negb (sender_filter order event ws) then (None, ws, s)
  else let '(e, c, s) := core_SendEventSync event (ws_core ws) s in (e, with_core c ws, s).

(** The metrics of the core are a pointer: what is stored in them stays. *)
Definition GetMetrics (ws : WebhookSender) : Z * Z * WebhookSender :=
  let c := with_metrics (ws_sent ws) (ws_failed ws) (ws_core ws) in (co_TotalSent c, co_TotalFailed c, with_core c ws).

(** [sendToEndpoint] of the sender, for the workers: every endpoint of the
    configuration, whichever is asked for. *)
Definition sendToEndpoint (event : AlertEvent) (endpoint : WebhookEndpointConfig) (ws : WebhookSender) (s : S)
    : option webhook_error * WebhookSender * S :=
  let '(e, c, s) := core_SendEventSync event (ws_core ws) s in (e, with_core c ws, s).

(** ** Delivery *)

(** Through the interface of the adapters the generic webhook never sends anything:
    the endpoint it makes of the address has no type of authentication, which is
    refused before the request. *)
Theorem generic_send_never_delivers url event s :
  generic_Send url event s =
    (Some (match marshal (formatJSON event) with
           | None => MarshalFailed
           | Some _ => if new_request "POST" url then UnsupportedAuth EmptyString else RequestCreation
           end), s).
Proof.
  unfold generic_Send, SendToEndpoint. cbn [ep_Format ep_Method ep_URL ep_Credentials ep_Headers].
  change (FormatMessage event "json") with (formatJSON event). destruct (marshal (formatJSON event)); [|done].
  by destruct (new_request "POST" url).
Qed.

Lemma core_send_all_spec event endpoints last c s :
  core_send_all event endpoints last c s =
    (last, with_metrics (co_TotalSent c + Z.of_nat (length endpoints)) (co_TotalFailed c) c, s).
Proof.
  clear request. revert c. induction endpoints as [|e l IH]; intros c; cbn [core_send_all core_sendToEndpoint length].
  - rewrite Z.add_0_r. by destruct c.
  - rewrite IH. f_equal. f_equal. unfold with_metrics. cbn. f_equal. lia.
Qed.

(** Sending an event at once, when the sender has been started and its filter lets
    the event through, answers success and counts one delivery for each configured
    endpoint, switched off or not, and the world is left as it was: no request is made. *)
Theorem sync_send_does_nothing order event ws s
    (Hs : co_started (ws_core ws) = true) (Hf : sender_filter order event ws = true) :
  let core := ws_core ws in
  SendEventSync order event ws s =
    (None, with_core (with_metrics (co_TotalSent core + Z.of_nat (length (wh_Endpoints (co_config core)))) (co_TotalFailed core) core) ws, s).
Proof.
  cbv zeta. unfold SendEventSync, core_SendEventSync. rewrite Hf, Hs. cbn [negb].
  assert (core_shouldSendEvent event = true) as ->.
  { unfold sender_filter, ShouldSendEvent in Hf. unfold core_shouldSendEvent. by destruct (String.eqb (ev_ID event) EmptyString). }
  cbn [negb]. by rewrite core_send_all_spec.
Qed.

(** An event that is queued is accepted and changes nothing but a counter: no
    later operation can find it. *)
Theorem queued_event_is_lost order event ws
    (Hs : co_started (ws_core ws) = true) (Hf : sender_filter order event ws = true) :
  SendEvent order event ws = (None, mkSender (ws_core ws) (ws_started ws) (ws_queue ws + 1) (ws_sent ws) (ws_failed ws)).
Proof.
  unfold SendEvent, core_SendEvent. rewrite Hf, Hs. cbn [negb]. by destruct (core_shouldSendEvent event).
Qed.

(** Asking for the metrics sets the counters of the core to zero, where the
    deliveries and the failures were counted. *)
Theorem metrics_reset config order event s :
  let '(_, ws', _) := SendEventSync order event (Start (NewWebhookSender config)).2 s in
  (GetMetrics ws').1 = (0, 0) ∧ co_TotalSent (ws_core (GetMetrics ws').2) = 0 ∧ co_TotalFailed (ws_core (GetMetrics ws').2) = 0.
Proof.
  unfold SendEventSync. destruct (negb _); [done|]. by destruct (core_SendEventSync _ _ _) as [[e c] s'].
Qed.

(** A sender that has been stopped can be started again, but then stopping it, in
    whatever way its goroutines end, panics: a channel is closed twice. *)
Theorem second_stop_panics config w1 w2 :
  let ws := NewWebhookSender config in
  match Stop w1 (Start ws).2 with
  | Some (_, ws1) => (Start ws1).1 = None ∧ Stop w2 (Start ws1).2 = None
  | None => False
  end.
Proof. by destruct w1. Qed.

(** ** Authentication *)

(** A request goes out with success exactly when the payload and the request can be
    made, the credentials are complete for a known type, and the answer's status is
    from 200 to 299. *)
Theorem SendToEndpoint_ok_iff event endpoint s :
  (SendToEndpoint event endpoint s).1 = None ↔
  ∃ jsonData h code, marshal (FormatMessage event (ep_Format endpoint)) = Some jsonData ∧
    new_request (ep_Method endpoint) (ep_URL endpoint) = true ∧
    setAuthentication (ep_Credentials endpoint) (set_headers (map_to_list (ep_Headers endpoint)) base_headers) = Ok h ∧
    (request (mkRequest (ep_Method endpoint) (ep_URL endpoint) h jsonData) s).1 = Some code ∧ 200 <= code < 300.
Proof.
  unfold SendToEndpoint. destruct (marshal _) as [j|]; [|split; [done|by intros (? & ? & ? & ? & _)]].
  destruct (new_request _ _); cbn [negb]; [|split; [done|by intros (? & ? & ? & _ & ? & _)]].
  destruct (setAuthentication _ _) as [h|e]; [|split; [done|by intros (? & ? & ? & _ & _ & ? & _)]].
  destruct (request _ s) as [[code|] s'] eqn:E; [|split; [done|intros (? & ? & ? & [= <-] & _ & [= <-] & H & _); by rewrite E in H]].
  destruct ((code <? 200) || (300 <=? code)) eqn:Ec; zbool; cbn [fst].
  - split; [done|]. intros (? & ? & code' & [= <-] & _ & [= <-] & H & Hc). rewrite E in H. injection H as <-. lia.
  - split; [intros _|done]. exists j, h, code. split_and!; try done; [by rewrite E|lia..].
Qed.

End webhook.

(** With HMAC credentials the signature of every request, whatever its body, is
    the secret itself. *)
Theorem hmac_sends_secret creds h
    (Ht : cr_Type creds = "hmac") (Hs : cr_Secret creds ≠ EmptyString) :
  ∃ h', setAuthentication creds h = Ok h' ∧ h' !! "X-Hub-Signature-256"%string = Some ("hmac-sha256=" +:+ cr_Secret creds).
Proof.
  unfold setAuthentication, setHMACSignature. rewrite Ht. cbn [String.eqb Ascii.eqb eqb]. cbn.
  rewrite (proj2 (String.eqb_neq _ _) Hs). eexists. split; [done|]. by rewrite lookup_insert, decide_True by done.
Qed.

(** ** Filters *)

Definition with_level (level : string) (e : AlertEvent) : AlertEvent :=
  mkEvent (ev_ID e) level (ev_Type e) (ev_Title e) (ev_Message e) (ev_Source e) (ev_Timestamp e) (ev_Metadata e) (ev_PackageInfo e).

(** Raising the level of an event never makes a filter drop it, neither the
    sender's nor an endpoint's. *)
Theorem filters_monotone cfg order endpoint e level
    (Hl : priority_or_info (ev_Level e) <= priority_or_info level) (Hk : 1 <= levelPriority level) :
  (ShouldSendEvent cfg order e = true → ShouldSendEvent cfg order (with_level level e) = true) ∧
  (MatchesEndpointFilter e endpoint = true → MatchesEndpointFilter (with_level level e) endpoint = true).
Proof.
  split.
  - unfold ShouldSendEvent, MatchesLevelFilter. cbn [ev_ID ev_Type ev_Level with_level].
    destruct (String.eqb (ev_ID e) EmptyString); [done|]. destruct (negb (ef_Enabled cfg)); [done|].
    destruct (List.find _ order) as [[? l]|]; intros; zbool; lia.
  - unfold MatchesEndpointFilter. cbn [ev_Type ev_Level with_level]. rewrite !andb_true_iff, !orb_true_iff.
    intros [Ht [H|H]]; (split; [done|]); [by left|right]. unfold priority_or_info in Hl.
    destruct (levelPriority (ev_Level e) =? 0) eqn:E1, (levelPriority level =? 0) eqn:E2; zbool; lia.
Qed.

(** When two overrides match the type of an event and disagree about it, the
    verdict depends on the order in which Go iterates over the map. *)
Theorem override_order_matters cfg e p1 l1 p2 l2
    (He : ev_ID e ≠ EmptyString) (Hen : ef_Enabled cfg = true) (H1 : matchesPattern (ev_Type e) p1 = true) (H2 : matchesPattern (ev_Type e) p2 = true)
    (Hl1 : priority_or_info l1 <= priority_or_info (ev_Level e)) (Hl2 : priority_or_info (ev_Level e) < priority_or_info l2) :
  ShouldSendEvent cfg [(p1, l1); (p2, l2)] e = true ∧ ShouldSendEvent cfg [(p2, l2); (p1, l1)] e = false.
Proof.
  unfold ShouldSendEvent. rewrite (proj2 (String.eqb_neq _ _) He), Hen. cbn [negb List.find fst]. rewrite H1, H2.
  split; [by apply Z.leb_le|by apply Z.leb_gt].
Qed.

(** An event of a level that is not known counts as INFO for the sender, and as
    less than INFO for an endpoint: an endpoint whose minimal level is INFO gets none. *)
Theorem unknown_level_two_ways cfg order e endpoint
    (He : ev_ID e ≠ EmptyString) (Hu : levelPriority (ev_Level e) = 0) (Ho : order = []) (Hd : priority_or_info (ef_DefaultLevel cfg) = 1)
    (Hm : ep_MinLevel endpoint = "INFO") :
  ShouldSendEvent cfg order e = true ∧ MatchesEndpointFilter e endpoint = false.
Proof.
  split.
  - unfold ShouldSendEvent, MatchesLevelFilter. rewrite (proj2 (String.eqb_neq _ _) He), Ho, Hd. cbn [List.find].
    destruct (negb (ef_Enabled cfg)); [done|]. unfold priority_or_info. by rewrite Hu.
  - unfold MatchesEndpointFilter. rewrite Hm, Hu. apply andb_false_r.
Qed.

Lemma get_app p c s : String.get (String.length p) (p +:+ String c s) = Some c.
Proof. induction p as [|a p IH]; [done|]. exact IH. Qed.

(** A pattern matches a type exactly when it is [*], the type itself, or a proper
    name followed by [.*] of which the type is a part below. *)
Theorem matchesPattern_iff t p :
  matchesPattern t p = true ↔ p = "*" ∨ p = t ∨ ∃ q s, q ≠ EmptyString ∧ p = q +:+ ".*" ∧ t = q +:+ ("." +:+ s).
Proof.
  unfold matchesPattern. destruct (String.eqb_spec p "*") as [->|Hs]; [by split; [left|]|].
  destruct (String.eqb_spec p t) as [->|Ht]; [by split; [right; left|]|].
  assert (∀ q, (String.length (q +:+ ".*") - 2)%nat = String.length q) as Hl by (intros q; rewrite str_length_app; cbn; lia).
  split.
  - destruct ((2 <? String.length p)%nat && HasSuffix p ".*") eqn:E; [|done]. apply andb_true_iff in E as [E1 E2].
    apply HasSuffix_spec in E2 as [q ->]. rewrite Hl, take_bytes_exact. apply Nat.ltb_lt in E1. rewrite str_length_app in E1. cbn in E1.
    intros [[_ Hp]%andb_true_iff Hc]%andb_true_iff. unfold HasPrefix in Hp. apply prefix_split in Hp as [r ->].
    right. right. destruct r as [|c r].
    + exfalso. rewrite str_app_nil_r in Hc. clear -Hc. induction q as [|a q IH]; [done|]. by apply IH.
    + rewrite get_app in Hc. apply Ascii.eqb_eq in Hc as ->. exists q, r. split; [|done]. intros ->. cbn in E1. lia.
  - intros [?|[?|(q & r & Hq & -> & ->)]]; [done..|]. rewrite (proj2 (HasSuffix_spec _ ".*")) by (by exists q).
    rewrite Hl, take_bytes_exact. change ("." +:+ r) with (String "." r). rewrite get_app. unfold HasPrefix. rewrite prefix_app.
    rewrite !str_length_app. cbn [String.length]. rewrite (proj2 (Nat.ltb_lt (String.length q) _)) by lia.
    destruct q as [|a q]; [done|]. by rewrite (proj2 (Nat.ltb_lt 2 _)) by (cbn; lia).
Qed.

(** ** Witnesses *)

Definition hook (name minLevel : string) : WebhookEndpointConfig :=
  mkEndpoint name ("https://" +:+ name) false "POST" ∅ [] "json" no_credentials minLevel.
Definition two_hooks : WebhookConfig := mkConfig [hook "a" EmptyString; hook "b" "INFO"] (mkEventFilter false "INFO" ∅).
Definition started_sender : WebhookSender := (Start (NewWebhookSender two_hooks)).2.

Lemma sync_send_does_nothing_witness :
  SendEventSync [] (an_event "e1" "ERROR" "cache.full") started_sender [1; 2] =
    (None, with_core (with_metrics 2 0 (ws_core started_sender)) started_sender, [1; 2]).
Proof. by apply (sync_send_does_nothing [] (an_event "e1" "ERROR" "cache.full") started_sender [1; 2]). Defined.

Lemma queued_event_is_lost_witness :
  SendEvent [] (an_event "e1" "ERROR" "cache.full") started_sender = (None, mkSender (ws_core started_sender) true 1 0 0).
Proof. by apply (queued_event_is_lost [] (an_event "e1" "ERROR" "cache.full") started_sender). Defined.

Lemma hmac_sends_secret_witness :
  ∃ h, setAuthentication (mkCredentials "hmac" EmptyString EmptyString EmptyString "k3y" EmptyString EmptyString EmptyString ∅) base_headers = Ok h ∧
    h !! "X-Hub-Signature-256"%string = Some ("hmac-sha256=" +:+ "k3y").
Proof.
  by apply (hmac_sends_secret (mkCredentials "hmac" EmptyString EmptyString EmptyString "k3y" EmptyString EmptyString EmptyString ∅)).
Defined.

Lemma filters_monotone_witness :
  let cfg := mkEventFilter true "WARNING" {["auth.*" := "ERROR"]} in
  ShouldSendEvent cfg [("auth.*", "ERROR")]%string (with_level "CRITICAL" (an_event "e" "ERROR" "auth.failure")) = true.
Proof.
  apply (filters_monotone (mkEventFilter true "WARNING" {["auth.*" := "ERROR"]}) [("auth.*", "ERROR")]%string (hook "a" "INFO")
    (an_event "e" "ERROR" "auth.failure") "CRITICAL"); by vm_compute.
Defined.

Lemma override_order_matters_witness :
  let cfg := mkEventFilter true "INFO" ∅ in
  ShouldSendEvent cfg [("*", "INFO"); ("auth.*", "ERROR")]%string (an_event "e" "WARNING" "auth.failure") = true ∧
  ShouldSendEvent cfg [("auth.*", "ERROR"); ("*", "INFO")]%string (an_event "e" "WARNING" "auth.failure") = false.
Proof. by apply (override_order_matters (mkEventFilter true "INFO" ∅) (an_event "e" "WARNING" "auth.failure") "*" "INFO" "auth.*" "ERROR"). Defined.

Lemma unknown_level_two_ways_witness :
  ShouldSendEvent (mkEventFilter true "INFO" ∅) [] (an_event "e" "info" "cache.full") = true ∧
  MatchesEndpointFilter (an_event "e" "info" "cache.full") (hook "b" "INFO") = false.
Proof. by apply (unknown_level_two_ways (mkEventFilter true "INFO" ∅) [] (an_event "e" "info" "cache.full") (hook "b" "INFO")). Defined.
