(* ===== verification/GoWorld.v ===== *)
(** * GoWorld: the clock and the network, as parts of the world

    Code that reads the clock and calls other servers deep inside its operations is
    modelled over a world that holds the files ([GoFS]), the clock and the network:
    [time.Now()] and [http.Client.Do] are its operations.  Nothing is assumed of the
    instants and of the answers; the laws say that neither touches the files. *)

From Stdlib Require Import Ascii.
From S2P Require Import Prelude GoStrings GoPath GoFS GoBase64.

(** Request headers as [Set] leaves them; response headers with all their values. *)
Record Request := mkReq { q_Method : string; q_URL : string; q_Header : gmap string string; q_Body : string }.

Definition Header : Type := gmap string (list string).

(** [r_Read n] is how many bytes a first [Read] into [n] bytes delivers, and whether
    it reports an error (the end of the body included). *)
Record Response := mkResp {
  r_Status : Z;
  r_Header : Header;
  r_ContentLength : Z;
  r_Body : Reader;
  r_Read : nat → nat * bool
}.

(** [header.Get(name)], for canonical names. *)
Definition HeaderGet (h : Header) (name : string) : string :=
  match h !! name with Some (v :: _) => v | _ => EmptyString end.

Definition req_set (name value : string) (q : Request) : Request :=
  mkReq (q_Method q) (q_URL q) (<[name := value]> (q_Header q)) (q_Body q).

(** [req.SetBasicAuth]. *)
Definition req_basic (username password : string) (q : Request) : Request :=
  req_set "Authorization" ("Basic " +:+ EncodeToString StdEncoding (username +:+ (":" +:+ password))) q.

Fixpoint zero_bytes (n : nat) : string := match n with O => EmptyString | S n => String "000" (zero_bytes n) end.

(** [data := make([]byte, n)] and one [Read] into it; [None] is the panic of a
    negative length. *)
Definition read_once (n : Z) (r : Response) : option (string * bool) :=
  if n <? 0 then None
  else
    let '(k, err) := r_Read r (Z.to_nat n) in
    let got := take_bytes (Nat.min k (Z.to_nat n)) (rd_data (r_Body r)) in
    Some (got +:+ zero_bytes (Z.to_nat n - String.length got), err).

(** [url_error] is the error of [http.NewRequest] for an address, if there is one;
    [http_do] answers or gives the text of its error. *)
Class World (S : Type) := {
  time_now : S → instant * S;
  url_error : string → option string;
  http_do : Request → S → result string Response * S
}.

Class WorldLaws (S : Type) `{!FileSystem S} `{!World S} : Prop := {
  time_now_files s : files (time_now s).2 = files s;
  http_do_files q s : files (http_do q s).2 = files s
}.

(** [strings.TrimRight] of one byte, and the strings before the first of a byte. *)
Definition trim_right_byte (c : ascii) (s : string) : string := String.rev (trim_left_char c (String.rev s)).
Definition before_byte (c : string) (s : string) : string := match cut_at c s with Some (a, _) => a | None => s end.

(** ** Computations that change a state and can fail

    [let! x := c in k] is [x, err := c; if err != nil { return err }; k] where [c]
    changes the state; [em_try] keeps the error as a value instead of returning it. *)

Definition EM (W E A : Type) : Type := W → result E A * W.
Definition em_ret {W E A} (a : A) : EM W E A := λ w, (Ok a, w).
Definition em_fail {W E A} (e : E) : EM W E A := λ w, (Err e, w).
Definition em_bind {W E A B} (m : EM W E A) (k : A → EM W E B) : EM W E B :=
  λ w, match m w with (Ok a, w) => k a w | (Err e, w) => (Err e, w) end.
Definition em_try {W E A} (m : EM W E A) : EM W E (result E A) := λ w, let '(r, w) := m w in (Ok r, w).
Definition em_get {W E A} (f : W → A) : EM W E A := λ w, (Ok (f w), w).
Definition em_do {W E A} (f : W → A * W) : EM W E A := λ w, let '(a, w) := f w in (Ok a, w).
Definition em_lift {W E A} (r : result E A) : EM W E A := λ w, (r, w).

Notation "'let!' x ':=' c 'in' k" := (em_bind c (λ x, k))
  (at level 10, x pattern, c at level 100, k at level 200, format "'let!'  x  ':='  c  'in' '//' k") : go_scope.

Lemma em_bind_ok {W E A B} (m : EM W E A) (k : A → EM W E B) w b w' :
  em_bind m k w = (Ok b, w') ↔ ∃ a w1, m w = (Ok a, w1) ∧ k a w1 = (Ok b, w').
Proof.
  unfold em_bind. destruct (m w) as [[a|e] w1]; [|naive_solver]. split; [intros H; by eexists _, _|].
  by intros (? & ? & [= <- <-] & H).
Qed.

Lemma em_bind_try {W E A B} (m : EM W E A) (k : result E A → EM W E B) w :
  em_bind (em_try m) k w = let '(r, w) := m w in k r w.
Proof. unfold em_bind, em_try. by destruct (m w). Qed.

(** A property of states that a computation keeps, whatever it answers. *)
Definition keeps {W E A} (P : W → Prop) (m : EM W E A) : Prop := ∀ w, P w → P (m w).2.

Section keeps.
Context {W E : Type} (P : W → Prop).

Lemma keeps_ret {A} (a : A) : keeps P (em_ret (E:=E) a).
Proof. by intros w. Qed.
Lemma keeps_fail {A} (e : E) : keeps P (em_fail (A:=A) e).
Proof. by intros w. Qed.
Lemma keeps_get {A} (f : W → A) : keeps P (em_get (E:=E) f).
Proof. by intros w. Qed.
Lemma keeps_lift {A} (r : result E A) : keeps P (em_lift r).
Proof. by intros w. Qed.
Lemma keeps_bind {A B} (m : EM W E A) (k : A → EM W E B) : keeps P m → (∀ a, keeps P (k a)) → keeps P (em_bind m k).
Proof. intros Hm Hk w Hw. specialize (Hm w Hw). unfold em_bind. destruct (m w) as [[a|e] w']; [|done]. by apply Hk. Qed.
Lemma keeps_try {A} (m : EM W E A) : keeps P m → keeps P (em_try m).
Proof. intros Hm w Hw. specialize (Hm w Hw). unfold em_try. by destruct (m w). Qed.
Lemma keeps_do {A} (f : W → A * W) : (∀ w, P w → P (f w).2) → keeps P (em_do (E:=E) f).
Proof. intros Hf w Hw. specialize (Hf w Hw). unfold em_do. by destruct (f w). Qed.
End keeps.

Create HintDb keeps.
#[export] Hint Resolve keeps_ret keeps_fail keeps_get keeps_lift keeps_bind keeps_try keeps_do : keeps.

(** ** A world in memory

    The files of [MemFS] with a clock that advances by one second at each reading,
    and a network that answers as a function says. *)

Section mem_world.
Context (answers : Request → result string Response).

Record MemWorld := mkMemWorld { mw_fs : MemFS; mw_clock : instant }.

Definition on_fs {A} (f : MemFS → A * MemFS) (w : MemWorld) : A * MemWorld :=
  let '(a, fs) := f (mw_fs w) in (a, mkMemWorld fs (mw_clock w)).

#[export] Instance mem_world_fs : FileSystem MemWorld := {
  files w := files (mw_fs w);
  ReadFile p w := ReadFile p (mw_fs w);
  OpenFile p w := OpenFile p (mw_fs w);
  StatFile p w := StatFile p (mw_fs w);
  StatSize p w := StatSize p (mw_fs w);
  ModTime p w := ModTime p (mw_fs w);
  MkdirAll p := on_fs (MkdirAll p);
  CreateFile p := on_fs (CreateFile p);
  CopyTo p d := on_fs (CopyTo p d);
  CloseFile p := on_fs (CloseFile p);
  Rename p q := on_fs (Rename p q);
  Remove p := on_fs (Remove p);
  RemoveAll p := on_fs (RemoveAll p);
  WriteFile p d := on_fs (WriteFile p d);
  Walk p w := Walk p (mw_fs w);
  ReadDir p w := ReadDir p (mw_fs w);
  is_dir p w := is_dir p (mw_fs w)
}.

Lemma on_fs_fst {A} (f : MemFS → A * MemFS) w : (on_fs f w).1 = (f (mw_fs w)).1.
Proof. unfold on_fs. by destruct (f (mw_fs w)). Qed.
Lemma on_fs_snd {A} (f : MemFS → A * MemFS) w : mw_fs (on_fs f w).2 = (f (mw_fs w)).2.
Proof. unfold on_fs. by destruct (f (mw_fs w)). Qed.

#[export] Instance mem_world_laws : FileSystemLaws MemWorld.
Proof.
  split; intros *; unfold files, ReadFile, OpenFile, StatFile, StatSize, MkdirAll, CreateFile, CopyTo, CloseFile, Rename, Remove, WriteFile, Walk,
    ReadDir, is_dir, mem_world_fs; rewrite ?on_fs_fst, ?on_fs_snd.
  - apply (ReadFile_ok (S:=MemFS)).
  - apply (ReadFile_exist (S:=MemFS)).
  - apply (OpenFile_ok (S:=MemFS)).
  - apply (OpenFile_exist (S:=MemFS)).
  - apply (StatFile_missing (S:=MemFS)).
  - apply (StatFile_file (S:=MemFS)).
  - apply (StatSize_ok (S:=MemFS)).
  - apply (MkdirAll_files (S:=MemFS)).
  - apply (CreateFile_ok (S:=MemFS)).
  - apply (CreateFile_err (S:=MemFS)).
  - apply (CopyTo_ok (S:=MemFS)).
  - apply (CopyTo_frame (S:=MemFS)).
  - apply (CloseFile_ok (S:=MemFS)).
  - apply (CloseFile_frame (S:=MemFS)).
  - apply (Rename_ok (S:=MemFS)).
  - apply (Rename_err (S:=MemFS)).
  - apply (Remove_ok (S:=MemFS)).
  - apply (Remove_missing (S:=MemFS)).
  - apply (Remove_err (S:=MemFS)).
  - apply (WriteFile_ok (S:=MemFS)).
  - apply (WriteFile_frame (S:=MemFS)).
  - apply (WriteFile_dir (S:=MemFS)).
  - apply (ReadDir_files (S:=MemFS)).
  - apply (ReadDir_names (S:=MemFS)).
  - apply (Walk_files (S:=MemFS)).
  - apply (Walk_paths (S:=MemFS)).
Qed.

#[export] Instance mem_world : World MemWorld := {
  time_now w := (mw_clock w, mkMemWorld (mw_fs w) (mw_clock w + second));
  url_error u := if String.eqb u EmptyString then Some "empty url"%string else None;
  http_do q w := (answers q, w)
}.

#[export] Instance mem_world_world_laws : WorldLaws MemWorld.
Proof. by split. Qed.
End mem_world.

(** An answer whose body arrives whole, with its length declared. *)
Definition whole (status : Z) (h : Header) (body : string) : Response :=
  mkResp status h (Z.of_nat (String.length body)) (mkReader body false) (λ n, (n, true)).

(** An encoding of any countable type, as the digits of a number. *)
Fixpoint bits (p : positive) : string :=
  match p with xH => EmptyString | xO p => String "0" (bits p) | xI p => String "1" (bits p) end.
Fixpoint unbits (s : string) : positive :=
  match s with EmptyString => xH | String c s => if Ascii.eqb c "0" then xO (unbits s) else xI (unbits s) end.

Lemma unbits_bits p : unbits (bits p) = p.
Proof. induction p as [p IH|p IH|]; cbn; by rewrite ?IH. Qed.

Definition countable_codec (A : Type) `{Countable A} : Codec A.
Proof.
  refine {| json_marshal a := Some (bits (encode a)); json_unmarshal d := decode (unbits d); json_safe _ := True |}.
  intros m d _ [= <-]. rewrite unbits_bits. apply countable.decode_encode.
Defined.
