(* ===== verification/DockerModels.v ===== *)
(** * DockerModels: the data of the Docker registry service

    Models [models.go] and the statistics of [interfaces.go] in
    [src/internal/domain/docker], and [src/internal/config/docker_proxy_settings.go].
    Response times, which are floating-point, and the fields that nothing reads are
    left out.  [Managers] is the state of the three managers that one part of the
    service holds, with the world it runs in. *)

From S2P Require Import Prelude GoStrings GoPath GoFS GoWorld PathValidator.

(** ** Configuration *)

Record DockerAuth := mkDockerAuth { da_Username : string; da_Password : string }.
Record DockerProxyServer := mkServer { ds_Name : string; ds_URL : string; ds_Auth : DockerAuth }.
Record DockerProxyRegistryConfig := mkRegistryConfig { dr_URL : string; dr_Auth : DockerAuth }.
Record DockerProxySettings := mkSettings {
  dp_Path : string;
  dp_UseCache : bool;
  dp_Proxies : list DockerProxyServer;
  dp_Registries : gmap string DockerProxyRegistryConfig
}.

(** [DefaultProxyConfig]: the settings may be nil. *)
Record ProxyConfig := mkProxyConfig { px_config : option DockerProxySettings; px_baseDir : string }.

Record CacheConfig := mkCacheConfig { cc_BaseDir : string; cc_ManifestTTL : duration; cc_BlobTTL : duration; cc_MaxSizeMB : Z }.

Definition GetRegistries (c : ProxyConfig) : list DockerProxyServer := from_option dp_Proxies [] (px_config c).
Definition GetRegistryConfig (registryName : string) (c : ProxyConfig) : option DockerProxyRegistryConfig :=
  s ← px_config c; dp_Registries s !! registryName.
Definition GetCacheConfig (c : ProxyConfig) : CacheConfig := mkCacheConfig (px_baseDir c) (6 * hour) (7 * 24 * hour) 50000.
Definition IsEnabled (c : ProxyConfig) : bool := match GetRegistries c with [] => false | _ => true end.
Definition GetPath (c : ProxyConfig) : string := from_option dp_Path "docker"%string (px_config c).
Definition IsCacheEnabled (c : ProxyConfig) : bool := from_option dp_UseCache true (px_config c).
Definition config_GetDefaultRegistry (c : ProxyConfig) : option DockerProxyServer := head (GetRegistries c).

(** ** Requests, responses, entries *)

Record RegistryRequest := mkRegistryRequest {
  rr_Path : string;
  rr_Method : string;
  rr_Headers : gmap string string;
  rr_Repository : string;
  rr_Reference : string;
  rr_Operation : string
}.

Record ManifestResponse := mkManifestResponse {
  mr_Data : string;
  mr_ContentType : string;
  mr_Digest : string;
  mr_Headers : gmap string string;
  mr_StatusCode : Z;
  mr_FromCache : bool;
  mr_RegistryUsed : string;
  mr_SchemaVersion : Z;
  mr_IsMultiPlatform : bool
}.

Record BlobReference := mkBlobReference { br_Digest : string; br_Size : Z; br_ContentType : string; br_Repository : string; br_IsConfig : bool; br_IsLayer : bool }.

Record RegistryAuth := mkRegistryAuth {
  ra_Type : string;
  ra_Username : string;
  ra_Password : string;
  ra_Token : string;
  ra_RefreshToken : string;
  ra_ExpiresAt : instant;
  ra_Realm : string;
  ra_Service : string;
  ra_Scope : string
}.

Definition no_auth : RegistryAuth :=
  mkRegistryAuth EmptyString EmptyString EmptyString EmptyString EmptyString zero_time EmptyString EmptyString EmptyString.

Record RegistryStatus := mkRegistryStatus {
  rs_Name : string;
  rs_URL : string;
  rs_Available : bool;
  rs_LastCheck : instant;
  rs_Error : string;
  rs_APIVersion : string;
  rs_Features : list string
}.

(** [ce_Headers] holds the data of the entry. *)
Record CacheEntry := mkCacheEntry {
  ce_Key : string;
  ce_Path : string;
  ce_ContentType : string;
  ce_Size : Z;
  ce_CreatedAt : instant;
  ce_LastAccessed : instant;
  ce_TTL : duration;
  ce_IsManifest : bool;
  ce_IsBlob : bool;
  ce_Digest : string;
  ce_Repository : string;
  ce_Reference : string;
  ce_Headers : string
}.

(** The hit and miss rates are floating-point and left out. *)
Record CacheStats := mkCacheStats {
  st_TotalEntries : Z;
  st_ManifestEntries : Z;
  st_BlobEntries : Z;
  st_TotalSizeBytes : Z;
  st_EvictionCount : Z
}.

(** ** Errors *)

Inductive docker_error :=
| NoRegistries
| NoneAvailable (repository : string)
| NoDefaultRegistry
| NoAuthConfig (registryURL : string)
| ChallengeFailed (e : docker_error)
| NoChallenge
| UnsupportedChallenge (header : string)
| NoRealm
| BadRequest (msg : string)
| FetchFailed (msg : string)
| TokenStatus (status : Z)
| BadTokenResponse
| NoToken
| RefreshUnsupported
| CredentialsRequired
| TokenRequired
| CachePath (e : path_error)
| EntryNotFound (key : string)
| EntryUnreadable
| EntryInvalid (key : string)
| DataMissing (key : string)
| MkdirFailed
| WriteFailed
| MarshalFailed
| HeadersUnreadable
| InvalidDigest (digest : string)
| DigestMismatch (expected actual : string)
| ReadFailed
| InvalidManifest
| BlobNotFound (digest : string)
| UnsupportedMethod (method : string)
| InvalidPath (path : string)
| UnsupportedOperation (operation : string)
| Panic.

(** ** The state of the managers *)

Record Managers (S : Type) := mkManagers {
  mg_status : gmap string RegistryStatus;
  mg_index : Z;
  mg_tokens : gmap string RegistryAuth;
  mg_stats : CacheStats;
  mg_world : S
}.
Arguments mkManagers {S}. Arguments mg_status {S}. Arguments mg_index {S}. Arguments mg_tokens {S}.
Arguments mg_stats {S}. Arguments mg_world {S}.

Section state.
Context {S : Type}.
Notation M := (EM (Managers S) docker_error).

Definition set_status (f : gmap string RegistryStatus → gmap string RegistryStatus) (m : Managers S) : Managers S :=
  mkManagers (f (mg_status m)) (mg_index m) (mg_tokens m) (mg_stats m) (mg_world m).
Definition set_index (i : Z) (m : Managers S) : Managers S := mkManagers (mg_status m) i (mg_tokens m) (mg_stats m) (mg_world m).
Definition set_tokens (f : gmap string RegistryAuth → gmap string RegistryAuth) (m : Managers S) : Managers S :=
  mkManagers (mg_status m) (mg_index m) (f (mg_tokens m)) (mg_stats m) (mg_world m).
Definition set_stats (f : CacheStats → CacheStats) (m : Managers S) : Managers S :=
  mkManagers (mg_status m) (mg_index m) (mg_tokens m) (f (mg_stats m)) (mg_world m).
Definition set_world (s : S) (m : Managers S) : Managers S := mkManagers (mg_status m) (mg_index m) (mg_tokens m) (mg_stats m) s.

(** An operation of the world. *)
Definition on_world {A} (f : S → A * S) : M A := em_do (λ m, let '(a, s) := f (mg_world m) in (a, set_world s m)).
Definition modify (f : Managers S → Managers S) : M unit := em_do (λ m, (tt, f m)).

Definition fresh_managers (s : S) : Managers S := mkManagers ∅ 0 ∅ (mkCacheStats 0 0 0 0 0) s.
End state.
