(* ===== verification/DockerRegistry.v ===== *)
(** * DockerRegistry: registries and their credentials

    Models [registry_manager.go] and [auth_manager.go] of
    [src/internal/services/docker]: the choice of a registry with its health, and
    the credentials and tokens for it.  The decoding of a token answer from JSON is a
    parameter.  Logging is left out; the periodic check is not used by the program. *)

From Stdlib Require Import Ascii.
From S2P Require Import Prelude GoStrings GoPath GoFS GoBase64 GoWorld DockerModels.

Section registry.
Context {S : Type} `{!World S} (config : ProxyConfig).
Notation M := (EM (Managers S) docker_error).

(** ** registry_manager.go *)

Definition strip_scheme (u : string) : string :=
  if HasPrefix u "http://" then TrimPrefix u "http://"
  else if HasPrefix u "https://" then TrimPrefix u "https://" else u.

Definition extractRegistryName (registryURL : string) : string := before_byte "/" (before_byte ":" (strip_scheme registryURL)).

Definition detectAPIVersion (h : Header) : string :=
  let v := HeaderGet h "Docker-Distribution-Api-Version" in if String.eqb v EmptyString then "registry/2.0" else v.

Definition detectFeatures (h : Header) : list string :=
  ["manifests"; "blobs"]%string ++
  (if String.eqb (HeaderGet h "Docker-Distribution-Api-Version") EmptyString then [] else ["distribution-api"%string]) ++
  (if Contains (HeaderGet h "Accept") "oci" then ["oci"%string] else []).

Definition createFailedStatus (registryURL msg : string) : M RegistryStatus :=
  let! now := on_world time_now in
  em_ret (mkRegistryStatus (extractRegistryName registryURL) registryURL false now msg "unknown" []).

Definition health_request (registryURL : string) : Request :=
  mkReq "GET" (trim_right_byte "/" registryURL +:+ "/v2/") ∅ EmptyString.

(** The clock is read for the response time before and after the request. *)
Definition CheckRegistryHealth (registryURL : string) : M RegistryStatus :=
  let q := health_request registryURL in
  let! _ := on_world time_now in
  match url_error (S:=S) (q_URL q) with
  | Some msg => createFailedStatus registryURL msg
  | None =>
      let! r := on_world (http_do q) in
      let! _ := on_world time_now in
      match r with
      | Err msg => createFailedStatus registryURL msg
      | Ok resp =>
          let! now := on_world time_now in
          let available := (r_Status resp =? 200) || (r_Status resp =? 401) in
          em_ret (mkRegistryStatus (extractRegistryName registryURL) registryURL available now
            (if available then EmptyString else "HTTP " +:+ Itoa (r_Status resp))
            (detectAPIVersion (r_Header resp)) (detectFeatures (r_Header resp)))
      end
  end.

Definition GetRegistryStatus (registryURL : string) : M RegistryStatus :=
  let! known := em_get (λ m, mg_status m !! registryURL) in
  let! recent := match known with
                 | Some status =>
                     let! now := on_world time_now in
                     em_ret (if time_sub now (rs_LastCheck status) <? 5 * minute then Some status else None)
                 | None => em_ret None
                 end in
  match recent with
  | Some status => em_ret status
  | None =>
      let! status := CheckRegistryHealth registryURL in
      let! _ := modify (set_status (<[registryURL := status]>)) in
      em_ret status
  end.

(** The loop over the registries; an error of [GetRegistryStatus] skips one. *)
Fixpoint available_registries (registries : list DockerProxyServer) : M (list RegistryStatus) :=
  match registries with
  | [] => em_ret []
  | registry :: registries =>
      let! status := em_try (GetRegistryStatus (ds_URL registry)) in
      let! rest := available_registries registries in
      em_ret match status with
             | Ok status => if rs_Available status then status :: rest else rest
             | Err _ => rest
             end
  end.

(** The index is a machine integer, and negative once it has overflowed. *)
Definition SelectRegistry (repository : string) : M RegistryStatus :=
  match GetRegistries config with
  | [] => em_fail NoRegistries
  | registries =>
      let! available := available_registries registries in
      match available with
      | [] => em_fail (NoneAvailable repository)
      | _ =>
          let! index := em_get mg_index in
          let i := Z.rem index (Z.of_nat (length available)) in
          let! _ := modify (set_index (wrap64 (index + 1))) in
          match (if i <? 0 then None else available !! Z.to_nat i) with
          | Some selected => em_ret selected
          | None => em_fail Panic
          end
      end
  end.

Definition MarkRegistryFailed (registryURL msg : string) : M unit :=
  let! known := em_get (λ m, mg_status m !! registryURL) in
  let! now := on_world time_now in
  let status := default (mkRegistryStatus (extractRegistryName registryURL) registryURL false zero_time EmptyString EmptyString []) known in
  modify (set_status (<[registryURL :=
    mkRegistryStatus (rs_Name status) (rs_URL status) false now msg (rs_APIVersion status) (rs_Features status)]>)).

Definition BuildUpstreamURL (registry : RegistryStatus) (requestPath : string) : string :=
  let baseURL := trim_right_byte "/" (rs_URL registry) in
  let requestPath :=
    if negb (HasPrefix requestPath "/v2/") && negb (HasPrefix requestPath "v2/")
    then (if HasPrefix requestPath "/" then "/v2" +:+ requestPath else "/v2/" +:+ requestPath) else requestPath in
  let requestPath := if HasPrefix requestPath "/" then requestPath else "/" +:+ requestPath in
  baseURL +:+ requestPath.

Definition GetDefaultRegistry : M RegistryStatus :=
  match config_GetDefaultRegistry config with
  | None => em_fail NoDefaultRegistry
  | Some r => GetRegistryStatus (ds_URL r)
  end.

(** ** auth_manager.go *)

(** The fields of a token answer; [decode_token] is [json.Decoder.Decode]. *)
Record TokenResponse := mkTokenResponse { tr_Token : string; tr_AccessToken : string; tr_RefreshToken : string; tr_ExpiresIn : Z }.
Context (decode_token : string → option TokenResponse).

Definition nonempty (s : string) : bool := negb (String.eqb s EmptyString).

(** The bytes of a body, unless reading it fails. *)
Definition decode_body (r : Response) : option TokenResponse := if rd_fails (r_Body r) then None else decode_token (rd_data (r_Body r)).

Definition token_of (t : TokenResponse) : string := if nonempty (tr_Token t) then tr_Token t else tr_AccessToken t.
Definition lifetime (t : TokenResponse) : duration := wrap64 ((if tr_ExpiresIn t =? 0 then 3600 else tr_ExpiresIn t) * second).

(** The parameters of a Bearer challenge, split at every comma. *)
Definition challenge_value (param name : string) : string := trim_char "034" (TrimPrefix param name).

Definition challenge_param (auth : RegistryAuth) (param : string) : RegistryAuth :=
  let param := TrimSpace param in
  if HasPrefix param "realm=" then
    mkRegistryAuth (ra_Type auth) (ra_Username auth) (ra_Password auth) (ra_Token auth) (ra_RefreshToken auth) (ra_ExpiresAt auth)
      (challenge_value param "realm=") (ra_Service auth) (ra_Scope auth)
  else if HasPrefix param "service=" then
    mkRegistryAuth (ra_Type auth) (ra_Username auth) (ra_Password auth) (ra_Token auth) (ra_RefreshToken auth) (ra_ExpiresAt auth)
      (ra_Realm auth) (challenge_value param "service=") (ra_Scope auth)
  else if HasPrefix param "scope=" then
    mkRegistryAuth (ra_Type auth) (ra_Username auth) (ra_Password auth) (ra_Token auth) (ra_RefreshToken auth) (ra_ExpiresAt auth)
      (ra_Realm auth) (ra_Service auth) (challenge_value param "scope=")
  else auth.

Definition of_type (type : string) : RegistryAuth :=
  mkRegistryAuth type EmptyString EmptyString EmptyString EmptyString zero_time EmptyString EmptyString EmptyString.

Definition parseBearerChallenge (authHeader : string) : result docker_error RegistryAuth :=
  let auth := fold_left challenge_param (Split (TrimPrefix authHeader "Bearer ") ",") (of_type "bearer") in
  if nonempty (ra_Realm auth) then Ok auth else Err NoRealm.

Definition ProcessAuthChallenge (h : Header) : result docker_error RegistryAuth :=
  let authHeader := HeaderGet h "Www-Authenticate" in
  if negb (nonempty authHeader) then Err NoChallenge
  else if HasPrefix authHeader "Bearer " then parseBearerChallenge authHeader
  else if HasPrefix authHeader "Basic " then Ok (of_type "basic")
  else Err (UnsupportedChallenge authHeader).

Definition getAuthChallenge (registryURL : string) : M RegistryAuth :=
  let q := health_request registryURL in
  match url_error (S:=S) (q_URL q) with
  | Some msg => em_fail (BadRequest msg)
  | None =>
      let! r := on_world (http_do q) in
      match r with
      | Err msg => em_fail (FetchFailed msg)
      | Ok resp => if r_Status resp =? 401 then em_lift (ProcessAuthChallenge (r_Header resp)) else em_fail NoChallenge
      end
  end.

(** Where tokens are asked for: the service of Docker Hub, or what the challenge says. *)
Definition token_service (registryURL : string) : M (string * string) :=
  let hub := ("https://auth.docker.io/token", "registry.docker.io")%string in
  if Contains registryURL "docker.io" then em_ret hub
  else
    let! challenge := em_try (getAuthChallenge registryURL) in
    match challenge with
    | Err e => em_fail (ChallengeFailed e)
    | Ok c => em_ret (if nonempty (ra_Realm c) then (ra_Realm c, ra_Service c) else hub)
    end.

Definition pull_scope (repository : string) : string := "repository:" +:+ (repository +:+ ":pull").
Definition token_key (registryURL repository : string) : string := registryURL +:+ (":" +:+ repository).

Definition acquireToken (registryURL repository : string) : M RegistryAuth :=
  let! (tokenURL, service) := token_service registryURL in
  let q := mkReq "GET" (tokenURL +:+ ("?service=" +:+ (service +:+ ("&scope=" +:+ pull_scope repository)))) ∅ EmptyString in
  match url_error (S:=S) (q_URL q) with
  | Some msg => em_fail (BadRequest msg)
  | None =>
      let q := match GetRegistryConfig registryURL config with
               | Some rc => if nonempty (da_Username (dr_Auth rc)) then req_basic (da_Username (dr_Auth rc)) (da_Password (dr_Auth rc)) q else q
               | None => q
               end in
      let! r := on_world (http_do q) in
      match r with
      | Err msg => em_fail (FetchFailed msg)
      | Ok resp =>
          if negb (r_Status resp =? 200) then em_fail (TokenStatus (r_Status resp))
          else match decode_body resp with
          | None => em_fail BadTokenResponse
          | Some t =>
              if negb (nonempty (token_of t)) then em_fail NoToken
              else
                let! now := on_world time_now in
                let auth := mkRegistryAuth "bearer" EmptyString EmptyString (token_of t) EmptyString (time_add now (lifetime t))
                              tokenURL service (pull_scope repository) in
                let! _ := modify (set_tokens (<[token_key registryURL repository := auth]>)) in
                em_ret auth
          end
      end
  end.

Definition ValidateToken (auth : RegistryAuth) : M bool :=
  if String.eqb (ra_Type auth) "basic" then em_ret (nonempty (ra_Username auth) && nonempty (ra_Password auth))
  else if String.eqb (ra_Type auth) "bearer" then
    if negb (nonempty (ra_Token auth)) then em_ret false
    else
      let! now := on_world time_now in
      em_ret (time_before now (time_add (ra_ExpiresAt auth) (- (5 * minute))))
  else em_ret false.

Definition basic_of (a : DockerAuth) : RegistryAuth :=
  mkRegistryAuth "basic" (da_Username a) (da_Password a) EmptyString EmptyString zero_time EmptyString EmptyString EmptyString.

Definition GetAuthToken (registryURL repository : string) : M RegistryAuth :=
  match GetRegistryConfig registryURL config with
  | None =>
      match config_GetDefaultRegistry config with
      | Some d => if nonempty (da_Username (ds_Auth d)) then em_ret (basic_of (ds_Auth d)) else em_fail (NoAuthConfig registryURL)
      | None => em_fail (NoAuthConfig registryURL)
      end
  | Some rc =>
      if nonempty (da_Username (dr_Auth rc)) && nonempty (da_Password (dr_Auth rc)) then em_ret (basic_of (dr_Auth rc))
      else
        let! cached := em_get (λ m, mg_tokens m !! token_key registryURL repository) in
        match cached with
        | Some auth =>
            let! valid := ValidateToken auth in
            if valid then em_ret auth else acquireToken registryURL repository
        | None => acquireToken registryURL repository
        end
  end.

(** [RefreshToken] updates the token it is given, which is here returned; the error
    leaves it as it was.  [form] is [url.Values.Encode] of the four fields. *)
Definition refreshWithRefreshToken (form : RegistryAuth → string) (auth : RegistryAuth) : M RegistryAuth :=
  match url_error (S:=S) (ra_Realm auth) with
  | Some msg => em_fail (BadRequest msg)
  | None =>
      let! r := on_world (http_do (mkReq "POST" (ra_Realm auth)
                  {["Content-Type"%string := "application/x-www-form-urlencoded"%string]} (form auth))) in
      match r with
      | Err msg => em_fail (FetchFailed msg)
      | Ok resp =>
          if negb (r_Status resp =? 200) then em_fail (TokenStatus (r_Status resp))
          else match decode_body resp with
          | None => em_fail BadTokenResponse
          | Some t =>
              let! now := on_world time_now in
              em_ret (mkRegistryAuth (ra_Type auth) (ra_Username auth) (ra_Password auth) (token_of t)
                (if nonempty (tr_RefreshToken t) then tr_RefreshToken t else ra_RefreshToken auth)
                (time_add now (lifetime t)) (ra_Realm auth) (ra_Service auth) (ra_Scope auth))
          end
      end
  end.

Definition RefreshToken (form : RegistryAuth → string) (auth : RegistryAuth) : M RegistryAuth :=
  if nonempty (ra_RefreshToken auth) then refreshWithRefreshToken form auth else em_fail RefreshUnsupported.

Definition SetBasicAuth (username password : string) (q : Request) : result docker_error Request :=
  if negb (nonempty username) || negb (nonempty password) then Err CredentialsRequired else Ok (req_basic username password q).
Definition SetBearerAuth (token : string) (q : Request) : result docker_error Request :=
  if negb (nonempty token) then Err TokenRequired else Ok (req_set "Authorization" ("Bearer " +:+ token) q).

Definition ClearExpiredTokens : M unit :=
  let! now := on_world time_now in
  modify (set_tokens (filter (λ x, negb (String.eqb (ra_Type x.2) "bearer" && time_after now (ra_ExpiresAt x.2)) = true))).

(** What the managers do with the credentials of a registry before a request: the
    errors of both setters are dropped. *)
Definition set_auth (with_basic : bool) (auth : result docker_error RegistryAuth) (q : Request) : Request :=
  match auth with
  | Err _ => q
  | Ok a =>
      if String.eqb (ra_Type a) "bearer" && nonempty (ra_Token a) then from_option id q (match SetBearerAuth (ra_Token a) q with Ok q => Some q | Err _ => None end)
      else if with_basic && String.eqb (ra_Type a) "basic" && nonempty (ra_Username a)
      then from_option id q (match SetBasicAuth (ra_Username a) (ra_Password a) q with Ok q => Some q | Err _ => None end)
      else q
  end.

(** ** The choice of a registry *)

(** The elements of a list from any index on, cyclically. *)
Lemma rotation urls i n : length urls = n → (0 < n)%nat → 0 <= i →
  (λ j, default EmptyString (urls !! Z.to_nat ((i + Z.of_nat j) mod Z.of_nat n))) <$> seq 0 n ≡ₚ urls.
Proof.
  intros Hl Hpos H0. set (i0 := Z.to_nat (i mod Z.of_nat n)).
  pose proof (Z.mod_pos_bound i (Z.of_nat n) ltac:(lia)) as Hmp. pose proof (Z.div_mod i (Z.of_nat n) ltac:(lia)) as Hdm.
  transitivity (drop i0 urls ++ take i0 urls); [|rewrite Permutation_app_comm; by rewrite take_drop].
  match goal with |- ?a ≡ₚ ?b => assert (a = b) as E; [|by rewrite E] end.
  apply list_eq. intros j. rewrite list_lookup_fmap. destruct (decide (j < n)%nat) as [Hj|Hj].
  - rewrite lookup_seq_lt by done. cbn [fmap option_fmap option_map]. rewrite Nat.add_0_l.
    assert (Z.to_nat ((i + Z.of_nat j) mod Z.of_nat n) = if (i0 + j <? n)%nat then (i0 + j)%nat else (i0 + j - n)%nat) as ->.
    { apply Nat2Z.inj. rewrite Z2Nat.id by (apply Z.mod_pos_bound; lia). symmetry. destruct (Nat.ltb_spec (i0 + j) n).
      - apply (Z.mod_unique_pos _ _ (i / Z.of_nat n)); unfold i0 in *; lia.
      - apply (Z.mod_unique_pos _ _ (i / Z.of_nat n + 1)); unfold i0 in *; lia. }
    destruct (Nat.ltb_spec (i0 + j) n).
    + rewrite lookup_app_l by (rewrite length_drop; lia). rewrite lookup_drop.
      by destruct (lookup_lt_is_Some_2 urls (i0 + j)%nat ltac:(lia)) as [x ->].
    + rewrite lookup_app_r by (rewrite length_drop; lia). rewrite length_drop, lookup_take_lt by (unfold i0 in *; lia).
      replace (j - (length urls - i0))%nat with (i0 + j - n)%nat by lia.
      by destruct (lookup_lt_is_Some_2 urls (i0 + j - n)%nat ltac:(unfold i0 in *; lia)) as [x ->].
  - rewrite lookup_seq_ge by lia. symmetry. apply lookup_ge_None. rewrite length_app, length_drop, length_take. lia.
Qed.

(** [n] choices in a row, by their addresses. *)
Fixpoint selections (repository : string) (n : nat) : M (list string) :=
  match n with
  | O => em_ret []
  | Datatypes.S n =>
      let! st := SelectRegistry repository in
      let! rest := selections repository n in
      em_ret (rs_URL st :: rest)
  end.

Definition all_available (m : Managers S) : Prop := ∀ u st, mg_status m !! u = Some st → rs_Available st = true ∧ rs_URL st = u.

(** Every health check of a configured registry is answered with 200 or 401. *)
Definition healthy_network : Prop := ∀ r s, r ∈ GetRegistries config →
  url_error (S:=S) (q_URL (health_request (ds_URL r))) = None ∧
  ∃ resp s', http_do (health_request (ds_URL r)) s = (Ok resp, s') ∧ (r_Status resp = 200 ∨ r_Status resp = 401).

Lemma on_world_eq {A} (f : S → A * S) m : on_world f m = (Ok (f (mg_world m)).1, set_world (f (mg_world m)).2 m).
Proof. unfold on_world, em_do. by destruct (f (mg_world m)). Qed.

Lemma bind_world {A B} (f : S → A * S) (k : A → M B) m :
  em_bind (on_world f) k m = k (f (mg_world m)).1 (set_world (f (mg_world m)).2 m).
Proof. unfold em_bind. by rewrite on_world_eq. Qed.
Lemma bind_get {A B} (f : Managers S → A) (k : A → M B) m : em_bind (em_get f) k m = k (f m) m.
Proof. done. Qed.
Lemma bind_ret {A B} (a : A) (k : A → M B) m : em_bind (em_ret a) k m = k a m.
Proof. done. Qed.
Lemma bind_fail {A B} e (k : A → M B) m : em_bind (em_fail e) k m = (Err e, m).
Proof. done. Qed.
Lemma bind_modify {B} f (k : unit → M B) m : em_bind (modify f) k m = k tt (f m).
Proof. done. Qed.
Lemma bind_run {A B} (c : M A) (k : A → M B) m a m' : c m = (Ok a, m') → em_bind c k m = k a m'.
Proof. intros E. unfold em_bind. by rewrite E. Qed.
Hint Rewrite @bind_world @bind_get @bind_ret @bind_fail @bind_modify @on_world_eq @em_bind_try : em.

Lemma healthy_status r m : healthy_network → r ∈ GetRegistries config → all_available m →
  ∃ st m', GetRegistryStatus (ds_URL r) m = (Ok st, m') ∧ rs_Available st = true ∧ rs_URL st = ds_URL r ∧
    all_available m' ∧ mg_index m' = mg_index m.
Proof.
  intros Hn Hr Hm. set (u := ds_URL r).
  assert (∀ m, all_available m → ∃ st m', CheckRegistryHealth u m = (Ok st, m') ∧ rs_Available st = true ∧ rs_URL st = u ∧
            mg_status m' = mg_status m ∧ mg_index m' = mg_index m) as Hc.
  { clear m Hm. intros m _. destruct (Hn r (time_now (mg_world m)).2 Hr) as (Hu & resp & s' & Ho & Hs). fold u in Hu, Ho.
    unfold CheckRegistryHealth. autorewrite with em. rewrite Hu. autorewrite with em. cbn [mg_world set_world]. rewrite Ho.
    cbn [fst snd]. autorewrite with em. eexists _, _. split; [done|]. cbn. destruct Hs as [-> | ->]; done. }
  unfold GetRegistryStatus. rewrite bind_get. destruct (mg_status m !! u) as [st0|] eqn:E.
  - destruct (Hm _ _ E) as [Ha Hu]. unfold em_bind at 1. autorewrite with em.
    destruct (time_sub _ _ <? 5 * minute); cbn [em_ret]; [by eexists _, _|].
    set (m0 := set_world _ m). assert (all_available m0) as H0 by exact Hm.
    destruct (Hc m0 H0) as (st & m' & E' & Hav & Hurl & Hst & Hi). rewrite (bind_run _ _ _ _ _ E'). eexists _, _. split; [done|]. split; [done|]. split; [done|].
    split; [|exact Hi]. intros v sv. cbn. rewrite Hst, lookup_insert. destruct (decide (u = v)) as [<-|]; [by intros [= <-]|apply Hm].
  - unfold em_bind at 1. cbn [em_ret]. destruct (Hc m Hm) as (st & m' & E' & Hav & Hurl & Hst & Hi).
    rewrite (bind_run _ _ _ _ _ E'). eexists _, _. split; [done|]. split; [done|]. split; [done|].
    split; [|exact Hi]. intros v sv. cbn. rewrite Hst, lookup_insert. destruct (decide (u = v)) as [<-|]; [by intros [= <-]|apply Hm].
Qed.

Lemma healthy_available rs m : healthy_network → (∀ r, r ∈ rs → r ∈ GetRegistries config) → all_available m →
  ∃ av m', available_registries rs m = (Ok av, m') ∧ rs_URL <$> av = ds_URL <$> rs ∧ all_available m' ∧ mg_index m' = mg_index m.
Proof.
  intros Hn. revert m. induction rs as [|r rs IH]; intros m Hrs Hm; [by eexists [], m|]. cbn [available_registries].
  destruct (healthy_status r m Hn ltac:(apply Hrs; by left) Hm) as (st & m1 & E & Ha & Hu & Hm1 & Hi1).
  destruct (IH m1 ltac:(intros; apply Hrs; by right) Hm1) as (av & m2 & E2 & Hav & Hm2 & Hi2).
  rewrite em_bind_try, E. rewrite (bind_run _ _ _ _ _ E2). cbn [em_ret]. rewrite Ha.
  eexists _, _. split; [done|]. cbn. rewrite Hu, Hav. split; [done|]. split; [done|]. by rewrite Hi2.
Qed.

Lemma SelectRegistry_healthy repository m : healthy_network → GetRegistries config ≠ [] → all_available m → 0 <= mg_index m < max_int64 →
  ∃ st m', SelectRegistry repository m = (Ok st, m') ∧ all_available m' ∧ mg_index m' = mg_index m + 1 ∧
    (ds_URL <$> GetRegistries config) !! Z.to_nat (mg_index m mod Z.of_nat (length (GetRegistries config))) = Some (rs_URL st).
Proof.
  clear decode_token.
  intros Hn Hne Hm H0. set (n := length (GetRegistries config)).
  assert (0 < n)%nat as Hpos by (unfold n; destruct (GetRegistries config); [done|cbn; lia]).
  destruct (healthy_available (GetRegistries config) m Hn ltac:(done) Hm) as (av & m1 & E & Hav & Hm1 & Hi).
  assert (length av = n) as Hla by (rewrite <- (length_fmap rs_URL), Hav, length_fmap; done).
  pose proof (Z.mod_pos_bound (mg_index m) (Z.of_nat n) ltac:(lia)) as Hmod.
  assert (Z.rem (mg_index m1) (Z.of_nat (length av)) = mg_index m mod Z.of_nat n) as Hrem
    by (rewrite Hla, Hi; apply Z.rem_mod_nonneg; lia).
  destruct (lookup_lt_is_Some_2 av (Z.to_nat (mg_index m mod Z.of_nat n)) ltac:(lia)) as [st Hst].
  exists st, (set_index (wrap64 (mg_index m1 + 1)) m1). split; [|split; [exact Hm1|split]].
  - unfold SelectRegistry. destruct (GetRegistries config) as [|r rs] eqn:Eg; [done|].
    rewrite (bind_run _ _ _ _ _ E). destruct av as [|a av]; [cbn in Hla; lia|].
    autorewrite with em. rewrite Hrem, (proj2 (Z.ltb_ge _ 0)) by lia. by rewrite Hst.
  - cbn. rewrite Hi. apply wrap64_id. unfold in_int64, min_int64 in *. lia.
  - by rewrite <- Hav, list_lookup_fmap, Hst.
Qed.

Lemma selections_spec repository m : healthy_network → GetRegistries config ≠ [] → ∀ k,
  all_available m → 0 <= mg_index m → mg_index m + Z.of_nat k <= max_int64 →
  ∃ us m', selections repository k m = (Ok us, m') ∧
    us = (λ j, default EmptyString ((ds_URL <$> GetRegistries config) !!
                 Z.to_nat ((mg_index m + Z.of_nat j) mod Z.of_nat (length (GetRegistries config))))) <$> seq 0 k.
Proof.
  clear decode_token.
  intros Hn Hne k. revert m. induction k as [|k IH]; intros m Hm H0 Hb; [by eexists [], m|]. cbn [selections].
  destruct (SelectRegistry_healthy repository m Hn Hne Hm ltac:(lia)) as (st & m2 & Hsel & Hm2 & Hi2 & Hst).
  rewrite (bind_run _ _ _ _ _ Hsel). destruct (IH m2 Hm2 ltac:(lia) ltac:(lia)) as (us & m' & E2 & ->).
  rewrite (bind_run _ _ _ _ _ E2). eexists _, _. split; [done|]. cbn [seq fmap list_fmap]. f_equal.
  - rewrite Z.add_0_r. exact (eq_sym (f_equal (default EmptyString) Hst)).
  - rewrite <- fmap_S_seq. rewrite <- list_fmap_compose. apply list_fmap_ext. intros i j Hj. cbn. rewrite Hi2. do 4 f_equal. lia.
Qed.

(** While every registry answers its health checks, as many requests in a row as
    there are registries go one to each of them. *)
Theorem round_robin_fair repository m
    (Hn : healthy_network) (Hm : all_available m) (H0 : 0 <= mg_index m)
    (Hb : mg_index m + Z.of_nat (length (GetRegistries config)) <= max_int64) (Hne : GetRegistries config ≠ []) :
  ∃ us m', selections repository (length (GetRegistries config)) m = (Ok us, m') ∧ us ≡ₚ ds_URL <$> GetRegistries config.
Proof.
  clear decode_token.
  destruct (selections_spec repository m Hn Hne (length (GetRegistries config)) Hm H0 Hb) as (us & m' & E & ->).
  eexists _, _. split; [exact E|]. apply rotation; [by rewrite length_fmap| |done]. by destruct (GetRegistries config); [|cbn; lia].
Qed.

(** A registry that has been marked as failed is taken as unavailable, without
    being asked, for five minutes from then. *)
Theorem failed_registry_skipped u msg m s
    (Ht : (time_now (mg_world m)).1 <= (time_now s).1 < (time_now (mg_world m)).1 + 5 * minute) :
  let m' := set_world s (MarkRegistryFailed u msg m).2 in
  ∃ st, GetRegistryStatus u m' = (Ok st, set_world (time_now s).2 m') ∧ rs_Available st = false.
Proof.
  clear decode_token.
  cbv zeta. unfold MarkRegistryFailed. rewrite bind_get, bind_world. cbn [modify em_do snd]. unfold modify, em_do.
  set (st := mkRegistryStatus _ _ _ _ _ _ _). exists st. split; [|done].
  unfold GetRegistryStatus. rewrite bind_get. cbn [mg_status set_world set_status snd].
  rewrite lookup_insert, decide_True by done. unfold em_bind at 1. rewrite bind_world. cbn [mg_world set_world em_ret rs_LastCheck st].
  rewrite (proj2 (Z.ltb_lt _ _)); [done|]. unfold time_sub. cbn [rs_LastCheck]. unfold min_int64, max_int64, minute, second, millisecond in *. lia.
Qed.

(** ** Credentials *)

(** For a registry whose address is not a key of the configured registries, the
    credentials are those of the first proxy, whatever the registry is. *)
Theorem default_credentials_everywhere u repository m d
    (Hu : GetRegistryConfig u config = None) (Hd : config_GetDefaultRegistry config = Some d)
    (Hn : da_Username (ds_Auth d) ≠ EmptyString) (Hp : da_Password (ds_Auth d) ≠ EmptyString) :
  GetAuthToken u repository m = (Ok (basic_of (ds_Auth d)), m) ∧
  ∀ q, set_auth true (Ok (basic_of (ds_Auth d))) q = req_basic (da_Username (ds_Auth d)) (da_Password (ds_Auth d)) q.
Proof.
  assert (∀ x, x ≠ EmptyString → nonempty x = true) as Hne by (intros x Hx; unfold nonempty; by rewrite (proj2 (String.eqb_neq _ _) Hx)).
  unfold GetAuthToken. rewrite Hu, Hd, Hne by done. split; [done|]. intros q. unfold set_auth, SetBasicAuth. cbn.
  by rewrite !Hne by done.
Qed.

Lemma acquireToken_stored u repository m auth m' : acquireToken u repository m = (Ok auth, m') →
  mg_tokens m' !! token_key u repository = Some auth ∧ ra_Type auth = "bearer" ∧ ra_Token auth ≠ EmptyString ∧
  ∃ d t s, decode_token d = Some t ∧ ra_ExpiresAt auth = (time_now s).1 + lifetime t ∧ mg_world m' = (time_now s).2.
Proof.
  unfold acquireToken. rewrite em_bind_ok. intros ([tokenURL service] & m1 & _ & H). cbn -[time_now nonempty] in H.
  destruct (url_error _); [done|]. rewrite bind_world in H. destruct (http_do _ _) as [[resp|] s1]; cbn [fst snd] in H; [|done].
  destruct (negb (r_Status resp =? 200)); [done|]. destruct (decode_body resp) as [t|] eqn:Ed; [|done].
  destruct (nonempty (token_of t)) eqn:En; cbn [negb] in H; [|done].
  rewrite bind_world, bind_modify in H. unfold em_ret in H. simplify_eq. cbn. rewrite lookup_insert, decide_True by done.
  split; [done|]. split; [done|]. split. { unfold nonempty in En. intros Ht. by rewrite Ht in En. }
  unfold decode_body in Ed. destruct (rd_fails _); [done|]. by eexists _, t, _.
Qed.

(** A token that the registry issues for five minutes or less is never used twice:
    the margin that is left before its expiry is already used up when it is stored, so
    that each request for the repository asks for a new one. *)
Theorem short_tokens_never_reused u repository rc m auth m'
    (Hshort : ∀ d t, decode_token d = Some t → 0 < tr_ExpiresIn t <= 300)
    (Hclock : ∀ s, (time_now s).1 <= (time_now (time_now s).2).1)
    (Hc : GetRegistryConfig u config = Some rc) (Hb : da_Password (dr_Auth rc) = EmptyString)
    (Ha : acquireToken u repository m = (Ok auth, m')) :
  GetAuthToken u repository m' = acquireToken u repository (set_world (time_now (mg_world m')).2 m').
Proof.
  destruct (acquireToken_stored _ _ _ _ _ Ha) as (Ht & Hty & Hne & d & t & s & Hd & He & Hs).
  unfold GetAuthToken. rewrite Hc, Hb, andb_false_r. rewrite bind_get, Ht. unfold ValidateToken. rewrite Hty. cbn [String.eqb Ascii.eqb eqb].
  assert (nonempty (ra_Token auth) = true) as -> by (unfold nonempty; by rewrite (proj2 (String.eqb_neq _ _) Hne)).
  cbn [negb]. unfold em_bind at 1. rewrite bind_world. cbn [em_ret].
  assert (time_before (time_now (mg_world m')).1 (time_add (ra_ExpiresAt auth) (- (5 * minute))) = false) as ->; [|done].
  unfold time_before, time_add. apply Z.ltb_ge. rewrite He, Hs. pose proof (Hclock s). pose proof (Hshort d t Hd).
  assert (lifetime t <= 5 * minute); [|lia]. unfold lifetime. rewrite (proj2 (Z.eqb_neq _ 0)) by lia.
  rewrite wrap64_id; unfold in_int64, min_int64, max_int64, minute, second, millisecond; lia.
Qed.

(** ** Challenges *)

(** A value as registries write them: not empty, printable, without quotes, commas
    and blanks. *)
Definition plain_char (c : ascii) : bool := word_char c && not_char "034" c && not_char "," c.
Definition plain_value (v : string) : bool := nonempty v && str_all plain_char v.

Definition quoted (v : string) : string := String "034" (v +:+ String "034" EmptyString).

Lemma plain_all v (p : ascii → bool) : (∀ c, plain_char c = true → p c = true) → plain_value v = true → str_all p v = true.
Proof.
  clear decode_token.
  intros Hp [_ H]%andb_true_iff. induction v as [|c v IH]; [done|]. cbn in *. apply andb_true_iff in H as [Hc Hv].
  by rewrite Hp, IH by done.
Qed.

Lemma plain_ends v : plain_value v = true → starts_without "034" v = true ∧ starts_without "034" (String.rev v) = true.
Proof.
  clear decode_token.
  intros H. assert (∀ w, nonempty w = true → str_all plain_char w = true → starts_without "034" w = true) as Hs.
  { intros [|c w] Hn Hw; [done|]. cbn in Hw |- *. apply andb_true_iff in Hw as [Hc _]. unfold plain_char, not_char in Hc.
    by apply andb_true_iff in Hc as [[_ Hc]%andb_true_iff _]. }
  pose proof H as [Hn Ha]%andb_true_iff. split; [by apply Hs|]. apply Hs; [|by rewrite str_all_rev].
  destruct v as [|c v]; [done|]. rewrite str_rev_cons. unfold nonempty. destruct (String.rev v); done.
Qed.

Lemma challenge_value_quoted name v : plain_value v = true → challenge_value (name +:+ quoted v) name = v.
Proof.
  clear decode_token.
  intros Hv. unfold challenge_value, quoted. rewrite TrimPrefix_app. destruct (plain_ends v Hv).
  by apply (trim_char_around "034" (String "034" EmptyString) v (String "034" EmptyString)).
Qed.

Lemma plain_text v : plain_value v = true → str_all text_char v = true.
Proof.
  clear decode_token.
  apply plain_all. intros d Hd. unfold plain_char in Hd. apply andb_true_iff in Hd as [[Hd _]%andb_true_iff _].
  unfold word_char, text_char, in_range in *. zbool. apply andb_true_iff. split; apply Z.leb_le; lia.
Qed.

Lemma text_of_word c : word_char c = true → text_char c = true.
Proof. clear decode_token. unfold word_char, text_char, in_range. intros. zbool. apply andb_true_iff. split; apply Z.leb_le; lia. Qed.

(** A text that ends in a plain value, or in a quote, has no blanks to lose. *)
Lemma TrimSpace_plain c front v : word_char c = true → str_all text_char front = true → plain_value v = true →
  TrimSpace (String c (front +:+ v)) = String c (front +:+ v).
Proof.
  clear decode_token.
  intros Hc Hf Hv. pose proof (plain_text v Hv) as Ht. apply andb_true_iff in Hv as [Hn Hv].
  destruct (String.rev v) as [|d r] eqn:E.
  { apply (f_equal String.rev) in E. rewrite str_rev_involutive in E. by subst v. }
  apply (f_equal String.rev) in E. rewrite str_rev_involutive, str_rev_cons in E. subst v.
  rewrite str_all_app in Hv. apply andb_true_iff in Hv as [_ Hd]. cbn in Hd. rewrite andb_true_r in Hd.
  unfold plain_char in Hd. apply andb_true_iff in Hd as [[Hd _]%andb_true_iff _].
  rewrite <- str_app_assoc, <- str_app_cons. apply TrimSpace_text; [done| |done]. cbn. rewrite text_of_word by done.
  rewrite str_all_app, Hf. cbn. rewrite str_all_app in Ht. by apply andb_true_iff in Ht as [? _].
Qed.

Lemma TrimSpace_param c name v : word_char c = true → str_all text_char name = true → plain_value v = true →
  TrimSpace (String c name +:+ quoted v) = String c name +:+ quoted v.
Proof.
  clear decode_token.
  intros Hc Hn Hv. unfold quoted.
  change (String "034" (v +:+ String "034" EmptyString)) with (String "034" v +:+ String "034" EmptyString).
  rewrite <- str_app_assoc, str_app_cons. apply TrimSpace_text; [done| |done]. cbn [str_all]. rewrite text_of_word, str_all_app, Hn by done.
  cbn [str_all andb]. change (text_char "034") with true. by apply plain_text.
Qed.

Lemma plain_no_comma name v : str_all (not_char ",") name = true → plain_value v = true → str_all (not_char ",") (name +:+ quoted v) = true.
Proof.
  clear decode_token.
  intros Hn Hv. unfold quoted. rewrite str_all_app, Hn. cbn [str_all andb]. rewrite str_all_app. cbn [str_all].
  change (not_char "," "034") with true. rewrite !andb_true_r. apply (plain_all v); [|done]. intros d Hd. unfold plain_char in Hd.
  by apply andb_true_iff in Hd as [_ Hd].
Qed.

Lemma challenge_realm auth v : plain_value v = true →
  challenge_param auth ("realm=" +:+ quoted v) =
  mkRegistryAuth (ra_Type auth) (ra_Username auth) (ra_Password auth) (ra_Token auth) (ra_RefreshToken auth) (ra_ExpiresAt auth)
    v (ra_Service auth) (ra_Scope auth).
Proof.
  clear decode_token.
  intros H. unfold challenge_param. rewrite (TrimSpace_param "r" "ealm=") by done.
  change (String "r" "ealm=") with "realm="%string. rewrite challenge_value_quoted by done. by destruct auth.
Qed.

Lemma challenge_service auth v : plain_value v = true →
  challenge_param auth ("service=" +:+ quoted v) =
  mkRegistryAuth (ra_Type auth) (ra_Username auth) (ra_Password auth) (ra_Token auth) (ra_RefreshToken auth) (ra_ExpiresAt auth)
    (ra_Realm auth) v (ra_Scope auth).
Proof.
  clear decode_token.
  intros H. unfold challenge_param. rewrite (TrimSpace_param "s" "ervice=") by done.
  change (String "s" "ervice=") with "service="%string. rewrite challenge_value_quoted by done. by destruct auth.
Qed.

Lemma challenge_scope_quoted auth v : plain_value v = true →
  challenge_param auth ("scope=" +:+ quoted v) =
  mkRegistryAuth (ra_Type auth) (ra_Username auth) (ra_Password auth) (ra_Token auth) (ra_RefreshToken auth) (ra_ExpiresAt auth)
    (ra_Realm auth) (ra_Service auth) v.
Proof.
  clear decode_token.
  intros H. unfold challenge_param. rewrite (TrimSpace_param "s" "cope=") by done.
  change (String "s" "cope=") with "scope="%string. rewrite challenge_value_quoted by done. by destruct auth.
Qed.

Lemma challenge_scope auth scope : plain_value scope = true →
  challenge_param auth ("scope=" +:+ String "034" scope) =
  mkRegistryAuth (ra_Type auth) (ra_Username auth) (ra_Password auth) (ra_Token auth) (ra_RefreshToken auth) (ra_ExpiresAt auth)
    (ra_Realm auth) (ra_Service auth) scope.
Proof.
  clear decode_token.
  intros H. unfold challenge_param.
  assert (TrimSpace ("scope=" +:+ String "034" scope) = "scope=" +:+ String "034" scope) as ->.
  { apply (TrimSpace_plain "s" ("cope=" +:+ String "034" EmptyString) scope); done. }
  change (HasPrefix _ "realm=") with false. change (HasPrefix _ "service=") with false. change (HasPrefix _ "scope=") with true. cbv iota.
  f_equal. unfold challenge_value. rewrite TrimPrefix_app. destruct (plain_ends scope H).
  rewrite <- (str_app_nil_r scope) at 1. by apply (trim_char_around "034" (String "034" EmptyString) scope EmptyString).
Qed.

Lemma challenge_action auth action : nonempty action = true → str_all is_letter action = true →
  challenge_param auth (action +:+ String "034" EmptyString) = auth.
Proof.
  clear decode_token.
  intros Hn Ha. destruct action as [|c l]; [done|]. unfold challenge_param.
  assert (∀ d, is_letter d = true → word_char d = true ∧ text_char d = true ∧ d ≠ "="%char) as Hd.
  { intros d Hd. unfold is_letter, word_char, text_char, in_range in *. apply orb_true_iff in Hd.
    split; [|split]; [..|intros ->; vm_compute in Hd; naive_solver];
      (destruct Hd as [Hd|Hd]; zbool; apply andb_true_iff; split; apply Z.leb_le; lia). }
  cbn in Ha. apply andb_true_iff in Ha as [Hc Hl].
  rewrite (TrimSpace_text c l "034"); [|by apply Hd| |done].
  2: { cbn. destruct (Hd c Hc) as (_ & -> & _). cbn. clear -Hl Hd. induction l as [|d l IH]; [done|]. cbn in *.
       apply andb_true_iff in Hl as [Hx Hl]. destruct (Hd d Hx) as (_ & -> & _). by apply IH. }
  assert (∀ k p, str_all (not_char "=") k = true → HasPrefix (k +:+ String "034" EmptyString) (p +:+ "=") = false) as Hp.
  { intros k p Hk. destruct (HasPrefix _ _) eqn:E; [|done]. exfalso. unfold HasPrefix in E. apply prefix_split in E as [r E].
    assert (str_all (not_char "=") (k +:+ String "034" EmptyString) = true) as Hall by (by rewrite str_all_app, Hk).
    rewrite E, !str_all_app in Hall. cbn in Hall. by rewrite andb_false_r in Hall. }
  assert (str_all (not_char "=") (String c l) = true) as Hk.
  { assert (∀ k, str_all is_letter k = true → str_all (not_char "=") k = true) as Hq; [|apply Hq; cbn; by rewrite Hc].
    induction k as [|d k IH]; [done|]. cbn. intros [Hx Hk]%andb_true_iff. destruct (Hd d Hx) as (_ & _ & Hne).
    rewrite IH by done. unfold not_char. by rewrite (proj2 (Ascii.eqb_neq _ _) Hne). }
  pose proof (Hp _ "realm" Hk) as H1. pose proof (Hp _ "service" Hk) as H2. pose proof (Hp _ "scope" Hk) as H3.
  change ("realm" +:+ "=") with "realm="%string in H1. change ("service" +:+ "=") with "service="%string in H2.
  change ("scope" +:+ "=") with "scope="%string in H3. by rewrite H1, H2, H3.
Qed.

(** A challenge written the usual way, with realm, service and one scope, is read
    back as it was written; a scope with two actions is cut at its comma. *)
Theorem parseBearerChallenge_written realm service scope
    (Hr : plain_value realm = true) (Hs : plain_value service = true) (Hc : plain_value scope = true) :
  parseBearerChallenge ("Bearer realm=" +:+ (quoted realm +:+ String "," ("service=" +:+ (quoted service +:+ String "," ("scope=" +:+ quoted scope))))) =
    Ok (mkRegistryAuth "bearer" EmptyString EmptyString EmptyString EmptyString zero_time realm service scope) ∧
  ∀ action, nonempty action = true → str_all is_letter action = true →
    parseBearerChallenge ("Bearer realm=" +:+ (quoted realm +:+ String "," ("service=" +:+ (quoted service +:+
      String "," ("scope=" +:+ (String "034" scope +:+ String "," (action +:+ String "034" EmptyString))))))) =
    Ok (mkRegistryAuth "bearer" EmptyString EmptyString EmptyString EmptyString zero_time realm service scope).
Proof.
  clear decode_token.
  assert (∀ rest auths, Split rest "," = auths → parseBearerChallenge ("Bearer realm=" +:+ (quoted realm +:+ String "," ("service=" +:+ (quoted service +:+ String "," rest)))) =
    let auth := fold_left challenge_param auths (mkRegistryAuth "bearer" EmptyString EmptyString EmptyString EmptyString zero_time realm service EmptyString) in
    if nonempty (ra_Realm auth) then Ok auth else Err NoRealm) as Hgen.
  { intros rest auths <-. unfold parseBearerChallenge.
    change ("Bearer realm=" +:+ ?x) with ("Bearer " +:+ ("realm=" +:+ x)). rewrite TrimPrefix_app.
    rewrite <- !(str_app_assoc "realm=" (quoted realm)), Split_first by (by apply plain_no_comma).
    rewrite <- !(str_app_assoc "service=" (quoted service)), Split_first by (by apply plain_no_comma).
    cbn [fold_left]. by rewrite challenge_realm, challenge_service by done. }
  assert (nonempty realm = true) as Hne by (by apply andb_true_iff in Hr as [? _]).
  split.
  - rewrite (Hgen _ ["scope=" +:+ quoted scope]); [|apply Split_none; by apply plain_no_comma].
    cbn [fold_left]. rewrite challenge_scope_quoted by done. cbn -[nonempty]. by rewrite Hne.
  - intros action Hn Ha. assert (str_all (not_char ",") ("scope=" +:+ String "034" scope) = true) as Hsc.
    { change ("scope=" +:+ String "034" scope) with (String "s" ("cope=" +:+ String "034" scope)). cbn.
      apply (plain_all scope); [|done]. intros d Hd. unfold plain_char in Hd. by apply andb_true_iff in Hd as [_ Hd]. }
    rewrite (Hgen _ ["scope=" +:+ String "034" scope; action +:+ String "034" EmptyString]).
    + cbn [fold_left]. rewrite (challenge_scope _ scope) by done. rewrite challenge_action by done. cbn -[nonempty]. by rewrite Hne.
    + rewrite <- (str_app_assoc "scope="), Split_first by done. f_equal. apply Split_none. rewrite str_all_app. cbn [str_all].
      change (not_char "," "034") with true. rewrite !andb_true_r.
      clear -Ha. induction action as [|c l IH]; [done|]. cbn in *. apply andb_true_iff in Ha as [Hc Hl]. rewrite IH by done.
      destruct (Ascii.eqb_spec c ",") as [->|]; [done|]. unfold not_char. by rewrite (proj2 (Ascii.eqb_neq _ _)).
Qed.
End registry.

(** ** Witnesses *)

Definition two_registries : ProxyConfig := mkProxyConfig (Some (mkSettings "docker" true
  [mkServer "hub" "https://registry-1.docker.io" (mkDockerAuth "bot" "s3cret"); mkServer "other" "https://r.example" (mkDockerAuth EmptyString EmptyString)]
  {["https://q.example"%string := mkRegistryConfig "https://q.example" (mkDockerAuth "ann" EmptyString)]})) "/var/cache".

(** Tokens come with the body [token]; everything else is answered with 200. *)
Definition quiet_network (q : Request) : result string Response :=
  if HasSuffix (q_URL q) "/v2/" && HasPrefix (q_URL q) "https://q.example" then
    Ok (whole 401 {["Www-Authenticate"%string := ["Bearer realm=" +:+ (quoted "https://t.example/token" +:+ (",service=" +:+ quoted "q.example"))]]} EmptyString)
  else Ok (whole 200 ∅ "body").

Definition five_minutes (body : string) : option TokenResponse := Some (mkTokenResponse "tok" EmptyString EmptyString 300).

Definition empty_world : MemWorld := mkMemWorld (mkMem ∅ ∅ []) (100 * hour).

Section witnesses.
#[local] Instance quiet_world : World MemWorld := mem_world quiet_network.

Lemma round_robin_fair_witness :
  ∃ us m', selections two_registries "library/ubuntu" 2 (fresh_managers empty_world) = (Ok us, m') ∧
    us ≡ₚ ["https://registry-1.docker.io"; "https://r.example"]%string.
Proof.
  apply (round_robin_fair two_registries "library/ubuntu" (fresh_managers empty_world)); [| |done| |done].
  - intros r s Hr. cbn in Hr. rewrite !elem_of_cons in Hr. destruct Hr as [-> |[-> |Hr]]; [..|by apply not_elem_of_nil in Hr];
      (split; [done|eexists _, s; split; [reflexivity|by left]]).
  - intros u st. cbn. by rewrite lookup_empty.
  - by vm_compute.
Defined.

Lemma failed_registry_skipped_witness :
  let m := fresh_managers empty_world in
  ∃ st, GetRegistryStatus "https://r.example" (set_world empty_world (MarkRegistryFailed "https://r.example" "refused" m).2) =
    (Ok st, set_world (time_now empty_world).2 (set_world empty_world (MarkRegistryFailed "https://r.example" "refused" m).2)) ∧
    rs_Available st = false.
Proof. apply (failed_registry_skipped "https://r.example" "refused" (fresh_managers empty_world) empty_world). by vm_compute. Defined.

Lemma default_credentials_everywhere_witness :
  GetAuthToken two_registries five_minutes "https://r.example" "x" (fresh_managers empty_world) =
    (Ok (basic_of (mkDockerAuth "bot" "s3cret")), fresh_managers empty_world).
Proof.
  by apply (default_credentials_everywhere two_registries five_minutes "https://r.example" "x" (fresh_managers empty_world)
    (mkServer "hub" "https://registry-1.docker.io" (mkDockerAuth "bot" "s3cret"))).
Defined.

Lemma short_tokens_never_reused_witness :
  let m := (acquireToken two_registries five_minutes "https://q.example" "x" (fresh_managers empty_world)).2 in
  GetAuthToken two_registries five_minutes "https://q.example" "x" m =
    acquireToken two_registries five_minutes "https://q.example" "x" (set_world (time_now (mg_world m)).2 m).
Proof.
  apply (short_tokens_never_reused two_registries five_minutes "https://q.example" "x"
    (mkRegistryConfig "https://q.example" (mkDockerAuth "ann" EmptyString)) (fresh_managers empty_world)
    (mkRegistryAuth "bearer" EmptyString EmptyString "tok" EmptyString (100 * hour + 300 * second) "https://t.example/token" "q.example" "repository:x:pull")).
  - intros d t [= <-]. done.
  - intros s. cbn. unfold second, millisecond. lia.
  - done.
  - done.
  - by vm_compute.
Defined.

Lemma parseBearerChallenge_written_witness :
  parseBearerChallenge ("Bearer realm=" +:+ (quoted "https://a.example/t" +:+ String "," ("service=" +:+ (quoted "a.example" +:+
    String "," ("scope=" +:+ quoted "repository:x:pull"))))) =
  Ok (mkRegistryAuth "bearer" EmptyString EmptyString EmptyString EmptyString zero_time "https://a.example/t" "a.example" "repository:x:pull").
Proof. exact (proj1 (parseBearerChallenge_written "https://a.example/t" "a.example" "repository:x:pull" eq_refl eq_refl eq_refl)). Defined.
End witnesses.
