(* ===== verification/DockerCache.v ===== *)
(** * DockerCache: the cache of manifests, blobs and tags

    Models [src/internal/services/docker/cache_manager.go] over the file system
    classes of [GoFS] and the clock of [GoWorld]: an entry is a data file, a metadata
    file next to it, and for manifests a file of headers.  The statistics that decide
    about eviction are kept in memory. *)

From Stdlib Require Import Ascii.
From S2P Require Import Prelude GoStrings GoPath GoFS GoHashes GoWorld PathValidator DockerModels DockerRegistry.

(** ** Keys *)

Definition key_prefix (operation : string) : string :=
  if String.eqb operation "manifest" then "m"
  else if String.eqb operation "blob" then "b"
  else if String.eqb operation "tags" then "t"
  else if String.eqb operation "catalog" then "c" else "o".

Definition GenerateCacheKey (repository reference operation : string) : string :=
  let input := repository +:+ (":" +:+ (reference +:+ (":" +:+ operation))) in
  key_prefix operation +:+ ("_" +:+ take_bytes 16 (sha256_hex input)).

Definition digest_of (data : string) : string := "sha256:" +:+ sha256_hex data.

Section cache.
Context {S : Type} `{!FileSystem S} `{!World S} `{!Codec CacheEntry} `{!Codec (gmap string (list string))}.
Context (config : ProxyConfig) (cwd : option string).
Notation M := (EM (Managers S) docker_error).

(** ** Statistics *)

Definition updateCacheStats (entry : CacheEntry) (isAdd : bool) (st : CacheStats) : CacheStats :=
  let d := if isAdd then 1 else -1 in
  mkCacheStats (st_TotalEntries st + d)
    (st_ManifestEntries st + (if ce_IsManifest entry then d else 0))
    (st_BlobEntries st + (if negb (ce_IsManifest entry) && ce_IsBlob entry then d else 0))
    (wrap64 (st_TotalSizeBytes st + d * ce_Size entry)) (st_EvictionCount st).

Definition count_evictions (n : Z) (st : CacheStats) : CacheStats :=
  mkCacheStats (st_TotalEntries st) (st_ManifestEntries st) (st_BlobEntries st) (st_TotalSizeBytes st) (st_EvictionCount st + n).

Definition calculateAverageEntrySize (st : CacheStats) : Z :=
  if st_TotalEntries st =? 0 then 0 else Z.quot (st_TotalSizeBytes st) (st_TotalEntries st).

Definition maxSizeBytes : Z := wrap64 (cc_MaxSizeMB (GetCacheConfig config) * 1024 * 1024).

Definition shouldEvict (newEntrySize : Z) (st : CacheStats) : bool := maxSizeBytes <? wrap64 (st_TotalSizeBytes st + newEntrySize).

(** ** Files *)

Definition cache_base : string := PathJoin (cc_BaseDir (GetCacheConfig config)) (GetPath config).
Definition buildCachePath (key : string) : result docker_error string :=
  match SafeJoinPath cwd cache_base key with Ok p => Ok p | Err e => Err (CachePath e) end.

(** Operations on the world that return nothing but an error. *)
Definition fs_op (f : S → option os_err * S) : M (option os_err) := on_world f.
Definition missing (p : string) : M bool := em_get (λ m, match StatFile p (mg_world m) with Some ErrNotExist => true | _ => false end).

Definition loadCacheEntry (metaPath : string) : M CacheEntry :=
  let! data := em_get (λ m, ReadFile metaPath (mg_world m)) in
  match data with
  | Err _ => em_fail EntryUnreadable
  | Ok d => match json_unmarshal d with Some entry => em_ret entry | None => em_fail EntryUnreadable end
  end.

Definition saveCacheEntry (metaPath : string) (entry : CacheEntry) : M unit :=
  match json_marshal entry with
  | None => em_fail MarshalFailed
  | Some d =>
      let! err := fs_op (WriteFile metaPath d) in
      match err with Some _ => em_fail WriteFailed | None => em_ret tt end
  end.

(** Two readings of the clock only to log the age. *)
Definition ValidateCacheEntry (entry : CacheEntry) : M bool :=
  let! now := on_world time_now in
  if ce_TTL entry <? time_sub now (ce_CreatedAt entry) then
    let! _ := on_world time_now in em_ret false
  else
    let! gone := (if String.eqb (ce_Path entry) EmptyString then em_ret false else missing (ce_Path entry)) in
    em_ret (negb gone &&
            negb (ce_IsBlob entry && negb (String.eqb (ce_Digest entry) EmptyString) && (0 <? String.length (ce_Headers entry))%nat &&
                  negb (String.eqb (digest_of (ce_Headers entry)) (ce_Digest entry)))).

Definition Delete (key : string) : M unit :=
  let! filePath := em_lift (buildCachePath key) in
  let! entry := em_try (loadCacheEntry (filePath +:+ ".meta")) in
  let! _ := match entry with Ok e => modify (set_stats (updateCacheStats e false)) | Err _ => em_ret tt end in
  let! _ := fs_op (Remove filePath) in
  let! _ := fs_op (Remove (filePath +:+ ".meta")) in
  let! _ := fs_op (Remove (filePath +:+ ".headers")) in
  em_ret tt.

Definition with_data (data : string) (accessed : instant) (e : CacheEntry) : CacheEntry :=
  mkCacheEntry (ce_Key e) (ce_Path e) (ce_ContentType e) (ce_Size e) (ce_CreatedAt e) accessed (ce_TTL e) (ce_IsManifest e)
    (ce_IsBlob e) (ce_Digest e) (ce_Repository e) (ce_Reference e) data.

(** The errors of [Delete] and of saving the access time are dropped. *)
Definition Get (key : string) : M CacheEntry :=
  let! filePath := em_lift (buildCachePath key) in
  let metaPath := filePath +:+ ".meta" in
  let! no_meta := missing metaPath in
  if no_meta then em_fail (EntryNotFound key)
  else
    let! entry := loadCacheEntry metaPath in
    let! valid := ValidateCacheEntry entry in
    if negb valid then let! _ := em_try (Delete key) in em_fail (EntryInvalid key)
    else
      let! no_data := missing filePath in
      if no_data then let! _ := em_try (Delete key) in em_fail (DataMissing key)
      else
        let! data := em_get (λ m, ReadFile filePath (mg_world m)) in
        match data with
        | Err _ => em_fail EntryUnreadable
        | Ok d =>
            let! now := on_world time_now in
            let entry := with_data d now entry in
            let! _ := em_try (saveCacheEntry metaPath entry) in
            em_ret entry
        end.

(** ** Cleaning and eviction *)

Definition cacheDir : string := cc_BaseDir (GetCacheConfig config).

(** One visit of the walk, of an entry that may have been deleted since the directory
    was listed: the number of entries it removes. *)
Definition cleanup_visit (e : walk_entry) : M Z :=
  let! gone := missing (we_path e) in
  match we_info e with
  | Err _ => em_ret 0
  | Ok _ =>
      if gone || negb (HasSuffix (we_path e) ".meta") then em_ret 0
      else
        let! entry := em_try (loadCacheEntry (we_path e)) in
        match entry with
        | Err _ => let! _ := fs_op (Remove (we_path e)) in em_ret 0
        | Ok entry =>
            let! valid := ValidateCacheEntry entry in
            if valid then em_ret 0
            else let! _ := em_try (Delete (ce_Key entry)) in em_ret 1
        end
  end.

Fixpoint cleanup_walk (entries : list walk_entry) : M Z :=
  match entries with
  | [] => em_ret 0
  | e :: entries =>
      let! n := cleanup_visit e in
      let! k := cleanup_walk entries in
      em_ret (n + k)
  end.

Definition CleanupExpired : M unit :=
  if String.eqb cacheDir EmptyString then em_ret tt
  else
    let! entries := em_get (λ m, Walk cache_base (mg_world m)) in
    let! removed := cleanup_walk entries in
    modify (set_stats (count_evictions removed)).

Record entryInfo := mkInfo { ei_key : string; ei_lastAccessed : instant; ei_size : Z }.

Definition scan_visit (e : walk_entry) : M (list entryInfo) :=
  match we_info e with
  | Ok (false, _) =>
      if negb (HasSuffix (we_path e) ".meta") then em_ret []
      else
        let! entry := em_try (loadCacheEntry (we_path e)) in
        em_ret match entry with Ok e => [mkInfo (ce_Key e) (ce_LastAccessed e) (ce_Size e)] | Err _ => [] end
  | _ => em_ret []
  end.

Fixpoint scan_walk (entries : list walk_entry) : M (list entryInfo) :=
  match entries with
  | [] => em_ret []
  | e :: entries =>
      let! x := scan_visit e in
      let! r := scan_walk entries in
      em_ret (x ++ r)
  end.

(** The exchange sort: the inner loop leaves the oldest of the rest in front. *)
Fixpoint exchange_pass (x : entryInfo) (l : list entryInfo) : entryInfo * list entryInfo :=
  match l with
  | [] => (x, [])
  | y :: l =>
      if time_after (ei_lastAccessed x) (ei_lastAccessed y)
      then let '(m, l) := exchange_pass y l in (m, x :: l)
      else let '(m, l) := exchange_pass x l in (m, y :: l)
  end.

Fixpoint exchange_sort (fuel : nat) (l : list entryInfo) : list entryInfo :=
  match fuel, l with
  | Datatypes.S fuel, x :: l => let '(m, l) := exchange_pass x l in m :: exchange_sort fuel l
  | _, _ => l
  end.

Definition sort_entries (l : list entryInfo) : list entryInfo := exchange_sort (length l) l.

Fixpoint evict_loop (requiredSpace freed evicted : Z) (entries : list entryInfo) : M (Z * Z) :=
  match entries with
  | [] => em_ret (freed, evicted)
  | e :: entries =>
      if requiredSpace <=? freed then em_ret (freed, evicted)
      else
        let! r := em_try (Delete (ei_key e)) in
        match r with
        | Err _ => evict_loop requiredSpace freed evicted entries
        | Ok _ => evict_loop requiredSpace (wrap64 (freed + ei_size e)) (evicted + 1) entries
        end
  end.

Definition evictByLRU (requiredSpace : Z) : M unit :=
  if String.eqb cacheDir EmptyString then em_ret tt
  else
    let! walk := em_get (λ m, Walk cache_base (mg_world m)) in
    let! entries := scan_walk walk in
    let! (freed, evicted) := evict_loop requiredSpace 0 0 (sort_entries entries) in
    modify (set_stats (count_evictions evicted)).

Definition evictOldEntries (requiredSize : Z) : M unit :=
  let! _ := em_try CleanupExpired in
  let! currentSize := em_get (λ m, st_TotalSizeBytes (mg_stats m)) in
  if wrap64 (currentSize + requiredSize) <=? maxSizeBytes then em_ret tt else evictByLRU requiredSize.

(** ** Writing *)

Definition stored_entry (path : string) (created accessed : instant) (e : CacheEntry) : CacheEntry :=
  mkCacheEntry (ce_Key e) path (ce_ContentType e) (ce_Size e) created accessed (ce_TTL e) (ce_IsManifest e)
    (ce_IsBlob e) (ce_Digest e) (ce_Repository e) (ce_Reference e) (ce_Headers e).

Definition Set_ (entry : CacheEntry) : M unit :=
  if negb (IsCacheEnabled config) then em_ret tt
  else
    let! filePath := em_lift (buildCachePath (ce_Key entry)) in
    let! err := fs_op (MkdirAll (Dir filePath)) in
    match err with
    | Some _ => em_fail MkdirFailed
    | None =>
        let! full := em_get (λ m, shouldEvict (ce_Size entry) (mg_stats m)) in
        let! _ := (if full then let! _ := em_try (evictOldEntries (ce_Size entry)) in em_ret tt else em_ret tt) in
        let! err := fs_op (WriteFile filePath (ce_Headers entry)) in
        match err with
        | Some _ => em_fail WriteFailed
        | None =>
            let! created := on_world time_now in
            let! accessed := on_world time_now in
            let entry := stored_entry filePath created accessed entry in
            let! saved := em_try (saveCacheEntry (filePath +:+ ".meta") entry) in
            match saved with
            | Err e => let! _ := fs_op (Remove filePath) in em_fail e
            | Ok _ => modify (set_stats (updateCacheStats entry true))
            end
        end
    end.

Definition SaveHeaders (key : string) (headers : Header) : M unit :=
  let! filePath := em_lift (buildCachePath key) in
  match json_marshal (headers : gmap string (list string)) with
  | None => em_fail MarshalFailed
  | Some d =>
      let! err := fs_op (WriteFile (filePath +:+ ".headers") d) in
      match err with Some _ => em_fail WriteFailed | None => em_ret tt end
  end.

Definition LoadHeaders (key : string) : M Header :=
  let! filePath := em_lift (buildCachePath key) in
  let! data := em_get (λ m, ReadFile (filePath +:+ ".headers") (mg_world m)) in
  match data with
  | Err _ => em_fail HeadersUnreadable
  | Ok d =>
      match json_unmarshal d with
      | Some h => em_ret (filter (λ x, bool_decide (x.2 = []) = false) (h : gmap string (list string)))
      | None => em_fail HeadersUnreadable
      end
  end.

(** ** What is set is what is got *)

Context `{!FileSystemLaws S} `{!WorldLaws S}.

Lemma meta_other p : p ≠ p +:+ ".meta".
Proof. intros E. apply (f_equal String.length) in E. rewrite str_length_app in E. cbn in E. lia. Qed.

Lemma fs_op_eq f m : fs_op f m = (Ok (f (mg_world m)).1, set_world (f (mg_world m)).2 m).
Proof. apply on_world_eq. Qed.
Lemma bind_fs_op {B} f (k : option os_err → M B) m :
  em_bind (fs_op f) k m = k (f (mg_world m)).1 (set_world (f (mg_world m)).2 m).
Proof. apply bind_world. Qed.
Lemma bind_missing {B} p (k : bool → M B) m :
  em_bind (missing p) k m = k (match StatFile p (mg_world m) with Some ErrNotExist => true | _ => false end) m.
Proof. done. Qed.
Lemma bind_lift {A B} (r : result docker_error A) (k : A → M B) m :
  em_bind (em_lift r) k m = match r with Ok a => k a m | Err e => (Err e, m) end.
Proof. unfold em_bind, em_lift. by destruct r. Qed.

(** A file that is there is not missing. *)
Lemma present_not_missing p d s : files s !! p = Some d → match StatFile p s with Some ErrNotExist => true | _ => false end = false.
Proof. intros H. pose proof (StatFile_file p s ltac:(by eexists)). by destruct (StatFile p s) as [[]|]. Qed.

Lemma saveCacheEntry_ok p e m m' : saveCacheEntry p e m = (Ok tt, m') →
  ∃ d, json_marshal e = Some d ∧ files (mg_world m') = <[p := d]> (files (mg_world m)) ∧ mg_stats m' = mg_stats m.
Proof.
  unfold saveCacheEntry. destruct (json_marshal e) as [d|] eqn:Ed; [|done]. rewrite bind_fs_op.
  destruct (WriteFile p d (mg_world m)).1 eqn:Ew; [done|]. unfold em_ret. intros [= <-]. exists d. split; [done|]. split; [|done].
  by apply WriteFile_ok.
Qed.

(** Without eviction a successful [Set] writes the two files, and counts one entry more. *)
Lemma Set_ok entry m m' : IsCacheEnabled config = true → Set_ entry m = (Ok tt, m') →
  ∃ filePath d s0 accessed m0, buildCachePath (ce_Key entry) = Ok filePath ∧
    json_marshal (stored_entry filePath (time_now s0).1 accessed entry) = Some d ∧
    files (mg_world m') = <[filePath +:+ ".meta" := d]> (<[filePath := ce_Headers entry]> (files (mg_world m0))) ∧
    mg_stats m' = updateCacheStats entry true (mg_stats m0) ∧
    (shouldEvict (ce_Size entry) (mg_stats m) = false → files (mg_world m0) = files (mg_world m) ∧ mg_stats m0 = mg_stats m).
Proof.
  intros Hen. unfold Set_. rewrite Hen. cbn [negb]. rewrite bind_lift. destruct (buildCachePath _) as [filePath|] eqn:Ep; [|done].
  rewrite bind_fs_op. destruct (MkdirAll _ _).1; [done|]. rewrite bind_get. set (m1 := set_world _ m).
  rewrite em_bind_ok. intros ([] & m0 & Hev & H).
  rewrite bind_fs_op in H. destruct (WriteFile filePath _ _).1 eqn:Ew; [done|]. rewrite !bind_world in H.
  set (m2 := set_world _ m0) in H. rewrite em_bind_try in H.
  destruct (saveCacheEntry _ _ _) as [[[]|e] m3] eqn:Es; [|by rewrite bind_fs_op in H].
  apply saveCacheEntry_ok in Es as (d & Hd & Hf & Hst). unfold modify, em_do in H. simplify_eq.
  exists filePath, d, (mg_world m2), (time_now (time_now (mg_world m2)).2).1, m0.
  split; [done|]. split; [exact Hd|]. split; [|split].
  - cbn [mg_world set_stats]. rewrite Hf. cbn [mg_world set_world m2]. rewrite !time_now_files. f_equal. by apply WriteFile_ok.
  - cbn [mg_stats set_stats]. by rewrite Hst.
  - intros Hnf. change (mg_stats m1) with (mg_stats m) in Hev. rewrite Hnf in Hev. unfold em_ret in Hev. simplify_eq. split; [|done].
    apply MkdirAll_files.
Qed.

(** What a successful [Set] has stored under a key, [Get] gives back with its type,
    as long as its lifetime, from the time of creation in the metadata, lasts, the disk can be read and, for a blob, the data has
    the digest of the entry; whatever else the network and the clock do. *)
Theorem stored_entry_read_back entry m m'
    (Hread : ∀ p d s, files s !! p = Some d → ReadFile p s = Ok d)
    (Hsafe : ∀ p c a, json_safe (stored_entry p c a entry))
    (Hdig : ce_IsBlob entry = true → digest_of (ce_Headers entry) = ce_Digest entry)
    (Hen : IsCacheEnabled config = true) (Hset : Set_ entry m = (Ok tt, m')) :
  ∃ p d stored, buildCachePath (ce_Key entry) = Ok p ∧ files (mg_world m') !! (p +:+ ".meta") = Some d ∧ json_unmarshal d = Some stored ∧
  ∀ s, files s = files (mg_world m') → time_sub (time_now s).1 (ce_CreatedAt stored) <= ce_TTL entry →
    ∃ e m'', Get (ce_Key entry) (set_world s m') = (Ok e, m'') ∧
      ce_Headers e = ce_Headers entry ∧ ce_ContentType e = ce_ContentType entry ∧ ce_Digest e = ce_Digest entry.
Proof.
  destruct (Set_ok _ _ _ Hen Hset) as (p & d & s0 & acc & m0 & Hp & Hd & Hf & _).
  exists p, d, (stored_entry p (time_now s0).1 acc entry). split; [done|]. split; [by rewrite Hf, lookup_insert, decide_True by done|].
  split; [by apply json_round_trip|]. intros s Hs Ht. cbn [ce_CreatedAt stored_entry] in Ht.
  assert (files s !! (p +:+ ".meta") = Some d) as H1 by (by rewrite Hs, Hf, lookup_insert, decide_True by done).
  assert (files s !! p = Some (ce_Headers entry)) as H2.
  { rewrite Hs, Hf, lookup_insert_ne by (apply not_eq_sym, meta_other). by rewrite lookup_insert, decide_True by done. }
  unfold Get. rewrite bind_lift, Hp, bind_missing. cbn [mg_world set_world]. rewrite (present_not_missing _ _ _ H1).
  unfold loadCacheEntry at 1. rewrite (bind_run _ _ _ (stored_entry p (time_now s0).1 acc entry) (set_world s m')).
  2: { rewrite bind_get. cbn [mg_world set_world]. rewrite (Hread _ _ _ H1). by rewrite (json_round_trip _ d) by done. }
  set (m1 := set_world (time_now s).2 (set_world s m')).
  rewrite (bind_run _ _ _ true m1).
  2: { unfold ValidateCacheEntry. rewrite bind_world. cbn [mg_world set_world ce_TTL ce_CreatedAt stored_entry ce_Path ce_IsBlob ce_Digest ce_Headers].
       rewrite (proj2 (Z.ltb_ge _ _)) by done.
       assert (files (mg_world m1) !! p = Some (ce_Headers entry)) as H3 by (cbn; by rewrite time_now_files).
       assert (ce_IsBlob entry && negb (String.eqb (ce_Digest entry) EmptyString) && (0 <? String.length (ce_Headers entry))%nat &&
               negb (String.eqb (digest_of (ce_Headers entry)) (ce_Digest entry)) = false) as Hv.
       { destruct (ce_IsBlob entry); [|done]. rewrite Hdig, String.eqb_refl by done. apply andb_false_r. }
       destruct (String.eqb p EmptyString).
       - rewrite bind_ret, Hv. done.
       - rewrite bind_missing. change (set_world _ _) with m1. by rewrite (present_not_missing _ _ _ H3), Hv. }
  cbn [negb]. rewrite bind_missing. assert (files (mg_world m1) !! p = Some (ce_Headers entry)) as H3 by (cbn; by rewrite time_now_files).
  rewrite (present_not_missing _ _ _ H3), bind_get, (Hread _ _ _ H3), bind_world, em_bind_try.
  destruct (saveCacheEntry _ _ _) as [r m2]. unfold em_ret. by eexists _, _.
Qed.

(** Storing an entry again counts it again, although no file is added: two [Set]s of
    one entry add two entries and twice its size to the statistics that decide about
    eviction. *)
Theorem overwrite_counted_twice entry m m1 m2
    (Hen : IsCacheEnabled config = true) (H1 : Set_ entry m = (Ok tt, m1)) (H2 : Set_ entry m1 = (Ok tt, m2))
    (E1 : shouldEvict (ce_Size entry) (mg_stats m) = false) (E2 : shouldEvict (ce_Size entry) (mg_stats m1) = false) :
  dom (files (mg_world m2)) = dom (files (mg_world m1)) ∧
  st_TotalEntries (mg_stats m2) = st_TotalEntries (mg_stats m) + 2 ∧
  st_TotalSizeBytes (mg_stats m2) = wrap64 (wrap64 (st_TotalSizeBytes (mg_stats m) + ce_Size entry) + ce_Size entry).
Proof.
  destruct (Set_ok _ _ _ Hen H1) as (p & d & s0 & a & m0 & Hp & _ & Hf & Hs & Hn). destruct (Hn E1) as [_ Hst].
  destruct (Set_ok _ _ _ Hen H2) as (p' & d' & s0' & a' & m0' & Hp' & _ & Hf' & Hs' & Hn'). destruct (Hn' E2) as [Hf0 Hst'].
  rewrite Hp in Hp'. simplify_eq. split; [|split].
  - rewrite Hf', Hf0, !dom_insert_L, Hf, !dom_insert_L. set_solver.
  - rewrite Hs', Hst', Hs, Hst. cbn. lia.
  - rewrite Hs', Hst', Hs, Hst. cbn [updateCacheStats st_TotalSizeBytes]. by rewrite !Z.mul_1_l.
Qed.

(** ** Eviction *)

Definition no_later (a b : entryInfo) : Prop := ei_lastAccessed a <= ei_lastAccessed b.

Lemma exchange_pass_spec l : ∀ x, let '(m, r) := exchange_pass x l in m :: r ≡ₚ x :: l ∧ Forall (no_later m) r ∧ no_later m x.
Proof.
  induction l as [|y l IH]; intros x; cbn [exchange_pass]; [by split; [|split; [constructor|unfold no_later; lia]]|].
  unfold time_after. destruct (ei_lastAccessed y <? ei_lastAccessed x) eqn:E; zbool.
  - specialize (IH y). destruct (exchange_pass y l) as [m r]. destruct IH as (Hp & Hf & Hm). split; [|split].
    + by rewrite Permutation_swap, Hp.
    + constructor; [unfold no_later in *; lia|done].
    + unfold no_later in *. lia.
  - specialize (IH x). destruct (exchange_pass x l) as [m r]. destruct IH as (Hp & Hf & Hm). split; [|split].
    + rewrite Permutation_swap, Hp. apply Permutation_swap.
    + constructor; [unfold no_later in *; lia|done].
    + done.
Qed.

Lemma sort_entries_spec n : ∀ l, (length l <= n)%nat → exchange_sort n l ≡ₚ l ∧ StronglySorted no_later (exchange_sort n l).
Proof.
  induction n as [|n IH]; intros [|x l] Hl; try (cbn in *; (lia || by split; [|constructor])).
  cbn [exchange_sort]. pose proof (exchange_pass_spec l x) as Hx. destruct (exchange_pass x l) as [m r] eqn:E.
  destruct Hx as (Hp & Hf & Hm). assert (length r = length l) as Hr by (apply Permutation_length in Hp; cbn in Hp; lia).
  destruct (IH r) as [Hp' Hs]; [cbn in Hl; lia|]. split; [by rewrite Hp'|]. constructor; [done|]. by rewrite Hp'.
Qed.

(** The space of some entries, and the state after they have been deleted one by one. *)
Definition space (l : list entryInfo) : Z := foldr (λ e acc, ei_size e + acc) 0 l.
Definition delete_all (l : list entryInfo) (m : Managers S) : Managers S := fold_left (λ m e, (Delete (ei_key e) m).2) l m.

Lemma space_cons e l : space (e :: l) = ei_size e + space l.
Proof. done. Qed.

Lemma space_permutation l l' : l ≡ₚ l' → space l = space l'.
Proof. induction 1; rewrite ?space_cons in *; lia. Qed.

Lemma space_nonneg l : Forall (λ e, is_ok (buildCachePath (ei_key e)) = true ∧ 0 <= ei_size e) l → 0 <= space l.
Proof. induction 1 as [|e l [_ He] Hl IH]; [done|]. rewrite space_cons. lia. Qed.

Lemma Delete_ok key m : is_ok (buildCachePath key) = true → ∃ m', Delete key m = (Ok tt, m').
Proof.
  intros H. unfold Delete. rewrite bind_lift. destruct (buildCachePath key) as [p|]; [|done]. rewrite em_bind_try.
  destruct (loadCacheEntry _ m) as [[e|] m1]; [rewrite bind_modify|rewrite bind_ret]; rewrite !bind_fs_op; by eexists.
Qed.

Lemma evict_loop_spec required l : ∀ freed evicted m,
  Forall (λ e, is_ok (buildCachePath (ei_key e)) = true ∧ 0 <= ei_size e) l → 0 <= freed → freed + space l <= max_int64 →
  ∃ k, evict_loop required freed evicted l m = (Ok (freed + space (take k l), evicted + Z.of_nat k), delete_all (take k l) m) ∧
    (k <= length l)%nat ∧ ((k < length l)%nat → required <= freed + space (take k l)) ∧ ∀ j, (j < k)%nat → freed + space (take j l) < required.
Proof.
  induction l as [|e l IH]; intros freed evicted m Hl H0 Hb.
  { exists 0%nat. cbn. rewrite !Z.add_0_r. split; [done|]. split; [lia|]. split; [lia|]. intros. lia. }
  cbn [evict_loop]. destruct (required <=? freed) eqn:E; zbool.
  { exists 0%nat. cbn. rewrite !Z.add_0_r. split; [done|]. split; [lia|]. split; [done|]. intros. lia. }
  apply list.Forall_cons in Hl as [[Hk Hs] Hl]. destruct (Delete_ok (ei_key e) m Hk) as [m1 Hm]. rewrite em_bind_try, Hm.
  rewrite space_cons in Hb. pose proof (space_nonneg l Hl) as Hpos.
  rewrite wrap64_id by (unfold in_int64, min_int64 in *; lia).
  destruct (IH (freed + ei_size e) (evicted + 1) m1 Hl ltac:(lia) ltac:(lia)) as (k & -> & Hle & Hreq & Hj).
  exists (Datatypes.S k). cbn [take delete_all fold_left]. rewrite Hm, space_cons. cbn [snd].
  split.
  { replace (freed + (ei_size e + space (take k l))) with (freed + ei_size e + space (take k l)) by lia.
    by replace (evicted + Z.of_nat (Datatypes.S k)) with (evicted + 1 + Z.of_nat k) by lia. }
  split; [cbn; lia|]. split.
  - cbn [length]. intros Hk'. specialize (Hreq ltac:(lia)). lia.
  - intros [|j] Hlt; cbn [take]; [cbn; lia|]. specialize (Hj j ltac:(lia)). rewrite space_cons. lia.
Qed.

(** Eviction deletes the entries that were used longest ago, and as few of them as
    free the required space, or all. *)
Theorem eviction_lru required m entries m1
    (Hd : cacheDir ≠ EmptyString) (Hscan : scan_walk (Walk cache_base (mg_world m)) m = (Ok entries, m1))
    (Hk : Forall (λ e, is_ok (buildCachePath (ei_key e)) = true ∧ 0 <= ei_size e) entries) (Hb : space entries <= max_int64) :
  ∃ k sorted, sorted ≡ₚ entries ∧ StronglySorted no_later sorted ∧
    evictByLRU required m = (Ok tt, set_stats (count_evictions (Z.of_nat k)) (delete_all (take k sorted) m1)) ∧
    (k = length sorted ∨ required <= space (take k sorted)) ∧ ∀ j, (j < k)%nat → space (take j sorted) < required.
Proof.
  destruct (sort_entries_spec (length entries) entries ltac:(lia)) as [Hp Hs]. set (sorted := sort_entries entries).
  assert (Forall (λ e, is_ok (buildCachePath (ei_key e)) = true ∧ 0 <= ei_size e) sorted) as Hk' by (unfold sorted, sort_entries; by rewrite Hp).
  assert (space sorted = space entries) as Hsp.
  { by apply space_permutation. }
  destruct (evict_loop_spec required sorted 0 0 m1 Hk' ltac:(lia) ltac:(lia)) as (k & E & Hle & Hreq & Hj).
  exists k, sorted. split; [exact Hp|]. split; [exact Hs|]. split; [|split].
  - unfold evictByLRU. rewrite (proj2 (String.eqb_neq _ _) Hd), bind_get, (bind_run _ _ _ _ _ Hscan).
    change (sort_entries entries) with sorted. rewrite (bind_run _ _ _ _ _ E). done.
  - destruct (decide (k < length sorted)%nat) as [Hlt|Hlt]; [right; specialize (Hreq Hlt); lia|left; lia].
  - intros j Hlt. specialize (Hj j Hlt). lia.
Qed.
End cache.

(** ** Witnesses *)

#[export] Instance CacheEntry_eq_dec : EqDecision CacheEntry.
Proof. solve_decision. Defined.

(** The fields in a row, for an encoding whose size is that of the entry. *)
Definition entry_fields (e : CacheEntry) : list (Z + string) :=
  [inr (ce_Key e); inr (ce_Path e); inr (ce_ContentType e); inl (ce_Size e); inl (ce_CreatedAt e); inl (ce_LastAccessed e); inl (ce_TTL e);
   inl (Z.b2z (ce_IsManifest e)); inl (Z.b2z (ce_IsBlob e)); inr (ce_Digest e); inr (ce_Repository e); inr (ce_Reference e); inr (ce_Headers e)].
Definition fields_entry (l : list (Z + string)) : option CacheEntry :=
  match l with
  | [inr a; inr b; inr c; inl d; inl e; inl f; inl g; inl h; inl i; inr j; inr k; inr l; inr m] =>
      Some (mkCacheEntry a b c d e f g (h =? 1) (i =? 1) j k l m)
  | _ => None
  end.
#[export] Instance CacheEntry_countable : Countable CacheEntry.
Proof. refine (inj_countable entry_fields fields_entry _). by intros [??????? [] [] ????]. Defined.

Definition a_blob : CacheEntry :=
  mkCacheEntry "b_0123456789abcdef" EmptyString "application/octet-stream" 4 0 0 hour false true (digest_of "data") "library/x" EmptyString "data".

Section witnesses.
#[local] Instance quiet_world : World MemWorld := mem_world quiet_network.
#[local] Instance entry_codec : Codec CacheEntry := countable_codec CacheEntry.

Definition after_set : Managers MemWorld := (Set_ two_registries None a_blob (fresh_managers empty_world)).2.
Definition after_set_twice : Managers MemWorld := (Set_ two_registries None a_blob after_set).2.

Lemma stored_entry_read_back_witness :
  ∃ p d stored, buildCachePath two_registries None "b_0123456789abcdef" = Ok p ∧ files (mg_world after_set) !! (p +:+ ".meta") = Some d ∧
  json_unmarshal d = Some stored ∧
  ∀ s, files s = files (mg_world after_set) → time_sub (time_now s).1 (ce_CreatedAt stored) <= hour →
    ∃ e m'', Get two_registries None "b_0123456789abcdef" (set_world s after_set) = (Ok e, m'') ∧
      ce_Headers e = "data" ∧ ce_ContentType e = "application/octet-stream" ∧ ce_Digest e = digest_of "data".
Proof.
  apply (stored_entry_read_back two_registries None a_blob (fresh_managers empty_world) after_set).
  - intros p d s Hs. cbn in Hs |- *. unfold mem_read. by rewrite Hs.
  - done.
  - done.
  - done.
  - by vm_compute.
Defined.

Lemma overwrite_counted_twice_witness :
  st_TotalEntries (mg_stats after_set_twice) = 2 ∧ st_TotalSizeBytes (mg_stats after_set_twice) = 8 ∧
  dom (files (mg_world after_set_twice)) = dom (files (mg_world after_set)).
Proof.
  destruct (overwrite_counted_twice two_registries None a_blob (fresh_managers empty_world) after_set after_set_twice) as (H1 & H2 & H3);
    [by vm_compute..|]. split; [exact H2|]. split; [by rewrite H3|exact H1].
Defined.

Lemma eviction_lru_witness :
  ∃ k sorted, sorted ≡ₚ [mkInfo "b_0123456789abcdef" (100 * hour + second) 4] ∧ StronglySorted no_later sorted ∧
    evictByLRU two_registries None 2 after_set = (Ok tt, set_stats (count_evictions (Z.of_nat k)) (delete_all two_registries None (take k sorted) after_set)) ∧
    (k = length sorted ∨ 2 <= space (take k sorted)) ∧ ∀ j, (j < k)%nat → space (take j sorted) < 2.
Proof.
  apply (eviction_lru two_registries None 2 after_set [mkInfo "b_0123456789abcdef" (100 * hour + second) 4] after_set).
  - done.
  - by vm_compute.
  - repeat constructor; by vm_compute.
  - by vm_compute.
Defined.
End witnesses.
