(* ===== verification/DockerService.v ===== *)
(** * DockerService: manifests, blobs, tags and the catalogue

    Models [manifest_manager.go], [blob_manager.go], [registry_service.go] and
    [factory.go] of [src/internal/services/docker], and the handler that serves them,
    [src/internal/adapters/http/docker_handler_adapter.go].  The factory gives the
    manifest manager, the blob manager and the service managers of their own, over
    one world.  The decoding of JSON is a parameter; metrics and logging are left
    out. *)

From Stdlib Require Import Ascii.
From S2P Require Import Prelude GoStrings GoPath GoFS GoHashes GoWorld DockerModels DockerRegistry DockerCache.

(** What the code distinguishes of a JSON value: a number is a float64, of which it
    takes the integral part; of a list it takes the length. *)
Inductive json_value := JNumber (truncated : Z) (exact : bool) | JText (s : string) | JList (n : nat) | JOther.

Definition manifest_v2 : string := "application/vnd.docker.distribution.manifest.v2+json".
Definition octet_stream : string := "application/octet-stream".

Definition accept_header : string := Join [
  "application/vnd.docker.distribution.manifest.v2+json";
  "application/vnd.docker.distribution.manifest.list.v2+json";
  "application/vnd.docker.distribution.manifest.v1+json";
  "application/vnd.oci.image.manifest.v1+json";
  "application/vnd.oci.image.index.v1+json"]%string ",".

(** Copies the headers of a list that are not empty. *)
Definition copy_named (names : list string) (from : Header) (to : gmap string string) : gmap string string :=
  fold_left (λ h n, if nonempty (HeaderGet from n) then <[n := HeaderGet from n]> h else h) names to.

Section service.
Context {S : Type} `{!FileSystem S} `{!World S} `{!Codec CacheEntry} `{!Codec (gmap string (list string))}.
Context (config : ProxyConfig) (cwd : option string) (decode_token : string → option TokenResponse)
  (parse_manifest : string → option (gmap string json_value)).
Notation M := (EM (Managers S) docker_error).

(** An answer without data. *)
Definition status_response (status : Z) (data : string) : ManifestResponse :=
  mkManifestResponse data EmptyString EmptyString ∅ status false EmptyString 0 false.

(** The request to the selected registry, with the credentials found for it; an error
    of the network marks the registry as failed. *)
Definition ask_registry (with_basic marks : bool) (registry : RegistryStatus) (repository : string) (q : Request) : M Response :=
  match url_error (S:=S) (q_URL q) with
  | Some msg => em_fail (BadRequest msg)
  | None =>
      let! auth := em_try (GetAuthToken config decode_token (rs_URL registry) repository) in
      let! r := on_world (http_do (set_auth with_basic auth q)) in
      match r with
      | Err msg =>
          let! _ := (if marks then MarkRegistryFailed (rs_URL registry) msg else em_ret tt) in
          em_fail (FetchFailed msg)
      | Ok resp => em_ret resp
      end
  end.

Definition registry_path (repository kind reference : string) : string :=
  "/v2/" +:+ (repository +:+ ("/" +:+ (kind +:+ ("/" +:+ reference)))).

(** ** manifest_manager.go *)

Definition ShouldCacheManifest (repository reference : string) : bool := negb (String.eqb reference "latest").

Definition ExtractDigest (data : string) : string := digest_of data.

Definition schema_version (j : gmap string json_value) : option (Z * bool) :=
  match j !! "schemaVersion"%string with Some (JNumber z exact) => Some (z, exact) | _ => None end.

Definition ValidateManifest (data expectedDigest : string) : option docker_error :=
  if nonempty expectedDigest && negb (String.eqb (ExtractDigest data) expectedDigest) then Some (DigestMismatch expectedDigest (ExtractDigest data))
  else match parse_manifest data with
  | None => Some InvalidManifest
  | Some j =>
      match schema_version j with
      | Some (z, exact) => if exact && ((z =? 1) || (z =? 2)) then None else Some InvalidManifest
      | None => Some InvalidManifest
      end
  end.

Definition DetectManifestType (data : string) : string :=
  match parse_manifest data with
  | None => manifest_v2
  | Some j =>
      if bool_decide (is_Some (j !! "manifests"%string)) then "application/vnd.docker.distribution.manifest.list.v2+json"
      else match schema_version j with
      | Some (z, _) =>
          if z =? 1 then "application/vnd.docker.distribution.manifest.v1+json"
          else if z =? 2 then
            match j !! "mediaType"%string with
            | Some (JText mediaType) => if Contains mediaType "oci" then "application/vnd.oci.image.manifest.v1+json" else manifest_v2
            | _ => manifest_v2
            end
          else manifest_v2
      | None => manifest_v2
      end
  end.

Definition IsMultiPlatform (data : string) : bool :=
  match parse_manifest data with
  | Some j => match j !! "manifests"%string with Some (JList n) => (1 <? n)%nat | _ => false end
  | None => false
  end.

Definition extractSchemaVersion (data : string) : Z :=
  match parse_manifest data with Some j => from_option fst 2 (schema_version j) | None => 2 end.

Definition ProcessManifestHeaders (h : Header) (r : ManifestResponse) : ManifestResponse :=
  let headers := copy_named ["Docker-Content-Digest"; "Docker-Distribution-Api-Version"; "Etag"; "Last-Modified"]%string h (mr_Headers r) in
  let contentType := HeaderGet h "Content-Type" in
  mkManifestResponse (mr_Data r) (if nonempty contentType then contentType else mr_ContentType r) (mr_Digest r)
    (if nonempty contentType then <["Content-Type"%string := contentType]> headers else headers)
    (mr_StatusCode r) (mr_FromCache r) (mr_RegistryUsed r) (mr_SchemaVersion r) (mr_IsMultiPlatform r).

(** The digest of the upstream's header is compared, and a difference only logged. *)
Definition fetchManifestFromRegistry (repository reference : string) : M ManifestResponse :=
  let! registry := SelectRegistry config repository in
  let q := mkReq "GET" (BuildUpstreamURL registry (registry_path repository "manifests" reference))
             {["Accept"%string := accept_header]} EmptyString in
  let! resp := ask_registry true true registry repository q in
  if r_Status resp =? 401 then em_ret (status_response (r_Status resp) EmptyString)
  else if negb (r_Status resp =? 200) then em_ret (status_response (r_Status resp) (rd_data (r_Body resp)))
  else if rd_fails (r_Body resp) then em_fail ReadFailed
  else
    let data := rd_data (r_Body resp) in
    let digest := ExtractDigest data in
    let contentType := DetectManifestType data in
    let response := ProcessManifestHeaders (r_Header resp)
      (mkManifestResponse data contentType digest ∅ 200 false (rs_Name registry) (extractSchemaVersion data) (IsMultiPlatform data)) in
    if negb (ShouldCacheManifest repository reference) then em_ret response
    else
      let cacheKey := GenerateCacheKey repository reference "manifest" in
      let! created := on_world time_now in
      let! _ := em_try (Set_ config cwd (mkCacheEntry cacheKey EmptyString contentType (Z.of_nat (String.length data)) created zero_time
                  (cc_ManifestTTL (GetCacheConfig config)) true false digest repository reference data)) in
      let! _ := em_try (SaveHeaders config cwd cacheKey (r_Header resp)) in
      em_ret response.

Definition cached_headers (h : result docker_error Header) : gmap string string :=
  match h with Ok h => omap head h | Err _ => ∅ end.

(** What the cache has for a key, still valid. *)
Definition cached_entry (cacheKey : string) : M (option CacheEntry) :=
  let! entry := em_try (Get config cwd cacheKey) in
  match entry with
  | Err _ => em_ret None
  | Ok entry => let! valid := ValidateCacheEntry entry in em_ret (if valid then Some entry else None)
  end.

Definition GetManifest (repository reference : string) : M ManifestResponse :=
  let cacheKey := GenerateCacheKey repository reference "manifest" in
  let! entry := (if ShouldCacheManifest repository reference then cached_entry cacheKey else em_ret None) in
  match entry with
  | Some entry =>
      let! h := em_try (LoadHeaders config cwd cacheKey) in
      let data := ce_Headers entry in
      em_ret (mkManifestResponse data (ce_ContentType entry) (ce_Digest entry) (cached_headers h) 200 true EmptyString
        (extractSchemaVersion data) (IsMultiPlatform data))
  | None => fetchManifestFromRegistry repository reference
  end.

(** ** blob_manager.go *)

Definition ShouldCacheBlob (repository digest : string) : bool := HasPrefix digest "sha256:".

Definition ValidateBlobDigest (data expectedDigest : string) : option docker_error :=
  if negb (HasPrefix expectedDigest "sha256:") then Some (InvalidDigest expectedDigest)
  else if String.eqb (digest_of data) expectedDigest then None else Some (DigestMismatch expectedDigest (digest_of data)).

Definition ProcessBlobHeaders (h : Header) (digest : string) (headers : gmap string string) : gmap string string :=
  let headers := copy_named ["Docker-Content-Digest"; "Content-Length"; "Content-Type"; "Accept-Ranges"]%string h headers in
  if negb (nonempty (default EmptyString (headers !! "Docker-Content-Digest"%string))) && nonempty digest
  then <["Docker-Content-Digest"%string := digest]> headers else headers.

Definition fetchBlobFromRegistry (repository digest : string) : M ManifestResponse :=
  let! registry := SelectRegistry config repository in
  let! resp := ask_registry true true registry repository
                 (mkReq "GET" (BuildUpstreamURL registry (registry_path repository "blobs" digest)) ∅ EmptyString) in
  if negb (r_Status resp =? 200) then em_ret (status_response (r_Status resp) EmptyString)
  else if rd_fails (r_Body resp) then em_fail ReadFailed
  else
    let data := rd_data (r_Body resp) in
    match ValidateBlobDigest data digest with
    | Some e => em_fail e
    | None =>
        let contentType := let c := HeaderGet (r_Header resp) "Content-Type" in if nonempty c then c else octet_stream in
        let response := mkManifestResponse data contentType digest (ProcessBlobHeaders (r_Header resp) digest ∅) 200 false
                          (rs_Name registry) 0 false in
        if negb (ShouldCacheBlob repository digest) then em_ret response
        else
          let! created := on_world time_now in
          let! _ := em_try (Set_ config cwd (mkCacheEntry (GenerateCacheKey repository digest "blob") EmptyString contentType
                      (Z.of_nat (String.length data)) created zero_time (cc_BlobTTL (GetCacheConfig config)) false true digest repository
                      EmptyString data)) in
          em_ret response
    end.

Definition GetBlob (repository digest : string) : M ManifestResponse :=
  if negb (HasPrefix digest "sha256:") then em_fail (InvalidDigest digest)
  else
    let cacheKey := GenerateCacheKey repository digest "blob" in
    let! entry := (if ShouldCacheBlob repository digest then cached_entry cacheKey else em_ret None) in
    match entry with
    | Some entry =>
        match ValidateBlobDigest (ce_Headers entry) digest with
        | Some _ => let! _ := em_try (Delete config cwd cacheKey) in fetchBlobFromRegistry repository digest
        | None =>
            em_ret (mkManifestResponse (ce_Headers entry) (ce_ContentType entry) digest
              (<["Docker-Content-Digest"%string := digest]> (<["Content-Type"%string := ce_ContentType entry]>
                {["Content-Length"%string := Itoa (ce_Size entry)]})) 200 true EmptyString 0 false)
        end
    | None => fetchBlobFromRegistry repository digest
    end.

Definition blob_reference (repository digest contentType : string) (size : Z) : BlobReference :=
  mkBlobReference digest size contentType repository (Contains contentType "config")
    (Contains contentType "layer" || String.eqb contentType octet_stream).

Definition GetBlobInfo (repository digest : string) : M BlobReference :=
  let! entry := em_try (Get config cwd (GenerateCacheKey repository digest "blob")) in
  match entry with
  | Ok e => em_ret (blob_reference repository digest (ce_ContentType e) (ce_Size e))
  | Err _ =>
      let! registry := SelectRegistry config repository in
      let! resp := ask_registry false false registry repository
                     (mkReq "HEAD" (BuildUpstreamURL registry (registry_path repository "blobs" digest)) ∅ EmptyString) in
      if negb (r_Status resp =? 200) then em_fail (BlobNotFound digest)
      else
        let c := HeaderGet (r_Header resp) "Content-Type" in
        em_ret (blob_reference repository digest (if nonempty c then c else octet_stream) (r_ContentLength resp))
  end.

(** ** registry_service.go *)

(** [make([]byte, resp.ContentLength)] and one [Read] into it. *)
Definition read_declared (resp : Response) : M string :=
  match read_once (r_ContentLength resp) resp with
  | None => em_fail Panic
  | Some (data, err) => if err then em_fail ReadFailed else em_ret data
  end.

Definition handleTagsRequest (request : RegistryRequest) : M ManifestResponse :=
  let repository := rr_Repository request in
  let cacheKey := GenerateCacheKey repository EmptyString "tags" in
  let! entry := cached_entry cacheKey in
  match entry with
  | Some entry => em_ret (mkManifestResponse (ce_Headers entry) (ce_ContentType entry) EmptyString ∅ 200 true EmptyString 0 false)
  | None =>
      let! registry := SelectRegistry config repository in
      let! resp := ask_registry true true registry repository
                     (mkReq "GET" (BuildUpstreamURL registry ("/v2/" +:+ (repository +:+ "/tags/list"))) ∅ EmptyString) in
      if negb (r_Status resp =? 200) then em_ret (status_response (r_Status resp) (rd_data (r_Body resp)))
      else
        let! data := read_declared resp in
        let contentType := HeaderGet (r_Header resp) "Content-Type" in
        let! created := on_world time_now in
        let! _ := em_try (Set_ config cwd (mkCacheEntry cacheKey EmptyString contentType (Z.of_nat (String.length data)) created zero_time
                    (6 * hour) false false EmptyString repository EmptyString data)) in
        em_ret (mkManifestResponse data contentType EmptyString ∅ 200 false (rs_Name registry) 0 false)
  end.

(** Neither basic credentials nor the status of the answer are looked at. *)
Definition handleCatalogRequest : M ManifestResponse :=
  let! registry := GetDefaultRegistry config in
  let! resp := ask_registry false false registry EmptyString (mkReq "GET" (BuildUpstreamURL registry "/v2/_catalog") ∅ EmptyString) in
  let! data := read_declared resp in
  em_ret (mkManifestResponse data (HeaderGet (r_Header resp) "Content-Type") EmptyString ∅ (r_Status resp) false (rs_Name registry) 0 false).

Definition ValidateRequest (request : RegistryRequest) : option docker_error :=
  if negb (existsb (String.eqb (rr_Method request)) ["GET"; "HEAD"; "PUT"; "POST"; "DELETE"]%string) then Some (UnsupportedMethod (rr_Method request))
  else if negb (HasPrefix (rr_Path request) "/v2/") && negb (HasPrefix (rr_Path request) "v2/") then Some (InvalidPath (rr_Path request))
  else None.

(** The state of the service: the managers the factory makes for each part, and the
    one world. *)
Record RegistryService := mkService {
  sv_manifest : Managers unit;
  sv_blob : Managers unit;
  sv_own : Managers unit;
  sv_world : S
}.

Definition CreateRegistryService (s : S) : RegistryService := mkService (fresh_managers tt) (fresh_managers tt) (fresh_managers tt) s.

Definition enter (s : S) (m : Managers unit) : Managers S := mkManagers (mg_status m) (mg_index m) (mg_tokens m) (mg_stats m) s.
Definition leave (m : Managers S) : Managers unit := mkManagers (mg_status m) (mg_index m) (mg_tokens m) (mg_stats m) tt.

Definition in_manifest {A} (m : M A) : EM RegistryService docker_error A := λ sv,
  let '(r, ms) := m (enter (sv_world sv) (sv_manifest sv)) in (r, mkService (leave ms) (sv_blob sv) (sv_own sv) (mg_world ms)).
Definition in_blob {A} (m : M A) : EM RegistryService docker_error A := λ sv,
  let '(r, ms) := m (enter (sv_world sv) (sv_blob sv)) in (r, mkService (sv_manifest sv) (leave ms) (sv_own sv) (mg_world ms)).
Definition in_own {A} (m : M A) : EM RegistryService docker_error A := λ sv,
  let '(r, ms) := m (enter (sv_world sv) (sv_own sv)) in (r, mkService (sv_manifest sv) (sv_blob sv) (leave ms) (mg_world ms)).

(** The text with its quotes written as the byte 34. *)
Definition with_quotes (s : string) : string := String.string_of_list_ascii ((λ c, if Ascii.eqb c "'" then "034"%char else c) <$> String.list_ascii_of_string s).

Definition unsupported_version : ManifestResponse :=
  status_response 404 (with_quotes "{'errors':[{'code':'UNSUPPORTED','message':'API version not supported'}]}").

Definition route (request : RegistryRequest) : EM RegistryService docker_error ManifestResponse :=
  let op := rr_Operation request in
  if String.eqb op "manifest" then in_manifest (GetManifest (rr_Repository request) (rr_Reference request))
  else if String.eqb op "blob" then in_blob (GetBlob (rr_Repository request) (rr_Reference request))
  else if String.eqb op "tags" then in_own (handleTagsRequest request)
  else if String.eqb op "catalog" then in_own handleCatalogRequest
  else em_fail (UnsupportedOperation op).

Definition Handle (request : RegistryRequest) : EM RegistryService docker_error ManifestResponse :=
  match ValidateRequest request with
  | Some _ => em_ret unsupported_version
  | None => route request
  end.

Definition HandleV2Base : ManifestResponse :=
  mkManifestResponse "{}" "application/json" EmptyString
    (<["Docker-Distribution-Api-Version"%string := "registry/2.0"%string]> {["Content-Type"%string := "application/json"%string]}) 200 false EmptyString 0 false.

(** ** docker_handler_adapter.go *)

Definition extractPathComponents (requestPath : string) : string * string * string :=
  let path := TrimPrefix requestPath "v2/" in
  if String.eqb path "_catalog" then (EmptyString, EmptyString, "catalog"%string)
  else
    let parts := Split path "/" in
    match rev parts with
    | [] | [_] => (EmptyString, EmptyString, "unknown"%string)
    | last :: kind :: front =>
        let repository := Join (rev front) "/" in
        let long := match front with [] => false | _ => true end in
        if long && String.eqb kind "manifests" then (repository, last, "manifest"%string)
        else if long && String.eqb kind "blobs" then (repository, last, "blob"%string)
        else if long && String.eqb kind "tags" && String.eqb last "list" then (repository, EmptyString, "tags"%string)
        else (Join parts "/", EmptyString, "unknown"%string)
    end.

Definition parseDockerRequest (method requestPath : string) (headers : gmap string string) : RegistryRequest :=
  let '(repository, reference, operation) := extractPathComponents requestPath in
  mkRegistryRequest ("/" +:+ requestPath) method headers repository reference operation.

Record HttpReply := mkReply { hp_Status : Z; hp_Header : gmap string string; hp_Body : string }.

Definition processResponse (r : ManifestResponse) : HttpReply :=
  let h := mr_Headers r in
  let h := if nonempty (mr_ContentType r) then <["Content-Type"%string := mr_ContentType r]> h else h in
  let h := if nonempty (mr_Digest r) then <["Docker-Content-Digest"%string := mr_Digest r]> h else h in
  let h := <["Docker-Distribution-Api-Version"%string := "registry/2.0"%string]> h in
  let h := <["X-Cache"%string := (if mr_FromCache r then "HIT" else "MISS")%string]> h in
  let h := if nonempty (mr_RegistryUsed r) then <["X-Registry-Used"%string := mr_RegistryUsed r]> h else h in
  mkReply (mr_StatusCode r) h (mr_Data r).

(** [None] is a panic; the text of an error and the body that [SendStatus] makes up for
    an answer without data are left out. *)
Definition adapter_Handle (method requestPath : string) (headers : gmap string string) (sv : RegistryService) : option HttpReply * RegistryService :=
  if String.eqb requestPath "v2" || String.eqb requestPath "v2/" then (Some (processResponse HandleV2Base), sv)
  else
    match Handle (parseDockerRequest method requestPath headers) sv with
    | (Ok response, sv) => (Some (processResponse response), sv)
    | (Err Panic, sv) => (None, sv)
    | (Err _, sv) => (Some (mkReply 500 ∅ EmptyString), sv)
    end.

(** ** Paths *)

Lemma Split_app a b c : Split (a +:+ String c b) c = Split a c ++ Split b c.
Proof.
  clear decode_token parse_manifest.
  destruct (Split_inv a c) as (w & ws & Ea & Es & Hf). rewrite Ea, Es. clear Ea Es a.
  revert w Hf. induction ws as [|w' ws IH]; intros w Hf; apply list.Forall_cons in Hf as [Hw Hf]; cbn [seps].
  - rewrite str_app_nil_r. by apply Split_first.
  - rewrite str_app_assoc, !str_app_cons, Split_first by done. cbn [app]. f_equal. by apply IH.
Qed.

Lemma Join_Split a : Join (Split a "/") "/" = a.
Proof. destruct (Split_inv a "/") as (w & ws & -> & Es & _). rewrite Es. apply Join_seps. Qed.

Lemma extract_kind name kind last : str_all (not_char "/") kind = true → str_all (not_char "/") last = true →
  extractPathComponents ("v2/" +:+ (name +:+ String "/" (kind +:+ String "/" last))) =
  if String.eqb kind "manifests" then (name, last, "manifest"%string)
  else if String.eqb kind "blobs" then (name, last, "blob"%string)
  else if String.eqb kind "tags" && String.eqb last "list" then (name, EmptyString, "tags"%string)
  else (name +:+ String "/" (kind +:+ String "/" last), EmptyString, "unknown"%string).
Proof.
  clear decode_token parse_manifest.
  intros Hk Hl. unfold extractPathComponents. rewrite TrimPrefix_app. set (path := name +:+ _).
  assert (Split path "/" = Split name "/" ++ [kind; last]) as Es by (unfold path; by rewrite !Split_app, (Split_none "/" kind), (Split_none "/" last) by done).
  destruct (Split_inv name "/") as (w & ws & En & _ & _).
  destruct (String.eqb_spec path "_catalog") as [Ep|Ep].
  { exfalso. rewrite Ep, En in Es. apply (f_equal length) in Es. rewrite length_app in Es. cbn in Es. lia. }
  rewrite Es, rev_app_distr. cbn [rev app]. rewrite rev_involutive, Join_Split, <- Es, Join_Split.
  assert (match rev (Split name "/") with [] => false | _ => true end = true) as ->.
  { destruct (rev (Split name "/")) eqn:E; [|done]. apply (f_equal (@length _)) in E. rewrite length_rev, En in E. done. }
  done.
Qed.

(** The paths of the registry API are read back: repository, reference and kind of
    a manifest, a blob and the tags, for every name of a repository. *)
Theorem extractPathComponents_written name reference (Hr : str_all (not_char "/") reference = true) :
  extractPathComponents ("v2/" +:+ (name +:+ ("/manifests/" +:+ reference))) = (name, reference, "manifest"%string) ∧
  extractPathComponents ("v2/" +:+ (name +:+ ("/blobs/" +:+ reference))) = (name, reference, "blob"%string) ∧
  extractPathComponents ("v2/" +:+ (name +:+ "/tags/list")) = (name, EmptyString, "tags"%string) ∧
  extractPathComponents "v2/_catalog" = (EmptyString, EmptyString, "catalog"%string).
Proof.
  clear decode_token parse_manifest.
  split; [|split; [|split; [|done]]].
  - exact (extract_kind name "manifests" reference eq_refl Hr).
  - exact (extract_kind name "blobs" reference eq_refl Hr).
  - exact (extract_kind name "tags" "list" eq_refl eq_refl).
Qed.

(** ** Blobs *)

Lemma ValidateBlobDigest_ok data digest : ValidateBlobDigest data digest = None → digest_of data = digest.
Proof.
  unfold ValidateBlobDigest. destruct (HasPrefix digest "sha256:"); cbn [negb]; [|done].
  by destruct (String.eqb_spec (digest_of data) digest).
Qed.

Lemma fetchBlob_digest repository digest m r m' :
  fetchBlobFromRegistry repository digest m = (Ok r, m') → mr_StatusCode r = 200 → digest_of (mr_Data r) = digest.
Proof.
  unfold fetchBlobFromRegistry. rewrite em_bind_ok. intros (registry & m1 & _ & H). rewrite em_bind_ok in H.
  destruct H as (resp & m2 & _ & H). destruct (Z.eqb_spec (r_Status resp) 200) as [Es|Es]; cbn [negb] in H.
  2: { unfold em_ret in H. simplify_eq. cbn. lia. }
  destruct (rd_fails (r_Body resp)); [done|]. destruct (ValidateBlobDigest _ digest) eqn:Ev; [done|].
  apply ValidateBlobDigest_ok in Ev. intros _. destruct (negb (ShouldCacheBlob repository digest)).
  - unfold em_ret in H. by simplify_eq.
  - rewrite bind_world, em_bind_try in H. destruct (Set_ _ _ _ _) as [x m3]. unfold em_ret in H. by simplify_eq.
Qed.

Lemma GetBlob_digest repository digest m r m' :
  GetBlob repository digest m = (Ok r, m') → mr_StatusCode r = 200 → digest_of (mr_Data r) = digest.
Proof.
  unfold GetBlob. destruct (negb (HasPrefix digest "sha256:")); [done|]. rewrite em_bind_ok. intros ([e|] & m1 & _ & H).
  - destruct (ValidateBlobDigest (ce_Headers e) digest) eqn:Ev.
    + rewrite em_bind_try in H. destruct (Delete _ _ _ _) as [x m2]. by eapply fetchBlob_digest.
    + unfold em_ret in H. simplify_eq. intros _. by apply ValidateBlobDigest_ok.
  - by eapply fetchBlob_digest.
Qed.

Lemma route_kind request sv : ValidateRequest request = None → Handle request sv = route request sv.
Proof. unfold Handle. by intros ->. Qed.


(** ** Manifests *)

Lemma adapter_manifest method headers name reference sv : str_all (not_char "/") reference = true →
  existsb (String.eqb method) ["GET"; "HEAD"; "PUT"; "POST"; "DELETE"]%string = true →
  adapter_Handle method ("v2/" +:+ (name +:+ ("/manifests/" +:+ reference))) headers sv =
  match in_manifest (GetManifest name reference) sv with
  | (Ok response, sv) => (Some (processResponse response), sv)
  | (Err Panic, sv) => (None, sv)
  | (Err _, sv) => (Some (mkReply 500 ∅ EmptyString), sv)
  end.
Proof.
  intros Hr Hm. unfold adapter_Handle. destruct (String.eqb _ "v2" || String.eqb _ "v2/") eqn:E.
  { exfalso. apply orb_true_iff in E as [E|E]; apply String.eqb_eq, (f_equal String.length) in E; rewrite !str_length_app in E; cbn in E; lia. }
  unfold parseDockerRequest. change ("/manifests/" +:+ reference) with (String "/" ("manifests" +:+ String "/" reference)).
  rewrite extract_kind by done. unfold Handle, ValidateRequest. cbn [rr_Method rr_Path String.eqb Ascii.eqb eqb]. rewrite Hm. cbn [negb].
  assert (∀ x, HasPrefix ("/" +:+ ("v2/" +:+ x)) "/v2/" = true) as -> by (by intros []). done.
Qed.

(** A manifest is answered as the registry sends it: a request for a manifest by its
    digest is answered with status 200 and whatever bytes the selected registry gives,
    when the cache has none, and the digest in the answer is the one computed from them. *)
Theorem manifest_digest_unchecked method headers name reference sv m0 registry m1 resp m2
    (Hr : str_all (not_char "/") reference = true)
    (Hm : existsb (String.eqb method) ["GET"; "HEAD"; "PUT"; "POST"; "DELETE"]%string = true)
    (Hl : reference ≠ "latest")
    (Hc : cached_entry (GenerateCacheKey name reference "manifest") (enter (sv_world sv) (sv_manifest sv)) = (Ok None, m0))
    (Hs : SelectRegistry config name m0 = (Ok registry, m1))
    (Ha : ask_registry true true registry name
            (mkReq "GET" (BuildUpstreamURL registry (registry_path name "manifests" reference)) {["Accept"%string := accept_header]} EmptyString) m1
          = (Ok resp, m2))
    (H200 : r_Status resp = 200) (Hf : rd_fails (r_Body resp) = false) :
  ∃ reply sv', adapter_Handle method ("v2/" +:+ (name +:+ ("/manifests/" +:+ reference))) headers sv = (Some reply, sv') ∧
    hp_Status reply = 200 ∧ hp_Body reply = rd_data (r_Body resp) ∧
    hp_Header reply !! "Docker-Content-Digest"%string = Some (digest_of (rd_data (r_Body resp))).
Proof.
  rewrite adapter_manifest by done. unfold in_manifest.
  assert (ShouldCacheManifest name reference = true) as Hsc by (unfold ShouldCacheManifest; by rewrite (proj2 (String.eqb_neq _ _) Hl)).
  unfold GetManifest. rewrite Hsc, (bind_run _ _ _ _ _ Hc). unfold fetchManifestFromRegistry.
  rewrite (bind_run _ _ _ _ _ Hs), (bind_run _ _ _ _ _ Ha), H200, Hf. cbn [negb Z.eqb Pos.eqb]. rewrite Hsc. cbn [negb].
  rewrite bind_world, em_bind_try. destruct (Set_ _ _ _ _) as [r3 m3]. rewrite em_bind_try. destruct (SaveHeaders _ _ _ _ _) as [r4 m4].
  eexists _, _. split; [reflexivity|]. unfold ProcessManifestHeaders, processResponse. cbn [mr_StatusCode mr_Data mr_FromCache mr_RegistryUsed mr_Digest hp_Status hp_Body hp_Header].
  split; [done|]. split; [done|].
  assert (∀ (h : gmap string string) a b c, (if nonempty c then <["X-Registry-Used"%string := c]> (<["X-Cache"%string := a]> (<["Docker-Distribution-Api-Version"%string := b]> h))
    else <["X-Cache"%string := a]> (<["Docker-Distribution-Api-Version"%string := b]> h)) !! "Docker-Content-Digest"%string = h !! "Docker-Content-Digest"%string) as ->.
  { intros h a b c. destruct (nonempty c); by rewrite !lookup_insert_ne by done. }
  change (nonempty (ExtractDigest _)) with true. cbv iota. by rewrite lookup_insert, decide_True by done.
Qed.

(** What a request means does not depend on its method: an upload or a deletion of
    a manifest or a blob is answered as a download of it. *)
Theorem push_answered_as_pull method path headers sv
    (Hm : existsb (String.eqb method) ["GET"; "HEAD"; "PUT"; "POST"; "DELETE"]%string = true) :
  adapter_Handle method path headers sv = adapter_Handle "GET" path headers sv.
Proof.
  unfold adapter_Handle. destruct (String.eqb path "v2" || String.eqb path "v2/"); [done|]. unfold parseDockerRequest.
  destruct (extractPathComponents path) as [[repository reference] operation]. unfold Handle, ValidateRequest.
  cbn [rr_Method rr_Path]. rewrite Hm. cbn [existsb String.eqb Ascii.eqb eqb orb negb]. by destruct (negb (HasPrefix _ _) && _).
Qed.

(** An answer of the default registry that does not declare its length, as chunked
    ones do not, makes a request for the catalogue panic. *)
Theorem chunked_catalog_panics headers sv registry m1 resp m2
    (Hd : GetDefaultRegistry config (enter (sv_world sv) (sv_own sv)) = (Ok registry, m1))
    (Ha : ask_registry false false registry EmptyString (mkReq "GET" (BuildUpstreamURL registry "/v2/_catalog") ∅ EmptyString) m1 = (Ok resp, m2))
    (Hn : r_ContentLength resp < 0) :
  (adapter_Handle "GET" "v2/_catalog" headers sv).1 = None.
Proof.
  unfold adapter_Handle. cbn [String.eqb Ascii.eqb eqb orb]. change (parseDockerRequest "GET" "v2/_catalog" headers)
    with (mkRegistryRequest "/v2/_catalog" "GET" headers EmptyString EmptyString "catalog").
  change (Handle (mkRegistryRequest "/v2/_catalog" "GET" headers EmptyString EmptyString "catalog") sv) with (in_own handleCatalogRequest sv).
  unfold in_own, handleCatalogRequest. rewrite (bind_run _ _ _ _ _ Hd), (bind_run _ _ _ _ _ Ha).
  unfold read_declared, read_once. rewrite (proj2 (Z.ltb_lt _ _)) by done. done.
Qed.
End service.

(** ** Witnesses *)

(** A registry that answers every request for a manifest or a blob with one text, and
    the catalogue without its length. *)
Definition one_text (q : Request) : result string Response :=
  if HasSuffix (q_URL q) "_catalog" then Ok (mkResp 200 ∅ (-1) (mkReader "{}" false) (λ n, (n, true)))
  else Ok (whole 200 ∅ "data").

Definition no_json (data : string) : option (gmap string json_value) := None.

Section witnesses.
#[local] Instance text_world : World MemWorld := mem_world one_text.
#[local] Instance entry_codec : Codec CacheEntry := countable_codec CacheEntry.
#[local] Instance header_codec : Codec (gmap string (list string)) := countable_codec (gmap string (list string)).

(** One registry, nothing kept in the cache. *)
Definition one_registry : ProxyConfig := mkProxyConfig (Some (mkSettings "docker" false
  [mkServer "hub" "https://registry-1.docker.io" (mkDockerAuth "bot" "s3cret")] ∅)) "/var/cache".

Definition service0 : RegistryService := CreateRegistryService empty_world.
Definition serve (method path : string) (sv : RegistryService) : option HttpReply * RegistryService :=
  adapter_Handle one_registry None five_minutes no_json method path ∅ sv.

Lemma extractPathComponents_written_witness :
  extractPathComponents "v2/library/ubuntu/manifests/latest" = ("library/ubuntu", "latest", "manifest")%string.
Proof. exact (proj1 (extractPathComponents_written "library/ubuntu" "latest" eq_refl)). Defined.

(** The digest of [data], and what the service answers to a request for that blob. *)
Definition data_digest : string := "sha256:3a6eb0790f39ac87c94f3856b2dd2c5d110e6811602261a9a923d3bb23adc8b7".
Definition blob_path : string := "v2/" +:+ ("library/ubuntu" +:+ ("/blobs/" +:+ data_digest)).
Definition blob_reply : HttpReply := Eval vm_compute in default (mkReply 0 ∅ EmptyString) (serve "GET" blob_path service0).1.
Definition blob_state : RegistryService := Eval vm_compute in (serve "GET" blob_path service0).2.


(** The default registry as the first request finds it. *)
Definition hub : RegistryStatus := mkRegistryStatus "registry-1.docker.io" "https://registry-1.docker.io" true (100 * hour + 2 * second)
  EmptyString "registry/2.0" ["manifests"; "blobs"]%string.
Definition manifest_request : Request :=
  mkReq "GET" (BuildUpstreamURL hub (registry_path "library/ubuntu" "manifests" "sha256:00")) {["Accept"%string := accept_header]} EmptyString.
Definition manifest_state0 : Managers MemWorld :=
  Eval vm_compute in (cached_entry one_registry None (GenerateCacheKey "library/ubuntu" "sha256:00" "manifest") (fresh_managers empty_world)).2.
Definition manifest_state1 : Managers MemWorld := Eval vm_compute in (SelectRegistry one_registry "library/ubuntu" manifest_state0).2.
Definition manifest_state2 : Managers MemWorld :=
  Eval vm_compute in (ask_registry one_registry five_minutes true true hub "library/ubuntu" manifest_request manifest_state1).2.

Lemma manifest_digest_unchecked_witness :
  ∃ reply sv', adapter_Handle one_registry None five_minutes no_json "GET" ("v2/" +:+ ("library/ubuntu" +:+ ("/manifests/" +:+ "sha256:00"))) ∅ service0
      = (Some reply, sv') ∧
    hp_Status reply = 200 ∧ hp_Body reply = rd_data (r_Body (whole 200 ∅ "data")) ∧
    hp_Header reply !! "Docker-Content-Digest"%string = Some (digest_of (rd_data (r_Body (whole 200 ∅ "data")))).
Proof.
  refine (manifest_digest_unchecked one_registry None five_minutes no_json "GET" ∅ "library/ubuntu" "sha256:00" service0 manifest_state0 hub
    manifest_state1 (whole 200 ∅ "data") manifest_state2 eq_refl eq_refl _ _ _ _ eq_refl eq_refl); [done|vm_compute; reflexivity..].
Defined.

Lemma push_answered_as_pull_witness :
  adapter_Handle one_registry None five_minutes no_json "DELETE" "v2/library/ubuntu/manifests/latest" ∅ service0 =
  adapter_Handle one_registry None five_minutes no_json "GET" "v2/library/ubuntu/manifests/latest" ∅ service0.
Proof.
  exact (push_answered_as_pull one_registry None five_minutes no_json "DELETE" "v2/library/ubuntu/manifests/latest" ∅ service0 eq_refl).
Defined.

Definition catalog_state1 : Managers MemWorld := Eval vm_compute in (GetDefaultRegistry one_registry (fresh_managers empty_world)).2.
Definition catalog_answer : Response := mkResp 200 ∅ (-1) (mkReader "{}" false) (λ n, (n, true)).
Definition catalog_state2 : Managers MemWorld :=
  Eval vm_compute in (ask_registry one_registry five_minutes false false hub EmptyString
    (mkReq "GET" (BuildUpstreamURL hub "/v2/_catalog") ∅ EmptyString) catalog_state1).2.

Lemma chunked_catalog_panics_witness : (adapter_Handle one_registry None five_minutes no_json "GET" "v2/_catalog" ∅ service0).1 = None.
Proof.
  refine (chunked_catalog_panics one_registry None five_minutes no_json ∅ service0 hub catalog_state1 catalog_answer catalog_state2 _ _ _);
    vm_compute; reflexivity.
Defined.
End witnesses.
