(* ===== verification/Verifier.v ===== *)
(** * Verifier: hashes of packages that pass through the proxy

    Models [src/internal/verification/package_verifier.go]: the check of a package
    against the hash its metadata or its path declare, by type of package, the alert
    about a package that fails, and the middleware.  The error that the checks could
    return is always nil and is left out; the JSON of an alert's metadata is a
    parameter, and so is what the framework holds as the body and the content type of
    the answer so far. *)

From Stdlib Require Import Ascii.
From S2P Require Import Prelude GoStrings GoHashes GoBase64 Alerts Fiber.

(** ** Data *)

Definition HashTypeSHA1 : string := "sha1".
Definition HashTypeSHA256 : string := "sha256".
Definition HashTypeSHA512 : string := "sha512".
Definition HashTypeMD5 : string := "md5".

Record VerificationResult := mkResult {
  vr_Valid : bool;
  vr_HashType : string;
  vr_ExpectedHash : string;
  vr_ActualHash : string;
  vr_Message : string
}.

(** Required hashes and trusted sources are never read. *)
Record PackageConfig := mkPackageConfig {
  pc_Enabled : bool;
  pc_RequiredHashes : list string;
  pc_TrustedSources : list string;
  pc_SkipVerification : list string
}.

Record VerifierConfig := mkVerifierConfig {
  vc_StrictMode : bool;
  vc_BlockOnFailure : bool;
  vc_AlertOnFailure : bool;
  vc_PackageTypeConfigs : gmap string PackageConfig
}.

#[export] Instance VerificationResult_eq_dec : EqDecision VerificationResult.
Proof. solve_decision. Defined.

Definition valid (message : string) : VerificationResult := mkResult true EmptyString EmptyString EmptyString message.

(** ** The checks *)

Definition calculateHash (data hashType : string) : string :=
  if String.eqb hashType HashTypeSHA1 then sha1_hex data
  else if String.eqb hashType HashTypeSHA256 then sha256_hex data
  else if String.eqb hashType HashTypeSHA512 then sha512_hex data
  else EmptyString.

Definition shouldSkipVerification (path : string) (skipPatterns : list string) : bool := existsb (Contains path) skipPatterns.

(** The comparison that ends the checks of every type but npm. *)
Definition compare_hash (data hashType expectedHash good bad : string) : VerificationResult :=
  let actualHash := calculateHash data hashType in
  if String.eqb actualHash expectedHash then mkResult true hashType EmptyString EmptyString good
  else mkResult false hashType expectedHash actualHash bad.

Definition metadata_of (metadata : gmap string string) (key : string) : string := default EmptyString (metadata !! key).

(** [strings.Split(path, sep)[1]], if there is one. *)
Definition second_part (sep path : string) : option string :=
  match cut_at sep path with
  | None => None
  | Some (_, rest) => Some (match cut_at sep rest with Some (part, _) => part | None => rest end)
  end.

Definition verifyNpmPackage (data : string) (metadata : gmap string string) : VerificationResult :=
  let integrity := metadata_of metadata "npm-integrity" in
  if String.eqb integrity EmptyString then valid "No integrity field provided"
  else
    let actualHash := calculateHash data HashTypeSHA512 in
    let expectedHash := TrimPrefix integrity "sha512-" in
    if HasPrefix integrity "sha512-" && negb (String.eqb actualHash expectedHash) then
      mkResult false HashTypeSHA512 expectedHash actualHash "NPM package integrity check failed"
    else valid "NPM package verified successfully".

Definition pip_expected (packagePath : string) (metadata : gmap string string) : string :=
  let expectedHash := metadata_of metadata "sha256" in
  if String.eqb expectedHash EmptyString then default EmptyString (second_part "#sha256=" packagePath) else expectedHash.

Definition verifyPipPackage (packagePath data : string) (metadata : gmap string string) : VerificationResult :=
  let expectedHash := pip_expected packagePath metadata in
  if String.eqb expectedHash EmptyString then valid "No SHA256 hash provided"
  else compare_hash data HashTypeSHA256 expectedHash "PyPI package verified successfully" "PyPI package hash verification failed".

Definition verifyAptPackage (data : string) (metadata : gmap string string) : VerificationResult :=
  let expectedHash := metadata_of metadata "sha256sum" in
  if String.eqb expectedHash EmptyString then valid "No SHA256 sum provided for APT package"
  else compare_hash data HashTypeSHA256 expectedHash "APT package verified successfully" "APT package checksum verification failed".

Definition docker_digest (packagePath : string) (metadata : gmap string string) : string :=
  let digest := metadata_of metadata "docker-content-digest" in
  if String.eqb digest EmptyString then
    match second_part "@sha256:" packagePath with Some part => "sha256:" +:+ part | None => EmptyString end
  else digest.

Definition verifyDockerPackage (packagePath data : string) (metadata : gmap string string) : VerificationResult :=
  let digest := docker_digest packagePath metadata in
  if String.eqb digest EmptyString then valid "No content digest provided"
  else compare_hash data HashTypeSHA256 (TrimPrefix digest "sha256:") "Docker content verified successfully" "Docker content digest verification failed".

Definition verifyMavenPackage (data : string) (metadata : gmap string string) : VerificationResult :=
  let sha1Expected := metadata_of metadata "sha1" in
  let sha256Expected := metadata_of metadata "sha256" in
  if negb (String.eqb sha256Expected EmptyString) then
    compare_hash data HashTypeSHA256 sha256Expected "Maven artifact verified successfully" "Maven artifact SHA256 verification failed"
  else if negb (String.eqb sha1Expected EmptyString) then
    compare_hash data HashTypeSHA1 sha1Expected "Maven artifact verified successfully" "Maven artifact SHA1 verification failed"
  else valid "No checksum provided for Maven artifact".

Definition verify_type (packageType packagePath data : string) (metadata : gmap string string) : VerificationResult :=
  if String.eqb packageType "npm" then verifyNpmPackage data metadata
  else if String.eqb packageType "pip" then verifyPipPackage packagePath data metadata
  else if String.eqb packageType "apt" then verifyAptPackage data metadata
  else if String.eqb packageType "docker" then verifyDockerPackage packagePath data metadata
  else if String.eqb packageType "maven" then verifyMavenPackage data metadata
  else valid ("Unknown package type: " +:+ packageType).

(** The result of [VerifyPackage], and whether the package was checked at all. *)
Definition verdict (config : VerifierConfig) (packageType packagePath data : string) (metadata : gmap string string) : VerificationResult * bool :=
  match vc_PackageTypeConfigs config !! packageType with
  | None => (valid "Package type verification not enabled", false)
  | Some pkgConfig =>
      if negb (pc_Enabled pkgConfig) then (valid "Package type verification not enabled", false)
      else if shouldSkipVerification packagePath (pc_SkipVerification pkgConfig) then (valid "Package verification skipped by configuration", false)
      else (verify_type packageType packagePath data metadata, true)
  end.

(** ** Alerts *)

(** The last and the last but two parts of a path. *)
Definition last_part (parts : list string) : string := match rev parts with p :: _ => p | [] => EmptyString end.

Definition extractPackageName (path packageType : string) : string :=
  let parts := Split path "/" in
  if String.eqb packageType "npm" then
    match parts with
    | p0 :: p1 :: _ => if HasPrefix p0 "@" then p0 +:+ ("/" +:+ p1) else p0
    | _ => last_part parts
    end
  else if String.eqb packageType "pip" then default EmptyString (head (Split (last_part parts) "-"))
  else if String.eqb packageType "maven" then
    match rev parts with _ :: _ :: p :: _ => p | _ => last_part parts end
  else last_part parts.

Section verifier.
Context {S : Type} (alert_metadata : bool → VerificationResult → string).
(** What the alert manager takes from outside: an identifier, its clock and the order
    in which it goes through its channels. *)
Context (uuid : string) (now : nat → instant) (order : list (string * @Alerter S)).

Record PackageVerifier := mkVerifier { alertManager : option (@AlertManager S); strictMode : bool; config : VerifierConfig }.

Definition NewPackageVerifier (cfg : VerifierConfig) (am : option AlertManager) : PackageVerifier := mkVerifier am (vc_StrictMode cfg) cfg.

Definition verification_event (pv : PackageVerifier) (packageType packagePath : string) (result : VerificationResult)
    (metadata : gmap string string) : AlertEvent :=
  mkEvent EmptyString AlertLevelCritical "package_verification_failed" "Package Verification Failed"
    ("Verification failed for " +:+ (packageType +:+ (" package: " +:+ packagePath))) "package_verifier" 0
    (alert_metadata (strictMode pv) result)
    (Some (mkPackageInfo packageType (extractPackageName packagePath packageType) (metadata_of metadata "version") packagePath
      (vr_ExpectedHash result) (vr_ActualHash result) EmptyString)).

Definition sendVerificationAlert (am : AlertManager) (packageType packagePath : string) (result : VerificationResult)
    (metadata : gmap string string) (pv : PackageVerifier) (s : S) : PackageVerifier * S :=
  let '(_, _, am, s) := Send uuid now order (verification_event pv packageType packagePath result metadata) am s in
  (mkVerifier (Some am) (strictMode pv) (config pv), s).

Definition VerifyPackage (packageType packagePath data : string) (metadata : gmap string string) (pv : PackageVerifier) (s : S)
    : VerificationResult * PackageVerifier * S :=
  let '(result, checked) := verdict (config pv) packageType packagePath data metadata in
  if checked && negb (vr_Valid result) && vc_AlertOnFailure (config pv) then
    match alertManager pv with
    | Some am => let '(pv, s) := sendVerificationAlert am packageType packagePath result metadata pv s in (result, pv, s)
    | None => (result, pv, s)
    end
  else (result, pv, s).

(** ** The middleware *)

Context (Body ContentType : log → string).

(** [c.Response().Header.Peek(name)]: names of headers are compared without case. *)
Definition Peek (name : string) (tr : log) : string :=
  match omap (λ a, match a with SetHeader n v => if String.eqb (to_lower n) (to_lower name) then Some v else None | _ => None end) (rev tr) with
  | v :: _ => v
  | [] => EmptyString
  end.

Definition response_metadata (tr : log) : gmap string string :=
  <["docker-content-digest"%string := Peek "Docker-Content-Digest" tr]>
    (<["etag"%string := Peek "ETag" tr]> {["content-type"%string := ContentType tr]}).

Definition verified_headers (result : VerificationResult) (tr : log) : log :=
  let tr := set_header "X-Package-Verified" (if vr_Valid result then "true" else "false") tr in
  if negb (String.eqb (vr_HashType result) EmptyString) then set_header "X-Verified-Hash-Type" (vr_HashType result) tr else tr.

(** [return c.Next()]. *)
Definition pass `{!Chain} (c : Ctx) (tr : log) (pv : PackageVerifier) (s : S) : option herr * log * PackageVerifier * S :=
  let '(e, tr) := Next c tr in (e, tr, pv, s).

Definition VerificationMiddleware `{!Chain} (c : Ctx) (tr : log) (pv : PackageVerifier) (s : S) : option herr * log * PackageVerifier * S :=
  let proxyType := Params c "type" in
  let packagePath := Params c "*" in
  if negb (HasPrefix (c_Path c) "/proxy/") then pass c tr pv s
  else if String.eqb proxyType EmptyString || String.eqb packagePath EmptyString then pass c tr pv s
  else if String.eqb (c_Method c) "GET" && (StatusCode tr =? 200) && negb (String.eqb (Body tr) EmptyString) then
    let '(result, pv, s) := VerifyPackage proxyType packagePath (Body tr) (response_metadata tr) pv s in
    if negb (vr_Valid result) && vc_BlockOnFailure (config pv) then
      let '(e, tr) := reply 403 tr in (e, tr, pv, s)
    else pass c (verified_headers result tr) pv s
  else pass c tr pv s.

(** ** What the checks decide *)

(** The hash that a package declares, as the checks read it. *)
Definition declared (packageType packagePath : string) (metadata : gmap string string) : option (string * string) :=
  let some t e := if String.eqb e EmptyString then None else Some (t, e) in
  if String.eqb packageType "npm" then
    let integrity := metadata_of metadata "npm-integrity" in
    if HasPrefix integrity "sha512-" then Some (HashTypeSHA512, TrimPrefix integrity "sha512-") else None
  else if String.eqb packageType "pip" then some HashTypeSHA256 (pip_expected packagePath metadata)
  else if String.eqb packageType "apt" then some HashTypeSHA256 (metadata_of metadata "sha256sum")
  else if String.eqb packageType "docker" then
    if String.eqb (docker_digest packagePath metadata) EmptyString then None
    else Some (HashTypeSHA256, TrimPrefix (docker_digest packagePath metadata) "sha256:")
  else if String.eqb packageType "maven" then
    if String.eqb (metadata_of metadata "sha256") EmptyString then some HashTypeSHA1 (metadata_of metadata "sha1")
    else Some (HashTypeSHA256, metadata_of metadata "sha256")
  else None.

Definition exempt (cfg : VerifierConfig) (packageType packagePath : string) : bool :=
  match vc_PackageTypeConfigs cfg !! packageType with
  | None => true
  | Some pkgConfig => negb (pc_Enabled pkgConfig) || shouldSkipVerification packagePath (pc_SkipVerification pkgConfig)
  end.

Lemma compare_hash_valid data t e good bad : vr_Valid (compare_hash data t e good bad) = String.eqb (calculateHash data t) e.
Proof. unfold compare_hash. by destruct (String.eqb _ e). Qed.

Lemma verify_type_valid packageType packagePath data metadata :
  vr_Valid (verify_type packageType packagePath data metadata) =
  match declared packageType packagePath metadata with Some (t, e) => String.eqb (calculateHash data t) e | None => true end.
Proof.
  unfold verify_type, declared.
  destruct (String.eqb packageType "npm").
  { unfold verifyNpmPackage. destruct (String.eqb_spec (metadata_of metadata "npm-integrity") EmptyString) as [-> |]; [done|].
    destruct (HasPrefix _ "sha512-"); [|done]. by destruct (String.eqb (calculateHash _ _) _). }
  destruct (String.eqb packageType "pip").
  { unfold verifyPipPackage. destruct (String.eqb (pip_expected _ _) _); [done|apply compare_hash_valid]. }
  destruct (String.eqb packageType "apt").
  { unfold verifyAptPackage. destruct (String.eqb (metadata_of _ _) _); [done|apply compare_hash_valid]. }
  destruct (String.eqb packageType "docker").
  { unfold verifyDockerPackage. destruct (String.eqb (docker_digest _ _) _); [done|apply compare_hash_valid]. }
  destruct (String.eqb packageType "maven"); [|done]. unfold verifyMavenPackage.
  destruct (String.eqb (metadata_of _ "sha256") _); cbn [negb]; [|apply compare_hash_valid].
  destruct (String.eqb (metadata_of _ "sha1") _); cbn [negb]; [done|apply compare_hash_valid].
Qed.

Lemma VerifyPackage_verdict packageType packagePath data metadata pv s :
  (VerifyPackage packageType packagePath data metadata pv s).1.1 = (verdict (config pv) packageType packagePath data metadata).1.
Proof.
  unfold VerifyPackage. destruct (verdict _ _ _ _ _) as [result checked]. destruct (_ && vc_AlertOnFailure _); [|done].
  destruct (alertManager pv); [|done]. by destruct (sendVerificationAlert _ _ _ _ _ _ _).
Qed.

(** A package is found valid exactly when its type is exempt or it declares no hash
    or the one that it declares; the hash is compared as written, in small letters. *)
Theorem VerifyPackage_iff packageType packagePath data metadata pv s :
  vr_Valid (VerifyPackage packageType packagePath data metadata pv s).1.1 = true ↔
  exempt (config pv) packageType packagePath = true ∨
  ∀ t e, declared packageType packagePath metadata = Some (t, e) → calculateHash data t = e.
Proof.
  rewrite VerifyPackage_verdict. unfold verdict, exempt.
  destruct (vc_PackageTypeConfigs _ !! packageType) as [pkgConfig|]; [|by split; [left|]].
  destruct (pc_Enabled pkgConfig); [|by split; [left|]].
  destruct (shouldSkipVerification _ _); [by split; [left|]|].
  cbn [fst negb orb]. rewrite verify_type_valid. destruct (declared _ _ _) as [[t e]|].
  - rewrite String.eqb_eq. split; [intros H; right; intros ? ? [= <- <-]; done|]. intros [?|H]; [done|by apply H].
  - split; [intros _; right; intros ? ? [=]|done].
Qed.

(** ** npm integrity *)

Lemma encoded_length str : String.length (EncodeToString StdEncoding str) = (4 * ((String.length str + 2) / 3))%nat.
Proof.
  induction str as [|a|a b|a b c str IH] using string_ind3; [done..|]. cbn [EncodeToString String.length]. rewrite IH.
  change (Datatypes.S (Datatypes.S (Datatypes.S (String.length str))) + 2)%nat with (3 + (String.length str + 2))%nat.
  replace (3 + (String.length str + 2))%nat with (String.length str + 2 + 1 * 3)%nat by lia. rewrite Nat.div_add by lia. lia.
Qed.

(** The bytes of a SHA-512 sum. *)
Definition raw_sum512 (data : string) : string := String.string_of_list_ascii (byte <$> Sum512 data).

Lemma raw_sum512_length data : String.length (raw_sum512 data) = 64%nat.
Proof.
  assert (∀ l, String.length (String.string_of_list_ascii l) = length l) as Hl by (intros l; induction l as [|x l IH]; cbn; [done|by rewrite IH]).
  unfold raw_sum512. rewrite Hl, length_fmap. pose proof (proj1 (sha512_hex_shape data)) as H.
  unfold sha512_hex in H. rewrite hex_encode_length in H. lia.
Qed.

(** The integrity of a package as the npm registry gives it. *)
Definition npm_integrity (data : string) : string := "sha512-" +:+ EncodeToString StdEncoding (raw_sum512 data).

(** The integrity that the npm registry gives is the Base64 text of the SHA-512 sum;
    compared with the hexadecimal text it never agrees, so every genuine package fails,
    and a package whose integrity names another algorithm passes unchecked. *)
Theorem genuine_integrity_rejected packagePath data metadata pv s :
  (exempt (config pv) "npm" packagePath = false → metadata !! "npm-integrity"%string = Some (npm_integrity data) →
    vr_Valid (VerifyPackage "npm" packagePath data metadata pv s).1.1 = false) ∧
  (∀ integrity, metadata !! "npm-integrity"%string = Some integrity → HasPrefix integrity "sha512-" = false →
    vr_Valid (VerifyPackage "npm" packagePath data metadata pv s).1.1 = true).
Proof.
  split.
  - intros He Hm. apply not_true_is_false. rewrite VerifyPackage_iff, He. intros [[=]|H].
    unfold declared, metadata_of in H. rewrite Hm in H. cbn [default String.eqb Ascii.eqb eqb] in H. unfold npm_integrity in H.
    assert (HasPrefix ("sha512-" +:+ EncodeToString StdEncoding (raw_sum512 data)) "sha512-" = true) as Hp by apply prefix_app.
    cbn [from_option id] in H. rewrite Hp in H. specialize (H _ _ eq_refl). rewrite TrimPrefix_app in H. apply (f_equal String.length) in H.
    rewrite encoded_length, raw_sum512_length in H. change (calculateHash data HashTypeSHA512) with (sha512_hex data) in H.
    by rewrite (proj1 (sha512_hex_shape data)) in H.
  - intros integrity Hm Hp. apply VerifyPackage_iff. right. unfold declared, metadata_of. rewrite Hm. cbn [default from_option id String.eqb Ascii.eqb eqb]. by rewrite Hp.
Qed.

(** ** Alerts *)

(** An alert is sent for a package exactly when it was checked and failed and alerts
    are wanted: one critical event with the hash that was found; otherwise neither the
    alert manager nor the world changes. *)
Theorem alert_iff_failed packageType packagePath data metadata pv s am :
  alertManager pv = Some am →
  let '(result, pv', s') := VerifyPackage packageType packagePath data metadata pv s in
  if negb (vr_Valid result) && vc_AlertOnFailure (config pv) then
    ∃ event, ev_Level event = AlertLevelCritical ∧
      (∃ info, ev_PackageInfo event = Some info ∧ pi_Path info = packagePath ∧ pi_ActualHash info = calculateHash data (vr_HashType result)) ∧
      let '(_, _, am', s'') := Send uuid now order event am s in pv' = mkVerifier (Some am') (strictMode pv) (config pv) ∧ s' = s''
  else pv' = pv ∧ s' = s.
Proof.
  intros Ha. unfold VerifyPackage. destruct (verdict (config pv) packageType packagePath data metadata) as [result checked] eqn:Ev.
  assert (checked = false → vr_Valid result = true) as Hc.
  { intros ->. revert Ev. unfold verdict. destruct (_ !! _) as [p|]; [|by intros [= <-]].
    destruct (negb _); [by intros [= <-]|]. destruct (shouldSkipVerification _ _); [by intros [= <-]|done]. }
  assert (vr_Valid result = false → vr_ActualHash result = calculateHash data (vr_HashType result)) as Hact.
  { revert Ev. unfold verdict. destruct (_ !! _) as [p|]; [|by intros [= <- _]].
    destruct (negb _); [by intros [= <- _]|]. destruct (shouldSkipVerification _ _); [by intros [= <- _]|]. intros [= <- _].
    unfold verify_type, verifyNpmPackage, verifyPipPackage, verifyAptPackage, verifyDockerPackage, verifyMavenPackage, compare_hash.
    repeat case_match; done. }
  destruct (vr_Valid result) eqn:Hv; cbn [negb andb].
  { rewrite andb_false_r. cbn [andb]. by rewrite Hv. }
  destruct checked; [|by specialize (Hc eq_refl)]. cbn [andb]. destruct (vc_AlertOnFailure (config pv)); [|by rewrite Hv]. rewrite Ha.
  unfold sendVerificationAlert. destruct (Send _ _ _ (verification_event pv packageType packagePath result metadata) am s) as [[[err ev] am'] s''] eqn:Es.
  rewrite Hv. cbn [negb andb]. eexists. split; [|split; [|by rewrite Es]]; [done|]. eexists. split; [done|]. cbn. split; [done|]. by apply Hact.
Qed.

(** ** The middleware *)

Definition is_reply (a : action) : bool := match a with Reply _ => true | _ => false end.

(** Nothing is verified before a handler has answered: where the middleware stands,
    in front of the handlers, the answer is still empty, so it passes every request on,
    adds no header and sends no alert. *)
Theorem middleware_never_verifies `{!Chain} c tr pv s
    (Hbody : ∀ tr, existsb is_reply tr = false → Body tr = EmptyString) (Htr : existsb is_reply tr = false) :
  VerificationMiddleware c tr pv s = pass c tr pv s.
Proof.
  unfold VerificationMiddleware. rewrite (Hbody tr Htr), andb_false_r.
  by destruct (HasPrefix (c_Path c) "/proxy/"), (String.eqb (Params c "type") EmptyString || String.eqb (Params c "*") EmptyString).
Qed.

Lemma pass_reached `{!Chain} c tr pv s : reached (pass c tr pv s).1.1.2 = true.
Proof. unfold pass. pose proof (Next_reached c tr) as Hn. by destruct (Next c tr). Qed.

(** A download whose answer the middleware checks. *)
Definition checks (c : Ctx) (tr : log) : bool :=
  HasPrefix (c_Path c) "/proxy/" && negb (String.eqb (Params c "type") EmptyString) && negb (String.eqb (Params c "*") EmptyString) &&
  String.eqb (c_Method c) "GET" && (StatusCode tr =? 200) && negb (String.eqb (Body tr) EmptyString).

Lemma VerifyPackage_config packageType packagePath data metadata pv s :
  config (VerifyPackage packageType packagePath data metadata pv s).1.2 = config pv.
Proof.
  unfold VerifyPackage. destruct (verdict _ _ _ _ _) as [result checked]. destruct (_ && vc_AlertOnFailure _); [|done].
  destruct (alertManager pv); [|done]. unfold sendVerificationAlert. by destruct (Send _ _ _ _ _ _) as [[[? ?] ?] ?].
Qed.

(** A request is stopped exactly when failures block, the answer is checked, its type
    is not exempt, and its body does not have the hash that its path or its Docker digest
    declare. *)
Lemma middleware_stops_iff `{!Chain} c tr pv s (Htr : reached tr = false) :
  reached (VerificationMiddleware c tr pv s).1.1.2 = false ↔
  vc_BlockOnFailure (config pv) = true ∧ checks c tr = true ∧ exempt (config pv) (Params c "type") (Params c "*") = false ∧
  ∃ t e, declared (Params c "type") (Params c "*") (response_metadata tr) = Some (t, e) ∧ calculateHash (Body tr) t ≠ e.
Proof.
  unfold VerificationMiddleware, checks.
  destruct (HasPrefix (c_Path c) "/proxy/"); cbn [negb andb]; [|rewrite pass_reached; naive_solver].
  destruct (String.eqb (Params c "type") EmptyString); cbn [negb andb orb]; [rewrite pass_reached; naive_solver|].
  destruct (String.eqb (Params c "*") EmptyString); cbn [negb andb orb]; [rewrite pass_reached; naive_solver|].
  destruct (String.eqb (c_Method c) "GET" && (StatusCode tr =? 200) && negb (String.eqb (Body tr) EmptyString)); [|rewrite pass_reached; naive_solver].
  pose proof (VerifyPackage_iff (Params c "type") (Params c "*") (Body tr) (response_metadata tr) pv s) as Hiff.
  pose proof (VerifyPackage_config (Params c "type") (Params c "*") (Body tr) (response_metadata tr) pv s) as Hc.
  destruct (VerifyPackage _ _ _ _ pv s) as [[result pv'] s']. cbn [fst snd] in Hiff, Hc. rewrite Hc.
  destruct (vr_Valid result); cbn [negb andb].
  - rewrite pass_reached. split; [done|]. intros (_ & _ & He & t & h & Hd & Hne).
    destruct (proj1 Hiff eq_refl) as [Hx|Hx]; [congruence|]. by destruct (Hne (Hx t h Hd)).
  - destruct (vc_BlockOnFailure (config pv)).
    + pose proof (reply_reached 403 tr) as Hr. destruct (reply 403 tr) as [e tr']. cbn [fst snd] in *. rewrite Hr, Htr. split; [intros _|done]. split; [done|]. split; [done|].
      destruct (exempt (config pv) (Params c "type") (Params c "*")).
      { assert (false = true) by (apply Hiff; by left). done. }
      split; [done|].
      destruct (declared _ _ _) as [[t h]|].
      * exists t, h. split; [done|]. intros Hh. assert (false = true) by (apply Hiff; right; intros ? ? [= <- <-]; done). done.
      * assert (false = true) by (apply Hiff; right; intros ? ? [=]). done.
    + rewrite pass_reached. naive_solver.
Qed.

(** The middleware hands no npm, apt or Maven hash to the verifier: answers of these
    types pass whatever they hold. *)
Theorem middleware_passes_unchecked_types `{!Chain} c tr pv s (Htr : reached tr = false) (Ht : Params c "type" ∈ ["npm"; "apt"; "maven"]%string) :
  reached (VerificationMiddleware c tr pv s).1.1.2 = true.
Proof.
  assert (declared (Params c "type") (Params c "*") (response_metadata tr) = None) as Hd.
  { rewrite !elem_of_cons in Ht. destruct Ht as [-> |[-> |[-> |Ht%not_elem_of_nil]]]; done. }
  apply not_false_is_true. intros E. apply (middleware_stops_iff c tr pv s Htr) in E as (_ & _ & _ & t & h & Hd' & _). congruence.
Qed.
End verifier.

(** ** Witnesses *)

Definition strict : VerifierConfig :=
  mkVerifierConfig true true true {["npm"%string := mkPackageConfig true [] [] []; "docker"%string := mkPackageConfig true [] [] []]}.
Definition strict_verifier : @PackageVerifier unit := NewPackageVerifier strict (Some (NewAlertManager None)).
Definition download (type path : string) : Ctx :=
  mkCtx "10.0.0.1" "GET" ("/proxy/" +:+ (type +:+ ("/" +:+ path))) ∅ {["type"%string := type; "*"%string := path]} ∅ EmptyString [] EmptyString 0 EmptyString ∅.

Definition bad_layer : string := "app@sha256:00".

Example layer_stopped :
  let verdict := VerifyPackage (λ _ _, EmptyString) "id" (λ _, 1) [] "docker" bad_layer "data" ∅ strict_verifier tt in
  vr_Valid verdict.1.1 = false ∧ vr_ExpectedHash verdict.1.1 = "00".
Proof. vm_compute. done. Qed.

Example genuine_npm_stopped :
  vr_Valid (VerifyPackage (λ _ _, EmptyString) "id" (λ _, 1) [] "npm" "pkg/-/pkg-1.tgz" "data"
    {["npm-integrity"%string := npm_integrity "data"]} strict_verifier tt).1.1 = false.
Proof. vm_compute. done. Qed.

(** What the framework answers with once a handler has replied. *)
Definition body_after (tr : log) : string := if existsb is_reply tr then "data" else EmptyString.

Lemma middleware_never_verifies_witness :
  VerificationMiddleware (H := quiet) (λ _ _, EmptyString) "id" (λ _, 1) [] body_after (λ _, EmptyString) (download "docker" bad_layer) [] strict_verifier tt =
  (None, [CallNext], strict_verifier, tt).
Proof.
  apply (middleware_never_verifies (H := quiet) (λ _ _, EmptyString) "id" (λ _, 1) [] body_after (λ _, EmptyString) (download "docker" bad_layer) []
    strict_verifier tt); [|done].
  intros tr Htr. unfold body_after. by rewrite Htr.
Defined.

Lemma middleware_passes_unchecked_types_witness :
  reached (VerificationMiddleware (H := quiet) (λ _ _, EmptyString) "id" (λ _, 1) [] (λ _, "data"%string) (λ _, EmptyString)
    (download "npm" "pkg") [Reply 200] strict_verifier tt).1.1.2 = true.
Proof.
  apply (middleware_passes_unchecked_types (H := quiet) (λ _ _, EmptyString) "id" (λ _, 1) [] (λ _, "data"%string) (λ _, EmptyString)
    (download "npm" "pkg") [Reply 200] strict_verifier tt); [done|by left].
Defined.
