(* ===== verification/License.v ===== *)
(** * License: enterprise licences and what they unlock

    Models [src/internal/enterprise/license] (features and the validator),
    [src/internal/app/enterprise.go] (how a licence is found at the start) and the
    middleware of [src/internal/adapters/http/fiber/middleware/enterprise].  PEM is
    decoded as the standard library does; X.509 keys, RSA signatures and JSON are
    parameters, and so are the files and the environment.  Every look at the clock is
    an argument. *)

From Stdlib Require Import Ascii.
From S2P Require Import Prelude GoStrings GoBase64 GoHashes GoPath Fiber.

(** ** [encoding/pem] *)

Definition newline : string := String "010" EmptyString.
Definition trim_blank (s : string) : string :=
  String.rev ((fix go s := match s with String c s' => if Ascii.eqb c " " || Ascii.eqb c "009" then go s' else s | _ => s end) (String.rev s)).
Definition getLine (data : string) : string * string :=
  match cut_at newline data with
  | None => (trim_blank data, EmptyString)
  | Some (line, rest) => (trim_blank (TrimSuffix line (String "013" EmptyString)), rest)
  end.

Definition pem_start : string := newline +:+ "-----BEGIN ".
Definition pem_end : string := newline +:+ "-----END ".

Fixpoint remove_blank (s : string) : string :=
  match s with
  | EmptyString => EmptyString
  | String c s => if Ascii.eqb c " " || Ascii.eqb c "009" then remove_blank s else String c (remove_blank s)
  end.

(** Past the lines that hold a colon: how many, and the rest; nothing at the end of the
    data. *)
Fixpoint skip_headers (fuel n : nat) (rest : string) : option (nat * string) :=
  match fuel with
  | O => None
  | S fuel =>
      if String.eqb rest EmptyString then None
      else let '(line, next) := getLine rest in
        match cut_at ":" line with None => Some (n, rest) | Some _ => skip_headers fuel (S n) next end
  end.

(** What follows [BEGIN]: a block, something to pass over, or the end of the data. *)
Inductive pem_step := Found (bytes : string) | Again (rest : string) | Stop.

Definition pem_block (rest : string) : pem_step :=
  let '(typeLine, rest) := getLine rest in
  if negb (HasSuffix typeLine "-----") then Again rest
  else
    let type := TrimSuffix typeLine "-----" in
    match skip_headers (S (String.length rest)) 0 rest with
    | None => Stop
    | Some (n, rest) =>
        let parts := if (n =? 0)%nat && HasPrefix rest "-----END " then Some (EmptyString, drop_bytes 9 rest) else cut_at pem_end rest in
        match parts with
        | None => Again rest
        | Some (body, trailer) =>
            if negb (HasPrefix trailer (type +:+ "-----")) then Again rest
            else if negb (String.eqb (getLine (TrimPrefix trailer (type +:+ "-----"))).1 EmptyString) then Again rest
            else match DecodeString StdEncoding (remove_blank body) with Some bytes => Found bytes | None => Again rest end
        end
    end.

Fixpoint pem_go (fuel : nat) (data : string) : option string :=
  match fuel with
  | O => None
  | S fuel =>
      match (if HasPrefix data "-----BEGIN " then Some (drop_bytes 11 data) else snd <$> cut_at pem_start data) with
      | None => None
      | Some rest => match pem_block rest with Found bytes => Some bytes | Again rest => pem_go fuel rest | Stop => None end
      end
  end.

Definition pem_Decode (data : string) : option string := pem_go (S (String.length data)) data.

(** ** features.go *)

Definition FeatureLDAPAuth : string := "ldap_auth".
Definition FeatureSAMLAuth : string := "saml_auth".
Definition FeatureOAuth2 : string := "oauth2_advanced".
Definition FeatureRBAC : string := "rbac".
Definition FeatureMFA : string := "mfa".
Definition FeatureMultiDatacenter : string := "multi_datacenter".
Definition FeatureGeoRouting : string := "geo_routing".
Definition FeatureSmartCaching : string := "smart_caching".
Definition FeaturePredictiveCache : string := "predictive_cache".
Definition FeatureBandwidthControl : string := "bandwidth_control".
Definition FeatureVulnerabilityScanning : string := "vulnerability_scanning".
Definition FeatureLicenseScanning : string := "license_scanning".
Definition FeatureMalwareScanning : string := "malware_scanning".
Definition FeatureSecurityPolicies : string := "security_policies".
Definition FeatureAuditLog : string := "audit_log".
Definition FeatureAdvancedAnalytics : string := "advanced_analytics".
Definition FeatureCustomDashboards : string := "custom_dashboards".
Definition FeatureReporting : string := "reporting".
Definition FeatureAlerting : string := "advanced_alerting".
Definition FeatureSLAMonitoring : string := "sla_monitoring".
Definition FeatureGraphQLAPI : string := "graphql_api".
Definition FeatureWebhooks : string := "webhooks_advanced".
Definition FeatureTerraformProvider : string := "terraform_provider".
Definition FeatureKubernetesOperator : string := "kubernetes_operator".
Definition FeatureGDPRCompliance : string := "gdpr_compliance".
Definition FeatureSOXCompliance : string := "sox_compliance".
Definition FeatureHIPAACompliance : string := "hipaa_compliance".
Definition FeatureDataRetention : string := "data_retention".
Definition FeaturePrioritySupport : string := "priority_support".
Definition Feature247Support : string := "24x7_support".
Definition FeatureDedicatedCSM : string := "dedicated_csm".
Definition FeatureSLA : string := "sla_guarantee".

Definition FeatureSets : gmap string (list string) :=
  list_to_map [
    ("trial", [FeatureLDAPAuth; FeatureSmartCaching; FeatureAdvancedAnalytics; FeatureWebhooks]);
    ("starter", [FeatureLDAPAuth; FeatureSAMLAuth; FeatureSmartCaching; FeatureAdvancedAnalytics; FeatureWebhooks; FeatureAuditLog;
      FeaturePrioritySupport]);
    ("professional", [FeatureLDAPAuth; FeatureSAMLAuth; FeatureOAuth2; FeatureRBAC; FeatureSmartCaching; FeaturePredictiveCache;
      FeatureVulnerabilityScanning; FeatureLicenseScanning; FeatureSecurityPolicies; FeatureAdvancedAnalytics; FeatureCustomDashboards;
      FeatureReporting; FeatureWebhooks; FeatureGraphQLAPI; FeatureAuditLog; FeatureGDPRCompliance; FeaturePrioritySupport; FeatureSLA]);
    ("enterprise", [FeatureLDAPAuth; FeatureSAMLAuth; FeatureOAuth2; FeatureRBAC; FeatureMFA; FeatureMultiDatacenter; FeatureGeoRouting;
      FeatureSmartCaching; FeaturePredictiveCache; FeatureBandwidthControl; FeatureVulnerabilityScanning; FeatureLicenseScanning;
      FeatureMalwareScanning; FeatureSecurityPolicies; FeatureAdvancedAnalytics; FeatureCustomDashboards; FeatureReporting; FeatureAlerting;
      FeatureSLAMonitoring; FeatureWebhooks; FeatureGraphQLAPI; FeatureTerraformProvider; FeatureAuditLog; FeatureGDPRCompliance;
      FeatureSOXCompliance; FeatureDataRetention; Feature247Support; FeatureSLA]);
    ("ultimate", ["*"])]%string.

Record FeatureInfo := mkFeatureInfo { fi_ID : string; fi_MinLicense : string }.

(** Names, descriptions and categories are left out. *)
Definition FeatureCatalog : gmap string FeatureInfo :=
  list_to_map [(FeatureLDAPAuth, mkFeatureInfo FeatureLDAPAuth "starter");
    (FeatureMultiDatacenter, mkFeatureInfo FeatureMultiDatacenter "enterprise");
    (FeatureVulnerabilityScanning, mkFeatureInfo FeatureVulnerabilityScanning "professional")].

Definition GetFeatureInfo (featureID : string) : option FeatureInfo := FeatureCatalog !! featureID.
Definition GetFeaturesForLicense (licenseType : string) : list string := default [] (FeatureSets !! licenseType).

Definition grants (features : list string) (feature : string) : bool := existsb (λ f, String.eqb f feature || String.eqb f "*") features.
Definition IsFeatureInLicense (feature licenseType : string) : bool := grants (GetFeaturesForLicense licenseType) feature.

(** ** validator.go *)

Inductive license_error := ParseFailed | MarshalFailed | BadSignatureEncoding | ErrInvalidSignature | ErrExpiredLicense | ErrInvalidLicense
| ServerLimit (current limit : Z) | ErrFeatureNotLicensed (feature : string) | NoPEMBlock | BadKey.

Record License := mkLicense {
  li_ID : string;
  li_Company : string;
  li_Email : string;
  li_Features : list string;
  li_MaxServers : Z;
  li_MaxUsers : Z;
  li_IssuedAt : instant;
  li_ExpiresAt : instant;
  li_Type : string;
  li_Signature : string
}.

Definition with_signature (sig : string) (l : License) : License :=
  mkLicense (li_ID l) (li_Company l) (li_Email l) (li_Features l) (li_MaxServers l) (li_MaxUsers l) (li_IssuedAt l) (li_ExpiresAt l) (li_Type l) sig.

Definition publicKeyPEM : string :=
  newline +:+ ("-----BEGIN PUBLIC KEY-----" +:+ (newline +:+ ("MIIBIjANBgkqhkiG9w0BAQEFAAOCAQ8AMIIBCgKCAQEA1234567890..." +:+
    (newline +:+ ("실제 공개 키로 교체 필요" +:+ (newline +:+ ("-----END PUBLIC KEY-----" +:+ newline))))))).

Section license.
Context {K : Type} (ParseRSAKey : string → option K) (VerifyPKCS1v15 : K → string → string → bool)
  (unmarshal : string → option License) (marshal : License → option string).

Record Validator := mkValidator { publicKey : K; license : option License }.

Definition NewValidator (pem : string) : result license_error Validator :=
  match pem_Decode pem with
  | None => Err NoPEMBlock
  | Some bytes => match ParseRSAKey bytes with None => Err BadKey | Some k => Ok (mkValidator k None) end
  end.

Definition verifySignature (v : Validator) (l : License) : option license_error :=
  match marshal (with_signature EmptyString l) with
  | None => Some MarshalFailed
  | Some data =>
      match DecodeString StdEncoding (li_Signature l) with
      | None => Some BadSignatureEncoding
      | Some signature => if VerifyPKCS1v15 (publicKey v) (sha256_hex data) signature then None else Some ErrInvalidSignature
      end
  end.

Definition LoadLicense (now : instant) (licenseData : string) (v : Validator) : option license_error * Validator :=
  match unmarshal licenseData with
  | None => (Some ParseFailed, v)
  | Some l =>
      match verifySignature v l with
      | Some e => (Some e, v)
      | None => if time_after now (li_ExpiresAt l) then (Some ErrExpiredLicense, v) else (None, mkValidator (publicKey v) (Some l))
      end
  end.

Definition IsValid (now : instant) (v : Validator) : bool :=
  match license v with None => false | Some l => time_before now (li_ExpiresAt l) end.

Definition HasFeature (now : instant) (feature : string) (v : Validator) : bool :=
  match license v with
  | None => false
  | Some l => if negb (IsValid now v) then false else if String.eqb (li_Type l) "ultimate" then true else grants (li_Features l) feature
  end.

Definition GetLicense (now : instant) (v : Validator) : option License := if IsValid now v then license v else None.

Definition CheckServerLimit (now : instant) (currentServers : Z) (v : Validator) : option license_error :=
  match license v with
  | None => Some ErrInvalidLicense
  | Some l =>
      if negb (IsValid now v) then Some ErrInvalidLicense
      else if (0 <? li_MaxServers l) && (li_MaxServers l <? currentServers) then Some (ServerLimit currentServers (li_MaxServers l))
      else None
  end.

(** [FeatureGate], whose validator may be nil. *)
Definition gate_IsEnabled (now : instant) (feature : string) (fg : option Validator) : bool :=
  match fg with None => false | Some v => HasFeature now feature v end.
Definition gate_RequireFeature (now : instant) (feature : string) (fg : option Validator) : option license_error :=
  if gate_IsEnabled now feature fg then None else Some (ErrFeatureNotLicensed feature).

(** ** enterprise.go *)

(** The validator and the gate are set together. *)
Record EnterpriseFeatures := mkEnterprise { validator : option Validator; enabled : bool }.

(** [missing p]: [os.Stat] says that there is no file; [env] is the value of
    [PROXYND_LICENSE_FILE]. *)
Definition license_path (missing : string → bool) (env configDir : string) : string :=
  let licensePath := PathJoin configDir "license.json" in
  let licensePath := if missing licensePath then "/etc/proxynd/license.json"%string else licensePath in
  if negb (String.eqb env EmptyString) then env else licensePath.

Definition InitEnterpriseFeatures (missing : string → bool) (read_file : string → option string) (env : string) (now : instant)
    (pem configDir : string) : EnterpriseFeatures :=
  match NewValidator pem with
  | Err _ => mkEnterprise None false
  | Ok v =>
      match read_file (license_path missing env configDir) with
      | None => mkEnterprise None false
      | Some licenseData =>
          match LoadLicense now licenseData v with
          | (Some _, _) => mkEnterprise None false
          | (None, v) => mkEnterprise (Some v) true
          end
      end
  end.

Definition ef_IsEnabled (now : instant) (ef : EnterpriseFeatures) : bool :=
  enabled ef && match validator ef with Some v => IsValid now v | None => false end.

(** The clock is read twice. *)
Definition ef_HasFeature (now now' : instant) (feature : string) (ef : EnterpriseFeatures) : bool :=
  if negb (ef_IsEnabled now ef) then false else gate_IsEnabled now' feature (validator ef).

Definition ef_RequireFeature `{!Chain} (now now' : instant) (feature : string) (ef : EnterpriseFeatures) : handler := λ c tr,
  if negb (ef_HasFeature now now' feature ef) then reply 402 tr else Next c tr.

(** [GetLicenseInfo]: the type, and the features of the licence and of its type. *)
Definition ef_GetLicenseInfo (now : instant) (ef : EnterpriseFeatures) : string * list string * list string :=
  if negb (ef_IsEnabled now ef) then ("community"%string, [], [])
  else match validator ef ≫= license with
       | Some l => (li_Type l, li_Features l, GetFeaturesForLicense (li_Type l))
       | None => ("none"%string, [], GetFeaturesForLicense "none")
       end.

(** ** The middleware *)

(** [EnterpriseFeatures] of the middleware, an interface: each question looks at the
    clock, once for [IsEnabled] and twice for [HasFeature]. *)
Class LicensedFeatures := {
  IsEnabled : instant → bool;
  HasFeatureAt : instant → instant → string → bool
}.

Definition licensed (ef : EnterpriseFeatures) : LicensedFeatures := {|
  IsEnabled now := ef_IsEnabled now ef;
  HasFeatureAt now now' feature := ef_HasFeature now now' feature ef
|}.

(** [mockEnterpriseFeatures]. *)
Definition mock_features : LicensedFeatures := {| IsEnabled _ := true; HasFeatureAt _ _ _ := true |}.

(** [LicenseMiddleware]: the features may be nil. *)
Definition LicenseMiddleware : Type := option LicensedFeatures.

Definition RequireEnterprise `{!Chain} (now : instant) (m : LicenseMiddleware) : handler := λ c tr,
  match m with
  | None => reply 402 tr
  | Some f => if negb (IsEnabled now) then reply 402 tr else Next c tr
  end.

Definition RequireFeature `{!Chain} (now now' : instant) (feature : string) (m : LicenseMiddleware) : handler := λ c tr,
  match m with
  | None => reply 402 tr
  | Some f => if negb (HasFeatureAt now now' feature) then reply 402 tr else Next c tr
  end.

(** [clock i] is what the clock shows for the feature [i]. *)
Fixpoint any_feature (f : LicensedFeatures) (clock : nat → instant * instant) (i : nat) (features : list string) : bool :=
  match features with
  | [] => false
  | feature :: features => HasFeatureAt (clock i).1 (clock i).2 feature || any_feature f clock (S i) features
  end.

Definition RequireAnyFeature `{!Chain} (clock : nat → instant * instant) (features : list string) (m : LicenseMiddleware) : handler := λ c tr,
  match m with
  | None => reply 402 tr
  | Some f => if any_feature f clock 0 features then Next c tr else reply 402 tr
  end.

Definition SkipInDevelopment `{!Chain} (h : handler) : handler := λ c tr,
  if String.eqb (Get c "X-Dev-Mode") "true" then Next c tr else h c tr.

Definition NewDevModeLicenseMiddleware : LicenseMiddleware := Some mock_features.

(** ** What a licence unlocks *)

(** The loads of licences, the last one first: when, and what was read. *)
Fixpoint loads (v : Validator) (history : list (instant * string)) : Validator :=
  match history with
  | [] => v
  | (now, data) :: history => (LoadLicense now data (loads v history)).2
  end.

(** The licence [l] was read from signed text at one of these times, before it ended. *)
Definition genuine (k : K) (history : list (instant * string)) (l : License) : Prop :=
  ∃ now data text sig, (now, data) ∈ history ∧ unmarshal data = Some l ∧ marshal (with_signature EmptyString l) = Some text ∧
    DecodeString StdEncoding (li_Signature l) = Some sig ∧ VerifyPKCS1v15 k (sha256_hex text) sig = true ∧ now <= li_ExpiresAt l.

Lemma LoadLicense_spec now data v :
  let '(e, v') := LoadLicense now data v in
  (e ≠ None ∧ v' = v) ∨ (e = None ∧ ∃ l, v' = mkValidator (publicKey v) (Some l) ∧ genuine (publicKey v) [(now, data)] l).
Proof.
  clear ParseRSAKey. unfold LoadLicense. destruct (unmarshal data) as [l|] eqn:Eu; [|by left]. destruct (verifySignature v l) eqn:Ev; [by left|].
  destruct (time_after now (li_ExpiresAt l)) eqn:Et; [by left|]. right. split; [done|]. exists l. split; [done|].
  unfold verifySignature in Ev. destruct (marshal _) as [text|] eqn:Em; [|done]. destruct (DecodeString _ _) as [sig|] eqn:Ed; [|done].
  destruct (VerifyPKCS1v15 _ _ _) eqn:Es; [|done]. exists now, data, text, sig. unfold time_after in Et. zbool.
  split; [by left|]. do 4 (split; [done|]). lia.
Qed.

Lemma genuine_more k h h' l : genuine k h l → (∀ x, x ∈ h → x ∈ h') → genuine k h' l.
Proof. intros (now & data & text & sig & Hin & H) Hh. exists now, data, text, sig. split; [by apply Hh|done]. Qed.

Lemma loads_genuine v history :
  license v = None → publicKey (loads v history) = publicKey v ∧ ∀ l, license (loads v history) = Some l → genuine (publicKey v) history l.
Proof.
  intros Hv. induction history as [|[now data] history [IHk IHl]]; cbn [loads]; [by rewrite Hv|].
  pose proof (LoadLicense_spec now data (loads v history)) as H. destruct (LoadLicense now data (loads v history)) as [e v'].
  cbn [snd]. destruct H as [[_ ->]|[_ (l & -> & Hg)]].
  - split; [done|]. intros l Hl. eapply genuine_more; [by apply IHl|]. intros x. by right.
  - rewrite IHk in *. cbn [publicKey license]. split; [done|]. intros ? [= <-]. eapply genuine_more; [done|].
    intros x Hx%list_elem_of_singleton. subst x. by left.
Qed.


(** The type of a licence unlocks nothing unless it is the ultimate one: a licence of
    another type without features has none of those listed as available for its type. *)
Theorem type_unlocks_nothing now now' feature ef v l
    (Hef : validator ef = Some v) (Hl : license v = Some l) (Ht : li_Type l ≠ "ultimate"%string) (Hf : li_Features l = []) :
  ef_HasFeature now now' feature ef = false ∧
  (ef_IsEnabled now ef = true → (ef_GetLicenseInfo now ef).2 = GetFeaturesForLicense (li_Type l)).
Proof.
  split.
  - unfold ef_HasFeature. destruct (negb _); [done|]. rewrite Hef. cbn [gate_IsEnabled]. unfold HasFeature. rewrite Hl, Hf.
    destruct (negb _); [done|]. destruct (String.eqb_spec (li_Type l) "ultimate"); [done|]. done.
  - intros He. unfold ef_GetLicenseInfo. rewrite He, Hef. cbn. by rewrite Hl.
Qed.

(** The public key in the source is a placeholder that does not decode: whatever the
    files hold, no licence is ever loaded and every licensed feature is answered with 402. *)
Theorem no_licence_ever `{!Chain} missing read_file env now configDir t t' feature c tr :
  let ef := InitEnterpriseFeatures missing read_file env now publicKeyPEM configDir in
  ef_IsEnabled t ef = false ∧ ef_RequireFeature t t' feature ef c tr = reply 402 tr ∧
  RequireFeature t t' feature (Some (licensed ef)) c tr = reply 402 tr ∧ RequireEnterprise t (Some (licensed ef)) c tr = reply 402 tr.
Proof.
  assert (pem_Decode publicKeyPEM = None) as E by (vm_compute; reflexivity).
  unfold InitEnterpriseFeatures, NewValidator. rewrite E. cbn. done.
Qed.

(** The check is skipped for every client that says that it is in development. *)
Theorem dev_header_skips_licence `{!Chain} h c tr (Hdev : Get c "X-Dev-Mode" = "true"%string) : SkipInDevelopment h c tr = Next c tr.
Proof. unfold SkipInDevelopment. by rewrite Hdev. Qed.

(** A request passes [RequireAnyFeature] exactly when one of the features is unlocked. *)
Lemma any_feature_spec f clock features i :
  any_feature f clock i features = true ↔ ∃ j feature, features !! j = Some feature ∧ HasFeatureAt (clock (i + j)%nat).1 (clock (i + j)%nat).2 feature = true.
Proof.
  revert i. induction features as [|x features IH]; intros i; cbn [any_feature]; [split; [done|intros (j & y & Hj & _); by rewrite lookup_nil in Hj]|].
  rewrite orb_true_iff, IH. split.
  - intros [H|(j & y & Hj & H)]; [exists 0%nat, x; rewrite Nat.add_0_r; done|]. exists (S j), y. by rewrite Nat.add_succ_r.
  - intros ([|j] & y & Hj & H); [left; cbn in Hj; injection Hj as ->; by rewrite Nat.add_0_r in H|]. right. exists j, y.
    by rewrite Nat.add_succ_r in H.
Qed.
End license.

(** ** The features of a type *)

Definition includes (a b : string) : bool := forallb (λ f, IsFeatureInLicense f a) (GetFeaturesForLicense b).

(** Each type has the features of the type below it, except that the enterprise type
    lacks the priority support of the professional one. *)
Theorem types_include_lower :
  includes "starter" "trial" = true ∧ includes "professional" "starter" = true ∧ includes "ultimate" "enterprise" = true ∧
  includes "enterprise" "professional" = false ∧
  ∀ f, f ∈ GetFeaturesForLicense "professional" → IsFeatureInLicense f "enterprise" = true ∨ f = FeaturePrioritySupport.
Proof.
  do 4 (split; [by vm_compute|]). intros f Hf. apply list_elem_of_In in Hf.
  assert (forallb (λ f, IsFeatureInLicense f "enterprise" || String.eqb f FeaturePrioritySupport) (GetFeaturesForLicense "professional") = true) as H
    by (vm_compute; reflexivity).
  rewrite forallb_forall in H. specialize (H f Hf). apply orb_true_iff in H as [H|H]; [by left|right; by apply String.eqb_eq].
Qed.

(** ** Witnesses *)

(** A licence that the key [tt] signs. *)
Definition a_license : License := mkLicense "L1" "ACME" "it@acme.example" ["rbac"] 0 0 0 (1000 * hour) "starter" "c2ln".
Definition reads_license (data : string) : option License := if String.eqb data "{}" then Some a_license else None.
Definition signed_by_tt (_ : unit) (hash sig : string) : bool := String.eqb sig "sig".
Definition written (l : License) : option string := Some (li_ID l).


Definition bare_license : License := mkLicense "L2" "ACME" EmptyString [] 0 0 0 (1000 * hour) "professional" EmptyString.
Definition bare : @EnterpriseFeatures unit := mkEnterprise (Some (mkValidator tt (Some bare_license))) true.

Lemma type_unlocks_nothing_witness :
  ef_HasFeature 1 2 FeatureRBAC bare = false ∧
  (ef_IsEnabled 1 bare = true → (ef_GetLicenseInfo 1 bare).2 = GetFeaturesForLicense "professional").
Proof. by apply (type_unlocks_nothing 1 2 FeatureRBAC bare (mkValidator tt (Some bare_license)) bare_license). Defined.

Definition dev_client : Ctx := mkCtx "10.0.0.1" "GET" "/graphql" {["X-Dev-Mode"%string := "true"%string]} ∅ ∅ EmptyString [] EmptyString 0 EmptyString ∅.

Lemma dev_header_skips_licence_witness :
  SkipInDevelopment (H := quiet) (λ _ tr, reply 402 tr) dev_client [] = (None, [CallNext]).
Proof. by apply (dev_header_skips_licence (H := quiet) (λ _ tr, reply 402 tr) dev_client []). Defined.
