(* ===== verification/WebhookDelivery.v ===== *)
(** * WebhookDelivery: retries, workers and the dead letter handler

    Models, under [src/internal/webhook]: [retry/manager.go], [worker.go] (the workers
    and their queue of retries) and [dlq_handler.go], over the sender of [Webhook] and
    the dead letter queue of [FailureQueue].  Delays are computed in floating point
    from a power: what that gives is a field of the policy.  Log lines and the bodies
    of answers are left out. *)

From Stdlib Require Import Ascii.
From S2P Require Import Prelude GoStrings GoFS Alerts Webhook.
From S2P Require FailureQueue.

(** ** retry/manager.go *)

(** [rp_scaled n] is [InitialDelay * BackoffFactor ^ n], towards zero. *)
Record RetryPolicy := mkPolicy { rp_MaxAttempts : Z; rp_InitialDelay : Prelude.duration; rp_MaxDelay : Prelude.duration; rp_scaled : Z → Z }.

Definition DefaultPolicy : RetryPolicy := mkPolicy 3 second minute (λ n, second * 2 ^ n).

Record RetryItem := mkItem {
  it_Event : AlertEvent;
  it_Endpoint : string;
  it_Attempt : Z;
  it_NextRetry : instant;
  it_LastError : webhook_error;
  it_CreatedAt : instant
}.

(** The items, and whether the notification is pending. *)
Record RetryQueue := mkQueue { rq_items : list RetryItem; rq_notified : bool }.

Definition NewQueue : RetryQueue := mkQueue [] false.
Definition Push (item : RetryItem) (q : RetryQueue) : RetryQueue := mkQueue (rq_items q ++ [item]) true.
Definition Size (q : RetryQueue) : Z := Z.of_nat (length (rq_items q)).

Definition due (now : instant) (item : RetryItem) : bool := time_after now (it_NextRetry item) || (now =? it_NextRetry item).

(** The first item that is due, and the others. *)
Fixpoint PopReady (now : instant) (items : list RetryItem) : option RetryItem * list RetryItem :=
  match items with
  | [] => (None, [])
  | item :: items => if due now item then (Some item, items) else let '(x, items) := PopReady now items in (x, item :: items)
  end.

Record RetryManager := mkRetryManager { rm_policy : RetryPolicy; rm_queue : RetryQueue; rm_stopped : bool }.

Definition NewManager (policy : RetryPolicy) : RetryManager := mkRetryManager policy NewQueue false.

Definition CalculateBackoffDelay (attempt : Z) (policy : RetryPolicy) : Prelude.duration :=
  if attempt <=? 0 then rp_InitialDelay policy else Z.min (rp_scaled policy (attempt - 1)) (rp_MaxDelay policy).

(** [false]: the attempts are used up.  The clock is read twice. *)
Definition ScheduleRetry (now created : instant) (event : AlertEvent) (endpoint : string) (attempt : Z) (lastError : webhook_error)
    (rm : RetryManager) : bool * RetryManager :=
  if rp_MaxAttempts (rm_policy rm) <=? attempt then (false, rm)
  else
    let delay := CalculateBackoffDelay attempt (rm_policy rm) in
    (true, mkRetryManager (rm_policy rm)
      (Push (mkItem event endpoint (attempt + 1) (time_add now delay) lastError created) (rm_queue rm)) (rm_stopped rm)).

(** The loop over the items that are due: [now k] is the clock at the pop [k]. *)
Fixpoint drain (now : nat → instant) (fuel k : nat) (items : list RetryItem) : list RetryItem :=
  match fuel with
  | O => items
  | S fuel => match PopReady (now k) items with (None, items) => items | (Some _, items) => drain now fuel (S k) items end
  end.

Definition processReadyRetries (now : nat → instant) (rm : RetryManager) : RetryManager :=
  let items := rq_items (rm_queue rm) in
  mkRetryManager (rm_policy rm) (mkQueue (drain now (S (length items)) 0 items) (rq_notified (rm_queue rm))) (rm_stopped rm).

(** What [ProcessRetries] does when it is woken, by the ticker or by the notification,
    which it takes. *)
Definition wake (by_notification : bool) (now : nat → instant) (rm : RetryManager) : RetryManager :=
  processReadyRetries now (if by_notification then mkRetryManager (rm_policy rm) (mkQueue (rq_items (rm_queue rm)) false) (rm_stopped rm) else rm).

(** [None]: the channel is closed twice, a panic. *)
Definition StopRetries (rm : RetryManager) : option RetryManager :=
  if rm_stopped rm then None else Some (mkRetryManager (rm_policy rm) (rm_queue rm) true).

(** [str[i:j]]. *)
Definition slice (str : string) (i j : nat) : string := take_bytes (j - i) (drop_bytes i str).

Definition findSubstring (str substr : string) : bool :=
  if (String.length substr =? 0)%nat then true
  else if (String.length str <? String.length substr)%nat then false
  else existsb (λ i, String.eqb (slice str i (i + String.length substr)) substr) (seq 0 (S (String.length str - String.length substr))).

Definition contains (str substr : string) : bool :=
  ((String.length substr <=? String.length str)%nat && String.eqb (slice str 0 (String.length substr)) substr)
  || ((String.length substr <? String.length str)%nat && String.eqb (slice str (String.length str - String.length substr) (String.length str)) substr)
  || findSubstring str substr.

Definition retryablePatterns : list string :=
  ["timeout"; "connection refused"; "connection reset"; "temporary failure"; "service unavailable"; "internal server error"; "bad gateway";
   "gateway timeout"]%string.

Definition IsRetryableError (err : option string) : bool :=
  match err with None => false | Some errorMsg => existsb (contains errorMsg) retryablePatterns end.

(** ** worker.go *)

(** The configuration of the retries: the greatest number of attempts, and the powers
    of the factor as delays from one second on. *)
Record RetryConfig := mkRetryConfig { rc_MaxAttempts : Z; rc_scaled : Z → Z }.

Definition worker_policy (rc : RetryConfig) : RetryPolicy := mkPolicy (rc_MaxAttempts rc) second (5 * minute) (rc_scaled rc).

(** The dead letter queue of the sender, which may be nil: its directory and size. *)
Definition dead_letters : Type := option (string * Z).

Section worker.
Context {W : Type} `{!FileSystem W} `{!Codec (FailureQueue.DeadLetterItem AlertEvent)}.
Context (error_text : webhook_error → string) (rc : RetryConfig) (dlq : dead_letters).

Definition isRetryableError (err : option webhook_error) : bool := match err with None => false | Some _ => true end.

(** The loop over the endpoints; [now i] is the clock at the endpoint [i], read twice. *)
Fixpoint process_endpoints (now : nat → instant * instant) (i : nat) (event : AlertEvent) (endpoints : list WebhookEndpointConfig)
    (ws : WebhookSender) (rq : RetryQueue) (w : W) : WebhookSender * RetryQueue * W :=
  match endpoints with
  | [] => (ws, rq, w)
  | endpoint :: endpoints =>
      if negb (ep_Enabled endpoint) then process_endpoints now (S i) event endpoints ws rq w
      else if negb (MatchesEndpointFilter event endpoint) then process_endpoints now (S i) event endpoints ws rq w
      else
        let '(err, ws, w) := sendToEndpoint event endpoint ws w in
        let rq := match err with
                  | Some e => if isRetryableError err
                              then Push (mkItem event (ep_Name endpoint) 1 (time_add (now i).1 (5 * second)) e (now i).2) rq
                              else rq
                  | None => rq
                  end in
        process_endpoints now (S i) event endpoints ws rq w
  end.

Definition processEvent (now : nat → instant * instant) (event : AlertEvent) (ws : WebhookSender) (rq : RetryQueue) (w : W)
    : WebhookSender * RetryQueue * W :=
  process_endpoints now 0 event (wh_Endpoints (co_config (ws_core ws))) ws rq w.

(** What happens to an item of the queue in one round of retries. *)
Inductive outcome := NotYet | GivenUp | EndpointGone | Delivered | FailedAgain (e : webhook_error).

(** [attempted]: the clock when an item is given up; [unix_nano] and [filled] are read
    by the dead letter queue. *)
Definition stop_trying (attempted : instant) (unix_nano : Z) (filled : instant) (item : RetryItem) (w : W) : W :=
  match dlq with
  | None => w
  | Some (dir, maxSize) =>
      (FailureQueue.Add dir maxSize unix_nano filled
        (FailureQueue.mkDead EmptyString (it_Event item) (it_Endpoint item) (it_Attempt item) attempted (it_CreatedAt item)
          (error_text (it_LastError item))
          (<["reason"%string := "max_retries_exceeded"%string]> {["max_retries"%string := Itoa (rc_MaxAttempts rc)]})) w).2
  end.

Definition retry_one (now attempted : instant) (unix_nano : Z) (filled : instant) (item : RetryItem) (ws : WebhookSender) (w : W)
    : outcome * WebhookSender * W :=
  if time_before now (it_NextRetry item) then (NotYet, ws, w)
  else if rc_MaxAttempts rc <=? it_Attempt item then (GivenUp, ws, stop_trying attempted unix_nano filled item w)
  else match List.find (λ ep, String.eqb (ep_Name ep) (it_Endpoint item)) (wh_Endpoints (co_config (ws_core ws))) with
  | None => (EndpointGone, ws, w)
  | Some endpoint =>
      match sendToEndpoint (it_Event item) endpoint ws w with
      | (Some e, ws, w) => (FailedAgain e, ws, w)
      | (None, ws, w) => (Delivered, ws, w)
      end
  end.

(** The item as it stays in the queue, if it does. *)
Definition kept (now : instant) (item : RetryItem) (o : outcome) : option RetryItem :=
  match o with
  | NotYet => Some item
  | FailedAgain e =>
      let attempt := it_Attempt item + 1 in
      Some (mkItem (it_Event item) (it_Endpoint item) attempt
        (time_add now (CalculateBackoffDelay attempt (worker_policy rc))) e (it_CreatedAt item))
  | GivenUp | EndpointGone | Delivered => None
  end.

(** [clocks i]: the clock readings for the item [i]. *)
Fixpoint retry_items (now : instant) (clocks : nat → instant * Z * instant) (i : nat) (items : list RetryItem) (ws : WebhookSender) (w : W)
    : list RetryItem * WebhookSender * W :=
  match items with
  | [] => ([], ws, w)
  | item :: items =>
      let '(o, ws, w) := retry_one now (clocks i).1.1 (clocks i).1.2 (clocks i).2 item ws w in
      let '(rest, ws, w) := retry_items now clocks (S i) items ws w in
      (option_list (kept now item o) ++ rest, ws, w)
  end.

Definition processRetries (now : instant) (clocks : nat → instant * Z * instant) (rq : RetryQueue) (ws : WebhookSender) (w : W)
    : RetryQueue * WebhookSender * W :=
  let '(items, ws, w) := retry_items now clocks 0 (rq_items rq) ws w in (mkQueue items (rq_notified rq), ws, w).

Definition Clear (rq : RetryQueue) : RetryQueue := mkQueue [] (rq_notified rq).
End worker.

(** ** dlq_handler.go *)

Section dlq_handler.
Context {W : Type} `{!FileSystem W} `{!Codec (FailureQueue.DeadLetterItem AlertEvent)} (dir : string).

Notation dead_item := (FailureQueue.DeadLetterItem AlertEvent).

(** Each handler answers with a status; what it lists or reports is the body. *)
Definition ListDLQItems (method : string) (w : W) : Z * list dead_item :=
  if negb (String.eqb method "GET") then (405, [])
  else match FailureQueue.listUnlocked dir w with Err _ => (500, []) | Ok items => (200, items) end.

Definition GetDLQItem (method id : string) (w : W) : Z * option dead_item :=
  if negb (String.eqb method "GET") then (405, None)
  else match FailureQueue.DGet dir id w with Err _ => (404, None) | Ok item => (200, Some item) end.

(** [order]: in which the sender's filter goes through its overrides. *)
Definition RetryDLQItem (order : list (string * string)) (method id : string) (ws : WebhookSender) (w : W) : Z * WebhookSender * W :=
  if negb (String.eqb method "POST") then (405, ws, w)
  else match FailureQueue.Retry (E := AlertEvent) dir id w with
  | (Err _, w) => (404, ws, w)
  | (Ok item, w) =>
      match SendEvent order (FailureQueue.DEvent item) ws with
      | (Some _, ws) => (500, ws, w)
      | (None, ws) => (200, ws, w)
      end
  end.

Definition DeleteDLQItem (method id : string) (w : W) : Z * W :=
  if negb (String.eqb method "DELETE") then (405, w)
  else match FailureQueue.DRemove dir id w with (Some _, w) => (500, w) | (None, w) => (200, w) end.

Definition GetDLQStatistics (method : string) (w : W) : Z * option FailureQueue.dlq_stats :=
  if negb (String.eqb method "GET") then (405, None)
  else match FailureQueue.GetStatistics (E := AlertEvent) dir w with Err _ => (500, None) | Ok stats => (200, Some stats) end.

(** [time.Now().Add(-time.Duration(hours) * time.Hour)]. *)
Definition purge_cutoff (hours : Z) (now : instant) : instant := time_add now (wrap64 (- hours * hour)).

(** [before_hours] is what the body holds, if it can be decoded. *)
Definition PurgeDLQItems (method : string) (before_hours : option Z) (now : instant) (w : W) : Z * option Z * W :=
  if negb (String.eqb method "POST") then (405, None, w)
  else match before_hours with
  | None => (400, None, w)
  | Some h =>
      let h := if h <=? 0 then 168 else h in
      match FailureQueue.Purge (E := AlertEvent) dir (purge_cutoff h now) w with
      | (Err _, w) => (500, None, w)
      | (Ok removed, w) => (200, Some removed, w)
      end
  end.

Definition ClearDLQ (method : string) (w : W) : Z * W :=
  if negb (String.eqb method "DELETE") then (405, w)
  else match FailureQueue.DClear (E := AlertEvent) dir w with (Some _, w) => (500, w) | (None, w) => (200, w) end.

(** A retry takes the event out of the dead letter queue and gives it to a sender that
    drops it: whether it answers 200 or 500, the file is gone and nothing is sent. *)
Theorem dlq_retry_loses_item `{!FileSystemLaws W} order id item ws (w : W)
    (Hg : FailureQueue.DGet dir id w = Ok item) (Hrm : (Remove (FailureQueue.item_path dir id) w).1 ≠ Some ErrOther) :
  let '(status, ws', w') := RetryDLQItem order "POST" id ws w in
  (status = 200 ∨ status = 500) ∧ ws_core ws' = ws_core ws ∧
  files w' = delete (FailureQueue.item_path dir id) (files w) ∧ FailureQueue.DGet (E := AlertEvent) dir id w' ≠ Ok item.
Proof.
  unfold RetryDLQItem. cbn [String.eqb Ascii.eqb eqb negb].
  destruct (FailureQueue.Retry dir id w) as [r w'] eqn:Er. assert (r = Ok item) as ->.
  { revert Er. unfold FailureQueue.Retry, FailureQueue.removeUnlocked. rewrite Hg.
    destruct (Remove _ w) as [[[]|] w2] eqn:Erm; cbn in Hrm |- *; try congruence; by destruct Hrm. }
  destruct (FailureQueue.Retry_once dir id w item w' Er) as (_ & Hf & Hagain).
  assert (FailureQueue.DGet (E := AlertEvent) dir id w' ≠ Ok item) as Hgone.
  { intros Hg'. unfold FailureQueue.DGet in Hg'. pose proof (ReadFile_ok (FailureQueue.item_path dir id) w') as Hr.
    destruct (ReadFile _ w') as [d|[]]; try done. specialize (Hr d eq_refl). rewrite Hf, lookup_delete in Hr. by destruct (decide _). }
  unfold SendEvent, core_SendEvent. destruct (negb (sender_filter _ _ _)); [by eauto|].
  destruct (negb (co_started _)); [by eauto|]. by destruct (negb (core_shouldSendEvent _)); cbn; eauto.
Qed.

(** The age of what is purged counts back from now, up to 2562047 hours; from there
    to twice as much it overflows and the limit lies in the future: everything is purged. *)
Theorem purge_cutoff_bounds h now :
  (1 <= h <= 2562047 → purge_cutoff h now = now - h * hour) ∧
  (2562048 <= h <= 5124095 → now < purge_cutoff h now).
Proof. unfold purge_cutoff, time_add, wrap64, hour, minute, second, millisecond. split; intros Hh; Z.to_euclidean_division_equations; lia. Qed.
End dlq_handler.

(** ** The retry manager *)

Lemma take_drop (i n : nat) a b c : String.length a = i → String.length b = n → take_bytes n (drop_bytes i (a +:+ (b +:+ c))) = b.
Proof.
  intros <- <-. induction a as [|x a IH]; [|done]. cbn [String.length drop_bytes].
  change (EmptyString +:+ (b +:+ c)) with (b +:+ c). destruct (b +:+ c) eqn:E; rewrite <- E; apply take_bytes_exact.
Qed.

Lemma take_split n s : (n ≤ String.length s)%nat → ∃ c, s = take_bytes n s +:+ c.
Proof.
  revert n. induction s as [|x s IH]; intros n Hn; [exists EmptyString; by destruct n|].
  destruct n as [|n]; [by exists (String x s)|]. destruct (IH n) as [c Hc]; [cbn in Hn; lia|]. exists c. cbn [take_bytes].
  rewrite str_app_cons. by rewrite <- Hc.
Qed.

Lemma take_drop_split i n s : (i + n ≤ String.length s)%nat →
  ∃ a c, s = a +:+ (take_bytes n (drop_bytes i s) +:+ c).
Proof.
  revert i. induction s as [|x s IH]; intros i Hi; cbn [String.length] in Hi.
  - assert (i = 0 ∧ n = 0)%nat as [-> ->] by lia. by exists EmptyString, EmptyString.
  - destruct i as [|i].
    + destruct (take_split n (String x s)) as [c Hc]; [cbn; lia|]. by exists EmptyString, c.
    + destruct (IH i) as (a & c & Hs); [lia|]. exists (String x a), c. cbn [drop_bytes]. rewrite str_app_cons. by rewrite <- Hs.
Qed.

(** The search written by hand finds a pattern exactly when the standard library
    does. *)
Theorem contains_spec str substr : contains str substr = Contains str substr.
Proof.
  apply eq_true_iff_eq. rewrite Contains_spec. unfold contains, slice. rewrite !orb_true_iff, !andb_true_iff. split.
  - assert (∀ i n, (i + n ≤ String.length str)%nat → take_bytes n (drop_bytes i str) = substr → ∃ a b, str = a +:+ (substr +:+ b)) as H.
    { intros i n Hi <-. by apply take_drop_split. }
    intros [[[Hl He]|[Hl He]]|Hf].
    + apply String.eqb_eq in He. rewrite Nat.sub_0_r in He. apply (H 0%nat (String.length substr)); [apply Nat.leb_le in Hl; lia|done].
    + apply String.eqb_eq in He. apply Nat.ltb_lt in Hl. eapply H; [|exact He]. lia.
    + unfold findSubstring in Hf. destruct (Nat.eqb_spec (String.length substr) 0) as [E|E].
      { destruct substr; [|done]. by exists EmptyString, str. }
      destruct (Nat.ltb_spec (String.length str) (String.length substr)); [done|].
      apply existsb_exists in Hf as (i & Hi & He). apply in_seq in Hi. apply String.eqb_eq in He. unfold slice in He.
      eapply H; [|exact He]. lia.
  - intros (a & b & ->). right. unfold findSubstring. destruct (Nat.eqb_spec (String.length substr) 0); [done|].
    rewrite !str_length_app. destruct (Nat.ltb_spec (String.length a + (String.length substr + String.length b)) (String.length substr)); [lia|].
    apply existsb_exists. exists (String.length a). split; [apply in_seq; lia|]. apply String.eqb_eq. unfold slice. by apply take_drop; [|lia].
Qed.

Lemma PopReady_spec now items :
  match PopReady now items with
  | (Some x, rest) => ∃ l r, items = l ++ x :: r ∧ rest = l ++ r ∧ due now x = true ∧ Forall (λ y, due now y = false) l
  | (None, rest) => rest = items ∧ Forall (λ y, due now y = false) items
  end.
Proof.
  induction items as [|y items IH]; cbn [PopReady]; [done|]. destruct (due now y) eqn:Ed; [by exists [], items|].
  destruct (PopReady now items) as [[x|] rest].
  - destruct IH as (l & r & -> & -> & Hx & Hl). exists (y :: l), r. by repeat (split || constructor).
  - destruct IH as [-> Hl]. by split; [|constructor].
Qed.

Lemma due_later now now' x : now <= now' → due now x = true → due now' x = true.
Proof. unfold due, time_after. rewrite !orb_true_iff, !Z.ltb_lt, !Z.eqb_eq. lia. Qed.

Lemma drain_spec now fuel k items : (∀ i j, (i <= j)%nat → now i <= now j) → (length items < fuel)%nat →
  sublist (drain now fuel k items) items ∧ Forall (λ x, due (now k) x = false) (drain now fuel k items).
Proof.
  intros Hm. revert k items. induction fuel as [|fuel IH]; intros k items Hf; [lia|]. cbn [drain].
  pose proof (PopReady_spec (now k) items) as Hp. destruct (PopReady (now k) items) as [[x|] rest].
  - destruct Hp as (l & r & -> & -> & _ & _). destruct (IH (S k) (l ++ r)) as [Hs Hd].
    { rewrite length_app in *. cbn in Hf. lia. }
    split.
    + etrans; [exact Hs|]. apply sublist_app; [done|]. by apply sublist_cons.
    + eapply list.Forall_impl; [exact Hd|]. intros y Hy. apply not_true_is_false. intros Hd'.
      apply (due_later _ (now (S k))) in Hd'; [congruence|]. apply Hm. lia.
  - destruct Hp as [-> Hp]. by split.
Qed.

(** When the manager is woken, every retry that is due leaves the queue, whatever the
    clock does meanwhile, and nothing is done with it: the items that stay are among the
    old ones and are not due. *)
Theorem due_retries_vanish by_notification now rm
    (Hm : ∀ i j, (i <= j)%nat → now i <= now j) :
  let items := rq_items (rm_queue (wake by_notification now rm)) in
  sublist items (rq_items (rm_queue rm)) ∧ ∀ x, x ∈ items → now 0%nat < it_NextRetry x.
Proof.
  cbn zeta. unfold wake, processReadyRetries.
  assert (rq_items (rm_queue (if by_notification then mkRetryManager (rm_policy rm) (mkQueue (rq_items (rm_queue rm)) false) (rm_stopped rm) else rm))
    = rq_items (rm_queue rm)) as -> by (by destruct by_notification).
  cbn [rm_queue rq_items]. destruct (drain_spec now (S (length (rq_items (rm_queue rm)))) 0 (rq_items (rm_queue rm)) Hm) as [Hs Hd]; [lia|].
  split; [done|]. intros x Hx. rewrite list.Forall_forall in Hd. specialize (Hd x Hx). unfold due, time_after in Hd.
  apply orb_false_iff in Hd as [H1 H2]. apply Z.ltb_ge in H1. apply Z.eqb_neq in H2. lia.
Qed.

(** An item is scheduled with at most the greatest number of attempts, and its delay,
    from the second attempt on, is at most the greatest one. *)
Theorem ScheduleRetry_bounds now created event endpoint attempt e rm (Ha : 0 < attempt)
    (Hq : ∀ x, x ∈ rq_items (rm_queue rm) → it_Attempt x <= rp_MaxAttempts (rm_policy rm)) :
  let '(ok, rm') := ScheduleRetry now created event endpoint attempt e rm in
  (∀ x, x ∈ rq_items (rm_queue rm') → it_Attempt x <= rp_MaxAttempts (rm_policy rm)) ∧
  (ok = true → ∃ x, rq_items (rm_queue rm') = rq_items (rm_queue rm) ++ [x] ∧ it_NextRetry x <= now + rp_MaxDelay (rm_policy rm)).
Proof.
  unfold ScheduleRetry. destruct (Z.leb_spec (rp_MaxAttempts (rm_policy rm)) attempt) as [|Hlt]; [done|]. cbn [rm_queue Push rq_items]. split.
  - intros x [Hx|Hx%list_elem_of_singleton]%elem_of_app; [by apply Hq|]. subst x. cbn. lia.
  - intros _. eexists. split; [done|]. cbn. unfold CalculateBackoffDelay, time_add.
    destruct (Z.leb_spec attempt 0); [lia|]. lia.
Qed.

(** ** The workers *)

Section worker_facts.
Context {W : Type} `{!FileSystem W} `{!Codec (FailureQueue.DeadLetterItem AlertEvent)}.
Context (error_text : webhook_error → string) (rc : RetryConfig) (dlq : dead_letters).

Definition wanted (event : AlertEvent) (endpoint : WebhookEndpointConfig) : bool := ep_Enabled endpoint && MatchesEndpointFilter event endpoint.

(** How many endpoints want an event. *)
Definition wanting (event : AlertEvent) (endpoints : list WebhookEndpointConfig) : Z := Z.of_nat (length (List.filter (wanted event) endpoints)).

Lemma sendToEndpoint_started event endpoint ws (w : W) : co_started (ws_core ws) = true → ev_ID event ≠ EmptyString →
  sendToEndpoint event endpoint ws w =
    (None, with_core (with_metrics (co_TotalSent (ws_core ws) + Z.of_nat (length (wh_Endpoints (co_config (ws_core ws))))) (co_TotalFailed (ws_core ws))
      (ws_core ws)) ws, w).
Proof.
  intros Hs Hid. unfold sendToEndpoint, core_SendEventSync. rewrite Hs. cbn [negb].
  assert (core_shouldSendEvent event = true) as -> by (unfold core_shouldSendEvent; by rewrite (proj2 (String.eqb_neq _ _) Hid)).
  cbn [negb]. by rewrite core_send_all_spec.
Qed.

Lemma process_endpoints_started now i event endpoints ws rq (w : W) :
  co_started (ws_core ws) = true → ev_ID event ≠ EmptyString →
  process_endpoints now i event endpoints ws rq w =
    (with_core (with_metrics (co_TotalSent (ws_core ws) + wanting event endpoints * Z.of_nat (length (wh_Endpoints (co_config (ws_core ws)))))
      (co_TotalFailed (ws_core ws)) (ws_core ws)) ws, rq, w).
Proof.
  intros Hs Hid. revert i ws Hs. induction endpoints as [|ep endpoints IH]; intros i ws Hs; cbn [process_endpoints].
  - unfold wanting. cbn. rewrite Z.add_0_r. by destruct ws as [[]].
  - unfold wanting. cbn [List.filter]. unfold wanted at 1. destruct (ep_Enabled ep); cbn [negb andb]; [|by apply IH].
    destruct (MatchesEndpointFilter event ep); cbn [negb]; [|by apply IH].
    rewrite sendToEndpoint_started by done. rewrite IH by done. unfold wanting. cbn [length]. destruct ws as [core ? ? ? ?].
    
    assert (∀ t k n, t + n + Z.of_nat k * n = t + Z.of_nat (S k) * n) as E by (intros; lia).
    unfold with_core, with_metrics. cbn -[Z.add Z.mul Z.of_nat].
    by rewrite E.
Qed.

(** A worker hands an event to the core once for each endpoint that wants it, and the
    core counts a delivery for every endpoint there is: with n endpoints, all enabled, it
    counts n times n, and no request is made and no retry scheduled. *)
Theorem worker_sends_square now event ws rq (w : W) (Hs : co_started (ws_core ws) = true) (Hid : ev_ID event ≠ EmptyString) :
  let endpoints := wh_Endpoints (co_config (ws_core ws)) in
  processEvent now event ws rq w =
    (with_core (with_metrics (co_TotalSent (ws_core ws) + wanting event endpoints * Z.of_nat (length endpoints)) (co_TotalFailed (ws_core ws))
      (ws_core ws)) ws, rq, w).
Proof. by apply process_endpoints_started. Qed.

(** ** Rounds of retries *)

(** What is left to an item: the sends up to its last attempt and the round that gives
    it up. *)
Definition left_of (item : RetryItem) : Z := Z.max 1 (rc_MaxAttempts rc - it_Attempt item + 1).
Definition potential (items : list RetryItem) : Z := foldr (λ x n, left_of x + n) 0 items.

(** The items that a round at [now] deals with. *)
Definition dealt (now : instant) (items : list RetryItem) : Z :=
  Z.of_nat (length (List.filter (λ x, negb (time_before now (it_NextRetry x))) items)).

Lemma potential_some x : potential (option_list (Some x)) = left_of x.
Proof. unfold potential. cbn. apply Z.add_0_r. Qed.

Lemma left_of_pos x : 1 <= left_of x.
Proof. apply Z.le_max_l. Qed.

Lemma kept_left now attempted unix_nano filled item ws (w : W) o ws' w' :
  retry_one error_text rc dlq now attempted unix_nano filled item ws w = (o, ws', w') →
  potential (option_list (kept rc now item o)) + (if time_before now (it_NextRetry item) then 0 else 1) <= left_of item.
Proof.
  pose proof (left_of_pos item) as Hpos. unfold retry_one. destruct (time_before now (it_NextRetry item)) eqn:Et.
  - intros [= <- _ _]. cbn [kept]. rewrite potential_some. lia.
  - destruct (Z.leb_spec (rc_MaxAttempts rc) (it_Attempt item)) as [|Hlt]; [by intros [= <- _ _]|].
    destruct (List.find _ _) as [ep|]; [|by intros [= <- _ _]].
    destruct (sendToEndpoint (it_Event item) ep ws w) as [[[e|] ws1] w1]; intros [= <- _ _]; [|done].
    cbn [kept]. rewrite potential_some. unfold left_of. cbn [it_Attempt]. lia.
Qed.

Lemma potential_app a b : potential (a ++ b) = potential a + potential b.
Proof. unfold potential. induction a as [|x a IH]; cbn [app foldr]; lia. Qed.

Lemma retry_items_potential now clocks i items ws (w : W) :
  potential (retry_items error_text rc dlq now clocks i items ws w).1.1 + dealt now items <= potential items.
Proof.
  revert i ws w. induction items as [|x items IH]; intros i ws w; cbn [retry_items]; [done|].
  destruct (retry_one _ _ _ _ _ _ _ x ws w) as [[o ws1] w1] eqn:Eo. specialize (IH (S i) ws1 w1).
  destruct (retry_items _ _ _ _ _ (S i) items ws1 w1) as [[rest ws2] w2]. cbn [fst] in *. rewrite potential_app.
  apply kept_left in Eo. change (potential (x :: items)) with (left_of x + potential items). unfold dealt in *. cbn [List.filter].
  revert Eo. destruct (time_before now (it_NextRetry x)); cbn [negb length]; lia.
Qed.

(** Rounds of retries, each with its clocks. *)
Fixpoint rounds (times : list (instant * (nat → instant * Z * instant))) (rq : RetryQueue) (ws : WebhookSender) (w : W)
    : Z * RetryQueue * WebhookSender * W :=
  match times with
  | [] => (0, rq, ws, w)
  | (now, clocks) :: times =>
      let n := dealt now (rq_items rq) in
      let '(rq, ws, w) := processRetries error_text rc dlq now clocks rq ws w in
      let '(m, rq, ws, w) := rounds times rq ws w in (n + m, rq, ws, w)
  end.

(** However the sends end, a queue of retries is dealt with in a bounded number of
    steps: each item is sent at most up to its last attempt and then given up, so that the
    number of sends and of items given up in any run of rounds is at most what was left to
    the items at the start. *)
Theorem retries_end times rq ws (w : W) :
  let '(n, rq', _, _) := rounds times rq ws w in n + potential (rq_items rq') <= potential (rq_items rq).
Proof.
  revert rq ws w. induction times as [|[now clocks] times IH]; intros rq ws w; cbn [rounds]; [lia|].
  pose proof (retry_items_potential now clocks 0 (rq_items rq) ws w) as Hr. unfold processRetries.
  destruct (retry_items _ _ _ now clocks 0 (rq_items rq) ws w) as [[items ws1] w1]. cbn [fst] in Hr.
  specialize (IH (mkQueue items (rq_notified rq)) ws1 w1). destruct (rounds times _ ws1 w1) as [[[m rq'] ws2] w2].
  cbn [rq_items] in IH. lia.
Qed.

(** An item whose endpoint is no longer configured is dropped in the round that it is
    due, without going to the dead letter queue. *)
Theorem missing_endpoint_dropped now clocks item ws (w : W) notified
    (Hdue : it_NextRetry item <= now) (Hleft : it_Attempt item < rc_MaxAttempts rc)
    (Hgone : ∀ ep, ep ∈ wh_Endpoints (co_config (ws_core ws)) → ep_Name ep ≠ it_Endpoint item) :
  processRetries error_text rc dlq now clocks (mkQueue [item] notified) ws w = (mkQueue [] notified, ws, w).
Proof.
  unfold processRetries. cbn [rq_items retry_items]. unfold retry_one, time_before.
  rewrite (proj2 (Z.ltb_ge _ _)) by done. rewrite (proj2 (Z.leb_gt _ _)) by done.
  assert (List.find (λ ep, String.eqb (ep_Name ep) (it_Endpoint item)) (wh_Endpoints (co_config (ws_core ws))) = None) as ->.
  { revert Hgone. generalize (wh_Endpoints (co_config (ws_core ws))) as l. intros l. induction l as [|ep l IH]; intros Hg; [done|]. cbn.
    rewrite (proj2 (String.eqb_neq _ _)) by (apply Hg; by left). apply IH. intros ep' Hin. apply Hg. by right. }
  done.
Qed.
End worker_facts.

(** ** Witnesses *)

Definition outage : AlertEvent := mkEvent "e1" "ERROR" "proxy.down" "down" "the proxy is down" "proxy" 1 EmptyString None.
Definition dead_outage : FailureQueue.DeadLetterItem AlertEvent := FailureQueue.mkDead "d1" outage "a" 3 5 1 "timeout" ∅.

(** Nothing can be written, and the text [item] is read as the one item. *)
#[local] Instance one_item : Codec (FailureQueue.DeadLetterItem AlertEvent).
Proof.
  refine {| json_marshal _ := None; json_unmarshal d := if String.eqb d "item" then Some dead_outage else None; json_safe _ := True |}.
  done.
Defined.

Definition dlq_disk : MemFS := mkMem {["/dlq/d1.json"%string := "item"%string]} {["/dlq"%string]} [].

Lemma dlq_retry_loses_item_witness :
  let '(status, ws', w') := RetryDLQItem "/dlq" [] "POST" "d1" started_sender dlq_disk in
  (status = 200 ∨ status = 500) ∧ ws_core ws' = ws_core started_sender ∧
  files w' = delete (FailureQueue.item_path "/dlq" "d1") (files dlq_disk) ∧ FailureQueue.DGet (E := AlertEvent) "/dlq" "d1" w' ≠ Ok dead_outage.
Proof.
  apply (dlq_retry_loses_item "/dlq" [] "d1" dead_outage started_sender dlq_disk); [by vm_compute|by vm_compute].
Defined.

Definition scheduled : RetryManager :=
  (ScheduleRetry 200 200 outage "a" 1 SendFailed (ScheduleRetry 0 0 outage "b" 0 SendFailed (NewManager DefaultPolicy)).2).2.

Lemma due_retries_vanish_witness :
  let items := rq_items (rm_queue (wake true (λ k, second + Z.of_nat k) scheduled)) in
  sublist items (rq_items (rm_queue scheduled)) ∧ ∀ x, x ∈ items → second < it_NextRetry x.
Proof. apply (due_retries_vanish true (λ k, second + Z.of_nat k) scheduled). intros i j Hij. lia. Defined.

Lemma ScheduleRetry_bounds_witness :
  let '(ok, rm') := ScheduleRetry 7 7 outage "a" 1 SendFailed (NewManager DefaultPolicy) in
  (∀ x, x ∈ rq_items (rm_queue rm') → it_Attempt x <= 3) ∧
  (ok = true → ∃ x, rq_items (rm_queue rm') = [] ++ [x] ∧ it_NextRetry x <= 7 + minute).
Proof.
  apply (ScheduleRetry_bounds 7 7 outage "a" 1 SendFailed (NewManager DefaultPolicy)); [lia|]. intros x Hx. by apply not_elem_of_nil in Hx.
Defined.

Definition enabled_hook (name : string) : WebhookEndpointConfig := mkEndpoint name ("https://" +:+ name) true "POST" ∅ [] "json" no_credentials EmptyString.
Definition enabled_sender : WebhookSender :=
  (Start (NewWebhookSender (mkConfig [enabled_hook "a"; enabled_hook "b"] (mkEventFilter false "INFO" ∅)))).2.

Lemma worker_sends_square_witness :
  co_TotalSent (ws_core (processEvent (W := MemFS) (λ _, (1, 1)) outage enabled_sender (mkQueue [] false) dlq_disk).1.1) = 4.
Proof.
  rewrite (worker_sends_square (λ _, (1, 1)) outage enabled_sender (mkQueue [] false) dlq_disk); [by vm_compute|done|done].
Defined.

Definition orphan : RetryItem := mkItem outage "gone" 1 5 SendFailed 1.

Lemma missing_endpoint_dropped_witness :
  processRetries (λ _, EmptyString) (mkRetryConfig 3 (λ n, second * 2 ^ n)) (Some ("/dlq"%string, 10)) 9 (λ _, (9, 9, 9)) (mkQueue [orphan] false)
    started_sender dlq_disk = (mkQueue [] false, started_sender, dlq_disk).
Proof.
  apply (missing_endpoint_dropped (λ _, EmptyString) (mkRetryConfig 3 (λ n, second * 2 ^ n)) (Some ("/dlq"%string, 10)) 9 (λ _, (9, 9, 9)) orphan
    started_sender dlq_disk false); [by vm_compute|by vm_compute|].
  intros ep Hep. cbn in Hep. rewrite !elem_of_cons in Hep. by destruct Hep as [-> |[-> |Hep%not_elem_of_nil]].
Defined.
