(* ===== verification/WebhookBatch.v ===== *)
(** * WebhookBatch: events sent in batches

    Models [src/internal/webhook/batch_manager.go] over the sender and the adapters of
    [Webhook].  The manager's goroutines (the worker that flushes, the ticker, the
    sends of single events, a stop) run concurrently with the callers: the step
    relation interleaves the parts between which the lock is free.  The headers of an
    endpoint are a map that endpoints, groups and the configuration share, so that they
    are kept in a store by address.  The JSON of a batch, whether it can be made and
    compressed, and the interval as [time.ParseDuration] reads it are parameters; log
    lines are left out. *)

From Stdlib Require Import Ascii.
From S2P Require Import Prelude GoStrings Alerts Webhook.

Definition CompressionFormatGzip : string := "gzip".

(** [bc_MaxWaitTime]: what the text of the duration means, if it does. *)
Record WebhookBatchingConfig := mkBatching {
  bc_Enabled : bool;
  bc_MaxSize : Z;
  bc_MaxWaitTime : option Prelude.duration;
  bc_GroupBy : string;
  bc_CompressionFormat : string;
  bc_RetryFailedBatch : bool
}.

(** What the manager uses of an endpoint; [be_Headers] is an address, or nil. *)
Record BatchEndpoint := mkBatchEndpoint { be_Name : string; be_URL : string; be_Format : string; be_Headers : option positive }.

Record BatchGroup := mkGroup {
  bg_Key : string;
  bg_Events : list AlertEvent;
  bg_Endpoint : BatchEndpoint;
  bg_CreatedAt : instant;
  bg_UpdatedAt : instant
}.

(** The groups, and the keys in the channel, which holds a hundred. *)
Record BatchManager := mkBatchManager { bm_groups : gmap string BatchGroup; bm_flushCh : list string; bm_stopped : bool }.

Definition NewBatchManager : BatchManager := mkBatchManager ∅ [] false.

Definition with_groups (g : gmap string BatchGroup) (bm : BatchManager) : BatchManager := mkBatchManager g (bm_flushCh bm) (bm_stopped bm).

(** A send that does not block: the key is dropped when the channel is full. *)
Definition offer (groupKey : string) (bm : BatchManager) : BatchManager :=
  if (length (bm_flushCh bm) <? 100)%nat then mkBatchManager (bm_groups bm) (bm_flushCh bm ++ [groupKey]) (bm_stopped bm) else bm.

Section batch.
Context (config : WebhookBatchingConfig).

Definition generateGroupKey (event : AlertEvent) (endpoint : BatchEndpoint) : string :=
  if String.eqb (bc_GroupBy config) "endpoint" then "endpoint:" +:+ be_Name endpoint
  else if String.eqb (bc_GroupBy config) "type" then "type:" +:+ ev_Type event
  else if String.eqb (bc_GroupBy config) "level" then "level:" +:+ ev_Level event
  else if String.eqb (bc_GroupBy config) "source" then "source:" +:+ ev_Source event
  else "endpoint:" +:+ be_Name endpoint.

Definition max_wait : Prelude.duration := default (5 * second) (bc_MaxWaitTime config).

(** [AddEvent] with batches switched on.  [now i] are the clock readings: two for a new
    group, one for the update, one for its age.  [None] is a panic: a new group is made
    with a negative capacity. *)
Definition add_to_group (now : nat → instant) (event : AlertEvent) (endpoint : BatchEndpoint) (bm : BatchManager) : option BatchManager :=
  let groupKey := generateGroupKey event endpoint in
  let group := match bm_groups bm !! groupKey with
               | Some group => Some group
               | None => if bc_MaxSize config <? 0 then None else Some (mkGroup groupKey [] endpoint (now 0%nat) (now 1%nat))
               end in
  group ← group;
  let group := mkGroup (bg_Key group) (bg_Events group ++ [event]) (bg_Endpoint group) (bg_CreatedAt group) (now 2%nat) in
  let bm := with_groups (<[groupKey := group]> (bm_groups bm)) bm in
  Some (if bc_MaxSize config <=? Z.of_nat (length (bg_Events group)) then offer groupKey bm
        else if max_wait <=? time_sub (now 3%nat) (bg_CreatedAt group) then offer groupKey bm
        else bm).

(** The first half of [flushGroup], under the lock: the group leaves the map. *)
Definition take_group (groupKey : string) (bm : BatchManager) : option BatchGroup * BatchManager :=
  match bm_groups bm !! groupKey with
  | None => (None, bm)
  | Some group =>
      match bg_Events group with
      | [] => (None, bm)
      | _ => (Some group, with_groups (delete groupKey (bm_groups bm)) bm)
      end
  end.

(** The keys of the groups that [flushExpiredGroups] finds. *)
Definition expired_keys (now : instant) (bm : BatchManager) : list string :=
  omap (λ kg, if max_wait <=? time_sub now (bg_CreatedAt kg.2) then Some kg.1 else None) (map_to_list (bm_groups bm)).

(** ** Sending *)

Context {W : Type} (marshal : payload → option string) (new_request : string → string → bool)
  (request : http_request → W → option Z * W).
(** The JSON of a batch can be made and compressed; its text in the metadata; [t.Unix()]. *)
Context (compresses : BatchGroup → bool) (batch_json : instant → BatchGroup → string) (unix : instant → Z).

Definition getAdapterType (format : string) : adapter :=
  if HasPrefix format "slack" then ASlack else if HasPrefix format "discord" then ADiscord else AGeneric.

Definition setBatchHeaders (headers : gmap string string) : gmap string string :=
  let headers := <["X-ProxyND-Batch-Format"%string := "webhook_events"%string]> (<["X-ProxyND-Batch"%string := "true"%string]> headers) in
  if String.eqb (bc_CompressionFormat config) CompressionFormatGzip then <["Content-Encoding"%string := "gzip"%string]> headers else headers.

Definition createBatchEvent (now : instant) (group : BatchGroup) : AlertEvent :=
  mkEvent ("batch_" +:+ (Itoa (unix now) +:+ ("_" +:+ bg_Key group))) AlertLevelInfo "webhook.batch"
    ("Webhook Batch (" +:+ (Itoa (Z.of_nat (length (bg_Events group))) +:+ " events)"))
    ("Batch containing " +:+ (Itoa (Z.of_nat (length (bg_Events group))) +:+ " events"))
    "webhook-batch-manager" now (batch_json now group) None.

(** The sender, the store of headers and the world. *)
Record outside := mkOutside { ou_sender : WebhookSender; ou_headers : gmap positive (gmap string string); ou_world : W }.

(** Writing the headers changes the map that the endpoint holds, when it holds one. *)
Definition store_headers (endpoint : BatchEndpoint) (hs : gmap positive (gmap string string)) : gmap positive (gmap string string) :=
  match be_Headers endpoint with
  | Some l => <[l := setBatchHeaders (default ∅ (hs !! l))]> hs
  | None => hs
  end.

Definition sendBatch (now : instant) (group : BatchGroup) (o : outside) : option webhook_error * outside :=
  if negb (compresses group) then (Some MarshalFailed, o)
  else
    let hs := store_headers (bg_Endpoint group) (ou_headers o) in
    let '(err, w) := adapter_Send marshal new_request request (getAdapterType (be_Format (bg_Endpoint group))) (be_URL (bg_Endpoint group))
      (createBatchEvent now group) (ou_world o) in
    (err, mkOutside (ou_sender o) hs w).

(** [orders i]: in which the sender's filter goes through its overrides. *)
Fixpoint retryBatch (orders : nat → list (string * string)) (i : nat) (events : list AlertEvent) (ws : WebhookSender) : WebhookSender :=
  match events with
  | [] => ws
  | event :: events => retryBatch orders (S i) events (SendEvent (orders i) event ws).2
  end.

(** The second half of [flushGroup]. *)
Definition send_group (orders : nat → list (string * string)) (now : instant) (group : BatchGroup) (o : outside) : outside :=
  let '(err, o) := sendBatch now group o in
  match err with
  | Some _ => if bc_RetryFailedBatch config then mkOutside (retryBatch orders 0 (bg_Events group) (ou_sender o)) (ou_headers o) (ou_world o) else o
  | None => o
  end.

Definition flushGroup (orders : nat → list (string * string)) (now : instant) (groupKey : string) (bm : BatchManager) (o : outside)
    : BatchManager * outside :=
  match take_group groupKey bm with
  | (None, bm) => (bm, o)
  | (Some group, bm) => (bm, send_group orders now group o)
  end.

Definition sendSingleEvent (event : AlertEvent) (endpoint : BatchEndpoint) (o : outside) : outside :=
  mkOutside (ou_sender o) (ou_headers o)
    (adapter_Send marshal new_request request (getAdapterType (be_Format endpoint)) (be_URL endpoint) event (ou_world o)).2.

(** [flushAll]: the keys are those of the groups at its start. *)
Definition flushAll (orders : nat → list (string * string)) (now : instant) (bm : BatchManager) (o : outside) : BatchManager * outside :=
  foldl (λ st key, flushGroup orders now key st.1 st.2) (bm, o) (map_to_list (bm_groups bm)).*1.

(** [Stop]; [None]: the channel is closed twice, a panic. *)
Definition StopBatches (orders : nat → list (string * string)) (now : instant) (bm : BatchManager) (o : outside) : option (BatchManager * outside) :=
  if bm_stopped bm then None else Some (flushAll orders now (mkBatchManager (bm_groups bm) (bm_flushCh bm) true) o).

(** ** The goroutines *)

(** [y_singles] and [y_taken] are sends under way; [y_keys] are keys that the ticker or a
    stop has yet to deal with.  [y_added] and [y_handed] record what came in and what has
    been handed to an adapter. *)
Record system := mkSystem {
  y_bm : BatchManager;
  y_singles : list (AlertEvent * BatchEndpoint);
  y_taken : list BatchGroup;
  y_keys : list string;
  y_stopping : list string;
  y_outside : outside;
  y_added : list AlertEvent;
  y_handed : list (list AlertEvent)
}.

Definition start (o : outside) : system := mkSystem NewBatchManager [] [] [] [] o [] [].

Inductive step : system → system → Prop :=
| step_add bm ss ts ks qs o ad hd now event endpoint bm' :
    bc_Enabled config = true → add_to_group now event endpoint bm = Some bm' →
    step (mkSystem bm ss ts ks qs o ad hd) (mkSystem bm' ss ts ks qs o (ad ++ [event]) hd)
| step_single bm ss ts ks qs o ad hd event endpoint :
    bc_Enabled config = false →
    step (mkSystem bm ss ts ks qs o ad hd) (mkSystem bm (ss ++ [(event, endpoint)]) ts ks qs o (ad ++ [event]) hd)
| step_single_send bm ss1 event endpoint ss2 ts ks qs o ad hd :
    step (mkSystem bm (ss1 ++ (event, endpoint) :: ss2) ts ks qs o ad hd)
         (mkSystem bm (ss1 ++ ss2) ts ks qs (sendSingleEvent event endpoint o) ad (hd ++ [[event]]))
| step_worker groups k ch stopped ss ts ks qs o ad hd g bm' :
    take_group k (mkBatchManager groups ch stopped) = (g, bm') →
    step (mkSystem (mkBatchManager groups (k :: ch) stopped) ss ts ks qs o ad hd) (mkSystem bm' ss (ts ++ option_list g) ks qs o ad hd)
| step_send bm ss ts1 g ts2 ks qs o ad hd orders now :
    step (mkSystem bm ss (ts1 ++ g :: ts2) ks qs o ad hd)
         (mkSystem bm ss (ts1 ++ ts2) ks qs (send_group orders now g o) ad (hd ++ [bg_Events g]))
| step_tick bm ss ts ks qs o ad hd now :
    step (mkSystem bm ss ts ks qs o ad hd) (mkSystem bm ss ts (ks ++ expired_keys now bm) qs o ad hd)
| step_offer bm ss ts k ks qs o ad hd :
    step (mkSystem bm ss ts (k :: ks) qs o ad hd) (mkSystem (offer k bm) ss ts ks qs o ad hd)
| step_stop groups ch ss ts ks qs o ad hd :
    step (mkSystem (mkBatchManager groups ch false) ss ts ks qs o ad hd)
         (mkSystem (mkBatchManager groups ch true) ss ts ks (qs ++ (map_to_list groups).*1) o ad hd)
| step_stop_take bm ss ts ks k qs o ad hd g bm' :
    take_group k bm = (g, bm') →
    step (mkSystem bm ss ts ks (k :: qs) o ad hd) (mkSystem bm' ss (ts ++ option_list g) ks qs o ad hd).

Definition reachable (o : outside) (y : system) : Prop := rtc step (start o) y.

(** ** No event is lost on the way *)

Definition group_events (groups : gmap string BatchGroup) : list AlertEvent := map_to_list groups ≫= λ kg, bg_Events kg.2.

(** Where the events are: in a group, in a send under way, or handed to an adapter. *)
Definition whereabouts (y : system) : list AlertEvent :=
  group_events (bm_groups (y_bm y)) ++ (y_singles y).*1 ++ (y_taken y ≫= bg_Events) ++ concat (y_handed y).

Lemma group_events_insert groups k g : groups !! k = None → group_events (<[k := g]> groups) ≡ₚ bg_Events g ++ group_events groups.
Proof. intros Hk. unfold group_events. by rewrite map_to_list_insert by done. Qed.

Lemma group_events_delete groups k g : groups !! k = Some g → group_events groups ≡ₚ bg_Events g ++ group_events (delete k groups).
Proof. intros Hk. rewrite <- group_events_insert by apply lookup_delete_eq. by rewrite insert_delete_id. Qed.

Lemma offer_groups k bm : bm_groups (offer k bm) = bm_groups bm.
Proof. unfold offer. by destruct (_ <? _)%nat. Qed.

Lemma add_to_group_events now event endpoint bm bm' :
  add_to_group now event endpoint bm = Some bm' → group_events (bm_groups bm') ≡ₚ event :: group_events (bm_groups bm).
Proof.
  unfold add_to_group. set (k := generateGroupKey event endpoint).
  destruct (match bm_groups bm !! k with Some group => Some group | None => _ end) as [g|] eqn:Eg; [|done]. cbn. intros [= <-].
  assert (∀ bm1 (b1 b2 : bool), bm_groups (if b1 then offer k bm1 else if b2 then offer k bm1 else bm1) = bm_groups bm1) as ->
    by (by intros ? [] []; rewrite ?offer_groups).
  cbn [with_groups bm_groups]. destruct (bm_groups bm !! k) as [g0|] eqn:Ek.
  - simplify_eq. rewrite <- insert_delete_eq. rewrite group_events_insert by apply lookup_delete_eq. cbn [bg_Events].
    rewrite (group_events_delete _ _ _ Ek), <- app_assoc. cbn. symmetry. apply Permutation_middle.
  - destruct (bc_MaxSize config <? 0); simplify_eq. by rewrite group_events_insert by done.
Qed.

Lemma take_group_events k bm g bm' :
  take_group k bm = (g, bm') → group_events (bm_groups bm) ≡ₚ (option_list g ≫= bg_Events) ++ group_events (bm_groups bm').
Proof.
  unfold take_group. destruct (bm_groups bm !! k) as [g0|] eqn:Ek; [|by intros [= <- <-]].
  destruct (bg_Events g0) eqn:Eg; intros [= <- <-]; [done|]. cbn [with_groups bm_groups option_list].
  rewrite (group_events_delete _ _ _ Ek). cbn. by rewrite app_nil_r, Eg.
Qed.


(** ** Whose events a group holds *)

Definition by_endpoint : bool := negb (existsb (String.eqb (bc_GroupBy config)) ["type"; "level"; "source"]%string).

(** The groups are under their keys, none is empty, and the channel is bounded. *)
Definition groups_ok (bm : BatchManager) : Prop :=
  (∀ k g, bm_groups bm !! k = Some g → bg_Key g = k ∧ bg_Events g ≠ [] ∧
     (by_endpoint = true → k = "endpoint:" +:+ be_Name (bg_Endpoint g))) ∧
  (length (bm_flushCh bm) ≤ 100)%nat.

Lemma key_by_endpoint event endpoint : by_endpoint = true → generateGroupKey event endpoint = "endpoint:" +:+ be_Name endpoint.
Proof.
  unfold by_endpoint, generateGroupKey. cbn [existsb]. destruct (String.eqb (bc_GroupBy config) "endpoint"); [done|].
  destruct (String.eqb (bc_GroupBy config) "type"); [done|]. destruct (String.eqb (bc_GroupBy config) "level"); [done|].
  by destruct (String.eqb (bc_GroupBy config) "source").
Qed.

Lemma offer_ok k bm : groups_ok bm → groups_ok (offer k bm).
Proof.
  intros [Hg Hc]. unfold offer. destruct (Nat.ltb_spec (length (bm_flushCh bm)) 100) as [Hlt|]; [|done].
  split; [done|]. cbn. rewrite length_app. cbn. lia.
Qed.

Lemma add_to_group_spec now event endpoint bm bm' : groups_ok bm → add_to_group now event endpoint bm = Some bm' →
  groups_ok bm' ∧ ∃ g, bm_groups bm' !! generateGroupKey event endpoint = Some g ∧ event ∈ bg_Events g ∧
    (by_endpoint = true → be_Name (bg_Endpoint g) = be_Name endpoint).
Proof.
  intros Hok. unfold add_to_group. set (k := generateGroupKey event endpoint).
  destruct (match bm_groups bm !! k with Some group => Some group | None => _ end) as [g|] eqn:Eg; [|done]. cbn. intros [= <-].
  set (g' := mkGroup _ _ _ _ _).
  assert (bg_Key g = k ∧ (by_endpoint = true → k = "endpoint:" +:+ be_Name (bg_Endpoint g))) as [Hkey Hep].
  { destruct (bm_groups bm !! k) as [g0|] eqn:Ek.
    - simplify_eq. destruct (proj1 Hok k g Ek) as (H1 & _ & H2). done.
    - destruct (bc_MaxSize config <? 0); simplify_eq. split; [done|]. intros Hb. cbn. unfold k. by apply key_by_endpoint. }
  assert (groups_ok (with_groups (<[k := g']> (bm_groups bm)) bm)) as Hok'.
  { split; [|apply Hok]. intros k2 g2. cbn [with_groups bm_groups]. rewrite lookup_insert. destruct (decide (k = k2)) as [<-|].
    - intros [= <-]. cbn. split; [done|]. split; [by destruct (bg_Events g)|done].
    - apply (proj1 Hok). }
  split.
  - destruct (_ <=? _); [by apply offer_ok|]. destruct (_ <=? _); [by apply offer_ok|done].
  - exists g'. split.
    + assert (∀ bm1 (b1 b2 : bool), bm_groups (if b1 then offer k bm1 else if b2 then offer k bm1 else bm1) = bm_groups bm1) as ->
        by (by intros ? [] []; rewrite ?offer_groups).
      cbn [with_groups bm_groups]. apply lookup_insert_eq.
    + cbn. split; [apply elem_of_app; right; by left|]. intros Hb. specialize (Hep Hb). unfold k in Hep. rewrite key_by_endpoint in Hep by done.
      symmetry. by apply (inj (String.append "endpoint:")) in Hep.
Qed.

Lemma take_group_ok k bm g bm' : groups_ok bm → take_group k bm = (g, bm') → groups_ok bm'.
Proof.
  intros Hok. unfold take_group. destruct (bm_groups bm !! k) as [g0|]; [|by intros [= <- <-]].
  destruct (bg_Events g0); intros [= <- <-]; [done|]. split; [|apply Hok]. intros k2 g2. cbn.
  rewrite lookup_delete. destruct (decide (k = k2)); [done|apply (proj1 Hok)].
Qed.

Lemma reachable_groups_ok o y : reachable o y → groups_ok (y_bm y).
Proof.
  revert y. apply (rtc_ind_r (λ y, groups_ok (y_bm y))); [split; [done|cbn; lia]|]. intros y y' _ Hs IH.
  destruct Hs; cbn [y_bm] in *; try done.
  - by eapply add_to_group_spec.
  - eapply take_group_ok; [|done]. destruct IH as [H1 H2]. split; [done|]. cbn in *. lia.
  - by apply offer_ok.
  - by eapply take_group_ok.
Qed.

(** Grouped by endpoint, an event joins a group that goes to an endpoint of the name
    it was meant for. *)
Theorem event_joins_its_endpoint o y now event endpoint bm' (Hb : by_endpoint = true) (Hr : reachable o y)
    (Ha : add_to_group now event endpoint (y_bm y) = Some bm') :
  ∃ g, bm_groups bm' !! generateGroupKey event endpoint = Some g ∧ event ∈ bg_Events g ∧ be_Name (bg_Endpoint g) = be_Name endpoint.
Proof.
  apply reachable_groups_ok in Hr. destruct (add_to_group_spec _ _ _ _ _ Hr Ha) as (_ & g & Hg & He & Hn). exists g. by split; [|split; [|apply Hn]].
Qed.

(** Grouped by type, level or source, events for different endpoints share a group,
    which goes to the endpoint of the first: the others never get theirs. *)
Theorem other_groupings_misdeliver now1 now2 e1 e2 ep1 ep2
    (Hm : 0 <= bc_MaxSize config) (Hk : generateGroupKey e1 ep1 = generateGroupKey e2 ep2) :
  ∃ bm bm', add_to_group now1 e1 ep1 NewBatchManager = Some bm ∧ add_to_group now2 e2 ep2 bm = Some bm' ∧
    ∃ g bm'', take_group (generateGroupKey e2 ep2) bm' = (Some g, bm'') ∧ bg_Events g = [e1; e2] ∧ bg_Endpoint g = ep1.
Proof.
  assert (∀ (b1 b2 : bool) k bm1, bm_groups (if b1 then offer k bm1 else if b2 then offer k bm1 else bm1) = bm_groups bm1) as Hi
    by (by intros [] [] *; rewrite ?offer_groups).
  unfold add_to_group at 1. cbn [NewBatchManager bm_groups]. rewrite lookup_empty, (proj2 (Z.ltb_ge _ _)) by done. cbn [mbind option_bind].
  eexists _, _. split; [done|]. unfold add_to_group. rewrite Hi. cbn [with_groups bm_groups]. rewrite Hk, lookup_insert_eq. cbn [mbind option_bind].
  split; [done|]. unfold take_group. rewrite Hi. cbn [with_groups bm_groups]. rewrite lookup_insert_eq. cbn [bg_Events app].
  eexists _, _. split; [done|]. done.
Qed.

(** ** What reaches the endpoints *)

Lemma adapter_Send_world a url event (w : W) : (adapter_Send marshal new_request request a url event w).2 = w.
Proof. destruct a; [|done..]. cbn [adapter_Send]. by rewrite generic_send_never_delivers. Qed.

Lemma send_group_world orders now g o : ou_world (send_group orders now g o) = ou_world o.
Proof.
  unfold send_group, sendBatch. destruct (negb (compresses g)).
  - by destruct (bc_RetryFailedBatch config).
  - pose proof (adapter_Send_world (getAdapterType (be_Format (bg_Endpoint g))) (be_URL (bg_Endpoint g)) (createBatchEvent now g) (ou_world o)) as Hw.
    destruct (adapter_Send _ _ _ _ _ _ _) as [err w]. cbn [snd] in Hw. subst w. destruct err; [|done]. by destruct (bc_RetryFailedBatch config).
Qed.

(** Nothing that the batch manager does, in batches or one by one, at once or in
    retries, in any interleaving, ever sends a request: the world stays as it was. *)
Theorem batches_never_delivered o y (Hr : reachable o y) : ou_world (y_outside y) = ou_world o.
Proof.
  revert y Hr. apply (rtc_ind_r (λ y, ou_world (y_outside y) = ou_world o)); [done|]. intros y y' _ Hs IH.
  destruct Hs; cbn [y_outside] in *; try done; [|by rewrite send_group_world]. unfold sendSingleEvent. cbn [ou_world]. by rewrite adapter_Send_world.
Qed.

(** A batch writes its headers into the map that the configuration holds for the
    endpoint: once a batch went out with compression, single events for the endpoint are
    announced as compressed too, which they are not. *)
Theorem batch_headers_leak orders now g o l (Hz : bc_CompressionFormat config = CompressionFormatGzip)
    (Hl : be_Headers (bg_Endpoint g) = Some l) (Hc : compresses g = true) :
  ∃ h, ou_headers (send_group orders now g o) !! l = Some h ∧ h !! "Content-Encoding"%string = Some "gzip"%string.
Proof.
  exists (setBatchHeaders (default ∅ (ou_headers o !! l))). split.
  - assert (ou_headers (send_group orders now g o) = store_headers (bg_Endpoint g) (ou_headers o)) as ->.
    { unfold send_group, sendBatch. rewrite Hc. cbn [negb]. destruct (adapter_Send _ _ _ _ _ _ _) as [[e|] w]; [|done].
      by destruct (bc_RetryFailedBatch config). }
    unfold store_headers. rewrite Hl. apply lookup_insert_eq.
  - unfold setBatchHeaders. rewrite Hz. cbn. by rewrite lookup_insert, decide_True by done.
Qed.

(** ** Stopping *)

Lemma flushGroup_groups orders now k bm o : (∀ k g, bm_groups bm !! k = Some g → bg_Events g ≠ []) →
  bm_groups (flushGroup orders now k bm o).1 = delete k (bm_groups bm).
Proof.
  intros Hne. unfold flushGroup, take_group. destruct (bm_groups bm !! k) as [g|] eqn:Ek; [|cbn; by rewrite delete_id].
  destruct (bg_Events g) eqn:Eg; [by destruct (Hne _ _ Ek)|done].
Qed.

(** A stop leaves no event behind: every group there is when it starts is taken out
    and sent. *)
Theorem stop_flushes_all orders now o y bm' o' (Hr : reachable o y) (Hs : StopBatches orders now (y_bm y) (y_outside y) = Some (bm', o')) :
  bm_groups bm' = ∅.
Proof.
  assert (∀ k g, bm_groups (y_bm y) !! k = Some g → bg_Events g ≠ []) as Hne by (intros k g Hk; by apply (proj1 (reachable_groups_ok o y Hr) k g Hk)).
  clear Hr. unfold StopBatches in Hs. destruct (bm_stopped (y_bm y)); [done|]. injection Hs as Hs. revert Hs. unfold flushAll. cbn [bm_groups].
  assert (∀ keys bm o1, (∀ k g, bm_groups bm !! k = Some g → bg_Events g ≠ []) → (∀ k, is_Some (bm_groups bm !! k) → k ∈ keys) →
    bm_groups (foldl (λ st key, flushGroup orders now key st.1 st.2) (bm, o1) keys).1 = ∅) as Hf.
  { intros keys. induction keys as [|k keys IH]; intros bm o1 Hn Hin; cbn [foldl].
    - apply map_empty. intros k. apply eq_None_not_Some. intros Hk. by apply Hin, not_elem_of_nil in Hk.
    - destruct (flushGroup orders now k bm o1) as [bm2 o2] eqn:Ef. pose proof (flushGroup_groups orders now k bm o1 Hn) as Hg. rewrite Ef in Hg.
      cbn [fst] in Hg. cbn [fst snd]. rewrite Ef. apply IH; rewrite Hg; intros k2.
      + intros g. rewrite lookup_delete. destruct (decide (k = k2)); [done|apply Hn].
      + rewrite lookup_delete. destruct (decide (k = k2)) as [|Hne2]; [by intros [? ?]|]. intros Hk. apply Hin in Hk.
        apply elem_of_cons in Hk as [->|]; done. }
  intros Hs. specialize (Hf (map_to_list (bm_groups (y_bm y))).*1 (mkBatchManager (bm_groups (y_bm y)) (bm_flushCh (y_bm y)) true) (y_outside y) Hne).
  rewrite Hs in Hf. apply Hf. cbn [bm_groups]. intros k [g Hk]. apply list_elem_of_fmap. exists (k, g). split; [done|]. by apply elem_of_map_to_list.
Qed.
End batch.

(** ** Witnesses *)

Definition batching (groupBy : string) : WebhookBatchingConfig := mkBatching true 2 (Some minute) groupBy CompressionFormatGzip true.
Definition ops_hook : BatchEndpoint := mkBatchEndpoint "ops" "https://ops.example/hook" "json" (Some 1%positive).
Definition dev_hook : BatchEndpoint := mkBatchEndpoint "dev" "https://dev.example/hook" "slack" None.
Definition failure (id : string) : AlertEvent := mkEvent id "ERROR" "proxy.down" "down" "down" "proxy" 1 EmptyString None.

Definition some_json (p : payload) : option string := Some "{}"%string.
Definition no_request (q : http_request) (w : Z) : option Z * Z := (Some 200, w + 1).
Definition outside0 : @outside Z := mkOutside started_sender {[1%positive := ∅]} 0.

Definition one_added (groupBy : string) : BatchManager :=
  default NewBatchManager (add_to_group (batching groupBy) (λ _, 5) (failure "e1") ops_hook NewBatchManager).

Lemma one_added_reachable groupBy :
  reachable (batching groupBy) some_json (λ _ _, true) no_request (λ _, true) (λ _ _, EmptyString) (λ t, t) outside0
    (mkSystem (one_added groupBy) [] [] [] [] outside0 [failure "e1"] []).
Proof. apply rtc_once. apply (step_add (batching groupBy) _ _ _ _ _ _ NewBatchManager [] [] [] [] outside0 [] [] (λ _, 5) (failure "e1") ops_hook); done. Qed.


Lemma batches_never_delivered_witness :
  ou_world (y_outside (mkSystem (one_added "type") [] [] [] [] outside0 [failure "e1"] [])) = ou_world outside0.
Proof.
  apply (batches_never_delivered (batching "type") some_json (λ _ _, true) no_request (λ _, true) (λ _ _, EmptyString) (λ t, t) outside0
    (mkSystem (one_added "type") [] [] [] [] outside0 [failure "e1"] [])), one_added_reachable.
Defined.

Lemma event_joins_its_endpoint_witness :
  ∃ g, bm_groups (default NewBatchManager (add_to_group (batching "endpoint") (λ _, 6) (failure "e2") dev_hook (one_added "endpoint")))
      !! "endpoint:dev"%string = Some g ∧
    failure "e2" ∈ bg_Events g ∧ be_Name (bg_Endpoint g) = "dev"%string.
Proof.
  apply (event_joins_its_endpoint (batching "endpoint") some_json (λ _ _, true) no_request (λ _, true) (λ _ _, EmptyString) (λ t, t) outside0
    (mkSystem (one_added "endpoint") [] [] [] [] outside0 [failure "e1"] []) (λ _, 6) (failure "e2") dev_hook); [done|apply one_added_reachable|done].
Defined.

Lemma other_groupings_misdeliver_witness :
  ∃ bm bm', add_to_group (batching "type") (λ _, 5) (failure "e1") ops_hook NewBatchManager = Some bm ∧
    add_to_group (batching "type") (λ _, 6) (failure "e2") dev_hook bm = Some bm' ∧
    ∃ g bm'', take_group "type:proxy.down" bm' = (Some g, bm'') ∧ bg_Events g = [failure "e1"; failure "e2"] ∧ bg_Endpoint g = ops_hook.
Proof. by apply (other_groupings_misdeliver (batching "type") (λ _, 5) (λ _, 6) (failure "e1") (failure "e2") ops_hook dev_hook). Defined.

Lemma batch_headers_leak_witness :
  ∃ h, ou_headers (send_group (batching "type") some_json (λ _ _, true) no_request (λ _, true) (λ _ _, EmptyString) (λ t, t) (λ _, []) 9
      (mkGroup "type:proxy.down" [failure "e1"] ops_hook 5 5) outside0) !! 1%positive = Some h ∧
    h !! "Content-Encoding"%string = Some "gzip"%string.
Proof.
  by apply (batch_headers_leak (batching "type") some_json (λ _ _, true) no_request (λ _, true) (λ _ _, EmptyString) (λ t, t) (λ _, []) 9
    (mkGroup "type:proxy.down" [failure "e1"] ops_hook 5 5) outside0 1%positive).
Defined.

Lemma stop_flushes_all_witness :
  bm_groups (from_option fst NewBatchManager (StopBatches (batching "type") some_json (λ _ _, true) no_request (λ _, true) (λ _ _, EmptyString) (λ t, t)
    (λ _, []) 9 (one_added "type") outside0)) = ∅.
Proof.
  apply (stop_flushes_all (batching "type") some_json (λ _ _, true) no_request (λ _, true) (λ _ _, EmptyString) (λ t, t) (λ _, []) 9 outside0
    (mkSystem (one_added "type") [] [] [] [] outside0 [failure "e1"] []) _
    (snd (default (NewBatchManager, outside0) (StopBatches (batching "type") some_json (λ _ _, true) no_request (λ _, true) (λ _ _, EmptyString) (λ t, t)
      (λ _, []) 9 (one_added "type") outside0)))); [apply one_added_reachable|by vm_compute].
Defined.
