(* ===== verification/WebhookHistory.v ===== *)
(** * WebhookHistory: what was sent, by day

    Models [src/internal/webhook/history.go]: one file of JSON for each day, with a
    limit, the pages of the last thirty days, statistics over a range of time, and the
    removal of old files.  The disk and the JSON are the interfaces of [GoFS];
    [sort.Slice], which is not stable, is any function that sorts; a file that does not
    parse counts as empty; a time carries the
    offset of its zone, and the clock and the local zone are arguments.  Rates, which
    are floating-point quotients of the counts, are left out. *)

From Stdlib Require Import Ascii.
From stdpp Require Import sorting.
From S2P Require Import Prelude GoStrings GoTime GoPath GoFS.
From S2P Require FailureQueue.

Record WebhookHistoryItem := mkHistoryItem {
  hi_ID : string;
  hi_EndpointName : string;
  hi_URL : string;
  hi_EventID : string;
  hi_EventType : string;
  hi_Status : string;
  hi_Timestamp : instant;
  hi_Offset : Z;
  hi_ResponseTime : duration;
  hi_StatusCode : Z;
  hi_ErrorMessage : string;
  hi_RetryCount : Z;
  hi_Metadata : string
}.

Record EndpointStatistics := mkEndpointStats {
  es_TotalSent : Z;
  es_TotalSuccess : Z;
  es_TotalFailed : Z;
  es_AverageResponseTime : duration;
  es_LastSent : instant;
  es_LastSuccess : instant;
  es_LastFailure : instant
}.

Record WebhookStatistics := mkStatistics {
  st_TotalSent : Z;
  st_TotalSuccess : Z;
  st_TotalFailed : Z;
  st_TotalRetrying : Z;
  st_AverageResponseTime : duration;
  st_EndpointStats : gmap string EndpointStatistics
}.

Inductive history_error := EncodeFailed | StoreFailed (e : os_err).

Definition day : duration := 24 * hour.

Definition filename (date : string) : string := "webhook_history_" +:+ (date +:+ ".json").

Section history.
Context {S : Type} `{!FileSystem S} `{!Codec (list WebhookHistoryItem)}.
Context (sort_desc : list WebhookHistoryItem → list WebhookHistoryItem).
Context (storageDir : string) (maxHistories : Z) (retentionTTL : duration).

Definition history_path (date : string) : string := PathJoin storageDir (filename date).

(** The items of a file: none when it cannot be read or understood. *)
Definition load (path : string) (s : S) : list WebhookHistoryItem :=
  match ReadFile path s with Err _ => [] | Ok data => default [] (json_unmarshal data) end.

Definition with_item_id (unix_nano : Z) (item : WebhookHistoryItem) : WebhookHistoryItem :=
  if String.eqb (hi_ID item) EmptyString then
    mkHistoryItem ("history_" +:+ (Itoa unix_nano +:+ ("_" +:+ hi_EndpointName item))) (hi_EndpointName item) (hi_URL item) (hi_EventID item)
      (hi_EventType item) (hi_Status item) (hi_Timestamp item) (hi_Offset item) (hi_ResponseTime item) (hi_StatusCode item) (hi_ErrorMessage item)
      (hi_RetryCount item) (hi_Metadata item)
  else item.

Definition maxPerFile : nat := Z.to_nat (Z.max 100 (maxHistories ÷ 30)).

Definition limited (histories : list WebhookHistoryItem) : list WebhookHistoryItem :=
  if (maxPerFile <? length histories)%nat then take maxPerFile (sort_desc histories) else histories.

Definition AddHistory (unix_nano : Z) (item : WebhookHistoryItem) (s : S) : option history_error * S :=
  let item := with_item_id unix_nano item in
  let path := history_path (format_day (λ _, hi_Offset item) (hi_Timestamp item)) in
  match json_marshal (limited (load path s ++ [item])) with
  | None => (Some EncodeFailed, s)
  | Some data =>
      match WriteFile path data s with
      | (Some e, s) => (Some (StoreFailed e), s)
      | (None, s) => (None, s)
      end
  end.

(** The files of the last thirty days, today first; [now i] is the clock at the file [i]. *)
Definition recent (z : zone) (now : nat → instant) (s : S) : list WebhookHistoryItem :=
  seq 0 30 ≫= λ i, load (history_path (format_date (local_days z (now i) - Z.of_nat i))) s.

Definition of_endpoint (endpointName : string) (item : WebhookHistoryItem) : bool :=
  String.eqb endpointName EmptyString || String.eqb (hi_EndpointName item) endpointName.

(** [l[i:j]]; [None] is a panic. *)
Definition slice_of {A} (l : list A) (i j : Z) : option (list A) :=
  if (0 <=? i) && (i <=? j) && (j <=? Z.of_nat (length l)) then Some (take (Z.to_nat (j - i)) (drop (Z.to_nat i) l)) else None.

(** A page of the sorted items, and how many there are. *)
Definition page (sorted : list WebhookHistoryItem) (limit offset : Z) : option (list WebhookHistoryItem * Z) :=
  let total := Z.of_nat (length sorted) in
  if total <=? offset then Some ([], total)
  else
    let end_ := wrap64 (offset + limit) in
    let end_ := if total <? end_ then total else end_ in
    items ← slice_of sorted offset end_; Some (items, total).

Definition GetHistory (z : zone) (now : nat → instant) (endpointName : string) (limit offset : Z) (s : S) : option (list WebhookHistoryItem * Z) :=
  page (sort_desc (List.filter (of_endpoint endpointName) (recent z now s))) limit offset.

Definition GetRecentActivity (z : zone) (now : nat → instant) (limit : Z) (s : S) : option (list WebhookHistoryItem) :=
  fst <$> GetHistory z now EmptyString limit 0 s.

(** ** Statistics *)

(** [t.Truncate(24 * time.Hour)]. *)
Definition truncate_day (t : instant) : instant := t / day * day.

(** The days whose files are read, in the zone of the start. *)
Definition stat_dates (z : zone) (startTime endTime : instant) : list string :=
  (λ i, format_day z (truncate_day startTime + Z.of_nat i * day)) <$>
    seq 0 (Z.to_nat ((truncate_day endTime - truncate_day startTime) / day + 1)).

Definition in_range (startTime endTime t : instant) : bool :=
  (time_after t startTime || (t =? startTime)) && (time_before t endTime || (t =? endTime)).

Definition selected (z : zone) (endpointName : string) (startTime endTime : instant) (s : S) : list WebhookHistoryItem :=
  stat_dates z startTime endTime ≫= λ date,
    List.filter (λ item, in_range startTime endTime (hi_Timestamp item) && of_endpoint endpointName item) (load (history_path date) s).

Definition later (t u : instant) : instant := if time_after t u then t else u.

Definition fresh_endpoint : EndpointStatistics := mkEndpointStats 0 0 0 0 zero_time zero_time zero_time.

Definition count_endpoint (item : WebhookHistoryItem) (es : EndpointStatistics) : EndpointStatistics :=
  let t := hi_Timestamp item in
  let sent := es_TotalSent es + 1 in
  let success := String.eqb (hi_Status item) "success" in
  let failed := String.eqb (hi_Status item) "failed" in
  mkEndpointStats sent (if success then es_TotalSuccess es + 1 else es_TotalSuccess es)
    (if failed then es_TotalFailed es + 1 else es_TotalFailed es)
    (if 0 <? hi_ResponseTime item
     then wrap64 (wrap64 (es_AverageResponseTime es * (sent - 1)) + hi_ResponseTime item) ÷ sent
     else es_AverageResponseTime es)
    (later t (es_LastSent es))
    (if success then later t (es_LastSuccess es) else es_LastSuccess es)
    (if failed then later t (es_LastFailure es) else es_LastFailure es).

(** The statistics so far, the sum of the response times and how many there are. *)
Definition count_item (acc : WebhookStatistics * duration * Z) (item : WebhookHistoryItem) : WebhookStatistics * duration * Z :=
  let '(st, total, n) := acc in
  let has status := String.eqb (hi_Status item) status in
  let st := mkStatistics (st_TotalSent st + 1)
    (if has "success"%string then st_TotalSuccess st + 1 else st_TotalSuccess st)
    (if has "failed"%string then st_TotalFailed st + 1 else st_TotalFailed st)
    (if has "retrying"%string then st_TotalRetrying st + 1 else st_TotalRetrying st)
    (st_AverageResponseTime st)
    (partial_alter (λ es, Some (count_endpoint item (default fresh_endpoint es))) (hi_EndpointName item) (st_EndpointStats st)) in
  if 0 <? hi_ResponseTime item then (st, wrap64 (total + hi_ResponseTime item), n + 1) else (st, total, n).

Definition statistics_of (items : list WebhookHistoryItem) : WebhookStatistics :=
  let '(st, total, n) := foldl count_item (mkStatistics 0 0 0 0 0 ∅, 0, 0) items in
  if 0 <? n then mkStatistics (st_TotalSent st) (st_TotalSuccess st) (st_TotalFailed st) (st_TotalRetrying st) (total ÷ n) (st_EndpointStats st) else st.

(** [range]: the start with its zone and the end; otherwise the last day. *)
Definition GetStatistics (local : zone) (now : instant) (endpointName : string) (range : option (zone * instant * instant)) (s : S) : WebhookStatistics :=
  let '(z, startTime, endTime) := match range with Some r => r | None => (local, time_add now (-24 * hour), now) end in
  statistics_of (selected z endpointName startTime endTime s).

(** ** Cleaning up *)

(** [filepath.Glob]: the directory's name has none of the characters that it reads as a
    pattern. *)
Definition glob (s : S) : list string :=
  match ReadDir storageDir s with
  | Err _ => []
  | Ok entries => List.filter (λ n, HasPrefix n "webhook_history_" && HasSuffix n ".json" && (21 <=? String.length n)%nat) entries.*1
  end.

Definition older_than (cutoffDate name : string) : bool :=
  (30 <=? String.length name)%nat &&
    match String.compare (take_bytes 10 (drop_bytes 16 name)) cutoffDate with Lt => true | _ => false end.

Definition CleanupOldHistories (local : zone) (now : instant) (s : S) : S :=
  let cutoffDate := format_day local (time_add now (- retentionTTL)) in
  foldl (λ s name, (Remove (PathJoin storageDir name) s).2) s (List.filter (older_than cutoffDate) (glob s)).

(** ** Pages *)

Lemma slice_of_some {A} (l : list A) i j : 0 <= i <= j → j <= Z.of_nat (length l) →
  slice_of l i j = Some (take (Z.to_nat (j - i)) (drop (Z.to_nat i) l)).
Proof. clear sort_desc storageDir maxHistories retentionTTL. intros Hi Hj. unfold slice_of. by rewrite !(proj2 (Z.leb_le _ _)) by lia. Qed.

Lemma page_spec sorted limit offset : 0 <= offset → 0 <= limit → offset + limit <= max_int64 →
  page sorted limit offset = Some (take (Z.to_nat limit) (drop (Z.to_nat offset) sorted), Z.of_nat (length sorted)).
Proof. clear sort_desc storageDir maxHistories retentionTTL.
  intros Ho Hl Hm. unfold page. destruct (Z.leb_spec (Z.of_nat (length sorted)) offset).
  - rewrite drop_ge by lia. by rewrite take_nil.
  - rewrite wrap64_id by (unfold in_int64, min_int64; lia). destruct (Z.ltb_spec (Z.of_nat (length sorted)) (offset + limit)).
    + rewrite slice_of_some by lia. cbn. rewrite !take_ge; [done|rewrite length_drop; lia..].
    + rewrite slice_of_some by lia. cbn. by replace (offset + limit - offset) with limit by lia.
Qed.

Lemma take_drop_chunks {A} (n k : nat) (l : list A) : (seq 0 k ≫= λ i, take n (drop (i * n) l)) = take (k * n) l.
Proof. clear sort_desc storageDir maxHistories retentionTTL.
  induction k as [|k IH]; [done|]. rewrite seq_S, bind_app, IH. cbn. rewrite app_nil_r.
  rewrite take_take_drop. f_equal. lia.
Qed.

(** The pages of a history, one after the other, are the sorted history: nothing is
    missing and nothing is shown twice. *)
Theorem pages_partition sorted limit n (Hl : 0 < limit) (Hm : Z.of_nat n * limit <= max_int64)
    (Hn : Z.of_nat (length sorted) <= Z.of_nat n * limit) :
  (seq 0 n ≫= λ i, from_option fst [] (page sorted limit (Z.of_nat i * limit))) = sorted.
Proof. clear sort_desc storageDir maxHistories retentionTTL.
  transitivity (seq 0 n ≫= λ i, take (Z.to_nat limit) (drop (i * Z.to_nat limit) sorted)).
  - assert (∀ l, Forall (λ i, (i < n)%nat) l → (l ≫= λ i, from_option fst [] (page sorted limit (Z.of_nat i * limit))) =
      (l ≫= λ i, take (Z.to_nat limit) (drop (i * Z.to_nat limit) sorted))) as ->; [|done|apply list.Forall_forall; intros i Hi%elem_of_seq; lia].
    intros l. induction 1 as [|i l Hi _ IH]; [done|]. rewrite !bind_cons, IH, page_spec by nia. cbn.
    by rewrite Z2Nat.inj_mul, Nat2Z.id by lia.
  - rewrite take_drop_chunks, take_ge; [done|]. nia.
Qed.

(** A negative offset makes the request panic, and so does a negative limit within
    the history. *)
Theorem negative_page_panics sorted limit offset (Hlen : Z.of_nat (length sorted) <= max_int64) :
  (offset < 0 → page sorted limit offset = None) ∧
  (0 <= offset < Z.of_nat (length sorted) → min_int64 <= limit < 0 → page sorted limit offset = None).
Proof. clear sort_desc storageDir maxHistories retentionTTL.
  unfold page. split.
  - intros Ho. rewrite (proj2 (Z.leb_gt _ _)) by lia. unfold slice_of. by rewrite (proj2 (Z.leb_gt 0 _)) by lia.
  - intros Ho Hl. rewrite (proj2 (Z.leb_gt _ _)) by lia.
    rewrite wrap64_id by (unfold in_int64, min_int64, max_int64 in *; lia). rewrite (proj2 (Z.ltb_ge _ _)) by lia.
    unfold slice_of. by rewrite (proj2 (Z.leb_gt offset _)), andb_false_r by lia.
Qed.

(** ** What a file keeps *)

(** [sort.Slice] with [After]: the items in some order, the latest first. *)
Definition sorts_desc : Prop :=
  ∀ l, sort_desc l ≡ₚ l ∧ StronglySorted (λ a b, hi_Timestamp b <= hi_Timestamp a) (sort_desc l).

Lemma limited_spec l : sorts_desc →
  ∃ dropped, limited l ++ dropped ≡ₚ l ∧ (length (limited l) ≤ Nat.max maxPerFile 0)%nat ∧
    ∀ a b, a ∈ limited l → b ∈ dropped → hi_Timestamp b <= hi_Timestamp a.
Proof. clear storageDir retentionTTL.
  intros Hs. unfold limited. destruct (Nat.ltb_spec maxPerFile (length l)).
  - exists (drop maxPerFile (sort_desc l)). destruct (Hs l) as [Hp Ho]. rewrite take_drop. split; [done|]. split; [rewrite length_take; lia|].
    intros a b Ha Hb. rewrite <- (take_drop maxPerFile (sort_desc l)) in Ho. revert Ho Ha Hb.
    generalize (take maxPerFile (sort_desc l)) (drop maxPerFile (sort_desc l)). intros t d. induction t as [|x t IH]; [by intros _ ?%not_elem_of_nil|].
    intros [Hs' Hx]%StronglySorted_inv [->|Ha]%elem_of_cons Hb; [|by apply IH]. rewrite list.Forall_forall in Hx. apply Hx, elem_of_app. by right.
  - exists []. rewrite app_nil_r. split; [done|]. split; [lia|]. by intros a b _ ?%not_elem_of_nil.
Qed.

(** After a successful addition the file of the day holds the old items and the new
    one, or, past the limit, the latest of them, as many as the limit says. *)
Theorem AddHistory_keeps_latest `{!FileSystemLaws S} unix_nano item (s s' : S) (Hsort : sorts_desc)
    (Hsafe : json_safe (limited (load (history_path (format_day (λ _, hi_Offset item) (hi_Timestamp item))) s ++ [with_item_id unix_nano item])))
    (Hadd : AddHistory unix_nano item s = (None, s')) :
  let path := history_path (format_day (λ _, hi_Offset item) (hi_Timestamp item)) in
  ∃ d kept dropped, files s' !! path = Some d ∧ json_unmarshal d = Some kept ∧
    kept ++ dropped ≡ₚ load path s ++ [with_item_id unix_nano item] ∧ (length kept ≤ maxPerFile)%nat ∧
    ∀ a b, a ∈ kept → b ∈ dropped → hi_Timestamp b <= hi_Timestamp a.
Proof.
  cbn zeta. unfold AddHistory in Hadd.
  assert (hi_Offset (with_item_id unix_nano item) = hi_Offset item ∧ hi_Timestamp (with_item_id unix_nano item) = hi_Timestamp item) as [E1 E2]
    by (unfold with_item_id; by destruct (String.eqb _ _)).
  rewrite E1, E2 in Hadd. set (path := history_path _) in *.
  destruct (json_marshal _) as [d|] eqn:Ed; [|done]. pose proof (WriteFile_ok path d s) as Hw.
  destruct (WriteFile path d s) as [[e|] s1]; simplify_eq. cbn in Hw. specialize (Hw eq_refl).
  destruct (limited_spec (load path s ++ [with_item_id unix_nano item]) Hsort) as (dropped & Hp & Hl & Ho).
  exists d, (limited (load path s ++ [with_item_id unix_nano item])), dropped. rewrite Hw, lookup_insert_eq.
  split; [done|]. split; [by eapply json_round_trip|]. split; [done|]. split; [lia|done].
Qed.

(** ** Statistics *)

Definition with_status (status : string) (items : list WebhookHistoryItem) : Z :=
  Z.of_nat (length (List.filter (λ item, String.eqb (hi_Status item) status) items)).

(** What is counted: in all, by status, and by endpoint. *)
Definition counted (items : list WebhookHistoryItem) (st : WebhookStatistics) : Prop :=
  st_TotalSent st = Z.of_nat (length items) ∧ st_TotalSuccess st = with_status "success" items ∧
  st_TotalFailed st = with_status "failed" items ∧ st_TotalRetrying st = with_status "retrying" items ∧
  ∀ name, (es_TotalSent <$> st_EndpointStats st !! name) =
    (let own := List.filter (λ item, String.eqb (hi_EndpointName item) name) items in
     if (length own =? 0)%nat then None else Some (Z.of_nat (length own))).

Lemma with_status_snoc status items item :
  with_status status (items ++ [item]) = with_status status items + (if String.eqb (hi_Status item) status then 1 else 0).
Proof. clear sort_desc storageDir maxHistories retentionTTL.
  unfold with_status. rewrite List.filter_app, length_app. cbn. destruct (String.eqb (hi_Status item) status); cbn [length]; lia.
Qed.

Lemma foldl_counted items : counted items (foldl count_item (mkStatistics 0 0 0 0 0 ∅, 0, 0) items).1.1.
Proof. clear sort_desc storageDir maxHistories retentionTTL.
  induction items as [|item items IH] using rev_ind; [done|]. rewrite foldl_snoc. unfold count_item.
  destruct (foldl _ _ items) as [[st total] n]. cbn [fst] in IH. destruct IH as (H1 & H2 & H3 & H4 & H5).
  assert (∀ b (x : WebhookStatistics) (y1 y2 z1 z2 : Z), (if b : bool then (x, y1, z1) else (x, y2, z2)).1.1 = x) as -> by (by intros []).
  unfold counted. cbn [st_TotalSent st_TotalSuccess st_TotalFailed st_TotalRetrying st_EndpointStats].
  rewrite !with_status_snoc, <- H2, <- H3, <- H4, length_app, H1. cbn [length].
  split; [lia|]. do 3 (split; [destruct (String.eqb (hi_Status item) _); lia|]).
  intros name. rewrite List.filter_app. cbn [List.filter]. specialize (H5 name). cbv zeta in H5.
  destruct (String.eqb_spec (hi_EndpointName item) name) as [<-|Hne].
  - rewrite lookup_partial_alter, decide_True by done. rewrite length_app. cbn [length].
    rewrite (proj2 (Nat.eqb_neq _ 0)) by lia. cbn. f_equal. unfold count_endpoint. cbn.
    destruct (st_EndpointStats st !! hi_EndpointName item) as [es|]; cbn in *.
    + destruct (Nat.eqb_spec (length (List.filter (λ x, String.eqb (hi_EndpointName x) (hi_EndpointName item)) items)) 0); [done|].
      injection H5 as ->. lia.
    + destruct (Nat.eqb_spec (length (List.filter (λ x, String.eqb (hi_EndpointName x) (hi_EndpointName item)) items)) 0) as [->|]; done.
  - rewrite lookup_partial_alter, decide_False, app_nil_r by done. exact H5.
Qed.

(** The statistics count every item of the range once: in all, under its status, and
    under its endpoint. *)
Theorem statistics_count z local now endpointName startTime endTime s :
  counted (selected z endpointName startTime endTime s) (GetStatistics local now endpointName (Some (z, startTime, endTime)) s).
Proof. clear sort_desc maxHistories retentionTTL.
  unfold GetStatistics, statistics_of. pose proof (foldl_counted (selected z endpointName startTime endTime s)) as H.
  destruct (foldl _ _ _) as [[st total] n]. by destruct (0 <? n).
Qed.

Lemma string_compare_refl (a : string) : String.compare a a = Eq.
Proof. induction a as [|c a IH]; [done|]. rewrite string_compare_cons. unfold Ascii.compare. by rewrite N.compare_refl. Qed.

(** East of Greenwich the statistics of the last day leave out the file of the
    current day while it is still the day before in UTC: what was sent since local
    midnight is not counted. *)
Theorem statistics_miss_today offset now item
    (Ho : 0 < offset < 86400) (Hm : local_days (λ _, offset) now = now / day + 1) (Hp : printable_days (now / day + 1))
    (Hp' : 0 <= now - 24 * hour)
    (Hit : hi_Offset item = offset) (Hday : format_day (λ _, offset) (hi_Timestamp item) = format_day (λ _, offset) now) :
  format_day (λ _, hi_Offset item) (hi_Timestamp item) ∉ stat_dates (λ _, offset) (time_add now (-24 * hour)) now.
Proof. clear sort_desc storageDir maxHistories retentionTTL.
  rewrite Hit, Hday. unfold stat_dates. intros (i & Hi & Hin)%list_elem_of_fmap. apply elem_of_seq in Hin.
  set (start := time_add now (-24 * hour)) in *.
  assert (truncate_day start = (now / day - 1) * day) as Es.
  { unfold truncate_day, start, time_add, day, hour, minute, second, millisecond. Z.to_euclidean_division_equations; lia. }
  assert (truncate_day now - truncate_day start = day) as Ed by (rewrite Es; unfold truncate_day, day, hour, minute, second, millisecond; lia).
  rewrite Ed in Hin. change (Z.to_nat (day / day + 1)) with 2%nat in Hin.
  rewrite Es in Hi.
  assert (local_days (λ _, offset) ((now / day - 1) * day + Z.of_nat i * day) = now / day - 1 + Z.of_nat i) as El.
  { unfold local_days, local_hours, local_seconds, day, hour, minute, second, millisecond. Z.to_euclidean_division_equations; lia. }
  assert (0 <= now / day - 1) by (unfold day, hour, minute, second, millisecond in *; Z.to_euclidean_division_equations; lia).
  pose proof (format_day_compare (λ _, offset) now ((now / day - 1) * day + Z.of_nat i * day)) as Hc.
  rewrite Hm, El in Hc. unfold printable_days in *.
  specialize (Hc ltac:(lia) ltac:(lia)). rewrite Hi in Hc. rewrite string_compare_refl in Hc.
  symmetry in Hc. apply Z.compare_eq_iff in Hc. lia.
Qed.

(** ** Cleaning up *)

(** Dates as they are written: ten bytes without a slash. *)
Definition date_text (s : string) : Prop := String.length s = 10%nat ∧ str_all (not_char "/") s = true.

Lemma digits_text w n : String.length (digits w n) = w ∧ (0 <= n < 10 ^ Z.of_nat w → str_all (not_char "/") (digits w n) = true).
Proof. clear sort_desc storageDir maxHistories retentionTTL.
  revert n. induction w as [|w IH]; intros n; [done|]. cbn [digits String.length str_all]. destruct (IH (n mod 10 ^ Z.of_nat w)) as [Hl Hc].
  split; [by rewrite Hl|]. intros Hn. rewrite Nat2Z.inj_succ, Z.pow_succ_r in Hn by lia.
  assert (0 < 10 ^ Z.of_nat w) by (apply Z.pow_pos_nonneg; lia).
  rewrite Hc by (apply Z.mod_pos_bound; lia). rewrite andb_true_r.
  apply (digit_ind (λ d, not_char "/" (digit d))); [by vm_compute|]. split; [apply Z.div_pos; lia|apply Z.div_lt_upper_bound; lia].
Qed.

Lemma format_day_text z t : printable_days (local_days z t) → date_text (format_day z t).
Proof. clear sort_desc storageDir maxHistories retentionTTL.
  intros Hp. unfold format_day, format_date, date. destruct (year_day (local_days z t)) as [y d] eqn:Ey.
  pose proof (year_day_year _ _ _ Hp Ey) as Hy. pose proof (year_day_spec _ _ _ Ey) as [_ Hd]. unfold year_length in Hd.
  destruct (month_lengths_ok (is_leap y)) as [Hl Hs].
  destruct (month_day 1 (month_lengths (is_leap y)) d) as [m d'] eqn:Em.
  pose proof (month_day_spec _ _ _ _ _ Hl ltac:(rewrite Hs; done) Em) as [Hm Hd']. cbn in Hm.
  rewrite !append_int_digits by (cbn; lia). unfold date_text. rewrite !str_length_app, !str_all_app.
  rewrite !(proj1 (digits_text _ _)), !(proj2 (digits_text _ _)) by (cbn; lia). done.
Qed.

Lemma filename_segment date : date_text date → segment (filename date) = true.
Proof. clear sort_desc storageDir maxHistories retentionTTL.
  intros [_ Hd]. unfold segment, filename. change (not_char slash) with (not_char "/"). rewrite !str_all_app, Hd. done.
Qed.

Lemma older_than_filename cutoff date : date_text date →
  older_than cutoff (filename date) = match String.compare date cutoff with Lt => true | _ => false end.
Proof. clear sort_desc storageDir maxHistories retentionTTL.
  intros [Hl _]. unfold older_than, filename. rewrite !str_length_app, Hl.
  change (30 <=? String.length "webhook_history_" + (10 + String.length ".json"))%nat with true. cbn [andb].
  assert (take_bytes 10 (drop_bytes 16 ("webhook_history_" +:+ (date +:+ ".json"))) = date) as ->; [|done].
  change (drop_bytes 16 ("webhook_history_" +:+ (date +:+ ".json"))) with (date +:+ ".json"). rewrite <- Hl at 1. apply take_bytes_exact.
Qed.
End history.

Section cleanup.
Context {S : Type} `{!FileSystem S, !FileSystemLaws S} (base : list string) (Hbase : Forall (λ c, segment c = true) base) (retentionTTL : duration).
Notation dir := (unsplit true base).

Lemma removals_frame names (p : string) (s : S) : (∀ n, n ∈ names → PathJoin dir n ≠ p) →
  files (foldl (λ s name, (Remove (PathJoin dir name) s).2) s names) !! p = files s !! p.
Proof.
  revert s. induction names as [|n names IH]; intros s Hp; [done|]. cbn [foldl]. rewrite IH by (intros n' Hn'; apply Hp; by right).
  destruct (Remove (PathJoin dir n) s) as [[e|] s1] eqn:Er.
  - pose proof (Remove_err (PathJoin dir n) s) as H. rewrite Er in H. cbn in *. by rewrite H.
  - pose proof (Remove_ok (PathJoin dir n) s) as H. rewrite Er in H. cbn in *. rewrite H by done. apply lookup_delete_ne. apply Hp. by left.
Qed.

(** Cleaning up removes no file of a day that is not before the day of the cutoff,
    whatever operation of the disk fails; other files of the directory stay as well. *)
Theorem cleanup_keeps_recent local now t (s : S)
    (Ht : printable_days (local_days local t)) (Hc : printable_days (local_days local (time_add now (- retentionTTL))))
    (Hle : local_days local (time_add now (- retentionTTL)) <= local_days local t) :
  files (CleanupOldHistories dir retentionTTL local now s) !! history_path dir (format_day local t) = files s !! history_path dir (format_day local t).
Proof.
  unfold CleanupOldHistories. apply removals_frame. intros n Hn Hp. apply list_elem_of_In, filter_In in Hn as [Hn Ho].
  pose proof (format_day_text local t Ht) as Htext.
  assert (n = filename (format_day local t)) as ->.
  { apply (FailureQueue.name_path_inj base Hbase); [|by apply filename_segment|done].
    unfold glob in Hn. destruct (ReadDir dir s) as [es|] eqn:Ed; [|done]. apply filter_In in Hn as [Hn _].
    destruct (ReadDir_names dir s es Ed) as [_ Hseg]. apply list_elem_of_In, list_elem_of_fmap in Hn as (e & -> & He).
    rewrite list.Forall_forall in Hseg. by apply Hseg. }
  rewrite older_than_filename, format_day_compare in Ho by done.
  destruct (Z.compare_spec (local_days local t) (local_days local (time_add now (- retentionTTL)))); [done|lia|done].
Qed.
End cleanup.

(** ** Witnesses *)

#[export] Instance WebhookHistoryItem_eq_dec : EqDecision WebhookHistoryItem.
Proof. solve_decision. Defined.

(** 2024-02-29T23:05:00Z, in Seoul the morning of the first of March. *)
Definition leap_evening : instant := (1709247900 + 62135596800) * second.
Definition sent_item : WebhookHistoryItem :=
  mkHistoryItem "h1" "ops" "https://ops.example" "e1" "proxy.down" "success" leap_evening 32400 (5 * millisecond) 200 EmptyString 0 EmptyString.

#[local] Instance one_list : Codec (list WebhookHistoryItem).
Proof.
  refine {| json_marshal l := if bool_decide (l = [sent_item]) then Some "one"%string else None;
            json_unmarshal d := if String.eqb d "one" then Some [sent_item] else None; json_safe _ := True |}.
  intros l d _. case_bool_decide as E; [|done]. intros [= <-]. by rewrite E.
Defined.

Definition newer (a b : WebhookHistoryItem) : Prop := hi_Timestamp b <= hi_Timestamp a.
#[local] Instance newer_dec : RelDecision newer := λ a b, decide (hi_Timestamp b <= hi_Timestamp a).
#[local] Instance newer_trans : Transitive newer.
Proof. unfold newer. intros a b c H1 H2. lia. Qed.
#[local] Instance newer_total : Total newer.
Proof. unfold newer. intros a b. lia. Qed.

Definition by_time (l : list WebhookHistoryItem) : list WebhookHistoryItem := merge_sort newer l.

Lemma by_time_sorts : sorts_desc by_time.
Proof.
  intros l. split; [apply merge_sort_Permutation|]. by apply (StronglySorted_merge_sort newer).
Qed.

Definition history_disk : MemFS := mkMem ∅ {["/var/history"%string]} [].
Definition added_history : option history_error * MemFS := AddHistory by_time "/var/history" 10000 7 sent_item history_disk.

Lemma AddHistory_keeps_latest_witness :
  let path := history_path "/var/history" (format_day (λ _, hi_Offset sent_item) (hi_Timestamp sent_item)) in
  ∃ d kept dropped, files added_history.2 !! path = Some d ∧ json_unmarshal d = Some kept ∧
    kept ++ dropped ≡ₚ load path history_disk ++ [with_item_id 7 sent_item] ∧ (length kept ≤ maxPerFile 10000)%nat ∧
    ∀ a b, a ∈ kept → b ∈ dropped → hi_Timestamp b <= hi_Timestamp a.
Proof.
  apply (AddHistory_keeps_latest by_time "/var/history" 10000 7 sent_item history_disk added_history.2 by_time_sorts); [exact I|vm_compute; reflexivity].
Defined.

Lemma pages_partition_witness :
  (seq 0 2 ≫= λ i, from_option fst [] (page [sent_item; sent_item; sent_item] 2 (Z.of_nat i * 2))) = [sent_item; sent_item; sent_item].
Proof. apply (pages_partition [sent_item; sent_item; sent_item] 2 2); [lia|by vm_compute|by vm_compute]. Defined.

Lemma negative_page_panics_witness : page [sent_item] 10 (-1) = None ∧ page [sent_item] (-1) 0 = None.
Proof.
  split.
  - by apply (proj1 (negative_page_panics [sent_item] 10 (-1) ltac:(by vm_compute))).
  - by apply (proj2 (negative_page_panics [sent_item] (-1) 0 ltac:(by vm_compute))).
Defined.

Lemma statistics_miss_today_witness :
  format_day (λ _, 32400) leap_evening ∉ stat_dates (λ _, 32400) (time_add leap_evening (-24 * hour)) leap_evening.
Proof.
  apply (statistics_miss_today 32400 leap_evening sent_item); [done|by vm_compute|by vm_compute|by vm_compute|done|done].
Defined.

Lemma cleanup_keeps_recent_witness :
  files (CleanupOldHistories "/var/history" (7 * day) utc leap_evening added_history.2) !! history_path "/var/history" (format_day utc leap_evening) =
  files added_history.2 !! history_path "/var/history" (format_day utc leap_evening).
Proof.
  apply (cleanup_keeps_recent ["var"; "history"]%string ltac:(by repeat constructor) (7 * day) utc leap_evening leap_evening added_history.2);
    by vm_compute.
Defined.
