(* ===== verification/GoConv.v ===== *)
(** * GoConv: [float64], durations, booleans and the environment as text

    A [float64] is a binary64 number of the Standard Library's [SpecFloat]: its operations
    round to the nearest, ties to even, as Go's do.  [ParseFloat] goes through the text as
    [readFloat] of [strconv/atof.go] does; [time.ParseDuration], [strconv.ParseBool],
    [os.ExpandEnv], [os.UserHomeDir] and [os.TempDir] on Unix as the library does, byte by
    byte.  [of_int_compare] says that whole numbers below 2^53 are compared exactly,
    [scale_exact] that they are multiplied exactly by a power of two, [ParseDuration_unit]
    what a whole number of one unit means. *)

From Stdlib Require Import Ascii.
From Stdlib Require Export SpecFloat.
From S2P Require Import Prelude GoStrings GoPath.

Notation float64 := spec_float.

Definition fnormal (m e : Z) : float64 := binary_normalize 53 1024 m e false.
Definition fmul : float64 → float64 → float64 := SFmul 53 1024.
Definition fadd : float64 → float64 → float64 := SFadd 53 1024.
Definition fsub : float64 → float64 → float64 := SFsub 53 1024.
Definition fdiv : float64 → float64 → float64 := SFdiv 53 1024.

(** [float64(z)] for an integer. *)
Definition of_int (z : Z) : float64 := fnormal z 0.

Definition fle : float64 → float64 → bool := SFleb.
Definition flt : float64 → float64 → bool := SFltb.
Definition feq : float64 → float64 → bool := SFeqb.

(** [int64(f)]: the fraction is discarded; what does not fit is what the conversion of
    amd64 answers, the smallest integer. *)
Definition trunc (f : float64) : Z :=
  match f with
  | S754_finite s m e =>
      let a := if 0 <=? e then Z.shiftl (Zpos m) e else Z.shiftr (Zpos m) (- e) in
      let z := if s then - a else a in
      if (min_int64 <=? z) && (z <=? max_int64) then z else min_int64
  | S754_zero _ => 0
  | _ => min_int64
  end.

(** The quotient of two positive integers, rounded once. *)
Definition fquot (m d : positive) : float64 :=
  let '(q, e, l) := SFdiv_core_binary 53 1024 (Zpos m) 0 (Zpos d) 0 in binary_round_aux 53 1024 false q e l.

Definition fsign (neg : bool) (f : float64) : float64 := if neg then SFopp f else f.

(** ** strconv.ParseFloat *)

Definition is_hex_letter (c : ascii) : bool := in_range 97 102 (lower_char c).
Definition hex_value (c : ascii) : Z := if is_digit c then byte_of c - 48 else byte_of (lower_char c) - 87.

(** The mantissa: its digits as a number, how many stand after the point, whether there
    was a digit and an underscore, and the rest. *)
Fixpoint mantissa (hex : bool) (m frac : Z) (dot digits under : bool) (s : string) : Z * Z * bool * bool * string :=
  match s with
  | EmptyString => (m, frac, digits, under, EmptyString)
  | String c s' =>
      let frac' := if dot then frac + 1 else frac in
      if Ascii.eqb c "_" then mantissa hex m frac dot digits true s'
      else if Ascii.eqb c "." then
        if dot then (m, frac, digits, under, s) else mantissa hex m frac true digits under s'
      else if is_digit c || (hex && is_hex_letter c) then
        mantissa hex (m * (if hex then 16 else 10) + hex_value c) frac' dot true under s'
      else (m, frac, digits, under, s)
  end.

(** The digits of the exponent, which stops growing at 10000. *)
Fixpoint exponent (e : Z) (under : bool) (s : string) : Z * bool * string :=
  match s with
  | EmptyString => (e, under, EmptyString)
  | String c s' =>
      if Ascii.eqb c "_" then exponent e true s'
      else if is_digit c then exponent (if e <? 10000 then e * 10 + hex_value c else e) under s'
      else (e, under, s)
  end.

(** [underscoreOK]: underscores stand between digits, or after the prefix of a base. *)
Inductive seen := SeenStart | SeenDigit | SeenUnder | SeenOther.
Fixpoint under_go (hex : bool) (saw : seen) (s : string) : bool :=
  match s with
  | EmptyString => match saw with SeenUnder => false | _ => true end
  | String c s' =>
      if is_digit c || (hex && is_hex_letter c) then under_go hex SeenDigit s'
      else if Ascii.eqb c "_" then match saw with SeenDigit => under_go hex SeenUnder s' | _ => false end
      else match saw with SeenUnder => false | _ => under_go hex SeenOther s' end
  end.
Definition after_sign (s : string) : string :=
  match s with String c s' => if Ascii.eqb c "-" || Ascii.eqb c "+" then s' else s | EmptyString => s end.
Definition underscoreOK (s : string) : bool :=
  match after_sign s with
  | String z (String b s') =>
      let b' := lower_char b in
      if Ascii.eqb z "0" && (Ascii.eqb b' "b" || Ascii.eqb b' "o" || Ascii.eqb b' "x")
      then under_go (Ascii.eqb b' "x") SeenDigit s' else under_go false SeenStart (after_sign s)
  | s' => under_go false SeenStart s'
  end.

(** [special]: infinities and NaN. *)
Definition special (s : string) : option float64 :=
  let word := to_lower (after_sign s) in
  if String.eqb word "inf" || String.eqb word "infinity" then Some (S754_infinity (HasPrefix s "-"))
  else if String.eqb (to_lower s) "nan" then Some S754_nan else None.

Definition scaled (hex : bool) (m e : Z) : float64 :=
  if hex then fnormal m e
  else if 0 <=? e then fnormal (m * 10 ^ e) 0
  else match m with Zpos p => fquot p (Z.to_pos (10 ^ (- e))) | _ => S754_zero false end.

Definition read_exponent (hex : bool) (s : string) : option (Z * bool * string) :=
  match s with
  | String c s' =>
      if Ascii.eqb (lower_char c) (if hex then "p" else "e")%char then
        let neg := HasPrefix s' "-" in
        let digits := after_sign s' in
        match digits with
        | String d _ => if is_digit d then
                          let '(e, under, rest) := exponent 0 false digits in Some (if neg then - e else e, under, rest)
                        else None
        | EmptyString => None
        end
      else if hex then None else Some (0, false, s)
  | EmptyString => if hex then None else Some (0, false, s)
  end.

(** [strconv.ParseFloat(s, 64)]; [None] is its error, of the syntax or of the range. *)
Definition ParseFloat (s : string) : option float64 :=
  match special s with
  | Some f => Some f
  | None =>
      let neg := HasPrefix s "-" in
      let body := after_sign s in
      let hex := HasPrefix (to_lower body) "0x" in
      let '(m, frac, digits, under, rest) := mantissa hex 0 0 false false false (if hex then drop_bytes 2 body else body) in
      if negb digits then None
      else
        match read_exponent hex rest with
        | None => None
        | Some (e, under', rest') =>
            if negb (String.eqb rest' EmptyString) || ((under || under') && negb (underscoreOK s)) then None
            else
              match scaled hex m (if hex then e - 4 * frac else e - frac) with
              | S754_infinity _ => None
              | f => Some (fsign neg f)
              end
        end
  end.

(** ** Exact results *)

Notation dg p := (Zpos (digits2_pos p)).

Lemma digits2_log2 p : dg p = Z.log2 (Zpos p) + 1.
Proof.
  induction p as [p IH|p IH|]; [| |done]; cbn [digits2_pos]; rewrite Pos2Z.inj_succ, IH.
  - change (Zpos p~1) with (2 * Zpos p + 1). rewrite Z.log2_succ_double; lia.
  - change (Zpos p~0) with (2 * Zpos p). rewrite Z.log2_double; lia.
Qed.

Lemma digits2_bounds p : 2 ^ (dg p - 1) <= Zpos p < 2 ^ dg p.
Proof. rewrite digits2_log2, Z.add_simpl_r. pose proof (Z.log2_spec (Zpos p) ltac:(lia)). by rewrite Z.add_1_r. Qed.

Lemma digits2_le p n : Zpos p < 2 ^ n → dg p <= n.
Proof. intros H. rewrite digits2_log2. pose proof (Z.log2_lt_pow2 (Zpos p) n ltac:(lia)). lia. Qed.

Lemma iter_xO m d : Zpos (Pos.iter xO m d) = Zpos m * 2 ^ Zpos d.
Proof.
  induction d as [|d IH] using Pos.peano_ind; [cbn; lia|]. rewrite Pos.iter_succ, Pos2Z.inj_succ, Z.pow_succ_r by lia.
  change (Zpos (Pos.iter xO m d)~0) with (2 * Zpos (Pos.iter xO m d)). rewrite IH. lia.
Qed.

Lemma digits2_shift m d : dg (Pos.iter xO m d) = dg m + Zpos d.
Proof. rewrite !digits2_log2, iter_xO, Z.log2_mul_pow2 by lia. lia. Qed.

(** A mantissa that fits is only aligned. *)
Lemma aux_canonical s m e : fexp 53 1024 (dg m + e) = e → e <= 971 →
  binary_round_aux 53 1024 s (Zpos m) e loc_Exact = S754_finite s m e.
Proof.
  intros Hf He. unfold binary_round_aux, shr_fexp. cbn [Zdigits2 shr_record_of_loc]. rewrite Hf, Z.sub_diag. cbn [shr shr_m loc_of_shr_record round_nearest_even].
  unfold shr_fexp. cbn [Zdigits2]. rewrite Hf, Z.sub_diag. cbn [shr shr_m shr_record_of_loc]. by destruct (Z.leb_spec e (1024 - 53)); [|lia].
Qed.

Lemma round_exact s m e : Zpos m < 2 ^ 53 → -1074 <= e → dg m + e <= 1024 →
  ∃ m' d, binary_round 53 1024 s m e = S754_finite s m' (e - d) ∧ 0 <= d ∧ Zpos m' = Zpos m * 2 ^ d
    ∧ e - d = Z.max (dg m + e - 53) (-1074).
Proof.
  intros Hm He Hx. apply digits2_le in Hm. unfold binary_round, shl_align.
  set (f := fexp 53 1024 (dg m + e)). assert (Hf : f = Z.max (dg m + e - 53) (-1074)) by (unfold f, fexp, emin; lia).
  destruct (f - e) as [|d|d] eqn:Hd; [| lia |].
  - exists m, 0. rewrite aux_canonical by (fold f; lia). rewrite Z.sub_0_r. repeat split; lia.
  - exists (Pos.iter xO m d), (Zpos d). rewrite aux_canonical.
    + replace f with (e - Zpos d) by lia. repeat split; [lia| apply iter_xO |lia].
    + rewrite digits2_shift. unfold fexp, emin in *. lia.
    + lia.
Qed.

(** ** Comparing whole numbers *)

Definition exact_int (z : Z) : Prop := - 2 ^ 53 < z < 2 ^ 53.

Lemma of_int_pos p : Zpos p < 2 ^ 53 →
  ∃ m, of_int (Zpos p) = S754_finite false m (dg p - 53) ∧ of_int (Zneg p) = S754_finite true m (dg p - 53) ∧ Zpos m = Zpos p * 2 ^ (53 - dg p).
Proof.
  intros Hp. pose proof (digits2_le p 53 Hp) as Hd.
  destruct (round_exact false p 0) as (m & d & H1 & Hd0 & H2 & H3); [lia..|].
  destruct (round_exact true p 0) as (m' & d' & H1' & Hd0' & H2' & H3'); [lia..|].
  assert (d = 53 - dg p) as -> by lia. assert (d' = 53 - dg p) as -> by lia.
  exists m. unfold of_int, fnormal, binary_normalize. rewrite H1, H1'. replace (0 - (53 - dg p)) with (dg p - 53) by lia.
  split_and!; [done| |done]. do 2 f_equal. by apply Pos2Z.inj; rewrite H2'.
Qed.

Lemma compare_pos p q : Zpos p < 2 ^ 53 → Zpos q < 2 ^ 53 → ∀ m n, Zpos m = Zpos p * 2 ^ (53 - dg p) → Zpos n = Zpos q * 2 ^ (53 - dg q) →
  match dg p - 53 ?= dg q - 53 with Lt => Lt | Gt => Gt | Eq => Pos.compare_cont Eq m n end = (Zpos p ?= Zpos q).
Proof.
  intros Hp Hq m n Hm Hn. pose proof (digits2_bounds p). pose proof (digits2_bounds q).
  pose proof (digits2_le p 53 Hp). pose proof (digits2_le q 53 Hq).
  destruct (Z.compare_spec (dg p - 53) (dg q - 53)) as [E|E|E].
  - assert (dg p = dg q) as E' by lia. change (Pos.compare_cont Eq m n) with (Pos.compare m n).
    change (Pos.compare m n) with (Zpos m ?= Zpos n). rewrite Hm, Hn, E'. symmetry. rewrite !(Z.mul_comm _ (2 ^ _)). apply Zmult_compare_compat_l.
    pose proof (Z.pow_pos_nonneg 2 (53 - dg q)). lia.
  - symmetry. apply Z.compare_lt_iff. assert (2 ^ dg p <= 2 ^ (dg q - 1)) by (apply Z.pow_le_mono_r; lia). lia.
  - symmetry. apply Z.compare_gt_iff. assert (2 ^ dg q <= 2 ^ (dg p - 1)) by (apply Z.pow_le_mono_r; lia). lia.
Qed.

(** Whole numbers that fit in the mantissa are compared as integers. *)
Lemma of_int_compare a b : exact_int a → exact_int b → SFcompare (of_int a) (of_int b) = Some (a ?= b).
Proof.
  unfold exact_int. intros Ha Hb.
  assert (∀ p, Zneg p = - Zpos p) as Hneg by done.
  destruct a as [|p|p], b as [|q|q];
    try (destruct (of_int_pos p ltac:(lia)) as (m & Hm1 & Hm2 & Hm3));
    try (destruct (of_int_pos q ltac:(lia)) as (n & Hn1 & Hn2 & Hn3));
    rewrite ?Hm1, ?Hm2, ?Hn1, ?Hn2; try done; cbn [SFcompare]; f_equal;
    pose proof (compare_pos p q ltac:(lia) ltac:(lia) m n Hm3 Hn3) as Hc.
  - exact Hc.
  - change (Zneg p ?= Zneg q) with (CompOpp (Zpos p ?= Zpos q)). rewrite <- Hc. by destruct (dg p - 53 ?= dg q - 53).
Qed.

Lemma of_int_le a b : exact_int a → exact_int b → fle (of_int a) (of_int b) = (a <=? b).
Proof. intros Ha Hb. unfold fle, SFleb. rewrite of_int_compare by done. unfold Z.leb. by destruct (a ?= b). Qed.
Lemma of_int_lt a b : exact_int a → exact_int b → flt (of_int a) (of_int b) = (a <? b).
Proof. intros Ha Hb. unfold flt, SFltb. rewrite of_int_compare by done. unfold Z.ltb. by destruct (a ?= b). Qed.

(** ** Multiplying by a power of two *)

Lemma iter_pos_spec {A} (f : A → A) n x : SpecFloat.iter_pos f n x = Pos.iter f x n.
Proof.
  revert x; induction n as [n IH|n IH|]; intros x; cbn [SpecFloat.iter_pos]; [| |done].
  - rewrite !IH. cbn [Pos.iter]. by rewrite !Pos.iter_swap.
  - by rewrite !IH.
Qed.

Lemma shr_exact m d : SpecFloat.iter_pos shr_1 d (Build_shr_record (Zpos (Pos.iter xO m d)) false false) = Build_shr_record (Zpos m) false false.
Proof.
  rewrite iter_pos_spec. induction d as [|d IH] using Pos.peano_ind; [done|].
  by rewrite Pos.iter_succ_r, Pos.iter_succ.
Qed.

Lemma aux_shifted s m d e : dg m = 53 → -1074 <= e + Zpos d <= 971 →
  binary_round_aux 53 1024 s (Zpos (Pos.iter xO m d)) e loc_Exact = S754_finite s m (e + Zpos d).
Proof.
  intros Hm He. unfold binary_round_aux, shr_fexp at 1. cbn [Zdigits2 shr_record_of_loc].
  rewrite digits2_shift, Hm. replace (fexp 53 1024 (53 + Zpos d + e) - e) with (Zpos d) by (unfold fexp, emin; lia).
  cbn [shr]. rewrite shr_exact. cbn [shr_m loc_of_shr_record round_nearest_even].
  unfold shr_fexp. cbn [Zdigits2]. rewrite Hm. replace (fexp 53 1024 (53 + (e + Zpos d)) - (e + Zpos d)) with 0 by (unfold fexp, emin; lia).
  cbn [shr shr_m shr_record_of_loc]. by destruct (Z.leb_spec (e + Zpos d) (1024 - 53)); [|lia].
Qed.

Lemma pow2_float k : 0 <= k <= 52 → of_int (2 ^ k) = S754_finite false (Pos.iter xO xH 52) (k - 52).
Proof.
  intros Hk. destruct (2 ^ k) as [|p|p] eqn:E; [pose proof (Z.pow_pos_nonneg 2 k); lia| |pose proof (Z.pow_nonneg 2 k); lia].
  assert (Zpos p < 2 ^ 53) as Hp by (rewrite <- E; apply Z.pow_lt_mono_r; lia).
  assert (dg p = k + 1) as Hd by (rewrite digits2_log2, <- E, Z.log2_pow2; lia).
  destruct (of_int_pos p Hp) as (m & -> & _ & Hm). rewrite Hd in *. replace (k + 1 - 53) with (k - 52) by lia. f_equal.
  apply Pos2Z.inj. rewrite Hm, <- E, iter_xO, <- Z.pow_add_r by lia. by replace (k + (53 - (k + 1))) with 52 by lia.
Qed.

Lemma trunc_exact m e z : (0 <= e ∧ Zpos m * 2 ^ e = z) ∨ (e < 0 ∧ Zpos m = z * 2 ^ (- e)) → z <= max_int64 →
  trunc (S754_finite false m e) = z.
Proof.
  intros H Hz. unfold trunc.
  assert (0 <= z) as H0.
  { destruct H as [[H1 H2]|[H1 H2]].
    - subst z. pose proof (Z.pow_nonneg 2 e). nia.
    - pose proof (Z.pow_pos_nonneg 2 (- e)). nia. }
  replace (if 0 <=? e then Z.shiftl (Zpos m) e else Z.shiftr (Zpos m) (- e)) with z.
  - unfold min_int64 in *. by rewrite (proj2 (Z.leb_le _ _)), (proj2 (Z.leb_le _ _)) by lia.
  - destruct (Z.leb_spec 0 e).
    + rewrite Z.shiftl_mul_pow2 by done. lia.
    + rewrite Z.shiftr_div_pow2 by lia. destruct H as [[? _]|[_ ->]]; [lia|]. rewrite Z.div_mul; [done|]. apply Z.pow_nonzero; lia.
Qed.

(** A whole number that fits in the mantissa times a power of two is exact. *)
Lemma scale_exact n k : 0 <= n < 2 ^ 53 → 0 < k <= 52 → n * 2 ^ k <= max_int64 →
  trunc (fmul (of_int n) (of_int (2 ^ k))) = n * 2 ^ k.
Proof.
  intros Hn Hk Hmax. rewrite pow2_float by lia.
  destruct n as [|p|p]; [done| |lia].
  destruct (of_int_pos p ltac:(lia)) as (m & -> & _ & Hm). pose proof (digits2_le p 53 ltac:(lia)) as Hd.
  assert (dg m = 53) as Hm53.
  { rewrite digits2_log2, Hm, Z.log2_mul_pow2 by lia. rewrite digits2_log2 in *. lia. }
  unfold fmul, SFmul. cbn [xorb].
  assert (Zpos (m * Pos.iter xO xH 52) = Zpos (Pos.iter xO m 52)) as Hp by (rewrite Pos2Z.inj_mul, !iter_xO; lia).
  rewrite Hp, aux_shifted by lia. apply trunc_exact; [|done].
  replace (dg p - 53 + (k - 52) + Zpos 52) with (dg p - 53 + k) by lia.
  destruct (Z.leb_spec 0 (dg p - 53 + k)); [left|right]; (split; [lia|]); rewrite Hm.
  - rewrite <- Z.mul_assoc, <- Z.pow_add_r by lia. by replace (53 - dg p + (dg p - 53 + k)) with k by lia.
  - rewrite <- Z.mul_assoc, <- Z.pow_add_r by lia. by replace (k + - (dg p - 53 + k)) with (53 - dg p) by lia.
Qed.

(** ** Texts *)

(** ** time.ParseDuration *)

(** [leadingInt]; [None] is the overflow. *)
Fixpoint leadingInt (x : Z) (s : string) : option (Z * string) :=
  match s with
  | String c s' =>
      if is_digit c then
        if 2 ^ 63 / 10 <? x then None
        else let x := x * 10 + (byte_of c - 48) in if 2 ^ 63 <? x then None else leadingInt x s'
      else Some (x, s)
  | EmptyString => Some (x, s)
  end.

(** [leadingFraction]: digits that do not fit are passed over. *)
Fixpoint leadingFraction (x : Z) (scale : float64) (overflow : bool) (s : string) : Z * float64 * string :=
  match s with
  | String c s' =>
      if is_digit c then
        if overflow then leadingFraction x scale true s'
        else if max_int64 / 10 <? x then leadingFraction x scale true s'
        else
          let y := x * 10 + (byte_of c - 48) in
          if 2 ^ 63 <? y then leadingFraction x scale true s' else leadingFraction y (fmul scale (of_int 10)) false s'
      else (x, scale, s)
  | EmptyString => (x, scale, s)
  end.

Fixpoint duration_unit (s : string) : string * string :=
  match s with
  | String c s' => if is_digit c || Ascii.eqb c "." then (EmptyString, s)
                   else let '(u, r) := duration_unit s' in (String c u, r)
  | EmptyString => (EmptyString, EmptyString)
  end.

(** The micro sign and the Greek letter are both written [us]. *)
Definition micro_sign : string := String "194"%char (String "181"%char "s").
Definition micro_letter : string := String "206"%char (String "188"%char "s").

Definition unit_size (u : string) : option Z :=
  if String.eqb u "ns" then Some 1
  else if String.eqb u "us" || String.eqb u micro_sign || String.eqb u micro_letter then Some 1000
  else if String.eqb u "ms" then Some 1000000
  else if String.eqb u "s" then Some 1000000000
  else if String.eqb u "m" then Some 60000000000
  else if String.eqb u "h" then Some 3600000000000
  else None.

(** One number with its unit: what it adds, and the rest. *)
Definition duration_part (s : string) : option (Z * string) :=
  match s with
  | EmptyString => None
  | String c _ =>
      if negb (Ascii.eqb c "." || is_digit c) then None
      else
        match leadingInt 0 s with
        | None => None
        | Some (v, s1) =>
            let pre := negb (String.length s =? String.length s1)%nat in
            let '(f, scale, post, s2) :=
              match s1 with
              | String d t => if Ascii.eqb d "." then
                                let '(f, scale, r) := leadingFraction 0 (of_int 1) false t in
                                (f, scale, negb (String.length t =? String.length r)%nat, r)
                              else (0, of_int 1, false, s1)
              | EmptyString => (0, of_int 1, false, s1)
              end in
            if negb pre && negb post then None
            else
              let '(u, rest) := duration_unit s2 in
              match unit_size u with
              | None => None
              | Some unit =>
                  if 2 ^ 63 / unit <? v then None
                  else
                    let v := v * unit + (if 0 <? f then trunc (fmul (of_int f) (fdiv (of_int unit) scale)) else 0) in
                    if 2 ^ 63 <? v then None else Some (v, rest)
              end
        end
  end.

Fixpoint duration_go (fuel : nat) (d : Z) (s : string) : option Z :=
  match s with
  | EmptyString => Some d
  | _ =>
      match fuel with
      | O => None
      | S fuel =>
          match duration_part s with
          | None => None
          | Some (v, rest) => if 2 ^ 63 <? d + v then None else duration_go fuel (d + v) rest
          end
      end
  end.

Definition ParseDuration (s : string) : option duration :=
  let neg := HasPrefix s "-" in
  let body := after_sign s in
  if String.eqb body "0" then Some 0
  else if String.eqb body EmptyString then None
  else
    match duration_go (String.length body) 0 body with
    | None => None
    | Some d => if neg then Some (- d) else if max_int64 <? d then None else Some d
    end.

(** ** strconv.ParseBool *)

Definition ParseBool (s : string) : option bool :=
  if bool_decide (s ∈ ["1"; "t"; "T"; "true"; "TRUE"; "True"]%list) then Some true
  else if bool_decide (s ∈ ["0"; "f"; "F"; "false"; "FALSE"; "False"]%list) then Some false
  else None.

(** ** The environment *)

(** [os.Getenv]: the empty text for what is not set. *)
Definition environment : Type := string → string.

Definition UserHomeDir (env : environment) : option string :=
  if String.eqb (env "HOME") EmptyString then None else Some (env "HOME").
Definition TempDir (env : environment) : string :=
  if String.eqb (env "TMPDIR") EmptyString then "/tmp" else env "TMPDIR".

Definition shell_special (c : ascii) : bool :=
  is_digit c || existsb (Ascii.eqb c) ["*"; "#"; "$"; "@"; "!"; "?"; "-"]%char.
Definition shell_word (c : ascii) : bool := is_letter c || is_digit c || Ascii.eqb c "_".

Fixpoint word_prefix (s : string) : string :=
  match s with String c s' => if shell_word c then String c (word_prefix s') else EmptyString | EmptyString => EmptyString end.

Fixpoint until_brace (s : string) : option string :=
  match s with
  | EmptyString => None
  | String c s' => if Ascii.eqb c "}" then Some EmptyString else option_map (String c) (until_brace s')
  end.

(** [getShellName] of a text that is not empty: the name, and how many bytes it takes. *)
Definition getShellName (s : string) : string * nat :=
  match s with
  | EmptyString => (EmptyString, 0%nat)
  | String c s' =>
      if Ascii.eqb c "{" then
        match s' with
        | String d (String e _) =>
            if shell_special d && Ascii.eqb e "}" then (String d EmptyString, 3%nat)
            else match until_brace s' with
                 | None => (EmptyString, 1%nat)
                 | Some n => if String.eqb n EmptyString then (EmptyString, 2%nat) else (n, S (S (String.length n)))
                 end
        | _ => match until_brace s' with None => (EmptyString, 1%nat) | Some _ => (EmptyString, 2%nat) end
        end
      else if shell_special c then (String c EmptyString, 1%nat)
      else (word_prefix s, String.length (word_prefix s))
  end.

(** [os.ExpandEnv]; [skip] counts the bytes of a name that has been replaced. *)
Fixpoint expand_go (env : environment) (skip : nat) (s : string) : string :=
  match s with
  | EmptyString => EmptyString
  | String c s' =>
      match skip with
      | S n => expand_go env n s'
      | O =>
          match s' with
          | EmptyString => s
          | String _ _ =>
              if Ascii.eqb c "$" then
                let '(name, w) := getShellName s' in
                if String.eqb name EmptyString
                then if (0 <? w)%nat then expand_go env w s' else String c (expand_go env 0 s')
                else env name +:+ expand_go env w s'
              else String c (expand_go env 0 s')
          end
      end
  end.
Definition ExpandEnv (env : environment) (s : string) : string := expand_go env 0 s.

(** ** Facts *)

Example durations : ParseDuration "1h30m" = Some 5400000000000 ∧ ParseDuration "1.5s" = Some 1500000000
  ∧ ParseDuration "100ms" = Some 100000000 ∧ ParseDuration "10" = None ∧ ParseDuration "10GB" = None ∧ ParseDuration "-.5h" = Some (-1800000000000).
Proof. by vm_compute. Qed.

Example expansions : ExpandEnv (λ v, if String.eqb v "HOME" then "/root" else EmptyString) "$HOME/${HOME}x$Y$" = "/root//rootx$".
Proof. by vm_compute. Qed.

(** Every part takes a byte, so that the bytes of the text are fuel enough. *)
Lemma leadingInt_length x s v r : leadingInt x s = Some (v, r) → (String.length r <= String.length s)%nat.
Proof.
  revert x; induction s as [|c s IH]; intros x; cbn [leadingInt String.length]; [by intros [= <- <-]|].
  destruct (is_digit c); [|by intros [= <- <-]]. destruct (_ <? x); [done|]. destruct (_ <? _); [done|].
  intros H%IH. lia.
Qed.

Lemma leadingFraction_length x sc o s : (String.length (leadingFraction x sc o s).2 <= String.length s)%nat.
Proof.
  revert x sc o; induction s as [|c s IH]; intros x sc o; cbn [leadingFraction String.length]; [done|].
  destruct (is_digit c); [|done]. destruct o; [etrans; [apply IH|lia]|].
  destruct (_ <? x); [etrans; [apply IH|lia]|]. destruct (_ <? _); (etrans; [apply IH|lia]).
Qed.

Lemma duration_unit_length s : (String.length (duration_unit s).1 + String.length (duration_unit s).2 = String.length s)%nat.
Proof.
  induction s as [|c s IH]; [done|]. cbn [duration_unit String.length]. destruct (is_digit c || _); [done|].
  destruct (duration_unit s) as [u r]. cbn in *. lia.
Qed.

Lemma unit_size_nonempty u n : unit_size u = Some n → (0 < String.length u)%nat.
Proof. destruct u; [done|cbn; lia]. Qed.

Lemma duration_part_shorter s v r : duration_part s = Some (v, r) → (String.length r < String.length s)%nat.
Proof.
  destruct s as [|c s]; [done|]. unfold duration_part. destruct (negb _); [done|].
  destruct (leadingInt 0 (String c s)) as [[x s1]|] eqn:E1; [|done]. apply leadingInt_length in E1.
  set (p := match s1 with EmptyString => _ | String d t => _ end).
  assert (String.length p.2 <= String.length s1)%nat as Hp.
  { subst p. destruct s1 as [|d t]; [done|]. destruct (Ascii.eqb d "."); [|done].
    pose proof (leadingFraction_length 0 (of_int 1) false t) as H. destruct (leadingFraction _ _ _ _) as [[??]?]. cbn in *. lia. }
  destruct p as [[[f sc] po] s2]. cbn in Hp. destruct (_ && _); [done|].
  pose proof (duration_unit_length s2) as Hu. destruct (duration_unit s2) as [u rest]. cbn in Hu.
  destruct (unit_size u) as [n|] eqn:En; [|done]. apply unit_size_nonempty in En.
  destruct (_ <? x); [done|]. destruct (_ <? _); [done|]. intros [= <- <-]. lia.
Qed.

Lemma duration_go_fuel n s d : (String.length s <= n)%nat → duration_go n d s = duration_go (String.length s) d s.
Proof.
  revert s d; induction n as [n IH] using lt_wf_ind; intros s d Hn.
  destruct s as [|c s]; [by destruct n|]. destruct n as [|n]; [cbn in Hn; lia|].
  cbn [String.length duration_go]. destruct (duration_part (String c s)) as [[v r]|] eqn:E; [|done].
  destruct (_ <? _); [done|]. apply duration_part_shorter in E. cbn in E, Hn.
  rewrite (IH n), (IH (String.length s)) by lia. done.
Qed.

(** ** A whole number of one unit *)

Lemma digits_go_ge acc s n : digits_go acc s = Some n → 0 <= acc → acc <= n.
Proof.
  revert acc; induction s as [|c s IH]; intros acc; cbn [digits_go]; [intros [= <-]; lia|].
  destruct (is_digit c) eqn:Hc; [|done]. intros H ?. unfold is_digit, in_range in Hc. apply IH in H; unfold byte_of in *; lia.
Qed.

Lemma leadingInt_digits ds x n t : digits_go x ds = Some n → 0 <= x → n <= 2 ^ 63 / 10 → stops is_digit t = true →
  leadingInt x (ds +:+ t) = Some (n, t).
Proof.
  revert x; induction ds as [|c ds IH]; intros x; cbn [digits_go].
  - intros [= <-] _ _ Ht. destruct t as [|c t]; [done|]. cbn [stops] in Ht. change (EmptyString +:+ String c t) with (String c t).
    cbn [leadingInt]. by destruct (is_digit c).
  - destruct (is_digit c) eqn:Hc; [|done]. intros Hd H0 Hn Ht. rewrite str_app_cons. cbn [leadingInt]. rewrite Hc.
    assert (0 <= byte_of c - 48) by (unfold is_digit, in_range, byte_of in *; lia).
    assert (10 * x + (byte_of c - 48) <= n) by (eapply digits_go_ge; [exact Hd|lia]).
    assert (2 ^ 63 / 10 <= 2 ^ 63) by done.
    replace (2 ^ 63 / 10 <? x) with false by lia. replace (2 ^ 63 <? x * 10 + (byte_of c - 48)) with false by lia.
    apply IH; [|lia..|done]. by replace (x * 10) with (10 * x) by lia.
Qed.

Lemma after_sign_digit c s : is_digit c = true → after_sign (String c s) = String c s ∧ HasPrefix (String c s) "-" = false.
Proof. destruct c as [[] [] [] [] [] [] [] []]; try done. Qed.

Lemma duration_unit_word u : str_all (λ c, negb (is_digit c || Ascii.eqb c ".")) u = true → duration_unit u = (u, EmptyString).
Proof. induction u as [|c u IH]; [done|]. cbn [str_all duration_unit]. rewrite andb_true_iff, negb_true_iff. intros [-> H]. by rewrite IH. Qed.

(** A number of units is that many times the unit. *)
Lemma ParseDuration_unit (n : N) u k : unit_size u = Some k → Z.of_N n <= 2 ^ 63 / 10 → Z.of_N n * k <= max_int64 →
  str_all (λ c, negb (is_digit c || Ascii.eqb c ".")) u = true →
  ParseDuration (pretty n +:+ u) = Some (Z.of_N n * k).
Proof.
  intros Hu Hn Hk Hw. destruct (pretty_N_first n) as (c & ds & Ec & Hc). pose proof (parse_uint_pretty n) as Hp. rewrite Ec in Hp |- *.
  assert (0 < String.length u)%nat as Hlen by by eapply unit_size_nonempty.
  assert (stops is_digit u = true) as Hstop.
  { destruct u as [|d u]; [done|]. cbn in Hw |- *. by destruct (is_digit d). }
  assert (0 < k) as Hk0 by (unfold unit_size in Hu; repeat (case_match; [simplify_eq; lia|]); simplify_eq).
  rewrite str_app_cons. destruct (after_sign_digit c (ds +:+ u) Hc) as [Ha Hs]. unfold ParseDuration. rewrite Ha, Hs.
  rewrite <- str_app_cons, <- Ec. rewrite <- Ec in Hp.
  assert (leadingInt 0 (pretty n +:+ u) = Some (Z.of_N n, u)) as Hl.
  { apply leadingInt_digits; [|lia|done|done]. rewrite Ec in Hp |- *. exact Hp. }
  assert (∀ w, String.length w = 1%nat → pretty n +:+ u ≠ w) as Hne.
  { intros w Hw1 <-. rewrite str_length_app, Ec in Hw1. cbn in Hw1. lia. }
  rewrite (proj2 (String.eqb_neq _ "0")) by by apply Hne.
  rewrite (proj2 (String.eqb_neq _ EmptyString)) by (rewrite Ec; done).
  assert (duration_part (pretty n +:+ u) = Some (Z.of_N n * k, EmptyString)) as Hpart.
  { rewrite Ec, str_app_cons in Hl |- *. unfold duration_part. rewrite Hc, orb_true_r. cbn [negb]. rewrite Hl.
    replace (String.length _ =? String.length u)%nat with false
      by (symmetry; apply Nat.eqb_neq; cbn; rewrite str_length_app; lia).
    destruct u as [|d u]; [cbn in Hlen; lia|].
    assert (Ascii.eqb d "." = false) as -> by (cbn in Hw; destruct (is_digit d), (Ascii.eqb d "."); done).
    cbn [negb andb]. rewrite duration_unit_word by done. rewrite Hu. cbn [Z.ltb Z.compare].
    replace (2 ^ 63 / k <? Z.of_N n) with false by (symmetry; apply Z.ltb_ge, Z.div_le_lower_bound; unfold max_int64 in *; lia).
    rewrite Z.add_0_r. by replace (2 ^ 63 <? Z.of_N n * k) with false by (symmetry; apply Z.ltb_ge; unfold max_int64 in *; lia). }
  destruct (String.length (pretty n +:+ u)) as [|m] eqn:Em; [rewrite str_length_app in Em; lia|].
  cbn [duration_go]. rewrite Hpart. destruct (pretty n +:+ u) eqn:Ep; [done|].
  rewrite Z.add_0_l. replace (2 ^ 63 <? Z.of_N n * k) with false by (symmetry; apply Z.ltb_ge; unfold max_int64 in *; lia).
  destruct m; cbn [duration_go]; by replace (max_int64 <? Z.of_N n * k) with false by lia.
Qed.
