(* ===== verification/GoGlob.v ===== *)
(** * GoGlob: [filepath.Match] on Unix

    [scanChunk], [matchChunk] and [Match] as in [path/filepath/match.go], with the decoding
    of UTF-8 they use.  [Match_ex] shows two of its answers. *)

From Stdlib Require Import Ascii.
From S2P Require Import Prelude GoStrings.

(** ** unicode/utf8 *)

(** [RuneError], which stands for an invalid byte. *)
Definition RuneError : Z := 65533.

Definition continues (c : ascii) : bool := in_range 128 191 c.

(** The bounds of the second byte: no overlong forms, no surrogates. *)
Definition second_ok (b0 : Z) (c : ascii) : bool :=
  if b0 =? 224 then in_range 160 191 c
  else if b0 =? 237 then in_range 128 159 c
  else if b0 =? 240 then in_range 144 191 c
  else if b0 =? 244 then in_range 128 143 c
  else continues c.

(** [utf8.DecodeRuneInString]: the rune and its width. *)
Definition DecodeRune (s : string) : Z * nat :=
  match s with
  | EmptyString => (RuneError, 0%nat)
  | String c0 s1 =>
      let b0 := byte_of c0 in
      if b0 <? 128 then (b0, 1%nat)
      else
        match s1 with
        | String c1 s2 =>
            if in_range 194 223 c0 then if continues c1 then ((b0 - 192) * 64 + (byte_of c1 - 128), 2%nat) else (RuneError, 1%nat)
            else if in_range 224 244 c0 && second_ok b0 c1 then
              match s2 with
              | String c2 s3 =>
                  if negb (continues c2) then (RuneError, 1%nat)
                  else if b0 <? 240 then (((b0 - 224) * 64 + (byte_of c1 - 128)) * 64 + (byte_of c2 - 128), 3%nat)
                  else
                    match s3 with
                    | String c3 _ =>
                        if continues c3
                        then ((((b0 - 240) * 64 + (byte_of c1 - 128)) * 64 + (byte_of c2 - 128)) * 64 + (byte_of c3 - 128), 4%nat)
                        else (RuneError, 1%nat)
                    | EmptyString => (RuneError, 1%nat)
                    end
              | EmptyString => (RuneError, 1%nat)
              end
            else (RuneError, 1%nat)
        | EmptyString => (RuneError, 1%nat)
        end
  end.

(** ** Chunks of a pattern *)

Fixpoint skip_stars (p : string) : bool * string :=
  match p with
  | String c p' => if Ascii.eqb c "*" then (true, (skip_stars p').2) else (false, p)
  | EmptyString => (false, EmptyString)
  end.

Fixpoint scan_go (inrange : bool) (p : string) : string * string :=
  match p with
  | EmptyString => (EmptyString, EmptyString)
  | String c p' =>
      if Ascii.eqb c "\" then
        match p' with
        | String d p'' => let '(a, b) := scan_go inrange p'' in (String c (String d a), b)
        | EmptyString => (p, EmptyString)
        end
      else if Ascii.eqb c "*" && negb inrange then (EmptyString, p)
      else
        let inrange := if Ascii.eqb c "[" then true else if Ascii.eqb c "]" then false else inrange in
        let '(a, b) := scan_go inrange p' in (String c a, b)
  end.
Definition scanChunk (p : string) : bool * string * string :=
  let '(star, p) := skip_stars p in let '(chunk, rest) := scan_go false p in (star, chunk, rest).

(** [getEsc]; [None] is [ErrBadPattern]. *)
Definition getEsc (chunk : string) : option (Z * string) :=
  let decode (chunk : string) :=
    let '(r, n) := DecodeRune chunk in
    let rest := drop_bytes n chunk in
    if ((r =? RuneError) && (n =? 1)%nat) || String.eqb rest EmptyString then None else Some (r, rest) in
  match chunk with
  | EmptyString => None
  | String c chunk' =>
      if Ascii.eqb c "-" || Ascii.eqb c "]" then None
      else if Ascii.eqb c "\" then if String.eqb chunk' EmptyString then None else decode chunk'
      else decode chunk
  end.

(** The ranges of a class up to its bracket: whether [r] is in one, and the rest. *)
Fixpoint ranges (fuel : nat) (r : Z) (found first : bool) (chunk : string) : option (bool * string) :=
  match fuel with
  | O => None
  | S fuel =>
      match chunk with
      | String c chunk' =>
          if Ascii.eqb c "]" && negb first then Some (found, chunk')
          else
            match getEsc chunk with
            | None => None
            | Some (lo, rest) =>
                if HasPrefix rest "-" then
                  match getEsc (drop_bytes 1 rest) with
                  | None => None
                  | Some (hi, rest) => ranges fuel r (found || ((lo <=? r) && (r <=? hi))) false rest
                  end
                else ranges fuel r (found || (r =? lo)) false rest
            end
      | EmptyString => None
      end
  end.

(** [matchChunk]: [None] is [ErrBadPattern], [Some None] no match, and else what is left
    of the name.  A match that has failed goes on over the chunk, with [name = None]. *)
Fixpoint match_chunk (fuel : nat) (chunk : string) (name : option string) : option (option string) :=
  match fuel with
  | O => None
  | S fuel =>
      match chunk with
      | EmptyString => Some name
      | String c chunk' =>
          let name := match name with Some EmptyString => None | n => n end in
          if Ascii.eqb c "[" then
            let r := match name with Some s => (DecodeRune s).1 | None => 0 end in
            let rest := option_map (λ s, drop_bytes (DecodeRune s).2 s) name in
            let '(negated, body) := if HasPrefix chunk' "^" then (true, drop_bytes 1 chunk') else (false, chunk') in
            match ranges (S (String.length body)) r false true body with
            | None => None
            | Some (found, chunk) => match_chunk fuel chunk (if Bool.eqb found negated then None else rest)
            end
          else if Ascii.eqb c "?" then
            match_chunk fuel chunk'
              (match name with Some s => if HasPrefix s "/" then None else Some (drop_bytes (DecodeRune s).2 s) | None => None end)
          else
            let literal (c : ascii) (chunk : string) :=
              match_chunk fuel chunk
                (match name with Some (String d s) => if Ascii.eqb c d then Some s else None | _ => None end) in
            if Ascii.eqb c "\" then match chunk' with EmptyString => None | String e chunk'' => literal e chunk'' end
            else literal c chunk'
      end
  end.
Definition matchChunk (chunk name : string) : option (option string) := match_chunk (S (String.length chunk)) chunk (Some name).

(** The positions a star can skip to. *)
Fixpoint after_skips (name : string) : list string :=
  match name with
  | EmptyString => []
  | String c name' => if Ascii.eqb c "/" then [] else name' :: after_skips name'
  end.

Fixpoint first_match (chunk : string) (last : bool) (names : list string) : option (option string) :=
  match names with
  | [] => Some None
  | n :: names =>
      match matchChunk chunk n with
      | None => None
      | Some (Some t) => if last && negb (String.eqb t EmptyString) then first_match chunk last names else Some (Some t)
      | Some None => first_match chunk last names
      end
  end.

(** After a failure the rest of the pattern is still checked. *)
Fixpoint check_rest (fuel : nat) (pattern : string) : option bool :=
  match fuel with
  | O => None
  | S fuel =>
      match pattern with
      | EmptyString => Some false
      | _ => let '(_, chunk, rest) := scanChunk pattern in
             match matchChunk chunk EmptyString with None => None | Some _ => check_rest fuel rest end
      end
  end.

Fixpoint match_go (fuel : nat) (pattern name : string) : option bool :=
  match fuel with
  | O => None
  | S fuel =>
      match pattern with
      | EmptyString => Some (String.eqb name EmptyString)
      | _ =>
          let '(star, chunk, rest) := scanChunk pattern in
          if star && String.eqb chunk EmptyString then Some (negb (Contains name "/"))
          else
            let last := String.eqb rest EmptyString in
            match matchChunk chunk name with
            | None => None
            | Some m =>
                match (match m with Some t => if negb last || String.eqb t EmptyString then Some t else None | None => None end) with
                | Some t => match_go fuel rest t
                | None =>
                    match (if star then first_match chunk last (after_skips name) else Some None) with
                    | None => None
                    | Some (Some t) => match_go fuel rest t
                    | Some None => check_rest (S (String.length rest)) rest
                    end
                end
            end
      end
  end.

(** [filepath.Match]; [None] is [ErrBadPattern]. *)
Definition Match (pattern name : string) : option bool := match_go (S (String.length pattern)) pattern name.

Example Match_ex : Match "*@example.com" "a@example.com" = Some true ∧ Match "*@example.com" "a/b@example.com" = Some false
  ∧ Match "[a-c]?*" "b1" = Some true ∧ Match "[a-" "b" = None ∧ Match "a*b*c" "a1b2bc" = Some true ∧ Match "[^]]" "x" = None.
Proof. by vm_compute. Qed.
