(* ===== verification/OAuth2Config.v ===== *)
(** * OAuth2Config: the OAuth2 configuration and the role of a user

    Models [src/internal/config/oauth2_config.go] on top of the token settings of [Jwt]:
    validation, merging with the defaults, and which role a user gets.  A map is gone
    through in the order that an argument gives.  [oauth_valid_iff] characterises the
    configurations that are accepted, [role_is_known] says when the role of a user is one
    of the four roles, and [organisation_roles_unchecked] that acceptance does not ensure
    it.  Reading the file is left out. *)

From Stdlib Require Import Ascii.
From S2P Require Import Prelude GoStrings GoGlob Jwt.

(** The first error of a sequence of checks. *)
Fixpoint first_error {E} (checks : list (option E)) : option E :=
  match checks with
  | [] => None
  | Some e :: _ => Some e
  | None :: checks => first_error checks
  end.

Lemma first_error_None {E} (checks : list (option E)) : first_error checks = None ↔ Forall (λ c, c = None) checks.
Proof.
  induction checks as [|[e|] cs IH]; cbn; [by split| |].
  - split; [done|by inversion 1].
  - rewrite IH. split; [by constructor|by inversion 1].
Qed.

(** ** Data *)

Record OAuth2Provider := mkProvider {
  ClientID : string;
  ClientSecret : string;
  RedirectURI : string;
  Scopes : list string;
  AuthURL : string;
  TokenURL : string;
  UserInfoURL : string;
  EnablePKCE : bool;
  UserIDField : string;
  EmailField : string;
  NameField : string
}.

Record UserMappingConfig := mkMapping {
  AutoCreate : bool;
  DefaultRole : string;
  AdminUsers : list string;
  AdminOrganizations : list string;
  RoleMapping : gmap string string;
  OrganizationMapping : gmap string string
}.

Record OAuth2Config := mkOAuth2 {
  oa_Enabled : bool;
  DefaultProvider : string;
  Providers : gmap string OAuth2Provider;
  oa_JWT : JWTConfig;
  UserMapping : UserMappingConfig
}.

Inductive oauth2_error :=
| ClientIDRequired | ClientSecretRequired | RedirectURIRequired | EndpointsRequired
| InvalidDefaultRole (role : string) | InvalidMappedRole (role : string)
| DefaultProviderRequired | DefaultProviderNotFound (name : string)
| ProviderError (name : string) (e : oauth2_error)
| JWTError (e : config_error).

(** ** Providers *)

Definition default_fields : string → string → string → list string → OAuth2Provider :=
  λ auth token info scopes, mkProvider EmptyString EmptyString EmptyString scopes auth token info true "id" "email" "name".

Definition GetDefaultOAuth2Providers : gmap string OAuth2Provider :=
  <["github"%string := default_fields "https://github.com/login/oauth/authorize" "https://github.com/login/oauth/access_token"
                  "https://api.github.com/user" ["user:email"]]>
  (<["gitlab"%string := default_fields "https://gitlab.com/oauth/authorize" "https://gitlab.com/oauth/token"
                  "https://gitlab.com/api/v4/user" ["read_user"]]>
  {["google"%string := default_fields "https://accounts.google.com/o/oauth2/v2/auth" "https://oauth2.googleapis.com/token"
                  "https://www.googleapis.com/oauth2/v2/userinfo" ["openid"; "email"; "profile"]]}).

Definition empty (s : string) : bool := String.eqb s EmptyString.

Definition ValidateProvider (p : OAuth2Provider) : option oauth2_error :=
  if empty (ClientID p) then Some ClientIDRequired
  else if empty (ClientSecret p) then Some ClientSecretRequired
  else if empty (RedirectURI p) then Some RedirectURIRequired
  else if negb (empty (AuthURL p)) || negb (empty (TokenURL p)) || negb (empty (UserInfoURL p)) then
    if empty (AuthURL p) || empty (TokenURL p) || empty (UserInfoURL p) then Some EndpointsRequired else None
  else None.

Definition IsGenericProvider (p : OAuth2Provider) : bool :=
  negb (empty (AuthURL p)) && negb (empty (TokenURL p)) && negb (empty (UserInfoURL p)).

Definition GetEffectiveScopes (p : OAuth2Provider) : list string :=
  match Scopes p with [] => ["openid"; "email"; "profile"] | s => s end.

(** ** Users *)

Definition validRoles : list string := ["admin"; "maintainer"; "developer"; "viewer"].
Definition is_role (r : string) : bool := bool_decide (r ∈ validRoles).

(** [order]: the role mapping in the order of the loop. *)
Definition ValidateUserMapping (order : list (string * string)) (u : UserMappingConfig) : option oauth2_error :=
  if negb (is_role (DefaultRole u)) then Some (InvalidDefaultRole (DefaultRole u))
  else first_error (map (λ pr, if is_role pr.2 then None else Some (InvalidMappedRole pr.2)) order).

(** The role of the first pattern that matches; a malformed pattern does not. *)
Fixpoint pattern_role (order : list (string * string)) (email : string) : option string :=
  match order with
  | [] => None
  | (pattern, role) :: order => match Match pattern email with Some true => Some role | _ => pattern_role order email end
  end.

Fixpoint organization_role (m : gmap string string) (organizations : list string) : option string :=
  match organizations with
  | [] => None
  | org :: orgs => match m !! org with Some role => Some role | None => organization_role m orgs end
  end.

Definition GetUserRoleWithPattern (order : list (string * string)) (email : string) (organizations : list string)
    (u : UserMappingConfig) : string :=
  if existsb (String.eqb email) (AdminUsers u) then "admin"
  else
    match pattern_role order email with
    | Some role => role
    | None =>
        if existsb (λ org, existsb (String.eqb org) (AdminOrganizations u)) organizations then "admin"
        else match organization_role (OrganizationMapping u) organizations with Some role => role | None => DefaultRole u end
    end.
Definition GetUserRole := GetUserRoleWithPattern.

(** ** The whole configuration *)

Definition with_jwt (j : JWTConfig) (c : OAuth2Config) : OAuth2Config :=
  mkOAuth2 (oa_Enabled c) (DefaultProvider c) (Providers c) j (UserMapping c).

(** [ps] and [rs]: the providers and the role mapping in the order of the loops.  The
    lifetimes of the tokens are set in place. *)
Definition Validate (ps : list (string * OAuth2Provider)) (rs : list (string * string)) (c : OAuth2Config)
    : option oauth2_error * OAuth2Config :=
  if negb (oa_Enabled c) then (None, c)
  else if empty (DefaultProvider c) then (Some DefaultProviderRequired, c)
  else
    match Providers c !! DefaultProvider c with
    | None => (Some (DefaultProviderNotFound (DefaultProvider c)), c)
    | Some _ =>
        match first_error (map (λ np, option_map (ProviderError np.1) (ValidateProvider np.2)) ps) with
        | Some e => (Some e, c)
        | None =>
            let '(e, j) := ValidateJWT (oa_JWT c) in
            let c := with_jwt j c in
            match e with
            | Some e => (Some (JWTError e), c)
            | None => (ValidateUserMapping rs (UserMapping c), c)
            end
        end
    end.

Definition or_text (s t : string) : string := if empty s then t else s.
Definition or_number (n m : Z) : Z := if n =? 0 then m else n.

Definition merge_provider (d p : OAuth2Provider) : OAuth2Provider :=
  mkProvider (ClientID p) (ClientSecret p) (RedirectURI p) (match Scopes p with [] => Scopes d | s => s end)
    (or_text (AuthURL p) (AuthURL d)) (or_text (TokenURL p) (TokenURL d)) (or_text (UserInfoURL p) (UserInfoURL d))
    (EnablePKCE p) (or_text (UserIDField p) (UserIDField d)) (or_text (EmailField p) (EmailField d)) (or_text (NameField p) (NameField d)).

Definition merge_providers (ps : gmap string OAuth2Provider) : gmap string OAuth2Provider :=
  map_imap (λ name p, Some (match GetDefaultOAuth2Providers !! name with Some d => merge_provider d p | None => p end)) ps.

Definition merge_jwt (j : JWTConfig) : JWTConfig :=
  mkJWT (Secret j) (or_number (AccessTokenTTL j) 3600) (or_number (RefreshTokenTTL j) 604800)
    (or_text (Issuer j) "proxynd") (or_text (Audience j) "proxynd-api") (or_text (Algorithm j) "HS256").

Definition merge_mapping (u : UserMappingConfig) : UserMappingConfig :=
  mkMapping (AutoCreate u) (or_text (DefaultRole u) "viewer") (AdminUsers u) (AdminOrganizations u) (RoleMapping u) (OrganizationMapping u).

Definition MergeWithDefaults (c : OAuth2Config) : OAuth2Config :=
  mkOAuth2 (oa_Enabled c) (DefaultProvider c) (merge_providers (Providers c)) (merge_jwt (oa_JWT c)) (merge_mapping (UserMapping c)).

Definition GetProvider (name : string) (c : OAuth2Config) : option OAuth2Provider := Providers c !! name.
Definition GetDefaultProvider (c : OAuth2Config) : option OAuth2Provider := GetProvider (DefaultProvider c) c.

Definition IsEnabled (c : OAuth2Config) : bool :=
  oa_Enabled c && negb (Nat.eqb (size (Providers c)) 0) && negb (empty (Secret (oa_JWT c))).

Definition GetEnabledProviders (ps : list (string * OAuth2Provider)) (c : OAuth2Config) : list string :=
  if negb (oa_Enabled c) then []
  else omap (λ np, if negb (empty (ClientID np.2)) && negb (empty (ClientSecret np.2)) then Some np.1 else None) ps.

(** ** What is accepted *)

Definition complete (p : OAuth2Provider) : Prop :=
  ClientID p ≠ EmptyString ∧ ClientSecret p ≠ EmptyString ∧ RedirectURI p ≠ EmptyString ∧
  ((AuthURL p = EmptyString ∧ TokenURL p = EmptyString ∧ UserInfoURL p = EmptyString) ∨
   (AuthURL p ≠ EmptyString ∧ TokenURL p ≠ EmptyString ∧ UserInfoURL p ≠ EmptyString)).

Definition acceptable (c : OAuth2Config) : Prop :=
  is_Some (GetDefaultProvider c) ∧ DefaultProvider c ≠ EmptyString ∧
  (∀ n p, Providers c !! n = Some p → complete p) ∧
  (32 <= String.length (Secret (oa_JWT c)))%nat ∧ Algorithm (oa_JWT c) ∈ supportedAlgorithms ∧
  DefaultRole (UserMapping c) ∈ validRoles ∧
  ∀ pattern role, RoleMapping (UserMapping c) !! pattern = Some role → role ∈ validRoles.

Lemma empty_spec s : empty s = true ↔ s = EmptyString.
Proof. apply String.eqb_eq. Qed.
Lemma empty_false s : empty s = false ↔ s ≠ EmptyString.
Proof. apply String.eqb_neq. Qed.

Lemma ValidateProvider_iff p : ValidateProvider p = None ↔ complete p.
Proof.
  unfold ValidateProvider, complete.
  destruct (empty (ClientID p)) eqn:E1, (empty (ClientSecret p)) eqn:E2, (empty (RedirectURI p)) eqn:E3, (empty (AuthURL p)) eqn:E4,
    (empty (TokenURL p)) eqn:E5, (empty (UserInfoURL p)) eqn:E6; cbn;
    rewrite ?empty_spec, ?empty_false in *; naive_solver.
Qed.

Lemma ValidateJWT_iff j : (ValidateJWT j).1 = None ↔ (32 <= String.length (Secret j))%nat ∧ Algorithm j ∈ supportedAlgorithms.
Proof.
  unfold ValidateJWT. destruct (String.eqb_spec (Secret j) EmptyString) as [->|Hs]; [cbn; split; [done|lia]|].
  destruct (Nat.ltb_spec (String.length (Secret j)) 32); [cbn; split; [done|lia]|].
  cbn [Algorithm]. case_bool_decide; cbn; naive_solver.
Qed.

Lemma checks_over_map {A} (m : gmap string A) (ps : list (string * A)) (check : string * A → option oauth2_error) :
  map_to_list m ≡ₚ ps → first_error (map check ps) = None ↔ ∀ k x, m !! k = Some x → check (k, x) = None.
Proof.
  intros Hp. rewrite first_error_None, Forall_map, list.Forall_forall. split.
  - intros H k x Hk. apply (H (k, x)). rewrite <- Hp. by apply elem_of_map_to_list.
  - intros H [k x] Hk. apply H. apply elem_of_map_to_list. by rewrite Hp.
Qed.

Lemma ValidateUserMapping_iff rs u : map_to_list (RoleMapping u) ≡ₚ rs →
  ValidateUserMapping rs u = None ↔ DefaultRole u ∈ validRoles ∧ ∀ p r, RoleMapping u !! p = Some r → r ∈ validRoles.
Proof.
  intros Hp. unfold ValidateUserMapping, is_role at 1. case_bool_decide as Hd; cbn [negb]; [|naive_solver].
  rewrite checks_over_map by done. cbn. setoid_rewrite <- (bool_decide_eq_true (_ ∈ validRoles)). unfold is_role. split.
  - intros H. split; [by case_bool_decide|]. intros p r Hr. specialize (H p r Hr). by case_bool_decide.
  - intros [_ H] p r Hr. specialize (H p r Hr). by rewrite H.
Qed.

(** An enabled configuration is accepted exactly when the default provider is one of
    the providers, every provider has its credentials and none or all of its endpoints, the
    secret has 32 bytes, the algorithm is supported, and the default role and the roles of
    the patterns are among the four roles; the order of the maps does not matter. *)
Theorem oauth_valid_iff ps rs c :
  map_to_list (Providers c) ≡ₚ ps → map_to_list (RoleMapping (UserMapping c)) ≡ₚ rs → oa_Enabled c = true →
  (Validate ps rs c).1 = None ↔ acceptable c.
Proof.
  intros Hps Hrs He. unfold Validate, acceptable, GetDefaultProvider, GetProvider. rewrite He. cbn [negb].
  destruct (empty (DefaultProvider c)) eqn:Hd; [apply empty_spec in Hd; cbn; naive_solver|]. apply empty_false in Hd.
  destruct (Providers c !! DefaultProvider c) as [p|] eqn:Hp; [|cbn; split; [done|by intros [[? [=]] _]]].
  pose proof (checks_over_map (Providers c) ps (λ np, option_map (ProviderError np.1) (ValidateProvider np.2)) Hps) as Hc.
  assert ((∀ k x, Providers c !! k = Some x → option_map (ProviderError k) (ValidateProvider x) = None) ↔
          ∀ n q, Providers c !! n = Some q → complete q) as Hcomp.
  { split; intros H n q Hq; specialize (H n q Hq).
    - apply ValidateProvider_iff. by destruct (ValidateProvider q).
    - apply ValidateProvider_iff in H. by rewrite H. }
  cbn [fst snd] in Hc. rewrite Hcomp in Hc.
  destruct (first_error _) as [e|]; [cbn; split; [done|naive_solver]|].
  pose proof (ValidateJWT_iff (oa_JWT c)) as Hj. destruct (ValidateJWT (oa_JWT c)) as [[e|] j]; cbn in Hj |- *.
  - split; [done|]. intros (_ & _ & _ & H1 & H2 & _). by pose proof (proj2 Hj (conj H1 H2)).
  - rewrite ValidateUserMapping_iff by done. pose proof (proj1 Hj eq_refl) as [? ?]. pose proof (proj1 Hc eq_refl). naive_solver.
Qed.

(** ** The role of a user *)

Lemma pattern_role_in order email role : pattern_role order email = Some role → role ∈ order.*2.
Proof. induction order as [|[p r] order IH]; [done|]. cbn [pattern_role].
  destruct (Match p email) as [[]|]; [intros [= ->]; by left| |]; intros H; right; by apply IH. Qed.

Lemma organization_role_in m orgs role : organization_role m orgs = Some role → ∃ org, m !! org = Some role.
Proof. induction orgs as [|o orgs IH]; [done|]. cbn. destruct (m !! o) eqn:E; [intros [= ->]; eauto|done]. Qed.

(** With an accepted configuration whose organisations are mapped to known roles only,
    every user gets one of the four roles, in whatever order the patterns are tried. *)
Theorem role_is_known ps rs order c email orgs :
  map_to_list (Providers c) ≡ₚ ps → map_to_list (RoleMapping (UserMapping c)) ≡ₚ rs → map_to_list (RoleMapping (UserMapping c)) ≡ₚ order →
  oa_Enabled c = true → (Validate ps rs c).1 = None →
  (∀ org role, OrganizationMapping (UserMapping c) !! org = Some role → role ∈ validRoles) →
  GetUserRole order email orgs (UserMapping c) ∈ validRoles.
Proof.
  intros Hps Hrs Ho He Hv Horg. unfold Validate in Hv. rewrite He in Hv. cbn [negb] in Hv.
  destruct (empty _); [done|]. destruct (_ !! _); [|done]. destruct (first_error _); [done|].
  destruct (ValidateJWT _) as [[e|] j]; [done|]. cbn in Hv. apply ValidateUserMapping_iff in Hv as [Hd Hm]; [|done].
  unfold GetUserRole, GetUserRoleWithPattern. destruct (existsb _ (AdminUsers _)); [by left|].
  destruct (pattern_role order email) as [r|] eqn:Er.
  - apply pattern_role_in, list_elem_of_fmap in Er as ([p r'] & -> & Hin). rewrite <- Ho in Hin.
    apply elem_of_map_to_list in Hin. by eapply Hm.
  - destruct (existsb _ orgs); [by left|]. destruct (organization_role _ _) as [r|] eqn:Eo; [|done].
    apply organization_role_in in Eo as [org Hr]. by eapply Horg.
Qed.

(** Whoever is listed as an administrator is one, whatever the mappings say. *)
Theorem listed_admins order email orgs u : email ∈ AdminUsers u → GetUserRole order email orgs u = "admin"%string.
Proof.
  intros H. unfold GetUserRole, GetUserRoleWithPattern. replace (existsb _ _) with true; [done|].
  symmetry. apply existsb_exists. exists email. rewrite String.eqb_refl. by rewrite <- list_elem_of_In.
Qed.

Definition accepted_with (orgs patterns : gmap string string) : OAuth2Config :=
  mkOAuth2 true "github" {["github"%string := mkProvider "id" "secret" "https://p/cb" [] EmptyString EmptyString EmptyString true "id" "email" "name"]}
    (mkJWT "0123456789abcdef0123456789abcdef" 3600 604800 "proxynd" "proxynd-api" "HS256")
    (mkMapping true "viewer" [] [] patterns orgs).

Lemma accepted_with_ok orgs patterns : (∀ p r, patterns !! p = Some r → r ∈ validRoles) → acceptable (accepted_with orgs patterns).
Proof.
  intros H. unfold acceptable, GetDefaultProvider, GetProvider. cbn [accepted_with Providers DefaultProvider oa_JWT UserMapping Secret Algorithm DefaultRole RoleMapping].
  split_and!; [by rewrite lookup_singleton_eq|done| |by vm_compute; lia| | |done].
  - intros n p [<- <-]%lookup_singleton_Some. by split_and!; [..|left].
  - by left.
  - by do 3 right; left.
Qed.

(** The roles of organisations are not validated: any text at all can be the role of a
    user under an accepted configuration. *)
Theorem organisation_roles_unchecked role : ∃ c, acceptable c ∧ GetUserRole [] "a@acme.com" ["acme"] (UserMapping c) = role.
Proof.
  exists (accepted_with {["acme"%string := role]} ∅). split; [by apply accepted_with_ok|].
  unfold GetUserRole, GetUserRoleWithPattern. cbn. by rewrite lookup_singleton_eq.
Qed.

(** When two patterns match an address, the role depends on the order in which the map
    is gone through, which differs from one call to the next. *)
Theorem role_depends_on_order : ∃ c order1 order2,
  acceptable c ∧ map_to_list (RoleMapping (UserMapping c)) ≡ₚ order1 ∧ map_to_list (RoleMapping (UserMapping c)) ≡ₚ order2 ∧
  GetUserRole order1 "root@acme.com" [] (UserMapping c) = "viewer"%string ∧
  GetUserRole order2 "root@acme.com" [] (UserMapping c) = "admin"%string.
Proof.
  set (m := <["*@acme.com"%string := "viewer"%string]> {["root@*"%string := "admin"%string]} : gmap string string).
  exists (accepted_with ∅ m), [("*@acme.com", "viewer"); ("root@*", "admin")]%string, [("root@*", "admin"); ("*@acme.com", "viewer")]%string.
  assert (map_to_list m ≡ₚ [("*@acme.com", "viewer"); ("root@*", "admin")]%string) as Hm by (unfold m; rewrite map_to_list_insert, map_to_list_singleton; done).
  split_and!; [|done|rewrite Hm; apply Permutation_swap|by vm_compute|by vm_compute].
  apply accepted_with_ok. intros p r. unfold m. rewrite lookup_insert_Some, lookup_singleton_Some.
  intros [[_ <-]|(_ & _ & <-)]; [by do 3 right; left|by left].
Qed.

(** ** The defaults *)

Lemma or_text_twice s t : or_text (or_text s t) t = or_text s t.
Proof. unfold or_text. destruct (empty s) eqn:E; [by destruct (empty t)|by rewrite E]. Qed.
Lemma or_number_twice n m : or_number (or_number n m) m = or_number n m.
Proof. unfold or_number. destruct (Z.eqb_spec n 0) as [->|]; [by destruct (m =? 0)|]. by rewrite (proj2 (Z.eqb_neq n 0)). Qed.

(** Merging twice is merging once, and what the configuration says stays. *)
Theorem MergeWithDefaults_idempotent c :
  MergeWithDefaults (MergeWithDefaults c) = MergeWithDefaults c ∧
  (∀ name p, Providers c !! name = Some p → ∃ q, Providers (MergeWithDefaults c) !! name = Some q ∧
     ClientID q = ClientID p ∧ ClientSecret q = ClientSecret p ∧ (TokenURL p ≠ EmptyString → TokenURL q = TokenURL p)) ∧
  (∀ name, Providers c !! name = None → Providers (MergeWithDefaults c) !! name = None).
Proof.
  assert (∀ d p, merge_provider d (merge_provider d p) = merge_provider d p) as Hp.
  { intros d p. unfold merge_provider. cbn. rewrite !or_text_twice. f_equal. destruct (Scopes p); [by destruct (Scopes d)|done]. }
  split_and!.
  - unfold MergeWithDefaults. cbn. f_equal.
    + apply map_eq. intros i. unfold merge_providers. rewrite !map_lookup_imap. destruct (Providers c !! i) as [p|]; [|done]. cbn.
      destruct (GetDefaultOAuth2Providers !! i) as [d|]; [|done]. by rewrite Hp.
    + unfold merge_jwt. cbn. by rewrite !or_text_twice, !or_number_twice.
    + unfold merge_mapping. cbn. by rewrite or_text_twice.
  - intros name p Hn. cbn. unfold merge_providers. rewrite map_lookup_imap, Hn. cbn. eexists; split; [done|].
    destruct (GetDefaultOAuth2Providers !! name) as [d|]; cbn; [|done]. split_and!; [done..|].
    intros Ht. unfold or_text. by rewrite (proj2 (empty_false _) Ht).
  - intros name Hn. cbn. unfold merge_providers. by rewrite map_lookup_imap, Hn.
Qed.

(** ** Witnesses *)

Lemma oauth_valid_iff_witness :
  (Validate (map_to_list (Providers (accepted_with ∅ ∅))) [] (accepted_with ∅ ∅)).1 = None ↔ acceptable (accepted_with ∅ ∅).
Proof. apply (oauth_valid_iff (map_to_list (Providers (accepted_with ∅ ∅))) [] (accepted_with ∅ ∅)); by vm_compute. Defined.

Lemma role_is_known_witness : GetUserRole [] "a@acme.com" ["acme"] (UserMapping (accepted_with {["acme"%string := "developer"%string]} ∅)) ∈ validRoles.
Proof.
  apply (role_is_known (map_to_list (Providers (accepted_with ∅ ∅))) [] [] (accepted_with {["acme"%string := "developer"%string]} ∅)); try by vm_compute.
  cbn. intros org role [<- <-]%lookup_singleton_Some. by do 2 right; left.
Defined.

Lemma listed_admins_witness : GetUserRole [] "root@acme.com" [] (mkMapping true "viewer" ["root@acme.com"] [] ∅ ∅) = "admin"%string.
Proof. apply (listed_admins [] "root@acme.com" [] (mkMapping true "viewer" ["root@acme.com"] [] ∅ ∅)). by left. Defined.
