(* ===== verification/RootConfig.v ===== *)
(** * RootConfig: the configuration of the server

    Models the data of [src/internal/config/root_config.go] and its operations: the
    defaults, the overrides from the environment, validation and what validation leaves
    out, loading from a file, differences, and readiness for production.  YAML is the
    parameter [yaml_unmarshal]; the file system is that of [GoFS].  [root_valid_iff] is the
    list of what an accepted configuration satisfies; [LoadRootConfig_cases] says what
    loading answers in every case. *)

From Stdlib Require Import Ascii.
From S2P Require Import Prelude GoStrings GoPath GoFS GoConv GoNet OAuth2Config.
From S2P Require Alerts Verifier.

(** ** Data *)

(** Values of an [interface{}]; slices, maps and pointers only by their presence. *)
Inductive value :=
| VNil
| VString (s : string)
| VInt (z : Z)
| VInt64 (z : Z)
| VBool (b : bool)
| VFloat (f : float64)
| VDuration (d : duration)
| VOther.

Record TLSConfig := mkTLSConfig { tls_Enabled : bool; tls_CertFile : string; tls_KeyFile : string; tls_MinVersion : string }.

Record CompressionConfig := mkCompressionConfig { cp_Enabled : bool; cp_Level : Z; cp_Types : list string }.

Record CORSConfig := mkCORSConfig {
  cors_Enabled : bool;
  cors_AllowOrigins : list string;
  cors_AllowMethods : list string;
  cors_AllowHeaders : list string;
  cors_AllowCredentials : bool;
  cors_MaxAge : Z
}.

Record ServerConfig := mkServerConfig {
  sv_Host : string;
  sv_Port : Z;
  sv_ReadTimeout : duration;
  sv_WriteTimeout : duration;
  sv_IdleTimeout : duration;
  sv_TLS : TLSConfig;
  sv_EnableHTTP2 : bool;
  sv_Compression : CompressionConfig;
  sv_CORS : CORSConfig
}.

Record FileCacheConfig := mkFileCacheConfig { fc_Directory : string; fc_MaxFileSize : string }.

Record S3CacheConfig := mkS3CacheConfig {
  s3_Endpoint : string;
  s3_Bucket : string;
  s3_Region : string;
  s3_AccessKeyID : string;
  s3_SecretAccessKey : string;
  s3_UseSSL : bool;
  s3_PathPrefix : string
}.

Record RedisCacheConfig := mkRedisCacheConfig { rd_Address : string; rd_Password : string; rd_DB : Z; rd_KeyPrefix : string }.

Record CacheSettings := mkCacheSettings {
  ca_Backend : string;
  ca_TTL : duration;
  ca_MaxSize : string;
  ca_MaxItems : Z;
  ca_CleanupInterval : duration;
  ca_EvictionPolicy : string;
  ca_File : FileCacheConfig;
  ca_S3 : S3CacheConfig;
  ca_Redis : RedisCacheConfig
}.

Record NPMRegistryConfig := mkNPMRegistryConfig {
  npm_Enabled : bool;
  npm_Upstream : string;
  npm_Timeout : duration;
  npm_UserCache : bool;
  npm_Scopes : gmap string string
}.

Record PyPIRegistryConfig := mkPyPIRegistryConfig {
  pypi_Enabled : bool;
  pypi_Upstream : string;
  pypi_Simple : string;
  pypi_Timeout : duration;
  pypi_UserCache : bool
}.

Record APTMirror := mkAPTMirror { am_Name : string; am_URL : string; am_Suites : list string; am_Components : list string }.

Record APTRegistryConfig := mkAPTRegistryConfig { apt_Enabled : bool; apt_UserCache : bool; apt_Mirrors : gmap string (list APTMirror) }.

Record DockerRegistryEndpoint := mkDockerRegistryEndpoint { de_Name : string; de_URL : string; de_Username : string; de_Password : string; de_Insecure : bool }.

Record DockerRegistryConfig := mkDockerRegistryConfig { dk_Enabled : bool; dk_UseCache : bool; dk_Registries : list DockerRegistryEndpoint }.

Record MavenRepositoryConfig := mkMavenRepositoryConfig { mr_ID : string; mr_Name : string; mr_URL : string; mr_Releases : bool; mr_Snapshots : bool }.

Record MavenRegistryConfig := mkMavenRegistryConfig { mv_Enabled : bool; mv_Repositories : list MavenRepositoryConfig }.

Record RegistryConfig := mkRegistryConfig {
  rg_NPM : NPMRegistryConfig;
  rg_PyPI : PyPIRegistryConfig;
  rg_APT : APTRegistryConfig;
  rg_Docker : DockerRegistryConfig;
  rg_Maven : MavenRegistryConfig
}.

Record BasicAuthConfig := mkBasicAuthConfig { ba_Enabled : option bool; ba_Users : gmap string string; ba_Realm : string }.

Record AuthenticationConfig := mkAuthenticationConfig { au_Enabled : option bool; au_BasicAuth : option BasicAuthConfig; au_OAuth2 : option OAuth2Config }.

Record IPWhitelistConfig := mkIPWhitelistConfig { ipw_Enabled : bool; ipw_IPs : list string; ipw_CIDRs : list string }.

Record PermissionRule := mkPermissionRule {
  pr_User : string;
  pr_Groups : list string;
  pr_Actions : list string;
  pr_Registries : list string;
  pr_Packages : list string
}.

Record AccessControlConfig := mkAccessControlConfig { acl_IPWhitelist : IPWhitelistConfig; acl_Permissions : list PermissionRule }.

Record PackageFilterRule := mkPackageFilterRule { pfr_Registry : string; pfr_Patterns : list string; pfr_Action : string }.

Record PackageFilterConfig := mkPackageFilterConfig { pf_Enabled : bool; pf_Mode : string; pf_Rules : list PackageFilterRule }.

Record HashVerificationConfig := mkHashVerificationConfig { hv_Enabled : bool; hv_RequiredHashHeaders : list string; hv_FailOnMismatch : bool }.

Record SecuritySettings := mkSecuritySettings {
  se_Authentication : AuthenticationConfig;
  se_AccessControl : AccessControlConfig;
  se_PackageFilter : PackageFilterConfig;
  se_HashVerification : HashVerificationConfig
}.

(** Of a filter rule, [Alerts] leaves the conditions out. *)
Record ChannelConfig := mkChannelConfig { ch_Name : string; ch_Type : string; ch_Enabled : bool; ch_Config : gmap string value }.

Record AlertConfig := mkAlertConfig {
  al_Enabled : bool;
  al_Channels : list ChannelConfig;
  al_RateLimit : Alerts.RateLimitConfig;
  al_FilterRules : list Alerts.FilterRule
}.

Record FileLogConfig := mkFileLogConfig { fl_Path : string; fl_MaxSize : string; fl_MaxBackups : Z; fl_MaxAge : Z; fl_Compress : bool }.

Record AccessLogConfig := mkAccessLogConfig { alog_Enabled : bool; alog_Path : string; alog_Format : string; alog_RotateDaily : bool }.

Record LoggingSettings := mkLoggingSettings {
  lg_Level : string;
  lg_Format : string;
  lg_Output : string;
  lg_File : FileLogConfig;
  lg_AccessLog : AccessLogConfig
}.

Record MetricsConfig := mkMetricsConfig { mt_Enabled : bool; mt_Path : string; mt_Port : Z; mt_BasicAuth : bool }.

Record SimplePerformanceConfig := mkSimplePerformanceConfig {
  pe_MaxConnections : Z;
  pe_MaxIdleConnections : Z;
  pe_ConnectionTimeout : duration;
  pe_KeepAlive : duration;
  pe_BufferSize : Z
}.

Record RetryConfig := mkRetryConfig { re_MaxAttempts : Z; re_InitialDelay : duration; re_MaxDelay : duration; re_Multiplier : float64 }.

Record CircuitBreakerConfig := mkCircuitBreakerConfig { cbk_Enabled : bool; cbk_FailureThreshold : Z; cbk_SuccessThreshold : Z; cbk_Timeout : duration }.

Record AdvancedConfig := mkAdvancedConfig { ad_Performance : SimplePerformanceConfig; ad_Retry : RetryConfig; ad_CircuitBreaker : CircuitBreakerConfig }.

Record RootConfig := mkRootConfig {
  rc_Server : ServerConfig;
  rc_Cache : CacheSettings;
  rc_Registries : RegistryConfig;
  rc_Security : SecuritySettings;
  rc_Verification : Verifier.VerifierConfig;
  rc_Alerts : AlertConfig;
  rc_Logging : LoggingSettings;
  rc_Metrics : MetricsConfig;
  rc_Advanced : AdvancedConfig
}.

(** ** Errors

    A [ValidationError] is its field and what its message says; the value it carries is
    that of the field. *)

Inductive problem :=
| PortInvalid | CertFileMissing | KeyFileMissing | CertFileNotFound | KeyFileNotFound
| BackendUnsupported | BucketMissing | RegionMissing | AddressMissing | LevelInvalid
| MetricsPortInvalid | MetricsPortTaken | UpstreamMissing | MirrorsMissing | RegistriesMissing | RepositoriesMissing
| MetricsPortDuplicate | TLSFilesMissing | S3Incomplete | PermissionsMissing
| IdleAboveMax | ReadAboveIdle | CleanupTooLong | TooManyAttempts | MaxDelayBelowInitial
| TLSVersionUnsafe | IPInvalid | CIDRInvalid | FilterModeInvalid | FilterActionInvalid | ActionInvalid.

Record ValidationError := mkVErr { ve_Field : string; ve_Problem : problem }.

Inductive load_error := ReadFailed | ParseFailed | InvalidConfig (e : ValidationError).

Definition fails (b : bool) (field : string) (p : problem) : option ValidationError := if b then Some (mkVErr field p) else None.

(** ** Validation *)

Definition validPort (p : Z) : bool := (1 <=? p) && (p <=? 65535).

Definition validateServer (c : RootConfig) : option ValidationError :=
  fails (negb (validPort (sv_Port (rc_Server c)))) "server.port" PortInvalid.

Section with_files.
Context {S : Type} `{!FileSystem S}.

(** [os.Stat] answers any error at all. *)
Definition stat_fails (path : string) (s : S) : bool := match StatFile path s with Some _ => true | None => false end.

Definition validateTLS (s : S) (c : RootConfig) : option ValidationError :=
  let t := sv_TLS (rc_Server c) in
  if negb (tls_Enabled t) then None
  else first_error [fails (empty (tls_CertFile t)) "server.tls.cert_file" CertFileMissing;
                    fails (empty (tls_KeyFile t)) "server.tls.key_file" KeyFileMissing;
                    fails (stat_fails (tls_CertFile t) s) "server.tls.cert_file" CertFileNotFound;
                    fails (stat_fails (tls_KeyFile t) s) "server.tls.key_file" KeyFileNotFound].

Definition validateS3Cache (c : RootConfig) : option ValidationError :=
  first_error [fails (empty (s3_Bucket (ca_S3 (rc_Cache c)))) "cache.s3.bucket" BucketMissing;
               fails (empty (s3_Region (ca_S3 (rc_Cache c)))) "cache.s3.region" RegionMissing].

Definition validateRedisCache (c : RootConfig) : option ValidationError :=
  fails (empty (rd_Address (ca_Redis (rc_Cache c)))) "cache.redis.address" AddressMissing.

Definition set_directory (dir : string) (c : RootConfig) : RootConfig :=
  let k := rc_Cache c in
  mkRootConfig (rc_Server c)
    (mkCacheSettings (ca_Backend k) (ca_TTL k) (ca_MaxSize k) (ca_MaxItems k) (ca_CleanupInterval k) (ca_EvictionPolicy k)
       (mkFileCacheConfig dir (fc_MaxFileSize (ca_File k))) (ca_S3 k) (ca_Redis k))
    (rc_Registries c) (rc_Security c) (rc_Verification c) (rc_Alerts c) (rc_Logging c) (rc_Metrics c) (rc_Advanced c).

(** The directory is filled in while the configuration is validated. *)
Definition validateFileCache (env : environment) (c : RootConfig) : RootConfig :=
  if empty (fc_Directory (ca_File (rc_Cache c))) then set_directory (PathJoin (TempDir env) "proxynd-cache") c else c.

Definition validateCache (env : environment) (c : RootConfig) : option ValidationError * RootConfig :=
  let backend := ca_Backend (rc_Cache c) in
  if String.eqb backend "file" then (None, validateFileCache env c)
  else if String.eqb backend "s3" then (validateS3Cache c, c)
  else if String.eqb backend "redis" then (validateRedisCache c, c)
  else (Some (mkVErr "cache.backend" BackendUnsupported), c).

Definition log_levels : list string := ["debug"; "info"; "warn"; "error"].

(** Not among the keys of a table. *)
Definition outside (l : list string) (x : string) : bool := negb (bool_decide (x ∈ l)).

Definition validateLogging (c : RootConfig) : option ValidationError :=
  fails (outside log_levels (lg_Level (rc_Logging c))) "logging.level" LevelInvalid.

Definition validateMetrics (c : RootConfig) : option ValidationError :=
  let m := rc_Metrics c in
  if negb (mt_Enabled m) || (mt_Port m =? 0) then None
  else first_error [fails (negb (validPort (mt_Port m))) "metrics.port" MetricsPortInvalid;
                    fails (mt_Port m =? sv_Port (rc_Server c)) "metrics.port" MetricsPortTaken].

Definition validateNPMRegistry (c : RootConfig) : option ValidationError :=
  fails (empty (npm_Upstream (rg_NPM (rc_Registries c)))) "registries.npm.upstream" UpstreamMissing.
Definition validatePyPIRegistry (c : RootConfig) : option ValidationError :=
  fails (empty (pypi_Upstream (rg_PyPI (rc_Registries c)))) "registries.pypi.upstream" UpstreamMissing.
Definition validateDockerRegistry (c : RootConfig) : option ValidationError :=
  fails (Nat.eqb (length (dk_Registries (rg_Docker (rc_Registries c)))) 0) "registries.docker.registries" RegistriesMissing.
Definition validateMavenRegistry (c : RootConfig) : option ValidationError :=
  fails (Nat.eqb (length (mv_Repositories (rg_Maven (rc_Registries c)))) 0) "registries.maven.repositories" RepositoriesMissing.

(** [order]: the mirrors in the order in which the map is gone through. *)
Definition validateAPTRegistry (order : list (string * list APTMirror)) (c : RootConfig) : option ValidationError :=
  first_error (fails (Nat.eqb (size (apt_Mirrors (rg_APT (rc_Registries c)))) 0) "registries.apt.mirrors" MirrorsMissing ::
               map (λ dm, fails (Nat.eqb (length dm.2) 0) ("registries.apt.mirrors." +:+ dm.1) MirrorsMissing) order).

Definition validateRegistries (order : list (string * list APTMirror)) (c : RootConfig) : option ValidationError :=
  let r := rc_Registries c in
  first_error (map (λ ev : bool * option ValidationError, if ev.1 then ev.2 else None)
    [(npm_Enabled (rg_NPM r), validateNPMRegistry c); (pypi_Enabled (rg_PyPI r), validatePyPIRegistry c);
     (apt_Enabled (rg_APT r), validateAPTRegistry order c); (dk_Enabled (rg_Docker r), validateDockerRegistry c);
     (mv_Enabled (rg_Maven r), validateMavenRegistry c)]).

Definition validateBasicFields (order : list (string * list APTMirror)) (env : environment) (s : S) (c : RootConfig)
    : option ValidationError * RootConfig :=
  match first_error [validateServer c; validateTLS s c] with
  | Some e => (Some e, c)
  | None =>
      let '(e, c) := validateCache env c in
      (match e with Some e => Some e | None => first_error [validateLogging c; validateMetrics c; validateRegistries order c] end, c)
  end.

(** The pointer and the flag behind it are both set. *)
Definition basic_auth_enabled (c : RootConfig) : bool :=
  match au_BasicAuth (se_Authentication (rc_Security c)) with
  | Some b => match ba_Enabled b with Some e => e | None => false end
  | None => false
  end.

Definition validateCrossReferences (c : RootConfig) : option ValidationError :=
  let m := rc_Metrics c in let t := sv_TLS (rc_Server c) in let k := rc_Cache c in
  first_error
    [fails (mt_Enabled m && negb (mt_Port m =? 0) && (mt_Port m =? sv_Port (rc_Server c))) "metrics.port" MetricsPortDuplicate;
     fails (tls_Enabled t && (empty (tls_CertFile t) || empty (tls_KeyFile t))) "server.tls" TLSFilesMissing;
     (if String.eqb (ca_Backend k) "s3" then fails (empty (s3_Bucket (ca_S3 k)) || empty (s3_Region (ca_S3 k))) "cache.s3" S3Incomplete
      else if String.eqb (ca_Backend k) "redis" then fails (empty (rd_Address (ca_Redis k))) "cache.redis.address" AddressMissing else None);
     fails (basic_auth_enabled c && Nat.eqb (length (acl_Permissions (se_AccessControl (rc_Security c)))) 0)
       "security.access_control.permissions" PermissionsMissing].

Definition validatePerformanceSettings (c : RootConfig) : option ValidationError :=
  let p := ad_Performance (rc_Advanced c) in let sv := rc_Server c in let k := rc_Cache c in let r := ad_Retry (rc_Advanced c) in
  first_error
    [fails (pe_MaxConnections p <? pe_MaxIdleConnections p) "advanced.performance.max_idle_connections" IdleAboveMax;
     fails ((0 <? sv_ReadTimeout sv) && (0 <? sv_WriteTimeout sv) && (sv_IdleTimeout sv <? sv_ReadTimeout sv)) "server.read_timeout" ReadAboveIdle;
     fails ((0 <? ca_TTL k) && (0 <? ca_CleanupInterval k) && (wrap64 (ca_TTL k * 2) <? ca_CleanupInterval k)) "cache.cleanup_interval" CleanupTooLong;
     fails (10 <? re_MaxAttempts r) "advanced.retry.max_attempts" TooManyAttempts;
     fails (re_MaxDelay r <? re_InitialDelay r) "advanced.retry.max_delay" MaxDelayBelowInitial].

Definition safe_versions : list string := ["TLS1.2"; "TLS1.3"].
Definition filter_modes : list string := ["allowlist"; "blocklist"].
Definition filter_actions : list string := ["allow"; "deny"].
Definition rule_actions : list string := ["read"; "write"; "delete"].

Definition check_rule (i : nat) (rule : PermissionRule) : option ValidationError :=
  first_error (map (λ a, fails (outside rule_actions a)
    ("security.access_control.permissions[" +:+ (Itoa (Z.of_nat i) +:+ "].actions")) ActionInvalid) (pr_Actions rule)).

Definition validateSecuritySettings (c : RootConfig) : option ValidationError :=
  let t := sv_TLS (rc_Server c) in
  let w := acl_IPWhitelist (se_AccessControl (rc_Security c)) in
  let f := se_PackageFilter (rc_Security c) in
  first_error
    ([fails (tls_Enabled t && negb (empty (tls_MinVersion t)) && outside safe_versions (tls_MinVersion t)) "server.tls.min_version" TLSVersionUnsafe] ++
     (if ipw_Enabled w
      then map (λ ip, fails (match ParseIP ip with Some _ => false | None => true end) "security.access_control.ip_whitelist.ips" IPInvalid) (ipw_IPs w) ++
           map (λ n, fails (match ParseCIDR n with Some _ => false | None => true end) "security.access_control.ip_whitelist.cidrs" CIDRInvalid) (ipw_CIDRs w)
      else []) ++
     (if pf_Enabled f
      then fails (outside filter_modes (pf_Mode f)) "security.package_filter.mode" FilterModeInvalid ::
           map (λ r, fails (outside filter_actions (pfr_Action r)) "security.package_filter.rules.action" FilterActionInvalid) (pf_Rules f)
      else []) ++
     imap check_rule (acl_Permissions (se_AccessControl (rc_Security c)))).

Record ValidationOptions := mkOptions {
  EnableCrossValidation : bool; EnablePerformanceCheck : bool; EnableSecurityCheck : bool; SkipExternalConnections : bool
}.

Definition ValidateWithOptions (order : list (string * list APTMirror)) (env : environment) (s : S) (opts : ValidationOptions)
    (c : RootConfig) : option ValidationError * RootConfig :=
  let '(e, c) := validateBasicFields order env s c in
  (match e with
   | Some e => Some e
   | None => first_error [if EnableCrossValidation opts then validateCrossReferences c else None;
                          if EnablePerformanceCheck opts then validatePerformanceSettings c else None;
                          if EnableSecurityCheck opts then validateSecuritySettings c else None]
   end, c).

Definition Validate (order : list (string * list APTMirror)) (env : environment) (s : S) (c : RootConfig)
    : option ValidationError * RootConfig :=
  ValidateWithOptions order env s (mkOptions true true true false) c.

Definition ValidateRootConfig (order : list (string * list APTMirror)) (env : environment) (s : S) (c : RootConfig) : list ValidationError :=
  option_list (Validate order env s c).1.

(** ** Loading

    [env] is the environment; [yaml_unmarshal data c] fills in what the document says. *)
Context (yaml_unmarshal : string → RootConfig → option RootConfig).

(** The zero value of the structures. *)
Definition zero_config : RootConfig :=
  let n := EmptyString in
  mkRootConfig
    (mkServerConfig n 0 0 0 0 (mkTLSConfig false n n n) false (mkCompressionConfig false 0 []) (mkCORSConfig false [] [] [] false 0))
    (mkCacheSettings n 0 n 0 0 n (mkFileCacheConfig n n) (mkS3CacheConfig n n n n n false n) (mkRedisCacheConfig n n 0 n))
    (mkRegistryConfig (mkNPMRegistryConfig false n 0 false ∅) (mkPyPIRegistryConfig false n n 0 false) (mkAPTRegistryConfig false false ∅)
       (mkDockerRegistryConfig false false []) (mkMavenRegistryConfig false []))
    (mkSecuritySettings (mkAuthenticationConfig None None None) (mkAccessControlConfig (mkIPWhitelistConfig false [] []) [])
       (mkPackageFilterConfig false n []) (mkHashVerificationConfig false [] false))
    (Verifier.mkVerifierConfig false false false ∅)
    (mkAlertConfig false [] (Alerts.mkRlConfig false 0 0 0) [])
    (mkLoggingSettings n n n (mkFileLogConfig n n 0 0 false) (mkAccessLogConfig false n n false))
    (mkMetricsConfig false n 0 false)
    (mkAdvancedConfig (mkSimplePerformanceConfig 0 0 0 0 0) (mkRetryConfig 0 0 0 (S754_zero false)) (mkCircuitBreakerConfig false 0 0 0)).

(** [ApplyDefaults] sets what is zero. *)
Definition default_server (s : ServerConfig) : ServerConfig :=
  let t := sv_TLS s in
  mkServerConfig (or_text (sv_Host s) "0.0.0.0") (or_number (sv_Port s) 8080) (or_number (sv_ReadTimeout s) (30 * second))
    (or_number (sv_WriteTimeout s) (30 * second)) (or_number (sv_IdleTimeout s) (120 * second))
    (mkTLSConfig (tls_Enabled t) (tls_CertFile t) (tls_KeyFile t) (or_text (tls_MinVersion t) "TLS1.2"))
    (sv_EnableHTTP2 s) (sv_Compression s) (sv_CORS s).

Definition default_cache (k : CacheSettings) : CacheSettings :=
  mkCacheSettings (or_text (ca_Backend k) "file") (or_number (ca_TTL k) (3600 * second)) (or_text (ca_MaxSize k) "10GB") (ca_MaxItems k)
    (or_number (ca_CleanupInterval k) hour) (or_text (ca_EvictionPolicy k) "lru") (ca_File k) (ca_S3 k) (ca_Redis k).

Definition default_logging (l : LoggingSettings) : LoggingSettings :=
  mkLoggingSettings (or_text (lg_Level l) "info") (or_text (lg_Format l) "json") (or_text (lg_Output l) "stdout") (lg_File l) (lg_AccessLog l).

Definition default_metrics (m : MetricsConfig) : MetricsConfig :=
  mkMetricsConfig (mt_Enabled m) (or_text (mt_Path m) "/metrics") (mt_Port m) (mt_BasicAuth m).

Definition default_advanced (a : AdvancedConfig) : AdvancedConfig :=
  let p := ad_Performance a in let r := ad_Retry a in let b := ad_CircuitBreaker a in
  mkAdvancedConfig
    (mkSimplePerformanceConfig (or_number (pe_MaxConnections p) 1000) (or_number (pe_MaxIdleConnections p) 100)
       (or_number (pe_ConnectionTimeout p) (30 * second)) (or_number (pe_KeepAlive p) (30 * second)) (or_number (pe_BufferSize p) 4096))
    (mkRetryConfig (or_number (re_MaxAttempts r) 3) (or_number (re_InitialDelay r) second) (or_number (re_MaxDelay r) (30 * second))
       (if feq (re_Multiplier r) (of_int 0) then of_int 2 else re_Multiplier r))
    (mkCircuitBreakerConfig (cbk_Enabled b) (or_number (cbk_FailureThreshold b) 5) (or_number (cbk_SuccessThreshold b) 2)
       (or_number (cbk_Timeout b) (60 * second))).

Definition ApplyDefaults (c : RootConfig) : RootConfig :=
  mkRootConfig (default_server (rc_Server c)) (default_cache (rc_Cache c)) (rc_Registries c) (rc_Security c) (rc_Verification c)
    (rc_Alerts c) (default_logging (rc_Logging c)) (default_metrics (rc_Metrics c)) (default_advanced (rc_Advanced c)).

(** A variable that is set; a number that can be read. *)
Definition env_text (v s : string) : string := if empty v then s else v.
Definition env_number (v : string) (n : Z) : Z :=
  if empty v then n else match Atoi v with (m, None) => m | _ => n end.

Definition set_server (sv : ServerConfig) (c : RootConfig) : RootConfig :=
  mkRootConfig sv (rc_Cache c) (rc_Registries c) (rc_Security c) (rc_Verification c) (rc_Alerts c) (rc_Logging c) (rc_Metrics c) (rc_Advanced c).
Definition set_logging (lg : LoggingSettings) (c : RootConfig) : RootConfig :=
  mkRootConfig (rc_Server c) (rc_Cache c) (rc_Registries c) (rc_Security c) (rc_Verification c) (rc_Alerts c) lg (rc_Metrics c) (rc_Advanced c).

(** The certificate and the key, as both loaders take them: a certificate turns TLS on. *)
Definition override_tls (env : environment) (t : TLSConfig) : TLSConfig :=
  mkTLSConfig (negb (empty (env "TLS_CERT_FILE")) || tls_Enabled t) (env_text (env "TLS_CERT_FILE") (tls_CertFile t))
    (env_text (env "TLS_KEY_FILE") (tls_KeyFile t)) (tls_MinVersion t).

Definition applyEnvironmentOverrides (env : environment) (c : RootConfig) : RootConfig :=
  let sv := rc_Server c in let lg := rc_Logging c in
  let c := set_server (mkServerConfig (sv_Host sv) (env_number (env "SERVER_PORT") (sv_Port sv)) (sv_ReadTimeout sv) (sv_WriteTimeout sv)
             (sv_IdleTimeout sv) (override_tls env (sv_TLS sv)) (sv_EnableHTTP2 sv) (sv_Compression sv) (sv_CORS sv)) c in
  let c := set_directory (env_text (env "STORAGE_DIR") (fc_Directory (ca_File (rc_Cache c)))) c in
  set_logging (mkLoggingSettings (env_text (env "LOG_LEVEL") (lg_Level lg)) (lg_Format lg) (lg_Output lg) (lg_File lg) (lg_AccessLog lg)) c.

(** [iter]: the order in which a map is gone through. *)
Definition LoadRootConfig (iter : gmap string (list APTMirror) → list (string * list APTMirror)) (env : environment) (configPath : string) (s : S) : result load_error RootConfig :=
  if bool_decide (StatFile configPath s = Some ErrNotExist) then Ok (ApplyDefaults zero_config)
  else
    match ReadFile configPath s with
    | Err _ => Err ReadFailed
    | Ok data =>
        match yaml_unmarshal data zero_config with
        | None => Err ParseFailed
        | Some c =>
            match Validate (iter (apt_Mirrors (rg_APT (rc_Registries c)))) env s (applyEnvironmentOverrides env c) with
            | (Some e, _) => Err (InvalidConfig e)
            | (None, c) => Ok c
            end
        end
    end.

(** ** Other operations *)

Record ConfigDiff := mkDiff { cd_Field : string; cd_OldValue : value; cd_NewValue : value }.

Definition Diff (c other : RootConfig) : list ConfigDiff :=
  (if sv_Port (rc_Server c) =? sv_Port (rc_Server other) then []
   else [mkDiff "server.port" (VInt (sv_Port (rc_Server c))) (VInt (sv_Port (rc_Server other)))]) ++
  (if String.eqb (sv_Host (rc_Server c)) (sv_Host (rc_Server other)) then []
   else [mkDiff "server.host" (VString (sv_Host (rc_Server c))) (VString (sv_Host (rc_Server other)))]) ++
  (if String.eqb (ca_Backend (rc_Cache c)) (ca_Backend (rc_Cache other)) then []
   else [mkDiff "cache.backend" (VString (ca_Backend (rc_Cache c))) (VString (ca_Backend (rc_Cache other)))]) ++
  (if String.eqb (lg_Level (rc_Logging c)) (lg_Level (rc_Logging other)) then []
   else [mkDiff "logging.level" (VString (lg_Level (rc_Logging c))) (VString (lg_Level (rc_Logging other)))]).

Inductive issue := TLSDisabled | AuthenticationDisabled | DebugLogging | MetricsDisabled.

Definition IsProductionReady (c : RootConfig) : bool * list issue :=
  let issues :=
    (if tls_Enabled (sv_TLS (rc_Server c)) then [] else [TLSDisabled]) ++
    (if basic_auth_enabled c then [] else [AuthenticationDisabled]) ++
    (if String.eqb (lg_Level (rc_Logging c)) "debug" then [DebugLogging] else []) ++
    (if mt_Enabled (rc_Metrics c) then [] else [MetricsDisabled]) in
  (Nat.eqb (length issues) 0, issues).

(** The fields of the warnings. *)
Definition GetValidationWarnings (c : RootConfig) : list string :=
  (if tls_Enabled (sv_TLS (rc_Server c)) && String.eqb (tls_MinVersion (sv_TLS (rc_Server c))) "TLS1.2" then ["server.tls.min_version"%string] else []) ++
  (if String.eqb (lg_Level (rc_Logging c)) "debug" then ["logging.level"%string] else []).
End with_files.

(** ** What is accepted *)

(** What is left after the checks have been rewritten into their conditions. *)
Ltac solve_iff := cbn [first_error negb orb andb fst snd] in *; intuition (try congruence; eauto).

Lemma fails_None b f p : fails b f p = None ↔ b = false.
Proof. by destruct b. Qed.
Lemma first_error_cons {E} (o : option E) os : first_error (o :: os) = None ↔ o = None ∧ first_error os = None.
Proof. destruct o; cbn; naive_solver. Qed.
Lemma first_error_app {E} (l k : list (option E)) : first_error (l ++ k) = None ↔ first_error l = None ∧ first_error k = None.
Proof. induction l as [|[e|] l IH]; cbn; naive_solver. Qed.
Lemma first_error_map {A E} (f : A → option E) l : first_error (map f l) = None ↔ ∀ x, x ∈ l → f x = None.
Proof.
  induction l as [|x l IH]; cbn [map].
  - split; [intros _ x Hx; by apply not_elem_of_nil in Hx|done].
  - rewrite first_error_cons, IH. split.
    + intros [H1 H2] y [->|Hy]%elem_of_cons; auto.
    + intros H. split; [apply H; by left|intros y Hy; apply H; by right].
Qed.
Lemma first_error_imap {A E} (f : nat → A → option E) l : first_error (imap f l) = None ↔ ∀ i x, l !! i = Some x → f i x = None.
Proof.
  revert f; induction l as [|x l IH]; intros f; cbn [imap]; [split; [by intros _ []|done]|].
  rewrite first_error_cons, IH. split.
  - intros [H1 H2] [|i] y; cbn; [by intros [= <-]|by apply H2].
  - intros H. split; [by apply (H 0%nat)|intros i y; by apply (H (S i))].
Qed.
Lemma outside_false l x : outside l x = false ↔ x ∈ l.
Proof. unfold outside. case_bool_decide; naive_solver. Qed.

(** The conditions, field by field. *)
Definition tls_ok {S} `{!FileSystem S} (s : S) (t : TLSConfig) : Prop :=
  tls_Enabled t = true →
    tls_CertFile t ≠ EmptyString ∧ tls_KeyFile t ≠ EmptyString ∧ StatFile (tls_CertFile t) s = None ∧ StatFile (tls_KeyFile t) s = None ∧
    (tls_MinVersion t = EmptyString ∨ tls_MinVersion t ∈ safe_versions).

Definition backend_ok (k : CacheSettings) : Prop :=
  ca_Backend k = "file"%string ∨
  (ca_Backend k = "s3"%string ∧ s3_Bucket (ca_S3 k) ≠ EmptyString ∧ s3_Region (ca_S3 k) ≠ EmptyString) ∨
  (ca_Backend k = "redis"%string ∧ rd_Address (ca_Redis k) ≠ EmptyString).

Definition registries_ok (r : RegistryConfig) : Prop :=
  (npm_Enabled (rg_NPM r) = true → npm_Upstream (rg_NPM r) ≠ EmptyString) ∧
  (pypi_Enabled (rg_PyPI r) = true → pypi_Upstream (rg_PyPI r) ≠ EmptyString) ∧
  (apt_Enabled (rg_APT r) = true → apt_Mirrors (rg_APT r) ≠ ∅ ∧ ∀ d ms, apt_Mirrors (rg_APT r) !! d = Some ms → ms ≠ []) ∧
  (dk_Enabled (rg_Docker r) = true → dk_Registries (rg_Docker r) ≠ []) ∧
  (mv_Enabled (rg_Maven r) = true → mv_Repositories (rg_Maven r) ≠ []).

Definition performance_ok (c : RootConfig) : Prop :=
  pe_MaxIdleConnections (ad_Performance (rc_Advanced c)) <= pe_MaxConnections (ad_Performance (rc_Advanced c)) ∧
  (0 < sv_ReadTimeout (rc_Server c) → 0 < sv_WriteTimeout (rc_Server c) → sv_ReadTimeout (rc_Server c) <= sv_IdleTimeout (rc_Server c)) ∧
  (0 < ca_TTL (rc_Cache c) → 0 < ca_CleanupInterval (rc_Cache c) → ca_CleanupInterval (rc_Cache c) <= wrap64 (ca_TTL (rc_Cache c) * 2)) ∧
  re_MaxAttempts (ad_Retry (rc_Advanced c)) <= 10 ∧
  re_InitialDelay (ad_Retry (rc_Advanced c)) <= re_MaxDelay (ad_Retry (rc_Advanced c)).

Definition security_ok (x : SecuritySettings) : Prop :=
  (ipw_Enabled (acl_IPWhitelist (se_AccessControl x)) = true →
     (∀ ip, ip ∈ ipw_IPs (acl_IPWhitelist (se_AccessControl x)) → is_Some (ParseIP ip)) ∧
     (∀ n, n ∈ ipw_CIDRs (acl_IPWhitelist (se_AccessControl x)) → is_Some (ParseCIDR n))) ∧
  (pf_Enabled (se_PackageFilter x) = true →
     pf_Mode (se_PackageFilter x) ∈ filter_modes ∧ ∀ r, r ∈ pf_Rules (se_PackageFilter x) → pfr_Action r ∈ filter_actions) ∧
  (∀ r a, r ∈ acl_Permissions (se_AccessControl x) → a ∈ pr_Actions r → a ∈ rule_actions).

Definition valid_config {S} `{!FileSystem S} (s : S) (c : RootConfig) : Prop :=
  1 <= sv_Port (rc_Server c) <= 65535 ∧ tls_ok s (sv_TLS (rc_Server c)) ∧ backend_ok (rc_Cache c) ∧
  lg_Level (rc_Logging c) ∈ log_levels ∧
  (mt_Enabled (rc_Metrics c) = true → mt_Port (rc_Metrics c) ≠ 0 →
     1 <= mt_Port (rc_Metrics c) <= 65535 ∧ mt_Port (rc_Metrics c) ≠ sv_Port (rc_Server c)) ∧
  registries_ok (rc_Registries c) ∧
  (basic_auth_enabled c = true → acl_Permissions (se_AccessControl (rc_Security c)) ≠ []) ∧
  performance_ok c ∧ security_ok (rc_Security c).

Section accepted.
Context {S : Type} `{!FileSystem S}.
Implicit Types (s : S) (c : RootConfig).

Lemma validPort_spec p : validPort p = true ↔ 1 <= p <= 65535.
Proof. unfold validPort. lia. Qed.

Lemma validateTLS_None s c : validateTLS s c = None ↔
  (tls_Enabled (sv_TLS (rc_Server c)) = true → tls_CertFile (sv_TLS (rc_Server c)) ≠ EmptyString ∧ tls_KeyFile (sv_TLS (rc_Server c)) ≠ EmptyString ∧
    StatFile (tls_CertFile (sv_TLS (rc_Server c))) s = None ∧ StatFile (tls_KeyFile (sv_TLS (rc_Server c))) s = None).
Proof.
  unfold validateTLS. destruct (tls_Enabled _); cbn [negb]; [|solve_iff].
  rewrite !first_error_cons, !fails_None, !empty_false. unfold stat_fails.
  destruct (StatFile (tls_CertFile _) s), (StatFile (tls_KeyFile _) s); solve_iff.
Qed.

Lemma validateCache_None env c : (validateCache env c).1 = None ↔ backend_ok (rc_Cache c).
Proof.
  unfold validateCache, backend_ok. destruct (String.eqb_spec (ca_Backend (rc_Cache c)) "file") as [->|H1]; [cbn; solve_iff|].
  destruct (String.eqb_spec (ca_Backend (rc_Cache c)) "s3") as [->|H2].
  { cbn [String.eqb Ascii.eqb Bool.eqb fst]. unfold validateS3Cache. rewrite !first_error_cons, !fails_None, !empty_false. solve_iff. }
  destruct (String.eqb_spec (ca_Backend (rc_Cache c)) "redis") as [->|H3]; [|cbn; solve_iff].
  cbn [fst]. unfold validateRedisCache. rewrite fails_None, empty_false. solve_iff.
Qed.

Lemma validateCache_keeps env c : ∃ dir, (validateCache env c).2 = set_directory dir c ∧
  (dir = fc_Directory (ca_File (rc_Cache c)) ∨ (fc_Directory (ca_File (rc_Cache c)) = EmptyString ∧ dir = PathJoin (TempDir env) "proxynd-cache")).
Proof.
  assert (set_directory (fc_Directory (ca_File (rc_Cache c))) c = c) as Hs by (destruct c as [? [? ? ? ? ? ? [] ? ?] ? ? ? ? ? ? ?]; done).
  unfold validateCache. repeat case_match; cbn; try (by exists (fc_Directory (ca_File (rc_Cache c))); eauto).
  unfold validateFileCache. destruct (empty _) eqn:E; [|by exists (fc_Directory (ca_File (rc_Cache c))); eauto].
  eexists; split; [done|]. right. split; [by apply empty_spec|done].
Qed.

Lemma validateMetrics_None c : validateMetrics c = None ↔
  (mt_Enabled (rc_Metrics c) = true → mt_Port (rc_Metrics c) ≠ 0 →
     1 <= mt_Port (rc_Metrics c) <= 65535 ∧ mt_Port (rc_Metrics c) ≠ sv_Port (rc_Server c)).
Proof.
  unfold validateMetrics. destruct (mt_Enabled _); cbn [negb orb]; [|solve_iff].
  destruct (Z.eqb_spec (mt_Port (rc_Metrics c)) 0); [solve_iff|].
  rewrite !first_error_cons, !fails_None, negb_false_iff, validPort_spec, Z.eqb_neq. solve_iff.
Qed.

Lemma length_zero {A} (l : list A) : Nat.eqb (length l) 0 = false ↔ l ≠ [].
Proof. destruct l; cbn; split; done. Qed.

Lemma validateAPT_None order c : map_to_list (apt_Mirrors (rg_APT (rc_Registries c))) ≡ₚ order →
  validateAPTRegistry order c = None ↔
  apt_Mirrors (rg_APT (rc_Registries c)) ≠ ∅ ∧ ∀ d ms, apt_Mirrors (rg_APT (rc_Registries c)) !! d = Some ms → ms ≠ [].
Proof.
  intros Hp. unfold validateAPTRegistry. rewrite first_error_cons, first_error_map, fails_None, Nat.eqb_neq, map_size_empty_iff. split.
  - intros [H1 H2]. split; [done|]. intros d ms Hd. apply elem_of_map_to_list in Hd. rewrite Hp in Hd. apply H2 in Hd.
    by apply fails_None, length_zero in Hd.
  - intros [H1 H2]. split; [done|]. intros [d ms] Hin. rewrite <- Hp in Hin. apply elem_of_map_to_list in Hin.
    apply fails_None, length_zero. by eapply H2.
Qed.

Lemma validateRegistries_None order c : map_to_list (apt_Mirrors (rg_APT (rc_Registries c))) ≡ₚ order →
  validateRegistries order c = None ↔ registries_ok (rc_Registries c).
Proof.
  intros Hp. pose proof (validateAPT_None order c Hp) as Ha. unfold validateRegistries, registries_ok. cbn [map].
  rewrite !first_error_cons. cbn [fst snd first_error].
  unfold validateNPMRegistry, validatePyPIRegistry, validateDockerRegistry, validateMavenRegistry.
  assert (∀ (b : bool) (o : option ValidationError) P, (o = None ↔ P) → ((if b then o else None) = None ↔ (b = true → P))) as Hif
    by (intros [] o P HP; [rewrite HP|]; solve_iff).
  rewrite (Hif _ _ _ (iff_trans (fails_None _ _ _) (empty_false _))), (Hif _ _ _ (iff_trans (fails_None _ _ _) (empty_false _))), (Hif _ _ _ Ha).
  rewrite (Hif _ _ _ (iff_trans (fails_None _ _ _) (length_zero _))), (Hif _ _ _ (iff_trans (fails_None _ _ _) (length_zero _))). tauto.
Qed.

Lemma validatePerformance_None c : validatePerformanceSettings c = None ↔ performance_ok c.
Proof.
  unfold validatePerformanceSettings, performance_ok. rewrite !first_error_cons, !fails_None, !andb_false_iff, !Z.ltb_ge. cbn.
  split; [intros (?&[[]|]&[[]|]&?&?&_); repeat split; lia|intros (?&?&?&?&?)]. repeat split; lia.
Qed.

Lemma validateSecurity_None c : validateSecuritySettings c = None ↔
  (tls_Enabled (sv_TLS (rc_Server c)) = true →
     tls_MinVersion (sv_TLS (rc_Server c)) = EmptyString ∨ tls_MinVersion (sv_TLS (rc_Server c)) ∈ safe_versions) ∧ security_ok (rc_Security c).
Proof.
  unfold validateSecuritySettings, security_ok. rewrite !first_error_app, first_error_imap, first_error_cons, fails_None, !andb_false_iff, outside_false, negb_false_iff, empty_spec.
  assert (∀ (b : bool) (l : list (option ValidationError)), first_error (if b then l else []) = None ↔ (b = true → first_error l = None)) as Hif
    by (intros [] l; solve_iff).
  rewrite !Hif, first_error_app, first_error_cons, !first_error_map, fails_None, outside_false.
  assert (∀ {A} (P : string → option A) (l : list string) f p, (∀ x, x ∈ l → fails (match P x with Some _ => false | None => true end) f p = None) ↔
            ∀ x, x ∈ l → is_Some (P x)) as Hparse.
  { intros A P l f p. split; intros H x Hx; specialize (H x Hx); by destruct (P x). }
  rewrite !Hparse. setoid_rewrite fails_None. setoid_rewrite outside_false.
  assert ((∀ i x, acl_Permissions (se_AccessControl (rc_Security c)) !! i = Some x → check_rule i x = None) ↔
          ∀ r a, r ∈ acl_Permissions (se_AccessControl (rc_Security c)) → a ∈ pr_Actions r → a ∈ rule_actions) as ->.
  { unfold check_rule. split.
    - intros H r a [i Hi]%list_elem_of_lookup Ha. specialize (H i r Hi). rewrite first_error_map in H. specialize (H a Ha).
      by apply fails_None, outside_false in H.
    - intros H i r Hi. apply first_error_map. intros a Ha. apply fails_None, outside_false, (H r); [|done]. by eapply list_elem_of_lookup_2. }
  destruct (tls_Enabled _); cbn; solve_iff.
Qed.

(** What the sections have in common with the checks of single fields. *)
Lemma validateCross_None c :
  (tls_Enabled (sv_TLS (rc_Server c)) = true → tls_CertFile (sv_TLS (rc_Server c)) ≠ EmptyString ∧ tls_KeyFile (sv_TLS (rc_Server c)) ≠ EmptyString) →
  (mt_Enabled (rc_Metrics c) = true → mt_Port (rc_Metrics c) ≠ 0 → mt_Port (rc_Metrics c) ≠ sv_Port (rc_Server c)) →
  backend_ok (rc_Cache c) →
  validateCrossReferences c = None ↔ (basic_auth_enabled c = true → acl_Permissions (se_AccessControl (rc_Security c)) ≠ []).
Proof.
  intros Ht Hm Hb. unfold validateCrossReferences. rewrite !first_error_cons, !fails_None.
  assert (mt_Enabled (rc_Metrics c) && negb (mt_Port (rc_Metrics c) =? 0) && (mt_Port (rc_Metrics c) =? sv_Port (rc_Server c)) = false) as ->.
  { destruct (mt_Enabled _); [|done]. destruct (Z.eqb_spec (mt_Port (rc_Metrics c)) 0); [done|]. cbn. by apply Z.eqb_neq, Hm. }
  assert (tls_Enabled (sv_TLS (rc_Server c)) && (empty (tls_CertFile (sv_TLS (rc_Server c))) || empty (tls_KeyFile (sv_TLS (rc_Server c)))) = false) as ->.
  { destruct (tls_Enabled _); [|done]. destruct (Ht eq_refl) as (H1 & H2). by rewrite (proj2 (empty_false _) H1), (proj2 (empty_false _) H2). }
  set (k := if String.eqb _ "s3" then _ else _). assert (k = None) as ->.
  { subst k. destruct Hb as [->|[(-> & H1 & H2)|(-> & H1)]]; cbn; [done|..].
    - by rewrite (proj2 (empty_false _) H1), (proj2 (empty_false _) H2).
    - by rewrite (proj2 (empty_false _) H1). }
  rewrite andb_false_iff, length_zero. destruct (basic_auth_enabled c); solve_iff.
Qed.

Definition basic_ok s c : Prop :=
  1 <= sv_Port (rc_Server c) <= 65535 ∧
  (tls_Enabled (sv_TLS (rc_Server c)) = true → tls_CertFile (sv_TLS (rc_Server c)) ≠ EmptyString ∧ tls_KeyFile (sv_TLS (rc_Server c)) ≠ EmptyString ∧
    StatFile (tls_CertFile (sv_TLS (rc_Server c))) s = None ∧ StatFile (tls_KeyFile (sv_TLS (rc_Server c))) s = None) ∧
  backend_ok (rc_Cache c) ∧ lg_Level (rc_Logging c) ∈ log_levels ∧
  (mt_Enabled (rc_Metrics c) = true → mt_Port (rc_Metrics c) ≠ 0 →
     1 <= mt_Port (rc_Metrics c) <= 65535 ∧ mt_Port (rc_Metrics c) ≠ sv_Port (rc_Server c)) ∧
  registries_ok (rc_Registries c).

Lemma validateBasicFields_spec order env s c : map_to_list (apt_Mirrors (rg_APT (rc_Registries c))) ≡ₚ order →
  ((validateBasicFields order env s c).1 = None ↔ basic_ok s c) ∧
  ((validateBasicFields order env s c).1 = None → (validateBasicFields order env s c).2 = (validateCache env c).2).
Proof.
  intros Hp. unfold validateBasicFields, basic_ok.
  assert (first_error [validateServer c; validateTLS s c] = None ↔ 1 <= sv_Port (rc_Server c) <= 65535 ∧ validateTLS s c = None) as H1.
  { rewrite !first_error_cons. unfold validateServer. rewrite fails_None, negb_false_iff, validPort_spec. solve_iff. }
  rewrite validateTLS_None in H1. destruct (first_error [_; _]) as [e|]; [split; [cbn; solve_iff|done]|].
  pose proof (validateCache_None env c) as Hb. destruct (validateCache_keeps env c) as (dir & Hd & _).
  destruct (validateCache env c) as [e c']. cbn [fst snd] in *. subst c'. split; [|done].
  destruct e as [e|]; [solve_iff|].
  rewrite !first_error_cons, validateMetrics_None, validateRegistries_None by done. unfold validateLogging. rewrite fails_None, outside_false.
  cbn [set_directory rc_Metrics rc_Registries rc_Server rc_Logging]. solve_iff.
Qed.

Lemma accepted_iff order env s c : map_to_list (apt_Mirrors (rg_APT (rc_Registries c))) ≡ₚ order →
  (Validate order env s c).1 = None ↔ valid_config s c.
Proof.
  intros Hp. destruct (validateBasicFields_spec order env s c Hp) as [H1 H2]. unfold Validate, ValidateWithOptions, valid_config.
  destruct (validateBasicFields order env s c) as [[e|] c']; cbn [fst snd] in *; unfold basic_ok, tls_ok in *.
  { split; [done|]. intros (?&Ht&?&?&?&?&_). enough (Some e = None) by done. apply H1. solve_iff. }
  destruct (proj1 H1 eq_refl) as (Hport & Ht & Hb & Hl & Hm & Hr). specialize (H2 eq_refl).
  destruct (validateCache_keeps env c) as (dir & Hd & _). rewrite Hd in H2. subst c'.
  cbn [EnableCrossValidation EnablePerformanceCheck EnableSecurityCheck].
  rewrite !first_error_cons, validatePerformance_None, validateSecurity_None, validateCross_None; cbn [set_directory rc_Server rc_Metrics rc_Security].
  - change (performance_ok (set_directory dir c)) with (performance_ok c). change (basic_auth_enabled (set_directory dir c)) with (basic_auth_enabled c). solve_iff.
  - solve_iff.
  - intros ? ?. by apply Hm.
  - exact Hb.
Qed.

(** C99: [Validate] accepts a configuration exactly when it satisfies the conditions,
    field by field, in whatever order the mirrors are gone through. *)
Theorem root_valid_iff order env s c : map_to_list (apt_Mirrors (rg_APT (rc_Registries c))) ≡ₚ order →
  (Validate order env s c).1 = None ↔ valid_config s c.
Proof. apply accepted_iff. Qed.

(** The configuration that is handed on: only an empty directory of the file cache is filled in. *)
Lemma Validate_keeps order env s c : map_to_list (apt_Mirrors (rg_APT (rc_Registries c))) ≡ₚ order →
  (Validate order env s c).1 = None → (Validate order env s c).2 = (validateCache env c).2.
Proof.
  intros Hp. destruct (validateBasicFields_spec order env s c Hp) as [_ H2]. unfold Validate, ValidateWithOptions.
  destruct (validateBasicFields order env s c) as [[e|] c']; cbn [fst snd] in *; [done|]. intros _. by apply H2.
Qed.

(** ** Loading *)

Lemma zero_defaults_valid s : valid_config s (ApplyDefaults zero_config).
Proof.
  unfold valid_config, tls_ok, backend_ok, registries_ok, performance_ok, security_ok. cbn. unfold second, hour.
  split_and!; try done; try lia; try (by left); try (intros ? ? Hr; by apply not_elem_of_nil in Hr).
  by right; left.
Qed.

(** A clean path is never empty. *)
Lemma clean_nonempty cs stack root : Forall (λ x, x ≠ EmptyString) stack → Forall (λ x, x ≠ EmptyString) (fold_left (clean_step root) cs stack).
Proof.
  revert stack; induction cs as [|x cs IH]; intros stack Hs; [done|]. cbn [fold_left]. apply IH. unfold clean_step.
  destruct (String.eqb_spec x EmptyString); cbn [orb]; [done|]. destruct (String.eqb x "."); [done|].
  destruct (String.eqb x ".."); [|by constructor]. destruct stack as [|t st].
  - destruct root; [constructor|]. by repeat constructor.
  - destruct (String.eqb t ".."); [by constructor|]. by inversion Hs.
Qed.

Lemma PathJoin_nonempty a b : a ≠ EmptyString → PathJoin a b ≠ EmptyString.
Proof.
  intros Ha. unfold PathJoin. rewrite (proj2 (String.eqb_neq a EmptyString) Ha). unfold Clean, unsplit.
  destruct (rooted _); [done|]. unfold clean_comps.
  pose proof (clean_nonempty (Split (a +:+ String slash b) slash) [] (rooted (a +:+ String slash b)) (list.Forall_nil_2 _)) as H.
  apply Forall_rev in H. destruct (rev _) as [|x cs]; [done|]. inversion_clear H. rewrite Join_cons || idtac. destruct cs; cbn; [done|].
  by destruct x.
Qed.

Lemma set_directory_valid s dir c : valid_config s (set_directory dir c) ↔ valid_config s c.
Proof. done. Qed.

Context (yaml_unmarshal : string → RootConfig → option RootConfig).
Context (iter : gmap string (list APTMirror) → list (string * list APTMirror)).
Notation Load := (LoadRootConfig yaml_unmarshal iter).

(** C36: whatever is loaded, from a file or by default, satisfies every condition of
    [Validate]; and a file cache that comes from a file has a directory. *)
Theorem loaded_valid env path s c : (∀ m, map_to_list m ≡ₚ iter m) → TempDir env ≠ EmptyString → Load env path s = Ok c →
  valid_config s c ∧
  (StatFile path s ≠ Some ErrNotExist → ca_Backend (rc_Cache c) = "file"%string → fc_Directory (ca_File (rc_Cache c)) ≠ EmptyString).
Proof.
  intros Hi Htmp. unfold LoadRootConfig. case_bool_decide as Hst.
  { intros [= <-]. split; [apply zero_defaults_valid|done]. }
  destruct (ReadFile path s) as [data|]; [|done]. destruct (yaml_unmarshal data zero_config) as [c0|]; [|done].
  set (c1 := applyEnvironmentOverrides env c0). assert (map_to_list (apt_Mirrors (rg_APT (rc_Registries c1))) ≡ₚ iter (apt_Mirrors (rg_APT (rc_Registries c0)))) as Hp by apply Hi.
  pose proof (accepted_iff _ env s c1 Hp) as Hv. pose proof (Validate_keeps _ env s c1 Hp) as Hk.
  destruct (Validate _ env s c1) as [[e|] c2]; [done|]. intros [= <-]. cbn [fst snd] in *. rewrite (Hk eq_refl).
  destruct (validateCache_keeps env c1) as (dir & Hd & Hdir). rewrite Hd. split; [apply set_directory_valid; tauto|].
  intros _ Hfile. change (ca_Backend (rc_Cache c1) = "file"%string) in Hfile. change (dir ≠ EmptyString). unfold validateCache in Hd. rewrite Hfile in Hd. cbn [String.eqb Ascii.eqb Bool.eqb snd] in Hd.
  unfold validateFileCache in Hd. destruct (empty (fc_Directory (ca_File (rc_Cache c1)))) eqn:Ee.
  - apply (f_equal (λ c, fc_Directory (ca_File (rc_Cache c)))) in Hd. cbn in Hd. rewrite <- Hd. by apply PathJoin_nonempty.
  - apply empty_false in Ee. destruct Hdir as [->|[H _]]; done.
Qed.

(** A file that cannot be found is answered by the defaults, whatever the environment
    says: its overrides, and validation, come after the file. *)
Theorem missing_file_ignores_environment env path s : StatFile path s = Some ErrNotExist →
  ∃ c, Load env path s = Ok c ∧ sv_Port (rc_Server c) = 8080 ∧ lg_Level (rc_Logging c) = "info"%string ∧
       tls_Enabled (sv_TLS (rc_Server c)) = false ∧ fc_Directory (ca_File (rc_Cache c)) = EmptyString.
Proof. intros H. exists (ApplyDefaults zero_config). unfold LoadRootConfig. by rewrite bool_decide_eq_true_2. Qed.

(** A file has to spell out the port, the log level (unless the environment does) and
    the backend: the defaults are not applied to what it leaves out. *)
Theorem silent_file_rejected env path s data c : (∀ m, map_to_list m ≡ₚ iter m) →
  StatFile path s = None → ReadFile path s = Ok data → yaml_unmarshal data zero_config = Some c →
  (sv_Port (rc_Server c) = 0 ∧ env "SERVER_PORT" = EmptyString) ∨ (lg_Level (rc_Logging c) = EmptyString ∧ env "LOG_LEVEL" = EmptyString) ∨
    ca_Backend (rc_Cache c) = EmptyString →
  ∃ e, Load env path s = Err (InvalidConfig e).
Proof.
  intros Hi Hst Hr Hy Hsilent. unfold LoadRootConfig. rewrite bool_decide_eq_false_2, Hr, Hy by by rewrite Hst.
  set (c1 := applyEnvironmentOverrides env c).
  pose proof (accepted_iff (iter (apt_Mirrors (rg_APT (rc_Registries c)))) env s c1 (Hi _)) as Hv.
  destruct (Validate _ env s c1) as [[e|] c2]; [by exists e|]. destruct (proj1 Hv eq_refl) as (H1 & _ & H2 & H3 & _). exfalso.
  destruct Hsilent as [[Hz He]|[[Hz He]|Hz]].
  - cbn in H1. rewrite He, Hz in H1. cbn in H1. lia.
  - cbn in H3. rewrite He, Hz in H3. by apply (bool_decide_eq_true (EmptyString ∈ log_levels)) in H3.
  - unfold backend_ok in H2. cbn in H2. rewrite Hz in H2. by destruct H2 as [|[[? _]|[? _]]].
Qed.
End accepted.

(** ** Differences and readiness *)

(** C99: [Diff] sees the port, the host, the backend and the log level, and nothing else. *)
Theorem Diff_nil_iff c d : Diff c d = [] ↔
  sv_Port (rc_Server c) = sv_Port (rc_Server d) ∧ sv_Host (rc_Server c) = sv_Host (rc_Server d) ∧
  ca_Backend (rc_Cache c) = ca_Backend (rc_Cache d) ∧ lg_Level (rc_Logging c) = lg_Level (rc_Logging d).
Proof.
  unfold Diff. destruct (Z.eqb_spec (sv_Port (rc_Server c)) (sv_Port (rc_Server d))), (String.eqb_spec (sv_Host (rc_Server c)) (sv_Host (rc_Server d))),
    (String.eqb_spec (ca_Backend (rc_Cache c)) (ca_Backend (rc_Cache d))), (String.eqb_spec (lg_Level (rc_Logging c)) (lg_Level (rc_Logging d)));
    cbn; split; try done; tauto.
Qed.

(** A configuration is ready for production exactly when TLS and basic authentication
    are on, metrics are collected and the log level is not [debug]. *)
Theorem IsProductionReady_iff c : (IsProductionReady c).1 = true ↔
  tls_Enabled (sv_TLS (rc_Server c)) = true ∧ basic_auth_enabled c = true ∧ mt_Enabled (rc_Metrics c) = true ∧ lg_Level (rc_Logging c) ≠ "debug"%string.
Proof.
  unfold IsProductionReady. destruct (tls_Enabled _), (basic_auth_enabled c), (mt_Enabled _), (String.eqb_spec (lg_Level (rc_Logging c)) "debug");
    cbn; split; try done; tauto.
Qed.

(** The defaults are applied once and for all. *)
Theorem ApplyDefaults_idempotent c : ApplyDefaults (ApplyDefaults c) = ApplyDefaults c.
Proof.
  destruct c as [[h p rt wt it [te tc tk tv] h2 co cors] [b ttl ms mi ci ep f s3 rd] rg se ve al [ll lf lo lfi la] [me mp mport mb]
    [[pc pi pct pk pb] [ra ri rm ru] [ce cf cs ct]]].
  unfold ApplyDefaults, default_server, default_cache, default_logging, default_metrics, default_advanced. cbn -[or_text or_number feq of_int].
  rewrite !or_text_twice, !or_number_twice. destruct (feq ru (of_int 0)) eqn:E; [by vm_compute|by rewrite E].
Qed.

(** ** Witnesses *)

Definition a_disk : MemFS := mkMem {["/etc/proxynd/config.yaml"%string := "server: {port: 9000}"%string]} ∅ [].
Definition no_variables : environment := λ _, EmptyString.
(** A document that sets the port only. *)
Definition port_only (data : string) (c : RootConfig) : option RootConfig :=
  Some (set_server (mkServerConfig EmptyString 9000 0 0 0 (sv_TLS (rc_Server c)) false (sv_Compression (rc_Server c)) (sv_CORS (rc_Server c))) c).
Definition all_set (data : string) (c : RootConfig) : option RootConfig := Some (ApplyDefaults c).

Lemma root_valid_iff_witness : (Validate [] no_variables a_disk (ApplyDefaults zero_config)).1 = None ↔ valid_config a_disk (ApplyDefaults zero_config).
Proof. by apply (root_valid_iff [] no_variables a_disk (ApplyDefaults zero_config)). Defined.

Lemma loaded_valid_witness :
  let c := set_directory "/tmp/proxynd-cache" (ApplyDefaults zero_config) in
  valid_config a_disk c ∧ (StatFile "/etc/proxynd/config.yaml"%string a_disk ≠ Some ErrNotExist → ca_Backend (rc_Cache c) = "file"%string →
    fc_Directory (ca_File (rc_Cache c)) ≠ EmptyString).
Proof. apply (loaded_valid all_set map_to_list no_variables "/etc/proxynd/config.yaml" a_disk); by vm_compute. Defined.

Lemma missing_file_ignores_environment_witness :
  ∃ c, LoadRootConfig all_set map_to_list (λ _, "9999"%string) "/missing.yaml" a_disk = Ok c ∧ sv_Port (rc_Server c) = 8080 ∧
    lg_Level (rc_Logging c) = "info"%string ∧ tls_Enabled (sv_TLS (rc_Server c)) = false ∧ fc_Directory (ca_File (rc_Cache c)) = EmptyString.
Proof. by apply (missing_file_ignores_environment all_set map_to_list (λ _, "9999"%string) "/missing.yaml" a_disk). Defined.

Lemma silent_file_rejected_witness :
  ∃ e, LoadRootConfig port_only map_to_list no_variables "/etc/proxynd/config.yaml" a_disk = Err (InvalidConfig e).
Proof.
  apply (silent_file_rejected port_only map_to_list no_variables "/etc/proxynd/config.yaml" a_disk "server: {port: 9000}"
    (set_server (mkServerConfig EmptyString 9000 0 0 0 (sv_TLS (rc_Server zero_config)) false (sv_Compression (rc_Server zero_config))
       (sv_CORS (rc_Server zero_config))) zero_config)); [done|done|done|done|]. by right; left.
Defined.
