(* ===== verification/ConfigReflect.v ===== *)
(** * ConfigReflect: the configuration as [reflect] sees it

    A value of [desc A] is what [reflect.Type] says of [A]: its kind, and for a structure
    its fields with their names and tags; the structure itself is taken apart into a nested
    tuple and put together again.  Over it are defined what [src/internal/config] does by
    reflection: [structToFlatMap] of [schema_validator.go], [applyDefaultsRecursive] of
    [config_loader.go], and the overrides by path of [env_override.go].  [refl_RootConfig]
    describes [RootConfig].  [override_table] says which overrides have an effect, which
    are silently ignored and which panic; [explicit_false_lost] what the default tags do to
    switches that are turned off. *)

From Stdlib Require Import Ascii.
From S2P Require Import Prelude GoStrings GoText GoUrl GoConv OAuth2Config RootConfig.
From S2P Require Alerts Verifier.

(** ** Types *)

Inductive desc : Type → Type :=
| KString : desc string
| KInt : desc Z
| KInt64 : desc Z
| KDuration : desc Z
| KBool : desc bool
| KFloat : desc float64
| KSlice {A} (d : desc A) : desc (list A)
| KMap {A} : desc (gmap string A)
| KPtr {A} : desc (option A)
| KStruct {A T} (out : A → T) (back : T → A) (fs : fields T) : desc A
with fields : Type → Type :=
| FNil : fields unit
| FCons {A T} (name yaml : string) (tag : option string) (d : desc A) (fs : fields T) : fields (A * T).

(** ** structToFlatMap *)

Definition full_name (prefix field : string) : string := if empty prefix then field else prefix +:+ ("." +:+ field).

(** A structure is flattened; everything else is one entry.  What comes later wins. *)
Fixpoint flat {A} (d : desc A) : string → A → gmap string value :=
  match d in desc A return string → A → gmap string value with
  | KString => λ n x, {[n := VString x]}
  | KInt => λ n x, {[n := VInt x]}
  | KInt64 => λ n x, {[n := VInt64 x]}
  | KDuration => λ n x, {[n := VDuration x]}
  | KBool => λ n x, {[n := VBool x]}
  | KFloat => λ n x, {[n := VFloat x]}
  | KSlice _ | KMap | KPtr => λ n _, {[n := VOther]}
  | KStruct out _ fs => λ n x, flat_fields fs n (out x)
  end
with flat_fields {T} (fs : fields T) : string → T → gmap string value :=
  match fs in fields T return string → T → gmap string value with
  | FNil => λ _ _, ∅
  | FCons _ yaml _ d fs => λ prefix x,
      flat_fields fs prefix x.2 ∪ (if empty yaml || String.eqb yaml "-" then ∅ else flat d (full_name prefix yaml) x.1)
  end.
Definition structToFlatMap {A} (d : desc A) (x : A) : gmap string value := flat d EmptyString x.

(** ** applyDefaultsRecursive *)

(** [isZeroValue]: pointers and structures never are. *)
Definition isZeroValue {A} (d : desc A) : A → bool :=
  match d in desc A return A → bool with
  | KString => empty
  | KInt | KInt64 | KDuration => λ z, z =? 0
  | KBool => negb
  | KFloat => λ f, feq f (of_int 0)
  | KSlice _ => λ l, Nat.eqb (length l) 0
  | KMap => λ m, Nat.eqb (size m) 0
  | KPtr | KStruct _ _ _ => λ _, false
  end.

(** What cannot be parsed leaves the field as it is. *)
Definition setDefaultValue {A} (d : desc A) (tag : string) : A → A :=
  match d in desc A return A → A with
  | KString => λ _, tag
  | KInt | KInt64 => λ z, match Atoi tag with (n, None) => n | _ => z end
  | KDuration => λ z, default z (ParseDuration tag)
  | KFloat => λ f, default f (ParseFloat tag)
  | KBool => λ b, default b (ParseBool tag)
  | KSlice _ | KMap | KPtr | KStruct _ _ _ => λ x, x
  end.

Fixpoint applyDefaultsRecursive {A} (d : desc A) : A → A :=
  match d in desc A return A → A with
  | KStruct out back fs => λ x, back (default_fields fs (out x))
  | _ => λ x, x
  end
with default_fields {T} (fs : fields T) : T → T :=
  match fs in fields T return T → T with
  | FNil => λ x, x
  | FCons _ _ tag d fs => λ x,
      let y := match tag with Some t => if isZeroValue d x.1 then setDefaultValue d t x.1 else x.1 | None => x.1 end in
      (applyDefaultsRecursive d y, default_fields fs x.2)
  end.

(** ** env_override.go *)

Record EnvOverride := mkOverride { EnvVar : string; Path : string; Kind : string }.

Inductive step := Field (name : string) | Index (name : string) (i : Z) | BadIndex.

Section paths.
(** [cases.Title(language.English).String]. *)
Context (title : string → string).

Definition toCamelCase (s : string) : string := Join (map title (Split s "_")) EmptyString.

Definition path_step (part : string) : step :=
  match cut_at "[" part with
  | Some (name, rest) =>
      match cut_at "]" rest with
      | Some (index, _) => match Atoi index with
                           | (i, None) => Index (title (ReplaceAll name "_" EmptyString)) i
                           | _ => BadIndex
                           end
      | None => Field (toCamelCase part)
      end
  | None => Field (toCamelCase part)
  end.
Definition path_steps (path : string) : list step := map path_step (Split path ".").

(** [expandPath]: the home directory, then the variables. *)
Definition expandPath (env : environment) (path : string) : string :=
  let path := if HasPrefix path "~/" then match UserHomeDir env with Some home => home +:+ drop_bytes 1 path | None => path end else path in
  ExpandEnv env path.

(** [setFieldValue] of a field that can be set; [None]: a setter of another kind panics. *)
Definition setFieldValue {A} (env : environment) (d : desc A) (value kind : string) : A → option A :=
  match d in desc A return A → option A with
  | KString => λ x, if String.eqb kind "string" then Some (expandPath env value)
                    else if String.eqb kind "int" then match Atoi value with (_, None) => None | _ => Some x end
                    else if String.eqb kind "bool" then match ParseBool value with Some _ => None | None => Some x end
                    else match ParseDuration value with Some _ => None | None => Some x end
  | KInt | KInt64 => λ x, if String.eqb kind "int" then match Atoi value with (n, None) => Some n | _ => Some x end
                  else if String.eqb kind "string" then None
                  else if String.eqb kind "bool" then match ParseBool value with Some _ => None | None => Some x end
                  else match ParseDuration value with Some _ => None | None => Some x end
  | KDuration => λ x, if String.eqb kind "int" then match Atoi value with (n, None) => Some n | _ => Some x end
                  else if String.eqb kind "string" then None
                  else if String.eqb kind "bool" then match ParseBool value with Some _ => None | None => Some x end
                  else Some (default x (ParseDuration value))
  | KBool => λ x, if String.eqb kind "bool" then Some (default x (ParseBool value))
                  else if String.eqb kind "string" then None
                  else if String.eqb kind "int" then match Atoi value with (_, None) => None | _ => Some x end
                  else match ParseDuration value with Some _ => None | None => Some x end
  | _ => λ x, if String.eqb kind "string" then None
              else if String.eqb kind "int" then match Atoi value with (_, None) => None | _ => Some x end
              else if String.eqb kind "bool" then match ParseBool value with Some _ => None | None => Some x end
              else match ParseDuration value with Some _ => None | None => Some x end
  end.

(** [getFieldByPath] and then [setFieldValue].  A field that is not found leaves the
    configuration as it is; [None] is a panic: [FieldByName] of what is not a structure. *)
Fixpoint set_path {A} (env : environment) (d : desc A) (steps : list step) (value kind : string) : A → option A :=
  match steps with
  | [] => setFieldValue env d value kind
  | s :: steps =>
      match d in desc A return A → option A with
      | KStruct out back fs => λ x, option_map back (set_field env fs s steps value kind (out x))
      | _ => λ x, match s with BadIndex => Some x | _ => None end
      end
  end
with set_field {T} (env : environment) (fs : fields T) (s : step) (steps : list step) (value kind : string) : T → option T :=
  match fs in fields T return T → option T with
  | FNil => Some
  | FCons name _ _ d fs => λ x,
      match s with
      | BadIndex => Some x
      | Field n => if String.eqb n name then option_map (λ y, (y, x.2)) (set_path env d steps value kind x.1)
                   else option_map (pair x.1) (set_field env fs s steps value kind x.2)
      | Index n i => if String.eqb n name then option_map (λ y, (y, x.2)) (set_index env d i steps value kind x.1)
                     else option_map (pair x.1) (set_field env fs s steps value kind x.2)
      end
  end
with set_index {A} (env : environment) (d : desc A) (i : Z) (steps : list step) (value kind : string) : A → option A :=
  match d in desc A return A → option A with
  | KSlice d => λ l,
      if Z.of_nat (length l) <=? i then Some l
      else if i <? 0 then None
      else match l !! Z.to_nat i with
           | Some x => option_map (λ y, <[Z.to_nat i := y]> l) (set_path env d steps value kind x)
           | None => Some l
           end
  | _ => Some
  end.

Definition envOverrides : list EnvOverride := (λ t, mkOverride t.1.1 t.1.2 t.2) <$> [
  ("SERVER_HOST", "server.host", "string");
  ("SERVER_PORT", "server.port", "int");
  ("SERVER_READ_TIMEOUT", "server.read_timeout", "duration");
  ("SERVER_WRITE_TIMEOUT", "server.write_timeout", "duration");
  ("SERVER_IDLE_TIMEOUT", "server.idle_timeout", "duration");
  ("TLS_ENABLED", "server.tls.enabled", "bool");
  ("TLS_CERT_FILE", "server.tls.cert_file", "string");
  ("TLS_KEY_FILE", "server.tls.key_file", "string");
  ("CACHE_BACKEND", "cache.backend", "string");
  ("CACHE_TTL", "cache.ttl", "duration");
  ("CACHE_MAX_SIZE", "cache.max_size", "string");
  ("STORAGE_DIR", "cache.file.directory", "string");
  ("S3_ENDPOINT", "cache.s3.endpoint", "string");
  ("S3_BUCKET", "cache.s3.bucket", "string");
  ("S3_REGION", "cache.s3.region", "string");
  ("AWS_ACCESS_KEY_ID", "cache.s3.access_key_id", "string");
  ("AWS_SECRET_ACCESS_KEY", "cache.s3.secret_access_key", "string");
  ("REDIS_ADDRESS", "cache.redis.address", "string");
  ("REDIS_PASSWORD", "cache.redis.password", "string");
  ("REDIS_DB", "cache.redis.db", "int");
  ("NPM_ENABLED", "registries.npm.enabled", "bool");
  ("NPM_UPSTREAM", "registries.npm.upstream", "string");
  ("PYPI_ENABLED", "registries.pypi.enabled", "bool");
  ("PYPI_UPSTREAM", "registries.pypi.upstream", "string");
  ("APT_ENABLED", "registries.apt.enabled", "bool");
  ("DOCKER_ENABLED", "registries.docker.enabled", "bool");
  ("MAVEN_ENABLED", "registries.maven.enabled", "bool");
  ("AUTH_ENABLED", "security.authentication.basic_auth.enabled", "bool");
  ("AUTH_USERS_FILE", "security.authentication.basic_auth.users_file", "string");
  ("IP_WHITELIST_ENABLED", "security.access_control.ip_whitelist.enabled", "bool");
  ("LOG_LEVEL", "logging.level", "string");
  ("LOG_FORMAT", "logging.format", "string");
  ("LOG_OUTPUT", "logging.output", "string");
  ("LOG_FILE", "logging.file.path", "string");
  ("ACCESS_LOG_ENABLED", "logging.access_log.enabled", "bool");
  ("ACCESS_LOG_PATH", "logging.access_log.path", "string");
  ("METRICS_ENABLED", "metrics.enabled", "bool");
  ("METRICS_PATH", "metrics.path", "string");
  ("METRICS_PORT", "metrics.port", "int");
  ("VERIFICATION_ENABLED", "verification.strict_mode", "bool");
  ("VERIFICATION_BLOCK", "verification.block_on_failure", "bool");
  ("VERIFICATION_ALERT", "verification.alert_on_failure", "bool");
  ("ALERTS_ENABLED", "alerts.enabled", "bool");
  ("WEBHOOK_URL", "alerts.channels[1].config.url", "string");
  ("MAX_CONNECTIONS", "advanced.performance.max_connections", "int");
  ("CONNECTION_TIMEOUT", "advanced.performance.connection_timeout", "duration");
  ("RETRY_MAX_ATTEMPTS", "advanced.retry.max_attempts", "int");
  ("CIRCUIT_BREAKER_ENABLED", "advanced.circuit_breaker.enabled", "bool")
]%string.

(** One override: [None] is a panic. *)
Definition apply_override {A} (env : environment) (d : desc A) (x : A) (o : EnvOverride) : option A :=
  if empty (env (EnvVar o)) then Some x else set_path env d (path_steps (Path o)) (env (EnvVar o)) (Kind o) x.

Definition ApplyEnvironmentOverrides {A} (env : environment) (d : desc A) (x : A) : option A :=
  foldl (λ acc o, match acc with Some x => apply_override env d x o | None => None end) (Some x) envOverrides.

Definition GetEnvironmentOverrides (env : environment) : gmap string string :=
  foldl (λ m o, if empty (env (EnvVar o)) then m else <[EnvVar o := env (EnvVar o)]> m) ∅ envOverrides.
End paths.

(** ** RootConfig *)

Definition refl_TLSConfig : desc TLSConfig :=
  KStruct (λ x, (tls_Enabled x, (tls_CertFile x, (tls_KeyFile x, (tls_MinVersion x, tt)))))
    (λ '(a0, (a1, (a2, (a3, _)))), mkTLSConfig a0 a1 a2 a3)
    (FCons "Enabled" "enabled" None KBool (
     FCons "CertFile" "cert_file" None KString (
     FCons "KeyFile" "key_file" None KString (
     FCons "MinVersion" "min_version" (Some "TLS1.2") KString FNil)))).

Definition refl_CompressionConfig : desc CompressionConfig :=
  KStruct (λ x, (cp_Enabled x, (cp_Level x, (cp_Types x, tt))))
    (λ '(a0, (a1, (a2, _))), mkCompressionConfig a0 a1 a2)
    (FCons "Enabled" "enabled" (Some "true") KBool (
     FCons "Level" "level" (Some "5") KInt (
     FCons "Types" "types" None (KSlice KString) FNil))).

Definition refl_CORSConfig : desc CORSConfig :=
  KStruct (λ x, (cors_Enabled x, (cors_AllowOrigins x, (cors_AllowMethods x, (cors_AllowHeaders x, (cors_AllowCredentials x, (cors_MaxAge x, tt)))))))
    (λ '(a0, (a1, (a2, (a3, (a4, (a5, _)))))), mkCORSConfig a0 a1 a2 a3 a4 a5)
    (FCons "Enabled" "enabled" None KBool (
     FCons "AllowOrigins" "allow_origins" None (KSlice KString) (
     FCons "AllowMethods" "allow_methods" None (KSlice KString) (
     FCons "AllowHeaders" "allow_headers" None (KSlice KString) (
     FCons "AllowCredentials" "allow_credentials" None KBool (
     FCons "MaxAge" "max_age" None KInt FNil)))))).

Definition refl_ServerConfig : desc ServerConfig :=
  KStruct (λ x, (sv_Host x, (sv_Port x, (sv_ReadTimeout x, (sv_WriteTimeout x, (sv_IdleTimeout x, (sv_TLS x, (sv_EnableHTTP2 x, (sv_Compression x, (sv_CORS x, tt))))))))))
    (λ '(a0, (a1, (a2, (a3, (a4, (a5, (a6, (a7, (a8, _))))))))), mkServerConfig a0 a1 a2 a3 a4 a5 a6 a7 a8)
    (FCons "Host" "host" (Some "0.0.0.0") KString (
     FCons "Port" "port" (Some "8080") KInt (
     FCons "ReadTimeout" "read_timeout" (Some "30s") KDuration (
     FCons "WriteTimeout" "write_timeout" (Some "30s") KDuration (
     FCons "IdleTimeout" "idle_timeout" (Some "120s") KDuration (
     FCons "TLS" "tls" None refl_TLSConfig (
     FCons "EnableHTTP2" "enable_http2" (Some "true") KBool (
     FCons "Compression" "compression" None refl_CompressionConfig (
     FCons "CORS" "cors" None refl_CORSConfig FNil))))))))).

Definition refl_FileCacheConfig : desc FileCacheConfig :=
  KStruct (λ x, (fc_Directory x, (fc_MaxFileSize x, tt)))
    (λ '(a0, (a1, _)), mkFileCacheConfig a0 a1)
    (FCons "Directory" "directory" None KString (
     FCons "MaxFileSize" "max_file_size" (Some "1GB") KString FNil)).

Definition refl_S3CacheConfig : desc S3CacheConfig :=
  KStruct (λ x, (s3_Endpoint x, (s3_Bucket x, (s3_Region x, (s3_AccessKeyID x, (s3_SecretAccessKey x, (s3_UseSSL x, (s3_PathPrefix x, tt))))))))
    (λ '(a0, (a1, (a2, (a3, (a4, (a5, (a6, _))))))), mkS3CacheConfig a0 a1 a2 a3 a4 a5 a6)
    (FCons "Endpoint" "endpoint" None KString (
     FCons "Bucket" "bucket" None KString (
     FCons "Region" "region" None KString (
     FCons "AccessKeyID" "access_key_id" None KString (
     FCons "SecretAccessKey" "secret_access_key" None KString (
     FCons "UseSSL" "use_ssl" (Some "true") KBool (
     FCons "PathPrefix" "path_prefix" None KString FNil))))))).

Definition refl_RedisCacheConfig : desc RedisCacheConfig :=
  KStruct (λ x, (rd_Address x, (rd_Password x, (rd_DB x, (rd_KeyPrefix x, tt)))))
    (λ '(a0, (a1, (a2, (a3, _)))), mkRedisCacheConfig a0 a1 a2 a3)
    (FCons "Address" "address" None KString (
     FCons "Password" "password" None KString (
     FCons "DB" "db" None KInt (
     FCons "KeyPrefix" "key_prefix" (Some "proxynd:") KString FNil)))).

Definition refl_CacheSettings : desc CacheSettings :=
  KStruct (λ x, (ca_Backend x, (ca_TTL x, (ca_MaxSize x, (ca_MaxItems x, (ca_CleanupInterval x, (ca_EvictionPolicy x, (ca_File x, (ca_S3 x, (ca_Redis x, tt))))))))))
    (λ '(a0, (a1, (a2, (a3, (a4, (a5, (a6, (a7, (a8, _))))))))), mkCacheSettings a0 a1 a2 a3 a4 a5 a6 a7 a8)
    (FCons "Backend" "backend" (Some "file") KString (
     FCons "TTL" "ttl" (Some "3600s") KDuration (
     FCons "MaxSize" "max_size" (Some "10GB") KString (
     FCons "MaxItems" "max_items" None KInt64 (
     FCons "CleanupInterval" "cleanup_interval" (Some "1h") KDuration (
     FCons "EvictionPolicy" "eviction_policy" (Some "lru") KString (
     FCons "File" "file" None refl_FileCacheConfig (
     FCons "S3" "s3" None refl_S3CacheConfig (
     FCons "Redis" "redis" None refl_RedisCacheConfig FNil))))))))).

Definition refl_NPMRegistryConfig : desc NPMRegistryConfig :=
  KStruct (λ x, (npm_Enabled x, (npm_Upstream x, (npm_Timeout x, (npm_UserCache x, (npm_Scopes x, tt))))))
    (λ '(a0, (a1, (a2, (a3, (a4, _))))), mkNPMRegistryConfig a0 a1 a2 a3 a4)
    (FCons "Enabled" "enabled" None KBool (
     FCons "Upstream" "upstream" (Some "https://registry.npmjs.org") KString (
     FCons "Timeout" "timeout" (Some "30s") KDuration (
     FCons "UserCache" "user_cache" None KBool (
     FCons "Scopes" "scopes" None KMap FNil))))).

Definition refl_PyPIRegistryConfig : desc PyPIRegistryConfig :=
  KStruct (λ x, (pypi_Enabled x, (pypi_Upstream x, (pypi_Simple x, (pypi_Timeout x, (pypi_UserCache x, tt))))))
    (λ '(a0, (a1, (a2, (a3, (a4, _))))), mkPyPIRegistryConfig a0 a1 a2 a3 a4)
    (FCons "Enabled" "enabled" None KBool (
     FCons "Upstream" "upstream" (Some "https://pypi.org") KString (
     FCons "Simple" "simple" (Some "https://pypi.org/simple") KString (
     FCons "Timeout" "timeout" (Some "30s") KDuration (
     FCons "UserCache" "user_cache" None KBool FNil))))).

Definition refl_APTMirror : desc APTMirror :=
  KStruct (λ x, (am_Name x, (am_URL x, (am_Suites x, (am_Components x, tt)))))
    (λ '(a0, (a1, (a2, (a3, _)))), mkAPTMirror a0 a1 a2 a3)
    (FCons "Name" "name" None KString (
     FCons "URL" "url" None KString (
     FCons "Suites" "suites" None (KSlice KString) (
     FCons "Components" "components" None (KSlice KString) FNil)))).

Definition refl_APTRegistryConfig : desc APTRegistryConfig :=
  KStruct (λ x, (apt_Enabled x, (apt_UserCache x, (apt_Mirrors x, tt))))
    (λ '(a0, (a1, (a2, _))), mkAPTRegistryConfig a0 a1 a2)
    (FCons "Enabled" "enabled" None KBool (
     FCons "UserCache" "user_cache" None KBool (
     FCons "Mirrors" "mirrors" None KMap FNil))).

Definition refl_DockerRegistryEndpoint : desc DockerRegistryEndpoint :=
  KStruct (λ x, (de_Name x, (de_URL x, (de_Username x, (de_Password x, (de_Insecure x, tt))))))
    (λ '(a0, (a1, (a2, (a3, (a4, _))))), mkDockerRegistryEndpoint a0 a1 a2 a3 a4)
    (FCons "Name" "name" None KString (
     FCons "URL" "url" None KString (
     FCons "Username" "username" None KString (
     FCons "Password" "password" None KString (
     FCons "Insecure" "insecure" None KBool FNil))))).

Definition refl_DockerRegistryConfig : desc DockerRegistryConfig :=
  KStruct (λ x, (dk_Enabled x, (dk_UseCache x, (dk_Registries x, tt))))
    (λ '(a0, (a1, (a2, _))), mkDockerRegistryConfig a0 a1 a2)
    (FCons "Enabled" "enabled" None KBool (
     FCons "UseCache" "use_cache" None KBool (
     FCons "Registries" "registries" None (KSlice refl_DockerRegistryEndpoint) FNil))).

Definition refl_MavenRepositoryConfig : desc MavenRepositoryConfig :=
  KStruct (λ x, (mr_ID x, (mr_Name x, (mr_URL x, (mr_Releases x, (mr_Snapshots x, tt))))))
    (λ '(a0, (a1, (a2, (a3, (a4, _))))), mkMavenRepositoryConfig a0 a1 a2 a3 a4)
    (FCons "ID" "id" None KString (
     FCons "Name" "name" None KString (
     FCons "URL" "url" None KString (
     FCons "Releases" "releases" (Some "true") KBool (
     FCons "Snapshots" "snapshots" (Some "true") KBool FNil))))).

Definition refl_MavenRegistryConfig : desc MavenRegistryConfig :=
  KStruct (λ x, (mv_Enabled x, (mv_Repositories x, tt)))
    (λ '(a0, (a1, _)), mkMavenRegistryConfig a0 a1)
    (FCons "Enabled" "enabled" None KBool (
     FCons "Repositories" "repositories" None (KSlice refl_MavenRepositoryConfig) FNil)).

Definition refl_RegistryConfig : desc RegistryConfig :=
  KStruct (λ x, (rg_NPM x, (rg_PyPI x, (rg_APT x, (rg_Docker x, (rg_Maven x, tt))))))
    (λ '(a0, (a1, (a2, (a3, (a4, _))))), mkRegistryConfig a0 a1 a2 a3 a4)
    (FCons "NPM" "npm" None refl_NPMRegistryConfig (
     FCons "PyPI" "pypi" None refl_PyPIRegistryConfig (
     FCons "APT" "apt" None refl_APTRegistryConfig (
     FCons "Docker" "docker" None refl_DockerRegistryConfig (
     FCons "Maven" "maven" None refl_MavenRegistryConfig FNil))))).

Definition refl_AuthenticationConfig : desc AuthenticationConfig :=
  KStruct (λ x, (au_Enabled x, (au_BasicAuth x, (au_OAuth2 x, tt))))
    (λ '(a0, (a1, (a2, _))), mkAuthenticationConfig a0 a1 a2)
    (FCons "Enabled" "enabled" (Some "true") KPtr (
     FCons "BasicAuth" "basic_auth" None KPtr (
     FCons "OAuth2" "oauth2" None KPtr FNil))).

Definition refl_IPWhitelistConfig : desc IPWhitelistConfig :=
  KStruct (λ x, (ipw_Enabled x, (ipw_IPs x, (ipw_CIDRs x, tt))))
    (λ '(a0, (a1, (a2, _))), mkIPWhitelistConfig a0 a1 a2)
    (FCons "Enabled" "enabled" None KBool (
     FCons "IPs" "ips" None (KSlice KString) (
     FCons "CIDRs" "cidrs" None (KSlice KString) FNil))).

Definition refl_PermissionRule : desc PermissionRule :=
  KStruct (λ x, (pr_User x, (pr_Groups x, (pr_Actions x, (pr_Registries x, (pr_Packages x, tt))))))
    (λ '(a0, (a1, (a2, (a3, (a4, _))))), mkPermissionRule a0 a1 a2 a3 a4)
    (FCons "User" "user" None KString (
     FCons "Groups" "groups" None (KSlice KString) (
     FCons "Actions" "actions" None (KSlice KString) (
     FCons "Registries" "registries" None (KSlice KString) (
     FCons "Packages" "packages" None (KSlice KString) FNil))))).

Definition refl_AccessControlConfig : desc AccessControlConfig :=
  KStruct (λ x, (acl_IPWhitelist x, (acl_Permissions x, tt)))
    (λ '(a0, (a1, _)), mkAccessControlConfig a0 a1)
    (FCons "IPWhitelist" "ip_whitelist" None refl_IPWhitelistConfig (
     FCons "Permissions" "permissions" None (KSlice refl_PermissionRule) FNil)).

Definition refl_PackageFilterRule : desc PackageFilterRule :=
  KStruct (λ x, (pfr_Registry x, (pfr_Patterns x, (pfr_Action x, tt))))
    (λ '(a0, (a1, (a2, _))), mkPackageFilterRule a0 a1 a2)
    (FCons "Registry" "registry" None KString (
     FCons "Patterns" "patterns" None (KSlice KString) (
     FCons "Action" "action" None KString FNil))).

Definition refl_PackageFilterConfig : desc PackageFilterConfig :=
  KStruct (λ x, (pf_Enabled x, (pf_Mode x, (pf_Rules x, tt))))
    (λ '(a0, (a1, (a2, _))), mkPackageFilterConfig a0 a1 a2)
    (FCons "Enabled" "enabled" None KBool (
     FCons "Mode" "mode" (Some "allowlist") KString (
     FCons "Rules" "rules" None (KSlice refl_PackageFilterRule) FNil))).

Definition refl_HashVerificationConfig : desc HashVerificationConfig :=
  KStruct (λ x, (hv_Enabled x, (hv_RequiredHashHeaders x, (hv_FailOnMismatch x, tt))))
    (λ '(a0, (a1, (a2, _))), mkHashVerificationConfig a0 a1 a2)
    (FCons "Enabled" "enabled" None KBool (
     FCons "RequiredHashHeaders" "required_hash_headers" None (KSlice KString) (
     FCons "FailOnMismatch" "fail_on_mismatch" None KBool FNil))).

Definition refl_SecuritySettings : desc SecuritySettings :=
  KStruct (λ x, (se_Authentication x, (se_AccessControl x, (se_PackageFilter x, (se_HashVerification x, tt)))))
    (λ '(a0, (a1, (a2, (a3, _)))), mkSecuritySettings a0 a1 a2 a3)
    (FCons "Authentication" "authentication" None refl_AuthenticationConfig (
     FCons "AccessControl" "access_control" None refl_AccessControlConfig (
     FCons "PackageFilter" "package_filter" None refl_PackageFilterConfig (
     FCons "HashVerification" "hash_verification" None refl_HashVerificationConfig FNil)))).

Definition refl_ChannelConfig : desc ChannelConfig :=
  KStruct (λ x, (ch_Name x, (ch_Type x, (ch_Enabled x, (ch_Config x, tt)))))
    (λ '(a0, (a1, (a2, (a3, _)))), mkChannelConfig a0 a1 a2 a3)
    (FCons "Name" "name" None KString (
     FCons "Type" "type" None KString (
     FCons "Enabled" "enabled" None KBool (
     FCons "Config" "config" None KMap FNil)))).

Definition refl_FilterRule : desc Alerts.FilterRule :=
  KStruct (λ x, (Alerts.fr_Name x, (Alerts.fr_Enabled x, (Alerts.fr_Levels x, (Alerts.fr_Types x, (Alerts.fr_Action x, (Alerts.fr_Target x, tt)))))))
    (λ '(a0, (a1, (a2, (a3, (a4, (a5, _)))))), Alerts.mkRule a0 a1 a2 a3 a4 a5)
    (FCons "Name" "name" None KString (
     FCons "Enabled" "enabled" None KBool (
     FCons "Levels" "levels" None (KSlice KString) (
     FCons "Types" "types" None (KSlice KString) (
     FCons "Action" "action" None KString (
     FCons "Target" "target" None KString FNil)))))).

Definition refl_RateLimitConfig : desc Alerts.RateLimitConfig :=
  KStruct (λ x, (Alerts.rl_Enabled x, (Alerts.rl_MaxPerMinute x, (Alerts.rl_MaxPerHour x, (Alerts.rl_BurstSize x, tt)))))
    (λ '(a0, (a1, (a2, (a3, _)))), Alerts.mkRlConfig a0 a1 a2 a3)
    (FCons "Enabled" "enabled" None KBool (
     FCons "MaxPerMinute" "max_per_minute" None KInt (
     FCons "MaxPerHour" "max_per_hour" None KInt (
     FCons "BurstSize" "burst_size" None KInt FNil)))).

Definition refl_AlertConfig : desc AlertConfig :=
  KStruct (λ x, (al_Enabled x, (al_Channels x, (al_RateLimit x, (al_FilterRules x, tt)))))
    (λ '(a0, (a1, (a2, (a3, _)))), mkAlertConfig a0 a1 a2 a3)
    (FCons "Enabled" "enabled" None KBool (
     FCons "Channels" "channels" None (KSlice refl_ChannelConfig) (
     FCons "RateLimit" "rate_limit" None refl_RateLimitConfig (
     FCons "FilterRules" "filter_rules" None (KSlice refl_FilterRule) FNil)))).

Definition refl_FileLogConfig : desc FileLogConfig :=
  KStruct (λ x, (fl_Path x, (fl_MaxSize x, (fl_MaxBackups x, (fl_MaxAge x, (fl_Compress x, tt))))))
    (λ '(a0, (a1, (a2, (a3, (a4, _))))), mkFileLogConfig a0 a1 a2 a3 a4)
    (FCons "Path" "path" None KString (
     FCons "MaxSize" "max_size" (Some "100MB") KString (
     FCons "MaxBackups" "max_backups" (Some "10") KInt (
     FCons "MaxAge" "max_age" (Some "30") KInt (
     FCons "Compress" "compress" (Some "true") KBool FNil))))).

Definition refl_AccessLogConfig : desc AccessLogConfig :=
  KStruct (λ x, (alog_Enabled x, (alog_Path x, (alog_Format x, (alog_RotateDaily x, tt)))))
    (λ '(a0, (a1, (a2, (a3, _)))), mkAccessLogConfig a0 a1 a2 a3)
    (FCons "Enabled" "enabled" (Some "true") KBool (
     FCons "Path" "path" None KString (
     FCons "Format" "format" (Some "json") KString (
     FCons "RotateDaily" "rotate_daily" (Some "true") KBool FNil)))).

Definition refl_LoggingSettings : desc LoggingSettings :=
  KStruct (λ x, (lg_Level x, (lg_Format x, (lg_Output x, (lg_File x, (lg_AccessLog x, tt))))))
    (λ '(a0, (a1, (a2, (a3, (a4, _))))), mkLoggingSettings a0 a1 a2 a3 a4)
    (FCons "Level" "level" (Some "info") KString (
     FCons "Format" "format" (Some "json") KString (
     FCons "Output" "output" (Some "stdout") KString (
     FCons "File" "file" None refl_FileLogConfig (
     FCons "AccessLog" "access_log" None refl_AccessLogConfig FNil))))).

Definition refl_MetricsConfig : desc MetricsConfig :=
  KStruct (λ x, (mt_Enabled x, (mt_Path x, (mt_Port x, (mt_BasicAuth x, tt)))))
    (λ '(a0, (a1, (a2, (a3, _)))), mkMetricsConfig a0 a1 a2 a3)
    (FCons "Enabled" "enabled" None KBool (
     FCons "Path" "path" (Some "/metrics") KString (
     FCons "Port" "port" None KInt (
     FCons "BasicAuth" "basic_auth" None KBool FNil)))).

Definition refl_SimplePerformanceConfig : desc SimplePerformanceConfig :=
  KStruct (λ x, (pe_MaxConnections x, (pe_MaxIdleConnections x, (pe_ConnectionTimeout x, (pe_KeepAlive x, (pe_BufferSize x, tt))))))
    (λ '(a0, (a1, (a2, (a3, (a4, _))))), mkSimplePerformanceConfig a0 a1 a2 a3 a4)
    (FCons "MaxConnections" "max_connections" (Some "1000") KInt (
     FCons "MaxIdleConnections" "max_idle_connections" (Some "100") KInt (
     FCons "ConnectionTimeout" "connection_timeout" (Some "30s") KDuration (
     FCons "KeepAlive" "keep_alive" (Some "30s") KDuration (
     FCons "BufferSize" "buffer_size" (Some "4096") KInt FNil))))).

Definition refl_RetryConfig : desc RetryConfig :=
  KStruct (λ x, (re_MaxAttempts x, (re_InitialDelay x, (re_MaxDelay x, (re_Multiplier x, tt)))))
    (λ '(a0, (a1, (a2, (a3, _)))), mkRetryConfig a0 a1 a2 a3)
    (FCons "MaxAttempts" "max_attempts" (Some "3") KInt (
     FCons "InitialDelay" "initial_delay" (Some "1s") KDuration (
     FCons "MaxDelay" "max_delay" (Some "30s") KDuration (
     FCons "Multiplier" "multiplier" (Some "2.0") KFloat FNil)))).

Definition refl_CircuitBreakerConfig : desc CircuitBreakerConfig :=
  KStruct (λ x, (cbk_Enabled x, (cbk_FailureThreshold x, (cbk_SuccessThreshold x, (cbk_Timeout x, tt)))))
    (λ '(a0, (a1, (a2, (a3, _)))), mkCircuitBreakerConfig a0 a1 a2 a3)
    (FCons "Enabled" "enabled" None KBool (
     FCons "FailureThreshold" "failure_threshold" (Some "5") KInt (
     FCons "SuccessThreshold" "success_threshold" (Some "2") KInt (
     FCons "Timeout" "timeout" (Some "60s") KDuration FNil)))).

Definition refl_AdvancedConfig : desc AdvancedConfig :=
  KStruct (λ x, (ad_Performance x, (ad_Retry x, (ad_CircuitBreaker x, tt))))
    (λ '(a0, (a1, (a2, _))), mkAdvancedConfig a0 a1 a2)
    (FCons "Performance" "performance" None refl_SimplePerformanceConfig (
     FCons "Retry" "retry" None refl_RetryConfig (
     FCons "CircuitBreaker" "circuit_breaker" None refl_CircuitBreakerConfig FNil))).

Definition refl_VerifierConfig : desc Verifier.VerifierConfig :=
  KStruct (λ x, (Verifier.vc_StrictMode x, (Verifier.vc_BlockOnFailure x, (Verifier.vc_AlertOnFailure x, (Verifier.vc_PackageTypeConfigs x, tt)))))
    (λ '(a0, (a1, (a2, (a3, _)))), Verifier.mkVerifierConfig a0 a1 a2 a3)
    (FCons "StrictMode" "strict_mode" None KBool (
     FCons "BlockOnFailure" "block_on_failure" None KBool (
     FCons "AlertOnFailure" "alert_on_failure" None KBool (
     FCons "PackageTypeConfigs" "package_types" None KMap FNil)))).

Definition refl_RootConfig : desc RootConfig :=
  KStruct (λ x, (rc_Server x, (rc_Cache x, (rc_Registries x, (rc_Security x, (rc_Verification x, (rc_Alerts x, (rc_Logging x, (rc_Metrics x, (rc_Advanced x, tt))))))))))
    (λ '(a0, (a1, (a2, (a3, (a4, (a5, (a6, (a7, (a8, _))))))))), mkRootConfig a0 a1 a2 a3 a4 a5 a6 a7 a8)
    (FCons "Server" "server" None refl_ServerConfig (
     FCons "Cache" "cache" None refl_CacheSettings (
     FCons "Registries" "registries" None refl_RegistryConfig (
     FCons "Security" "security" None refl_SecuritySettings (
     FCons "Verification" "verification" None refl_VerifierConfig (
     FCons "Alerts" "alerts" None refl_AlertConfig (
     FCons "Logging" "logging" None refl_LoggingSettings (
     FCons "Metrics" "metrics" None refl_MetricsConfig (
     FCons "Advanced" "advanced" None refl_AdvancedConfig FNil))))))))).

(** ** Descriptions that tell the truth *)

(** Taking a structure apart and putting it together are inverse to each other. *)
Fixpoint lawful {A} (d : desc A) : Prop :=
  match d with
  | KSlice d => lawful d
  | KStruct out back fs => (∀ x, back (out x) = x) ∧ (∀ t, out (back t) = t) ∧ lawful_fields fs
  | _ => True
  end
with lawful_fields {T} (fs : fields T) : Prop :=
  match fs with FNil => True | FCons _ _ _ d fs => lawful d ∧ lawful_fields fs end.

Scheme desc_mut := Induction for desc Sort Prop with fields_mut := Induction for fields Sort Prop.

Ltac tuple_eta := intros; repeat match goal with x : (_ * _)%type |- _ => destruct x | x : unit |- _ => destruct x end; done.
Ltac lawful_all :=
  lazymatch goal with
  | |- lawful ?d => (try unfold d); cbn [lawful lawful_fields]; split_and!; first [exact I | by intros [] | lawful_all | tuple_eta]
  | |- True => exact I
  end.

Lemma refl_RootConfig_lawful : lawful refl_RootConfig.
Proof. lawful_all. Qed.

(** ** Filling in defaults *)

Lemma setDefaultValue_twice {A} (d : desc A) t x : setDefaultValue d t (setDefaultValue d t x) = setDefaultValue d t x.
Proof.
  destruct d; cbn; try done.
  - by destruct (Atoi t) as [? []].
  - by destruct (Atoi t) as [? []].
  - by destruct (ParseDuration t).
  - by destruct (ParseBool t).
  - by destruct (ParseFloat t).
Qed.

(** A field that is filled in is not itself a structure. *)
Definition fill {A} (d : desc A) (tag : option string) (x : A) : A :=
  match tag with Some t => if isZeroValue d x then setDefaultValue d t x else x | None => x end.

Lemma fill_rec {A} (d : desc A) tag x : lawful d → applyDefaultsRecursive d (fill d tag x) = fill d tag (applyDefaultsRecursive d x).
Proof. destruct d; try done; by destruct tag. Qed.

Lemma fill_twice {A} (d : desc A) tag x : fill d tag (fill d tag x) = fill d tag x.
Proof.
  unfold fill. destruct tag as [t|]; [|done]. destruct (isZeroValue d x) eqn:E; [|by rewrite E].
  destruct (isZeroValue d (setDefaultValue d t x)); [apply setDefaultValue_twice|done].
Qed.

Lemma applyDefaults_twice {A} (d : desc A) : lawful d → ∀ x, applyDefaultsRecursive d (applyDefaultsRecursive d x) = applyDefaultsRecursive d x.
Proof.
  apply (desc_mut (λ A d, lawful d → ∀ x, applyDefaultsRecursive d (applyDefaultsRecursive d x) = applyDefaultsRecursive d x)
                  (λ T fs, lawful_fields fs → ∀ x, default_fields fs (default_fields fs x) = default_fields fs x)); try done.
  - intros B T out back fs IH (_ & Hb & Hl) x. cbn. by rewrite Hb, IH.
  - intros B T name yaml tag d' IHd fs IHf [Hd Hf] [x y]. cbn. rewrite IHf by done. f_equal.
    change (applyDefaultsRecursive d' (fill d' tag (applyDefaultsRecursive d' (fill d' tag x))) = applyDefaultsRecursive d' (fill d' tag x)).
    rewrite <- fill_rec by done. by rewrite fill_twice, IHd.
Qed.

(** Filling in the defaults by their tags is done once and for all, for any structure. *)
Theorem defaults_idempotent {A} (d : desc A) x : lawful d → applyDefaultsRecursive d (applyDefaultsRecursive d x) = applyDefaultsRecursive d x.
Proof. intros H. by apply applyDefaults_twice. Qed.

(** The names of the flat map depend on the type only. *)
Lemma flat_names {A} (d : desc A) : ∀ n x y k, is_Some (flat d n x !! k) → is_Some (flat d n y !! k).
Proof.
  apply (desc_mut (λ A d, ∀ n x y k, is_Some (flat d n x !! k) → is_Some (flat d n y !! k))
                  (λ T fs, ∀ n x y k, is_Some (flat_fields fs n x !! k) → is_Some (flat_fields fs n y !! k)));
    try (intros; cbn in *; match goal with H : is_Some ({[?n := _]} !! ?k) |- _ => destruct (decide (n = k)) as [->|Hne];
      [by rewrite lookup_singleton_eq|rewrite lookup_singleton_ne in H by done; by destruct H] end).
  - intros B T out back fs IH n x y k. cbn. apply IH.
  - done.
  - intros B T name yaml tag d' IHd fs IHf n [x1 x2] [y1 y2] k. cbn. rewrite !lookup_union_is_Some.
    intros [H|H]; [left; by eapply IHf|right]. destruct (empty yaml || _); [done|by eapply IHd].
Qed.

Definition zero_value (v : value) : bool :=
  match v with
  | VNil => true | VString s => empty s | VInt z | VInt64 z | VDuration z => z =? 0
  | VBool b => negb b | VFloat f => feq f (of_int 0) | VOther => false
  end.

Lemma flat_fill_keeps {A} (d : desc A) tag n x k v : flat d n x !! k = Some v → zero_value v = false → flat d n (fill d tag x) !! k = Some v.
Proof.
  destruct tag as [t|]; [|done]. destruct d; cbn; try done; intros H Hz;
    destruct (decide (n = k)) as [->|]; rewrite ?lookup_singleton_ne in H by done; try done;
    rewrite ?lookup_singleton_eq in *; simplify_eq/=; rewrite ?Hz; try done; by case_match.
Qed.

Lemma union_keeps (a b a' b' : gmap string value) k v :
  (is_Some (a' !! k) → is_Some (a !! k)) → (a !! k = Some v → a' !! k = Some v) → (b !! k = Some v → b' !! k = Some v) →
  (a ∪ b) !! k = Some v → (a' ∪ b') !! k = Some v.
Proof.
  intros Hn Ha Hb. rewrite !lookup_union_Some_raw. intros [H|[H1 H2]]; [left; by apply Ha|right]. split; [|by apply Hb].
  destruct (a' !! k) eqn:E; [|done]. destruct Hn as [w Hw]; [done|]. congruence.
Qed.

Lemma flat_defaults_keep {A} (d : desc A) : lawful d → ∀ n x k v, flat d n x !! k = Some v → zero_value v = false →
  flat d n (applyDefaultsRecursive d x) !! k = Some v.
Proof.
  apply (desc_mut (λ A d, lawful d → ∀ n x k v, flat d n x !! k = Some v → zero_value v = false → flat d n (applyDefaultsRecursive d x) !! k = Some v)
                  (λ T fs, lawful_fields fs → ∀ n x k v, flat_fields fs n x !! k = Some v → zero_value v = false → flat_fields fs n (default_fields fs x) !! k = Some v)); try done.
  - intros B T out back fs IH (_ & Hb & Hl) n x k v. cbn. rewrite Hb. by apply IH.
  - intros B T name yaml tag d' IHd fs IHf [Hd Hf] n [x1 x2] k v. cbn. intros H Hz. revert H.
    change (match tag with Some t => _ | None => _ end) with (fill d' tag x1).
    apply union_keeps.
    + apply (flat_names (KStruct (λ t, t) (λ t, t) fs)).
    + intros H. by apply IHf.
    + destruct (empty yaml || _); [done|]. intros H. apply IHd; [done| |done]. by apply flat_fill_keeps.
Qed.

(** No default overrides what a document says, except what it sets to the zero of its
    type: every other value keeps its place in the flat map. *)
Theorem defaults_keep_values c k v :
  structToFlatMap refl_RootConfig c !! k = Some v → zero_value v = false →
  structToFlatMap refl_RootConfig (applyDefaultsRecursive refl_RootConfig c) !! k = Some v.
Proof. apply flat_defaults_keep, refl_RootConfig_lawful. Qed.

(** Switches whose default is [true] cannot be turned off: [false] is the zero value,
    and is taken for a switch that is not there. *)
Theorem explicit_false_lost c : let d := applyDefaultsRecursive refl_RootConfig c in
  sv_EnableHTTP2 (rc_Server d) = true ∧ cp_Enabled (sv_Compression (rc_Server d)) = true ∧ s3_UseSSL (ca_S3 (rc_Cache d)) = true ∧
  fl_Compress (lg_File (rc_Logging d)) = true ∧ alog_Enabled (lg_AccessLog (rc_Logging d)) = true ∧ alog_RotateDaily (lg_AccessLog (rc_Logging d)) = true.
Proof.
  cbn. split_and!.
  - by destruct (sv_EnableHTTP2 _).
  - by destruct (cp_Enabled _).
  - by destruct (s3_UseSSL _).
  - by destruct (fl_Compress _).
  - by destruct (alog_Enabled _).
  - by destruct (alog_RotateDaily _).
Qed.

(** A field that is set is left alone; one that is not gets a constant. *)
Ltac default_leaf :=
  unfold or_text, or_number;
  match goal with |- context [if ?b then _ else _] => let E := fresh in destruct b eqn:E; [vm_compute; reflexivity|by rewrite E] end.

(** The defaults by hand and the defaults by tags agree: whatever [ApplyDefaults] sets,
    the tags have set to the same value. *)
Theorem defaults_agree c : ApplyDefaults (applyDefaultsRecursive refl_RootConfig c) = applyDefaultsRecursive refl_RootConfig c.
Proof.
  destruct c as [[h p rt wt it [te tc tk tv] h2 co cors] [b ttl ms mi ci ep f s3 rd] rg se ve al [ll lf lo lfi la] [me mp mport mb]
    [[pc pi pct pk pb] [ra ri rm ru] [ce cf cs ct]]].
  cbn -[or_text or_number feq of_int ParseDuration ParseFloat Atoi empty].
  unfold ApplyDefaults, default_server, default_cache, default_logging, default_metrics, default_advanced.
  cbn -[or_text or_number feq of_int ParseDuration ParseFloat Atoi empty].
  repeat (f_equal; try done); default_leaf.
Qed.

(** ** What the overrides reach *)

Inductive outcome := Sets | Ignored | Panics | IfPresent (o : outcome).

#[export] Instance outcome_eq_dec : EqDecision outcome.
Proof. solve_decision. Defined.

(** The setters that take a text, a number, a switch or a duration. *)
Definition fits {A} (d : desc A) (kind : string) : bool :=
  match d with
  | KString => String.eqb kind "string"
  | KInt | KInt64 => String.eqb kind "int"
  | KDuration => String.eqb kind "int" || String.eqb kind "duration"
  | KBool => String.eqb kind "bool"
  | _ => false
  end.

(** The outcome of a path, from the type alone. *)
Fixpoint resolve {A} (kind : string) (d : desc A) (steps : list step) : outcome :=
  match steps with
  | [] => if fits d kind then Sets else IfPresent Panics
  | s :: steps =>
      match d with
      | KStruct _ _ fs => resolve_field kind fs s steps
      | _ => match s with BadIndex => Ignored | _ => Panics end
      end
  end
with resolve_field {T} (kind : string) (fs : fields T) (s : step) (steps : list step) : outcome :=
  match fs with
  | FNil => Ignored
  | FCons name _ _ d fs =>
      match s with
      | BadIndex => Ignored
      | Field n => if String.eqb n name then resolve kind d steps else resolve_field kind fs s steps
      | Index n i => if String.eqb n name then resolve_index kind d i steps else resolve_field kind fs s steps
      end
  end
with resolve_index {A} (kind : string) (d : desc A) (i : Z) (steps : list step) : outcome :=
  match d with
  | KSlice d => IfPresent (if i <? 0 then Panics else resolve kind d steps)
  | _ => Ignored
  end.

Lemma fits_sets env value kind {A} (d : desc A) x : fits d kind = true → is_Some (setFieldValue env d value kind x).
Proof.
  destruct d; cbn; try done; intros H; repeat (apply orb_true_iff in H as [H|H]); apply String.eqb_eq in H; subst kind; cbn; eauto;
    by destruct (Atoi value) as [? []].
Qed.

(** What the outcome says of a value: [Sets] is a result, [Ignored] no change, [Panics] none. *)
Definition agrees {A} (o : outcome) (x : A) (r : option A) : Prop :=
  match o with Sets => is_Some r | Ignored => r = Some x | Panics => r = None | IfPresent _ => True end.

Lemma agrees_map {A B} (f : A → B) o x y r : f x = y → agrees o x r → agrees o y (option_map f r).
Proof. intros <-. destruct o; cbn; [intros [? ->]; eauto|by intros ->..|done]. Qed.

Lemma resolve_sound env value kind {A} (d : desc A) : lawful d → ∀ steps x, agrees (resolve kind d steps) x (set_path env d steps value kind x).
Proof.
  apply (desc_mut
    (λ A d, lawful d → ∀ steps x, agrees (resolve kind d steps) x (set_path env d steps value kind x))
    (λ T fs, lawful_fields fs → ∀ s steps x, agrees (resolve_field kind fs s steps) x (set_field env fs s steps value kind x)));
    try (intros; destruct steps as [|[] ?]; cbn -[fits setFieldValue agrees]; try (hnf; done); destruct (fits _ kind) eqn:Ef; first [exact I|by apply fits_sets]).
  - intros B T out back fs IH (Hb & _ & Hl) [|s steps] x; cbn -[fits setFieldValue agrees]; [exact I|]. by apply (agrees_map back _ (out x)), IH.
  - intros B T name yaml tag d' IHd fs IHf [Hd Hf] s steps [x y]. cbn [resolve_field set_field fst snd].
    destruct s as [n|n i|]; [| |done]; destruct (String.eqb n name); try (by apply (agrees_map (pair x) _ y), IHf).
    + by apply (agrees_map (λ z, (z, y)) _ x), IHd.
    + by destruct d'.
Qed.

Definition capitalised (w : string) : string := match w with String c w => String (upper_char c) w | EmptyString => EmptyString end.
Definition lower_digit (c : ascii) : bool := in_range 97 122 c || is_digit c.
Definition plain_word (w : string) : bool :=
  match w with String c w => in_range 97 122 c && str_all lower_digit w | EmptyString => false end.

(** The words of a path that [Title] is called on. *)
Definition plain_part (part : string) : bool :=
  match cut_at "[" part with
  | Some (name, rest) => match cut_at "]" rest with
                         | Some _ => plain_word (ReplaceAll name "_" EmptyString)
                         | None => forallb plain_word (Split part "_")
                         end
  | None => forallb plain_word (Split part "_")
  end.
Definition plain_path (path : string) : bool := forallb plain_part (Split path ".").

Section titles.
Context (title : string → string) (title_word : ∀ w, plain_word w = true → title w = capitalised w).

Lemma camel_plain part : forallb plain_word (Split part "_") = true → toCamelCase title part = toCamelCase capitalised part.
Proof.
  unfold toCamelCase. intros H. f_equal. induction (Split part "_") as [|w ws IH]; [done|]. cbn in *.
  apply andb_true_iff in H as [Hw H]. by rewrite title_word, IH.
Qed.

Lemma path_steps_plain path : plain_path path = true → path_steps title path = path_steps capitalised path.
Proof.
  unfold plain_path, path_steps. induction (Split path ".") as [|p ps IH]; [done|]. cbn [forallb map]. intros [Hp H]%andb_true_iff.
  rewrite IH by done. f_equal. unfold path_step, plain_part in *. destruct (cut_at "[" p) as [[name rest]|]; [|by rewrite camel_plain].
  destruct (cut_at "]" rest) as [[ix ?]|]; [|by rewrite camel_plain]. destruct (Atoi ix) as [z []]; [done|]. by rewrite title_word.
Qed.
End titles.

Definition with_outcome (o : outcome) : list string :=
  EnvVar <$> filter (λ v, resolve (Kind v) refl_RootConfig (path_steps capitalised (Path v)) = o) envOverrides.

(** The overrides of keys whose Go name is not the title of its words ([TLS], [TTL], [NPM], ...). *)
Definition ignored_variables : list string :=
  ["TLS_ENABLED"; "TLS_CERT_FILE"; "TLS_KEY_FILE"; "CACHE_TTL"; "AWS_ACCESS_KEY_ID"; "REDIS_DB"; "NPM_ENABLED"; "NPM_UPSTREAM";
   "PYPI_ENABLED"; "PYPI_UPSTREAM"; "APT_ENABLED"; "IP_WHITELIST_ENABLED"].
Definition panicking_variables : list string := ["AUTH_ENABLED"; "AUTH_USERS_FILE"].

Lemma panicking_not_ignored x : x ∈ panicking_variables → bool_decide (x ∈ ignored_variables) = false.
Proof. intros [->|[->|[]%not_elem_of_nil]%elem_of_cons]%elem_of_cons; by vm_compute. Qed.

Lemma outcome_of v : v ∈ envOverrides → plain_path (Path v) = true ∧
  resolve (Kind v) refl_RootConfig (path_steps capitalised (Path v)) =
    (if bool_decide (EnvVar v ∈ ignored_variables) then Ignored
     else if bool_decide (EnvVar v ∈ panicking_variables) then Panics
     else if String.eqb (EnvVar v) "WEBHOOK_URL" then IfPresent Panics else Sets).
Proof.
  intros Hv. cut (forallb (λ v, plain_path (Path v) && bool_decide (resolve (Kind v) refl_RootConfig (path_steps capitalised (Path v)) =
    (if bool_decide (EnvVar v ∈ ignored_variables) then Ignored
     else if bool_decide (EnvVar v ∈ panicking_variables) then Panics
     else if String.eqb (EnvVar v) "WEBHOOK_URL" then IfPresent Panics else Sets))) envOverrides = true).
  - rewrite forallb_forall. intros H. apply list_elem_of_In in Hv. apply H in Hv. apply andb_true_iff in Hv as [H1 H2].
    split; [done|by apply bool_decide_eq_true in H2].
  - by vm_compute.
Qed.

(** Of the variables that override the configuration, twelve never do (their path is
    not found), two panic whenever they are set (they go through a pointer), the address of
    the webhook panics when there are two channels, and all others set a field. *)
Theorem override_table title env c v :
  (∀ w, plain_word w = true → title w = capitalised w) → v ∈ envOverrides → env (EnvVar v) ≠ EmptyString →
  (EnvVar v ∈ ignored_variables → apply_override title env refl_RootConfig c v = Some c) ∧
  (EnvVar v ∈ panicking_variables → apply_override title env refl_RootConfig c v = None) ∧
  (EnvVar v ∉ ignored_variables → EnvVar v ∉ panicking_variables → EnvVar v ≠ "WEBHOOK_URL"%string →
     is_Some (apply_override title env refl_RootConfig c v)).
Proof.
  intros Ht Hv He. destruct (outcome_of v Hv) as [Hp Hr]. unfold apply_override. rewrite (proj2 (empty_false _) He).
  rewrite (path_steps_plain title Ht) by done.
  pose proof (resolve_sound env (env (EnvVar v)) (Kind v) refl_RootConfig refl_RootConfig_lawful (path_steps capitalised (Path v)) c) as Hs.
  rewrite Hr in Hs. split_and!.
  - intros H. by rewrite (bool_decide_eq_true_2 _ H) in Hs.
  - intros H. by rewrite (panicking_not_ignored _ H), (bool_decide_eq_true_2 _ H) in Hs.
  - intros H1 H2 H3. by rewrite (bool_decide_eq_false_2 _ H1), (bool_decide_eq_false_2 _ H2), (proj2 (String.eqb_neq _ _) H3) in Hs.
Qed.

Lemma overrides_stuck {A} title env (d : desc A) os :
  foldl (λ acc o, match acc with Some x => apply_override title env d x o | None => None end) None os = None.
Proof. by induction os. Qed.

(** Setting [AUTH_ENABLED], to any text, makes the overrides panic. *)
Theorem auth_variable_panics title env c :
  (∀ w, plain_word w = true → title w = capitalised w) → env "AUTH_ENABLED" ≠ EmptyString → ApplyEnvironmentOverrides title env refl_RootConfig c = None.
Proof.
  intros Ht He. set (v := mkOverride "AUTH_ENABLED" "security.authentication.basic_auth.enabled" "bool").
  assert (∃ l1 l2, envOverrides = l1 ++ v :: l2) as (l1 & l2 & E) by (exists (take 27 envOverrides), (drop 28 envOverrides); by vm_compute).
  unfold ApplyEnvironmentOverrides. rewrite E, foldl_app. cbn [foldl]. destruct (foldl _ (Some c) l1) as [c'|]; [|apply overrides_stuck].
  assert (apply_override title env refl_RootConfig c' v = None) as ->; [|apply overrides_stuck].
  unfold apply_override. rewrite (proj2 (empty_false (env (EnvVar v))) He), (path_steps_plain title Ht) by by vm_compute.
  by apply (resolve_sound env (env "AUTH_ENABLED") (Kind v) refl_RootConfig refl_RootConfig_lawful (path_steps capitalised (Path v)) c').
Qed.

(** ** Witnesses *)

Lemma defaults_idempotent_witness :
  applyDefaultsRecursive refl_RootConfig (applyDefaultsRecursive refl_RootConfig zero_config) = applyDefaultsRecursive refl_RootConfig zero_config.
Proof. apply (defaults_idempotent refl_RootConfig zero_config). exact refl_RootConfig_lawful. Defined.

Lemma defaults_keep_values_witness :
  structToFlatMap refl_RootConfig (applyDefaultsRecursive refl_RootConfig (ApplyDefaults zero_config)) !! "server.port"%string = Some (VInt 8080).
Proof. apply (defaults_keep_values (ApplyDefaults zero_config) "server.port" (VInt 8080)); by vm_compute. Defined.

Definition only (name value : string) : environment := λ v, if String.eqb v name then value else EmptyString.

Lemma override_table_witness :
  let v := mkOverride "TLS_ENABLED" "server.tls.enabled" "bool" in
  apply_override capitalised (only "TLS_ENABLED" "true") refl_RootConfig zero_config v = Some zero_config.
Proof.
  intros v. eapply (override_table capitalised (only "TLS_ENABLED" "true") zero_config v); [done| |done|].
  - apply list_elem_of_In. vm_compute. tauto.
  - apply list_elem_of_In. vm_compute. tauto.
Defined.

Lemma auth_variable_panics_witness : ApplyEnvironmentOverrides capitalised (only "AUTH_ENABLED" "no") refl_RootConfig zero_config = None.
Proof. by apply (auth_variable_panics capitalised (only "AUTH_ENABLED" "no") zero_config). Defined.
