(* ===== verification/GoUrlParse.v ===== *)
(** * GoUrlParse: [url.Parse]

    The parser of [net/url], byte by byte: the scheme, the authority with its user and its
    host, the path, and what is refused.  The fields kept are those the program reads. *)

From Stdlib Require Import Ascii.
From S2P Require Import Prelude GoStrings GoUrl.

Record URL := mkURL { u_Scheme : string; u_User : option string; u_Host : string; u_Path : string; u_RawQuery : string; u_Fragment : string }.

(** ** Escapes *)

Inductive encoding := EncodePath | EncodeHost | EncodeZone | EncodeUser | EncodeFragment.

Definition is_hex (c : ascii) : bool := match unhex c with Some _ => true | None => false end.

(** What [shouldEscape] leaves alone in a host. *)
Definition host_char (c : ascii) : bool :=
  is_letter c || is_digit c || existsb (Ascii.eqb c) ["-"; "_"; "."; "~"; "!"; "$"; "&"; "'"; "("; ")"; "*"; "+"; ","; ";"; "="; ":"; "["; "]"; "<"; ">"; "034"]%char.

Definition host_mode (mode : encoding) : bool := match mode with EncodeHost | EncodeZone => true | _ => false end.

(** [unescape]; [None] is an error. *)
Fixpoint unescape (mode : encoding) (s : string) : option string :=
  match s with
  | EmptyString => Some EmptyString
  | String c s' =>
      if Ascii.eqb c "%" then
        match s' with
        | String a (String b s'') =>
            match unhex a, unhex b with
            | Some x, Some y =>
                let v := 16 * x + y in
                let quoted := Ascii.eqb a "2" && Ascii.eqb b "5" in
                if match mode with
                   | EncodeHost => (x <? 8) && negb quoted
                   | EncodeZone => negb quoted && negb (v =? 32) && negb (host_char (ascii_of_nat (Z.to_nat v)))
                   | _ => false
                   end then None
                else option_map (String (ascii_of_nat (Z.to_nat v))) (unescape mode s'')
            | _, _ => None
            end
        | _ => None
        end
      else if host_mode mode && (byte_of c <? 128) && negb (host_char c) then None
      else option_map (String c) (unescape mode s')
  end.

(** ** The parts *)

(** [getScheme]: the scheme and the rest; [None] is a colon at the start. *)
Fixpoint scheme_go (first : bool) (all s : string) : option (string * string) :=
  match s with
  | EmptyString => Some (EmptyString, all)
  | String c s' =>
      if is_letter c then option_map (λ '(a, b), (if String.eqb b all then (EmptyString, all) else (String c a, b))) (scheme_go false all s')
      else if is_digit c || existsb (Ascii.eqb c) ["+"; "-"; "."]%char then
        if first then Some (EmptyString, all)
        else option_map (λ '(a, b), (if String.eqb b all then (EmptyString, all) else (String c a, b))) (scheme_go false all s')
      else if Ascii.eqb c ":" then if first then None else Some (EmptyString, s')
      else Some (EmptyString, all)
  end.
Definition getScheme (s : string) : option (string * string) := scheme_go true s s.

Definition validOptionalPort (port : string) : bool :=
  match port with EmptyString => true | String c ds => Ascii.eqb c ":" && str_all is_digit ds end.

Definition user_char (c : ascii) : bool :=
  is_letter c || is_digit c || existsb (Ascii.eqb c) ["-"; "."; "_"; ":"; "~"; "!"; "$"; "&"; "'"; "("; ")"; "*"; "+"; ","; ";"; "="; "%"; "@"]%char.

Definition parseHost (host : string) : option string :=
  if HasPrefix host "[" then
    match cut_last "]" host with
    | None => None
    | Some (h, port) =>
        if negb (validOptionalPort port) then None
        else
          match cut_at "%25" h with
          | Some (h1, h2) =>
              match unescape EncodeHost h1, unescape EncodeZone ("%25" +:+ h2), unescape EncodeHost ("]" +:+ port) with
              | Some a, Some b, Some c => Some (a +:+ (b +:+ c))
              | _, _, _ => None
              end
          | None => unescape EncodeHost host
          end
    end
  else
    match cut_last ":" host with
    | Some (_, port) => if validOptionalPort (":" +:+ port) then unescape EncodeHost host else None
    | None => unescape EncodeHost host
    end.

Definition parseAuthority (authority : string) : option (option string * string) :=
  match cut_last "@" authority with
  | None => option_map (pair None) (parseHost authority)
  | Some (userinfo, h) =>
      match parseHost h with
      | None => None
      | Some host =>
          if negb (str_all user_char userinfo) then None
          else
            match cut_at ":" userinfo with
            | None => match unescape EncodeUser userinfo with Some u => Some (Some u, host) | None => None end
            | Some (name, password) =>
                match unescape EncodeUser name, unescape EncodeUser password with
                | Some u, Some p => Some (Some (u +:+ (":" +:+ p)), host)
                | _, _ => None
                end
            end
      end
  end.

Definition control (c : ascii) : bool := (byte_of c <? 32) || (byte_of c =? 127).

(** [parse] of what stands before the fragment. *)
Definition parse_url (raw : string) : option URL :=
  if negb (str_all (λ c, negb (control c)) raw) then None
  else if String.eqb raw "*" then Some (mkURL EmptyString None EmptyString "*" EmptyString EmptyString)
  else
    match getScheme raw with
    | None => None
    | Some (scheme, rest) =>
        let scheme := to_lower scheme in
        let '(rest, query) := match cut_at "?" rest with Some (a, b) => (a, b) | None => (rest, EmptyString) end in
        if negb (HasPrefix rest "/") && negb (String.eqb scheme EmptyString) then
          Some (mkURL scheme None EmptyString EmptyString query EmptyString)
        else if negb (HasPrefix rest "/") && Contains (match cut_at "/" rest with Some (a, _) => a | None => rest end) ":" then None
        else if (negb (String.eqb scheme EmptyString) || negb (HasPrefix rest "///")) && HasPrefix rest "//" then
          let authority := drop_bytes 2 rest in
          let '(authority, path) := match cut_at "/" authority with Some (a, b) => (a, "/" +:+ b) | None => (authority, EmptyString) end in
          match parseAuthority authority, unescape EncodePath path with
          | Some (user, host), Some path => Some (mkURL scheme user host path query EmptyString)
          | _, _ => None
          end
        else option_map (λ path, mkURL scheme None EmptyString path query EmptyString) (unescape EncodePath rest)
    end.

(** [url.Parse]; [None] is an error. *)
Definition Parse (raw : string) : option URL :=
  match cut_at "#" raw with
  | None => parse_url raw
  | Some (u, frag) =>
      match parse_url u, unescape EncodeFragment frag with
      | Some r, Some f => Some (mkURL (u_Scheme r) (u_User r) (u_Host r) (u_Path r) (u_RawQuery r) f)
      | _, _ => None
      end
  end.

Example url_parse_ex :
  Parse "https://user:pw@example.com:8080/a%20b?q=1#x" = Some (mkURL "https" (Some "user:pw"%string) "example.com:8080" "/a b" "q=1" "x")
  ∧ Parse "http://[::1]:80/" = Some (mkURL "http" None "[::1]:80" "/" EmptyString EmptyString)
  ∧ Parse "http://host:80x/" = None ∧ Parse "a:b" = Some (mkURL "a" None EmptyString EmptyString EmptyString EmptyString)
  ∧ Parse ":b" = None ∧ Parse "1a:b" = None ∧ Parse "/p%zz" = None ∧ Parse "example.com/x" = Some (mkURL EmptyString None EmptyString "example.com/x" EmptyString EmptyString)
  ∧ Parse "http://a b/" = None ∧ Parse EmptyString = Some (mkURL EmptyString None EmptyString EmptyString EmptyString EmptyString).
Proof. by vm_compute. Qed.
