(* ===== verification/SchemaValidator.v ===== *)
(** * SchemaValidator: validation of the configuration against a schema

    Models [src/internal/config/schema_validator.go]: the rules, the checks of types,
    ranges, patterns and enumerations over the flat map of [ConfigReflect], the checks that
    look at the disk, the constraints between fields, migration of old documents, and sizes
    as text.  Errors carry what their message says.  [never_valid] shows that no
    configuration passes; [integer_range] that the bounds of an integer are compared exactly
    although they are compared as floats; [migrated] what migration moves.  The deprecation
    of a rule is left out, since no rule is deprecated; the generation of the schema as a
    document is not modelled. *)

From Stdlib Require Import Ascii.
From S2P Require Import Prelude GoStrings GoText GoRegexp GoPath GoFS GoConv GoNet GoUrlParse OAuth2Config RootConfig ConfigReflect.

(** ** Sizes *)

Definition is_space (c : ascii) : bool := in_range 9 10 c || in_range 12 13 c || Ascii.eqb c " ".
Definition re_digits : re := RPlus (RChar is_digit).
(** The pattern of a size: a number, spaces, a unit. *)
Definition size_pattern : re :=
  RCat (RGrp 1 (RCat re_digits (ROpt (RCat (RLit ".") re_digits))))
    (RCat (RStar (RChar is_space))
       (RGrp 2 (RCat (ROpt (RChar (λ c, existsb (Ascii.eqb c) ["K"; "M"; "G"; "T"]%char))) (ROpt (RLit "B"))))).

Definition unit_factor (u : string) : option Z :=
  if String.eqb u "KB" then Some (2 ^ 10)
  else if String.eqb u "MB" then Some (2 ^ 20)
  else if String.eqb u "GB" then Some (2 ^ 30)
  else if String.eqb u "TB" then Some (2 ^ 40)
  else None.

Definition parseSize (s : string) : option Z :=
  if empty s then None
  else
    match full_match size_pattern (to_upper s) with
    | None => None
    | Some g =>
        match ParseFloat (group g 1) with
        | None => None
        | Some n =>
            let u := group g 2 in
            if empty u || String.eqb u "B" then Some (trunc n)
            else option_map (λ k, trunc (fmul n (of_int k))) (unit_factor u)
        end
    end.

(** ** Comparing values *)

Definition toFloat64 (v : value) : option float64 :=
  match v with
  | VInt z | VInt64 z => Some (of_int z)
  | VFloat f => Some f
  | VString s => ParseFloat s
  | _ => None
  end.
Definition toDuration (v : value) : option duration := match v with VString s => ParseDuration s | _ => None end.
Definition toSize (v : value) : option Z := match v with VString s => parseSize s | _ => None end.

(** [compareValues] with [>=] and [<=]: numbers, else durations, else sizes. *)
Definition compareValues (at_least : bool) (v target : value) : bool :=
  match toFloat64 v, toFloat64 target with
  | Some a, Some b => if at_least then fle b a else fle a b
  | _, _ =>
      match toDuration v, toDuration target with
      | Some a, Some b => if at_least then b <=? a else a <=? b
      | _, _ =>
          match toSize v, toSize target with
          | Some a, Some b => if at_least then b <=? a else a <=? b
          | _, _ => false
          end
      end
  end.

Definition deep_equal (v w : value) : bool :=
  match v, w with
  | VString a, VString b => String.eqb a b
  | VInt a, VInt b | VInt64 a, VInt64 b | VDuration a, VDuration b => a =? b
  | VBool a, VBool b => Bool.eqb a b
  | VFloat a, VFloat b => feq a b
  | VNil, VNil => true
  | _, _ => false
  end.

(** ** Rules *)

Record ValidationRule := mkRule {
  Type_ : string; Required : bool; MinValue : value; MaxValue : value; Pattern : option re; Enum : list value; Default : value; CustomFunc : string
}.

Inductive reason := RequiredMissing | WrongType | BelowMinimum | AboveMaximum | PatternMismatch | NotAllowed | CustomFailed | ConstraintBroken.
Record SchemaError := mkSErr { se_Field : string; se_Reason : reason }.

Definition word (extra : list ascii) (c : ascii) : bool := is_letter c || is_digit c || existsb (Ascii.eqb c) extra.
Definition lower_word (extra : list ascii) (c : ascii) : bool := in_range 97 122 c || is_digit c || existsb (Ascii.eqb c) extra.
Definition host_pattern : re := RPlus (RChar (word ["."; "-"]%char)).
Definition bucket_pattern : re := RPlus (RChar (lower_word ["."; "-"]%char)).
Definition region_pattern : re := RPlus (RChar (lower_word ["-"]%char)).
Definition address_pattern : re := RCat host_pattern (RCat (RLit ":") re_digits).
Definition metrics_pattern : re := RCat (RLit "/") (RStar (RChar (word ["-"; "_"; "/"]%char))).

Definition default_rules : list (string * ValidationRule) := [
  ("server.host", mkRule "string" true VNil VNil (Some host_pattern) [] (VString "0.0.0.0") EmptyString);
  ("server.port", mkRule "int" true (VInt 1) (VInt 65535) None [] (VInt 8080) EmptyString);
  ("server.read_timeout", mkRule "duration" false (VString "1s") (VString "300s") None [] (VString "30s") EmptyString);
  ("server.write_timeout", mkRule "duration" false (VString "1s") (VString "300s") None [] (VString "30s") EmptyString);
  ("server.idle_timeout", mkRule "duration" false (VString "10s") (VString "600s") None [] (VString "120s") EmptyString);
  ("server.tls.enabled", mkRule "bool" false VNil VNil None [] (VBool false) EmptyString);
  ("server.tls.cert_file", mkRule "path" false VNil VNil None [] VNil "validate_cert_file");
  ("server.tls.key_file", mkRule "path" false VNil VNil None [] VNil "validate_key_file");
  ("server.tls.min_version", mkRule "string" false VNil VNil None [VString "TLS1.0"; VString "TLS1.1"; VString "TLS1.2"; VString "TLS1.3"] (VString "TLS1.2") EmptyString);
  ("cache.backend", mkRule "string" true VNil VNil None [VString "file"; VString "s3"; VString "redis"] (VString "file") EmptyString);
  ("cache.ttl", mkRule "duration" false (VString "60s") (VString "86400s") None [] (VString "3600s") EmptyString);
  ("cache.max_size", mkRule "size" false (VString "100MB") (VString "1TB") None [] (VString "10GB") EmptyString);
  ("cache.max_items", mkRule "int" false (VInt 1000) (VInt 10000000) None [] VNil EmptyString);
  ("cache.cleanup_interval", mkRule "duration" false (VString "1m") (VString "24h") None [] (VString "1h") EmptyString);
  ("cache.eviction_policy", mkRule "string" false VNil VNil None [VString "lru"; VString "lfu"; VString "fifo"; VString "random"] (VString "lru") EmptyString);
  ("cache.file.directory", mkRule "path" false VNil VNil None [] VNil "validate_cache_directory");
  ("cache.file.max_file_size", mkRule "size" false (VString "1MB") (VString "100GB") None [] (VString "1GB") EmptyString);
  ("cache.s3.endpoint", mkRule "url" false VNil VNil None [] VNil EmptyString);
  ("cache.s3.bucket", mkRule "string" false VNil VNil (Some bucket_pattern) [] VNil EmptyString);
  ("cache.s3.region", mkRule "string" false VNil VNil (Some region_pattern) [] VNil EmptyString);
  ("cache.redis.address", mkRule "string" false VNil VNil (Some address_pattern) [] VNil EmptyString);
  ("cache.redis.db", mkRule "int" false (VInt 0) (VInt 15) None [] (VInt 0) EmptyString);
  ("logging.level", mkRule "string" false VNil VNil None [VString "debug"; VString "info"; VString "warn"; VString "error"] (VString "info") EmptyString);
  ("logging.format", mkRule "string" false VNil VNil None [VString "json"; VString "text"; VString "console"] (VString "json") EmptyString);
  ("logging.output", mkRule "string" false VNil VNil None [VString "stdout"; VString "stderr"; VString "file"] (VString "stdout") EmptyString);
  ("metrics.enabled", mkRule "bool" false VNil VNil None [] (VBool false) EmptyString);
  ("metrics.path", mkRule "string" false VNil VNil (Some metrics_pattern) [] (VString "/metrics") EmptyString);
  ("metrics.port", mkRule "int" false (VInt 1) (VInt 65535) None [] VNil EmptyString);
  ("security.authentication.basic_auth.enabled", mkRule "bool" false VNil VNil None [] (VBool false) EmptyString);
  ("security.access_control.ip_whitelist.enabled", mkRule "bool" false VNil VNil None [] (VBool false) EmptyString);
  ("advanced.performance.max_connections", mkRule "int" false (VInt 10) (VInt 100000) None [] (VInt 1000) EmptyString);
  ("advanced.performance.connection_timeout", mkRule "duration" false (VString "1s") (VString "300s") None [] (VString "30s") EmptyString);
  ("advanced.retry.max_attempts", mkRule "int" false (VInt 1) (VInt 10) None [] (VInt 3) EmptyString);
  ("advanced.retry.initial_delay", mkRule "duration" false (VString "100ms") (VString "10s") None [] (VString "1s") EmptyString)
]%string.

Definition is_abs (p : string) : bool := HasPrefix p "/".

(** [validateType]: whether the value has the type of the rule. *)
Definition validateType (type : string) (v : value) : bool :=
  if String.eqb type "string" then match v with VString _ => true | _ => false end
  else if String.eqb type "int" then
    match v with VInt _ | VInt64 _ => true | VFloat f => feq f (of_int (trunc f)) | _ => false end
  else if String.eqb type "bool" then match v with VBool _ => true | _ => false end
  else if String.eqb type "duration" then match v with VString s => match ParseDuration s with Some _ => true | None => false end | _ => false end
  else if String.eqb type "size" then match v with VString s => match parseSize s with Some _ => true | None => false end | _ => false end
  else if String.eqb type "url" then match v with VString s => match Parse s with Some _ => true | None => false end | _ => false end
  else if String.eqb type "path" then match v with VString s => is_abs s || HasPrefix s "./" || HasPrefix s "../" | _ => false end
  else true.

Definition is_nil (v : value) : bool := match v with VNil => true | _ => false end.

Definition validateRange (rule : ValidationRule) (v : value) : option reason :=
  if negb (is_nil (MinValue rule)) && negb (compareValues true v (MinValue rule)) then Some BelowMinimum
  else if negb (is_nil (MaxValue rule)) && negb (compareValues false v (MaxValue rule)) then Some AboveMaximum
  else None.

Definition validatePattern (p : re) (v : value) : bool :=
  match v with VString s => match full_match p s with Some _ => true | None => false end | _ => true end.

Definition validateEnum (enum : list value) (v : value) : bool := existsb (deep_equal v) enum.

(** ** The disk *)

Section with_files.
Context {S : Type} `{!FileSystem S}.

(** [os.IsNotExist] of the answer of [os.Stat]. *)
Definition missing (path : string) (s : S) : bool := bool_decide (StatFile path s = Some ErrNotExist).

Definition validate_tls_file (v : value) (c : RootConfig) (s : S) : bool :=
  if negb (tls_Enabled (sv_TLS (rc_Server c))) then true
  else match v with VString p => negb (empty p) && is_abs p && negb (missing p s) | _ => false end.

Definition validate_cache_directory (v : value) (c : RootConfig) (s : S) : bool * S :=
  if negb (String.eqb (ca_Backend (rc_Cache c)) "file") then (true, s)
  else
    match v with
    | VString dir =>
        if empty dir then (false, s)
        else
          let '(made, s) := if missing dir s then match MkdirAll dir s with (None, s) => (true, s) | (Some _, s) => (false, s) end else (true, s) in
          if negb made then (false, s)
          else
            let testFile := PathJoin dir ".write_test" in
            match WriteFile testFile "test" s with
            | (Some _, s) => (false, s)
            | (None, s) => (true, (Remove testFile s).2)
            end
    | _ => (false, s)
    end.

(** The registered checks; a name that is not registered is not checked. *)
Definition custom (name : string) (v : value) (c : RootConfig) (s : S) : bool * S :=
  if String.eqb name "validate_cert_file" || String.eqb name "validate_key_file" then (validate_tls_file v c s, s)
  else if String.eqb name "validate_cache_directory" then validate_cache_directory v c s
  else (true, s).

(** ** Validation *)

(** [validateField]: the error, whether a default was counted, and the disk.  The default
    is counted but not used: the field is still absent. *)
Definition validateField (field : string) (rule : ValidationRule) (configMap : gmap string value) (c : RootConfig) (s : S)
    : option SchemaError * bool * S :=
  match configMap !! field with
  | None => if Required rule then (Some (mkSErr field RequiredMissing), false, s) else (None, negb (is_nil (Default rule)), s)
  | Some v =>
      let err r := (Some (mkSErr field r), false, s) in
      if negb (validateType (Type_ rule) v) then err WrongType
      else
        match validateRange rule v with
        | Some r => err r
        | None =>
            if negb (match Pattern rule with Some p => validatePattern p v | None => true end) then err PatternMismatch
            else if match Enum rule with [] => false | e => negb (validateEnum e v) end then err NotAllowed
            else let '(ok, s) := custom (CustomFunc rule) v c s in ((if ok then None else Some (mkSErr field CustomFailed)), false, s)
        end
  end.

Inductive warning := ManyConnections | TLSOff | AuthenticationOff.

Record ValidationResult := mkValidation {
  Valid : bool; Errors : list SchemaError; Warnings : list warning;
  TotalFields : Z; ValidFields : Z; ErrorFields : Z; WarningFields : Z; DefaultsApplied : Z
}.

Definition constraint (b : bool) (field : string) : list SchemaError := if b then [mkSErr field ConstraintBroken] else [].

Definition global_errors (c : RootConfig) : list SchemaError :=
  let m := rc_Metrics c in let t := sv_TLS (rc_Server c) in let k := rc_Cache c in
  constraint (mt_Enabled m && negb (mt_Port m =? 0) && (mt_Port m =? sv_Port (rc_Server c))) "metrics.port" ++
  constraint (tls_Enabled t && (empty (tls_CertFile t) || empty (tls_KeyFile t))) "server.tls" ++
  (if String.eqb (ca_Backend k) "s3" then constraint (empty (s3_Bucket (ca_S3 k))) "cache.s3.bucket"
   else if String.eqb (ca_Backend k) "redis" then constraint (empty (rd_Address (ca_Redis k))) "cache.redis.address" else []).

(** [None]: the settings of basic authentication are read through a nil pointer. *)
Definition validateGlobalConstraints (c : RootConfig) : option (list SchemaError * list warning) :=
  match au_BasicAuth (se_Authentication (rc_Security c)) with
  | None => None
  | Some b =>
      Some (global_errors c,
            (if 10000 <? pe_MaxConnections (ad_Performance (rc_Advanced c)) then [ManyConnections] else []) ++
            (if tls_Enabled (sv_TLS (rc_Server c)) then [] else [TLSOff]) ++
            (match ba_Enabled b with Some true => [] | _ => [AuthenticationOff] end))
  end.

Definition validate_fields (rules : list (string * ValidationRule)) (configMap : gmap string value) (c : RootConfig) (s : S)
    : list SchemaError * Z * S :=
  foldl (λ acc fr, let '(errs, defaults, s) := acc in
                   let '(e, d, s) := validateField fr.1 fr.2 configMap c s in
                   (errs ++ option_list e, if d : bool then defaults + 1 else defaults, s)) ([], 0, s) rules.

(** [rules]: the rules in the order in which the map is gone through. *)
Definition Validate (rules : list (string * ValidationRule)) (c : RootConfig) (s : S) : option ValidationResult * S :=
  let '(errs, defaults, s) := validate_fields rules (structToFlatMap refl_RootConfig c) c s in
  match validateGlobalConstraints c with
  | None => (None, s)
  | Some (more, warnings) =>
      let errs := errs ++ more in
      let total := Z.of_nat (length rules) in let n := Z.of_nat (length errs) in
      (Some (mkValidation (Nat.eqb (length errs) 0) errs warnings total (total - n) n (Z.of_nat (length warnings)) defaults), s)
  end.
End with_files.

(** ** Helpers *)

Definition ValidateIP (ip : string) : bool := match ParseIP ip with Some _ => true | None => false end.
Definition ValidateCIDR (cidr : string) : bool := match ParseCIDR cidr with Some _ => true | None => false end.
Definition ValidateURL (rawURL : string) : bool :=
  match Parse rawURL with Some u => negb (empty (u_Scheme u)) && negb (empty (u_Host u)) | None => false end.

(** ** Migration of documents

    A document is a tree of maps, changed in place: what is returned is the argument. *)

Inductive doc := DInt (z : Z) | DText (s : string) | DMap (m : gmap string doc) | DOther.

Definition as_map (d : option doc) : option (gmap string doc) := match d with Some (DMap m) => Some m | _ => None end.

(** To version 2: [log_level] becomes [logging.level]. *)
Definition migrate_logging (m : gmap string doc) : gmap string doc :=
  match m !! "log_level"%string with
  | None => m
  | Some level => delete "log_level"%string (<["logging"%string := DMap (<["level"%string := level]> (default ∅ (as_map (m !! "logging"%string))))]> m)
  end.

(** To version 3: [cache_dir] becomes [cache.file.directory]. *)
Definition migrate_cache (m : gmap string doc) : gmap string doc :=
  match m !! "cache_dir"%string with
  | None => m
  | Some dir =>
      let cache := default ∅ (as_map (m !! "cache"%string)) in
      let file := default ∅ (as_map (cache !! "file"%string)) in
      delete "cache_dir"%string (<["cache"%string := DMap (<["file"%string := DMap (<["directory"%string := dir]> file)]> cache)]> m)
  end.

Definition migration (version : Z) (m : gmap string doc) : gmap string doc :=
  if version =? 2 then migrate_logging m else if version =? 3 then migrate_cache m else m.

(** A version that is not an [int] counts as the first. *)
Definition current_version (m : gmap string doc) : Z := match m !! "version"%string with Some (DInt v) => v | _ => 1 end.

Definition MigrateConfig (m : gmap string doc) (target : Z) : gmap string doc :=
  let current := current_version m in
  if target <=? current then m
  else <["version"%string := DInt target]> (foldl (λ m v, migration v m) m (seqZ (current + 1) (target - current))).

(** ** No configuration is valid *)

Section valid.
Context {S : Type} `{!FileSystem S}.
Implicit Types (c : RootConfig) (s : S).

Lemma validate_fields_errors rules m c (f : string) rule r :
  (f, rule) ∈ rules → (∀ s : S, (validateField f rule m c s).1.1 = Some (mkSErr f r)) → ∀ s, mkSErr f r ∈ (validate_fields rules m c s).1.1.
Proof.
  unfold validate_fields. intros Hin Hf s.
  assert (∀ rules acc, mkSErr f r ∈ acc.1.1 →
    mkSErr f r ∈ (foldl (λ acc fr, let '(errs, defaults, s) := acc in let '(e, d, s) := validateField fr.1 fr.2 m c s in
       (errs ++ option_list e, if d : bool then defaults + 1 else defaults, s)) acc rules).1.1) as Hkeep.
  { clear. intros rules. induction rules as [|fr rules IH]; intros [[errs d] s] H; [done|]. cbn. apply IH.
    destruct (validateField fr.1 fr.2 m c s) as [[e d'] s']. cbn in *. apply elem_of_app. by left. }
  generalize (@nil SchemaError, 0, s) as acc. induction rules as [|fr rules IH]; [by apply not_elem_of_nil in Hin|]. intros [[errs d] s'].
  apply elem_of_cons in Hin as [<-|Hin]; [|by apply IH]. cbn. apply Hkeep.
  pose proof (Hf s') as H. destruct (validateField f rule m c s') as [[e d'] s'']. cbn in H |- *. subst e. apply elem_of_app. right. by left.
Qed.

(** The fields that the configuration holds as a duration, and the schema as a text. *)
Definition duration_fields : list string :=
  ["server.read_timeout"; "server.write_timeout"; "server.idle_timeout"; "cache.ttl"; "cache.cleanup_interval";
   "advanced.performance.connection_timeout"; "advanced.retry.initial_delay"].

Lemma duration_field_values c f : f ∈ duration_fields → ∃ d, structToFlatMap refl_RootConfig c !! f = Some (VDuration d).
Proof.
  unfold duration_fields. rewrite !elem_of_cons. intros H. destruct_or! H; subst; try (eexists; vm_compute; reflexivity). by apply not_elem_of_nil in H.
Qed.

Lemma duration_field_rules f : f ∈ duration_fields → ∃ rule, (f, rule) ∈ default_rules ∧ Type_ rule = "duration"%string.
Proof.
  intros H. cut (forallb (λ f, existsb (λ fr, String.eqb fr.1 f && String.eqb (Type_ fr.2) "duration") default_rules) duration_fields = true); [|by vm_compute].
  rewrite forallb_forall. intros Hall. apply list_elem_of_In, Hall, existsb_exists in H as ([g rule] & Hin & [E1 E2]%andb_true_iff).
  apply String.eqb_eq in E1, E2. cbn in *. subst g. exists rule. split; [by apply list_elem_of_In|done].
Qed.

(** No configuration at all is valid: the seven durations are never texts, so that
    each is reported as an error; without the settings of basic authentication the
    validator even panics.  Whatever the disk and the order of the rules. *)
Theorem never_valid rules c s : default_rules ≡ₚ rules →
  match (Validate rules c s).1 with
  | None => au_BasicAuth (se_Authentication (rc_Security c)) = None
  | Some r => Valid r = false ∧ ∀ f, f ∈ duration_fields → mkSErr f WrongType ∈ Errors r
  end.
Proof.
  intros Hp. unfold Validate. destruct (validate_fields _ _ _ _) as [[errs defaults] s'] eqn:E.
  unfold validateGlobalConstraints. destruct (au_BasicAuth _) as [b|]; [|done]. cbn [fst].
  assert (∀ f, f ∈ duration_fields → mkSErr f WrongType ∈ errs) as Herr.
  { intros f Hf. destruct (duration_field_rules f Hf) as (rule & Hin & Ht). destruct (duration_field_values c f Hf) as [d Hd].
    replace errs with (validate_fields rules (structToFlatMap refl_RootConfig c) c s).1.1 by by rewrite E.
    apply validate_fields_errors with rule; [by rewrite <- Hp|]. intros s0. unfold validateField. rewrite Hd, Ht. done. }
  cbn. split; [|intros f Hf; apply elem_of_app; left; by apply Herr].
  specialize (Herr "cache.ttl"%string). destruct errs; [|done]. exfalso. eapply not_elem_of_nil, Herr. by do 3 right; left.
Qed.
End valid.

(** The default configuration, with the settings of basic authentication. *)
Definition default_with_auth : RootConfig :=
  let c := ApplyDefaults zero_config in let x := rc_Security c in
  mkRootConfig (rc_Server c) (rc_Cache c) (rc_Registries c)
    (mkSecuritySettings (mkAuthenticationConfig None (Some (mkBasicAuthConfig None ∅ "ProxyND")) None) (se_AccessControl x) (se_PackageFilter x) (se_HashVerification x))
    (rc_Verification c) (rc_Alerts c) (rc_Logging c) (rc_Metrics c) (rc_Advanced c).

(** Of the default configuration the validator also refuses what is not set: the files
    of TLS although it is off, an item limit, the S3 and Redis settings although the cache
    is a directory, and the metrics port although zero stands for the main port. *)
Theorem default_configuration_errors :
  option_map (λ r, (se_Field <$> Errors r, ValidFields r, DefaultsApplied r)) (Validate default_rules default_with_auth (mkMem ∅ ∅ [])).1 =
  Some (["server.read_timeout"; "server.write_timeout"; "server.idle_timeout"; "server.tls.cert_file"; "server.tls.key_file"; "cache.ttl";
         "cache.max_items"; "cache.cleanup_interval"; "cache.file.directory"; "cache.file.max_file_size"; "cache.s3.bucket"; "cache.s3.region";
         "cache.redis.address"; "metrics.port"; "advanced.performance.connection_timeout"; "advanced.retry.initial_delay"]%string, 18, 1).
Proof. vm_compute. reflexivity. Qed.


(** The bounds of an integer field are compared as floats and still exactly: a value
    of at most 53 bits passes when it lies between them. *)
Theorem integer_range rule z a b : MinValue rule = VInt a → MaxValue rule = VInt b → exact_int z → exact_int a → exact_int b →
  (validateRange rule (VInt z) = None ↔ a <= z <= b) ∧ (validateRange rule (VInt z) = Some BelowMinimum ↔ z < a).
Proof.
  intros Ha Hb Hz H1 H2. unfold validateRange. rewrite Ha, Hb. cbn. rewrite !of_int_le by done.
  destruct (Z.leb_spec a z), (Z.leb_spec z b); cbn; split; split; intros; try done; lia.
Qed.

Lemma integer_range_witness :
  let rule := mkRule "int" true (VInt 1) (VInt 65535) None [] (VInt 8080) EmptyString in
  validateRange rule (VInt 65535) = None ∧ validateRange rule (VInt 0) = Some BelowMinimum.
Proof.
  intros rule. split.
  - apply (integer_range rule 65535 1 65535); unfold exact_int; (reflexivity || lia).
  - apply (integer_range rule 0 1 65535); unfold exact_int; (reflexivity || lia).
Defined.

Lemma never_valid_witness :
  match (Validate default_rules default_with_auth (mkMem ∅ ∅ [])).1 with
  | None => False
  | Some r => Valid r = false
  end.
Proof.
  pose proof (never_valid default_rules default_with_auth (mkMem ∅ ∅ []) (Permutation_refl _)) as H.
  destruct (Validate _ _ _).1 as [r|]; [exact (proj1 H)|discriminate].
Defined.

(** ** Migration moves the settings *)

Fixpoint doc_path (m : gmap string doc) (p : list string) : option doc :=
  match p with
  | [] => Some (DMap m)
  | [k] => m !! k
  | k :: p => match as_map (m !! k) with Some m' => doc_path m' p | None => None end
  end.

(** Migration of a document of the first version to the third moves the two old
    settings to their new places, whatever was there, records the version, and leaves the
    other sections as they are; a second migration changes nothing. *)
Theorem migrated m level dir : current_version m = 1 → m !! "log_level"%string = Some level → m !! "cache_dir"%string = Some dir →
  let m' := MigrateConfig m 3 in
  doc_path m' ["logging"; "level"]%string = Some level ∧ doc_path m' ["cache"; "file"; "directory"]%string = Some dir
  ∧ m' !! "log_level"%string = None ∧ m' !! "cache_dir"%string = None ∧ MigrateConfig m' 3 = m'
  ∧ (∀ k, k ∉ ["log_level"; "cache_dir"; "logging"; "cache"; "version"]%string → m' !! k = m !! k).
Proof.
  intros Hv Hl Hd m'.
  assert (m' = <["version"%string := DInt 3]> (migrate_cache (migrate_logging m))) as ->
    by (unfold m', MigrateConfig; by rewrite Hv).
  unfold migrate_logging. rewrite Hl. unfold migrate_cache. rewrite lookup_delete_ne, lookup_insert_ne, Hd by done.
  split_and!; cbn [doc_path].
  - rewrite lookup_insert_ne, lookup_delete_ne, lookup_insert_ne, lookup_delete_ne, lookup_insert_eq by done. cbn. by rewrite lookup_insert_eq.
  - rewrite lookup_insert_ne, lookup_delete_ne, lookup_insert_eq by done. cbn. rewrite lookup_insert_eq. cbn. by rewrite lookup_insert_eq.
  - by rewrite lookup_insert_ne, lookup_delete_ne, lookup_insert_ne, lookup_delete_eq by done.
  - by rewrite lookup_insert_ne, lookup_delete_eq by done.
  - unfold MigrateConfig, current_version at 1. by rewrite lookup_insert_eq.
  - intros k Hk. rewrite !not_elem_of_cons in Hk. destruct Hk as (? & ? & ? & ? & ? & _).
    by rewrite lookup_insert_ne, lookup_delete_ne, lookup_insert_ne, lookup_delete_ne, lookup_insert_ne by done.
Qed.

Lemma migrated_witness :
  let m : gmap string doc := {["log_level"%string := DText "debug"; "cache_dir"%string := DText "/var/cache"]} in
  let m' := MigrateConfig m 3 in
  doc_path m' ["logging"; "level"]%string = Some (DText "debug") ∧ doc_path m' ["cache"; "file"; "directory"]%string = Some (DText "/var/cache")
  ∧ m' !! "log_level"%string = None.
Proof.
  intros m. pose proof (migrated m (DText "debug") (DText "/var/cache") eq_refl eq_refl eq_refl) as (H1 & H2 & H3 & _).
  exact (conj H1 (conj H2 H3)).
Defined.
