(* ===== verification/Health.v ===== *)
(** * Health: the health service and its checkers

    Models [src/internal/health/health_checker.go]: the service with its results by name,
    the checkers of the environment, of the disk, of a directory, of an endpoint and of a
    cache backend.  A message is the case it describes; the duration and the time of a
    check, and the details, are left out.  [GetStatus_spec] says what the overall status
    means, [runChecks_order] that the order in which the goroutines end does not matter
    when the names differ. *)

From S2P Require Import Prelude GoStrings GoPath GoFS GoConv.
From S2P Require Breaker.

Notation Status := Breaker.Status.
Notation StatusHealthy := Breaker.StatusHealthy.
Notation StatusDegraded := Breaker.StatusDegraded.
Notation StatusUnhealthy := Breaker.StatusUnhealthy.

#[export] Instance Status_eq_dec : EqDecision Status.
Proof. solve_decision. Defined.

Inductive message :=
| VariablesSet | VariablesMissing (vars : list string)
| DiskUnknown | DiskFull (free min : Z) | DiskLow (free min : float64) | DiskOK (free : float64)
| CannotCreate | CannotAccess | NotADirectory | CannotWrite | DirectoryWritable
| BadRequest | RequestFailed | EndpointHealthy (code : Z) | EndpointReturned (code : Z)
| BackendFailed | BackendHealthy | ManualTrigger | Custom (text : string).

Record CheckResult := mkResult { cr_Name : string; cr_Status : Status; cr_Message : message }.

(** ** The service *)

Section service.
Context {W : Type}.

(** A checker runs on the world outside. *)
Record HealthChecker := mkChecker { Name : string; Check_ : W → CheckResult * W }.

Record HealthService := mkHealth { checkers : list HealthChecker; results : gmap string CheckResult }.

Definition NewHealthService : HealthService := mkHealth [] ∅.
Definition RegisterChecker (c : HealthChecker) (hs : HealthService) : HealthService :=
  mkHealth (checkers hs ++ [c]) (results hs).

(** One goroutine of [runChecks]: the check, and its result under the lock. *)
Definition run_check (c : HealthChecker) (hs : HealthService) (w : W) : HealthService * W :=
  let '(r, w) := Check_ c w in (mkHealth (checkers hs) (<[Name c := r]> (results hs)), w).

(** [order]: the checkers in the order in which their goroutines run. *)
Definition runChecks (order : list HealthChecker) (hs : HealthService) (w : W) : HealthService * W :=
  foldl (λ '(hs, w) c, run_check c hs w) (hs, w) order.

Definition count_status (s : Status) (m : gmap string CheckResult) : Z :=
  Z.of_nat (length (filter (λ p, cr_Status p.2 = s) (map_to_list m))).

Definition GetStatus (hs : HealthService) : Status * gmap string CheckResult :=
  (if 0 <? count_status StatusUnhealthy (results hs) then StatusUnhealthy
   else if 0 <? count_status StatusDegraded (results hs) then StatusDegraded else StatusHealthy, results hs).
End service.
Arguments HealthChecker W : clear implicits.
Arguments HealthService W : clear implicits.

(** ** The checkers *)

Definition result_of (name : string) (s : Status) (m : message) : CheckResult := mkResult name s m.

Definition EnvironmentChecker (env : environment) (requiredVars : list string) : CheckResult :=
  match filter (λ v, env v = EmptyString) requiredVars with
  | [] => result_of "environment" StatusHealthy VariablesSet
  | missing => result_of "environment" StatusUnhealthy (VariablesMissing missing)
  end.

(** [getDiskUsage]: what the system says of a file system, or its error. *)
Record DiskUsage := mkUsage { Free : Z; FreePercent : float64 }.

Definition DiskSpaceChecker (usage : option DiskUsage) (minFreeBytes : Z) (minFreePercent : float64) : CheckResult :=
  match usage with
  | None => result_of "disk_space" StatusUnhealthy DiskUnknown
  | Some u =>
      if Free u <? minFreeBytes then result_of "disk_space" StatusUnhealthy (DiskFull (Free u) minFreeBytes)
      else if flt (FreePercent u) minFreePercent then result_of "disk_space" StatusDegraded (DiskLow (FreePercent u) minFreePercent)
      else result_of "disk_space" StatusHealthy (DiskOK (FreePercent u))
  end.

(** [regular]: whether the path is something else than a directory. *)
Definition WritableChecker {S} `{!FileSystem S} (regular : string → S → bool) (path : string) (s : S) : CheckResult * S :=
  let result := result_of ("writable_" +:+ Base path) in
  let write s :=
    match WriteFile (PathJoin path ".health_check") "test" s with
    | (Some _, s) => (result StatusUnhealthy CannotWrite, s)
    | (None, s) => (result StatusHealthy DirectoryWritable, (Remove (PathJoin path ".health_check") s).2)
    end in
  match StatFile path s with
  | Some ErrNotExist =>
      match MkdirAll path s with
      | (Some _, s) => (result StatusUnhealthy CannotCreate, s)
      | (None, s) => write s
      end
  | Some _ => (result StatusUnhealthy CannotAccess, s)
  | None => if regular path s then (result StatusUnhealthy NotADirectory, s) else write s
  end.

(** What becomes of a request: it cannot be made, it fails, or a status is answered. *)
Inductive http_outcome := NoRequest | NoAnswer | Answer (code : Z).

Definition HTTPChecker (name : string) (o : http_outcome) : CheckResult :=
  match o with
  | NoRequest => result_of name StatusUnhealthy BadRequest
  | NoAnswer => result_of name StatusUnhealthy RequestFailed
  | Answer code =>
      if (200 <=? code) && (code <? 300) then result_of name StatusHealthy (EndpointHealthy code)
      else result_of name StatusUnhealthy (EndpointReturned code)
  end.

Definition CacheBackendChecker (backendType : string) (failed : bool) : CheckResult :=
  let name := "cache_" +:+ backendType in
  if failed then result_of name StatusUnhealthy BackendFailed else result_of name StatusHealthy BackendHealthy.

(** ** The overall status *)

Lemma count_status_pos s m : (0 <? count_status s m) = true ↔ ∃ k r, m !! k = Some r ∧ cr_Status r = s.
Proof.
  unfold count_status. rewrite Z.ltb_lt. set (l := filter _ _).
  assert (0 < Z.of_nat (length l) ↔ l ≠ []) as -> by (destruct l; cbn; split; (done || lia)). subst l.
  split.
  - destruct (filter _ _) as [|[k r] l] eqn:E; [done|]. intros _. exists k, r.
    assert ((k, r) ∈ filter (λ p : string * CheckResult, cr_Status p.2 = s) (map_to_list m)) as H by (rewrite E; by left).
    apply list_elem_of_filter in H as [H1 H2]. by apply elem_of_map_to_list in H2.
  - intros (k & r & Hk & Hr) E. apply elem_of_map_to_list in Hk.
    apply (not_elem_of_nil (k, r)). rewrite <- E. by apply list_elem_of_filter.
Qed.

(** The overall status is unhealthy exactly when some result is, degraded exactly when
    none is unhealthy and some is degraded, and healthy when all are. *)
Theorem GetStatus_spec {W} (hs : HealthService W) :
  let '(s, m) := GetStatus hs in
  m = results hs ∧
  (s = StatusUnhealthy ↔ ∃ k r, m !! k = Some r ∧ cr_Status r = StatusUnhealthy) ∧
  (s = StatusHealthy ↔ map_Forall (λ _ r, cr_Status r = StatusHealthy) m) ∧
  (s = StatusDegraded → ∃ k r, m !! k = Some r ∧ cr_Status r = StatusDegraded).
Proof.
  unfold GetStatus. split; [done|].
  pose proof (count_status_pos StatusUnhealthy (results hs)) as Hu. pose proof (count_status_pos StatusDegraded (results hs)) as Hd.
  destruct (0 <? count_status StatusUnhealthy (results hs)); [|destruct (0 <? count_status StatusDegraded (results hs))].
  - split_and!; [tauto| |done]. split; [done|]. intros Ha. destruct (proj1 Hu eq_refl) as (k & r & Hk & Hr). rewrite (Ha _ _ Hk) in Hr. done.
  - split_and!; [|split; [done|]|tauto].
    + split; [done|]. intros H. by apply Hu in H.
    + intros Ha. destruct (proj1 Hd eq_refl) as (k & r & Hk & Hr). rewrite (Ha _ _ Hk) in Hr. done.
  - split_and!; [| |done].
    + split; [done|]. intros H. by apply Hu in H.
    + split; [|done]. intros _ k r Hk. destruct (cr_Status r) eqn:E; [done| |]; exfalso.
      * assert (false = true) by (apply Hd; eauto). done.
      * assert (false = true) by (apply Hu; eauto). done.
Qed.

(** ** The order of the checks *)

(** The results of checkers that do not depend on each other. *)
Lemma runChecks_results {W} (order : list (HealthChecker W)) hs w (r : HealthChecker W → CheckResult) :
  (∀ c w, c ∈ order → (Check_ c w).1 = r c) → results (runChecks order hs w).1 = list_to_map (reverse ((λ c, (Name c, r c)) <$> order)) ∪ results hs.
Proof.
  revert hs w; induction order as [|c order IH]; intros hs w Hr; [cbn; by rewrite (left_id_L ∅ (∪))|].
  unfold runChecks. cbn [foldl]. unfold run_check at 2. destruct (Check_ c w) as [x w'] eqn:E.
  change (foldl _ (?h, w') order) with (runChecks order h w'). rewrite IH by (intros; apply Hr; by right). cbn [results].
  assert (x = r c) as -> by (rewrite <- (Hr c w) by (by left); by rewrite E).
  rewrite fmap_cons, reverse_cons, list_to_map_app. cbn [list_to_map foldr].
  by rewrite <- (assoc_L (∪)), <- insert_union_l, (left_id_L ∅ (∪)).
Qed.

(** When no two checkers have the same name, every check is kept under its name
    whatever order the goroutines end in; results of the past are kept as well. *)
Theorem runChecks_order {W} (hs : HealthService W) order w (r : HealthChecker W → CheckResult) :
  order ≡ₚ checkers hs → NoDup (Name <$> checkers hs) → (∀ c w, c ∈ checkers hs → (Check_ c w).1 = r c) →
  let m := results (runChecks order hs w).1 in
  (∀ c, c ∈ checkers hs → m !! Name c = Some (r c)) ∧
  (∀ n, n ∉ Name <$> checkers hs → m !! n = results hs !! n).
Proof.
  intros Hp Hn Hr m. unfold m. rewrite (runChecks_results order hs w r) by (intros c w' Hc; apply Hr; by rewrite <- Hp).
  assert (NoDup (Name <$> order)) as Hno by by rewrite Hp.
  assert (NoDup (((λ c, (Name c, r c)) <$> order).*1)) as Hno' by by rewrite <- list_fmap_compose.
  split.
  - intros c Hc. rewrite <- Hp in Hc. apply lookup_union_Some_l. apply elem_of_list_to_map.
    + by rewrite fmap_reverse, reverse_Permutation.
    + apply elem_of_reverse, list_elem_of_fmap. by exists c.
  - intros n Hnot. apply lookup_union_r, not_elem_of_list_to_map. rewrite fmap_reverse, elem_of_reverse, <- list_fmap_compose.
    intros H. apply Hnot. cbn in H. by rewrite <- Hp.
Qed.

(** ** Writing to a directory *)

(** The check of a directory leaves no file behind that was not there, and changes
    none but its own test file. *)
Theorem WritableChecker_files {S} `{!FileSystem S, !FileSystemLaws S} regular path (s : S) :
  let t := PathJoin path ".health_check" in
  ∀ f, f ≠ t → files (WritableChecker regular path s).2 !! f = files s !! f.
Proof.
  intros t f Hf. unfold WritableChecker.
  assert (∀ s : S, files (match WriteFile t "test" s with
    | (Some _, s) => (result_of ("writable_" +:+ Base path) StatusUnhealthy CannotWrite, s)
    | (None, s) => (result_of ("writable_" +:+ Base path) StatusHealthy DirectoryWritable, (Remove t s).2)
    end).2 !! f = files s !! f) as Hw.
  { intros s0. pose proof (WriteFile_frame t "test" s0 f Hf) as H. destruct (WriteFile t "test" s0) as [[e|] s1]; cbn in *.
    - done.
    - rewrite <- H. pose proof (Remove_ok t s1) as Ho. pose proof (Remove_err t s1) as He. destruct (Remove t s1) as [[e|] s2]; cbn in *.
      + by rewrite He.
      + by rewrite Ho, lookup_delete_ne. }
  destruct (StatFile path s) as [[]|]; [|done|by destruct (regular path s)].
  pose proof (MkdirAll_files path s) as Hm. destruct (MkdirAll path s) as [[e|] s']; cbn in Hm |- *; [by rewrite Hm|].
  rewrite <- Hm. apply Hw.
Qed.

(** ** Witnesses *)

Lemma runChecks_order_witness :
  let c n s := mkChecker n (λ w : unit, (result_of n s BackendHealthy, w)) in
  let hs := mkHealth [c "a"%string StatusHealthy; c "b"%string StatusDegraded] ∅ in
  results (runChecks (reverse (checkers hs)) hs tt).1 !! "b"%string = Some (result_of "b" StatusDegraded BackendHealthy).
Proof.
  intros c hs.
  apply (proj1 (runChecks_order hs (reverse (checkers hs)) tt (λ x, (Check_ x tt).1) ltac:(by rewrite reverse_Permutation)
    ltac:(by apply (bool_decide_unpack _); vm_compute)
    ltac:(intros x [] _; reflexivity)) (c "b"%string StatusDegraded)).
  by right; left.
Defined.

Lemma WritableChecker_files_witness :
  let s := mkMem {["/data/x"%string := "1"%string]} ∅ [] in
  files (WritableChecker (λ _ _, false) "/data" s).2 !! "/data/x"%string = files s !! "/data/x"%string.
Proof. intros s. by apply (WritableChecker_files (λ _ _, false) "/data" s). Defined.
