(* ===== verification/AutoRecovery.v ===== *)
(** * AutoRecovery: recovery of unhealthy components

    Models [src/internal/health/auto_recovery.go] on top of [Health] and [Breaker]: the
    triggers are objects shared between the monitor and the goroutines that recover, so
    they live in a store; the critical sections are functions, and [sys_step] interleaves
    the monitor with the goroutines.  What an action does is a function on the world
    outside.  [attempts_bounded] bounds the attempts when goroutines start in time,
    [late_starts_exceed] shows that they need to; [restarts_forever] that with an action
    that succeeds neither the bound nor the pause is ever looked at;
    [breaker_action_opens_iff] follows the default action into the circuit breaker.
    Details of a trigger, and the callback, are left out. *)

From S2P Require Import Prelude Health.
From S2P Require Breaker.

(** ** Data *)

Notation RecoveryStrategy := string (only parsing).
Definition StrategyRestart : RecoveryStrategy := "restart".
Definition StrategyReset : RecoveryStrategy := "reset".
Definition StrategyFallback : RecoveryStrategy := "fallback".
Definition StrategyCircuitBreaker : RecoveryStrategy := "circuit_breaker".
Definition StrategyCustom : RecoveryStrategy := "custom".

Record RecoveryTrigger := mkTrigger {
  tr_ComponentName : string; tr_TriggerTime : instant; tr_FailureReason : message; tr_FailureCount : Z;
  tr_LastFailureTime : instant; tr_HealthStatus : Status; tr_AttemptCount : Z
}.

Record RecoveryConfig := mkRConfig {
  rc_ComponentName : string; FailureThreshold : Z; CheckInterval : duration; RecoveryTimeout : duration; MaxRetryAttempts : Z;
  RetryBackoff : duration; Strategy : RecoveryStrategy; Enabled : bool; CooldownPeriod : duration; NotifyOnRecovery : bool; NotifyOnFailure : bool
}.

Definition DefaultRecoveryConfig (componentName : string) : RecoveryConfig :=
  mkRConfig componentName 3 (30 * second) (60 * second) 3 (10 * second) StrategyRestart true (5 * minute) true true.

Record RecoveryHistory (E : Type) := mkHistory {
  h_Timestamp : instant; h_ComponentName : string; h_Strategy : RecoveryStrategy; h_Success : bool; h_Duration : duration;
  h_Error : option E; h_AttemptCount : Z
}.
Arguments mkHistory {E}. Arguments h_Timestamp {E}. Arguments h_ComponentName {E}. Arguments h_Strategy {E}.
Arguments h_Success {E}. Arguments h_Duration {E}. Arguments h_Error {E}. Arguments h_AttemptCount {E}.

Section recovery.
Context {W E : Type}.

(** [RecoveryAction.Execute], on the world outside. *)
Definition action : Type := RecoveryTrigger → W → option E * W.

(** [heap] is the store of the triggers; [triggers] holds pointers into it. *)
Record AutoRecoveryService := mkService {
  configs : gmap string RecoveryConfig;
  actions : gmap RecoveryStrategy action;
  triggers : gmap string nat;
  heap : gmap nat RecoveryTrigger;
  next : nat;
  history : list (RecoveryHistory E);
  maxHistorySize : nat
}.

Definition set_triggers (t : gmap string nat) (ars : AutoRecoveryService) : AutoRecoveryService :=
  mkService (configs ars) (actions ars) t (heap ars) (next ars) (history ars) (maxHistorySize ars).
Definition set_heap (h : gmap nat RecoveryTrigger) (ars : AutoRecoveryService) : AutoRecoveryService :=
  mkService (configs ars) (actions ars) (triggers ars) h (next ars) (history ars) (maxHistorySize ars).

(** The default actions are registered by the constructor. *)
Definition NewAutoRecoveryService (defaults : gmap RecoveryStrategy action) : AutoRecoveryService :=
  mkService ∅ defaults ∅ ∅ 0 [] 1000.

Definition RegisterRecoveryConfig (c : RecoveryConfig) (ars : AutoRecoveryService) : AutoRecoveryService :=
  mkService (<[rc_ComponentName c := c]> (configs ars)) (actions ars) (triggers ars) (heap ars) (next ars) (history ars) (maxHistorySize ars).
Definition RegisterRecoveryAction (s : RecoveryStrategy) (a : action) (ars : AutoRecoveryService) : AutoRecoveryService :=
  mkService (configs ars) (<[s := a]> (actions ars)) (triggers ars) (heap ars) (next ars) (history ars) (maxHistorySize ars).

(** ** The critical sections *)

(** The trigger of a component, made when there is none. *)
Definition get_trigger (name : string) (now : instant) (r : CheckResult) (ars : AutoRecoveryService) : nat * RecoveryTrigger * AutoRecoveryService :=
  match triggers ars !! name with
  | Some l =>
      match heap ars !! l with
      | Some t => (l, t, ars)
      | None => (l, mkTrigger name now (cr_Message r) 0 now (cr_Status r) 0, ars)
      end
  | None =>
      let l := next ars in
      (l, mkTrigger name now (cr_Message r) 0 now (cr_Status r) 0,
       mkService (configs ars) (actions ars) (<[name := l]> (triggers ars)) (heap ars) (S l) (history ars) (maxHistorySize ars))
  end.

(** Whether a recovery starts: the pause is measured from [TriggerTime]. *)
Definition starts (now : instant) (c : RecoveryConfig) (t : RecoveryTrigger) : bool :=
  if FailureThreshold c <=? tr_FailureCount t then
    if (0 <? tr_AttemptCount t) && (time_sub now (tr_TriggerTime t) <? CooldownPeriod c) then false
    else negb (MaxRetryAttempts c <=? tr_AttemptCount t)
  else false.

(** [handleFailure]: the trigger whose recovery is started, if one is. *)
Definition handleFailure (name : string) (r : CheckResult) (c : RecoveryConfig) (now : instant) (ars : AutoRecoveryService)
    : option nat * AutoRecoveryService :=
  let '(l, t, ars) := get_trigger name now r ars in
  let t := mkTrigger (tr_ComponentName t) (tr_TriggerTime t) (cr_Message r) (tr_FailureCount t + 1) now (cr_Status r) (tr_AttemptCount t) in
  ((if starts now c t then Some l else None), set_heap (<[l := t]> (heap ars)) ars).

Definition handleRecovery (name : string) (ars : AutoRecoveryService) : AutoRecoveryService :=
  set_triggers (delete name (triggers ars)) ars.

(** One component of [checkAndRecover]; [results] in the order in which the map is gone
    through. *)
Definition check_component (name : string) (c : RecoveryConfig) (results : list CheckResult) (now : instant) (ars : AutoRecoveryService)
    : option nat * AutoRecoveryService :=
  if negb (Enabled c) then (None, ars)
  else
    match list_find (λ r, cr_Name r = name) results with
    | None => (None, ars)
    | Some (_, r) =>
        match cr_Status r with
        | StatusUnhealthy => handleFailure name r c now ars
        | StatusHealthy => (None, handleRecovery name ars)
        | StatusDegraded => (None, ars)
        end
    end.

(** [performRecovery] up to the action: the attempt is counted without the lock. *)
Definition begin_recovery (l : nat) (ars : AutoRecoveryService) : AutoRecoveryService :=
  set_heap (alter (λ t, mkTrigger (tr_ComponentName t) (tr_TriggerTime t) (tr_FailureReason t) (tr_FailureCount t)
                                  (tr_LastFailureTime t) (tr_HealthStatus t) (tr_AttemptCount t + 1)) l (heap ars)) ars.

(** The record of an execution that ended at [now]. *)
Definition recovery_record (name : string) (l : nat) (c : RecoveryConfig) (start now : instant) (err : option E) (ars : AutoRecoveryService)
    : RecoveryHistory E :=
  mkHistory start name (Strategy c) (match err with None => true | Some _ => false end) (time_sub now start) err
    (from_option tr_AttemptCount 0 (heap ars !! l)).

(** After a success, whatever trigger the component has by now is dropped. *)
Definition forget (name : string) (h : RecoveryHistory E) (ars : AutoRecoveryService) : AutoRecoveryService :=
  if h_Success h then set_triggers (delete name (triggers ars)) ars else ars.

Definition addHistory (h : RecoveryHistory E) (ars : AutoRecoveryService) : AutoRecoveryService :=
  let l := history ars ++ [h] in
  let l := if (maxHistorySize ars <? length l)%nat then take (maxHistorySize ars) (drop 1 l) else l in
  mkService (configs ars) (actions ars) (triggers ars) (heap ars) (next ars) l (maxHistorySize ars).

Definition GetRecoveryHistory (limit : Z) (ars : AutoRecoveryService) : list (RecoveryHistory E) :=
  let n := Z.of_nat (length (history ars)) in
  let limit := if (limit <=? 0) || (n <? limit) then n else limit in
  drop (Z.to_nat (n - limit)) (history ars).

(** [GetRecoveryStatus]: the four counts, and the last ten entries. *)
Definition GetRecoveryStatus (ars : AutoRecoveryService) : (nat * nat * nat * nat) * list (RecoveryHistory E) :=
  ((size (configs ars), size (actions ars), size (triggers ars), length (history ars)),
   drop (length (history ars) - 10) (history ars)).

Inductive manual_error := NoConfig (name : string) | NoAction (s : RecoveryStrategy).

(** [TriggerManualRecovery]: a trigger of its own, that no map points to. *)
Definition TriggerManualRecovery (name : string) (s : RecoveryStrategy) (now now' : instant) (ars : AutoRecoveryService)
    : option manual_error * option (nat * RecoveryConfig) * AutoRecoveryService :=
  match configs ars !! name with
  | None => (Some (NoConfig name), None, ars)
  | Some c =>
      match actions ars !! s with
      | None => (Some (NoAction s), None, ars)
      | Some _ =>
          let l := next ars in
          (None, Some (l, c),
           mkService (configs ars) (actions ars) (triggers ars)
             (<[l := mkTrigger name now ManualTrigger (FailureThreshold c) now' StatusUnhealthy 0]> (heap ars)) (S l) (history ars) (maxHistorySize ars))
      end
  end.

(** [performRecovery] without anything in between. *)
Definition performRecovery (name : string) (l : nat) (c : RecoveryConfig) (start now : instant) (ars : AutoRecoveryService) (w : W)
    : AutoRecoveryService * W :=
  let ars := begin_recovery l ars in
  match actions ars !! Strategy c, heap ars !! l with
  | Some a, Some t =>
      let '(err, w) := a t w in
      let h := recovery_record name l c start now err ars in
      (addHistory h (forget name h ars), w)
  | _, _ => (ars, w)
  end.

(** ** The monitor and the goroutines *)

Inductive phase := Spawned | Executing (start : instant) | Ended (h : RecoveryHistory E) | Recording (h : RecoveryHistory E).
Record job := mkJob { j_name : string; j_trigger : nat; j_config : RecoveryConfig; j_phase : phase }.

(** [todo] is what the monitor still has to do of the check it is in. *)
Record Sys := mkSys { svc : AutoRecoveryService; jobs : list job; todo : list (string * RecoveryConfig); seen : list CheckResult; world : W }.

Definition spawn (name : string) (c : RecoveryConfig) (o : option nat) : list job :=
  match o with Some l => [mkJob name l c Spawned] | None => [] end.

(** [prompt]: whether the monitor only goes on when no goroutine is waiting to start;
    [allowed]: the configurations that are registered. *)
Inductive sys_step (prompt : bool) (allowed : RecoveryConfig → Prop) : Sys → Sys → Prop :=
| register_config ars js td rs w c : allowed c → sys_step prompt allowed (mkSys ars js td rs w) (mkSys (RegisterRecoveryConfig c ars) js td rs w)
| register_action ars js td rs w s a : sys_step prompt allowed (mkSys ars js td rs w) (mkSys (RegisterRecoveryAction s a ars) js td rs w)
| outside ars js td rs w w' : sys_step prompt allowed (mkSys ars js td rs w) (mkSys ars js td rs w')
| check_begin ars js rs rs' w order :
    map_to_list (configs ars) ≡ₚ order → sys_step prompt allowed (mkSys ars js [] rs w) (mkSys ars js order rs' w)
| check_next ars js name c td rs w now :
    (prompt = true → Forall (λ j, j_phase j ≠ Spawned) js) →
    sys_step prompt allowed (mkSys ars js ((name, c) :: td) rs w)
      (mkSys (check_component name c rs now ars).2 (js ++ spawn name c (check_component name c rs now ars).1) td rs w)
| manual ars js td rs w name s now now' :
    sys_step prompt allowed (mkSys ars js td rs w)
      (mkSys (TriggerManualRecovery name s now now' ars).2
             (js ++ match (TriggerManualRecovery name s now now' ars).1.2 with Some (l, c) => [mkJob name l c Spawned] | None => [] end) td rs w)
| job_starts ars js1 js2 td rs w name l c now :
    sys_step prompt allowed (mkSys ars (js1 ++ mkJob name l c Spawned :: js2) td rs w)
      (mkSys (begin_recovery l ars)
             (js1 ++ (match actions ars !! Strategy c with Some _ => [mkJob name l c (Executing now)] | None => [] end) ++ js2) td rs w)
| job_executes ars js1 js2 td rs w name l c start now a t :
    actions ars !! Strategy c = Some a → heap ars !! l = Some t →
    sys_step prompt allowed (mkSys ars (js1 ++ mkJob name l c (Executing start) :: js2) td rs w)
      (mkSys ars (js1 ++ mkJob name l c (Ended (recovery_record name l c start now (a t w).1 ars)) :: js2) td rs (a t w).2)
| job_forgets ars js1 js2 td rs w name l c h :
    sys_step prompt allowed (mkSys ars (js1 ++ mkJob name l c (Ended h) :: js2) td rs w)
      (mkSys (forget name h ars) (js1 ++ mkJob name l c (Recording h) :: js2) td rs w)
| job_records ars js1 js2 td rs w name l c h :
    sys_step prompt allowed (mkSys ars (js1 ++ mkJob name l c (Recording h) :: js2) td rs w)
      (mkSys (addHistory h ars) (js1 ++ js2) td rs w).

Definition initial (defaults : gmap RecoveryStrategy action) (w : W) : Sys := mkSys (NewAutoRecoveryService defaults) [] [] [] w.
End recovery.
Arguments AutoRecoveryService W E : clear implicits.
Arguments action W E : clear implicits.
Arguments Sys W E : clear implicits.
Arguments job E : clear implicits.

(** ** The default actions *)

(** [RestartAction] and [ResetAction] wait and succeed. *)
Definition RestartAction {W E} : action W E := λ _ w, (None, w).
Definition ResetAction {W E} : action W E := λ _ w, (None, w).

(** The ten failing calls of a breaker. *)
Definition simulated_failure {E} (e : E) : unit → option E * unit := λ u, (Some e, u).
Definition fail_calls {E} (e : E) (config : Breaker.CircuitBreakerConfig) (clocks : list Breaker.call_clock) (cb : Breaker.CircuitBreaker) : Breaker.CircuitBreaker :=
  foldl (λ cb ck, (Breaker.Execute config ck (simulated_failure e) cb tt).1.2) cb clocks.

(** The world is the manager of the breakers; [clocks]: what the ten calls read. *)
Definition CircuitBreakerAction {E} (e : E) (created reset : instant) (clocks : list Breaker.call_clock) : action Breaker.CircuitBreakerManager E := λ t m,
  let '(l, m) := Breaker.GetOrCreate (tr_ComponentName t) None created m in
  (None,
   match Breaker.cbs m !! l with
   | Some (c, cb) =>
       match Breaker.cfgs m !! c with
       | Some config => Breaker.mkManager (Breaker.cfgs m)
                          (<[l := (c, fail_calls e config clocks (Breaker.Reset_ reset cb))]> (Breaker.cbs m)) (Breaker.breakers m) (Breaker.next_loc m)
       | None => m
       end
   | None => m
   end).

(** ** The attempts are bounded when goroutines start in time *)

Section bounded.
Context {W E : Type} (allowed : RecoveryConfig → Prop) (M : Z).
Context (Hallowed : ∀ c, allowed c → MaxRetryAttempts c <= M).
Implicit Types (ars : AutoRecoveryService W E) (js : list (job E)) (st : Sys W E).

Definition waiting (l : nat) (j : job E) : bool := Nat.eqb (j_trigger j) l && match j_phase j with Spawned => true | _ => false end.
Definition waiting_count (l : nat) js : Z := Z.of_nat (length (List.filter (waiting l) js)).

Lemma waiting_count_app l js1 js2 : waiting_count l (js1 ++ js2) = waiting_count l js1 + waiting_count l js2.
Proof. unfold waiting_count. rewrite List.filter_app, length_app. lia. Qed.
Lemma waiting_count_cons l j js : waiting_count l (j :: js) = (if waiting l j then 1 else 0) + waiting_count l js.
Proof. unfold waiting_count. cbn. destruct (waiting l j); cbn; lia. Qed.
Lemma waiting_count_none l js : Forall (λ j, j_phase j ≠ Spawned) js → waiting_count l js = 0.
Proof. intros H. induction H as [|j js Hj _ IH]; [done|]. rewrite waiting_count_cons, IH. unfold waiting. destruct (j_phase j), (Nat.eqb _ _); done. Qed.
Lemma waiting_count_nonneg l js : 0 <= waiting_count l js.
Proof. unfold waiting_count. lia. Qed.

Definition limit : Z := Z.max 1 M.

(** Every pointer leads to a trigger, and those with goroutines waiting have room for them. *)
Record sys_inv st : Prop := mkInv {
  inv_configs : ∀ n c, configs (svc st) !! n = Some c → allowed c;
  inv_todo : ∀ n c, (n, c) ∈ todo st → allowed c;
  inv_fresh : ∀ l, (next (svc st) <= l)%nat → heap (svc st) !! l = None;
  inv_triggers : ∀ n l, triggers (svc st) !! n = Some l → is_Some (heap (svc st) !! l);
  inv_jobs : ∀ j, j ∈ jobs st → is_Some (heap (svc st) !! j_trigger j);
  inv_attempts : ∀ l t, heap (svc st) !! l = Some t → 0 <= tr_AttemptCount t ∧ tr_AttemptCount t + waiting_count l (jobs st) <= limit
}.

Lemma fresh_no_waiting st l : sys_inv st → heap (svc st) !! l = None → waiting_count l (jobs st) = 0.
Proof.
  intros I Hl. pose proof (inv_jobs _ I) as Hj. revert Hj. generalize (jobs st). intros js Hj. induction js as [|j js IH]; [done|].
  rewrite waiting_count_cons, IH by (intros; apply Hj; by right). unfold waiting. destruct (Nat.eqb_spec (j_trigger j) l) as [Heq|]; [|done].
  destruct (Hj j) as [t Ht]; [by left|]. congruence.
Qed.

Lemma starts_room now c t : starts now c t = true → tr_AttemptCount t < MaxRetryAttempts c.
Proof.
  unfold starts. destruct (_ <=? _); [|done]. destruct (_ && _); [done|]. destruct (Z.leb_spec (MaxRetryAttempts c) (tr_AttemptCount t)); [done|lia].
Qed.

(** What a failure changes: at most the trigger of the component, which may start. *)
Lemma handleFailure_spec name r c now ars :
  (∀ l, (next ars <= l)%nat → heap ars !! l = None) → (∀ n l, triggers ars !! n = Some l → is_Some (heap ars !! l)) →
  ∃ l t, let o := (handleFailure name r c now ars).1 in let ars' := (handleFailure name r c now ars).2 in
    heap ars' = <[l := t]> (heap ars) ∧ configs ars' = configs ars ∧ (next ars <= next ars')%nat ∧ (l < next ars')%nat ∧
    (∀ n l', triggers ars' !! n = Some l' → l' = l ∨ triggers ars !! n = Some l') ∧
    (tr_AttemptCount t = 0 ∧ heap ars !! l = None ∨ ∃ t0, heap ars !! l = Some t0 ∧ tr_AttemptCount t = tr_AttemptCount t0) ∧
    (o = None ∨ o = Some l ∧ tr_AttemptCount t < MaxRetryAttempts c).
Proof.
  intros Hf Ht. unfold handleFailure, get_trigger. destruct (triggers ars !! name) as [l|] eqn:El.
  - destruct (Ht _ _ El) as [t0 H0]. rewrite H0. cbn. eexists l, _. split_and!; [reflexivity|done|done| | | |].
    + destruct (decide (next ars <= l)%nat); [|lia]. by rewrite Hf in H0.
    + auto.
    + right. by exists t0.
    + destruct (starts now c _) eqn:Es; [right|by left]. split; [done|]. by apply starts_room in Es.
  - cbn. eexists (next ars), _. split_and!; [reflexivity|done|lia|lia| | |].
    + intros n l' H. destruct (decide (n = name)) as [->|]; [rewrite lookup_insert_eq in H; left; congruence|]. rewrite lookup_insert_ne in H by done. by right.
    + left. split; [done|by apply Hf].
    + destruct (starts now c _) eqn:Es; [right|by left]. split; [done|]. by apply starts_room in Es.
Qed.
Lemma check_component_spec name r c now ars :
  (∀ l, (next ars <= l)%nat → heap ars !! l = None) → (∀ n l, triggers ars !! n = Some l → is_Some (heap ars !! l)) →
  let o := (check_component name c r now ars).1 in let ars' := (check_component name c r now ars).2 in
  (o = None ∧ heap ars' = heap ars ∧ configs ars' = configs ars ∧ next ars' = next ars ∧ (∀ n l, triggers ars' !! n = Some l → triggers ars !! n = Some l)) ∨
  ∃ x, o = (handleFailure name x c now ars).1 ∧ ars' = (handleFailure name x c now ars).2.
Proof.
  intros Hf Ht. unfold check_component. destruct (Enabled c); cbn [negb]; [|by left].
  destruct (list_find _ r) as [[i x]|]; [|by left]. destruct (cr_Status x); [left; cbn| by left|right; by exists x].
  split_and!; try done. intros n l H. by apply lookup_delete_Some in H as [_ H].
Qed.

Lemma inv_check ars js name c td rs w now :
  Forall (λ j, j_phase j ≠ Spawned) js → sys_inv (mkSys ars js ((name, c) :: td) rs w) →
  sys_inv (mkSys (check_component name c rs now ars).2 (js ++ spawn name c (check_component name c rs now ars).1) td rs w).
Proof.
  intros Hp I. pose proof (inv_fresh _ I) as Hf. pose proof (inv_triggers _ I) as Ht. cbn in Hf, Ht.
  pose proof (inv_todo _ I name c ltac:(by left)) as Hc. apply Hallowed in Hc.
  assert (∀ l, waiting_count l js = 0) as Hw by (intros; by apply waiting_count_none).
  destruct (check_component_spec name rs c now ars Hf Ht) as [(-> & Hh & Hcf & Hn & Htr)|(x & -> & ->)].
  { cbn [spawn]. rewrite app_nil_r. split; cbn; rewrite ?Hh, ?Hcf, ?Hn.
    - apply (inv_configs _ I).
    - intros n c' H. apply (inv_todo _ I n). by right.
    - apply Hf.
    - intros n l H. by apply (Ht n), Htr.
    - apply (inv_jobs _ I).
    - apply (inv_attempts _ I). }
  destruct (handleFailure_spec name x c now ars Hf Ht) as (l & t & Hh & Hcf & Hn & Hl & Htr & Ha & Ho).
  set (o := (handleFailure name x c now ars).1) in *. set (ars' := (handleFailure name x c now ars).2) in *.
  split; cbn; rewrite ?Hh, ?Hcf.
  - apply (inv_configs _ I).
  - intros n c' H. apply (inv_todo _ I n). by right.
  - intros l' H. rewrite lookup_insert_ne by lia. apply Hf. lia.
  - intros n l' H. destruct (Htr n l' H) as [->|H']; [by rewrite lookup_insert_eq|]. apply lookup_insert_is_Some'. right. eauto.
  - intros j [H|H]%elem_of_app; apply lookup_insert_is_Some'; [right; by apply (inv_jobs _ I)|left].
    destruct Ho as [->|[-> _]]; [by apply not_elem_of_nil in H|]. by apply list_elem_of_singleton in H as ->.
  - intros l' t' H. rewrite waiting_count_app, Hw. destruct (decide (l' = l)) as [->|Hne].
    + rewrite lookup_insert_eq in H. injection H as <-.
      assert (0 <= tr_AttemptCount t ∧ tr_AttemptCount t <= limit) as [H0 H1].
      { destruct Ha as [[-> _]|(t0 & H0 & ->)]; [unfold limit; lia|]. pose proof (inv_attempts _ I l t0 H0) as [? H1]. cbn in H1. rewrite Hw in H1. lia. }
      split; [done|]. destruct Ho as [->|[-> Hlt]]; [cbn [spawn]; change (waiting_count l []) with 0; lia|]. cbn [spawn]. rewrite waiting_count_cons. change (waiting_count l []) with 0.
      unfold waiting, limit; cbn. rewrite Nat.eqb_refl. cbn [andb]. lia.
    + rewrite lookup_insert_ne in H by done. pose proof (inv_attempts _ I l' t' H) as [H0 H1]. cbn in H1. rewrite Hw in H1.
      enough (waiting_count l' (spawn name c o) = 0) by lia. destruct Ho as [->|[-> _]]; [done|]. cbn [spawn]. rewrite waiting_count_cons.
      unfold waiting; cbn. by rewrite (proj2 (Nat.eqb_neq l l')) by done.
Qed.

(** A goroutine moves on without the triggers being changed. *)
Lemma inv_job ars ars' js1 js2 j new td rs w w' :
  heap ars' = heap ars → configs ars' = configs ars → next ars' = next ars → (∀ n l, triggers ars' !! n = Some l → triggers ars !! n = Some l) →
  (∀ j', j' ∈ new → j_trigger j' = j_trigger j ∧ j_phase j' ≠ Spawned) →
  sys_inv (mkSys ars (js1 ++ j :: js2) td rs w) → sys_inv (mkSys ars' (js1 ++ new ++ js2) td rs w').
Proof.
  intros Hh Hcf Hn Htr Hnew I. split; cbn; rewrite ?Hh, ?Hcf, ?Hn.
  - apply (inv_configs _ I).
  - apply (inv_todo _ I).
  - apply (inv_fresh _ I).
  - intros n l H. by apply (inv_triggers _ I n), Htr.
  - intros j' H. rewrite !elem_of_app in H. destruct H as [H|[H|H]].
    + apply (inv_jobs _ I). apply elem_of_app. by left.
    + destruct (Hnew j' H) as [-> _]. apply (inv_jobs _ I). apply elem_of_app. right. by left.
    + apply (inv_jobs _ I). apply elem_of_app. right. by right.
  - intros l t H. pose proof (inv_attempts _ I l t H) as [H0 H1]. cbn in H1. split; [done|].
    rewrite !waiting_count_app in *. rewrite waiting_count_cons in H1. rewrite (waiting_count_none l new).
    + destruct (waiting l j); lia.
    + apply list.Forall_forall. intros j' Hj. by apply Hnew.
Qed.

Lemma inv_start ars js1 js2 td rs w name l c new :
  (∀ j, j ∈ new → j_trigger j = l ∧ j_phase j ≠ Spawned) →
  sys_inv (mkSys ars (js1 ++ mkJob name l c Spawned :: js2) td rs w) → sys_inv (mkSys (begin_recovery l ars) (js1 ++ new ++ js2) td rs w).
Proof.
  intros Hnew I. unfold begin_recovery. split; cbn.
  - apply (inv_configs _ I).
  - apply (inv_todo _ I).
  - intros l' H. rewrite lookup_alter_None. by apply (inv_fresh _ I).
  - intros n l' H. rewrite lookup_alter_is_Some. by apply (inv_triggers _ I n).
  - intros j H. rewrite lookup_alter_is_Some. rewrite !elem_of_app in H. destruct H as [H|[H|H]].
    + apply (inv_jobs _ I). apply elem_of_app. by left.
    + destruct (Hnew j H) as [-> _]. apply (inv_jobs _ I (mkJob name l c Spawned)). apply elem_of_app. right. by left.
    + apply (inv_jobs _ I). apply elem_of_app. right. by right.
  - intros l' t' H. rewrite !waiting_count_app, (waiting_count_none l' new); [|apply list.Forall_forall; intros j' Hj; by apply Hnew].
    destruct (decide (l' = l)) as [->|Hne].
    + rewrite lookup_alter_eq in H. destruct (heap ars !! l) as [t|] eqn:Et; [|done]. injection H as <-. cbn.
      pose proof (inv_attempts _ I l t Et) as [H0 H1]. cbn in H1. rewrite waiting_count_app, waiting_count_cons in H1.
      unfold waiting at 1 in H1; cbn in H1. rewrite Nat.eqb_refl in H1. cbn in H1. lia.
    + rewrite lookup_alter_ne in H by done. pose proof (inv_attempts _ I l' t' H) as [H0 H1]. cbn in H1. rewrite waiting_count_app, waiting_count_cons in H1.
      unfold waiting at 1 in H1; cbn in H1. rewrite (proj2 (Nat.eqb_neq l l')) in H1 by done. cbn in H1. lia.
Qed.
Lemma inv_manual ars js td rs w name s now now' :
  sys_inv (mkSys ars js td rs w) →
  sys_inv (mkSys (TriggerManualRecovery name s now now' ars).2
    (js ++ match (TriggerManualRecovery name s now now' ars).1.2 with Some (l, c) => [mkJob name l c Spawned] | None => [] end) td rs w).
Proof.
  intros I. unfold TriggerManualRecovery. destruct (configs ars !! name) as [c|]; [|cbn; by rewrite app_nil_r].
  destruct (actions ars !! s) as [a|]; [|cbn; by rewrite app_nil_r]. cbn [fst snd].
  pose proof (inv_fresh _ I (next ars) ltac:(cbn; lia)) as Hl. cbn in Hl. pose proof (fresh_no_waiting _ _ I Hl) as Hw. cbn in Hw.
  split; cbn.
  - apply (inv_configs _ I).
  - apply (inv_todo _ I).
  - intros l H. rewrite lookup_insert_ne by lia. apply (inv_fresh _ I). cbn. lia.
  - intros n l H. apply lookup_insert_is_Some'. right. by apply (inv_triggers _ I n).
  - intros j [H|H]%elem_of_app; apply lookup_insert_is_Some'; [right; by apply (inv_jobs _ I)|left]. by apply list_elem_of_singleton in H as ->.
  - intros l t H. rewrite waiting_count_app, waiting_count_cons. change (waiting_count l []) with 0. unfold waiting at 1; cbn.
    destruct (Nat.eqb_spec (next ars) l) as [<-|Hne].
    + rewrite lookup_insert_eq in H. injection H as <-. cbn. rewrite Hw. unfold limit. lia.
    + rewrite lookup_insert_ne in H by done. pose proof (inv_attempts _ I l t H) as [? H1]. cbn in H1 |- *. lia.
Qed.

Lemma inv_step st st' : sys_step true allowed st st' → sys_inv st → sys_inv st'.
Proof.
  intros Hs I. destruct Hs.
  - split; cbn; try apply I. intros n c' Hc'. destruct (decide (n = rc_ComponentName c)) as [->|].
    + rewrite lookup_insert_eq in Hc'. by injection Hc' as <-.
    + rewrite lookup_insert_ne in Hc' by done. by apply (inv_configs _ I n).
  - split; cbn; apply I.
  - split; cbn; apply I.
  - split; cbn; try apply I. intros n c Hc. apply (inv_configs _ I n). apply elem_of_map_to_list. cbn. by rewrite H.
  - apply inv_check; [by apply H|done].
  - by apply inv_manual.
  - apply (inv_start ars js1 js2 td rs w name l c); [|done].
    intros j Hj. destruct (actions ars !! Strategy c); [|by apply not_elem_of_nil in Hj]. by apply list_elem_of_singleton in Hj as ->.
  - apply (inv_job ars ars js1 js2 (mkJob name l c (Executing start)) [mkJob name l c (Ended _)] td rs w); try done. intros j Hj%list_elem_of_singleton. by subst.
  - apply (inv_job ars (forget name h ars) js1 js2 (mkJob name l c (Ended h)) [mkJob name l c (Recording h)] td rs w); try (unfold forget; by destruct (h_Success h)).
    + intros n l' Hl. unfold forget in Hl. destruct (h_Success h); [|done]. cbn in Hl. by apply lookup_delete_Some in Hl as [_ Hl].
    + intros j Hj%list_elem_of_singleton. by subst.
  - apply (inv_job ars (addHistory h ars) js1 js2 (mkJob name l c (Recording h)) [] td rs w); try done. intros j Hj. by apply not_elem_of_nil in Hj.
Qed.

Lemma inv_initial defaults (w : W) : sys_inv (@initial W E defaults w).
Proof.
  split; cbn; intros; rewrite ?lookup_empty in *; try done.
  - by apply not_elem_of_nil in H.
  - by apply not_elem_of_nil in H.
Qed.

Lemma inv_reachable defaults (w : W) st : rtc (sys_step true allowed) (@initial W E defaults w) st → sys_inv st.
Proof.
  intros H. assert (sys_inv (@initial W E defaults w)) as I by apply inv_initial. induction H; [done|]. apply IHrtc. by eapply inv_step.
Qed.
End bounded.


(** ** They are not, when goroutines start late *)

Lemma rtc_of_eq {A} (R : relation A) x y : x = y → rtc R x y.
Proof. intros ->. apply rtc_refl. Qed.

Section late.
Context {W E : Type} (defaults : gmap RecoveryStrategy (action W E)) (w : W) (now : instant).
Notation c := (DefaultRecoveryConfig "db").
Notation down := (mkResult "db" StatusUnhealthy RequestFailed).

(** The service after [n] checks in a row found the component down. *)
Definition down_trigger (n attempts : Z) : RecoveryTrigger := mkTrigger "db" now RequestFailed n now StatusUnhealthy attempts.
Definition down_service (n : Z) : AutoRecoveryService W E :=
  mkService {["db" := c]} defaults {["db" := 0%nat]} {[0%nat := down_trigger n 0]} 1 [] 1000.
Definition down_job : job E := mkJob "db" 0 c Spawned.
Notation step := (sys_step false (λ x, x = c)).

Lemma late_check (ars : AutoRecoveryService W E) (js : list (job E)) rs :
  configs ars = {["db" := c]} →
  rtc step (mkSys ars js [] rs w)
    (mkSys (handleFailure "db" down c now ars).2 (js ++ spawn "db" c (handleFailure "db" down c now ars).1) [] [down] w).
Proof.
  intros Hc. eapply rtc_l; [apply (check_begin _ _ ars js rs [down] w [("db", c)]); by rewrite Hc, map_to_list_singleton|].
  eapply rtc_l; [by apply (check_next false _ ars js "db" c [] [down] w now)|]. apply rtc_refl.
Qed.

Lemma down_again n : handleFailure "db" down c now (down_service n) = ((if 3 <=? n + 1 then Some 0%nat else None), down_service (n + 1)).
Proof.
  unfold handleFailure, get_trigger, down_service; cbn [triggers heap]. rewrite !lookup_singleton_eq. unfold set_heap; cbn [configs actions triggers next history maxHistorySize].
  cbn [heap]. rewrite insert_singleton_eq. unfold starts; cbn. by destruct (3 <=? n + 1).
Qed.

Lemma down_first : handleFailure "db" down c now (RegisterRecoveryConfig c (NewAutoRecoveryService defaults)) = (None, down_service 1).
Proof. unfold handleFailure, get_trigger, RegisterRecoveryConfig, NewAutoRecoveryService; cbn [triggers]. by rewrite lookup_empty. Qed.

Lemma late_checks n : rtc step (initial defaults w) (mkSys (down_service (Z.of_nat n + 3)) (replicate (S n) down_job) [] [down] w).
Proof.
  induction n as [|n IH].
  - eapply rtc_l; [by apply (register_config _ _ _ _ _ _ _ c)|]. etransitivity; [by apply late_check|]. rewrite down_first.
    do 2 (etransitivity; [by apply late_check|]; cbn [fst snd]; rewrite down_again). by apply rtc_of_eq.
  - etransitivity; [exact IH|]. etransitivity; [by apply late_check|]. cbn [fst snd]. rewrite down_again. apply rtc_of_eq.
    destruct (Z.leb_spec 3 (Z.of_nat n + 3 + 1)); [|lia]. cbn [fst snd spawn]. f_equal.
    + f_equal. lia.
    + symmetry. exact (replicate_S_end (S n) down_job).
Qed.

(** The goroutines then start, one after the other. *)
Definition counted (m k : Z) : AutoRecoveryService W E := set_heap {[0%nat := down_trigger m k]} (down_service m).
Definition started : list (job E) := match defaults !! StrategyRestart with Some _ => [mkJob "db" 0 c (Executing now)] | None => [] end.

Lemma late_start a m k js :
  rtc step (mkSys (counted m k) (js ++ replicate a down_job) [] [down] w)
    (mkSys (counted m (k + Z.of_nat a)) (js ++ concat (replicate a started)) [] [down] w).
Proof.
  revert k js; induction a as [|a IH]; intros k js; [rewrite Z.add_0_r; apply rtc_refl|].
  eapply rtc_l; [apply (job_starts false _ _ js (replicate a down_job) [] [down] w "db" 0 c now)|].
  assert (begin_recovery 0 (counted m k) = counted m (k + 1)) as ->.
  { unfold begin_recovery, counted, set_heap; cbn. f_equal. }
  change (actions (counted m k) !! Strategy c) with (defaults !! StrategyRestart). fold started.
  rewrite app_assoc. etransitivity; [apply IH|]. apply rtc_of_eq. cbn [replicate concat]. rewrite <- app_assoc. f_equal. f_equal. lia.
Qed.
End late.

(** Without that, nothing bounds the attempts: while the goroutines of earlier checks
    wait to be run, every further check starts another one.  With the default configuration,
    whose maximum is three, any number of attempts on one trigger can be reached. *)
Theorem late_starts_exceed {W E} (defaults : gmap RecoveryStrategy (action W E)) (w : W) n :
  ∃ st l t, rtc (sys_step false (λ c, c = DefaultRecoveryConfig "db")) (initial defaults w) st ∧
            heap (svc st) !! l = Some t ∧ tr_AttemptCount t = Z.of_nat (S n).
Proof.
  exists (mkSys (counted defaults 0 (Z.of_nat n + 3) (0 + Z.of_nat (S n))) (concat (replicate (S n) (started defaults 0))) [] [mkResult "db" StatusUnhealthy RequestFailed] w), 0%nat.
  eexists. split_and!; [|cbn; by rewrite lookup_singleton_eq|done].
  etransitivity; [apply (late_checks defaults w 0)|]. exact (late_start defaults w 0 (S n) (Z.of_nat n + 3) 0 []).
Qed.

(** ** Neither the maximum nor the pause holds back an action that succeeds *)

Section forever.
Context {E : Type} (c : RecoveryConfig) (name : string) (reason : message).
Notation down := (mkResult name StatusUnhealthy reason).

(** An action that counts how often it ran, and succeeds as the default actions do. *)
Definition counting : action nat E := λ _ w, (None, Datatypes.S w).

(** One check of the component, and the recovery it may start, at these three instants. *)
Definition tick (st : AutoRecoveryService nat E * nat) (clk : instant * instant * instant) : AutoRecoveryService nat E * nat :=
  let '(o, ars) := check_component name c [down] clk.1.1 st.1 in
  match o with Some l => performRecovery name l c clk.1.2 clk.2 ars st.2 | None => (ars, st.2) end.

(** The component failed [r] times since its trigger was made, and was not tried yet. *)
Definition failed_times (ars : AutoRecoveryService nat E) (r : Z) : Prop :=
  actions ars !! Strategy c = Some counting ∧
  ((r = 0 ∧ triggers ars !! name = None) ∨
   (0 < r ∧ ∃ l t, triggers ars !! name = Some l ∧ heap ars !! l = Some t ∧ tr_FailureCount t = r ∧ tr_AttemptCount t = 0)).

Context (Hen : Enabled c = true) (Hk : 1 <= FailureThreshold c) (Hm : 1 <= MaxRetryAttempts c).

Lemma tick_spec ars w r clk : failed_times ars r → 0 <= r →
  let '(ars', w') := tick (ars, w) clk in
  if FailureThreshold c <=? r + 1 then failed_times ars' 0 ∧ w' = Datatypes.S w else failed_times ars' (r + 1) ∧ w' = w.
Proof.
  intros [Ha Hr] H0. unfold tick, check_component. rewrite Hen. cbn [negb fst snd list_find cr_Name cr_Status].
  rewrite decide_True by done. cbn [cr_Status]. unfold handleFailure.
  assert (∃ l t ars1, get_trigger name clk.1.1 down ars = (l, t, ars1) ∧ tr_FailureCount t = r ∧ tr_AttemptCount t = 0 ∧
                      actions ars1 = actions ars ∧ triggers ars1 !! name = Some l) as (l & t & ars1 & -> & Hf & Hat & Hac & Htr).
  { unfold get_trigger. destruct Hr as [[-> ->]|(_ & l & t & Hl & Ht & Hf & Hat)].
    - do 3 eexists. split; [reflexivity|]. cbn. rewrite lookup_insert_eq. done.
    - rewrite Hl, Ht. exists l, t, ars. done. }
  cbn [fst snd]. unfold starts. cbn [tr_FailureCount tr_AttemptCount]. rewrite Hf, Hat. destruct (Z.leb_spec (FailureThreshold c) (r + 1)); cbn.
  - destruct (Z.leb_spec (MaxRetryAttempts c) 0); [lia|]. cbn. unfold performRecovery, begin_recovery; cbn.
    rewrite Hac. unfold action in Ha |- *. rewrite Ha. rewrite lookup_alter_eq, lookup_insert_eq. cbn. split; [|done]. split.
    + cbn. by rewrite Hac.
    + left. split; [done|]. cbn. apply lookup_delete_eq.
  - split; [|done]. split; [cbn; by rewrite Hac|]. right. split; [lia|]. exists l. eexists. cbn. rewrite lookup_insert_eq. split_and!; [done|reflexivity|done|done].
Qed.

Lemma ticks_spec clks ars w r : failed_times ars r → 0 <= r < FailureThreshold c →
  Z.of_nat (foldl tick (ars, w) clks).2 = Z.of_nat w + (r + Z.of_nat (length clks)) / FailureThreshold c.
Proof.
  revert ars w r; induction clks as [|clk clks IH]; intros ars w r Hf Hr; cbn [foldl length snd].
  - rewrite Z.div_small by lia. lia.
  - pose proof (tick_spec ars w r clk Hf ltac:(lia)) as H. destruct (tick (ars, w) clk) as [ars' w'].
    destruct (Z.leb_spec (FailureThreshold c) (r + 1)); destruct H as [H ->].
    + rewrite (IH ars' (Datatypes.S w) 0) by (done || lia). replace (r + Z.of_nat (Datatypes.S (length clks))) with (Z.of_nat (length clks) + 1 * FailureThreshold c) by lia.
      rewrite Z.div_add by lia. rewrite Z.add_0_l. lia.
    + rewrite (IH ars' w (r + 1)) by (done || lia). f_equal. f_equal. lia.
Qed.
End forever.

(** An action that succeeds, as the default actions always do, drops the trigger with
    its count of attempts and its time: a component that stays down is restarted at every
    third check for ever, at whatever times, although the configuration allows three
    attempts and asks for a pause of five minutes. *)
Theorem restarts_forever {E} c name reason clocks : Enabled c = true → 1 <= FailureThreshold c → 1 <= MaxRetryAttempts c →
  Z.of_nat (foldl (tick c name reason) (NewAutoRecoveryService {[Strategy c := @counting E]}, 0%nat) clocks).2 =
  Z.of_nat (length clocks) / FailureThreshold c.
Proof.
  intros Hen Hk Hm. rewrite (ticks_spec c name reason Hen Hk Hm clocks _ 0 0); [by rewrite !Z.add_0_l| |lia].
  split; [apply lookup_singleton_eq|left; split; [done|apply lookup_empty]].
Qed.

(** ** The pause of an action that fails *)

(** An action that fails, and writes down when it was tried. *)
Definition failing : action (list instant) unit := λ t w, (Some tt, tr_LastFailureTime t :: w).

(** The pause is measured from the first failure, not from the last attempt: checked
    every ten seconds, a component with the default configuration is tried after twenty
    seconds, and then, the five minutes being over, at two checks in a row. *)
Theorem pause_from_first_failure :
  let clocks := (λ n, let t := Z.of_nat n * 10 * second in (t, t, t)) <$> seq 0 100 in
  let c := DefaultRecoveryConfig "db" in
  (foldl (λ st clk, let '(o, ars) := check_component "db" c [mkResult "db" StatusUnhealthy RequestFailed] clk.1.1 st.1 in
                    match o with Some l => performRecovery "db" l c clk.1.2 clk.2 ars st.2 | None => (ars, st.2) end)
     (NewAutoRecoveryService {[StrategyRestart := failing]}, []) clocks).2 = [310 * second; 300 * second; 20 * second].
Proof. vm_compute. reflexivity. Qed.

(** ** Recovery by hand *)

Lemma addHistory_last {W E} (ars : AutoRecoveryService W E) h : (length (history ars) <= maxHistorySize ars)%nat → (0 < maxHistorySize ars)%nat →
  list.last (history (addHistory h ars)) = Some h.
Proof.
  intros Hl H0. unfold addHistory; cbn [history]. destruct (Nat.ltb_spec (maxHistorySize ars) (length (history ars ++ [h]))) as [Hlt|]; [|apply last_snoc].
  rewrite length_app in Hlt; cbn in Hlt. destruct (history ars) as [|x l] eqn:Eh; [cbn in *; lia|]. change (drop 1 ((x :: l) ++ [h])) with (l ++ [h]).
  rewrite take_ge by (rewrite length_app; cbn in *; lia). apply last_snoc.
Qed.

(** A recovery that is asked for by hand needs the strategy to be known, and then uses
    the configured one: the strategy that was asked for is not looked at again. *)
Theorem manual_uses_configured {W E} (ars : AutoRecoveryService W E) name s now now' start stop (w : W) l c ars' a :
  TriggerManualRecovery name s now now' ars = (None, Some (l, c), ars') → actions ars !! Strategy c = Some a → (length (history ars) <= maxHistorySize ars)%nat → (0 < maxHistorySize ars)%nat →
  configs ars !! name = Some c ∧ is_Some (actions ars !! s) ∧
  ∃ t h, tr_AttemptCount t = 1 ∧ list.last (history (performRecovery name l c start stop ars' w).1) = Some h ∧
         h_Strategy h = Strategy c ∧ h_Error h = (a t w).1 ∧ (performRecovery name l c start stop ars' w).2 = (a t w).2.
Proof.
  unfold TriggerManualRecovery. destruct (configs ars !! name) as [c'|] eqn:Ec; [|done]. destruct (actions ars !! s) as [b|] eqn:Ea; [|done].
  intros H Ha Hlen Hmax. injection H as <- <- <-. split; [done|]. split; [done|].
  unfold performRecovery, begin_recovery; cbn. unfold action in *. rewrite Ha, lookup_alter_eq, lookup_insert_eq. cbn.
  set (t := mkTrigger name now ManualTrigger (FailureThreshold c') now' StatusUnhealthy (0 + 1)).
  destruct (a t w) as [err w'] eqn:Er; cbn [fst snd]. exists t. eexists. split; [done|]. rewrite Er.
  split; [rewrite addHistory_last; [reflexivity|by destruct err..]|done].
Qed.

(** The history never holds more than its maximum, and what it loses are the oldest
    entries: it is the end of everything that was recorded. *)
Theorem history_is_recent {W E} (ars : AutoRecoveryService W E) hs : (0 < maxHistorySize ars)%nat → history ars = [] →
  let l := history (foldl (λ ars h, addHistory h ars) ars hs) in
  (length l <= maxHistorySize ars)%nat ∧ ∃ old, hs = old ++ l ∧ (old ≠ [] → length l = maxHistorySize ars).
Proof.
  intros Hm H0. induction hs as [|h hs IH] using rev_ind; [cbn; rewrite H0; split; [cbn; lia|by exists []]|].
  rewrite foldl_app. cbn [foldl]. cbn zeta in IH. revert IH. set (a := foldl _ ars hs).
  assert (maxHistorySize a = maxHistorySize ars) as Ha by (unfold a; clear; induction hs as [|x hs IH] using rev_ind; [done|by rewrite foldl_app]).
  intros (Hl & old & He & Hold). unfold addHistory. rewrite Ha. cbn [history].
  destruct (Nat.ltb_spec (maxHistorySize ars) (length (history a ++ [h]))) as [Hlt|Hle].
  - rewrite length_app in Hlt. cbn in Hlt. destruct (history a) as [|x l] eqn:Eh; [cbn in *; lia|]. change (drop 1 ((x :: l) ++ [h])) with (l ++ [h]).
    rewrite take_ge by (rewrite length_app; cbn in *; lia). split; [rewrite length_app; cbn in *; lia|].
    exists (old ++ [x]). split; [by rewrite He, <- !app_assoc|]. rewrite length_app; cbn in *; lia.
  - rewrite length_app in Hle |- *. cbn in Hle |- *. split; [lia|]. exists old. split; [by rewrite He, app_assoc|]. intros Ho. specialize (Hold Ho). lia.
Qed.

(** ** The action that opens a circuit breaker *)

Section breaker.
Context {E : Type} (e : E) (config : Breaker.CircuitBreakerConfig).

(** A closed breaker counts the failures; once it is not closed a failure does not close it. *)
Definition failing_for (k : Z) (cb : Breaker.CircuitBreaker) : Prop :=
  match Breaker.state cb with
  | Breaker.StateClosed => Breaker.ConsecutiveFailures (Breaker.metrics cb) = k ∧ (k < Breaker.FailureThreshold config ∨ k = 0)
  | _ => Breaker.FailureThreshold config <= k
  end.

Lemma failing_call k cb ck : 0 <= k → failing_for k cb → failing_for (k + 1) (Breaker.Execute config ck (simulated_failure e) cb tt).1.2.
Proof.
  intros Hk. unfold failing_for, Breaker.Execute, Breaker.allow, simulated_failure. destruct (Breaker.state cb) eqn:Es.
  - intros [Hc Hlt]. cbn. unfold Breaker.recordFailure. cbn. rewrite Es. cbn. rewrite Hc.
    destruct (Z.leb_spec (Breaker.FailureThreshold config) (k + 1)); cbn; [done|rewrite Es; cbn; lia].
  - intros H. destruct (time_after _ _); cbn.
    + unfold Breaker.recordFailure; cbn. destruct (_ <=? _); cbn; lia.
    + rewrite Es. lia.
  - intros H. destruct (_ <? _); cbn.
    + unfold Breaker.recordFailure; cbn. rewrite Es. destruct (_ <=? _); cbn; [|rewrite Es]; lia.
    + rewrite Es. lia.
Qed.

Lemma failing_calls cks k cb : 0 <= k → failing_for k cb → failing_for (k + Z.of_nat (length cks)) (fail_calls e config cks cb).
Proof.
  revert k cb; induction cks as [|ck cks IH]; intros k cb Hk H; [by rewrite Z.add_0_r|]. cbn [fail_calls foldl length].
  replace (k + Z.of_nat (Datatypes.S (length cks))) with (k + 1 + Z.of_nat (length cks)) by lia. apply IH; [lia|by apply failing_call].
Qed.
End breaker.

(** The action leaves the breaker of the component closed exactly when its threshold is
    more than ten: it makes ten calls fail, whatever the threshold, and never looks. *)
Theorem breaker_action_opens_iff {E} (e : E) created reset cks t m l c cb config : length cks = 10%nat →
  Breaker.breakers m !! tr_ComponentName t = Some l → Breaker.cbs m !! l = Some (c, cb) → Breaker.cfgs m !! c = Some config →
  ∃ cb', Breaker.cbs (CircuitBreakerAction e created reset cks t m).2 !! l = Some (c, cb') ∧
         (Breaker.state cb' = Breaker.StateClosed ↔ 10 < Breaker.FailureThreshold config).
Proof.
  intros Hn Hb Hcb Hc. unfold CircuitBreakerAction, Breaker.GetOrCreate. rewrite Hb. cbn. rewrite Hcb, Hc. cbn. rewrite lookup_insert_eq.
  eexists. split; [reflexivity|]. pose proof (failing_calls e config cks 0 (Breaker.Reset_ reset cb) ltac:(lia)) as H.
  rewrite Hn in H. unfold failing_for in H at 2. specialize (H ltac:(cbn; auto)).
  destruct (Breaker.state (fail_calls _ _ _ _)); cbn in H; split; (done || lia).
Qed.

(** ** Witnesses *)

Definition three_attempts (c : RecoveryConfig) : Prop := MaxRetryAttempts c <= 3.


Lemma restarts_forever_witness :
  Z.of_nat (foldl (tick (DefaultRecoveryConfig "db") "db" RequestFailed)
    (NewAutoRecoveryService {[StrategyRestart := @counting unit]}, 0%nat) (replicate 30 (0, 0, 0))).2 = 10.
Proof.
  rewrite (restarts_forever (DefaultRecoveryConfig "db") "db" RequestFailed (replicate 30 (0, 0, 0)) eq_refl ltac:(done) ltac:(done)). reflexivity.
Defined.

Lemma manual_uses_configured_witness :
  let c := DefaultRecoveryConfig "db" in
  let ars := RegisterRecoveryConfig c (NewAutoRecoveryService {[StrategyRestart := @counting unit; StrategyReset := @counting unit]}) in
  ∃ t, tr_AttemptCount t = 1 ∧ (performRecovery "db" 0 c 0 0 (TriggerManualRecovery "db" StrategyReset 0 0 ars).2 0%nat).2 = (@counting unit t 0%nat).2.
Proof.
  intros c ars.
  destruct (manual_uses_configured ars "db" StrategyReset 0 0 0 0 0%nat 0%nat c (TriggerManualRecovery "db" StrategyReset 0 0 ars).2 (@counting unit)
    eq_refl eq_refl (Nat.le_0_l _) (Nat.lt_0_succ _)) as (_ & _ & t & _ & Ht & _ & _ & _ & H).
  exists t. exact (conj Ht H).
Defined.

Lemma history_is_recent_witness :
  let ars := mkService ∅ ∅ ∅ ∅ 0 [] 2 : AutoRecoveryService unit unit in
  let h n := mkHistory n "db" StrategyRestart true 0 (None : option unit) 1 in
  let hs := [h 1; h 2; h 3] in
  (length (history (foldl (λ ars h, addHistory h ars) ars hs)) <= 2)%nat.
Proof. intros ars h hs. apply (history_is_recent ars hs); [cbn; lia|done]. Defined.

Lemma breaker_action_opens_iff_witness :
  let config := Breaker.DefaultCircuitBreakerConfig "db" in
  let m := Breaker.mkManager {[0%nat := config]} {[1%nat := (0%nat, Breaker.NewCircuitBreaker 0)]} {["db"%string := 1%nat]} 2 in
  ∃ cb', Breaker.cbs (CircuitBreakerAction tt 0 0 (replicate 10 (Breaker.mkClock 0 0 0 0)) (mkTrigger "db" 0 ManualTrigger 3 0 StatusUnhealthy 1) m).2 !! 1%nat = Some (0%nat, cb') ∧
         (Breaker.state cb' = Breaker.StateClosed ↔ 10 < 5).
Proof.
  intros config m.
  apply (breaker_action_opens_iff tt 0 0 (replicate 10 (Breaker.mkClock 0 0 0 0)) (mkTrigger "db" 0 ManualTrigger 3 0 StatusUnhealthy 1) m 1%nat 0%nat (Breaker.NewCircuitBreaker 0) config);
    reflexivity.
Defined.
