(* ===== verification/GoTimeParse.v ===== *)
(** * GoTimeParse: [time.Parse]

    The parser of [time/format.go] for the elements that the layouts of the program use: a
    layout is a list of elements, and every element reads the front of the text.  The local
    time zone says which abbreviations it knows.  [Parse_RFC1123] is the text of a date in
    GMT read back. *)

From Stdlib Require Import Ascii.
From S2P Require Import Prelude GoStrings GoText GoConv GoTime.

Inductive element :=
| Lit (s : string) | StdWeekDay | StdZeroDay | StdMonth | StdLongYear | StdYear
| StdHour | StdZeroMinute | StdZeroSecond | StdTZ | StdNumTZ.

(** What has been read so far. *)
Record fields_read := mkFields {
  f_year : Z; f_month : Z; f_day : Z; f_hour : Z; f_min : Z; f_sec : Z; f_nsec : Z;
  f_offset : option Z; f_zone : string; f_utc : bool
}.
Definition no_fields : fields_read := mkFields 0 1 1 0 0 0 0 None EmptyString false.

Definition digit_value (c : ascii) : Z := byte_of c - 48.

(** [getnum]: two digits, or one where that is enough. *)
Definition getnum (fixed : bool) (s : string) : option (Z * string) :=
  match s with
  | String a s' =>
      if is_digit a then
        match s' with
        | String b s'' => if is_digit b then Some (10 * digit_value a + digit_value b, s'')
                          else if fixed then None else Some (digit_value a, s')
        | EmptyString => if fixed then None else Some (digit_value a, s')
        end
      else None
  | EmptyString => None
  end.

(** [skip]: a space of the layout stands for any number of spaces, also for none at the end. *)
Fixpoint cutspace (s : string) : string :=
  match s with String c s' => if Ascii.eqb c " " then cutspace s' else s | EmptyString => EmptyString end.
Fixpoint skip_lit (spaces : bool) (p s : string) : option string :=
  match p with
  | EmptyString => Some s
  | String c p' =>
      if Ascii.eqb c " " then
        if spaces then skip_lit true p' s
        else match s with String d _ => if Ascii.eqb d " " then skip_lit true p' (cutspace s) else None | EmptyString => skip_lit true p' s end
      else match s with String d s' => if Ascii.eqb c d then skip_lit false p' s' else None | EmptyString => None end
  end.

Definition shortDayNames : list string := ["Sun"; "Mon"; "Tue"; "Wed"; "Thu"; "Fri"; "Sat"]%string.
Definition shortMonthNames : list string :=
  ["Jan"; "Feb"; "Mar"; "Apr"; "May"; "Jun"; "Jul"; "Aug"; "Sep"; "Oct"; "Nov"; "Dec"]%string.

(** [lookup]: the first name that the text starts with, whatever the case. *)
Fixpoint lookup_name (i : Z) (names : list string) (s : string) : option (Z * string) :=
  match names with
  | [] => None
  | n :: names =>
      if (String.length n <=? String.length s)%nat && String.eqb (to_lower (take_bytes (String.length n) s)) (to_lower n)
      then Some (i, drop_bytes (String.length n) s) else lookup_name (i + 1) names s
  end.

(** [parseSignedOffset]: how many bytes it takes. *)
Definition parseSignedOffset (s : string) : nat :=
  match s with
  | String c s' =>
      if Ascii.eqb c "-" || Ascii.eqb c "+" then
        match leadingInt 0 s' with
        | Some (x, rem) => if String.eqb rem s' || (23 <? x) then 0%nat else (String.length s - String.length rem)%nat
        | None => 0%nat
        end
      else 0%nat
  | EmptyString => 0%nat
  end.

Fixpoint upper_run (n : nat) (s : string) : nat :=
  match n, s with
  | S n, String c s' => if in_range 65 90 c then S (upper_run n s') else 0%nat
  | _, _ => 0%nat
  end.

(** [parseTimeZone]: the length of the abbreviation. *)
Definition parseTimeZone (s : string) : option nat :=
  if (String.length s <? 3)%nat then None
  else if HasPrefix s "ChST" || HasPrefix s "MeST" then Some 4%nat
  else if HasPrefix s "GMT" then Some (3 + parseSignedOffset (drop_bytes 3 s))%nat
  else if HasPrefix s "+" || HasPrefix s "-" then match parseSignedOffset s with O => None | n => Some n end
  else
    match upper_run 6 s with
    | 5%nat => if String.eqb (take_bytes 1 (drop_bytes 4 s)) "T" then Some 5%nat else None
    | 4%nat => if String.eqb (take_bytes 1 (drop_bytes 3 s)) "T" || HasPrefix s "WITA" then Some 4%nat else None
    | 3%nat => Some 3%nat
    | _ => None
    end.

(** The digits of a fraction of a second, at most nine of them counted. *)
Fixpoint fraction (scale acc : Z) (s : string) : Z * string :=
  match s with
  | String c s' => if is_digit c then fraction (scale / 10) (acc + digit_value c * scale) s' else (acc, s)
  | EmptyString => (acc, s)
  end.
Definition opt_fraction (s : string) : Z * string :=
  match s with
  | String c (String d s') => if (Ascii.eqb c "." || Ascii.eqb c ",") && is_digit d then fraction 100000000 0 (String d s') else (0, s)
  | _ => (0, s)
  end.

Definition ranged (lo hi : Z) (o : option (Z * string)) : option (Z * string) :=
  match o with Some (v, s) => if (lo <=? v) && (v <=? hi) then Some (v, s) else None | None => None end.

Definition set_date (y m d : Z) (f : fields_read) : fields_read := mkFields y m d (f_hour f) (f_min f) (f_sec f) (f_nsec f) (f_offset f) (f_zone f) (f_utc f).
Definition set_clock (h m s n : Z) (f : fields_read) : fields_read := mkFields (f_year f) (f_month f) (f_day f) h m s n (f_offset f) (f_zone f) (f_utc f).
Definition set_zone (o : option Z) (z : string) (u : bool) (f : fields_read) : fields_read :=
  mkFields (f_year f) (f_month f) (f_day f) (f_hour f) (f_min f) (f_sec f) (f_nsec f) o z u.

(** [±hhmm]. *)
Definition num_zone (s : string) : option (Z * string) :=
  match s with
  | String c s' =>
      match getnum true s' with
      | None => None
      | Some (h, r) =>
          match getnum true r with
          | None => None
          | Some (m, r) =>
              if (24 <? h) || (60 <? m) then None
              else if Ascii.eqb c "+" then Some ((h * 60 + m) * 60, r)
              else if Ascii.eqb c "-" then Some (- ((h * 60 + m) * 60), r) else None
          end
      end
  | EmptyString => None
  end.

(** [atoi] of the package: a sign may stand in front. *)
Definition time_atoi (s : string) : option Z :=
  match leadingInt 0 (after_sign s) with
  | Some (x, EmptyString) => Some (if HasPrefix s "-" then - x else x)
  | _ => None
  end.

Definition read_element (e : element) (f : fields_read) (s : string) : option (fields_read * string) :=
  match e with
  | Lit p => option_map (λ s, (f, s)) (skip_lit false p s)
  | StdWeekDay => option_map (λ '(_, s), (f, s)) (lookup_name 0 shortDayNames s)
  | StdZeroDay => option_map (λ '(d, s), (set_date (f_year f) (f_month f) d f, s)) (getnum true s)
  | StdMonth => option_map (λ '(m, s), (set_date (f_year f) (m + 1) (f_day f) f, s)) (lookup_name 0 shortMonthNames s)
  | StdLongYear =>
      let p := take_bytes 4 s in
      if (String.length p =? 4)%nat && str_all is_digit p
      then match digits_go 0 p with Some y => Some (set_date y (f_month f) (f_day f) f, drop_bytes 4 s) | None => None end else None
  | StdYear =>
      if (String.length s <? 2)%nat then None
      else match time_atoi (take_bytes 2 s) with
           | Some y => Some (set_date (if 69 <=? y then 1900 + y else 2000 + y) (f_month f) (f_day f) f, drop_bytes 2 s)
           | None => None
           end
  | StdHour => option_map (λ '(h, s), (set_clock h (f_min f) (f_sec f) (f_nsec f) f, s)) (ranged 0 23 (getnum false s))
  | StdZeroMinute => option_map (λ '(m, s), (set_clock (f_hour f) m (f_sec f) (f_nsec f) f, s)) (ranged 0 59 (getnum true s))
  | StdZeroSecond =>
      option_map (λ '(x, s), let '(n, s) := opt_fraction s in (set_clock (f_hour f) (f_min f) x n f, s)) (ranged 0 59 (getnum true s))
  | StdTZ =>
      if HasPrefix s "UTC" then Some (set_zone (f_offset f) (f_zone f) true f, drop_bytes 3 s)
      else match parseTimeZone s with
           | Some n => Some (set_zone (f_offset f) (take_bytes n s) (f_utc f) f, drop_bytes n s)
           | None => None
           end
  | StdNumTZ => option_map (λ '(o, s), (set_zone (Some o) (f_zone f) (f_utc f) f, s)) (num_zone s)
  end.

Fixpoint read_layout (layout : list element) (f : fields_read) (s : string) : option fields_read :=
  match layout with
  | [] => if String.eqb s EmptyString then Some f else None
  | e :: layout => match read_element e f s with Some (f, s) => read_layout layout f s | None => None end
  end.

Definition days_in (y m : Z) : Z := default 0 (month_lengths (is_leap y) !! Z.to_nat (m - 1)).
Definition days_before (y m : Z) : Z := foldr Z.add 0 (take (Z.to_nat (m - 1)) (month_lengths (is_leap y))).

(** The civil date and time as seconds since the year 1. *)
Definition civil_seconds (y mo d h mi s : Z) : Z := (year_start y + days_before y mo + (d - 1)) * 86400 + h * 3600 + mi * 60 + s.

Section parse.
(** [lookupName]: the offset of an abbreviation in the local time zone at that second. *)
Context (local : string → Z → option Z).

Definition Parse (layout : list element) (value : string) : option instant :=
  match read_layout layout no_fields value with
  | None => None
  | Some f =>
      if (1 <=? f_day f) && (f_day f <=? days_in (f_year f) (f_month f)) then
        let u := civil_seconds (f_year f) (f_month f) (f_day f) (f_hour f) (f_min f) (f_sec f) in
        (* an abbreviation that is not known names the time and does not move it *)
        let offset :=
          if f_utc f then 0
          else match f_offset f with
               | Some o => o
               | None => if String.eqb (f_zone f) EmptyString then 0 else default 0 (local (f_zone f) (u - unix_epoch))
               end in
        Some ((u - offset) * second + f_nsec f)
      else None
  end.
End parse.

(** ** Layouts *)

Definition date_layout (year : element) : list element := [StdZeroDay; Lit " "; StdMonth; Lit " "; year].
Definition clock_layout : list element := [StdHour; Lit ":"; StdZeroMinute; Lit ":"; StdZeroSecond].

Definition RFC1123 : list element := [StdWeekDay; Lit ", "] ++ date_layout StdLongYear ++ [Lit " "] ++ clock_layout ++ [Lit " "; StdTZ].
Definition RFC1123Z : list element := [StdWeekDay; Lit ", "] ++ date_layout StdLongYear ++ [Lit " "] ++ clock_layout ++ [Lit " "; StdNumTZ].
Definition RFC822 : list element := date_layout StdYear ++ [Lit " "; StdHour; Lit ":"; StdZeroMinute; Lit " "; StdTZ].
Definition RFC822Z : list element := date_layout StdYear ++ [Lit " "; StdHour; Lit ":"; StdZeroMinute; Lit " "; StdNumTZ].

Definition no_zone : string → Z → option Z := λ _ _, None.

Example time_parse_ex :
  Parse no_zone RFC1123 "Mon, 02 Jan 2006 22:04:05 GMT" = Some ((1136239445 + unix_epoch) * second) ∧
  Parse no_zone RFC1123Z "Mon, 02 Jan 2006 15:04:05 -0700" = Some ((1136239445 + unix_epoch) * second) ∧
  Parse no_zone RFC822 "02 Jan 06 22:04 UTC" = Some ((1136239440 + unix_epoch) * second) ∧
  Parse no_zone RFC822Z "02 Jan 06 15:04 -0700" = Some ((1136239440 + unix_epoch) * second) ∧
  Parse no_zone RFC1123 "Mon, 30 Feb 2006 22:04:05 GMT" = None.
Proof. vm_compute. done. Qed.

(** ** Reading back the date of a header *)

Lemma is_digit_digit k : 0 <= k < 10 → is_digit (digit k) = true.
Proof. revert k. apply (digit_ind (λ k, is_digit (digit k))). by vm_compute. Qed.
Lemma digit_value_digit k : 0 <= k < 10 → digit_value (digit k) = k.
Proof.
  intros H. apply Z.eqb_eq. revert k H. apply (digit_ind (λ k, digit_value (digit k) =? k)). by vm_compute.
Qed.

Lemma getnum_digits b n s : 0 <= n < 100 → getnum b (digits 2 n +:+ s) = Some (n, s).
Proof.
  intros Hn. assert (0 <= n / 10 < 10) by lia. assert (0 <= n mod 10 < 10) by lia.
  change (digits 2 n +:+ s) with (String (digit (n / 10)) (String (digit (n mod 10 / 1)) s)). rewrite Z.div_1_r. cbn [getnum].
  rewrite !is_digit_digit, !digit_value_digit by done. do 2 f_equal. lia.
Qed.

Lemma str_all_digits w n : 0 <= n < 10 ^ Z.of_nat w → str_all is_digit (digits w n) = true.
Proof.
  revert n. induction w as [|w IH]; intros n Hn; [done|]. cbn [digits str_all]. rewrite Nat2Z.inj_succ, Z.pow_succ_r in Hn by lia.
  assert (0 < 10 ^ Z.of_nat w) by (apply Z.pow_pos_nonneg; lia). set (p := 10 ^ Z.of_nat w) in *. clearbody p.
  rewrite is_digit_digit, IH by nia. done.
Qed.

Lemma digits_go_digits w n acc : 0 <= n < 10 ^ Z.of_nat w → digits_go acc (digits w n) = Some (acc * 10 ^ Z.of_nat w + n).
Proof.
  revert n acc. induction w as [|w IH]; intros n acc Hn; [cbn in *; f_equal; lia|]. cbn [digits digits_go]. rewrite Nat2Z.inj_succ, Z.pow_succ_r in Hn |- * by lia.
  assert (0 < 10 ^ Z.of_nat w) by (apply Z.pow_pos_nonneg; lia). set (p := 10 ^ Z.of_nat w) in *.
  assert (0 <= n / p < 10) as Hd by nia. assert (0 <= n mod p < p) as Hm by lia.
  rewrite is_digit_digit by done. rewrite IH by done. f_equal. fold (digit_value (digit (n / p))). rewrite digit_value_digit by done.
  pose proof (Z.div_mod n p ltac:(lia)). nia.
Qed.
Lemma length_digits w n : String.length (digits w n) = w.
Proof. revert n; induction w as [|w IH]; intros n; [done|]. cbn. by rewrite IH. Qed.

(** The text of a date in the headers of HTTP. *)
Definition month_name (m : Z) : string := default EmptyString (shortMonthNames !! Z.to_nat (m - 1)).
Definition http_date (wd : string) (y m d h mi s : Z) : string :=
  wd +:+ (", " +:+ (digits 2 d +:+ (" " +:+ (month_name m +:+ (" " +:+ (digits 4 y +:+ (" " +:+ (digits 2 h +:+ (":" +:+ (digits 2 mi +:+ (":" +:+ (digits 2 s +:+ " GMT")))))))))))).

Lemma lookup_weekday wd s : wd ∈ shortDayNames → ∃ i, lookup_name 0 shortDayNames (wd +:+ s) = Some (i, s).
Proof.
  unfold shortDayNames. rewrite !elem_of_cons. intros H. destruct_or! H; subst; try (eexists; reflexivity). by apply not_elem_of_nil in H.
Qed.
Lemma lookup_month m s : 1 <= m <= 12 → lookup_name 0 shortMonthNames (month_name m +:+ s) = Some (m - 1, s).
Proof.
  intros Hm. unfold month_name. assert (m = 1 ∨ m = 2 ∨ m = 3 ∨ m = 4 ∨ m = 5 ∨ m = 6 ∨ m = 7 ∨ m = 8 ∨ m = 9 ∨ m = 10 ∨ m = 11 ∨ m = 12) as H by lia.
  destruct_or! H; subst; reflexivity.
Qed.

Lemma cutspace_digits w n t : 0 <= n < 10 ^ Z.of_nat (S w) → cutspace (digits (S w) n +:+ t) = digits (S w) n +:+ t.
Proof.
  intros Hn. cbn [digits]. rewrite Nat2Z.inj_succ, Z.pow_succ_r in Hn by lia. assert (0 < 10 ^ Z.of_nat w) by (apply Z.pow_pos_nonneg; lia).
  set (p := 10 ^ Z.of_nat w) in *. clearbody p. assert (0 <= n / p < 10) as Hd by nia. change (String ?a ?b +:+ ?c) with (String a (b +:+ c)). cbn [cutspace].
  pose proof (is_digit_digit _ Hd) as Hc. destruct (Ascii.eqb_spec (digit (n / p)) " "); [|done]. by rewrite e in Hc.
Qed.
Lemma cutspace_month m t : 1 <= m <= 12 → cutspace (month_name m +:+ t) = month_name m +:+ t.
Proof.
  intros Hm. unfold month_name. assert (m = 1 ∨ m = 2 ∨ m = 3 ∨ m = 4 ∨ m = 5 ∨ m = 6 ∨ m = 7 ∨ m = 8 ∨ m = 9 ∨ m = 10 ∨ m = 11 ∨ m = 12) as H by lia.
  destruct_or! H; subst; reflexivity.
Qed.
Lemma skip_space t : cutspace t = t → skip_lit false " " (" " +:+ t) = Some t.
Proof. intros H. change (Some (cutspace t) = Some t). by rewrite H. Qed.
Lemma skip_comma t : cutspace t = t → skip_lit false ", " (", " +:+ t) = Some t.
Proof. intros H. change (Some (cutspace t) = Some t). by rewrite H. Qed.
Lemma skip_colon t : skip_lit false ":" (":" +:+ t) = Some t.
Proof. done. Qed.
Lemma take_year y t : take_bytes 4 (digits 4 y +:+ t) = digits 4 y.
Proof. done. Qed.
Lemma drop_year y t : drop_bytes 4 (digits 4 y +:+ t) = t.
Proof. done. Qed.
Lemma read_ranged lo hi b n t : 0 <= n < 100 → lo <= n <= hi → ranged lo hi (getnum b (digits 2 n +:+ t)) = Some (n, t).
Proof. intros Hn Hr. rewrite getnum_digits by done. cbn. by rewrite !(proj2 (Z.leb_le _ _)) by lia. Qed.
Lemma days_in_le y m : 1 <= m <= 12 → days_in y m <= 31.
Proof.
  intros Hm. unfold days_in. generalize (is_leap y). intros b.
  assert (m = 1 ∨ m = 2 ∨ m = 3 ∨ m = 4 ∨ m = 5 ∨ m = 6 ∨ m = 7 ∨ m = 8 ∨ m = 9 ∨ m = 10 ∨ m = 11 ∨ m = 12) as H by lia.
  destruct_or! H; subst; destruct b; vm_compute; congruence.
Qed.

(** The date of a header is read back as the instant it names, unless the local time zone
    moves GMT. *)
Theorem Parse_RFC1123 local wd y m d h mi s : wd ∈ shortDayNames → 0 <= y < 10000 → 1 <= m <= 12 → 1 <= d <= days_in y m →
  0 <= h < 24 → 0 <= mi < 60 → 0 <= s < 60 → (∀ t, local "GMT" t = None ∨ local "GMT" t = Some 0) →
  Parse local RFC1123 (http_date wd y m d h mi s) = Some (civil_seconds y m d h mi s * second).
Proof.
  intros Hwd Hy Hm Hd Hh Hmi Hs Hg.
  pose proof (days_in_le y m Hm) as Hd'. unfold Parse, RFC1123, http_date, date_layout, clock_layout. cbn [app read_layout].
  match goal with |- context [read_element StdWeekDay no_fields (wd +:+ ?r)] => destruct (lookup_weekday wd r Hwd) as [i Hi] end.
  assert (read_element StdWeekDay no_fields = λ s, option_map (λ '(_, s), (no_fields, s)) (lookup_name 0 shortDayNames s)) as -> by done.
  rewrite Hi. cbn [option_map read_element].
  rewrite skip_comma by (apply cutspace_digits; cbn; lia). cbn [option_map]. rewrite getnum_digits by lia. cbn [option_map].
  rewrite skip_space by by apply cutspace_month. cbn [option_map]. rewrite lookup_month by done. cbn [option_map].
  rewrite skip_space by (apply cutspace_digits; cbn; lia). cbn [option_map].
  rewrite take_year, drop_year, length_digits, str_all_digits by (cbn; lia). cbn [Nat.eqb andb]. rewrite digits_go_digits by (cbn; lia). rewrite Z.mul_0_l, Z.add_0_l.
  rewrite skip_space by (apply cutspace_digits; cbn; lia). cbn [option_map]. rewrite read_ranged by lia. cbn [option_map].
  rewrite skip_colon. cbn [option_map]. rewrite read_ranged by lia. cbn [option_map]. rewrite skip_colon. cbn [option_map]. rewrite read_ranged by lia.
  cbn -[civil_seconds days_in Z.add Z.sub Z.mul Z.leb is_leap]. 
  replace (m - 1 + 1) with m by lia. rewrite !(proj2 (Z.leb_le _ _)) by lia. cbn [andb]. f_equal.
  destruct (Hg (civil_seconds y m d h mi s - unix_epoch)) as [->| ->]; cbn [from_option id]; lia.
Qed.
