(* ===== verification/CacheTTL.v ===== *)
(** * CacheTTL: how long packages are cached

    Models [src/internal/config/global_config.go]: the lifetimes by pattern, type and
    metadata file, those that the headers of an answer ask for, and the life of a cache
    entry with its stale period.  A method that reads the clock takes the instant.
    [ttl_pattern_iff] says what a pattern matches, [header_ttl_bounds] that the limits
    are kept, [strategy_spec] what is done with an entry at every instant, and
    [no_store_is_stored] that an answer that must not be stored is cached like any other. *)

From Stdlib Require Import Ascii.
From S2P Require Import Prelude GoStrings GoConv GoTime GoTimeParse.

(** ** The settings *)

Record Cache := mkCache {
  TTL : Z; PackageTTLs : gmap string Z; PatternTTLs : gmap string Z; MetadataTTLs : gmap string Z; UseCacheHeaders : bool;
  MaxCacheHeaderTTL : Z; MinCacheHeaderTTL : Z; StaleWhileRevalidate : bool; StaleMaxAge : Z
}.

(** What YAML makes of a scalar. *)
Inductive scalar := SNil | SString (s : string) | SInt (z : Z) | SFloat (f : float64) | SOther.

(** [duration.Seconds()]. *)
Definition Seconds (d : duration) : float64 := fadd (of_int (Z.quot d second)) (fdiv (of_int (Z.rem d second)) (of_int 1000000000)).

Definition parseDurationOrInt (v : scalar) (defaultValue : Z) : Z :=
  match v with
  | SNil | SOther => defaultValue
  | SString s =>
      match ParseDuration s with
      | Some d => trunc (Seconds d)
      | None => match Atoi s with (i, None) => i | _ => defaultValue end
      end
  | SInt z => z
  | SFloat f => trunc f
  end.

(** The document before its durations are read. *)
Record cacheAlias := mkAlias {
  a_TTL : scalar; a_PackageTTLs : gmap string Z; a_PatternTTLs : gmap string Z; a_MetadataTTLs : gmap string Z; a_UseCacheHeaders : bool;
  a_MaxCacheHeaderTTL : scalar; a_MinCacheHeaderTTL : scalar; a_StaleWhileRevalidate : bool; a_StaleMaxAge : scalar
}.
Definition UnmarshalYAML (a : cacheAlias) : Cache :=
  mkCache (parseDurationOrInt (a_TTL a) 3600) (a_PackageTTLs a) (a_PatternTTLs a) (a_MetadataTTLs a) (a_UseCacheHeaders a)
    (parseDurationOrInt (a_MaxCacheHeaderTTL a) 86400) (parseDurationOrInt (a_MinCacheHeaderTTL a) 300) (a_StaleWhileRevalidate a)
    (parseDurationOrInt (a_StaleMaxAge a) 3600).

(** ** Lifetimes by package *)

Definition GetDefaultPackageTTLs : gmap string Z := list_to_map [
  ("apt", 3600); ("npm", 1800); ("pip", 2400); ("docker", 7200); ("maven", 5400);
  ("yum", 3600); ("apk", 1800); ("cargo", 3600); ("go", 1800); ("helm", 3600)]%string.

Definition positive (o : option Z) : option Z := match o with Some t => if 0 <? t then Some t else None | None => None end.

Definition GetTTLForPackageType (c : Cache) (packageType : string) : Z :=
  match positive (PackageTTLs c !! packageType) with
  | Some t => t
  | None =>
      match GetDefaultPackageTTLs !! packageType with
      | Some t => t
      | None => if 0 <? TTL c then TTL c else 3600
      end
  end.

(** The places where [substr] stands in [s], tried from [i] on. *)
Fixpoint index_from (i : Z) (s substr : string) : Z :=
  if HasPrefix s substr then i
  else match s with EmptyString => -1 | String _ s => index_from (i + 1) s substr end.
Definition indexOfSubstring (s substr : string) : Z :=
  if (String.length substr =? 0)%nat then 0
  else if (String.length s <? String.length substr)%nat then -1 else index_from 0 s substr.

Definition contains (s substr : string) : bool :=
  (String.length substr =? 0)%nat ||
  ((String.length substr <=? String.length s)%nat &&
     (String.eqb s substr ||
      ((String.length substr <? String.length s)%nat &&
         (HasPrefix s substr || HasSuffix s substr || (0 <=? indexOfSubstring s substr))))).

Definition matchesPattern (packageName pattern : string) : bool :=
  if String.eqb pattern "*" then true
  else if HasPrefix pattern "*-" then HasSuffix packageName (drop_bytes 2 pattern)
  else if HasSuffix pattern "-*" then HasPrefix packageName (TrimSuffix pattern "-*")
  else if (2 <=? String.length pattern)%nat && HasPrefix pattern "*" && HasSuffix pattern "*" then
    let substring := TrimSuffix (drop_bytes 1 pattern) "*" in
    (String.length substring =? 0)%nat || contains packageName substring
  else String.eqb packageName pattern.

(** [order]: the patterns as the map is gone through. *)
Definition GetTTLForPackage (c : Cache) (order : list (string * Z)) (packageName packageType : string) : Z :=
  match list_find (λ p, (0 <? p.2) && matchesPattern packageName p.1) order with
  | Some (_, (_, ttl)) => ttl
  | None => GetTTLForPackageType c packageType
  end.

Definition GetTTLForMetadata (c : Cache) (filename packageType : string) : Z :=
  match positive (MetadataTTLs c !! filename) with
  | Some t => t
  | None => let t := Z.quot (GetTTLForPackageType c packageType) 3 in if t <? 300 then 300 else t
  end.

(** ** Lifetimes by header *)

(** The number of a directive, when it is positive. *)
Definition directive_age (p directive : string) : option Z :=
  match Atoi (TrimPrefix directive p) with (n, None) => positive (Some n) | _ => None end.

Definition cache_directive (ages : Z * Z) (directive : string) : Z * Z :=
  let '(maxAge, sMaxAge) := ages in
  let directive := TrimSpace directive in
  if HasPrefix directive "s-maxage=" then (maxAge, default sMaxAge (directive_age "s-maxage=" directive))
  else if HasPrefix directive "max-age=" then (default maxAge (directive_age "max-age=" directive), sMaxAge)
  else ages.

Definition parseCacheControl (cacheControl : string) : Z :=
  let '(maxAge, sMaxAge) := foldl cache_directive (0, 0) (Split (to_lower cacheControl) ",") in
  if 0 <? sMaxAge then sMaxAge else maxAge.

Section headers.
(** What the local time zone knows of abbreviations, and the clock. *)
Context (local : string → Z → option Z) (now : instant).

(** The layouts are tried until one reads the text. *)
Fixpoint parse_first (layouts : list (list element)) (s : string) : option instant :=
  match layouts with
  | [] => None
  | l :: layouts => match Parse local l s with Some t => Some t | None => parse_first layouts s end
  end.
Definition parseExpires (expires : string) : Z :=
  match parse_first [RFC1123; RFC1123Z; RFC822; RFC822Z; RFC1123] expires with
  | Some t => let ttl := trunc (Seconds (time_sub t now)) in if 0 <? ttl then ttl else 0
  | None => 0
  end.

Definition min_ttl (c : Cache) : Z := if MinCacheHeaderTTL c <=? 0 then 300 else MinCacheHeaderTTL c.
Definition max_ttl (c : Cache) : Z := if MaxCacheHeaderTTL c <=? 0 then 86400 else MaxCacheHeaderTTL c.
Definition enforceTTLLimits (c : Cache) (ttl : Z) : Z :=
  if ttl <? min_ttl c then min_ttl c else if max_ttl c <? ttl then max_ttl c else ttl.

Definition GetTTLFromCacheHeaders (c : Cache) (cacheControl expires : string) : Z :=
  if negb (UseCacheHeaders c) then 0
  else
    let a := if String.eqb cacheControl EmptyString then 0 else parseCacheControl cacheControl in
    if 0 <? a then enforceTTLLimits c a
    else
      let e := if String.eqb expires EmptyString then 0 else parseExpires expires in
      if 0 <? e then enforceTTLLimits c e else 0.

Definition GetDynamicTTL (c : Cache) (order : list (string * Z)) (packageName packageType cacheControl expires : string) : Z :=
  let h := GetTTLFromCacheHeaders c cacheControl expires in
  if 0 <? h then h else GetTTLForPackage c order packageName packageType.
End headers.

(** ** Cache entries *)

Record CacheEntry := mkEntry { CachedAt : instant; e_TTL : Z; StaleUntil : instant }.

(** [time.Duration(n) * time.Second] wraps around. *)
Definition seconds_of (n : Z) : duration := wrap64 (n * second).
Definition expireTime (e : CacheEntry) : instant := time_add (CachedAt e) (seconds_of (e_TTL e)).

Definition IsFresh (now : instant) (e : CacheEntry) : bool := time_before now (expireTime e).
Definition IsStale (c : Cache) (now : instant) (e : CacheEntry) : bool :=
  if negb (StaleWhileRevalidate c) then false else time_after now (expireTime e) && time_before now (StaleUntil e).
Definition IsExpired (c : Cache) (now : instant) (e : CacheEntry) : bool :=
  if StaleWhileRevalidate c then time_after now (StaleUntil e) else time_after now (expireTime e).

Definition CreateCacheEntry (c : Cache) (now : instant) (ttl : Z) : CacheEntry :=
  if StaleWhileRevalidate c then
    let staleMaxAge := if StaleMaxAge c <=? 0 then 3600 else StaleMaxAge c in
    mkEntry now ttl (time_add now (seconds_of (wrap64 (ttl + staleMaxAge))))
  else mkEntry now ttl (time_add now (seconds_of ttl)).

(** The clock is read twice. *)
Definition ShouldRevalidate (c : Cache) (now now' : instant) (e : CacheEntry) : bool :=
  if negb (StaleWhileRevalidate c) then false else negb (IsFresh now e) && IsStale c now' e.

Inductive CacheStrategy := CacheStrategyServe | CacheStrategyStaleWhileRevalidate | CacheStrategyRevalidate.
Definition GetCacheStrategy (c : Cache) (now now' : instant) (e : CacheEntry) : CacheStrategy :=
  if IsFresh now e then CacheStrategyServe
  else if IsStale c now' e then CacheStrategyStaleWhileRevalidate else CacheStrategyRevalidate.

(** ** What a pattern matches *)

Lemma index_from_spec i s sub : 0 <= i → (0 <=? index_from i s sub) = Contains s sub.
Proof.
  revert i; induction s as [|c s IH]; intros i Hi; cbn [index_from Contains].
  - destruct sub; cbn; [by apply Z.leb_le|done].
  - unfold HasPrefix. destruct (String.prefix sub (String c s)); cbn [orb]; [by apply Z.leb_le|]. apply IH. lia.
Qed.

Lemma Contains_length s sub : Contains s sub = true → (String.length sub <= String.length s)%nat.
Proof. intros H. apply Contains_spec in H as (a & b & ->). rewrite !str_length_app. lia. Qed.

(** The search for a part of a name, with its special cases, finds exactly the parts
    that a name has. *)
Theorem contains_iff s sub : contains s sub = true ↔ ∃ a b, s = a +:+ (sub +:+ b).
Proof.
  rewrite <- Contains_spec. unfold contains. destruct (Nat.eqb_spec (String.length sub) 0) as [H0|H0].
  { destruct sub; [|done]. cbn [orb]. split; [|done]. intros _. by destruct s. }
  cbn [orb]. rewrite andb_true_iff, Nat.leb_le, orb_true_iff, andb_true_iff, !orb_true_iff, String.eqb_eq, Nat.ltb_lt.
  unfold indexOfSubstring. rewrite (proj2 (Nat.eqb_neq _ _) H0). split.
  - intros [Hle [->|[Hlt [[Hp|Hs]|Hi]]]].
    + apply Contains_spec. exists EmptyString, EmptyString. by rewrite str_app_nil_r.
    + apply Contains_spec. apply prefix_spec in Hp as [t ->]. by exists EmptyString, t.
    + apply Contains_spec. apply HasSuffix_spec in Hs as [a ->]. exists a, EmptyString. by rewrite str_app_nil_r.
    + rewrite (proj2 (Nat.ltb_ge _ _)) in Hi by lia. by rewrite index_from_spec in Hi.
  - intros H. pose proof (Contains_length s sub H) as Hl. split; [done|]. destruct (decide (String.length sub < String.length s)%nat).
    + right. split; [done|]. right. rewrite (proj2 (Nat.ltb_ge _ _)) by lia. by rewrite index_from_spec.
    + left. apply Contains_spec in H as (a & b & ->). rewrite !str_length_app in *. destruct a, b; cbn in *; try lia. by rewrite str_app_nil_r.
Qed.

(** What a pattern matches: a star alone everything, [*-x] the names that end in [x]
    and [x-*] those that start with [x], the dash not being asked for; [*x*] the names that
    have the part [x]; any other pattern itself.  The first of these forms decides, so that
    [*-x*] only matches names that end in a star. *)
Theorem ttl_pattern_iff name pattern :
  (pattern = "*"%string → matchesPattern name pattern = true) ∧
  (∀ x, pattern = "*-"%string +:+ x → (matchesPattern name pattern = true ↔ ∃ a, name = a +:+ x)) ∧
  (∀ x, pattern = x +:+ "-*" → HasPrefix pattern "*-" = false → (matchesPattern name pattern = true ↔ ∃ b, name = x +:+ b)) ∧
  (∀ x, pattern = "*"%string +:+ (x +:+ "*") → HasPrefix pattern "*-" = false → HasSuffix pattern "-*" = false →
     (matchesPattern name pattern = true ↔ ∃ a b, name = a +:+ (x +:+ b))) ∧
  (HasPrefix pattern "*-" = false → HasSuffix pattern "-*" = false → HasPrefix pattern "*" && HasSuffix pattern "*" = false →
     (matchesPattern name pattern = true ↔ name = pattern)).
Proof.
  unfold matchesPattern. split_and!.
  - intros ->. done.
  - intros x ->. destruct (String.eqb_spec ("*-" +:+ x) "*"); [done|]. change (HasPrefix ("*-" +:+ x) "*-") with (String.prefix "" x).
    rewrite (proj2 (prefix_spec _ _)) by by exists x. apply HasSuffix_spec.
  - intros x Hx Hp. rewrite Hp. destruct (String.eqb_spec pattern "*") as [E|_].
    { exfalso. rewrite E in Hx. apply (f_equal String.length) in Hx. rewrite str_length_app in Hx. cbn in Hx. lia. }
    subst. rewrite (proj2 (HasSuffix_spec _ _)) by by exists x. rewrite TrimSuffix_app. apply prefix_spec.
  - intros x -> Hp Hs. rewrite Hp, Hs. destruct (String.eqb_spec ("*" +:+ (x +:+ "*")) "*") as [E|_].
    { exfalso. apply (f_equal String.length) in E. rewrite !str_length_app in E. cbn in E. lia. }
    rewrite (proj2 (HasSuffix_spec ("*" +:+ (x +:+ "*")) "*")) by (exists ("*" +:+ x); by rewrite str_app_assoc).
    rewrite !str_length_app. cbn [String.length]. rewrite (proj2 (Nat.leb_le _ _)) by lia.
    assert (HasPrefix ("*" +:+ (x +:+ "*")) "*" = true) as -> by (apply prefix_spec; by eexists). cbn [andb].
    change (drop_bytes 1 ("*" +:+ (x +:+ "*"))) with (x +:+ "*"). rewrite TrimSuffix_app. rewrite orb_true_iff, contains_iff.
    split; [|auto]. intros [H|H]; [|done]. apply Nat.eqb_eq in H. destruct x; [|done]. by exists EmptyString, name.
  - intros Hp Hs Hb. rewrite Hp, Hs. destruct (String.eqb_spec pattern "*") as [->|]; [done|].
    rewrite <- andb_assoc, Hb, andb_false_r. apply String.eqb_eq.
Qed.

(** ** The limits *)

(** A lifetime taken from the headers lies between the limits, when they are in order;
    without a positive age there it is zero, and the lifetime of the package is used. *)
Theorem header_ttl_bounds local now c order name type cc expires : min_ttl c <= max_ttl c →
  let h := GetTTLFromCacheHeaders local now c cc expires in
  (h = 0 ∧ GetDynamicTTL local now c order name type cc expires = GetTTLForPackage c order name type) ∨
  (min_ttl c <= h <= max_ttl c ∧ UseCacheHeaders c = true ∧ GetDynamicTTL local now c order name type cc expires = h).
Proof.
  intros Hm h. unfold GetDynamicTTL. fold h.
  assert (0 < min_ttl c) as Hp by (unfold min_ttl; destruct (Z.leb_spec (MinCacheHeaderTTL c) 0); lia).
  assert (∀ t, min_ttl c <= enforceTTLLimits c t <= max_ttl c) as He.
  { intros t. unfold enforceTTLLimits. destruct (Z.ltb_spec t (min_ttl c)), (Z.ltb_spec (max_ttl c) t); lia. }
  assert (h = 0 ∨ UseCacheHeaders c = true ∧ min_ttl c <= h <= max_ttl c) as H.
  { unfold h, GetTTLFromCacheHeaders. destruct (UseCacheHeaders c); [|by left]. cbn [negb]. destruct (0 <? _); [by right|]. destruct (0 <? _); [by right|by left]. }
  destruct H as [->|[Hu H]]; [by left|right]. split; [done|]. split; [done|]. by rewrite (proj2 (Z.ltb_lt 0 h)) by lia.
Qed.

(** Every package has a positive lifetime, and every metadata file one of five minutes
    at least, unless one was configured for it. *)
Theorem lifetimes_positive c order name type file :
  0 < GetTTLForPackageType c type ∧ 0 < GetTTLForPackage c order name type ∧
  (positive (MetadataTTLs c !! file) = None → 300 <= GetTTLForMetadata c file type).
Proof.
  assert (0 < GetTTLForPackageType c type) as H.
  { unfold GetTTLForPackageType, positive. destruct (PackageTTLs c !! type) as [t|]; [destruct (Z.ltb_spec 0 t); [done|]|];
    (destruct (GetDefaultPackageTTLs !! type) as [d|] eqn:E; [|destruct (Z.ltb_spec 0 (TTL c)); lia]);
    apply elem_of_list_to_map_2 in E; rewrite !elem_of_cons in E; destruct_or! E; simplify_eq; try lia; by apply not_elem_of_nil in E. }
  split; [done|]. split.
  - unfold GetTTLForPackage. destruct (list_find _ order) as [[i [p t]]|] eqn:E; [|done].
    apply list_find_Some in E as (_ & Hp & _). apply Is_true_true, andb_true_iff in Hp as [Hp _]. by apply Z.ltb_lt in Hp.
  - intros Hn. unfold GetTTLForMetadata. rewrite Hn. destruct (Z.ltb_spec (Z.quot (GetTTLForPackageType c type) 3) 300); lia.
Qed.

(** ** Directives that forbid storing *)

Definition ageless (directive : string) : Prop :=
  directive_age "s-maxage=" (TrimSpace directive) = None ∧ directive_age "max-age=" (TrimSpace directive) = None.

Lemma ageless_directives ds : Forall ageless ds → foldl cache_directive (0, 0) ds = (0, 0).
Proof.
  intros H. induction H as [|d ds [H1 H2] _ IH]; [done|]. cbn [foldl]. rewrite <- IH at 2. f_equal. unfold cache_directive.
  rewrite H1, H2. cbn. by repeat case_match.
Qed.

(** An answer whose directives ask for no positive age, and that has no date of expiry,
    is kept for the lifetime of its package: so is one that says [no-store] or [private],
    or whose age is zero. *)
Theorem no_store_is_stored local now c order name type cc : Forall ageless (Split (to_lower cc) ",") →
  GetDynamicTTL local now c order name type cc EmptyString = GetTTLForPackage c order name type.
Proof.
  intros H. unfold GetDynamicTTL, GetTTLFromCacheHeaders, parseCacheControl. rewrite ageless_directives by done.
  destruct (UseCacheHeaders c); [|done]. by destruct (String.eqb cc EmptyString).
Qed.

(** ** The life of an entry *)

Definition in_time (n : Z) : Prop := 0 <= n <= 9223372036.
Lemma seconds_of_exact n : in_time n → seconds_of n = n * second.
Proof. unfold in_time, seconds_of. intros H. apply wrap64_id. unfold in_int64, min_int64, max_int64, second, millisecond. lia. Qed.

Definition stale_seconds (c : Cache) : Z := if StaleMaxAge c <=? 0 then 3600 else StaleMaxAge c.

(** An entry is served until its lifetime is over; where stale entries are allowed, it
    is served and revalidated after that, until the stale period is over; at the very
    moment its lifetime ends, and at all other times, it is revalidated first. *)
Theorem strategy_spec c created ttl now : in_time ttl → in_time (ttl + stale_seconds c) →
  let e := CreateCacheEntry c created ttl in let dies := created + ttl * second in
  GetCacheStrategy c now now e =
    (if now <? dies then CacheStrategyServe
     else if StaleWhileRevalidate c && (dies <? now) && (now <? dies + stale_seconds c * second) then CacheStrategyStaleWhileRevalidate
     else CacheStrategyRevalidate) ∧
  IsExpired c now e = (if StaleWhileRevalidate c then dies + stale_seconds c * second <? now else dies <? now) ∧
  (ShouldRevalidate c now now e = true ↔ GetCacheStrategy c now now e = CacheStrategyStaleWhileRevalidate).
Proof.
  intros Ht Hs e dies.
  assert (expireTime e = dies) as He.
  { unfold expireTime, time_add, e, CreateCacheEntry. destruct (StaleWhileRevalidate c); cbn; by rewrite seconds_of_exact. }
  assert (StaleWhileRevalidate c = true → StaleUntil e = dies + stale_seconds c * second) as Hu.
  { intros Hsw. unfold e, CreateCacheEntry. rewrite Hsw. cbn. fold (stale_seconds c).
    rewrite wrap64_id by (revert Hs; unfold in_time, in_int64, min_int64, max_int64; lia). rewrite seconds_of_exact by done. unfold time_add, dies. lia. }
  unfold GetCacheStrategy, ShouldRevalidate, IsExpired, IsFresh, IsStale, time_before, time_after. rewrite He.
  destruct (StaleWhileRevalidate c); cbn [negb andb]; [rewrite Hu by done|].
  - split; [done|]. split; [done|]. destruct (now <? dies), (dies <? now), (now <? dies + stale_seconds c * second); cbn; done.
  - split; [by destruct (now <? dies)|]. split; [done|]. by destruct (now <? dies).
Qed.

(** A lifetime that does not fit into a duration wraps around: an entry that is to live
    for three hundred years is never fresh. *)
Theorem huge_lifetime_is_over c created now : created <= now → IsFresh now (CreateCacheEntry c created (300 * 366 * 86400)) = false.
Proof.
  intros H. unfold IsFresh, time_before, expireTime, time_add, CreateCacheEntry.
  assert (seconds_of (300 * 366 * 86400) < 0) by (by vm_compute). destruct (StaleWhileRevalidate c); cbn [CachedAt e_TTL]; apply Z.ltb_ge; lia.
Qed.

(** ** Witnesses *)

Definition demo : Cache := mkCache 3600 ∅ ∅ ∅ true 86400 300 true 600.

Lemma header_ttl_bounds_witness : GetDynamicTTL no_zone 0 demo [] "left-pad" "npm" "public, max-age=600" EmptyString = 600.
Proof.
  destruct (header_ttl_bounds no_zone 0 demo [] "left-pad" "npm" "public, max-age=600" EmptyString ltac:(vm_compute; congruence)) as [[H _]|(_ & _ & H)].
  - vm_compute in H. discriminate.
  - rewrite H. vm_compute. reflexivity.
Defined.

Lemma no_store_is_stored_witness : GetDynamicTTL no_zone 0 demo [] "left-pad" "npm" "private, no-store, max-age=0" EmptyString = 1800.
Proof.
  rewrite (no_store_is_stored no_zone 0 demo [] "left-pad" "npm" "private, no-store, max-age=0"); [vm_compute; reflexivity|].
  replace (Split _ _) with ["private"; " no-store"; " max-age=0"]%string by (vm_compute; reflexivity).
  constructor; [split; vm_compute; reflexivity|]. constructor; [split; vm_compute; reflexivity|]. constructor; [split; vm_compute; reflexivity|]. constructor.
Defined.

Lemma strategy_spec_witness :
  GetCacheStrategy demo (3600 * second) (3600 * second) (CreateCacheEntry demo 0 3600) = CacheStrategyRevalidate.
Proof.
  rewrite (proj1 (strategy_spec demo 0 3600 (3600 * second) ltac:(unfold in_time; lia) ltac:(unfold in_time, stale_seconds; cbn; lia))).
  vm_compute. reflexivity.
Defined.

Lemma huge_lifetime_is_over_witness : IsFresh 5 (CreateCacheEntry demo 5 (300 * 366 * 86400)) = false.
Proof. apply (huge_lifetime_is_over demo 5 5). lia. Defined.
