(* ===== verification/AlpineMirrors.v ===== *)
(** * AlpineMirrors: which Alpine mirror is asked

    Models [src/internal/mirror/alpine_selector.go]: the health of the mirrors by name, the
    checks that change it, the score of a mirror in floating point as the code computes it,
    and the order in which mirrors are tried.  [sort.Slice], which is not stable, is any
    function that sorts; what a check meets is an argument, one check of a mirror being one
    step.  [SelectBestMirror_spec] is what a client can rely on, [health_after] when a
    mirror counts as down, [preferred_europe_loses] that a preferred region need not come
    first. *)

From Stdlib Require Import Ascii.
From Stdlib Require Import Sorting.Sorted.
From S2P Require Import Prelude GoStrings GoRegexp GoConv.

(** ** Data *)

Definition RegionKorea : string := "korea".
Definition RegionJapan : string := "japan".
Definition RegionChina : string := "china".
Definition RegionAsia : string := "asia".
Definition RegionOfficial : string := "official".
Definition RegionGlobal : string := "global".

Record AlpineVersion := mkVersion { Major : Z; Minor : Z; Version : string; IsEdge : bool }.

Record MirrorHealth := mkHealth {
  Name : string; URL : string; ResponseTime : duration; LastCheck : instant; IsHealthy : bool; ErrorCount : Z; Region : string; Priority : Z
}.

Record ApkProxy := mkProxy { p_Name : string; p_URL : string }.

Record AlpineMirrorConfig := mkConfig {
  HealthCheckInterval : duration; HealthCheckTimeout : duration; PreferredRegions : list string; FallbackToGlobal : bool;
  MaxErrorCount : Z; RegionDetectionMode : string
}.

(** [AlpineMirrorSelector]: the health by name; the ticker is left out. *)
Record AlpineMirrorSelector := mkSelector { mirrorHealth : gmap string MirrorHealth; lastUpdate : instant }.

(** ** The version in a path *)

Definition version_pattern : re :=
  RCat (ROpt (RLit "/"))
    (RCat (RGrp 1 (RAlt (RCat (RLit "v") (RCat (RPlus (RChar is_digit)) (RCat (RLit ".") (RPlus (RChar is_digit)))))
                        (RCat (RLit "e") (RCat (RLit "d") (RCat (RLit "g") (RLit "e"))))))
          (RLit "/")).

(** [FindStringSubmatch] of a pattern that is not anchored: the first place that matches. *)
Fixpoint find_submatch (r : re) (s : string) : option captures :=
  match rmatch r s ∅ (λ _ e, Some e) with
  | Some e => Some e
  | None => match s with String _ s => find_submatch r s | EmptyString => None end
  end.

(** [Sscanf] with [%d] of digits; what does not fit leaves zero. *)
Definition scan_int (s : string) : Z := match Atoi s with (n, None) => n | _ => 0 end.

Definition default_version : AlpineVersion := mkVersion 3 19 "v3.19" false.

Definition extractAlpineVersion (requestPath : string) : AlpineVersion :=
  match find_submatch version_pattern requestPath with
  | None => default_version
  | Some e =>
      let v := group e 1 in
      if String.eqb v "edge" then mkVersion 99 99 "edge" true
      else if HasPrefix v "v" then
        match Split (drop_bytes 1 v) "." with
        | a :: b :: _ => mkVersion (scan_int a) (scan_int b) v false
        | _ => default_version
        end
      else default_version
  end.

(** ** Regions and priorities *)

Definition any_of (s : string) (words : list string) : bool := existsb (Contains s) words.

Definition detectRegion (url : string) : string :=
  let u := to_lower url in
  if any_of u ["kakao.com"; "naver"; "korea"; ".kr"] then RegionKorea
  else if any_of u ["japan"; ".jp"; "riken"] then RegionJapan
  else if any_of u ["china"; ".cn"; "tsinghua"; "ustc"] then RegionChina
  else if any_of u ["asia"; "singapore"; ".sg"] then RegionAsia
  else if any_of u ["europe"; "dotsrc"; ".dk"; ".de"; ".uk"] then "europe"
  else if any_of u ["fastly"; "america"; ".us"] then "north_america"
  else if any_of u ["alpinelinux.org"; "dl-cdn"] then RegionOfficial
  else RegionGlobal.

Definition calculatePriority (region : string) (preferredRegions : list string) : Z :=
  match list_find (λ p, region = p) preferredRegions with
  | Some (i, _) => Z.of_nat i + 1
  | None =>
      if String.eqb region RegionKorea then 10
      else if String.eqb region RegionJapan || String.eqb region RegionAsia then 20
      else if String.eqb region RegionChina then 25
      else if String.eqb region RegionOfficial then 30
      else if String.eqb region "europe" then 40
      else if String.eqb region "north_america" then 50
      else 100
  end.

Definition detectClientRegion : string := RegionKorea.

(** ** Health *)

(** What a check meets: no answer, or an answer with its status after some time. *)
Inductive outcome := NoAnswer | Answer (status : Z) (responseTime : duration).

Definition healthURL (url : string) : string := TrimSuffix url "/" +:+ "/v3.19/main/x86_64/APKINDEX.tar.gz".

Definition recordMirrorError (now : instant) (m : MirrorHealth) : MirrorHealth :=
  let n := ErrorCount m + 1 in
  mkHealth (Name m) (URL m) 0 now (if 3 <=? n then false else IsHealthy m) n (Region m) (Priority m).

Definition checkMirrorHealth (c : AlpineMirrorConfig) (now : instant) (o : outcome) (m : MirrorHealth) : MirrorHealth :=
  match o with
  | NoAnswer => recordMirrorError now m
  | Answer status t =>
      if status =? 200 then mkHealth (Name m) (URL m) t now true 0 (Region m) (Priority m)
      else
        let n := ErrorCount m + 1 in
        mkHealth (Name m) (URL m) t now (if MaxErrorCount c <=? n then false else IsHealthy m) n (Region m) (Priority m)
  end.

(** All mirrors are checked, each with its outcome. *)
Definition performHealthCheck (c : AlpineMirrorConfig) (now : instant) (outcomes : string → outcome) (s : AlpineMirrorSelector) : AlpineMirrorSelector :=
  mkSelector (map_imap (λ n m, Some (checkMirrorHealth c now (outcomes n) m)) (mirrorHealth s)) now.

Definition with_defaults (c : AlpineMirrorConfig) : AlpineMirrorConfig :=
  mkConfig (if HealthCheckInterval c =? 0 then 5 * minute else HealthCheckInterval c)
    (if HealthCheckTimeout c =? 0 then 10 * second else HealthCheckTimeout c)
    (PreferredRegions c) (FallbackToGlobal c) (if MaxErrorCount c =? 0 then 3 else MaxErrorCount c) (RegionDetectionMode c).

Definition init_mirror (c : AlpineMirrorConfig) (p : ApkProxy) : MirrorHealth :=
  let region := detectRegion (p_URL p) in
  mkHealth (p_Name p) (p_URL p) 0 zero_time true 0 region (calculatePriority region (PreferredRegions c)).

(** [Start], up to the ticker. *)
Definition Start (c : AlpineMirrorConfig) (proxies : list ApkProxy) (now : instant) (outcomes : string → outcome) (s : AlpineMirrorSelector)
    : AlpineMirrorSelector :=
  let c := with_defaults c in
  performHealthCheck c now outcomes
    (mkSelector (foldl (λ m p, <[p_Name p := init_mirror c p]> m) (mirrorHealth s) proxies) (lastUpdate s)).

Definition GetMirrorHealth (s : AlpineMirrorSelector) : gmap string MirrorHealth := mirrorHealth s.

Record HealthStats := mkStats { total_mirrors : Z; healthy_mirrors : Z; unhealthy_mirrors : Z; health_rate : float64; avg_response_time : duration; last_update : instant }.

Definition GetHealthStats (s : AlpineMirrorSelector) : HealthStats :=
  let ms := (map_to_list (mirrorHealth s)).*2 in
  let total := Z.of_nat (length ms) in
  let healthy := Z.of_nat (length (filter (λ m, IsHealthy m = true) ms)) in
  let times := filter (λ t, 0 < t) (ResponseTime <$> ms) in
  mkStats total healthy (total - healthy) (fmul (fdiv (of_int healthy) (of_int total)) (of_int 100))
    (match times with [] => 0 | _ => Z.quot (wrap64 (foldr Z.add 0 times)) (Z.of_nat (length times)) end) (lastUpdate s).

(** ** Scores *)

Definition calculateRegionScore (mirrorRegion clientRegion : string) : float64 :=
  of_int
    (if String.eqb mirrorRegion clientRegion then 30
     else if String.eqb clientRegion RegionKorea then
       if String.eqb mirrorRegion RegionJapan || String.eqb mirrorRegion RegionAsia then 25
       else if String.eqb mirrorRegion RegionChina then 20
       else if String.eqb mirrorRegion RegionOfficial then 15
       else if String.eqb mirrorRegion RegionGlobal then 10 else 5
     else if String.eqb mirrorRegion RegionOfficial then 20
     else if String.eqb mirrorRegion RegionGlobal then 15 else 10).

Definition at_least_zero (f : float64) : float64 := if flt f (of_int 0) then of_int 0 else f.

Definition responseScore (t : duration) : float64 := at_least_zero (fsub (of_int 30) (fdiv (of_int (Z.quot t millisecond)) (of_int 100))).

Definition score_of (m : MirrorHealth) (clientRegion : string) : float64 :=
  let s := of_int 100 in
  let s := if IsHealthy m then s else fsub s (of_int 50) in
  let s := if 0 <? ResponseTime m then fadd s (responseScore (ResponseTime m)) else s in
  let s := fadd s (calculateRegionScore (Region m) clientRegion) in
  let s := fadd s (at_least_zero (fsub (of_int 20) (of_int (Priority m)))) in
  at_least_zero (fsub s (fmul (of_int (ErrorCount m)) (of_int 5))).

Definition calculateMirrorScore (s : AlpineMirrorSelector) (p : ApkProxy) (_ : AlpineVersion) (clientRegion : string) : float64 :=
  match mirrorHealth s !! p_Name p with None => of_int 50 | Some m => score_of m clientRegion end.

(** ** Selection *)

Definition getHealthyMirrors (s : AlpineMirrorSelector) (proxies : list ApkProxy) : list ApkProxy :=
  filter (λ p, from_option IsHealthy true (mirrorHealth s !! p_Name p) = true) proxies.

(** ** The order of numbers *)

(** A number that is not NaN as a triple of integers, in the order of [SFcompare]. *)
Definition float_key (f : float64) : Z * Z * Z :=
  match f with
  | S754_zero _ => (0, 0, 0)
  | S754_infinity s => (if s then -2 else 2, 0, 0)
  | S754_nan => (3, 0, 0)
  | S754_finite true m e => (-1, - e, - Zpos m)
  | S754_finite false m e => (1, e, Zpos m)
  end.
Definition is_number (f : float64) : bool := match f with S754_nan => false | _ => true end.
Definition key_lt (a b : Z * Z * Z) : Prop :=
  a.1.1 < b.1.1 ∨ a.1.1 = b.1.1 ∧ (a.1.2 < b.1.2 ∨ a.1.2 = b.1.2 ∧ a.2 < b.2).

Lemma flt_key a b : is_number a = true → is_number b = true → (flt a b = true ↔ key_lt (float_key a) (float_key b)).
Proof.
  unfold flt, SFltb, key_lt. destruct a as [s|s| |s m e], b as [s'|s'| |s' m' e']; try done; intros _ _; cbn.
  all: try (destruct s); try (destruct s'); cbn; try (split; [done|lia]); try (split; [lia|done]).
  - destruct (Z.compare_spec e e'); cbn; [|split; [done|lia]|split; [lia|done]].
    change (Pos.compare_cont Eq m m') with (m ?= m')%positive. destruct (Pos.compare_spec m m'); cbn; (split; [done || lia|done || lia]).
  - destruct (Z.compare_spec e e'); cbn; [|split; [lia|done]|split; [done|lia]].
    change (Pos.compare_cont Eq m m') with (m ?= m')%positive. destruct (Pos.compare_spec m m'); cbn; (split; [done || lia|done || lia]).
Qed.

Lemma flt_trans a b c : is_number a = true → is_number b = true → is_number c = true → flt a b = true → flt b c = true → flt a c = true.
Proof. intros Ha Hb Hc. rewrite !flt_key by done. unfold key_lt. lia. Qed.
Lemma flt_irrefl a : is_number a = true → flt a a = false.
Proof. intros Ha. rewrite <- not_true_iff_false, flt_key by done. unfold key_lt. lia. Qed.
Lemma flt_negtrans a b c : is_number a = true → is_number b = true → is_number c = true → flt a b = false → flt b c = false → flt a c = false.
Proof.
  intros Ha Hb Hc. rewrite <- !not_true_iff_false, !flt_key by done. unfold key_lt. lia.
Qed.

Section selection.
(** [sort.Slice], given the comparison. *)
Context (sort : ∀ A, (A → A → bool) → list A → list A).
Hypothesis sort_perm : ∀ A less (l : list A), sort A less l ≡ₚ l.
Hypothesis sort_sorted : ∀ A (less : A → A → bool) (l : list A),
  (∀ x, x ∈ l → less x x = false) →
  (∀ x y z, x ∈ l → y ∈ l → z ∈ l → less x y = true → less y z = true → less x z = true) →
  (∀ x y z, x ∈ l → y ∈ l → z ∈ l → less x y = false → less y z = false → less x z = false) →
  StronglySorted (λ x y, less y x = false) (sort A less l).

Definition rankMirrors (s : AlpineMirrorSelector) (proxies : list ApkProxy) (version : AlpineVersion) (clientRegion : string) : list ApkProxy :=
  (sort _ (λ x y : ApkProxy * float64, flt y.2 x.2) ((λ p, (p, calculateMirrorScore s p version clientRegion)) <$> proxies)).*1.

Definition SelectBestMirror (s : AlpineMirrorSelector) (requestPath : string) (proxies : list ApkProxy) : list ApkProxy :=
  match getHealthyMirrors s proxies with
  | [] => proxies
  | healthy => rankMirrors s healthy (extractAlpineVersion requestPath) detectClientRegion
  end.

(** The mirrors that may be asked have scores that are numbers. *)
Definition scored (s : AlpineMirrorSelector) (proxies : list ApkProxy) : Prop :=
  ∀ p, p ∈ proxies → is_number (calculateMirrorScore s p default_version detectClientRegion) = true.

(** Among the mirrors of the configuration that are not known to be down, or all of them
    when every one is down, the selection only chooses the order: none is lost or added,
    whatever the path, and no mirror comes before one with a higher score. *)
Theorem SelectBestMirror_spec s path proxies : scored s proxies →
  let l := SelectBestMirror s path proxies in
  let healthy := getHealthyMirrors s proxies in
  (healthy = [] → l = proxies) ∧
  (healthy ≠ [] → l ≡ₚ healthy ∧
     StronglySorted (λ x y, flt (calculateMirrorScore s x default_version detectClientRegion) (calculateMirrorScore s y default_version detectClientRegion) = false) l) ∧
  (proxies ≠ [] → l ≠ []) ∧ (∀ path', SelectBestMirror s path' proxies = l).
Proof.
  intros Hn l healthy. unfold l, SelectBestMirror. fold healthy.
  assert (∀ v, rankMirrors s healthy v detectClientRegion = rankMirrors s healthy default_version detectClientRegion) as Hv by done.
  assert (rankMirrors s healthy default_version detectClientRegion ≡ₚ healthy) as Hp.
  { unfold rankMirrors. rewrite sort_perm. rewrite <- list_fmap_compose. cbn. by rewrite list_fmap_id. }
  split_and!.
  - by intros ->.
  - intros Hh. destruct healthy as [|p ps] eqn:E; [done|]. rewrite Hv. split; [done|]. unfold rankMirrors.
    set (sc := λ p, calculateMirrorScore s p default_version detectClientRegion).
    change (λ p, (p, calculateMirrorScore s p default_version detectClientRegion)) with (λ p, (p, sc p)).
    assert (∀ x, x ∈ (λ p, (p, sc p)) <$> p :: ps → x.2 = sc x.1 ∧ is_number x.2 = true) as Hx.
    { intros x Hx. apply list_elem_of_fmap in Hx as (q & -> & Hq). split; [done|]. apply Hn. rewrite <- E in Hq. by apply list_elem_of_filter in Hq as [_ Hq]. }
    assert (StronglySorted (λ x y : ApkProxy * float64, flt x.2 y.2 = false) (sort _ (λ x y, flt y.2 x.2) ((λ p, (p, sc p)) <$> p :: ps))) as Hs.
    { apply sort_sorted.
      - intros x Hin. apply flt_irrefl. by apply Hx.
      - intros x y z H1 H2 H3 Hxy Hyz. apply (flt_trans _ y.2); try done; by apply Hx.
      - intros x y z H1 H2 H3 Hxy Hyz. apply (flt_negtrans _ y.2); try done; by apply Hx. }
    revert Hs. generalize (sort_perm _ (λ x y : ApkProxy * float64, flt y.2 x.2) ((λ p, (p, sc p)) <$> p :: ps)).
    generalize (sort _ (λ x y : ApkProxy * float64, flt y.2 x.2) ((λ p, (p, sc p)) <$> p :: ps)). intros xs Hpx Hs.
    assert (∀ x, x ∈ xs → x.2 = sc x.1) as Hx' by (intros x Hin; rewrite Hpx in Hin; by apply Hx).
    clear Hpx. induction Hs as [|x xs Hs IH Hf]; [constructor|]. cbn. constructor; [apply IH; intros; apply Hx'; by right|].
    apply list.Forall_forall. intros y Hy. pose proof (proj1 (list.Forall_forall _ _) Hf) as Hf'. apply list_elem_of_fmap in Hy as (z & -> & Hz).
    specialize (Hf' z Hz). cbn beta in Hf'. rewrite (Hx' x), (Hx' z) in Hf' by (by left || by right). done.
  - intros Hne Hl. destruct healthy as [|p ps] eqn:E; [done|]. rewrite Hv in Hl. rewrite Hl in Hp. by apply Permutation_nil_cons in Hp.
  - intros path'. done.
Qed.
End selection.

(** ** When a mirror counts as down *)

(** The number of failures up to which a mirror that meets this failure is kept. *)
Definition tolerated (c : AlpineMirrorConfig) (o : outcome) : Z := match o with NoAnswer => 3 | Answer _ _ => MaxErrorCount c end.
Definition is_failure (o : outcome) : bool := match o with NoAnswer => true | Answer status _ => negb (status =? 200) end.

Definition check_all (c : AlpineMirrorConfig) (m : MirrorHealth) (os : list (instant * outcome)) : MirrorHealth :=
  foldl (λ m o, checkMirrorHealth c o.1 o.2 m) m os.

(** Whether all failures stay below what they tolerate, counted from [n]. *)
Fixpoint all_tolerated (c : AlpineMirrorConfig) (n : Z) (os : list outcome) : bool :=
  match os with [] => true | o :: os => (n + 1 <? tolerated c o) && all_tolerated c (n + 1) os end.

Lemma failures_counted c m os : Forall (λ o, is_failure o.2 = true) os →
  ErrorCount (check_all c m os) = ErrorCount m + Z.of_nat (length os) ∧
  IsHealthy (check_all c m os) = IsHealthy m && all_tolerated c (ErrorCount m) os.*2.
Proof.
  intros H. revert m. induction H as [|[t o] os Ho _ IH]; intros m; [cbn; rewrite andb_true_r; split; [lia|done]|].
  change (check_all c m ((t, o) :: os)) with (check_all c (checkMirrorHealth c t o m) os). destruct (IH (checkMirrorHealth c t o m)) as [-> ->].
  assert (ErrorCount (checkMirrorHealth c t o m) = ErrorCount m + 1 ∧ IsHealthy (checkMirrorHealth c t o m) = (ErrorCount m + 1 <? tolerated c o) && IsHealthy m) as [-> ->].
  { unfold checkMirrorHealth, recordMirrorError. cbn in Ho. destruct o as [|st r]; cbn in *; [|apply negb_true_iff in Ho; rewrite Ho; cbn]; (split; [done|]).
    - destruct (Z.leb_spec 3 (ErrorCount m + 1)), (Z.ltb_spec (ErrorCount m + 1) 3); done || lia.
    - destruct (Z.leb_spec (MaxErrorCount c) (ErrorCount m + 1)), (Z.ltb_spec (ErrorCount m + 1) (MaxErrorCount c)); done || lia. }
  split; [cbn [length]; lia|]. cbn. destruct (_ <? _), (IsHealthy m); cbn; done.
Qed.

(** After a check that succeeded, a mirror is healthy exactly as long as the failures
    since then are tolerated: three of them when it does not answer, whatever the
    configuration says, and the configured number when it answers with an error. *)
Theorem health_after c m t r failures : Forall (λ o, is_failure o.2 = true) failures →
  let m' := check_all c m ((t, Answer 200 r) :: failures) in
  ErrorCount m' = Z.of_nat (length failures) ∧ IsHealthy m' = all_tolerated c 0 failures.*2.
Proof. intros H m'. exact (failures_counted c (checkMirrorHealth c t (Answer 200 r) m) failures H). Qed.

(** The configured number does not hold for mirrors that do not answer: with a maximum
    of ten a mirror is down after three refused connections, and with a maximum of one it
    is still up after two. *)
Theorem silent_mirrors_get_three m t r k c :
  IsHealthy (check_all c m ((t, Answer 200 r) :: replicate k (t, NoAnswer))) = (k <? 3)%nat.
Proof.
  assert (Forall (λ o : instant * outcome, is_failure o.2 = true) (replicate k (t, NoAnswer))) as H by by apply Forall_replicate.
  cbn [check_all foldl fst snd]. destruct (failures_counted c (checkMirrorHealth c t (Answer 200 r) m) _ H) as [_ E].
  transitivity (all_tolerated c 0 ((replicate k (t, NoAnswer)).*2)); [exact E|]. rewrite fmap_replicate. cbn.
  do 3 (destruct k as [|k]; [done|]). cbn. done.
Qed.

(** ** Preferences *)

(** A mirror that was never reached, but is not down. *)
Definition quiet (name region : string) (preferred : list string) : MirrorHealth :=
  mkHealth name name 0 zero_time true 0 region (calculatePriority region preferred).

(** Every client counts as Korean, so that a Korean mirror comes before an equally fast
    mirror of Europe or North America although the configuration prefers those regions; a
    preferred mirror of Japan comes before it. *)
Theorem preferred_europe_loses :
  flt (score_of (quiet "e" "europe" ["europe"]) detectClientRegion) (score_of (quiet "k" RegionKorea ["europe"]) detectClientRegion) = true ∧
  flt (score_of (quiet "n" "north_america" ["north_america"]) detectClientRegion) (score_of (quiet "k" RegionKorea ["north_america"]) detectClientRegion) = true ∧
  flt (score_of (quiet "k" RegionKorea [RegionJapan]) detectClientRegion) (score_of (quiet "j" RegionJapan [RegionJapan]) detectClientRegion) = true.
Proof. by vm_compute. Qed.

(** A host of the domain [dev] counts as European. *)
Example region_ex : detectRegion "https://mirror.example.dev/alpine" = "europe"%string ∧ detectRegion "https://dl-cdn.alpinelinux.org/alpine" = RegionOfficial.
Proof. by vm_compute. Qed.

Example version_ex : extractAlpineVersion "/alpine/v3.18/main/x86_64/APKINDEX.tar.gz" = mkVersion 3 18 "v3.18" false ∧
  extractAlpineVersion "edge/community" = mkVersion 99 99 "edge" true ∧ extractAlpineVersion "/alpine/latest-stable/main" = default_version.
Proof. by vm_compute. Qed.

(** ** Witnesses *)

(** A function that sorts. *)
Fixpoint insert_by {A} (less : A → A → bool) (x : A) (l : list A) : list A :=
  match l with [] => [x] | y :: l' => if less x y then x :: y :: l' else y :: insert_by less x l' end.
Fixpoint insertion_sort A (less : A → A → bool) (l : list A) : list A :=
  match l with [] => [] | x :: l => insert_by less x (insertion_sort A less l) end.

Lemma insert_by_perm {A} (less : A → A → bool) x l : insert_by less x l ≡ₚ x :: l.
Proof. induction l as [|y l IH]; [done|]. cbn. destruct (less x y); [done|]. rewrite IH. apply Permutation_swap. Qed.
Lemma insertion_sort_perm A (less : A → A → bool) l : insertion_sort A less l ≡ₚ l.
Proof. induction l as [|x l IH]; [done|]. cbn. by rewrite insert_by_perm, IH. Qed.

Lemma insertion_sort_sorted A (less : A → A → bool) l :
  (∀ x, x ∈ l → less x x = false) → (∀ x y z, x ∈ l → y ∈ l → z ∈ l → less x y = true → less y z = true → less x z = true) →
  (∀ x y z, x ∈ l → y ∈ l → z ∈ l → less x y = false → less y z = false → less x z = false) →
  StronglySorted (λ x y, less y x = false) (insertion_sort A less l).
Proof.
  intros Hi Ht _. induction l as [|x l IH]; [constructor|]. cbn.
  assert (StronglySorted (λ x y, less y x = false) (insertion_sort A less l)) as Hs.
  { apply IH; [intros; apply Hi; by right|]. intros a b c Ha Hb Hc. apply Ht; by right. }
  assert (∀ y, y ∈ insertion_sort A less l → y ∈ x :: l) as Hin by (intros y; rewrite insertion_sort_perm; by right).
  revert Hin Hs. generalize (insertion_sort A less l). intros ys Hin Hs. induction Hs as [|y ys Hs IHs Hf]; [by repeat constructor|].
  pose proof (proj1 (list.Forall_forall _ _) Hf) as Hf'. cbn. destruct (less x y) eqn:E.
  - constructor; [by constructor|]. apply list.Forall_forall. intros z Hz. apply not_true_iff_false. intros Hzx.
    apply elem_of_cons in Hz as [->|Hz].
    + assert (less x x = true) as H; [apply (Ht x y x); try done; try (by left); apply Hin; by left|]. rewrite Hi in H; [done|by left].
    + assert (less z y = true) as H; [apply (Ht z x y); try done; [apply Hin; by right|by left|apply Hin; by left]|]. by rewrite (Hf' z Hz) in H.
  - constructor; [apply IHs; intros; apply Hin; by right|]. apply list.Forall_forall. intros z Hz. rewrite insert_by_perm in Hz.
    apply elem_of_cons in Hz as [->|Hz]; [done|]. by apply Hf'.
Qed.

Definition two_mirrors : list ApkProxy := [mkProxy "cdn" "https://dl-cdn.alpinelinux.org/alpine"; mkProxy "kakao" "https://mirror.kakao.com/alpine"].
Definition checked : AlpineMirrorSelector :=
  Start (mkConfig 0 0 [] true 0 "auto") two_mirrors 0 (λ _, Answer 200 (200 * millisecond)) (mkSelector ∅ zero_time).

Lemma SelectBestMirror_spec_witness : SelectBestMirror insertion_sort checked "/v3.19/main" two_mirrors ≠ [].
Proof.
  apply (SelectBestMirror_spec insertion_sort insertion_sort_perm insertion_sort_sorted checked "/v3.19/main" two_mirrors); [|done].
  intros p Hp. unfold two_mirrors in Hp. rewrite !elem_of_cons in Hp. destruct_or! Hp; subst; [by vm_compute..|by apply not_elem_of_nil in Hp].
Defined.

Lemma health_after_witness :
  let m := quiet "cdn" RegionOfficial [] in
  IsHealthy (check_all (mkConfig 0 0 [] true 1 "auto") m [(0, Answer 200 5); (1, NoAnswer); (2, Answer 503 5)]) = false.
Proof. intros m. apply (health_after (mkConfig 0 0 [] true 1 "auto") m 0 5 [(1, NoAnswer); (2, Answer 503 5)]). by repeat constructor. Defined.
