(* ===== verification/AuditLog.v ===== *)
(** * AuditLog: audit events, their log and its rotation

    Models [src/internal/auth/audit].  The builder changes one event in place; since it is
    written once, at the end, an operation is a function on the event, whose identifier and
    time are arguments: [built_event_ok] is the invariant of every chain of calls,
    [risk_never_lowered] says which operations never lower the risk and [bot_lowers_risk]
    that one does.

    Of the service, the buffer is the channel, [writer] is where [processEvents] stands,
    [rotations] counts the goroutines that a full file has started, and [files] is the
    directory of the log.  A step is one critical section, or one receive, of one goroutine;
    what the system calls answer is part of the step.  [json.Marshal] is a parameter.
    [events_in_order] says what becomes of the events; [rotation_keeps_text] and the two
    theorems after it say what a rotation does, when it works and when it does not. *)

From Stdlib Require Import Ascii.
From S2P Require Import Prelude GoStrings GoText GoConv GoTime GoPath.

(** ** Events *)

Notation AuditLevel := string (only parsing).
Definition LevelInfo : AuditLevel := "info".
Definition LevelWarning : AuditLevel := "warning".
Definition LevelCritical : AuditLevel := "critical".
Definition LevelSecurity : AuditLevel := "security".

Notation AuditEventType := string (only parsing).
Definition EventAuthzPermission : AuditEventType := "authz.permission".
Definition EventAuthzDenied : AuditEventType := "authz.denied".

(** What a detail can hold. *)
Inductive detail := DText (s : string) | DInt (z : Z) | DFloat (f : float64) | DOther.

Record AuditEvent := mkEvent {
  ID : string; Timestamp : instant; Level : AuditLevel; EventType : AuditEventType; Message : string;
  UserID : string; UserEmail : string; SessionID : string; ClientIP : string; UserAgent : string; RequestID : string;
  Resource : string; Action : string; Result : string; Details : gmap string detail; RiskScore : Z; ThreatLevel : string;
  Source : string; Tags : list string
}.

Definition NewAuditEventBuilder (id : string) (now : instant) (eventType : AuditEventType) (level : AuditLevel) (message : string) : AuditEvent :=
  mkEvent id now level eventType message EmptyString EmptyString EmptyString EmptyString EmptyString EmptyString EmptyString EmptyString EmptyString ∅ 0 EmptyString "proxynd" [].

(** [generateEventID]: the hexadecimal digits of eight random bytes, or the time. *)
Definition generateEventID (random : option string) (nanos : Z) : string :=
  "evt_" +:+ match random with Some hex => hex | None => Itoa nanos end.

(** ** The fields *)

Definition WithUser (userID userEmail : string) (e : AuditEvent) : AuditEvent :=
  mkEvent (ID e) (Timestamp e) (Level e) (EventType e) (Message e) userID userEmail (SessionID e) (ClientIP e) (UserAgent e) (RequestID e)
    (Resource e) (Action e) (Result e) (Details e) (RiskScore e) (ThreatLevel e) (Source e) (Tags e).
Definition WithSession (sessionID : string) (e : AuditEvent) : AuditEvent :=
  mkEvent (ID e) (Timestamp e) (Level e) (EventType e) (Message e) (UserID e) (UserEmail e) sessionID (ClientIP e) (UserAgent e) (RequestID e)
    (Resource e) (Action e) (Result e) (Details e) (RiskScore e) (ThreatLevel e) (Source e) (Tags e).
Definition WithClient (clientIP userAgent : string) (e : AuditEvent) : AuditEvent :=
  mkEvent (ID e) (Timestamp e) (Level e) (EventType e) (Message e) (UserID e) (UserEmail e) (SessionID e) clientIP userAgent (RequestID e)
    (Resource e) (Action e) (Result e) (Details e) (RiskScore e) (ThreatLevel e) (Source e) (Tags e).
Definition WithRequest (requestID : string) (e : AuditEvent) : AuditEvent :=
  mkEvent (ID e) (Timestamp e) (Level e) (EventType e) (Message e) (UserID e) (UserEmail e) (SessionID e) (ClientIP e) (UserAgent e) requestID
    (Resource e) (Action e) (Result e) (Details e) (RiskScore e) (ThreatLevel e) (Source e) (Tags e).
Definition WithResource (resource : string) (e : AuditEvent) : AuditEvent :=
  mkEvent (ID e) (Timestamp e) (Level e) (EventType e) (Message e) (UserID e) (UserEmail e) (SessionID e) (ClientIP e) (UserAgent e) (RequestID e)
    resource (Action e) (Result e) (Details e) (RiskScore e) (ThreatLevel e) (Source e) (Tags e).
Definition WithAction (action : string) (e : AuditEvent) : AuditEvent :=
  mkEvent (ID e) (Timestamp e) (Level e) (EventType e) (Message e) (UserID e) (UserEmail e) (SessionID e) (ClientIP e) (UserAgent e) (RequestID e)
    (Resource e) action (Result e) (Details e) (RiskScore e) (ThreatLevel e) (Source e) (Tags e).
Definition WithResult (result : string) (e : AuditEvent) : AuditEvent :=
  mkEvent (ID e) (Timestamp e) (Level e) (EventType e) (Message e) (UserID e) (UserEmail e) (SessionID e) (ClientIP e) (UserAgent e) (RequestID e)
    (Resource e) (Action e) result (Details e) (RiskScore e) (ThreatLevel e) (Source e) (Tags e).
Definition set_details (d : gmap string detail) (e : AuditEvent) : AuditEvent :=
  mkEvent (ID e) (Timestamp e) (Level e) (EventType e) (Message e) (UserID e) (UserEmail e) (SessionID e) (ClientIP e) (UserAgent e) (RequestID e)
    (Resource e) (Action e) (Result e) d (RiskScore e) (ThreatLevel e) (Source e) (Tags e).
Definition set_risk (score : Z) (threat : string) (e : AuditEvent) : AuditEvent :=
  mkEvent (ID e) (Timestamp e) (Level e) (EventType e) (Message e) (UserID e) (UserEmail e) (SessionID e) (ClientIP e) (UserAgent e) (RequestID e)
    (Resource e) (Action e) (Result e) (Details e) score threat (Source e) (Tags e).
Definition WithSource (source : string) (e : AuditEvent) : AuditEvent :=
  mkEvent (ID e) (Timestamp e) (Level e) (EventType e) (Message e) (UserID e) (UserEmail e) (SessionID e) (ClientIP e) (UserAgent e) (RequestID e)
    (Resource e) (Action e) (Result e) (Details e) (RiskScore e) (ThreatLevel e) source (Tags e).
Definition set_tags (tags : list string) (e : AuditEvent) : AuditEvent :=
  mkEvent (ID e) (Timestamp e) (Level e) (EventType e) (Message e) (UserID e) (UserEmail e) (SessionID e) (ClientIP e) (UserAgent e) (RequestID e)
    (Resource e) (Action e) (Result e) (Details e) (RiskScore e) (ThreatLevel e) (Source e) tags.

Definition WithDetail (key : string) (v : detail) (e : AuditEvent) : AuditEvent := set_details (<[key := v]> (Details e)) e.
Definition WithDetails (details : gmap string detail) (e : AuditEvent) : AuditEvent := set_details (details ∪ Details e) e.

(** ** Risk and tags *)

Definition threat_of (score : Z) : string :=
  if 80 <=? score then "critical" else if 60 <=? score then "high" else if 40 <=? score then "medium" else "low".

Definition WithRiskScore (score : Z) (e : AuditEvent) : AuditEvent :=
  let score := if score <? 0 then 0 else if 100 <? score then 100 else score in set_risk score (threat_of score) e.

Definition WithThreatLevel (level : string) (e : AuditEvent) : AuditEvent :=
  let level := to_lower level in
  if existsb (String.eqb level) ["low"; "medium"; "high"; "critical"]%string then set_risk (RiskScore e) level e else e.

Definition WithTag (tag : string) (e : AuditEvent) : AuditEvent :=
  if negb (String.eqb tag EmptyString) && negb (existsb (String.eqb tag) (Tags e)) then set_tags (Tags e ++ [tag]) e else e.
Definition WithTags (tags : list string) (e : AuditEvent) : AuditEvent := foldl (λ e t, WithTag t e) e tags.

Definition WithError (err : option string) (e : AuditEvent) : AuditEvent :=
  match err with Some m => WithTag "error" (WithDetail "error" (DText m) e) | None => e end.
Definition WithDuration (d : duration) (e : AuditEvent) : AuditEvent := WithDetail "duration_ms" (DInt (Z.quot d millisecond)) e.
Definition WithIP (ipType ip : string) (e : AuditEvent) : AuditEvent := WithDetail (ipType +:+ "_ip") (DText ip) e.

Definition set_agent (userAgent : string) (e : AuditEvent) : AuditEvent := WithClient (ClientIP e) userAgent e.

Definition WithUserAgentDetails (userAgent : string) (e : AuditEvent) : AuditEvent :=
  let e := set_agent userAgent e in
  if String.eqb userAgent EmptyString then e
  else
    let e := WithDetail "user_agent_full" (DText userAgent) e in
    let ua := to_lower userAgent in
    let e := if existsb (Contains ua) ["bot"; "crawler"; "spider"; "scraper"; "scanner"]%string then WithRiskScore 30 (WithTag "bot" e) else e in
    if existsb (Contains ua) ["curl"; "wget"; "python"; "go-http"; "postman"]%string then WithTag "automated" e else e.

Definition WithHTTPMethod (method : string) (e : AuditEvent) : AuditEvent :=
  let e := WithDetail "http_method" (DText method) e in
  if existsb (String.eqb (to_upper method)) ["DELETE"; "PUT"; "PATCH"]%string then WithTag "write_operation" e else e.

Definition WithStatusCode (code : Z) (e : AuditEvent) : AuditEvent :=
  let e := WithDetail "status_code" (DInt code) e in
  if 400 <=? code then WithTag (if 500 <=? code then "server_error" else "client_error") (WithTag "error_response" e) else e.

Definition WithFileInfo (filename : string) (size : Z) (checksum : string) (e : AuditEvent) : AuditEvent :=
  let e := WithDetail "file_size" (DInt size) (WithDetail "filename" (DText filename) e) in
  if String.eqb checksum EmptyString then e else WithDetail "checksum" (DText checksum) e.

Definition WithPackageInfo (packageType packageName version : string) (e : AuditEvent) : AuditEvent :=
  WithTag "package_operation" (WithDetail "package_version" (DText version)
    (WithDetail "package_name" (DText packageName) (WithDetail "package_type" (DText packageType) e))).

Definition WithGeoLocation (country city : string) (lat lon : float64) (e : AuditEvent) : AuditEvent :=
  let e := if String.eqb country EmptyString then e else WithDetail "country" (DText country) e in
  let e := if String.eqb city EmptyString then e else WithDetail "city" (DText city) e in
  if negb (feq lat (of_int 0)) || negb (feq lon (of_int 0)) then WithDetail "longitude" (DFloat lon) (WithDetail "latitude" (DFloat lat) e) else e.

Definition WithSecurityFlags (flags : list string) (e : AuditEvent) : AuditEvent :=
  let e := WithTags (map (λ f, "security_" +:+ f) flags) e in
  match flags with
  | [] => e
  | _ => if RiskScore e <? 50 then WithRiskScore (50 + Z.of_nat (length flags) * 10) e else e
  end.

Definition Success (e : AuditEvent) : AuditEvent := WithTag "success" (WithResult "success" e).

Definition raise_risk (score : Z) (e : AuditEvent) : AuditEvent := if RiskScore e <? score then WithRiskScore score e else e.

Definition Failed (reason : string) (e : AuditEvent) : AuditEvent :=
  let e := WithTag "failed" (WithResult "failed" e) in
  raise_risk 40 (if String.eqb reason EmptyString then e else WithDetail "failure_reason" (DText reason) e).
Definition Blocked (reason : string) (e : AuditEvent) : AuditEvent :=
  let e := WithTag "blocked" (WithResult "blocked" e) in
  raise_risk 70 (if String.eqb reason EmptyString then e else WithDetail "block_reason" (DText reason) e).

(** ** Common events *)

Section events.
Context (id : string) (now : instant).

Definition LogSecurityEvent (eventType : AuditEventType) (message : string) : AuditEvent :=
  WithRiskScore 70 (WithTag "security" (NewAuditEventBuilder id now eventType LevelSecurity message)).

Definition level_of (success : bool) : AuditLevel := if success then LevelInfo else LevelWarning.

Definition LogAuthEvent (eventType : AuditEventType) (userID userEmail : string) (success : bool) : AuditEvent :=
  let message := "Authentication event: " +:+ eventType +:+ (if success then EmptyString else " (failed)") in
  let e := WithTag "authentication" (WithUser userID userEmail (NewAuditEventBuilder id now eventType (level_of success) message)) in
  if success then e else WithRiskScore 60 e.

Definition LogAPIKeyEvent (eventType : AuditEventType) (keyID userID action : string) : AuditEvent :=
  WithTag "api_key" (WithDetail "action" (DText action) (WithDetail "key_id" (DText keyID)
    (WithUser userID EmptyString (NewAuditEventBuilder id now eventType LevelInfo ("API key " +:+ action +:+ ": " +:+ keyID))))).

Definition AuthenticationEvent (eventType : AuditEventType) (userID userEmail clientIP : string) (success : bool) : AuditEvent :=
  let message := "Authentication " +:+ eventType +:+ (if success then EmptyString else " failed") in
  let e := WithTag "authentication" (WithClient clientIP EmptyString (WithUser userID userEmail (NewAuditEventBuilder id now eventType (level_of success) message))) in
  if success then Success e else WithRiskScore 60 (Failed "authentication_failed" e).

Definition SecurityEvent (eventType : AuditEventType) (message clientIP : string) (riskScore : Z) : AuditEvent :=
  WithRiskScore riskScore (WithTag "security" (WithClient clientIP EmptyString (NewAuditEventBuilder id now eventType LevelSecurity message))).

Definition AccessEvent (resource action userID clientIP : string) (allowed : bool) : AuditEvent :=
  let message := "Access to " +:+ resource +:+ " (" +:+ action +:+ ")" +:+ (if allowed then " granted" else " denied") in
  let e := WithTag "access_control" (WithAction action (WithResource resource (WithClient clientIP EmptyString (WithUser userID EmptyString
             (NewAuditEventBuilder id now (if allowed then EventAuthzPermission else EventAuthzDenied) (level_of allowed) message))))) in
  if allowed then Success e else WithRiskScore 50 (Failed "access_denied" e).

Definition OperationEvent (eventType : AuditEventType) (operation userID : string) (success : bool) : AuditEvent :=
  let message := "Operation: " +:+ operation +:+ (if success then EmptyString else " failed") in
  let e := WithTag "operation" (WithAction operation (WithUser userID EmptyString (NewAuditEventBuilder id now eventType (level_of success) message))) in
  if success then Success e else Failed "operation_failed" e.
End events.

(** ** Every chain of calls *)

Inductive call :=
| CUser (a b : string) | CSession (s : string) | CClient (a b : string) | CRequest (s : string) | CResource (s : string) | CAction (s : string)
| CResult (s : string) | CDetail (k : string) (v : detail) | CDetails (d : gmap string detail) | CRisk (z : Z) | CThreat (s : string) | CSource (s : string)
| CTag (s : string) | CTags (l : list string) | CError (o : option string) | CDuration (d : duration) | CIP (a b : string) | CAgent (s : string)
| CMethod (s : string) | CStatus (z : Z) | CFile (a : string) (z : Z) (b : string) | CPackage (a b c : string) | CGeo (a b : string) (x y : float64)
| CFlags (l : list string) | CSuccess | CFailed (s : string) | CBlocked (s : string).

Definition run_call (c : call) : AuditEvent → AuditEvent :=
  match c with
  | CUser a b => WithUser a b | CSession s => WithSession s | CClient a b => WithClient a b | CRequest s => WithRequest s
  | CResource s => WithResource s | CAction s => WithAction s | CResult s => WithResult s | CDetail k v => WithDetail k v
  | CDetails d => WithDetails d | CRisk z => WithRiskScore z | CThreat s => WithThreatLevel s | CSource s => WithSource s
  | CTag s => WithTag s | CTags l => WithTags l | CError o => WithError o | CDuration d => WithDuration d | CIP a b => WithIP a b
  | CAgent s => WithUserAgentDetails s | CMethod s => WithHTTPMethod s | CStatus z => WithStatusCode z | CFile a z b => WithFileInfo a z b
  | CPackage a b c => WithPackageInfo a b c | CGeo a b x y => WithGeoLocation a b x y | CFlags l => WithSecurityFlags l
  | CSuccess => Success | CFailed s => Failed s | CBlocked s => Blocked s
  end.

Definition event_ok (e : AuditEvent) : Prop := 0 <= RiskScore e <= 100 ∧ NoDup (Tags e) ∧ EmptyString ∉ Tags e.

Lemma WithTag_ok t e : event_ok e → event_ok (WithTag t e).
Proof.
  intros (Hr & Hn & He). unfold WithTag. destruct (String.eqb_spec t EmptyString) as [|Ht]; [done|]. cbn [negb andb].
  destruct (existsb (String.eqb t) (Tags e)) eqn:Ex; [done|]. split; [done|]. cbn [negb Tags set_tags].
  assert (t ∉ Tags e) as Hnot.
  { intros Hin. apply not_true_iff_false in Ex. apply Ex, existsb_exists. exists t. split; [by apply list_elem_of_In|apply String.eqb_refl]. }
  split.
  - apply list.NoDup_app. split; [done|]. split; [|apply NoDup_singleton]. intros x Hx Hx'. apply list_elem_of_singleton in Hx'. by subst.
  - rewrite elem_of_app, list_elem_of_singleton. intros [H|H]; [done|]. by apply Ht.
Qed.
Lemma WithTags_ok ts e : event_ok e → event_ok (WithTags ts e).
Proof. revert e; induction ts as [|t ts IH]; intros e He; [done|]. by apply IH, WithTag_ok. Qed.
Lemma WithRiskScore_ok z e : event_ok e → event_ok (WithRiskScore z e).
Proof.
  intros (Hr & Ht). split; [|done]. unfold WithRiskScore. cbn [RiskScore set_risk]. destruct (Z.ltb_spec z 0); [lia|]. destruct (Z.ltb_spec 100 z); lia.
Qed.
Lemma WithDetail_ok k v e : event_ok e → event_ok (WithDetail k v e).
Proof. done. Qed.
Lemma raise_risk_ok z e : event_ok e → event_ok (raise_risk z e).
Proof. intros He. unfold raise_risk. destruct (_ <? _); [by apply WithRiskScore_ok|done]. Qed.

#[local] Hint Resolve WithTag_ok WithTags_ok WithRiskScore_ok WithDetail_ok raise_risk_ok : audit.

(** Whatever calls an event is built with, its risk lies between 0 and 100 and no tag is
    empty or twice among its tags. *)
Theorem built_event_ok id now eventType level message calls :
  event_ok (foldl (λ e c, run_call c e) (NewAuditEventBuilder id now eventType level message) calls).
Proof.
  assert (event_ok (NewAuditEventBuilder id now eventType level message)) as H.
  { split; [cbn; lia|]. split; [constructor|apply not_elem_of_nil]. }
  revert H. generalize (NewAuditEventBuilder id now eventType level message). induction calls as [|c calls IH]; intros e He; [done|]. cbn [foldl]. apply IH.
  destruct c; cbn [run_call]; try exact He; auto with audit;
    unfold WithThreatLevel, WithError, WithUserAgentDetails, WithHTTPMethod, WithStatusCode, WithFileInfo, WithPackageInfo, WithGeoLocation, WithSecurityFlags, Success, Failed, Blocked;
    repeat case_match; auto 10 with audit.
Qed.

(** ** The risk *)

(** Marking an event as failed, blocked or flagged never lowers its risk, and raises it
    to 40, 70 and 60 at least. *)
Theorem risk_never_lowered reason f flags e : 0 <= RiskScore e <= 100 →
  RiskScore (Failed reason e) = Z.max 40 (RiskScore e) ∧ RiskScore (Blocked reason e) = Z.max 70 (RiskScore e) ∧
  RiskScore (WithSecurityFlags (f :: flags) e) = (if RiskScore e <? 50 then Z.min 100 (60 + 10 * Z.of_nat (length flags)) else RiskScore e).
Proof.
  intros Hr.
  assert (∀ t e, RiskScore (WithTag t e) = RiskScore e) as Ht by (intros t x; unfold WithTag; by destruct (_ && _)).
  assert (∀ ts e, RiskScore (WithTags ts e) = RiskScore e) as Hts.
  { intros ts. induction ts as [|t ts IH]; intros x; [done|]. cbn. fold (WithTags ts (WithTag t x)). by rewrite IH. }
  assert (∀ z e, RiskScore (raise_risk z e) = if RiskScore e <? z then (if z <? 0 then 0 else if 100 <? z then 100 else z) else RiskScore e) as Hz
    by (intros z x; unfold raise_risk; by destruct (_ <? z)).
  split_and!.
  - unfold Failed. rewrite Hz. assert (RiskScore (if String.eqb reason EmptyString then WithTag "failed" (WithResult "failed" e)
      else WithDetail "failure_reason" (DText reason) (WithTag "failed" (WithResult "failed" e))) = RiskScore e) as -> by (destruct (String.eqb _ _); cbn; by rewrite Ht).
    destruct (Z.ltb_spec (RiskScore e) 40); cbn; lia.
  - unfold Blocked. rewrite Hz. assert (RiskScore (if String.eqb reason EmptyString then WithTag "blocked" (WithResult "blocked" e)
      else WithDetail "block_reason" (DText reason) (WithTag "blocked" (WithResult "blocked" e))) = RiskScore e) as -> by (destruct (String.eqb _ _); cbn; by rewrite Ht).
    destruct (Z.ltb_spec (RiskScore e) 70); cbn; lia.
  - unfold WithSecurityFlags. rewrite Hts. destruct (Z.ltb_spec (RiskScore e) 50); [|by rewrite Hts].
    cbn [WithRiskScore RiskScore set_risk length]. destruct (Z.ltb_spec (50 + Z.of_nat (S (length flags)) * 10) 0); [lia|].
    destruct (Z.ltb_spec 100 (50 + Z.of_nat (S (length flags)) * 10)); lia.
Qed.

(** Describing the client of an event lowers its risk to 30 when the client calls itself
    a bot, however high it was: a blocked attack by a scanner counts as a low threat. *)
Theorem bot_lowers_risk agent e : Contains (to_lower agent) "bot" = true →
  RiskScore (WithUserAgentDetails agent e) = 30 ∧ ThreatLevel (WithUserAgentDetails agent e) = "low"%string.
Proof.
  intros H. unfold WithUserAgentDetails. destruct (String.eqb_spec agent EmptyString) as [->|]; [done|].
  cbn [existsb]. rewrite H. cbn [orb]. assert (∀ t e, RiskScore (WithTag t e) = RiskScore e ∧ ThreatLevel (WithTag t e) = ThreatLevel e) as Ht
    by (intros t x; unfold WithTag; by destruct (_ && _)).
  destruct (_ || _); [|done]. by destruct (Ht "automated"%string (WithRiskScore 30 (WithTag "bot" (WithDetail "user_agent_full" (DText agent) (set_agent agent e))))) as [-> ->].
Qed.

(** ** Witnesses *)

Definition attack : AuditEvent := Blocked "sql injection" (NewAuditEventBuilder "evt_1" 0 "security.malicious" LevelSecurity "blocked").

Lemma risk_never_lowered_witness : RiskScore (WithSecurityFlags ["xss"]%string (NewAuditEventBuilder "evt_1" 0 "security.malicious" LevelSecurity "m")) = 60.
Proof.
  destruct (risk_never_lowered "r" "xss" [] (NewAuditEventBuilder "evt_1" 0 "security.malicious" LevelSecurity "m") ltac:(cbn; lia)) as (_ & _ & H).
  exact H.
Defined.
Lemma bot_lowers_risk_witness : RiskScore attack = 70 ∧ RiskScore (WithUserAgentDetails "sqlmap-Bot/1.0" attack) = 30.
Proof. split; [reflexivity|]. by apply (bot_lowers_risk "sqlmap-Bot/1.0" attack). Defined.

(** ** The service *)

Record AuditConfig := mkConfig {
  Enabled : bool; FilePath : string; MaxFileSize : Z; MaxFiles : Z; BufferSize : Z; FlushInterval : duration;
  EnableStructured : bool; EnableSyslog : bool; MinLevel : string; IncludeStack : bool; EnableMetrics : bool; RetentionDays : Z
}.
Definition DefaultAuditConfig : AuditConfig :=
  mkConfig true "logs/audit.log" (100 * 1024 * 1024) 10 1000 (30 * second) true false LevelInfo false true 90.

Record AuditMetrics := mkMetrics {
  TotalEvents : Z; EventsByType : gmap string Z; EventsByLevel : gmap string Z; EventsByUser : gmap string Z;
  HighRiskEvents : Z; SecurityEvents : Z; DroppedEvents : Z; LastReset : instant; ProcessingErrors : Z
}.
Definition new_metrics (now : instant) : AuditMetrics := mkMetrics 0 ∅ ∅ ∅ 0 0 0 now 0.

(** [s.file]: nil, open, or a closed file that is still there. *)
Inductive handle := NoFile | Open | Closed.
Inductive phase := Running | Draining | Stopped.
Record file := mkFile { text : string; ModTime : instant }.

Record AuditService := mkService {
  config : AuditConfig; buffer : list AuditEvent; buffer_closed : bool; s_file : handle; metrics : option AuditMetrics;
  cancelled : bool; writer : phase; rotations : nat; cleanups : nat; files : gmap string file
}.

Definition with_buffer (b : list AuditEvent) (s : AuditService) : AuditService :=
  mkService (config s) b (buffer_closed s) (s_file s) (metrics s) (cancelled s) (writer s) (rotations s) (cleanups s) (files s).
Definition with_metrics (f : AuditMetrics → AuditMetrics) (s : AuditService) : AuditService :=
  mkService (config s) (buffer s) (buffer_closed s) (s_file s) (f <$> metrics s) (cancelled s) (writer s) (rotations s) (cleanups s) (files s).
Definition with_file (h : handle) (fs : gmap string file) (s : AuditService) : AuditService :=
  mkService (config s) (buffer s) (buffer_closed s) h (metrics s) (cancelled s) (writer s) (rotations s) (cleanups s) fs.
Definition with_pending (r c : nat) (s : AuditService) : AuditService :=
  mkService (config s) (buffer s) (buffer_closed s) (s_file s) (metrics s) (cancelled s) (writer s) r c (files s).
Definition with_writer (c : bool) (p : phase) (s : AuditService) : AuditService :=
  mkService (config s) (buffer s) (buffer_closed s) (s_file s) (metrics s) c p (rotations s) (cleanups s) (files s).

(** ** Levels and metrics *)

Definition levelOrder (l : string) : Z :=
  if String.eqb l LevelInfo then 1 else if String.eqb l LevelWarning then 2
  else if String.eqb l LevelCritical then 3 else if String.eqb l LevelSecurity then 4 else 0.
Definition shouldLog (s : AuditService) (level : string) : bool := levelOrder (MinLevel (config s)) <=? levelOrder level.

Definition count (k : string) (m : gmap string Z) : gmap string Z := <[k := default 0 (m !! k) + 1]> m.

Definition count_event (e : AuditEvent) (m : AuditMetrics) : AuditMetrics :=
  mkMetrics (TotalEvents m + 1) (count (EventType e) (EventsByType m)) (count (Level e) (EventsByLevel m))
    (if String.eqb (UserID e) EmptyString then EventsByUser m else count (UserID e) (EventsByUser m))
    (if 70 <=? RiskScore e then HighRiskEvents m + 1 else HighRiskEvents m)
    (if String.eqb (Level e) LevelSecurity then SecurityEvents m + 1 else SecurityEvents m) (DroppedEvents m) (LastReset m) (ProcessingErrors m).
Definition updateMetrics (e : AuditEvent) (s : AuditService) : AuditService :=
  if EnableMetrics (config s) then with_metrics (count_event e) s else s.

Definition count_drop (m : AuditMetrics) : AuditMetrics :=
  mkMetrics (TotalEvents m) (EventsByType m) (EventsByLevel m) (EventsByUser m) (HighRiskEvents m) (SecurityEvents m) (DroppedEvents m + 1) (LastReset m) (ProcessingErrors m).
Definition count_error (m : AuditMetrics) : AuditMetrics :=
  mkMetrics (TotalEvents m) (EventsByType m) (EventsByLevel m) (EventsByUser m) (HighRiskEvents m) (SecurityEvents m) (DroppedEvents m) (LastReset m) (ProcessingErrors m + 1).

(** [GetMetrics] and [ResetMetrics]: [None] where the nil pointer of a disabled service is followed. *)
Definition GetMetrics (s : AuditService) : option (option AuditMetrics) :=
  if EnableMetrics (config s) then Some <$> metrics s else Some None.
Definition ResetMetrics (now : instant) (s : AuditService) : option AuditService :=
  if EnableMetrics (config s) then match metrics s with Some _ => Some (with_metrics (λ _, new_metrics now) s) | None => None end else Some s.

(** ** Queueing *)

(** [writeEvent]: [None] is the panic of a send on a closed channel. [waiting] says that the
    writer stands at its receive, which is what an unbuffered channel needs. *)
Definition has_room (waiting : bool) (s : AuditService) : bool :=
  (Z.of_nat (length (buffer s)) <? BufferSize (config s)) || (waiting && match buffer s, writer s with [], Running => true | _, _ => false end).
Definition writeEvent (waiting : bool) (e : AuditEvent) (s : AuditService) : option AuditService :=
  if negb (Enabled (config s)) then Some s
  else if negb (shouldLog s (Level e)) then Some s
  else
    let s := updateMetrics e s in
    if buffer_closed s then None
    else if has_room waiting s then Some (with_buffer (buffer s ++ [e]) s) else Some (with_metrics count_drop s).

(** Whether an event is put into the buffer. *)
Definition accepts (waiting : bool) (e : AuditEvent) (s : AuditService) : bool :=
  Enabled (config s) && shouldLog s (Level e) && has_room waiting s.

(** ** Times and names *)

Definition clock (z : zone) (t : instant) : Z * Z * Z := let s := local_seconds z t mod 86400 in (s / 3600, s / 60 mod 60, s mod 60).

(** The layout [20060102-150405]. *)
Definition format_stamp (z : zone) (t : instant) : string :=
  let '(y, m, d) := date (local_days z t) in let '(h, mi, s) := clock z t in
  append_int 4 y +:+ digits 2 m +:+ digits 2 d +:+ "-" +:+ digits 2 h +:+ digits 2 mi +:+ digits 2 s.

(** [time.RFC3339]; the events are stamped in UTC. *)
Definition format_offset (off : Z) : string :=
  if off =? 0 then "Z" else let m := Z.abs (Z.quot off 60) in (if Z.quot off 60 <? 0 then "-" else "+") +:+ digits 2 (m / 60) +:+ ":" +:+ digits 2 (m mod 60).
Definition format_rfc3339 (z : zone) (t : instant) : string :=
  let '(y, m, d) := date (local_days z t) in let '(h, mi, s) := clock z t in
  append_int 4 y +:+ "-" +:+ digits 2 m +:+ "-" +:+ digits 2 d +:+ "T" +:+ digits 2 h +:+ ":" +:+ digits 2 mi +:+ ":" +:+ digits 2 s +:+ format_offset (z t).

(** [time.Now().AddDate(0, 0, -days)]: the same clock on an earlier day. *)
Definition days_before_now (z : zone) (days : Z) (now : instant) : instant :=
  let wall := now + z now * second - days * 86400 * second in
  wall - z (wall - z wall * second) * second.

Section service.
Context (marshal : AuditEvent → option string) (z : zone).

(** ** Writing *)

Definition newline : string := String (ascii_of_nat 10) EmptyString.
Definition plain_line (e : AuditEvent) : string :=
  "[" +:+ format_rfc3339 utc (Timestamp e) +:+ "] " +:+ Level e +:+ " " +:+ EventType e +:+ ": " +:+ Message e
  +:+ (if String.eqb (UserID e) EmptyString then EmptyString else " (user: " +:+ UserID e +:+ ")")
  +:+ (if String.eqb (ClientIP e) EmptyString then EmptyString else " (ip: " +:+ ClientIP e +:+ ")").
Definition render (s : AuditService) (e : AuditEvent) : option string :=
  if EnableStructured (config s) then (λ d, d +:+ newline) <$> marshal e else Some (plain_line e +:+ newline).

Definition base (s : AuditService) : string := Base (FilePath (config s)).
Definition live_text (s : AuditService) : string := from_option text EmptyString (files s !! base s).

(** [writeEventToFile]: an open file takes the line unless the device fails. *)
Definition writeEventToFile (device : bool) (now : instant) (e : AuditEvent) (s : AuditService) : bool * AuditService :=
  match s_file s with
  | NoFile => (false, s)
  | h =>
      match render s e with
      | None => (false, s)
      | Some data =>
          match h, device with
          | Open, true =>
              let content := live_text s +:+ data in
              let s := with_file Open (<[base s := mkFile content now]> (files s)) s in
              (true, if MaxFileSize (config s) <? Z.of_nat (String.length content) then with_pending (S (rotations s)) (cleanups s) s else s)
          | _, _ => (false, s)
          end
      end
  end.

(** One receive of [processEvents]: an error is counted unless the service is stopping. *)
Definition process_one (device : bool) (now : instant) (e : AuditEvent) (s : AuditService) : AuditService :=
  let '(ok, s) := writeEventToFile device now e s in
  if ok then s else match writer s with Running => with_metrics count_error s | _ => s end.

(** ** Opening and rotating *)

(** [initLogFile]: an existing file is appended to. *)
Definition initLogFile (device : bool) (now : instant) (s : AuditService) : bool * AuditService :=
  if device then (true, with_file Open (if files s !! base s then files s else <[base s := mkFile EmptyString now]> (files s)) s) else (false, s).

(** [os.Rename]: what stood under the new name is gone. *)
Definition rename (device : bool) (old new : string) (fs : gmap string file) : option (gmap string file) :=
  match fs !! old, device with Some f, true => Some (<[new := f]> (delete old fs)) | _, _ => None end.

Definition rotated_name (s : AuditService) (now : instant) : string := base s +:+ "." +:+ format_stamp z now.

Definition rotateLogFile (renames opens : bool) (now : instant) (s : AuditService) : AuditService :=
  match s_file s with
  | NoFile => s
  | _ =>
      let s := with_file Closed (files s) s in
      match rename renames (base s) (rotated_name s now) (files s) with
      | None => s
      | Some fs =>
          let '(ok, s) := initLogFile opens now (with_file Closed fs s) in
          if ok then with_pending (rotations s) (S (cleanups s)) s else s
      end
  end.

(** ** Cleaning up *)

(** [os.ReadDir] gives the names in order. *)
Definition logFiles (s : AuditService) : list string :=
  filter (λ n, HasPrefix n (base s +:+ ".") = true) (merge_sort String.le (map_to_list (files s)).*1).

Definition expired (cutoff : instant) (fs : gmap string file) (n : string) : bool :=
  match fs !! n with Some f => ModTime f <? cutoff | None => false end.

(** [cleanupOldFiles]: [removes] says which removals work; [None] is the index out of range
    of a negative limit. *)
Definition remove_all (removes : string → bool) (l : list string) (fs : gmap string file) : gmap string file :=
  foldl (λ fs n, if removes n then delete n fs else fs) fs l.
Definition cleanupOldFiles (removes : string → bool) (now : instant) (s : AuditService) : option AuditService :=
  let l := logFiles s in
  let excess := Z.of_nat (length l) - MaxFiles (config s) in
  if (0 <? excess) && (MaxFiles (config s) <? 0) then None
  else
    let fs := remove_all removes (take (Z.to_nat excess) l) (files s) in
    let cutoff := days_before_now z (RetentionDays (config s)) now in
    Some (with_file (s_file s) (remove_all removes (filter (λ n, expired cutoff fs n = true) l) fs) s).

(** ** Starting and stopping *)

(** [NewAuditService]: a panic, an error, or a service. *)
Inductive started := SPanic | SError | SService (s : AuditService).
Definition NewAuditService (cfg : option AuditConfig) (device : bool) (now : instant) (fs : gmap string file) : started :=
  let cfg := default DefaultAuditConfig cfg in
  if negb (Enabled cfg) then SService (mkService cfg [] false NoFile None false Stopped 0 0 fs)
  else if BufferSize cfg <? 0 then SPanic
  else
    let '(ok, s) := initLogFile device now (mkService cfg [] false NoFile (Some (new_metrics now)) false Running 0 0 fs) in
    if negb ok then SError else if FlushInterval cfg <=? 0 then SPanic else SService s.

(** [Close]: the goroutines are told to stop, and when they have stopped the file and the
    buffer are closed; [None] is the panic of closing the buffer twice. *)
Definition cancel (s : AuditService) : AuditService := with_writer (cancelled s || Enabled (config s)) (writer s) s.
Definition close (s : AuditService) : option AuditService :=
  if negb (Enabled (config s)) then Some s
  else if buffer_closed s then None
  else Some (mkService (config s) (buffer s) true NoFile (metrics s) (cancelled s) (writer s) (rotations s) (cleanups s) (files s)).

(** ** Steps *)

Inductive action :=
| AWrite (waiting : bool) (e : AuditEvent) | AProcess (device : bool) (now : instant) | ADrain | AStop
| ARotate (renames opens : bool) (now : instant) | AClean (removes : string → bool) (now : instant) (spawned : bool)
| ACancel | AClose | AReset (now : instant).

Definition act (a : action) (s : AuditService) : option AuditService :=
  match a with
  | AWrite w e => writeEvent w e s
  | AProcess device now =>
      match writer s, buffer s with
      | Stopped, _ | _, [] => None
      | _, e :: b => Some (process_one device now e (with_buffer b s))
      end
  | ADrain => if cancelled s && match writer s with Running => true | _ => false end then Some (with_writer (cancelled s) Draining s) else None
  | AStop => match writer s, buffer s with Draining, [] => Some (with_writer (cancelled s) Stopped s) | _, _ => None end
  | ARotate r o now =>
      match rotations s with O => None | S n => Some (rotateLogFile r o now (with_pending n (cleanups s) s)) end
  | AClean removes now spawned =>
      if spawned then match cleanups s with O => None | S n => cleanupOldFiles removes now (with_pending (rotations s) n s) end
      else if cancelled s then None else cleanupOldFiles removes now s
  | ACancel => Some (cancel s)
  | AClose => if negb (Enabled (config s)) || (cancelled s && match writer s with Stopped => true | _ => false end) then close s else None
  | AReset now => ResetMetrics now s
  end.

Fixpoint run (l : list action) (s : AuditService) : option AuditService :=
  match l with [] => Some s | a :: l => act a s ≫= run l end.

(** ** Queue *)

(** The events that a run puts into the buffer, and those that the writer takes out. *)
Fixpoint queued (l : list action) (s : AuditService) : list AuditEvent :=
  match l with
  | [] => []
  | a :: l =>
      match act a s with
      | None => []
      | Some s' => (match a with AWrite w e => if accepts w e s then [e] else [] | _ => [] end) ++ queued l s'
      end
  end.
Fixpoint taken (l : list action) (s : AuditService) : list AuditEvent :=
  match l with
  | [] => []
  | a :: l =>
      match act a s with
      | None => []
      | Some s' => (match a with AProcess _ _ => take 1 (buffer s) | _ => [] end) ++ taken l s'
      end
  end.

Lemma updateMetrics_same e s :
  config (updateMetrics e s) = config s ∧ buffer (updateMetrics e s) = buffer s ∧ writer (updateMetrics e s) = writer s ∧ buffer_closed (updateMetrics e s) = buffer_closed s.
Proof. unfold updateMetrics. by destruct (EnableMetrics _). Qed.

Lemma has_room_same w e s : has_room w (updateMetrics e s) = has_room w s.
Proof. unfold has_room. by destruct (updateMetrics_same e s) as (-> & -> & -> & _). Qed.

Lemma writeEvent_buffer w e s s' : writeEvent w e s = Some s' → buffer s' = buffer s ++ (if accepts w e s then [e] else []) ∧ config s' = config s ∧ s_file s' = s_file s ∧ rotations s' = rotations s ∧ files s' = files s.
Proof.
  unfold writeEvent, accepts. destruct (Enabled _); cbn [negb andb]; [|intros [= <-]; by rewrite app_nil_r].
  destruct (shouldLog _ _); cbn [negb andb]; [|intros [= <-]; by rewrite app_nil_r].
  rewrite has_room_same. destruct (updateMetrics_same e s) as (Hc & Hb & _). destruct (buffer_closed _); [done|].
  assert (s_file (updateMetrics e s) = s_file s ∧ rotations (updateMetrics e s) = rotations s ∧ files (updateMetrics e s) = files s) as (Hf & Hr & Hfs)
    by (unfold updateMetrics; by destruct (EnableMetrics _)).
  destruct (has_room w s); intros [= <-]; cbn; by rewrite Hb, ?app_nil_r.
Qed.

Lemma process_one_buffer d now e s : buffer (process_one d now e s) = buffer s ∧ config (process_one d now e s) = config s.
Proof. unfold process_one, writeEventToFile. repeat case_match; simplify_eq; by cbn. Qed.
Lemma rotateLogFile_buffer r o now s : buffer (rotateLogFile r o now s) = buffer s ∧ config (rotateLogFile r o now s) = config s.
Proof. unfold rotateLogFile, initLogFile. repeat case_match; simplify_eq; by cbn. Qed.
Lemma cleanupOldFiles_same rm now s s' : cleanupOldFiles rm now s = Some s' →
  buffer s' = buffer s ∧ config s' = config s ∧ s_file s' = s_file s ∧ rotations s' = rotations s.
Proof. unfold cleanupOldFiles. destruct (_ && _); [done|]. by intros [= <-]. Qed.

Lemma act_buffer a s s' : act a s = Some s' → config s' = config s ∧
  buffer s ++ (match a with AWrite w e => if accepts w e s then [e] else [] | _ => [] end)
    = (match a with AProcess _ _ => take 1 (buffer s) | _ => [] end) ++ buffer s'.
Proof.
  destruct a as [w e|d now| | |r o now|rm now b| | |now]; cbn [act]; rewrite ?app_nil_r; cbn [app].
  - intros H. apply writeEvent_buffer in H as (-> & -> & _). done.
  - destruct (writer s); try done; destruct (buffer s) as [|e b]; try done; intros [= <-];
      destruct (process_one_buffer d now e (with_buffer b s)) as [-> ->]; done.
  - destruct (_ && _); [|done]. by intros [= <-].
  - destruct (writer s); try done. destruct (buffer s) eqn:E; [|done]. intros [= <-]. cbn. by rewrite E.
  - destruct (rotations s) as [|n]; [done|]. intros [= <-]. by destruct (rotateLogFile_buffer r o now (with_pending n (cleanups s) s)) as [-> ->].
  - destruct b; [destruct (cleanups s) as [|n]; [done|]|destruct (cancelled s); [done|]]; intros H; apply cleanupOldFiles_same in H as (-> & -> & _); done.
  - by intros [= <-].
  - destruct (_ || _); [|done]. unfold close. destruct (negb _); [by intros [= <-]|]. destruct (buffer_closed s); [done|]. by intros [= <-].
  - unfold ResetMetrics. destruct (EnableMetrics _); [|by intros [= <-]]. destruct (metrics s); [|done]. by intros [= <-].
Qed.

(** Events are written in the order in which they were put into the buffer, each one
    once; what is still in the buffer when the service is closed is what is lost. *)
Theorem events_in_order l s s' : run l s = Some s' → buffer s ++ queued l s = taken l s ++ buffer s'.
Proof.
  revert s; induction l as [|a l IH]; intros s; cbn [run queued taken]; [intros [= ->]; by rewrite app_nil_r|].
  destruct (act a s) as [s1|] eqn:Ha; [|done]. cbn. intros H. apply act_buffer in Ha as (_ & Ha).
  by rewrite app_assoc, Ha, <-!app_assoc, (IH _ H).
Qed.

(** ** Rotation *)

Lemma rotated_name_base s now : base s ≠ rotated_name s now.
Proof.
  unfold rotated_name. intros E. apply (f_equal String.length) in E. rewrite !str_length_app in E. cbn in E. lia.
Qed.

Lemma rotateLogFile_ok s now f : s_file s ≠ NoFile → files s !! base s = Some f →
  rotateLogFile true true now s = with_pending (rotations s) (S (cleanups s))
    (with_file Open (<[base s := mkFile EmptyString now]> (<[rotated_name s now := f]> (delete (base s) (files s)))) s).
Proof.
  intros Hf Hb. pose proof (rotated_name_base s now) as Hne. destruct s as [cfg b bc h m c w r cl fs].
  unfold rotateLogFile, rename, initLogFile. unfold rotated_name, base in *. cbn [s_file config files with_file] in *.
  destruct h; [done| |]; rewrite Hb; cbn [files config]; rewrite lookup_insert_ne, lookup_delete_eq by done; reflexivity.
Qed.

(** A rotation that works moves the log, whole, to the name with the time, and goes on
    with an empty one; no other file changes. *)
Theorem rotation_keeps_text s now f : s_file s ≠ NoFile → files s !! base s = Some f →
  let s' := rotateLogFile true true now s in
  s_file s' = Open ∧ live_text s' = EmptyString ∧ files s' !! rotated_name s now = Some f ∧
  ∀ n, n ≠ base s → n ≠ rotated_name s now → files s' !! n = files s !! n.
Proof.
  intros Hf Hb. cbn zeta. pose proof (rotated_name_base s now) as Hne.
  rewrite (rotateLogFile_ok s now f) by done.
  split; [done|]. split; [unfold live_text; cbn; change (base _) with (base s); by rewrite lookup_insert_eq|]. cbn [files with_file with_pending]. split.
  - by rewrite lookup_insert_ne, lookup_insert_eq.
  - intros n H1 H2. by rewrite !lookup_insert_ne, lookup_delete_ne by done.
Qed.
(** When two rotations are pending in one second, the second one moves the empty log over
    the one just rotated: all that the log held is gone, and every file is empty or as it was. *)
Theorem two_rotations_lose_log s s' now now' n g : s_file s ≠ NoFile → is_Some (files s !! base s) →
  format_stamp z now = format_stamp z now' →
  run [ARotate true true now; ARotate true true now'] s = Some s' → files s' !! n = Some g →
  text g = EmptyString ∨ (n ≠ base s ∧ files s !! n = Some g).
Proof.
  intros Hf [f Hb] Hstamp Hrun Hg. cbn [run act] in Hrun. destruct (rotations s) as [|r]; [done|].
  set (s0 := with_pending r (cleanups s) s) in *. rewrite (rotateLogFile_ok s0 now f Hf Hb) in Hrun. cbn [mbind option_bind] in Hrun.
  set (s1 := with_pending (rotations s0) _ _) in Hrun. cbn [run act] in Hrun. destruct (rotations s1) as [|r1]; [done|].
  assert (base s1 = base s) as Hb1 by done. pose proof (rotated_name_base s now) as Hne.
  set (s2 := with_pending r1 (cleanups s1) s1) in *.
  assert (files s2 !! base s2 = Some (mkFile EmptyString now)) as Hb2 by (cbn; apply lookup_insert_eq).
  rewrite (rotateLogFile_ok s2 now' (mkFile EmptyString now) ltac:(discriminate) Hb2) in Hrun. injection Hrun as <-.
  assert (rotated_name s2 now' = rotated_name s now) as Hn by (unfold rotated_name; rewrite <-Hstamp; done).
  change (<[base s := mkFile EmptyString now']> (<[rotated_name s2 now' := mkFile EmptyString now]> (delete (base s) (files s2))) !! n = Some g) in Hg.
  rewrite Hn in Hg.
  destruct (decide (n = base s)) as [->|Hnb]; [rewrite lookup_insert_eq in Hg; injection Hg as <-; by left|].
  rewrite lookup_insert_ne in Hg by done.
  destruct (decide (n = rotated_name s now)) as [->|Hnr]; [rewrite lookup_insert_eq in Hg; injection Hg as <-; by left|].
  rewrite lookup_insert_ne, lookup_delete_ne in Hg by done.
  assert (files s2 = <[base s := mkFile EmptyString now]> (<[rotated_name s now := f]> (delete (base s) (files s)))) as E by done.
  rewrite E, !lookup_insert_ne, lookup_delete_ne in Hg by done. by right.
Qed.

(** ** A rotation that fails *)

Lemma remove_all_lookup removes l fs n : n ∉ l → remove_all removes l fs !! n = fs !! n.
Proof.
  revert fs; induction l as [|x l IH]; intros fs Hn; [done|]. apply not_elem_of_cons in Hn as [Hx Hl]. cbn. fold (remove_all removes l (if removes x then delete x fs else fs)).
  rewrite IH by done. destruct (removes x); [by rewrite lookup_delete_ne|done].
Qed.

Lemma base_not_log s : base s ∉ logFiles s.
Proof.
  unfold logFiles. rewrite list_elem_of_filter. intros [H _]. unfold HasPrefix in H. apply prefix_split in H as [u H].
  apply (f_equal String.length) in H. rewrite !str_length_app in H. cbn in H. lia.
Qed.

Lemma cleanup_lookup removes now s s' n : cleanupOldFiles removes now s = Some s' → n ∉ logFiles s → files s' !! n = files s !! n.
Proof.
  unfold cleanupOldFiles. destruct (_ && _); [done|]. intros [= <-] Hn. cbn [files with_file].
  rewrite !remove_all_lookup; [done| |].
  - intros Hin. apply Hn. eapply elem_of_sublist; [exact Hin|apply sublist_take].
  - intros Hin. apply list_elem_of_filter in Hin as [_ ?]. done.
Qed.

(** What holds once the log is closed and no rotation is on its way. *)
Definition silent (f : option file) (s : AuditService) : Prop := s_file s ≠ Open ∧ rotations s = 0%nat ∧ files s !! base s = f.

Lemma act_silent f a s s' : silent f s → act a s = Some s' → silent f s'.
Proof.
  intros (Hf & Hr & Hb) Ha. pose proof (act_buffer _ _ _ Ha) as [Hc _]. assert (base s' = base s) as Eb by (unfold base; by rewrite Hc).
  unfold silent. rewrite Eb, <-Hb. clear Hc Eb Hb. destruct a as [w e|d now| | |r o now|rm now b| | |now]; cbn [act] in Ha.
  - apply writeEvent_buffer in Ha as (_ & _ & -> & -> & ->). done.
  - assert (∀ b e, process_one d now e (with_buffer b s) = with_buffer b s ∨ process_one d now e (with_buffer b s) = with_metrics count_error (with_buffer b s)) as Hp.
    { intros b e. unfold process_one, writeEventToFile. cbn [s_file with_buffer]. destruct (s_file s) eqn:E; [| |]; [|done|];
        [|destruct (render _ _)]; cbn; destruct (writer s); auto. }
    destruct (writer s); try done; destruct (buffer s) as [|e b]; try done; injection Ha as <-; destruct (Hp b e) as [-> | ->]; done.
  - destruct (_ && _); [|done]. by injection Ha as <-.
  - destruct (writer s); try done. destruct (buffer s); [|done]. by injection Ha as <-.
  - by rewrite Hr in Ha.
  - destruct b; [destruct (cleanups s) as [|n]; [done|]|destruct (cancelled s); [done|]];
      pose proof (cleanupOldFiles_same _ _ _ _ Ha) as (_ & _ & -> & ->); (split; [done|]; split; [done|]).
    + rewrite (cleanup_lookup _ _ _ _ (base s) Ha); [done|]. apply (base_not_log (with_pending (rotations s) n s)).
    + rewrite (cleanup_lookup _ _ _ _ (base s) Ha); [done|]. apply base_not_log.
  - by injection Ha as <-.
  - destruct (_ || _); [|done]. unfold close in Ha. destruct (negb _); [by injection Ha as <-|]. destruct (buffer_closed s); [done|]. by injection Ha as <-.
  - unfold ResetMetrics in Ha. destruct (EnableMetrics _); [|by injection Ha as <-]. destruct (metrics s); [|done]. by injection Ha as <-.
Qed.

(** C40: When a rotation fails and no other is pending, nothing is ever written again: only a
    written line starts a rotation, and no step but a rotation opens the log. *)
Theorem failed_rotation_silences s opens now l s' : s_file s ≠ NoFile → rotations s = 1%nat →
  run (ARotate false opens now :: l) s = Some s' →
  s_file s' ≠ Open ∧ rotations s' = 0%nat ∧ files s' !! base s' = files s !! base s.
Proof.
  intros Hf Hr. cbn [run act]. rewrite Hr. cbn [mbind option_bind].
  set (s1 := rotateLogFile _ _ _ _).
  assert (silent (files s !! base s) s1) as H1.
  { assert (s1 = with_file Closed (files s) (with_pending 0 (cleanups s) s)) as ->; [|done].
    unfold s1, rotateLogFile, rename. cbn [s_file with_pending]. destruct (s_file s); [done| |]; by destruct (_ !! _). }
  clearbody s1. generalize dependent (files s !! base s). intros f H1 Hrun. change (silent f s').
  revert s1 H1 Hrun. induction l as [|a l IH]; intros s1 H1; cbn [run]; [by intros [= <-]|].
  destruct (act a s1) as [s2|] eqn:Ha; [|done]. cbn. intros H. by apply (IH s2), H; eapply act_silent.
Qed.

(** ** Cleaning up *)

Lemma remove_all_gone removes l fs n : removes n = true → n ∈ l → remove_all removes l fs !! n = None.
Proof.
  intros Hr. revert fs; induction l as [|x l IH]; intros fs Hn; [by apply not_elem_of_nil in Hn|].
  cbn. fold (remove_all removes l (if removes x then delete x fs else fs)).
  destruct (decide (n ∈ l)) as [Hl|Hl]; [by apply IH|]. rewrite remove_all_lookup by done.
  apply elem_of_cons in Hn as [->|]; [|done]. by rewrite Hr, lookup_delete_eq.
Qed.

Lemma logFiles_spec s n : n ∈ logFiles s ↔ is_Some (files s !! n) ∧ HasPrefix n (base s +:+ ".") = true.
Proof.
  unfold logFiles. rewrite list_elem_of_filter, merge_sort_Permutation, list_elem_of_fmap. split.
  - intros [H ([k v] & -> & Hin)]. apply elem_of_map_to_list in Hin. eauto.
  - intros [[v Hv] H]. split; [done|]. exists (n, v). split; [done|]. by apply elem_of_map_to_list.
Qed.
Lemma logFiles_NoDup s : NoDup (logFiles s).
Proof. unfold logFiles. apply list.NoDup_filter. rewrite merge_sort_Permutation. apply NoDup_fst_map_to_list. Qed.

Lemma remove_all_sub removes l fs n : is_Some (remove_all removes l fs !! n) → remove_all removes l fs !! n = fs !! n.
Proof.
  revert fs; induction l as [|x l IH]; intros fs H; [done|]. cbn in *. fold (remove_all removes l (if removes x then delete x fs else fs)) in *.
  rewrite (IH _ H). rewrite (IH _ H) in H. destruct (removes x); [|done]. destruct (decide (n = x)) as [->|]; [rewrite lookup_delete_eq in H; by destruct H|by rewrite lookup_delete_ne].
Qed.

Lemma expired_ext cutoff fs fs' n : fs !! n = fs' !! n → expired cutoff fs n = expired cutoff fs' n.
Proof. unfold expired. by intros ->. Qed.

(** After a clean-up in which every removal works there are at most [MaxFiles] rotated
    logs, all of them unchanged and none older than the retention; the log itself and the
    files of other names are untouched. *)
Theorem cleanup_spec now s s' : 0 <= MaxFiles (config s) → cleanupOldFiles (λ _, true) now s = Some s' →
  Z.of_nat (length (logFiles s')) <= MaxFiles (config s) ∧
  (∀ n, n ∈ logFiles s' → files s' !! n = files s !! n ∧ expired (days_before_now z (RetentionDays (config s)) now) (files s') n = false) ∧
  ∀ n, HasPrefix n (base s +:+ ".") = false → files s' !! n = files s !! n.
Proof.
  intros Hm H. pose proof H as H0. unfold cleanupOldFiles in H. destruct (_ && _); [done|]. injection H as H.
  set (k := Z.to_nat _) in H. set (fs := remove_all (λ _, true) (take k (logFiles s)) (files s)) in H. set (cut := days_before_now _ _ _) in *.
  assert (base s' = base s) as Eb by (by subst s').
  assert (∀ n, n ∈ logFiles s' → n ∈ drop k (logFiles s) ∧ files s' !! n = files s !! n ∧ expired cut (files s') n = false) as Hin.
  { intros n Hn. apply logFiles_spec in Hn as [Hs Hp]. rewrite Eb in Hp. subst s'. cbn [files with_file] in *.
    pose proof (remove_all_sub _ _ _ _ Hs) as E1. rewrite E1 in Hs |- *. pose proof (remove_all_sub (λ _, true) (take k (logFiles s)) (files s) n Hs) as E2. fold fs in E2.
    assert (n ∈ logFiles s) as Hl by (apply logFiles_spec; rewrite <-E2; done). split; [|split; [done|]].
    - rewrite <-(take_drop k (logFiles s)) in Hl. apply elem_of_app in Hl as [Hl|]; [|done]. exfalso.
      unfold fs in Hs. rewrite remove_all_gone in Hs by done. by destruct Hs.
    - rewrite (expired_ext _ _ _ _ E1). apply not_true_iff_false. intros He.
      assert (n ∈ filter (λ n, expired cut fs n = true) (logFiles s)) as Hf by (by apply list_elem_of_filter).
      rewrite (remove_all_gone (λ _, true) _ fs n eq_refl Hf) in E1. rewrite <-E1 in Hs. by destruct Hs. }
  split; [|split].
  - assert (length (logFiles s') <= length (drop k (logFiles s)))%nat as Hlen.
    { apply submseteq_length, NoDup_submseteq; [apply logFiles_NoDup|]. intros n Hn. by apply Hin. }
    rewrite length_drop in Hlen. lia.
  - intros n Hn. by apply Hin.
  - intros n Hn. eapply cleanup_lookup; [done|]. rewrite logFiles_spec, Hn. by intros [_ ?].
Qed.

(** ** Text lines *)

(** A message may hold a line break, so in text form any line can be forged: for every
    event [e'] there is an event of the level, type and time of [e] whose line reads as the
    lines of two events, [e] and [e'].  *)
Theorem text_line_forged s e e' : EnableStructured (config s) = false → UserID e = EmptyString → ClientIP e = EmptyString →
  ∃ forged, Level forged = Level e ∧ EventType forged = EventType e ∧ Timestamp forged = Timestamp e ∧
    ∃ l1 l2, render s e = Some l1 ∧ render s e' = Some l2 ∧ render s forged = Some (l1 +:+ l2).
Proof.
  intros Hs Hu Hc.
  exists (mkEvent (ID e) (Timestamp e) (Level e) (EventType e) (Message e +:+ newline +:+ plain_line e') (UserID e) (UserEmail e) (SessionID e) (ClientIP e)
    (UserAgent e) (RequestID e) (Resource e) (Action e) (Result e) (Details e) (RiskScore e) (ThreatLevel e) (Source e) (Tags e)).
  split_and!; try done. exists (plain_line e +:+ newline), (plain_line e' +:+ newline). unfold render. rewrite Hs. split_and!; try done.
  f_equal. unfold plain_line at 1 3. cbn [Level EventType Message Timestamp UserID ClientIP]. rewrite Hu, Hc. cbn [String.eqb].
  rewrite !str_app_assoc. cbn [String.append]. rewrite ?str_app_assoc. done.
Qed.

(** ** After the end *)

(** An event that passes the level panics once the service is closed, and closing it again
    does; asking a disabled service for its metrics, or resetting them, panics too. *)
Theorem closed_or_disabled_panics w e s now cfg fs : Enabled (config s) = true → buffer_closed s = true → shouldLog s (Level e) = true →
  Enabled cfg = false → EnableMetrics cfg = true →
  writeEvent w e s = None ∧ close s = None ∧
  ∃ d, NewAuditService (Some cfg) true now fs = SService d ∧ GetMetrics d = None ∧ ResetMetrics now d = None ∧ writeEvent w e d = Some d.
Proof.
  intros He Hc Hl Hd Hm. split; [|split].
  - unfold writeEvent. rewrite He, Hl. cbn [negb]. destruct (updateMetrics_same e s) as (_ & _ & _ & ->). by rewrite Hc.
  - unfold close. by rewrite He, Hc.
  - unfold NewAuditService. cbn [from_option id]. unfold id. rewrite Hd. cbn [negb]. eexists. split; [done|]. unfold GetMetrics, ResetMetrics, writeEvent. cbn [config metrics].
    by rewrite Hm, Hd.
Qed.
End service.

(** ** Witnesses *)

Definition braces (e : AuditEvent) : option string := Some ("{" +:+ ID e +:+ "}").
Definition small (structured : bool) : AuditConfig := mkConfig true "logs/audit.log" 4 1 2 second structured false LevelInfo false true 1.
Definition event (id : string) : AuditEvent := WithAction "a" (NewAuditEventBuilder id 0 "auth.login" LevelInfo "m").
Definition service (structured : bool) (fs : gmap string file) : AuditService :=
  mkService (small structured) [] false Open (Some (new_metrics 0)) false Running 0 0 fs.
Definition fresh : gmap string file := {["audit.log" := mkFile EmptyString 0]}.

Lemma events_in_order_witness :
  ∀ s', run braces utc [AWrite false (event "e1"); AWrite false (event "e2"); AWrite false (event "e3"); AProcess true 1] (service true fresh) = Some s' →
    ["e1"; "e2"]%string = "e1"%string :: map ID (buffer s').
Proof.
  intros s' E. pose proof (events_in_order braces utc _ _ _ E) as H. apply (f_equal (map ID)) in H. rewrite (map_app _ (taken _ _ _ _)) in H. exact H.
Defined.

(** Two lines are written before the first rotation gets the lock, and each of them starts one. *)
Definition two_lines : list action := [AWrite false (event "e1"); AWrite false (event "e2"); AProcess true 1; AProcess true 1].
Definition pending_two : AuditService := default (service true fresh) (run braces utc two_lines (service true fresh)).

Lemma rotation_keeps_text_witness :
  live_text pending_two = ("{e1}" +:+ newline +:+ "{e2}" +:+ newline)%string ∧ live_text (rotateLogFile utc true true second pending_two) = EmptyString.
Proof.
  split; [vm_compute; reflexivity|].
  destruct (rotation_keeps_text utc pending_two second (mkFile ("{e1}" +:+ newline +:+ "{e2}" +:+ newline) 1)) as (_ & H & _); [vm_compute; discriminate|vm_compute; reflexivity|exact H].
Defined.

Lemma two_rotations_lose_log_witness :
  rotations pending_two = 2%nat ∧
  ∀ s' g n, run braces utc [ARotate true true second; ARotate true true second] pending_two = Some s' → files s' !! n = Some g →
    text g = EmptyString ∨ (n ≠ "audit.log"%string ∧ files pending_two !! n = Some g).
Proof.
  split; [vm_compute; reflexivity|]. intros s' g n. apply (two_rotations_lose_log braces utc pending_two s' second second n g); [vm_compute; discriminate|vm_compute; eauto|reflexivity].
Defined.

Definition after_failure : list action := [AWrite false (event "e3"); AProcess true 2].
Lemma failed_rotation_silences_witness :
  ∃ s', run braces utc (ARotate false true second :: after_failure) (with_pending 1 0 (service true fresh)) = Some s' ∧ s_file s' ≠ Open.
Proof.
  destruct (run braces utc (ARotate false true second :: after_failure) (with_pending 1 0 (service true fresh))) as [s'|] eqn:H; [|vm_compute in H; discriminate].
  exists s'. split; [reflexivity|].
  apply (failed_rotation_silences braces utc (with_pending 1 0 (service true fresh)) true second after_failure s' ltac:(discriminate) eq_refl H).
Defined.

Definition rotated : gmap string file :=
  <["audit.log.20240101-000000" := mkFile "a" 0]> (<["audit.log.20240102-000000" := mkFile "b" (100 * 86400 * second)]> fresh).
Lemma cleanup_spec_witness :
  ∀ s', cleanupOldFiles utc (λ _, true) (100 * 86400 * second) (service true rotated) = Some s' → Z.of_nat (length (logFiles s')) <= 1.
Proof. intros s' H. apply (cleanup_spec utc (100 * 86400 * second) (service true rotated) s' ltac:(cbn; lia) H). Defined.

Lemma text_line_forged_witness :
  ∃ forged l1 l2, EventType forged = "auth.login"%string ∧ render braces (service false fresh) (event "e2") = Some l2 ∧
    render braces (service false fresh) forged = Some (l1 +:+ l2).
Proof.
  destruct (text_line_forged braces (service false fresh) (event "e1") (event "e2") eq_refl eq_refl eq_refl) as (f & _ & Hf & _ & l1 & l2 & _ & H2 & H3).
  exists f, l1, l2. done.
Defined.

Lemma closed_or_disabled_panics_witness :
  writeEvent false (event "e1") (mkService (small true) [] true NoFile (Some (new_metrics 0)) true Stopped 0 0 fresh) = None.
Proof.
  apply (closed_or_disabled_panics false (event "e1") (mkService (small true) [] true NoFile (Some (new_metrics 0)) true Stopped 0 0 fresh) 0
    (mkConfig false EmptyString 0 0 0 0 true false LevelInfo false true 0) ∅ eq_refl eq_refl eq_refl eq_refl eq_refl).
Defined.
