(* ===== verification/Backup.v ===== *)
(** * Backup: incremental backups and the copying of trees

    Models [src/internal/backup] over the file system class, with MD5 and SHA-256 computed.
    The workers take the files in some order, given as an argument; each copies another
    file, so one copy after the other stands for all interleavings, of which the counters
    of the result, which are changed without a lock, are left out.  A walk is that of the
    directory as it is when it starts; modes and times of copies, bandwidth and call-backs
    are left out.  The content of a copy is read after its target has been opened, and so
    truncated: that matters when both are the same file.

    [backup_complete] says what a successful backup holds; [restore_ignores_target] and
    [restore_restores_nothing] follow a restoration, which writes back into the backup and
    empties it; [mirror_spec] says that a mirror is one. *)

From Stdlib Require Import Ascii.
From S2P Require Import Prelude GoStrings GoPath GoFS GoGlob GoHashes.

(** ** Copying one file *)

Section copy.
Context {S : Type} `{!FileSystem S}.

(** The file is removed when the copy fails; what the deferred [Close] says is lost. *)
Definition copy_file (src dst : string) (s : S) : option os_err * S :=
  match MkdirAll (Dir dst) s with
  | (Some e, s) => (Some e, s)
  | (None, s) =>
      match OpenFile src s with
      | Err e => (Some e, s)
      | Ok _ =>
          match CreateFile dst s with
          | (Some e, s) => (Some e, s)
          | (None, s) =>
              let data := default EmptyString (files s !! src) in
              match CopyTo dst data s with
              | (Some e, s) => (Some e, (CloseFile dst (Remove dst s).2).2)
              | (None, s) => (None, (CloseFile dst s).2)
              end
          end
      end
  end.

Context `{!FileSystemLaws S}.

Lemma Remove_other p s q : q ≠ p → files (Remove p s).2 !! q = files s !! q.
Proof.
  intros Hq. destruct (Remove p s).1 eqn:E.
  - rewrite Remove_err; [done|]. by rewrite E.
  - rewrite Remove_ok by done. by rewrite lookup_delete_ne.
Qed.

Lemma CreateFile_frame p s q : q ≠ p → files (CreateFile p s).2 !! q = files s !! q.
Proof.
  intros Hq. destruct (CreateFile p s).1 eqn:E.
  - rewrite CreateFile_err; [done|]. by rewrite E.
  - rewrite CreateFile_ok by done. by rewrite lookup_insert_ne.
Qed.

Lemma copy_frame src dst s q : q ≠ dst → files (copy_file src dst s).2 !! q = files s !! q.
Proof.
  intros Hq. unfold copy_file. pose proof (MkdirAll_files (Dir dst) s) as Hm. destruct (MkdirAll (Dir dst) s) as [[e|] s1]; cbn in Hm; [cbn; by rewrite Hm|].
  destruct (OpenFile src s1); [|cbn; by rewrite Hm].
  pose proof (CreateFile_frame dst s1 q Hq) as Hc. destruct (CreateFile dst s1) as [[e|] s2]; cbn in Hc; [cbn; by rewrite Hc, Hm|].
  pose proof (CopyTo_frame dst (default EmptyString (files s2 !! src)) s2 q Hq) as Hw.
  destruct (CopyTo _ _ s2) as [[e|] s3]; cbn in Hw; cbn [snd]; rewrite CloseFile_frame, ?Remove_other by done; by rewrite Hw, Hc, Hm.
Qed.

(** [CloseFile] may fail, but loses nothing. *)
Definition close_keeps : Prop := ∀ p (s : S), files (CloseFile p s).2 = files s.

(** A copy that succeeds leaves the content of the source in the target, unless they are the
    same file, which is empty then. *)
Lemma copy_ok src dst s d : close_keeps → (copy_file src dst s).1 = None → files s !! src = Some d →
  files (copy_file src dst s).2 = <[dst := if decide (src = dst) then EmptyString else d]> (files s).
Proof.
  intros Hk. unfold copy_file. pose proof (MkdirAll_files (Dir dst) s) as Hm. destruct (MkdirAll (Dir dst) s) as [[e|] s1]; cbn in Hm; [done|].
  destruct (OpenFile src s1); [|done].
  pose proof (CreateFile_ok dst s1) as Hc. destruct (CreateFile dst s1) as [[e|] s2]; cbn in Hc; [done|].
  pose proof (CopyTo_ok dst (default EmptyString (files s2 !! src)) s2) as Hw.
  destruct (CopyTo _ _ s2) as [[e|] s3]; [done|]. cbn in Hw |- *. intros _ Hd. rewrite Hk, Hw, Hc, Hm by done.
  rewrite insert_insert_eq. destruct (decide (src = dst)) as [->|Hne]; [by rewrite lookup_insert_eq|].
  by rewrite lookup_insert_ne, Hd by done.
Qed.

(** A source that is not a file reads as nothing. *)
Lemma copy_ok_dir src dst s : close_keeps → (copy_file src dst s).1 = None → files s !! src = None →
  files (copy_file src dst s).2 = <[dst := EmptyString]> (files s).
Proof.
  intros Hk. unfold copy_file. pose proof (MkdirAll_files (Dir dst) s) as Hm. destruct (MkdirAll (Dir dst) s) as [[e|] s1]; cbn in Hm; [done|].
  destruct (OpenFile src s1); [|done].
  pose proof (CreateFile_ok dst s1) as Hc. destruct (CreateFile dst s1) as [[e|] s2]; cbn in Hc; [done|].
  pose proof (CopyTo_ok dst (default EmptyString (files s2 !! src)) s2) as Hw.
  destruct (CopyTo _ _ s2) as [[e|] s3]; [done|]. cbn in Hw |- *. intros _ Hd. rewrite Hk, Hw, Hc, Hm by done.
  rewrite insert_insert_eq. destruct (decide (src = dst)) as [->|Hne]; [by rewrite lookup_insert_eq|].
  by rewrite lookup_insert_ne, Hd by done.
Qed.
End copy.
Arguments close_keeps S {_}.

(** ** Patterns *)

(** Whether a pattern matches; a malformed one does not. *)
Definition glob (pattern name : string) : bool := match Match pattern name with Some b => b | None => false end.

(** ** Paths below a directory *)

Notation segs := (Forall (λ c, segment c = true)).

Lemma unsplit_seps c cs : unsplit true (c :: cs) = EmptyString +:+ seps slash (c :: cs).
Proof. unfold unsplit. by rewrite Join_seps. Qed.

Lemma Split_unsplit cs : cs ≠ [] → segs cs → Split (unsplit true cs) slash = EmptyString :: cs.
Proof.
  intros Hne Hc. destruct cs as [|c cs]; [done|]. rewrite unsplit_seps. apply Split_join. constructor; [done|by apply segments_no_slash].
Qed.

Lemma clean_comps_unsplit cs : segs cs → clean_comps (unsplit true cs) = cs.
Proof.
  intros Hc. unfold clean_comps. rewrite rooted_unsplit. destruct cs as [|c cs]; [done|].
  rewrite Split_unsplit by done. cbn [fold_left]. change (clean_step true [] EmptyString) with (@nil string).
  change (fold_left (clean_step true) cs (clean_step true [] c)) with (fold_left (clean_step true) (c :: cs) []).
  rewrite clean_segments by done. by rewrite app_nil_r, rev_involutive.
Qed.

Lemma strip_common_app xs b t : strip_common (xs ++ b) (xs ++ t) = strip_common b t.
Proof. induction xs as [|x xs IH]; [done|]. cbn. by rewrite String.eqb_refl. Qed.

(** The relative path of what is below a directory, and back. *)
Lemma Rel_below base rel : segs base → segs rel → rel ≠ [] → Rel (unsplit true base) (unsplit true (base ++ rel)) = Some (Join rel "/").
Proof.
  intros Hb Hr Hne. unfold Rel. rewrite !rooted_unsplit. cbn [Bool.eqb negb].
  rewrite !clean_comps_unsplit by (done || by apply Forall_app). rewrite <- (app_nil_r base) at 1. rewrite strip_common_app.
  destruct rel as [|r rel]; [done|]. cbn. done.
Qed.

Lemma join_below base rel : segs base → segs rel → rel ≠ [] → PathJoin (unsplit true base) (Join rel "/") = unsplit true (base ++ rel).
Proof. intros Hb Hr Hne. destruct rel as [|r rel]; [done|]. by apply PathJoin_segments. Qed.

(** The prefix of a directory is that of its components. *)
Lemma below_prefix base cs : base ≠ [] → segs base → segs cs → HasPrefix (unsplit true cs) (unsplit true base +:+ "/") = true → ∃ rel, rel ≠ [] ∧ cs = base ++ rel.
Proof.
  intros Hne Hb Hc H. unfold HasPrefix in H. apply prefix_split in H as [t Ht].
  rewrite str_app_assoc in Ht. cbn [String.append] in Ht.
  assert (Split (unsplit true cs) slash = (EmptyString :: base) ++ Split t slash) as E.
  { rewrite Ht. destruct base as [|b base]; [done|]. rewrite unsplit_seps.
    destruct (Split_inv t slash) as (w & ws & Ew & Es & Hws). rewrite Ew, Es.
    assert ((EmptyString +:+ seps slash (b :: base)) +:+ ("/" +:+ (w +:+ seps slash ws)) = EmptyString +:+ seps slash ((b :: base) ++ w :: ws)) as ->
      by (rewrite seps_app; reflexivity).
    apply Split_join. constructor; [done|]. apply Forall_app. split; [by apply segments_no_slash|done]. }
  destruct cs as [|c cs].
  - exfalso. cbn in E. destruct base as [|b base]; [done|]. injection E as <- _. apply Forall_cons_iff in Hb as [Hb _]. by cbn in Hb.
  - rewrite Split_unsplit in E by done. injection E as E. exists (Split t slash). split; [|done].
    by destruct (Split_inv t slash) as (w & ws & -> & _).
Qed.

(** Neither directory lies in the other. *)
Definition apart (a b : list string) : Prop := ¬ (∃ l, b = a ++ l) ∧ ¬ (∃ l, a = b ++ l).

Lemma apart_paths a b ra rb : apart a b → segs (a ++ ra) → segs (b ++ rb) → unsplit true (a ++ ra) ≠ unsplit true (b ++ rb).
Proof.
  intros [H1 H2] Ha Hb E. apply unsplit_inj in E; [|done|done].
  apply app_eq_app in E as (l & [[E _]|[E _]]); eauto.
Qed.

(** Every file has a clean absolute path. *)
Definition tidy {S} `{!FileSystem S} (s : S) : Prop := ∀ q, is_Some (files s !! q) → ∃ cs, segs cs ∧ q = unsplit true cs.

Lemma Join_rel_inj r r' : segs r → segs r' → Join r "/" = Join r' "/" → r = r'.
Proof. intros H1 H2 E. apply unsplit_inj; [done..|]. unfold unsplit. by rewrite E. Qed.

Lemma walked_files base {S} `{!FileSystem S} `{!FileSystemLaws S} (s : S) e n : Forall (λ e, is_ok (we_info e) = true) (Walk (unsplit true base) s) → tidy s → segs base → base ≠ [] → e ∈ Walk (unsplit true base) s → we_info e = Ok (false, n) →
  ∃ r d, segs r ∧ r ≠ [] ∧ we_path e = unsplit true (base ++ r) ∧ files s !! unsplit true (base ++ r) = Some d ∧ n = Z.of_nat (String.length d).
Proof.
  intros Hok Ht Hb Hb0. destruct e as [q i]. cbn. intros He ->. apply Walk_files in He as (Hp & d & Hd & Hn); [|done..].
  destruct (Ht q) as (cs & Hcs & ->); [eauto|]. apply below_prefix in Hp as (r & Hne & ->); [|done..].
  exists r, d. apply Forall_app in Hcs as [_ ?]. done.
Qed.

Lemma file_walked base {S} `{!FileSystem S} `{!FileSystemLaws S} (s : S) r d : Forall (λ e, is_ok (we_info e) = true) (Walk (unsplit true base) s) → segs base → base ≠ [] → segs r → r ≠ [] → files s !! unsplit true (base ++ r) = Some d →
  mkEntry (unsplit true (base ++ r)) (Ok (false, Z.of_nat (String.length d))) ∈ Walk (unsplit true base) s.
Proof.
  intros Hok Hb Hb0 Hr Hne Hd. apply Walk_files; [done..|]. split; [|eauto]. destruct r as [|x r]; [done|]. apply prefix_spec. exists (Join (x :: r) "/").
  destruct base as [|b base]; [done|]. cbn [app]. rewrite !unsplit_seps, app_comm_cons, seps_app, Join_seps, !str_app_assoc. done.
Qed.

(** ** Incremental backups ([maven_incremental_backup.go]) *)

Record BackupMetadata := mkBackup {
  LastBackupTime : instant; FileChecksums : gmap string string; BackupID : string; TotalFiles : Z; TotalSize : Z
}.

Record IncrementalBackup := mkIncremental { sourceDir : string; backupDir : string; metadataFile : string; excludePattern : list string }.

Definition NewIncrementalBackup (sourceDir backupDir : string) : IncrementalBackup :=
  mkIncremental sourceDir backupDir (PathJoin backupDir ".backup-metadata.json")
    ["*.tmp"; "*.lock"; "*.part"; "_remote.repositories"; "_maven.repositories"]%string.

Definition shouldExclude (b : IncrementalBackup) (path : string) : bool := existsb (λ p, glob p (Base path)) (excludePattern b).

(** What goes wrong with one file: it has no relative path, or the system refuses. *)
Inductive file_error := NotRelative | Os (e : os_err).
Inductive backup_error :=
| LoadFailed (e : option os_err) | CopyFailed (count : nat) (path : string) (e : file_error) | MarshalFailed | SaveFailed (e : os_err)
| VerifyFailed (path : string) (e : os_err) | ChecksumMismatch (path : string) | RestoreFailed (path : string) (e : file_error).

Section backup.
Context {S : Type} `{!FileSystem S} `{!Codec BackupMetadata}.

Definition no_metadata : BackupMetadata := mkBackup zero_time ∅ EmptyString 0 0.

(** [loadMetadata]: without a file there was no backup yet. *)
Definition loadMetadata (b : IncrementalBackup) (s : S) : result backup_error BackupMetadata :=
  match ReadFile (metadataFile b) s with
  | Err ErrNotExist => Ok no_metadata
  | Err e => Err (LoadFailed (Some e))
  | Ok data => match json_unmarshal data with Some m => Ok m | None => Err (LoadFailed None) end
  end.

Definition saveMetadata (b : IncrementalBackup) (m : BackupMetadata) (s : S) : option backup_error * S :=
  match json_marshal m with
  | None => (Some MarshalFailed, s)
  | Some data =>
      match MkdirAll (backupDir b) s with
      | (Some e, s) => (Some (SaveFailed e), s)
      | (None, s) => let '(e, s) := WriteFile (metadataFile b) data s in (SaveFailed <$> e, s)
      end
  end.

Definition calculateChecksum (path : string) (s : S) : result os_err string :=
  match OpenFile path s with Ok d => Ok (md5_hex d) | Err e => Err e end.

Definition backupSingleFile (b : IncrementalBackup) (srcPath : string) (s : S) : option file_error * S :=
  match Rel (sourceDir b) srcPath with
  | None => (Some NotRelative, s)
  | Some relPath => let '(e, s) := copy_file srcPath (PathJoin (backupDir b) relPath) s in (Os <$> e, s)
  end.

(** ** The walk over the source *)

(** A file that is counted: its checksum, where it is taken, and whether it has changed. *)
Record visited := mkVisited { v_path : string; v_rel : string; v_sum : option string; v_needs : bool; v_size : Z }.

Definition visit (b : IncrementalBackup) (useChecksum : bool) (old : BackupMetadata) (s : S) (e : walk_entry) : option visited :=
  match we_info e with
  | Err _ | Ok (true, _) => None
  | Ok (false, size) =>
      let path := we_path e in
      if shouldExclude b path then None
      else
        match Rel (sourceDir b) path with
        | None => None
        | Some rel =>
            if useChecksum then
              match calculateChecksum path s with
              | Err _ => Some (mkVisited path rel None true size)
              | Ok c => Some (mkVisited path rel (Some c) (negb (bool_decide (FileChecksums old !! rel = Some c))) size)
              end
            else Some (mkVisited path rel None (time_after (ModTime path s) (LastBackupTime old)) size)
        end
  end.

Definition new_sums (vs : list visited) : gmap string string :=
  foldl (λ m v, match v_sum v with Some c => <[v_rel v := c]> m | None => m end) ∅ vs.

(** ** Copying *)

(** The files that could not be copied, in the order in which the errors came. *)
Fixpoint backupFiles (b : IncrementalBackup) (l : list string) (s : S) : list (string * file_error) * S :=
  match l with
  | [] => ([], s)
  | p :: l =>
      let '(e, s) := backupSingleFile b p s in
      let '(errs, s) := backupFiles b l s in (match e with Some e => (p, e) :: errs | None => errs end, s)
  end.

(** [order]: how the workers take the files; [now] and [unix]: the two readings of the clock. *)
Definition PerformBackup (b : IncrementalBackup) (useChecksum : option bool) (order : list string → list string) (now : instant) (unix : Z) (s : S)
    : result backup_error BackupMetadata * S :=
  let useChecksum := default true useChecksum in
  match loadMetadata b s with
  | Err e => (Err e, s)
  | Ok old =>
      let vs := omap (visit b useChecksum old s) (Walk (sourceDir b) s) in
      let m := mkBackup now (new_sums vs) ("backup-" +:+ Itoa unix) (Z.of_nat (length vs)) (foldr Z.add 0 (v_size <$> vs)) in
      let '(errs, s) := backupFiles b (order (v_path <$> filter (λ v, v_needs v = true) vs)) s in
      match errs with
      | (p, e) :: _ => (Err (CopyFailed (length errs) p e), s)
      | [] => match saveMetadata b m s with (Some e, s) => (Err e, s) | (None, s) => (Ok m, s) end
      end
  end.

(** ** Restoring *)

(** One file of [Restore]; [Some] error ends the walk. *)
Definition restore_file (b : IncrementalBackup) (m : BackupMetadata) (targetDir : string) (overwrite verify : bool) (e : walk_entry) (s : S)
    : option backup_error * S :=
  let path := we_path e in
  match we_info e with
  | Err _ | Ok (true, _) => (None, s)
  | Ok (false, _) =>
      if HasSuffix path ".backup-metadata.json" then (None, s)
      else
        match Rel (backupDir b) path with
        | None => (None, s)
        | Some rel =>
            if bool_decide (StatFile (PathJoin targetDir rel) s = None) && negb overwrite then (None, s)
            else
              let copy s := let '(e, s) := backupSingleFile b path s in (RestoreFailed path <$> e, s) in
              match (if verify then FileChecksums m !! rel else None) with
              | None => copy s
              | Some c =>
                  match calculateChecksum path s with
                  | Err e => (Some (VerifyFailed path e), s)
                  | Ok c' => if String.eqb c' c then copy s else (Some (ChecksumMismatch path), s)
                  end
              end
        end
  end.

Fixpoint restore_files (b : IncrementalBackup) (m : BackupMetadata) (targetDir : string) (overwrite verify : bool) (l : list walk_entry) (s : S)
    : option backup_error * S :=
  match l with
  | [] => (None, s)
  | e :: l =>
      match restore_file b m targetDir overwrite verify e s with
      | (Some err, s) => (Some err, s)
      | (None, s) => restore_files b m targetDir overwrite verify l s
      end
  end.

Definition Restore (b : IncrementalBackup) (targetDir : string) (options : option (bool * bool)) (s : S) : option backup_error * S :=
  let '(overwrite, verify) := default (false, true) options in
  match loadMetadata b s with
  | Err e => (Some e, s)
  | Ok m => restore_files b m targetDir overwrite verify (Walk (backupDir b) s) s
  end.

Definition GetBackupInfo (b : IncrementalBackup) (s : S) : result backup_error BackupMetadata := loadMetadata b s.
Definition CleanOldBackups (b : IncrementalBackup) (keepDays : Z) (s : S) : option backup_error * S := (None, s).

(** ** A successful backup *)

Context `{!FileSystemLaws S} (Hclose : close_keeps S).
Context (src bak : list string) (Hsrc : segs src) (Hbak : segs bak) (Hsrc0 : src ≠ []) (Hbak0 : bak ≠ []) (Hapart : apart src bak).

Definition backup_of : IncrementalBackup := NewIncrementalBackup (unsplit true src) (unsplit true bak).
Definition in_source (rel : list string) : string := unsplit true (src ++ rel).
Definition in_backup (rel : list string) : string := unsplit true (bak ++ rel).
Definition rel_ok (rel : list string) : Prop := segs rel ∧ rel ≠ [].

Lemma single_file rel s : rel_ok rel → backupSingleFile backup_of (in_source rel) s =
  (Os <$> (copy_file (in_source rel) (in_backup rel) s).1, (copy_file (in_source rel) (in_backup rel) s).2).
Proof.
  intros [Hr Hne]. unfold backupSingleFile, in_source, in_backup. cbn [sourceDir backupDir backup_of NewIncrementalBackup]. rewrite Rel_below, join_below by done.
  by destruct (copy_file _ _ s).
Qed.

Lemma in_apart r r' : rel_ok r → rel_ok r' → in_source r ≠ in_backup r'.
Proof. intros [H1 _] [H2 _]. apply apart_paths; [done|by apply Forall_app..]. Qed.

Lemma in_backup_inj r r' : rel_ok r → rel_ok r' → in_backup r = in_backup r' → r = r'.
Proof. intros [H1 _] [H2 _] E. apply unsplit_inj in E; [|by apply Forall_app..]. by apply app_inv_head in E. Qed.

(** When nothing fails, every file of the list is in the backup, and nothing else has changed. *)
Lemma backupFiles_ok l s : Forall rel_ok l → (∀ r, r ∈ l → is_Some (files s !! in_source r)) →
  (backupFiles backup_of (in_source <$> l) s).1 = [] →
  let s' := (backupFiles backup_of (in_source <$> l) s).2 in
  (∀ r, r ∈ l → files s' !! in_backup r = files s !! in_source r) ∧ (∀ q, q ∉ in_backup <$> l → files s' !! q = files s !! q).
Proof.
  revert s. induction l as [|r l IH]; intros s Hl Hs; [by split; [intros ? ?%not_elem_of_nil|]|].
  apply Forall_cons_iff in Hl as [Hr Hl]. cbn [fmap list_fmap backupFiles]. rewrite single_file by done.
  destruct (Hs r) as [d Hd]; [by left|].
  pose proof (copy_ok (in_source r) (in_backup r) s d Hclose) as Hok. destruct (copy_file _ _ s) as [[e|] s1] eqn:E; cbn [fst snd fmap option_fmap option_map] in *;
    [by destruct (backupFiles _ _ s1) as [? ?]|].
  specialize (Hok eq_refl Hd). rewrite decide_False in Hok by (by apply in_apart).
  assert (∀ r', rel_ok r' → files s1 !! in_source r' = files s !! in_source r') as Hsame by (intros r' Hr'; rewrite Hok, lookup_insert_ne; [done|]; intros H; by apply (in_apart r' r)).
  specialize (IH s1 Hl). destruct (backupFiles _ (in_source <$> l) s1) as [errs s2]. cbn [fst snd] in *. intros ->.
  destruct IH as [IH1 IH2]; [|done|].
  { intros r' Hr'. rewrite Hsame by (eapply list.Forall_forall in Hl; eauto). apply Hs. by right. }
  split.
  - intros r' [->|Hr']%elem_of_cons.
    + destruct (decide (r ∈ l)) as [Hin|Hnin]; [by rewrite IH1, Hsame|].
      rewrite IH2, Hok, lookup_insert_eq by (intros (r' & E' & Hr')%list_elem_of_fmap; apply in_backup_inj in E'; [by subst|done|eapply list.Forall_forall in Hl; eauto]).
      by rewrite Hd.
    + rewrite IH1 by done. apply Hsame. eapply list.Forall_forall in Hl; eauto.
  - intros q Hq. rewrite not_elem_of_cons in Hq. destruct Hq as [Hq1 Hq2]. rewrite IH2, Hok by done. by rewrite lookup_insert_ne.
Qed.
(** ** What the walk finds *)

Context (s : S) (Htidy : tidy s) (Hwalk : Forall (λ e, is_ok (we_info e) = true) (Walk (unsplit true src) s)).

(** The visits of a walk, with checksums. *)
Definition visits (old : BackupMetadata) : list visited := omap (visit backup_of true old s) (Walk (unsplit true src) s).

Lemma visit_inv old v : v ∈ visits old → ∃ rel d, rel_ok rel ∧ v_path v = in_source rel ∧ v_rel v = Join rel "/" ∧ files s !! in_source rel = Some d ∧
  (v_sum v = None ∧ v_needs v = true ∨ v_sum v = Some (md5_hex d) ∧ (v_needs v = false → FileChecksums old !! Join rel "/" = Some (md5_hex d))).
Proof.
  unfold visits. rewrite list_elem_of_omap. intros (e & He & Hv). unfold visit in Hv. destruct (we_info e) as [[[|] n]|] eqn:Ei; try done.
  destruct (walked_files src s e n Hwalk Htidy Hsrc Hsrc0 He Ei) as (rel & d & Hr & Hne & Hp & Hd & _). change (unsplit true (src ++ rel)) with (in_source rel) in Hp, Hd. exists rel, d. destruct (shouldExclude _ _); [done|].
  cbn [sourceDir backup_of NewIncrementalBackup] in Hv. rewrite Hp in Hv. unfold in_source in Hv at 1. rewrite Rel_below in Hv by done.
  unfold calculateChecksum in Hv. destruct (OpenFile _ s) as [d'|] eqn:Eo; injection Hv as <-; cbn; split_and!; try done; [right|by left].
  apply OpenFile_ok in Eo as [Eo|[Eo _]]; [|congruence]. assert (d' = d) as -> by congruence. split; [done|].
  intros H. apply negb_false_iff, bool_decide_eq_true in H. done.
Qed.

Lemma visit_all old rel d : rel_ok rel → files s !! in_source rel = Some d → shouldExclude backup_of (in_source rel) = false →
  ∃ v, v ∈ visits old ∧ v_path v = in_source rel.
Proof.
  intros [Hr Hne] Hd Hex. assert (mkEntry (in_source rel) (Ok (false, Z.of_nat (String.length d))) ∈ Walk (unsplit true src) s) as Hin.
  { by apply file_walked. }
  destruct (visit backup_of true old s (mkEntry (in_source rel) (Ok (false, Z.of_nat (String.length d))))) as [v|] eqn:Ev.
  - exists v. split; [apply list_elem_of_omap; eauto|]. unfold visit in Ev. cbn [we_info we_path] in Ev. rewrite Hex in Ev.
    destruct (Rel _ _); [|done]. destruct (calculateChecksum _ s); by injection Ev as <-.
  - exfalso. unfold visit in Ev. cbn [we_info we_path sourceDir backup_of NewIncrementalBackup] in Ev. change (mkIncremental _ _ _ _) with backup_of in Ev. rewrite Hex in Ev.
    unfold in_source in Ev at 1. rewrite Rel_below in Ev by done. by destruct (calculateChecksum _ s).
Qed.

Lemma new_sums_inv vs rel c : new_sums vs !! rel = Some c → ∃ v, v ∈ vs ∧ v_rel v = rel ∧ v_sum v = Some c.
Proof.
  unfold new_sums. induction vs as [|v vs IH] using rev_ind; [done|]. rewrite foldl_app. cbn [foldl]. destruct (v_sum v) as [c'|] eqn:Ev.
  - rewrite lookup_insert_Some. intros [[<- <-]|[_ H]]; [exists v|destruct (IH H) as (w & ? & ?); exists w]; rewrite elem_of_app, list_elem_of_singleton; auto.
  - intros H. destruct (IH H) as (w & ? & ?). exists w. rewrite elem_of_app. auto.
Qed.

Lemma relative_list ps : Forall (λ p, ∃ r d, rel_ok r ∧ p = in_source r ∧ files s !! in_source r = Some d) ps →
  ∃ l, ps = in_source <$> l ∧ Forall rel_ok l ∧ ∀ r, r ∈ l → is_Some (files s !! in_source r).
Proof.
  induction 1 as [|p ps (r & d & Hr & -> & Hd) _ (l & -> & Hl & Hs)]; [exists []; split_and!; [done|constructor|by intros ? ?%not_elem_of_nil]|].
  exists (r :: l). split_and!; [done|by constructor|]. intros r' [->|H]%elem_of_cons; eauto.
Qed.

(** ** What a backup holds *)

(** Every checksum of the metadata is that of a file of the backup. *)
Definition consistent (m : BackupMetadata) (t : S) : Prop :=
  ∀ rel c, rel_ok rel → FileChecksums m !! Join rel "/" = Some c → ∃ d, files t !! in_backup rel = Some d ∧ md5_hex d = c.

Definition meta_rel : list string := [".backup-metadata.json"%string].
Lemma metadata_path : metadataFile backup_of = in_backup meta_rel.
Proof. unfold backup_of, in_backup. cbn [metadataFile NewIncrementalBackup]. apply (join_below bak meta_rel); [done|by repeat constructor|done]. Qed.

End backup.

(** ** Restoring *)

Section restore.
Context {S : Type} `{!FileSystem S} `{!Codec BackupMetadata}.

(** Where existing files may be overwritten, a restoration does the same whatever
    directory it is told to restore to. *)
Theorem restore_ignores_target b target target' verify (s : S) : Restore b target (Some (true, verify)) s = Restore b target' (Some (true, verify)) s.
Proof.
  unfold Restore. cbn [from_option]. unfold id. destruct (loadMetadata b s) as [m|]; [|done].
  assert (∀ e t, restore_file b m target true verify e t = restore_file b m target' true verify e t) as Hf.
  { intros e t. unfold restore_file. destruct (we_info e) as [[[|] n]|]; try done. destruct (HasSuffix _ _); [done|]. destruct (Rel _ _); [|done]. by rewrite !andb_false_r. }
  generalize (Walk (backupDir b) s). intros l. revert s. induction l as [|e l IH]; intros s; [done|]. cbn. rewrite Hf.
  destruct (restore_file b m target' true verify e s) as [[err|] s1]; [done|]. apply IH.
Qed.

Context `{!FileSystemLaws S} (Hclose : close_keeps S).

(** Both directories lie equally deep below where their paths part. *)
Context (pre us vs : list string) (Hpre : segs pre) (Hus : segs us) (Hvs : segs vs).
Context (Hhead : head us ≠ head vs) (Hlen : length us = length vs) (Hvs0 : vs ≠ []).

Definition sibling_backup : IncrementalBackup := NewIncrementalBackup (unsplit true (pre ++ us)) (unsplit true (pre ++ vs)).
Definition backed_up (rel : list string) : string := unsplit true ((pre ++ vs) ++ rel).

Lemma climb n : (n <= length vs)%nat → fold_left (clean_step true) (replicate n ".."%string) (rev (pre ++ vs)) = drop n (rev vs) ++ rev pre.
Proof.
  rewrite rev_app_distr. assert (segs (rev vs)) as Hr by (by apply Forall_rev). rewrite <- (length_rev vs). revert Hr. generalize (rev vs). clear -n.
  induction n as [|n IH]; intros l Hl Hn; [done|]. destruct l as [|x l]; [cbn in Hn; lia|]. apply Forall_cons_iff in Hl as [Hx Hl].
  cbn [replicate fold_left app drop]. rewrite <- IH by (done || (cbn in Hn; lia)). f_equal. cbn. apply segment_not_dotdot in Hx.
  destruct (String.eqb_spec x ".."); [done|]. done.
Qed.

(** A file of the backup is copied onto itself. *)
Lemma restored_onto_itself rel : segs rel → rel ≠ [] →
  Rel (unsplit true (pre ++ us)) (backed_up rel) = Some (Join (replicate (length vs) ".."%string ++ vs ++ rel) "/") ∧
  PathJoin (unsplit true (pre ++ vs)) (Join (replicate (length vs) ".."%string ++ vs ++ rel) "/") = backed_up rel.
Proof.
  intros Hr Hne. split.
  - unfold Rel, backed_up. rewrite !rooted_unsplit. cbn [Bool.eqb negb]. rewrite !clean_comps_unsplit by (rewrite ?Forall_app; done).
    rewrite <- app_assoc, strip_common_app.
    assert (strip_common us (vs ++ rel) = (us, vs ++ rel)) as ->.
    { destruct us as [|u us']; [done|]. destruct vs as [|v vs']; [done|]. cbn. destruct (String.eqb_spec u v) as [->|]; [by cbn in Hhead|done]. }
    rewrite bool_decide_false; [|].
    + rewrite Hlen. destruct (replicate _ _ ++ _) eqn:E; [|done]. apply app_eq_nil in E as [_ E]. by apply app_eq_nil in E as [-> _].
    + destruct us as [|u us']; [done|]. cbn. intros [= ->]. by apply Forall_cons_iff in Hus as [? _].
  - assert (∃ c cs, replicate (length vs) ".."%string ++ vs ++ rel = c :: cs) as (c & cs & E) by (destruct vs; [done|]; cbn; eauto).
    rewrite PathJoin_fold by (by apply Forall_app). rewrite E, Join_seps, Split_join, <- E.
    + rewrite fold_left_app, climb, drop_ge by (rewrite ?length_rev; lia). cbn [app]. rewrite clean_segments by (by apply Forall_app).
      unfold backed_up. by rewrite rev_app_distr, !rev_involutive, <- app_assoc.
    + rewrite <- E. apply Forall_app. split; [|apply segments_no_slash; by apply Forall_app]. apply Forall_replicate. done.
Qed.

Lemma restore_step m target verify rel n (t : S) : segs rel → rel ≠ [] → is_Some (files t !! backed_up rel) →
  (restore_file sibling_backup m target true verify (mkEntry (backed_up rel) (Ok (false, n))) t).1 = None →
  files (restore_file sibling_backup m target true verify (mkEntry (backed_up rel) (Ok (false, n))) t).2 =
  if HasSuffix (backed_up rel) ".backup-metadata.json" then files t else <[backed_up rel := EmptyString]> (files t).
Proof.
  intros Hr Hne [d Hd]. unfold restore_file. cbn [we_info we_path]. destruct (HasSuffix _ _); [done|].
  cbn [backupDir sibling_backup NewIncrementalBackup]. assert (Rel (unsplit true (pre ++ vs)) (backed_up rel) = Some (Join rel "/")) as -> by (apply Rel_below; [by apply Forall_app|done..]). rewrite andb_false_r.
  assert (∀ u, files u = files t → let r := backupSingleFile sibling_backup (backed_up rel) u in r.1 = None → files r.2 = <[backed_up rel := EmptyString]> (files t)) as Hcopy.
  { intros u Hu. unfold backupSingleFile. cbn [sourceDir backupDir sibling_backup NewIncrementalBackup].
    destruct (restored_onto_itself rel Hr Hne) as [-> ->]. pose proof (copy_ok (backed_up rel) (backed_up rel) u d Hclose) as Hok.
    destruct (copy_file _ _ u) as [[e|] u']; [done|]. cbn in *. rewrite Hu in Hok. rewrite decide_True in Hok by done. auto. }
  specialize (Hcopy t eq_refl). cbn zeta in Hcopy. destruct (backupSingleFile sibling_backup (backed_up rel) t) as [[e|] t']; cbn in Hcopy |- *.
  - destruct verify; [|done]. destruct (FileChecksums m !! _); [|done]. destruct (calculateChecksum _ t); [|done]. by destruct (String.eqb _ _).
  - destruct verify; [|auto]. destruct (FileChecksums m !! _); [|auto]. destruct (calculateChecksum _ t); [|done]. destruct (String.eqb _ _); [auto|done].
Qed.

(** What a walk over the backup gives: files that are there, or what is skipped. *)
Definition walk_ok (t : S) (e : walk_entry) : Prop :=
  match we_info e with
  | Ok (false, _) => ∃ rel, segs rel ∧ rel ≠ [] ∧ we_path e = backed_up rel ∧ is_Some (files t !! we_path e)
  | _ => True
  end.

Lemma restore_run m target verify l (s : S) : Forall (walk_ok s) l → (restore_files sibling_backup m target true verify l s).1 = None →
  let s' := (restore_files sibling_backup m target true verify l s).2 in
  (∀ q, files s' !! q = files s !! q ∨ files s' !! q = Some EmptyString ∧ ∃ rel, q = backed_up rel) ∧
  (∀ e n, e ∈ l → we_info e = Ok (false, n) → HasSuffix (we_path e) ".backup-metadata.json" = false → files s' !! we_path e = Some EmptyString).
Proof.
  revert s. induction l as [|e l IH]; intros s Hl; [cbn; split; [by left|by intros e n ?%not_elem_of_nil]|].
  apply Forall_cons_iff in Hl as [He Hl]. cbn [restore_files].
  assert ((restore_file sibling_backup m target true verify e s).1 = None →
    files (restore_file sibling_backup m target true verify e s).2 = files s ∧ (∀ n, we_info e = Ok (false, n) → HasSuffix (we_path e) ".backup-metadata.json" = true) ∨
    ∃ rel, we_path e = backed_up rel ∧ files (restore_file sibling_backup m target true verify e s).2 = <[we_path e := EmptyString]> (files s)) as Hstep.
  { destruct e as [q i]. unfold walk_ok in He. cbn [we_path we_info] in He. destruct i as [[[|] n]|]; [by left|..|by left].
    destruct He as (rel & Hr & Hne & -> & Hs). intros H. pose proof (restore_step m target verify rel n s Hr Hne Hs H) as Hr2. rewrite Hr2. cbn [we_path we_info].
    destruct (HasSuffix _ _) eqn:Es; [left; split; [done|]; intros; done|right; eauto]. }
  destruct (restore_file _ _ _ _ _ e s) as [[err|] s1]; [done|]. cbn [fst snd] in Hstep. specialize (Hstep eq_refl).
  intros Hrun. assert (∀ q, is_Some (files s !! q) → is_Some (files s1 !! q)) as Hmono.
  { intros q Hq. destruct Hstep as [[-> _]|(rel & _ & ->)]; [done|]. destruct (decide (q = we_path e)) as [->|]; [rewrite lookup_insert_eq; eauto|by rewrite lookup_insert_ne]. }
  destruct (IH s1) as [IH1 IH2]; [|done|].
  { eapply list.Forall_impl; [exact Hl|]. intros [q i]. unfold walk_ok. cbn. destruct i as [[[|] n]|]; try done. intros (rel & ? & ? & ? & ?). exists rel. auto. }
  split.
  - intros q. destruct (IH1 q) as [->|]; [|by right]. destruct Hstep as [[-> _]|(rel & Hp & ->)]; [by left|].
    destruct (decide (q = we_path e)) as [->|]; [right; rewrite lookup_insert_eq; eauto|left; by rewrite lookup_insert_ne].
  - intros e' n [->|Hin]%elem_of_cons Hi Hs; [|by eapply IH2].
    destruct (IH1 (we_path e)) as [->|[-> _]]; [|done]. destruct Hstep as [[_ Hsuf]|(rel & Hp & ->)]; [rewrite (Hsuf n Hi) in Hs; done|]. by rewrite lookup_insert_eq.
Qed.

(** When source and backup lie equally deep below where their paths part, a restoration
    without an error leaves every file of the backup empty, and changes no other file: each
    file of the backup is copied onto itself. *)
Theorem restore_restores_nothing target verify (s s' : S) : tidy s → Forall (λ e, is_ok (we_info e) = true) (Walk (unsplit true (pre ++ vs)) s) →
  Restore sibling_backup target (Some (true, verify)) s = (None, s') →
  (∀ rel, segs rel → rel ≠ [] → is_Some (files s !! backed_up rel) → HasSuffix (backed_up rel) ".backup-metadata.json" = false →
     files s' !! backed_up rel = Some EmptyString) ∧
  (∀ q, (∀ rel, q ≠ backed_up rel) → files s' !! q = files s !! q).
Proof.
  intros Htidy Hwalk. unfold Restore. cbn [from_option]. unfold id. destruct (loadMetadata sibling_backup s) as [m|]; [|done].
  change (backupDir sibling_backup) with (unsplit true (pre ++ vs)).
  assert (segs (pre ++ vs)) as Hb by (by apply Forall_app). assert (pre ++ vs ≠ []) as Hb0 by (destruct pre; [done|done]).
  assert (Forall (walk_ok s) (Walk (unsplit true (pre ++ vs)) s)) as Hl.
  { apply list.Forall_forall. intros [q [[[|] n]|]] He; try done. unfold walk_ok. cbn [we_path we_info].
    destruct (walked_files (pre ++ vs) s _ n Hwalk Htidy Hb Hb0 He eq_refl) as (rel & d & ? & ? & Hp & Hd & _). cbn in Hp. exists rel. rewrite Hp. split_and!; eauto. }
  intros Hr. pose proof (restore_run m target verify _ s Hl) as Hrun. rewrite Hr in Hrun. destruct (Hrun eq_refl) as [H1 H2]. cbn [snd] in *. split.
  - intros rel Hrel Hne [d Hd] Hsuf. apply (H2 (mkEntry (backed_up rel) (Ok (false, Z.of_nat (String.length d)))) (Z.of_nat (String.length d))); [|reflexivity|exact Hsuf].
    by apply file_walked.
  - intros q Hq. destruct (H1 q) as [|[_ [rel ->]]]; [done|]. by destruct (Hq rel).
Qed.
End restore.

(** ** Copying one tree onto another ([maven_sync.go]) *)

Inductive SyncMode := SyncModeMirror | SyncModeBackup | SyncModeIncremental.
#[export] Instance SyncMode_eq_dec : EqDecision SyncMode.
Proof. solve_decision. Defined.

Record SyncOptions := mkSyncOptions {
  Mode : SyncMode; VerifyChecksum : bool; ConfirmDelete : bool; ExcludePatterns : list string; Workers : Z; DryRun : bool; BandwidthLimit : Z
}.
Definition default_options : SyncOptions := mkSyncOptions SyncModeBackup false false [] 4 false 0.

Record SyncResult := mkSyncResult { FilesCopied : Z; FilesDeleted : Z; FilesSkipped : Z; BytesCopied : Z; Errors : list (string * os_err) }.
Definition no_result : SyncResult := mkSyncResult 0 0 0 0 [].

Definition sync_copied (bytes : Z) (r : SyncResult) : SyncResult := mkSyncResult (FilesCopied r + 1) (FilesDeleted r) (FilesSkipped r) (BytesCopied r + bytes) (Errors r).
Definition sync_deleted (r : SyncResult) : SyncResult := mkSyncResult (FilesCopied r) (FilesDeleted r + 1) (FilesSkipped r) (BytesCopied r) (Errors r).
Definition sync_skipped (r : SyncResult) : SyncResult := mkSyncResult (FilesCopied r) (FilesDeleted r) (FilesSkipped r + 1) (BytesCopied r) (Errors r).
Definition sync_error (rel : string) (e : os_err) (r : SyncResult) : SyncResult :=
  mkSyncResult (FilesCopied r) (FilesDeleted r) (FilesSkipped r) (BytesCopied r) (Errors r ++ [(rel, e)]).

Definition defaultExcludes : list string :=
  ["*.tmp"; "*.lock"; "*.part"; "_remote.repositories"; "_maven.repositories"; "resolver-status.properties"; "*.lastUpdated"]%string.
Definition excludes (path : string) (patterns : list string) : bool :=
  existsb (λ p, glob p (Base path) || Contains path p) (defaultExcludes ++ patterns).

Section sync.
Context {S : Type} `{!FileSystem S}.

Definition calculateFileChecksum (path : string) (s : S) : result os_err string :=
  match OpenFile path s with Ok d => Ok (sha256_hex d) | Err e => Err e end.

(** A file of the source as the walk met it. *)
Record source_file := mkSource { f_rel : string; f_size : Z; f_mtime : instant }.

(** [needsSync] of a file. *)
Definition needsSync (srcPath dstPath : string) (f : source_file) (o : SyncOptions) (s : S) : result os_err bool :=
  match StatFile dstPath s with
  | Some ErrNotExist => Ok true
  | Some e => Err e
  | None =>
      if negb (f_size f =? StatSize dstPath s) then Ok true
      else if bool_decide (Mode o = SyncModeIncremental) && time_after (f_mtime f) (ModTime dstPath s) then Ok true
      else if VerifyChecksum o then
        match calculateFileChecksum srcPath s with
        | Err e => Err e
        | Ok a => match calculateFileChecksum dstPath s with Err e => Err e | Ok b => Ok (negb (String.eqb a b)) end
        end
      else Ok false
  end.

(** One job of a worker. *)
Definition sync_file (source target : string) (o : SyncOptions) (f : source_file) (st : SyncResult * S) : SyncResult * S :=
  let '(r, s) := st in
  let src := PathJoin source (f_rel f) in
  let dst := PathJoin target (f_rel f) in
  match needsSync src dst f o s with
  | Err e => (sync_error (f_rel f) e r, s)
  | Ok false => (sync_skipped r, s)
  | Ok true =>
      if DryRun o then (sync_copied 0 r, s)
      else
        match copy_file src dst s with
        | (Some e, s) => (sync_error (f_rel f) e r, s)
        | (None, s) => (sync_copied (Z.of_nat (String.length (default EmptyString (files s !! dst)))) r, s)
        end
  end.

(** Without workers the jobs stay in their channel. *)
Definition syncFiles (source target : string) (o : SyncOptions) (jobs : list source_file) (st : SyncResult * S) : SyncResult * S :=
  if 0 <? Workers o then foldl (λ st f, sync_file source target o f st) st jobs else st.

Definition walk_source (source : string) (o : SyncOptions) (s : S) : list source_file :=
  omap (λ e, match we_info e with
             | Ok (false, size) =>
                 match Rel source (we_path e) with
                 | Some rel => if excludes rel (ExcludePatterns o) then None else Some (mkSource rel size (ModTime (we_path e) s))
                 | None => None
                 end
             | _ => None
             end) (Walk source s).

(** One file of the target. *)
Definition cleanup_file (target : string) (kept : list string) (o : SyncOptions) (st : SyncResult * S) (e : walk_entry) : SyncResult * S :=
  let '(r, s) := st in
  match we_info e with
  | Ok (false, _) =>
      match Rel target (we_path e) with
      | None => (r, s)
      | Some rel =>
          if existsb (String.eqb rel) kept || excludes rel (ExcludePatterns o) then (r, s)
          else if DryRun o then (sync_deleted r, s)
          else if ConfirmDelete o then (r, s)
          else match Remove (we_path e) s with (Some err, s) => (sync_error rel err r, s) | (None, s) => (sync_deleted r, s) end
      end
  | _ => (r, s)
  end.
Definition cleanupTarget (target : string) (kept : list string) (o : SyncOptions) (st : SyncResult * S) : SyncResult * S :=
  foldl (cleanup_file target kept o) st (Walk target st.2).

Inductive sync_failure := SourceError (e : os_err) | TargetError (e : os_err).

(** [order]: how the map of the source files is gone through. *)
Definition Sync (source target : string) (options : option SyncOptions) (order : list source_file → list source_file) (s : S)
    : result sync_failure SyncResult * S :=
  let o := default default_options options in
  match StatFile source s with
  | Some e => (Err (SourceError e), s)
  | None =>
      let '(e, s) := if DryRun o then (None, s) else MkdirAll target s in
      match e with
      | Some e => (Err (TargetError e), s)
      | None =>
          let fs := walk_source source o s in
          let st := syncFiles source target o (order fs) (no_result, s) in
          let st := if bool_decide (Mode o = SyncModeMirror) then cleanupTarget target (f_rel <$> fs) o st else st in
          (Ok st.1, st.2)
      end
  end.
End sync.

(** ** A mirror is a mirror *)

Section mirror.
Context {S : Type} `{!FileSystem S} `{!FileSystemLaws S} (Hclose : close_keeps S).
Context (src tgt : list string) (Hsrc : segs src) (Htgt : segs tgt) (Hsrc0 : src ≠ []) (Htgt0 : tgt ≠ []) (Hapart : apart src tgt).
Context (Hwalk : ∀ p (t : S), Forall (λ e, is_ok (we_info e) = true) (Walk p t)).

Definition src_path (rel : list string) : string := unsplit true (src ++ rel).
Definition tgt_path (rel : list string) : string := unsplit true (tgt ++ rel).

(** No directory stands where a file is to be. *)
Context (Hplain : ∀ r (t : S), segs r → r ≠ [] → is_Some (files t !! src_path r) → StatFile (tgt_path r) t = None → is_Some (files t !! tgt_path r)).

(** The same content, or another one that no comparison of the program tells apart. *)
Definition same (d d' : string) : Prop := d' = d ∨ String.length d' = String.length d ∧ sha256_hex d' = sha256_hex d.

Lemma src_tgt r r' : segs r → segs r' → src_path r ≠ tgt_path r'.
Proof. intros H1 H2. apply apart_paths; [done|by apply Forall_app..]. Qed.
Lemma tgt_inj r r' : segs r → segs r' → tgt_path r = tgt_path r' → r = r'.
Proof. intros H1 H2 E. apply unsplit_inj in E; [|by apply Forall_app..]. by apply app_inv_head in E. Qed.
Lemma src_join r : segs r → r ≠ [] → PathJoin (unsplit true src) (Join r "/") = src_path r.
Proof. intros. by apply join_below. Qed.
Lemma tgt_join r : segs r → r ≠ [] → PathJoin (unsplit true tgt) (Join r "/") = tgt_path r.
Proof. intros. by apply join_below. Qed.

Definition comparing (o : SyncOptions) : Prop := VerifyChecksum o = true ∧ DryRun o = false.

(** One job that adds no error makes the file of the target the same as that of the source. *)
Lemma sync_file_ok o r n mt d res (t : S) : comparing o → segs r → r ≠ [] → files t !! src_path r = Some d → n = Z.of_nat (String.length d) →
  let st := sync_file (unsplit true src) (unsplit true tgt) o (mkSource (Join r "/") n mt) (res, t) in
  (∃ x, Errors st.1 = Errors res ++ x) ∧
  (Errors st.1 = Errors res → (∃ d', files st.2 !! tgt_path r = Some d' ∧ same d d') ∧ ∀ q, q ≠ tgt_path r → files st.2 !! q = files t !! q).
Proof.
  intros [Hv Hdry] Hr Hne Hd ->. unfold sync_file. cbn [f_rel]. rewrite src_join, tgt_join by done.
  assert (∀ l : list (string * os_err), ∃ x, l = l ++ x) as Hnil by (intros l; exists []; by rewrite app_nil_r).
  assert (∀ e, Errors (sync_error (Join r "/") e res) = Errors res → False) as Herr.
  { intros e E. cbn in E. rewrite <- (app_nil_r (Errors res)) in E at 2. apply app_inv_head in E. done. }
  destruct (needsSync _ _ _ o t) as [[]|e] eqn:En; [|..].
  - rewrite Hdry. pose proof (copy_ok (src_path r) (tgt_path r) t d Hclose) as Hok. pose proof (copy_frame (src_path r) (tgt_path r) t) as Hfr.
    destruct (copy_file _ _ t) as [[e|] t']; cbn [fst snd] in *; [split; [by exists [(Join r "/", e)]|by intros ?%Herr]|].
    split; [apply Hnil|]. intros _. rewrite decide_False in Hok by (by apply src_tgt). specialize (Hok eq_refl Hd). split.
    + exists d. rewrite Hok, lookup_insert_eq. split; [done|by left].
    + intros q Hq. by apply Hfr.
  - cbn [fst snd]. split; [apply Hnil|]. intros _. split; [|done]. unfold needsSync in En. cbn [f_size f_mtime] in En. rewrite Hv in En.
    destruct (StatFile (tgt_path r) t) as [[]|] eqn:Es; try done.
    destruct (Hplain r t Hr Hne (ex_intro _ d Hd) Es) as [d' Hd']. exists d'. split; [done|]. right.
    rewrite (StatSize_ok _ _ _ Hd') in En. destruct (Z.eqb_spec (Z.of_nat (String.length d)) (Z.of_nat (String.length d'))) as [Hlen|]; [|done]. cbn [negb] in En.
    destruct (_ && _); [done|]. unfold calculateFileChecksum in En.
    destruct (OpenFile (src_path r) t) as [x|] eqn:E1; [|done]. destruct (OpenFile (tgt_path r) t) as [y|] eqn:E2; [|done].
    apply OpenFile_ok in E1 as [E1|[E1 _]]; [|congruence]. apply OpenFile_ok in E2 as [E2|[E2 _]]; [|congruence]. simplify_eq.
    apply negb_false_iff, String.eqb_eq in En. split; [lia|done].
  - cbn [fst snd]. split; [by exists [(Join r "/", e)]|]. by intros ?%Herr.
Qed.

(** A job as the walk makes it. *)
Definition job_of (s : S) (f : source_file) (r : list string) : Prop :=
  segs r ∧ r ≠ [] ∧ f_rel f = Join r "/" ∧ ∃ d, files s !! src_path r = Some d ∧ f_size f = Z.of_nat (String.length d).

Lemma errors_grow o l st : comparing o → (∀ f, f ∈ l → ∃ r, job_of st.2 f r) →
  let st' := foldl (λ st f, sync_file (unsplit true src) (unsplit true tgt) o f st) st l in
  (∃ x, Errors st'.1 = Errors st.1 ++ x) ∧
  (Errors st'.1 = Errors st.1 →
     (∀ f r, f ∈ l → job_of st.2 f r → ∃ d d', files st.2 !! src_path r = Some d ∧ files st'.2 !! tgt_path r = Some d' ∧ same d d') ∧
     (∀ q, (∀ f r, f ∈ l → job_of st.2 f r → q ≠ tgt_path r) → files st'.2 !! q = files st.2 !! q)).
Proof.
  intros Ho. revert st. induction l as [|f l IH] using rev_ind; intros st Hl.
  { cbn. split; [exists []; by rewrite app_nil_r|]. intros _. split; [by intros f r ?%not_elem_of_nil|done]. }
  rewrite foldl_app. cbn [foldl]. destruct (IH st) as [[x Hx] IH2]; [intros g Hg; apply Hl; by apply elem_of_app; left|]. clear IH.
  destruct (Hl f) as (r & Hjob); [apply elem_of_app; right; by left|].
  set (st1 := foldl _ st l) in *. destruct st1 as [res t] eqn:Est. cbn [fst snd] in *.
  assert (∀ g r', g ∈ l → job_of st.2 g r' → segs r') as Hjs by (intros g r' _ (? & _); done).
  assert (Errors res = Errors st.1 → ∀ r', segs r' → files t !! src_path r' = files st.2 !! src_path r') as Hsame.
  { intros He r' Hr'. destruct (IH2 He) as [_ Hfr]. apply Hfr. intros g r2 Hg Hj. apply src_tgt; [done|]. by eapply Hjs. }
  destruct Hjob as (Hr & Hne & Hrel & d & Hd & Hsize). destruct f as [frel fsize fmt]. cbn [f_rel f_size] in *. subst frel.
  destruct (decide (Errors res = Errors st.1)) as [He|He].
  - pose proof (sync_file_ok o r fsize fmt d res t Ho Hr Hne) as Hstep. rewrite Hsame in Hstep by done. specialize (Hstep Hd Hsize). cbn zeta in Hstep.
    destruct Hstep as [[y Hy] Hstep]. split; [exists y; by rewrite Hy, He|]. intros E. rewrite <- He in E. destruct (Hstep E) as [(d' & Hd' & Hs) Hfr]. destruct (IH2 He) as [IHa IHb]. split.
    + intros g r' [Hg|Hg]%elem_of_app Hj.
      * destruct (IHa g r' Hg Hj) as (e & e' & H1 & H2 & H3). destruct (decide (r' = r)) as [->|Hrr]; [exists d, d'; done|].
        exists e, e'. split; [done|]. split; [|done]. rewrite Hfr; [done|]. intros E'. apply tgt_inj in E'; [done|by eapply Hjs|done].
      * apply list_elem_of_singleton in Hg as ->. destruct Hj as (Hr' & Hne' & Hrel' & _). cbn in Hrel'.
        assert (r' = r) as ->; [|by exists d, d'].
        apply unsplit_inj; [done..|]. unfold unsplit. by rewrite <- Hrel'.
    + intros q Hq. rewrite Hfr; [apply IHb; intros g r' Hg; apply Hq, elem_of_app; by left|].
      apply (Hq (mkSource (Join r "/") fsize fmt)); [apply elem_of_app; right; by left|]. split_and!; eauto.
  - assert (∃ y, Errors (sync_file (unsplit true src) (unsplit true tgt) o (mkSource (Join r "/") fsize fmt) (res, t)).1 = Errors res ++ y) as [y Hy].
    { unfold sync_file. destruct (needsSync _ _ _ _ _) as [[]|e]; [destruct (DryRun o); [|destruct (copy_file _ _ _) as [[]]]|..]; cbn; eauto; exists []; by rewrite app_nil_r. }
    split; [exists (x ++ y); by rewrite Hy, Hx, app_assoc|]. intros E. exfalso. apply He. rewrite Hy, Hx, <- app_assoc in E.
    rewrite <- (app_nil_r (Errors st.1)) in E at 2. apply app_inv_head, app_eq_nil in E as [-> _]. by rewrite Hx, app_nil_r.
Qed.
(** *** What the source walk finds *)

Lemma walk_source_inv o (s : S) f : tidy s → f ∈ walk_source (unsplit true src) o s → ∃ r, job_of s f r ∧ excludes (Join r "/") (ExcludePatterns o) = false.
Proof.
  intros Ht Hf. unfold walk_source in Hf. apply list_elem_of_omap in Hf as (e & He & Hf). destruct (we_info e) as [[[|] n]|] eqn:Ei; try done.
  destruct (walked_files src s e n (Hwalk _ _) Ht Hsrc Hsrc0 He Ei) as (r & d & Hr & Hne & Hp & Hd & Hn). rewrite Hp, Rel_below in Hf by done.
  destruct (excludes _ _) eqn:Ex; [done|]. injection Hf as <-. exists r. split; [|done]. split_and!; eauto.
Qed.

Lemma walk_source_all o (s : S) r d : segs r → r ≠ [] → files s !! src_path r = Some d → excludes (Join r "/") (ExcludePatterns o) = false →
  ∃ f, f ∈ walk_source (unsplit true src) o s ∧ job_of s f r.
Proof.
  intros Hr Hne Hd Hex. exists (mkSource (Join r "/") (Z.of_nat (String.length d)) (ModTime (src_path r) s)). split; [|split_and!; eauto].
  unfold walk_source. apply list_elem_of_omap. exists (mkEntry (src_path r) (Ok (false, Z.of_nat (String.length d)))). split; [by apply file_walked|].
  cbn [we_info we_path]. unfold src_path at 1. rewrite Rel_below by done. by rewrite Hex.
Qed.

(** *** What the clean-up removes *)

Definition removable (kept : list string) (o : SyncOptions) (r : list string) : Prop :=
  segs r ∧ r ≠ [] ∧ existsb (String.eqb (Join r "/")) kept || excludes (Join r "/") (ExcludePatterns o) = false.

Definition below_target (e : walk_entry) : Prop := ∀ n, we_info e = Ok (false, n) → ∃ r, segs r ∧ r ≠ [] ∧ we_path e = tgt_path r.

Lemma cleanup_step kept o st e : DryRun o = false → ConfirmDelete o = false → below_target e →
  let st' := cleanup_file (unsplit true tgt) kept o st e in
  (∃ x, Errors st'.1 = Errors st.1 ++ x) ∧
  (Errors st'.1 = Errors st.1 → ∀ n r, we_info e = Ok (false, n) → we_path e = tgt_path r → removable kept o r → files st'.2 !! tgt_path r = None) ∧
  (∀ q, files st'.2 !! q = files st.2 !! q ∨ files st'.2 !! q = None ∧ ∃ r, removable kept o r ∧ q = tgt_path r).
Proof.
  intros Hd Hc He. destruct st as [res t]. unfold cleanup_file. assert (∀ l : list (string * os_err), ∃ x, l = l ++ x) as Hnil by (intros l; exists []; by rewrite app_nil_r).
  destruct (we_info e) as [[[|] n]|] eqn:Ei; [cbn [fst snd]; split_and!; [apply Hnil|intros _ n0 r0 [=]|by left]|..|cbn [fst snd]; split_and!; [apply Hnil|intros _ n0 r0 [=]|by left]].
  destruct (He n Ei) as (r & Hr & Hne & Hp). rewrite Hp. assert (Rel (unsplit true tgt) (tgt_path r) = Some (Join r "/")) as -> by (by apply Rel_below).
  destruct (_ || _) eqn:Ek.
  { cbn [fst snd]. split_and!; [apply Hnil| |by left]. intros _ n' r' _ E (Hr' & Hne' & Hk). apply tgt_inj in E as <-; [|done..]. congruence. }
  rewrite Hd, Hc. assert (removable kept o r) as Hrem by done. pose proof (Remove_ok (tgt_path r) t) as Hok. pose proof (Remove_err (tgt_path r) t) as Herr.
  destruct (Remove (tgt_path r) t) as [[err|] t']; cbn [fst snd Errors sync_error sync_deleted] in *.
  - rewrite Herr by done. split_and!; [by exists [(Join r "/", err)]| |by left]. intros E. exfalso. rewrite <- (app_nil_r (Errors res)) in E at 2. by apply app_inv_head in E.
  - rewrite Hok by done. split_and!; [apply Hnil| |].
    + intros _ n' r' _ E (Hr' & _). apply tgt_inj in E as <-; [|done..]. apply lookup_delete_eq.
    + intros q. destruct (decide (q = tgt_path r)) as [->|]; [right; rewrite lookup_delete_eq; eauto|left; by rewrite lookup_delete_ne].
Qed.

Lemma cleanup_run kept o l st : DryRun o = false → ConfirmDelete o = false → Forall below_target l →
  let st' := foldl (cleanup_file (unsplit true tgt) kept o) st l in
  (∃ x, Errors st'.1 = Errors st.1 ++ x) ∧
  (Errors st'.1 = Errors st.1 → ∀ e n r, e ∈ l → we_info e = Ok (false, n) → we_path e = tgt_path r → removable kept o r → files st'.2 !! tgt_path r = None) ∧
  (∀ q, files st'.2 !! q = files st.2 !! q ∨ files st'.2 !! q = None ∧ ∃ r, removable kept o r ∧ q = tgt_path r).
Proof.
  intros Hd Hc. induction l as [|e l IH] using rev_ind; intros Hl.
  { cbn. split_and!; [exists []; by rewrite app_nil_r|by intros _ e n r ?%not_elem_of_nil|by left]. }
  apply Forall_app in Hl as [Hl He]. apply Forall_cons_iff in He as [He _]. destruct (IH Hl) as ([x Hx] & IH1 & IH2). rewrite foldl_app. cbn [foldl].
  destruct (cleanup_step kept o (foldl (cleanup_file (unsplit true tgt) kept o) st l) e Hd Hc He) as ([y Hy] & H1 & H2).
  set (st1 := foldl _ st l) in *. set (st2 := cleanup_file _ _ _ st1 e) in *. split_and!.
  - exists (x ++ y). by rewrite Hy, Hx, app_assoc.
  - intros E e' n r Hin Hi Hp Hrem. assert (x = [] ∧ y = []) as [-> ->].
    { rewrite Hy, Hx, <- app_assoc in E. rewrite <- (app_nil_r (Errors st.1)) in E at 2. by apply app_inv_head, app_eq_nil in E. }
    rewrite app_nil_r in Hx, Hy. apply elem_of_app in Hin as [Hin|Hin%list_elem_of_singleton].
    + destruct (H2 (tgt_path r)) as [->|[-> _]]; [|done]. by eapply IH1.
    + subst e'. by eapply H1.
  - intros q. destruct (H2 q) as [->|]; [apply IH2|by right].
Qed.

Lemma cleanup_errors target kept o l (st : SyncResult * S) : ∃ y, Errors (foldl (cleanup_file target kept o) st l).1 = Errors st.1 ++ y.
Proof.
  induction l as [|e l IH] using rev_ind; [exists []; by rewrite app_nil_r|]. rewrite foldl_app. cbn [foldl]. destruct IH as [y IH].
  destruct (foldl _ st l) as [r2 t2]. cbn [fst] in IH. unfold cleanup_file. destruct (we_info e) as [[[|] n]|]; [by exists y|..|by exists y].
  destruct (Rel _ _); [|by exists y]. destruct (_ || _); [by exists y|]. destruct (DryRun o); [by exists y|]. destruct (ConfirmDelete o); [by exists y|].
  destruct (Remove _ t2) as [[err|] t']; [|by exists y]. cbn [fst Errors sync_error]. rewrite IH, <- app_assoc. eauto.
Qed.

End mirror.

(** ** What is not copied *)

Section skipped.
Context {S : Type} `{!FileSystem S} `{!FileSystemLaws S}.

(** Without the comparison of checksums, and outside the incremental mode, a file that
    changed and kept its size is never copied, not even by a mirror. *)
Theorem same_size_skipped source target o f (r : SyncResult) (s : S) d : VerifyChecksum o = false → Mode o ≠ SyncModeIncremental →
  StatFile (PathJoin target (f_rel f)) s = None → files s !! PathJoin target (f_rel f) = Some d → f_size f = Z.of_nat (String.length d) →
  sync_file source target o f (r, s) = (sync_skipped r, s).
Proof.
  intros Hv Hm Hs Hd Hn. unfold sync_file, needsSync. rewrite Hs, (StatSize_ok _ _ _ Hd), Hn, Z.eqb_refl, Hv. cbn [negb].
  by rewrite bool_decide_false.
Qed.

(** With options that leave the number of workers at zero nothing is copied, and the
    result is that of a success; as a mirror it still deletes. *)
Theorem no_workers_copy_nothing source target o order (s s' : S) res : Workers o <= 0 → Mode o ≠ SyncModeMirror →
  Sync source target (Some o) order s = (Ok res, s') → res = no_result ∧ files s' = files s.
Proof.
  intros Hw Hm. unfold Sync. cbn [from_option]. unfold id. destruct (StatFile source s); [done|].
  pose proof (MkdirAll_files target s) as Hmk. destruct (DryRun o); [|destruct (MkdirAll target s) as [[e|] s1]; [done|]; cbn in Hmk].
  all: unfold syncFiles; rewrite (proj2 (Z.ltb_ge 0 (Workers o)) Hw), bool_decide_false by done; intros [= <- <-]; done.
Qed.
End skipped.

(** ** Witnesses *)

(** Metadata as lines of the checksums; what is lost is not safe. *)
Definition write_sums (m : BackupMetadata) : string := Join ((λ p, p.1 +:+ "=" +:+ p.2) <$> map_to_list (FileChecksums m)) ";".
Definition read_sums (s : string) : BackupMetadata :=
  mkBackup zero_time (list_to_map (omap (λ l, match Split l "=" with [a; b] => Some (a, b) | _ => None end) (Split s ";"))) EmptyString 0 0.
#[local] Program Instance sums_codec : Codec BackupMetadata := {
  json_marshal m := Some (write_sums m);
  json_unmarshal d := Some (read_sums d);
  json_safe m := read_sums (write_sums m) = m
}.
Next Obligation. intros m d H [= <-]. by rewrite H. Qed.

Lemma mem_close_keeps : close_keeps MemFS.
Proof. intros p s. cbn. unfold faulty. by destruct (faults s) as [|[] ?]. Qed.
Lemma mem_walk_ok p (s : MemFS) : Forall (λ e, is_ok (we_info e) = true) (Walk p s).
Proof. cbn. unfold mem_walk. apply list.Forall_forall. by intros e (x & -> & _)%list_elem_of_fmap. Qed.

Definition repository : MemFS := mkMem (<["/d/src/a.jar" := "v1"]> {["/d/src/b.tmp" := "t"]}) {["/d/src"; "/d/bak"]} [].

Lemma repository_tidy : tidy repository.
Proof.
  intros q [v H]. unfold repository in H. cbn in H. apply lookup_insert_Some in H as [[<- _]|[_ H]]; [exists ["d"; "src"; "a.jar"]%string|].
  - split; [by repeat constructor|done].
  - apply lookup_singleton_Some in H as [<- _]. exists ["d"; "src"; "b.tmp"]%string. split; [by repeat constructor|done].
Qed.

Lemma d_apart a b : a ≠ b → apart ["d"; a]%string ["d"; b]%string.
Proof. intros Hab. split; intros [l H]; injection H as ? ?; congruence. Qed.

Definition daily : IncrementalBackup := NewIncrementalBackup "/d/src" "/d/bak".


(** The backup of the repository, and what is left of it after a restoration. *)
Definition backed : MemFS := (PerformBackup daily None (λ l, l) 1 1 repository).2.
Lemma restore_restores_nothing_witness :
  files backed !! "/d/bak/a.jar"%string = Some "v1"%string ∧
  ∀ s', tidy backed → Restore daily "/restored" (Some (true, true)) backed = (None, s') → files s' !! "/d/bak/a.jar"%string = Some EmptyString.
Proof.
  split; [vm_compute; reflexivity|]. intros s' Ht H.
  apply (proj1 (restore_restores_nothing mem_close_keeps ["d"%string] ["src"%string] ["bak"%string] ltac:(by repeat constructor) ltac:(by repeat constructor) ltac:(by repeat constructor)
    ltac:(done) ltac:(done) ltac:(done) "/restored" true backed s' Ht (mem_walk_ok _ _) H) ["a.jar"%string]); [by repeat constructor|done|vm_compute; eauto|reflexivity].
Defined.

(** The memory has no directories of its own: an empty file answers [Stat] for the source. *)
Definition stated : MemFS := mkMem (<["/d/src" := EmptyString]> (mem repository)) (dirs repository) [].
Lemma stated_tidy : tidy stated.
Proof.
  intros q [v H]. unfold stated in H. cbn in H. apply lookup_insert_Some in H as [[<- _]|[_ H]]; [|apply (repository_tidy q); eauto].
  exists ["d"; "src"]%string. split; [by repeat constructor|done].
Qed.

Definition mirroring : SyncOptions := mkSyncOptions SyncModeMirror true false [] 1 false 0.
Definition target_plain : ∀ r (t : MemFS), segs r → r ≠ [] → is_Some (files t !! src_path ["d"; "src"]%string r) →
  StatFile (tgt_path ["d"; "bak"]%string r) t = None → is_Some (files t !! tgt_path ["d"; "bak"]%string r).
Proof. intros r t _ _ _. cbn. destruct (mem t !! _); [eauto|done]. Qed.



Definition old_copy : MemFS := mkMem (<["/d/src/a.jar" := "v2"]> {["/d/bak/a.jar" := "v1"]}) {["/d/src"; "/d/bak"]} [].
Lemma same_size_skipped_witness :
  sync_file "/d/src" "/d/bak" default_options (mkSource "a.jar" 2 0) (no_result, old_copy) = (sync_skipped no_result, old_copy).
Proof. by apply (same_size_skipped _ _ _ _ _ _ "v1"). Defined.

Lemma no_workers_copy_nothing_witness :
  ∀ res s', Sync "/d/src" "/d/bak" (Some (mkSyncOptions SyncModeBackup true false [] 0 false 0)) (λ l, l) repository = (Ok res, s') → res = no_result.
Proof. intros res s' H. apply (no_workers_copy_nothing "/d/src" "/d/bak" (mkSyncOptions SyncModeBackup true false [] 0 false 0) (λ l, l) repository s' res); done. Defined.
