(* ===== verification/ProxyUsecase.v ===== *)
(** * ProxyUsecase: the proxy request of the use case layer

    Models [src/internal/usecase/proxy_service.go] over [CacheKeys]: authentication and
    authorisation, the rate limit, the lookup in the cache, the fetch, and the write to the
    cache, which runs in a goroutine of its own and so is given back as the work that is
    left to be done.  The authentication service, the rate limiter and the package manager
    are interfaces and hence classes here; the counters are kept, the log and the latencies are not.

    [gates_before_content] says who gets an answer, [stored_answer_served] that a fetched
    answer is served from the cache afterwards, for any method and any query. *)

From Stdlib Require Import Ascii.
From S2P Require Import Prelude GoStrings CacheKeys.

(** ** Data *)

Record ProxyRequest := mkProxyRequest {
  pq_PackageType : string; pq_Repository : string; pq_Path : string; pq_Method : string;
  pq_Headers : gmap string string; pq_QueryParams : gmap string string; pq_Body : string;
  pq_UserID : string; pq_Authorization : string
}.

Inductive proxy_err :=
| NoAuthentication | AuthenticationFailed (e : string) | AuthorizeFailed (e : string) | AccessDenied (reason : string)
| RateCheckFailed (e : string) | RateExceeded (user : string)
| UpstreamFailed (e : string) | ReadFailed (e : string).

Record ProxyResponse := mkProxyResponse {
  ps_Content : string; ps_ContentType : string; ps_StatusCode : Z; ps_Headers : gmap string string;
  ps_Cached : bool; ps_CacheKey : string; ps_Error : option proxy_err
}.

Record AuthRequest := mkAuthRequest { Username : string; Password : string; Provider : string; MFACode : string }.
Record AuthorizeRequest := mkAuthorizeRequest { UserID : string; Resource : string; Action : string }.
Record AuthorizeResponse := mkAuthorizeResponse { Allowed : bool; Reason : string }.

Record PackageRequest := mkPackageRequest {
  pk_Repository : string; pk_Name : string; pk_Version : string; pk_Path : string;
  pk_Headers : gmap string string; pk_QueryParams : gmap string string
}.
(** The content is what reading it to its end gives. *)
Record PackageResponse := mkPackageResponse {
  pr_Content : result string string; pr_ContentType : string; pr_Headers : gmap string string
}.

(** ** The interfaces *)

(** [ports.AuthService]; the user of an answer is a pointer, its identifier is kept. *)
Class AuthService (A : Type) := {
  Authenticate : AuthRequest → A → result string (option string) * A;
  Authorize : AuthorizeRequest → A → result string AuthorizeResponse * A
}.

(** [ports.RateLimiter]. *)
Class RateLimiter (L : Type) := { Allow : string → L → result string bool * L }.

(** [ports.PackageManager]. *)
Class PackageManager (P : Type) := { GetPackage : PackageRequest → P → result string PackageResponse * P }.

(** ** The service *)

Record World (A L P C : Type) := mkWorld {
  auth : A; limiter : option L; manager : P; cache : C;
  counters : list (string * gmap string string);
  (** bodies of the package manager that are still open *)
  open_bodies : nat
}.
#[global] Arguments mkWorld {A L P C}.
#[global] Arguments auth {A L P C}.
#[global] Arguments limiter {A L P C}.
#[global] Arguments manager {A L P C}.
#[global] Arguments cache {A L P C}.
#[global] Arguments counters {A L P C}.
#[global] Arguments open_bodies {A L P C}.

Definition labels (l : list (string * string)) : gmap string string := list_to_map l.

Definition json_headers : gmap string string := {[ "Content-Type" := "application/json" ]}.

Definition refusal (status : Z) (content : string) (e : proxy_err) : ProxyResponse :=
  mkProxyResponse content EmptyString status json_headers false EmptyString (Some e).

(** The texts of the three refusals, quoted as JSON is. *)
Definition quoted (s : string) : string := String (ascii_of_nat 34) (s +:+ String (ascii_of_nat 34) EmptyString).
Definition error_json (s : string) : string := "{" +:+ quoted "error" +:+ ": " +:+ quoted s +:+ "}".

Definition with_user (user : string) (req : ProxyRequest) : ProxyRequest :=
  mkProxyRequest (pq_PackageType req) (pq_Repository req) (pq_Path req) (pq_Method req) (pq_Headers req)
    (pq_QueryParams req) (pq_Body req) user (pq_Authorization req).

(** The request is changed in place: a missing method is set. *)
Definition ValidateRequest (req : ProxyRequest) : result string unit * ProxyRequest :=
  if String.eqb (pq_PackageType req) EmptyString then (Err "package_type is required"%string, req)
  else if String.eqb (pq_Repository req) EmptyString then (Err "repository is required"%string, req)
  else if String.eqb (pq_Path req) EmptyString then (Err "path is required"%string, req)
  else if String.eqb (pq_Method req) EmptyString then
    (Ok tt, mkProxyRequest (pq_PackageType req) (pq_Repository req) (pq_Path req) "GET" (pq_Headers req)
              (pq_QueryParams req) (pq_Body req) (pq_UserID req) (pq_Authorization req))
  else (Ok tt, req).

Definition token_request : AuthRequest := mkAuthRequest EmptyString EmptyString "jwt" EmptyString.

Definition authorize_request (req : ProxyRequest) : AuthorizeRequest :=
  mkAuthorizeRequest (pq_UserID req)
    (pq_PackageType req +:+ "/" +:+ pq_Repository req +:+ pq_Path req) (pq_Method req).

Definition rateLimitKey (req : ProxyRequest) : string :=
  pq_UserID req +:+ ":" +:+ pq_PackageType req +:+ ":" +:+ pq_Repository req.

Definition cache_request (req : ProxyRequest) : CacheRequest :=
  mkRequest (pq_PackageType req) (pq_Repository req) EmptyString EmptyString (pq_Path req) EmptyString 0 (pq_Headers req).

Definition package_request (req : ProxyRequest) : PackageRequest :=
  mkPackageRequest (pq_Repository req) EmptyString EmptyString (pq_Path req) (pq_Headers req) (pq_QueryParams req).

Section service.
Context {A L P C : Type} `{!AuthService A, !RateLimiter L, !PackageManager P, !CacheManager C}.
Local Notation world := (World A L P C).

Definition set_auth (a : A) (w : world) : world :=
  mkWorld a (limiter w) (manager w) (cache w) (counters w) (open_bodies w).
Definition set_limiter (l : L) (w : world) : world :=
  mkWorld (auth w) (Some l) (manager w) (cache w) (counters w) (open_bodies w).
Definition set_manager (p : P) (bodies : nat) (w : world) : world :=
  mkWorld (auth w) (limiter w) p (cache w) (counters w) bodies.
Definition set_cache (c : C) (w : world) : world :=
  mkWorld (auth w) (limiter w) (manager w) c (counters w) (open_bodies w).
Definition IncCounter (name : string) (l : list (string * string)) (w : world) : world :=
  mkWorld (auth w) (limiter w) (manager w) (cache w) (counters w ++ [(name, labels l)]) (open_bodies w).

(** The second half of [authenticateAndAuthorize]. *)
Definition authorize (req : ProxyRequest) (w : world) : option proxy_err * world :=
  match Authorize (authorize_request req) (auth w) with
  | (Err e, a) => (Some (AuthorizeFailed e), set_auth a w)
  | (Ok r, a) => (if Allowed r then None else Some (AccessDenied (Reason r)), set_auth a w)
  end.

(** Without a result: the panic on an answer that has no user. *)
Definition authenticateAndAuthorize (req : ProxyRequest) (w : world) : option (option proxy_err) * ProxyRequest * world :=
  if String.eqb (pq_Authorization req) EmptyString && String.eqb (pq_UserID req) EmptyString
  then (Some (Some NoAuthentication), req, w)
  else if negb (String.eqb (pq_Authorization req) EmptyString) then
    match Authenticate token_request (auth w) with
    | (Err e, a) => (Some (Some (AuthenticationFailed e)), req, set_auth a w)
    | (Ok None, a) => (None, req, set_auth a w)
    | (Ok (Some user), a) =>
        let req := with_user user req in
        let '(r, w) := authorize req (set_auth a w) in (Some r, req, w)
    end
  else let '(r, w) := authorize req w in (Some r, req, w).

Definition AuthorizeRequest_ (req : ProxyRequest) (w : world) : option (option proxy_err) * ProxyRequest * world :=
  authenticateAndAuthorize req w.

Definition checkRateLimit (req : ProxyRequest) (w : world) : option proxy_err * world :=
  match limiter w with
  | None => (None, w)
  | Some l =>
      match Allow (rateLimitKey req) l with
      | (Err e, l) => (Some (RateCheckFailed e), set_limiter l w)
      | (Ok allowed, l) => (if allowed then None else Some (RateExceeded (pq_UserID req)), set_limiter l w)
      end
  end.

(** The call that closes the body is deferred after the body has been read: when
    reading fails, the body stays open. *)
Definition fetchFromUpstream (req : ProxyRequest) (w : world) : result proxy_err ProxyResponse * world :=
  match GetPackage (package_request req) (manager w) with
  | (Err e, p) => (Err (UpstreamFailed e), set_manager p (open_bodies w) w)
  | (Ok r, p) =>
      match pr_Content r with
      | Err e => (Err (ReadFailed e), set_manager p (S (open_bodies w)) w)
      | Ok content =>
          (Ok (mkProxyResponse content (pr_ContentType r) 200 (pr_Headers r) false EmptyString None),
           set_manager p (open_bodies w) w)
      end
  end.

Definition set_request (cacheReq : CacheRequest) (resp : ProxyResponse) : CacheRequest :=
  mkRequest (PackageType cacheReq) (Repository cacheReq) EmptyString EmptyString (Path cacheReq)
    (ps_ContentType resp) (Z.of_nat (String.length (ps_Content resp))) (ps_Headers resp).

(** The goroutine; without a result when it panics, which ends the process. *)
Definition cacheUpstreamResponse (cs : CacheStrategyService) (now now' : instant) (cacheReq : CacheRequest)
    (resp : ProxyResponse) (w : world) : option world :=
  match DetermineStrategy cs cacheReq with
  | None => None
  | Some d =>
      if negb (d_ShouldCache d) then Some w
      else
        let count name w := IncCounter name [("package_type", PackageType cacheReq); ("repository", Repository cacheReq);
                                             ("backend", d_Backend d)]%string w in
        match Set_ cs now now' (set_request cacheReq resp) (ps_Content resp) (cache w) with
        | (Some NilStrategy, _) => None
        | (Some (StorageFailed _), c) => Some (count "proxy_cache_write_failures"%string (set_cache c w))
        | (None, c) => Some (count "proxy_cache_writes"%string (set_cache c w))
        end
  end.

(** What is left to be written. *)
Definition pending : Type := option (CacheRequest * ProxyResponse).

Definition repo_labels (req : ProxyRequest) : list (string * string) :=
  [("package_type", pq_PackageType req); ("repository", pq_Repository req)]%string.

Definition hit_response (r : CacheResponse) : ProxyResponse :=
  mkProxyResponse (rs_Content r) (default EmptyString (rs_Metadata r !! "content_type")) 200 (rs_Metadata r) true
    (rs_CacheKey r) None.

(** The steps after the cache has missed. *)
Definition fetch_and_store (req : ProxyRequest) (w : world) : ProxyResponse * pending * world :=
  let w := IncCounter "proxy_cache_misses" (repo_labels req) w in
  match fetchFromUpstream req w with
  | (Err e, w) =>
      (refusal 502 (error_json "upstream fetch failed") e, None, IncCounter "proxy_upstream_failures" (repo_labels req) w)
  | (Ok resp, w) =>
      (resp, Some (cache_request req, resp),
       IncCounter "proxy_requests_total"
         (repo_labels req ++ [("method", pq_Method req); ("status", Itoa (ps_StatusCode resp))]%string) w)
  end.

Definition serve (cs : CacheStrategyService) (req : ProxyRequest) (w : world) : ProxyResponse * pending * world :=
  let '(r, c) := Get cs (cache_request req) (cache w) in
  let w := set_cache c w in
  if rs_Hit r then
    (hit_response r, None, IncCounter "proxy_cache_hits" (repo_labels req ++ [("backend", rs_Backend r)]%string) w)
  else fetch_and_store req w.

(** The error of the function is always nil: what went wrong is in the response.  The
    request is changed in place. *)
Definition HandleProxyRequest (cs : CacheStrategyService) (req : ProxyRequest) (w : world) :
    option (ProxyResponse * pending) * ProxyRequest * world :=
  match authenticateAndAuthorize req w with
  | (None, req, w) => (None, req, w)
  | (Some (Some e), req, w) =>
      (Some (refusal 401 (error_json "authentication failed") e, None), req,
       IncCounter "proxy_auth_failures" (repo_labels req) w)
  | (Some None, req, w) =>
      match checkRateLimit req w with
      | (Some e, w) =>
          (Some (refusal 429 (error_json "rate limit exceeded") e, None), req,
           IncCounter "proxy_rate_limit_exceeded" [("package_type", pq_PackageType req); ("user_id", pq_UserID req)]%string w)
      | (None, w) => let '(resp, todo, w) := serve cs req w in (Some (resp, todo), req, w)
      end
  end.

Definition RecordMetrics (req : ProxyRequest) (resp : ProxyResponse) (w : world) : world :=
  let w := IncCounter "proxy_requests_total"
             (repo_labels req ++ [("method", pq_Method req); ("status", Itoa (ps_StatusCode resp));
                                  ("cached", if ps_Cached resp then "true" else "false")]%string) w in
  IncCounter (if ps_Cached resp then "proxy_cache_hits" else "proxy_cache_misses") (repo_labels req) w.

(** ** Lemmas *)

Lemma authorize_world req w r w' :
  authorize req w = (r, w') →
  limiter w' = limiter w ∧ manager w' = manager w ∧ cache w' = cache w ∧ counters w' = counters w ∧ open_bodies w' = open_bodies w.
Proof. unfold authorize. destruct (Authorize _ _) as [[?|?] ?]; intros; by simplify_eq. Qed.

(** The authorisation service lets the request pass, in one of its states. *)
Definition granted (req : ProxyRequest) : Prop :=
  ∃ (a : A) r, (Authorize (authorize_request req) a).1 = Ok r ∧ Allowed r = true.

Lemma authorize_granted req w w' : authorize req w = (None, w') → granted req.
Proof.
  unfold authorize. destruct (Authorize _ _) as [[r|?] ?] eqn:E; [|intros; simplify_eq].
  destruct (Allowed r) eqn:Hr; intros; simplify_eq. exists (auth w), r. by rewrite E.
Qed.

Definition same_but_user (req req' : ProxyRequest) : Prop := req' = with_user (pq_UserID req') req.

Lemma same_but_user_refl req : same_but_user req req.
Proof. by destruct req. Qed.

Lemma authenticate_world req w r req' w' :
  authenticateAndAuthorize req w = (r, req', w') →
  same_but_user req req' ∧ (r = Some None → granted req') ∧
  limiter w' = limiter w ∧ manager w' = manager w ∧ cache w' = cache w ∧ counters w' = counters w ∧ open_bodies w' = open_bodies w.
Proof.
  unfold authenticateAndAuthorize. pose proof (same_but_user_refl req).
  case_match; [intros; by simplify_eq|]. case_match.
  - destruct (Authenticate _ _) as [[[user|]|e] a]; [|intros; by simplify_eq..].
    destruct (authorize _ _) as [r0 w0] eqn:E. intros; simplify_eq.
    split; [done|]. split; [|apply (authorize_world _ _ _ _ E)].
    intros; simplify_eq. by eapply authorize_granted.
  - destruct (authorize _ _) as [r0 w0] eqn:E. intros; simplify_eq.
    split; [done|]. split; [|apply (authorize_world _ _ _ _ E)].
    intros; simplify_eq. by eapply authorize_granted.
Qed.

Definition within_limit (req : ProxyRequest) (w : world) : Prop :=
  ∀ l, limiter w = Some l → (Allow (rateLimitKey req) l).1 = Ok true.

Lemma checkRateLimit_world req w r w' :
  checkRateLimit req w = (r, w') →
  (r = None → within_limit req w) ∧
  manager w' = manager w ∧ cache w' = cache w ∧ counters w' = counters w ∧ open_bodies w' = open_bodies w.
Proof.
  unfold checkRateLimit, within_limit. destruct (limiter w) as [l|].
  - destruct (Allow _ _) as [[b|e] l'] eqn:E; intros; simplify_eq; (split; [|done]); [|done].
    destruct b; [|done]. intros _ l0 ?. simplify_eq. by rewrite E.
  - intros; simplify_eq. by split; [intros _ ??|].
Qed.

(** The three ways a request is answered. *)
Inductive Handled (cs : CacheStrategyService) (req : ProxyRequest) (w : world) :
    ProxyResponse → pending → ProxyRequest → world → Prop :=
| refused e req' w' :
    same_but_user req req' → manager w' = manager w → cache w' = cache w → open_bodies w' = open_bodies w →
    counters w' = counters w ++ [("proxy_auth_failures"%string, labels (repo_labels req'))] →
    (∀ s, e ≠ ReadFailed s) →
    Handled cs req w (refusal 401 (error_json "authentication failed") e) None req' w'
| limited e req' w' :
    same_but_user req req' → manager w' = manager w → cache w' = cache w → open_bodies w' = open_bodies w →
    counters w' = counters w ++ [("proxy_rate_limit_exceeded"%string,
                                  labels [("package_type", pq_PackageType req'); ("user_id", pq_UserID req')]%string)] →
    (∀ s, e ≠ ReadFailed s) →
    Handled cs req w (refusal 429 (error_json "rate limit exceeded") e) None req' w'
| admitted req' w0 resp todo w' :
    same_but_user req req' → granted req' → within_limit req' w →
    manager w0 = manager w → cache w0 = cache w → counters w0 = counters w → open_bodies w0 = open_bodies w →
    serve cs req' w0 = (resp, todo, w') →
    Handled cs req w resp todo req' w'.

Lemma authenticate_err req w e req' w' s :
  authenticateAndAuthorize req w = (Some (Some e), req', w') → e ≠ ReadFailed s.
Proof.
  unfold authenticateAndAuthorize, authorize. intros E ->.
  repeat case_match; simplify_eq.
Qed.

Lemma checkRateLimit_err req w e w' s : checkRateLimit req w = (Some e, w') → e ≠ ReadFailed s.
Proof. unfold checkRateLimit. intros E ->. repeat case_match; simplify_eq. Qed.

Lemma HandleProxyRequest_cases cs req w resp todo req' w' :
  HandleProxyRequest cs req w = (Some (resp, todo), req', w') → Handled cs req w resp todo req' w'.
Proof.
  unfold HandleProxyRequest.
  destruct (authenticateAndAuthorize req w) as [[[[e|]|] req1] w1] eqn:E1; intros H; simplify_eq;
    destruct (authenticate_world _ _ _ _ _ E1) as (Hs & Hg & Hl & Hm & Hc & Hk & Hb).
  - apply refused; try done; [by cbn; rewrite Hk|]. intros s. by eapply authenticate_err.
  - destruct (checkRateLimit req1 w1) as [[e|] w2] eqn:E2;
      destruct (checkRateLimit_world _ _ _ _ E2) as (Hw & Hm' & Hc' & Hk' & Hb').
    + simplify_eq. apply limited; cbn; try congruence. intros s. by eapply checkRateLimit_err.
    + destruct (serve cs req1 w2) as [[r t] w3] eqn:E3. simplify_eq.
      eapply (admitted _ _ _ _ w2); eauto; try congruence.
      intros l Hl0. apply Hw; [done|]. by rewrite Hl.
Qed.

(** Two requests for the same artifact have the same key. *)
Definition same_artifact (req req2 : ProxyRequest) : Prop :=
  pq_PackageType req2 = pq_PackageType req ∧ pq_Repository req2 = pq_Repository req ∧ pq_Path req2 = pq_Path req.

Lemma same_artifact_user req req' : same_but_user req req' → same_artifact req req'.
Proof. intros ->. by destruct req. Qed.

Lemma cache_key_artifact cs req req2 :
  same_artifact req req2 → cache_key cs (cache_request req2) = cache_key cs (cache_request req).
Proof. intros (Ht & Hr & Hp). unfold cache_key, generateCacheKey, cache_request. cbn. by rewrite Ht, Hr, Hp. Qed.

Lemma fetch_ok req w resp w' :
  fetchFromUpstream req w = (Ok resp, w') →
  ps_StatusCode resp = 200 ∧ ps_Cached resp = false ∧ ps_Error resp = None ∧
  cache w' = cache w ∧ counters w' = counters w ∧ open_bodies w' = open_bodies w.
Proof. unfold fetchFromUpstream. repeat case_match; intros; by simplify_eq. Qed.

Lemma fetch_err req w e w' :
  fetchFromUpstream req w = (Err e, w') →
  cache w' = cache w ∧ counters w' = counters w ∧
  open_bodies w' = (if e is ReadFailed _ then S (open_bodies w) else open_bodies w).
Proof. unfold fetchFromUpstream. repeat case_match; intros; by simplify_eq. Qed.

Lemma serve_todo cs req w resp cr r w' :
  serve cs req w = (resp, Some (cr, r), w') → cr = cache_request req ∧ r = resp ∧ ps_Error resp = None.
Proof.
  unfold serve, fetch_and_store. destruct (Get _ _ _) as [g c]. case_match; [intros; simplify_eq|].
  destruct (fetchFromUpstream _ _) as [[r0|e] w0] eqn:E; intros; simplify_eq.
  by destruct (fetch_ok _ _ _ _ E) as (_ & _ & ? & _).
Qed.

Lemma serve_cached cs req w resp todo w' :
  serve cs req w = (resp, todo, w') → ps_Cached resp = rs_Hit (Get cs (cache_request req) (cache w)).1.
Proof.
  unfold serve, fetch_and_store. destruct (Get _ _ _) as [g c]. cbn. destruct (rs_Hit g) eqn:Hh; cbn.
  - intros; simplify_eq. done.
  - destruct (fetchFromUpstream _ _) as [[r0|e] w0] eqn:E; intros; simplify_eq; [|done].
    by destruct (fetch_ok _ _ _ _ E) as (_ & ? & _).
Qed.

Lemma serve_hit cs req w resp todo w' :
  serve cs req w = (resp, todo, w') → rs_Hit (Get cs (cache_request req) (cache w)).1 = true →
  ps_Content resp = rs_Content (Get cs (cache_request req) (cache w)).1 ∧ todo = None ∧ manager w' = manager w.
Proof. unfold serve. destruct (Get _ _ _) as [g c]. cbn. intros H Hh. rewrite Hh in H. by simplify_eq. Qed.

(** ** The stored answer *)

Context `{!CacheManagerLaws C}.

(** The write succeeded: the counter of the writes says so. *)
Definition written (w : world) : Prop := option_map fst (list.last (counters w)) = Some "proxy_cache_writes"%string.

Lemma write_then_get builder now now' req req2 resp w w1 :
  let cs := NewCacheStrategyService builder in
  cacheUpstreamResponse cs now now' (cache_request req) resp w = Some w1 → written w1 → same_artifact req req2 →
  match (mgr_Get (lookup_request cs (cache_request req2)) (cache w1)).1 with
  | Err _ => rs_Hit (Get cs (cache_request req2) (cache w1)).1 = false
  | Ok _ => rs_Hit (Get cs (cache_request req2) (cache w1)).1 = negb (String.eqb (ps_Content resp) EmptyString)
            ∧ rs_Content (Get cs (cache_request req2) (cache w1)).1 = ps_Content resp
  end.
Proof.
  intros cs H Hw Hsame.
  destruct (default_strategies builder (pq_PackageType req)) as (s & Hs & Hcache & _ & _).
  unfold cacheUpstreamResponse, written in *.
  destruct (DetermineStrategy cs (cache_request req)) as [d|] eqn:Hd; [|done].
  assert (d_ShouldCache d = true) as Hd1.
  { unfold DetermineStrategy in Hd. cbn [PackageType cache_request] in Hd. fold cs in Hs. rewrite Hs, Hcache in Hd. by simplify_eq. }
  rewrite Hd1 in H. cbn [negb] in H.
  destruct (Set_ cs now now' _ _ (cache w)) as [[[]|] c] eqn:Hset; simplify_eq;
    [cbn in Hw; rewrite last_snoc in Hw; by cbn in Hw|].
  assert (cache_key cs (set_request (cache_request req) resp) = cache_key cs (cache_request req2)) as Hk.
  { symmetry. exact (cache_key_artifact cs req req2 Hsame). }
  pose proof (Set_Get_key cs now now' _ _ s _ _ _ Hk Hs Hcache Hset) as Hr.
  unfold reads_back in Hr. cbn [cache IncCounter set_cache].
  destruct (mgr_Get _ c).1; [|done]. by destruct Hr as (? & ? & _).
Qed.

(** An answer that was fetched, and whose write to the cache went well, is what a
    later request for the same artifact gets, whatever its method, its query and its
    headers, without asking the package manager, unless the request is refused, the
    lookup fails or the answer has no content. *)
Theorem stored_answer_served (builder : option (string → string → string → string → string → string))
    (now now' : instant) (req req' req2 req2' : ProxyRequest) (resp r resp2 : ProxyResponse) (cr : CacheRequest) (todo2 : pending)
    (w w' w1 w2 w2' : world) (cs := NewCacheStrategyService builder)
    (Hfirst : HandleProxyRequest cs req w = (Some (resp, Some (cr, r)), req', w'))
    (Hwrite : cacheUpstreamResponse cs now now' cr r w' = Some w1) (Hok : written w1)
    (Hsame : same_artifact req req2) (Hcache : cache w2 = cache w1)
    (Hsecond : HandleProxyRequest cs req2 w2 = (Some (resp2, todo2), req2', w2')) :
  ps_StatusCode resp2 = 401 ∨ ps_StatusCode resp2 = 429
  ∨ (∃ e, (mgr_Get (lookup_request cs (cache_request req2')) (cache w2)).1 = Err e)
  ∨ ps_Content resp = EmptyString
  ∨ (ps_StatusCode resp2 = 200 ∧ ps_Cached resp2 = true ∧ ps_Content resp2 = ps_Content resp
     ∧ todo2 = None ∧ manager w2' = manager w2).
Proof.
  apply HandleProxyRequest_cases in Hfirst. apply HandleProxyRequest_cases in Hsecond.
  inversion Hfirst as [| |req1 w0 ? ? ? Hu _ _ _ _ _ _ Hserve]; subst.
  apply serve_todo in Hserve as (-> & -> & _).
  inversion Hsecond as [| |? w3 ? ? ? Hu2 _ _ Hm Hc _ _ Hserve]; subst; [by left|by right; left|].
  do 2 right.
  assert (same_artifact req' req2') as Ha.
  { apply same_artifact_user in Hu as (? & ? & ?), Hu2 as (? & ? & ?). destruct Hsame as (? & ? & ?). repeat split; congruence. }
  pose proof (write_then_get builder now now' req' req2' resp w' w1 Hwrite Hok Ha) as Hget. fold cs in Hget.
  rewrite <- Hcache in Hget. destruct (mgr_Get _ _).1 as [|e] eqn:E; [|by left; eauto]. right.
  destruct Hget as (Hhit & Hcontent). destruct (String.eqb_spec (ps_Content resp) EmptyString) as [|_]; [by left|right].
  cbn [negb] in Hhit. rewrite <- Hc in Hhit, Hcontent. pose proof (serve_cached _ _ _ _ _ _ Hserve) as Hcached.
  pose proof (serve_hit _ _ _ _ _ _ Hserve Hhit) as (? & ? & ?).
  split_and!; [|congruence..]. unfold serve in Hserve.
  destruct (Get _ _ _) as [g c]. cbn in *. rewrite Hhit in Hserve. by simplify_eq.
Qed.
End service.

Section answers.
Context {A L P C : Type} `{!AuthService A, !RateLimiter L, !PackageManager P, !CacheManager C}.
Local Notation world := (World A L P C).

(** A request is answered with content only when the authorisation service has
    allowed the action on the resource and the rate limiter, if there is one, has let the
    user pass; otherwise neither the cache nor the package manager is touched, nothing is
    left to be stored and the answer is 401 or 429. *)
Theorem gates_before_content (cs : CacheStrategyService) (req req' : ProxyRequest) (w w' : world)
    (resp : ProxyResponse) (todo : pending)
    (H : HandleProxyRequest cs req w = (Some (resp, todo), req', w')) :
  (granted (A := A) req' ∧ within_limit req' w ∧ (ps_StatusCode resp = 200 ∨ ps_StatusCode resp = 502))
  ∨ ((ps_StatusCode resp = 401 ∨ ps_StatusCode resp = 429)
     ∧ manager w' = manager w ∧ cache w' = cache w ∧ todo = None ∧ ps_Cached resp = false).
Proof.
  apply HandleProxyRequest_cases in H as [| |? w0 ? ? ? _ Hg Hw _ _ _ _ Hs]; [right; auto..|left].
  split_and!; [done..|]. unfold serve, fetch_and_store in Hs. destruct (Get _ _ _) as [g c].
  case_match; [simplify_eq; by left|].
  destruct (fetchFromUpstream _ _) as [[r|e] w1] eqn:E; simplify_eq; [|by right].
  left. by destruct (fetch_ok _ _ _ _ E).
Qed.

(** The counters of a request: a fetched answer is the only one in the total. *)
Theorem counters_of_answer (cs : CacheStrategyService) (req req' : ProxyRequest) (w w' : world)
    (resp : ProxyResponse) (todo : pending)
    (H : HandleProxyRequest cs req w = (Some (resp, todo), req', w')) :
  (counters w').*1 = (counters w).*1 ++
    (if (ps_StatusCode resp =? 401)%Z then ["proxy_auth_failures"]
     else if (ps_StatusCode resp =? 429)%Z then ["proxy_rate_limit_exceeded"]
     else if ps_Cached resp then ["proxy_cache_hits"]
     else if (ps_StatusCode resp =? 502)%Z then ["proxy_cache_misses"; "proxy_upstream_failures"]
     else ["proxy_cache_misses"; "proxy_requests_total"])%string.
Proof.
  apply HandleProxyRequest_cases in H as [? ? ? _ _ _ _ Hk|? ? ? _ _ _ _ Hk|? w0 ? ? ? _ _ _ _ _ Hk _ Hs].
  1, 2: by rewrite Hk, fmap_app.
  unfold serve, fetch_and_store in Hs. destruct (Get _ _ _) as [g c]. rewrite <- Hk.
  case_match; [simplify_eq; cbn; by rewrite fmap_app|].
  destruct (fetchFromUpstream _ _) as [[r|e] w1] eqn:E; simplify_eq.
  - destruct (fetch_ok _ _ _ _ E) as (-> & -> & _ & _ & Hk1 & _). cbn in *. rewrite Hk1. by rewrite !fmap_app, <- app_assoc.
  - destruct (fetch_err _ _ _ _ E) as (_ & Hk1 & _). cbn in *. rewrite Hk1. by rewrite !fmap_app, <- app_assoc.
Qed.

(** A body stays open exactly when it could not be read to its end. *)
Theorem unread_body_stays_open (cs : CacheStrategyService) (req req' : ProxyRequest) (w w' : world)
    (resp : ProxyResponse) (todo : pending)
    (H : HandleProxyRequest cs req w = (Some (resp, todo), req', w')) :
  open_bodies w' = (if ps_Error resp is Some (ReadFailed _) then S (open_bodies w) else open_bodies w).
Proof.
  apply HandleProxyRequest_cases in H as [e ? ? _ _ _ Hb _ He|e ? ? _ _ _ Hb _ He|? w0 ? ? ? _ _ _ _ _ _ Hb Hs].
  1, 2: rewrite Hb; cbn; destruct e; try done; by edestruct He.
  unfold serve, fetch_and_store in Hs. destruct (Get _ _ _) as [g c]. rewrite <- Hb.
  case_match; [by simplify_eq|].
  destruct (fetchFromUpstream _ _) as [[r|e] w1] eqn:E; simplify_eq.
  - by destruct (fetch_ok _ _ _ _ E) as (_ & _ & -> & _ & _ & Hb1).
  - destruct (fetch_err _ _ _ _ E) as (_ & _ & Hb1). cbn in *. by rewrite Hb1.
Qed.

Definition with_token (token : string) (req : ProxyRequest) : ProxyRequest :=
  mkProxyRequest (pq_PackageType req) (pq_Repository req) (pq_Path req) (pq_Method req) (pq_Headers req)
    (pq_QueryParams req) (pq_Body req) (pq_UserID req) token.

Lemma authenticate_token t t' req (w : world) :
  t ≠ EmptyString → t' ≠ EmptyString →
  authenticateAndAuthorize (with_token t' req) w
  = (let '(r, req', w') := authenticateAndAuthorize (with_token t req) w in (r, with_token t' req', w')).
Proof.
  intros Ht Ht'. apply String.eqb_neq in Ht, Ht'. unfold authenticateAndAuthorize. cbn. rewrite Ht, Ht'. cbn.
  destruct (Authenticate _ _) as [[[user|]|e] a]; [|done..]. unfold authorize, authorize_request. cbn.
  by destruct (Authorize _ _) as [[?|?] ?].
Qed.

(** What the authorization header holds is never looked at: every token gets the
    answer, the world and the user that any other token gets. *)
Theorem tokens_alike (cs : CacheStrategyService) (t t' : string) (req : ProxyRequest) (w : world)
    (Ht : t ≠ EmptyString) (Ht' : t' ≠ EmptyString) :
  HandleProxyRequest cs (with_token t' req) w
  = (let '(r, req', w') := HandleProxyRequest cs (with_token t req) w in (r, with_token t' req', w')).
Proof.
  unfold HandleProxyRequest. rewrite (authenticate_token t t') by done.
  destruct (authenticateAndAuthorize _ _) as [[[[e|]|] req1] w1]; [done| |done].
  change (checkRateLimit (with_token t' req1) w1) with (checkRateLimit req1 w1).
  destruct (checkRateLimit req1 w1) as [[e|] w2]; [done|].
  change (serve cs (with_token t' req1) w2) with (serve cs req1 w2).
  by destruct (serve cs req1 w2) as [[? ?] ?].
Qed.

(** A request that names its user and has no token is never authenticated. *)
Theorem named_user_trusted (req : ProxyRequest) (w : world)
    (Ht : pq_Authorization req = EmptyString) (Hu : pq_UserID req ≠ EmptyString) :
  authenticateAndAuthorize req w = (let '(r, w') := authorize req w in (Some r, req, w')).
Proof. unfold authenticateAndAuthorize. apply String.eqb_neq in Hu. by rewrite Ht, Hu. Qed.
End answers.

(** A request passes the validation exactly when type, repository and path are
    there, and then it has a method. *)
Theorem ValidateRequest_ok (req : ProxyRequest) :
  (ValidateRequest req).1 = Ok tt
  ↔ pq_PackageType req ≠ EmptyString ∧ pq_Repository req ≠ EmptyString ∧ pq_Path req ≠ EmptyString
    ∧ pq_Method (ValidateRequest req).2 ≠ EmptyString.
Proof.
  unfold ValidateRequest.
  destruct (String.eqb_spec (pq_PackageType req) EmptyString), (String.eqb_spec (pq_Repository req) EmptyString),
    (String.eqb_spec (pq_Path req) EmptyString), (String.eqb_spec (pq_Method req) EmptyString); naive_solver.
Qed.

(** ** A concrete world *)

(** An account service with one user, a limiter that counts down, and a package
    manager that counts the requests; a package whose path is empty cannot be read. *)
#[export] Instance one_user : AuthService string := {
  Authenticate req u := (Ok (Some u), u);
  Authorize req u := (Ok (mkAuthorizeResponse (String.eqb (UserID req) u) "unknown user"), u)
}.

#[export] Instance count_down : RateLimiter nat := {
  Allow key n := match n with O => (Ok false, O) | S n => (Ok true, n) end
}.

#[export] Instance count_requests : PackageManager nat := {
  GetPackage req n :=
    (Ok (mkPackageResponse (if String.eqb (pk_Path req) EmptyString then Err "closed" else Ok (pk_Path req))%string
           "text/plain" ∅), S n)
}.

Definition world0 (n : nat) : World string nat nat MemManager := mkWorld "alice"%string (Some n) O (∅ : MemManager) [] O.

Definition request0 (method query : string) : ProxyRequest :=
  mkProxyRequest "npm" "registry" "/left-pad" method ∅ {[ "q" := query ]} EmptyString "alice" EmptyString.

(** A deletion is answered with the content that another query has fetched. *)
Lemma stored_answer_served_witness :
  let cs := NewCacheStrategyService None in
  ∃ resp cr r req' w' w1 resp2 todo2 req2' w2',
    HandleProxyRequest cs (request0 "GET" "1") (world0 5) = (Some (resp, Some (cr, r)), req', w')
    ∧ cacheUpstreamResponse cs 1 2 cr r w' = Some w1
    ∧ HandleProxyRequest cs (request0 "DELETE" "2") w1 = (Some (resp2, todo2), req2', w2')
    ∧ ps_Content resp2 = "/left-pad"%string
    ∧ (ps_StatusCode resp2 = 401 ∨ ps_StatusCode resp2 = 429
       ∨ (∃ e, (mgr_Get (lookup_request cs (cache_request req2')) (cache w1)).1 = Err e)
       ∨ ps_Content resp = EmptyString
       ∨ (ps_StatusCode resp2 = 200 ∧ ps_Cached resp2 = true ∧ ps_Content resp2 = ps_Content resp
          ∧ todo2 = None ∧ manager w2' = manager w1)).
Proof.
  do 10 eexists. split; [reflexivity|]. split; [reflexivity|]. split; [reflexivity|]. split; [reflexivity|].
  exact (stored_answer_served None 1 2 (request0 "GET" "1") _ (request0 "DELETE" "2") _ _ _ _ _ _ (world0 5) _ _ _ _
           eq_refl eq_refl eq_refl (conj eq_refl (conj eq_refl eq_refl)) eq_refl eq_refl).
Defined.

Lemma gates_before_content_witness :
  ∃ resp todo req' w',
    HandleProxyRequest (NewCacheStrategyService None) (request0 "GET" "1") (world0 0) = (Some (resp, todo), req', w')
    ∧ ((granted (A := string) req' ∧ within_limit req' (world0 0) ∧ (ps_StatusCode resp = 200 ∨ ps_StatusCode resp = 502))
       ∨ ((ps_StatusCode resp = 401 ∨ ps_StatusCode resp = 429)
          ∧ manager w' = O ∧ cache w' = ∅ ∧ todo = None ∧ ps_Cached resp = false)).
Proof.
  do 4 eexists. split; [reflexivity|].
  exact (gates_before_content (NewCacheStrategyService None) (request0 "GET" "1") _ (world0 0) _ _ _ eq_refl).
Defined.

Lemma counters_of_answer_witness :
  ∃ resp todo req' w',
    HandleProxyRequest (NewCacheStrategyService None) (request0 "GET" "1") (world0 5) = (Some (resp, todo), req', w')
    ∧ (counters w').*1 = ["proxy_cache_misses"; "proxy_requests_total"]%string.
Proof.
  do 4 eexists. split; [reflexivity|].
  exact (counters_of_answer (NewCacheStrategyService None) (request0 "GET" "1") _ (world0 5) _ _ _ eq_refl).
Defined.

Lemma unread_body_stays_open_witness :
  ∃ resp todo req' w',
    HandleProxyRequest (NewCacheStrategyService None)
      (mkProxyRequest "npm" "registry" EmptyString "GET" ∅ ∅ EmptyString "alice" EmptyString) (world0 5)
    = (Some (resp, todo), req', w') ∧ open_bodies w' = 1%nat.
Proof.
  do 4 eexists. split; [reflexivity|].
  exact (unread_body_stays_open (NewCacheStrategyService None)
           (mkProxyRequest "npm" "registry" EmptyString "GET" ∅ ∅ EmptyString "alice" EmptyString) _ (world0 5) _ _ _ eq_refl).
Defined.

Lemma tokens_alike_witness :
  ∃ resp todo req' w',
    HandleProxyRequest (NewCacheStrategyService None) (with_token "forged" (request0 "GET" "1")) (world0 5)
    = (Some (resp, todo), with_token "forged" req', w')
    ∧ HandleProxyRequest (NewCacheStrategyService None) (with_token "valid" (request0 "GET" "1")) (world0 5)
      = (Some (resp, todo), req', w') ∧ ps_StatusCode resp = 200.
Proof.
  do 4 eexists.
  split; [refine (eq_trans (tokens_alike (NewCacheStrategyService None) "valid" "forged" (request0 "GET" "1") (world0 5) _ _) _);
          [discriminate|discriminate|reflexivity]|].
  split; reflexivity.
Defined.

Lemma named_user_trusted_witness :
  authenticateAndAuthorize (request0 "GET" "1") (world0 5)
  = (let '(r, w') := authorize (request0 "GET" "1") (world0 5) in (Some r, request0 "GET" "1", w')).
Proof. apply named_user_trusted; [reflexivity|discriminate]. Defined.
